(* ===== verification/_CoqProject ===== *)
-Q . S2P
Prelude.v
State.v
Text.v
StableSort.v
MonitorNetwork.v
Files.v
Json.v
Protocol.v
Registry.v
McpGateway.v
RelayState.v
RegistryRoutes.v
PairingSession.v
DeviceSession.v
DesktopSession.v
McpRequests.v
RelayRouter.v
RelaySystem.v
Intent.v
TunnelStatus.v
Settings.v
DeskState.v
Proxy.v
Desktop.v
Runtime.v
Connection.v
Crypto.v
RelayApi.v
Secrets.v
MonitorDevices.v
Identity.v
MonitorHttp.v
Upgrade.v
MonitorServer.v
RelayClient.v
Network.v
RelayDeploy.v
MonitorService.v
McpLocal.v
McpClient.v
McpEndToEnd.v
HttpsSupervisor.v
HttpsMcp.v
Processes.v
Host.v
Vault.v
Power.v
Control.v
Activity.v
CallHistory.v
MonitorStatus.v
Status.v
Diagnostics.v
Application.v
