(* ===== verification/Prelude.v ===== *)
(** * ChatX: a verification development

    ChatX connects an MCP client (an assistant) to tools that run on a person's desktop,
    and lets a phone watch and nudge that desktop.  Its Rust sources have three crates:

    - [relay-protocol]: the wire formats shared by everybody;
    - [relay-server]: a public server (the Relay) to which desktops and phones connect by
      websocket, and which forwards HTTP requests of MCP clients to the desktop;
    - [src-tauri]: the desktop application, which runs the local tools, keeps one of two
      transports connected (the Secure MCP Tunnel client, or HTTPS MCP through the Relay),
      and answers the phone's end-to-end encrypted requests.

    This library models their logic as executable definitions (pure functions, state
    passing, small monads for files and for the desktop) and proves what makes them
    correct.  Paths below are relative to the repository's [src-tauri/src] unless they name
    a crate.

    ** The files

    Shared layers.  [Prelude]: [Result] and early-return notations, saturating [u64]
    operations, [retain] on maps, locks that can be poisoned, tactics and the hint
    databases.  [State]: a generic state monad whose computations can die (a panic or the
    end of the process), with its inversion lemmas.  [Text]: Rust strings as UTF-8 byte
    strings.  [Files]: a world of files in which any operation can fail, a write can be torn,
    and the process can die between any two operations ([ops_left]); a computation answers
    [None] when it died.  [Json]: the [Value] type and its accessors.  [StableSort]: Rust's
  [sort_by], a stable sort, with what it keeps and orders.

    The Relay.
    - [Protocol] ([relay-protocol/src]): message types, stream frames, allow lists, control
      kinds, registration codes.
    - [Registry] ([relay-server/src/registry.rs]): the registry and how it is saved; the
      class [RegistryStore] with [RegistryStoreLaws] is what the handlers assume of a
      store, and [file_store_refines] shows that the POSIX files implement it.
    - [McpGateway], [McpRequests] ([mcp_gateway.rs]): the table of HTTP requests in flight,
      their reply queues, sessions, credential rotation, uploads and public requests.
    - [RelayState] ([main.rs], [web_utils.rs]): the shared state and the operations on it.
    - [RegistryRoutes], [PairingSession], [DeviceSession], [DesktopSession]: the handlers
      of the files of the same name, each split where it awaits.
    - [RelayRouter] ([main.rs]): the routing table, the extractors in front of the handlers,
      and what one HTTP request does.
    - [RelaySystem]: all of them together.  A state is the relay with its tasks; a step is
      one handler's run between two awaits; every interleaving is a path of steps, and the
      invariants are proved by induction on reachability.

    The desktop.
    - [Intent] ([connection_intent.rs]): the durable "manually stopped" markers.
    - [Settings] ([settings.rs]): reading, migrating and atomically replacing the settings.
    - [Proxy] ([proxy_utils.rs]): proxy addresses and the tunnel's environment.
    - [Host] ([main.rs], [proxy_utils.rs]): what the application asks the operating system:
      the account's home, the device's name, the battery, the system's proxy.
    - [Processes] ([process_utils.rs], [windows_process_job.rs], the commands of
      [https_mcp.rs]): commands with a time limit, processes in a Windows job, the command
      lines and environments of the bridge and the forward.
    - [Vault] ([secrets.rs]): where each platform keeps secrets; the class [KeepsItems] is
      what a store promises, [vault_keeps_items] shows that the key chain and the sealed
      files keep it, [Dpapi] is what is assumed of the scripts that seal.
    - [TunnelStatus] ([tunnel_status.rs]): what the tunnel client's reports and log mean.
    - [DeskState] ([app_state.rs]): the application's state [Desk], its files included, and
      computations over it ([App]).
    - [Desktop] ([tunnel_recovery.rs], [connection_coordinator.rs], [connection_health.rs],
      the stop side of [tunnel_runtime.rs] and [https_mcp.rs], the projection of
      [monitor_status.rs]): stopping and switching transports.
    - [Runtime] (the rest of [tunnel_runtime.rs], the thread of [monitor_control.rs],
      [main.rs]'s MCP command line): starting the tunnel, restoring at start-up, waiting for
      a recovery, and the monitor that reconnects.
    - [Connection] ([connection_commands.rs]): connecting with its undo steps, stopping,
      automatic reconnection, clearing the key.  [Status] is the page its commands end
      with, and the live status; [Diagnostics] ([diagnostics_commands.rs], the probe of
      [main.rs]) the report, opening logs and pages.
    - [Power] ([platform_commands.rs]): the switch that keeps a closed Mac awake, with its
      watchdog, and the permission page.
    - [Application] ([main.rs], [cleanup_legacy_ssh] of [relay.rs]): the start, the window
      and the tray, the events, the exit.
    - [Secrets] ([secrets.rs], [network_commands.rs]): the keys and Relay credentials, over
      a store of items whose operations can fail.
    - [RelayApi], [RelayClient] ([relay.rs]): the Relay's addresses and HTTP calls; the
      session, the reconnect loop and the uploading task.
    - [McpLocal], [McpClient] ([https_mcp_wss.rs]): one request of the Relay answered by the
      local bridge; the websocket session with its tasks, channels and uploads, and the
      reconnect loop.  [McpEndToEnd] composes them with [McpGateway].
    - [HttpsSupervisor] (the thread of [https_mcp.rs]): the turns that keep the bridge and a
      transport running, as what each turn observes and does.
    - [HttpsMcp] (the rest of [https_mcp.rs], [https_mcp_authorizations.rs],
      [status_contract.rs]): accepted settings, command lines and environments, starting,
      restoring, the OAuth administration and the rotation of the password.
    - [MonitorDevices] ([monitor_manager.rs]): the registry of paired phones, pairing
      grants, pairing, revocation and authorisation.
    - [Identity] (the files of [main.rs] and [monitor_server.rs]): the desktop's identifier
      and its TLS certificate.  [MonitorNetwork] ([monitor_network.rs]): the addresses a
      phone is offered.
    - [Network] ([network_commands.rs]): changing the proxy and the Relay with the roll-back,
      registering at a Relay, and the slot of the running Relay client.  [RelayDeploy]
      ([relay_deploy.rs]): deploying a Relay with the bundled script, and its token.
    - [MonitorService] (the rest of [monitor_manager.rs], [monitor_commands.rs]): starting and
      stopping the service, its settings, and showing a pairing code.
    - [MonitorHttp], [Upgrade], [MonitorServer] ([monitor_server.rs]): reading requests; the
      stream a websocket is accepted on; the HTTP and websocket handlers, which are parametric in the four handlers the manager gives them
      ([monitor_auth_checker] and the others instantiate them).
    - [Crypto] ([monitor_crypto.rs]): keys, associated data and envelopes; the class
      [AeadLaws] is what is assumed of AES-GCM.
    - [Control] ([monitor_control.rs]): the phone's requests, made idempotent by a cache.
    - [Activity] ([monitor.rs], [mcp_sources.rs]): the verdict on the tools' activity.
    - [CallHistory] ([call_history.rs]): the page of past calls and clearing it.
    - [MonitorStatus] ([monitor_status.rs]): the recent calls with their cache, and the page
      a phone is sent.

    ** What the theorems show

    - Codecs: frames round trip; codes and envelopes are accepted only when well formed
      and, under the stated laws of the primitives, mean one thing only.
    - Durability: saving the registry, the settings and the stop markers is atomic under
      every failure and crash point; registration and device changes are all or nothing,
      in memory and on disk, in every interleaving; an invite registers once.
    - Isolation: a request over HTTP does nothing without the credential of whom it names,
      and changes no other desktop's record ([requests_need_credentials]); a session acts
      for its own desktop or device; a packet touches the request it names; a retired credential's session does not stay.
    - No leaks and bounds: every table stays within its limit, every pending entry has a
      waiter, no response ends short without an error.
    - Intent: a stop the person asked for survives crashes, mode switches and the phone;
      an encrypted request that is replayed is not executed twice while it lives.
    - The tunnel: connecting is a transaction ([connect_transaction]); start-up fails closed;
      the monitor restarts at most once a round, under the lock, in a state that wants it;
      every wait ends.
    - HTTPS MCP: starting is a transaction and start-up fails closed; every worker that ever
      ran was given accepted settings and fitting secrets ([https_workers_sound]); a rotation
      of the password leaves no worker with the old secrets; the bridge is exposed only while
      it is the supervisor's own, every process is ended once, and the Relay reaches nothing
      but the bridge.  Composed with the gateway, bodies arrive whole in both directions, or
      visibly not ([response_end_to_end], [upload_end_to_end]).
    - Phones: the registry in memory is the one on disk and develops by steps of an abstract
      registry ([registry_durable]); pairing and revocation are all or nothing; authorisation
      is decided by the registry; without it no handler runs, and a revocation ends open
      connections ([revocation_ends_sessions] composes the server with the manager).
    - Settings pages: changing the network settings, switching monitoring and registering
      end with the settings of before or the ones asked for ([network_transaction],
      [monitor_switch_spec]); in every history of the commands what runs is what the saved
      settings want, with credentials for the address it serves ([relay_client_sound],
      [monitor_service_sound]); the code shown is the code accepted
      ([pairing_code_accepted]).
    - The application: a start restores at most one transport, an exit stops everything and
      forgets nothing ([start_restores_one_transport], [exit_keeps_intent] compose both with
      the tunnel and HTTPS); the window is not taken from the user ([window_lifetime]).
    - Secrets: what was saved is what is loaded, on every platform ([secret_survives]); the
      bridge gets its secrets in the environment only; two applications that differ in their
      keys show the same page and the same diagnostics ([page_shows_no_key],
      [diagnostics_show_no_key]).
    - Processes: a command returns within its time and leaves nothing behind
      ([command_returns]); on Windows no process runs outside a job ([spawn_contained]); what
      is run as administrator is the text meant, whatever the names of files
      ([administrator_words]), and only when asked and needed ([power_switch_spec]).
    - The host: the proxy found is one the tunnel runs with ([system_proxy_reaches_tunnel]),
      the battery shown was read at most 45 seconds ago ([battery_fresh]), asking for the
      home ends ([account_home_found]).
    - Deployment: the registration token is not lost ([deploy_token_spec]) and is the one the
      registration shows ([deployed_token_is_used]).
    - A websocket reads all that came with its request ([handshake_sees_request]).
    - Identities are created once, survive every failure and crash, and are not replaced
      ([desktop_identity_stable], [tls_identity_stable]).
    - Histories: the page counts, filters and orders what is in the files
      ([call_history_spec]), the cache shows what the files hold ([recent_history_exact]),
      and a running call is never hidden ([running_calls_never_hidden]).
    - The Relay's client answers every request once; snapshots are numbered without
      repetition on a connection and over the uploading task.
    - Verdicts: the words shown (tunnel state, connection, activity, recent calls) are
      given by exhaustive case tables.
    Lemmas whose names say so ([save_windows_drops_sole_backup], [stale_route_after_race],
    [dropped_revoke_leaks_entry], [stale_check_evicts_current], [replay_after_lock_wait],
    [encode_accepts_sign], [pairing_key_panics], [windows_save_can_lose_registry],
    [loopback_prefix_is_not_a_host], [percent_panics], [percent_sign_accepted],
    [backoff_not_reset], [retry_not_reset], [session_deadlock], [answered_upload_stays],
    [supervisor_panics_early], [validation_ignores_padding], [registration_half_done],
    [failed_switch_stops_service], [torn_tls_key_is_permanent],
    [identity_replaced_on_read_error], [deploy_can_lose_token],
    [token_written_before_permissions], [battery_discharging_shown_charging],
    [lookalike_repository_opened], [unreadable_key_looks_missing]) exhibit runs in which the code does not do what it
    means to.

    ** Modelling decisions

    Third-party code (JSON, SHA-256, HMAC, AES-GCM, HKDF, base64, the random source, the
    windowing library, the tunnel client) is a parameter of a section; a theorem that
    needs a documented property of it takes it as a hypothesis or a class, and its witness
    instantiates it with a concrete function.  Text is a string of bytes; [u64] and [u32]
    are [N] with the saturation of the source written out; times are readings passed in,
    one for each reading the code makes.  A [Mutex] held to the end of an operation is the
    atomicity of the step; where the code releases a lock and takes another, the steps are
    separate.  Loops over messages and packets are folds over the list received.

    What happens elsewhere.  An application computation runs under the operation lock where
    the code holds it; where the code sleeps or waits for a lock, the model lets the other
    threads change the state by an arbitrary function given for that point ([interfere] in
    [Runtime], [elsewhere] in [MonitorServer]).  The file contents other threads write
    between two operations of a computation that holds the lock are not modelled, except
    through the settings transaction, which the source serialises.  Commands given to the
    tunnel client and requests sent to the Relay are recorded in the state ([ran], [sent]),
    so that theorems can speak of what was started or told.

    Fuel.  Only the loops that wait for time or retry take fuel: [recovery_loop] (nine rounds
    of two seconds cover its 15 seconds), [read_head_loop], [read_json_until],
    [recovery_rounds] and [wait_loop] (one round more than the clock needs), and
    [account_home_loop] (seven: the buffer doubles from 16 KiB to 1 MiB); their theorems
    prove that such fuel gives a result, under a clock that runs.  Endless loops (the reconnect monitor, a socket's loop,
    the uploading task) are modelled for as many rounds as are given.

    ** Not modelled

    Tasks and sockets themselves, the extractors of the HTTP library, TLS handshakes, the
    drawing of windows and of the tray, and what the operating system does with a call: the
    answers of its commands, of the key chain, of DPAPI and of the process functions are
    parameters. *)

From stdpp Require Export base gmap strings list fin_maps.
From Stdlib Require Export NArith Lia.

(** ** Control flow of the source

    [let_some x := e else r in k] is Rust's [let Some(x) = e else { return r }],
    [let_ok] the same for a [Result], and [unless c return r; k] an early return
    guarded by [c]. *)

Declare Scope rust_scope.
Delimit Scope rust_scope with rust.

(** Rust's [Result<A, E>]. *)
Inductive Result (A E : Type) : Type :=
| Ok (a : A)
| Err (e : E).
Arguments Ok {A E} a.
Arguments Err {A E} e.

Notation "'let_some' x ':=' e 'else' r 'in' k" :=
  (match e with Some x => k | None => r end)
  (at level 10, x name, e at level 200, r at level 200, k at level 200) : rust_scope.

Notation "'let_ok' x ':=' e 'else' y '=>' r 'in' k" :=
  (match e with Ok x => k | Err y => r end)
  (at level 10, x name, y name, e at level 200, r at level 200, k at level 200) : rust_scope.

Notation "'return_if' c 'with' r 'in' k" :=
  (if c then r else k)
  (at level 10, c at level 200, r at level 200, k at level 200) : rust_scope.

Notation "x '<-?' e ';;' k" :=
  (match e with Ok x => k | Err y => Err y end)
  (at level 100, e at next level, right associativity) : rust_scope.

Open Scope rust_scope.

#[export] Instance Result_eq_dec {A E} `{EqDecision A, EqDecision E} : EqDecision (Result A E).
Proof. solve_decision. Defined.

Definition is_ok {A E} (r : Result A E) : bool :=
  match r with Ok _ => true | Err _ => false end.

Definition map_err {A E F} (f : E -> F) (r : Result A E) : Result A F :=
  match r with Ok a => Ok a | Err e => Err (f e) end.

(** ** Machine integers

    A [u64] is an [N]; the source only ever uses the saturating operations on the
    timestamps modelled here, so no wrap-around occurs. *)

Definition u64_max : N := 18446744073709551615%N.

Definition saturating_add (a b : N) : N := N.min (a + b) u64_max.
Definition saturating_sub (a b : N) : N := (a - b)%N.

Definition in_u64 (a : N) : Prop := (a <= u64_max)%N.

Lemma saturating_add_bound a b : in_u64 (saturating_add a b).
Proof. unfold in_u64, saturating_add; lia. Qed.

Lemma saturating_add_le a b : (saturating_add a b <= a + b)%N.
Proof. unfold saturating_add; lia. Qed.

Lemma saturating_add_exact a b :
  in_u64 (a + b)%N -> saturating_add a b = (a + b)%N.
Proof. unfold in_u64, saturating_add; lia. Qed.

Lemma saturating_add_ge a b : in_u64 a -> (a <= saturating_add a b)%N.
Proof. unfold in_u64, saturating_add; lia. Qed.

(** ** Booleans as propositions *)

Lemma orb_false_split a b : a || b = false <-> a = false /\ b = false.
Proof. apply orb_false_iff. Qed.

Create HintDb relay.
Create Rewrite HintDb relay.
#[export] Hint Rewrite andb_true_iff orb_true_iff orb_false_split negb_true_iff negb_false_iff
  N.ltb_lt N.leb_le N.ltb_ge N.leb_gt N.eqb_eq N.eqb_neq
  Nat.ltb_lt Nat.leb_le Nat.ltb_ge Nat.leb_gt Nat.eqb_eq Nat.eqb_neq
  String.eqb_eq String.eqb_neq bool_decide_eq_true bool_decide_eq_false : relay.

(** [reflect_bools] turns boolean tests in the context into propositions. *)
Ltac reflect_bools := repeat (autorewrite with relay in * ); destruct_and?.

(** [step_match] performs one case analysis on the scrutinee of a [match] of the
    goal or of a hypothesis, remembering the equation; [run_cases] repeats it and
    discards the impossible branches. *)
Ltac step_match :=
  match goal with
  | H : context [match ?x with _ => _ end] |- _ =>
      lazymatch x with context [match _ with _ => _ end] => fail | _ => idtac end;
      destruct x eqn:?
  | |- context [match ?x with _ => _ end] =>
      lazymatch x with context [match _ with _ => _ end] => fail | _ => idtac end;
      destruct x eqn:?
  end.

Ltac run_cases := repeat (step_match; simplify_eq/=; try done).

(** ** Finite maps

    [HashMap::retain] keeps the entries on which the closure answers [true]. *)

Section Retain.
Context {K V : Type} `{Countable K}.

Definition retain (f : K -> V -> bool) (m : gmap K V) : gmap K V :=
  filter (fun kv => f kv.1 kv.2 = true) m.

Lemma lookup_retain f m k v :
  retain f m !! k = Some v <-> m !! k = Some v /\ f k v = true.
Proof. unfold retain. rewrite map_lookup_filter_Some. done. Qed.

Lemma lookup_retain_None f m k :
  retain f m !! k = None <-> forall v, m !! k = Some v -> f k v = false.
Proof.
  unfold retain. rewrite map_lookup_filter_None. split.
  - intros [Hn | Hf] v Hv; [congruence|]. apply not_true_is_false. by apply Hf.
  - intros Hf. destruct (m !! k) as [v|] eqn:Hv; [right|by left].
    intros w [= <-]; cbn. rewrite (Hf v eq_refl). done.
Qed.

Lemma retain_subseteq f m : retain f m ⊆ m.
Proof. apply map_filter_subseteq. Qed.

Lemma size_retain f m : size (retain f m) <= size m.
Proof. apply map_subseteq_size, retain_subseteq. Qed.

Lemma size_insert_le (m : gmap K V) k v : size (<[k:=v]> m) <= S (size m).
Proof. rewrite map_size_insert. destruct (m !! k); cbn; lia. Qed.

Lemma size_delete_le (m : gmap K V) k : size (delete k m) <= size m.
Proof. apply map_subseteq_size, delete_subseteq. Qed.
End Retain.

#[export] Hint Resolve size_retain size_insert_le size_delete_le : relay.

(** ** Locks *)

(** A [std::sync::Mutex]: [lock] fails once a holder has panicked. *)
Record Mutex (A : Type) := { guarded : A; poisoned : bool }.
Arguments guarded {A} m.
Arguments poisoned {A} m.

Definition lock {A} (m : Mutex A) : option A := if poisoned m then None else Some (guarded m).
Definition set_guarded {A} (a : A) (m : Mutex A) : Mutex A :=
  {| guarded := a; poisoned := poisoned m |}.
Definition new_mutex {A} (a : A) : Mutex A := {| guarded := a; poisoned := false |}.

Lemma lock_Some {A} (m : Mutex A) a : lock m = Some a <-> m = {| guarded := a; poisoned := false |}.
Proof. unfold lock. destruct m as [x []]; cbn; naive_solver. Qed.
