(* ===== verification/State.v ===== *)
(** * Computations over a state of their own

    The connections of the monitor and the session with the Relay run over the state of the
    application and a record of what they have sent: a state monad whose result is [None]
    when the thread or the process dies on the way. *)

From S2P Require Export Prelude.

Section State.
Context {S : Type}.

Definition St (A : Type) : Type := S -> option A * S.
Definition st_ret {A} (a : A) : St A := fun s => (Some a, s).
Definition st_bind {A B} (m : St A) (k : A -> St B) : St B := fun s =>
  match m s with (Some a, s') => k a s' | (None, s') => (None, s') end.
Definition st_try {A B E} (m : St (Result A E)) (k : A -> St (Result B E)) : St (Result B E) :=
  st_bind m (fun r => match r with Ok a => k a | Err e => st_ret (Err e) end).
(** What may panic. *)
Definition st_or_die {A} (r : option A) : St A := fun s => (r, s).
Definition st_get {A} (f : S -> A) : St A := fun s => (Some (f s), s).
Definition st_modify (f : S -> S) : St unit := fun s => (Some tt, f s).
(** [let _ = …] *)
Definition st_ignored {A} (m : St A) : St unit := st_bind m (fun _ => st_ret tt).

Lemma st_bind_inv {A B} (m : St A) (k : A -> St B) s res s' :
  st_bind m k s = (res, s') ->
  (m s = (None, s') /\ res = None) \/ exists a s1, m s = (Some a, s1) /\ k a s1 = (res, s').
Proof. unfold st_bind. destruct (m s) as [[a|] s1]; [by right; exists a, s1|]. intros [= <- <-]. by left. Qed.

Lemma st_try_inv {A B E} (m : St (Result A E)) (k : A -> St (Result B E)) s res s' :
  st_try m k s = (res, s') ->
  (m s = (None, s') /\ res = None) \/ (exists e, m s = (Some (Err e), s') /\ res = Some (Err e))
  \/ exists a s1, m s = (Some (Ok a), s1) /\ k a s1 = (res, s').
Proof.
  intros [?|(r & s1 & H & Hk)]%st_bind_inv; [by left|]. destruct r as [a|e]; [right; right; by exists a, s1|].
  injection Hk as <- <-. right; left. by exists e.
Qed.
End State.
Arguments St S A : clear implicits.

Notation "x '<-st' m ';;' k" := (st_bind m (fun x => k))
  (at level 100, m at next level, right associativity) : rust_scope.
Notation "x '<-st?' m ';;' k" := (st_try m (fun x => k))
  (at level 100, m at next level, right associativity) : rust_scope.
