(* ===== verification/Text.v ===== *)
(** * Strings and bytes of the Rust standard library

    A [&str]/[String] is a [string] of UTF-8 bytes ([len] counts bytes), a [u8] is
    a [byte].  The file models the string operations the relay uses: character
    iteration, [trim], [split], [strip_prefix], ASCII classification, [{:02x}]
    formatting and [from_str_radix], with the lemmas the components share. *)

From Stdlib Require Export Ascii String.
From Stdlib Require Export Strings.Byte.
From S2P Require Export Prelude.
Local Open Scope string_scope.

#[global] Arguments String.append : simpl nomatch.

#[export] Instance byte_eq_dec : EqDecision byte := Byte.byte_eq_dec.

(** ** Characters *)

Definition ascii_code (a : ascii) : N := N_of_ascii a.

(** A UTF-8 continuation byte is [10xxxxxx]. *)
Definition is_continuation (a : ascii) : bool :=
  ((128 <=? ascii_code a) && (ascii_code a <? 192))%N.

Definition starts_continuation (s : string) : bool :=
  match s with
  | EmptyString => false
  | String a _ => is_continuation a
  end.

(** [str::chars]: the UTF-8 sequences of a (valid) string, one string each. *)
Fixpoint utf8_chars (s : string) : list string :=
  match s with
  | EmptyString => []
  | String a s' =>
      match utf8_chars s' with
      | c :: cs => if starts_continuation c then String a c :: cs
                   else String a EmptyString :: c :: cs
      | [] => [String a EmptyString]
      end
  end.

Definition concat_chars (cs : list string) : string := String.concat "" cs.

(** [s.chars().take(n).collect::<String>()] *)
Definition chars_take (n : nat) (s : string) : string :=
  concat_chars (firstn n (utf8_chars s)).

Definition byte_str (n : N) : string := String (ascii_of_N n) EmptyString.

(** The characters with the Unicode property [White_Space]. *)
Definition unicode_whitespace : list string :=
  [ byte_str 9; byte_str 10; byte_str 11; byte_str 12; byte_str 13; byte_str 32;
    byte_str 194 ++ byte_str 133; byte_str 194 ++ byte_str 160;
    byte_str 225 ++ byte_str 154 ++ byte_str 128;
    byte_str 226 ++ byte_str 128 ++ byte_str 128; byte_str 226 ++ byte_str 128 ++ byte_str 129;
    byte_str 226 ++ byte_str 128 ++ byte_str 130; byte_str 226 ++ byte_str 128 ++ byte_str 131;
    byte_str 226 ++ byte_str 128 ++ byte_str 132; byte_str 226 ++ byte_str 128 ++ byte_str 133;
    byte_str 226 ++ byte_str 128 ++ byte_str 134; byte_str 226 ++ byte_str 128 ++ byte_str 135;
    byte_str 226 ++ byte_str 128 ++ byte_str 136; byte_str 226 ++ byte_str 128 ++ byte_str 137;
    byte_str 226 ++ byte_str 128 ++ byte_str 138; byte_str 226 ++ byte_str 128 ++ byte_str 168;
    byte_str 226 ++ byte_str 128 ++ byte_str 169; byte_str 226 ++ byte_str 128 ++ byte_str 175;
    byte_str 226 ++ byte_str 129 ++ byte_str 159; byte_str 227 ++ byte_str 128 ++ byte_str 128 ].

Definition is_whitespace (c : string) : bool := existsb (String.eqb c) unicode_whitespace.

Fixpoint drop_whitespace (cs : list string) : list string :=
  match cs with
  | c :: cs' => if is_whitespace c then drop_whitespace cs' else cs
  | [] => []
  end.

(** [str::trim] *)
Definition trim (s : string) : string :=
  concat_chars (rev (drop_whitespace (rev (drop_whitespace (utf8_chars s))))).

Definition is_empty (s : string) : bool := String.eqb s "".

(** ** Prefixes, classification, splitting *)

Definition starts_with (p s : string) : bool := String.prefix p s.

Fixpoint strip_prefix (p s : string) : option string :=
  match p, s with
  | EmptyString, _ => Some s
  | String a p', String b s' => if Ascii.eqb a b then strip_prefix p' s' else None
  | String _ _, EmptyString => None
  end.

Fixpoint string_forall (f : ascii -> bool) (s : string) : bool :=
  match s with
  | EmptyString => true
  | String a s' => f a && string_forall f s'
  end.

(** [s[n..]] for an index the source has already checked to be in range. *)
Fixpoint string_skip (n : nat) (s : string) : string :=
  match n, s with
  | O, _ => s
  | S n', String _ s' => string_skip n' s'
  | S _, EmptyString => EmptyString
  end.

Definition is_ascii_digit (a : ascii) : bool :=
  ((48 <=? ascii_code a) && (ascii_code a <=? 57))%N.
Definition is_ascii_lower (a : ascii) : bool :=
  ((97 <=? ascii_code a) && (ascii_code a <=? 122))%N.
Definition is_ascii_upper (a : ascii) : bool :=
  ((65 <=? ascii_code a) && (ascii_code a <=? 90))%N.
Definition is_ascii_alphanumeric (a : ascii) : bool :=
  is_ascii_digit a || is_ascii_lower a || is_ascii_upper a.
Definition is_ascii_hexdigit (a : ascii) : bool :=
  is_ascii_digit a || ((97 <=? ascii_code a) && (ascii_code a <=? 102))%N
  || ((65 <=? ascii_code a) && (ascii_code a <=? 70))%N.

Definition to_ascii_lower (a : ascii) : ascii :=
  if is_ascii_upper a then ascii_of_N (ascii_code a + 32) else a.

Fixpoint to_ascii_lowercase (s : string) : string :=
  match s with
  | EmptyString => EmptyString
  | String a s' => String (to_ascii_lower a) (to_ascii_lowercase s')
  end.

(** [str::split(c)]: always at least one part. *)
Fixpoint split_on (c : ascii) (s : string) : list string :=
  match s with
  | EmptyString => [EmptyString]
  | String a s' =>
      if Ascii.eqb a c then EmptyString :: split_on c s'
      else match split_on c s' with
           | p :: ps => String a p :: ps
           | [] => [String a EmptyString]
           end
  end.

(** ** Hexadecimal *)

Definition hex_digit (n : N) : ascii :=
  ascii_of_N (if n <? 10 then 48 + n else 87 + n)%N.

(** [format!("{byte:02x}")] *)
Definition hex_of_byte (b : byte) : string :=
  String (hex_digit (Byte.to_N b / 16)) (String (hex_digit (Byte.to_N b mod 16)) EmptyString).

Fixpoint hex_of_bytes (bs : list byte) : string :=
  match bs with
  | [] => EmptyString
  | b :: bs' => hex_of_byte b ++ hex_of_bytes bs'
  end.

Definition digit_value (a : ascii) : option N :=
  let n := ascii_code a in
  if is_ascii_digit a then Some (n - 48)%N
  else if ((97 <=? n) && (n <=? 102))%N then Some (n - 87)%N
  else if ((65 <=? n) && (n <=? 70))%N then Some (n - 55)%N
  else None.

(** The digit loop of [u8::from_str_radix(_, 16)], with its overflow checks. *)
Fixpoint radix16_loop (acc : N) (s : string) : option N :=
  match s with
  | EmptyString => Some acc
  | String a s' =>
      match digit_value a with
      | Some d => if (acc * 16 + d <=? 255)%N then radix16_loop (acc * 16 + d) s' else None
      | None => None
      end
  end.

(** [u8::from_str_radix(s, 16).ok()]: one leading [+] is accepted, a lone sign and
    the empty string are not. *)
Definition u8_from_str_radix16 (s : string) : option byte :=
  let digits := match s with
                | String "+"%char rest => rest
                | _ => s
                end in
  match digits with
  | EmptyString => None
  | _ => match radix16_loop 0 digits with Some n => Byte.of_N n | None => None end
  end.

(** [std::str::from_utf8(pair).is_ok()] for a two-byte slice: two ASCII bytes, or
    one two-byte sequence. *)
Definition utf8_pair_ok (a b : ascii) : bool :=
  ((ascii_code a <? 128) && (ascii_code b <? 128)
   || (194 <=? ascii_code a) && (ascii_code a <? 224) && is_continuation b)%N.

(** One element of [as_bytes().chunks_exact(2)] read as a hexadecimal byte. *)
Definition parse_hex_pair (a b : ascii) : option byte :=
  if utf8_pair_ok a b then u8_from_str_radix16 (String a (String b EmptyString)) else None.

(** The loop over [chunks_exact(2)]: a trailing odd byte is ignored, the first pair
    that does not parse ends it. *)
Fixpoint parse_hex_pairs (s : string) : option (list byte) :=
  match s with
  | String a (String b s') =>
      match parse_hex_pair a b with
      | Some x => match parse_hex_pairs s' with Some xs => Some (x :: xs) | None => None end
      | None => None
      end
  | _ => Some []
  end.

(** ** Lemmas *)

Lemma append_nil_r (s : string) : s ++ "" = s.
Proof. induction s as [|a s IH]; cbn; [done|by rewrite IH]. Qed.

Lemma append_assoc (a b c : string) : a ++ (b ++ c) = (a ++ b) ++ c.
Proof. induction a as [|x a IH]; cbn; [done|by rewrite IH]. Qed.

Lemma length_append (a b : string) : String.length (a ++ b) = String.length a + String.length b.
Proof. induction a as [|x a IH]; cbn; [done|by rewrite IH]. Qed.

Lemma concat_chars_cons c cs : concat_chars (c :: cs) = c ++ concat_chars cs.
Proof. destruct cs; cbn; [by rewrite append_nil_r|done]. Qed.

Lemma concat_utf8_chars s : concat_chars (utf8_chars s) = s.
Proof.
  induction s as [|a s IH]; [done|]. cbn [utf8_chars].
  destruct (utf8_chars s) as [|c cs].
  - by rewrite <- IH.
  - destruct (starts_continuation c); rewrite !concat_chars_cons;
      rewrite concat_chars_cons in IH; cbn; by rewrite IH.
Qed.

Lemma utf8_chars_length s : length (utf8_chars s) <= String.length s.
Proof.
  induction s as [|a s IH]; [done|]. cbn.
  destruct (utf8_chars s) as [|c cs]; cbn in *; [lia|].
  destruct (starts_continuation c); cbn; lia.
Qed.

Lemma concat_chars_app l1 l2 : concat_chars (l1 ++ l2) = concat_chars l1 ++ concat_chars l2.
Proof.
  induction l1 as [|c l IH]; [done|].
  rewrite <- app_comm_cons, !concat_chars_cons, IH. by rewrite append_assoc.
Qed.

(** Truncation keeps a prefix of the text. *)
Lemma chars_take_prefix n s : exists r, s = chars_take n s ++ r.
Proof.
  exists (concat_chars (skipn n (utf8_chars s))). unfold chars_take.
  by rewrite <- concat_chars_app, firstn_skipn, concat_utf8_chars.
Qed.

Lemma chars_take_all n s : String.length s <= n -> chars_take n s = s.
Proof.
  intros Hn. unfold chars_take. rewrite firstn_all2; [apply concat_utf8_chars|].
  pose proof (utf8_chars_length s); lia.
Qed.

Lemma string_forall_app f a b : string_forall f (a ++ b) = string_forall f a && string_forall f b.
Proof. induction a as [|x a IH]; cbn; [done|]. by rewrite IH, andb_assoc. Qed.

Lemma string_forall_impl (f g : ascii -> bool) s :
  (forall a, f a = true -> g a = true) -> string_forall f s = true -> string_forall g s = true.
Proof.
  intros Hfg. induction s as [|a s IH]; cbn; [done|].
  rewrite !andb_true_iff. naive_solver.
Qed.

Lemma strip_prefix_app p s : strip_prefix p (p ++ s) = Some s.
Proof. induction p as [|a p IH]; cbn; [done|]. by rewrite Ascii.eqb_refl. Qed.

Lemma strip_prefix_Some p s r : strip_prefix p s = Some r -> s = p ++ r.
Proof.
  revert s. induction p as [|a p IH]; intros [|b s]; cbn; try congruence.
  destruct (Ascii.eqb a b) eqn:E; [|done]. apply Ascii.eqb_eq in E as ->.
  intros H. by rewrite (IH _ H).
Qed.

Lemma length_to_ascii_lowercase s : String.length (to_ascii_lowercase s) = String.length s.
Proof. induction s; cbn; congruence. Qed.

Lemma hex_of_byte_spec b :
  exists x y, hex_of_byte b = String x (String y EmptyString)
    /\ parse_hex_pair x y = Some b
    /\ is_ascii_hexdigit x = true /\ is_ascii_hexdigit y = true
    /\ to_ascii_lower x = x /\ to_ascii_lower y = y.
Proof.
  exists (hex_digit (Byte.to_N b / 16)), (hex_digit (Byte.to_N b mod 16)).
  split; [done|]. destruct b; vm_compute; repeat split.
Qed.

Lemma length_hex_of_bytes bs : String.length (hex_of_bytes bs) = 2 * length bs.
Proof. induction bs as [|b bs IH]; cbn in *; [done|]. lia. Qed.

Lemma hex_of_bytes_hexdigit bs : string_forall is_ascii_hexdigit (hex_of_bytes bs) = true.
Proof.
  induction bs as [|b bs IH]; [done|]. cbn [hex_of_bytes].
  destruct (hex_of_byte_spec b) as (x & y & -> & _ & Hx & Hy & _). cbn. by rewrite Hx, Hy.
Qed.

(** Formatting a byte string in hexadecimal and reading it back. *)
Lemma parse_hex_of_bytes bs : parse_hex_pairs (hex_of_bytes bs) = Some bs.
Proof.
  induction bs as [|b bs IH]; [done|]. cbn [hex_of_bytes].
  destruct (hex_of_byte_spec b) as (x & y & -> & Hp & _). cbn. by rewrite Hp, IH.
Qed.

Definition hex_digits : list ascii := list_ascii_of_string "0123456789abcdefABCDEF".

Lemma hexdigit_enum a : is_ascii_hexdigit a = true -> In a hex_digits.
Proof.
  destruct a as [b0 b1 b2 b3 b4 b5 b6 b7].
  destruct b0, b1, b2, b3, b4, b5, b6, b7; vm_compute; (discriminate || tauto).
Qed.

Lemma hex_pair_canonical x y :
  is_ascii_hexdigit x = true -> is_ascii_hexdigit y = true ->
  exists b, parse_hex_pair x y = Some b
    /\ hex_of_byte b = String (to_ascii_lower x) (String (to_ascii_lower y) EmptyString).
Proof.
  pose (ok := fun x y => match parse_hex_pair x y with
                         | Some b => String.eqb (hex_of_byte b)
                             (String (to_ascii_lower x) (String (to_ascii_lower y) EmptyString))
                         | None => false
                         end).
  assert (forallb (fun x => forallb (ok x) hex_digits) hex_digits = true) as Hall
    by (vm_compute; reflexivity).
  intros Hx%hexdigit_enum Hy%hexdigit_enum.
  rewrite forallb_forall in Hall. specialize (Hall x Hx).
  rewrite forallb_forall in Hall. specialize (Hall y Hy). unfold ok in Hall.
  destruct (parse_hex_pair x y) as [b|]; [|done].
  exists b. split; [done|]. by apply String.eqb_eq.
Qed.

(** Strings of even length are walked two bytes at a time. *)
Lemma string_pair_ind (P : string -> Prop) :
  P "" -> (forall a, P (String a "")) ->
  (forall a b s, P s -> P (String a (String b s))) -> forall s, P s.
Proof.
  intros H0 H1 H2 s. cut (P s /\ forall a, P (String a s)); [tauto|].
  induction s as [|a s [IH1 IH2]]; split; auto.
Qed.

(** Reading the hexadecimal digits of an even-length string and formatting them
    again gives the string in lower case. *)
Lemma hex_of_parse_hex s :
  string_forall is_ascii_hexdigit s = true -> Nat.even (String.length s) = true ->
  exists bs, parse_hex_pairs s = Some bs /\ hex_of_bytes bs = to_ascii_lowercase s
             /\ String.length s = 2 * length bs.
Proof.
  induction s as [|a|a b s IH] using string_pair_ind; [by exists []|done|].
  cbn. rewrite !andb_true_iff. intros (Ha & Hb & Hs) He.
  destruct (IH Hs He) as (bs & -> & Hbs & Hl).
  destruct (hex_pair_canonical a b Ha Hb) as (x & -> & Hx).
  exists (x :: bs). cbn [hex_of_bytes length]. rewrite Hx, Hbs. split_and!; [done|done|].
  cbn. lia.
Qed.

Lemma length_parse_hex_pairs s bs :
  parse_hex_pairs s = Some bs -> length bs = String.length s / 2.
Proof.
  revert bs. induction s as [|a|a b s IH] using string_pair_ind; cbn [parse_hex_pairs];
    intros bs H; simplify_eq; [done|done|].
  destruct (parse_hex_pair a b); [|done]. destruct (parse_hex_pairs s); [|done]. simplify_eq.
  cbn [String.length length]. rewrite (IH _ eq_refl).
  replace (S (S (String.length s))) with (1 * 2 + String.length s) by lia.
  rewrite Nat.div_add_l; lia.
Qed.

#[export] Hint Resolve hex_of_bytes_hexdigit : relay.

(** [str::contains] and [str::ends_with] with a literal pattern. *)
Fixpoint contains (needle s : string) : bool :=
  starts_with needle s || match s with String _ rest => contains needle rest | EmptyString => false end.

Fixpoint ends_with (suffix s : string) : bool :=
  String.eqb suffix s || match s with String _ rest => ends_with suffix rest | EmptyString => false end.

(** [matches!] on a list of literals. *)
Definition one_of (values : list string) (s : string) : bool := existsb (String.eqb s) values.

Lemma one_of_In values s : one_of values s = true <-> In s values.
Proof.
  unfold one_of. rewrite existsb_exists. split; [by intros (x & Hin & ->%String.eqb_eq)|].
  intros H. exists s. split; [done|apply String.eqb_refl].
Qed.

(** ** A text encoding of positives, for concrete instances *)

Fixpoint binary_text (p : positive) : string :=
  match p with
  | xI p => String "1" (binary_text p)
  | xO p => String "0" (binary_text p)
  | xH => "."
  end.

Fixpoint binary_read (s : string) : option positive :=
  match s with
  | String "1" s' => match binary_read s' with Some p => Some (xI p) | None => None end
  | String "0" s' => match binary_read s' with Some p => Some (xO p) | None => None end
  | String "." _ => Some xH
  | _ => None
  end.

Lemma binary_read_text p tail : binary_read (binary_text p ++ tail) = Some p.
Proof. revert tail. induction p as [p IH|p IH|]; intros tail; cbn; [by rewrite IH|by rewrite IH|done]. Qed.
