(* ===== verification/StableSort.v ===== *)
(** * Stable sorting and the order of strings

    [slice::sort_by] as insertion from the right, with what every use of it relies on: the
    result is sorted, a permutation, and keeps the order of equal items.  [str]'s order is the
    order of the bytes. *)

From Stdlib Require Import Sorted.
From stdpp Require Import sorting.
From S2P Require Export Text.
Local Open Scope string_scope.

Section StableSort.
Context {A : Type} (le : A -> A -> bool).

Fixpoint insert_by (item : A) (items : list A) : list A :=
  match items with
  | [] => [item]
  | other :: rest => if le item other then item :: items else other :: insert_by item rest
  end.

Fixpoint sort_by (items : list A) : list A :=
  match items with
  | [] => []
  | item :: rest => insert_by item (sort_by rest)
  end.

Definition sorted_by : list A -> Prop := StronglySorted (fun a b => le a b = true).

Lemma insert_by_perm x l : Permutation (insert_by x l) (x :: l).
Proof. induction l as [|y l IH]; [done|]. cbn. destruct (le x y); [done|]. rewrite IH. constructor. Qed.

Lemma sort_by_perm l : Permutation (sort_by l) l.
Proof. induction l as [|x l IH]; [done|]. cbn. rewrite insert_by_perm. by constructor. Qed.

Lemma length_sort_by l : length (sort_by l) = length l.
Proof. by rewrite sort_by_perm. Qed.

Lemma insert_by_filter (P : A -> Prop) `{!forall v, Decision (P v)} x l :
  (forall y, P x -> P y -> le x y = true) -> filter P (insert_by x l) = filter P (x :: l).
Proof.
  intros HP. induction l as [|y l IH]; [done|]. cbn [insert_by]. destruct (le x y) eqn:Hxy; [done|].
  rewrite filter_cons, IH, !filter_cons. destruct (decide (P x)) as [Hx|], (decide (P y)) as [Hy|]; try done.
  by rewrite (HP y Hx Hy) in Hxy.
Qed.

(** Items that are equal for the order keep their order. *)
Lemma sort_by_stable (P : A -> Prop) `{!forall v, Decision (P v)} l :
  (forall x y, P x -> P y -> le x y = true) -> filter P (sort_by l) = filter P l.
Proof.
  intros HP. induction l as [|x l IH]; [done|]. cbn [sort_by].
  rewrite insert_by_filter, !filter_cons, IH; [done|]. intros y. apply HP.
Qed.

Context (le_trans : forall a b c, le a b = true -> le b c = true -> le a c = true)
        (le_total : forall a b, le a b = false -> le b a = true).

Lemma insert_by_sorted x l : sorted_by l -> sorted_by (insert_by x l).
Proof using le_trans le_total.
  induction 1 as [|y l Hs IH Hy]; cbn; [repeat constructor|]. destruct (le x y) eqn:Hxy.
  - constructor; [by constructor|]. constructor; [done|].
    eapply Forall_impl; [exact Hy|]. intros z Hz. by eapply le_trans.
  - constructor; [exact IH|]. rewrite insert_by_perm. constructor; [by apply le_total|exact Hy].
Qed.

Lemma sort_by_sorted l : sorted_by (sort_by l).
Proof using le_trans le_total. induction l as [|x l IH]; cbn; [constructor|by apply insert_by_sorted]. Qed.

(** The first [limit] items: sorted, and none that is left out belongs before one of them. *)
Lemma sort_by_firstn limit l :
  let kept := firstn limit (sort_by l) in
  sorted_by kept /\ length kept = Nat.min limit (length l)
  /\ exists dropped, Permutation (kept ++ dropped) l
     /\ forall k d, In k kept -> In d dropped -> le k d = true.
Proof using le_trans le_total.
  intros kept. pose proof (sort_by_sorted l) as Hs. rewrite <- (firstn_skipn limit (sort_by l)) in Hs. split_and!.
  - by apply (StronglySorted_app_1_l (fun a b => le a b = true)) in Hs.
  - unfold kept. by rewrite length_firstn, length_sort_by.
  - exists (skipn limit (sort_by l)). unfold kept. rewrite firstn_skipn. split; [apply sort_by_perm|].
    intros k d Hk Hd. apply (StronglySorted_app_1_elem_of (fun a b => le a b = true) _ _ k d Hs);
      by apply list_elem_of_In.
Qed.
End StableSort.

(** ** Strings *)

Lemma string_compare_refl s : String.compare s s = Eq.
Proof. induction s as [|a s IH]; cbn; [done|]. unfold Ascii.compare. by rewrite N.compare_refl. Qed.

Lemma string_compare_gt_trans a b c :
  String.compare a b <> Gt -> String.compare b c <> Gt -> String.compare a c <> Gt.
Proof.
  revert b c. induction a as [|x a IH]; intros [|y b] [|z c]; cbn; try done.
  unfold Ascii.compare. destruct (N.compare_spec (N_of_ascii x) (N_of_ascii y)) as [E1|E1|E1],
    (N.compare_spec (N_of_ascii y) (N_of_ascii z)) as [E2|E2|E2],
    (N.compare_spec (N_of_ascii x) (N_of_ascii z)) as [E3|E3|E3]; try done; try lia. apply IH.
Qed.

(** [a <= b] for strings. *)
Definition string_le (a b : string) : bool := match String.compare a b with Gt => false | _ => true end.

Lemma string_le_trans a b c : string_le a b = true -> string_le b c = true -> string_le a c = true.
Proof.
  unfold string_le. pose proof (string_compare_gt_trans a b c) as H.
  intros H1 H2. destruct (String.compare a c); [done..|]. exfalso.
  apply H; [by destruct (String.compare a b)|by destruct (String.compare b c)|done].
Qed.

Lemma string_le_total a b : string_le a b = false -> string_le b a = true.
Proof.
  unfold string_le. rewrite (String.compare_antisym b a). destruct (String.compare a b); cbn; congruence.
Qed.

Lemma string_le_refl a : string_le a a = true.
Proof. unfold string_le. by rewrite string_compare_refl. Qed.
