(* ===== verification/MonitorNetwork.v ===== *)
(** * Where a phone can reach the desktop ([src-tauri/src/monitor_network.rs])

    The network interfaces, which the operating system lists, become the addresses offered
    to a phone: private IPv4 and global IPv6 ones, each once, the best first. *)

From S2P Require Export StableSort.
From stdpp Require Import pretty.
Local Open Scope string_scope.

(** [std::net::IpAddr]: four octets, or eight segments of 16 bits. *)
Inductive IpAddr :=
| V4 (a b c d : N)
| V6 (segments : list N).

#[export] Instance IpAddr_eq_dec : EqDecision IpAddr.
Proof. solve_decision. Defined.

(** ** Text of an address *)

(** [format!("{:x}")] of 16 bits: no leading zeros. *)
Definition hex16 (n : N) : string :=
  let digit k := String (hex_digit (N.land (N.shiftr n k) 15)) "" in
  if (n <? 16)%N then digit 0%N
  else if (n <? 256)%N then digit 4%N ++ digit 0%N
  else if (n <? 4096)%N then digit 8%N ++ digit 4%N ++ digit 0%N
  else digit 12%N ++ digit 8%N ++ digit 4%N ++ digit 0%N.

Definition ipv4_text (a b c d : N) : string :=
  pretty a ++ "." ++ pretty b ++ "." ++ pretty c ++ "." ++ pretty d.

(** The first longest run of zero segments, as its start and length.  [i] is the index of
    the head of [segments], [start] and [len] the run that ends before it. *)
Fixpoint zero_run (i start len : nat) (best : nat * nat) (segments : list N) : nat * nat :=
  match segments with
  | [] => best
  | s :: rest =>
      if (s =? 0)%N
      then let start := if (len =? 0)%nat then i else start in
           zero_run (S i) start (S len) (if (best.2 <? S len)%nat then (start, S len) else best) rest
      else zero_run (S i) 0 0 best rest
  end.

Definition segments_text (segments : list N) : string := String.concat ":" (map hex16 segments).

(** [Display for Ipv6Addr] *)
Definition ipv6_text (segments : list N) : string :=
  match segments with
  | [0; 0; 0; 0; 0; 65535; ab; cd]%N =>
      "::ffff:" ++ ipv4_text (N.shiftr ab 8) (N.land ab 255) (N.shiftr cd 8) (N.land cd 255)
  | _ =>
      let '(start, len) := zero_run 0 0 0 (0, 0)%nat segments in
      if (1 <? len)%nat
      then segments_text (firstn start segments) ++ "::" ++ segments_text (skipn (start + len) segments)
      else segments_text segments
  end.

Definition ip_text (ip : IpAddr) : string :=
  match ip with V4 a b c d => ipv4_text a b c d | V6 segments => ipv6_text segments end.

(** ** Which addresses are offered *)

(** [Ipv4Addr::is_private] *)
Definition is_private_v4 (a b : N) : bool :=
  (a =? 10)%N || ((a =? 172)%N && (16 <=? b)%N && (b <=? 31)%N) || ((a =? 192)%N && (b =? 168)%N).

Definition is_unspecified_v6 (segments : list N) : bool := bool_decide (segments = [0; 0; 0; 0; 0; 0; 0; 0]%N).
Definition is_loopback_v6 (segments : list N) : bool := bool_decide (segments = [0; 0; 0; 0; 0; 0; 0; 1]%N).

Definition is_global_v6 (segments : list N) : bool :=
  let first := List.hd 0%N segments in
  negb (is_unspecified_v6 segments) && negb (is_loopback_v6 segments)
  && negb (N.land first 65280 =? 65280)%N
  && negb (N.land first 65024 =? 64512)%N
  && negb (N.land first 65472 =? 65152)%N.

Definition classify_ip (ip : IpAddr) : option string :=
  match ip with
  | V4 a b _ _ => if is_private_v4 a b then Some "lan" else None
  | V6 segments => if is_global_v6 segments then Some "ipv6" else None
  end.

Definition is_virtual_interface_name (name : string) : bool :=
  let normalized := to_ascii_lowercase name in
  existsb (fun marker => contains marker normalized)
    ["vethernet"; "wsl"; "docker"; "virtualbox host-only"; "vmware network adapter"; "hyper-v"].

Definition endpoint_rank (kind : string) : N :=
  if String.eqb kind "lan" then 0%N else if String.eqb kind "ipv6" then 1%N else 2%N.

(** What the library that lists the interfaces says of one. *)
Record Interface := {
  interface_name : string;
  interface_ip : IpAddr;
  interface_loopback : bool;
  interface_link_local : bool }.

Record MonitorEndpoint := {
  endpoint_kind : string;
  endpoint_family : string;
  endpoint_interface : string;
  endpoint_host : string;
  endpoint_url : string }.

(** ** Discovery *)

Definition skipped (i : Interface) : bool :=
  interface_loopback i || interface_link_local i || is_virtual_interface_name (interface_name i).

Definition endpoint_of (i : Interface) (kind : string) (port : N) : MonitorEndpoint :=
  let host := ip_text (interface_ip i) in
  let '(family, url) := match interface_ip i with
                        | V4 _ _ _ _ => ("ipv4", "wss://" ++ host ++ ":" ++ pretty port ++ "/v1/ws/monitor")
                        | V6 _ => ("ipv6", "wss://[" ++ host ++ "]:" ++ pretty port ++ "/v1/ws/monitor")
                        end in
  {| endpoint_kind := kind; endpoint_family := family; endpoint_interface := interface_name i;
     endpoint_host := host; endpoint_url := url |}.

Fixpoint collect_endpoints (interfaces : list Interface) (port : N) (seen : list (string * string))
    : list MonitorEndpoint :=
  match interfaces with
  | [] => []
  | i :: rest =>
      if skipped i then collect_endpoints rest port seen
      else match classify_ip (interface_ip i) with
           | None => collect_endpoints rest port seen
           | Some kind =>
               let key := (kind, ip_text (interface_ip i)) in
               if bool_decide (key ∈ seen) then collect_endpoints rest port seen
               else endpoint_of i kind port :: collect_endpoints rest port (key :: seen)
           end
  end.

(** [endpoint_rank(a.kind).cmp(…).then_with(|| a.host.cmp(&b.host))] *)
Definition endpoint_le (a b : MonitorEndpoint) : bool :=
  match N.compare (endpoint_rank (endpoint_kind a)) (endpoint_rank (endpoint_kind b)) with
  | Lt => true
  | Eq => string_le (endpoint_host a) (endpoint_host b)
  | Gt => false
  end.

(** [interfaces] is [None] when the system does not list them. *)
Definition discover_monitor_endpoints (interfaces : option (list Interface)) (port : N) : list MonitorEndpoint :=
  match interfaces with
  | None => []
  | Some interfaces => sort_by endpoint_le (collect_endpoints interfaces port [])
  end.

(** ** Properties *)

Lemma endpoint_le_trans a b c : endpoint_le a b = true -> endpoint_le b c = true -> endpoint_le a c = true.
Proof.
  unfold endpoint_le.
  destruct (N.compare_spec (endpoint_rank (endpoint_kind a)) (endpoint_rank (endpoint_kind b))),
    (N.compare_spec (endpoint_rank (endpoint_kind b)) (endpoint_rank (endpoint_kind c))),
    (N.compare_spec (endpoint_rank (endpoint_kind a)) (endpoint_rank (endpoint_kind c))); try done; try lia.
  apply string_le_trans.
Qed.

Lemma endpoint_le_total a b : endpoint_le a b = false -> endpoint_le b a = true.
Proof.
  unfold endpoint_le. rewrite (N.compare_antisym (endpoint_rank (endpoint_kind a))).
  destruct (N.compare _ _); cbn; [apply string_le_total|done..].
Qed.

(** The address and class an endpoint is known by. *)
Definition endpoint_key (e : MonitorEndpoint) : string * string := (endpoint_kind e, endpoint_host e).

(** An interface a phone may be told of. *)
Definition offered (i : Interface) (kind : string) : Prop :=
  skipped i = false /\ classify_ip (interface_ip i) = Some kind.

Lemma endpoint_of_key i kind port : endpoint_key (endpoint_of i kind port) = (kind, ip_text (interface_ip i)).
Proof. unfold endpoint_key, endpoint_of. by destruct (interface_ip i). Qed.

Lemma collect_sound interfaces port seen e : In e (collect_endpoints interfaces port seen) ->
  (endpoint_key e ∉ seen) /\ exists i kind, In i interfaces /\ offered i kind /\ e = endpoint_of i kind port.
Proof.
  revert seen. induction interfaces as [|i rest IH]; intros seen; [done|]. cbn.
  assert (forall seen', (forall k, k ∈ seen -> k ∈ seen') -> In e (collect_endpoints rest port seen') ->
            (endpoint_key e ∉ seen) /\ exists i0 kind, (i = i0 \/ In i0 rest) /\ offered i0 kind /\ e = endpoint_of i0 kind port)
    as Hrest.
  { intros seen' Hsub (Hn & i0 & kind & Hin & Ho)%IH. split; [by intros ?%Hsub|]. exists i0, kind. tauto. }
  destruct (skipped i) eqn:Hs; [by apply Hrest|]. destruct (classify_ip _) as [kind|] eqn:Hc; [|by apply Hrest].
  destruct (bool_decide _) eqn:Hseen; [by apply Hrest|]. apply bool_decide_eq_false in Hseen.
  intros [<-|Hin]; [|by eapply Hrest; [|exact Hin]; set_solver].
  rewrite endpoint_of_key. split; [done|]. exists i, kind. split_and!; [by left|done|done].
Qed.

Lemma collect_complete interfaces port seen i kind : In i interfaces -> offered i kind ->
  (kind, ip_text (interface_ip i)) ∉ seen ->
  exists e, In e (collect_endpoints interfaces port seen) /\ endpoint_key e = (kind, ip_text (interface_ip i)).
Proof.
  revert seen. induction interfaces as [|j rest IH]; intros seen Hin Ho Hn; [done|]. cbn.
  destruct Hin as [->|Hin].
  - destruct Ho as [-> ->]. rewrite bool_decide_eq_false_2 by done.
    eexists. split; [by left|apply endpoint_of_key].
  - destruct (skipped j); [by apply IH|]. destruct (classify_ip (interface_ip j)) as [kind'|]; [|by apply IH].
    destruct (bool_decide _) eqn:Hb; [by apply IH|].
    destruct (decide ((kind, ip_text (interface_ip i)) = (kind', ip_text (interface_ip j)))) as [E|Hne].
    + rewrite E. eexists. split; [by left|apply endpoint_of_key].
    + destruct (IH ((kind', ip_text (interface_ip j)) :: seen) Hin Ho) as (e & He & Hk); [set_solver|].
      exists e. split; [by right|done].
Qed.

Lemma collect_nodup interfaces port seen : NoDup (map endpoint_key (collect_endpoints interfaces port seen)).
Proof.
  revert seen. induction interfaces as [|i rest IH]; intros seen; [constructor|]. cbn.
  destruct (skipped i); [done|]. destruct (classify_ip _) as [kind|]; [|done]. destruct (bool_decide _); [done|].
  cbn. constructor; [|done]. rewrite list_elem_of_In, in_map_iff. intros (e & He & Hin).
  apply collect_sound in Hin as [Hn _]. rewrite endpoint_of_key in He. rewrite He in Hn. set_solver.
Qed.

(** What a phone is told of the desktop's addresses: exactly the addresses (by class and
    text) of the interfaces that are neither loopback, link-local nor virtual and that have a
    private IPv4 or global IPv6 address, each once, those of the local network first; every
    one with the URL of that address on the given port. *)
Theorem discovery_spec interfaces port :
  let result := discover_monitor_endpoints (Some interfaces) port in
  (forall e, In e result -> exists i kind, In i interfaces /\ offered i kind /\ e = endpoint_of i kind port)
  /\ (forall i kind, In i interfaces -> offered i kind ->
        exists e, In e result /\ endpoint_key e = (kind, ip_text (interface_ip i)))
  /\ NoDup (map endpoint_key result) /\ sorted_by endpoint_le result.
Proof.
  cbn. pose proof (sort_by_perm endpoint_le (collect_endpoints interfaces port [])) as Hp. split_and!.
  - intros e He. eapply Permutation_in in He; [|exact Hp]. by apply collect_sound in He as [_ H].
  - intros i kind Hi Ho. destruct (collect_complete interfaces port [] i kind Hi Ho) as (e & He & Hk); [set_solver|].
    exists e. split; [|done]. by eapply Permutation_in; [symmetry; exact Hp|].
  - rewrite Hp. apply collect_nodup.
  - apply sort_by_sorted; [exact endpoint_le_trans|exact endpoint_le_total].
Qed.

(** The classes as the tests of the source have them, and the text of addresses. *)
Lemma classify_samples :
  classify_ip (V4 192 168 1 10) = Some "lan" /\ classify_ip (V4 172 32 0 1) = None
  /\ classify_ip (V6 [9222; 55836; 43981; 0; 0; 0; 0; 1]%N) = Some "ipv6"
  /\ classify_ip (V6 [64768; 0; 0; 0; 0; 0; 0; 1]%N) = None /\ classify_ip (V6 [65152; 0; 0; 0; 0; 0; 0; 1]%N) = None
  /\ is_virtual_interface_name "vEthernet (WSL)" = true /\ is_virtual_interface_name "Wi-Fi" = false
  /\ ip_text (V6 [9222; 55836; 43981; 0; 0; 0; 0; 1]%N) = "2406:da1c:abcd::1"
  /\ ip_text (V6 [8193; 3512; 0; 0; 1; 0; 0; 1]%N) = "2001:db8::1:0:0:1"
  /\ ip_text (V6 [0; 0; 0; 0; 0; 65535; 49320; 266]%N) = "::ffff:192.168.1.10".
Proof. vm_compute. by split_and!. Qed.
