(* ===== verification/Files.v ===== *)
(** * Files

    The part of [std::fs] and [std::path] the programs use: a store of named text files in
    which every operation may fail, a write may leave anything behind when it fails, and
    the process may die before any operation.  Shared by the relay's registry, the
    desktop's settings and its stop markers. *)

From S2P Require Export Text.
Local Open Scope string_scope.

(** ** Files *)

(** A path with a file name: its parent directory, if any, and the name. *)
Record Path := { parent : option string; file_name : string }.

#[export] Instance Path_eq_dec : EqDecision Path.
Proof. solve_decision. Defined.
#[export] Instance Path_countable : Countable Path.
Proof.
  refine (inj_countable' (fun p => (parent p, file_name p))
            (fun q => {| parent := q.1; file_name := q.2 |}) _).
  by intros [].
Defined.

(** Position-independent [rsplit_once('.')]: what precedes the last dot, if any. *)
Fixpoint before_last_dot (s : string) : option string :=
  match s with
  | EmptyString => None
  | String a s' =>
      match before_last_dot s' with
      | Some p => Some (String a p)
      | None => if Ascii.eqb a "." then Some "" else None
      end
  end.

(** [Path::file_stem]: a name whose only dot is its first byte has no extension. *)
Definition file_stem (name : string) : string :=
  if String.eqb name ".." then name
  else match before_last_dot name with
       | Some "" => name
       | Some stem => stem
       | None => name
       end.

Definition with_extension (p : Path) (ext : string) : Path :=
  {| parent := parent p; file_name := file_stem (file_name p) ++ "." ++ ext |}.

Definition path_display (p : Path) : string :=
  match parent p with
  | Some "" | None => file_name p
  | Some d => d ++ "/" ++ file_name p
  end.

Inductive IoError :=
| NotFound
| OtherIo (message : string).

Definition io_display (e : IoError) : string :=
  match e with NotFound => "not found" | OtherIo m => m end.

Inductive FsOp :=
| CreateDirAll (dir : string)
| WriteFile (p : Path)
| ReadFile (p : Path)
| RenameFile (source target : Path)
| RemoveFile (p : Path)
| ExistsFile (p : Path)
| OpenTruncate (p : Path)
| OpenNew (p : Path)
| WriteAll (p : Path)
| SyncAll (p : Path)
| StatFile (p : Path)
| OpenAppend (p : Path)
| CopyFile (source target : Path)
| Chmod (p : Path).

(** The files, how many operations the process survives ([None]: all of them), which
    operations fail, and what a failed or interrupted write leaves in its target
    ([None]: nothing changed). *)
Record World := {
  files : gmap Path string;
  ops_left : option nat;
  io_fault : FsOp -> option IoError;
  torn_write : Path -> option string }.

Definition set_files (fs : gmap Path string) (w : World) : World :=
  {| files := fs; ops_left := ops_left w; io_fault := io_fault w; torn_write := torn_write w |}.

Definition spend_op (w : World) : World :=
  {| files := files w; ops_left := Nat.pred <$> ops_left w;
     io_fault := io_fault w; torn_write := torn_write w |}.

(** A computation over the file system; [None] when the process died on the way. *)
Definition Fs (A : Type) : Type := World -> option A * World.

Definition fs_ret {A} (a : A) : Fs A := fun w => (Some a, w).
Definition fs_bind {A B} (m : Fs A) (k : A -> Fs B) : Fs B :=
  fun w => match m w with
           | (Some a, w') => k a w'
           | (None, w') => (None, w')
           end.

Notation "x '<-fs' m ';;' k" := (fs_bind m (fun x => k))
  (at level 100, m at next level, right associativity) : rust_scope.

Definition fs_op {A} (op : FsOp) (spoil : World -> gmap Path string)
    (run : gmap Path string -> Result A IoError * gmap Path string) : Fs (Result A IoError) :=
  fun w =>
    match ops_left w with
    | Some O => (None, set_files (spoil w) w)
    | _ =>
        match io_fault w op with
        | Some e => (Some (Err e), set_files (spoil w) (spend_op w))
        | None => let '(r, fs) := run (files w) in (Some r, set_files fs (spend_op w))
        end
    end.

Definition create_dir_all (dir : string) : Fs (Result unit IoError) :=
  fs_op (CreateDirAll dir) files (fun fs => (Ok tt, fs)).

Definition write_file (p : Path) (text : string) : Fs (Result unit IoError) :=
  fs_op (WriteFile p)
    (fun w => match torn_write w p with Some t => <[p := t]> (files w) | None => files w end)
    (fun fs => (Ok tt, <[p := text]> fs)).

Definition read_to_string (p : Path) : Fs (Result string IoError) :=
  fs_op (ReadFile p) files
    (fun fs => (match fs !! p with Some t => Ok t | None => Err NotFound end, fs)).

Definition rename (source target : Path) : Fs (Result unit IoError) :=
  fs_op (RenameFile source target) files
    (fun fs => match fs !! source with
               | Some t => (Ok tt, <[target := t]> (delete source fs))
               | None => (Err NotFound, fs)
               end).

Definition remove_file (p : Path) : Fs (Result unit IoError) :=
  fs_op (RemoveFile p) files
    (fun fs => match fs !! p with
               | Some _ => (Ok tt, delete p fs)
               | None => (Err NotFound, fs)
               end).

(** [Path::exists]: [false] also when the metadata cannot be read. *)
Definition path_exists (p : Path) : Fs bool :=
  r <-fs fs_op (ExistsFile p) files
           (fun fs => (Ok (match fs !! p with Some _ => true | None => false end), fs)) ;;
  fs_ret (match r with Ok b => b | Err _ => false end).

(** [?] on the result of a file operation. *)
Definition fs_try {A B E} (m : Fs (Result A E)) (k : A -> Fs (Result B E)) : Fs (Result B E) :=
  fs_bind m (fun r => match r with Ok a => k a | Err e => fs_ret (Err e) end).

Notation "x '<-fs?' m ';;' k" := (fs_try m (fun x => k))
  (at level 100, m at next level, right associativity) : rust_scope.

(** [map_err] on the result of a file operation. *)
Definition fs_map_err {A E F} (f : E -> F) (m : Fs (Result A E)) : Fs (Result A F) :=
  fs_bind m (fun r => fs_ret (map_err f r)).

(** [OpenOptions::new().create(true).write(true).truncate(true).open(p)] *)
Definition open_truncate (p : Path) : Fs (Result unit IoError) :=
  fs_op (OpenTruncate p) files (fun fs => (Ok tt, <[p := ""]> fs)).

(** [OpenOptions::new().write(true).create_new(true).open(p)] *)
Definition open_new (p : Path) : Fs (Result unit IoError) :=
  fs_op (OpenNew p) files
    (fun fs => match fs !! p with
               | Some _ => (Err (OtherIo "file exists"), fs)
               | None => (Ok tt, <[p := ""]> fs)
               end).

(** [write_all] on the file just opened at [p]. *)
Definition write_all (p : Path) (text : string) : Fs (Result unit IoError) :=
  fs_op (WriteAll p)
    (fun w => match torn_write w p with Some t => <[p := t]> (files w) | None => files w end)
    (fun fs => (Ok tt, <[p := text]> fs)).

Definition sync_all (p : Path) : Fs (Result unit IoError) :=
  fs_op (SyncAll p) files (fun fs => (Ok tt, fs)).

(** [fs::metadata] *)
Definition stat_file (p : Path) : Fs (Result unit IoError) :=
  fs_op (StatFile p) files
    (fun fs => (match fs !! p with Some _ => Ok tt | None => Err NotFound end, fs)).

(** [OpenOptions::new().create(true).append(true).open(p)] *)
Definition open_append (p : Path) : Fs (Result unit IoError) :=
  fs_op (OpenAppend p) files
    (fun fs => (Ok tt, match fs !! p with Some _ => fs | None => <[p := ""]> fs end)).

(** [write!] on the file opened for appending at [p]. *)
Definition append_all (p : Path) (text : string) : Fs (Result unit IoError) :=
  fs_op (WriteAll p)
    (fun w => match torn_write w p with Some t => <[p := default "" (files w !! p) ++ t]> (files w) | None => files w end)
    (fun fs => (Ok tt, <[p := default "" (fs !! p) ++ text]> fs)).

(** [fs::copy]: an interrupted copy leaves in its target what a torn write leaves. *)
Definition copy_file (source target : Path) : Fs (Result unit IoError) :=
  fs_op (CopyFile source target)
    (fun w => match torn_write w target with Some t => <[target := t]> (files w) | None => files w end)
    (fun fs => match fs !! source with
               | Some t => (Ok tt, <[target := t]> fs)
               | None => (Err NotFound, fs)
               end).

(** [fs::set_permissions] *)
Definition set_permissions (p : Path) : Fs (Result unit IoError) :=
  fs_op (Chmod p) files (fun fs => (match fs !! p with Some _ => Ok tt | None => Err NotFound end, fs)).

(** The world with the given files in which nothing fails. *)
Definition healthy (fs : gmap Path string) : World :=
  {| files := fs; ops_left := None; io_fault := fun _ => None; torn_write := fun _ => None |}.

(** ** Files: inversion lemmas *)

Lemma fs_bind_inv {A B} (m : Fs A) (k : A -> Fs B) w res w' :
  fs_bind m k w = (res, w') ->
  (m w = (None, w') /\ res = None) \/ (exists a w1, m w = (Some a, w1) /\ k a w1 = (res, w')).
Proof. unfold fs_bind. destruct (m w) as [[a|] w1]; naive_solver. Qed.

Lemma fs_op_inv {A} op spoil (run : _ -> Result A IoError * _) w res w' :
  fs_op op spoil run w = (res, w') ->
  io_fault w' = io_fault w /\ torn_write w' = torn_write w /\
  ((files w' = spoil w /\ (res = None \/ exists e, res = Some (Err e)))
   \/ (exists r, res = Some r /\ run (files w) = (r, files w'))).
Proof.
  unfold fs_op. destruct (ops_left w) as [[|n]|]; [naive_solver|..];
    (destruct (io_fault w op); [naive_solver|]);
    destruct (run (files w)) as [r fs] eqn:Hr; intros [= <- <-]; cbn;
    split_and!; try done; right; eauto.
Qed.

Lemma create_dir_all_inv d w res w' :
  create_dir_all d w = (res, w') -> files w' = files w /\ io_fault w' = io_fault w.
Proof. intros (-> & _ & H)%fs_op_inv. naive_solver. Qed.

Lemma write_file_inv p t w res w' :
  write_file p t w = (res, w') ->
  io_fault w' = io_fault w
  /\ (forall q, q <> p -> files w' !! q = files w !! q)
  /\ (res = Some (Ok tt) -> files w' !! p = Some t).
Proof.
  intros (-> & _ & H)%fs_op_inv.
  destruct H as [[Hf Hres]|(r & -> & [= <- Hf])]; (split; [done|]); rewrite Hf || rewrite <- Hf.
  - split; [|naive_solver]. intros q Hq. destruct (torn_write w p); [|done]. by rewrite lookup_insert_ne.
  - split; [|by rewrite lookup_insert_eq]. intros q Hq. by rewrite lookup_insert_ne.
Qed.

Lemma rename_inv a b w res w' :
  rename a b w = (res, w') ->
  io_fault w' = io_fault w /\
  ((res = Some (Ok tt) /\ exists t, files w !! a = Some t /\ files w' = <[b := t]> (delete a (files w)))
   \/ (res <> Some (Ok tt) /\ files w' = files w)).
Proof.
  intros (-> & _ & H)%fs_op_inv. split; [done|].
  destruct H as [[Hf Hres]|(r & -> & H)]; [naive_solver|].
  destruct (files w !! a) as [t|]; injection H as <- <-; naive_solver.
Qed.

Lemma remove_file_inv p w res w' :
  remove_file p w = (res, w') ->
  io_fault w' = io_fault w /\ (files w' = files w \/ files w' = delete p (files w)).
Proof.
  intros (-> & _ & H)%fs_op_inv. split; [done|].
  destruct H as [[Hf Hres]|(r & -> & H)]; [naive_solver|].
  destruct (files w !! p); injection H as _ <-; naive_solver.
Qed.

Lemma path_exists_inv p w res w' :
  path_exists p w = (res, w') ->
  files w' = files w /\ io_fault w' = io_fault w /\
  (io_fault w (ExistsFile p) = None ->
   res = None \/ res = Some (match files w !! p with Some _ => true | None => false end)).
Proof.
  intros [[H ->]|(r & w1 & H & Hk)]%fs_bind_inv.
  - apply fs_op_inv in H as (-> & _ & H). naive_solver.
  - cbv [fs_ret] in Hk. injection Hk as <- <-.
    unfold fs_op in H. destruct (ops_left w) as [[|]|]; simplify_eq;
      destruct (io_fault w (ExistsFile p)); simplify_eq/=; naive_solver.
Qed.

(** ** Paths *)

Lemma before_last_dot_Some s p :
  before_last_dot s = Some p ->
  exists q, s = p ++ "." ++ q /\ string_forall (fun a => negb (Ascii.eqb a ".")) q = true.
Proof.
  assert (forall s, before_last_dot s = None ->
            string_forall (fun a => negb (Ascii.eqb a ".")) s = true) as Hnone.
  { clear. induction s as [|a s IH]; cbn; [done|].
    destruct (before_last_dot s); [done|]. destruct (Ascii.eqb a "."); [done|]. cbn. auto. }
  revert p. induction s as [|a s IH]; intros p; cbn; [done|].
  destruct (before_last_dot s) as [p'|] eqn:E.
  - intros [= <-]. destruct (IH p' eq_refl) as (q & -> & Hq). by exists q.
  - destruct (Ascii.eqb a ".") eqn:Ha; [|done]. apply Ascii.eqb_eq in Ha as ->.
    intros [= <-]. exists s. split; [done|]. by apply Hnone.
Qed.

Lemma append_inj_l (a b c : string) : a ++ b = a ++ c -> b = c.
Proof. induction a as [|x a IH]; cbn; [done|]. intros [= H]. auto. Qed.

Lemma with_extension_ne p ext :
  string_forall (fun a => negb (Ascii.eqb a ".")) ext = false -> with_extension p ext <> p.
Proof.
  destruct p as [d n]. unfold with_extension. cbn. intros Hext [= H].
  assert (forall s, s ++ "." ++ ext <> s) as Hlen.
  { intros s Hs. apply (f_equal String.length) in Hs. rewrite length_append in Hs. cbn in Hs. lia. }
  unfold file_stem in H. destruct (String.eqb n ".."); [by apply Hlen in H|].
  destruct (before_last_dot n) as [[|a s]|] eqn:E; [by apply Hlen in H| |by apply Hlen in H].
  apply before_last_dot_Some in E as (q & E & Hq). rewrite <- H in E.
  apply append_inj_l in E. injection E as E. congruence.
Qed.

Lemma fs_try_inv {A B E} (m : Fs (Result A E)) (k : A -> Fs (Result B E)) w res w' :
  fs_try m k w = (res, w') ->
  (m w = (None, w') /\ res = None)
  \/ (exists e, m w = (Some (Err e), w') /\ res = Some (Err e))
  \/ (exists a w1, m w = (Some (Ok a), w1) /\ k a w1 = (res, w')).
Proof.
  intros [[H ->]|([a|e] & w1 & H & Hk)]%fs_bind_inv; [by left|by right; right; eauto|].
  injection Hk as <- <-. right; left. eauto.
Qed.

Lemma fs_map_err_inv {A E F} (f : E -> F) (m : Fs (Result A E)) w res w' :
  fs_map_err f m w = (res, w') ->
  exists res0, m w = (res0, w') /\ res = match res0 with Some r => Some (map_err f r) | None => None end.
Proof.
  intros [[H ->]|(r & w1 & H & Hk)]%fs_bind_inv; [by exists None|].
  injection Hk as <- <-. by exists (Some r).
Qed.

(** What an operation on the file at [p] may do: the other files stay. *)
Definition only_at (p : Path) (w w' : World) : Prop :=
  io_fault w' = io_fault w /\ torn_write w' = torn_write w
  /\ forall q, q <> p -> files w' !! q = files w !! q.

Lemma only_at_refl p w : only_at p w w.
Proof. done. Qed.

Lemma only_at_trans p w1 w2 w3 : only_at p w1 w2 -> only_at p w2 w3 -> only_at p w1 w3.
Proof.
  intros (Hi & Ht & Hf) (Hi' & Ht' & Hf'). unfold only_at. split_and!; [congruence..|].
  intros q Hq. by rewrite Hf', Hf.
Qed.

Lemma create_dir_all_files d w res w' :
  create_dir_all d w = (res, w') -> files w' = files w /\ io_fault w' = io_fault w /\ torn_write w' = torn_write w.
Proof. intros (-> & -> & H)%fs_op_inv. naive_solver. Qed.

Lemma open_truncate_inv p w res w' :
  open_truncate p w = (res, w') ->
  only_at p w w' /\ (files w' = files w \/ files w' = <[p := ""]> (files w))
  /\ (res = Some (Ok tt) -> files w' = <[p := ""]> (files w)).
Proof.
  intros (Hi & Ht & H)%fs_op_inv. unfold only_at.
  destruct H as [[Hf Hres]|(r & -> & [= <- <-])].
  - rewrite Hf. split_and!; try done; [by left|naive_solver].
  - split_and!; try done; [intros q Hq; by rewrite lookup_insert_ne|by right].
Qed.

Lemma write_all_inv p t w res w' :
  write_all p t w = (res, w') ->
  only_at p w w' /\ (is_Some (files w !! p) -> is_Some (files w' !! p))
  /\ (res = Some (Ok tt) -> files w' !! p = Some t).
Proof.
  intros (Hi & Ht & H)%fs_op_inv. unfold only_at.
  destruct H as [[Hf Hres]|(r & -> & [= <- Hf])]; rewrite Hf || rewrite <- Hf.
  - split_and!; try done; [..|naive_solver].
    + intros q Hq. destruct (torn_write w p); [|done]. by rewrite lookup_insert_ne.
    + destruct (torn_write w p); [|done]. by rewrite lookup_insert_eq.
  - split_and!; try done.
    + intros q Hq. by rewrite lookup_insert_ne.
    + by rewrite lookup_insert_eq.
    + by rewrite lookup_insert_eq.
Qed.

Lemma sync_all_inv p w res w' : sync_all p w = (res, w') -> files w' = files w /\ only_at p w w'.
Proof.
  intros (Hi & Ht & H)%fs_op_inv. assert (files w' = files w) as Hf by naive_solver.
  split; [done|]. split_and!; try done. by rewrite Hf.
Qed.

Lemma open_new_inv p w res w' :
  open_new p w = (res, w') -> only_at p w w' /\ (files w !! p = None \/ files w' = files w).
Proof.
  intros (Hi & Ht & H)%fs_op_inv. unfold only_at.
  destruct H as [[Hf Hres]|(r & -> & Hrun)]; [rewrite Hf; split_and!; try done; by right|].
  destruct (files w !! p) as [t|] eqn:Hp; injection Hrun as <- <-; (split; [split_and!; try done|]).
  - by right.
  - intros q Hq. by rewrite lookup_insert_ne.
  - by left.
Qed.

Lemma remove_file_only p w res w' : remove_file p w = (res, w') -> only_at p w w'.
Proof.
  intros (Hi & Ht & H)%fs_op_inv. unfold only_at. split_and!; try done.
  destruct H as [[Hf _]|(r & _ & Hrun)]; [by rewrite Hf|].
  destruct (files w !! p); injection Hrun as _ <-; [|done].
  intros q Hq. by rewrite lookup_delete_ne.
Qed.

Lemma read_to_string_inv p w res w' :
  read_to_string p w = (res, w') ->
  files w' = files w /\ io_fault w' = io_fault w
  /\ match res with
     | Some (Ok t) => files w !! p = Some t
     | Some (Err NotFound) => files w !! p = None \/ io_fault w (ReadFile p) = Some NotFound
     | _ => True
     end.
Proof.
  unfold read_to_string, fs_op. destruct (ops_left w) as [[|n]|]; [by intros [= <- <-]|..];
    (destruct (io_fault w (ReadFile p)) as [[|m]|] eqn:Hio; [intros [= <- <-]; by auto..|]);
    destruct (files w !! p) eqn:Hp; intros [= <- <-]; by auto.
Qed.

Lemma remove_file_exact p w res w' : remove_file p w = (res, w') ->
  (res = Some (Ok tt) /\ files w' = delete p (files w)) \/ (res <> Some (Ok tt) /\ files w' = files w).
Proof.
  intros (_ & _ & H)%fs_op_inv. destruct H as [[Hf Hres]|(r & -> & Hrun)]; [naive_solver|].
  destruct (files w !! p); injection Hrun as <- <-; [by left|by right].
Qed.

Lemma open_append_only p w res w' : open_append p w = (res, w') -> only_at p w w'.
Proof.
  intros (Hi & Ht & H)%fs_op_inv. unfold only_at. split_and!; try done. intros q Hq.
  destruct H as [[-> _]|(r & _ & [= _ <-])]; [done|]. destruct (files w !! p); [done|]. by rewrite lookup_insert_ne.
Qed.

Lemma append_all_only p t w res w' : append_all p t w = (res, w') -> only_at p w w'.
Proof.
  intros (Hi & Ht & H)%fs_op_inv. unfold only_at. split_and!; try done. intros q Hq.
  destruct H as [[-> _]|(r & _ & [= _ <-])]; [destruct (torn_write w p); [|done]|]; by rewrite lookup_insert_ne.
Qed.

Lemma copy_file_inv a b w res w' : copy_file a b w = (res, w') ->
  only_at b w w' /\ (res = Some (Ok tt) -> files w' !! b = files w !! a).
Proof.
  intros (Hi & Ht & H)%fs_op_inv. unfold only_at.
  destruct H as [[Hf Hres]|(r & -> & Hrun)]; [rewrite Hf; split_and!; try done|].
  - intros q Hq. destruct (torn_write w b); [|done]. by rewrite lookup_insert_ne.
  - naive_solver.
  - destruct (files w !! a) as [t|] eqn:Ha; injection Hrun as <- <-; split_and!; try done.
    + intros q Hq. by rewrite lookup_insert_ne.
    + intros _. by rewrite lookup_insert_eq.
Qed.

Lemma set_permissions_inv p w res w' : set_permissions p w = (res, w') -> files w' = files w /\ only_at p w w'.
Proof.
  intros (Hi & Ht & H)%fs_op_inv. assert (files w' = files w) as Hf by naive_solver.
  split; [done|]. split_and!; try done. by rewrite Hf.
Qed.

Lemma stat_file_files p w res w' : stat_file p w = (res, w') -> files w' = files w /\ only_at p w w'.
Proof.
  intros (Hi & Ht & H)%fs_op_inv. assert (files w' = files w) as Hf by naive_solver.
  split; [done|]. split_and!; try done. by rewrite Hf.
Qed.

(** An operation that does not fail does what it says. *)
Lemma fs_op_fine {A} op spoil (run : _ -> Result A IoError * _) w r w' :
  fs_op op spoil run w = (Some r, w') -> io_fault w op = None -> run (files w) = (r, files w') /\ io_fault w' = io_fault w.
Proof.
  unfold fs_op. intros H Hf. rewrite Hf in H. destruct (run (files w)) as [r0 fs].
  destruct (ops_left w) as [[|n]|]; [done|..]; by injection H as <- <-.
Qed.

(** A read that does not fail answers what is there. *)
Lemma read_to_string_exact p w r w' : read_to_string p w = (Some r, w') -> io_fault w (ReadFile p) = None ->
  r = match files w !! p with Some t => Ok t | None => Err NotFound end.
Proof.
  unfold read_to_string, fs_op. intros H Hio. rewrite Hio in H.
  destruct (ops_left w) as [[|n]|]; [done|..]; by injection H as <- _.
Qed.

(** ** Which operations fail does not change *)

Definition keeps_faults {A} (m : Fs A) : Prop := forall w res w', m w = (res, w') -> io_fault w' = io_fault w.

Lemma keeps_faults_op {A} op spoil (run : _ -> Result A IoError * _) : keeps_faults (fs_op op spoil run).
Proof. by intros w res w' (-> & _)%fs_op_inv. Qed.
Lemma keeps_faults_ret {A} (a : A) : keeps_faults (fs_ret a).
Proof. by intros w res w' [= _ <-]. Qed.
Lemma keeps_faults_bind {A B} (m : Fs A) (k : A -> Fs B) :
  keeps_faults m -> (forall a, keeps_faults (k a)) -> keeps_faults (fs_bind m k).
Proof.
  intros Hm Hk w res w' [[H _]|(a & w1 & H & H2)]%fs_bind_inv; [by apply Hm in H|].
  apply Hm in H as <-. by apply Hk in H2.
Qed.
Lemma keeps_faults_try {A B E} (m : Fs (Result A E)) (k : A -> Fs (Result B E)) :
  keeps_faults m -> (forall a, keeps_faults (k a)) -> keeps_faults (fs_try m k).
Proof. intros Hm Hk. apply keeps_faults_bind; [done|]. intros [a|e]; [apply Hk|apply keeps_faults_ret]. Qed.
Lemma keeps_faults_map_err {A E F} (f : E -> F) (m : Fs (Result A E)) : keeps_faults m -> keeps_faults (fs_map_err f m).
Proof. intros Hm. apply keeps_faults_bind; [done|]. intros r. apply keeps_faults_ret. Qed.

Create HintDb fs.
#[export] Hint Resolve keeps_faults_op keeps_faults_ret keeps_faults_bind keeps_faults_try keeps_faults_map_err : fs.

Ltac solve_keeps_faults :=
  repeat first [ progress intros | apply keeps_faults_op | apply keeps_faults_ret | apply keeps_faults_try
               | apply keeps_faults_map_err | apply keeps_faults_bind | case_match ].

(** ** What a computation leaves of one file *)

Definition spares (q : Path) {A} (m : Fs A) : Prop := forall w res w', m w = (res, w') -> files w' !! q = files w !! q.

(** What a computation may answer. *)
Definition gives {A E} (m : Fs (Result A E)) (Q : A -> Prop) : Prop := forall w a w', m w = (Some (Ok a), w') -> Q a.

Section Spares.
Context (q : Path).

Lemma spares_ret {A} (a : A) : spares q (fs_ret a).
Proof. by intros w res w' [= _ <-]. Qed.
Lemma spares_bind {A B} (m : Fs A) (k : A -> Fs B) : spares q m -> (forall a, spares q (k a)) -> spares q (fs_bind m k).
Proof.
  intros Hm Hk w res w' [[H _]|(a & w1 & H & H2)]%fs_bind_inv; [by apply Hm in H|].
  apply Hm in H as <-. by apply Hk in H2.
Qed.
Lemma spares_try {A B E} (m : Fs (Result A E)) (k : A -> Fs (Result B E)) :
  spares q m -> (forall a, spares q (k a)) -> spares q (fs_try m k).
Proof. intros Hm Hk. apply spares_bind; [done|]. intros [a|e]; [apply Hk|apply spares_ret]. Qed.
Lemma spares_try_gives {A B E} (m : Fs (Result A E)) (Q : A -> Prop) (k : A -> Fs (Result B E)) :
  gives m Q -> spares q m -> (forall a, Q a -> spares q (k a)) -> spares q (fs_try m k).
Proof.
  intros HQ Hm Hk w res w' [[H _]|[(e & H & _)|(a & w1 & H & H2)]]%fs_try_inv; [by apply Hm in H..|].
  pose proof (HQ _ _ _ H) as Ha. apply Hm in H as <-. by apply (Hk a Ha) in H2.
Qed.
Lemma spares_map_err {A E F} (f : E -> F) (m : Fs (Result A E)) : spares q m -> spares q (fs_map_err f m).
Proof. intros Hm. apply spares_bind; [done|]. intros r. apply spares_ret. Qed.
Lemma spares_create_dir d : spares q (create_dir_all d).
Proof. by intros w res w' [-> _]%create_dir_all_inv. Qed.
Lemma spares_read p : spares q (read_to_string p).
Proof. by intros w res w' (-> & _)%read_to_string_inv. Qed.
Lemma spares_exists p : spares q (path_exists p).
Proof. by intros w res w' (-> & _)%path_exists_inv. Qed.
Lemma spares_write p t : q <> p -> spares q (write_file p t).
Proof. intros Hq w res w' (_ & H & _)%write_file_inv. by apply H. Qed.
Lemma spares_truncate p : q <> p -> spares q (open_truncate p).
Proof. intros Hq w res w' ((_ & _ & H) & _)%open_truncate_inv. by apply H. Qed.
Lemma spares_write_all p t : q <> p -> spares q (write_all p t).
Proof. intros Hq w res w' ((_ & _ & H) & _)%write_all_inv. by apply H. Qed.
Lemma spares_remove p : q <> p -> spares q (remove_file p).
Proof. intros Hq w res w' (_ & _ & H)%remove_file_only. by apply H. Qed.
Lemma spares_rename a b : q <> a -> q <> b -> spares q (rename a b).
Proof.
  intros Ha Hb w res w' [_ [(_ & t & _ & ->)|[_ ->]]]%rename_inv; [|done].
  by rewrite lookup_insert_ne, lookup_delete_ne.
Qed.
Lemma spares_append p : q <> p -> spares q (open_append p).
Proof. intros Hq w res w' (_ & _ & H)%open_append_only. by apply H. Qed.
Lemma spares_append_all p t : q <> p -> spares q (append_all p t).
Proof. intros Hq w res w' (_ & _ & H)%append_all_only. by apply H. Qed.
Lemma spares_copy a b : q <> b -> spares q (copy_file a b).
Proof. intros Hq w res w' [(_ & _ & H) _]%copy_file_inv. by apply H. Qed.
Lemma spares_chmod p : spares q (set_permissions p).
Proof. by intros w res w' [-> _]%set_permissions_inv. Qed.
Lemma spares_stat p : spares q (stat_file p).
Proof. by intros w res w' [-> _]%stat_file_files. Qed.
End Spares.

(** Walks through a computation none of whose operations is on the file. *)
Ltac solve_spares :=
  repeat first
    [ progress intros | solve [eauto with spares] | apply spares_ret | apply spares_create_dir | apply spares_read | apply spares_exists
    | apply spares_write; done | apply spares_truncate; done | apply spares_write_all; done | apply spares_remove; done
    | apply spares_rename; done | apply spares_append; done | apply spares_append_all; done | apply spares_copy; done
    | apply spares_chmod | apply spares_stat | apply spares_try | apply spares_map_err | apply spares_bind | case_match ].

Create HintDb spares.
