(* ===== verification/Json.v ===== *)
(** * JSON values

    The data of [serde_json::Value] and the accessors the programs use on it.  Parsing and
    printing are parameters of the files that need them. *)

From S2P Require Export Text.
Local Open Scope string_scope.

(** A number is observed through [as_u64] only; an object keeps its fields in order. *)

Inductive Value :=
| Null
| Bool (b : bool)
| Number (as_u64 : option N)
| VString (s : string)
| Array (items : list Value)
| Object (fields : list (string * Value)).

Fixpoint assoc (key : string) (fields : list (string * Value)) : option Value :=
  match fields with
  | [] => None
  | (k, v) :: rest => if String.eqb k key then Some v else assoc key rest
  end.

Definition get (key : string) (v : Value) : option Value :=
  match v with Object fields => assoc key fields | _ => None end.
Definition as_str (v : Value) : option string :=
  match v with VString s => Some s | _ => None end.
Definition as_u64 (v : Value) : option N :=
  match v with Number n => n | _ => None end.
Definition as_object (v : Value) : option (list (string * Value)) :=
  match v with Object fields => Some fields | _ => None end.
Definition as_array (v : Value) : option (list Value) :=
  match v with Array items => Some items | _ => None end.

Definition as_bool (v : Value) : option bool :=
  match v with Bool b => Some b | _ => None end.

(** [Map::insert]: the value of an existing key is replaced in place. *)
Fixpoint assoc_insert (key : string) (value : Value) (fields : list (string * Value))
    : list (string * Value) :=
  match fields with
  | [] => [(key, value)]
  | (k, v) :: rest => if String.eqb k key then (k, value) :: rest else (k, v) :: assoc_insert key value rest
  end.

Lemma assoc_insert_lookup key k value fields :
  assoc k (assoc_insert key value fields) = if String.eqb key k then Some value else assoc k fields.
Proof.
  induction fields as [|[k0 v] fields IH]; cbn; [by destruct (String.eqb key k)|].
  destruct (String.eqb k0 key) eqn:H1; cbn.
  - apply String.eqb_eq in H1 as ->. by destruct (String.eqb key k).
  - destruct (String.eqb k0 k) eqn:H2; [|exact IH].
    apply String.eqb_eq in H2 as ->. apply String.eqb_neq in H1.
    destruct (String.eqb key k) eqn:H3; [|done]. apply String.eqb_eq in H3. congruence.
Qed.
