(* ===== verification/Protocol.v ===== *)
(** * The wire protocol crate ([relay-protocol/src])

    The message types exchanged over the three websockets, the device capability
    list, and the modules [McpStream] (binary frames), [McpHttp] (forwarding
    allow-lists), [McpControl] (control-message discriminators) and [Registration]
    (enrolment codes), each named after the Rust module it models. *)

From S2P Require Export Text.
Local Open Scope string_scope.

(** ** Constants and capabilities ([lib.rs]) *)

Definition PROTOCOL_VERSION : N := 1.
Definition CAPABILITY_SNAPSHOT := "snapshot".
Definition CAPABILITY_CONTROL_REFRESH := "control.refresh_snapshot".
Definition CAPABILITY_CONTROL_RECONNECT := "control.reconnect_tunnel".
Definition CAPABILITY_REVOKE_SYNC := "revoke.sync".

Definition device_capabilities : list string :=
  [ CAPABILITY_SNAPSHOT; CAPABILITY_CONTROL_REFRESH;
    CAPABILITY_CONTROL_RECONNECT; CAPABILITY_REVOKE_SYNC ].

(** ** Payloads *)

Record DesktopRegisterRequest := {
  reg_desktop_id : string;
  reg_device_name : string;
  reg_app_version : string;
  reg_platform : string }.

Record DesktopRegisterResponse := {
  resp_desktop_id : string;
  resp_desktop_token : string }.

Record DeviceAuthorizeRequest := { auth_token_hash : string }.

Record EncryptedSnapshot := {
  snap_session_id : string;
  snap_sequence : N;
  snap_generated_at : N;
  snap_nonce : string;
  snap_ciphertext : string }.

Record EncryptedPairingPayload := {
  pairing_nonce : string;
  pairing_ciphertext : string }.

Record EncryptedControlPayload := {
  ctl_request_id : string;
  ctl_issued_at : N;
  ctl_expires_at : N;
  ctl_nonce : string;
  ctl_ciphertext : string }.

Record PairingRouteOpenRequest := {
  open_token_hash : string;
  open_expires_at : N }.

#[export] Instance EncryptedSnapshot_eq_dec : EqDecision EncryptedSnapshot.
Proof. solve_decision. Defined.
#[export] Instance EncryptedPairingPayload_eq_dec : EqDecision EncryptedPairingPayload.
Proof. solve_decision. Defined.
#[export] Instance EncryptedControlPayload_eq_dec : EqDecision EncryptedControlPayload.
Proof. solve_decision. Defined.

(** ** Websocket messages *)

Inductive DesktopWsMessage :=
| DesktopHello (protocol_version : N) (desktop_id app_version platform : string)
    (capabilities : list string)
| DesktopPing (sent_at : N)
| DesktopSnapshot (device_id : string) (snapshot : EncryptedSnapshot)
| PairingResponse (pairing_id connection_id : string) (payload : EncryptedPairingPayload)
| PairingError (pairing_id connection_id message : string)
| ControlResponse (device_id : string) (response : EncryptedControlPayload)
| ControlError (device_id request_id message : string)
| RevokeResult (device_id request_id : string)
| RevokeError (device_id request_id message : string).

Inductive DesktopServerMessage :=
| DesktopHelloAck (session_id : string) (server_time : N) (capabilities : list string)
| DesktopPong (server_time : N)
| PairingRequest (pairing_id connection_id : string) (payload : EncryptedPairingPayload)
| DeviceRevoked (device_id : string)
| DeviceRevoke (device_id request_id : string)
| DeviceControl (device_id : string) (request : EncryptedControlPayload)
| DesktopError (message : string).

Inductive DeviceWsMessage :=
| DeviceHello (protocol_version : N) (desktop_id device_id : string)
| DevicePing (sent_at : N)
| RevokeSelf
| Control (request : EncryptedControlPayload).

Inductive DeviceServerMessage :=
| DeviceHelloAck (session_id : string) (server_time : N) (desktop_online : bool)
    (capabilities : list string)
| DevicePong (server_time : N)
| DesktopPresence (online : bool) (changed_at : N)
| DeviceSnapshot (received_at : N) (snapshot : EncryptedSnapshot)
| Revoked (device_id : string)
| ControlResult (response : EncryptedControlPayload)
| DeviceError (message : string).

Inductive PairingWsMessage :=
| Pair (pairing_id : string) (payload : EncryptedPairingPayload).

Inductive PairingServerMessage :=
| PairResult (pairing_id : string) (payload : EncryptedPairingPayload)
| PairingServerError (message : string).

(** ** Binary frames ([mcp_stream.rs]) *)

Definition nlen {A} (l : list A) : N := N.of_nat (length l).
Definition strlen (s : string) : N := N.of_nat (String.length s).

Module McpStream.
Definition MAX_FRAME_BODY : N := 64 * 1024.
Definition MAX_REQUEST_BYTES : N := 64 * 1024 * 1024.
Definition MAX_RESPONSE_BYTES : N := 128 * 1024 * 1024.
Definition MAX_INFLIGHT : nat := 64.

Inductive Kind := RequestBody | ResponseBody.

#[export] Instance Kind_eq_dec : EqDecision Kind.
Proof. solve_decision. Defined.

Definition kind_byte (k : Kind) : byte :=
    match k with RequestBody => x01 | ResponseBody => x02 end.

Definition encode (kind : Kind) (request_id : string) (body : list byte) : option (list byte) :=
    if negb (strlen request_id =? 32)%N || (MAX_FRAME_BODY <? nlen body)%N then None
    else match parse_hex_pairs request_id with
         | Some raw => Some (kind_byte kind :: raw ++ body)%list
         | None => None
         end.

Definition decode (frame : list byte) : option (Kind * string * list byte) :=
    if (nlen frame <? 17)%N || (17 + MAX_FRAME_BODY <? nlen frame)%N then None
    else
      match frame with
      | x01 :: rest => Some (RequestBody, hex_of_bytes (firstn 16 rest), skipn 16 rest)
      | x02 :: rest => Some (ResponseBody, hex_of_bytes (firstn 16 rest), skipn 16 rest)
      | _ => None
      end.
End McpStream.

(** ** Forwarding allow-lists ([mcp_http.rs]) *)

Module McpHttp.
Definition WSS_PROTOCOL_V1 : N := 1.
Definition WSS_PROTOCOL_V2 : N := 2.
Definition LEGACY_MAX_REQUEST_BYTES : N := 5 * 1024 * 1024.
Definition LEGACY_MAX_RESPONSE_BYTES : N := 16 * 1024 * 1024.

Definition allowed_path : string -> bool := one_of
    [ "/mcp"; "/chatx-oauth/authorize"; "/chatx-oauth/approve";
      "/chatx-oauth/token"; "/chatx-oauth/register";
      "/.well-known/oauth-authorization-server";
      "/.well-known/oauth-protected-resource";
      "/.well-known/oauth-protected-resource/mcp" ].

Definition allowed_request_header : string -> bool := one_of
    [ "content-type"; "accept"; "authorization"; "mcp-session-id";
      "mcp-protocol-version"; "last-event-id"; "x-forwarded-for"; "user-agent";
      "origin"; "accept-language" ].

Definition allowed_response_header : string -> bool := one_of
    [ "content-type"; "cache-control"; "www-authenticate"; "location";
      "mcp-session-id"; "retry-after"; "x-content-type-options";
      "content-security-policy"; "x-frame-options"; "referrer-policy"; "allow";
      "access-control-allow-origin"; "access-control-allow-methods";
      "access-control-allow-headers"; "access-control-expose-headers"; "vary" ].

End McpHttp.

(** ** Control-message discriminators ([mcp_control.rs]) *)

Module McpControl.
Inductive ControlKind :=
  | Hello | HelloAck | Ping | Pong | Request | RequestEnd | RequestCancel
  | Head | Chunk | End_ | Error.

#[export] Instance ControlKind_eq_dec : EqDecision ControlKind.
Proof. solve_decision. Defined.

Definition as_str (k : ControlKind) : string :=
    match k with
    | Hello => "hello" | HelloAck => "hello_ack" | Ping => "ping" | Pong => "pong"
    | Request => "request" | RequestEnd => "request_end"
    | RequestCancel => "request_cancel" | Head => "head" | Chunk => "chunk"
    | End_ => "end" | Error => "error"
    end.

Definition parse (kind : string) : option ControlKind :=
    if String.eqb kind "hello" then Some Hello
    else if String.eqb kind "hello_ack" then Some HelloAck
    else if String.eqb kind "ping" then Some Ping
    else if String.eqb kind "pong" then Some Pong
    else if String.eqb kind "request" then Some Request
    else if String.eqb kind "request_end" then Some RequestEnd
    else if String.eqb kind "request_cancel" then Some RequestCancel
    else if String.eqb kind "head" then Some Head
    else if String.eqb kind "chunk" then Some Chunk
    else if String.eqb kind "end" then Some End_
    else if String.eqb kind "error" then Some Error
    else None.
End McpControl.

(** ** Enrolment codes ([registration.rs]) *)

Module Registration.
Definition CODE_PREFIX := "cxr1".
Definition SIGNING_CONTEXT := "chatx-registration-v1:".
Definition MAX_INVITE_LIFETIME_MS : N := 10 * 60 * 1000.

Record RegistrationInvite := {
    base_url : string;
    expires_at : N;
    nonce : string }.

Definition bad_format := "注册码格式不正确，请从宝塔插件重新复制。".

Definition decode_hex (value : string) : Result (list byte) string :=
    if negb (Nat.even (String.length value)) || negb (string_forall is_ascii_hexdigit value)
    then Err bad_format
    else match parse_hex_pairs value with
         | Some bytes => Ok bytes
         | None => Err "注册码编码无效。"
         end.

Definition ends_with_char (c : ascii) (s : string) : bool :=
    match rev (list_ascii_of_string s) with a :: _ => Ascii.eqb a c | [] => false end.
Definition starts_with_char (c : ascii) (s : string) : bool :=
    match s with String a _ => Ascii.eqb a c | EmptyString => false end.

Definition valid_label (label : string) : bool :=
    negb (is_empty label) && (strlen label <=? 63)%N
    && negb (starts_with_char "-" label) && negb (ends_with_char "-" label)
    && string_forall (fun b => is_ascii_alphanumeric b || Ascii.eqb b "-") label.

Definition valid_host (host : string) : bool :=
    negb (is_empty host) && (strlen host <=? 253)%N
    && forallb valid_label (split_on "." host).

Definition valid_nonce (n : string) : bool :=
    (strlen n =? 32)%N && string_forall is_ascii_hexdigit n.

Section ParseCode.
    (** [serde_json::from_slice::<RegistrationInvite>] *)
Context (invite_from_slice : list byte -> option RegistrationInvite).

Definition parse_code (code : string)
        : Result (RegistrationInvite * string * list byte) string :=
      let code := trim code in
      return_if (2048 <? strlen code)%N with Err "注册码过长。" in
      match split_on "." code with
      | [p0; p1; p2] =>
          return_if negb (String.eqb p0 CODE_PREFIX) || negb (strlen p2 =? 64)%N
            with Err bad_format in
          body <-? decode_hex p1 ;;
          let_some invite := invite_from_slice body else Err "注册码内容无效。" in
          let_some host := strip_prefix "https://" (base_url invite)
            else Err "注册码中的 Relay 地址必须使用 HTTPS。" in
          return_if negb (valid_host host) || negb (valid_nonce (nonce invite))
            with Err "注册码中的 Relay 地址或随机标识无效。" in
          signature <-? decode_hex p2 ;;
          Ok (invite, SIGNING_CONTEXT ++ p1, signature)
      | _ => Err bad_format
      end.
End ParseCode.
End Registration.

(** ** Lemmas on text used by the codecs *)

(** Text whose bytes are graphic ASCII is left alone by [trim]. *)
Definition is_graphic (a : ascii) : bool := ((33 <=? ascii_code a) && (ascii_code a <=? 126))%N.

Lemma utf8_chars_graphic s :
  string_forall is_graphic s = true ->
  utf8_chars s = map (fun a => String a "") (list_ascii_of_string s).
Proof.
  induction s as [|a s IH]; [done|]. cbn [string_forall utf8_chars list_ascii_of_string map].
  rewrite andb_true_iff. intros [Ha Hs]. rewrite (IH Hs).
  destruct s as [|b s]; [done|]. cbn in Hs |- *.
  apply andb_true_iff in Hs as [Hb _].
  assert (is_continuation b = false) as ->; [|done].
  unfold is_graphic, is_continuation in *. destruct (ascii_code b <? 192)%N; reflect_bools; try lia.
  rewrite andb_true_r. reflect_bools. lia.
Qed.

Lemma graphic_not_whitespace a : is_graphic a = true -> is_whitespace (String a "") = false.
Proof.
  destruct a as [b0 b1 b2 b3 b4 b5 b6 b7].
  destruct b0, b1, b2, b3, b4, b5, b6, b7; vm_compute; (reflexivity || discriminate).
Qed.

Lemma drop_whitespace_none cs :
  Forall (fun c => is_whitespace c = false) cs -> drop_whitespace cs = cs.
Proof. destruct 1 as [|c cs' Hc Hcs]; [done|]. cbn [drop_whitespace]. by rewrite Hc. Qed.

Lemma trim_graphic s : string_forall is_graphic s = true -> trim s = s.
Proof.
  intros Hs. unfold trim.
  assert (Forall (fun c => is_whitespace c = false) (utf8_chars s)) as Hw.
  { rewrite (utf8_chars_graphic s Hs). clear -Hs.
    induction s as [|a s IH]; cbn in *; [constructor|].
    apply andb_true_iff in Hs as [Ha Hs]. constructor; [by apply graphic_not_whitespace|by apply IH]. }
  rewrite (drop_whitespace_none (utf8_chars s)) by done.
  rewrite drop_whitespace_none by (by apply List.Forall_rev).
  by rewrite rev_involutive, concat_utf8_chars.
Qed.

Lemma hexdigit_graphic a : is_ascii_hexdigit a = true -> is_graphic a = true.
Proof.
  destruct a as [b0 b1 b2 b3 b4 b5 b6 b7].
  destruct b0, b1, b2, b3, b4, b5, b6, b7; vm_compute; (reflexivity || discriminate).
Qed.

Lemma hexdigit_not_dot a : is_ascii_hexdigit a = true -> Ascii.eqb a "." = false.
Proof.
  destruct a as [b0 b1 b2 b3 b4 b5 b6 b7].
  destruct b0, b1, b2, b3, b4, b5, b6, b7; vm_compute; (reflexivity || discriminate).
Qed.

Lemma split_on_none c s :
  string_forall (fun a => negb (Ascii.eqb a c)) s = true -> split_on c s = [s].
Proof.
  induction s as [|a s IH]; cbn; [done|].
  rewrite andb_true_iff, negb_true_iff. intros [-> Hs]. by rewrite (IH Hs).
Qed.

Lemma split_on_app c a b :
  string_forall (fun x => negb (Ascii.eqb x c)) a = true ->
  split_on c (a ++ String c b) = a :: split_on c b.
Proof.
  induction a as [|x a IH]; cbn; [by rewrite Ascii.eqb_refl|].
  rewrite andb_true_iff, negb_true_iff. intros [-> Ha]. by rewrite (IH Ha).
Qed.

Lemma hex_no_dot bs :
  string_forall (fun x => negb (Ascii.eqb x ".")) (hex_of_bytes bs) = true.
Proof.
  eapply string_forall_impl; [|apply hex_of_bytes_hexdigit].
  intros a Ha. by rewrite (hexdigit_not_dot a Ha).
Qed.

Lemma strlen_hex bs : strlen (hex_of_bytes bs) = (2 * nlen bs)%N.
Proof. unfold strlen, nlen. rewrite length_hex_of_bytes. lia. Qed.

(** ** Binary frames: properties *)

Module McpStreamProps.
Import McpStream.

Lemma encode_Some kind id body f :
  encode kind id body = Some f <->
  String.length id = 32 /\ (nlen body <= MAX_FRAME_BODY)%N /\
  exists raw, parse_hex_pairs id = Some raw /\ f = (kind_byte kind :: raw ++ body)%list.
Proof.
  unfold encode.
  destruct (strlen id =? 32)%N eqn:Hl; cbn [negb orb].
  - destruct (MAX_FRAME_BODY <? nlen body)%N eqn:Hb.
    + split; [done|]. intros (_ & Hle & _). reflect_bools. lia.
    + unfold strlen in *. reflect_bools. destruct (parse_hex_pairs id) as [raw|].
      * split; [intros [= <-]; split_and!; [lia|lia|by eauto]|].
        intros (_ & _ & raw' & [= <-] & ->). done.
      * split; [done|]. by intros (_ & _ & raw & ? & _).
  - split; [done|]. intros (Hid & _). unfold strlen in Hl. reflect_bools. lia.
Qed.

Lemma hexdigit_frame kind id body :
  String.length id = 32 -> string_forall is_ascii_hexdigit id = true ->
  (nlen body <= MAX_FRAME_BODY)%N ->
  exists frame, encode kind id body = Some frame
    /\ nlen frame = (17 + nlen body)%N
    /\ decode frame = Some (kind, to_ascii_lowercase id, body).
Proof.
  intros Hlen Hhex Hbody.
  destruct (hex_of_parse_hex id Hhex) as (raw & Hraw & Hlow & Hl); [by rewrite Hlen|].
  assert (length raw = 16) as H16 by lia.
  exists (kind_byte kind :: raw ++ body)%list. split; [apply encode_Some; eauto 10|].
  assert (nlen (kind_byte kind :: raw ++ body)%list = 17 + nlen body)%N as Hn.
  { unfold nlen. cbn [length]. rewrite length_app. lia. }
  split; [done|]. unfold decode. rewrite Hn.
  destruct (17 + nlen body <? 17)%N eqn:?; [reflect_bools; lia|].
  destruct (17 + MAX_FRAME_BODY <? 17 + nlen body)%N eqn:?; [reflect_bools; lia|]. cbn [orb].
  rewrite <- H16. destruct kind; cbn [kind_byte];
    by rewrite firstn_app, skipn_app, Nat.sub_diag, firstn_all, skipn_all, firstn_O, app_nil_r, Hlow.
Qed.

(** C1. Encoding a frame for a hexadecimal 32-character request id and a body of at
    most [MAX_FRAME_BODY] bytes always succeeds, and decoding it gives back the kind,
    the request id in lower case and the body, byte for byte. *)
Theorem encode_decode_roundtrip kind id body
    (Hlen : String.length id = 32) (Hhex : string_forall is_ascii_hexdigit id = true)
    (Hbody : (nlen body <= MAX_FRAME_BODY)%N) :
  exists frame, encode kind id body = Some frame
    /\ nlen frame = (17 + nlen body)%N
    /\ decode frame = Some (kind, to_ascii_lowercase id, body).
Proof. by apply hexdigit_frame. Qed.

Lemma decode_Some f kind id body :
  decode f = Some (kind, id, body) ->
  exists raw, f = (kind_byte kind :: raw ++ body)%list /\ length raw = 16
    /\ id = hex_of_bytes raw /\ (nlen body <= MAX_FRAME_BODY)%N.
Proof.
  unfold decode. destruct (nlen f <? 17)%N eqn:Hlo; [done|].
  destruct (17 + MAX_FRAME_BODY <? nlen f)%N eqn:Hhi; [done|]. cbn [orb]. reflect_bools.
  destruct f as [|b rest]; [done|].
  assert (16 <= length rest)%nat by (unfold nlen in *; cbn [length] in *; lia).
  intros H0. exists (firstn 16 rest).
  assert (nlen (skipn 16 rest) <= MAX_FRAME_BODY)%N
    by (unfold nlen in *; rewrite length_skipn; cbn [length] in *; lia).
  destruct b; try done; injection H0 as <- <- <-;
    rewrite firstn_skipn, length_firstn; split_and!; (done || lia).
Qed.

(** [decode] accepts exactly the frames [encode] produces: re-encoding what was
    decoded gives the original frame, so no two frames decode to the same triple. *)
Theorem decode_encode_roundtrip frame kind id body
    (Hdec : decode frame = Some (kind, id, body)) :
  encode kind id body = Some frame.
Proof.
  apply decode_Some in Hdec as (raw & -> & Hl & -> & Hb).
  apply encode_Some. split_and!.
  - rewrite length_hex_of_bytes. lia.
  - done.
  - exists raw. by rewrite parse_hex_of_bytes.
Qed.

(** The hexadecimal check of [encode] is [from_str_radix], which accepts a plus sign:
    two different request ids can share a frame. *)
Lemma encode_accepts_sign :
  exists id id', id <> id' /\ String.length id = 32
    /\ string_forall is_ascii_hexdigit id = false
    /\ encode RequestBody id [] = encode RequestBody id' []
    /\ is_Some (encode RequestBody id []).
Proof.
  exists "+f000000000000000000000000000000", "0f000000000000000000000000000000".
  split_and!; [done|done|vm_compute; reflexivity|vm_compute; reflexivity|].
  vm_compute. by eexists.
Qed.

Lemma encode_decode_roundtrip_witness :
  exists frame, encode ResponseBody "A1a1a1a1a1a1a1a1a1a1a1a1a1a1a1a1" [x07; xff] = Some frame
    /\ nlen frame = 19%N
    /\ decode frame = Some (ResponseBody, "a1a1a1a1a1a1a1a1a1a1a1a1a1a1a1a1", [x07; xff]).
Proof.
  exact (encode_decode_roundtrip ResponseBody "A1a1a1a1a1a1a1a1a1a1a1a1a1a1a1a1" [x07; xff]
           eq_refl eq_refl ltac:(vm_compute; discriminate)).
Defined.

Lemma decode_encode_roundtrip_witness :
  encode RequestBody "00000000000000000000000000000000" [x41]
  = Some (x01 :: repeat x00 16 ++ [x41])%list.
Proof. apply decode_encode_roundtrip. vm_compute. reflexivity. Defined.
End McpStreamProps.

(** ** Control kinds: properties *)

Module McpControlProps.
Import McpControl.

(** [parse] and [as_str] are mutually inverse: a text parses to a control kind
    exactly when it is that kind's wire name, so distinct kinds have distinct names
    and every other text is rejected. *)
Theorem parse_as_str s k : parse s = Some k <-> as_str k = s.
Proof.
  split.
  - unfold parse. intros H. run_cases; reflect_bools; by subst.
  - intros <-. by destruct k.
Qed.
End McpControlProps.

(** ** Enrolment codes: properties *)

Module RegistrationProps.
Import Registration.

Lemma decode_hex_of_bytes bs : decode_hex (hex_of_bytes bs) = Ok bs.
Proof.
  unfold decode_hex. rewrite length_hex_of_bytes, hex_of_bytes_hexdigit, parse_hex_of_bytes.
  replace (Nat.even (2 * length bs)) with true; [done|].
  symmetry. apply Nat.even_spec. by exists (length bs).
Qed.

Lemma decode_hex_Ok s bs :
  decode_hex s = Ok bs <->
  Nat.even (String.length s) = true /\ string_forall is_ascii_hexdigit s = true
  /\ hex_of_bytes bs = to_ascii_lowercase s.
Proof.
  unfold decode_hex. destruct (Nat.even (String.length s)) eqn:He; cbn [negb orb]; [|naive_solver].
  destruct (string_forall is_ascii_hexdigit s) eqn:Hx; cbn [negb]; [|naive_solver].
  destruct (hex_of_parse_hex s Hx He) as (bs' & -> & Hbs & _). split.
  - intros [= <-]. done.
  - intros (_ & _ & H). f_equal. rewrite <- Hbs in H.
    apply (f_equal parse_hex_pairs) in H. rewrite !parse_hex_of_bytes in H. congruence.
Qed.

Section Code.
Context (invite_from_slice : list byte -> option RegistrationInvite).

(** Whatever [parse_code] accepts is safe to enrol with: the base URL is
    [https://] followed by a host of at most 253 bytes made only of valid DNS labels
    (hence no path, port, user info or scheme change), the nonce is 32 hexadecimal
    digits, the signature has 32 bytes, and the signed text is the fixed signing
    context followed by the hexadecimal body that was decoded into the invite. *)
Theorem parse_code_sound code invite signed signature
    (Hok : parse_code invite_from_slice code = Ok (invite, signed, signature)) :
  (exists host, base_url invite = "https://" ++ host /\ valid_host host = true)
  /\ valid_nonce (nonce invite) = true
  /\ length signature = 32
  /\ exists body_hex body, signed = SIGNING_CONTEXT ++ body_hex
       /\ decode_hex body_hex = Ok body /\ invite_from_slice body = Some invite.
Proof.
  unfold parse_code in Hok. destruct (2048 <? _)%N; [done|].
  destruct (split_on _ _) as [|p0 [|p1 [|p2 [|]]]]; try done.
  destruct (_ || _) eqn:Hfmt; [done|].
  destruct (decode_hex p1) as [body|] eqn:Hbody; [|done].
  destruct (invite_from_slice body) as [inv|] eqn:Hinv; [|done].
  destruct (strip_prefix _ _) as [host|] eqn:Hhost; [|done].
  destruct (negb (valid_host host) || negb (valid_nonce (nonce inv))) eqn:Hv; [done|].
  destruct (decode_hex p2) as [sg|] eqn:Hsig; [|done].
  injection Hok as -> <- <-.
  apply orb_false_iff in Hv as [Hvh Hvn], Hfmt as [_ Hp2].
  rewrite negb_false_iff in *. split_and!.
  - exists host. split; [by apply strip_prefix_Some|done].
  - done.
  - apply decode_hex_Ok in Hsig as (_ & _ & Hlow).
    apply (f_equal String.length) in Hlow.
    rewrite length_hex_of_bytes, length_to_ascii_lowercase in Hlow.
    apply N.eqb_eq in Hp2. unfold strlen in Hp2. lia.
  - by exists p1, body.
Qed.

(** A code assembled the way the Relay panel does it (prefix, hexadecimal
    JSON body, hexadecimal signature, joined by dots) from a valid invite is accepted
    and gives back that invite, the text to verify and the signature. *)
Theorem parse_code_complete invite host body signature
    (Hjson : invite_from_slice body = Some invite)
    (Hurl : base_url invite = "https://" ++ host)
    (Hhost : valid_host host = true) (Hnonce : valid_nonce (nonce invite) = true)
    (Hsig : length signature = 32) (Hsize : (nlen body <= 989)%N) :
  parse_code invite_from_slice
    (CODE_PREFIX ++ "." ++ hex_of_bytes body ++ "." ++ hex_of_bytes signature)
  = Ok (invite, SIGNING_CONTEXT ++ hex_of_bytes body, signature).
Proof.
  assert (forall bs, string_forall is_graphic (hex_of_bytes bs) = true) as Hg
    by (intros bs; eapply string_forall_impl; [apply hexdigit_graphic|apply hex_of_bytes_hexdigit]).
  unfold parse_code.
  rewrite trim_graphic by (rewrite !string_forall_app, !Hg; reflexivity).
  assert (forall x, split_on "." (CODE_PREFIX ++ "." ++ x) = CODE_PREFIX :: split_on "." x) as Hs0
    by (intros x; exact (split_on_app "." CODE_PREFIX x eq_refl)).
  assert (split_on "." (CODE_PREFIX ++ "." ++ hex_of_bytes body ++ "." ++ hex_of_bytes signature)
          = [CODE_PREFIX; hex_of_bytes body; hex_of_bytes signature]) as ->.
  { rewrite Hs0. f_equal. rewrite (split_on_app "." _ (hex_of_bytes signature)) by apply hex_no_dot.
    by rewrite split_on_none by apply hex_no_dot. }
  destruct (2048 <? _)%N eqn:Hlen.
  { reflect_bools. unfold strlen in Hlen.
    rewrite !length_append, !length_hex_of_bytes in Hlen. cbn in Hlen. unfold nlen in *. lia. }
  rewrite strlen_hex. unfold nlen at 1. rewrite Hsig. cbn [N.of_nat].
  rewrite String.eqb_refl. cbn [negb orb].
  change (2 * N.of_nat 32 =? 64)%N with true. cbn [negb].
  by rewrite !decode_hex_of_bytes, Hjson, Hurl, strip_prefix_app, Hhost, Hnonce.
Qed.
End Code.

Definition sample_invite : RegistrationInvite :=
  {| base_url := "https://relay.example.com"; expires_at := 42;
     nonce := "abababababababababababababababab" |}.

Lemma parse_code_sound_witness :
  length (repeat x00 32) = 32 /\ (exists host, base_url sample_invite = "https://" ++ host
    /\ valid_host host = true).
Proof.
  split; [done|].
  exact (proj1 (parse_code_sound (fun _ => Some sample_invite)
           ("cxr1.00." ++ hex_of_bytes (repeat x00 32)) sample_invite
           (SIGNING_CONTEXT ++ "00") (repeat x00 32) ltac:(vm_compute; reflexivity))).
Defined.

Lemma parse_code_complete_witness :
  parse_code (fun _ => Some sample_invite)
    (CODE_PREFIX ++ "." ++ hex_of_bytes [x7b; x7d] ++ "." ++ hex_of_bytes (repeat x00 32))
  = Ok (sample_invite, SIGNING_CONTEXT ++ hex_of_bytes [x7b; x7d], repeat x00 32).
Proof.
  apply (parse_code_complete (fun _ => Some sample_invite) sample_invite "relay.example.com");
    vm_compute; (reflexivity || discriminate).
Defined.
End RegistrationProps.
