(* ===== verification/Registry.v ===== *)
(** * The relay registry ([relay-server/src/registry.rs])

    The persistent records, token hashing and constant-time comparison, and the file
    protocol of [load] and [save] over the file system of [Files], in which every operation
    may fail and the process may die between any two operations.  The
    class [RegistryStore] is what the request handlers rely on; [FileStore] is the
    implementation by [save] and [load]. *)

From S2P Require Export Protocol Files.
Local Open Scope string_scope.

(** ** Records *)

Record DeviceRecord := {
  dev_token_hash : string;
  dev_created_at : N }.

Record DesktopRecord := {
  desk_token_hash : string;
  desk_device_name : string;
  desk_app_version : string;
  desk_platform : string;
  desk_created_at : N;
  desk_devices : gmap string DeviceRecord }.

Record Registry := {
  desktops : gmap string DesktopRecord;
  used_registration_invites : gmap string N }.

Definition registry_default : Registry :=
  {| desktops := ∅; used_registration_invites := ∅ |}.

Definition set_desktops (f : gmap string DesktopRecord -> gmap string DesktopRecord)
    (r : Registry) : Registry :=
  {| desktops := f (desktops r); used_registration_invites := used_registration_invites r |}.

Definition set_invites (f : gmap string N -> gmap string N) (r : Registry) : Registry :=
  {| desktops := desktops r; used_registration_invites := f (used_registration_invites r) |}.

Definition set_devices (f : gmap string DeviceRecord -> gmap string DeviceRecord)
    (d : DesktopRecord) : DesktopRecord :=
  {| desk_token_hash := desk_token_hash d; desk_device_name := desk_device_name d;
     desk_app_version := desk_app_version d; desk_platform := desk_platform d;
     desk_created_at := desk_created_at d; desk_devices := f (desk_devices d) |}.

(** ** Tokens *)

Section Tokens.
(** [ring::digest::digest(&SHA256, _)] *)
Context (sha256 : string -> list byte).

Definition token_hash (token : string) : string := hex_of_bytes (sha256 token).

(** The loop [diff |= a ^ b] over the zipped bytes. *)
Fixpoint fold_diff (diff : N) (left right : string) : N :=
  match left, right with
  | String a left', String b right' =>
      fold_diff (N.lor diff (N.lxor (ascii_code a) (ascii_code b))) left' right'
  | _, _ => diff
  end.

Definition constant_time_hex_eq (left right : string) : bool :=
  if negb (String.length left =? String.length right)%nat then false
  else (fold_diff 0 left right =? 0)%N.

Definition hash_matches (token expected_hex : string) : bool :=
  constant_time_hex_eq (token_hash token) expected_hex.
End Tokens.

(** ** [load] and [save] *)

Section Persistence.
(** [serde_json::from_str::<Registry>] (with its error text) and
    [serde_json::to_string_pretty]. *)
Context (registry_from_str : string -> Result Registry string)
        (registry_to_string_pretty : Registry -> Result string string).

Definition parse_registry (path : Path) (text : string) : Result Registry string :=
  match registry_from_str text with
  | Ok r => Ok r
  | Err error => Err ("relay registry is corrupt at " ++ path_display path ++ ": " ++ error)
  end.

Definition backup_path (path : Path) : Path := with_extension path "json.bak".
Definition temp_path (path : Path) : Path := with_extension path "json.tmp".

Definition load (path : Path) : Fs (Result Registry string) :=
  primary <-fs read_to_string path ;;
  match primary with
  | Ok text => fs_ret (parse_registry path text)
  | Err NotFound =>
      let backup := backup_path path in
      saved <-fs read_to_string backup ;;
      match saved with
      | Ok text =>
          match parse_registry backup text with
          | Err e => fs_ret (Err e)
          | Ok registry =>
              _ <-fs rename backup path ;;
              fs_ret (Ok registry)
          end
      | Err NotFound => fs_ret (Ok registry_default)
      | Err backup_error =>
          fs_ret (Err ("read relay registry backup " ++ path_display backup
                       ++ " failed: " ++ io_display backup_error))
      end
  | Err error =>
      fs_ret (Err ("read relay registry " ++ path_display path
                   ++ " failed: " ++ io_display error))
  end.

Definition io_error (prefix : string) (r : Result unit IoError) : Result unit string :=
  map_err (fun e => prefix ++ io_display e) r.

(** The part of [save] common to both platforms: everything up to the replacement of
    the file at [path] by the one at [temp_path path]. *)
Definition save_with (replace : Path -> Path -> Fs (Result unit string))
    (path : Path) (registry : Registry) : Fs (Result unit string) :=
  created <-fs match parent path with
               | Some dir => create_dir_all dir
               | None => fs_ret (Ok tt)
               end ;;
  match io_error "create relay data directory failed: " created with
  | Err e => fs_ret (Err e)
  | Ok _ =>
      let temp := temp_path path in
      match registry_to_string_pretty registry with
      | Err error => fs_ret (Err ("serialize registry failed: " ++ error))
      | Ok text =>
          written <-fs write_file temp (text ++ String "010" "") ;;
          match io_error "write relay registry failed: " written with
          | Err e => fs_ret (Err e)
          | Ok _ => replace temp path
          end
      end
  end.

(** [#[cfg(not(windows))]] *)
Definition replace_posix (temp path : Path) : Fs (Result unit string) :=
  r <-fs rename temp path ;;
  fs_ret (io_error "replace relay registry failed: " r).

(** [#[cfg(windows)]] *)
Definition replace_windows (temp path : Path) : Fs (Result unit string) :=
  let backup := backup_path path in
  _ <-fs remove_file backup ;;
  present <-fs path_exists path ;;
  moved <-fs (if present : bool then rename path backup else fs_ret (Ok tt)) ;;
  match io_error "backup relay registry failed: " moved with
  | Err e => fs_ret (Err e)
  | Ok _ =>
      r <-fs rename temp path ;;
      match r with
      | Ok _ => _ <-fs remove_file backup ;; fs_ret (Ok tt)
      | Err error =>
          _ <-fs rename backup path ;;
          fs_ret (Err ("replace relay registry failed: " ++ io_display error))
      end
  end.

Definition save_posix : Path -> Registry -> Fs (Result unit string) := save_with replace_posix.
Definition save_windows : Path -> Registry -> Fs (Result unit string) := save_with replace_windows.

(** What a restart would load from the files: [load] with no failing operation. *)
Definition loaded (path : Path) (fs : gmap Path string) : option (Result Registry string) :=
  (load path (healthy fs)).1.
End Persistence.

(** ** The store the request handlers use

    [store_save] is [AppState::save_registry]; [store_loaded] is the registry a restart
    would load. *)
Class RegistryStore (S : Type) := {
  store_save : Registry -> S -> Result unit string * S;
  store_loaded : S -> option (Result Registry string) }.

(** The contract: a successful save is durable, a failed one changes nothing that a
    restart could see. *)
Class RegistryStoreLaws (S : Type) `{RegistryStore S} := {
  store_save_ok : forall r s s', store_save r s = (Ok tt, s') -> store_loaded s' = Some (Ok r);
  store_save_err : forall r s e s', store_save r s = (Err e, s') -> store_loaded s' = store_loaded s }.

(** The store kept in files.  [store_faults n] are the failures met by the [n]-th save. *)
Record FileStore := {
  store_path : Path;
  store_files : gmap Path string;
  store_saves : nat;
  store_faults : nat -> (FsOp -> option IoError) * (Path -> option string) }.

Section FileStoreInstance.
Context (registry_from_str : string -> Result Registry string)
        (registry_to_string_pretty : Registry -> Result string string).

Definition file_store_world (s : FileStore) : World :=
  {| files := store_files s; ops_left := None;
     io_fault := (store_faults s (store_saves s)).1;
     torn_write := (store_faults s (store_saves s)).2 |}.

Definition file_store_save (r : Registry) (s : FileStore) : Result unit string * FileStore :=
  let '(res, w) := save_posix registry_to_string_pretty (store_path s) r (file_store_world s) in
  (match res with Some x => x | None => Err "interrupted" end,
   {| store_path := store_path s; store_files := files w;
      store_saves := S (store_saves s); store_faults := store_faults s |}).

#[local] Instance file_store : RegistryStore FileStore := {|
  store_save := file_store_save;
  store_loaded s := loaded registry_from_str (store_path s) (store_files s) |}.
End FileStoreInstance.

(** ** Tokens: properties *)

Lemma fold_diff_zero d l r :
  String.length l = String.length r -> (fold_diff d l r = 0%N <-> d = 0%N /\ l = r).
Proof.
  revert d r. induction l as [|a l IH]; intros d [|b r]; cbn [fold_diff String.length];
    intros Hl; try lia; [naive_solver|].
  rewrite IH by lia. rewrite N.lor_eq_0_iff, N.lxor_eq_0_iff. split.
  - intros [[-> Hab] ->]. split; [done|].
    apply (f_equal ascii_of_N) in Hab. unfold ascii_code in Hab.
    rewrite !ascii_N_embedding in Hab. by subst.
  - intros [-> [= -> ->]]. done.
Qed.

Lemma constant_time_hex_eq_spec l r : constant_time_hex_eq l r = true <-> l = r.
Proof.
  unfold constant_time_hex_eq. destruct (_ =? _)%nat eqn:E; cbn [negb]; reflect_bools.
  - rewrite fold_diff_zero by done. naive_solver.
  - split; [done|]. intros ->. done.
Qed.

Lemma hash_matches_spec sha256 token expected :
  hash_matches sha256 token expected = true <-> expected = token_hash sha256 token.
Proof. unfold hash_matches. rewrite constant_time_hex_eq_spec. naive_solver. Qed.

(** The constant-time comparison decides equality: a presented token matches a
    stored hash exactly when its own SHA-256 hash, in lower-case hexadecimal, is that
    stored text, whatever the two lengths are. *)
Theorem hash_matches_iff sha256 token expected :
  hash_matches sha256 token expected = true <-> expected = token_hash sha256 token.
Proof. apply hash_matches_spec. Qed.

(** ** Paths *)

Lemma temp_path_ne path : temp_path path <> path.
Proof. by apply with_extension_ne. Qed.
Lemma backup_path_ne path : backup_path path <> path.
Proof. by apply with_extension_ne. Qed.
Lemma temp_backup_ne path : temp_path path <> backup_path path.
Proof. intros [= H%append_inj_l]. done. Qed.

#[export] Hint Resolve temp_path_ne backup_path_ne temp_backup_ne : relay.
#[export] Hint Extern 1 (_ <> _) => apply not_eq_sym; apply temp_path_ne : relay.
#[export] Hint Extern 1 (_ <> _) => apply not_eq_sym; apply backup_path_ne : relay.
#[export] Hint Extern 1 (_ <> _) => apply not_eq_sym; apply temp_backup_ne : relay.

(** ** Saving: properties *)

Section SaveProps.
Context (registry_from_str : string -> Result Registry string)
        (registry_to_string_pretty : Registry -> Result string string).

#[local] Abbreviation save_posix := (save_posix registry_to_string_pretty).
#[local] Abbreviation save_windows := (save_windows registry_to_string_pretty).
#[local] Abbreviation loaded := (loaded registry_from_str).
#[local] Abbreviation parse := (parse_registry registry_from_str).

(** The text [save] writes for a registry. *)
Definition saved_text (text : string) : string := text ++ String "010" "".

Lemma save_with_inv replace path r w res w' :
  save_with registry_to_string_pretty replace path r w = (res, w') ->
  (files w' !! path = files w !! path /\ files w' !! backup_path path = files w !! backup_path path
   /\ res <> Some (Ok tt))
  \/ (exists text w1, registry_to_string_pretty r = Ok text
      /\ files w1 !! path = files w !! path
      /\ files w1 !! backup_path path = files w !! backup_path path
      /\ files w1 !! temp_path path = Some (saved_text text)
      /\ io_fault w1 = io_fault w
      /\ replace (temp_path path) path w1 = (res, w')).
Proof.
  unfold save_with. intros [[H ->]|(created & w1 & H & Hk)]%fs_bind_inv.
  { left. destruct (parent path); [|done]. apply create_dir_all_inv in H as [-> _]. done. }
  assert (files w1 = files w /\ io_fault w1 = io_fault w) as [Hf1 Hio1].
  { destruct (parent path); [by apply create_dir_all_inv in H|by injection H as <- <-]. }
  destruct created as [[]|e]; cbn in Hk; [|left; injection Hk as <- <-; by rewrite Hf1].
  destruct (registry_to_string_pretty r) as [text|e]; [|left; injection Hk as <- <-; by rewrite Hf1].
  apply fs_bind_inv in Hk as [[Hw ->]|(written & w2 & Hw & Hk)];
    apply write_file_inv in Hw as (Hio2 & Hother & Hw).
  { left. rewrite !Hother, Hf1 by auto with relay. done. }
  destruct written as [[]|e]; cbn in Hk.
  - right. exists text, w2. rewrite !Hother, Hf1 by auto with relay. split_and!; try done.
    + by apply Hw.
    + congruence.
  - left. injection Hk as <- <-. rewrite !Hother, Hf1 by auto with relay. done.
Qed.

Lemma loaded_spec path fs :
  loaded path fs =
  match fs !! path with
  | Some text => Some (parse path text)
  | None => match fs !! backup_path path with
            | Some text => Some (parse (backup_path path) text)
            | None => Some (Ok registry_default)
            end
  end.
Proof.
  unfold Registry.loaded, load, fs_bind, read_to_string, fs_op, healthy. cbn.
  destruct (fs !! path); cbn; [done|].
  destruct (fs !! backup_path path) as [t|] eqn:Hb; cbn; [|done].
  destruct (parse (backup_path path) t); cbn; [|done].
  unfold rename, fs_op. cbn. by rewrite Hb.
Qed.

Lemma save_posix_inv path r w res w'
    (Hsave : save_posix path r w = (res, w')) :
  files w' !! backup_path path = files w !! backup_path path /\
  match res with
  | Some (Ok _) => exists text, registry_to_string_pretty r = Ok text
                   /\ files w' !! path = Some (saved_text text)
  | Some (Err _) | None => files w' !! path = files w !! path
  end.
Proof.
  apply save_with_inv in Hsave as [(Hp & Hb & Hres)|(text & w1 & Ht & Hp & Hb & Htmp & _ & Hr)].
  { split; [done|]. by destruct res as [[[]|e]|]. }
  unfold replace_posix in Hr.
  apply fs_bind_inv in Hr as [[Hr ->]|(r0 & w2 & Hr & Hk)];
    apply rename_inv in Hr as [_ [(Hres & t & Ht2 & Hf)|(Hres & Hf)]]; try done;
    try (by rewrite Hf, Hp, Hb).
  - injection Hres as ->. injection Hk as <- <-. cbn. rewrite Hf.
    rewrite lookup_insert_ne, lookup_delete_ne by auto with relay. split; [done|].
    exists text. rewrite lookup_insert_eq. split; congruence.
  - injection Hk as <- <-. rewrite Hf, Hp. destruct r0 as [[]|e]; [done|]. by rewrite Hb.
Qed.

(** C2. Saving on a POSIX host is atomic: whichever operations fail, whatever a torn
    write leaves behind, and wherever the process dies, the registry file holds the
    complete new text if the save reported success, and otherwise still holds
    what it held before.  In particular a reported error leaves the old registry in
    place, and the backup file is never touched. *)
Theorem save_posix_atomic path r w res w'
    (Hsave : save_posix path r w = (res, w')) :
  files w' !! backup_path path = files w !! backup_path path /\
  match res with
  | Some (Ok _) => exists text, registry_to_string_pretty r = Ok text
                   /\ files w' !! path = Some (saved_text text)
  | Some (Err _) | None => files w' !! path = files w !! path
  end.
Proof. by apply save_posix_inv in Hsave. Qed.

(** The cases in which the Windows save leaves the files: either registry is the one a
    restart loads. *)
Definition recoverable (path : Path) (old new : string) (fs : gmap Path string) : Prop :=
  fs !! path = Some old \/ (fs !! path = None /\ fs !! backup_path path = Some old)
  \/ fs !! path = Some new.

Lemma replace_windows_inv path old new w res w' :
  files w !! path = Some old -> files w !! temp_path path = Some new ->
  io_fault w (ExistsFile path) = None ->
  replace_windows (temp_path path) path w = (res, w') ->
  (files w' !! path = Some old \/ (files w' !! path = None /\ files w' !! backup_path path = Some old))
    /\ res <> Some (Ok tt)
  \/ files w' !! path = Some new /\ (res = None \/ res = Some (Ok tt)).
Proof.
  intros Hold Htmp Hex Hr. unfold replace_windows in Hr.
  apply fs_bind_inv in Hr as [[H ->]|(rm & w1 & H & Hr)].
  { apply remove_file_inv in H as [_ [Hf|Hf]]; rewrite Hf;
      rewrite ?lookup_delete_ne by auto with relay; naive_solver. }
  assert (files w1 !! path = Some old /\ files w1 !! temp_path path = Some new
          /\ io_fault w1 = io_fault w) as (Hold1 & Htmp1 & Hio1).
  { apply remove_file_inv in H as [Hio [Hf|Hf]]; rewrite Hf;
      rewrite ?lookup_delete_ne by auto with relay; done. }
  clear H. apply fs_bind_inv in Hr as [[H ->]|(ex & w2 & H & Hr)];
    apply path_exists_inv in H as (Hf2 & _ & Hex2); [rewrite Hf2; naive_solver|].
  rewrite Hio1 in Hex2. rewrite Hold1 in Hex2.
  destruct (Hex2 Hex) as [?|[= ->]]; [done|].
  rewrite <- Hf2 in Hold1, Htmp1. clear Hex2 Hf2 Hio1.
  apply fs_bind_inv in Hr as [[H ->]|(mv & w3 & H & Hr)];
    apply rename_inv in H as [_ [(Hres & t & Ht & Hf)|(Hres & Hf)]]; try done;
    try (rewrite Hf; naive_solver).
  2: { destruct mv as [[]|e]; [done|]. injection Hr as <- <-. rewrite Hf. naive_solver. }
  injection Hres as ->. cbn in Hr. rewrite Hold1 in Ht. injection Ht as <-.
  assert (files w3 !! path = None /\ files w3 !! backup_path path = Some old
          /\ files w3 !! temp_path path = Some new) as (Hp3 & Hb3 & Ht3).
  { rewrite Hf, lookup_insert_eq, !lookup_insert_ne, lookup_delete_eq, lookup_delete_ne
      by auto with relay. done. }
  apply fs_bind_inv in Hr as [[H ->]|(rep & w4 & H & Hr)];
    apply rename_inv in H as [_ [(Hres & t & Ht & Hf4)|(Hres & Hf4)]]; try done.
  - rewrite Hf4. naive_solver.
  - injection Hres as ->. rewrite Ht3 in Ht. injection Ht as <-. right.
    apply fs_bind_inv in Hr as [[H ->]|(rb & w5 & H & Hr)];
      apply remove_file_inv in H as [_ [Hf5|Hf5]]; try (injection Hr as <- <-);
      rewrite Hf5, Hf4; rewrite ?lookup_delete_ne by auto with relay;
      rewrite lookup_insert_eq; naive_solver.
  - destruct rep as [[]|e]; [done|].
    apply fs_bind_inv in Hr as [[H ->]|(rb & w5 & H & Hr)];
      apply rename_inv in H as [_ [(Hres5 & t & Ht & Hf5)|(Hres5 & Hf5)]]; try done;
      try (injection Hr as <- <-); rewrite Hf5, ?Hf4; try naive_solver.
    rewrite lookup_insert_eq. rewrite Hf4, Hb3 in Ht. naive_solver.
Qed.

(** The Windows save, which cannot replace a file in one step, still never loses
    the registry: if the registry file is present and readable as [r0], then after
    any failures and a crash at any point a restart loads [r0] or the new registry,
    the new one when the save reported success and [r0] when it reported an error. *)
Theorem save_windows_recoverable path r0 r old w res w'
    (Hold : files w !! path = Some old)
    (Hparse_old : registry_from_str old = Ok r0)
    (Hparse_new : forall text, registry_to_string_pretty r = Ok text ->
                    registry_from_str (saved_text text) = Ok r)
    (Hexists : io_fault w (ExistsFile path) = None)
    (Hsave : save_windows path r w = (res, w')) :
  match res with
  | Some (Ok _) => loaded path (files w') = Some (Ok r)
  | Some (Err _) => loaded path (files w') = Some (Ok r0)
  | None => loaded path (files w') = Some (Ok r0) \/ loaded path (files w') = Some (Ok r)
  end.
Proof.
  rewrite loaded_spec.
  apply save_with_inv in Hsave as [(Hp & Hb & Hres)|(text & w1 & Ht & Hp & Hb & Htmp & Hio & Hr)].
  { rewrite Hp, Hold. unfold parse_registry. rewrite Hparse_old.
    destruct res as [[[]|e]|]; naive_solver. }
  apply (replace_windows_inv path old (saved_text text)) in Hr;
    [|congruence|done|by rewrite Hio].
  unfold parse_registry.
  destruct Hr as [[[Hp'|[Hp' Hb']] Hres]|[Hp' Hres]]; rewrite Hp', ?Hb', ?Hparse_old,
    ?(Hparse_new text Ht); destruct res as [[[]|e]|]; naive_solver.
Qed.

(** The handlers' store is implemented by the files: with a JSON printer and
    parser that agree, saving through [save_posix] satisfies the contract
    [RegistryStoreLaws] whatever operations fail (a successful save is what a restart
    loads, a failed one leaves what a restart loads unchanged). *)
Theorem file_store_refines
    (Hjson : forall r text, registry_to_string_pretty r = Ok text ->
               registry_from_str (saved_text text) = Ok r) :
  @RegistryStoreLaws FileStore (file_store registry_from_str registry_to_string_pretty).
Proof.
  split; cbn; unfold file_store_save; intros r s.
  - intros s'. destruct (Registry.save_posix _ _ _ _) as [res w] eqn:Hs.
    apply save_posix_inv in Hs as [Hb Hs]. intros [= Hres <-]; cbn.
    destruct res as [[[]|e]|]; try done. destruct Hs as (text & Ht & Hp).
    rewrite loaded_spec, Hp. unfold parse_registry. by rewrite (Hjson r text Ht).
  - intros e s'. destruct (Registry.save_posix _ _ _ _) as [res w] eqn:Hs.
    apply save_posix_inv in Hs as [Hb Hs]. intros [= Hres <-]; cbn.
    rewrite !loaded_spec, Hb. by destruct res as [[[]|e']|]; try rewrite Hs.
Qed.
End SaveProps.

(** ** A concrete JSON stand-in for the witnesses

    Any injective text encoding will do; this one writes the [Countable] code of the
    registry in binary, before the newline [save] appends. *)

#[export] Instance DeviceRecord_eq_dec : EqDecision DeviceRecord.
Proof. solve_decision. Defined.
#[export] Instance DeviceRecord_countable : Countable DeviceRecord.
Proof.
  refine (inj_countable' (fun d => (dev_token_hash d, dev_created_at d))
            (fun q => {| dev_token_hash := q.1; dev_created_at := q.2 |}) _).
  by intros [].
Defined.
#[export] Instance DesktopRecord_eq_dec : EqDecision DesktopRecord.
Proof. solve_decision. Defined.
#[export] Instance DesktopRecord_countable : Countable DesktopRecord.
Proof.
  refine (inj_countable'
    (fun d => (desk_token_hash d, desk_device_name d, desk_app_version d, desk_platform d,
               desk_created_at d, desk_devices d))
    (fun '(a, b, c, d, e, f) =>
       {| desk_token_hash := a; desk_device_name := b; desk_app_version := c;
          desk_platform := d; desk_created_at := e; desk_devices := f |}) _).
  by intros [].
Defined.
#[export] Instance Registry_eq_dec : EqDecision Registry.
Proof. solve_decision. Defined.
#[export] Instance Registry_countable : Countable Registry.
Proof.
  refine (inj_countable' (fun r => (desktops r, used_registration_invites r))
            (fun q => {| desktops := q.1; used_registration_invites := q.2 |}) _).
  by intros [].
Defined.

Definition sample_to_string (r : Registry) : Result string string := Ok (binary_text (encode r)).
Definition sample_from_str (s : string) : Result Registry string :=
  match binary_read s with
  | Some p => match decode p with Some r => Ok r | None => Err "bad code" end
  | None => Err "bad text"
  end.

Lemma sample_json_roundtrip r text :
  sample_to_string r = Ok text -> sample_from_str (saved_text text) = Ok r.
Proof.
  intros [= <-]. unfold sample_from_str, saved_text. by rewrite binary_read_text, decode_encode.
Qed.

Definition sample_path : Path := {| parent := Some "/var/lib/chatx"; file_name := "relay.json" |}.

(** A world in which every rename fails and the process dies after its fifth operation. *)
Definition sample_world (text : string) : World :=
  {| files := {[ sample_path := text ]}; ops_left := Some 5;
     io_fault := fun op => match op with RenameFile _ t => if decide (t = sample_path)
                             then Some (OtherIo "denied") else None | _ => None end;
     torn_write := fun _ => Some "half" |}.

Lemma save_posix_atomic_witness :
  files (save_posix sample_to_string sample_path registry_default (sample_world "old")).2
    !! sample_path = Some "old".
Proof.
  exact (proj2 (save_posix_atomic sample_to_string sample_path registry_default
    (sample_world "old") (Some (Err "replace relay registry failed: denied")) _
    ltac:(vm_compute; reflexivity))).
Defined.

Lemma save_windows_recoverable_witness :
  let old := match sample_to_string registry_default with Ok t => t | Err e => e end in
  let r := {| desktops := ∅; used_registration_invites := {[ "n" := 5%N ]} |} in
  let out := save_windows sample_to_string sample_path r (sample_world old) in
  out.1 = None /\
  (loaded sample_from_str sample_path (files out.2) = Some (Ok registry_default)
   \/ loaded sample_from_str sample_path (files out.2) = Some (Ok r)).
Proof.
  intros old r out. split; [vm_compute; reflexivity|].
  apply (save_windows_recoverable sample_from_str sample_to_string sample_path registry_default r old
           (sample_world old) None out.2).
  - reflexivity.
  - vm_compute. reflexivity.
  - apply sample_json_roundtrip.
  - reflexivity.
  - vm_compute. reflexivity.
Defined.

Lemma file_store_refines_witness :
  @RegistryStoreLaws FileStore (file_store sample_from_str sample_to_string).
Proof. exact (file_store_refines sample_from_str sample_to_string sample_json_roundtrip). Defined.

(** With the registry only in the backup file (a [load] whose repairing rename failed,
    an error it ignores), the Windows save removes that only copy first: dying before
    the last rename leaves a restart with the empty registry. *)
Lemma save_windows_drops_sole_backup :
  exists r0 old w w', sample_to_string r0 = Ok old /\ r0 <> registry_default
    /\ io_fault w = (fun _ => None)
    /\ loaded sample_from_str sample_path (files w) = Some (Ok r0)
    /\ save_windows sample_to_string sample_path r0 w = (None, w')
    /\ loaded sample_from_str sample_path (files w') = Some (Ok registry_default).
Proof.
  set (r0 := {| desktops := ∅; used_registration_invites := {[ "n" := 5%N ]} |}).
  set (old := match sample_to_string r0 with Ok t => t | Err e => e end).
  set (w := {| files := {[ backup_path sample_path := old ]}; ops_left := Some 4;
               io_fault := fun _ => None; torn_write := fun _ => None |}).
  exists r0, old, w, (save_windows sample_to_string sample_path r0 w).2.
  split_and!; try (vm_compute; reflexivity).
  intros H. apply (f_equal (fun r => size (used_registration_invites r))) in H.
  vm_compute in H. discriminate.
Qed.
