(* ===== verification/McpGateway.v ===== *)
(** * The MCP gateway ([relay-server/src/mcp_gateway.rs], transport part)

    The reverse transport that carries public MCP requests over one desktop websocket:
    the pending-request table, delivery of the desktop's replies to the HTTP readers
    ([receive]), session failure and credential rotation, the upload stream and the
    body stream.  The request handlers that also need the relay's state are in
    [McpRequests]. *)

From S2P Require Export Registry Json.
Local Open Scope string_scope.

(** ** Replies and their bounded queues *)

Inductive Reply :=
| Head (status : N) (headers : list (string * string))
| Chunk (bytes : list byte)
| End_
| Error
| UploadTooLarge
| UploadFailed.

(** [tokio::sync::mpsc] with its capacity fixed at creation: [try_send] answers [None]
    when the queue is full. *)
Class MpscQueue (Q : Type) := {
  q_channel : nat -> Q;
  q_try_send : Reply -> Q -> option Q;
  q_recv : Q -> option (Reply * Q);
  q_items : Q -> list Reply }.

Class MpscQueueLaws (Q : Type) `{MpscQueue Q} := {
  q_channel_items : forall n, q_items (q_channel n) = [];
  q_try_send_items : forall r q q', q_try_send r q = Some q' -> q_items q' = (q_items q ++ [r])%list;
  q_recv_Some : forall r q q', q_recv q = Some (r, q') -> q_items q = r :: q_items q';
  q_recv_None : forall q, q_recv q = None -> q_items q = [] }.

Inductive Outgoing :=
| OutText (v : Value)
| OutBinary (frame : list byte).

Definition LEGACY_MAX_REQUEST : N := McpHttp.LEGACY_MAX_REQUEST_BYTES.
Definition MAX_CHUNK : N := McpStream.MAX_FRAME_BODY.
Definition MAX_RESPONSE : N := McpStream.MAX_RESPONSE_BYTES.
Definition MAX_PENDING : nat := McpStream.MAX_INFLIGHT.

Record Active := {
  act_session_id : string;
  act_version : N;
  act_credential_hash : string }.

(** A pending request.  Its sender and its [Arc<AtomicBool>] are shared with the HTTP
    reader: both live in the cell [pen_cell] of the gateway. *)
Record Pending := {
  pen_session_id : string;
  pen_cell : N;
  pen_bytes : N }.

(** What a request shares between the websocket task and the HTTP task: the reply queue,
    the error flag, and whether the upload task still holds a sender. *)
Record Cell (Q : Type) := {
  cell_queue : Q;
  cell_errored : bool;
  cell_uploading : bool }.
Arguments cell_queue {Q}.
Arguments cell_errored {Q}.
Arguments cell_uploading {Q}.

Record Gateway (Q : Type) := {
  gw_desktop_id : option string;
  gw_active : option Active;
  gw_pending : Mutex (gmap string Pending);
  gw_cells : gmap N (Cell Q) }.
Arguments gw_desktop_id {Q}.
Arguments gw_active {Q}.
Arguments gw_pending {Q}.
Arguments gw_cells {Q}.

(** Effects on other tasks: [active.close.send(true)] and sends on the websocket queue of
    a session. *)
Inductive GwEffect :=
| CloseSession (session_id : string)
| SendOutgoing (session_id : string) (packet : Outgoing).

(** [valid_desktop_id] *)
Definition valid_desktop_id (id : string) : bool :=
  starts_with "d_" id && ((18 <=? strlen id) && (strlen id <=? 80))%N
  && string_forall is_ascii_hexdigit (string_skip 2 id).

Definition valid_request_id (id : string) : bool :=
  (strlen id =? 32)%N && string_forall is_ascii_hexdigit id.

Section Gateway.
Context {Q : Type} `{MpscQueue Q}.
(** [STANDARD.decode(_).ok()] *)
Context (base64_decode : string -> option (list byte)).

Implicit Types g : Gateway Q.

Definition set_active (a : option Active) g : Gateway Q :=
  {| gw_desktop_id := gw_desktop_id g; gw_active := a;
     gw_pending := gw_pending g; gw_cells := gw_cells g |}.
Definition set_pending (p : gmap string Pending) g : Gateway Q :=
  {| gw_desktop_id := gw_desktop_id g; gw_active := gw_active g;
     gw_pending := set_guarded p (gw_pending g); gw_cells := gw_cells g |}.
Definition set_cells (c : gmap N (Cell Q)) g : Gateway Q :=
  {| gw_desktop_id := gw_desktop_id g; gw_active := gw_active g;
     gw_pending := gw_pending g; gw_cells := c |}.

(** [Gateway::from_env], given the variable [CHATX_MCP_DESKTOP_ID]. *)
Definition from_env (var : option string) : Gateway Q :=
  {| gw_desktop_id := match var with
                      | Some id => if valid_desktop_id id then Some id else None
                      | None => None
                      end;
     gw_active := None; gw_pending := new_mutex ∅; gw_cells := ∅ |}.

(** *** Cells *)

Definition mark_errored (c : Cell Q) : Cell Q :=
  {| cell_queue := cell_queue c; cell_errored := true; cell_uploading := cell_uploading c |}.

(** [tx.try_send(reply)]: the cell after it, and whether it was accepted. *)
Definition push_reply (r : Reply) (c : Cell Q) : bool * Cell Q :=
  match q_try_send r (cell_queue c) with
  | Some q => (true, {| cell_queue := q; cell_errored := cell_errored c;
                        cell_uploading := cell_uploading c |})
  | None => (false, c)
  end.

(** [let _ = tx.try_send(reply)] *)
Definition push_ignore (r : Reply) (c : Cell Q) : Cell Q := (push_reply r c).2.

(** *** [fail_session] *)

Definition fail_cell (session_id : string) (p : Pending) (cells : gmap N (Cell Q))
    : gmap N (Cell Q) :=
  if String.eqb (pen_session_id p) session_id
  then alter (fun c => push_ignore Error (mark_errored c)) (pen_cell p) cells
  else cells.

Definition fail_session (session_id : string) g : Gateway Q :=
  let_some pending := lock (gw_pending g) else g in
  set_pending (retain (fun _ item => negb (String.eqb (pen_session_id item) session_id)) pending)
    (set_cells (foldr (fun (kv : string * Pending) cs => fail_cell session_id kv.2 cs) (gw_cells g)
                  (map_to_list pending)) g).

(** [revoke_desktop] *)
Definition revoke_desktop (desktop_id : string) g : Gateway Q * list GwEffect :=
  if decide (gw_desktop_id g = Some desktop_id) then
    match gw_active g with
    | Some active =>
        (fail_session (act_session_id active) (set_active None g),
         [CloseSession (act_session_id active)])
    | None => (g, [])
    end
  else (g, []).

(** [disconnect] *)
Definition disconnect (session_id : string) g : Gateway Q :=
  let g := match gw_active g with
           | Some route => if String.eqb (act_session_id route) session_id
                           then set_active None g else g
           | None => g
           end in
  fail_session session_id g.

(** *** [receive] *)

Definition response_headers (packet : Value) : list (string * string) :=
  match get "headers" packet with
  | Some h => match as_object h with
              | Some o => omap (fun kv => match as_str kv.2 with
                                          | Some value => if McpHttp.allowed_response_header kv.1
                                                          then Some (kv.1, value) else None
                                          | None => None
                                          end) o
              | None => []
              end
  | None => []
  end.

(** The reply a text packet stands for, with the number of body bytes it adds. *)
Definition packet_reply (version : N) (bytes : N) (packet : Value) : option (Reply * N) :=
  let_some kind := match get "type" packet with
                   | Some t => match as_str t with Some s => McpControl.parse s | None => None end
                   | None => None
                   end else None in
  match kind with
  | McpControl.Head =>
      let_some status := match get "status" packet with Some s => as_u64 s | None => None end
        else None in
      if (200 <=? status)%N && (status <=? 599)%N
      then Some (Head status (response_headers packet), 0%N) else None
  | McpControl.Chunk =>
      if (version =? McpHttp.WSS_PROTOCOL_V1)%N then
        let_some encoded := match get "data" packet with Some d => as_str d | None => None end
          else None in
        if (MAX_CHUNK * 4 / 3 + 8 <? strlen encoded)%N then None
        else
          let_some data := base64_decode encoded else None in
          if (MAX_CHUNK <? nlen data)%N
             || (McpHttp.LEGACY_MAX_RESPONSE_BYTES <? bytes + nlen data)%N
          then Some (Error, 0%N) else Some (Chunk data, nlen data)
      else None
  | McpControl.End_ => Some (End_, 0%N)
  | McpControl.Error => Some (Error, 0%N)
  | _ => None
  end.

Definition is_finished (r : Reply) : bool :=
  match r with End_ | Error => true | _ => false end.
Definition is_error (r : Reply) : bool :=
  match r with Error => true | _ => false end.

(** The part of [receive] under the pending lock: the reply, the cell it goes to and
    the table afterwards. *)
Definition select_reply (session_id : string) (version : N) (id : string)
    (packet : option Value) (body : option (list byte)) (pending : gmap string Pending)
    : option (Reply * N * gmap string Pending) :=
  let_some item := pending !! id else None in
  return_if negb (String.eqb (pen_session_id item) session_id) with None in
  let reply :=
    match body with
    | Some data =>
        if negb (version =? 2)%N then None
        else if (MAX_RESPONSE <? saturating_add (pen_bytes item) (nlen data))%N
             then Some (Error, 0%N) else Some (Chunk data, nlen data)
    | None =>
        match packet with
        | Some p => packet_reply version (pen_bytes item) p
        | None => None
        end
    end in
  match reply with
  | Some (r, added) =>
      let item' := {| pen_session_id := pen_session_id item; pen_cell := pen_cell item;
                      pen_bytes := pen_bytes item + added |} in
      Some (r, pen_cell item,
            if is_finished r then delete id pending else <[id := item']> pending)
  | None => None
  end.

(** The part of [receive] after the lock is released: [try_send], and on a full queue
    the abort of that request only. *)
Definition deliver (id : string) (cell : N) (r : Reply) g : Gateway Q :=
  let g := if is_error r then set_cells (alter mark_errored cell (gw_cells g)) g else g in
  let_some c := gw_cells g !! cell else g in
  let '(sent, c') := push_reply r c in
  if sent then set_cells (<[cell := c']> (gw_cells g)) g
  else
    let g := set_cells (<[cell := mark_errored c]> (gw_cells g)) g in
    match lock (gw_pending g) with
    | Some pending => set_pending (delete id pending) g
    | None => g
    end.

(** The request a message is about: the id of a response-body frame, else the text
    packet's [requestId]. *)
Definition addressed_request (decoded : option (McpStream.Kind * string * list byte))
    (packet : option Value) : option string :=
  match decoded with
  | Some (McpStream.ResponseBody, id, _) => Some id
  | _ => match packet with
         | Some p => match get "requestId" p with Some v => as_str v | None => None end
         | None => None
         end
  end.

Definition receive (session_id : string) (version : N) (packet : option Value)
    (binary : option (list byte)) g : Gateway Q :=
  let decoded := match binary with Some frame => McpStream.decode frame | None => None end in
  let body := match decoded with Some (McpStream.ResponseBody, _, b) => Some b | _ => None end in
  let_some id := addressed_request decoded packet else g in
  return_if negb (valid_request_id id) with g in
  let_some pending := lock (gw_pending g) else g in
  match select_reply session_id version id packet body pending with
  | Some (r, cell, pending') => deliver id cell r (set_pending pending' g)
  | None => g
  end.

(** *** The HTTP side of a request *)

(** Admission into the pending table, as in [public_request]: a fresh cell for the
    16-slot queue, shared by the entry and the reader. *)
Definition REPLY_QUEUE : nat := 16.

Definition admit_request (session_id request_id : string) (cell : N) (uploading : bool) g
    : option (Gateway Q) :=
  let_some pending := lock (gw_pending g) else None in
  return_if (MAX_PENDING <=? size pending)%nat with None in
  Some (set_cells (<[cell := {| cell_queue := q_channel REPLY_QUEUE; cell_errored := false;
                                cell_uploading := uploading |}]> (gw_cells g))
         (set_pending (<[request_id := {| pen_session_id := session_id; pen_cell := cell;
                                          pen_bytes := 0 |}]> pending) g)).

(** [PendingGuard::drop]: abort the upload, tell the desktop unless the response was
    complete, and leave the table.  The cell's sender held by the upload goes away. *)
Definition guard_drop (session_id request_id : string) (cell : N) (finished : bool) g
    : Gateway Q * list GwEffect :=
  let g := set_cells (alter (fun c => {| cell_queue := cell_queue c; cell_errored := cell_errored c;
                                         cell_uploading := false |}) cell (gw_cells g)) g in
  let effects :=
    if finished then []
    else [SendOutgoing session_id
            (OutText (Object [("requestId", VString request_id); ("type", VString "request_cancel")]))] in
  match lock (gw_pending g) with
  | Some pending => (set_pending (delete request_id pending) g, effects)
  | None => (g, effects)
  end.

(** The outcome of [timeout(_, rx.recv())]. *)
Inductive RecvOutcome :=
| Received (r : Reply)
| Closed
| TimedOut.

(** A sender of the cell's queue is alive: a pending entry's or the upload's. *)
Definition sender_alive (cell : N) g : bool :=
  match gw_cells g !! cell with
  | Some c => cell_uploading c
  | None => false
  end
  || existsb (fun kv => (pen_cell kv.2 =? cell)%N) (map_to_list (guarded (gw_pending g))).

(** [rx.recv()]: the next reply, [Closed] once the queue is empty and every sender is
    gone; [None] while it waits. *)
Definition recv_reply (cell : N) g : option (RecvOutcome * Gateway Q) :=
  match gw_cells g !! cell with
  | None => None
  | Some c =>
      match q_recv (cell_queue c) with
      | Some (r, q) =>
          Some (Received r,
                set_cells (<[cell := {| cell_queue := q; cell_errored := cell_errored c;
                                        cell_uploading := cell_uploading c |}]> (gw_cells g)) g)
      | None => if sender_alive cell g then None else Some (Closed, g)
      end
  end.

Definition errored (cell : N) g : bool :=
  match gw_cells g !! cell with Some c => cell_errored c | None => false end.

(** One step of the body stream ([stream::unfold]'s closure). *)
Inductive StreamItem :=
| YieldBytes (bytes : list byte)
| YieldError
| StreamEnd (finished : bool).

Definition body_step (reported_error errored : bool) (outcome : RecvOutcome) : StreamItem :=
  if reported_error then StreamEnd false
  else match outcome with
       | Received (Chunk bytes) => YieldBytes bytes
       | Received End_ => StreamEnd true
       | Closed => if negb errored then StreamEnd false else YieldError
       | _ => YieldError
       end.
End Gateway.

(** ** Uploads ([stream_upload]) *)

(** [slice::chunks(n)] for [n > 0]; [fuel] bounds the number of pieces. *)
Fixpoint chunks_fuel (fuel : nat) (n : nat) (l : list byte) : list (list byte) :=
  match fuel, l with
  | _, [] => []
  | O, _ => []
  | S fuel', _ => firstn n l :: chunks_fuel fuel' n (skipn n l)
  end.

Definition chunks (n : N) (l : list byte) : list (list byte) :=
  chunks_fuel (length l) (N.to_nat n) l.

Inductive UploadEnd :=
| UploadDone
| UploadStopped (reply : option Reply).

(** [tx.send(packet).await] on the websocket queue, which takes [left] more packets before
    its receiver is dropped ([None]: it never is). *)
Definition ws_send (left : option nat) : option (option nat) :=
  match left with
  | None => Some None
  | Some O => None
  | Some (S n) => Some (Some n)
  end.

(** The frames of one body chunk, and the queue afterwards ([None]: the task returned). *)
Fixpoint upload_frames (id : string) (left : option nat) (pieces : list (list byte))
    : list Outgoing * option (option nat) :=
  match pieces with
  | [] => ([], Some left)
  | piece :: rest =>
      match McpStream.encode McpStream.RequestBody id piece with
      | Some frame =>
          match ws_send left with
          | Some left' => let '(out, l) := upload_frames id left' rest in (OutBinary frame :: out, l)
          | None => ([], None)
          end
      | None => ([], None)
      end
  end.

Definition request_end_packet (id : string) : Outgoing :=
  OutText (Object [("requestId", VString id); ("type", VString "request_end")]).

(** [stream_upload] over the items of the HTTP body: what it sends, and the reply (if any)
    it leaves for the HTTP side. *)
Fixpoint stream_upload (id : string) (left : option nat) (total : N)
    (body : list (Result (list byte) unit)) : list Outgoing * UploadEnd :=
  match body with
  | [] => (match ws_send left with Some _ => [request_end_packet id] | None => [] end, UploadDone)
  | Err _ :: _ => ([], UploadStopped (Some UploadFailed))
  | Ok chunk :: rest =>
      let total := saturating_add total (nlen chunk) in
      if (McpStream.MAX_REQUEST_BYTES <? total)%N
      then ([], UploadStopped (Some UploadTooLarge))
      else
        match upload_frames id left (chunks MAX_CHUNK chunk) with
        | (out, Some left') =>
            let '(out', fin) := stream_upload id left' total rest in ((out ++ out')%list, fin)
        | (out, None) => (out, UploadStopped None)
        end
  end.

(** ** The system of requests

    Every request admitted so far, with the state of its HTTP task; a step is one atomic
    action of the websocket task, of an upload or of an HTTP reader. *)

Inductive Phase :=
| AwaitingHead
| Streaming
| Interrupted
| Ended (finished : bool)
| Gone.

Record Reader := {
  rd_session : string;
  rd_request_id : string;
  rd_phase : Phase }.

Record Exchange (Q : Type) := {
  ex_gateway : Gateway Q;
  ex_readers : gmap N Reader }.
Arguments ex_gateway {Q}.
Arguments ex_readers {Q}.

Section Exchange.
Context {Q : Type} `{MpscQueue Q}.
Context (base64_decode : string -> option (list byte)).

Definition set_phase (ph : Phase) (rd : Reader) : Reader :=
  {| rd_session := rd_session rd; rd_request_id := rd_request_id rd; rd_phase := ph |}.

Definition upload_finished (cell : N) (reply : option Reply) (g : Gateway Q) : Gateway Q :=
  let close := fun c : Cell Q => {| cell_queue := cell_queue c; cell_errored := cell_errored c;
                                    cell_uploading := false |} in
  match reply with
  | Some r => set_cells (alter (fun c => close (push_ignore r c)) cell (gw_cells g)) g
  | None => set_cells (alter close cell (gw_cells g)) g
  end.

(** What the HTTP task does with the outcome of its [recv]: [public_request] up to the
    response head, then the body stream; ending it drops the guard. *)
Definition reader_phase (rd : Reader) (errored : bool) (outcome : RecvOutcome) : Phase :=
  match rd_phase rd with
  | AwaitingHead => match outcome with Received (Head _ _) => Streaming | _ => Gone end
  | Streaming => match body_step false errored outcome with
                 | YieldBytes _ => Streaming
                 | YieldError => Interrupted
                 | StreamEnd f => Ended f
                 end
  | ph => ph
  end.

Definition drops_guard (ph : Phase) : bool :=
  match ph with Gone | Ended _ => true | _ => false end.

Definition reader_step (cell : N) (rd : Reader) (outcome : RecvOutcome) (g : Gateway Q)
    (readers : gmap N Reader) : Exchange Q :=
  let ph := reader_phase rd (errored cell g) outcome in
  {| ex_gateway :=
       if drops_guard ph
       then (guard_drop (rd_session rd) (rd_request_id rd) cell
               (match ph with Ended true => true | _ => false end) g).1
       else g;
     ex_readers := <[cell := set_phase ph rd]> readers |}.

Definition reading (rd : Reader) : Prop := rd_phase rd = AwaitingHead \/ rd_phase rd = Streaming.

Definition with_gateway (f : Gateway Q -> Gateway Q) (x : Exchange Q) : Exchange Q :=
  {| ex_gateway := f (ex_gateway x); ex_readers := ex_readers x |}.

Inductive gstep : Exchange Q -> Exchange Q -> Prop :=
| step_admit x session id cell uploading g' :
    ex_readers x !! cell = None ->
    (forall c rd, ex_readers x !! c = Some rd -> rd_request_id rd <> id) ->
    admit_request session id cell uploading (ex_gateway x) = Some g' ->
    gstep x {| ex_gateway := g';
               ex_readers := <[cell := {| rd_session := session; rd_request_id := id;
                                          rd_phase := AwaitingHead |}]> (ex_readers x) |}
| step_receive x session version packet binary :
    gstep x (with_gateway (receive base64_decode session version packet binary) x)
| step_connect x active :
    gstep x (with_gateway (set_active (Some active)) x)
| step_fail_session x session :
    gstep x (with_gateway (fail_session session) x)
| step_revoke x desktop :
    gstep x (with_gateway (fun g => (revoke_desktop desktop g).1) x)
| step_disconnect x session :
    gstep x (with_gateway (disconnect session) x)
| step_upload x cell reply :
    gstep x (with_gateway (upload_finished cell reply) x)
| step_read x cell rd outcome g' :
    ex_readers x !! cell = Some rd -> reading rd ->
    recv_reply cell (ex_gateway x) = Some (outcome, g') ->
    gstep x (reader_step cell rd outcome g' (ex_readers x))
| step_timeout x cell rd :
    ex_readers x !! cell = Some rd -> reading rd ->
    gstep x (reader_step cell rd TimedOut (ex_gateway x) (ex_readers x))
| step_hangup x cell rd :
    ex_readers x !! cell = Some rd ->
    gstep x {| ex_gateway := (guard_drop (rd_session rd) (rd_request_id rd) cell false
                                (ex_gateway x)).1;
               ex_readers := <[cell := set_phase Gone rd]> (ex_readers x) |}.

Definition initial_exchange (var : option string) : Exchange Q :=
  {| ex_gateway := from_env var; ex_readers := ∅ |}.

Inductive reachable : Exchange Q -> Prop :=
| reachable_init var : reachable (initial_exchange var)
| reachable_step x y : reachable x -> gstep x y -> reachable y.
End Exchange.

(** ** Gateway: properties *)

Section GatewayProps.
Context {Q : Type} `{MpscQueue Q} `{!MpscQueueLaws Q}.
Context (base64_decode : string -> option (list byte)).
Implicit Types (g : Gateway Q) (cells : gmap N (Cell Q)) (c : Cell Q).

(** A cell never forgets an error or a queued end marker. *)
Definition cell_le c c' : Prop :=
  (cell_errored c = true -> cell_errored c' = true)
  /\ (In End_ (q_items (cell_queue c)) -> In End_ (q_items (cell_queue c'))).

Definition cells_le cells cells' : Prop :=
  forall n c, cells !! n = Some c -> exists c', cells' !! n = Some c' /\ cell_le c c'.

#[local] Instance cell_le_refl : Reflexive cell_le.
Proof. by intros c. Qed.
#[local] Instance cell_le_trans : Transitive cell_le.
Proof. intros a b c [] []. split; auto. Qed.
#[local] Instance cells_le_refl : Reflexive cells_le.
Proof. intros m n c Hc. by exists c. Qed.
#[local] Instance cells_le_trans : Transitive cells_le.
Proof.
  intros a b d Hab Hbd n c Hc. destruct (Hab n c Hc) as (c' & Hc' & Hle).
  destruct (Hbd n c' Hc') as (c'' & Hc'' & Hle'). exists c''. split; [done|]. by etrans.
Qed.

Lemma cells_le_alter f cells n : (forall c, cell_le c (f c)) -> cells_le cells (alter f n cells).
Proof.
  intros Hf m c Hc. destruct (decide (n = m)) as [->|Hne].
  - exists (f c). by rewrite lookup_alter_eq, Hc.
  - exists c. by rewrite lookup_alter_ne.
Qed.

Lemma cells_le_insert cells n c c' : cells !! n = Some c -> cell_le c c' -> cells_le cells (<[n := c']> cells).
Proof.
  intros Hc Hle m d Hd. destruct (decide (n = m)) as [->|Hne].
  - exists c'. rewrite lookup_insert_eq. by simplify_eq.
  - exists d. by rewrite lookup_insert_ne.
Qed.

Lemma mark_errored_le c : cell_le c (mark_errored c).
Proof. by split. Qed.

Lemma push_reply_le r c : cell_le c (push_reply r c).2.
Proof.
  unfold push_reply. destruct (q_try_send r (cell_queue c)) as [q|] eqn:Hq; [|done].
  split; cbn; [done|]. rewrite (q_try_send_items _ _ _ Hq), in_app_iff. auto.
Qed.

Lemma push_reply_sent r c c' :
  push_reply r c = (true, c') -> q_items (cell_queue c') = (q_items (cell_queue c) ++ [r])%list.
Proof.
  unfold push_reply. destruct (q_try_send r (cell_queue c)) as [q|] eqn:Hq; [|done].
  intros [= <-]. cbn. by apply q_try_send_items.
Qed.

(** A reader is safe: a pending entry still feeds it, or its stream is known to be broken,
    or the end marker is on its way. *)
Definition cell_ok (pend : gmap string Pending) cells (n : N) : Prop :=
  exists c, cells !! n = Some c /\
    ((exists id p, pend !! id = Some p /\ pen_cell p = n)
     \/ cell_errored c = true \/ In End_ (q_items (cell_queue c))).

Lemma cell_ok_mono pend pend' cells cells' n :
  cells_le cells cells' ->
  (forall id p, pend !! id = Some p -> pen_cell p = n ->
     exists id' p', pend' !! id' = Some p' /\ pen_cell p' = n) ->
  cell_ok pend cells n -> cell_ok pend' cells' n.
Proof.
  intros Hle Hp (c & Hc & Hok). destruct (Hle n c Hc) as (c' & Hc' & He & Hi).
  exists c'. split; [done|]. destruct Hok as [(id & p & Hid & Hn)|[?|?]]; eauto.
Qed.

Lemma fail_cell_hit s p cells :
  pen_session_id p = s ->
  fail_cell s p cells = alter (fun c => push_ignore Error (mark_errored c)) (pen_cell p) cells.
Proof. intros <-. unfold fail_cell. by rewrite String.eqb_refl. Qed.

Lemma fail_cell_le s p cells : cells_le cells (fail_cell s p cells).
Proof.
  unfold fail_cell. destruct (String.eqb _ _); [|done].
  apply cells_le_alter. intros c. etrans; [apply mark_errored_le|apply push_reply_le].
Qed.

Lemma fail_fold_le s (l : list (string * Pending)) cells :
  cells_le cells (foldr (fun (kv : string * Pending) cs => fail_cell s kv.2 cs) cells l).
Proof.
  induction l as [|[id p] l IH]; cbn [foldr]; [done|]. etrans; [done|]. apply fail_cell_le.
Qed.

Lemma fail_fold_marks s (l : list (string * Pending)) cells id p c :
  In (id, p) l -> pen_session_id p = s -> cells !! pen_cell p = Some c ->
  exists c', foldr (fun (kv : string * Pending) cs => fail_cell s kv.2 cs) cells l !! pen_cell p = Some c'
    /\ cell_errored c' = true.
Proof.
  intros Hin Hs Hc. induction l as [|[id' p'] l IH]; [done|]. cbn [foldr snd].
  destruct Hin as [[= -> ->]|Hin].
  - rewrite (fail_cell_hit s p _ Hs). destruct (fail_fold_le s l cells _ _ Hc) as (c' & Hc' & _).
    rewrite lookup_alter_eq, Hc'. eexists. split; [done|].
    by apply (push_reply_le Error (mark_errored c')).
  - destruct (IH Hin) as (c' & Hc' & He).
    destruct (fail_cell_le s p' _ _ _ Hc') as (c'' & Hc'' & Hle').
    exists c''. split; [done|]. by apply Hle'.
Qed.

Lemma fail_session_ok s g n :
  cell_ok (guarded (gw_pending g)) (gw_cells g) n ->
  cell_ok (guarded (gw_pending (fail_session s g))) (gw_cells (fail_session s g)) n.
Proof.
  unfold fail_session, lock. destruct (poisoned _); [done|]. cbn.
  intros (c & Hc & Hok). destruct (fail_fold_le s (map_to_list (guarded (gw_pending g))) _ n c Hc)
    as (c' & Hc' & He & Hi).
  destruct Hok as [(id & p & Hid & <-)|[?|?]]; [|exists c'; auto..].
  destruct (String.eqb (pen_session_id p) s) eqn:Es.
  - apply String.eqb_eq in Es.
    destruct (fail_fold_marks s (map_to_list (guarded (gw_pending g))) (gw_cells g) id p c)
      as (d & Hd & Hde); [|done|done|].
    { apply list_elem_of_In, elem_of_map_to_list. done. }
    exists d. auto.
  - exists c'. split; [done|]. left. exists id, p. split; [|done].
    apply lookup_retain. by rewrite Es.
Qed.

Lemma fail_session_pending s g id p :
  guarded (gw_pending (fail_session s g)) !! id = Some p -> guarded (gw_pending g) !! id = Some p.
Proof.
  unfold fail_session, lock. destruct (poisoned _); [done|]. cbn. by rewrite lookup_retain; intros [].
Qed.

Lemma select_reply_Some s v id packet body pend r cell pend' :
  select_reply base64_decode s v id packet body pend = Some (r, cell, pend') ->
  exists item, pend !! id = Some item /\ pen_session_id item = s /\ pen_cell item = cell
    /\ ((is_finished r = true /\ pend' = delete id pend)
        \/ (is_finished r = false /\ exists item', pend' = <[id := item']> pend
            /\ pen_cell item' = cell /\ pen_session_id item' = s)).
Proof.
  unfold select_reply. destruct (pend !! id) as [item|]; [|done].
  destruct (String.eqb _ _) eqn:Es; [|done]. apply String.eqb_eq in Es. cbn [negb].
  destruct (match body with Some _ => _ | None => _ end) as [[r' added]|]; [|done].
  intros [= <- <- <-]. exists item. split_and!; try done.
  destruct (is_finished r'); [by left|right]. split; [done|]. by eexists.
Qed.

Lemma legacy_below_max : (McpHttp.LEGACY_MAX_RESPONSE_BYTES <= MAX_RESPONSE)%N.
Proof. vm_compute. discriminate. Qed.

Lemma max_below_u64 : (MAX_RESPONSE < u64_max)%N.
Proof. vm_compute. reflexivity. Qed.

Lemma packet_reply_bytes v bytes pk r added :
  packet_reply base64_decode v bytes pk = Some (r, added) ->
  added = 0%N \/ (bytes + added <= MAX_RESPONSE)%N.
Proof.
  pose proof legacy_below_max as Hleg. unfold packet_reply.
  destruct (match get "type" pk with Some _ => _ | None => _ end) as [k|]; [|done].
  destruct k; try done; try (intros [= _ <-]; by left).
  - destruct (match get "status" pk with Some _ => _ | None => _ end) as [st|]; [|done].
    destruct (_ && _); [|done]. intros [= _ <-]. by left.
  - destruct (_ =? _)%N; [|done].
    destruct (match get "data" pk with Some _ => _ | None => _ end) as [e|]; [|done].
    destruct (_ <? strlen e)%N; [done|]. destruct (base64_decode e) as [data|]; [|done].
    destruct (_ || _) eqn:Hlim; intros [= _ <-]; [by left|right].
    apply orb_false_iff in Hlim as [_ Hlim%N.ltb_ge]. by etrans.
Qed.

Lemma select_reply_bytes s v id packet body (pend : gmap string Pending) r cell pend' :
  (forall i p, pend !! i = Some p -> (pen_bytes p <= MAX_RESPONSE)%N) ->
  select_reply base64_decode s v id packet body pend = Some (r, cell, pend') ->
  forall i p, pend' !! i = Some p -> (pen_bytes p <= MAX_RESPONSE)%N.
Proof.
  intros Hb. unfold select_reply. destruct (pend !! id) as [item|] eqn:Hid; [|done].
  destruct (negb _); [done|].
  set (reply := match body with Some _ => _ | None => _ end).
  destruct reply as [[r' added]|] eqn:Hr; [|done]. subst reply.
  intros [= _ _ <-] i p Hi. pose proof (Hb _ _ Hid) as Hitem.
  assert (pen_bytes item + added <= MAX_RESPONSE)%N as Hadd.
  { destruct body as [data|].
    - destruct (negb (v =? 2)%N); [done|].
      destruct (_ <? _)%N eqn:Hlt; injection Hr as _ <-; [by rewrite N.add_0_r|].
      apply N.ltb_ge in Hlt. unfold saturating_add in Hlt.
      pose proof max_below_u64. lia.
    - destruct packet as [pk|]; [|done].
      apply packet_reply_bytes in Hr as [-> |?]; [by rewrite N.add_0_r|done]. }
  destruct (is_finished r'); [apply lookup_delete_Some in Hi as [_ Hi]; eauto|].
  apply lookup_insert_Some in Hi as [[_ <-]|[_ Hi]]; [done|eauto].
Qed.

(** What [deliver] does to the cell it writes, depending on whether the queue had room. *)
Definition delivered (id : string) (r : Reply) (pend pend' : gmap string Pending) (d' : Cell Q) : Prop :=
  (pend' = pend /\ (r = End_ -> In End_ (q_items (cell_queue d')))
     /\ (r = Error -> cell_errored d' = true))
  \/ (pend' = delete id pend /\ cell_errored d' = true).

Lemma deliver_spec id cell r g :
  poisoned (gw_pending g) = false ->
  let g' := deliver id cell r g in
  cells_le (gw_cells g) (gw_cells g')
  /\ (guarded (gw_pending g') = guarded (gw_pending g)
      \/ guarded (gw_pending g') = delete id (guarded (gw_pending g)))
  /\ (is_Some (gw_cells g !! cell) -> exists d', gw_cells g' !! cell = Some d' /\
      delivered id r (guarded (gw_pending g)) (guarded (gw_pending g')) d').
Proof.
  intros Hlock g'. subst g'. unfold deliver.
  set (g1 := if is_error r then _ else g).
  assert (cells_le (gw_cells g) (gw_cells g1) /\ gw_pending g1 = gw_pending g
          /\ (r = Error -> forall c, gw_cells g1 !! cell = Some c -> cell_errored c = true))
    as (Hle & Hp & Herr).
  { subst g1. destruct r; cbn; try done. split_and!; [|done|].
    - apply cells_le_alter, mark_errored_le.
    - intros _ c. rewrite lookup_alter_eq. destruct (gw_cells g !! cell); [|done].
      by intros [= <-]. }
  rewrite <- Hp in *. destruct (gw_cells g1 !! cell) as [d|] eqn:Hd.
  2: { split_and!; [done|by left|]. intros [c Hc]. destruct (Hle _ _ Hc) as (? & ? & _). congruence. }
  pose proof (push_reply_le r d) as Hpush.
  destruct (push_reply r d) as [sent d'] eqn:Hsend. cbn in Hpush. destruct sent; cbn.
  - split_and!; [|by left|].
    + etrans; [exact Hle|]. by eapply cells_le_insert.
    + intros _. exists d'. rewrite lookup_insert_eq. split; [done|]. left. split_and!; [done|..].
      * intros ->. rewrite (push_reply_sent _ _ _ Hsend), in_app_iff. right. by left.
      * intros ->. apply Hpush. by apply (Herr eq_refl).
  - unfold lock. rewrite Hlock. cbn. split_and!; [|by right|].
    + etrans; [exact Hle|]. by eapply cells_le_insert, mark_errored_le.
    + intros _. exists (mark_errored d). rewrite lookup_insert_eq. split; [done|]. by right.
Qed.

Lemma deliver_other id cell n r g :
  cell <> n ->
  let g' := deliver id cell r g in
  (guarded (gw_pending g') = guarded (gw_pending g)
   \/ guarded (gw_pending g') = delete id (guarded (gw_pending g)))
  /\ gw_cells g' !! n = gw_cells g !! n.
Proof.
  intros Hne. unfold deliver.
  set (g1 := if is_error r then _ else g).
  assert (gw_pending g1 = gw_pending g /\ gw_cells g1 !! n = gw_cells g !! n) as [<- <-]
    by (subst g1; destruct (is_error r); cbn; by rewrite ?lookup_alter_ne).
  clearbody g1. destruct (gw_cells g1 !! cell) as [d|]; [|by split; [left|]].
  destruct (push_reply r d) as [[|] d']; cbn; [by rewrite lookup_insert_ne; auto|].
  unfold lock. destruct (poisoned (gw_pending g1)); cbn; rewrite lookup_insert_ne by done; auto.
Qed.

Lemma deliver_ok s v id packet body g r cell pend' n :
  select_reply base64_decode s v id packet body (guarded (gw_pending g)) = Some (r, cell, pend') ->
  poisoned (gw_pending g) = false ->
  cell_ok (guarded (gw_pending g)) (gw_cells g) n ->
  let g' := deliver id cell r (set_pending pend' g) in
  cell_ok (guarded (gw_pending g')) (gw_cells g') n.
Proof.
  intros (item & Hid & _ & <- & Hpend)%select_reply_Some Hlock (c & Hc & Hok) g'.
  destruct (deliver_spec id (pen_cell item) r (set_pending pend' g) Hlock) as (Hle & Hp2 & Hcell).
  fold g' in Hle, Hp2, Hcell. cbn in Hle, Hp2, Hcell.
  destruct (decide (pen_cell item = n)) as [<-|Hne].
  - destruct Hcell as (d' & Hd' & Hdel); [by eexists|]. exists d'. split; [done|].
    destruct Hdel as [(Hpe & HE & HR)|[_ ?]]; [|by auto].
    destruct Hpend as [[Hfin ->]|(_ & item' & -> & Hci & _)].
    + right. destruct r; try done; [right|left]; auto.
    + left. exists id, item'. by rewrite Hpe, lookup_insert_eq.
  - eapply cell_ok_mono; [exact Hle| |by exists c].
    intros i p Hi Hp. assert (i <> id) as Hneq by (intros ->; congruence).
    exists i, p. split; [|done].
    destruct Hp2 as [-> | ->], Hpend as [[_ ->]|(_ & item' & -> & _)];
      rewrite ?lookup_delete_ne, ?lookup_insert_ne, ?lookup_delete_ne; done.
Qed.

(** *** Actions of the websocket side *)

Definition bytes_bounded g : Prop :=
  forall id p, guarded (gw_pending g) !! id = Some p -> (pen_bytes p <= MAX_RESPONSE)%N.

(** An action that neither adds entries nor breaks a reader. *)
Record gw_safe g g' : Prop := {
  safe_lock : poisoned (gw_pending g) = false -> poisoned (gw_pending g') = false;
  safe_pending : forall id p', guarded (gw_pending g') !! id = Some p' ->
    exists p, guarded (gw_pending g) !! id = Some p /\ pen_cell p' = pen_cell p;
  safe_cells : poisoned (gw_pending g) = false -> forall n,
    cell_ok (guarded (gw_pending g)) (gw_cells g) n ->
    cell_ok (guarded (gw_pending g')) (gw_cells g') n;
  safe_bytes : bytes_bounded g -> bytes_bounded g' }.

Lemma gw_safe_refl g : gw_safe g g.
Proof. by split; eauto. Qed.

Lemma gw_safe_cells g cells' : cells_le (gw_cells g) cells' -> gw_safe g (set_cells cells' g).
Proof.
  intros Hle. split; cbn; [done|by eauto| |done].
  intros _ n. apply cell_ok_mono; [done|by eauto].
Qed.

Lemma pend_size (p p' : gmap string Pending) :
  (forall id x', p' !! id = Some x' -> exists x, p !! id = Some x /\ pen_cell x' = pen_cell x) ->
  size p' <= size p.
Proof.
  intros Hle. rewrite <- !size_dom. apply subseteq_size. intros id.
  rewrite !elem_of_dom. intros [x' Hx]. destruct (Hle id x' Hx) as (x & ? & _). by eexists.
Qed.

Lemma fail_session_safe s g : gw_safe g (fail_session s g).
Proof.
  split.
  - intros Hl. unfold fail_session, lock. by rewrite Hl.
  - intros id p Hp%fail_session_pending. by exists p.
  - intros _ n. apply fail_session_ok.
  - intros Hb id p Hp%fail_session_pending. by eapply Hb.
Qed.

Lemma receive_safe s v packet binary g : gw_safe g (receive base64_decode s v packet binary g).
Proof.
  unfold receive.
  destruct (addressed_request _ _) as [id|]; [|apply gw_safe_refl].
  destruct (negb _); [apply gw_safe_refl|].
  unfold lock. destruct (poisoned (gw_pending g)) eqn:Hlock; [apply gw_safe_refl|].
  destruct (select_reply _ _ _ _ _ _) as [[[r cell] pend']|] eqn:Hsel; [|apply gw_safe_refl].
  destruct (deliver_spec id cell r (set_pending pend' g) Hlock) as (_ & Hp & _). cbn in Hp.
  split.
  - intros _. unfold deliver, lock. destruct (is_error r); cbn;
      (destruct (_ !! cell) as [d|]; cbn; [|done]);
      destruct (push_reply _ _) as [sent d']; destruct sent; cbn; rewrite ?Hlock; done.
  - intros i p' Hi.
    destruct (select_reply_Some _ _ _ _ _ _ _ _ _ Hsel) as (item & Hid & _ & <- & Hpend).
    assert (pend' !! i = Some p') as Hi'
      by (destruct Hp as [E|E]; rewrite E in Hi; [done|by apply lookup_delete_Some in Hi as []]).
    destruct Hpend as [[_ ->]|(_ & item' & -> & Hci & _)].
    + apply lookup_delete_Some in Hi' as [_ Hi']. eauto.
    + apply lookup_insert_Some in Hi' as [[<- <-]|[_ Hi']]; eauto.
  - intros _ n. by eapply deliver_ok.
  - intros Hb i p' Hi.
    assert (pend' !! i = Some p') as Hi'
      by (destruct Hp as [E|E]; rewrite E in Hi; [done|by apply lookup_delete_Some in Hi as []]).
    revert Hi'. eapply select_reply_bytes; [exact Hb|exact Hsel].
Qed.

Lemma gw_safe_trans g1 g2 g3 :
  poisoned (gw_pending g1) = false -> gw_safe g1 g2 -> gw_safe g2 g3 -> gw_safe g1 g3.
Proof.
  intros Hl [L1 P1 C1 B1] [L2 P2 C2 B2].
  split; [by auto| |by auto|by auto].
  - intros id p3 (p2 & H2 & E2)%P2. destruct (P1 id p2 H2) as (p1 & ? & ?). exists p1. by rewrite E2.
Qed.

Lemma set_active_safe a g : gw_safe g (set_active a g).
Proof. by split; cbn; eauto. Qed.

Lemma upload_finished_safe cell reply g : gw_safe g (upload_finished cell reply g).
Proof.
  unfold upload_finished. destruct reply as [r|]; apply gw_safe_cells, cells_le_alter; intros c.
  - etrans; [apply (push_reply_le r)|done].
  - done.
Qed.

Lemma revoke_desktop_safe d g :
  poisoned (gw_pending g) = false -> gw_safe g (revoke_desktop d g).1.
Proof.
  intros Hl. unfold revoke_desktop. destruct (decide _); [|apply gw_safe_refl].
  destruct (gw_active g); [|apply gw_safe_refl]. cbn.
  eapply gw_safe_trans; [done|apply set_active_safe|apply fail_session_safe].
Qed.

Lemma disconnect_safe s g : poisoned (gw_pending g) = false -> gw_safe g (disconnect s g).
Proof.
  intros Hl. unfold disconnect. eapply gw_safe_trans; [done| |apply fail_session_safe].
  destruct (gw_active g); [|apply gw_safe_refl].
  destruct (String.eqb _ _); [apply set_active_safe|apply gw_safe_refl].
Qed.

(** *** The invariant *)

Record exchange_inv (x : Exchange Q) : Prop := {
  inv_lock : poisoned (gw_pending (ex_gateway x)) = false;
  inv_cells : forall n rd, ex_readers x !! n = Some rd -> reading rd ->
    cell_ok (guarded (gw_pending (ex_gateway x))) (gw_cells (ex_gateway x)) n;
  inv_owner : forall id p, guarded (gw_pending (ex_gateway x)) !! id = Some p ->
    exists rd, ex_readers x !! pen_cell p = Some rd /\ rd_request_id rd = id;
  inv_unique : forall n m rd rd', ex_readers x !! n = Some rd -> ex_readers x !! m = Some rd' ->
    rd_request_id rd = rd_request_id rd' -> n = m;
  inv_phase : forall n rd, ex_readers x !! n = Some rd -> rd_phase rd <> Ended false;
  inv_bytes : bytes_bounded (ex_gateway x);
  inv_size : size (guarded (gw_pending (ex_gateway x))) <= MAX_PENDING }.

Lemma with_gateway_inv f x :
  (poisoned (gw_pending (ex_gateway x)) = false -> gw_safe (ex_gateway x) (f (ex_gateway x))) ->
  exchange_inv x -> exchange_inv (with_gateway f x).
Proof.
  intros Hf [L C O U P B Sz]. destruct (Hf L) as [L' P' C' B'].
  split; cbn; auto.
  - intros n rd Hn Hr. apply C'; eauto.
  - intros id p (p0 & Hp0 & ->)%P'. eauto.
  - etrans; [by apply pend_size|done].
Qed.

(** A reader that ends or is dropped only affects its own request. *)
Lemma guard_drop_inv (x : Exchange Q) cell rd ph fin :
  ex_readers x !! cell = Some rd -> ph <> Ended false -> ph <> AwaitingHead -> ph <> Streaming ->
  exchange_inv x ->
  exchange_inv {| ex_gateway := (guard_drop (rd_session rd) (rd_request_id rd) cell fin (ex_gateway x)).1;
                  ex_readers := <[cell := set_phase ph rd]> (ex_readers x) |}.
Proof.
  intros Hrd Hne Ha Hs [L C O U P B Sz].
  unfold guard_drop, lock. cbn. rewrite L. cbn.
  set (f := fun c : Cell Q => _).
  assert (cells_le (gw_cells (ex_gateway x)) (alter f cell (gw_cells (ex_gateway x)))) as Hle
    by (by apply cells_le_alter).
  split; cbn; try done.
  - intros n rd' Hn Hr. apply lookup_insert_Some in Hn as [[<- <-]|[Hnc Hn]].
    { destruct Hr; done. }
    eapply cell_ok_mono; [exact Hle| |by eapply C].
    intros id p Hid Hp. exists id, p. split; [|done].
    rewrite lookup_delete_ne; [done|]. intros <-.
    destruct (O _ _ Hid) as (rd2 & Hrd2 & Heq). rewrite Hp in Hrd2. apply Hnc. eauto.
  - intros id p [Hid Hp]%lookup_delete_Some. destruct (O _ _ Hp) as (rd2 & Hrd2 & Heq).
    destruct (decide (cell = pen_cell p)) as [->|Hnc].
    + by simplify_eq.
    + exists rd2. by rewrite lookup_insert_ne.
  - intros n m r r' Hn Hm. apply lookup_insert_Some in Hn as [[<- <-]|[? Hn]],
      Hm as [[<- <-]|[? Hm]]; cbn; eauto.
  - intros n r Hn. apply lookup_insert_Some in Hn as [[<- <-]|[? Hn]]; cbn; eauto.
  - intros id p Hp. cbn in Hp. apply lookup_delete_Some in Hp as [_ Hp]. by eapply B.
  - etrans; [apply size_delete_le|done].
Qed.

(** A reader that goes on reading, or has met an error, keeps the invariant when its
    queue was popped. *)
Lemma reader_goes_on_inv (x : Exchange Q) cell rd ph g' :
  ex_readers x !! cell = Some rd -> ph <> Ended false ->
  gw_pending g' = gw_pending (ex_gateway x) ->
  (forall n, n <> cell -> gw_cells g' !! n = gw_cells (ex_gateway x) !! n) ->
  (ph = AwaitingHead \/ ph = Streaming -> cell_ok (guarded (gw_pending g')) (gw_cells g') cell) ->
  exchange_inv x ->
  exchange_inv {| ex_gateway := g'; ex_readers := <[cell := set_phase ph rd]> (ex_readers x) |}.
Proof.
  intros Hrd Hne Hp Hc Hok [L C O U P B Sz]. split; cbn; rewrite ?Hp; auto.
  - intros n rd' Hn Hr. apply lookup_insert_Some in Hn as [[<- <-]|[Hnc Hn]].
    { rewrite <- Hp. by apply Hok. }
    destruct (C _ _ Hn Hr) as (c & Hcc & Hrest). exists c. by rewrite Hc.
  - intros id p Hid. destruct (O _ _ Hid) as (rd2 & Hrd2 & Heq).
    destruct (decide (cell = pen_cell p)) as [->|Hnc].
    + rewrite lookup_insert_eq. eexists. split; [done|]. cbn. congruence.
    + exists rd2. by rewrite lookup_insert_ne.
  - intros n m r r' Hn Hm. apply lookup_insert_Some in Hn as [[<- <-]|[? Hn]],
      Hm as [[<- <-]|[? Hm]]; cbn; eauto.
  - intros n r Hn. apply lookup_insert_Some in Hn as [[<- <-]|[? Hn]]; cbn; eauto.
  - intros id p Hid. rewrite Hp in Hid. by eapply B.
Qed.

Lemma recv_reply_spec n g outcome g' :
  recv_reply n g = Some (outcome, g') ->
  gw_pending g' = gw_pending g
  /\ (forall m, m <> n -> gw_cells g' !! m = gw_cells g !! m)
  /\ errored n g' = errored n g
  /\ (cell_ok (guarded (gw_pending g)) (gw_cells g) n ->
       match outcome with
       | Received r => r = End_ \/ cell_ok (guarded (gw_pending g')) (gw_cells g') n
       | Closed => errored n g = true
       | TimedOut => False
       end).
Proof.
  unfold recv_reply. destruct (gw_cells g !! n) as [c|] eqn:Hc; [|done].
  destruct (q_recv (cell_queue c)) as [[r q]|] eqn:Hq.
  - intros [= <- <-]. cbn. split_and!; [done| | |].
    + intros m Hm. by rewrite lookup_insert_ne.
    + unfold errored. cbn. by rewrite lookup_insert_eq, Hc.
    + intros (d & Hd & Hok). simplify_eq. pose proof (q_recv_Some _ _ _ Hq) as Hitems.
      destruct Hok as [Hp|[He|Hin]].
      * right. eexists. rewrite lookup_insert_eq. split; [done|]. by left.
      * right. eexists. rewrite lookup_insert_eq. split; [done|]. by right; left.
      * rewrite Hitems in Hin. destruct Hin as [->|Hin]; [by left|right].
        eexists. rewrite lookup_insert_eq. split; [done|]. by right; right.
  - destruct (sender_alive n g) eqn:Hs; [done|]. intros [= <- <-]. split_and!; try done.
    intros (d & Hd & Hok). simplify_eq. unfold errored. rewrite Hc.
    apply orb_false_iff in Hs as [_ Hs]. destruct Hok as [(id & p & Hid & Hp)|[He|Hin]]; [|done|].
    + exfalso. apply not_true_iff_false in Hs. apply Hs, existsb_exists. exists (id, p).
      rewrite <- list_elem_of_In, elem_of_map_to_list. split; [done|]. by apply N.eqb_eq.
    + by rewrite (q_recv_None _ Hq) in Hin.
Qed.

Lemma reader_step_inv x cell rd outcome g' :
  ex_readers x !! cell = Some rd -> reading rd ->
  gw_pending g' = gw_pending (ex_gateway x) ->
  (forall m, m <> cell -> gw_cells g' !! m = gw_cells (ex_gateway x) !! m) ->
  match outcome with
  | Received r => r = End_ \/ cell_ok (guarded (gw_pending g')) (gw_cells g') cell
  | Closed => errored cell g' = true
  | TimedOut => True
  end ->
  exchange_inv x -> exchange_inv (reader_step cell rd outcome g' (ex_readers x)).
Proof.
  intros Hrd Hr Hp Hc Hout Hinv. unfold reader_step.
  set (ph := reader_phase rd (errored cell g') outcome).
  assert (ph <> Ended false /\ (ph = AwaitingHead \/ ph = Streaming ->
            cell_ok (guarded (gw_pending g')) (gw_cells g') cell)) as [Hne Hgo].
  { subst ph. unfold reader_phase.
    destruct Hr as [-> | ->], outcome as [[]| |]; cbn; try rewrite Hout; cbn; naive_solver. }
  pose proof (reader_goes_on_inv x cell rd ph g' Hrd Hne Hp Hc Hgo Hinv) as Hinv'.
  destruct (drops_guard ph) eqn:Hd; [|done].
  assert (ph <> AwaitingHead /\ ph <> Streaming) as [? ?] by (by destruct ph).
  eapply (guard_drop_inv _ cell (set_phase ph rd) ph) in Hinv'; cbn; [|by rewrite lookup_insert_eq|done..].
  cbn in Hinv'. rewrite insert_insert_eq in Hinv'. destruct rd. exact Hinv'.
Qed.

Lemma admit_inv x session id cell uploading g' :
  ex_readers x !! cell = None ->
  (forall k rd, ex_readers x !! k = Some rd -> rd_request_id rd <> id) ->
  admit_request session id cell uploading (ex_gateway x) = Some g' ->
  exchange_inv x ->
  exchange_inv {| ex_gateway := g';
                  ex_readers := <[cell := {| rd_session := session; rd_request_id := id;
                                             rd_phase := AwaitingHead |}]> (ex_readers x) |}.
Proof.
  intros Hfresh Hid Hadm [L C O U P B Sz]. unfold admit_request, lock in Hadm. rewrite L in Hadm.
  destruct (MAX_PENDING <=? _)%nat eqn:Hsz; [done|]. injection Hadm as <-. apply Nat.leb_gt in Hsz.
  split; cbn; [done|..].
  - intros n rd Hn Hr. apply lookup_insert_Some in Hn as [[<- <-]|[Hne Hn]].
    { eexists. rewrite lookup_insert_eq. split; [done|]. left.
      exists id. eexists. by rewrite lookup_insert_eq. }
    destruct (C _ _ Hn Hr) as (c & Hc & Hok). exists c. rewrite lookup_insert_ne by done.
    split; [done|]. destruct Hok as [(i & p & Hi & Hp)|?]; [|by right]. left. exists i, p.
    rewrite lookup_insert_ne; [done|]. intros <-.
    destruct (O _ _ Hi) as (rd' & Hrd' & Heq). by eapply Hid.
  - intros i p Hi. apply lookup_insert_Some in Hi as [[<- <-]|[Hne Hi]]; cbn.
    { eexists. by rewrite lookup_insert_eq. }
    destruct (O _ _ Hi) as (rd' & Hrd' & Heq). exists rd'.
    rewrite lookup_insert_ne; [done|]. intros ->. congruence.
  - intros n m r r' Hn Hm. apply lookup_insert_Some in Hn as [[<- <-]|[? Hn]],
      Hm as [[<- <-]|[? Hm]]; cbn; [done|..|by eauto].
    + intros E. by destruct (Hid _ _ Hm).
    + intros E. by destruct (Hid _ _ Hn).
  - intros n r Hn. apply lookup_insert_Some in Hn as [[<- <-]|[? Hn]]; cbn; eauto.
  - intros i p Hi. cbn in Hi. apply lookup_insert_Some in Hi as [[<- <-]|[Hne Hi]]; [|by eapply B].
    apply N.le_0_l.
  - etrans; [apply size_insert_le|done].
Qed.

Lemma gstep_inv x y : gstep base64_decode x y -> exchange_inv x -> exchange_inv y.
Proof.
  intros Hstep Hinv. destruct Hstep.
  - by eapply admit_inv.
  - apply with_gateway_inv; [intros _; apply receive_safe|done].
  - apply with_gateway_inv; [intros _; apply set_active_safe|done].
  - apply with_gateway_inv; [intros _; apply fail_session_safe|done].
  - apply with_gateway_inv; [apply revoke_desktop_safe|done].
  - apply with_gateway_inv; [apply disconnect_safe|done].
  - apply with_gateway_inv; [intros _; apply upload_finished_safe|done].
  - match goal with
    | Hrd : ex_readers _ !! _ = Some _, Hr : reading _, Hrecv : recv_reply _ _ = Some _ |- _ =>
        pose proof (inv_cells _ Hinv _ _ Hrd Hr) as Hok;
        apply recv_reply_spec in Hrecv as (Hp & Hc & He & Hout); specialize (Hout Hok)
    end.
    apply reader_step_inv; try done. destruct outcome; [done|congruence|done].
  - by apply reader_step_inv.
  - by apply guard_drop_inv.
Qed.

Lemma reachable_inv x : reachable base64_decode x -> exchange_inv x.
Proof.
  induction 1 as [var|x y _ IH Hstep]; [|by eapply gstep_inv].
  split; [done|..]; cbn; unfold bytes_bounded; cbn; [..|rewrite map_size_empty; lia];
    intros *; rewrite lookup_empty; done.
Qed.

(** *** The theorems about requests *)

(** No response is silently truncated: in every reachable state of the gateway (any
    interleaving of admissions, desktop packets, full reply queues, session failures,
    credential rotations, uploads and reads) no HTTP body stream has ended without an
    error except after the desktop's [end] marker was read. *)
Theorem no_silent_truncation x cell rd
    (Hreach : reachable base64_decode x) (Hrd : ex_readers x !! cell = Some rd) :
  rd_phase rd <> Ended false.
Proof. by eapply inv_phase; [apply reachable_inv|]. Qed.

(** The pending table never exceeds [MAX_PENDING] requests and no request is ever
    credited with more than [MAX_RESPONSE] body bytes. *)
Theorem pending_bounded x (Hreach : reachable base64_decode x) :
  size (guarded (gw_pending (ex_gateway x))) <= MAX_PENDING
  /\ forall id p, guarded (gw_pending (ex_gateway x)) !! id = Some p ->
       (pen_bytes p <= MAX_RESPONSE)%N.
Proof. apply reachable_inv in Hreach as []. done. Qed.

(** A desktop packet or frame can only touch the request it names, and only if that
    request belongs to the sending session: every other request keeps its table entry, its
    reply queue and its error flag, even when the addressed queue is full. *)
Theorem receive_touches_one_request x session version packet binary id item
    (Hreach : reachable base64_decode x)
    (Hitem : guarded (gw_pending (ex_gateway x)) !! id = Some item)
    (Hother : pen_session_id item <> session
      \/ addressed_request (match binary with Some f => McpStream.decode f | None => None end) packet
         <> Some id) :
  let g' := receive base64_decode session version packet binary (ex_gateway x) in
  guarded (gw_pending g') !! id = Some item
  /\ gw_cells g' !! pen_cell item = gw_cells (ex_gateway x) !! pen_cell item.
Proof.
  apply reachable_inv in Hreach as [L _ O _ _ _ _]. cbn. unfold receive.
  destruct (addressed_request _ _) as [id'|]; [|done].
  destruct (negb _); [done|]. unfold lock. rewrite L.
  destruct (select_reply _ _ _ _ _ _) as [[[r cell] pend']|] eqn:Hsel; [|done].
  destruct (select_reply_Some _ _ _ _ _ _ _ _ _ Hsel) as (item' & Hid' & Hs & <- & Hpend).
  assert (id <> id') as Hne by (intros ->; simplify_eq; naive_solver).
  assert (pen_cell item' <> pen_cell item) as Hcell.
  { intros Heq. destruct (O _ _ Hitem) as (rd & Hrd & Hri), (O _ _ Hid') as (rd' & Hrd' & Hri').
    rewrite Heq in Hrd'. congruence. }
  assert (pend' !! id = Some item) as Hp
    by (destruct Hpend as [[_ ->]|(_ & it & -> & _)];
        rewrite ?lookup_delete_ne, ?lookup_insert_ne; done).
  destruct (deliver_other id' (pen_cell item') (pen_cell item) r (set_pending pend' (ex_gateway x)) Hcell)
    as [Hd ->].
  split; [|done]. destruct Hd as [-> | ->]; cbn; [done|]. by rewrite lookup_delete_ne.
Qed.

(** Failing a session removes exactly its requests from the table, leaves the
    requests of every other session untouched, and marks each removed request as broken,
    so that its reader reports an error instead of a short response. *)
Theorem fail_session_spec x session
    (Hreach : reachable base64_decode x) :
  let g := ex_gateway x in
  let g' := fail_session session g in
  (forall id item, guarded (gw_pending g') !! id = Some item <->
     guarded (gw_pending g) !! id = Some item /\ pen_session_id item <> session)
  /\ (forall id item, guarded (gw_pending g) !! id = Some item -> pen_session_id item = session ->
       forall c, gw_cells g !! pen_cell item = Some c -> errored (pen_cell item) g' = true).
Proof.
  apply reachable_inv in Hreach as [L _ _ _ _ _ _]. cbn. split.
  - intros id item. unfold fail_session, lock. rewrite L. cbn.
    by rewrite lookup_retain, negb_true_iff, String.eqb_neq.
  - intros id item Hid Hs c Hc. unfold fail_session, lock, errored. rewrite L. cbn.
    destruct (fail_fold_marks session (map_to_list (guarded (gw_pending (ex_gateway x))))
                (gw_cells (ex_gateway x)) id item c) as (d & -> & ->); try done.
    by apply list_elem_of_In, elem_of_map_to_list.
Qed.

(** Rotating a desktop's credential takes the active session offline at once, closes
    its websocket and fails its requests when the gateway serves that desktop, and changes
    nothing otherwise; a session that disconnects never takes a newer one offline. *)
Theorem revoke_and_disconnect_spec g desktop session :
  ((gw_desktop_id g = Some desktop ->
      gw_active (revoke_desktop desktop g).1 = None
      /\ (forall a, gw_active g = Some a ->
           revoke_desktop desktop g
           = (fail_session (act_session_id a) (set_active None g), [CloseSession (act_session_id a)])))
   /\ (gw_desktop_id g <> Some desktop -> revoke_desktop desktop g = (g, [])))
  /\ (forall a, gw_active g = Some a -> act_session_id a <> session ->
       gw_active (disconnect session g) = Some a)
  /\ (forall a, gw_active g = Some a -> act_session_id a = session ->
       gw_active (disconnect session g) = None).
Proof.
  assert (forall s g0, gw_active (fail_session s g0) = gw_active g0) as Hfail
    by (intros s g0; unfold fail_session, lock; by destruct (poisoned _)).
  unfold revoke_desktop, disconnect. split_and!.
  - intros Hd. rewrite decide_True by done. destruct (gw_active g) as [a|] eqn:Ha; [|done].
    cbn. rewrite Hfail. split; [done|]. by intros ? [= <-].
  - intros Hd. by rewrite decide_False.
  - intros a Ha Hne. rewrite Ha. apply String.eqb_neq in Hne. rewrite Hne. by rewrite Hfail.
  - intros a Ha <-. by rewrite Ha, String.eqb_refl, Hfail.
Qed.
End GatewayProps.

(** ** Uploads: properties *)

Lemma chunks_fuel_concat fuel n l :
  n <> 0%nat -> length l <= fuel -> concat (chunks_fuel fuel n l) = l.
Proof.
  intros Hn. revert l. induction fuel as [|fuel IH]; intros [|b l] Hl; cbn [length] in *; try done; [lia|].
  cbn [chunks_fuel concat]. rewrite IH; [by rewrite firstn_skipn|].
  rewrite length_skipn. cbn [length]. lia.
Qed.

Lemma chunks_fuel_bound fuel n l : Forall (fun p => length p <= n) (chunks_fuel fuel n l).
Proof.
  revert l. induction fuel as [|fuel IH]; intros [|b l]; cbn [chunks_fuel]; try constructor; [|done].
  rewrite length_firstn. lia.
Qed.

(** [slice::chunks] splits a slice into pieces of bounded length that concatenate to it. *)
Lemma chunks_spec n l :
  (0 < n)%N -> concat (chunks n l) = l /\ Forall (fun p => nlen p <= n)%N (chunks n l).
Proof.
  intros Hn. split; [apply chunks_fuel_concat; lia|].
  eapply Forall_impl; [apply chunks_fuel_bound|]. intros p. unfold nlen. cbn. lia.
Qed.

(** The body bytes a list of packets carries for a request. *)
Definition payload (id : string) (o : Outgoing) : list byte :=
  match o with
  | OutBinary frame =>
      match McpStream.decode frame with
      | Some (McpStream.RequestBody, id', body) =>
          if String.eqb id' (to_ascii_lowercase id) then body else []
      | _ => []
      end
  | OutText _ => []
  end.

Definition uploaded (id : string) (out : list Outgoing) : list byte :=
  concat (map (payload id) out).

Lemma uploaded_app id a b : uploaded id (a ++ b)%list = (uploaded id a ++ uploaded id b)%list.
Proof. unfold uploaded. by rewrite map_app, concat_app. Qed.

Lemma upload_frames_spec id left pieces :
  valid_request_id id = true -> Forall (fun p => nlen p <= MAX_CHUNK)%N pieces ->
  let r := upload_frames id left pieces in
  (exists rest, concat pieces = (uploaded id r.1 ++ rest)%list)
  /\ match r.2 with
     | Some left' => uploaded id r.1 = concat pieces /\ (left = None -> left' = None)
     | None => left <> None
     end.
Proof.
  intros [Hl Hx]%andb_true_iff Hp. assert (String.length id = 32) as Hlen.
  { apply N.eqb_eq in Hl. unfold strlen in Hl. lia. }
  revert left. induction Hp as [|p pieces Hb _ IH]; intros left; [split; [by exists []|done]|].
  cbn [upload_frames].
  destruct (McpStreamProps.hexdigit_frame McpStream.RequestBody id p Hlen Hx Hb) as (f & -> & _ & Hdec).
  assert (forall out, uploaded id (OutBinary f :: out) = (p ++ uploaded id out)%list) as Hup
    by (intros out; unfold uploaded; cbn [map concat payload]; by rewrite Hdec, String.eqb_refl).
  destruct (ws_send left) as [left'|] eqn:Hs; [|split; [by eexists|by destruct left]].
  destruct (IH left') as ((rest & Hrest) & Hleft).
  destruct (upload_frames id left' pieces) as [out l]. cbn [fst snd] in *. rewrite Hup. split.
  - exists rest. cbn [concat]. by rewrite Hrest, app_assoc.
  - destruct l as [l|]; [|by destruct left; simplify_eq/=].
    destruct Hleft as [-> Hnone]. split; [done|]. intros ->. cbn in Hs. apply Hnone. congruence.
Qed.

(** The bytes of a body up to its first error. *)
Fixpoint body_bytes (body : list (Result (list byte) unit)) : list byte :=
  match body with
  | Ok chunk :: rest => (chunk ++ body_bytes rest)%list
  | _ => []
  end.

(** The contract of an upload that has forwarded [total] bytes before. *)
Definition upload_contract (id : string) (left : option nat) (total : N)
    (body : list (Result (list byte) unit)) (r : list Outgoing * UploadEnd) : Prop :=
  (total + nlen (uploaded id r.1) <= McpStream.MAX_REQUEST_BYTES)%N
  /\ (exists rest, body_bytes body = (uploaded id r.1 ++ rest)%list)
  /\ match r.2 with
     | UploadDone => forallb is_ok body = true /\ uploaded id r.1 = body_bytes body
                     /\ (left = None -> last r.1 = Some (request_end_packet id))
     | UploadStopped (Some UploadTooLarge) =>
         (McpStream.MAX_REQUEST_BYTES < total + nlen (body_bytes body))%N
     | UploadStopped (Some UploadFailed) => forallb is_ok body = false
     | UploadStopped (Some _) => False
     | UploadStopped None => left <> None
     end.

Lemma upload_total total n :
  (total <= McpStream.MAX_REQUEST_BYTES)%N ->
  saturating_add total n = (total + n)%N
  \/ (McpStream.MAX_REQUEST_BYTES < saturating_add total n
      /\ McpStream.MAX_REQUEST_BYTES < total + n)%N.
Proof.
  intros Ht. unfold saturating_add. pose proof max_below_u64 as Hmx.
  unfold MAX_RESPONSE, McpStream.MAX_RESPONSE_BYTES, McpStream.MAX_REQUEST_BYTES in *. lia.
Qed.

Lemma stream_upload_gen id left total body :
  valid_request_id id = true -> (total <= McpStream.MAX_REQUEST_BYTES)%N ->
  upload_contract id left total body (stream_upload id left total body).
Proof.
  intros Hid. unfold upload_contract. revert left total.
  induction body as [|[chunk|[]] body IH]; intros left total Ht; cbn [stream_upload].
  - assert (uploaded id (match ws_send left with Some _ => [request_end_packet id] | None => [] end) = [])
      as Hup by (by destruct (ws_send left)).
    cbn [fst snd]. rewrite Hup. change (nlen (@nil byte)) with 0%N.
    split_and!; [lia|by exists []|done|done|by intros ->].
  - pose proof (upload_total total (nlen chunk) Ht) as Hsat.
    set (total' := saturating_add total (nlen chunk)) in *.
    destruct (_ <? total')%N eqn:Hlt.
    { apply N.ltb_lt in Hlt. cbn [fst snd uploaded map concat body_bytes].
      change (nlen (@nil byte)) with 0%N. split_and!; [lia|by eexists|].
      unfold nlen in *. rewrite length_app. lia. }
    apply N.ltb_ge in Hlt. assert (total' = total + nlen chunk)%N as Htot by lia.
    destruct (chunks_spec MAX_CHUNK chunk) as [Hcat Hbd]; [by vm_compute|].
    destruct (upload_frames_spec id left (chunks MAX_CHUNK chunk) Hid Hbd) as ((r0 & Hr0) & Hleft).
    destruct (upload_frames id left (chunks MAX_CHUNK chunk)) as [out [left'|]]; cbn [fst snd] in *;
      rewrite Hcat in *.
    2: { cbn [body_bytes]. split_and!; [|exists (r0 ++ body_bytes body)%list; by rewrite Hr0, app_assoc|done].
         apply (f_equal nlen) in Hr0. unfold nlen in *. rewrite length_app in Hr0. lia. }
    destruct Hleft as [Hup Hnone], (IH left' total') as (IH1 & (rest & IH2) & IH3); [lia|].
    destruct (stream_upload id left' total' body) as [out' fin] eqn:Hrec. cbn [fst snd] in *.
    rewrite uploaded_app, Hup. cbn [body_bytes forallb is_ok].
    unfold nlen in *. rewrite !length_app. split_and!.
    + lia.
    + exists rest. by rewrite IH2, app_assoc.
    + destruct fin as [|[[]|]]; try done; [|lia|intros ->; by apply IH3, Hnone].
      destruct IH3 as (? & -> & Hlast). split_and!; [done|done|]. intros Hl.
      by rewrite last_app, (Hlast (Hnone Hl)).
  - cbn -[N.add]. change (nlen (@nil byte)) with 0%N. split_and!; [lia|by exists []|done].
Qed.

(** An upload forwards the request body faithfully and within its limit: the frames
    decode, in order, to a prefix of the body and never carry more than
    [MAX_REQUEST_BYTES]; the upload completes only after forwarding the whole body (and
    then ends with [request_end]); otherwise the HTTP side is told either that the body is
    too large, which then really exceeds the limit, or that reading it failed, unless the
    websocket queue itself was closed. *)
Theorem stream_upload_spec id left body (Hid : valid_request_id id = true) :
  upload_contract id left 0 body (stream_upload id left 0 body).
Proof. exact (stream_upload_gen id left 0 body Hid ltac:(vm_compute; discriminate)). Qed.

(** ** Witnesses *)

(** The reply queue of a concrete channel: its capacity and its items. *)
#[export] Instance list_queue : MpscQueue (nat * list Reply) := {|
  q_channel n := (n, []);
  q_try_send r q := if (length q.2 <? q.1)%nat then Some (q.1, q.2 ++ [r])%list else None;
  q_recv q := match q.2 with r :: rest => Some (r, (q.1, rest)) | [] => None end;
  q_items q := q.2 |}.

#[export] Instance list_queue_laws : MpscQueueLaws (nat * list Reply).
Proof.
  split; cbn.
  - done.
  - intros r [n l] q' Hs. cbn in Hs. case_match; [|done]. by injection Hs as <-.
  - intros r [n [|r' l]] q'; cbn; [done|]. by intros [= -> <-].
  - by intros [n [|r' l]].
Qed.

Definition sample_id : string := "0123456789abcdef0123456789abcdef".
Definition other_id : string := "ffffffffffffffffffffffffffffffff".
Definition sample_head : Value :=
  Object [("requestId", VString sample_id); ("status", Number (Some 200%N)); ("type", VString "head")].
Definition sample_end : Value := Object [("requestId", VString sample_id); ("type", VString "end")].
Definition no_base64 : string -> option (list byte) := fun _ => None.

Definition apply_receive (s : string) (p : Value) (x : Exchange (nat * list Reply)) :=
  with_gateway (receive no_base64 s 2 (Some p) None) x.

(** Admission of a request by a session. *)
Definition do_admit (s id : string) (cell : N) (x : Exchange (nat * list Reply))
    : Exchange (nat * list Reply) :=
  match admit_request s id cell false (ex_gateway x) with
  | Some g' => {| ex_gateway := g';
                  ex_readers := <[cell := {| rd_session := s; rd_request_id := id;
                                             rd_phase := AwaitingHead |}]> (ex_readers x) |}
  | None => x
  end.

Lemma do_admit_reachable s id cell x :
  reachable no_base64 x -> ex_readers x !! cell = None ->
  (forall k rd, ex_readers x !! k = Some rd -> rd_request_id rd <> id) ->
  reachable no_base64 (do_admit s id cell x).
Proof.
  intros Hx Hc Hid. unfold do_admit. destruct (admit_request _ _ _ _ _) eqn:Ha; [|done].
  eapply reachable_step; [done|]. by eapply step_admit.
Qed.

(** Two admitted requests of the sessions [s] and [t]. *)
Definition sample_admitted : Exchange (nat * list Reply) :=
  do_admit "t" other_id 1 (do_admit "s" sample_id 0 (initial_exchange None)).

Lemma sample_first_readers :
  ex_readers (do_admit "s" sample_id 0 (initial_exchange None))
  = <[0%N := {| rd_session := "s"; rd_request_id := sample_id; rd_phase := AwaitingHead |}]> ∅.
Proof. vm_compute. reflexivity. Qed.

Lemma sample_admitted_reachable : reachable no_base64 sample_admitted.
Proof.
  apply do_admit_reachable; [apply do_admit_reachable; [apply reachable_init|done|]|done|].
  - intros k rd. cbn. by rewrite lookup_empty.
  - intros k rd Hk. rewrite sample_first_readers in Hk. apply lookup_insert_Some in Hk as [[_ <-]|[_ Hk]]; [done|].
    by rewrite lookup_empty in Hk.
Qed.

(** The reader of request 0 takes the next outcome. *)
Definition read_once (x : Exchange (nat * list Reply)) : Exchange (nat * list Reply) :=
  match ex_readers x !! 0%N, recv_reply 0 (ex_gateway x) with
  | Some rd, Some (outcome, g') => reader_step 0 rd outcome g' (ex_readers x)
  | _, _ => x
  end.

Lemma read_once_reachable x rd :
  reachable no_base64 x -> ex_readers x !! 0%N = Some rd -> reading rd ->
  is_Some (recv_reply 0 (ex_gateway x)) -> reachable no_base64 (read_once x).
Proof.
  intros Hx Hrd Hr [[outcome g'] Hrecv]. unfold read_once. rewrite Hrd, Hrecv.
  eapply reachable_step; [exact Hx|]. by eapply step_read.
Qed.

(** Head and end marker delivered and read. *)
Definition sample_complete : Exchange (nat * list Reply) :=
  read_once (apply_receive "s" sample_end (read_once (apply_receive "s" sample_head sample_admitted))).

Definition sample_reader (ph : Phase) : Reader :=
  {| rd_session := "s"; rd_request_id := sample_id; rd_phase := ph |}.

Definition has_reply (x : Exchange (nat * list Reply)) : bool :=
  match recv_reply 0 (ex_gateway x) with Some _ => true | None => false end.

Lemma read_sample ph x :
  reachable no_base64 x -> ex_readers x !! 0%N = Some (sample_reader ph) ->
  reading (sample_reader ph) -> has_reply x = true -> reachable no_base64 (read_once x).
Proof.
  intros Hx Hrd Hr Hrep. eapply read_once_reachable; [done|done|done|].
  unfold has_reply in Hrep. by destruct (recv_reply 0 (ex_gateway x)).
Qed.

Lemma sample_complete_reachable : reachable no_base64 sample_complete.
Proof.
  apply (read_sample Streaming).
  - eapply reachable_step; [|apply step_receive]. apply (read_sample AwaitingHead).
    + eapply reachable_step; [apply sample_admitted_reachable|apply step_receive].
    + vm_compute. reflexivity.
    + by left.
    + vm_compute. reflexivity.
  - vm_compute. reflexivity.
  - by right.
  - vm_compute. reflexivity.
Qed.

Lemma no_silent_truncation_witness :
  ex_readers sample_complete !! 0%N = Some (sample_reader (Ended true))
  /\ rd_phase (sample_reader (Ended true)) <> Ended false.
Proof.
  assert (ex_readers sample_complete !! 0%N = Some (sample_reader (Ended true))) as Hrd
    by (vm_compute; reflexivity).
  split; [exact Hrd|].
  exact (no_silent_truncation no_base64 sample_complete 0 (sample_reader (Ended true))
           sample_complete_reachable Hrd).
Defined.

Lemma pending_bounded_witness :
  size (guarded (gw_pending (ex_gateway sample_admitted))) = 2
  /\ size (guarded (gw_pending (ex_gateway sample_admitted))) <= MAX_PENDING.
Proof.
  split; [vm_compute; reflexivity|].
  exact (proj1 (pending_bounded no_base64 sample_admitted sample_admitted_reachable)).
Defined.

Lemma receive_touches_one_request_witness :
  gw_cells (receive no_base64 "s" 2 (Some sample_head) None (ex_gateway sample_admitted)) !! 1%N
  = gw_cells (ex_gateway sample_admitted) !! 1%N.
Proof.
  refine (proj2 (receive_touches_one_request no_base64 sample_admitted "s" 2 (Some sample_head) None
    other_id {| pen_session_id := "t"; pen_cell := 1; pen_bytes := 0 |}
    sample_admitted_reachable _ _)); [vm_compute; reflexivity|]. left. done.
Defined.

Lemma fail_session_spec_witness :
  errored 0 (fail_session "s" (ex_gateway sample_admitted)) = true.
Proof.
  refine (proj2 (fail_session_spec no_base64 sample_admitted "s" sample_admitted_reachable)
    sample_id {| pen_session_id := "s"; pen_cell := 0; pen_bytes := 0 |} _ _ _ _);
    vm_compute; reflexivity.
Defined.

Lemma stream_upload_spec_witness :
  upload_contract sample_id None 0 [Ok [x41; x42]; Err tt]
    (stream_upload sample_id None 0 [Ok [x41; x42]; Err tt]).
Proof. apply stream_upload_spec. vm_compute. reflexivity. Defined.
