(* ===== verification/RelayState.v ===== *)
(** * The relay's shared state ([relay-server/src/main.rs], [web_utils.rs])

    [AppState] with its operations: credential checks, snapshot caching and routing, the
    correlation tables for control and revoke requests, and the synchronised revocation of
    a device.  A handle stands for the sending half of a [oneshot] or [broadcast] channel;
    what an operation sends is returned as a list of effects. *)

From S2P Require Export McpGateway.
Local Open Scope string_scope.

(** ** Constants *)

Definition SNAPSHOT_TTL_MS : N := 180000.
Definition MAX_DESKTOP_WS : nat := 64.
Definition MAX_DEVICE_WS : nat := 512.
Definition MAX_PAIRING_WS : nat := 64.
Definition MAX_PAIRING_ROUTES : nat := 256.
Definition MAX_PENDING_CONTROLS : nat := 128.
Definition MAX_PENDING_REVOKES : nat := 128.
Definition CONTROL_MIN_INTERVAL_MS : N := 500.

(** ** State *)

Definition Chan : Type := N.
Definition Handle : Type := N.
Definition RouteKey : Type := string * string.
Definition ControlRouteKey : Type := string * string * string.

#[export] Instance RouteKey_eq_dec : EqDecision RouteKey := prod_eq_dec.
#[export] Instance RouteKey_countable : Countable RouteKey := prod_countable.
#[export] Instance ControlRouteKey_eq_dec : EqDecision ControlRouteKey := prod_eq_dec.
#[export] Instance ControlRouteKey_countable : Countable ControlRouteKey := prod_countable.

Record SnapshotRecord := {
  received_at : N;
  snapshot : EncryptedSnapshot }.

Record PairingRoute := {
  route_token_hash : string;
  route_expires_at : N }.

Record DesktopRoute := {
  route_session_id : string;
  route_sender : Chan;
  route_capabilities : list string }.

Record AppState (S Q : Type) := {
  registry : Mutex Registry;
  store : S;
  bootstrap_token_hash : option string;
  online_desktops : gmap string string;
  desktop_channels : gmap string DesktopRoute;
  device_channels : gmap RouteKey Chan;
  snapshots : gmap RouteKey SnapshotRecord;
  pairing_routes : gmap RouteKey PairingRoute;
  pairing_connections : gmap string Handle;
  control_connections : gmap ControlRouteKey Handle;
  revoke_connections : gmap ControlRouteKey Handle;
  control_last_at : Mutex (gmap RouteKey N);
  desktop_ws_slots : nat;
  device_ws_slots : nat;
  pairing_ws_slots : nat;
  mcp_gateway : Gateway Q;
  next_handle : N }.
Arguments registry {S Q}.
Arguments store {S Q}.
Arguments bootstrap_token_hash {S Q}.
Arguments online_desktops {S Q}.
Arguments desktop_channels {S Q}.
Arguments device_channels {S Q}.
Arguments snapshots {S Q}.
Arguments pairing_routes {S Q}.
Arguments pairing_connections {S Q}.
Arguments control_connections {S Q}.
Arguments revoke_connections {S Q}.
Arguments control_last_at {S Q}.
Arguments desktop_ws_slots {S Q}.
Arguments device_ws_slots {S Q}.
Arguments pairing_ws_slots {S Q}.
Arguments mcp_gateway {S Q}.
Arguments next_handle {S Q}.

Section Setters.
Context {S Q : Type}.
Definition set_registry (v : Mutex Registry) (st : AppState S Q) : AppState S Q :=
  {| registry := v; store := store st; bootstrap_token_hash := bootstrap_token_hash st;
     online_desktops := online_desktops st; desktop_channels := desktop_channels st;
     device_channels := device_channels st; snapshots := snapshots st;
     pairing_routes := pairing_routes st; pairing_connections := pairing_connections st;
     control_connections := control_connections st; revoke_connections := revoke_connections st;
     control_last_at := control_last_at st; desktop_ws_slots := desktop_ws_slots st;
     device_ws_slots := device_ws_slots st; pairing_ws_slots := pairing_ws_slots st;
     mcp_gateway := mcp_gateway st; next_handle := next_handle st |}.
Definition set_store (v : S) (st : AppState S Q) : AppState S Q :=
  {| registry := registry st; store := v; bootstrap_token_hash := bootstrap_token_hash st;
     online_desktops := online_desktops st; desktop_channels := desktop_channels st;
     device_channels := device_channels st; snapshots := snapshots st;
     pairing_routes := pairing_routes st; pairing_connections := pairing_connections st;
     control_connections := control_connections st; revoke_connections := revoke_connections st;
     control_last_at := control_last_at st; desktop_ws_slots := desktop_ws_slots st;
     device_ws_slots := device_ws_slots st; pairing_ws_slots := pairing_ws_slots st;
     mcp_gateway := mcp_gateway st; next_handle := next_handle st |}.
Definition set_bootstrap_token_hash (v : option string) (st : AppState S Q) : AppState S Q :=
  {| registry := registry st; store := store st; bootstrap_token_hash := v;
     online_desktops := online_desktops st; desktop_channels := desktop_channels st;
     device_channels := device_channels st; snapshots := snapshots st;
     pairing_routes := pairing_routes st; pairing_connections := pairing_connections st;
     control_connections := control_connections st; revoke_connections := revoke_connections st;
     control_last_at := control_last_at st; desktop_ws_slots := desktop_ws_slots st;
     device_ws_slots := device_ws_slots st; pairing_ws_slots := pairing_ws_slots st;
     mcp_gateway := mcp_gateway st; next_handle := next_handle st |}.
Definition set_online_desktops (v : gmap string string) (st : AppState S Q) : AppState S Q :=
  {| registry := registry st; store := store st; bootstrap_token_hash := bootstrap_token_hash st;
     online_desktops := v; desktop_channels := desktop_channels st;
     device_channels := device_channels st; snapshots := snapshots st;
     pairing_routes := pairing_routes st; pairing_connections := pairing_connections st;
     control_connections := control_connections st; revoke_connections := revoke_connections st;
     control_last_at := control_last_at st; desktop_ws_slots := desktop_ws_slots st;
     device_ws_slots := device_ws_slots st; pairing_ws_slots := pairing_ws_slots st;
     mcp_gateway := mcp_gateway st; next_handle := next_handle st |}.
Definition set_desktop_channels (v : gmap string DesktopRoute) (st : AppState S Q) : AppState S Q :=
  {| registry := registry st; store := store st; bootstrap_token_hash := bootstrap_token_hash st;
     online_desktops := online_desktops st; desktop_channels := v;
     device_channels := device_channels st; snapshots := snapshots st;
     pairing_routes := pairing_routes st; pairing_connections := pairing_connections st;
     control_connections := control_connections st; revoke_connections := revoke_connections st;
     control_last_at := control_last_at st; desktop_ws_slots := desktop_ws_slots st;
     device_ws_slots := device_ws_slots st; pairing_ws_slots := pairing_ws_slots st;
     mcp_gateway := mcp_gateway st; next_handle := next_handle st |}.
Definition set_device_channels (v : gmap RouteKey Chan) (st : AppState S Q) : AppState S Q :=
  {| registry := registry st; store := store st; bootstrap_token_hash := bootstrap_token_hash st;
     online_desktops := online_desktops st; desktop_channels := desktop_channels st;
     device_channels := v; snapshots := snapshots st; pairing_routes := pairing_routes st;
     pairing_connections := pairing_connections st; control_connections := control_connections st;
     revoke_connections := revoke_connections st; control_last_at := control_last_at st;
     desktop_ws_slots := desktop_ws_slots st; device_ws_slots := device_ws_slots st;
     pairing_ws_slots := pairing_ws_slots st; mcp_gateway := mcp_gateway st;
     next_handle := next_handle st |}.
Definition set_snapshots (v : gmap RouteKey SnapshotRecord) (st : AppState S Q) : AppState S Q :=
  {| registry := registry st; store := store st; bootstrap_token_hash := bootstrap_token_hash st;
     online_desktops := online_desktops st; desktop_channels := desktop_channels st;
     device_channels := device_channels st; snapshots := v; pairing_routes := pairing_routes st;
     pairing_connections := pairing_connections st; control_connections := control_connections st;
     revoke_connections := revoke_connections st; control_last_at := control_last_at st;
     desktop_ws_slots := desktop_ws_slots st; device_ws_slots := device_ws_slots st;
     pairing_ws_slots := pairing_ws_slots st; mcp_gateway := mcp_gateway st;
     next_handle := next_handle st |}.
Definition set_pairing_routes (v : gmap RouteKey PairingRoute) (st : AppState S Q) : AppState S Q :=
  {| registry := registry st; store := store st; bootstrap_token_hash := bootstrap_token_hash st;
     online_desktops := online_desktops st; desktop_channels := desktop_channels st;
     device_channels := device_channels st; snapshots := snapshots st; pairing_routes := v;
     pairing_connections := pairing_connections st; control_connections := control_connections st;
     revoke_connections := revoke_connections st; control_last_at := control_last_at st;
     desktop_ws_slots := desktop_ws_slots st; device_ws_slots := device_ws_slots st;
     pairing_ws_slots := pairing_ws_slots st; mcp_gateway := mcp_gateway st;
     next_handle := next_handle st |}.
Definition set_pairing_connections (v : gmap string Handle) (st : AppState S Q) : AppState S Q :=
  {| registry := registry st; store := store st; bootstrap_token_hash := bootstrap_token_hash st;
     online_desktops := online_desktops st; desktop_channels := desktop_channels st;
     device_channels := device_channels st; snapshots := snapshots st;
     pairing_routes := pairing_routes st; pairing_connections := v;
     control_connections := control_connections st; revoke_connections := revoke_connections st;
     control_last_at := control_last_at st; desktop_ws_slots := desktop_ws_slots st;
     device_ws_slots := device_ws_slots st; pairing_ws_slots := pairing_ws_slots st;
     mcp_gateway := mcp_gateway st; next_handle := next_handle st |}.
Definition set_control_connections (v : gmap ControlRouteKey Handle) (st : AppState S Q) : AppState S Q :=
  {| registry := registry st; store := store st; bootstrap_token_hash := bootstrap_token_hash st;
     online_desktops := online_desktops st; desktop_channels := desktop_channels st;
     device_channels := device_channels st; snapshots := snapshots st;
     pairing_routes := pairing_routes st; pairing_connections := pairing_connections st;
     control_connections := v; revoke_connections := revoke_connections st;
     control_last_at := control_last_at st; desktop_ws_slots := desktop_ws_slots st;
     device_ws_slots := device_ws_slots st; pairing_ws_slots := pairing_ws_slots st;
     mcp_gateway := mcp_gateway st; next_handle := next_handle st |}.
Definition set_revoke_connections (v : gmap ControlRouteKey Handle) (st : AppState S Q) : AppState S Q :=
  {| registry := registry st; store := store st; bootstrap_token_hash := bootstrap_token_hash st;
     online_desktops := online_desktops st; desktop_channels := desktop_channels st;
     device_channels := device_channels st; snapshots := snapshots st;
     pairing_routes := pairing_routes st; pairing_connections := pairing_connections st;
     control_connections := control_connections st; revoke_connections := v;
     control_last_at := control_last_at st; desktop_ws_slots := desktop_ws_slots st;
     device_ws_slots := device_ws_slots st; pairing_ws_slots := pairing_ws_slots st;
     mcp_gateway := mcp_gateway st; next_handle := next_handle st |}.
Definition set_control_last_at (v : Mutex (gmap RouteKey N)) (st : AppState S Q) : AppState S Q :=
  {| registry := registry st; store := store st; bootstrap_token_hash := bootstrap_token_hash st;
     online_desktops := online_desktops st; desktop_channels := desktop_channels st;
     device_channels := device_channels st; snapshots := snapshots st;
     pairing_routes := pairing_routes st; pairing_connections := pairing_connections st;
     control_connections := control_connections st; revoke_connections := revoke_connections st;
     control_last_at := v; desktop_ws_slots := desktop_ws_slots st;
     device_ws_slots := device_ws_slots st; pairing_ws_slots := pairing_ws_slots st;
     mcp_gateway := mcp_gateway st; next_handle := next_handle st |}.
Definition set_desktop_ws_slots (v : nat) (st : AppState S Q) : AppState S Q :=
  {| registry := registry st; store := store st; bootstrap_token_hash := bootstrap_token_hash st;
     online_desktops := online_desktops st; desktop_channels := desktop_channels st;
     device_channels := device_channels st; snapshots := snapshots st;
     pairing_routes := pairing_routes st; pairing_connections := pairing_connections st;
     control_connections := control_connections st; revoke_connections := revoke_connections st;
     control_last_at := control_last_at st; desktop_ws_slots := v;
     device_ws_slots := device_ws_slots st; pairing_ws_slots := pairing_ws_slots st;
     mcp_gateway := mcp_gateway st; next_handle := next_handle st |}.
Definition set_device_ws_slots (v : nat) (st : AppState S Q) : AppState S Q :=
  {| registry := registry st; store := store st; bootstrap_token_hash := bootstrap_token_hash st;
     online_desktops := online_desktops st; desktop_channels := desktop_channels st;
     device_channels := device_channels st; snapshots := snapshots st;
     pairing_routes := pairing_routes st; pairing_connections := pairing_connections st;
     control_connections := control_connections st; revoke_connections := revoke_connections st;
     control_last_at := control_last_at st; desktop_ws_slots := desktop_ws_slots st;
     device_ws_slots := v; pairing_ws_slots := pairing_ws_slots st; mcp_gateway := mcp_gateway st;
     next_handle := next_handle st |}.
Definition set_pairing_ws_slots (v : nat) (st : AppState S Q) : AppState S Q :=
  {| registry := registry st; store := store st; bootstrap_token_hash := bootstrap_token_hash st;
     online_desktops := online_desktops st; desktop_channels := desktop_channels st;
     device_channels := device_channels st; snapshots := snapshots st;
     pairing_routes := pairing_routes st; pairing_connections := pairing_connections st;
     control_connections := control_connections st; revoke_connections := revoke_connections st;
     control_last_at := control_last_at st; desktop_ws_slots := desktop_ws_slots st;
     device_ws_slots := device_ws_slots st; pairing_ws_slots := v; mcp_gateway := mcp_gateway st;
     next_handle := next_handle st |}.
Definition set_mcp_gateway (v : Gateway Q) (st : AppState S Q) : AppState S Q :=
  {| registry := registry st; store := store st; bootstrap_token_hash := bootstrap_token_hash st;
     online_desktops := online_desktops st; desktop_channels := desktop_channels st;
     device_channels := device_channels st; snapshots := snapshots st;
     pairing_routes := pairing_routes st; pairing_connections := pairing_connections st;
     control_connections := control_connections st; revoke_connections := revoke_connections st;
     control_last_at := control_last_at st; desktop_ws_slots := desktop_ws_slots st;
     device_ws_slots := device_ws_slots st; pairing_ws_slots := pairing_ws_slots st;
     mcp_gateway := v; next_handle := next_handle st |}.
Definition set_next_handle (v : N) (st : AppState S Q) : AppState S Q :=
  {| registry := registry st; store := store st; bootstrap_token_hash := bootstrap_token_hash st;
     online_desktops := online_desktops st; desktop_channels := desktop_channels st;
     device_channels := device_channels st; snapshots := snapshots st;
     pairing_routes := pairing_routes st; pairing_connections := pairing_connections st;
     control_connections := control_connections st; revoke_connections := revoke_connections st;
     control_last_at := control_last_at st; desktop_ws_slots := desktop_ws_slots st;
     device_ws_slots := device_ws_slots st; pairing_ws_slots := pairing_ws_slots st;
     mcp_gateway := mcp_gateway st; next_handle := v |}.
End Setters.

(** What an operation sends on the channels of other tasks. *)
Inductive Effect :=
| ToDevice (c : Chan) (m : DeviceServerMessage)
| ToDesktop (c : Chan) (m : DesktopServerMessage)
| ReplyPairing (h : Handle) (m : PairingServerMessage)
| ReplyControl (h : Handle) (r : Result EncryptedControlPayload string)
| ReplyRevoke (h : Handle) (r : Result unit string).

(** A websocket message as the handlers distinguish it; [None] stands for a receive that
    timed out, failed or found the socket closed. *)
Inductive WsMessage :=
| WsText (text : string)
| WsBinary (data : list byte)
| WsPing (data : list byte)
| WsPong (data : list byte)
| WsClose.

(** What a session task writes on its socket. *)
Inductive Out (M : Type) :=
| SendJson (m : M)
| SendPing
| SendPong (data : list byte).
Arguments SendJson {M} m.
Arguments SendPing {M}.
Arguments SendPong {M} data.

(** [broadcast::Receiver::recv] *)
Inductive Routed (M : Type) :=
| RoutedMessage (m : M)
| Lagged
| ChannelClosed.
Arguments RoutedMessage {M} m.
Arguments Lagged {M}.
Arguments ChannelClosed {M}.

(** Whether a session loop goes on. *)
Inductive Flow := Continue | Break.

(** ** Capabilities of a route *)

Definition has_capability (c : string) (cs : list string) : bool := existsb (String.eqb c) cs.

Definition routed_device_capabilities (route : option DesktopRoute) : list string :=
  match route with
  | None => [CAPABILITY_SNAPSHOT]
  | Some route =>
      CAPABILITY_SNAPSHOT ::
      filter (fun c => (negb (String.eqb c CAPABILITY_SNAPSHOT)
                        && has_capability c (route_capabilities route)) = true)
             device_capabilities
  end.

Definition route_supports_control (route : DesktopRoute) : bool :=
  existsb (fun c => String.eqb c CAPABILITY_CONTROL_REFRESH
                    || String.eqb c CAPABILITY_CONTROL_RECONNECT) (route_capabilities route).

Definition route_supports_revoke (route : DesktopRoute) : bool :=
  existsb (fun c => String.eqb c CAPABILITY_REVOKE_SYNC) (route_capabilities route).

(** ** Utilities ([web_utils.rs]) *)

(** [random_hex]: the bytes the operating system's generator filled in, if it did. *)
Definition random_hex (filled : option (list byte)) : Result string string :=
  match filled with
  | Some bytes => Ok (hex_of_bytes bytes)
  | None => Err "secure random generation failed"
  end.

Definition Headers : Type := list (string * string).

Fixpoint header_get (name : string) (headers : Headers) : option string :=
  match headers with
  | [] => None
  | (k, v) :: rest => if String.eqb k name then Some v else header_get name rest
  end.

(** [token_hash.len() == 64 && token_hash.bytes().all(is_ascii_hexdigit)] *)
Definition valid_token_hash (h : string) : bool :=
  (strlen h =? 64)%N && string_forall is_ascii_hexdigit h.

(** HTTP status codes and bodies of the handlers. *)
Inductive Body :=
| NoBody
| ErrorBody (message : string)
| Plain (message : string)
| RegisteredBody (r : DesktopRegisterResponse)
| SnapshotBody (desktop_online : bool) (server_time : N) (record : option SnapshotRecord)
| RevokedBody (device_id : string)
| StreamedBody (headers : list (string * string))
| Upgrade.

Record Response := { status : N; body : Body }.

Definition json_error (status : N) (message : string) : Response :=
  {| status := status; body := ErrorBody message |}.

Definition OK : N := 200.
Definition NO_CONTENT : N := 204.
Definition BAD_REQUEST : N := 400.
Definition UNAUTHORIZED : N := 401.
Definition NOT_FOUND : N := 404.
Definition METHOD_NOT_ALLOWED : N := 405.
Definition CONFLICT : N := 409.
Definition GONE : N := 410.
Definition PAYLOAD_TOO_LARGE : N := 413.
Definition TOO_MANY_REQUESTS : N := 429.
Definition INTERNAL_SERVER_ERROR : N := 500.
Definition BAD_GATEWAY : N := 502.
Definition SERVICE_UNAVAILABLE : N := 503.
Definition GATEWAY_TIMEOUT : N := 504.

Definition no_content : Response := {| status := NO_CONTENT; body := NoBody |}.

Section AppState.
Context {S Q : Type} `{RegistryStore S} `{MpscQueue Q}.
(** SHA-256, and [HeaderValue::to_str]. *)
Context (sha256 : string -> list byte) (to_str : string -> option string).

Implicit Types st : AppState S Q.

Definition bearer (headers : Headers) : option string :=
  let_some value := header_get "authorization" headers else None in
  let_some value := to_str value else None in
  let_some token := strip_prefix "Bearer " value else None in
  let token := trim token in
  if is_empty token then None else Some token.

(** *** Construction ([AppState::load]) *)

Definition app_load (loaded : Result Registry string) (s : S) (bootstrap_token : option string)
    (mcp_desktop : option string) : Result (AppState S Q) string :=
  registry <-? loaded ;;
  Ok {| registry := new_mutex registry; store := s;
        bootstrap_token_hash :=
          match bootstrap_token with
          | Some value => if is_empty (trim value) then None
                          else Some (token_hash sha256 (trim value))
          | None => None
          end;
        online_desktops := ∅; desktop_channels := ∅; device_channels := ∅; snapshots := ∅;
        pairing_routes := ∅; pairing_connections := ∅; control_connections := ∅;
        revoke_connections := ∅; control_last_at := new_mutex ∅;
        desktop_ws_slots := MAX_DESKTOP_WS; device_ws_slots := MAX_DEVICE_WS;
        pairing_ws_slots := MAX_PAIRING_WS; mcp_gateway := from_env mcp_desktop;
        next_handle := 0 |}.

(** [save_registry], called with the registry lock held: [r] is the locked value. *)
Definition save_registry (r : Registry) st : Result unit string * AppState S Q :=
  let '(res, s') := store_save r (store st) in (res, set_store s' st).

Definition put_registry (r : Registry) st : AppState S Q :=
  set_registry (set_guarded r (registry st)) st.

(** *** Credentials *)

Definition desktop_record (desktop_id : string) st : option DesktopRecord :=
  match lock (registry st) with Some r => desktops r !! desktop_id | None => None end.

Definition desktop_authorized (desktop_id token : string) st : bool :=
  match desktop_record desktop_id st with
  | Some desktop => hash_matches sha256 token (desk_token_hash desktop)
  | None => false
  end.

Definition device_record (desktop_id device_id : string) st : option DeviceRecord :=
  match desktop_record desktop_id st with
  | Some desktop => desk_devices desktop !! device_id
  | None => None
  end.

Definition device_authorized (desktop_id device_id token : string) st : bool :=
  match device_record desktop_id device_id st with
  | Some device => hash_matches sha256 token (dev_token_hash device)
  | None => false
  end.

Definition device_exists (desktop_id device_id : string) st : bool :=
  match device_record desktop_id device_id st with Some _ => true | None => false end.

(** *** Channels and snapshots *)

Definition fresh_handle st : N * AppState S Q :=
  (next_handle st, set_next_handle (N.succ (next_handle st)) st).

(** [route_sender]: the device's broadcast channel, created on first use. *)
Definition obtain_sender (desktop_id device_id : string) st : Chan * AppState S Q :=
  match device_channels st !! (desktop_id, device_id) with
  | Some c => (c, st)
  | None =>
      let '(c, st) := fresh_handle st in
      (c, set_device_channels (<[(desktop_id, device_id) := c]> (device_channels st)) st)
  end.

Definition broadcast_desktop_presence (desktop_id : string) (online : bool) (now : N) st
    : list Effect :=
  omap (fun kv : RouteKey * Chan =>
          if String.eqb kv.1.1 desktop_id
          then Some (ToDevice kv.2 (DesktopPresence online now)) else None)
       (map_to_list (device_channels st)).

Definition cache_and_route_snapshot (now : N) (desktop_id device_id : string)
    (snap : EncryptedSnapshot) st : Result unit string * AppState S Q * list Effect :=
  return_if negb (device_exists desktop_id device_id st)
    with (Err "device not authorized", st, []) in
  return_if (64 <? strlen (snap_nonce snap))%N || (96 * 1024 <? strlen (snap_ciphertext snap))%N
    with (Err "snapshot too large", st, []) in
  let key := (desktop_id, device_id) in
  let not_increasing :=
    match snapshots st !! key with
    | Some previous => String.eqb (snap_session_id (snapshot previous)) (snap_session_id snap)
                       && (snap_sequence snap <=? snap_sequence (snapshot previous))%N
    | None => false
    end in
  return_if not_increasing with (Err "snapshot sequence is not increasing", st, []) in
  let st := set_snapshots (<[key := {| received_at := now; snapshot := snap |}]> (snapshots st)) st in
  let '(sender, st) := obtain_sender desktop_id device_id st in
  (Ok tt, st, [ToDevice sender (DeviceSnapshot now snap)]).

Definition latest_snapshot (now : N) (desktop_id device_id : string) st
    : option SnapshotRecord * AppState S Q :=
  let key := (desktop_id, device_id) in
  let stale := match snapshots st !! key with
               | Some record => (SNAPSHOT_TTL_MS <? saturating_sub now (received_at record))%N
               | None => false
               end in
  let st := if stale then set_snapshots (delete key (snapshots st)) st else st in
  (snapshots st !! key, st).

(** *** Removing a device record *)

Definition revoke_device_record (desktop_id device_id : string) st
    : Result bool string * AppState S Q :=
  let_some r := lock (registry st) else (Err "registry lock poisoned", st) in
  let_some desktop := desktops r !! desktop_id else (Ok false, st) in
  let previous := desk_devices desktop in
  return_if (match previous !! device_id with Some _ => false | None => true end) with (Ok false, st) in
  let r' := set_desktops <[desktop_id := set_devices (delete device_id) desktop]> r in
  match save_registry r' (put_registry r' st) with
  | (Ok _, st) => (Ok true, st)
  | (Err error, st) =>
      let rolled := set_desktops (alter (set_devices (fun _ => previous)) desktop_id) r' in
      (Err error, put_registry rolled st)
  end.

(** *** Correlated completions *)

Definition complete_revoke (desktop_id device_id request_id : string) (result : Result unit string)
    st : AppState S Q * list Effect :=
  let key := (desktop_id, device_id, request_id) in
  match revoke_connections st !! key with
  | Some sender => (set_revoke_connections (delete key (revoke_connections st)) st,
                    [ReplyRevoke sender result])
  | None => (st, [])
  end.

Definition complete_control (desktop_id device_id request_id : string)
    (result : Result EncryptedControlPayload string) st : AppState S Q * list Effect :=
  let key := (desktop_id, device_id, request_id) in
  match control_connections st !! key with
  | Some sender => (set_control_connections (delete key (control_connections st)) st,
                    [ReplyControl sender result])
  | None => (st, [])
  end.

(** *** Synchronised revocation

    [request_desktop_revoke] up to the point where it awaits the desktop's answer, and
    from there on; [send_ok c] says whether a send on [c] finds a receiver. *)

Definition request_desktop_revoke_begin (random : option (list byte)) (send_ok : Chan -> bool)
    (desktop_id device_id : string) st
    : Result (ControlRouteKey * Handle) string * AppState S Q * list Effect :=
  let_some route := desktop_channels st !! desktop_id
    else (Err "desktop offline; synchronized revoke unavailable", st, []) in
  return_if negb (route_supports_revoke route)
    with (Err "desktop synchronized revoke capability unavailable", st, []) in
  let_ok suffix := random_hex random else e => (Err e, st, []) in
  let request_id := "r_" ++ suffix in
  let key := (desktop_id, device_id, request_id) in
  let '(sender, st) := fresh_handle st in
  return_if (MAX_PENDING_REVOKES <=? size (revoke_connections st))%nat
    with (Err "revoke capacity reached", st, []) in
  let st := set_revoke_connections (<[key := sender]> (revoke_connections st)) st in
  return_if negb (send_ok (route_sender route))
    with (Err "desktop revoke channel unavailable",
          set_revoke_connections (delete key (revoke_connections st)) st, []) in
  (Ok (key, sender), st, [ToDesktop (route_sender route) (DeviceRevoke device_id request_id)]).

(** [answer]: what the oneshot delivered within [REVOKE_TIMEOUT], if anything. *)
Definition request_desktop_revoke_end (key : ControlRouteKey)
    (answer : option (Result unit string)) st : Result unit string * AppState S Q :=
  let st := set_revoke_connections (delete key (revoke_connections st)) st in
  match answer with
  | Some result => (result, st)
  | None => (Err "desktop revoke timeout", st)
  end.

(** The whole of [request_desktop_revoke]; [wait] is what the other tasks do meanwhile. *)
Definition request_desktop_revoke (random : option (list byte)) (send_ok : Chan -> bool)
    (wait : Handle -> AppState S Q -> option (Result unit string) * AppState S Q)
    (desktop_id device_id : string) st : Result unit string * AppState S Q * list Effect :=
  match request_desktop_revoke_begin random send_ok desktop_id device_id st with
  | (Err e, st, effects) => (Err e, st, effects)
  | (Ok (key, h), st, effects) =>
      let '(answer, st) := wait h st in
      let '(result, st) := request_desktop_revoke_end key answer st in
      (result, st, effects)
  end.

Definition finalize_device_revoke (desktop_id device_id : string) st
    : Result unit string * AppState S Q * list Effect :=
  let key := (desktop_id, device_id) in
  let st := set_snapshots (delete key (snapshots st)) st in
  match revoke_device_record desktop_id device_id st with
  | (Err e, st) => (Err e, st, [])
  | (Ok _, st) =>
      let effects := match device_channels st !! key with
                     | Some sender => [ToDevice sender (Revoked device_id)]
                     | None => []
                     end in
      (Ok tt, set_device_channels (delete key (device_channels st)) st, effects)
  end.

(** *** Health report *)

Record Health := {
  h_online_desktops : nat;
  h_enabled : bool;
  h_connected : bool;
  h_in_flight : nat;
  h_server_time : N }.

Definition health (now : N) st : Health :=
  {| h_online_desktops := size (online_desktops st);
     h_enabled := match gw_desktop_id (mcp_gateway st) with Some _ => true | None => false end;
     h_connected := match gw_active (mcp_gateway st) with Some _ => true | None => false end;
     h_in_flight := match lock (gw_pending (mcp_gateway st)) with Some p => size p | None => 0 end;
     h_server_time := now |}.
End AppState.

(** ** Properties *)


Section StateProps.
Context {S Q : Type} `{RegistryStore S} `{!RegistryStoreLaws S} `{MpscQueue Q}.
Context (sha256 : string -> list byte) (to_str : string -> option string).
Implicit Types st : AppState S Q.

(** The registry in memory is the one a restart would load. *)
Definition durable st : Prop :=
  store_loaded (store st) = Some (Ok (guarded (registry st))).

(** The capabilities announced to a device are the snapshot capability, always, plus
    exactly those known device capabilities that its online desktop announced. *)
Theorem routed_capabilities_spec route c :
  In c (routed_device_capabilities route) <->
  c = CAPABILITY_SNAPSHOT
  \/ exists r, route = Some r /\ In c device_capabilities /\ In c (route_capabilities r).
Proof.
  unfold routed_device_capabilities. destruct route as [r|]; [|cbn; naive_solver].
  cbn [In]. rewrite <- list_elem_of_In, list_elem_of_filter, list_elem_of_In.
  rewrite andb_true_iff, negb_true_iff, String.eqb_neq.
  unfold has_capability. rewrite existsb_exists. split.
  - intros [->|[[Hne (x & Hx & <-%String.eqb_eq)] Hc]]; [by left|right]. eauto.
  - intros [->|(r' & [= ->] & Hc & Hr)]; [by left|].
    destruct (decide (c = CAPABILITY_SNAPSHOT)) as [->|Hne]; [by left|right].
    split; [|done]. split; [done|]. exists c. by rewrite String.eqb_refl.
Qed.

Lemma save_registry_spec r st res st' :
  save_registry r st = (res, st') ->
  exists s', st' = set_store s' st
  /\ match res with
     | Ok _ => store_loaded s' = Some (Ok r)
     | Err _ => store_loaded s' = store_loaded (store st)
     end.
Proof.
  unfold save_registry. destruct (store_save r (store st)) as [x s'] eqn:Hs.
  intros [= -> <-]. exists s'. split; [done|]. destruct res as [[]|e].
  - by eapply store_save_ok.
  - by eapply store_save_err.
Qed.

Lemma set_devices_id d : set_devices (fun _ => desk_devices d) d = d.
Proof. by destruct d. Qed.

Lemma registry_rollback desktop_id d f r :
  desktops r !! desktop_id = Some d ->
  set_desktops (alter (set_devices (fun _ => desk_devices d)) desktop_id)
    (set_desktops <[desktop_id := set_devices f d]> r) = r.
Proof.
  intros Hd. destruct r as [ds inv]. unfold set_desktops. cbn in *. f_equal.
  apply map_eq. intros k. destruct (decide (desktop_id = k)) as [<-|Hne].
  - rewrite lookup_alter_eq, lookup_insert_eq, Hd. cbn. f_equal. by destruct d.
  - by rewrite lookup_alter_ne, lookup_insert_ne.
Qed.

Lemma device_exists_unlocked desktop_id device_id st r d :
  registry st = {| guarded := r; poisoned := false |} -> desktops r !! desktop_id = Some d ->
  device_exists desktop_id device_id st
  = match desk_devices d !! device_id with Some _ => true | None => false end.
Proof. intros Hr Hd. unfold device_exists, device_record, desktop_record. by rewrite Hr; cbn; rewrite Hd. Qed.

(** What the registry operations leave alone. *)
Record same_tables st st' : Prop := {
  same_device_channels : device_channels st' = device_channels st;
  same_snapshots : snapshots st' = snapshots st;
  same_desktop_channels : desktop_channels st' = desktop_channels st;
  same_online : online_desktops st' = online_desktops st;
  same_controls : control_connections st' = control_connections st;
  same_revokes : revoke_connections st' = revoke_connections st;
  same_pairings : pairing_routes st' = pairing_routes st;
  same_pairing_connections : pairing_connections st' = pairing_connections st;
  same_desktop_slots : desktop_ws_slots st' = desktop_ws_slots st;
  same_device_slots : device_ws_slots st' = device_ws_slots st;
  same_pairing_slots : pairing_ws_slots st' = pairing_ws_slots st;
  same_next_handle : next_handle st' = next_handle st;
  same_gateway : mcp_gateway st' = mcp_gateway st;
  same_bootstrap : bootstrap_token_hash st' = bootstrap_token_hash st;
  same_poison : poisoned (registry st') = poisoned (registry st) }.

Lemma same_tables_refl st : same_tables st st.
Proof. by constructor. Qed.

(** What [revoke_device_record] does, on every branch. *)
Lemma revoke_device_record_spec desktop_id device_id st res st' :
  revoke_device_record desktop_id device_id st = (res, st') ->
  same_tables st st' /\ (durable st -> durable st')
  /\ match res with
     | Ok true => device_exists desktop_id device_id st = true
         /\ device_exists desktop_id device_id st' = false
         /\ exists d, desktops (guarded (registry st)) !! desktop_id = Some d
            /\ guarded (registry st')
               = set_desktops <[desktop_id := set_devices (delete device_id) d]> (guarded (registry st))
     | Ok false => st' = st /\ device_exists desktop_id device_id st = false
     | Err _ => guarded (registry st') = guarded (registry st)
     end.
Proof.
  unfold revoke_device_record. destruct (lock (registry st)) as [r|] eqn:Hl; [|by intros [= <- <-]].
  apply lock_Some in Hl.
  destruct (desktops r !! desktop_id) as [d|] eqn:Hd.
  2: { intros [= <- <-]. split_and!; try done. unfold device_exists, device_record, desktop_record.
       by rewrite Hl; cbn; rewrite Hd. }
  destruct (desk_devices d !! device_id) as [dv|] eqn:Hdv.
  2: { intros [= <- <-]. split_and!; try done. by rewrite (device_exists_unlocked _ _ _ _ _ Hl Hd), Hdv. }
  set (r' := set_desktops _ r).
  destruct (save_registry r' (put_registry r' st)) as [res1 st1] eqn:Hs.
  apply save_registry_spec in Hs as (s' & -> & Hs). destruct res1 as [[]|e]; intros [= <- <-].
  - split_and!; [constructor; cbn; by rewrite ?Hl|..].
    + intros _. unfold durable. cbn. by rewrite Hs.
    + by rewrite (device_exists_unlocked _ _ _ _ _ Hl Hd), Hdv.
    + rewrite (device_exists_unlocked _ _ _ r' (set_devices (delete device_id) d)); cbn.
      * by rewrite lookup_delete_eq.
      * by rewrite Hl.
      * by rewrite lookup_insert_eq.
    + exists d. by rewrite Hl.
  - assert (set_desktops (alter (set_devices (fun _ => desk_devices d)) desktop_id) r' = r) as ->
      by (by apply registry_rollback).
    split_and!; [constructor; cbn; by rewrite ?Hl| |by cbn; rewrite Hl].
    unfold durable. cbn. rewrite Hs. by rewrite Hl.
Qed.

(** *** Snapshots *)

(** Caching a snapshot succeeds exactly when the device is registered, the payload is
    within its size limits and, within one desktop session, its sequence number is larger
    than the cached one's; then only that device's entry changes and the snapshot is routed
    to that device's channel. A rejected snapshot changes nothing and routes nothing. *)
Theorem cache_snapshot_spec now desktop_id device_id snap st :
  let r := cache_and_route_snapshot now desktop_id device_id snap st in
  let accepted := device_exists desktop_id device_id st = true
    /\ (strlen (snap_nonce snap) <= 64)%N /\ (strlen (snap_ciphertext snap) <= 96 * 1024)%N
    /\ (forall previous, snapshots st !! (desktop_id, device_id) = Some previous ->
          snap_session_id (snapshot previous) = snap_session_id snap ->
          (snap_sequence (snapshot previous) < snap_sequence snap)%N) in
  (r.1.1 = Ok tt /\ accepted
   /\ snapshots r.1.2
      = <[(desktop_id, device_id) := {| received_at := now; snapshot := snap |}]> (snapshots st)
   /\ exists sender, device_channels r.1.2 !! (desktop_id, device_id) = Some sender
        /\ r.2 = [ToDevice sender (DeviceSnapshot now snap)])
  \/ (is_ok r.1.1 = false /\ ~ accepted /\ r.1.2 = st /\ r.2 = []).
Proof.
  unfold cache_and_route_snapshot. cbn zeta.
  destruct (device_exists desktop_id device_id st); cbn [negb]; [|right; naive_solver].
  destruct (_ || _) eqn:Hsz.
  { right. split_and!; [done| |done|done]. intros (_ & ? & ? & _). reflect_bools.
    destruct Hsz; reflect_bools; lia. }
  apply orb_false_iff in Hsz as [Hn%N.ltb_ge Hc%N.ltb_ge].
  destruct (match snapshots st !! _ with Some _ => _ | None => _ end) eqn:Hseq.
  { right. split_and!; [done| |done|done]. intros (_ & _ & _ & Hinc).
    destruct (snapshots st !! _) as [previous|]; [|done].
    apply andb_true_iff in Hseq as [Hs%String.eqb_eq Hle%N.leb_le].
    specialize (Hinc previous eq_refl Hs). lia. }
  left. unfold obtain_sender. cbn [device_channels set_snapshots].
  assert (forall previous, snapshots st !! (desktop_id, device_id) = Some previous ->
      snap_session_id (snapshot previous) = snap_session_id snap ->
      (snap_sequence (snapshot previous) < snap_sequence snap)%N) as Hinc.
  { intros previous Hprev Hs. rewrite Hprev in Hseq. apply String.eqb_eq in Hs.
    rewrite Hs in Hseq. by apply N.leb_gt in Hseq. }
  destruct (device_channels st !! _) as [c|] eqn:Hch; cbn.
  - do 2 (split; [done|]). split; [done|]. by exists c.
  - do 2 (split; [done|]). split; [done|]. eexists. by rewrite lookup_insert_eq.
Qed.

(** A snapshot is only ever served while it is fresh: the record returned was received
    at most [SNAPSHOT_TTL_MS] before the clock reading and is the cached one; a stale record
    is dropped, and no other device's record is affected. *)
Theorem latest_snapshot_spec now desktop_id device_id st :
  let '(res, st') := latest_snapshot now desktop_id device_id st in
  (forall record, res = Some record <->
     snapshots st !! (desktop_id, device_id) = Some record
     /\ (now - received_at record <= SNAPSHOT_TTL_MS)%N)
  /\ snapshots st' !! (desktop_id, device_id) = res
  /\ forall key, key <> (desktop_id, device_id) -> snapshots st' !! key = snapshots st !! key.
Proof.
  unfold latest_snapshot, saturating_sub.
  destruct (snapshots st !! _) as [rec|] eqn:Hrec; cbn zeta.
  2: { rewrite Hrec. split_and!; [naive_solver|done|done]. }
  destruct (_ <? _)%N eqn:Hst; cbn.
  - apply N.ltb_lt in Hst. split_and!.
    + intros record. rewrite lookup_delete_eq. split; [done|]. intros [[= <-] ?]. lia.
    + done.
    + intros key Hk. by rewrite lookup_delete_ne.
  - apply N.ltb_ge in Hst. rewrite Hrec. split_and!; [naive_solver|done|done].
Qed.

(** *** Correlated completions *)

(** A control answer from a desktop reaches exactly the pending request it names: it is
    delivered once, to the request of that desktop, device and request id, which is then no
    longer pending; every other pending request is untouched; and without such a request the
    answer is dropped. The same message a second time is therefore dropped. *)
Theorem complete_control_spec desktop_id device_id request_id result st :
  let '(st', effects) := complete_control desktop_id device_id request_id result st in
  effects = match control_connections st !! (desktop_id, device_id, request_id) with
            | Some h => [ReplyControl h result]
            | None => []
            end
  /\ (forall key, control_connections st' !! key
       = if decide (key = (desktop_id, device_id, request_id)) then None
         else control_connections st !! key)
  /\ complete_control desktop_id device_id request_id result st' = (st', []).
Proof.
  unfold complete_control. destruct (control_connections st !! _) as [h|] eqn:Hh.
  - cbn [control_connections set_control_connections]. rewrite lookup_delete_eq.
    split_and!; [done| |done]. intros key. rewrite lookup_delete.
    repeat case_decide; congruence.
  - rewrite Hh. split_and!; [done| |done]. intros key. case_decide; congruence.
Qed.

(** *** Synchronised revocation *)

(** Asking the desktop to confirm a revocation never removes anything: from the request
    to its end, whatever the answer, the registry, its file and the snapshots are unchanged;
    the request is pending, with its own id, exactly while it is awaited; it succeeds only
    with the desktop's positive answer, and the number of pending requests stays within
    [MAX_PENDING_REVOKES]. *)
Theorem request_desktop_revoke_spec random send_ok desktop_id device_id answer st :
  let '(res, st1, effects) := request_desktop_revoke_begin random send_ok desktop_id device_id st in
  registry st1 = registry st /\ store st1 = store st /\ snapshots st1 = snapshots st
  /\ (size (revoke_connections st) <= MAX_PENDING_REVOKES ->
      size (revoke_connections st1) <= MAX_PENDING_REVOKES)
  /\ match res with
     | Ok (key, h) =>
         revoke_connections st1 !! key = Some h
         /\ (exists route request_id, desktop_channels st !! desktop_id = Some route
             /\ route_supports_revoke route = true
             /\ key = (desktop_id, device_id, request_id)
             /\ effects = [ToDesktop (route_sender route) (DeviceRevoke device_id request_id)])
         /\ let '(res2, st2) := request_desktop_revoke_end key answer st1 in
            registry st2 = registry st /\ store st2 = store st /\ snapshots st2 = snapshots st
            /\ revoke_connections st2 !! key = None
            /\ (res2 = Ok tt <-> answer = Some (Ok tt))
     | Err _ => effects = []
     end.
Proof.
  unfold request_desktop_revoke_begin.
  destruct (desktop_channels st !! desktop_id) as [route|] eqn:Hroute; [|done].
  destruct (route_supports_revoke route) eqn:Hsup; [|done]. cbn [negb].
  destruct (random_hex random) as [suffix|e]; [|done].
  cbn [fresh_handle revoke_connections set_next_handle].
  destruct (MAX_PENDING_REVOKES <=? size (revoke_connections st))%nat eqn:Hcap; [done|]. apply Nat.leb_gt in Hcap.
  destruct (send_ok _); cbn.
  - split_and!; [done|done|done| |by rewrite lookup_insert_eq|by eauto 10|].
    + intros _. etrans; [apply size_insert_le|done].
    + unfold request_desktop_revoke_end. destruct answer as [[[]|e]|]; cbn;
        rewrite lookup_delete_eq; naive_solver.
  - split_and!; [done|done|done| |done].
    intros _. etrans; [apply size_delete_le|]. etrans; [apply size_insert_le|done].
Qed.

Lemma finalize_inv desktop_id device_id st res st' effects :
  finalize_device_revoke desktop_id device_id st = (res, st', effects) ->
  (durable st -> durable st')
  /\ revoke_connections st' = revoke_connections st
  /\ snapshots st' !! (desktop_id, device_id) = None
  /\ match res with
     | Ok _ => device_exists desktop_id device_id st' = false
         /\ device_channels st' !! (desktop_id, device_id) = None
         /\ effects = match device_channels st !! (desktop_id, device_id) with
                      | Some sender => [ToDevice sender (Revoked device_id)]
                      | None => []
                      end
         /\ (registry st' = registry st
             \/ exists d, desktops (guarded (registry st)) !! desktop_id = Some d
                /\ registry st' = set_guarded (set_desktops <[desktop_id := set_devices (delete device_id) d]>
                                                (guarded (registry st))) (registry st))
     | Err _ => registry st' = registry st /\ effects = []
     end.
Proof.
  unfold finalize_device_revoke.
  destruct (revoke_device_record _ _ _) as [res0 st1] eqn:Hr.
  apply revoke_device_record_spec in Hr as (Htab & Hdur & Hres).
  pose proof (same_snapshots _ _ Htab) as Hsn. pose proof (same_device_channels _ _ Htab) as Hch.
  pose proof (same_revokes _ _ Htab) as Hrv. pose proof (same_poison _ _ Htab) as Hpo.
  cbn in Hsn, Hch, Hrv, Hpo.
  assert (snapshots st1 !! (desktop_id, device_id) = None) as Hs by (by rewrite Hsn, lookup_delete_eq).
  assert (forall r, guarded (registry st1) = r -> registry st1 = set_guarded r (registry st)) as Hmx.
  { intros r Hg. destruct (registry st1) as [g p]. cbn in *. by subst. }
  destruct res0 as [b|e]; intros [= <- <- <-].
  - split_and!; [exact Hdur|exact Hrv|exact Hs|..|cbn; by rewrite lookup_delete_eq|by rewrite Hch|].
    + destruct b; [by destruct Hres as (_ & Hx & _)|]. destruct Hres as [-> Hx]. exact Hx.
    + destruct b; [right|left].
      * destruct Hres as (_ & _ & d & Hd & Hg). exists d. split; [exact Hd|]. by apply Hmx.
      * by destruct Hres as [-> _].
  - split_and!; [exact Hdur|exact Hrv|exact Hs|..|done].
    rewrite (Hmx _ Hres). cbn. by destruct (registry st).
Qed.

(** Finalising a revocation keeps memory and disk in agreement on every path: on
    success the device's record, cached snapshot and channel are gone and the connected
    device is told; on error the registry is what it was. *)
Theorem finalize_device_revoke_spec desktop_id device_id st :
  let '(res, st', effects) := finalize_device_revoke desktop_id device_id st in
  (durable st -> durable st')
  /\ snapshots st' !! (desktop_id, device_id) = None
  /\ match res with
     | Ok _ => device_exists desktop_id device_id st' = false
         /\ device_channels st' !! (desktop_id, device_id) = None
         /\ effects = match device_channels st !! (desktop_id, device_id) with
                      | Some sender => [ToDevice sender (Revoked device_id)]
                      | None => []
                      end
     | Err _ => guarded (registry st') = guarded (registry st) /\ effects = []
     end.
Proof.
  destruct (finalize_device_revoke _ _ _) as [[res st'] effects] eqn:Hf.
  apply finalize_inv in Hf as (Hdur & _ & Hs & Hres). split_and!; [exact Hdur|exact Hs|].
  destruct res; [tauto|]. by destruct Hres as [-> ->].
Qed.
End StateProps.

(** ** Concrete instances for the witnesses

    An in-memory store whose saves fail according to a list, an injective stand-in for
    SHA-256, and header values that are always readable. *)

#[export] Instance mem_store : RegistryStore (Registry * list bool) := {|
  store_save r s := match s.2 with
                    | true :: rest => (Err "disk full", (s.1, rest))
                    | _ :: rest => (Ok tt, (r, rest))
                    | [] => (Ok tt, (r, []))
                    end;
  store_loaded s := Some (Ok s.1) |}.

#[export] Instance mem_store_laws : RegistryStoreLaws (Registry * list bool).
Proof. split; cbn; intros r [x [|[] l]]; intros; by simplify_eq/=. Qed.

Definition sample_sha (s : string) : list byte := map byte_of_ascii (list_ascii_of_string s).

Definition Sample : Type := AppState (Registry * list bool) (nat * list Reply).

(** A relay with one desktop ["d_a"] (token ["desk"]) owning one device ["dev"] (token
    ["phone"]), bootstrap token ["boot"], whose saves fail as listed. *)
Definition sample_registry : Registry :=
  {| desktops :=
       {[ "d_a" := {| desk_token_hash := token_hash sample_sha "desk"; desk_device_name := "PC";
                      desk_app_version := "1"; desk_platform := "linux"; desk_created_at := 7;
                      desk_devices := {[ "dev" := {| dev_token_hash := token_hash sample_sha "phone";
                                                     dev_created_at := 8 |} ]} |} ]};
     used_registration_invites := ∅ |}.

Definition sample_state (fails : list bool) : Sample :=
  match app_load sample_sha (Ok sample_registry) (sample_registry, fails) (Some "boot") None with
  | Ok st => st
  | Err _ => {| registry := new_mutex registry_default; store := (registry_default, fails);
                bootstrap_token_hash := None; online_desktops := ∅; desktop_channels := ∅;
                device_channels := ∅; snapshots := ∅; pairing_routes := ∅;
                pairing_connections := ∅; control_connections := ∅; revoke_connections := ∅;
                control_last_at := new_mutex ∅; desktop_ws_slots := 0; device_ws_slots := 0;
                pairing_ws_slots := 0; mcp_gateway := from_env None; next_handle := 0 |}
  end.

Definition sample_headers (token : string) : Headers := [("authorization", "Bearer " ++ token)].

Lemma sample_state_durable fails : durable (sample_state fails).
Proof. reflexivity. Qed.
