(* ===== verification/RegistryRoutes.v ===== *)
(** * Registration and device authorisation ([relay-server/src/registry_routes.rs])

    The HTTP handlers that change the registry.  Every handler takes the shared state and
    the values the environment supplies (clock readings, random bytes) and returns the
    response with the new state. *)

From S2P Require Export RelayState.
Local Open Scope string_scope.

Section Routes.
Context {S Q : Type} `{RegistryStore S} `{MpscQueue Q}.
Context (sha256 : string -> list byte) (to_str : string -> option string).
(** [ring::hmac::verify] with HMAC-SHA-256 (key, message, signature), and the JSON reader
    for invites. *)
Context (hmac_verify : string -> string -> list byte -> bool)
        (invite_from_slice : list byte -> option Registration.RegistrationInvite).

Implicit Types st : AppState S Q.

(** [registration_invite]: [Ok None] for the bootstrap token itself, else the invite's
    identity and expiry. *)
Definition registration_invite (token expected : string) (now : N)
    : Result (option (string * N)) string :=
  return_if hash_matches sha256 token expected with Ok None in
  let_ok parsed := Registration.parse_code invite_from_slice token
    else e => Err "invalid registration code" in
  let '(invite, signed, signature) := parsed in
  return_if negb (hmac_verify expected signed signature) with Err "invalid registration code" in
  return_if (Registration.expires_at invite <=? now)%N
            || (saturating_add now Registration.MAX_INVITE_LIFETIME_MS
                <? Registration.expires_at invite)%N
    with Err "registration code expired; generate a new code in the Relay panel" in
  Ok (Some (token_hash sha256 (Registration.nonce invite), Registration.expires_at invite)).

Definition desktop_registration_record (existing : option DesktopRecord) (desktop_token : string)
    (payload : DesktopRegisterRequest) (now : N) : DesktopRecord :=
  {| desk_token_hash := token_hash sha256 desktop_token;
     desk_device_name := chars_take 128 (reg_device_name payload);
     desk_app_version := chars_take 64 (reg_app_version payload);
     desk_platform := chars_take 64 (reg_platform payload);
     desk_created_at := match existing with Some r => desk_created_at r | None => now end;
     desk_devices := match existing with Some r => desk_devices r | None => ∅ end |}.

Definition valid_registration_id (desktop_id : string) : bool :=
  negb (negb (starts_with "d_" desktop_id) || (strlen desktop_id <? 18)%N
        || (80 <? strlen desktop_id)%N
        || negb (string_forall is_ascii_hexdigit (string_skip 2 desktop_id))).

(** What the environment supplies to one registration: the clock read for the invite and
    for a new record, the clock read at each retained entry, and the random bytes. *)
Record RegisterEnv := {
  env_now : N;
  env_created : N;
  env_retain : string -> N;
  env_random : option (list byte) }.

(** The registry after the invite bookkeeping and the insertion of the record; [None] when
    the invite was used before. *)
Definition register_in (invite : option (string * N)) (env : RegisterEnv) (desktop_id desktop_token : string)
    (payload : DesktopRegisterRequest) (r : Registry) : option Registry :=
  let previous := desktops r !! desktop_id in
  let replacement := desktop_registration_record previous desktop_token payload (env_created env) in
  match invite with
  | Some (id, expires_at) =>
      match used_registration_invites r !! id with
      | Some _ => None
      | None =>
          Some (set_desktops <[desktop_id := replacement]>
                 (set_invites (fun used => <[id := expires_at]>
                    (retain (fun key expiry => (env_retain env key <? expiry)%N) used)) r))
      end
  | None => Some (set_desktops <[desktop_id := replacement]> r)
  end.

Definition register_desktop (headers : Headers) (payload : DesktopRegisterRequest)
    (env : RegisterEnv) st : Response * AppState S Q * list GwEffect :=
  let_some expected := bootstrap_token_hash st
    else (json_error SERVICE_UNAVAILABLE "desktop registration is disabled", st, []) in
  let_some token := bearer to_str headers
    else (json_error UNAUTHORIZED "missing bearer token", st, []) in
  let_ok invite := registration_invite token expected (env_now env)
    else error => (json_error UNAUTHORIZED error, st, []) in
  let desktop_id := trim (reg_desktop_id payload) in
  return_if negb (valid_registration_id desktop_id)
    with (json_error BAD_REQUEST "invalid desktop id", st, []) in
  let_ok desktop_token := random_hex (env_random env)
    else error => (json_error INTERNAL_SERVER_ERROR error, st, []) in
  let_some r := lock (registry st)
    else (json_error INTERNAL_SERVER_ERROR "registry lock poisoned", st, []) in
  let previous := desktops r !! desktop_id in
  let previous_invites := used_registration_invites r in
  let_some r' := register_in invite env desktop_id desktop_token payload r
    else (json_error UNAUTHORIZED
            "registration code already used; generate a new code", st, []) in
  match save_registry r' (put_registry r' st) with
  | (Err error, st) =>
      let rolled := set_invites (fun _ => previous_invites) r' in
      let rolled := match previous with
                    | Some record => set_desktops <[desktop_id := record]> rolled
                    | None => set_desktops (delete desktop_id) rolled
                    end in
      (json_error INTERNAL_SERVER_ERROR error, put_registry rolled st, [])
  | (Ok _, st) =>
      let '(gw, effects) := revoke_desktop desktop_id (mcp_gateway st) in
      ({| status := OK; body := RegisteredBody {| resp_desktop_id := desktop_id;
                                                  resp_desktop_token := desktop_token |} |},
       set_mcp_gateway gw st, effects)
  end.

Definition authorize_device (desktop_id device_id : string) (headers : Headers)
    (payload : DeviceAuthorizeRequest) (now : N) st : Response * AppState S Q :=
  let_some token := bearer to_str headers
    else (json_error UNAUTHORIZED "missing bearer token", st) in
  return_if negb (desktop_authorized sha256 desktop_id token st)
    with (json_error UNAUTHORIZED "invalid desktop credential", st) in
  return_if negb (valid_token_hash (auth_token_hash payload))
    with (json_error BAD_REQUEST "invalid device token hash", st) in
  let_some r := lock (registry st)
    else (json_error INTERNAL_SERVER_ERROR "registry lock poisoned", st) in
  let_some desktop := desktops r !! desktop_id
    else (json_error NOT_FOUND "desktop not found", st) in
  let previous := desk_devices desktop in
  let record := {| dev_token_hash := to_ascii_lowercase (auth_token_hash payload);
                   dev_created_at := now |} in
  let r' := set_desktops <[desktop_id := set_devices <[device_id := record]> desktop]> r in
  match save_registry r' (put_registry r' st) with
  | (Err error, st) =>
      (json_error INTERNAL_SERVER_ERROR error,
       put_registry (set_desktops (alter (set_devices (fun _ => previous)) desktop_id) r') st)
  | (Ok _, st) => (no_content, st)
  end.

Definition revoke_device (desktop_id device_id : string) (headers : Headers) st
    : Response * AppState S Q :=
  let_some token := bearer to_str headers
    else (json_error UNAUTHORIZED "missing bearer token", st) in
  return_if negb (desktop_authorized sha256 desktop_id token st)
    with (json_error UNAUTHORIZED "invalid desktop credential", st) in
  let_some r := lock (registry st)
    else (json_error INTERNAL_SERVER_ERROR "registry lock poisoned", st) in
  let_some desktop := desktops r !! desktop_id
    else (json_error NOT_FOUND "desktop not found", st) in
  let previous := desk_devices desktop in
  let r' := set_desktops <[desktop_id := set_devices (delete device_id) desktop]> r in
  match save_registry r' (put_registry r' st) with
  | (Err error, st) =>
      (json_error INTERNAL_SERVER_ERROR error,
       put_registry (set_desktops (alter (set_devices (fun _ => previous)) desktop_id) r') st)
  | (Ok _, st) =>
      let st := set_snapshots (delete (desktop_id, device_id) (snapshots st)) st in
      (no_content, set_device_channels (delete (desktop_id, device_id) (device_channels st)) st)
  end.
End Routes.

(** ** Properties *)

Section RoutesProps.
Context {S Q : Type} `{RegistryStore S} `{!RegistryStoreLaws S} `{MpscQueue Q}.
Context (sha256 : string -> list byte) (to_str : string -> option string).
Context (hmac_verify : string -> string -> list byte -> bool)
        (invite_from_slice : list byte -> option Registration.RegistrationInvite).
Implicit Types st : AppState S Q.

#[local] Abbreviation register := (register_desktop sha256 to_str hmac_verify invite_from_slice).
#[local] Abbreviation invite_of := (registration_invite sha256 hmac_verify invite_from_slice).

Lemma registration_invite_inv token expected now res
    (Hok : invite_of token expected now = Ok res) :
  match res with
  | None => expected = token_hash sha256 token
  | Some (id, expires) =>
      exists invite signed signature,
        Registration.parse_code invite_from_slice token = Ok (invite, signed, signature)
        /\ hmac_verify expected signed signature = true
        /\ id = token_hash sha256 (Registration.nonce invite)
        /\ expires = Registration.expires_at invite
        /\ (now < expires <= now + Registration.MAX_INVITE_LIFETIME_MS)%N
  end.
Proof.
  unfold registration_invite in Hok. destruct (hash_matches _ _ _) eqn:Hm.
  { injection Hok as <-. by apply hash_matches_spec in Hm. }
  destruct (Registration.parse_code _ _) as [[[invite signed] signature]|] eqn:Hp; [|done].
  destruct (hmac_verify _ _ _) eqn:Hv; [|done]. cbn [negb] in Hok.
  destruct (_ || _) eqn:Ht; [done|]. injection Hok as <-.
  apply orb_false_iff in Ht as [H1%N.leb_gt H2%N.ltb_ge].
  exists invite, signed, signature. split_and!; try done.
  etrans; [exact H2|apply saturating_add_le].
Qed.

(** A registration credential is accepted only if it is the bootstrap token itself or a
    well-formed code whose signature verifies under the bootstrap hash, for a lifetime that
    has not ended and is at most [MAX_INVITE_LIFETIME_MS] away; the invite is then identified
    by the hash of its nonce. *)
Theorem registration_invite_sound token expected now res
    (Hok : invite_of token expected now = Ok res) :
  match res with
  | None => expected = token_hash sha256 token
  | Some (id, expires) =>
      exists invite signed signature,
        Registration.parse_code invite_from_slice token = Ok (invite, signed, signature)
        /\ hmac_verify expected signed signature = true
        /\ id = token_hash sha256 (Registration.nonce invite)
        /\ expires = Registration.expires_at invite
        /\ (now < expires <= now + Registration.MAX_INVITE_LIFETIME_MS)%N
  end.
Proof. by apply registration_invite_inv in Hok. Qed.

(** A registry update is all or nothing. *)
Lemma register_rollback invite env desktop_id tok payload r r' :
  register_in sha256 invite env desktop_id tok payload r = Some r' ->
  let rolled := set_invites (fun _ => used_registration_invites r) r' in
  match desktops r !! desktop_id with
  | Some record => set_desktops <[desktop_id := record]> rolled
  | None => set_desktops (delete desktop_id) rolled
  end = r.
Proof.
  intros Hr.
  assert (exists rec, desktops r' = <[desktop_id := rec]> (desktops r)) as [rec Hd].
  { unfold register_in in Hr. destruct invite as [[id e]|].
    - destruct (used_registration_invites r !! id); [done|]. injection Hr as <-. by eexists.
    - injection Hr as <-. by eexists. }
  cbn. unfold set_desktops, set_invites. cbn. rewrite Hd. destruct r as [ds inv]. cbn in *.
  destruct (ds !! desktop_id) eqn:Hk; cbn; f_equal.
  - by rewrite insert_insert_eq, insert_id.
  - by rewrite delete_insert_id.
Qed.

(** What a registration changes: nothing, unless it answers [OK]. *)
Lemma register_cases headers payload env st :
  let '(resp, st', effects) := register headers payload env st in
  (status resp <> OK /\ effects = [] /\ same_tables st st'
   /\ registry st' = registry st /\ store_loaded (store st') = store_loaded (store st))
  \/ (exists expected token invite desktop_token r r' s',
      bootstrap_token_hash st = Some expected /\ bearer to_str headers = Some token
      /\ invite_of token expected (env_now env) = Ok invite
      /\ valid_registration_id (trim (reg_desktop_id payload)) = true
      /\ random_hex (env_random env) = Ok desktop_token
      /\ lock (registry st) = Some r
      /\ register_in sha256 invite env (trim (reg_desktop_id payload)) desktop_token payload r = Some r'
      /\ resp = {| status := OK; body := RegisteredBody
                    {| resp_desktop_id := trim (reg_desktop_id payload);
                       resp_desktop_token := desktop_token |} |}
      /\ effects = (revoke_desktop (trim (reg_desktop_id payload)) (mcp_gateway st)).2
      /\ store_loaded s' = Some (Ok r')
      /\ st' = set_mcp_gateway (revoke_desktop (trim (reg_desktop_id payload)) (mcp_gateway st)).1
                (set_store s' (put_registry r' st))).
Proof.
  unfold register_desktop.
  destruct (bootstrap_token_hash st) as [expected|]; [|by left].
  destruct (bearer to_str headers) as [token|]; [|by left].
  destruct (invite_of token expected (env_now env)) as [invite|e] eqn:Hinv; [|by left].
  destruct (valid_registration_id _) eqn:Hid; [|by left]. cbn [negb].
  destruct (random_hex _) as [tok|e]; [|by left].
  destruct (lock (registry st)) as [r|] eqn:Hl; [|by left].
  destruct (register_in _ _ _ _ _ _ _) as [r'|] eqn:Hr; [|by left].
  destruct (save_registry r' _) as [res st1] eqn:Hs.
  apply save_registry_spec in Hs as (s' & -> & Hs). destruct res as [[]|e].
  - cbn [mcp_gateway set_store put_registry set_registry].
    destruct (revoke_desktop _ _) as [gw effects] eqn:Hg. right. cbn.
    by exists expected, token, invite, tok, r, r', s'.
  - left. pose proof (register_rollback _ _ _ _ _ _ _ Hr) as Hroll. cbn zeta in Hroll. rewrite Hroll.
    apply lock_Some in Hl. split_and!; try done.
    cbn. by rewrite Hl.
Qed.

(** Registration is atomic. A registration that does not answer [OK] leaves the registry
    in memory, the registry a restart would load, and the gateway exactly as they were
    (in particular it consumes no invite). One that answers [OK] is durable: the returned
    token authenticates the desktop, the desktop keeps its devices and creation date, every
    other desktop is untouched, and an MCP session of that desktop is retired. *)
Theorem register_desktop_atomic headers payload env st (Hdur : durable st) :
  let '(resp, st', effects) := register headers payload env st in
  durable st' /\
  if (status resp =? OK)%N then
    exists id tok, resp = {| status := OK; body := RegisteredBody
                              {| resp_desktop_id := id; resp_desktop_token := tok |} |}
      /\ desktop_authorized sha256 id tok st' = true
      /\ (forall d, desktop_record id st = Some d -> exists d', desktop_record id st' = Some d'
            /\ desk_devices d' = desk_devices d /\ desk_created_at d' = desk_created_at d)
      /\ (forall other, other <> id -> desktop_record other st' = desktop_record other st)
      /\ (gw_desktop_id (mcp_gateway st) = Some id -> gw_active (mcp_gateway st') = None)
  else registry st' = registry st /\ mcp_gateway st' = mcp_gateway st /\ effects = [].
Proof.
  pose proof (register_cases headers payload env st) as Hc.
  destruct (register headers payload env st) as [[resp st'] effects].
  destruct Hc as [(Hst & -> & Htab & Hr & Hl)|
    (expected & token & invite & tok & r & r' & s' & _ & _ & _ & _ & _ & Hl & Hin & -> & _ & Hs & ->)].
  - apply N.eqb_neq in Hst. rewrite Hst. split_and!; [|done|by apply Htab|done].
    unfold durable in *. by rewrite Hl, Hr.
  - change (OK =? OK)%N with true. cbn [status].
    set (id := trim (reg_desktop_id payload)) in *.
    assert (desktops r' = <[id := desktop_registration_record sha256 (desktops r !! id) tok payload
                                    (env_created env)]> (desktops r)) as Hd.
    { unfold register_in in Hin. destruct invite as [[i e]|]; [|by injection Hin as <-].
      destruct (used_registration_invites r !! i); [done|]. by injection Hin as <-. }
    apply lock_Some in Hl.
    assert (forall k, desktop_record k (set_mcp_gateway (revoke_desktop id (mcp_gateway st)).1
              (set_store s' (put_registry r' st))) = desktops r' !! k) as Hrec.
    { intros k. unfold desktop_record. cbn. by rewrite Hl. }
    split; [exact Hs|]. exists id, tok. split_and!; [done|..].
    + unfold desktop_authorized. rewrite Hrec, Hd, lookup_insert_eq. by apply hash_matches_spec.
    + intros d. unfold desktop_record at 1. rewrite Hl. cbn. intros Hk.
      rewrite Hrec, Hd, lookup_insert_eq, Hk. by eexists.
    + intros other Hne. rewrite Hrec, Hd, lookup_insert_ne by done.
      unfold desktop_record. by rewrite Hl.
    + intros Hg. cbn. unfold revoke_desktop. rewrite decide_True by done.
      destruct (gw_active (mcp_gateway st)) eqn:Ha; cbn; [|done].
      unfold fail_session. by destruct (lock _).
Qed.

(** *** Invites are used once *)

(** A later registration, with the clock readings it makes. *)
Record RegisterCall := {
  call_headers : Headers;
  call_payload : DesktopRegisterRequest;
  call_env : RegisterEnv }.

Definition run_call st (c : RegisterCall) : AppState S Q :=
  (register (call_headers c) (call_payload c) (call_env c) st).1.2.

Definition run_calls (cs : list RegisterCall) st : AppState S Q := foldl run_call st cs.

Definition spent (id : string) (expires : N) st : Prop :=
  used_registration_invites (guarded (registry st)) !! id = Some expires.

Lemma run_call_spent id expires c st :
  spent id expires st -> (env_retain (call_env c) id < expires)%N -> spent id expires (run_call st c).
Proof.
  intros Hsp Ht. unfold run_call.
  pose proof (register_cases (call_headers c) (call_payload c) (call_env c) st) as Hc.
  destruct (register _ _ _ st) as [[resp st'] effects]. cbn.
  destruct Hc as [(_ & _ & _ & Hr & _)|
    (expected & token & invite & tok & r & r' & s' & _ & _ & _ & _ & _ & Hl & Hin & _ & _ & _ & ->)];
    [unfold spent in *; by rewrite Hr|].
  apply lock_Some in Hl. unfold spent in *. rewrite Hl in Hsp. cbn in *.
  unfold register_in in Hin. destruct invite as [[i e]|]; [|by injection Hin as <-].
  destruct (used_registration_invites r !! i) eqn:Hi; [done|]. injection Hin as <-. cbn.
  rewrite lookup_insert_ne by congruence. apply lookup_retain. split; [done|]. by apply N.ltb_lt.
Qed.

Lemma run_calls_spent id expires cs st :
  spent id expires st -> Forall (fun c => env_retain (call_env c) id < expires)%N cs ->
  spent id expires (run_calls cs st).
Proof.
  intros Hsp Hcs. revert st Hsp. induction Hcs as [|c cs Hc _ IH]; intros st Hsp; cbn; [done|].
  apply IH. by apply run_call_spent.
Qed.

Lemma bootstrap_kept cs st : bootstrap_token_hash (run_calls cs st) = bootstrap_token_hash st.
Proof.
  revert st. induction cs as [|c cs IH]; intros st; [done|]. cbn. unfold run_calls in IH.
  rewrite IH. unfold run_call.
  pose proof (register_cases (call_headers c) (call_payload c) (call_env c) st) as Hc.
  destruct (register _ _ _ st) as [[resp st'] effects]. cbn.
  destruct Hc as [(_ & _ & [] & _)|(? & ? & ? & ? & ? & ? & ? & Hc)]; [done|].
  by destruct_and! Hc; subst.
Qed.


(** *** Devices *)

(** Authorising a device is authenticated and atomic: it answers [NO_CONTENT] only to
    the desktop's own token and for a 64-digit hexadecimal hash, and then exactly that
    device's record is replaced, durably; every other answer leaves the registry alone, in
    memory and on disk. *)
Theorem authorize_device_spec desktop_id device_id headers payload now st (Hdur : durable st) :
  let '(resp, st') := authorize_device sha256 to_str desktop_id device_id headers payload now st in
  durable st' /\
  if (status resp =? NO_CONTENT)%N then
    (exists token, bearer to_str headers = Some token
       /\ desktop_authorized sha256 desktop_id token st = true)
    /\ valid_token_hash (auth_token_hash payload) = true
    /\ device_record desktop_id device_id st'
       = Some {| dev_token_hash := to_ascii_lowercase (auth_token_hash payload); dev_created_at := now |}
    /\ (forall d v, (d, v) <> (desktop_id, device_id) -> device_record d v st' = device_record d v st)
  else registry st' = registry st.
Proof.
  unfold authorize_device.
  destruct (bearer to_str headers) as [token|]; [|done].
  destruct (desktop_authorized _ _ _ _) eqn:Hauth; [|done].
  destruct (valid_token_hash _) eqn:Hv; [|done]. cbn [negb].
  destruct (lock (registry st)) as [r|] eqn:Hl; [|done]. apply lock_Some in Hl.
  destruct (desktops r !! desktop_id) as [d|] eqn:Hd; [|done].
  set (r' := set_desktops _ r).
  destruct (save_registry r' _) as [res st1] eqn:Hs.
  apply save_registry_spec in Hs as (s' & -> & Hs). destruct res as [[]|e].
  - change (NO_CONTENT =? NO_CONTENT)%N with true. cbn [status no_content].
    split; [exact Hs|]. split_and!; [by exists token|done|..]; unfold device_record, desktop_record;
      cbn; rewrite Hl; cbn.
    + by rewrite !lookup_insert_eq; cbn; rewrite lookup_insert_eq.
    + intros d' v Hne. destruct (decide (d' = desktop_id)) as [->|Hd'].
      * rewrite lookup_insert_eq, Hd. cbn. rewrite lookup_insert_ne; [done|]. congruence.
      * by rewrite lookup_insert_ne.
  - subst r'. rewrite (registry_rollback desktop_id d _ r Hd). cbn. unfold durable in *. rewrite Hl in *.
    cbn in *. by rewrite Hs.
Qed.

(** A desktop revoking a device removes exactly that device's record, cached snapshot
    and channel, durably, and only with the desktop's token; on any other answer the
    registry, the snapshots and the channels are unchanged. *)
Theorem revoke_device_spec desktop_id device_id headers st (Hdur : durable st) :
  let '(resp, st') := revoke_device sha256 to_str desktop_id device_id headers st in
  durable st' /\
  if (status resp =? NO_CONTENT)%N then
    (exists token, bearer to_str headers = Some token
       /\ desktop_authorized sha256 desktop_id token st = true)
    /\ (forall d v, device_record d v st'
         = if decide ((d, v) = (desktop_id, device_id)) then None else device_record d v st)
    /\ snapshots st' = delete (desktop_id, device_id) (snapshots st)
    /\ device_channels st' = delete (desktop_id, device_id) (device_channels st)
  else registry st' = registry st /\ snapshots st' = snapshots st
       /\ device_channels st' = device_channels st.
Proof.
  unfold revoke_device.
  destruct (bearer to_str headers) as [token|]; [|done].
  destruct (desktop_authorized _ _ _ _) eqn:Hauth; [|done]. cbn [negb].
  destruct (lock (registry st)) as [r|] eqn:Hl; [|done]. apply lock_Some in Hl.
  destruct (desktops r !! desktop_id) as [d|] eqn:Hd; [|done].
  set (r' := set_desktops _ r).
  destruct (save_registry r' _) as [res st1] eqn:Hs.
  apply save_registry_spec in Hs as (s' & -> & Hs). destruct res as [[]|e].
  - change (NO_CONTENT =? NO_CONTENT)%N with true. cbn [status no_content].
    split; [exact Hs|]. split_and!; [by exists token| |done|done].
    unfold device_record, desktop_record; cbn; rewrite Hl; cbn.
    intros d' v. case_decide as Hdec.
    + injection Hdec as -> ->. by rewrite lookup_insert_eq; cbn; rewrite lookup_delete_eq.
    + destruct (decide (d' = desktop_id)) as [->|Hd'].
      * rewrite lookup_insert_eq, Hd. cbn. rewrite lookup_delete_ne; [done|]. congruence.
      * by rewrite lookup_insert_ne.
  - subst r'. rewrite (registry_rollback desktop_id d _ r Hd). cbn. unfold durable in *. rewrite Hl in *.
    cbn in *. by rewrite Hs.
Qed.
End RoutesProps.

(** ** Witnesses *)

Definition sample_code : string := "cxr1.7b7d." ++ hex_of_bytes (repeat x00 32).
Definition sample_hmac : string -> string -> list byte -> bool := fun _ _ _ => true.
Definition sample_invite_json : list byte -> option Registration.RegistrationInvite :=
  fun _ => Some RegistrationProps.sample_invite.
Definition sample_payload : DesktopRegisterRequest :=
  {| reg_desktop_id := "d_0123456789abcdef"; reg_device_name := "PC"; reg_app_version := "1";
     reg_platform := "linux" |}.
Definition sample_env (now : N) : RegisterEnv :=
  {| env_now := now; env_created := now; env_retain := fun _ => now;
     env_random := Some (repeat x41 32) |}.

Lemma registration_invite_sound_witness :
  exists invite signed signature,
    Registration.parse_code sample_invite_json sample_code = Ok (invite, signed, signature)
    /\ sample_hmac (token_hash sample_sha "boot") signed signature = true
    /\ token_hash sample_sha "abababababababababababababababab"
       = token_hash sample_sha (Registration.nonce invite)
    /\ 42%N = Registration.expires_at invite
    /\ (10 < 42 <= 10 + Registration.MAX_INVITE_LIFETIME_MS)%N.
Proof.
  exact (registration_invite_sound sample_sha sample_hmac sample_invite_json sample_code
    (token_hash sample_sha "boot") 10
    (Some (token_hash sample_sha "abababababababababababababababab", 42%N))
    ltac:(vm_compute; reflexivity)).
Defined.

Lemma register_desktop_atomic_witness :
  let out := register_desktop sample_sha Some sample_hmac sample_invite_json
    (sample_headers "boot") sample_payload (sample_env 10) (sample_state [true]) in
  status out.1.1 = INTERNAL_SERVER_ERROR /\ durable out.1.2.
Proof.
  intros out. split; [vm_compute; reflexivity|].
  exact (proj1 (register_desktop_atomic sample_sha Some sample_hmac sample_invite_json
    (sample_headers "boot") sample_payload (sample_env 10) (sample_state [true])
    (sample_state_durable [true]))).
Defined.


Lemma authorize_device_spec_witness :
  let out := authorize_device sample_sha Some "d_a" "dev2" (sample_headers "desk")
    {| auth_token_hash := hex_of_bytes (repeat xab 32) |} 9 (sample_state []) in
  status out.1 = NO_CONTENT /\ durable out.2.
Proof.
  intros out. split; [vm_compute; reflexivity|].
  exact (proj1 (authorize_device_spec sample_sha Some "d_a" "dev2" (sample_headers "desk")
    {| auth_token_hash := hex_of_bytes (repeat xab 32) |} 9 (sample_state []) (sample_state_durable []))).
Defined.

Lemma revoke_device_spec_witness :
  let out := revoke_device sample_sha Some "d_a" "dev" (sample_headers "desk") (sample_state []) in
  status out.1 = NO_CONTENT /\ durable out.2.
Proof.
  intros out. split; [vm_compute; reflexivity|].
  exact (proj1 (revoke_device_spec sample_sha Some "d_a" "dev" (sample_headers "desk")
    (sample_state []) (sample_state_durable []))).
Defined.
