(* ===== verification/PairingSession.v ===== *)
(** * Pairing ([relay-server/src/pairing_session.rs])

    The table of pairing routes and the websocket on which a new device sends its one
    pairing message.  The socket task awaits the desktop's answer in the middle: it is
    modelled as the part before the wait, the part after it, and their composition
    with whatever the rest of the relay does meanwhile. *)

From S2P Require Export RelayState.
Local Open Scope string_scope.

Section Pairing.
Context {S Q : Type} `{RegistryStore S} `{MpscQueue Q}.
Context (sha256 : string -> list byte) (to_str : string -> option string).
(** [serde_json::from_str::<PairingWsMessage>] *)
Context (pairing_from_str : string -> option PairingWsMessage).
Implicit Types st : AppState S Q.

(** ** Routes *)

Definition prepare_pairing_route_insert (routes : gmap RouteKey PairingRoute) (desktop_id : string)
    (now : N) : Result unit string * gmap RouteKey PairingRoute :=
  let routes := retain (fun _ route => (now <? route_expires_at route)%N) routes in
  let routes := retain (fun (key : RouteKey) _ => negb (String.eqb key.1 desktop_id)) routes in
  if (MAX_PAIRING_ROUTES <=? size routes)%nat
  then (Err "pairing route capacity reached", routes)
  else (Ok tt, routes).

Definition open_pairing_route (desktop_id pairing_id : string) (headers : Headers)
    (payload : PairingRouteOpenRequest) (now : N) st : Response * AppState S Q :=
  let_some token := bearer to_str headers
    else (json_error UNAUTHORIZED "missing bearer token", st) in
  return_if negb (desktop_authorized sha256 desktop_id token st)
    with (json_error UNAUTHORIZED "invalid desktop credential", st) in
  return_if negb (starts_with "p_" pairing_id) || negb (valid_token_hash (open_token_hash payload))
    with (json_error BAD_REQUEST "invalid pairing route", st) in
  return_if (open_expires_at payload <=? now)%N
            || (saturating_add now (10 * 60000) <? open_expires_at payload)%N
    with (json_error BAD_REQUEST "invalid pairing expiry", st) in
  match prepare_pairing_route_insert (pairing_routes st) desktop_id now with
  | (Err error, routes) => (json_error TOO_MANY_REQUESTS error, set_pairing_routes routes st)
  | (Ok _, routes) =>
      let route := {| route_token_hash := to_ascii_lowercase (open_token_hash payload);
                      route_expires_at := open_expires_at payload |} in
      (no_content, set_pairing_routes (<[(desktop_id, pairing_id) := route]> routes) st)
  end.

Definition delete_pairing_route (desktop_id pairing_id : string) (headers : Headers) st
    : Response * AppState S Q :=
  let_some token := bearer to_str headers
    else (json_error UNAUTHORIZED "missing bearer token", st) in
  return_if negb (desktop_authorized sha256 desktop_id token st)
    with (json_error UNAUTHORIZED "invalid desktop credential", st) in
  (no_content, set_pairing_routes (delete (desktop_id, pairing_id) (pairing_routes st)) st).

(** ** The websocket *)

(** [pairing_ws]: an [Upgrade] takes one of the pairing permits. *)
Definition pairing_ws (desktop_id pairing_id : string) (headers : Headers) (now : N) st
    : Response * AppState S Q :=
  let_some token := bearer to_str headers
    else (json_error UNAUTHORIZED "missing bearer token", st) in
  let key := (desktop_id, pairing_id) in
  let_some route := pairing_routes st !! key
    else (json_error NOT_FOUND "pairing route not found", st) in
  return_if (route_expires_at route <? now)%N
    with (json_error GONE "pairing route expired",
          set_pairing_routes (delete key (pairing_routes st)) st) in
  return_if negb (hash_matches sha256 token (route_token_hash route))
    with (json_error UNAUTHORIZED "invalid pairing route token", st) in
  match pairing_ws_slots st with
  | O => (json_error SERVICE_UNAVAILABLE "pairing websocket capacity reached", st)
  | Datatypes.S permits =>
      ({| status := 101; body := Upgrade |}, set_pairing_ws_slots permits st)
  end.

(** Dropping [_permit] at the end of the task. *)
Definition release_pairing_permit st : AppState S Q :=
  set_pairing_ws_slots (Datatypes.S (pairing_ws_slots st)) st.

(** How the first part of [pairing_socket] ends: the task is over (with a message for the
    device, if any), or it awaits the answer for a connection. *)
Inductive PairingProgress :=
| PairingOver (reply : option PairingServerMessage)
| PairingAwaits (connection_id : string) (h : Handle).

Definition pairing_socket_begin (incoming : option WsMessage) (now : N)
    (random : option (list byte)) (send_ok : Chan -> bool) (desktop_id pairing_id : string) st
    : PairingProgress * AppState S Q * list Effect :=
  let over m := PairingOver (Some (PairingServerError m)) in
  match incoming with
  | Some (WsText text) =>
      match pairing_from_str text with
      | None => (over "invalid pairing message", st, [])
      | Some (Pair message_pairing_id payload) =>
          return_if negb (String.eqb message_pairing_id pairing_id)
            with (over "pairing route mismatch", st, []) in
          let route_key := (desktop_id, pairing_id) in
          let route_active := match pairing_routes st !! route_key with
                              | Some route => (now <? route_expires_at route)%N
                              | None => false
                              end in
          return_if negb route_active
            with (over "pairing route is no longer active",
                  set_pairing_routes (delete route_key (pairing_routes st)) st, []) in
          let_some route := desktop_channels st !! desktop_id
            else (over "desktop offline", st, []) in
          let_ok suffix := random_hex random else e => (PairingOver None, st, []) in
          let connection_id := "pc_" ++ suffix in
          let '(response_tx, st) := fresh_handle st in
          let st := set_pairing_connections (<[connection_id := response_tx]> (pairing_connections st)) st in
          return_if negb (send_ok (route_sender route))
            with (over "desktop offline",
                  set_pairing_connections (delete connection_id (pairing_connections st)) st, []) in
          (PairingAwaits connection_id response_tx, st,
           [ToDesktop (route_sender route) (PairingRequest pairing_id connection_id payload)])
      end
  | _ => (PairingOver None, st, [])
  end.

(** [answer]: what the oneshot delivered within [PAIRING_TIMEOUT], if anything. *)
Definition pairing_socket_end (desktop_id pairing_id connection_id : string)
    (answer : option PairingServerMessage) st : PairingServerMessage * AppState S Q :=
  let st := set_pairing_connections (delete connection_id (pairing_connections st)) st in
  match answer with
  | Some message =>
      (message, match message with
                | PairResult _ _ =>
                    set_pairing_routes (delete (desktop_id, pairing_id) (pairing_routes st)) st
                | PairingServerError _ => st
                end)
  | None => (PairingServerError "desktop pairing response timed out", st)
  end.

(** [pairing_socket], with the permit it holds; [wait] is what the other tasks do to the
    state while this one awaits its answer. *)
Definition pairing_socket (incoming : option WsMessage) (now : N) (random : option (list byte))
    (send_ok : Chan -> bool) (wait : Handle -> AppState S Q -> option PairingServerMessage * AppState S Q)
    (desktop_id pairing_id : string) st
    : option PairingServerMessage * AppState S Q * list Effect :=
  match pairing_socket_begin incoming now random send_ok desktop_id pairing_id st with
  | (PairingOver reply, st, effects) => (reply, release_pairing_permit st, effects)
  | (PairingAwaits connection_id h, st, effects) =>
      let '(answer, st) := wait h st in
      let '(message, st) := pairing_socket_end desktop_id pairing_id connection_id answer st in
      (Some message, release_pairing_permit st, effects)
  end.
End Pairing.

(** ** Properties *)

(** The table holds at most [MAX_PAIRING_ROUTES] routes, one per desktop. *)
Record routes_ok (routes : gmap RouteKey PairingRoute) : Prop := {
  routes_bounded : size routes <= MAX_PAIRING_ROUTES;
  routes_one_each : forall k1 k2 r1 r2,
    routes !! k1 = Some r1 -> routes !! k2 = Some r2 -> k1.1 = k2.1 -> k1 = k2 }.

Lemma routes_ok_subseteq m m' : m ⊆ m' -> routes_ok m' -> routes_ok m.
Proof.
  intros Hsub [Hb Ho]. split.
  - etrans; [by apply map_subseteq_size|done].
  - intros k1 k2 r1 r2 H1 H2. eapply Ho; by eapply lookup_weaken.
Qed.

Lemma routes_ok_empty : routes_ok ∅.
Proof. split; [by rewrite map_size_empty; unfold MAX_PAIRING_ROUTES; lia|]. intros k1 k2 r1 r2. by rewrite lookup_empty. Qed.

Lemma prepare_spec routes desktop_id now res routes' :
  prepare_pairing_route_insert routes desktop_id now = (res, routes') ->
  (forall key route, routes' !! key = Some route <->
     routes !! key = Some route /\ (now < route_expires_at route)%N /\ key.1 <> desktop_id)
  /\ (res = Ok tt -> size routes' < MAX_PAIRING_ROUTES).
Proof.
  unfold prepare_pairing_route_insert.
  destruct (_ <=? _)%nat eqn:Hs; intros [= <- <-]; (split;
    [intros key route; rewrite !lookup_retain, N.ltb_lt, negb_true_iff, String.eqb_neq; tauto|]);
    [done|].
  intros _. by apply Nat.leb_gt in Hs.
Qed.

Lemma prepare_routes_ok routes desktop_id now res routes' :
  prepare_pairing_route_insert routes desktop_id now = (res, routes') ->
  routes_ok routes -> routes_ok routes'.
Proof.
  intros [Hk _]%prepare_spec. apply routes_ok_subseteq, map_subseteq_spec.
  intros key route Hr. by apply Hk in Hr as [? _].
Qed.

(** A refused request: the table is what it was. *)
Ltac refused := split_and!; [assumption|done|assumption].

Section PairingProps.
Context {S Q : Type} `{RegistryStore S} `{MpscQueue Q}.
Context (sha256 : string -> list byte) (to_str : string -> option string).
Implicit Types st : AppState S Q.

Lemma open_pairing_route_ok desktop_id pairing_id headers payload now st :
  routes_ok (pairing_routes st) ->
  routes_ok (pairing_routes (open_pairing_route sha256 to_str desktop_id pairing_id headers payload now st).2).
Proof.
  intros Hok. unfold open_pairing_route.
  destruct (bearer to_str headers) as [token|]; [|done].
  destruct (negb (desktop_authorized _ _ _ _)); [done|].
  destruct (_ || _); [done|]. destruct (_ || _); [done|].
  destruct (prepare_pairing_route_insert _ _ _) as [[[]|e] routes] eqn:Hp; cbn.
  2: by eapply prepare_routes_ok.
  pose proof (prepare_routes_ok _ _ _ _ _ Hp Hok) as [Hb Ho].
  apply prepare_spec in Hp as [Hk Hsize]. split.
  - etrans; [apply size_insert_le|]. by apply Hsize.
  - intros k1 k2 r1 r2. rewrite !lookup_insert_Some.
    intros [[<- _]|[_ H1]] [[<- _]|[_ H2]] Heq; cbn in *; try done.
    + apply Hk in H2 as (_ & _ & Hne). congruence.
    + apply Hk in H1 as (_ & _ & Hne). congruence.
    + by eapply Ho.
Qed.

(** Opening a pairing route keeps the table within [MAX_PAIRING_ROUTES] with one route
    per desktop. It answers [NO_CONTENT] only to the desktop's own token, for an identifier
    with the [p_] prefix and an expiry at most ten minutes ahead; the new route then replaces
    the desktop's previous one. Whatever the answer, the unexpired routes of the other
    desktops survive, and no other route appears. *)
Theorem open_pairing_route_spec desktop_id pairing_id headers payload now st
    (Hok : routes_ok (pairing_routes st)) :
  let '(resp, st') := open_pairing_route sha256 to_str desktop_id pairing_id headers payload now st in
  routes_ok (pairing_routes st')
  /\ (forall key route, key.1 <> desktop_id -> (now < route_expires_at route)%N ->
        pairing_routes st' !! key = Some route <-> pairing_routes st !! key = Some route)
  /\ if (status resp =? NO_CONTENT)%N then
       (exists token, bearer to_str headers = Some token
          /\ desktop_authorized sha256 desktop_id token st = true)
       /\ starts_with "p_" pairing_id = true
       /\ exists route, pairing_routes st' !! (desktop_id, pairing_id) = Some route
            /\ route_token_hash route = to_ascii_lowercase (open_token_hash payload)
            /\ (now < route_expires_at route <= now + 10 * 60000)%N
     else pairing_routes st' ⊆ pairing_routes st.
Proof.
  pose proof (open_pairing_route_ok desktop_id pairing_id headers payload now st Hok) as Hok'.
  pose proof (reflexivity (R:=(⊆)) (pairing_routes st)) as Hsame.
  unfold open_pairing_route in *.
  destruct (bearer to_str headers) as [token|]; [|refused].
  destruct (desktop_authorized _ _ _ _) eqn:Hauth; [|refused]. cbn [negb] in *.
  destruct (_ || _) eqn:Hid; [refused|].
  destruct (_ <=? _)%N eqn:H1; [refused|]. destruct (_ <? _)%N eqn:H2; [refused|].
  cbn [orb] in *.
  destruct (prepare_pairing_route_insert _ _ _) as [[[]|e] routes] eqn:Hp;
    apply prepare_spec in Hp as [Hk _]; (split; [exact Hok'|]).
  - apply orb_false_iff in Hid as [Hpre%negb_false_iff _].
    apply N.leb_gt in H1. apply N.ltb_ge in H2. split.
    + intros key route Hne Hlive. cbn. rewrite lookup_insert_ne by (intros <-; done).
      rewrite Hk. tauto.
    + change (NO_CONTENT =? NO_CONTENT)%N with true. cbn.
      split; [by exists token|]. split; [done|]. eexists. rewrite lookup_insert_eq.
      split_and!; [done|done|done|]. cbn. etrans; [exact H2|]. apply saturating_add_le.
  - split; [|cbn; apply map_subseteq_spec; intros key route Hr; by apply Hk in Hr as [? _]].
    intros key route Hne Hlive. cbn. rewrite Hk. tauto.
Qed.

Context (pairing_from_str : string -> option PairingWsMessage).

(** What a pairing socket has done when it starts to wait. *)
Lemma pairing_socket_begin_awaits incoming now random send_ok desktop_id pairing_id st conn h st1 effects :
  pairing_socket_begin pairing_from_str incoming now random send_ok desktop_id pairing_id st
    = (PairingAwaits conn h, st1, effects) ->
  exists text payload route pr,
    incoming = Some (WsText text) /\ pairing_from_str text = Some (Pair pairing_id payload)
    /\ pairing_routes st !! (desktop_id, pairing_id) = Some pr /\ (now < route_expires_at pr)%N
    /\ desktop_channels st !! desktop_id = Some route
    /\ effects = [ToDesktop (route_sender route) (PairingRequest pairing_id conn payload)]
    /\ h = next_handle st
    /\ st1 = set_pairing_connections (<[conn := h]> (pairing_connections st))
               (set_next_handle (N.succ (next_handle st)) st).
Proof.
  unfold pairing_socket_begin. intros Hb.
  destruct incoming as [[text| | | |]|]; try done.
  destruct (pairing_from_str text) as [[id payload]|] eqn:Hparse; [|done].
  destruct (String.eqb id pairing_id) eqn:Hid; [|done]. apply String.eqb_eq in Hid as ->.
  destruct (pairing_routes st !! _) as [pr|] eqn:Hpr; [|done].
  destruct (now <? route_expires_at pr)%N eqn:Hlive; [|done].
  destruct (desktop_channels st !! _) as [route|] eqn:Hroute; [|done].
  destruct (random_hex random) as [suffix|e]; [|done]. cbn in Hb.
  destruct (send_ok _); [|done]. cbn in Hb. injection Hb as <- <- <- <-.
  exists text, payload, route, pr. split_and!; try done. by apply N.ltb_lt.
Qed.

(** A pairing socket forwards one request, and only for a message that names the
    route's own pairing id while that route is unexpired and its desktop online. Whatever
    happens while it waits, it leaves no entry behind, gives its permit back, and the route
    is consumed when the device is told it is paired. *)
Theorem pairing_socket_spec incoming now random send_ok wait desktop_id pairing_id st :
  let '(reply, st', effects) := pairing_socket pairing_from_str incoming now random send_ok wait
                                  desktop_id pairing_id st in
  let key := (desktop_id, pairing_id) in
  match pairing_socket_begin pairing_from_str incoming now random send_ok desktop_id pairing_id st with
  | (PairingAwaits conn h, st1, _) =>
      (exists text payload route pr,
         incoming = Some (WsText text) /\ pairing_from_str text = Some (Pair pairing_id payload)
         /\ pairing_routes st !! key = Some pr /\ (now < route_expires_at pr)%N
         /\ desktop_channels st !! desktop_id = Some route
         /\ effects = [ToDesktop (route_sender route) (PairingRequest pairing_id conn payload)])
      /\ pairing_connections st1 !! conn = Some h
      /\ pairing_connections st' !! conn = None
      /\ pairing_ws_slots st' = Datatypes.S (pairing_ws_slots (wait h st1).2)
      /\ (forall id payload, reply = Some (PairResult id payload) ->
            (wait h st1).1 = reply /\ pairing_routes st' !! key = None)
  | (PairingOver early, _, _) =>
      reply = early /\ effects = [] /\ (forall id payload, reply <> Some (PairResult id payload))
      /\ pairing_ws_slots st' = Datatypes.S (pairing_ws_slots st)
  end.
Proof.
  unfold pairing_socket.
  destruct (pairing_socket_begin _ _ _ _ _ _ _ _) as [[[early|conn h] st1] effects] eqn:Hb.
  - unfold pairing_socket_begin in Hb. cbn. repeat (case_match; simplify_eq/=; try done).
  - apply pairing_socket_begin_awaits in Hb as
      (text & payload & route & pr & -> & Hparse & Hpr & Hlive & Hroute & -> & -> & Hst).
    assert (pairing_connections st1 !! conn = Some (next_handle st)) as Hconn
      by (rewrite Hst; cbn; by rewrite lookup_insert_eq).
    destruct (wait _ st1) as [answer st2]. unfold pairing_socket_end.
    destruct answer as [[id pl|m]|]; cbn; (split; [by exists text, payload, route, pr|]);
      (split; [exact Hconn|]); rewrite !lookup_delete_eq; naive_solver.
Qed.
End PairingProps.

(** ** Witnesses *)

Lemma open_pairing_route_spec_witness :
  let out := open_pairing_route sample_sha Some "d_a" "p_1" (sample_headers "desk")
    {| open_token_hash := hex_of_bytes (repeat xab 32); open_expires_at := 1000 |} 400 (sample_state []) in
  status out.1 = NO_CONTENT /\ routes_ok (pairing_routes out.2).
Proof.
  intros out. split; [vm_compute; reflexivity|].
  exact (proj1 (open_pairing_route_spec sample_sha Some "d_a" "p_1" (sample_headers "desk")
    {| open_token_hash := hex_of_bytes (repeat xab 32); open_expires_at := 1000 |} 400
    (sample_state []) routes_ok_empty)).
Defined.
