(* ===== verification/DeviceSession.v ===== *)
(** * Device sessions ([relay-server/src/device_session.rs])

    The HTTP routes of a paired device and its websocket task: the handshake, and one
    iteration of the session loop for each event it selects on.  A control request and a
    revocation await the desktop in the middle of an iteration. *)

From Stdlib Require Import Sorted.
From S2P Require Export RelayState.
Local Open Scope string_scope.

Section Device.
Context {S Q : Type} `{RegistryStore S} `{MpscQueue Q}.
Context (sha256 : string -> list byte) (to_str : string -> option string).
(** [serde_json::from_str::<DeviceWsMessage>] *)
Context (device_from_str : string -> option DeviceWsMessage).
Implicit Types st : AppState S Q.

(** ** HTTP *)

Definition device_ws (desktop_id device_id : string) (headers : Headers) st : Response * AppState S Q :=
  let_some token := bearer to_str headers
    else (json_error UNAUTHORIZED "missing bearer token", st) in
  return_if negb (device_authorized sha256 desktop_id device_id token st)
    with (json_error UNAUTHORIZED "invalid device credential", st) in
  match device_ws_slots st with
  | O => (json_error SERVICE_UNAVAILABLE "device websocket capacity reached", st)
  | Datatypes.S permits => ({| status := 101; body := Upgrade |}, set_device_ws_slots permits st)
  end.

Definition release_device_permit st : AppState S Q :=
  set_device_ws_slots (Datatypes.S (device_ws_slots st)) st.

Definition desktop_snapshot_http (desktop_id device_id : string) (headers : Headers)
    (snap : EncryptedSnapshot) (now : N) st : Response * AppState S Q * list Effect :=
  let_some token := bearer to_str headers
    else (json_error UNAUTHORIZED "missing bearer token", st, []) in
  return_if negb (desktop_authorized sha256 desktop_id token st)
    with (json_error UNAUTHORIZED "invalid desktop credential", st, []) in
  match cache_and_route_snapshot now desktop_id device_id snap st with
  | (Ok _, st, effects) => (no_content, st, effects)
  | (Err error, st, effects) =>
      if String.eqb error "device not authorized"
      then (json_error NOT_FOUND error, st, effects)
      else (json_error BAD_REQUEST error, st, effects)
  end.

Definition device_snapshot_http (desktop_id device_id : string) (headers : Headers)
    (now server_time : N) st : Response * AppState S Q :=
  let_some token := bearer to_str headers
    else (json_error UNAUTHORIZED "missing bearer token", st) in
  return_if negb (device_authorized sha256 desktop_id device_id token st)
    with (json_error UNAUTHORIZED "invalid device credential", st) in
  let desktop_online := match online_desktops st !! desktop_id with Some _ => true | None => false end in
  let '(record, st) := latest_snapshot now desktop_id device_id st in
  ({| status := OK; body := SnapshotBody desktop_online server_time record |}, st).

Definition device_revoke_http (desktop_id device_id : string) (headers : Headers)
    (random : option (list byte)) (send_ok : Chan -> bool)
    (wait : Handle -> AppState S Q -> option (Result unit string) * AppState S Q) st
    : Response * AppState S Q * list Effect :=
  let_some token := bearer to_str headers
    else (json_error UNAUTHORIZED "missing bearer token", st, []) in
  return_if negb (device_authorized sha256 desktop_id device_id token st)
    with (json_error UNAUTHORIZED "invalid device credential", st, []) in
  match request_desktop_revoke random send_ok wait desktop_id device_id st with
  | (Err error, st, effects) => (json_error CONFLICT error, st, effects)
  | (Ok _, st, effects) =>
      match finalize_device_revoke desktop_id device_id st with
      | (Err error, st, effects') => (json_error INTERNAL_SERVER_ERROR error, st, (effects ++ effects')%list)
      | (Ok _, st, effects') =>
          ({| status := OK; body := RevokedBody device_id |}, st, (effects ++ effects')%list)
      end
  end.

(** ** Control requests *)

Definition valid_control_id (id : string) : bool :=
  starts_with "c_" id && (18 <=? strlen id)%N && (strlen id <=? 80)%N
  && string_forall is_ascii_hexdigit (string_skip 2 id).

Definition valid_control_time (now : N) (request : EncryptedControlPayload) : bool :=
  (ctl_issued_at request <=? saturating_add now 30000)%N
  && (now <=? ctl_expires_at request)%N
  && (ctl_expires_at request <=? saturating_add (ctl_issued_at request) 60000)%N.

(** The closure run under the [control_last_at] lock. *)
Definition rate_limit (now : N) (rate_key : RouteKey) (values : gmap RouteKey N)
    : bool * gmap RouteKey N :=
  let values := retain (fun _ last => (saturating_sub now last <=? 60000)%N) values in
  let limited := match values !! rate_key with
                 | Some last => (saturating_sub now last <? CONTROL_MIN_INTERVAL_MS)%N
                 | None => false
                 end in
  (limited, if limited then values else <[rate_key := now]> values).

Definition control_rate_limited (now : N) (rate_key : RouteKey) st : bool * AppState S Q :=
  match lock (control_last_at st) with
  | None => (true, st)
  | Some values =>
      let '(limited, values) := rate_limit now rate_key values in
      (limited, set_control_last_at (set_guarded values (control_last_at st)) st)
  end.

Inductive ControlProgress :=
| ControlOver (reply : DeviceServerMessage)
| ControlAwaits (key : ControlRouteKey) (h : Handle).

Definition device_control_begin (now : N) (send_ok : Chan -> bool) (desktop_id device_id : string)
    (request : EncryptedControlPayload) st : ControlProgress * AppState S Q * list Effect :=
  let over m := ControlOver (DeviceError m) in
  return_if negb (valid_control_id (ctl_request_id request)) || negb (valid_control_time now request)
    with (over "invalid control request", st, []) in
  let '(rate_limited, st) := control_rate_limited now (desktop_id, device_id) st in
  return_if rate_limited with (over "control request rate limited", st, []) in
  let_some desktop_route := desktop_channels st !! desktop_id
    else (over "desktop offline; control unavailable", st, []) in
  return_if negb (route_supports_control desktop_route)
    with (over "desktop control capability unavailable", st, []) in
  let control_key := (desktop_id, device_id, ctl_request_id request) in
  let '(sender, st) := fresh_handle st in
  return_if (MAX_PENDING_CONTROLS <=? size (control_connections st))%nat
    with (over "control capacity reached", st, []) in
  return_if (match control_connections st !! control_key with Some _ => true | None => false end)
    with (over "duplicate control request", st, []) in
  let st := set_control_connections (<[control_key := sender]> (control_connections st)) st in
  return_if negb (send_ok (route_sender desktop_route))
    with (over "desktop control channel unavailable",
          set_control_connections (delete control_key (control_connections st)) st, []) in
  (ControlAwaits control_key sender, st,
   [ToDesktop (route_sender desktop_route) (DeviceControl device_id request)]).

(** [answer]: what the oneshot delivered within [CONTROL_TIMEOUT], if anything. *)
Definition device_control_end (control_key : ControlRouteKey)
    (answer : option (Result EncryptedControlPayload string)) st : DeviceServerMessage * AppState S Q :=
  let st := set_control_connections (delete control_key (control_connections st)) st in
  (match answer with
   | Some (Ok response) => ControlResult response
   | Some (Err message) => DeviceError message
   | None => DeviceError "desktop control timeout"
   end, st).

Definition device_control (now : N) (send_ok : Chan -> bool)
    (wait : Handle -> AppState S Q -> option (Result EncryptedControlPayload string) * AppState S Q)
    (desktop_id device_id : string) (request : EncryptedControlPayload) st
    : DeviceServerMessage * AppState S Q * list Effect :=
  match device_control_begin now send_ok desktop_id device_id request st with
  | (ControlOver reply, st, effects) => (reply, st, effects)
  | (ControlAwaits key h, st, effects) =>
      let '(answer, st) := wait h st in
      let '(reply, st) := device_control_end key answer st in
      (reply, st, effects)
  end.

(** ** The websocket task *)

(** The handshake: the channel the task subscribes to when it enters its loop, and what
    it sends ([ack_sent]: the acknowledgement reached the socket). *)
Definition device_hello (incoming : option WsMessage) (random : option (list byte))
    (now ttl_now : N) (ack_sent : bool) (desktop_id device_id : string) st
    : option Chan * AppState S Q * list (Out DeviceServerMessage) :=
  match incoming with
  | Some (WsText text) =>
      match device_from_str text with
      | Some (DeviceHello protocol_version hello_desktop hello_device) =>
          return_if negb (protocol_version =? PROTOCOL_VERSION)%N
                    || negb (String.eqb hello_desktop desktop_id)
                    || negb (String.eqb hello_device device_id)
            with (None, st, []) in
          let_ok suffix := random_hex random else e => (None, st, []) in
          let desktop_route := desktop_channels st !! desktop_id in
          let desktop_online := match desktop_route with Some _ => true | None => false end in
          let '(c, st) := obtain_sender desktop_id device_id st in
          let ack := SendJson (DeviceHelloAck ("s_" ++ suffix) now desktop_online
                                 (routed_device_capabilities desktop_route)) in
          return_if negb ack_sent with (None, st, [ack]) in
          let '(record, st) := latest_snapshot ttl_now desktop_id device_id st in
          (Some c, st,
           ack :: match record with
                  | Some record => [SendJson (DeviceSnapshot (received_at record) (snapshot record))]
                  | None => []
                  end)
      | _ => (None, st, [])
      end
  | _ => (None, st, [])
  end.

Inductive DeviceEvent :=
| DeviceTick (idle_too_long sent : bool)
| DeviceRouted (routed : Routed DeviceServerMessage) (sent : bool)
| DeviceIncoming (incoming : option WsMessage) (sent : bool).

(** What the environment supplies to one iteration. *)
Record DeviceEnv := {
  dev_now : N;
  dev_random : option (list byte);
  dev_send_ok : Chan -> bool;
  dev_wait_control : Handle -> AppState S Q -> option (Result EncryptedControlPayload string) * AppState S Q;
  dev_wait_revoke : Handle -> AppState S Q -> option (Result unit string) * AppState S Q }.

Definition go_if (sent : bool) : Flow := if sent then Continue else Break.

Definition device_message (env : DeviceEnv) (desktop_id device_id : string)
    (message : DeviceWsMessage) st
    : Flow * AppState S Q * list (Out DeviceServerMessage) * list Effect :=
  match message with
  | DeviceHello protocol_version hello_desktop hello_device =>
      if negb (protocol_version =? PROTOCOL_VERSION)%N || negb (String.eqb hello_desktop desktop_id)
         || negb (String.eqb hello_device device_id)
      then (Break, st, [], []) else (Continue, st, [], [])
  | DevicePing _ => (Continue, st, [SendJson (DevicePong (dev_now env))], [])
  | Control request =>
      let '(reply, st, effects) := device_control (dev_now env) (dev_send_ok env)
                                     (dev_wait_control env) desktop_id device_id request st in
      (Continue, st, [SendJson reply], effects)
  | RevokeSelf =>
      match request_desktop_revoke (dev_random env) (dev_send_ok env) (dev_wait_revoke env)
              desktop_id device_id st with
      | (Err error, st, effects) => (Break, st, [SendJson (DeviceError error)], effects)
      | (Ok _, st, effects) =>
          match finalize_device_revoke desktop_id device_id st with
          | (Ok _, st, effects') =>
              (Break, st, [SendJson (Revoked device_id)], (effects ++ effects')%list)
          | (Err error, st, effects') =>
              (Break, st, [SendJson (DeviceError error)], (effects ++ effects')%list)
          end
      end
  end.

Definition device_iteration (env : DeviceEnv) (event : DeviceEvent) (desktop_id device_id : string) st
    : Flow * AppState S Q * list (Out DeviceServerMessage) * list Effect :=
  return_if negb (device_exists desktop_id device_id st)
    with (Break, st, [SendJson (Revoked device_id)], []) in
  match event with
  | DeviceTick idle_too_long sent =>
      if idle_too_long then (Break, st, [], []) else (go_if sent, st, [SendPing], [])
  | DeviceRouted (RoutedMessage message) sent =>
      let revoked := match message with Revoked _ => true | _ => false end in
      (if revoked then Break else go_if sent, st, [SendJson message], [])
  | DeviceRouted Lagged sent =>
      match latest_snapshot (dev_now env) desktop_id device_id st with
      | (Some record, st) =>
          (go_if sent, st, [SendJson (DeviceSnapshot (received_at record) (snapshot record))], [])
      | (None, st) => (Continue, st, [], [])
      end
  | DeviceRouted ChannelClosed _ => (Break, st, [], [])
  | DeviceIncoming (Some (WsText text)) _ =>
      match device_from_str text with
      | None => (Continue, st, [SendJson (DeviceError "invalid websocket message")], [])
      | Some message => device_message env desktop_id device_id message st
      end
  | DeviceIncoming (Some (WsPing data)) sent => (go_if sent, st, [SendPong data], [])
  | DeviceIncoming (Some WsClose) _ | DeviceIncoming None _ => (Break, st, [], [])
  | DeviceIncoming (Some _) _ => (Continue, st, [], [])
  end.

(** The loop over the events the task selects, until it breaks. *)
Fixpoint device_loop (events : list (DeviceEnv * DeviceEvent)) (desktop_id device_id : string) st
    : Flow * AppState S Q * list (Out DeviceServerMessage) * list Effect :=
  match events with
  | [] => (Continue, st, [], [])
  | (env, event) :: rest =>
      match device_iteration env event desktop_id device_id st with
      | (Break, st, out, effects) => (Break, st, out, effects)
      | (Continue, st, out, effects) =>
          let '(flow, st, out', effects') := device_loop rest desktop_id device_id st in
          (flow, st, (out ++ out')%list, (effects ++ effects')%list)
      end
  end.
End Device.

(** ** Rate limiting *)

(** The clock readings at which one device's control requests pass the limiter, when the
    limiter is asked by [calls] (device key and clock reading, in order). *)
Fixpoint admitted (key : RouteKey) (calls : list (RouteKey * N)) (values : gmap RouteKey N) : list N :=
  match calls with
  | [] => []
  | (k, now) :: rest =>
      let '(limited, values) := rate_limit now k values in
      if negb limited && bool_decide (k = key) then now :: admitted key rest values
      else admitted key rest values
  end.

Lemma rate_limit_other now k values key :
  k <> key -> (rate_limit now k values).2 !! key
  = retain (fun _ last => (saturating_sub now last <=? 60000)%N) values !! key.
Proof. unfold rate_limit. cbn. intros Hne. case_match; cbn; [done|]. by rewrite lookup_insert_ne. Qed.

Lemma admitted_far key calls values last :
  Forall (fun c => last + 60000 <= c.2)%N calls ->
  Forall (fun t => last + CONTROL_MIN_INTERVAL_MS <= t)%N (admitted key calls values).
Proof.
  intros Hall. revert values.
  induction calls as [|[k' now'] calls IH]; intros vs; cbn [admitted]; [constructor|].
  apply Forall_cons in Hall as [Hn Hall]. cbn in Hn.
  destruct (rate_limit now' k' vs) as [lim vs']. case_match; [|by apply IH].
  constructor; [unfold CONTROL_MIN_INTERVAL_MS; lia|by apply IH].
Qed.

(** Everything admitted from here on is at least one interval after the last admission. *)
Lemma admitted_after key calls values last :
  values !! key = Some last ->
  Forall (fun c => last <= c.2)%N calls -> StronglySorted (fun a b => a.2 <= b.2)%N calls ->
  Forall (fun t => last + CONTROL_MIN_INTERVAL_MS <= t)%N (admitted key calls values).
Proof.
  revert values last. induction calls as [|[k now] calls IH]; intros values last Hv Hge Hs; cbn [admitted]; [constructor|].
  apply Forall_cons in Hge as [Hnow Hge]. cbn in Hnow.
  apply StronglySorted_inv in Hs as [Hs Hlater].
  destruct (decide (60000 < now - last)%N) as [Hlt|Hle].
  - assert (Forall (fun t => last + CONTROL_MIN_INTERVAL_MS <= t)%N
              (admitted key calls (rate_limit now k values).2)) as Hfar.
    { apply admitted_far. eapply Forall_impl; [exact Hlater|]. intros c Hc. cbn in Hc. lia. }
    destruct (rate_limit now k values) as [lim vs]. cbn in Hfar.
    case_match; [|exact Hfar]. constructor; [unfold CONTROL_MIN_INTERVAL_MS; lia|exact Hfar].
  - assert (retain (fun _ l => (saturating_sub now l <=? 60000)%N) values !! key = Some last) as Hkeep.
    { apply lookup_retain. split; [done|]. apply N.leb_le. unfold saturating_sub. lia. }
    destruct (decide (k = key)) as [->|Hne].
    + unfold rate_limit. rewrite Hkeep. cbn zeta.
      destruct (saturating_sub now last <? CONTROL_MIN_INTERVAL_MS)%N eqn:Hlim; cbn [negb andb].
      * by apply IH.
      * apply N.ltb_ge in Hlim. unfold saturating_sub in Hlim. rewrite bool_decide_true by done.
        constructor; [lia|].
        eapply Forall_impl; [apply (IH _ now); [by rewrite lookup_insert_eq|exact Hlater|exact Hs]|].
        cbn. intros t Ht. lia.
    + pose proof (rate_limit_other now k values key Hne) as Ho. rewrite Hkeep in Ho.
      destruct (rate_limit now k values) as [lim vs]. cbn in Ho.
      rewrite bool_decide_false by done. rewrite andb_false_r. by apply IH.
Qed.

(** A device's control requests are rate limited whatever the other devices do: on a
    clock that does not run backwards, any two of its requests that pass the limiter are at
    least [CONTROL_MIN_INTERVAL_MS] apart, although the limiter forgets entries older than a
    minute. *)
Theorem control_rate_spec key calls values
    (Hclock : StronglySorted (fun a b : RouteKey * N => a.2 <= b.2)%N calls) :
  StronglySorted (fun t u => t + CONTROL_MIN_INTERVAL_MS <= u)%N (admitted key calls values).
Proof.
  revert values. induction calls as [|[k now] calls IH]; intros values; cbn [admitted]; [constructor|].
  apply StronglySorted_inv in Hclock as [Hs Hlater].
  destruct (rate_limit now k values) as [lim vs] eqn:Hr.
  destruct (negb lim && bool_decide (k = key)) eqn:Ha; [|by apply IH].
  apply andb_true_iff in Ha as [->%negb_true_iff ->%bool_decide_eq_true].
  constructor; [by apply IH|]. apply admitted_after; [|exact Hlater|exact Hs].
  unfold rate_limit in Hr. cbn zeta in Hr. injection Hr as Hlim <-. rewrite Hlim.
  by rewrite lookup_insert_eq.
Qed.

(** ** Control requests *)

Section DeviceProps.
Context {S Q : Type} `{RegistryStore S} `{MpscQueue Q}.
Context (sha256 : string -> list byte) (to_str : string -> option string).
Implicit Types st : AppState S Q.

(** Everything [device_control_begin] tests, in the state it meets. *)
Record control_admissible (now : N) (send_ok : Chan -> bool) (desktop_id device_id : string)
    (request : EncryptedControlPayload) st (route : DesktopRoute) : Prop := {
  adm_id : valid_control_id (ctl_request_id request) = true;
  adm_time : valid_control_time now request = true;
  adm_rate : (control_rate_limited now (desktop_id, device_id) st).1 = false;
  adm_online : desktop_channels st !! desktop_id = Some route;
  adm_capable : route_supports_control route = true;
  adm_capacity : size (control_connections st) < MAX_PENDING_CONTROLS;
  adm_fresh : control_connections st !! (desktop_id, device_id, ctl_request_id request) = None;
  adm_sent : send_ok (route_sender route) = true }.

Lemma control_rate_limited_state now key st :
  exists m, (control_rate_limited now key st).2 = set_control_last_at m st.
Proof.
  unfold control_rate_limited. destruct (lock _).
  - destruct (rate_limit _ _ _). by eexists.
  - exists (control_last_at st). by destruct st.
Qed.

Lemma device_control_begin_cases now send_ok desktop_id device_id request st :
  let '(progress, st', effects) := device_control_begin now send_ok desktop_id device_id request st in
  match progress with
  | ControlAwaits key h =>
      key = (desktop_id, device_id, ctl_request_id request) /\ h = next_handle st
      /\ exists route m, control_admissible now send_ok desktop_id device_id request st route
         /\ effects = [ToDesktop (route_sender route) (DeviceControl device_id request)]
         /\ st' = set_control_connections (<[key := h]> (control_connections st))
                    (set_next_handle (N.succ (next_handle st)) (set_control_last_at m st))
  | ControlOver reply =>
      effects = [] /\ (exists message, reply = DeviceError message)
      /\ control_connections st' ⊆ control_connections st
      /\ registry st' = registry st
      /\ forall route, ~ control_admissible now send_ok desktop_id device_id request st route
  end.
Proof.
  unfold device_control_begin.
  destruct (valid_control_id _) eqn:Hid; cbn [negb orb].
  2: { split_and!; try done; [by eexists|intros route []; congruence]. }
  destruct (valid_control_time _ _) eqn:Htime; cbn [negb].
  2: { split_and!; try done; [by eexists|intros route []; congruence]. }
  destruct (control_rate_limited _ _ _) as [limited st1] eqn:Hlim.
  pose proof (control_rate_limited_state now (desktop_id, device_id) st) as [m Hst1].
  rewrite Hlim in Hst1. cbn in Hst1. subst st1.
  assert ((control_rate_limited now (desktop_id, device_id) st).1 = limited) as Hl by (by rewrite Hlim).
  destruct limited.
  { split_and!; try done; [by eexists|intros route []; congruence]. }
  cbn [desktop_channels set_control_last_at].
  destruct (desktop_channels st !! desktop_id) as [route|] eqn:Hroute.
  2: { split_and!; try done; [by eexists|intros route []; congruence]. }
  destruct (route_supports_control route) eqn:Hcap; cbn [negb].
  2: { split_and!; try done; [by eexists|intros route' []; congruence]. }
  cbn [fresh_handle control_connections set_next_handle set_control_last_at next_handle].
  destruct (MAX_PENDING_CONTROLS <=? _)%nat eqn:Hsize.
  { apply Nat.leb_le in Hsize. split_and!; try done; [by eexists|intros route' []; lia]. }
  apply Nat.leb_gt in Hsize.
  destruct (control_connections st !! _) eqn:Hdup.
  { split_and!; try done; [by eexists|intros route' []; congruence]. }
  destruct (send_ok _) eqn:Hsend; cbn [negb].
  - split; [done|]. split; [done|]. exists route, m. by split_and!.
  - split_and!; try done; [by eexists| |intros route' []; congruence].
    cbn. by rewrite delete_insert_id.
Qed.
(** A control request is forwarded exactly once, and only when its id is well formed,
    its validity window contains the relay's clock, the device is not rate limited, its
    desktop is online with a control capability, the table has room and the id is not
    pending already; the table then stays within its bound and holds the request while it is
    awaited. In every other case nothing is forwarded, no entry is added, and the device
    gets an error. *)
Theorem control_forward_spec now send_ok desktop_id device_id request st :
  let '(progress, st1, effects) := device_control_begin now send_ok desktop_id device_id request st in
  let key := (desktop_id, device_id, ctl_request_id request) in
  (size (control_connections st) <= MAX_PENDING_CONTROLS ->
   size (control_connections st1) <= MAX_PENDING_CONTROLS)
  /\ match progress with
     | ControlAwaits k h =>
         k = key /\ control_connections st1 !! key = Some h
         /\ exists route, control_admissible now send_ok desktop_id device_id request st route
              /\ effects = [ToDesktop (route_sender route) (DeviceControl device_id request)]
     | ControlOver reply =>
         (forall route, ~ control_admissible now send_ok desktop_id device_id request st route)
         /\ effects = [] /\ (exists message, reply = DeviceError message)
         /\ control_connections st1 ⊆ control_connections st
     end.
Proof.
  pose proof (device_control_begin_cases now send_ok desktop_id device_id request st) as Hc.
  destruct (device_control_begin _ _ _ _ _ _) as [[[reply|k h] st1] effects].
  - destruct Hc as (Heff & Hreply & Hsub & _ & Hno). split_and!; try done.
    intros Hb. etrans; [by apply map_subseteq_size|done].
  - destruct Hc as (-> & -> & route & m & Hadm & -> & ->). cbn. split_and!; try done.
    + intros _. etrans; [apply size_insert_le|]. apply Hadm.
    + by rewrite lookup_insert_eq.
    + by exists route.
Qed.

End DeviceProps.

(** ** Revocation *)

Section RevokeProps.
Context {S Q : Type} `{RegistryStore S} `{!RegistryStoreLaws S} `{MpscQueue Q}.
Implicit Types st : AppState S Q.

Lemma request_revoke_begin_registry random send_ok desktop_id device_id st res st1 effects :
  request_desktop_revoke_begin random send_ok desktop_id device_id st = (res, st1, effects) ->
  registry st1 = registry st.
Proof. unfold request_desktop_revoke_begin, fresh_handle. intros Hb. by run_cases. Qed.

Lemma request_revoke_begin_key random send_ok desktop_id device_id st key h st1 effects :
  request_desktop_revoke_begin random send_ok desktop_id device_id st = (Ok (key, h), st1, effects) ->
  exists id, key = (desktop_id, device_id, id).
Proof. unfold request_desktop_revoke_begin, fresh_handle. intros Hb. run_cases. all: by eexists. Qed.

(** What a device's own revocation does to the state it finds after the wait. *)
Lemma revoke_flow random send_ok wait desktop_id device_id st :
  let '(res, st2, effects) := request_desktop_revoke random send_ok wait desktop_id device_id st in
  match request_desktop_revoke_begin random send_ok desktop_id device_id st with
  | (Ok (key, h), st1, _) =>
      registry st2 = registry (wait h st1).2 /\ store st2 = store (wait h st1).2
      /\ revoke_connections st2 !! key = None
      /\ (res = Ok tt <-> (wait h st1).1 = Some (Ok tt))
  | (Err e, _, _) => res = Err e /\ registry st2 = registry st
  end.
Proof.
  unfold request_desktop_revoke.
  destruct (request_desktop_revoke_begin _ _ _ _ _) as [[[[key h]|e] st1] effects] eqn:Hb.
  - destruct (wait h st1) as [answer st2]. unfold request_desktop_revoke_end.
    destruct answer as [[[]|e]|]; cbn; rewrite lookup_delete_eq; naive_solver.
  - split; [done|]. by eapply request_revoke_begin_registry.
Qed.

Context (sha256 : string -> list byte) (to_str : string -> option string).

(** A device's revocation of itself is acknowledged end to end: the relay answers [OK]
    only after the desktop confirmed the request, and then the device's record, snapshot and
    channel are gone, durably; without the confirmation the registry is exactly what the
    other tasks left, and a pending entry never survives the handler. *)
Theorem device_revoke_acknowledged desktop_id device_id headers random send_ok wait st :
  let '(resp, st', effects) := device_revoke_http sha256 to_str desktop_id device_id headers
                                 random send_ok wait st in
  (status resp = OK ->
     exists token key h st1 sent,
       bearer to_str headers = Some token
       /\ device_authorized sha256 desktop_id device_id token st = true
       /\ request_desktop_revoke_begin random send_ok desktop_id device_id st = (Ok (key, h), st1, sent)
       /\ (wait h st1).1 = Some (Ok tt)
       /\ revoke_connections st' !! key = None
       /\ device_exists desktop_id device_id st' = false
       /\ snapshots st' !! (desktop_id, device_id) = None
       /\ device_channels st' !! (desktop_id, device_id) = None
       /\ (durable (wait h st1).2 -> durable st'))
  /\ (status resp <> OK ->
      registry st' = registry st
      \/ exists key h st1 sent,
           request_desktop_revoke_begin random send_ok desktop_id device_id st = (Ok (key, h), st1, sent)
           /\ registry st' = registry (wait h st1).2 /\ revoke_connections st' !! key = None).
Proof.
  unfold device_revoke_http.
  destruct (bearer to_str headers) as [token|]; [|split; [done|by left]].
  destruct (device_authorized _ _ _ _ _) eqn:Hauth; [|split; [done|by left]]. cbn [negb].
  pose proof (revoke_flow random send_ok wait desktop_id device_id st) as Hflow.
  destruct (request_desktop_revoke _ _ _ _ _ _) as [[res st2] sent2].
  destruct (request_desktop_revoke_begin _ _ _ _ _) as [[[[key h]|e] st1] sent] eqn:Hb.
  2: { destruct Hflow as [-> Hreg]. split; [done|by left]. }
  destruct Hflow as (Hreg & Hstore & Hkey & Hres). destruct res as [[]|e].
  2: { split; [done|]. intros _. right. by exists key, h, st1, sent. }
  destruct (finalize_device_revoke _ _ _) as [[fin st3] sent3] eqn:Hf.
  apply finalize_inv in Hf as (Hdur & Hrv & Hs & Hfin). destruct fin as [u|e]; cbn.
  - split; [|done]. intros _. destruct Hfin as (Hgone & Hch & _).
    exists token, key, h, st1, sent. split_and!; try done; [by apply Hres|by rewrite Hrv|].
    intros Hd. apply Hdur. unfold durable in *. by rewrite Hstore, Hreg.
  - split; [done|]. intros _. right. destruct Hfin as [-> _].
    exists key, h, st1, sent. by rewrite Hrv.
Qed.
End RevokeProps.

(** ** A device session is confined to its own record *)

Section ConfinedProps.
Context {S Q : Type} `{RegistryStore S} `{!RegistryStoreLaws S} `{MpscQueue Q}.
Implicit Types st : AppState S Q.


(** Nothing but the record of one device differs between the two registries. *)
Definition confined (desktop_id device_id : string) st st' : Prop :=
  (forall d, desk_token_hash <$> desktop_record d st' = desk_token_hash <$> desktop_record d st)
  /\ (forall d v, (d, v) <> (desktop_id, device_id) -> device_record d v st' = device_record d v st)
  /\ (device_exists desktop_id device_id st = false -> device_exists desktop_id device_id st' = false).

Lemma confined_same desktop_id device_id st st' :
  registry st' = registry st -> confined desktop_id device_id st st'.
Proof. intros Hr. unfold confined, device_exists, device_record, desktop_record. by rewrite Hr. Qed.

Lemma confined_trans desktop_id device_id st1 st2 st3 :
  confined desktop_id device_id st1 st2 -> confined desktop_id device_id st2 st3 ->
  confined desktop_id device_id st1 st3.
Proof.
  intros (Hd1 & Hv1 & He1) (Hd2 & Hv2 & He2). split_and!; [|..|auto].
  - intros d. by rewrite Hd2, Hd1.
  - intros d v Hne. by rewrite Hv2, Hv1.
Qed.

Lemma confined_delete desktop_id device_id st st' d :
  desktops (guarded (registry st)) !! desktop_id = Some d ->
  registry st' = set_guarded (set_desktops <[desktop_id := set_devices (delete device_id) d]>
                                (guarded (registry st))) (registry st) ->
  confined desktop_id device_id st st'.
Proof.
  intros Hd Hr.
  assert (forall k, desktop_record k st' = if decide (k = desktop_id)
            then match desktop_record k st with Some _ => Some (set_devices (delete device_id) d) | None => None end
            else desktop_record k st) as Hrec.
  { intros k. unfold desktop_record. rewrite Hr. unfold lock. cbn.
    destruct (poisoned (registry st)); [by case_decide|]. cbn. case_decide as Hk.
    - subst. by rewrite lookup_insert_eq, Hd.
    - by rewrite lookup_insert_ne. }
  assert (forall k, desktop_record k st = None \/ desktop_record k st = desktops (guarded (registry st)) !! k) as Hold.
  { intros k. unfold desktop_record, lock. destruct (poisoned _); [by left|by right]. }
  unfold confined, device_exists, device_record. split_and!.
  - intros k. rewrite Hrec. case_decide as Hk; [subst|done].
    destruct (Hold desktop_id) as [->|Ho]; [done|]. by rewrite Ho, Hd.
  - intros k v Hne. rewrite Hrec. case_decide as Hk; [subst|done].
    destruct (Hold desktop_id) as [->|Ho]; [done|]. rewrite Ho, Hd. cbn.
    rewrite lookup_delete_ne; [done|]. congruence.
  - intros _. rewrite Hrec, decide_True by done. destruct (desktop_record _ _); [|done].
    cbn. by rewrite lookup_delete_eq.
Qed.

(** The other tasks, as they run during a wait, leave the registry alone. *)
Definition quiet (env : DeviceEnv) : Prop :=
  (forall h st, registry (dev_wait_control env h st).2 = registry st)
  /\ (forall h st, registry (dev_wait_revoke env h st).2 = registry st).

Lemma revoke_self_confined env desktop_id device_id st :
  quiet env ->
  let '(res, st2, _) := request_desktop_revoke (dev_random env) (dev_send_ok env) (dev_wait_revoke env)
                          desktop_id device_id st in
  registry st2 = registry st.
Proof.
  intros [_ Hq].
  pose proof (revoke_flow (dev_random env) (dev_send_ok env) (dev_wait_revoke env) desktop_id device_id st) as Hf.
  destruct (request_desktop_revoke _ _ _ _ _ _) as [[res st2] sent2].
  destruct (request_desktop_revoke_begin _ _ _ _ _) as [[[[key h]|e] st1] sent] eqn:Hb.
  - destruct Hf as (-> & _). rewrite Hq. by eapply request_revoke_begin_registry.
  - by destruct Hf as [_ ->].
Qed.

Lemma control_confined env desktop_id device_id request st :
  quiet env ->
  registry (device_control (dev_now env) (dev_send_ok env) (dev_wait_control env)
              desktop_id device_id request st).1.2 = registry st.
Proof.
  intros [Hq _]. unfold device_control.
  pose proof (device_control_begin_cases (dev_now env) (dev_send_ok env) desktop_id device_id request st) as Hc.
  destruct (device_control_begin _ _ _ _ _ _) as [[[reply|k h] st1] effects].
  - destruct Hc as (_ & _ & _ & Hr & _). exact Hr.
  - destruct Hc as (_ & _ & route & m & _ & _ & Hst1).
    pose proof (Hq h st1) as Hw. destruct (dev_wait_control env h st1) as [answer st2]. cbn in *.
    by rewrite Hw, Hst1.
Qed.

Lemma latest_snapshot_registry now desktop_id device_id st :
  registry (latest_snapshot now desktop_id device_id st).2 = registry st.
Proof. unfold latest_snapshot. cbn. by case_match. Qed.

Context (device_from_str : string -> option DeviceWsMessage).

Lemma device_iteration_confined env event desktop_id device_id st :
  quiet env ->
  confined desktop_id device_id st (device_iteration device_from_str env event desktop_id device_id st).1.1.2.
Proof.
  intros Hq. unfold device_iteration. destruct (device_exists _ _ _); [|by apply confined_same]. cbn [negb].
  destruct event as [idle sent|[m| |] sent|[[text| | | |]|] sent];
    try (by apply confined_same); try (by destruct idle; apply confined_same).
  - pose proof (latest_snapshot_registry (dev_now env) desktop_id device_id st) as Hl.
    destruct (latest_snapshot _ _ _ _) as [[record|] st2]; by apply confined_same.
  - destruct (device_from_str text) as [[pv hd hv|t| |request]|]; try (by apply confined_same); cbn.
    + by destruct (_ || _); apply confined_same.
    + pose proof (revoke_self_confined env desktop_id device_id st Hq) as Hr.
      destruct (request_desktop_revoke _ _ _ _ _ _) as [[[u|e] st2] sent2]; [|by apply confined_same].
      destruct (finalize_device_revoke _ _ _) as [[fin st3] sent3] eqn:Hf.
      apply finalize_inv in Hf as (_ & _ & _ & Hfin). apply (confined_trans _ _ _ st2); [by apply confined_same|].
      destruct fin as [v|e]; cbn; [|destruct Hfin as [Hfin _]; by apply confined_same].
      destruct Hfin as (_ & _ & _ & [Hsame|(d & Hd & Hdel)]); [by apply confined_same|].
      by eapply confined_delete.
    + pose proof (control_confined env desktop_id device_id request st Hq) as Hr.
      destruct (device_control _ _ _ _ _ _ _) as [[reply st2] effects]. cbn in *. by apply confined_same.
Qed.

(** A device's websocket can never touch another credential: whatever messages it
    sends and for however long it runs, every desktop keeps its token, every other device
    of every desktop keeps its record, and the session cannot bring its own record back
    once that is gone; when it is gone, the next iteration tells the device and ends. *)
Theorem device_session_confined events desktop_id device_id st
    (Hquiet : Forall (fun e => quiet e.1) events) :
  let '(flow, st', out, effects) := device_loop device_from_str events desktop_id device_id st in
  confined desktop_id device_id st st'
  /\ (device_exists desktop_id device_id st = false -> events <> [] ->
      (flow, st', out, effects) = (Break, st, [SendJson (Revoked device_id)], [])).
Proof.
  revert st. induction Hquiet as [|[env event] events Hq _ IH]; intros st; cbn [device_loop].
  { split; [by apply confined_same|done]. }
  cbn [fst] in Hq.
  pose proof (device_iteration_confined env event desktop_id device_id st Hq) as Hc.
  assert (device_exists desktop_id device_id st = false ->
    device_iteration device_from_str env event desktop_id device_id st
    = (Break, st, [SendJson (Revoked device_id)], [])) as Hgone.
  { intros Hg. unfold device_iteration. by rewrite Hg. }
  destruct (device_iteration _ _ _ _ _ _) as [[[[|] st1] out1] eff1]; cbn in Hc.
  - specialize (IH st1). destruct (device_loop _ _ _ _ _) as [[[flow st2] out2] eff2].
    destruct IH as [IH _]. split; [by eapply confined_trans|]. intros Hg. by specialize (Hgone Hg).
  - split; [exact Hc|]. intros Hg _. by apply Hgone.
Qed.
End ConfinedProps.

(** ** Witnesses *)

Lemma control_rate_spec_witness :
  let calls : list (RouteKey * N) := [(("d", "a"), 1000); (("d", "b"), 1100); (("d", "a"), 1499); (("d", "a"), 1500)]%N in
  admitted ("d", "a") calls ∅ = [1000; 1500]%N
  /\ StronglySorted (fun t u => t + CONTROL_MIN_INTERVAL_MS <= u)%N (admitted ("d", "a") calls ∅).
Proof.
  intros calls. split; [vm_compute; reflexivity|].
  apply (control_rate_spec ("d", "a") calls ∅).
  repeat first [apply SSorted_nil | apply SSorted_cons]; repeat constructor; cbn; lia.
Defined.

(** A desktop session "d_a" with every capability, listening on channel 70. *)
Definition sample_online (fails : list bool) : Sample :=
  set_desktop_channels {[ "d_a" := {| route_session_id := "s_1"; route_sender := 70%N;
                                      route_capabilities := device_capabilities |} ]}
    (set_online_desktops {[ "d_a" := "s_1" ]} (sample_state fails)).

(** The desktop's session task, run while a revocation waits: it confirms the request. *)
Definition sample_confirm (device_id request_id : string) (h : Handle) (st : Sample)
    : option (Result unit string) * Sample :=
  let '(st, effects) := complete_revoke "d_a" device_id request_id (Ok tt) st in
  (match effects with
   | [ReplyRevoke h' r] => if (h' =? h)%N then Some r else None
   | _ => None
   end, st).

Definition sample_revoke_id : string := "r_" ++ hex_of_bytes (repeat x41 16).

Lemma device_revoke_acknowledged_witness :
  let out := device_revoke_http sample_sha Some "d_a" "dev" (sample_headers "phone")
    (Some (repeat x41 16)) (fun _ => true) (sample_confirm "dev" sample_revoke_id) (sample_online []) in
  status out.1.1 = OK /\ device_exists "d_a" "dev" out.1.2 = false.
Proof.
  intros out.
  assert (status out.1.1 = OK) as Hs by (vm_compute; reflexivity). split; [exact Hs|].
  pose proof (device_revoke_acknowledged sample_sha Some "d_a" "dev" (sample_headers "phone")
    (Some (repeat x41 16)) (fun _ => true) (sample_confirm "dev" sample_revoke_id) (sample_online [])) as Ht.
  fold out in Ht. clearbody out. destruct out as [[resp st'] effects]. destruct Ht as [Ht _].
  destruct (Ht Hs) as (token & key & h & st1 & sent & _ & _ & _ & _ & _ & Hgone & _).
  exact Hgone.
Defined.

Definition sample_device_env : @DeviceEnv (Registry * list bool) (nat * list Reply) :=
  {| dev_now := 10; dev_random := Some (repeat x41 16); dev_send_ok := fun _ => true;
     dev_wait_control := fun _ st => (None, st);
     dev_wait_revoke := sample_confirm "dev" sample_revoke_id |}.

Definition sample_device_json (text : string) : option DeviceWsMessage :=
  if String.eqb text "revoke_self" then Some RevokeSelf else None.

Lemma sample_device_env_quiet : quiet sample_device_env.
Proof.
  split; [done|]. intros h st. cbn. unfold sample_confirm, complete_revoke.
  by destruct (revoke_connections st !! _).
Qed.

Lemma device_session_confined_witness :
  let events := [(sample_device_env, DeviceIncoming (Some (WsText "revoke_self")) true)] in
  let out := device_loop sample_device_json events "d_a" "dev" (sample_online []) in
  device_exists "d_a" "dev" out.1.1.2 = false /\ confined "d_a" "dev" (sample_online []) out.1.1.2.
Proof.
  intros events out. split; [vm_compute; reflexivity|].
  pose proof (device_session_confined sample_device_json events "d_a" "dev" (sample_online [])
    ltac:(repeat constructor; apply sample_device_env_quiet)) as Ht.
  fold out in Ht. clearbody out. destruct out as [[[flow st'] o] effects]. exact (proj1 Ht).
Defined.
