(* ===== verification/DesktopSession.v ===== *)
(** * Desktop sessions ([relay-server/src/desktop_session.rs])

    The websocket task of a desktop: the handshake that installs its presence and its
    route, one iteration of the session loop for each event, and the removal at the end.
    The handshake and the removal take the locks of the two tables one after the other:
    each locked section is a definition of its own. *)

From S2P Require Export RelayState.
Local Open Scope string_scope.

Section Desktop.
Context {S Q : Type} `{RegistryStore S} `{MpscQueue Q}.
Context (sha256 : string -> list byte) (to_str : string -> option string).
(** [serde_json::from_str::<DesktopWsMessage>] *)
Context (desktop_from_str : string -> option DesktopWsMessage).
Implicit Types st : AppState S Q.

Definition desktop_ws (desktop_id : string) (headers : Headers) st : Response * AppState S Q :=
  let_some token := bearer to_str headers
    else (json_error UNAUTHORIZED "missing bearer token", st) in
  return_if negb (desktop_authorized sha256 desktop_id token st)
    with (json_error UNAUTHORIZED "invalid desktop credential", st) in
  match desktop_ws_slots st with
  | O => (json_error SERVICE_UNAVAILABLE "desktop websocket capacity reached", st)
  | Datatypes.S permits => ({| status := 101; body := Upgrade |}, set_desktop_ws_slots permits st)
  end.

Definition release_desktop_permit st : AppState S Q :=
  set_desktop_ws_slots (Datatypes.S (desktop_ws_slots st)) st.

(** ** Handshake *)

(** The session id and the announced capabilities, for an acceptable first message. *)
Definition desktop_hello (incoming : option WsMessage) (random : option (list byte)) (desktop_id : string)
    : option (string * list string) :=
  match incoming with
  | Some (WsText text) =>
      match desktop_from_str text with
      | Some (DesktopHello protocol_version hello_id _ _ capabilities) =>
          return_if negb (protocol_version =? PROTOCOL_VERSION)%N || negb (String.eqb hello_id desktop_id)
            with None in
          let_ok suffix := random_hex random else e => None in
          Some ("s_" ++ suffix, capabilities)
      | _ => None
      end
  | _ => None
  end.

(** The section under the [online_desktops] lock. *)
Definition mark_online (desktop_id session_id : string) st : AppState S Q :=
  set_online_desktops (<[desktop_id := session_id]> (online_desktops st)) st.

(** The section under the [desktop_channels] lock. *)
Definition install_route (desktop_id session_id : string) (capabilities : list string) (sender : Chan) st
    : AppState S Q :=
  set_desktop_channels
    (<[desktop_id := {| route_session_id := session_id; route_sender := sender;
                        route_capabilities := capabilities |}]> (desktop_channels st)) st.

(** Both sections, with the fresh broadcast channel and the presence announced to the
    desktop's devices. *)
Definition desktop_install (now : N) (desktop_id session_id : string) (capabilities : list string) st
    : AppState S Q * list Effect :=
  let '(sender, st) := fresh_handle st in
  let st := mark_online desktop_id session_id st in
  let st := install_route desktop_id session_id capabilities sender st in
  (st, broadcast_desktop_presence desktop_id true now st).

(** ** Removal *)

Definition leave_online (desktop_id session_id : string) st : bool * AppState S Q :=
  match online_desktops st !! desktop_id with
  | Some current =>
      if String.eqb current session_id
      then (true, set_online_desktops (delete desktop_id (online_desktops st)) st)
      else (false, st)
  | None => (false, st)
  end.

Definition leave_channel (desktop_id session_id : string) st : AppState S Q :=
  match desktop_channels st !! desktop_id with
  | Some route =>
      if String.eqb (route_session_id route) session_id
      then set_desktop_channels (delete desktop_id (desktop_channels st)) st
      else st
  | None => st
  end.

Definition remove_online_if_current (now : N) (desktop_id session_id : string) st
    : AppState S Q * list Effect :=
  let '(current, st) := leave_online desktop_id session_id st in
  if current : bool then
    let st := leave_channel desktop_id session_id st in
    (st, broadcast_desktop_presence desktop_id false now st)
  else (st, []).

(** ** The session loop *)

Definition complete_pairing (connection_id : string) (message : PairingServerMessage) st
    : AppState S Q * list Effect :=
  match pairing_connections st !! connection_id with
  | Some sender => (set_pairing_connections (delete connection_id (pairing_connections st)) st,
                    [ReplyPairing sender message])
  | None => (st, [])
  end.

Definition desktop_message (now : N) (desktop_id : string) (message : DesktopWsMessage) st
    : Flow * AppState S Q * list (Out DesktopServerMessage) * list Effect :=
  match message with
  | DesktopHello protocol_version hello_id _ _ _ =>
      (if negb (protocol_version =? PROTOCOL_VERSION)%N || negb (String.eqb hello_id desktop_id)
       then Break else Continue, st, [], [])
  | DesktopPing _ => (Continue, st, [SendJson (DesktopPong now)], [])
  | DesktopSnapshot device_id snapshot =>
      match cache_and_route_snapshot now desktop_id device_id snapshot st with
      | (Ok _, st, effects) => (Continue, st, [], effects)
      | (Err error, st, effects) => (Continue, st, [SendJson (DesktopError error)], effects)
      end
  | PairingResponse pairing_id connection_id payload =>
      let '(st, effects) := complete_pairing connection_id (PairResult pairing_id payload) st in
      (Continue, st, [], effects)
  | PairingError _ connection_id message =>
      let '(st, effects) := complete_pairing connection_id (PairingServerError (chars_take 240 message)) st in
      (Continue, st, [], effects)
  | ControlResponse device_id response =>
      let '(st, effects) := complete_control desktop_id device_id (ctl_request_id response) (Ok response) st in
      (Continue, st, [], effects)
  | ControlError device_id request_id message =>
      let '(st, effects) := complete_control desktop_id device_id request_id (Err (chars_take 240 message)) st in
      (Continue, st, [], effects)
  | RevokeResult device_id request_id =>
      let '(st, effects) := complete_revoke desktop_id device_id request_id (Ok tt) st in
      (Continue, st, [], effects)
  | RevokeError device_id request_id message =>
      let '(st, effects) := complete_revoke desktop_id device_id request_id (Err (chars_take 240 message)) st in
      (Continue, st, [], effects)
  end.

Inductive DesktopEvent :=
| DesktopTick (idle_too_long sent : bool)
| DesktopRouted (routed : Routed DesktopServerMessage) (sent : bool)
| DesktopIncoming (incoming : option WsMessage) (sent : bool).

Definition desktop_iteration (now : N) (event : DesktopEvent) (desktop_id : string) st
    : Flow * AppState S Q * list (Out DesktopServerMessage) * list Effect :=
  let go sent := if sent : bool then Continue else Break in
  match event with
  | DesktopTick idle_too_long sent =>
      if idle_too_long then (Break, st, [], []) else (go sent, st, [SendPing], [])
  | DesktopRouted (RoutedMessage message) sent => (go sent, st, [SendJson message], [])
  | DesktopRouted Lagged _ => (Continue, st, [], [])
  | DesktopRouted ChannelClosed _ => (Break, st, [], [])
  | DesktopIncoming (Some (WsText text)) _ =>
      match desktop_from_str text with
      | None => (Continue, st, [SendJson (DesktopError "invalid websocket message")], [])
      | Some message => desktop_message now desktop_id message st
      end
  | DesktopIncoming (Some (WsPing data)) sent => (go sent, st, [SendPong data], [])
  | DesktopIncoming (Some WsClose) _ | DesktopIncoming None _ => (Break, st, [], [])
  | DesktopIncoming (Some _) _ => (Continue, st, [], [])
  end.

Fixpoint desktop_loop (events : list (N * DesktopEvent)) (desktop_id : string) st
    : Flow * AppState S Q * list (Out DesktopServerMessage) * list Effect :=
  match events with
  | [] => (Continue, st, [], [])
  | (now, event) :: rest =>
      match desktop_iteration now event desktop_id st with
      | (Break, st, out, effects) => (Break, st, out, effects)
      | (Continue, st, out, effects) =>
          let '(flow, st, out', effects') := desktop_loop rest desktop_id st in
          (flow, st, (out ++ out')%list, (effects ++ effects')%list)
      end
  end.

(** [desktop_socket] from the handshake to the end, for a run of events that ends the loop
    ([ack_sent]: the acknowledgement reached the socket), without other tasks in between. *)
Definition desktop_socket (incoming : option WsMessage) (random : option (list byte)) (now : N)
    (ack_sent : bool) (events : list (N * DesktopEvent)) (desktop_id : string) st
    : AppState S Q * list (Out DesktopServerMessage) * list Effect :=
  let_some hello := desktop_hello incoming random desktop_id else (st, [], []) in
  let '(session_id, capabilities) := hello in
  let '(st, online) := desktop_install now desktop_id session_id capabilities st in
  let ack := SendJson (DesktopHelloAck session_id now device_capabilities) in
  if negb ack_sent then
    let '(st, offline) := remove_online_if_current now desktop_id session_id st in
    (st, [ack], (online ++ offline)%list)
  else
    let '(_, st, out, effects) := desktop_loop events desktop_id st in
    let '(st, offline) := remove_online_if_current now desktop_id session_id st in
    (st, ack :: out, (online ++ effects ++ offline)%list).
End Desktop.

(** ** Properties *)

Section DesktopProps.
Context {S Q : Type} `{RegistryStore S} `{MpscQueue Q}.
Implicit Types st : AppState S Q.

(** What a desktop's messages may change: its own devices' snapshots and channels, and
    requests that wait for an answer from this desktop (by removing them). *)
Record desktop_scope (desktop_id : string) st st' : Prop := {
  ds_registry : registry st' = registry st;
  ds_store : store st' = store st;
  ds_online : online_desktops st' = online_desktops st;
  ds_routes : desktop_channels st' = desktop_channels st;
  ds_pairing_routes : pairing_routes st' = pairing_routes st;
  ds_gateway : mcp_gateway st' = mcp_gateway st;
  ds_pairings : pairing_connections st' ⊆ pairing_connections st;
  ds_controls : control_connections st' ⊆ control_connections st;
  ds_revokes : revoke_connections st' ⊆ revoke_connections st;
  ds_device_channels : device_channels st ⊆ device_channels st';
  ds_other_controls : forall d v id, d <> desktop_id ->
    control_connections st' !! (d, v, id) = control_connections st !! (d, v, id);
  ds_other_revokes : forall d v id, d <> desktop_id ->
    revoke_connections st' !! (d, v, id) = revoke_connections st !! (d, v, id);
  ds_other_snapshots : forall d v, d <> desktop_id -> snapshots st' !! (d, v) = snapshots st !! (d, v);
  ds_other_channels : forall d v, d <> desktop_id ->
    device_channels st' !! (d, v) = device_channels st !! (d, v) }.

Lemma desktop_scope_refl desktop_id st : desktop_scope desktop_id st st.
Proof. by split. Qed.

Lemma desktop_scope_trans desktop_id st1 st2 st3 :
  desktop_scope desktop_id st1 st2 -> desktop_scope desktop_id st2 st3 -> desktop_scope desktop_id st1 st3.
Proof.
  intros H12 H23. split; intros; (etrans; [by apply H23|by apply H12]) || (etrans; [by apply H12|by apply H23]).
Qed.

(** The tasks a desktop's messages may reach. *)
Definition in_scope (desktop_id : string) st st' (e : Effect) : Prop :=
  match e with
  | ToDevice c _ => exists v, device_channels st' !! (desktop_id, v) = Some c
  | ReplyControl h _ => exists v id, control_connections st !! (desktop_id, v, id) = Some h
  | ReplyRevoke h _ => exists v id, revoke_connections st !! (desktop_id, v, id) = Some h
  | ReplyPairing h m => exists id, pairing_connections st !! id = Some h
  | ToDesktop _ _ => False
  end.

Lemma in_scope_mono desktop_id st1 st2 st3 st4 e :
  desktop_scope desktop_id st1 st2 -> desktop_scope desktop_id st3 st4 ->
  in_scope desktop_id st2 st3 e -> in_scope desktop_id st1 st4 e.
Proof.
  intros [] []. destruct e; cbn; try done.
  - intros [v Hv]. exists v. by eapply lookup_weaken.
  - intros [id Hid]. exists id. by eapply lookup_weaken.
  - intros (v & id & Hid). exists v, id. by eapply lookup_weaken.
  - intros (v & id & Hid). exists v, id. by eapply lookup_weaken.
Qed.

Lemma cache_scope now desktop_id device_id snap st :
  let '(res, st', effects) := cache_and_route_snapshot now desktop_id device_id snap st in
  desktop_scope desktop_id st st' /\ Forall (in_scope desktop_id st st') effects.
Proof.
  unfold cache_and_route_snapshot.
  destruct (negb _); [split; [apply desktop_scope_refl|constructor]|].
  destruct (_ || _); [split; [apply desktop_scope_refl|constructor]|].
  destruct (match snapshots st !! _ with Some _ => _ | None => _ end);
    [split; [apply desktop_scope_refl|constructor]|].
  unfold obtain_sender. cbn [device_channels set_snapshots].
  destruct (device_channels st !! _) as [c|] eqn:Hc; cbn.
  - split; [split; cbn; try done; intros; by rewrite lookup_insert_ne by congruence|].
    repeat constructor. by exists device_id.
  - split; [split; cbn; try done|].
    + by apply insert_subseteq.
    + intros. by rewrite lookup_insert_ne by congruence.
    + intros. by rewrite lookup_insert_ne by congruence.
    + repeat constructor. exists device_id. cbn. by rewrite lookup_insert_eq.
Qed.

Lemma complete_control_scope desktop_id device_id request_id result st :
  let '(st', effects) := complete_control desktop_id device_id request_id result st in
  desktop_scope desktop_id st st' /\ Forall (in_scope desktop_id st st') effects.
Proof.
  unfold complete_control. destruct (control_connections st !! _) as [h|] eqn:Hh;
    [|split; [apply desktop_scope_refl|constructor]].
  split; [split; cbn; try done|repeat constructor; cbn; by eauto].
  - apply delete_subseteq.
  - intros. by rewrite lookup_delete_ne by congruence.
Qed.

Lemma complete_revoke_scope desktop_id device_id request_id result st :
  let '(st', effects) := complete_revoke desktop_id device_id request_id result st in
  desktop_scope desktop_id st st' /\ Forall (in_scope desktop_id st st') effects.
Proof.
  unfold complete_revoke. destruct (revoke_connections st !! _) as [h|] eqn:Hh;
    [|split; [apply desktop_scope_refl|constructor]].
  split; [split; cbn; try done|repeat constructor; cbn; by eauto].
  - apply delete_subseteq.
  - intros. by rewrite lookup_delete_ne by congruence.
Qed.

Lemma complete_pairing_scope desktop_id connection_id message st :
  let '(st', effects) := complete_pairing connection_id message st in
  desktop_scope desktop_id st st' /\ Forall (in_scope desktop_id st st') effects.
Proof.
  unfold complete_pairing. destruct (pairing_connections st !! _) as [h|] eqn:Hh;
    [|split; [apply desktop_scope_refl|constructor]].
  split; [split; cbn; try done|repeat constructor; cbn; by eauto].
  apply delete_subseteq.
Qed.
Context (desktop_from_str : string -> option DesktopWsMessage).

Lemma desktop_message_scope now desktop_id message st :
  let '(flow, st', out, effects) := desktop_message now desktop_id message st in
  desktop_scope desktop_id st st' /\ Forall (in_scope desktop_id st st') effects.
Proof.
  assert (desktop_scope desktop_id st st /\ Forall (in_scope desktop_id st st) []) as Hsame
    by (split; [apply desktop_scope_refl|constructor]).
  destruct message as [pv hid av pl caps|t|dev snap|pid cid pay|pid cid m|dev r|dev id m|dev id|dev id m];
    cbn [desktop_message]; try exact Hsame.
  - pose proof (cache_scope now desktop_id dev snap st) as Hc.
    by destruct (cache_and_route_snapshot _ _ _ _ _) as [[[u|e] st'] effects].
  - pose proof (complete_pairing_scope desktop_id cid (PairResult pid pay) st) as Hc.
    by destruct (complete_pairing _ _ _).
  - pose proof (complete_pairing_scope desktop_id cid (PairingServerError (chars_take 240 m)) st) as Hc.
    by destruct (complete_pairing _ _ _).
  - pose proof (complete_control_scope desktop_id dev (ctl_request_id r) (Ok r) st) as Hc.
    by destruct (complete_control _ _ _ _ _).
  - pose proof (complete_control_scope desktop_id dev id (Err (chars_take 240 m)) st) as Hc.
    by destruct (complete_control _ _ _ _ _).
  - pose proof (complete_revoke_scope desktop_id dev id (Ok tt) st) as Hc.
    by destruct (complete_revoke _ _ _ _ _).
  - pose proof (complete_revoke_scope desktop_id dev id (Err (chars_take 240 m)) st) as Hc.
    by destruct (complete_revoke _ _ _ _ _).
Qed.

Lemma desktop_iteration_scope now event desktop_id st :
  let '(flow, st', out, effects) := desktop_iteration desktop_from_str now event desktop_id st in
  desktop_scope desktop_id st st' /\ Forall (in_scope desktop_id st st') effects.
Proof.
  assert (desktop_scope desktop_id st st /\ Forall (in_scope desktop_id st st) []) as Hsame
    by (split; [apply desktop_scope_refl|constructor]).
  unfold desktop_iteration.
  destruct event as [[|] sent|[m| |] sent|[[text| | | |]|] sent]; try exact Hsame.
  destruct (desktop_from_str text) as [message|]; [|exact Hsame]. apply desktop_message_scope.
Qed.

Lemma desktop_loop_scope events desktop_id st :
  let '(flow, st', out, effects) := desktop_loop desktop_from_str events desktop_id st in
  desktop_scope desktop_id st st' /\ Forall (in_scope desktop_id st st') effects.
Proof.
  revert st. induction events as [|[now event] events IH]; intros st; cbn [desktop_loop].
  { split; [apply desktop_scope_refl|constructor]. }
  pose proof (desktop_iteration_scope now event desktop_id st) as Hit.
  destruct (desktop_iteration _ _ _ _ _) as [[[[|] st1] out1] eff1]; [|exact Hit].
  destruct Hit as [Hs1 He1]. specialize (IH st1).
  destruct (desktop_loop _ _ _ _) as [[[flow st2] out2] eff2]. destruct IH as [Hs2 He2].
  split; [by eapply desktop_scope_trans|]. apply Forall_app. split.
  - eapply Forall_impl; [exact He1|]. intros e. by apply in_scope_mono; [apply desktop_scope_refl|].
  - eapply Forall_impl; [exact He2|]. intros e. by apply in_scope_mono; [|apply desktop_scope_refl].
Qed.

(** A desktop session, whatever messages it sends and for however long, acts for its
    own desktop only: no credential and no registry content changes; requests waiting on
    another desktop stay pending, and their waiters are never answered; no other desktop's
    snapshots or device channels are touched. It can only complete requests, never add one. *)
Theorem desktop_session_confined events desktop_id st :
  let '(flow, st', out, effects) := desktop_loop desktop_from_str events desktop_id st in
  registry st' = registry st /\ store st' = store st
  /\ control_connections st' ⊆ control_connections st
  /\ revoke_connections st' ⊆ revoke_connections st
  /\ (forall d v, d <> desktop_id ->
        snapshots st' !! (d, v) = snapshots st !! (d, v)
        /\ device_channels st' !! (d, v) = device_channels st !! (d, v)
        /\ forall id, control_connections st' !! (d, v, id) = control_connections st !! (d, v, id)
                     /\ revoke_connections st' !! (d, v, id) = revoke_connections st !! (d, v, id))
  /\ Forall (in_scope desktop_id st st') effects.
Proof.
  pose proof (desktop_loop_scope events desktop_id st) as Hl.
  destruct (desktop_loop _ _ _ _) as [[[flow st'] out] effects]. destruct Hl as [[] He].
  split_and!; auto 6.
Qed.

(** *** Presence *)

(** The two presence tables agree: a desktop is online exactly when it has a route, and
    both belong to the same session. *)
Definition presence_ok st : Prop :=
  forall d, online_desktops st !! d = route_session_id <$> desktop_channels st !! d.

Lemma desktop_install_presence now desktop_id session_id capabilities st :
  presence_ok st -> presence_ok (desktop_install now desktop_id session_id capabilities st).1.
Proof.
  intros Hp d. cbn. destruct (decide (d = desktop_id)) as [->|Hne].
  - by rewrite !lookup_insert_eq.
  - rewrite !lookup_insert_ne by done. apply Hp.
Qed.

Lemma remove_online_inv now desktop_id session_id st (Hp : presence_ok st) :
  let '(st', effects) := remove_online_if_current now desktop_id session_id st in
  presence_ok st'
  /\ registry st' = registry st
  /\ (forall d, d <> desktop_id -> desktop_channels st' !! d = desktop_channels st !! d)
  /\ (if decide (online_desktops st !! desktop_id = Some session_id)
      then online_desktops st' !! desktop_id = None /\ desktop_channels st' !! desktop_id = None
           /\ effects = broadcast_desktop_presence desktop_id false now st
      else st' = st /\ effects = []).
Proof.
  unfold remove_online_if_current, leave_online.
  destruct (online_desktops st !! desktop_id) as [current|] eqn:Hon.
  2: { rewrite decide_False by done. by split_and!. }
  destruct (String.eqb current session_id) eqn:Hcur.
  2: { apply String.eqb_neq in Hcur. rewrite decide_False by congruence. by split_and!. }
  apply String.eqb_eq in Hcur as ->. rewrite decide_True by done.
  pose proof (Hp desktop_id) as Hd. rewrite Hon in Hd.
  unfold leave_channel. cbn [desktop_channels set_online_desktops].
  destruct (desktop_channels st !! desktop_id) as [route|] eqn:Hroute; [|done].
  injection Hd as Hd. rewrite <- Hd, String.eqb_refl. cbn. split_and!.
  - intros d. cbn. destruct (decide (d = desktop_id)) as [->|Hne].
    + by rewrite !lookup_delete_eq.
    + rewrite !lookup_delete_ne by done. apply Hp.
  - done.
  - intros d Hne. by rewrite lookup_delete_ne.
  - by rewrite lookup_delete_eq.
  - by rewrite lookup_delete_eq.
  - done.
Qed.

(** Ending a session removes the desktop's presence and route if they are still this
    session's, and then tells the desktop's devices; after a takeover by a newer session it
    changes nothing and tells nobody. The two tables stay in agreement. *)
Theorem remove_online_if_current_spec now desktop_id session_id st (Hp : presence_ok st) :
  let '(st', effects) := remove_online_if_current now desktop_id session_id st in
  presence_ok st'
  /\ (forall d, d <> desktop_id -> desktop_channels st' !! d = desktop_channels st !! d)
  /\ (if decide (online_desktops st !! desktop_id = Some session_id)
      then online_desktops st' !! desktop_id = None /\ desktop_channels st' !! desktop_id = None
           /\ effects = broadcast_desktop_presence desktop_id false now st
      else st' = st /\ effects = []).
Proof.
  pose proof (remove_online_inv now desktop_id session_id st Hp) as Hr.
  destruct (remove_online_if_current _ _ _ _) as [st' effects].
  destruct Hr as (? & _ & ? & ?). by split_and!.
Qed.

(** The handshake is not atomic: when a second session of the same desktop passes both
    table updates between the first session's two, and both sessions then end, the desktop
    is offline but the first session's route remains, so that devices are still told the
    desktop is online and their requests go to a channel nobody reads. *)
Theorem stale_route_after_race now desktop_id s1 s2 caps1 caps2 c1 c2 st (Hne : s1 <> s2) :
  let st := mark_online desktop_id s1 st in
  let st := install_route desktop_id s2 caps2 c2 (mark_online desktop_id s2 st) in
  let st := install_route desktop_id s1 caps1 c1 st in
  let st := (remove_online_if_current now desktop_id s1 st).1 in
  let st := (remove_online_if_current now desktop_id s2 st).1 in
  online_desktops st !! desktop_id = None
  /\ desktop_channels st !! desktop_id
     = Some {| route_session_id := s1; route_sender := c1; route_capabilities := caps1 |}.
Proof.
  assert (String.eqb s2 s1 = false /\ String.eqb s1 s2 = false) as [H21 H12]
    by (rewrite !String.eqb_neq; auto).
  unfold remove_online_if_current, leave_online. cbn. rewrite lookup_insert_eq, H21. cbn.
  rewrite lookup_insert_eq, String.eqb_refl. unfold leave_channel. cbn.
  rewrite lookup_insert_eq. cbn. rewrite H12. cbn.
  by rewrite lookup_delete_eq, lookup_insert_eq.
Qed.
End DesktopProps.

(** A desktop's session, from an accepted handshake to its end without a takeover in
    between, leaves the desktop offline and the other desktops as they were. *)
Theorem desktop_socket_spec {S Q : Type} `{RegistryStore S} `{MpscQueue Q}
    (desktop_from_str : string -> option DesktopWsMessage)
    incoming random now ack_sent events desktop_id (st : AppState S Q) (Hp : presence_ok st) :
  let '(st', out, effects) := desktop_socket desktop_from_str incoming random now ack_sent events desktop_id st in
  presence_ok st'
  /\ (forall d, d <> desktop_id -> desktop_channels st' !! d = desktop_channels st !! d)
  /\ registry st' = registry st
  /\ match desktop_hello desktop_from_str incoming random desktop_id with
     | None => st' = st /\ out = [] /\ effects = []
     | Some _ => online_desktops st' !! desktop_id = None /\ desktop_channels st' !! desktop_id = None
     end.
Proof.
  unfold desktop_socket.
  destruct (desktop_hello _ _ _ _) as [[session_id caps]|]; [|done].
  pose proof (desktop_install_presence now desktop_id session_id caps st Hp) as Hp1.
  destruct (desktop_install _ _ _ _ _) as [st1 online] eqn:Hi.
  unfold desktop_install, fresh_handle in Hi. injection Hi as Hst1 _.
  assert (registry st1 = registry st) as Hreg1 by (by rewrite <- Hst1).
  assert (forall st2 : AppState S Q, presence_ok st2 -> online_desktops st2 = online_desktops st1 ->
    desktop_channels st2 = desktop_channels st1 -> registry st2 = registry st1 ->
    let st3 := (remove_online_if_current now desktop_id session_id st2).1 in
    presence_ok st3
    /\ (forall d, d <> desktop_id -> desktop_channels st3 !! d = desktop_channels st !! d)
    /\ registry st3 = registry st
    /\ online_desktops st3 !! desktop_id = None /\ desktop_channels st3 !! desktop_id = None) as Hend.
  { intros st2 Hp2 Ho Hc Hr2. pose proof (remove_online_inv now desktop_id session_id st2 Hp2) as Hr.
    destruct (remove_online_if_current now desktop_id session_id st2) as [st3 offline]. cbn.
    destruct Hr as (Hp3 & Hr3 & Hother & Hgone).
    rewrite decide_True in Hgone by (rewrite Ho, <- Hst1; cbn; by rewrite lookup_insert_eq).
    split_and!; [done| |by rewrite Hr3, Hr2|apply Hgone|apply Hgone].
    intros d Hne. rewrite Hother, Hc, <- Hst1 by done. cbn. by rewrite lookup_insert_ne. }
  destruct ack_sent; cbn [negb].
  - pose proof (desktop_loop_scope desktop_from_str events desktop_id st1) as Hl.
    destruct (desktop_loop _ _ _ _) as [[[flow st2] out] effects]. destruct Hl as [Hscope _].
    assert (presence_ok st2) as Hp2.
    { intros d. rewrite (ds_online _ _ _ Hscope), (ds_routes _ _ _ Hscope). apply Hp1. }
    specialize (Hend st2 Hp2 (ds_online _ _ _ Hscope) (ds_routes _ _ _ Hscope)
                      (ds_registry _ _ _ Hscope)).
    by destruct (remove_online_if_current now desktop_id session_id st2).
  - specialize (Hend st1 Hp1 eq_refl eq_refl eq_refl).
    by destruct (remove_online_if_current now desktop_id session_id st1).
Qed.

(** ** Witnesses *)

Definition sample_hello_json (text : string) : option DesktopWsMessage :=
  if String.eqb text "hello" then Some (DesktopHello 1 "d_a" "1" "linux" device_capabilities) else None.

Lemma sample_presence : presence_ok (sample_state []).
Proof. intros d. done. Qed.

Lemma remove_online_if_current_spec_witness :
  let st := (desktop_install 5 "d_a" "s_1" [] (sample_state [])).1 in
  online_desktops (remove_online_if_current 9 "d_a" "s_1" st).1 !! "d_a" = None
  /\ presence_ok (remove_online_if_current 9 "d_a" "s_1" st).1.
Proof.
  intros st. split; [vm_compute; reflexivity|].
  pose proof (remove_online_if_current_spec 9 "d_a" "s_1" st
    (desktop_install_presence 5 "d_a" "s_1" [] (sample_state []) sample_presence)) as Ht.
  destruct (remove_online_if_current _ _ _ _). exact (proj1 Ht).
Defined.

Lemma stale_route_after_race_witness :
  let st := mark_online "d_a" "s_1" (sample_state []) in
  let st := install_route "d_a" "s_2" [] 8%N (mark_online "d_a" "s_2" st) in
  let st := install_route "d_a" "s_1" [] 7%N st in
  let st := (remove_online_if_current 9 "d_a" "s_1" st).1 in
  let st := (remove_online_if_current 9 "d_a" "s_2" st).1 in
  desktop_channels st !! "d_a"
  = Some {| route_session_id := "s_1"; route_sender := 7%N; route_capabilities := [] |}.
Proof.
  exact (proj2 (stale_route_after_race 9 "d_a" "s_1" "s_2" [] [] 7%N 8%N (sample_state [])
    ltac:(discriminate))).
Defined.

Lemma desktop_socket_spec_witness :
  let out := desktop_socket sample_hello_json (Some (WsText "hello")) (Some (repeat x41 16)) 5 true
    [(6%N, DesktopIncoming (Some (WsText "?")) true); (7%N, DesktopIncoming None true)] "d_a" (sample_state []) in
  length out.1.2 = 2 /\ presence_ok out.1.1.
Proof.
  intros out. split; [vm_compute; reflexivity|].
  pose proof (desktop_socket_spec sample_hello_json (Some (WsText "hello")) (Some (repeat x41 16)) 5 true
    [(6%N, DesktopIncoming (Some (WsText "?")) true); (7%N, DesktopIncoming None true)] "d_a"
    (sample_state []) sample_presence) as Ht.
  fold out in Ht. clearbody out. destruct out as [[st' o] effects]. exact (proj1 Ht).
Defined.
