(* ===== verification/McpRequests.v ===== *)
(** * MCP sessions and public requests ([relay-server/src/mcp_gateway.rs], handlers)

    The desktop's MCP websocket (upgrade, handshake with the credential check after the
    route is installed, one iteration of the loop) and the public HTTP entry point up to
    the response head.  The transport below them is [McpGateway]. *)

From S2P Require Export RelayState.
Local Open Scope string_scope.

(** [fail(status, message)] *)
Definition fail (status : N) (message : string) : Response :=
  {| status := status; body := Plain message |}.

Definition value_is (expected : N) (v : Value) : bool :=
  match as_u64 v with Some n => (n =? expected)%N | None => false end.

Definition string_field (key : string) (v : Value) : option string :=
  match get key v with Some t => as_str t | None => None end.

(** [struct ProxyRequest] and its serialisation. *)
Record ProxyRequest := {
  pr_request_id : string;
  pr_method : string;
  pr_path : string;
  pr_headers : gmap string string;
  pr_body_base64 : option string;
  pr_body_encoding : option string }.

Definition optional_field (key : string) (v : option string) : list (string * Value) :=
  match v with Some text => [(key, VString text)] | None => [] end.

Definition proxy_request_value (r : ProxyRequest) : Value :=
  Object ([("type", VString "request"); ("requestId", VString (pr_request_id r));
           ("method", VString (pr_method r)); ("path", VString (pr_path r));
           ("headers", Object (map (fun kv => (kv.1, VString kv.2)) (map_to_list (pr_headers r))))]
          ++ optional_field "bodyBase64" (pr_body_base64 r)
          ++ optional_field "bodyEncoding" (pr_body_encoding r))%list.

Section Mcp.
Context {S Q : Type} `{RegistryStore S} `{MpscQueue Q}.
Context (sha256 : string -> list byte) (to_str : string -> option string).
(** [STANDARD.decode], [STANDARD.encode], [serde_json::from_str::<Value>], [str::parse::<usize>],
    [axum::body::to_bytes] with a limit, and the header parsers of the HTTP library. *)
Context (base64_decode : string -> option (list byte)) (base64_encode : list byte -> string)
        (value_from_str : string -> option Value) (parse_usize : string -> option N)
        (to_bytes : list (Result (list byte) unit) -> N -> option (list byte))
        (header_name_ok header_value_ok : string -> bool).
Implicit Types st : AppState S Q.

(** ** The desktop's websocket *)

Definition mcp_bearer (headers : Headers) : option string :=
  let_some value := header_get "authorization" headers else None in
  let_some value := to_str value else None in
  strip_prefix "Bearer " value.

(** [websocket]: the credential hash the session is bound to, or the refusal. *)
Definition websocket (desktop_id : string) (headers : Headers) st : Result string Response :=
  return_if negb (bool_decide (gw_desktop_id (mcp_gateway st) = Some desktop_id))
    with (Err (fail NOT_FOUND "MCP gateway not enabled for this desktop")) in
  let_some token := mcp_bearer headers else Err (fail UNAUTHORIZED "Invalid desktop credential") in
  return_if negb (desktop_authorized sha256 desktop_id token st)
    with (Err (fail UNAUTHORIZED "Invalid desktop credential")) in
  Ok (token_hash sha256 token).

(** The first message: the protocol version agreed on. *)
Definition mcp_hello (incoming : option WsMessage) : option N :=
  match incoming with
  | Some (WsText text) =>
      let_some data := value_from_str text else None in
      let kind := match string_field "type" data with Some s => s | None => "" end in
      return_if negb (match McpControl.parse kind with Some McpControl.Hello => true | _ => false end)
                || negb (match get "protocolVersion" data with Some v => value_is 1 v | None => false end)
        with None in
      let supported := match get "supportedVersions" data with
                       | Some v => match as_array v with
                                   | Some versions => existsb (value_is 2) versions
                                   | None => false
                                   end
                       | None => false
                       end in
      Some (if supported then 2%N else 1%N)
  | _ => None
  end.

(** Replacing the active session, and failing the requests of the previous one. *)
Definition mcp_install (active : Active) (g : Gateway Q) : Gateway Q * list GwEffect :=
  match gw_active g with
  | Some previous =>
      (fail_session (act_session_id previous) (set_active (Some active) g),
       [CloseSession (act_session_id previous)])
  | None => (set_active (Some active) g, [])
  end.

(** The check against the registry as it is now. *)
Definition mcp_authorized (credential_hash : string) st : bool :=
  match lock (registry st) with
  | Some r =>
      match gw_desktop_id (mcp_gateway st) with
      | Some id => match desktops r !! id with
                   | Some record => String.eqb (desk_token_hash record) credential_hash
                   | None => false
                   end
      | None => false
      end
  | None => false
  end.

Definition revoke_own_desktop st : AppState S Q * list GwEffect :=
  let id := match gw_desktop_id (mcp_gateway st) with Some id => id | None => "" end in
  let '(g, effects) := revoke_desktop id (mcp_gateway st) in (set_mcp_gateway g st, effects).

(** The handshake of [socket_loop] without other tasks in between: [None] when the session
    does not enter its loop. *)
Definition mcp_handshake (incoming : option WsMessage) (random : option (list byte))
    (credential_hash : string) (now : N) (ack_sent : bool) st
    : option (string * N) * AppState S Q * list (Out Value) * list GwEffect :=
  let_some version := mcp_hello incoming else (None, st, [], []) in
  let_ok session_id := random_hex random else e => (None, st, [], []) in
  let '(g, closed) := mcp_install {| act_session_id := session_id; act_version := version;
                                     act_credential_hash := credential_hash |} (mcp_gateway st) in
  let st := set_mcp_gateway g st in
  if negb (mcp_authorized credential_hash st) then
    let '(st, effects) := revoke_own_desktop st in (None, st, [], (closed ++ effects)%list)
  else
    let ack := Object [("protocolVersion", Number (Some version)); ("serverTime", Number (Some now));
                       ("sessionId", VString session_id);
                       ("type", VString (McpControl.as_str McpControl.HelloAck))] in
    if negb ack_sent
    then (None, set_mcp_gateway (disconnect session_id (mcp_gateway st)) st, [SendJson ack], closed)
    else (Some (session_id, version), st, [SendJson ack], closed).

Inductive McpEvent :=
| McpCloseRequested
| McpTick (idle_too_long sent : bool)
| McpOutgoing (packet : option Outgoing) (sent : bool)
| McpIncoming (incoming : option WsMessage) (sent : bool).

(** One iteration of the session's loop; a packet for the socket is returned as it is. *)
Definition mcp_iteration (event : McpEvent) (session_id : string) (version : N) st
    : Flow * AppState S Q * list (Out Value) * list Outgoing :=
  let go sent := if sent : bool then Continue else Break in
  let received packet binary :=
    set_mcp_gateway (receive base64_decode session_id version packet binary (mcp_gateway st)) st in
  match event with
  | McpCloseRequested => (Break, st, [], [])
  | McpTick idle_too_long sent =>
      if idle_too_long then (Break, st, [], []) else (go sent, st, [SendPing], [])
  | McpOutgoing (Some packet) sent => (go sent, st, [], [packet])
  | McpOutgoing None _ => (Break, st, [], [])
  | McpIncoming (Some (WsText text)) _ =>
      match value_from_str text with
      | Some packet =>
          if bool_decide (string_field "type" packet = Some (McpControl.as_str McpControl.Ping))
          then (Continue, st, [SendJson (Object [("type", VString (McpControl.as_str McpControl.Pong))])], [])
          else (Continue, received (Some packet) None, [], [])
      | None => (Continue, st, [], [])
      end
  | McpIncoming (Some (WsPing data)) sent => (go sent, st, [SendPong data], [])
  | McpIncoming (Some (WsBinary data)) _ =>
      (Continue, if (version =? 2)%N then received None (Some data) else st, [], [])
  | McpIncoming (Some WsClose) _ | McpIncoming None _ => (Break, st, [], [])
  | McpIncoming (Some (WsPong _)) _ => (Continue, st, [], [])
  end.

Definition mcp_session_end (session_id : string) st : AppState S Q :=
  set_mcp_gateway (disconnect session_id (mcp_gateway st)) st.

(** ** Public requests *)

Definition allowed_method : string -> bool :=
  one_of ["GET"; "POST"; "DELETE"; "HEAD"; "OPTIONS"].

(** [headers.iter().filter_map(..).collect()] into a [HashMap]: a later value replaces an
    earlier one. *)
Definition forwarded_headers (headers : Headers) : gmap string string :=
  foldl (fun m kv => if McpHttp.allowed_request_header kv.1
                     then match to_str kv.2 with Some value => <[kv.1 := value]> m | None => m end
                     else m) ∅ headers.

Definition content_too_long (headers : Headers) : bool :=
  match header_get "content-length" headers with
  | Some v => match to_str v with
              | Some text => match parse_usize text with
                             | Some len => (McpStream.MAX_REQUEST_BYTES <? len)%N
                             | None => false
                             end
              | None => false
              end
  | None => false
  end.

(** How the first part of [public_request] ends: a response, or the wait for the head of
    an admitted request, with the body its upload task streams. *)
Inductive PublicProgress :=
| PublicOver (response : Response)
| PublicAwaits (request_id : string) (cell : N) (active : Active)
    (upload : option (list (Result (list byte) unit))).

(** [path] is [uri.path()], [uri] the whole request target; [queue_ok] says whether the
    session's queue takes the packet within the time limit. *)
Definition public_request_begin (method path uri : string) (headers : Headers)
    (body : list (Result (list byte) unit)) (random : option (list byte)) (queue_ok : string -> bool) st
    : PublicProgress * AppState S Q * list GwEffect :=
  return_if negb (bool_decide (is_Some (gw_desktop_id (mcp_gateway st))))
    with (PublicOver (fail SERVICE_UNAVAILABLE "MCP gateway not configured"), st, []) in
  return_if negb (McpHttp.allowed_path path) with (PublicOver (fail NOT_FOUND "Not found"), st, []) in
  return_if negb (allowed_method method)
    with (PublicOver (fail METHOD_NOT_ALLOWED "Method not allowed"), st, []) in
  let_some active := gw_active (mcp_gateway st)
    else (PublicOver (fail SERVICE_UNAVAILABLE "Desktop MCP is offline"), st, []) in
  if negb (mcp_authorized (act_credential_hash active) st) then
    let '(st, effects) := revoke_own_desktop st in
    (PublicOver (fail SERVICE_UNAVAILABLE "Desktop credential rotated"), st, effects)
  else
  return_if (act_version active =? 2)%N && content_too_long headers
    with (PublicOver (fail PAYLOAD_TOO_LARGE "MCP request too large"), st, []) in
  let legacy := if (act_version active =? 1)%N then to_bytes body LEGACY_MAX_REQUEST else Some [] in
  let_some legacy_bytes := legacy
    else (PublicOver (fail PAYLOAD_TOO_LARGE "MCP request too large"), st, []) in
  let_ok request_id := random_hex random
    else e => (PublicOver (fail INTERNAL_SERVER_ERROR "Gateway error"), st, []) in
  let '(cell, st) := fresh_handle st in
  match lock (gw_pending (mcp_gateway st)), admit_request (act_session_id active) request_id cell true (mcp_gateway st) with
  | None, _ => (PublicOver (fail INTERNAL_SERVER_ERROR "Gateway error"), st, [])
  | _, None => (PublicOver (fail TOO_MANY_REQUESTS "MCP gateway busy"), st, [])
  | _, Some g =>
      let st := set_mcp_gateway g st in
      let request := {| pr_request_id := request_id; pr_method := method; pr_path := uri;
                        pr_headers := forwarded_headers headers;
                        pr_body_base64 := if (act_version active =? 1)%N
                                          then Some (base64_encode legacy_bytes) else None;
                        pr_body_encoding := if (act_version active =? 2)%N
                                            then Some "binary-v2" else None |} in
      if negb (queue_ok (act_session_id active)) then
        let '(g, effects) := guard_drop (act_session_id active) request_id cell false (mcp_gateway st) in
        (PublicOver (fail SERVICE_UNAVAILABLE "Desktop MCP backpressure"), set_mcp_gateway g st, effects)
      else
        (PublicAwaits request_id cell active (if (act_version active =? 1)%N then None else Some body), st,
         [SendOutgoing (act_session_id active) (OutText (proxy_request_value request))])
  end.

(** What the outcome of the wait for the head makes of the response. *)
Definition head_response (outcome : RecvOutcome) : Response :=
  match outcome with
  | Received (Head code headers) =>
      {| status := code;
         body := StreamedBody (filter (fun kv => header_name_ok kv.1 && header_value_ok kv.2 = true) headers) |}
  | Received UploadTooLarge => fail PAYLOAD_TOO_LARGE "MCP request exceeds 64 MiB"
  | Received UploadFailed => fail BAD_REQUEST "MCP request body interrupted"
  | Received Error | Closed => fail BAD_GATEWAY "Desktop MCP connection lost"
  | _ => fail GATEWAY_TIMEOUT "Desktop MCP did not respond"
  end.
End Mcp.

(** ** Properties *)

Section GatewayFacts.
Context {Q : Type} `{MpscQueue Q}.
Implicit Types g : Gateway Q.

Lemma fail_session_active s g : gw_active (fail_session s g) = gw_active g.
Proof. unfold fail_session. by destruct (lock _). Qed.

Lemma fail_session_desktop s g : gw_desktop_id (fail_session s g) = gw_desktop_id g.
Proof. unfold fail_session. by destruct (lock _). Qed.

Lemma fail_session_subset s g :
  guarded (gw_pending (fail_session s g)) ⊆ guarded (gw_pending g).
Proof. unfold fail_session. destruct (lock _) as [p|] eqn:Hl; [|reflexivity].
  apply lock_Some in Hl. cbn. rewrite Hl. apply retain_subseteq. Qed.

Lemma revoke_desktop_subset d g :
  guarded (gw_pending (revoke_desktop d g).1) ⊆ guarded (gw_pending g)
  /\ gw_desktop_id (revoke_desktop d g).1 = gw_desktop_id g
  /\ Forall (fun e => exists s, e = CloseSession s) (revoke_desktop d g).2.
Proof.
  unfold revoke_desktop. destruct (decide _); [|by split_and!]. destruct (gw_active g); [|by split_and!]. cbn.
  split_and!; [apply (fail_session_subset _ (set_active None g))|by rewrite fail_session_desktop|].
  repeat constructor. by eexists.
Qed.

Lemma receive_active b64 s v p bin g : gw_active (receive b64 s v p bin g) = gw_active g.
Proof.
  unfold receive. destruct (addressed_request _ _); [|done]. destruct (negb _); [done|].
  destruct (lock _); [|done]. destruct (select_reply _ _ _ _ _ _) as [[[r c] pend]|]; [|done].
  unfold deliver. by repeat case_match.
Qed.

Lemma receive_desktop b64 s v p bin g : gw_desktop_id (receive b64 s v p bin g) = gw_desktop_id g.
Proof.
  unfold receive. destruct (addressed_request _ _); [|done]. destruct (negb _); [done|].
  destruct (lock _); [|done]. destruct (select_reply _ _ _ _ _ _) as [[[r c] pend]|]; [|done].
  unfold deliver. by repeat case_match.
Qed.

Lemma disconnect_desktop s g : gw_desktop_id (disconnect s g) = gw_desktop_id g.
Proof. unfold disconnect. rewrite fail_session_desktop. by repeat case_match. Qed.

Lemma disconnect_active s g :
  gw_active (disconnect s g) = None \/ gw_active (disconnect s g) = gw_active g.
Proof.
  unfold disconnect. rewrite fail_session_active. destruct (gw_active g) eqn:Ha; [|by left].
  destruct (String.eqb _ _); [by left|by right].
Qed.
End GatewayFacts.

Section McpProps.
Context {S Q : Type} `{RegistryStore S} `{MpscQueue Q}.
Implicit Types st : AppState S Q.

Definition pending_of st : gmap string Pending := guarded (gw_pending (mcp_gateway st)).

Lemma revoke_own_desktop_spec st :
  let '(st', effects) := revoke_own_desktop st in
  pending_of st' ⊆ pending_of st /\ registry st' = registry st
  /\ gw_desktop_id (mcp_gateway st') = gw_desktop_id (mcp_gateway st)
  /\ Forall (fun e => exists s, e = CloseSession s) effects
  /\ (is_Some (gw_desktop_id (mcp_gateway st)) -> gw_active (mcp_gateway st') = None).
Proof.
  unfold revoke_own_desktop, pending_of.
  set (id := match gw_desktop_id _ with Some i => i | None => _ end).
  pose proof (revoke_desktop_subset id (mcp_gateway st)) as (Hsub & Hdesk & Heff).
  destruct (revoke_desktop id (mcp_gateway st)) as [g effects] eqn:Hr. cbn in *. split_and!; try done.
  intros [d Hd]. unfold revoke_desktop in Hr. subst id. rewrite Hd in Hr.
  rewrite decide_True in Hr by done.
  destruct (gw_active (mcp_gateway st)) eqn:Ha; injection Hr as <- _; [|done].
  by rewrite fail_session_active.
Qed.

Context (to_str : string -> option string).

Lemma forwarded_headers_spec headers k v :
  forwarded_headers to_str headers !! k = Some v ->
  McpHttp.allowed_request_header k = true /\ exists raw, In (k, raw) headers /\ to_str raw = Some v.
Proof.
  unfold forwarded_headers.
  assert (forall (hs : Headers) (m : gmap string string), (forall k v, m !! k = Some v -> McpHttp.allowed_request_header k = true
             /\ exists raw, In (k, raw) headers /\ to_str raw = Some v) ->
          (forall h, In h hs -> In h headers) ->
          forall k v, foldl (fun (m : gmap string string) kv => if McpHttp.allowed_request_header kv.1
                       then match to_str kv.2 with Some value => <[kv.1 := value]> m | None => m end
                       else m) m hs !! k = Some v ->
          McpHttp.allowed_request_header k = true /\ exists raw, In (k, raw) headers /\ to_str raw = Some v) as Hgen.
  { clear. induction hs as [|[k0 raw] hs IH]; intros m Hm Hin; cbn [foldl fst snd]; [exact Hm|].
    apply IH; [|intros h Hh; apply Hin; by right].
    destruct (McpHttp.allowed_request_header k0) eqn:Ha; [|exact Hm].
    destruct (to_str raw) as [value|] eqn:Ht; [|exact Hm]. intros k v.
    rewrite lookup_insert_Some. intros [[<- <-]|[_ Hk]]; [|by apply Hm].
    split; [done|]. exists raw. split; [|done]. apply Hin. by left. }
  apply (Hgen headers ∅); [|done]. intros ? ?. by rewrite lookup_empty.
Qed.

Context (base64_encode : list byte -> string) (parse_usize : string -> option N)
        (to_bytes : list (Result (list byte) unit) -> N -> option (list byte)).

(** The request packet of an admitted request. *)
Definition forwards (headers : Headers) (method uri id : string) (active : Active) (effects : list GwEffect) : Prop :=
  exists request, effects = [SendOutgoing (act_session_id active) (OutText (proxy_request_value request))]
    /\ pr_request_id request = id /\ pr_method request = method /\ pr_path request = uri
    /\ (forall k v, pr_headers request !! k = Some v ->
          McpHttp.allowed_request_header k = true /\ exists raw, In (k, raw) headers /\ to_str raw = Some v)
    /\ (act_version active = 2%N -> pr_body_base64 request = None).

(** A public request is forwarded to the desktop only for an allowed path and method,
    to the session whose credential is the one registered now, within the table's
    capacity, with nothing but allow-listed headers of the request; it is then pending for
    that session. Every refusal is an error status, forwards nothing, and leaves no entry
    that was not there before. *)
Theorem public_request_admission method path uri headers body random queue_ok st :
  let '(progress, st', effects) := public_request_begin to_str base64_encode parse_usize to_bytes
                                     method path uri headers body random queue_ok st in
  registry st' = registry st
  /\ match progress with
     | PublicAwaits id cell active upload =>
         McpHttp.allowed_path path = true /\ allowed_method method = true
         /\ gw_active (mcp_gateway st) = Some active
         /\ mcp_authorized (act_credential_hash active) st = true
         /\ size (pending_of st) < MAX_PENDING /\ size (pending_of st') <= MAX_PENDING
         /\ pending_of st' = <[id := {| pen_session_id := act_session_id active; pen_cell := cell;
                                        pen_bytes := 0 |}]> (pending_of st)
         /\ forwards headers method uri id active effects
         /\ (act_version active = 2%N -> upload = Some body)
     | PublicOver response =>
         (400 <= status response)%N
         /\ (forall session packet, In (SendOutgoing session packet) effects ->
               exists id, packet = OutText (Object [("requestId", VString id); ("type", VString "request_cancel")]))
         /\ pending_of st' ⊆ pending_of st
     end.
Proof.
  assert (forall code m st0, (400 <= code)%N -> registry st0 = registry st -> pending_of st0 ⊆ pending_of st ->
    registry st0 = registry st /\ (400 <= status (fail code m))%N
    /\ (forall session packet, In (SendOutgoing session packet) [] ->
          exists id, packet = OutText (Object [("requestId", VString id); ("type", VString "request_cancel")]))
    /\ pending_of st0 ⊆ pending_of st) as Hrefuse by (intros; split_and!; done).
  unfold public_request_begin.
  destruct (bool_decide _); cbn [negb]; [|by apply Hrefuse].
  destruct (McpHttp.allowed_path path) eqn:Hpath; cbn [negb]; [|by apply Hrefuse].
  destruct (allowed_method method) eqn:Hmethod; cbn [negb]; [|by apply Hrefuse].
  destruct (gw_active (mcp_gateway st)) as [active|] eqn:Hact; [|by apply Hrefuse].
  destruct (mcp_authorized _ st) eqn:Hauth; cbn [negb].
  2: { pose proof (revoke_own_desktop_spec st) as Hr. destruct (revoke_own_desktop st) as [st' effects].
       destruct Hr as (Hsub & Hreg & _ & Heff & _). split_and!; try done.
       intros session packet Hin. rewrite Forall_forall in Heff.
       apply list_elem_of_In in Hin. by destruct (Heff _ Hin) as [s [=]]. }
  destruct (_ && content_too_long _ _ _); [by apply Hrefuse|].
  destruct (if (act_version active =? 1)%N then _ else _) as [bytes|] eqn:Hbody; [|by apply Hrefuse].
  destruct (random_hex random) as [id|e]; [|by apply Hrefuse].
  cbn [fresh_handle]. unfold admit_request. cbn [mcp_gateway set_next_handle].
  destruct (lock (gw_pending (mcp_gateway st))) as [pend|] eqn:Hl; [|by apply Hrefuse].
  apply lock_Some in Hl.
  destruct (MAX_PENDING <=? size pend)%nat eqn:Hcap; [by apply Hrefuse|]. apply Nat.leb_gt in Hcap.
  destruct (queue_ok _); cbn [negb].
  - split; [done|]. unfold pending_of. cbn. rewrite Hl. cbn. split_and!; try done.
    + etrans; [apply size_insert_le|]. exact Hcap.
    + eexists. split; [reflexivity|]. cbn. split_and!; try done.
      * intros k v. apply forwarded_headers_spec.
      * by intros ->.
    + by intros ->.
  - unfold guard_drop. cbn. unfold lock. cbn. rewrite Hl. cbn. split_and!; [done|done| |].
    + intros session packet [[= <- <-]|[]]. by eexists.
    + unfold pending_of. cbn. rewrite Hl. cbn. rewrite delete_insert_eq. apply delete_subseteq.
Qed.
End McpProps.

(** ** Credential rotation while sessions connect

    The tasks that race: handshakes that have installed their session and not yet checked
    it, and tasks about to run [revoke_desktop] (a failed check, a failed check of a
    public request, or a registration that has stored a new token). *)

Inductive Racer :=
| Checking (active : Active)
| Revoking.

Record Race (S Q : Type) := {
  race_state : AppState S Q;
  racers : list Racer }.
Arguments race_state {S Q}.
Arguments racers {S Q}.

Section Rotation.
Context {S Q : Type} `{RegistryStore S} `{MpscQueue Q}.
Context (base64_decode : string -> option (list byte)).
Implicit Types st : AppState S Q.

Inductive race_step : Race S Q -> Race S Q -> Prop :=
| race_install st active tasks :
    race_step {| race_state := st; racers := tasks |}
      {| race_state := set_mcp_gateway (mcp_install active (mcp_gateway st)).1 st;
         racers := Checking active :: tasks |}
| race_check_passes st active l r :
    mcp_authorized (act_credential_hash active) st = true ->
    race_step {| race_state := st; racers := l ++ Checking active :: r |}
      {| race_state := st; racers := l ++ r |}
| race_check_fails st active l r :
    mcp_authorized (act_credential_hash active) st = false ->
    race_step {| race_state := st; racers := l ++ Checking active :: r |}
      {| race_state := st; racers := l ++ Revoking :: r |}
| race_revoke st l r :
    race_step {| race_state := st; racers := l ++ Revoking :: r |}
      {| race_state := (revoke_own_desktop st).1; racers := l ++ r |}
| race_register st r tasks :
    race_step {| race_state := st; racers := tasks |}
      {| race_state := put_registry r st; racers := Revoking :: tasks |}
| race_other_registry st r tasks :
    (forall d, gw_desktop_id (mcp_gateway st) = Some d ->
       desk_token_hash <$> desktops r !! d = desk_token_hash <$> desktops (guarded (registry st)) !! d) ->
    race_step {| race_state := st; racers := tasks |} {| race_state := put_registry r st; racers := tasks |}
| race_public st active tasks :
    gw_active (mcp_gateway st) = Some active -> mcp_authorized (act_credential_hash active) st = false ->
    race_step {| race_state := st; racers := tasks |} {| race_state := st; racers := Revoking :: tasks |}
| race_receive st session version packet binary tasks :
    race_step {| race_state := st; racers := tasks |}
      {| race_state := set_mcp_gateway (receive base64_decode session version packet binary (mcp_gateway st)) st;
         racers := tasks |}
| race_session_end st session tasks :
    race_step {| race_state := st; racers := tasks |}
      {| race_state := mcp_session_end session st; racers := tasks |}.

Inductive race_reachable (d : string) : Race S Q -> Prop :=
| race_init st tasks :
    gw_desktop_id (mcp_gateway st) = Some d -> gw_active (mcp_gateway st) = None ->
    race_reachable d {| race_state := st; racers := tasks |}
| race_next x y : race_reachable d x -> race_step x y -> race_reachable d y.

(** An active session with a credential that is not the registered one is about to be
    checked or to be revoked. *)
Definition race_inv (d : string) (x : Race S Q) : Prop :=
  gw_desktop_id (mcp_gateway (race_state x)) = Some d
  /\ forall active, gw_active (mcp_gateway (race_state x)) = Some active ->
       mcp_authorized (act_credential_hash active) (race_state x) = true
       \/ In Revoking (racers x) \/ In (Checking active) (racers x).

Lemma mcp_authorized_gateway c g st :
  gw_desktop_id g = gw_desktop_id (mcp_gateway st) ->
  mcp_authorized c (set_mcp_gateway g st) = mcp_authorized c st.
Proof. intros Hg. unfold mcp_authorized. cbn. by rewrite Hg. Qed.

Lemma mcp_install_spec active (g : Gateway Q) :
  gw_active (mcp_install active g).1 = Some active
  /\ gw_desktop_id (mcp_install active g).1 = gw_desktop_id g.
Proof.
  unfold mcp_install. destruct (gw_active g); cbn; [|done].
  by rewrite fail_session_active, fail_session_desktop.
Qed.

(** A step that only changes the gateway, without activating anything. *)
Lemma race_inv_gateway d st tasks g :
  race_inv d {| race_state := st; racers := tasks |} ->
  gw_desktop_id g = gw_desktop_id (mcp_gateway st) ->
  (gw_active g = None \/ gw_active g = gw_active (mcp_gateway st)) ->
  race_inv d {| race_state := set_mcp_gateway g st; racers := tasks |}.
Proof.
  intros [Hd Hinv] Hg Ha. split; cbn in *; [by rewrite Hg|].
  intros active Hact. rewrite mcp_authorized_gateway by done. apply Hinv.
  destruct Ha; congruence.
Qed.

Lemma race_step_inv d x y : race_step x y -> race_inv d x -> race_inv d y.
Proof.
  intros Hstep [Hd Hinv]. destruct Hstep as [st a tasks|st a l r Hok|st a l r Hbad|st l r|st r tasks|
    st r tasks Hsame|st a tasks Hact Hbad|st s v p b tasks|st s tasks]; cbn in *.
  - destruct (mcp_install_spec a (mcp_gateway st)) as [Ha Hg]. split; cbn; [congruence|].
    intros b Hb. right. right. left. congruence.
  - split; [done|]. cbn. intros b Hb. destruct (Hinv b Hb) as [?|[Hin|Hin]]; [by left|right; left|].
    + apply in_app_iff in Hin as [?|[?|?]]; [..|done|]; apply in_app_iff; auto.
    + apply in_app_iff in Hin as [?|[[= <-]|?]]; [..|by left|]; right; right; apply in_app_iff; auto.
  - split; [done|]. intros b _. right. left. apply in_app_iff. right. by left.
  - pose proof (revoke_own_desktop_spec st) as Hr. destruct (revoke_own_desktop st) as [st' effects].
    destruct Hr as (_ & _ & Hg & _ & Hnone). split; cbn; [congruence|].
    intros b Hb. rewrite Hnone in Hb; [done|by eexists].
  - split; [done|]. intros b _. right. left. by left.
  - split; [done|]. cbn. intros b Hb. destruct (Hinv b Hb) as [Hok|[?|?]]; auto. left.
    unfold mcp_authorized in *. unfold lock in *. cbn. rewrite Hd in *.
    destruct (poisoned (registry st)); [done|]. specialize (Hsame d eq_refl).
    destruct (desktops (guarded (registry st)) !! d); [|done].
    destruct (desktops r !! d); [|done]. injection Hsame as Hsame. by rewrite Hsame.
  - split; [done|]. intros b _. right. left. by left.
  - apply race_inv_gateway; [by split|apply receive_desktop|right; apply receive_active].
  - apply race_inv_gateway; [by split|apply disconnect_desktop|apply disconnect_active].
Qed.

(** However handshakes, registrations, public requests and disconnections interleave,
    a session authenticated with a replaced credential does not stay: once the handshakes
    have made their check and the pending revocations have run, the active session, if
    any, carries the credential registered at that moment. *)
Theorem rotation_retires_sessions d x active
    (Hreach : race_reachable d x)
    (Hsettled : racers x = [])
    (Hactive : gw_active (mcp_gateway (race_state x)) = Some active) :
  mcp_authorized (act_credential_hash active) (race_state x) = true.
Proof.
  assert (race_inv d x) as [_ Hinv].
  { clear Hsettled Hactive. induction Hreach as [st tasks Hd Ha|x y _ IH Hstep]; [|by eapply race_step_inv].
    split; [done|]. cbn. congruence. }
  rewrite Hsettled in Hinv. by destruct (Hinv active Hactive) as [?|[[]|[]]].
Qed.

(** The revocation after a failed check is not tied to the session that failed it: a
    handshake with a replaced credential also takes a valid session offline that was
    installed after its own. *)
Lemma stale_check_evicts_current d st current stale :
  gw_desktop_id (mcp_gateway st) = Some d -> gw_active (mcp_gateway st) = Some current ->
  mcp_authorized (act_credential_hash current) st = true ->
  mcp_authorized (act_credential_hash stale) st = false ->
  exists y z, race_step {| race_state := st; racers := [Checking stale] |} y /\ race_step y z
    /\ racers z = [] /\ gw_active (mcp_gateway (race_state z)) = None.
Proof.
  intros Hd Hcur _ Hstale. exists {| race_state := st; racers := [Revoking] |}. eexists.
  split; [by apply (race_check_fails st stale [] [])|]. split; [apply (race_revoke st [] [])|].
  split; [done|]. cbn. pose proof (revoke_own_desktop_spec st) as Hr.
  destruct (revoke_own_desktop st). destruct Hr as (_ & _ & _ & _ & Hnone). apply Hnone. by eexists.
Qed.
End Rotation.

(** ** Witnesses *)

Definition sample_mcp_state : Sample :=
  set_mcp_gateway (from_env (Some "d_0123456789abcdef"))
    (put_registry {| desktops := {[ "d_0123456789abcdef" :=
        {| desk_token_hash := token_hash sample_sha "desk"; desk_device_name := "PC"; desk_app_version := "1";
           desk_platform := "linux"; desk_created_at := 7; desk_devices := ∅ |} ]};
        used_registration_invites := ∅ |} (sample_state [])).

Definition sample_active : Active :=
  {| act_session_id := "s"; act_version := 2; act_credential_hash := token_hash sample_sha "desk" |}.

Lemma rotation_retires_sessions_witness :
  let st := set_mcp_gateway (mcp_install sample_active (mcp_gateway sample_mcp_state)).1 sample_mcp_state in
  gw_active (mcp_gateway st) = Some sample_active
  /\ mcp_authorized (act_credential_hash sample_active) st = true.
Proof.
  intros st. split; [vm_compute; reflexivity|].
  apply (rotation_retires_sessions no_base64 "d_0123456789abcdef"
           {| race_state := st; racers := [] |} sample_active).
  - eapply race_next.
    + eapply race_next; [apply (race_init _ _ sample_mcp_state []); vm_compute; reflexivity|].
      apply (race_install no_base64 sample_mcp_state sample_active []).
    + apply (race_check_passes no_base64 st sample_active [] []). vm_compute. reflexivity.
  - reflexivity.
  - vm_compute. reflexivity.
Defined.
