(* ===== verification/RelayRouter.v ===== *)
(** * The Relay's HTTP surface ([relay-server/src/main.rs])

    The routing table, the extractors in front of the handlers, and the handlers together:
    what one HTTP request does to the Relay. *)

From S2P Require Export McpRequests PairingSession DeviceSession DesktopSession RegistryRoutes.
Local Open Scope string_scope.

(** The paths of the table, with their parameters. *)
Inductive Resource :=
| HealthPath
| RegisterPath
| DesktopSocketPath
| McpSocketPath
| PublicPath
| DeviceSocketPath
| PairSocketPath
| SnapshotPath (desktop_id device_id : string)
| RevokeSelfPath (desktop_id device_id : string)
| DevicePath (desktop_id device_id : string)
| PairingPath (desktop_id pairing_id : string).

(** The handlers. *)
Inductive Endpoint :=
| GetHealth
| RegisterDesktop
| DesktopSocket
| McpSocket
| Public
| DeviceSocket
| PairSocket
| GetSnapshot (desktop_id device_id : string)
| PostSnapshot (desktop_id device_id : string)
| RevokeSelf (desktop_id device_id : string)
| AuthorizeDevice (desktop_id device_id : string)
| RevokeDevice (desktop_id device_id : string)
| OpenPairing (desktop_id pairing_id : string)
| DeletePairing (desktop_id pairing_id : string).

(** A parameter of a path stands for one segment that is not empty. *)
Definition resource_of (path : string) : option Resource :=
  match split_on "/" path with
  | [""; "healthz"] => Some HealthPath
  | [""; "mcp"] => Some PublicPath
  | [""; "chatx-oauth"; action] => if is_empty action then None else Some PublicPath
  | "" :: ".well-known" :: rest => match rest with [] | [""] => None | _ => Some PublicPath end
  | [""; "v1"; "ws"; "desktop"] => Some DesktopSocketPath
  | [""; "v1"; "ws"; "mcp"] => Some McpSocketPath
  | [""; "v1"; "ws"; "device"] => Some DeviceSocketPath
  | [""; "v1"; "ws"; "pair"] => Some PairSocketPath
  | [""; "v1"; "desktops"; "register"] => Some RegisterPath
  | [""; "v1"; "desktops"; d; "devices"; v; "snapshot"] => if is_empty d || is_empty v then None else Some (SnapshotPath d v)
  | [""; "v1"; "desktops"; d; "devices"; v; "revoke-self"] => if is_empty d || is_empty v then None else Some (RevokeSelfPath d v)
  | [""; "v1"; "desktops"; d; "devices"; v] => if is_empty d || is_empty v then None else Some (DevicePath d v)
  | [""; "v1"; "desktops"; d; "pairings"; p] => if is_empty d || is_empty p then None else Some (PairingPath d p)
  | _ => None
  end.

(** [get] takes HEAD as well. *)
Definition is_get (method : string) : bool := one_of ["GET"; "HEAD"] method.

Definition route_endpoint (method : string) (r : Resource) : option Endpoint :=
  let only (allowed : bool) e := if allowed then Some e else None in
  match r with
  | HealthPath => only (is_get method) GetHealth
  | RegisterPath => only (String.eqb method "POST") RegisterDesktop
  | DesktopSocketPath => only (is_get method) DesktopSocket
  | McpSocketPath => only (is_get method) McpSocket
  | PublicPath => Some Public
  | DeviceSocketPath => only (is_get method) DeviceSocket
  | PairSocketPath => only (is_get method) PairSocket
  | SnapshotPath d v => if is_get method then Some (GetSnapshot d v) else only (String.eqb method "POST") (PostSnapshot d v)
  | RevokeSelfPath d v => only (String.eqb method "POST") (RevokeSelf d v)
  | DevicePath d v => if String.eqb method "PUT" then Some (AuthorizeDevice d v) else only (String.eqb method "DELETE") (RevokeDevice d v)
  | PairingPath d p => if String.eqb method "PUT" then Some (OpenPairing d p) else only (String.eqb method "DELETE") (DeletePairing d p)
  end.

Definition MAX_BODY_BYTES : N := 64 * 1024.

Record WebRequest := {
  rq_method : string;
  rq_path : string;
  rq_uri : string;
  rq_headers : Headers;
  rq_body : list (Result (list byte) unit) }.

(** An answer: of the table, of an extractor, of a handler, or (for the public paths and the
    gateway's socket) the beginning of one. *)
Inductive Answer :=
| NotRouted (status : N)
| Refused
| Reported (report : Health)
| Answered (response : Response)
| Accepted (credential_hash : string)
| Proxied (progress : PublicProgress).

Inductive Sent := RelaySent (e : Effect) | GatewaySent (e : GwEffect).

Section Router.
Context {S Q : Type} `{RegistryStore S} `{MpscQueue Q}.
Context (sha256 : string -> list byte) (to_str : string -> option string)
        (hmac_verify : string -> string -> list byte -> bool)
        (invite_from_slice : list byte -> option Registration.RegistrationInvite).
(** The extractors of the HTTP library: whether a request may become a websocket, the
    decoding of a path's parameter, the queries, whether the content type is JSON, the JSON
    readers, and what [public_request] uses. *)
Context (may_upgrade : WebRequest -> bool) (decode_param : string -> option string)
        (desktop_query : string -> option string) (device_query pairing_query : string -> option (string * string))
        (json_type : Headers -> bool)
        (read_register : list byte -> option DesktopRegisterRequest)
        (read_snapshot : list byte -> option EncryptedSnapshot)
        (read_authorize : list byte -> option DeviceAuthorizeRequest)
        (read_pairing : list byte -> option PairingRouteOpenRequest)
        (base64_encode : list byte -> string) (parse_usize : string -> option N)
        (to_bytes : list (Result (list byte) unit) -> N -> option (list byte)).

(** What the environment supplies to one request. *)
Record WebEnv := {
  we_now : N;
  we_server_time : N;
  we_register : RegisterEnv;
  we_random : option (list byte);
  we_send_ok : Chan -> bool;
  we_queue_ok : string -> bool;
  we_wait : Handle -> AppState S Q -> option (Result unit string) * AppState S Q }.

Abbreviation Served := (Answer * AppState S Q * list Sent)%type.

Definition answered (out : Response * AppState S Q) : Served := (Answered out.1, out.2, []).
Definition answered_sending (out : Response * AppState S Q * list Effect) : Served :=
  (Answered out.1.1, out.1.2, map RelaySent out.2).

(** [AxumPath] of two parameters. *)
Definition with_params (a b : string) (st : AppState S Q) (k : string -> string -> Served) : Served :=
  match decode_param a, decode_param b with
  | Some a, Some b => k a b
  | _, _ => (Refused, st, [])
  end.

(** [Json]: at most [MAX_BODY_BYTES], of the right type. *)
Definition with_json {A} (read : list byte -> option A) (rq : WebRequest) (st : AppState S Q) (k : A -> Served) : Served :=
  if negb (json_type (rq_headers rq)) then (Refused, st, [])
  else match to_bytes (rq_body rq) MAX_BODY_BYTES with
       | None => (Refused, st, [])
       | Some bytes => match read bytes with None => (Refused, st, []) | Some a => k a end
       end.

(** [WebSocketUpgrade] and [Query]. *)
Definition with_socket {A} (query : string -> option A) (rq : WebRequest) (st : AppState S Q) (k : A -> Served) : Served :=
  if negb (may_upgrade rq) then (Refused, st, [])
  else match query (rq_uri rq) with None => (Refused, st, []) | Some a => k a end.

Definition serve (e : Endpoint) (rq : WebRequest) (env : WebEnv) (st : AppState S Q) : Served :=
  let headers := rq_headers rq in
  match e with
  | GetHealth => (Reported (health (we_now env) st), st, [])
  | RegisterDesktop =>
      with_json read_register rq st (fun payload =>
        let '(r, st, sent) := register_desktop sha256 to_str hmac_verify invite_from_slice headers payload (we_register env) st in
        (Answered r, st, map GatewaySent sent))
  | DesktopSocket => with_socket desktop_query rq st (fun d => answered (desktop_ws sha256 to_str d headers st))
  | McpSocket =>
      with_socket desktop_query rq st (fun d =>
        match websocket sha256 to_str d headers st with
        | Ok credential_hash => (Accepted credential_hash, st, [])
        | Err r => (Answered r, st, [])
        end)
  | Public =>
      let '(progress, st, sent) := public_request_begin to_str base64_encode parse_usize to_bytes (rq_method rq) (rq_path rq) (rq_uri rq)
                                     headers (rq_body rq) (we_random env) (we_queue_ok env) st in
      (Proxied progress, st, map GatewaySent sent)
  | DeviceSocket => with_socket device_query rq st (fun q => answered (device_ws sha256 to_str q.1 q.2 headers st))
  | PairSocket => with_socket pairing_query rq st (fun q => answered (pairing_ws sha256 to_str q.1 q.2 headers (we_now env) st))
  | GetSnapshot d v =>
      with_params d v st (fun d v => answered (device_snapshot_http sha256 to_str d v headers (we_now env) (we_server_time env) st))
  | PostSnapshot d v =>
      with_params d v st (fun d v => with_json read_snapshot rq st (fun snap =>
        answered_sending (desktop_snapshot_http sha256 to_str d v headers snap (we_now env) st)))
  | RevokeSelf d v =>
      with_params d v st (fun d v =>
        answered_sending (device_revoke_http sha256 to_str d v headers (we_random env) (we_send_ok env) (we_wait env) st))
  | AuthorizeDevice d v =>
      with_params d v st (fun d v => with_json read_authorize rq st (fun payload =>
        answered (authorize_device sha256 to_str d v headers payload (we_now env) st)))
  | RevokeDevice d v => with_params d v st (fun d v => answered (revoke_device sha256 to_str d v headers st))
  | OpenPairing d p =>
      with_params d p st (fun d p => with_json read_pairing rq st (fun payload =>
        answered (open_pairing_route sha256 to_str d p headers payload (we_now env) st)))
  | DeletePairing d p => with_params d p st (fun d p => answered (delete_pairing_route sha256 to_str d p headers st))
  end.

(** One request. *)
Definition relay_request (rq : WebRequest) (env : WebEnv) (st : AppState S Q) : Served :=
  match resource_of (rq_path rq) with
  | None => (NotRouted NOT_FOUND, st, [])
  | Some r =>
      match route_endpoint (rq_method rq) r with
      | None => (NotRouted METHOD_NOT_ALLOWED, st, [])
      | Some e => serve e rq env st
      end
  end.
End Router.

(** ** The credential of a request *)

Section RouterProps.
Context {S Q : Type} `{RegistryStore S} {Hlaws : RegistryStoreLaws S} {HQ : MpscQueue Q}.
Context (sha256 : string -> list byte) (to_str : string -> option string)
        (hmac_verify : string -> string -> list byte -> bool)
        (invite_from_slice : list byte -> option Registration.RegistrationInvite)
        (may_upgrade : WebRequest -> bool) (decode_param : string -> option string)
        (desktop_query : string -> option string) (device_query pairing_query : string -> option (string * string))
        (json_type : Headers -> bool)
        (read_register : list byte -> option DesktopRegisterRequest)
        (read_snapshot : list byte -> option EncryptedSnapshot)
        (read_authorize : list byte -> option DeviceAuthorizeRequest)
        (read_pairing : list byte -> option PairingRouteOpenRequest)
        (base64_encode : list byte -> string) (parse_usize : string -> option N)
        (to_bytes : list (Result (list byte) unit) -> N -> option (list byte)).
Implicit Types st : AppState S Q.
Local Abbreviation request := (relay_request sha256 to_str hmac_verify invite_from_slice may_upgrade decode_param desktop_query
  device_query pairing_query json_type read_register read_snapshot read_authorize read_pairing base64_encode parse_usize to_bytes).
Local Abbreviation serve := (serve sha256 to_str hmac_verify invite_from_slice may_upgrade decode_param desktop_query
  device_query pairing_query json_type read_register read_snapshot read_authorize read_pairing base64_encode parse_usize to_bytes).

Definition bearer_passes (test : string -> bool) (headers : Headers) : bool :=
  match bearer to_str headers with Some token => test token | None => false end.

(** The bearer token is the credential of the desktop, phone or pairing the request names (of
    nobody, when it names none); a registration needs the bootstrap token or an invitation.
    The health report and the public paths, whose credentials the desktop checks, need none. *)
Definition endpoint_credential (e : Endpoint) (rq : WebRequest) (env : @WebEnv S Q) st : bool :=
  let desktop d := bearer_passes (fun token => desktop_authorized sha256 d token st) (rq_headers rq) in
  let device d v := bearer_passes (fun token => device_authorized sha256 d v token st) (rq_headers rq) in
  let param a := match decode_param a with Some a => a | None => "" end in
  match e with
  | GetHealth | Public => true
  | RegisterDesktop =>
      match bootstrap_token_hash st with
      | Some expected => bearer_passes (fun token => is_ok (registration_invite sha256 hmac_verify invite_from_slice token expected (env_now (we_register env)))) (rq_headers rq)
      | None => false
      end
  | DesktopSocket => match desktop_query (rq_uri rq) with Some d => desktop d | None => false end
  | McpSocket =>
      match desktop_query (rq_uri rq), mcp_bearer to_str (rq_headers rq) with
      | Some d, Some token => desktop_authorized sha256 d token st
      | _, _ => false
      end
  | DeviceSocket => match device_query (rq_uri rq) with Some q => device q.1 q.2 | None => false end
  | PairSocket =>
      match pairing_query (rq_uri rq) with
      | Some q => match pairing_routes st !! q with
                  | Some route => bearer_passes (fun token => hash_matches sha256 token (route_token_hash route)) (rq_headers rq)
                  | None => false
                  end
      | None => false
      end
  | GetSnapshot d v | RevokeSelf d v => device (param d) (param v)
  | PostSnapshot d _ | AuthorizeDevice d _ | RevokeDevice d _ | OpenPairing d _ | DeletePairing d _ => desktop (param d)
  end.

Definition request_endpoint (rq : WebRequest) : option Endpoint := resource_of (rq_path rq) ≫= route_endpoint (rq_method rq).

Definition has_credential (rq : WebRequest) (env : @WebEnv S Q) st : bool :=
  match request_endpoint rq with Some e => endpoint_credential e rq env st | None => false end.

(** Nothing happened, but for forgetting a pairing route that had expired anyway. *)
Definition unmoved (now : N) st st' : Prop :=
  st' = st \/ exists key route, pairing_routes st !! key = Some route /\ (route_expires_at route < now)%N /\ st' = set_pairing_routes (delete key (pairing_routes st)) st.

Definition turned_away (a : Answer) : Prop :=
  match a with
  | NotRouted status => status = NOT_FOUND \/ status = METHOD_NOT_ALLOWED
  | Refused => True
  | Answered r => In (status r) [UNAUTHORIZED; NOT_FOUND; GONE; SERVICE_UNAVAILABLE] /\ body r <> Upgrade
  | _ => False
  end.

Ltac step_extractors Hs := repeat match type of Hs with
  | context [decode_param ?x] => destruct (decode_param x) as [?|]; cbv iota in *
  | context [json_type ?h] => destruct (json_type h); cbn [negb] in *
  | context [to_bytes ?b MAX_BODY_BYTES] => destruct (to_bytes b MAX_BODY_BYTES) as [?|]
  | context [may_upgrade ?r] => destruct (may_upgrade r); cbn [negb] in *
  | context [desktop_query ?u] => destruct (desktop_query u) as [?|]
  | context [device_query ?u] => destruct (device_query u) as [?|]
  | context [pairing_query ?u] => destruct (pairing_query u) as [?|]
  | context [read_register ?b] => destruct (read_register b) as [?|]
  | context [read_snapshot ?b] => destruct (read_snapshot b) as [?|]
  | context [read_authorize ?b] => destruct (read_authorize b) as [?|]
  | context [read_pairing ?b] => destruct (read_pairing b) as [?|]
  end.

Lemma turned_away_answer now st r a st' (sent : list Sent) : (Answered r, st, []) = (a, st', sent) -> turned_away (Answered r) ->
  sent = [] /\ turned_away a /\ unmoved now st st'.
Proof using Type. intros [= <- <- <-] Hr. split_and!; [done|done|by left]. Qed.

Lemma turned_away_refused now st a st' (sent : list Sent) : (Refused, st, []) = (a, st', sent) -> sent = [] /\ turned_away a /\ unmoved now st st'.
Proof using Type. intros [= <- <- <-]. split_and!; [done|done|by left]. Qed.

Lemma unauthorized_serve e rq env st a st' sent : serve e rq env st = (a, st', sent) -> endpoint_credential e rq env st = false ->
  sent = [] /\ turned_away a /\ unmoved (we_now env) st st'.
Proof using Type.
  clear. unfold RelayRouter.serve, endpoint_credential, bearer_passes, with_params, with_json, with_socket, answered, answered_sending.
  destruct e; try done;
    unfold register_desktop, desktop_ws, websocket, device_ws, pairing_ws, device_snapshot_http, desktop_snapshot_http, device_revoke_http,
      authorize_device, revoke_device, open_pairing_route, delete_pairing_route; intros Hs Hc;
    step_extractors Hs; try (by apply turned_away_refused).
  all: try (destruct (bearer to_str (rq_headers rq)) as [token|]; [rewrite Hc in Hs|]; cbn [negb fst snd map] in Hs;
    solve [eapply turned_away_answer; [exact Hs|split; [cbn; tauto|done]]]).
  - destruct (bootstrap_token_hash st) as [expected|]; [|by eapply turned_away_answer; [exact Hs|split; [cbn; tauto|]]].
    destruct (bearer to_str (rq_headers rq)) as [token|]; [|by eapply turned_away_answer; [exact Hs|split; [cbn; tauto|]]].
    destruct (registration_invite _ _ _ _ _ _) as [invite|e]; [done|]. by eapply turned_away_answer; [exact Hs|split; [cbn; tauto|]].
  - destruct (negb _); [by eapply turned_away_answer; [exact Hs|split; [cbn; tauto|]]|].
    destruct (mcp_bearer to_str (rq_headers rq)) as [token|]; [rewrite Hc in Hs|]; cbn [negb] in Hs;
      (eapply turned_away_answer; [exact Hs|split; [cbn; tauto|done]]).
  - rewrite <- surjective_pairing in Hs.
    destruct (bearer to_str (rq_headers rq)) as [token|]; [|by eapply turned_away_answer; [exact Hs|split; [cbn; tauto|]]].
    destruct (pairing_routes st !! p) as [route|] eqn:Hroute; [|by eapply turned_away_answer; [exact Hs|split; [cbn; tauto|]]].
    destruct (N.ltb_spec (route_expires_at route) (we_now env)) as [Hold|_].
    + injection Hs as <- <- <-. split_and!; [done|by split; [cbn; tauto|]|]. right. by exists p, route.
    + rewrite Hc in Hs. by eapply turned_away_answer; [exact Hs|split; [cbn; tauto|]].
Qed.

(** ** The records of the other desktops *)

(** The desktop whose record a request may change. *)
Definition endpoint_desktop (e : Endpoint) (rq : WebRequest) : option string :=
  match e with
  | RegisterDesktop => (fun payload => trim (reg_desktop_id payload)) <$> (to_bytes (rq_body rq) MAX_BODY_BYTES ≫= read_register)
  | RevokeSelf d _ | AuthorizeDevice d _ | RevokeDevice d _ => decode_param d
  | _ => None
  end.
Definition request_desktop (rq : WebRequest) : option string := request_endpoint rq ≫= fun e => endpoint_desktop e rq.

Lemma record_same k st st' : registry st' = registry st -> desktop_record k st' = desktop_record k st.
Proof using Type. clear. unfold desktop_record. by intros ->. Qed.

Lemma record_lock k r st : lock (registry st) = Some r -> desktop_record k st = desktops r !! k.
Proof using Type. clear. unfold desktop_record. intros Hl. by rewrite Hl. Qed.

(** Saving a changed registry, or taking the change back, moves no other record. *)
Lemma save_kept k r r1 st res st1 : lock (registry st) = Some r -> desktops r1 !! k = desktops r !! k ->
  save_registry r1 (put_registry r1 st) = (res, st1) ->
  desktop_record k st1 = desktop_record k st
  /\ forall r2, desktops r2 !! k = desktops r !! k -> desktop_record k (put_registry r2 st1) = desktop_record k st.
Proof using Type*.
  clear -Hlaws HQ. intros Hl Hr1 (s' & -> & _)%save_registry_spec. rewrite (record_lock k r st Hl). apply lock_Some in Hl.
  split; [|intros r2 Hr2]; unfold desktop_record; cbn; by rewrite Hl.
Qed.

Lemma insert_kept k id (f : DesktopRecord) r : k <> id -> desktops (set_desktops <[id := f]> r) !! k = desktops r !! k.
Proof using Type. clear. intros Hk. cbn. by rewrite lookup_insert_ne. Qed.
Lemma alter_kept k id f r : k <> id -> desktops (set_desktops (alter f id) r) !! k = desktops r !! k.
Proof using Type. clear. intros Hk. cbn. by rewrite lookup_alter_ne. Qed.

Lemma authorize_kept k d v headers payload now st : k <> d ->
  desktop_record k (authorize_device sha256 to_str d v headers payload now st).2 = desktop_record k st.
Proof using Type*.
  clear -Hlaws HQ. intros Hk. unfold authorize_device. destruct (bearer to_str headers); [|done]. destruct (negb _); [done|]. destruct (negb _); [done|].
  destruct (lock (registry st)) as [r|] eqn:Hl; [|done]. destruct (desktops r !! d) as [desktop|]; [|done].
  destruct (save_registry _ _) as [res st1] eqn:Hs. apply (save_kept k r) in Hs as [Ha Hb]; [|done|by apply insert_kept].
  destruct res; [exact Ha|]. apply Hb. rewrite alter_kept by done. by apply insert_kept.
Qed.

Lemma revoke_kept k d v headers st : k <> d ->
  desktop_record k (revoke_device sha256 to_str d v headers st).2 = desktop_record k st.
Proof using Type*.
  clear -Hlaws HQ. intros Hk. unfold revoke_device. destruct (bearer to_str headers); [|done]. destruct (negb _); [done|].
  destruct (lock (registry st)) as [r|] eqn:Hl; [|done]. destruct (desktops r !! d) as [desktop|]; [|done].
  destruct (save_registry _ _) as [res st1] eqn:Hs. apply (save_kept k r) in Hs as [Ha Hb]; [|done|by apply insert_kept].
  destruct res; [exact Ha|]. apply Hb. rewrite alter_kept by done. by apply insert_kept.
Qed.

Lemma register_kept k headers payload env st : k <> trim (reg_desktop_id payload) ->
  desktop_record k (register_desktop sha256 to_str hmac_verify invite_from_slice headers payload env st).1.2 = desktop_record k st.
Proof using Type*.
  clear -Hlaws HQ. intros Hk. pose proof (register_cases sha256 to_str hmac_verify invite_from_slice headers payload env st) as Hc.
  destruct (register_desktop _ _ _ _ _ _ _ _) as [[resp st'] effects]. cbn.
  destruct Hc as [(_ & _ & _ & Hr & _)|(? & ? & invite & ? & r & r' & s' & _ & _ & _ & _ & _ & Hl & Hin & _ & _ & _ & ->)];
    [by apply record_same|].
  rewrite (record_lock k r st Hl). apply lock_Some in Hl. unfold desktop_record. cbn. rewrite Hl. cbn.
  unfold register_in in Hin. destruct invite as [[id expires]|]; [destruct (used_registration_invites r !! id); [done|]|];
    injection Hin as <-; cbn; by rewrite lookup_insert_ne.
Qed.

Lemma finalize_kept k d v st : k <> d -> desktop_record k (finalize_device_revoke d v st).1.2 = desktop_record k st.
Proof using Type*.
  clear -Hlaws HQ. intros Hk. destruct (finalize_device_revoke d v st) as [[res st'] effects] eqn:Hf.
  apply finalize_inv in Hf as (_ & _ & _ & Hres). cbn.
  assert (registry st' = registry st \/ exists d0, registry st' =
    set_guarded (set_desktops <[d := set_devices (delete v) d0]> (guarded (registry st))) (registry st)) as [Hr|(d0 & Hr)]
    by (destruct res; [destruct Hres as (_ & _ & _ & [?|(d0 & _ & ?)]); [by left|right; by exists d0]|left; tauto]).
  - by apply record_same.
  - unfold desktop_record. rewrite Hr. unfold lock. cbn. destruct (poisoned (registry st)); [done|]. cbn. by rewrite lookup_insert_ne.
Qed.

Lemma request_revoke_kept k random send_ok wait d v st :
  (forall h s, desktop_record k (wait h s).2 = desktop_record k s) ->
  desktop_record k (request_desktop_revoke random send_ok wait d v st).1.2 = desktop_record k st.
Proof using Type*.
  clear -Hlaws HQ. intros Hw. pose proof (revoke_flow random send_ok wait d v st) as Hf.
  destruct (request_desktop_revoke _ _ _ _ _ _) as [[res st2] effects]. cbn.
  destruct (request_desktop_revoke_begin _ _ _ _ _) as [[[[key h]|e] st1] sent1] eqn:Hb.
  - destruct Hf as (Hr & _). rewrite (record_same k _ _ Hr), Hw. apply record_same. by eapply request_revoke_begin_registry.
  - destruct Hf as [_ Hr]. by apply record_same.
Qed.

Lemma device_revoke_kept k d v headers random send_ok wait st : k <> d ->
  (forall h s, desktop_record k (wait h s).2 = desktop_record k s) ->
  desktop_record k (device_revoke_http sha256 to_str d v headers random send_ok wait st).1.2 = desktop_record k st.
Proof using Type*.
  clear -Hlaws HQ. intros Hk Hw. unfold device_revoke_http. destruct (bearer to_str headers); [|done]. destruct (negb _); [done|].
  pose proof (request_revoke_kept k random send_ok wait d v st Hw) as Hr.
  destruct (request_desktop_revoke _ _ _ _ _ _) as [[[u|e] st1] effects]; [|exact Hr]. cbn in Hr. rewrite <- Hr.
  pose proof (finalize_kept k d v st1 Hk) as Hf. by destruct (finalize_device_revoke d v st1) as [[[?|?] st2] effects2].
Qed.

(** The handlers that do not change the registry. *)
Lemma desktop_ws_same d headers st : registry (desktop_ws sha256 to_str d headers st).2 = registry st.
Proof using Type. clear. unfold desktop_ws. by repeat case_match. Qed.
Lemma device_ws_same d v headers st : registry (device_ws sha256 to_str d v headers st).2 = registry st.
Proof using Type. clear. unfold device_ws. by repeat case_match. Qed.
Lemma pairing_ws_same d p headers now st : registry (pairing_ws sha256 to_str d p headers now st).2 = registry st.
Proof using Type. clear. unfold pairing_ws. by repeat case_match. Qed.
Lemma device_snapshot_same d v headers now time st : registry (device_snapshot_http sha256 to_str d v headers now time st).2 = registry st.
Proof using Type.
  clear. unfold device_snapshot_http. pose proof (latest_snapshot_registry now d v st) as Hl.
  destruct (bearer _ _); [|done]. destruct (negb _); [done|]. by destruct (latest_snapshot _ _ _ _).
Qed.
Lemma desktop_snapshot_same d v headers snap now st : registry (desktop_snapshot_http sha256 to_str d v headers snap now st).1.2 = registry st.
Proof using Type.
  clear. unfold desktop_snapshot_http, cache_and_route_snapshot, obtain_sender, fresh_handle. by repeat case_match; simplify_eq/=.
Qed.
Lemma open_pairing_same d p headers payload now st : registry (open_pairing_route sha256 to_str d p headers payload now st).2 = registry st.
Proof using Type. clear. unfold open_pairing_route. by repeat case_match. Qed.
Lemma delete_pairing_same d p headers st : registry (delete_pairing_route sha256 to_str d p headers st).2 = registry st.
Proof using Type. clear. unfold delete_pairing_route. by repeat case_match. Qed.

Lemma public_same method path uri headers body random queue_ok st :
  registry (public_request_begin to_str base64_encode parse_usize to_bytes method path uri headers body random queue_ok st).1.2 = registry st.
Proof using Type. clear. unfold public_request_begin, revoke_own_desktop, fresh_handle. by repeat case_match; simplify_eq/=. Qed.

(** Nothing of the registry changes. *)
Lemma others_same e rq env st a st' sent : serve e rq env st = (a, st', sent) ->
  match e with
  | RegisterDesktop | RevokeSelf _ _ | AuthorizeDevice _ _ | RevokeDevice _ _ => False
  | _ => True
  end -> registry st' = registry st.
Proof using Type.
  clear. unfold RelayRouter.serve, with_params, with_json, with_socket, answered, answered_sending. destruct e; try done; intros Hs _;
    step_extractors Hs; try (by injection Hs as _ <- _); try (injection Hs as <- <- <-;
      first [apply desktop_ws_same|apply device_ws_same|apply pairing_ws_same|apply device_snapshot_same|apply desktop_snapshot_same
            |apply open_pairing_same|apply delete_pairing_same]).
  - by destruct (websocket _ _ _ _ _); injection Hs as _ <- _.
  - pose proof (public_same (rq_method rq) (rq_path rq) (rq_uri rq) (rq_headers rq) (rq_body rq) (we_random env) (we_queue_ok env) st) as Hp.
    destruct (public_request_begin _ _ _ _ _ _ _ _ _ _ _ _) as [[progress st1] sent1]. by injection Hs as _ <- _.
Qed.

Lemma serve_kept e rq env st a st' sent k : serve e rq env st = (a, st', sent) -> endpoint_desktop e rq <> Some k ->
  (forall h s, desktop_record k (we_wait env h s).2 = desktop_record k s) -> desktop_record k st' = desktop_record k st.
Proof using Type*.
  intros Hs Hk Hw. destruct e; try (by eapply record_same, others_same; [exact Hs|done]);
    revert Hs; unfold RelayRouter.serve, with_params, with_json, answered, answered_sending; unfold endpoint_desktop in Hk; intros Hs.
  - destruct (negb _); [by injection Hs as _ <- _|]. destruct (to_bytes _ _) as [body|]; [|by injection Hs as _ <- _].
    cbn [mbind option_bind] in Hk. destruct (read_register body) as [payload|]; [|by injection Hs as _ <- _].
    pose proof (register_kept k (rq_headers rq) payload (we_register env) st ltac:(intros ->; by apply Hk)) as Hr.
    destruct (register_desktop _ _ _ _ _ _ _ _) as [[r st1] sent1]. by injection Hs as _ <- _.
  - step_extractors Hs; try (by injection Hs as _ <- _). injection Hs as _ <- _. apply device_revoke_kept; [congruence|exact Hw].
  - step_extractors Hs; try (by injection Hs as _ <- _). injection Hs as _ <- _. apply authorize_kept. congruence.
  - step_extractors Hs; try (by injection Hs as _ <- _). injection Hs as _ <- _. apply revoke_kept. congruence.
Qed.

(** C4. Every request over HTTP: without the credential of the desktop, phone or pairing it
    names (or, for a registration, of the Relay), it is turned away, nothing is sent to
    anybody and nothing changes, except that a pairing route that has expired may be
    forgotten; and whatever it carries, no record of a desktop changes but that of the desktop
    it names, as long as other tasks change none while it waits. *)
Theorem requests_need_credentials rq env st a st' sent : request rq env st = (a, st', sent) ->
  (has_credential rq env st = false -> sent = [] /\ turned_away a /\ unmoved (we_now env) st st')
  /\ forall k, request_desktop rq <> Some k -> (forall h s, desktop_record k (we_wait env h s).2 = desktop_record k s) ->
       desktop_record k st' = desktop_record k st.
Proof using Type*.
  unfold relay_request, has_credential, request_desktop, request_endpoint. intros Hreq.
  destruct (resource_of (rq_path rq)) as [r|]; cbn [mbind option_bind];
    [|injection Hreq as <- <- <-; split; [intros _; split_and!; [done|by left|by left]|done]].
  destruct (route_endpoint (rq_method rq) r) as [e|]; cbn [mbind option_bind];
    [|injection Hreq as <- <- <-; split; [intros _; split_and!; [done|by right|by left]|done]].
  split; [by apply unauthorized_serve|]. intros k Hk Hw. by eapply serve_kept.
Qed.
End RouterProps.

(** ** Witnesses *)

Definition sample_web_env : @WebEnv (Registry * list bool) (nat * list Reply) :=
  {| we_now := 5; we_server_time := 5; we_register := sample_env 5; we_random := None; we_send_ok := fun _ => true;
     we_queue_ok := fun _ => true; we_wait := fun _ st => (None, st) |}.
Definition sample_web (token : string) : WebRequest :=
  {| rq_method := "DELETE"; rq_path := "/v1/desktops/d_a/devices/dev"; rq_uri := "/v1/desktops/d_a/devices/dev";
     rq_headers := sample_headers token; rq_body := [] |}.
Definition sample_relay (rq : WebRequest) : Answer * Sample * list Sent :=
  relay_request sample_sha Some sample_hmac sample_invite_json (fun _ => true) Some (fun _ => None) (fun _ => None) (fun _ => None)
    (fun _ => true) (fun _ => None) (fun _ => None) (fun _ => None) (fun _ => None) (fun _ => "") (fun _ => None) (fun _ _ => None)
    rq sample_web_env (sample_state []).

(** The phone is revoked with the token of its desktop, and not with another. *)
Lemma requests_need_credentials_witness :
  device_exists "d_a" "dev" (sample_relay (sample_web "desk")).1.2 = false
  /\ (sample_relay (sample_web "wrong")).2 = [] /\ turned_away (sample_relay (sample_web "wrong")).1.1
  /\ device_exists "d_a" "dev" (sample_state []) = true.
Proof.
  split; [vm_compute; reflexivity|].
  destruct (requests_need_credentials sample_sha Some sample_hmac sample_invite_json (fun _ => true) Some (fun _ => None) (fun _ => None) (fun _ => None)
    (fun _ => true) (fun _ => None) (fun _ => None) (fun _ => None) (fun _ => None) (fun _ => "") (fun _ => None) (fun _ _ => None)
    (sample_web "wrong") sample_web_env (sample_state []) (sample_relay (sample_web "wrong")).1.1 (sample_relay (sample_web "wrong")).1.2
    (sample_relay (sample_web "wrong")).2) as [Hno _].
  - unfold sample_relay. destruct (relay_request _ _ _ _ _ _ _ _ _ _ _ _ _ _ _ _ _ _ _ _) as [[a s] l]. reflexivity.
  - destruct Hno as (Hs & Ha & _); [vm_compute; reflexivity|]. split; [exact Hs|split; [exact Ha|vm_compute; reflexivity]].
Defined.

(** The table: a path and a method reach one handler. *)
Lemma table_samples :
  map (fun mp => resource_of mp.2 ≫= route_endpoint mp.1)
    [("GET", "/healthz"); ("POST", "/healthz"); ("PUT", "/v1/desktops/d_a/devices/dev"); ("GET", "/v1/desktops/d_a/devices/dev/snapshot");
     ("POST", "/v1/desktops/register"); ("DELETE", "/mcp"); ("GET", "/.well-known/"); ("GET", "/.well-known/a/b"); ("PUT", "/v1/desktops//devices/dev")]
  = [Some GetHealth; None; Some (AuthorizeDevice "d_a" "dev"); Some (GetSnapshot "d_a" "dev"); Some RegisterDesktop; Some Public;
     None; Some Public; None].
Proof. vm_compute. reflexivity. Qed.
