(* ===== verification/RelaySystem.v ===== *)
(** * The relay as a whole

    The request handlers and session tasks of the other files as the steps of one
    transition system over the shared state, and the invariants of every reachable
    state.  A task that awaits an answer is recorded among the [Waiters] between the two
    parts of its handler, and every other step may happen in between. *)

From S2P Require Export RegistryRoutes PairingSession DeviceSession DesktopSession McpRequests.
Local Open Scope string_scope.

(** The tasks in flight: who waits for which entry, by the handle of its oneshot, and how
    many session tasks of each kind hold a permit. *)
Record Waiters := {
  w_controls : gmap Handle ControlRouteKey;
  w_revokes : gmap Handle ControlRouteKey;
  w_pairings : gmap Handle string;
  w_desktop_sessions : nat;
  w_device_sessions : nat;
  w_pairing_sessions : nat }.

Definition set_w_controls f w : Waiters :=
  {| w_controls := f (w_controls w); w_revokes := w_revokes w; w_pairings := w_pairings w;
     w_desktop_sessions := w_desktop_sessions w; w_device_sessions := w_device_sessions w;
     w_pairing_sessions := w_pairing_sessions w |}.
Definition set_w_revokes f w : Waiters :=
  {| w_controls := w_controls w; w_revokes := f (w_revokes w); w_pairings := w_pairings w;
     w_desktop_sessions := w_desktop_sessions w; w_device_sessions := w_device_sessions w;
     w_pairing_sessions := w_pairing_sessions w |}.
Definition set_w_pairings f w : Waiters :=
  {| w_controls := w_controls w; w_revokes := w_revokes w; w_pairings := f (w_pairings w);
     w_desktop_sessions := w_desktop_sessions w; w_device_sessions := w_device_sessions w;
     w_pairing_sessions := w_pairing_sessions w |}.
(** Session tasks that started (first argument) and ended (second), of one kind. *)
Definition set_w_sessions (desktop device pairing : nat) w : Waiters :=
  {| w_controls := w_controls w; w_revokes := w_revokes w; w_pairings := w_pairings w;
     w_desktop_sessions := desktop; w_device_sessions := device; w_pairing_sessions := pairing |}.

Definition no_waiters : Waiters :=
  {| w_controls := ∅; w_revokes := ∅; w_pairings := ∅;
     w_desktop_sessions := 0; w_device_sessions := 0; w_pairing_sessions := 0 |}.

Record System (S Q : Type) := {
  sys_state : AppState S Q;
  sys_waiters : Waiters }.
Arguments sys_state {S Q}.
Arguments sys_waiters {S Q}.

Section System.
Context {S Q : Type} `{RegistryStore S} `{!RegistryStoreLaws S} `{MpscQueue Q}.
Context (sha256 : string -> list byte) (to_str : string -> option string)
        (hmac_verify : string -> string -> list byte -> bool)
        (invite_from_slice : list byte -> option Registration.RegistrationInvite)
        (pairing_from_str : string -> option PairingWsMessage)
        (device_from_str : string -> option DeviceWsMessage)
        (desktop_from_str : string -> option DesktopWsMessage).
Implicit Types (st : AppState S Q) (w : Waiters).

(** A permit taken by an upgrade, if the response is one. *)
Definition upgraded (r : Response) : nat := match body r with Upgrade => 1 | _ => 0 end.

(** The HTTP handlers that run to their end in one step, and the parts of the session
    tasks between two waits. *)
Inductive relay_step : System S Q -> System S Q -> Prop :=
| step_register headers payload env st w :
    relay_step {| sys_state := st; sys_waiters := w |}
      {| sys_state := (register_desktop sha256 to_str hmac_verify invite_from_slice headers payload env st).1.2;
         sys_waiters := w |}
| step_authorize_device d v headers payload now st w :
    relay_step {| sys_state := st; sys_waiters := w |}
      {| sys_state := (authorize_device sha256 to_str d v headers payload now st).2; sys_waiters := w |}
| step_revoke_device d v headers st w :
    relay_step {| sys_state := st; sys_waiters := w |}
      {| sys_state := (revoke_device sha256 to_str d v headers st).2; sys_waiters := w |}
| step_open_route d p headers payload now st w :
    relay_step {| sys_state := st; sys_waiters := w |}
      {| sys_state := (open_pairing_route sha256 to_str d p headers payload now st).2; sys_waiters := w |}
| step_drop_route key st w :
    relay_step {| sys_state := st; sys_waiters := w |}
      {| sys_state := set_pairing_routes (delete key (pairing_routes st)) st; sys_waiters := w |}
| step_pairing_ws d p headers now st w :
    relay_step {| sys_state := st; sys_waiters := w |}
      (let '(r, st') := pairing_ws sha256 to_str d p headers now st in
       {| sys_state := st'; sys_waiters := set_w_sessions (w_desktop_sessions w) (w_device_sessions w)
                                             (upgraded r + w_pairing_sessions w) w |})
| step_pairing_begin incoming now random send_ok d p st w :
    0 < w_pairing_sessions w ->
    relay_step {| sys_state := st; sys_waiters := w |}
      (match pairing_socket_begin pairing_from_str incoming now random send_ok d p st with
       | (PairingOver _, st', _) =>
           {| sys_state := release_pairing_permit st';
              sys_waiters := set_w_sessions (w_desktop_sessions w) (w_device_sessions w)
                               (pred (w_pairing_sessions w)) w |}
       | (PairingAwaits conn h, st', _) =>
           {| sys_state := st'; sys_waiters := set_w_pairings <[h := conn]> w |}
       end)
| step_pairing_end h conn d p answer st w :
    w_pairings w !! h = Some conn -> 0 < w_pairing_sessions w ->
    relay_step {| sys_state := st; sys_waiters := w |}
      {| sys_state := release_pairing_permit (pairing_socket_end d p conn answer st).2;
         sys_waiters := set_w_sessions (w_desktop_sessions w) (w_device_sessions w)
                          (pred (w_pairing_sessions w)) (set_w_pairings (delete h) w) |}
| step_desktop_snapshot d v headers snap now st w :
    relay_step {| sys_state := st; sys_waiters := w |}
      {| sys_state := (desktop_snapshot_http sha256 to_str d v headers snap now st).1.2; sys_waiters := w |}
| step_device_snapshot d v headers now server_time st w :
    relay_step {| sys_state := st; sys_waiters := w |}
      {| sys_state := (device_snapshot_http sha256 to_str d v headers now server_time st).2; sys_waiters := w |}
| step_device_ws d v headers st w :
    relay_step {| sys_state := st; sys_waiters := w |}
      (let '(r, st') := device_ws sha256 to_str d v headers st in
       {| sys_state := st'; sys_waiters := set_w_sessions (w_desktop_sessions w)
                                             (upgraded r + w_device_sessions w) (w_pairing_sessions w) w |})
| step_device_hello incoming random now ttl sent d v st w :
    relay_step {| sys_state := st; sys_waiters := w |}
      {| sys_state := (device_hello device_from_str incoming random now ttl sent d v st).1.2; sys_waiters := w |}
| step_device_lagged now d v st w :
    relay_step {| sys_state := st; sys_waiters := w |}
      {| sys_state := (latest_snapshot now d v st).2; sys_waiters := w |}
| step_device_end st w :
    0 < w_device_sessions w ->
    relay_step {| sys_state := st; sys_waiters := w |}
      {| sys_state := release_device_permit st;
         sys_waiters := set_w_sessions (w_desktop_sessions w) (pred (w_device_sessions w))
                          (w_pairing_sessions w) w |}
| step_control_begin now send_ok d v request st w :
    relay_step {| sys_state := st; sys_waiters := w |}
      (match device_control_begin now send_ok d v request st with
       | (ControlOver _, st', _) => {| sys_state := st'; sys_waiters := w |}
       | (ControlAwaits key h, st', _) =>
           {| sys_state := st'; sys_waiters := set_w_controls <[h := key]> w |}
       end)
| step_control_end h key answer st w :
    w_controls w !! h = Some key ->
    relay_step {| sys_state := st; sys_waiters := w |}
      {| sys_state := (device_control_end key answer st).2; sys_waiters := set_w_controls (delete h) w |}
| step_revoke_begin random send_ok d v st w :
    relay_step {| sys_state := st; sys_waiters := w |}
      (match request_desktop_revoke_begin random send_ok d v st with
       | (Err _, st', _) => {| sys_state := st'; sys_waiters := w |}
       | (Ok (key, h), st', _) =>
           {| sys_state := st'; sys_waiters := set_w_revokes <[h := key]> w |}
       end)
| step_revoke_end h key answer st w :
    w_revokes w !! h = Some key ->
    relay_step {| sys_state := st; sys_waiters := w |}
      {| sys_state := (request_desktop_revoke_end key answer st).2;
         sys_waiters := set_w_revokes (delete h) w |}
(** The HTTP server drops the handler of a request whose client went away: the rest of
    [request_desktop_revoke] does not run. *)
| step_revoke_dropped h key st w :
    w_revokes w !! h = Some key ->
    relay_step {| sys_state := st; sys_waiters := w |}
      {| sys_state := st; sys_waiters := set_w_revokes (delete h) w |}
| step_finalize d v st w :
    relay_step {| sys_state := st; sys_waiters := w |}
      {| sys_state := (finalize_device_revoke d v st).1.2; sys_waiters := w |}
| step_desktop_ws d headers st w :
    relay_step {| sys_state := st; sys_waiters := w |}
      (let '(r, st') := desktop_ws sha256 to_str d headers st in
       {| sys_state := st'; sys_waiters := set_w_sessions (upgraded r + w_desktop_sessions w)
                                             (w_device_sessions w) (w_pairing_sessions w) w |})
| step_desktop_channel st w :
    relay_step {| sys_state := st; sys_waiters := w |}
      {| sys_state := (fresh_handle st).2; sys_waiters := w |}
| step_mark_online d s st w :
    relay_step {| sys_state := st; sys_waiters := w |}
      {| sys_state := mark_online d s st; sys_waiters := w |}
| step_install_route d s caps c st w :
    relay_step {| sys_state := st; sys_waiters := w |}
      {| sys_state := install_route d s caps c st; sys_waiters := w |}
| step_desktop_message now event d st w :
    relay_step {| sys_state := st; sys_waiters := w |}
      {| sys_state := (desktop_iteration desktop_from_str now event d st).1.1.2; sys_waiters := w |}
| step_leave_online d s st w :
    relay_step {| sys_state := st; sys_waiters := w |}
      {| sys_state := (leave_online d s st).2; sys_waiters := w |}
| step_leave_channel d s st w :
    relay_step {| sys_state := st; sys_waiters := w |}
      {| sys_state := leave_channel d s st; sys_waiters := w |}
| step_desktop_end st w :
    0 < w_desktop_sessions w ->
    relay_step {| sys_state := st; sys_waiters := w |}
      {| sys_state := release_desktop_permit st;
         sys_waiters := set_w_sessions (pred (w_desktop_sessions w)) (w_device_sessions w)
                          (w_pairing_sessions w) w |}
| step_gateway g st w :
    relay_step {| sys_state := st; sys_waiters := w |}
      {| sys_state := set_mcp_gateway g st; sys_waiters := w |}.

(** From the start of the process, with the registry that was loaded. *)
Inductive relay_reachable : System S Q -> Prop :=
| relay_start loaded s token mcp st :
    app_load sha256 loaded s token mcp = Ok st -> store_loaded s = Some loaded ->
    relay_reachable {| sys_state := st; sys_waiters := no_waiters |}
| relay_next x y : relay_reachable x -> relay_step x y -> relay_reachable y.
End System.

(** ** The invariant *)

Section SystemProps.
Context {S Q : Type} `{RegistryStore S} `{!RegistryStoreLaws S} `{MpscQueue Q}.
Implicit Types (st : AppState S Q) (w : Waiters).

Record relay_inv st w : Prop := {
  inv_durable : durable st;
  inv_routes : routes_ok (pairing_routes st);
  inv_control_bound : size (control_connections st) <= MAX_PENDING_CONTROLS;
  inv_revoke_bound : size (revoke_connections st) <= MAX_PENDING_REVOKES;
  inv_controls : forall key h, control_connections st !! key = Some h -> w_controls w !! h = Some key;
  inv_pairings : forall conn h, pairing_connections st !! conn = Some h -> w_pairings w !! h = Some conn;
  inv_fresh_controls : forall h key, w_controls w !! h = Some key -> (h < next_handle st)%N;
  inv_fresh_pairings : forall h conn, w_pairings w !! h = Some conn -> (h < next_handle st)%N;
  inv_desktop_permits : desktop_ws_slots st + w_desktop_sessions w = MAX_DESKTOP_WS;
  inv_device_permits : device_ws_slots st + w_device_sessions w = MAX_DEVICE_WS;
  inv_pairing_permits : pairing_ws_slots st + w_pairing_sessions w = MAX_PAIRING_WS }.

(** An action that registers nothing and takes no permit. *)
Record shrinks st st' : Prop := {
  sh_durable : durable st -> durable st';
  sh_routes : pairing_routes st' ⊆ pairing_routes st;
  sh_controls : control_connections st' ⊆ control_connections st;
  sh_revokes : revoke_connections st' ⊆ revoke_connections st;
  sh_pairings : pairing_connections st' ⊆ pairing_connections st;
  sh_next : (next_handle st <= next_handle st')%N;
  sh_desktop_slots : desktop_ws_slots st' = desktop_ws_slots st;
  sh_device_slots : device_ws_slots st' = device_ws_slots st;
  sh_pairing_slots : pairing_ws_slots st' = pairing_ws_slots st }.

Lemma inv_shrinks st st' w : shrinks st st' -> relay_inv st w -> relay_inv st' w.
Proof.
  intros [] []. split; eauto using routes_ok_subseteq, lookup_weaken; try congruence.
  - etrans; [by apply map_subseteq_size|done].
  - etrans; [by apply map_subseteq_size|done].
  - intros h key Hh. eapply N.lt_le_trans; eauto.
  - intros h key Hh. eapply N.lt_le_trans; eauto.
Qed.

Lemma shrinks_refl st : shrinks st st.
Proof. by split. Qed.

Lemma shrinks_trans st1 st2 st3 : shrinks st1 st2 -> shrinks st2 st3 -> shrinks st1 st3.
Proof. intros [] []. split; eauto; try congruence; try (by etrans). Qed.

Lemma eq_subseteq {K V} `{Countable K} (m m' : gmap K V) : m = m' -> m ⊆ m'.
Proof. by intros ->. Qed.

(** A change of fields the invariant does not mention. *)
Ltac shrink := split; cbn; first [done | reflexivity | apply delete_subseteq | lia | idtac].

Lemma shrinks_same_tables st st' :
  same_tables st st' -> (durable st -> durable st') -> shrinks st st'.
Proof.
  intros [] Hd. split; [done|by apply eq_subseteq..|lia|done|done|done].
Qed.

(** *** The handlers *)

Context (sha256 : string -> list byte) (to_str : string -> option string).

Lemma obtain_sender_shrinks d v st : shrinks st (obtain_sender d v st).2.
Proof. unfold obtain_sender. destruct (device_channels st !! _); [apply shrinks_refl|shrink]. Qed.

Lemma latest_snapshot_shrinks now d v st : shrinks st (latest_snapshot now d v st).2.
Proof. unfold latest_snapshot. cbn. case_match; [shrink|apply shrinks_refl]. Qed.

Lemma cache_shrinks now d v snap st : shrinks st (cache_and_route_snapshot now d v snap st).1.2.
Proof.
  unfold cache_and_route_snapshot. repeat (case_match; [apply shrinks_refl|]).
  pose proof (obtain_sender_shrinks d v
    (set_snapshots (<[(d, v) := {| received_at := now; snapshot := snap |}]> (snapshots st)) st)) as Ho.
  destruct (obtain_sender _ _ _) as [c st']. cbn in *.
  eapply shrinks_trans; [|exact Ho]. shrink.
Qed.

Lemma finalize_shrinks d v st : shrinks st (finalize_device_revoke d v st).1.2.
Proof.
  unfold finalize_device_revoke.
  destruct (revoke_device_record _ _ _) as [res st1] eqn:Hr.
  apply revoke_device_record_spec in Hr as (Htab & Hdur & _).
  apply shrinks_same_tables in Htab; [|exact Hdur].
  eapply shrinks_trans; [|eapply shrinks_trans; [exact Htab|]]; [shrink|].
  destruct res; [shrink|apply shrinks_refl].
Qed.

Lemma complete_control_shrinks d v id r st : shrinks st (complete_control d v id r st).1.
Proof. unfold complete_control. case_match; [shrink|apply shrinks_refl]. Qed.

Lemma complete_revoke_shrinks d v id r st : shrinks st (complete_revoke d v id r st).1.
Proof. unfold complete_revoke. case_match; [shrink|apply shrinks_refl]. Qed.

Lemma complete_pairing_shrinks c m st : shrinks st (complete_pairing c m st).1.
Proof. unfold complete_pairing. case_match; [shrink|apply shrinks_refl]. Qed.

Lemma saved_shrinks r s' st :
  store_loaded s' = Some (Ok r) -> shrinks st (set_store s' (put_registry r st)).
Proof. intros Hs. split; cbn; try (done || reflexivity). Qed.

Lemma rolled_shrinks r r' s' st :
  lock (registry st) = Some r -> store_loaded s' = store_loaded (store st) ->
  shrinks st (put_registry r (set_store s' (put_registry r' st))).
Proof.
  intros Hl%lock_Some Hs. split; cbn; try (done || reflexivity).
  unfold durable. cbn. by rewrite Hs, Hl.
Qed.

Lemma authorize_device_shrinks d v headers payload now st :
  shrinks st (authorize_device sha256 to_str d v headers payload now st).2.
Proof.
  unfold authorize_device.
  destruct (bearer _ _); [|apply shrinks_refl]. do 2 (destruct (negb _); [apply shrinks_refl|]).
  destruct (lock (registry st)) as [r|] eqn:Hl; [|apply shrinks_refl].
  destruct (desktops r !! d) as [desk|] eqn:Hd; [|apply shrinks_refl].
  destruct (save_registry _ _) as [[u|e] st1] eqn:Hs; apply save_registry_spec in Hs as (s' & -> & Hs).
  - by apply saved_shrinks.
  - rewrite (registry_rollback d desk _ r Hd). by apply rolled_shrinks.
Qed.

Lemma revoke_device_shrinks d v headers st :
  shrinks st (revoke_device sha256 to_str d v headers st).2.
Proof.
  unfold revoke_device.
  destruct (bearer _ _); [|apply shrinks_refl]. destruct (negb _); [apply shrinks_refl|].
  destruct (lock (registry st)) as [r|] eqn:Hl; [|apply shrinks_refl].
  destruct (desktops r !! d) as [desk|] eqn:Hd; [|apply shrinks_refl].
  destruct (save_registry _ _) as [[u|e] st1] eqn:Hs; apply save_registry_spec in Hs as (s' & -> & Hs).
  - eapply shrinks_trans; [by apply saved_shrinks|]. shrink.
  - rewrite (registry_rollback d desk _ r Hd). by apply rolled_shrinks.
Qed.

Lemma register_shrinks hmac_verify invite_from_slice headers payload env st :
  shrinks st (register_desktop sha256 to_str hmac_verify invite_from_slice headers payload env st).1.2.
Proof.
  pose proof (register_cases sha256 to_str hmac_verify invite_from_slice headers payload env st) as Hc.
  destruct (register_desktop _ _ _ _ _ _ _ _) as [[resp st'] effects].
  destruct Hc as [(_ & _ & Htab & Hr & Hl)|
    (expected & token & invite & tok & r & r' & s' & _ & _ & _ & _ & _ & _ & _ & _ & _ & Hs & ->)].
  - apply shrinks_same_tables; [done|]. unfold durable. cbn. by rewrite Hl, Hr.
  - cbn. eapply shrinks_trans; [by apply saved_shrinks|]. shrink.
Qed.

Lemma desktop_message_shrinks desktop_from_str now event d st :
  shrinks st (desktop_iteration desktop_from_str now event d st).1.1.2.
Proof.
  unfold desktop_iteration.
  destruct event as [[|] sent|[m| |] sent|[[text| | | |]|] sent]; try apply shrinks_refl.
  destruct (desktop_from_str text) as [message|]; [|apply shrinks_refl].
  destruct message as [pv hid av pl caps|t|dev snap|pid cid pay|pid cid m|dev r|dev id m|dev id|dev id m];
    cbn [desktop_message]; try apply shrinks_refl.
  - pose proof (cache_shrinks now d dev snap st) as Hc.
    by destruct (cache_and_route_snapshot _ _ _ _ _) as [[[u|e] st'] effects].
  - pose proof (complete_pairing_shrinks cid (PairResult pid pay) st) as Hc. by destruct (complete_pairing _ _ _).
  - pose proof (complete_pairing_shrinks cid (PairingServerError (chars_take 240 m)) st) as Hc.
    by destruct (complete_pairing _ _ _).
  - pose proof (complete_control_shrinks d dev (ctl_request_id r) (Ok r) st) as Hc.
    by destruct (complete_control _ _ _ _ _).
  - pose proof (complete_control_shrinks d dev id (Err (chars_take 240 m)) st) as Hc.
    by destruct (complete_control _ _ _ _ _).
  - pose proof (complete_revoke_shrinks d dev id (Ok tt) st) as Hc. by destruct (complete_revoke _ _ _ _ _).
  - pose proof (complete_revoke_shrinks d dev id (Err (chars_take 240 m)) st) as Hc.
    by destruct (complete_revoke _ _ _ _ _).
Qed.

Lemma desktop_snapshot_shrinks d v headers snap now st :
  shrinks st (desktop_snapshot_http sha256 to_str d v headers snap now st).1.2.
Proof.
  unfold desktop_snapshot_http. destruct (bearer _ _); [|apply shrinks_refl].
  destruct (negb _); [apply shrinks_refl|]. pose proof (cache_shrinks now d v snap st) as Hc.
  destruct (cache_and_route_snapshot _ _ _ _ _) as [[[u|e] st'] effects]; [done|].
  by destruct (String.eqb _ _).
Qed.

Lemma device_snapshot_shrinks d v headers now server_time st :
  shrinks st (device_snapshot_http sha256 to_str d v headers now server_time st).2.
Proof.
  unfold device_snapshot_http. destruct (bearer _ _); [|apply shrinks_refl].
  destruct (negb _); [apply shrinks_refl|]. pose proof (latest_snapshot_shrinks now d v st) as Hl.
  by destruct (latest_snapshot _ _ _ _).
Qed.

Lemma device_hello_shrinks device_from_str incoming random now ttl sent d v st :
  shrinks st (device_hello device_from_str incoming random now ttl sent d v st).1.2.
Proof.
  unfold device_hello. destruct incoming as [[text| | | |]|]; try apply shrinks_refl.
  destruct (device_from_str text) as [[pv hd hv| | |]|]; try apply shrinks_refl.
  destruct (_ || _); [apply shrinks_refl|]. destruct (random_hex random); [|apply shrinks_refl].
  pose proof (obtain_sender_shrinks d v st) as Ho. destruct (obtain_sender _ _ _) as [c st1].
  destruct (negb sent); [exact Ho|]. pose proof (latest_snapshot_shrinks ttl d v st1) as Hl.
  destruct (latest_snapshot _ _ _ _) as [record st2]. by eapply shrinks_trans.
Qed.

Lemma open_route_inv d p headers payload now st w :
  relay_inv st w -> relay_inv (open_pairing_route sha256 to_str d p headers payload now st).2 w.
Proof.
  intros Hinv. pose proof (open_pairing_route_ok sha256 to_str d p headers payload now st (inv_routes _ _ Hinv)) as Hok.
  unfold open_pairing_route in *. destruct (bearer _ _); [|done].
  destruct (negb _); [done|]. destruct (_ || _); [done|]. destruct (_ || _); [done|].
  destruct Hinv. by destruct (prepare_pairing_route_insert _ _ _) as [[u|e] routes]; split.
Qed.

Lemma pairing_over_shrinks pairing_from_str incoming now random send_ok d p st reply st' effects :
  pairing_socket_begin pairing_from_str incoming now random send_ok d p st = (PairingOver reply, st', effects) ->
  shrinks st st'.
Proof.
  unfold pairing_socket_begin. intros Hb.
  destruct incoming as [[text| | | |]|]; try (injection Hb as _ <- _; apply shrinks_refl).
  destruct (pairing_from_str text) as [[id payload]|]; [|injection Hb as _ <- _; apply shrinks_refl].
  destruct (negb _); [injection Hb as _ <- _; apply shrinks_refl|].
  destruct (negb _); [injection Hb as _ <- _; shrink|].
  destruct (desktop_channels st !! d); [|injection Hb as _ <- _; apply shrinks_refl].
  destruct (random_hex random); [|injection Hb as _ <- _; apply shrinks_refl]. cbn in Hb.
  destruct (negb _); [|done]. injection Hb as _ <- _. shrink.
  rewrite delete_insert_eq. apply delete_subseteq.
Qed.

Lemma control_over_shrinks now send_ok d v request st reply st' effects :
  device_control_begin now send_ok d v request st = (ControlOver reply, st', effects) -> shrinks st st'.
Proof.
  unfold device_control_begin. intros Hb.
  destruct (_ || _); [injection Hb as _ <- _; apply shrinks_refl|].
  destruct (control_rate_limited_state now (d, v) st) as [m Hm].
  destruct (control_rate_limited now (d, v) st) as [limited st1]. cbn in Hm. subst st1.
  destruct limited; [injection Hb as _ <- _; shrink|].
  cbn [fresh_handle desktop_channels control_connections set_control_last_at set_next_handle next_handle] in Hb.
  destruct (desktop_channels st !! d); [|injection Hb as _ <- _; shrink].
  destruct (negb _); [injection Hb as _ <- _; shrink|].
  destruct (_ <=? _)%nat; [injection Hb as _ <- _; shrink|].
  destruct (match control_connections st !! _ with Some _ => _ | None => _ end);
    [injection Hb as _ <- _; shrink|].
  destruct (negb _); [|done]. injection Hb as _ <- _. shrink.
  rewrite delete_insert_eq. apply delete_subseteq.
Qed.

Lemma revoke_begin_inv random send_ok d v st w :
  relay_inv st w -> relay_inv (request_desktop_revoke_begin random send_ok d v st).1.2 w.
Proof.
  intros Hinv. unfold request_desktop_revoke_begin.
  destruct (desktop_channels st !! d); [|done]. destruct (negb _); [done|].
  destruct (random_hex random) as [id|]; [|done].
  cbn [fresh_handle revoke_connections set_next_handle].
  destruct (_ <=? _)%nat eqn:Hcap; [eapply inv_shrinks; [|exact Hinv]; shrink|]. apply Nat.leb_gt in Hcap.
  destruct (negb _); cbn.
  - eapply inv_shrinks; [|exact Hinv]. shrink. rewrite delete_insert_eq. apply delete_subseteq.
  - destruct Hinv. split; cbn; try done.
    + etrans; [apply size_insert_le|done].
    + intros h key Hh. specialize (inv_fresh_controls0 h key Hh). lia.
    + intros h key Hh. specialize (inv_fresh_pairings0 h key Hh). lia.
Qed.

Lemma pairing_awaits_inv st conn w :
  relay_inv st w ->
  relay_inv (set_pairing_connections (<[conn := next_handle st]> (pairing_connections st))
               (set_next_handle (N.succ (next_handle st)) st))
    (set_w_pairings <[next_handle st := conn]> w).
Proof.
  intros []. split; cbn; try done.
  - intros c h. rewrite lookup_insert_Some. intros [[<- <-]|[Hne Hc]]; [by rewrite lookup_insert_eq|].
    apply inv_pairings0 in Hc. rewrite lookup_insert_ne; [done|].
    intros <-. apply inv_fresh_pairings0 in Hc. lia.
  - intros h key Hh. apply inv_fresh_controls0 in Hh. lia.
  - intros h c. rewrite lookup_insert_Some. intros [[<- <-]|[_ Hc]]; [lia|].
    apply inv_fresh_pairings0 in Hc. lia.
Qed.

Lemma control_awaits_inv st key m w :
  size (control_connections st) < MAX_PENDING_CONTROLS -> relay_inv st w ->
  relay_inv (set_control_connections (<[key := next_handle st]> (control_connections st))
               (set_next_handle (N.succ (next_handle st)) (set_control_last_at m st)))
    (set_w_controls <[next_handle st := key]> w).
Proof.
  intros Hsize []. split; cbn; try done.
  - etrans; [apply size_insert_le|done].
  - intros k h. rewrite lookup_insert_Some. intros [[<- <-]|[Hne Hc]]; [by rewrite lookup_insert_eq|].
    apply inv_controls0 in Hc. rewrite lookup_insert_ne; [done|].
    intros <-. apply inv_fresh_controls0 in Hc. lia.
  - intros h c. rewrite lookup_insert_Some. intros [[<- <-]|[_ Hc]]; [lia|].
    apply inv_fresh_controls0 in Hc. lia.
  - intros h k Hh. apply inv_fresh_pairings0 in Hh. lia.
Qed.

(** The end of a wait: the waiter leaves together with its entry, whoever owns that now. *)
Lemma control_end_inv st h key w :
  w_controls w !! h = Some key -> relay_inv st w ->
  relay_inv (set_control_connections (delete key (control_connections st)) st) (set_w_controls (delete h) w).
Proof.
  intros Hw []. split; cbn; try done.
  - etrans; [apply size_delete_le|done].
  - intros k h'. rewrite lookup_delete_Some. intros [Hne Hc]. apply inv_controls0 in Hc.
    rewrite lookup_delete_ne; [done|]. congruence.
  - intros h' k. rewrite lookup_delete_Some. intros [_ Hk]. by eapply inv_fresh_controls0.
Qed.

Lemma pairing_end_inv st h conn routes w :
  w_pairings w !! h = Some conn -> 0 < w_pairing_sessions w -> routes ⊆ pairing_routes st -> relay_inv st w ->
  relay_inv (release_pairing_permit (set_pairing_routes routes
               (set_pairing_connections (delete conn (pairing_connections st)) st)))
    (set_w_sessions (w_desktop_sessions w) (w_device_sessions w) (pred (w_pairing_sessions w))
       (set_w_pairings (delete h) w)).
Proof.
  intros Hw Hpos Hsub []. split; cbn; try done.
  - by eapply routes_ok_subseteq.
  - intros c h'. rewrite lookup_delete_Some. intros [Hne Hc]. apply inv_pairings0 in Hc.
    rewrite lookup_delete_ne; [done|]. congruence.
  - intros h' k. rewrite lookup_delete_Some. intros [_ Hk]. by eapply inv_fresh_pairings0.
  - lia.
Qed.

(** *** Permits *)

Lemma pairing_ws_inv d p headers now st w :
  relay_inv st w ->
  let '(r, st') := pairing_ws sha256 to_str d p headers now st in
  relay_inv st' (set_w_sessions (w_desktop_sessions w) (w_device_sessions w)
                   (upgraded r + w_pairing_sessions w) w).
Proof.
  intros Hinv. unfold pairing_ws.
  destruct (bearer _ _); [|by destruct w]. destruct (pairing_routes st !! _); [|by destruct w].
  destruct (_ <? _)%N.
  { apply (inv_shrinks st); [shrink|by destruct w]. }
  destruct (negb _); [by destruct w|]. destruct (pairing_ws_slots st) as [|n] eqn:Hn; [by destruct w|].
  destruct Hinv. split; cbn; try done. lia.
Qed.

Lemma device_ws_inv d v headers st w :
  relay_inv st w ->
  let '(r, st') := device_ws sha256 to_str d v headers st in
  relay_inv st' (set_w_sessions (w_desktop_sessions w) (upgraded r + w_device_sessions w)
                   (w_pairing_sessions w) w).
Proof.
  intros Hinv. unfold device_ws.
  destruct (bearer _ _); [|by destruct w].
  destruct (negb _); [by destruct w|]. destruct (device_ws_slots st) as [|n] eqn:Hn; [by destruct w|].
  destruct Hinv. split; cbn; try done. lia.
Qed.

Lemma desktop_ws_inv d headers st w :
  relay_inv st w ->
  let '(r, st') := desktop_ws sha256 to_str d headers st in
  relay_inv st' (set_w_sessions (upgraded r + w_desktop_sessions w) (w_device_sessions w)
                   (w_pairing_sessions w) w).
Proof.
  intros Hinv. unfold desktop_ws.
  destruct (bearer _ _); [|by destruct w].
  destruct (negb _); [by destruct w|]. destruct (desktop_ws_slots st) as [|n] eqn:Hn; [by destruct w|].
  destruct Hinv. split; cbn; try done. lia.
Qed.

Lemma revoke_waiters_inv st w f : relay_inv st w -> relay_inv st (set_w_revokes f w).
Proof. intros []. by split. Qed.

Context (hmac_verify : string -> string -> list byte -> bool)
        (invite_from_slice : list byte -> option Registration.RegistrationInvite)
        (pairing_from_str : string -> option PairingWsMessage)
        (device_from_str : string -> option DeviceWsMessage)
        (desktop_from_str : string -> option DesktopWsMessage).

#[local] Abbreviation step := (relay_step sha256 to_str hmac_verify invite_from_slice pairing_from_str
                                 device_from_str desktop_from_str).
#[local] Abbreviation reachable_system := (relay_reachable sha256 to_str hmac_verify invite_from_slice
                                 pairing_from_str device_from_str desktop_from_str).

Lemma step_inv x y :
  step x y -> relay_inv (sys_state x) (sys_waiters x) -> relay_inv (sys_state y) (sys_waiters y).
Proof.
  intros Hstep Hinv. destruct Hstep; cbn [sys_state sys_waiters] in *;
    try (eapply inv_shrinks; [|exact Hinv]; first
      [ apply register_shrinks | apply authorize_device_shrinks | apply revoke_device_shrinks
      | apply desktop_snapshot_shrinks | apply device_snapshot_shrinks | apply device_hello_shrinks
      | apply latest_snapshot_shrinks | apply finalize_shrinks | apply desktop_message_shrinks ]).
  - by apply open_route_inv.
  - eapply inv_shrinks; [|exact Hinv]. shrink.
  - pose proof (pairing_ws_inv d p headers now st w Hinv) as Hp. by destruct (pairing_ws _ _ _ _ _ _ _).
  - destruct (pairing_socket_begin _ _ _ _ _ _ _ _) as [[[reply|conn h] st'] effects] eqn:Hb.
    + apply pairing_over_shrinks in Hb. pose proof (inv_shrinks _ _ _ Hb Hinv) as [].
      split; cbn; try done. lia.
    + apply pairing_socket_begin_awaits in Hb as (text & payload & route & pr & _ & _ & _ & _ & _ & _ & -> & ->).
      by apply pairing_awaits_inv.
  - unfold pairing_socket_end. destruct answer as [[id pl|m]|]; cbn [snd];
      first [apply (pairing_end_inv _ _ _ (delete (d, p) (pairing_routes st)) _ H1); try done; apply delete_subseteq
            |apply (pairing_end_inv _ _ _ (pairing_routes st) _ H1); try done].
  - pose proof (device_ws_inv d v headers st w Hinv) as Hp. by destruct (device_ws _ _ _ _ _ _).
  - destruct Hinv. split; cbn; try done. lia.
  - destruct (device_control_begin _ _ _ _ _ _) as [[[reply|key h] st'] effects] eqn:Hb.
    + apply control_over_shrinks in Hb. by eapply inv_shrinks.
    + pose proof (device_control_begin_cases now send_ok d v request st) as Hc. rewrite Hb in Hc.
      destruct Hc as (-> & -> & route & m & Hadm & _ & ->). apply control_awaits_inv; [apply Hadm|done].
  - by apply control_end_inv.
  - pose proof (revoke_begin_inv random send_ok d v st w Hinv) as Hr.
    destruct (request_desktop_revoke_begin _ _ _ _ _) as [[[[key h]|e] st'] effects]; [|done].
    by apply revoke_waiters_inv.
  - apply revoke_waiters_inv. eapply inv_shrinks; [|exact Hinv].
    unfold request_desktop_revoke_end. destruct answer; shrink.
  - by apply revoke_waiters_inv.
  - pose proof (desktop_ws_inv d headers st w Hinv) as Hp. by destruct (desktop_ws _ _ _ _ _).
  - eapply inv_shrinks; [|exact Hinv]. shrink.
  - eapply inv_shrinks; [|exact Hinv]. shrink.
  - eapply inv_shrinks; [|exact Hinv]. shrink.
  - eapply inv_shrinks; [|exact Hinv]. unfold leave_online. repeat case_match; (apply shrinks_refl || shrink).
  - eapply inv_shrinks; [|exact Hinv]. unfold leave_channel. repeat case_match; (apply shrinks_refl || shrink).
  - destruct Hinv. split; cbn; try done. lia.
  - eapply inv_shrinks; [|exact Hinv]. shrink.
Qed.

Lemma reachable_relay_inv x : reachable_system x -> relay_inv (sys_state x) (sys_waiters x).
Proof.
  induction 1 as [loaded s token mcp st Hload Hs|x y _ IH Hstep]; [|by eapply step_inv].
  unfold app_load in Hload. destruct loaded as [r|e]; [|done]. injection Hload as <-.
  split; cbn; try done; try apply routes_ok_empty; try (rewrite map_size_empty; unfold MAX_PENDING_CONTROLS, MAX_PENDING_REVOKES; lia).
Qed.

(** C3. In every reachable state of the relay, under any interleaving of the handlers, the
    registry in memory is the one a restart would load: no failed save, rollback or
    concurrent handler leaves the two apart. *)
Theorem registry_always_durable x (Hreach : reachable_system x) : durable (sys_state x).
Proof. by apply reachable_relay_inv in Hreach as []. Qed.


(** No control or pairing entry leaks: in every reachable state, each pending entry
    belongs to a task that is still waiting for exactly that answer, and two entries never
    share a waiter; so when no task waits, both tables are empty. *)
Theorem pending_entries_have_waiters x
    (Hreach : relay_reachable sha256 to_str hmac_verify invite_from_slice pairing_from_str
       device_from_str desktop_from_str x) :
  let st := sys_state x in let w := sys_waiters x in
  (forall key h, control_connections st !! key = Some h -> w_controls w !! h = Some key)
  /\ (forall conn h, pairing_connections st !! conn = Some h -> w_pairings w !! h = Some conn)
  /\ (w_controls w = ∅ -> control_connections st = ∅)
  /\ (w_pairings w = ∅ -> pairing_connections st = ∅).
Proof.
  apply reachable_relay_inv in Hreach as []. split_and!; [done|done|..]; intros Hw; apply map_empty;
    intros k; apply eq_None_not_Some; intros [h Hh].
  - apply inv_controls0 in Hh. rewrite Hw in Hh. by rewrite lookup_empty in Hh.
  - apply inv_pairings0 in Hh. rewrite Hw in Hh. by rewrite lookup_empty in Hh.
Qed.
End SystemProps.

(** ** A concrete run, and the entry a dropped request leaves *)

#[local] Abbreviation sample_reachable :=
  (relay_reachable sample_sha Some sample_hmac sample_invite_json (fun _ => None) (fun _ => None) (fun _ => None)).

Definition sample_start : System (Registry * list bool) (nat * list Reply) :=
  {| sys_state := sample_state []; sys_waiters := no_waiters |}.

Lemma sample_start_reachable : sample_reachable sample_start.
Proof. by apply (relay_start _ _ _ _ _ _ _ (Ok sample_registry) (sample_registry, []) (Some "boot") None). Qed.

(** The desktop's route, then a device's revocation that waits for it. *)
Definition sample_routed : Sample := install_route "d_a" "s_1" device_capabilities 70%N (sample_state []).
Definition sample_revoking :=
  request_desktop_revoke_begin (Some (repeat x41 16)) (fun _ => true) "d_a" "dev" sample_routed.

Lemma sample_revoking_reachable key h st effects :
  sample_revoking = (Ok (key, h), st, effects) ->
  sample_reachable {| sys_state := st; sys_waiters := set_w_revokes <[h := key]> no_waiters |}.
Proof.
  intros Hr. eapply relay_next.
  - eapply relay_next; [exact sample_start_reachable|].
    apply (step_install_route _ _ _ _ _ _ _ "d_a" "s_1" device_capabilities 70%N).
  - pose proof (step_revoke_begin sample_sha Some sample_hmac sample_invite_json (fun _ => None)
      (fun _ => None) (fun _ => None) (Some (repeat x41 16)) (fun _ => true) "d_a" "dev" sample_routed no_waiters) as Hs.
    fold sample_revoking in Hs. by rewrite Hr in Hs.
Qed.

(** A revocation over HTTP whose client goes away while the desktop is asked leaves its
    entry in the table with nobody to remove it: the table bounds the number of such
    entries, and when it is full every later revocation is refused. *)
Lemma dropped_revoke_leaks_entry :
  exists x, sample_reachable x /\ w_revokes (sys_waiters x) = ∅
    /\ size (revoke_connections (sys_state x)) = 1.
Proof.
  destruct sample_revoking as [[[[key h]|e] st] effects] eqn:Hr; [|by vm_compute in Hr].
  eexists. split; [|split].
  - eapply relay_next; [by apply (sample_revoking_reachable key h st effects)|].
    apply (step_revoke_dropped _ _ _ _ _ _ _ h key). cbn. by rewrite lookup_insert_eq.
  - cbn. rewrite delete_insert_id; done.
  - cbn. apply (f_equal (fun x => size (revoke_connections x.1.2))) in Hr. cbn [fst snd] in Hr.
    rewrite <- Hr. vm_compute. reflexivity.
Qed.

(** *** Witnesses

    A device's control request that waits for its desktop. *)
Definition sample_request : EncryptedControlPayload :=
  {| ctl_request_id := "c_" ++ hex_of_bytes (repeat x41 16); ctl_issued_at := 1000; ctl_expires_at := 2000;
     ctl_nonce := "n"; ctl_ciphertext := "c" |}.

Definition sample_waiting : System (Registry * list bool) (nat * list Reply) :=
  match device_control_begin 1500 (fun _ => true) "d_a" "dev" sample_request sample_routed with
  | (ControlAwaits key h, st, _) =>
      {| sys_state := st; sys_waiters := set_w_controls <[h := key]> no_waiters |}
  | _ => sample_start
  end.

Lemma sample_waiting_reachable : sample_reachable sample_waiting.
Proof.
  pose proof (step_control_begin sample_sha Some sample_hmac sample_invite_json (fun _ => None)
    (fun _ => None) (fun _ => None) 1500 (fun _ => true) "d_a" "dev" sample_request sample_routed no_waiters) as Hs.
  unfold sample_waiting.
  destruct (device_control_begin _ _ _ _ _ _) as [[[reply|key h] st] effects]; [exact sample_start_reachable|].
  eapply relay_next; [|exact Hs]. eapply relay_next; [exact sample_start_reachable|].
  apply (step_install_route _ _ _ _ _ _ _ "d_a" "s_1" device_capabilities 70%N).
Qed.

Lemma registry_always_durable_witness :
  size (control_connections (sys_state sample_waiting)) = 1 /\ durable (sys_state sample_waiting).
Proof.
  split; [vm_compute; reflexivity|].
  exact (registry_always_durable sample_sha Some sample_hmac sample_invite_json (fun _ => None)
    (fun _ => None) (fun _ => None) sample_waiting sample_waiting_reachable).
Defined.


Lemma pending_entries_have_waiters_witness :
  size (control_connections (sys_state sample_waiting)) = 1
  /\ forall key h, control_connections (sys_state sample_waiting) !! key = Some h ->
       w_controls (sys_waiters sample_waiting) !! h = Some key.
Proof.
  split; [vm_compute; reflexivity|].
  exact (proj1 (pending_entries_have_waiters sample_sha Some sample_hmac sample_invite_json (fun _ => None)
    (fun _ => None) (fun _ => None) sample_waiting sample_waiting_reachable)).
Defined.
