(* ===== verification/Intent.v ===== *)
(** * Durable stop markers ([src-tauri/src/connection_intent.rs])

    One file per transport whose presence means the user stopped it; a transport may be
    restored at start-up only without its marker. *)

From S2P Require Export Files.
Local Open Scope string_scope.

Inductive Transport := Tunnel | HttpsMcp.

#[export] Instance Transport_eq_dec : EqDecision Transport.
Proof. solve_decision. Defined.

(** [Transport::name] *)
Definition transport_name (t : Transport) : string :=
  match t with Tunnel => "tunnel" | HttpsMcp => "https-mcp" end.

Definition marker_text : string := "manually-stopped-v1" ++ String "010" "".

Definition write_marker (path : Path) : Fs (Result unit IoError) :=
  _ <-fs? match parent path with Some dir => create_dir_all dir | None => fs_ret (Ok tt) end ;;
  _ <-fs? open_truncate path ;;
  _ <-fs? write_all path marker_text ;;
  sync_all path.

Definition clear_marker (path : Path) : Fs (Result unit IoError) :=
  removed <-fs remove_file path ;;
  fs_ret (match removed with
          | Ok _ => Ok tt
          | Err NotFound => Ok tt
          | Err error => Err error
          end).

Definition has_marker (path : Path) : Fs (Result bool IoError) :=
  metadata <-fs stat_file path ;;
  fs_ret (match metadata with
          | Ok _ => Ok true
          | Err NotFound => Ok false
          | Err error => Err error
          end).

Section Intent.
(** [app_local_data_dir] (or the macOS home), resolved by the windowing library. *)
Context (local_data_dir : Result string string).

(** [state_dir] of [main.rs] *)
Definition state_dir : Fs (Result string string) :=
  match local_data_dir with
  | Err e => fs_ret (Err ("无法定位 ChatX 数据目录：" ++ e))
  | Ok base =>
      let dir := base ++ "/state" in
      created <-fs create_dir_all dir ;;
      fs_ret (match created with
              | Ok _ => Ok dir
              | Err e => Err ("无法创建 ChatX 数据目录：" ++ io_display e)
              end)
  end.

Definition marker_in (dir : string) (t : Transport) : Path :=
  {| parent := Some dir; file_name := "manually-stopped-" ++ transport_name t ++ ".flag" |}.

Definition marker_path (t : Transport) : Fs (Result Path string) :=
  dir <-fs? state_dir ;; fs_ret (Ok (marker_in dir t)).

Definition mark_stopped (mode : Transport) : Fs (Result unit string) :=
  path <-fs? marker_path mode ;;
  fs_map_err (fun e => "记录 " ++ transport_name mode ++ " 手动停止意图失败：" ++ io_display e)
    (write_marker path).

Definition clear_stopped (mode : Transport) : Fs (Result unit string) :=
  path <-fs? marker_path mode ;;
  fs_map_err (fun e => "清除 " ++ transport_name mode ++ " 停止标记失败：" ++ io_display e)
    (clear_marker path).

Definition restore_allowed (mode : Transport) : Fs (Result bool string) :=
  path <-fs? marker_path mode ;;
  stopped <-fs? fs_map_err (fun e => "无法检查 " ++ transport_name mode ++ " 停止标记：" ++ io_display e)
                  (has_marker path) ;;
  fs_ret (Ok (negb stopped)).
End Intent.

(** ** Properties *)

Section IntentProps.
Context (base : string).

#[local] Abbreviation dir := (base ++ "/state").
#[local] Abbreviation marker := (marker_in dir).

(** The marker of a transport is on disk. *)
Definition stopped (t : Transport) (fs : gmap Path string) : Prop := is_Some (fs !! marker t).

Lemma marker_in_inj d t t' : marker_in d t = marker_in d t' -> t = t'.
Proof. by destruct t, t'. Qed.

Lemma state_dir_inv w res w' :
  state_dir (Ok base) w = (res, w') ->
  files w' = files w /\ io_fault w' = io_fault w /\ torn_write w' = torn_write w
  /\ (forall d, res = Some (Ok d) -> d = dir).
Proof.
  intros [[H ->]|(r & w1 & H & Hk)]%fs_bind_inv; apply create_dir_all_files in H as (Hf & Hi & Ht); [done|].
  injection Hk as <- <-. destruct r; naive_solver.
Qed.

Lemma state_dir_ok w r w' : state_dir (Ok base) w = (Some r, w') -> io_fault w (CreateDirAll dir) = None ->
  r = Ok dir /\ files w' = files w /\ io_fault w' = io_fault w.
Proof.
  intros [[_ ?]|(c & w1 & H & Hk)]%fs_bind_inv Hf; [done|]. apply fs_op_fine in H as [H Hi]; [|done].
  injection H as <- Hw. by injection Hk as <- <-.
Qed.

Lemma marker_path_inv mode w res w' :
  marker_path (Ok base) mode w = (res, w') ->
  files w' = files w /\ io_fault w' = io_fault w /\ torn_write w' = torn_write w
  /\ (forall p, res = Some (Ok p) -> p = marker mode).
Proof.
  intros [[H ->]|[(e & H & ->)|(d & w1 & H & Hk)]]%fs_try_inv;
    apply state_dir_inv in H as (Hf & Hi & Ht & Hd); [naive_solver..|].
  injection Hk as <- <-. split_and!; try done. intros p [= <-]. by rewrite (Hd d eq_refl).
Qed.

Lemma write_marker_inv p w res w' :
  write_marker p w = (res, w') ->
  only_at p w w' /\ (is_Some (files w !! p) -> is_Some (files w' !! p))
  /\ (res = Some (Ok tt) -> files w' !! p = Some marker_text).
Proof.
  intros [[H ->]|[(e & H & ->)|(u & w1 & H & Hk)]]%fs_try_inv.
  1-2: assert (files w' = files w /\ io_fault w' = io_fault w /\ torn_write w' = torn_write w) as (Hf & Hi & Ht)
    by (destruct (parent p); [by apply create_dir_all_files in H|by injection H]);
    unfold only_at; split_and!; try done; by rewrite Hf.
  assert (files w1 = files w /\ io_fault w1 = io_fault w /\ torn_write w1 = torn_write w) as (Hf & Hi & Ht)
    by (destruct (parent p); [by apply create_dir_all_files in H|by injection H as _ <-]).
  assert (only_at p w w1) as Ho1 by (unfold only_at; split_and!; [done..|by rewrite Hf]).
  rewrite <- Hf. clear H Hf Hi Ht.
  apply fs_try_inv in Hk as [[H ->]|[(e & H & ->)|(u2 & w2 & H & Hk)]].
  1-2: apply open_truncate_inv in H as (Ho & Hor & _); split_and!; [by eapply only_at_trans| |done];
    destruct Hor as [->| ->]; [done|by rewrite lookup_insert_eq].
  destruct u2. apply open_truncate_inv in H as (Ho2 & _ & Hf2). specialize (Hf2 eq_refl).
  assert (is_Some (files w2 !! p)) as Hs by (rewrite Hf2, lookup_insert_eq; by eexists).
  apply fs_try_inv in Hk as [[H ->]|[(e & H & ->)|(u3 & w3 & H & Hk)]].
  1-2: apply write_all_inv in H as (Ho & Hin & _); split_and!; [|by auto|done];
    eapply only_at_trans; [exact Ho1|]; by eapply only_at_trans.
  destruct u3. apply write_all_inv in H as (Ho3 & _ & Hw). specialize (Hw eq_refl).
  apply sync_all_inv in Hk as [Hf4 Ho4]. rewrite Hf4, Hw. split_and!; [|by eexists|done].
  do 2 (eapply only_at_trans; [eassumption|]). by eapply only_at_trans.
Qed.

(** What recording a stop does: the transport's marker is there afterwards if it was, and
    is there when success is reported; nothing else changes. *)
Lemma mark_stopped_inv mode w res w' :
  mark_stopped (Ok base) mode w = (res, w') ->
  only_at (marker mode) w w'
  /\ (stopped mode (files w) -> stopped mode (files w'))
  /\ (res = Some (Ok tt) -> stopped mode (files w')).
Proof.
  intros [[H ->]|[(e & H & ->)|(p & w1 & H & Hk)]]%fs_try_inv;
    apply marker_path_inv in H as (Hf & Hi & Ht & Hp).
  1-2: unfold only_at, stopped; rewrite Hf; naive_solver.
  specialize (Hp p eq_refl) as ->.
  apply fs_map_err_inv in Hk as (res0 & Hw & ->). apply write_marker_inv in Hw as (Ho & Hin & Hok).
  assert (only_at (marker mode) w w1) as Ho1 by (unfold only_at; split_and!; [done..|by rewrite Hf]).
  unfold stopped. rewrite <- Hf. split_and!; [by eapply only_at_trans|done|].
  intros Hres. destruct res0 as [[[]|e]|]; [|done..]. rewrite Hok; [by eexists|done].
Qed.
Lemma marker_ne t t' : t <> t' -> marker t <> marker t'.
Proof. intros Hne H. by apply marker_in_inj in H. Qed.

(** What [restore_allowed] answers when the program starts again on these files. *)
Definition restart_allowed (t : Transport) (fs : gmap Path string) : option (Result bool string) :=
  (restore_allowed (Ok base) t (healthy fs)).1.

Lemma restart_allowed_spec t fs :
  restart_allowed t fs = Some (Ok (match fs !! marker t with Some _ => false | None => true end)).
Proof.
  unfold restart_allowed, restore_allowed, marker_path, state_dir, fs_try, fs_map_err, fs_bind, has_marker,
    create_dir_all, stat_file, fs_op, healthy. cbn.
  by destruct (fs !! marker t).
Qed.

(** Recording a stop is durable: once it reports success, a restart refuses to restore
    that transport, wherever the process dies afterwards; a failed or interrupted attempt
    never undoes an earlier stop; and the other transport's intent is never touched. *)
Theorem stop_intent_durable mode w res w'
    (Hmark : mark_stopped (Ok base) mode w = (res, w')) :
  (res = Some (Ok tt) -> restart_allowed mode (files w') = Some (Ok false))
  /\ (restart_allowed mode (files w) = Some (Ok false) ->
      restart_allowed mode (files w') = Some (Ok false))
  /\ forall t, t <> mode -> restart_allowed t (files w') = restart_allowed t (files w).
Proof.
  apply mark_stopped_inv in Hmark as ((_ & _ & Hother) & Hin & Hok).
  rewrite !restart_allowed_spec. unfold stopped in *. split_and!.
  - intros Hres. by destruct (Hok Hres) as [x ->].
  - destruct (files w !! marker mode) as [x|]; [|done]. intros _.
    by destruct (Hin ltac:(by eexists)) as [y ->].
  - intros t Ht. rewrite !restart_allowed_spec, Hother; [done|]. by apply marker_ne.
Qed.

(** What clearing a stop does: on success the marker is gone, otherwise it is as it was. *)
Lemma clear_stopped_inv mode w res w' :
  clear_stopped (Ok base) mode w = (res, w') -> io_fault w (RemoveFile (marker mode)) <> Some NotFound ->
  only_at (marker mode) w w'
  /\ if decide (res = Some (Ok tt)) then files w' !! marker mode = None else files w' = files w.
Proof.
  intros [[H ->]|[(e & H & ->)|(p & w1 & H & Hk)]]%fs_try_inv Hhonest;
    apply marker_path_inv in H as (Hf & Hi & Ht & Hp); [unfold only_at; rewrite Hf; by split_and!..|].
  specialize (Hp p eq_refl) as ->. unfold only_at. rewrite <- Hf, <- Hi, <- Ht. rewrite <- Hi in Hhonest. clear Hf Hi Ht.
  apply fs_map_err_inv in Hk as (res0 & Hc & ->). unfold clear_marker, fs_bind in Hc.
  unfold remove_file, fs_op in Hc.
  destruct (ops_left w1) as [[|n]|]; [injection Hc as <- <-; by split_and!|..];
    (destruct (io_fault w1 _) as [[|m]|]; [done|injection Hc as <- <-; by split_and!|]);
    destruct (files w1 !! marker mode) as [text|] eqn:Hm; injection Hc as <- <-; cbn;
    rewrite ?lookup_delete_eq, ?Hm; split_and!; try done; intros q Hq; by rewrite lookup_delete_ne.
Qed.

(** Only a successful clear re-enables a transport, and it re-enables that one only:
    an attempt that fails or is interrupted leaves every intent as it was.  (A removal that
    fails does not report that the file is missing.) *)
Theorem clear_intent_spec mode w res w'
    (Hhonest : io_fault w (RemoveFile (marker mode)) <> Some NotFound)
    (Hclear : clear_stopped (Ok base) mode w = (res, w')) :
  (forall t, t <> mode -> restart_allowed t (files w') = restart_allowed t (files w))
  /\ if decide (res = Some (Ok tt)) then restart_allowed mode (files w') = Some (Ok true)
     else restart_allowed mode (files w') = restart_allowed mode (files w).
Proof.
  apply clear_stopped_inv in Hclear as ((_ & _ & Ho) & Hres); [|done]. split.
  - intros t Ht. rewrite !restart_allowed_spec, Ho; [done|]. by apply marker_ne.
  - rewrite !restart_allowed_spec. case_decide; by rewrite Hres.
Qed.
End IntentProps.

(** ** Witnesses *)

Definition sample_marker (t : Transport) : Path := marker_in ("/home/u" ++ "/state") t.

(** The disk fills up while the marker is written: the truncated file already stops it. *)
Definition sample_full_disk : World :=
  {| files := {[ sample_marker Tunnel := marker_text ]}; ops_left := Some 4;
     io_fault := fun op => match op with WriteAll _ => Some (OtherIo "no space") | _ => None end;
     torn_write := fun _ => None |}.

Lemma stop_intent_durable_witness :
  let out := mark_stopped (Ok "/home/u") Tunnel sample_full_disk in
  match out.1 with Some r => is_ok r | None => true end = false
  /\ restart_allowed "/home/u" Tunnel (files out.2) = Some (Ok false).
Proof.
  intros out. split; [vm_compute; reflexivity|].
  destruct (mark_stopped (Ok "/home/u") Tunnel sample_full_disk) as [res w'] eqn:Hm.
  apply (proj1 (proj2 (stop_intent_durable "/home/u" Tunnel sample_full_disk res w' Hm))).
  vm_compute. reflexivity.
Defined.

Lemma clear_intent_spec_witness :
  let w := healthy {[ sample_marker HttpsMcp := marker_text; sample_marker Tunnel := marker_text ]} in
  let out := clear_stopped (Ok "/home/u") HttpsMcp w in
  restart_allowed "/home/u" HttpsMcp (files out.2) = Some (Ok true)
  /\ restart_allowed "/home/u" Tunnel (files out.2) = restart_allowed "/home/u" Tunnel (files w).
Proof.
  intros w out. split; [vm_compute; reflexivity|].
  destruct (clear_stopped (Ok "/home/u") HttpsMcp w) as [res w'] eqn:Hc.
  assert (io_fault w (RemoveFile (marker_in ("/home/u" ++ "/state") HttpsMcp)) <> Some NotFound) as Hh by done.
  apply (proj1 (clear_intent_spec "/home/u" HttpsMcp w res w' Hh Hc)). discriminate.
Defined.
