(* ===== verification/TunnelStatus.v ===== *)
(** * Reading the tunnel client's reports ([src-tauri/src/tunnel_status.rs])

    The verdicts drawn from the status report the tunnel client prints and from its log:
    whether the runtime is alive and active, and how the control plane is doing. *)

From S2P Require Export Files Json.
Local Open Scope string_scope.

(** ** The status report *)

Definition u32_max : N := 4294967295.

(** [value.get(key).and_then(Value::as_bool) == Some(b)] *)
Definition bool_is (b : bool) (key : string) (payload : Value) : bool :=
  match get key payload with
  | Some (Bool b') => Bool.eqb b' b
  | _ => false
  end.

(** [payload.get("runtime_state").and_then(Value::as_str).unwrap_or("").to_ascii_lowercase()] *)
Definition runtime_state_text (payload : Value) : string :=
  to_ascii_lowercase (match get "runtime_state" payload with Some (VString s) => s | _ => "" end).

(** The verdict of a status word, an [ok] flag or a report that nests them. *)
Fixpoint health_value_unhealthy (value : Value) : bool :=
  match value with
  | Bool ok => negb ok
  | VString text =>
      one_of ["down"; "error"; "failed"; "failure"; "stale"; "unhealthy"; "disconnected"]
        (to_ascii_lowercase text)
  | Object fields =>
      bool_is false "healthy" value || bool_is false "ready" value || bool_is false "ok" value
      || (fix first (key : string) (fields : list (string * Value)) : bool :=
            match fields with
            | [] => false
            | (k, v) :: rest => if String.eqb k key then health_value_unhealthy v else first key rest
            end) "state" fields
      || (fix first (key : string) (fields : list (string * Value)) : bool :=
            match fields with
            | [] => false
            | (k, v) :: rest => if String.eqb k key then health_value_unhealthy v else first key rest
            end) "status" fields
  | _ => false
  end.

Definition runtime_payload_alive (payload : Value) : bool :=
  if bool_is false "process_running" payload || bool_is false "healthy" payload then false
  else if bool_is true "process_running" payload || bool_is true "healthy" payload then true
  else one_of ["ready"; "running"; "healthy"; "connected"; "live"] (runtime_state_text payload).

(** [payload.pointer("/local/control_plane_poll_health")] and the like *)
Fixpoint pointer (path : list string) (value : Value) : option Value :=
  match path with
  | [] => Some value
  | key :: path => match get key value with Some v => pointer path v | None => None end
  end.

Definition control_plane_health_value (payload : Value) : option Value :=
  match get "control_plane_poll_health" payload with
  | Some v => Some v
  | None => pointer ["local"; "control_plane_poll_health"] payload
  end.

Definition runtime_payload_active (payload : Value) : bool :=
  if bool_is false "process_running" payload then false
  else if match control_plane_health_value payload with
          | Some v => health_value_unhealthy v | None => false end then false
  else
    let ready := match get "ready" payload with Some v => as_bool v | None => None end in
    let healthy := match get "healthy" payload with Some v => as_bool v | None => None end in
    if bool_decide (ready = Some false) || bool_decide (healthy = Some false) then false
    else match ready with
         | Some ready => ready
         | None => if bool_decide (healthy = Some true) then true
                   else one_of ["ready"; "connected"; "live"] (runtime_state_text payload)
         end.

(** ** The control plane *)

Record ControlPlaneObservation := {
  cp_state : string;
  cp_reason : string;
  cp_consecutive_failures : N }.

Definition control_plane_default : ControlPlaneObservation :=
  {| cp_state := "unknown"; cp_reason := ""; cp_consecutive_failures := 0 |}.

Record RuntimeObservation := {
  obs_state : string;
  obs_active : bool;
  obs_runtime_alive : bool;
  obs_payload : option Value;
  obs_error : string;
  obs_control_plane : ControlPlaneObservation;
  obs_proxy_source : string }.

(** A report without a payload, as every branch but the successful one builds it. *)
Definition observation_without_payload (state error : string) : RuntimeObservation :=
  {| obs_state := state; obs_active := false; obs_runtime_alive := false; obs_payload := None;
     obs_error := error; obs_control_plane := control_plane_default; obs_proxy_source := "" |}.

Definition str_or (default : string) (v : option Value) : string :=
  match v with Some (VString s) => s | _ => default end.

Definition control_plane_fallback (payload : Value) : ControlPlaneObservation :=
  match control_plane_health_value payload with
  | Some (VString text) =>
      {| cp_state := to_ascii_lowercase text; cp_reason := ""; cp_consecutive_failures := 0 |}
  | Some (Bool ok) =>
      {| cp_state := if ok then "healthy" else "down"; cp_reason := ""; cp_consecutive_failures := 0 |}
  | Some (Object fields) =>
      let state := match assoc "state" fields with
                   | Some (VString s) => s
                   | _ => str_or "unknown" (assoc "status" fields)
                   end in
      {| cp_state := to_ascii_lowercase state;
         cp_reason := chars_take 300 (str_or "" (assoc "reason" fields));
         cp_consecutive_failures := 0 |}
  | _ => control_plane_default
  end.

Definition event_field (key : string) (event : Value) : string := str_or "" (get key event).

(** The loop of [runtime_control_plane_events] over the lines, the newest first. *)
Fixpoint control_plane_events (parse : string -> option Value) (instance_id : option string)
    (newest_first : list string) : list Value :=
  match newest_first with
  | [] => []
  | line :: lines =>
      match parse line with
      | None => control_plane_events parse instance_id lines
      | Some event =>
          if negb (String.eqb (event_field "component" event) "controlplane")
          then control_plane_events parse instance_id lines
          else
            let current_id := event_field "client_instance_id" event in
            let instance_id :=
              match instance_id with
              | None => if is_empty current_id then None else Some current_id
              | some => some
              end in
            match instance_id with
            | Some expected =>
                if negb (is_empty current_id) && negb (String.eqb current_id expected)
                then control_plane_events parse instance_id lines
                else event :: control_plane_events parse instance_id lines
            | None => event :: control_plane_events parse instance_id lines
            end
      end
  end.

Definition newline : ascii := "010".

(** [str::lines]: a line ends with a newline, or a carriage return and a newline; what follows
    the last newline is a line as it is, if it is not empty. *)
Definition strip_cr (line : string) : string :=
  match rev (list_ascii_of_string line) with
  | "013"%char :: rest => string_of_list_ascii (rev rest)
  | _ => line
  end.
Definition str_lines (text : string) : list string :=
  match rev (split_on newline text) with
  | [] => []
  | last :: terminated => (map strip_cr (rev terminated) ++ if is_empty last then [] else [last])%list
  end.

(** What follows the first newline, if there is one. *)
Fixpoint after_newline (text : string) : option string :=
  match text with
  | EmptyString => None
  | String a rest => if ascii_dec a newline then Some rest else after_newline rest
  end.

(** The three kinds of log message the verdict depends on. *)
Definition failure_messages : list string := ["poll failed; backing off"; "poll timed out; backing off"].
Definition recovery_messages : list string :=
  ["poller recovered; polling operational"; "tunnel metadata fetched"].
Definition start_messages : list string := ["starting control-plane poller"; "poller started"].

Definition u32_saturating_succ (n : N) : N := N.min (n + 1) u32_max.

Definition failure_reason (event : Value) : string :=
  chars_take 300 (str_or (event_field "msg" event) (get "error" event)).

(** What [control_plane_observation_from_events] answers after its loop. *)
Definition control_plane_verdict (fallback : ControlPlaneObservation) (failures : N) (reason : string)
    (saw_start : bool) : ControlPlaneObservation :=
  if (3 <=? failures)%N then {| cp_state := "down"; cp_reason := reason; cp_consecutive_failures := failures |}
  else if (0 <? failures)%N
  then {| cp_state := "suspect"; cp_reason := reason; cp_consecutive_failures := failures |}
  else if saw_start && String.eqb (cp_state fallback) "unknown"
  then {| cp_state := "starting"; cp_reason := cp_reason fallback;
          cp_consecutive_failures := cp_consecutive_failures fallback |}
  else fallback.

Fixpoint scan_events (fallback : ControlPlaneObservation) (failures : N) (reason : string) (saw_start : bool)
    (events : list Value) : ControlPlaneObservation :=
  match events with
  | [] => control_plane_verdict fallback failures reason saw_start
  | event :: events =>
      let message := event_field "msg" event in
      if one_of failure_messages message
      then scan_events fallback (u32_saturating_succ failures)
             (if is_empty reason then failure_reason event else reason) saw_start events
      else if one_of recovery_messages message
      then if (failures =? 0)%N
           then {| cp_state := "healthy"; cp_reason := ""; cp_consecutive_failures := 0 |}
           else control_plane_verdict fallback failures reason saw_start
      else if one_of start_messages message
      then if (failures =? 0)%N then control_plane_verdict fallback failures reason true
           else scan_events fallback failures reason true events
      else scan_events fallback failures reason saw_start events
  end.

Definition control_plane_observation_from_events (fallback : ControlPlaneObservation) (events : list Value)
    : ControlPlaneObservation :=
  scan_events fallback 0 "" false events.

Fixpoint runtime_proxy_source_from_events (events : list Value) : string :=
  match events with
  | [] => ""
  | event :: events =>
      if String.eqb (event_field "msg" event) "control-plane route resolved"
      then str_or "unknown" (get "proxy_source" event)
      else runtime_proxy_source_from_events events
  end.

(** The result of running the tunnel client. *)
Record Output := { success : bool; stdout : string; stderr : string }.

Section Reports.
(** [from_utf8_lossy], the JSON reader, and the contents of the log file the report names. *)
Context (from_utf8_lossy : string -> string) (value_from_str : string -> option Value)
        (log_bytes : string -> option string).

(** [output_text] of [main.rs] *)
Definition output_text (output : Output) : string :=
  let out := trim (from_utf8_lossy (stdout output)) in
  let err := trim (from_utf8_lossy (stderr output)) in
  if is_empty out then err else if is_empty err then out else out ++ String newline err.

(** [parse_json_output] of [main.rs] *)
Definition parse_json_output (output : Output) : option Value := value_from_str (stdout output).

(** [runtime_not_running] of [main.rs] *)
Definition runtime_not_running (text : string) : bool :=
  let text := to_ascii_lowercase text in
  (starts_with "alias " (trim text) && ends_with " is not known; run create or connect first" (trim text))
  || contains "not found" text || contains "no runtime" text || contains "stopped" text.

(** [read_history_tail] of [monitor_status.rs]: the last [max_bytes], from a line start. *)
Definition read_history_tail (path : string) (max_bytes : nat) : string :=
  match log_bytes path with
  | None => ""
  | Some bytes =>
      let start := (String.length bytes - max_bytes)%nat in
      let text := from_utf8_lossy (string_skip start bytes) in
      if (0 <? start)%nat then match after_newline text with Some rest => rest | None => text end else text
  end.

Definition history_bytes : N := 512 * 1024.

Definition runtime_control_plane_events (payload : Value) : list Value :=
  match pointer ["local"; "log"; "path"] payload with
  | Some (VString log_path) =>
      let tail := read_history_tail log_path (N.to_nat history_bytes) in
      if is_empty tail then [] else control_plane_events value_from_str None (rev (str_lines tail))
  | _ => []
  end.

Definition runtime_log_observation (payload : Value) : ControlPlaneObservation * string :=
  let fallback := control_plane_fallback payload in
  let events := runtime_control_plane_events payload in
  (control_plane_observation_from_events fallback events, runtime_proxy_source_from_events events).

(** [runtime_status], given what [run_tunnel] returned for [runtimes status]. *)
Definition runtime_status (output : Result Output string) : RuntimeObservation :=
  match output with
  | Ok output =>
      if success output
      then match parse_json_output output with
           | None =>
               let text := output_text output in
               observation_without_payload "error"
                 (if is_empty text then "Tunnel 状态返回为空或不是有效 JSON。"
                  else "Tunnel 状态返回不是有效 JSON：" ++ text)
           | Some parsed =>
               let '(control_plane, proxy_source) := runtime_log_observation parsed in
               let base_active := runtime_payload_active parsed in
               let active := base_active && negb (one_of ["down"; "suspect"; "starting"] (cp_state control_plane)) in
               {| obs_state := match get "runtime_state" parsed with
                               | Some (VString state) => state
                               | _ => if active then "ready" else "unknown"
                               end;
                  obs_active := active;
                  obs_runtime_alive := runtime_payload_alive parsed;
                  obs_payload := Some parsed;
                  obs_error := "";
                  obs_control_plane := control_plane;
                  obs_proxy_source := proxy_source |}
           end
      else let text := output_text output in
           if runtime_not_running text then observation_without_payload "stopped" ""
           else observation_without_payload "error" text
  | Err error => observation_without_payload "error" error
  end.
End Reports.

(** ** Properties *)

(** The messages that matter, in the order of the scan. *)
Inductive EventKind := Failed (reason : string) | Recovered | Started | Other.

Definition event_kind (event : Value) : EventKind :=
  let message := event_field "msg" event in
  if one_of failure_messages message then Failed (failure_reason event)
  else if one_of recovery_messages message then Recovered
  else if one_of start_messages message then Started
  else Other.

(** The reasons of the failures since the last recovery, the newest first. *)
Fixpoint failures_since_recovery (kinds : list EventKind) : list string :=
  match kinds with
  | [] => []
  | Failed reason :: kinds => reason :: failures_since_recovery kinds
  | Recovered :: _ => []
  | _ :: kinds => failures_since_recovery kinds
  end.

Fixpoint newest_relevant (kinds : list EventKind) : option EventKind :=
  match kinds with
  | [] => None
  | Other :: kinds => newest_relevant kinds
  | kind :: _ => Some kind
  end.

Fixpoint first_non_empty (texts : list string) : string :=
  match texts with
  | [] => ""
  | text :: texts => if is_empty text then first_non_empty texts else text
  end.

(** What the log says about the control plane, without the loop. *)
Definition control_plane_spec (fallback : ControlPlaneObservation) (kinds : list EventKind)
    : ControlPlaneObservation :=
  match newest_relevant kinds with
  | None | Some Other => fallback
  | Some Recovered => {| cp_state := "healthy"; cp_reason := ""; cp_consecutive_failures := 0 |}
  | Some Started =>
      if String.eqb (cp_state fallback) "unknown"
      then {| cp_state := "starting"; cp_reason := cp_reason fallback;
              cp_consecutive_failures := cp_consecutive_failures fallback |}
      else fallback
  | Some (Failed _) =>
      let reasons := failures_since_recovery kinds in
      {| cp_state := if (3 <=? length reasons)%nat then "down" else "suspect";
         cp_reason := first_non_empty reasons;
         cp_consecutive_failures := N.min (N.of_nat (length reasons)) u32_max |}
  end.

(** The loop once a failure was seen. *)
Lemma scan_after_failure fallback events failures reason saw :
  (0 < failures <= u32_max)%N ->
  let reasons := failures_since_recovery (map event_kind events) in
  let total := N.min (failures + N.of_nat (length reasons)) u32_max in
  scan_events fallback failures reason saw events
  = {| cp_state := if (3 <=? total)%N then "down" else "suspect";
       cp_reason := first_non_empty (reason :: reasons); cp_consecutive_failures := total |}.
Proof.
  revert failures reason saw. induction events as [|event events IH]; intros failures reason saw Hf.
  - cbn. rewrite N.add_0_r, (N.min_l failures) by lia. unfold control_plane_verdict.
    replace (0 <? failures)%N with true by (symmetry; apply N.ltb_lt; lia).
    destruct (is_empty reason) eqn:He; [apply String.eqb_eq in He as ->|]; by destruct (3 <=? failures)%N.
  - cbn [map failures_since_recovery scan_events]. unfold event_kind.
    destruct (one_of failure_messages _); [|destruct (one_of recovery_messages _);
      [|destruct (one_of start_messages _)]].
    + rewrite IH by (unfold u32_saturating_succ; unfold u32_max in *; lia). cbn [length].
      assert (forall n : N, N.min (u32_saturating_succ failures + n) u32_max
                      = N.min (failures + N.succ n) u32_max) as E
        by (intros; unfold u32_saturating_succ; lia).
      rewrite Nat2N.inj_succ, E. f_equal. cbn [first_non_empty]. destruct (is_empty reason) eqn:He; [done|by rewrite He].
    + replace (failures =? 0)%N with false by (symmetry; apply N.eqb_neq; lia).
      cbn. rewrite N.add_0_r, (N.min_l failures) by lia. unfold control_plane_verdict.
      replace (0 <? failures)%N with true by (symmetry; apply N.ltb_lt; lia).
      destruct (is_empty reason) eqn:He; [apply String.eqb_eq in He as ->|]; by destruct (3 <=? failures)%N.
    + replace (failures =? 0)%N with false by (symmetry; apply N.eqb_neq; lia). by apply IH.
    + by apply IH.
Qed.

(** The verdict on the control plane drawn from the log, the newest event first, is
    exactly this: [healthy] if the newest relevant event is a recovery; if it is a failure,
    [down] from three failures since the last recovery on and [suspect] below, with their
    (saturating) number and the newest non-empty reason; after a mere start, [starting]
    unless the report knows better; and the report's own verdict if the log says nothing. *)
Theorem control_plane_verdict_spec fallback events :
  control_plane_observation_from_events fallback events = control_plane_spec fallback (map event_kind events).
Proof.
  unfold control_plane_observation_from_events.
  induction events as [|event events IH]; [by destruct fallback|].
  unfold control_plane_spec in *. cbn [map scan_events].
  assert (event_kind event = if one_of failure_messages (event_field "msg" event)
            then Failed (failure_reason event)
            else if one_of recovery_messages (event_field "msg" event) then Recovered
            else if one_of start_messages (event_field "msg" event) then Started else Other) as -> by done.
  destruct (one_of failure_messages _); [|destruct (one_of recovery_messages _);
      [|destruct (one_of start_messages _)]];
    cbn [newest_relevant failures_since_recovery length]; [|done|done|exact IH].
  rewrite scan_after_failure by (unfold u32_saturating_succ; unfold u32_max; lia).
  set (reasons := failures_since_recovery _). unfold u32_saturating_succ, u32_max.
  f_equal; [|lia]. destruct (3 <=? S (length reasons))%nat eqn:H3; reflect_bools;
    [rewrite (proj2 (N.leb_le _ _)) by lia|rewrite (proj2 (N.leb_gt _ _)) by lia]; done.
Qed.

(** What the filter keeps once the instance is known. *)
Lemma control_plane_events_known parse instance lines event :
  In event (control_plane_events parse (Some instance) lines) ->
  event_field "component" event = "controlplane"
  /\ (event_field "client_instance_id" event = "" \/ event_field "client_instance_id" event = instance).
Proof.
  induction lines as [|line lines IH]; cbn [control_plane_events]; [done|].
  destruct (parse line) as [e|]; [|done]. destruct (negb _) eqn:Hc; [done|].
  destruct (negb _ && _) eqn:Hi; [done|]. intros [<-|H]; [|by apply IH].
  apply negb_false_iff, String.eqb_eq in Hc. split; [done|].
  apply andb_false_iff in Hi as [Hi|Hi]; apply negb_false_iff, String.eqb_eq in Hi; auto.
Qed.

(** The verdict is never mixed from two runs of the tunnel client: of the log's
    events only those of the control plane are used, and all that name an instance name
    the same one, the newest. *)
Theorem control_plane_events_one_instance parse lines e1 e2
    (H1 : In e1 (control_plane_events parse None lines)) (H2 : In e2 (control_plane_events parse None lines))
    (Hid1 : event_field "client_instance_id" e1 <> "") (Hid2 : event_field "client_instance_id" e2 <> "") :
  event_field "client_instance_id" e1 = event_field "client_instance_id" e2
  /\ event_field "component" e1 = "controlplane".
Proof.
  induction lines as [|line lines IH]; cbn [control_plane_events] in *; [done|].
  destruct (parse line) as [e|]; [|auto]. destruct (negb _) eqn:Hc; [auto|].
  apply negb_false_iff, String.eqb_eq in Hc.
  destruct (is_empty (event_field "client_instance_id" e)) eqn:He.
  - apply String.eqb_eq in He.
    destruct H1 as [<-|H1]; [by rewrite He in Hid1|]. destruct H2 as [<-|H2]; [by rewrite He in Hid2|]. auto.
  - rewrite String.eqb_refl, andb_false_r in H1, H2.
    assert (forall e', e = e' \/ In e' (control_plane_events parse (Some (event_field "client_instance_id" e)) lines) ->
      event_field "client_instance_id" e' <> "" ->
      event_field "client_instance_id" e' = event_field "client_instance_id" e
      /\ event_field "component" e' = "controlplane") as Hall.
    { intros e' [<-|H] Hid; [done|]. apply control_plane_events_known in H as [? [?|?]]; done. }
    destruct (Hall e1 H1 Hid1) as [-> ->]. by destruct (Hall e2 H2 Hid2) as [-> _].
Qed.

(** A runtime is reported active only on a successful report without a single
    negative signal: the process is not reported gone, neither [ready] nor [healthy] is
    false, the control plane's health entry is not bad, and its log does not put it in
    [down], [suspect] or [starting]; every failed or unreadable report is inactive. *)
Theorem runtime_active_sound from_utf8_lossy value_from_str log_bytes output
    (Hactive : obs_active (runtime_status from_utf8_lossy value_from_str log_bytes output) = true) :
  exists out payload, output = Ok out /\ success out = true /\ value_from_str (stdout out) = Some payload
    /\ get "process_running" payload <> Some (Bool false)
    /\ get "ready" payload <> Some (Bool false) /\ get "healthy" payload <> Some (Bool false)
    /\ (forall v, control_plane_health_value payload = Some v -> health_value_unhealthy v = false)
    /\ one_of ["down"; "suspect"; "starting"]
         (cp_state (runtime_log_observation from_utf8_lossy value_from_str log_bytes payload).1) = false.
Proof.
  unfold runtime_status, parse_json_output in Hactive.
  destruct output as [out|e]; [|done]. destruct (success out) eqn:Hs; [|by destruct (runtime_not_running _)].
  destruct (value_from_str (stdout out)) as [payload|] eqn:Hp; [|done].
  exists out, payload. destruct (runtime_log_observation _ _ _ payload) as [cp src]. cbn in Hactive.
  apply andb_true_iff in Hactive as [Hb Hcp%negb_true_iff]. split_and!; try done; clear Hcp;
    unfold runtime_payload_active, bool_is in Hb.
  - intros E. by rewrite E in Hb.
  - intros E. rewrite E in Hb. cbn in Hb. by repeat case_match.
  - intros E. rewrite E in Hb. cbn in Hb. rewrite orb_true_r in Hb. by repeat case_match.
  - intros v E. rewrite E in Hb. destruct (health_value_unhealthy v); [|done]. by repeat case_match.
Qed.

(** ** Witnesses *)

Definition sample_event (id msg : string) : Value :=
  Object [("component", VString "controlplane"); ("client_instance_id", VString id); ("msg", VString msg)].

(** A log of two runs, the newest line first. *)
Definition sample_log (line : string) : option Value :=
  match line with
  | "a" => Some (sample_event "run2" "poll failed; backing off")
  | "b" => Some (sample_event "run2" "poller started")
  | "c" => Some (sample_event "run1" "poll failed; backing off")
  | _ => None
  end.

Lemma control_plane_events_one_instance_witness :
  control_plane_events sample_log None ["a"; "x"; "b"; "c"]
  = [sample_event "run2" "poll failed; backing off"; sample_event "run2" "poller started"]
  /\ event_field "client_instance_id" (sample_event "run2" "poll failed; backing off")
     = event_field "client_instance_id" (sample_event "run2" "poller started").
Proof.
  split; [vm_compute; reflexivity|].
  apply (proj1 (control_plane_events_one_instance sample_log ["a"; "x"; "b"; "c"]
    (sample_event "run2" "poll failed; backing off") (sample_event "run2" "poller started")
    ltac:(left; reflexivity) ltac:(right; left; reflexivity) ltac:(discriminate) ltac:(discriminate))).
Defined.

Definition sample_report : Value :=
  Object [("process_running", Bool true); ("ready", Bool true)].

Lemma runtime_active_sound_witness :
  let read := fun text => if String.eqb text "{}" then Some sample_report else None in
  obs_active (runtime_status (fun s => s) read (fun _ => None)
    (Ok {| success := true; stdout := "{}"; stderr := "" |})) = true
  /\ exists out payload, Ok {| success := true; stdout := "{}"; stderr := "" |} = Ok (E := string) out
       /\ success out = true /\ read (stdout out) = Some payload
       /\ get "process_running" payload <> Some (Bool false).
Proof.
  intros read. split; [vm_compute; reflexivity|].
  destruct (runtime_active_sound (fun s => s) read (fun _ => None)
    (Ok {| success := true; stdout := "{}"; stderr := "" |}) ltac:(vm_compute; reflexivity))
    as (out & payload & H1 & H2 & H3 & H4 & _).
  exists out, payload. repeat split; assumption.
Defined.
