(* ===== verification/Settings.v ===== *)
(** * Settings of the desktop application ([src-tauri/src/settings.rs])

    The settings record with its defaults, reading it (with the migration of the earlier
    format), and the transaction that replaces the settings file. *)

From S2P Require Export Intent Json.
Local Open Scope string_scope.

Record ProxySettings := {
  proxy_mode : string;
  proxy_url : string;
  proxy_applied_url : string }.

Record RelaySettings := {
  relay_enabled : bool;
  relay_base_url : string }.

Record HttpsMcpSettings := {
  https_enabled : bool;
  https_auto_reconnect : bool;
  https_base_url : string;
  https_transport : string;
  https_ssh_host : string;
  https_ssh_user : string;
  https_ssh_port : N;
  https_local_port : N;
  https_remote_port : N;
  https_authorization_ttl_hours : option N }.

Record Settings := {
  tunnel_id : string;
  remember_key : bool;
  auto_reconnect : bool;
  connection_intent : bool;
  monitor_enabled : bool;
  monitor_port : N;
  proxy : ProxySettings;
  relay : RelaySettings;
  https_mcp : HttpsMcpSettings }.

Definition default_monitor_port : N := 18432.
Definition default_proxy_mode : string := "direct".
Definition default_ssh_port : N := 22.
Definition default_local_mcp_port : N := 3000.
Definition default_reverse_mcp_port : N := 18080.
Definition default_https_auth_ttl_hours : option N := Some (7 * 24)%N.

Definition proxy_default : ProxySettings :=
  {| proxy_mode := default_proxy_mode; proxy_url := ""; proxy_applied_url := "" |}.

Definition relay_default : RelaySettings := {| relay_enabled := false; relay_base_url := "" |}.

Definition https_default : HttpsMcpSettings :=
  {| https_enabled := false; https_auto_reconnect := true; https_base_url := ""; https_transport := "wss";
     https_ssh_host := ""; https_ssh_user := ""; https_ssh_port := default_ssh_port;
     https_local_port := default_local_mcp_port; https_remote_port := default_reverse_mcp_port;
     https_authorization_ttl_hours := default_https_auth_ttl_hours |}.

Definition settings_default : Settings :=
  {| tunnel_id := ""; remember_key := false; auto_reconnect := true; connection_intent := false;
     monitor_enabled := false; monitor_port := default_monitor_port; proxy := proxy_default;
     relay := relay_default; https_mcp := https_default |}.

Definition set_proxy (v : ProxySettings) (s : Settings) : Settings :=
  {| tunnel_id := tunnel_id s; remember_key := remember_key s; auto_reconnect := auto_reconnect s;
     connection_intent := connection_intent s; monitor_enabled := monitor_enabled s;
     monitor_port := monitor_port s; proxy := v; relay := relay s; https_mcp := https_mcp s |}.

Definition set_relay (v : RelaySettings) (s : Settings) : Settings :=
  {| tunnel_id := tunnel_id s; remember_key := remember_key s; auto_reconnect := auto_reconnect s;
     connection_intent := connection_intent s; monitor_enabled := monitor_enabled s;
     monitor_port := monitor_port s; proxy := proxy s; relay := v; https_mcp := https_mcp s |}.

(** [settings.connection_intent = intent; settings.https_mcp.enabled = enabled] *)
Definition set_connection (intent enabled : bool) (s : Settings) : Settings :=
  let h := https_mcp s in
  {| tunnel_id := tunnel_id s; remember_key := remember_key s; auto_reconnect := auto_reconnect s;
     connection_intent := intent; monitor_enabled := monitor_enabled s;
     monitor_port := monitor_port s; proxy := proxy s; relay := relay s;
     https_mcp := {| https_enabled := enabled; https_auto_reconnect := https_auto_reconnect h;
                     https_base_url := https_base_url h; https_transport := https_transport h;
                     https_ssh_host := https_ssh_host h; https_ssh_user := https_ssh_user h;
                     https_ssh_port := https_ssh_port h; https_local_port := https_local_port h;
                     https_remote_port := https_remote_port h;
                     https_authorization_ttl_hours := https_authorization_ttl_hours h |} |}.

Inductive McpMode := ModeHttps | ModeTunnel | ModeNone.

Definition mode_name (m : McpMode) : string :=
  match m with ModeHttps => "https" | ModeTunnel => "tunnel" | ModeNone => "none" end.

Definition effective_mcp_mode (settings : Settings) (https_allowed tunnel_desired : bool) : McpMode :=
  if https_enabled (https_mcp settings) && https_allowed then ModeHttps
  else if negb (https_enabled (https_mcp settings)) && tunnel_desired then ModeTunnel
  else ModeNone.

Section SettingsFile.
(** The resolved data directory, the system's proxy, whether a runtime key is stored, the
    JSON readers and printer, and the unique suffix of the temporary file (process id and
    counter). *)
Context (local_data_dir : Result string string) (system_proxy_url : Result (option string) string)
        (runtime_key_saved : bool)
        (settings_from_str : string -> option Settings) (value_from_str : string -> Result Value string)
        (settings_to_string_pretty : Settings -> Result string string).

Definition settings_in (dir : string) : Path := {| parent := Some dir; file_name := "settings.json" |}.

Definition settings_path : Fs (Result Path string) :=
  dir <-fs? state_dir local_data_dir ;; fs_ret (Ok (settings_in dir)).

Definition known_proxy_mode (mode : string) : bool :=
  existsb (String.eqb mode) ["direct"; "system"; "manual"].

Definition normalize_proxy (p : ProxySettings) : ProxySettings :=
  if negb (known_proxy_mode (proxy_mode p)) then proxy_default
  else if String.eqb (proxy_mode p) "system" && is_empty (trim (proxy_applied_url p))
  then match system_proxy_url with
       | Ok (Some url) =>
           {| proxy_mode := proxy_mode p; proxy_url := proxy_url p; proxy_applied_url := url |}
       | _ => p
       end
  else p.

Definition normalize_relay (r : RelaySettings) : RelaySettings :=
  if relay_enabled r && is_empty (trim (relay_base_url r))
  then {| relay_enabled := false; relay_base_url := relay_base_url r |}
  else r.

Definition normalize_settings (settings : Settings) : Settings :=
  set_relay (normalize_relay (relay settings)) (set_proxy (normalize_proxy (proxy settings)) settings).

(** Everything [load_settings_checked] does with the text it read. *)
Definition parse_settings (path : Path) (text : string) : Result Settings string :=
  match settings_from_str text with
  | Some settings =>
      if connection_intent settings && is_empty (trim (tunnel_id settings))
      then Err ("设置文件状态无效（" ++ path_display path ++ "）：存在连接意图但 Tunnel ID 为空。")
      else Ok (normalize_settings settings)
  | None =>
      let_ok legacy := value_from_str text
        else error => Err ("设置文件已损坏（" ++ path_display path ++ "）：" ++ error) in
      let legacy_id := match get "connection" legacy with
                       | Some c => match get "tunnelId" c with
                                   | Some v => match as_str v with Some s => Some (trim s) | None => None end
                                   | None => None
                                   end
                       | None => None
                       end in
      match legacy_id with
      | Some id =>
          if is_empty id then Err ("无法识别设置文件格式：" ++ path_display path)
          else Ok {| tunnel_id := id; remember_key := runtime_key_saved; auto_reconnect := true;
                     connection_intent := false; monitor_enabled := false;
                     monitor_port := default_monitor_port; proxy := proxy_default;
                     relay := relay_default; https_mcp := https_default |}
      | None => Err ("无法识别设置文件格式：" ++ path_display path)
      end
  end.

Definition load_settings_checked : Fs (Result Settings string) :=
  path <-fs? settings_path ;;
  text <-fs read_to_string path ;;
  fs_ret (match text with
          | Ok text => parse_settings path text
          | Err NotFound => Ok settings_default
          | Err error => Err ("读取设置失败（" ++ path_display path ++ "）：" ++ io_display error)
          end).

(** [load_settings_checked(app).unwrap_or_default()] *)
Definition load_settings : Fs Settings :=
  checked <-fs load_settings_checked ;;
  fs_ret (match checked with Ok s => s | Err _ => settings_default end).

Definition settings_temp (path : Path) (unique : string) : Path :=
  {| parent := parent path; file_name := file_name path ++ ".tmp." ++ unique |}.

(** The closure of [write_settings_file] whose error triggers the clean-up. *)
Definition replace_settings (temp path : Path) (text : string) : Fs (Result unit string) :=
  _ <-fs? fs_map_err (fun e => "创建设置临时文件失败：" ++ io_display e) (open_new temp) ;;
  _ <-fs? fs_map_err (fun e => "写入设置失败：" ++ io_display e) (write_all temp text) ;;
  _ <-fs? fs_map_err (fun e => "同步设置文件失败：" ++ io_display e) (sync_all temp) ;;
  fs_map_err (fun e => "更新设置失败：" ++ io_display e) (rename temp path).

Definition write_settings_file (unique : string) (path : Path) (settings : Settings)
    : Fs (Result unit string) :=
  match settings_to_string_pretty settings with
  | Err e => fs_ret (Err e)
  | Ok text =>
      match parent path with
      | None => fs_ret (Err "设置文件路径无效")
      | Some dir =>
          _ <-fs? fs_map_err (fun e => "创建设置目录失败：" ++ io_display e) (create_dir_all dir) ;;
          let temp := settings_temp path unique in
          result <-fs replace_settings temp path (text ++ String "010" "") ;;
          match result with
          | Ok _ => fs_ret (Ok tt)
          | Err e => _ <-fs remove_file temp ;; fs_ret (Err e)
          end
      end
  end.

(** [update_settings]; the write lock makes it one transaction ([lock_ok]: not poisoned). *)
Definition update_settings (lock_ok : bool) (unique : string)
    (update : Settings -> Result Settings string) : Fs (Result Settings string) :=
  if negb lock_ok then fs_ret (Err "设置操作锁已损坏")
  else
    settings <-fs? load_settings_checked ;;
    match update settings with
    | Err e => fs_ret (Err e)
    | Ok settings =>
        path <-fs? settings_path ;;
        _ <-fs? write_settings_file unique path settings ;;
        fs_ret (Ok settings)
    end.
End SettingsFile.

(** ** Properties *)

Section SettingsProps.
Context (base : string) (system_proxy_url : Result (option string) string) (runtime_key_saved : bool)
        (settings_from_str : string -> option Settings) (value_from_str : string -> Result Value string)
        (settings_to_string_pretty : Settings -> Result string string).

#[local] Abbreviation file := (settings_in (base ++ "/state")).
#[local] Abbreviation parse := (parse_settings system_proxy_url runtime_key_saved settings_from_str value_from_str file).
#[local] Abbreviation load := (load_settings_checked (Ok base) system_proxy_url runtime_key_saved
                                 settings_from_str value_from_str).
#[local] Abbreviation write := (write_settings_file settings_to_string_pretty).
#[local] Abbreviation update := (update_settings (Ok base) system_proxy_url runtime_key_saved
                                   settings_from_str value_from_str settings_to_string_pretty).

(** The settings a healthy read of the files gives. *)
Definition settings_now (fs : gmap Path string) : Result Settings string :=
  match fs !! file with Some text => parse text | None => Ok settings_default end.

Lemma settings_path_inv w res w' :
  settings_path (Ok base) w = (res, w') ->
  files w' = files w /\ io_fault w' = io_fault w /\ torn_write w' = torn_write w
  /\ (forall p, res = Some (Ok p) -> p = file).
Proof using base.
  intros [[H ->]|[(e & H & ->)|(d & w1 & H & Hk)]]%fs_try_inv;
    apply state_dir_inv in H as (Hf & Hi & Ht & Hd); [by split_and!..|].
  injection Hk as <- <-. split_and!; try done. intros p [= <-]. by rewrite (Hd d eq_refl).
Qed.

Lemma load_inv w res w' :
  load w = (res, w') ->
  files w' = files w /\ io_fault w' = io_fault w
  /\ (io_fault w (ReadFile file) <> Some NotFound ->
      forall s, res = Some (Ok s) -> settings_now (files w) = Ok s).
Proof using base system_proxy_url runtime_key_saved settings_from_str value_from_str.
  intros [[H ->]|[(e & H & ->)|(p & w1 & H & Hk)]]%fs_try_inv;
    apply settings_path_inv in H as (Hf & Hi & _ & Hp); [by split_and!..|].
  specialize (Hp p eq_refl) as ->. rewrite <- Hf, <- Hi.
  apply fs_bind_inv in Hk as [[H ->]|(r & w2 & H & Hk)]; apply read_to_string_inv in H as (Hf2 & Hi2 & Hr).
  { split_and!; (done || congruence). }
  injection Hk as <- <-. rewrite Hf2, Hi2. split_and!; [done|done|]. intros Hhonest s [= Hs].
  unfold settings_now. destruct r as [t|[|m]]; [by rewrite Hr| |done].
  injection Hs as <-. destruct Hr as [->|?]; [done|]. congruence.
Qed.

(** [load_settings] leaves every file as it is. *)
Lemma load_settings_files w res w' :
  load_settings (Ok base) system_proxy_url runtime_key_saved settings_from_str value_from_str w = (res, w') ->
  files w' = files w /\ io_fault w' = io_fault w.
Proof.
  intros [[H ->]|(r & w1 & H & Hk)]%fs_bind_inv; apply load_inv in H as (Hf & Hi & _); [done|].
  by injection Hk as _ <-.
Qed.

Lemma settings_temp_ne unique : settings_temp file unique <> file.
Proof. by intros [=]. Qed.

Lemma map_err_ok {A E F} (f : E -> F) (r : Result A E) a : map_err f r = Ok a -> r = Ok a.
Proof. destruct r; cbn; congruence. Qed.

Lemma replace_settings_inv temp path text w res w' :
  temp <> path -> replace_settings temp path text w = (res, w') ->
  (only_at temp w w' /\ res <> Some (Ok tt))
  \/ (res = Some (Ok tt) /\ exists w1, only_at temp w w1
       /\ files w' = <[path := text]> (delete temp (files w1))).
Proof.
  intros Hne.
  intros [[H ->]|[(e & H & ->)|(u1 & w1 & H & Hk)]]%fs_try_inv;
    apply fs_map_err_inv in H as (r1 & H & Hr1); apply open_new_inv in H as [Ho1 _]; [by left..|].
  apply fs_try_inv in Hk as [[H ->]|[(e & H & ->)|(u2 & w2 & H & Hk)]];
    apply fs_map_err_inv in H as (r2 & H & Hr2); apply write_all_inv in H as (Ho2 & _ & Hw);
    pose proof (only_at_trans _ _ _ _ Ho1 Ho2) as Ho; [by left..|].
  assert (files w2 !! temp = Some text) as Htext.
  { apply Hw. destruct r2 as [[[]|e]|]; cbn in Hr2; congruence. }
  clear Hw. apply fs_try_inv in Hk as [[H ->]|[(e & H & ->)|(u3 & w3 & H & Hk)]];
    apply fs_map_err_inv in H as (r3 & H & Hr3); apply sync_all_inv in H as (Hf3 & Ho3);
    pose proof (only_at_trans _ _ _ _ Ho Ho3) as Ho4; [by left..|].
  rewrite <- Hf3 in Htext. apply fs_map_err_inv in Hk as (r4 & H & ->).
  destruct (fs_op_inv _ _ _ _ _ _ H) as (Hi & Ht & _).
  apply rename_inv in H as [_ [(-> & t & Hsrc & Hf)|(Hr & Hf)]].
  - right. split; [done|]. exists w3. split; [done|]. congruence.
  - left. split; [|destruct r4 as [[[]|e]|]; cbn; congruence].
    unfold only_at in *. destruct Ho4 as (? & ? & Hother). rewrite Hf. split_and!; [congruence..|done].
Qed.

(** What writing the settings file does: the file holds the new text if success is
    reported, and is untouched otherwise; only the temporary file is touched besides. *)
Lemma write_settings_inv unique s w res w' :
  write unique file s w = (res, w') ->
  (forall q, q <> file -> q <> settings_temp file unique -> files w' !! q = files w !! q)
  /\ match res with
     | Some (Ok _) => exists text, settings_to_string_pretty s = Ok text
                      /\ files w' !! file = Some (text ++ String "010" "")
     | _ => files w' !! file = files w !! file
     end.
Proof.
  unfold write_settings_file. destruct (settings_to_string_pretty s) as [text|e]; [|by intros [= <- <-]].
  cbn [parent settings_in]. pose proof (settings_temp_ne unique) as Hne.
  intros [[H ->]|[(e & H & ->)|(u & w1 & H & Hk)]]%fs_try_inv;
    apply fs_map_err_inv in H as (r1 & H & _); apply create_dir_all_files in H as (Hf1 & _);
    [by rewrite Hf1..|].
  rewrite <- Hf1. clear Hf1.
  apply fs_bind_inv in Hk as [[H ->]|(r & w2 & H & Hk)];
    apply replace_settings_inv in H as [[(_ & _ & Ho) Hres]|(Hres & w3 & (_ & _ & Ho) & Hf)]; try done.
  - split; [by auto|]. by apply Ho.
  - destruct r as [[]|e]; [done|].
    assert (only_at (settings_temp file unique) w2 w' /\ (res = None \/ res = Some (Err e))) as [(_ & _ & Ho') Hr].
    { apply fs_bind_inv in Hk as [[H ->]|(r & w3 & H & Hk)]; apply remove_file_only in H; [by auto|].
      injection Hk as <- <-. by auto. }
    assert (forall q, q <> settings_temp file unique -> files w' !! q = files w1 !! q) as Hq
      by (intros q Hq; by rewrite Ho', Ho).
    split; [by auto|]. destruct Hr as [->| ->]; by apply Hq.
  - injection Hres as ->. injection Hk as <- <-. rewrite Hf. split.
    + intros q Hq1 Hq2. rewrite lookup_insert_ne, lookup_delete_ne by done. by apply Ho.
    + exists text. by rewrite lookup_insert_eq.
Qed.
Lemma update_settings_inv lock_ok unique f w res w' :
  update lock_ok unique f w = (res, w') ->
  (forall q, q <> file -> q <> settings_temp file unique -> files w' !! q = files w !! q)
  /\ (io_fault w (ReadFile file) <> Some NotFound ->
     match res with
     | Some (Ok s) => exists s0 text, settings_now (files w) = Ok s0 /\ f s0 = Ok s
         /\ settings_to_string_pretty s = Ok text /\ files w' !! file = Some (text ++ String "010" "")
     | _ => files w' !! file = files w !! file
     end).
Proof.
  unfold update_settings. destruct lock_ok; cbn [negb]; [|by intros [= <- <-]].
  intros [[H ->]|[(e & H & ->)|(s0 & w1 & H & Hk)]]%fs_try_inv;
    apply load_inv in H as (Hf & Hi & Hs); try done; [by rewrite Hf..|].
  assert (io_fault w (ReadFile file) <> Some NotFound -> settings_now (files w) = Ok s0) as Hs0 by auto.
  rewrite <- Hf in Hs0 |- *. clear Hf Hs. set (honest := _ <> _) in *. clearbody honest. clear Hi.
  destruct (f s0) as [s|e] eqn:Hu; [|by injection Hk as <- <-].
  apply fs_try_inv in Hk as [[H ->]|[(e & H & ->)|(p & w2 & H & Hk)]];
    apply settings_path_inv in H as (Hf & _ & _ & Hp); [by rewrite Hf..|].
  specialize (Hp p eq_refl) as ->. rewrite <- Hf in Hs0 |- *. clear Hf.
  apply fs_try_inv in Hk as [[H ->]|[(e & H & ->)|(u & w3 & H & Hk)]];
    apply write_settings_inv in H as [Ho Hw]; [done..|].
  injection Hk as <- <-. split; [exact Ho|]. intros Hh. destruct Hw as (text & Ht & Hw).
  exists s0, text. auto.
Qed.

Lemma update_settings_faults lock_ok unique f : keeps_faults (update lock_ok unique f).
Proof.
  unfold update_settings, load_settings_checked, settings_path, state_dir, write_settings_file, replace_settings.
  solve_keeps_faults.
Qed.

(** A settings update is atomic: whichever operations fail and wherever the process
    dies, the settings file holds the complete result of applying the update to the
    settings that were there when success is reported, and otherwise exactly what it held;
    nothing but the file and its temporary copy is touched. In particular a file that
    cannot be parsed is never overwritten. (A read that fails does not claim that an
    existing file is missing.) *)
Theorem update_settings_atomic lock_ok unique f w res w'
    (Hhonest : io_fault w (ReadFile file) <> Some NotFound)
    (Hupdate : update lock_ok unique f w = (res, w')) :
  (forall q, q <> file -> q <> settings_temp file unique -> files w' !! q = files w !! q)
  /\ (is_ok (settings_now (files w)) = false -> files w' !! file = files w !! file)
  /\ match res with
     | Some (Ok s) => exists s0 text, settings_now (files w) = Ok s0 /\ f s0 = Ok s
         /\ settings_to_string_pretty s = Ok text /\ files w' !! file = Some (text ++ String "010" "")
     | _ => files w' !! file = files w !! file
     end.
Proof.
  apply update_settings_inv in Hupdate as [Ho Hres]. specialize (Hres Hhonest).
  split_and!; [exact Ho| |exact Hres]. intros Hbad. destruct res as [[s|e]|]; [|done..].
  destruct Hres as (s0 & text & Hnow & _). by rewrite Hnow in Hbad.
Qed.

(** What reading gives, by the operations that fail: [e] is the error when the directory
    cannot be made. *)
Lemma load_exact w r w' : load w = (Some r, w') -> exists e,
  r = match io_fault w (CreateDirAll (base ++ "/state")) with
      | Some _ => Err e
      | None =>
          match io_fault w (ReadFile file) with
          | Some NotFound => Ok settings_default
          | Some error => Err ("读取设置失败（" ++ path_display file ++ "）：" ++ io_display error)
          | None => settings_now (files w)
          end
      end /\ (io_fault w (CreateDirAll (base ++ "/state")) <> None -> exists m, io_fault w (CreateDirAll (base ++ "/state")) = Some m
            /\ e = "无法创建 ChatX 数据目录：" ++ io_display m).
Proof.
  unfold load_settings_checked, settings_path, state_dir, create_dir_all, read_to_string, fs_try, fs_bind, fs_ret, fs_op, settings_now.
  destruct (ops_left w) as [[|n]|] eqn:Ho; [done|..]; (destruct (io_fault w (CreateDirAll _)) as [m|] eqn:Hc;
    [intros [= <- _]; eexists; split; [done|]; intros _; by exists m|]); cbn; rewrite ?Ho; cbn.
  - destruct n as [|n]; [done|]. fold file. exists "".
    split; [|done]. destruct (io_fault w (ReadFile file)) as [[|m]|]; [by injection H as <- _..|].
    destruct (files w !! file); by injection H as <- _.
  - fold file. intros H. exists "". split; [|done].
    destruct (io_fault w (ReadFile file)) as [[|m]|]; [by injection H as <- _..|].
    destruct (files w !! file); by injection H as <- _.
Qed.

(** What reading the settings gives depends only on the file and on which operations fail. *)
Lemma load_same w1 r1 w1' w2 r2 w2' :
  load w1 = (Some r1, w1') -> load w2 = (Some r2, w2') ->
  files w1 !! file = files w2 !! file -> io_fault w1 = io_fault w2 -> r1 = r2.
Proof.
  intros (e1 & -> & E1)%load_exact (e2 & -> & E2)%load_exact Hf Hi. unfold settings_now. rewrite Hf, Hi in *.
  destruct (io_fault w2 (CreateDirAll _)); [|done].
  destruct E1 as (m & [= ->] & ->); [done|]. by destruct E2 as (m' & [= ->] & ->).
Qed.

(** Where the settings could be read once, they are read again. *)
Lemma load_again w1 s w1' w2 r w2' :
  load w1 = (Some (Ok s), w1') -> load w2 = (Some r, w2') -> io_fault w2 = io_fault w1 ->
  io_fault w1 (ReadFile file) <> Some NotFound -> r = settings_now (files w2).
Proof.
  intros (e1 & H1 & _)%load_exact (e2 & -> & _)%load_exact -> Hread.
  destruct (io_fault w1 (CreateDirAll _)); [done|]. destruct (io_fault w1 (ReadFile file)) as [[|m]|]; done.
Qed.

(** A successful update read the settings. *)
Lemma update_loads lock_ok unique f w s w' :
  update lock_ok unique f w = (Some (Ok s), w') -> exists s0 w1, load w = (Some (Ok s0), w1) /\ f s0 = Ok s.
Proof.
  unfold update_settings. destruct lock_ok; cbn [negb]; [|done].
  intros [[_ ?]|[(e & _ & ?)|(s0 & w1 & H & Hk)]]%fs_try_inv; [done..|]. exists s0, w1. split; [done|].
  destruct (f s0) as [s1|e]; [|done]. apply fs_try_inv in Hk as [[_ ?]|[(e & _ & ?)|(p & w2 & _ & Hk)]]; [done..|].
  apply fs_try_inv in Hk as [[_ ?]|[(e & _ & ?)|(u & w3 & _ & Hk)]]; [done..|]. by injection Hk as <- _.
Qed.

(** What the next start reads after a successful update, for a JSON printer and reader
    that agree. *)
Lemma settings_after_update s text fs :
  (forall s text, settings_to_string_pretty s = Ok text -> settings_from_str (text ++ String "010" "") = Some s) ->
  settings_to_string_pretty s = Ok text -> fs !! file = Some (text ++ String "010" "") ->
  (connection_intent s = true -> is_empty (trim (tunnel_id s)) = false) ->
  settings_now fs = Ok (normalize_settings system_proxy_url s).
Proof.
  intros Hjson Ht Hf Hvalid. unfold settings_now, parse_settings. rewrite Hf, (Hjson s text Ht).
  destruct (connection_intent s); [|done]. by rewrite Hvalid.
Qed.

Lemma normalize_proxy_idem p :
  normalize_proxy system_proxy_url (normalize_proxy system_proxy_url p) = normalize_proxy system_proxy_url p.
Proof.
  unfold normalize_proxy at 2 3. destruct (known_proxy_mode (proxy_mode p)) eqn:Hk; cbn [negb]; [|done].
  destruct (_ && _) eqn:Hs; [|by unfold normalize_proxy; rewrite Hk, Hs].
  destruct system_proxy_url as [[url|]|e]; unfold normalize_proxy; cbn [proxy_mode proxy_applied_url];
    rewrite Hk; cbn [negb]; rewrite ?Hs; by try case_match.
Qed.

Lemma normalize_relay_idem r : normalize_relay (normalize_relay r) = normalize_relay r.
Proof.
  unfold normalize_relay at 2 3. destruct (_ && _) eqn:Hs; [done|]. unfold normalize_relay. by rewrite Hs.
Qed.

(** Reading sanitises the settings once and for all: the proxy mode is one of the
    three known ones, an enabled Relay has an address, the connection intents are those
    stored, and sanitising again changes nothing. *)
Theorem normalize_settings_spec s :
  let n := normalize_settings system_proxy_url s in
  known_proxy_mode (proxy_mode (proxy n)) = true
  /\ (relay_enabled (relay n) = true -> is_empty (trim (relay_base_url (relay n))) = false)
  /\ connection_intent n = connection_intent s /\ https_mcp n = https_mcp s /\ tunnel_id n = tunnel_id s
  /\ normalize_settings system_proxy_url n = n.
Proof.
  intros n. subst n. unfold normalize_settings. cbn [proxy relay set_relay set_proxy https_mcp tunnel_id connection_intent].
  assert (known_proxy_mode (proxy_mode (normalize_proxy system_proxy_url (proxy s))) = true) as Hk.
  { unfold normalize_proxy. destruct (known_proxy_mode (proxy_mode (proxy s))) eqn:Hk; cbn [negb]; [|done].
    by repeat case_match. }
  split_and!; try done.
  - unfold normalize_relay. destruct (_ && _) eqn:Hr; cbn; [done|]. intros He. rewrite He in Hr. exact Hr.
  - by rewrite normalize_proxy_idem, normalize_relay_idem.
Qed.
End SettingsProps.

(** ** A concrete JSON stand-in and the witness *)

#[export] Instance Settings_eq_dec : EqDecision Settings.
Proof. assert (EqDecision ProxySettings) by solve_decision. assert (EqDecision RelaySettings) by solve_decision.
  assert (EqDecision HttpsMcpSettings) by solve_decision. solve_decision. Defined.

Definition settings_tuple (s : Settings) :=
  let h := https_mcp s in
  ((tunnel_id s, remember_key s, auto_reconnect s, connection_intent s, monitor_enabled s, monitor_port s),
   (proxy_mode (proxy s), proxy_url (proxy s), proxy_applied_url (proxy s)),
   (relay_enabled (relay s), relay_base_url (relay s)),
   (https_enabled h, https_auto_reconnect h, https_base_url h, https_transport h, https_ssh_host h,
    https_ssh_user h, https_ssh_port h, https_local_port h, https_remote_port h,
    https_authorization_ttl_hours h)).

#[export] Instance Settings_countable : Countable Settings.
Proof.
  refine (inj_countable' settings_tuple
    (fun '((ti, rk, ar, ci, me, mp), (pm, pu, pa), (re, rb), (he, ha, hb, ht, hh, hu, hs, hl, hr, hq)) =>
       {| tunnel_id := ti; remember_key := rk; auto_reconnect := ar; connection_intent := ci;
          monitor_enabled := me; monitor_port := mp;
          proxy := {| proxy_mode := pm; proxy_url := pu; proxy_applied_url := pa |};
          relay := {| relay_enabled := re; relay_base_url := rb |};
          https_mcp := {| https_enabled := he; https_auto_reconnect := ha; https_base_url := hb;
                          https_transport := ht; https_ssh_host := hh; https_ssh_user := hu;
                          https_ssh_port := hs; https_local_port := hl; https_remote_port := hr;
                          https_authorization_ttl_hours := hq |} |}) _).
  by intros [? ? ? ? ? ? [] [] []].
Defined.

Definition sample_settings_print (s : Settings) : Result string string := Ok (binary_text (encode s)).
Definition sample_settings_read (text : string) : option Settings :=
  match binary_read text with Some p => decode p | None => None end.

Lemma sample_settings_roundtrip s text :
  sample_settings_print s = Ok text -> sample_settings_read (text ++ String "010" "") = Some s.
Proof. intros [= <-]. unfold sample_settings_read. by rewrite binary_read_text, decode_encode. Qed.

Definition sample_settings_file : Path := settings_in ("/home/u" ++ "/state").

(** The disk fails while the settings are replaced: the old text stays. *)
Definition sample_settings_world (fault : bool) : World :=
  {| files := {[ sample_settings_file := binary_text (encode (set_connection false true settings_default)) ]};
     ops_left := None;
     io_fault := fun op => match op with RenameFile _ _ => if fault then Some (OtherIo "denied") else None
                           | _ => None end;
     torn_write := fun _ => None |}.

Lemma update_settings_atomic_witness :
  let w := sample_settings_world true in
  let out := update_settings (Ok "/home/u") (Ok None) false sample_settings_read (fun _ => Err "bad")
    sample_settings_print true "1.1" (fun s => Ok (set_connection false false s)) w in
  match out.1 with Some r => is_ok r | None => true end = false
  /\ files out.2 !! sample_settings_file = files w !! sample_settings_file.
Proof.
  intros w out.
  destruct out as [res w'] eqn:Ho.
  destruct (update_settings_atomic "/home/u" (Ok None) false sample_settings_read (fun _ => Err "bad")
    sample_settings_print true "1.1" (fun s => Ok (set_connection false false s)) w res w'
    ltac:(discriminate) Ho) as (_ & _ & Hres).
  assert (match res with Some r => is_ok r | None => true end = false) as Hbad.
  { change res with (res, w').1. rewrite <- Ho. vm_compute. reflexivity. }
  split; [exact Hbad|]. destruct res as [[s|e]|]; [discriminate|exact Hres|discriminate].
Defined.
