(* ===== verification/DeskState.v ===== *)
(** * State of the desktop application ([app_state.rs] of [src-tauri/src])

    The record of what the application keeps, and the monad its operations run in. *)

From S2P Require Export MonitorNetwork Settings Protocol.
Local Open Scope string_scope.

(** ** State *)

Record TunnelRecoveryStatus := {
  phase : string;
  next_reconnect_at : N;
  rec_last_error : string }.

Definition recovery_default : TunnelRecoveryStatus :=
  {| phase := "idle"; next_reconnect_at := 0; rec_last_error := "" |}.

(** [monitor::TunnelSnapshot] *)
Record TunnelSnapshot := {
  snap_state : string;
  snap_health : string;
  snap_active : bool;
  snap_last_error : string;
  snap_updated_at : N;
  snap_last_probe_at : N;
  snap_last_successful_probe_at : N;
  snap_consecutive_failures : N;
  snap_control_plane_state : string;
  snap_control_plane_reason : string;
  snap_control_plane_failures : N;
  snap_proxy_mode : string;
  snap_proxy_source : string }.

Definition tunnel_snapshot_default : TunnelSnapshot :=
  {| snap_state := "unknown"; snap_health := "unknown"; snap_active := false; snap_last_error := "";
     snap_updated_at := 0; snap_last_probe_at := 0; snap_last_successful_probe_at := 0;
     snap_consecutive_failures := 0; snap_control_plane_state := "unknown";
     snap_control_plane_reason := ""; snap_control_plane_failures := 0; snap_proxy_mode := "direct";
     snap_proxy_source := "" |}.

(** [MonitorDeviceRecord] and [MonitorPairingGrant] of [monitor_manager.rs] *)
Record MonitorDeviceRecord := {
  device_record_id : string;
  device_record_name : string;
  device_token_hash : string;
  created_at : N;
  last_seen_at : option N }.

Record MonitorPairingGrant := {
  grant_pairing_id : string;
  grant_pairing_code : string;
  code_hash : string;
  grant_expires_at : N }.

(** A request of the desktop to the Relay's HTTP interface ([relay.rs]). *)
Inductive HttpBody :=
| NoBody
| RegisterBody (request : DesktopRegisterRequest)
| AuthorizeBody (request : DeviceAuthorizeRequest)
| RouteBody (request : PairingRouteOpenRequest).

Record HttpRequest := {
  http_method : string;
  http_url : string;
  http_bearer : option string;
  http_body : HttpBody }.

Record RuntimePaths := {
  root : string;
  tunnel : Path;
  node : Path;
  launcher : Path;
  desktop_commander : Path }.

Record RelayCredentials := {
  cred_base_url : string;
  cred_desktop_id : string;
  cred_desktop_token : string }.

(** [SupervisorContext] of [https_mcp.rs]: what a worker of the HTTPS transport is given. *)
Record HttpsLaunch := {
  launch_settings : HttpsMcpSettings;
  launch_paths : RuntimePaths;
  launch_home : string;
  launch_log_dir : string;
  launch_password : string;
  launch_signing : string;
  launch_credentials : option RelayCredentials }.

(** [RelayStatus] of [relay.rs] *)
Record RelayStatus := {
  rs_enabled : bool;
  rs_configured : bool;
  rs_connected : bool;
  rs_connecting : bool;
  rs_desktop_id : option string;
  rs_session_id : option string;
  rs_connected_at : option N;
  rs_last_heartbeat_at : option N;
  rs_reconnect_attempt : N;
  rs_last_error : string }.

Definition relay_status_default : RelayStatus :=
  {| rs_enabled := false; rs_configured := false; rs_connected := false; rs_connecting := false; rs_desktop_id := None;
     rs_session_id := None; rs_connected_at := None; rs_last_heartbeat_at := None; rs_reconnect_attempt := 0;
     rs_last_error := "" |}.

(** A server of [monitor_server.rs] that listens: its address and its certificate's
    fingerprint, and the port, identity and key its thread was given. *)
Record MonitorServerHandle := {
  server_addr : string;
  server_ipv4 : bool;
  server_fingerprint : string;
  server_port : N;
  server_desktop : string;
  server_key : list byte }.

(** A client of [relay.rs]: what its thread was given. *)
Record RelayLaunch := {
  client_settings : RelaySettings;
  client_credentials : RelayCredentials;
  client_key : list byte }.

(** The two caches of [monitor_status.rs]: the calls read from a history file of a given
    length and time, and the endpoints found for a port at some instant. *)
Record RecentHistoryCache := {
  cache_len : N;
  cache_modified : option N;
  cache_calls : list Value }.

Record EndpointCache := {
  cache_port : N;
  cache_refreshed_at : N;
  cache_endpoints : list MonitorEndpoint }.

(** The fields of [AppState] that are modelled, with the world it runs in.  [supervisor] is
    the HTTPS worker, if one runs; [secrets] is the store of secrets of the operating
    system, by item name; [history_cache], [endpoint_cache], [battery_cache] and
    [device_name_cache] are statics.  [main_window] is the main window, if there is one, and
    whether it is visible; [reclaims] are the generations that the threads waiting to take a
    hidden window back were started with; [exited]: the application was told to exit.
    Records of what happened, not fields of the source, the oldest
    first: [ran] are the commands the tunnel client was run with, [sent] the requests sent to
    the Relay, [launched] what the HTTPS workers were started with, [administered] the commands
    of the OAuth administration, [relayed] the clients of the Relay that were started, [emitted] the
    events sent to the window, [privileged] the shell commands run as administrator and
    [opened] what was opened with the system's default program. *)
Record Desk := {
  desk_world : World;
  logs : Mutex (list string);
  tray_stop_error : Mutex (option string);
  quitting : bool;
  desired_connected : bool;
  reconnecting : bool;
  reconnect_attempt : N;
  recovery_of : Mutex TunnelRecoveryStatus;
  runtime_snapshot : Mutex TunnelSnapshot;
  supervisor : Mutex bool;
  https_auto : bool;
  monitor_pairing : Mutex (option MonitorPairingGrant);
  monitor_devices : Mutex (option (list MonitorDeviceRecord));
  monitor_servers : Mutex (list MonitorServerHandle);
  relay_client : Mutex (option RelayLaunch);
  relay_status : Mutex RelayStatus;
  reconnect_running : bool;
  last_reconnect_at : N;
  session_runtime_key : Mutex (option string);
  runtime_operation : Mutex unit;
  connection_operation : Mutex unit;
  permission_results : Mutex (option Value);
  secrets : gmap string string;
  history_cache : Mutex (gmap Path RecentHistoryCache);
  endpoint_cache : Mutex (option EndpointCache);
  battery_cache : Mutex (option (N * Value));
  deploy_busy : bool;
  device_name_cache : option string;
  main_window_generation : N;
  main_window : option bool;
  reclaims : list N;
  exited : bool;
  ran : list (list string);
  sent : list HttpRequest;
  launched : list HttpsLaunch;
  administered : list (list string);
  relayed : list RelayLaunch;
  emitted : list Value;
  privileged : list string;
  opened : list string }.

Definition set_desk_world (v : World) (d : Desk) : Desk :=
  {| desk_world := v; logs := logs d; tray_stop_error := tray_stop_error d; quitting := quitting d;
     desired_connected := desired_connected d; reconnecting := reconnecting d; reconnect_attempt :=
     reconnect_attempt d; recovery_of := recovery_of d; runtime_snapshot := runtime_snapshot d;
     supervisor := supervisor d; https_auto := https_auto d; monitor_pairing := monitor_pairing d;
     monitor_devices := monitor_devices d; monitor_servers := monitor_servers d; relay_client :=
     relay_client d; relay_status := relay_status d; reconnect_running := reconnect_running d;
     last_reconnect_at := last_reconnect_at d; session_runtime_key := session_runtime_key d;
     runtime_operation := runtime_operation d; connection_operation := connection_operation d;
     permission_results := permission_results d; secrets := secrets d; history_cache := history_cache
     d; endpoint_cache := endpoint_cache d; battery_cache := battery_cache d; deploy_busy :=
     deploy_busy d; device_name_cache := device_name_cache d; main_window_generation :=
     main_window_generation d; main_window := main_window d; reclaims := reclaims d; exited := exited
     d; ran := ran d; sent := sent d; launched := launched d; administered := administered d; relayed
     := relayed d; emitted := emitted d; privileged := privileged d; opened := opened d |}.
Definition set_logs (v : Mutex (list string)) (d : Desk) : Desk :=
  {| desk_world := desk_world d; logs := v; tray_stop_error := tray_stop_error d; quitting :=
     quitting d; desired_connected := desired_connected d; reconnecting := reconnecting d;
     reconnect_attempt := reconnect_attempt d; recovery_of := recovery_of d; runtime_snapshot :=
     runtime_snapshot d; supervisor := supervisor d; https_auto := https_auto d; monitor_pairing :=
     monitor_pairing d; monitor_devices := monitor_devices d; monitor_servers := monitor_servers d;
     relay_client := relay_client d; relay_status := relay_status d; reconnect_running :=
     reconnect_running d; last_reconnect_at := last_reconnect_at d; session_runtime_key :=
     session_runtime_key d; runtime_operation := runtime_operation d; connection_operation :=
     connection_operation d; permission_results := permission_results d; secrets := secrets d;
     history_cache := history_cache d; endpoint_cache := endpoint_cache d; battery_cache :=
     battery_cache d; deploy_busy := deploy_busy d; device_name_cache := device_name_cache d;
     main_window_generation := main_window_generation d; main_window := main_window d; reclaims :=
     reclaims d; exited := exited d; ran := ran d; sent := sent d; launched := launched d; administered
     := administered d; relayed := relayed d; emitted := emitted d; privileged := privileged d; opened
     := opened d |}.
Definition set_tray_stop_error (v : Mutex (option string)) (d : Desk) : Desk :=
  {| desk_world := desk_world d; logs := logs d; tray_stop_error := v; quitting := quitting d;
     desired_connected := desired_connected d; reconnecting := reconnecting d; reconnect_attempt :=
     reconnect_attempt d; recovery_of := recovery_of d; runtime_snapshot := runtime_snapshot d;
     supervisor := supervisor d; https_auto := https_auto d; monitor_pairing := monitor_pairing d;
     monitor_devices := monitor_devices d; monitor_servers := monitor_servers d; relay_client :=
     relay_client d; relay_status := relay_status d; reconnect_running := reconnect_running d;
     last_reconnect_at := last_reconnect_at d; session_runtime_key := session_runtime_key d;
     runtime_operation := runtime_operation d; connection_operation := connection_operation d;
     permission_results := permission_results d; secrets := secrets d; history_cache := history_cache
     d; endpoint_cache := endpoint_cache d; battery_cache := battery_cache d; deploy_busy :=
     deploy_busy d; device_name_cache := device_name_cache d; main_window_generation :=
     main_window_generation d; main_window := main_window d; reclaims := reclaims d; exited := exited
     d; ran := ran d; sent := sent d; launched := launched d; administered := administered d; relayed
     := relayed d; emitted := emitted d; privileged := privileged d; opened := opened d |}.
Definition set_quitting (v : bool) (d : Desk) : Desk :=
  {| desk_world := desk_world d; logs := logs d; tray_stop_error := tray_stop_error d; quitting :=
     v; desired_connected := desired_connected d; reconnecting := reconnecting d; reconnect_attempt :=
     reconnect_attempt d; recovery_of := recovery_of d; runtime_snapshot := runtime_snapshot d;
     supervisor := supervisor d; https_auto := https_auto d; monitor_pairing := monitor_pairing d;
     monitor_devices := monitor_devices d; monitor_servers := monitor_servers d; relay_client :=
     relay_client d; relay_status := relay_status d; reconnect_running := reconnect_running d;
     last_reconnect_at := last_reconnect_at d; session_runtime_key := session_runtime_key d;
     runtime_operation := runtime_operation d; connection_operation := connection_operation d;
     permission_results := permission_results d; secrets := secrets d; history_cache := history_cache
     d; endpoint_cache := endpoint_cache d; battery_cache := battery_cache d; deploy_busy :=
     deploy_busy d; device_name_cache := device_name_cache d; main_window_generation :=
     main_window_generation d; main_window := main_window d; reclaims := reclaims d; exited := exited
     d; ran := ran d; sent := sent d; launched := launched d; administered := administered d; relayed
     := relayed d; emitted := emitted d; privileged := privileged d; opened := opened d |}.
Definition set_desired_connected (v : bool) (d : Desk) : Desk :=
  {| desk_world := desk_world d; logs := logs d; tray_stop_error := tray_stop_error d; quitting :=
     quitting d; desired_connected := v; reconnecting := reconnecting d; reconnect_attempt :=
     reconnect_attempt d; recovery_of := recovery_of d; runtime_snapshot := runtime_snapshot d;
     supervisor := supervisor d; https_auto := https_auto d; monitor_pairing := monitor_pairing d;
     monitor_devices := monitor_devices d; monitor_servers := monitor_servers d; relay_client :=
     relay_client d; relay_status := relay_status d; reconnect_running := reconnect_running d;
     last_reconnect_at := last_reconnect_at d; session_runtime_key := session_runtime_key d;
     runtime_operation := runtime_operation d; connection_operation := connection_operation d;
     permission_results := permission_results d; secrets := secrets d; history_cache := history_cache
     d; endpoint_cache := endpoint_cache d; battery_cache := battery_cache d; deploy_busy :=
     deploy_busy d; device_name_cache := device_name_cache d; main_window_generation :=
     main_window_generation d; main_window := main_window d; reclaims := reclaims d; exited := exited
     d; ran := ran d; sent := sent d; launched := launched d; administered := administered d; relayed
     := relayed d; emitted := emitted d; privileged := privileged d; opened := opened d |}.
Definition set_reconnecting (v : bool) (d : Desk) : Desk :=
  {| desk_world := desk_world d; logs := logs d; tray_stop_error := tray_stop_error d; quitting :=
     quitting d; desired_connected := desired_connected d; reconnecting := v; reconnect_attempt :=
     reconnect_attempt d; recovery_of := recovery_of d; runtime_snapshot := runtime_snapshot d;
     supervisor := supervisor d; https_auto := https_auto d; monitor_pairing := monitor_pairing d;
     monitor_devices := monitor_devices d; monitor_servers := monitor_servers d; relay_client :=
     relay_client d; relay_status := relay_status d; reconnect_running := reconnect_running d;
     last_reconnect_at := last_reconnect_at d; session_runtime_key := session_runtime_key d;
     runtime_operation := runtime_operation d; connection_operation := connection_operation d;
     permission_results := permission_results d; secrets := secrets d; history_cache := history_cache
     d; endpoint_cache := endpoint_cache d; battery_cache := battery_cache d; deploy_busy :=
     deploy_busy d; device_name_cache := device_name_cache d; main_window_generation :=
     main_window_generation d; main_window := main_window d; reclaims := reclaims d; exited := exited
     d; ran := ran d; sent := sent d; launched := launched d; administered := administered d; relayed
     := relayed d; emitted := emitted d; privileged := privileged d; opened := opened d |}.
Definition set_reconnect_attempt (v : N) (d : Desk) : Desk :=
  {| desk_world := desk_world d; logs := logs d; tray_stop_error := tray_stop_error d; quitting :=
     quitting d; desired_connected := desired_connected d; reconnecting := reconnecting d;
     reconnect_attempt := v; recovery_of := recovery_of d; runtime_snapshot := runtime_snapshot d;
     supervisor := supervisor d; https_auto := https_auto d; monitor_pairing := monitor_pairing d;
     monitor_devices := monitor_devices d; monitor_servers := monitor_servers d; relay_client :=
     relay_client d; relay_status := relay_status d; reconnect_running := reconnect_running d;
     last_reconnect_at := last_reconnect_at d; session_runtime_key := session_runtime_key d;
     runtime_operation := runtime_operation d; connection_operation := connection_operation d;
     permission_results := permission_results d; secrets := secrets d; history_cache := history_cache
     d; endpoint_cache := endpoint_cache d; battery_cache := battery_cache d; deploy_busy :=
     deploy_busy d; device_name_cache := device_name_cache d; main_window_generation :=
     main_window_generation d; main_window := main_window d; reclaims := reclaims d; exited := exited
     d; ran := ran d; sent := sent d; launched := launched d; administered := administered d; relayed
     := relayed d; emitted := emitted d; privileged := privileged d; opened := opened d |}.
Definition set_recovery_of (v : Mutex TunnelRecoveryStatus) (d : Desk) : Desk :=
  {| desk_world := desk_world d; logs := logs d; tray_stop_error := tray_stop_error d; quitting :=
     quitting d; desired_connected := desired_connected d; reconnecting := reconnecting d;
     reconnect_attempt := reconnect_attempt d; recovery_of := v; runtime_snapshot := runtime_snapshot
     d; supervisor := supervisor d; https_auto := https_auto d; monitor_pairing := monitor_pairing d;
     monitor_devices := monitor_devices d; monitor_servers := monitor_servers d; relay_client :=
     relay_client d; relay_status := relay_status d; reconnect_running := reconnect_running d;
     last_reconnect_at := last_reconnect_at d; session_runtime_key := session_runtime_key d;
     runtime_operation := runtime_operation d; connection_operation := connection_operation d;
     permission_results := permission_results d; secrets := secrets d; history_cache := history_cache
     d; endpoint_cache := endpoint_cache d; battery_cache := battery_cache d; deploy_busy :=
     deploy_busy d; device_name_cache := device_name_cache d; main_window_generation :=
     main_window_generation d; main_window := main_window d; reclaims := reclaims d; exited := exited
     d; ran := ran d; sent := sent d; launched := launched d; administered := administered d; relayed
     := relayed d; emitted := emitted d; privileged := privileged d; opened := opened d |}.
Definition set_runtime_snapshot (v : Mutex TunnelSnapshot) (d : Desk) : Desk :=
  {| desk_world := desk_world d; logs := logs d; tray_stop_error := tray_stop_error d; quitting :=
     quitting d; desired_connected := desired_connected d; reconnecting := reconnecting d;
     reconnect_attempt := reconnect_attempt d; recovery_of := recovery_of d; runtime_snapshot := v;
     supervisor := supervisor d; https_auto := https_auto d; monitor_pairing := monitor_pairing d;
     monitor_devices := monitor_devices d; monitor_servers := monitor_servers d; relay_client :=
     relay_client d; relay_status := relay_status d; reconnect_running := reconnect_running d;
     last_reconnect_at := last_reconnect_at d; session_runtime_key := session_runtime_key d;
     runtime_operation := runtime_operation d; connection_operation := connection_operation d;
     permission_results := permission_results d; secrets := secrets d; history_cache := history_cache
     d; endpoint_cache := endpoint_cache d; battery_cache := battery_cache d; deploy_busy :=
     deploy_busy d; device_name_cache := device_name_cache d; main_window_generation :=
     main_window_generation d; main_window := main_window d; reclaims := reclaims d; exited := exited
     d; ran := ran d; sent := sent d; launched := launched d; administered := administered d; relayed
     := relayed d; emitted := emitted d; privileged := privileged d; opened := opened d |}.
Definition set_supervisor (v : Mutex bool) (d : Desk) : Desk :=
  {| desk_world := desk_world d; logs := logs d; tray_stop_error := tray_stop_error d; quitting :=
     quitting d; desired_connected := desired_connected d; reconnecting := reconnecting d;
     reconnect_attempt := reconnect_attempt d; recovery_of := recovery_of d; runtime_snapshot :=
     runtime_snapshot d; supervisor := v; https_auto := https_auto d; monitor_pairing :=
     monitor_pairing d; monitor_devices := monitor_devices d; monitor_servers := monitor_servers d;
     relay_client := relay_client d; relay_status := relay_status d; reconnect_running :=
     reconnect_running d; last_reconnect_at := last_reconnect_at d; session_runtime_key :=
     session_runtime_key d; runtime_operation := runtime_operation d; connection_operation :=
     connection_operation d; permission_results := permission_results d; secrets := secrets d;
     history_cache := history_cache d; endpoint_cache := endpoint_cache d; battery_cache :=
     battery_cache d; deploy_busy := deploy_busy d; device_name_cache := device_name_cache d;
     main_window_generation := main_window_generation d; main_window := main_window d; reclaims :=
     reclaims d; exited := exited d; ran := ran d; sent := sent d; launched := launched d; administered
     := administered d; relayed := relayed d; emitted := emitted d; privileged := privileged d; opened
     := opened d |}.
Definition set_https_auto (v : bool) (d : Desk) : Desk :=
  {| desk_world := desk_world d; logs := logs d; tray_stop_error := tray_stop_error d; quitting :=
     quitting d; desired_connected := desired_connected d; reconnecting := reconnecting d;
     reconnect_attempt := reconnect_attempt d; recovery_of := recovery_of d; runtime_snapshot :=
     runtime_snapshot d; supervisor := supervisor d; https_auto := v; monitor_pairing :=
     monitor_pairing d; monitor_devices := monitor_devices d; monitor_servers := monitor_servers d;
     relay_client := relay_client d; relay_status := relay_status d; reconnect_running :=
     reconnect_running d; last_reconnect_at := last_reconnect_at d; session_runtime_key :=
     session_runtime_key d; runtime_operation := runtime_operation d; connection_operation :=
     connection_operation d; permission_results := permission_results d; secrets := secrets d;
     history_cache := history_cache d; endpoint_cache := endpoint_cache d; battery_cache :=
     battery_cache d; deploy_busy := deploy_busy d; device_name_cache := device_name_cache d;
     main_window_generation := main_window_generation d; main_window := main_window d; reclaims :=
     reclaims d; exited := exited d; ran := ran d; sent := sent d; launched := launched d; administered
     := administered d; relayed := relayed d; emitted := emitted d; privileged := privileged d; opened
     := opened d |}.
Definition set_monitor_pairing (v : Mutex (option MonitorPairingGrant)) (d : Desk) : Desk :=
  {| desk_world := desk_world d; logs := logs d; tray_stop_error := tray_stop_error d; quitting :=
     quitting d; desired_connected := desired_connected d; reconnecting := reconnecting d;
     reconnect_attempt := reconnect_attempt d; recovery_of := recovery_of d; runtime_snapshot :=
     runtime_snapshot d; supervisor := supervisor d; https_auto := https_auto d; monitor_pairing := v;
     monitor_devices := monitor_devices d; monitor_servers := monitor_servers d; relay_client :=
     relay_client d; relay_status := relay_status d; reconnect_running := reconnect_running d;
     last_reconnect_at := last_reconnect_at d; session_runtime_key := session_runtime_key d;
     runtime_operation := runtime_operation d; connection_operation := connection_operation d;
     permission_results := permission_results d; secrets := secrets d; history_cache := history_cache
     d; endpoint_cache := endpoint_cache d; battery_cache := battery_cache d; deploy_busy :=
     deploy_busy d; device_name_cache := device_name_cache d; main_window_generation :=
     main_window_generation d; main_window := main_window d; reclaims := reclaims d; exited := exited
     d; ran := ran d; sent := sent d; launched := launched d; administered := administered d; relayed
     := relayed d; emitted := emitted d; privileged := privileged d; opened := opened d |}.
Definition set_monitor_devices (v : Mutex (option (list MonitorDeviceRecord))) (d : Desk) : Desk :=
  {| desk_world := desk_world d; logs := logs d; tray_stop_error := tray_stop_error d; quitting :=
     quitting d; desired_connected := desired_connected d; reconnecting := reconnecting d;
     reconnect_attempt := reconnect_attempt d; recovery_of := recovery_of d; runtime_snapshot :=
     runtime_snapshot d; supervisor := supervisor d; https_auto := https_auto d; monitor_pairing :=
     monitor_pairing d; monitor_devices := v; monitor_servers := monitor_servers d; relay_client :=
     relay_client d; relay_status := relay_status d; reconnect_running := reconnect_running d;
     last_reconnect_at := last_reconnect_at d; session_runtime_key := session_runtime_key d;
     runtime_operation := runtime_operation d; connection_operation := connection_operation d;
     permission_results := permission_results d; secrets := secrets d; history_cache := history_cache
     d; endpoint_cache := endpoint_cache d; battery_cache := battery_cache d; deploy_busy :=
     deploy_busy d; device_name_cache := device_name_cache d; main_window_generation :=
     main_window_generation d; main_window := main_window d; reclaims := reclaims d; exited := exited
     d; ran := ran d; sent := sent d; launched := launched d; administered := administered d; relayed
     := relayed d; emitted := emitted d; privileged := privileged d; opened := opened d |}.
Definition set_monitor_servers (v : Mutex (list MonitorServerHandle)) (d : Desk) : Desk :=
  {| desk_world := desk_world d; logs := logs d; tray_stop_error := tray_stop_error d; quitting :=
     quitting d; desired_connected := desired_connected d; reconnecting := reconnecting d;
     reconnect_attempt := reconnect_attempt d; recovery_of := recovery_of d; runtime_snapshot :=
     runtime_snapshot d; supervisor := supervisor d; https_auto := https_auto d; monitor_pairing :=
     monitor_pairing d; monitor_devices := monitor_devices d; monitor_servers := v; relay_client :=
     relay_client d; relay_status := relay_status d; reconnect_running := reconnect_running d;
     last_reconnect_at := last_reconnect_at d; session_runtime_key := session_runtime_key d;
     runtime_operation := runtime_operation d; connection_operation := connection_operation d;
     permission_results := permission_results d; secrets := secrets d; history_cache := history_cache
     d; endpoint_cache := endpoint_cache d; battery_cache := battery_cache d; deploy_busy :=
     deploy_busy d; device_name_cache := device_name_cache d; main_window_generation :=
     main_window_generation d; main_window := main_window d; reclaims := reclaims d; exited := exited
     d; ran := ran d; sent := sent d; launched := launched d; administered := administered d; relayed
     := relayed d; emitted := emitted d; privileged := privileged d; opened := opened d |}.
Definition set_relay_client (v : Mutex (option RelayLaunch)) (d : Desk) : Desk :=
  {| desk_world := desk_world d; logs := logs d; tray_stop_error := tray_stop_error d; quitting :=
     quitting d; desired_connected := desired_connected d; reconnecting := reconnecting d;
     reconnect_attempt := reconnect_attempt d; recovery_of := recovery_of d; runtime_snapshot :=
     runtime_snapshot d; supervisor := supervisor d; https_auto := https_auto d; monitor_pairing :=
     monitor_pairing d; monitor_devices := monitor_devices d; monitor_servers := monitor_servers d;
     relay_client := v; relay_status := relay_status d; reconnect_running := reconnect_running d;
     last_reconnect_at := last_reconnect_at d; session_runtime_key := session_runtime_key d;
     runtime_operation := runtime_operation d; connection_operation := connection_operation d;
     permission_results := permission_results d; secrets := secrets d; history_cache := history_cache
     d; endpoint_cache := endpoint_cache d; battery_cache := battery_cache d; deploy_busy :=
     deploy_busy d; device_name_cache := device_name_cache d; main_window_generation :=
     main_window_generation d; main_window := main_window d; reclaims := reclaims d; exited := exited
     d; ran := ran d; sent := sent d; launched := launched d; administered := administered d; relayed
     := relayed d; emitted := emitted d; privileged := privileged d; opened := opened d |}.
Definition set_relay_status (v : Mutex RelayStatus) (d : Desk) : Desk :=
  {| desk_world := desk_world d; logs := logs d; tray_stop_error := tray_stop_error d; quitting :=
     quitting d; desired_connected := desired_connected d; reconnecting := reconnecting d;
     reconnect_attempt := reconnect_attempt d; recovery_of := recovery_of d; runtime_snapshot :=
     runtime_snapshot d; supervisor := supervisor d; https_auto := https_auto d; monitor_pairing :=
     monitor_pairing d; monitor_devices := monitor_devices d; monitor_servers := monitor_servers d;
     relay_client := relay_client d; relay_status := v; reconnect_running := reconnect_running d;
     last_reconnect_at := last_reconnect_at d; session_runtime_key := session_runtime_key d;
     runtime_operation := runtime_operation d; connection_operation := connection_operation d;
     permission_results := permission_results d; secrets := secrets d; history_cache := history_cache
     d; endpoint_cache := endpoint_cache d; battery_cache := battery_cache d; deploy_busy :=
     deploy_busy d; device_name_cache := device_name_cache d; main_window_generation :=
     main_window_generation d; main_window := main_window d; reclaims := reclaims d; exited := exited
     d; ran := ran d; sent := sent d; launched := launched d; administered := administered d; relayed
     := relayed d; emitted := emitted d; privileged := privileged d; opened := opened d |}.
Definition set_reconnect_running (v : bool) (d : Desk) : Desk :=
  {| desk_world := desk_world d; logs := logs d; tray_stop_error := tray_stop_error d; quitting :=
     quitting d; desired_connected := desired_connected d; reconnecting := reconnecting d;
     reconnect_attempt := reconnect_attempt d; recovery_of := recovery_of d; runtime_snapshot :=
     runtime_snapshot d; supervisor := supervisor d; https_auto := https_auto d; monitor_pairing :=
     monitor_pairing d; monitor_devices := monitor_devices d; monitor_servers := monitor_servers d;
     relay_client := relay_client d; relay_status := relay_status d; reconnect_running := v;
     last_reconnect_at := last_reconnect_at d; session_runtime_key := session_runtime_key d;
     runtime_operation := runtime_operation d; connection_operation := connection_operation d;
     permission_results := permission_results d; secrets := secrets d; history_cache := history_cache
     d; endpoint_cache := endpoint_cache d; battery_cache := battery_cache d; deploy_busy :=
     deploy_busy d; device_name_cache := device_name_cache d; main_window_generation :=
     main_window_generation d; main_window := main_window d; reclaims := reclaims d; exited := exited
     d; ran := ran d; sent := sent d; launched := launched d; administered := administered d; relayed
     := relayed d; emitted := emitted d; privileged := privileged d; opened := opened d |}.
Definition set_last_reconnect_at (v : N) (d : Desk) : Desk :=
  {| desk_world := desk_world d; logs := logs d; tray_stop_error := tray_stop_error d; quitting :=
     quitting d; desired_connected := desired_connected d; reconnecting := reconnecting d;
     reconnect_attempt := reconnect_attempt d; recovery_of := recovery_of d; runtime_snapshot :=
     runtime_snapshot d; supervisor := supervisor d; https_auto := https_auto d; monitor_pairing :=
     monitor_pairing d; monitor_devices := monitor_devices d; monitor_servers := monitor_servers d;
     relay_client := relay_client d; relay_status := relay_status d; reconnect_running :=
     reconnect_running d; last_reconnect_at := v; session_runtime_key := session_runtime_key d;
     runtime_operation := runtime_operation d; connection_operation := connection_operation d;
     permission_results := permission_results d; secrets := secrets d; history_cache := history_cache
     d; endpoint_cache := endpoint_cache d; battery_cache := battery_cache d; deploy_busy :=
     deploy_busy d; device_name_cache := device_name_cache d; main_window_generation :=
     main_window_generation d; main_window := main_window d; reclaims := reclaims d; exited := exited
     d; ran := ran d; sent := sent d; launched := launched d; administered := administered d; relayed
     := relayed d; emitted := emitted d; privileged := privileged d; opened := opened d |}.
Definition set_session_runtime_key (v : Mutex (option string)) (d : Desk) : Desk :=
  {| desk_world := desk_world d; logs := logs d; tray_stop_error := tray_stop_error d; quitting :=
     quitting d; desired_connected := desired_connected d; reconnecting := reconnecting d;
     reconnect_attempt := reconnect_attempt d; recovery_of := recovery_of d; runtime_snapshot :=
     runtime_snapshot d; supervisor := supervisor d; https_auto := https_auto d; monitor_pairing :=
     monitor_pairing d; monitor_devices := monitor_devices d; monitor_servers := monitor_servers d;
     relay_client := relay_client d; relay_status := relay_status d; reconnect_running :=
     reconnect_running d; last_reconnect_at := last_reconnect_at d; session_runtime_key := v;
     runtime_operation := runtime_operation d; connection_operation := connection_operation d;
     permission_results := permission_results d; secrets := secrets d; history_cache := history_cache
     d; endpoint_cache := endpoint_cache d; battery_cache := battery_cache d; deploy_busy :=
     deploy_busy d; device_name_cache := device_name_cache d; main_window_generation :=
     main_window_generation d; main_window := main_window d; reclaims := reclaims d; exited := exited
     d; ran := ran d; sent := sent d; launched := launched d; administered := administered d; relayed
     := relayed d; emitted := emitted d; privileged := privileged d; opened := opened d |}.
Definition set_permission_results (v : Mutex (option Value)) (d : Desk) : Desk :=
  {| desk_world := desk_world d; logs := logs d; tray_stop_error := tray_stop_error d; quitting :=
     quitting d; desired_connected := desired_connected d; reconnecting := reconnecting d;
     reconnect_attempt := reconnect_attempt d; recovery_of := recovery_of d; runtime_snapshot :=
     runtime_snapshot d; supervisor := supervisor d; https_auto := https_auto d; monitor_pairing :=
     monitor_pairing d; monitor_devices := monitor_devices d; monitor_servers := monitor_servers d;
     relay_client := relay_client d; relay_status := relay_status d; reconnect_running :=
     reconnect_running d; last_reconnect_at := last_reconnect_at d; session_runtime_key :=
     session_runtime_key d; runtime_operation := runtime_operation d; connection_operation :=
     connection_operation d; permission_results := v; secrets := secrets d; history_cache :=
     history_cache d; endpoint_cache := endpoint_cache d; battery_cache := battery_cache d; deploy_busy
     := deploy_busy d; device_name_cache := device_name_cache d; main_window_generation :=
     main_window_generation d; main_window := main_window d; reclaims := reclaims d; exited := exited
     d; ran := ran d; sent := sent d; launched := launched d; administered := administered d; relayed
     := relayed d; emitted := emitted d; privileged := privileged d; opened := opened d |}.
Definition set_secrets (v : gmap string string) (d : Desk) : Desk :=
  {| desk_world := desk_world d; logs := logs d; tray_stop_error := tray_stop_error d; quitting :=
     quitting d; desired_connected := desired_connected d; reconnecting := reconnecting d;
     reconnect_attempt := reconnect_attempt d; recovery_of := recovery_of d; runtime_snapshot :=
     runtime_snapshot d; supervisor := supervisor d; https_auto := https_auto d; monitor_pairing :=
     monitor_pairing d; monitor_devices := monitor_devices d; monitor_servers := monitor_servers d;
     relay_client := relay_client d; relay_status := relay_status d; reconnect_running :=
     reconnect_running d; last_reconnect_at := last_reconnect_at d; session_runtime_key :=
     session_runtime_key d; runtime_operation := runtime_operation d; connection_operation :=
     connection_operation d; permission_results := permission_results d; secrets := v; history_cache :=
     history_cache d; endpoint_cache := endpoint_cache d; battery_cache := battery_cache d; deploy_busy
     := deploy_busy d; device_name_cache := device_name_cache d; main_window_generation :=
     main_window_generation d; main_window := main_window d; reclaims := reclaims d; exited := exited
     d; ran := ran d; sent := sent d; launched := launched d; administered := administered d; relayed
     := relayed d; emitted := emitted d; privileged := privileged d; opened := opened d |}.
Definition set_history_cache (v : Mutex (gmap Path RecentHistoryCache)) (d : Desk) : Desk :=
  {| desk_world := desk_world d; logs := logs d; tray_stop_error := tray_stop_error d; quitting :=
     quitting d; desired_connected := desired_connected d; reconnecting := reconnecting d;
     reconnect_attempt := reconnect_attempt d; recovery_of := recovery_of d; runtime_snapshot :=
     runtime_snapshot d; supervisor := supervisor d; https_auto := https_auto d; monitor_pairing :=
     monitor_pairing d; monitor_devices := monitor_devices d; monitor_servers := monitor_servers d;
     relay_client := relay_client d; relay_status := relay_status d; reconnect_running :=
     reconnect_running d; last_reconnect_at := last_reconnect_at d; session_runtime_key :=
     session_runtime_key d; runtime_operation := runtime_operation d; connection_operation :=
     connection_operation d; permission_results := permission_results d; secrets := secrets d;
     history_cache := v; endpoint_cache := endpoint_cache d; battery_cache := battery_cache d;
     deploy_busy := deploy_busy d; device_name_cache := device_name_cache d; main_window_generation :=
     main_window_generation d; main_window := main_window d; reclaims := reclaims d; exited := exited
     d; ran := ran d; sent := sent d; launched := launched d; administered := administered d; relayed
     := relayed d; emitted := emitted d; privileged := privileged d; opened := opened d |}.
Definition set_endpoint_cache (v : Mutex (option EndpointCache)) (d : Desk) : Desk :=
  {| desk_world := desk_world d; logs := logs d; tray_stop_error := tray_stop_error d; quitting :=
     quitting d; desired_connected := desired_connected d; reconnecting := reconnecting d;
     reconnect_attempt := reconnect_attempt d; recovery_of := recovery_of d; runtime_snapshot :=
     runtime_snapshot d; supervisor := supervisor d; https_auto := https_auto d; monitor_pairing :=
     monitor_pairing d; monitor_devices := monitor_devices d; monitor_servers := monitor_servers d;
     relay_client := relay_client d; relay_status := relay_status d; reconnect_running :=
     reconnect_running d; last_reconnect_at := last_reconnect_at d; session_runtime_key :=
     session_runtime_key d; runtime_operation := runtime_operation d; connection_operation :=
     connection_operation d; permission_results := permission_results d; secrets := secrets d;
     history_cache := history_cache d; endpoint_cache := v; battery_cache := battery_cache d;
     deploy_busy := deploy_busy d; device_name_cache := device_name_cache d; main_window_generation :=
     main_window_generation d; main_window := main_window d; reclaims := reclaims d; exited := exited
     d; ran := ran d; sent := sent d; launched := launched d; administered := administered d; relayed
     := relayed d; emitted := emitted d; privileged := privileged d; opened := opened d |}.
Definition set_battery_cache (v : Mutex (option (N * Value))) (d : Desk) : Desk :=
  {| desk_world := desk_world d; logs := logs d; tray_stop_error := tray_stop_error d; quitting :=
     quitting d; desired_connected := desired_connected d; reconnecting := reconnecting d;
     reconnect_attempt := reconnect_attempt d; recovery_of := recovery_of d; runtime_snapshot :=
     runtime_snapshot d; supervisor := supervisor d; https_auto := https_auto d; monitor_pairing :=
     monitor_pairing d; monitor_devices := monitor_devices d; monitor_servers := monitor_servers d;
     relay_client := relay_client d; relay_status := relay_status d; reconnect_running :=
     reconnect_running d; last_reconnect_at := last_reconnect_at d; session_runtime_key :=
     session_runtime_key d; runtime_operation := runtime_operation d; connection_operation :=
     connection_operation d; permission_results := permission_results d; secrets := secrets d;
     history_cache := history_cache d; endpoint_cache := endpoint_cache d; battery_cache := v;
     deploy_busy := deploy_busy d; device_name_cache := device_name_cache d; main_window_generation :=
     main_window_generation d; main_window := main_window d; reclaims := reclaims d; exited := exited
     d; ran := ran d; sent := sent d; launched := launched d; administered := administered d; relayed
     := relayed d; emitted := emitted d; privileged := privileged d; opened := opened d |}.
Definition set_deploy_busy (v : bool) (d : Desk) : Desk :=
  {| desk_world := desk_world d; logs := logs d; tray_stop_error := tray_stop_error d; quitting :=
     quitting d; desired_connected := desired_connected d; reconnecting := reconnecting d;
     reconnect_attempt := reconnect_attempt d; recovery_of := recovery_of d; runtime_snapshot :=
     runtime_snapshot d; supervisor := supervisor d; https_auto := https_auto d; monitor_pairing :=
     monitor_pairing d; monitor_devices := monitor_devices d; monitor_servers := monitor_servers d;
     relay_client := relay_client d; relay_status := relay_status d; reconnect_running :=
     reconnect_running d; last_reconnect_at := last_reconnect_at d; session_runtime_key :=
     session_runtime_key d; runtime_operation := runtime_operation d; connection_operation :=
     connection_operation d; permission_results := permission_results d; secrets := secrets d;
     history_cache := history_cache d; endpoint_cache := endpoint_cache d; battery_cache :=
     battery_cache d; deploy_busy := v; device_name_cache := device_name_cache d;
     main_window_generation := main_window_generation d; main_window := main_window d; reclaims :=
     reclaims d; exited := exited d; ran := ran d; sent := sent d; launched := launched d; administered
     := administered d; relayed := relayed d; emitted := emitted d; privileged := privileged d; opened
     := opened d |}.
Definition set_ran (v : list (list string)) (d : Desk) : Desk :=
  {| desk_world := desk_world d; logs := logs d; tray_stop_error := tray_stop_error d; quitting :=
     quitting d; desired_connected := desired_connected d; reconnecting := reconnecting d;
     reconnect_attempt := reconnect_attempt d; recovery_of := recovery_of d; runtime_snapshot :=
     runtime_snapshot d; supervisor := supervisor d; https_auto := https_auto d; monitor_pairing :=
     monitor_pairing d; monitor_devices := monitor_devices d; monitor_servers := monitor_servers d;
     relay_client := relay_client d; relay_status := relay_status d; reconnect_running :=
     reconnect_running d; last_reconnect_at := last_reconnect_at d; session_runtime_key :=
     session_runtime_key d; runtime_operation := runtime_operation d; connection_operation :=
     connection_operation d; permission_results := permission_results d; secrets := secrets d;
     history_cache := history_cache d; endpoint_cache := endpoint_cache d; battery_cache :=
     battery_cache d; deploy_busy := deploy_busy d; device_name_cache := device_name_cache d;
     main_window_generation := main_window_generation d; main_window := main_window d; reclaims :=
     reclaims d; exited := exited d; ran := v; sent := sent d; launched := launched d; administered :=
     administered d; relayed := relayed d; emitted := emitted d; privileged := privileged d; opened :=
     opened d |}.
Definition set_sent (v : list HttpRequest) (d : Desk) : Desk :=
  {| desk_world := desk_world d; logs := logs d; tray_stop_error := tray_stop_error d; quitting :=
     quitting d; desired_connected := desired_connected d; reconnecting := reconnecting d;
     reconnect_attempt := reconnect_attempt d; recovery_of := recovery_of d; runtime_snapshot :=
     runtime_snapshot d; supervisor := supervisor d; https_auto := https_auto d; monitor_pairing :=
     monitor_pairing d; monitor_devices := monitor_devices d; monitor_servers := monitor_servers d;
     relay_client := relay_client d; relay_status := relay_status d; reconnect_running :=
     reconnect_running d; last_reconnect_at := last_reconnect_at d; session_runtime_key :=
     session_runtime_key d; runtime_operation := runtime_operation d; connection_operation :=
     connection_operation d; permission_results := permission_results d; secrets := secrets d;
     history_cache := history_cache d; endpoint_cache := endpoint_cache d; battery_cache :=
     battery_cache d; deploy_busy := deploy_busy d; device_name_cache := device_name_cache d;
     main_window_generation := main_window_generation d; main_window := main_window d; reclaims :=
     reclaims d; exited := exited d; ran := ran d; sent := v; launched := launched d; administered :=
     administered d; relayed := relayed d; emitted := emitted d; privileged := privileged d; opened :=
     opened d |}.
Definition set_launched (v : list HttpsLaunch) (d : Desk) : Desk :=
  {| desk_world := desk_world d; logs := logs d; tray_stop_error := tray_stop_error d; quitting :=
     quitting d; desired_connected := desired_connected d; reconnecting := reconnecting d;
     reconnect_attempt := reconnect_attempt d; recovery_of := recovery_of d; runtime_snapshot :=
     runtime_snapshot d; supervisor := supervisor d; https_auto := https_auto d; monitor_pairing :=
     monitor_pairing d; monitor_devices := monitor_devices d; monitor_servers := monitor_servers d;
     relay_client := relay_client d; relay_status := relay_status d; reconnect_running :=
     reconnect_running d; last_reconnect_at := last_reconnect_at d; session_runtime_key :=
     session_runtime_key d; runtime_operation := runtime_operation d; connection_operation :=
     connection_operation d; permission_results := permission_results d; secrets := secrets d;
     history_cache := history_cache d; endpoint_cache := endpoint_cache d; battery_cache :=
     battery_cache d; deploy_busy := deploy_busy d; device_name_cache := device_name_cache d;
     main_window_generation := main_window_generation d; main_window := main_window d; reclaims :=
     reclaims d; exited := exited d; ran := ran d; sent := sent d; launched := v; administered :=
     administered d; relayed := relayed d; emitted := emitted d; privileged := privileged d; opened :=
     opened d |}.
Definition set_administered (v : list (list string)) (d : Desk) : Desk :=
  {| desk_world := desk_world d; logs := logs d; tray_stop_error := tray_stop_error d; quitting :=
     quitting d; desired_connected := desired_connected d; reconnecting := reconnecting d;
     reconnect_attempt := reconnect_attempt d; recovery_of := recovery_of d; runtime_snapshot :=
     runtime_snapshot d; supervisor := supervisor d; https_auto := https_auto d; monitor_pairing :=
     monitor_pairing d; monitor_devices := monitor_devices d; monitor_servers := monitor_servers d;
     relay_client := relay_client d; relay_status := relay_status d; reconnect_running :=
     reconnect_running d; last_reconnect_at := last_reconnect_at d; session_runtime_key :=
     session_runtime_key d; runtime_operation := runtime_operation d; connection_operation :=
     connection_operation d; permission_results := permission_results d; secrets := secrets d;
     history_cache := history_cache d; endpoint_cache := endpoint_cache d; battery_cache :=
     battery_cache d; deploy_busy := deploy_busy d; device_name_cache := device_name_cache d;
     main_window_generation := main_window_generation d; main_window := main_window d; reclaims :=
     reclaims d; exited := exited d; ran := ran d; sent := sent d; launched := launched d; administered
     := v; relayed := relayed d; emitted := emitted d; privileged := privileged d; opened := opened d
     |}.
Definition set_relayed (v : list RelayLaunch) (d : Desk) : Desk :=
  {| desk_world := desk_world d; logs := logs d; tray_stop_error := tray_stop_error d; quitting :=
     quitting d; desired_connected := desired_connected d; reconnecting := reconnecting d;
     reconnect_attempt := reconnect_attempt d; recovery_of := recovery_of d; runtime_snapshot :=
     runtime_snapshot d; supervisor := supervisor d; https_auto := https_auto d; monitor_pairing :=
     monitor_pairing d; monitor_devices := monitor_devices d; monitor_servers := monitor_servers d;
     relay_client := relay_client d; relay_status := relay_status d; reconnect_running :=
     reconnect_running d; last_reconnect_at := last_reconnect_at d; session_runtime_key :=
     session_runtime_key d; runtime_operation := runtime_operation d; connection_operation :=
     connection_operation d; permission_results := permission_results d; secrets := secrets d;
     history_cache := history_cache d; endpoint_cache := endpoint_cache d; battery_cache :=
     battery_cache d; deploy_busy := deploy_busy d; device_name_cache := device_name_cache d;
     main_window_generation := main_window_generation d; main_window := main_window d; reclaims :=
     reclaims d; exited := exited d; ran := ran d; sent := sent d; launched := launched d; administered
     := administered d; relayed := v; emitted := emitted d; privileged := privileged d; opened :=
     opened d |}.
Definition set_emitted (v : list Value) (d : Desk) : Desk :=
  {| desk_world := desk_world d; logs := logs d; tray_stop_error := tray_stop_error d; quitting :=
     quitting d; desired_connected := desired_connected d; reconnecting := reconnecting d;
     reconnect_attempt := reconnect_attempt d; recovery_of := recovery_of d; runtime_snapshot :=
     runtime_snapshot d; supervisor := supervisor d; https_auto := https_auto d; monitor_pairing :=
     monitor_pairing d; monitor_devices := monitor_devices d; monitor_servers := monitor_servers d;
     relay_client := relay_client d; relay_status := relay_status d; reconnect_running :=
     reconnect_running d; last_reconnect_at := last_reconnect_at d; session_runtime_key :=
     session_runtime_key d; runtime_operation := runtime_operation d; connection_operation :=
     connection_operation d; permission_results := permission_results d; secrets := secrets d;
     history_cache := history_cache d; endpoint_cache := endpoint_cache d; battery_cache :=
     battery_cache d; deploy_busy := deploy_busy d; device_name_cache := device_name_cache d;
     main_window_generation := main_window_generation d; main_window := main_window d; reclaims :=
     reclaims d; exited := exited d; ran := ran d; sent := sent d; launched := launched d; administered
     := administered d; relayed := relayed d; emitted := v; privileged := privileged d; opened :=
     opened d |}.
Definition set_privileged (v : list string) (d : Desk) : Desk :=
  {| desk_world := desk_world d; logs := logs d; tray_stop_error := tray_stop_error d; quitting :=
     quitting d; desired_connected := desired_connected d; reconnecting := reconnecting d;
     reconnect_attempt := reconnect_attempt d; recovery_of := recovery_of d; runtime_snapshot :=
     runtime_snapshot d; supervisor := supervisor d; https_auto := https_auto d; monitor_pairing :=
     monitor_pairing d; monitor_devices := monitor_devices d; monitor_servers := monitor_servers d;
     relay_client := relay_client d; relay_status := relay_status d; reconnect_running :=
     reconnect_running d; last_reconnect_at := last_reconnect_at d; session_runtime_key :=
     session_runtime_key d; runtime_operation := runtime_operation d; connection_operation :=
     connection_operation d; permission_results := permission_results d; secrets := secrets d;
     history_cache := history_cache d; endpoint_cache := endpoint_cache d; battery_cache :=
     battery_cache d; deploy_busy := deploy_busy d; device_name_cache := device_name_cache d;
     main_window_generation := main_window_generation d; main_window := main_window d; reclaims :=
     reclaims d; exited := exited d; ran := ran d; sent := sent d; launched := launched d; administered
     := administered d; relayed := relayed d; emitted := emitted d; privileged := v; opened := opened d
     |}.
Definition set_opened (v : list string) (d : Desk) : Desk :=
  {| desk_world := desk_world d; logs := logs d; tray_stop_error := tray_stop_error d; quitting :=
     quitting d; desired_connected := desired_connected d; reconnecting := reconnecting d;
     reconnect_attempt := reconnect_attempt d; recovery_of := recovery_of d; runtime_snapshot :=
     runtime_snapshot d; supervisor := supervisor d; https_auto := https_auto d; monitor_pairing :=
     monitor_pairing d; monitor_devices := monitor_devices d; monitor_servers := monitor_servers d;
     relay_client := relay_client d; relay_status := relay_status d; reconnect_running :=
     reconnect_running d; last_reconnect_at := last_reconnect_at d; session_runtime_key :=
     session_runtime_key d; runtime_operation := runtime_operation d; connection_operation :=
     connection_operation d; permission_results := permission_results d; secrets := secrets d;
     history_cache := history_cache d; endpoint_cache := endpoint_cache d; battery_cache :=
     battery_cache d; deploy_busy := deploy_busy d; device_name_cache := device_name_cache d;
     main_window_generation := main_window_generation d; main_window := main_window d; reclaims :=
     reclaims d; exited := exited d; ran := ran d; sent := sent d; launched := launched d; administered
     := administered d; relayed := relayed d; emitted := emitted d; privileged := privileged d; opened
     := v |}.

Definition set_device_name_cache (v : option string) (d : Desk) : Desk :=
  {| desk_world := desk_world d; logs := logs d; tray_stop_error := tray_stop_error d; quitting :=
     quitting d; desired_connected := desired_connected d; reconnecting := reconnecting d;
     reconnect_attempt := reconnect_attempt d; recovery_of := recovery_of d; runtime_snapshot :=
     runtime_snapshot d; supervisor := supervisor d; https_auto := https_auto d; monitor_pairing :=
     monitor_pairing d; monitor_devices := monitor_devices d; monitor_servers := monitor_servers d;
     relay_client := relay_client d; relay_status := relay_status d; reconnect_running :=
     reconnect_running d; last_reconnect_at := last_reconnect_at d; session_runtime_key :=
     session_runtime_key d; runtime_operation := runtime_operation d; connection_operation :=
     connection_operation d; permission_results := permission_results d; secrets := secrets d;
     history_cache := history_cache d; endpoint_cache := endpoint_cache d; battery_cache :=
     battery_cache d; deploy_busy := deploy_busy d; device_name_cache := v; main_window_generation :=
     main_window_generation d; main_window := main_window d; reclaims := reclaims d; exited := exited
     d; ran := ran d; sent := sent d; launched := launched d; administered := administered d; relayed
     := relayed d; emitted := emitted d; privileged := privileged d; opened := opened d |}.

Definition set_main_window_generation (v : N) (d : Desk) : Desk :=
  {| desk_world := desk_world d; logs := logs d; tray_stop_error := tray_stop_error d; quitting :=
     quitting d; desired_connected := desired_connected d; reconnecting := reconnecting d;
     reconnect_attempt := reconnect_attempt d; recovery_of := recovery_of d; runtime_snapshot :=
     runtime_snapshot d; supervisor := supervisor d; https_auto := https_auto d; monitor_pairing :=
     monitor_pairing d; monitor_devices := monitor_devices d; monitor_servers := monitor_servers d;
     relay_client := relay_client d; relay_status := relay_status d; reconnect_running :=
     reconnect_running d; last_reconnect_at := last_reconnect_at d; session_runtime_key :=
     session_runtime_key d; runtime_operation := runtime_operation d; connection_operation :=
     connection_operation d; permission_results := permission_results d; secrets := secrets d;
     history_cache := history_cache d; endpoint_cache := endpoint_cache d; battery_cache :=
     battery_cache d; deploy_busy := deploy_busy d; device_name_cache := device_name_cache d;
     main_window_generation := v; main_window := main_window d; reclaims := reclaims d; exited :=
     exited d; ran := ran d; sent := sent d; launched := launched d; administered := administered d;
     relayed := relayed d; emitted := emitted d; privileged := privileged d; opened := opened d |}.

Definition set_main_window (v : option bool) (d : Desk) : Desk :=
  {| desk_world := desk_world d; logs := logs d; tray_stop_error := tray_stop_error d; quitting :=
     quitting d; desired_connected := desired_connected d; reconnecting := reconnecting d;
     reconnect_attempt := reconnect_attempt d; recovery_of := recovery_of d; runtime_snapshot :=
     runtime_snapshot d; supervisor := supervisor d; https_auto := https_auto d; monitor_pairing :=
     monitor_pairing d; monitor_devices := monitor_devices d; monitor_servers := monitor_servers d;
     relay_client := relay_client d; relay_status := relay_status d; reconnect_running :=
     reconnect_running d; last_reconnect_at := last_reconnect_at d; session_runtime_key :=
     session_runtime_key d; runtime_operation := runtime_operation d; connection_operation :=
     connection_operation d; permission_results := permission_results d; secrets := secrets d;
     history_cache := history_cache d; endpoint_cache := endpoint_cache d; battery_cache :=
     battery_cache d; deploy_busy := deploy_busy d; device_name_cache := device_name_cache d;
     main_window_generation := main_window_generation d; main_window := v; reclaims := reclaims d;
     exited := exited d; ran := ran d; sent := sent d; launched := launched d; administered :=
     administered d; relayed := relayed d; emitted := emitted d; privileged := privileged d; opened :=
     opened d |}.

Definition set_reclaims (v : list N) (d : Desk) : Desk :=
  {| desk_world := desk_world d; logs := logs d; tray_stop_error := tray_stop_error d; quitting :=
     quitting d; desired_connected := desired_connected d; reconnecting := reconnecting d;
     reconnect_attempt := reconnect_attempt d; recovery_of := recovery_of d; runtime_snapshot :=
     runtime_snapshot d; supervisor := supervisor d; https_auto := https_auto d; monitor_pairing :=
     monitor_pairing d; monitor_devices := monitor_devices d; monitor_servers := monitor_servers d;
     relay_client := relay_client d; relay_status := relay_status d; reconnect_running :=
     reconnect_running d; last_reconnect_at := last_reconnect_at d; session_runtime_key :=
     session_runtime_key d; runtime_operation := runtime_operation d; connection_operation :=
     connection_operation d; permission_results := permission_results d; secrets := secrets d;
     history_cache := history_cache d; endpoint_cache := endpoint_cache d; battery_cache :=
     battery_cache d; deploy_busy := deploy_busy d; device_name_cache := device_name_cache d;
     main_window_generation := main_window_generation d; main_window := main_window d; reclaims := v;
     exited := exited d; ran := ran d; sent := sent d; launched := launched d; administered :=
     administered d; relayed := relayed d; emitted := emitted d; privileged := privileged d; opened :=
     opened d |}.

Definition set_exited (v : bool) (d : Desk) : Desk :=
  {| desk_world := desk_world d; logs := logs d; tray_stop_error := tray_stop_error d; quitting :=
     quitting d; desired_connected := desired_connected d; reconnecting := reconnecting d;
     reconnect_attempt := reconnect_attempt d; recovery_of := recovery_of d; runtime_snapshot :=
     runtime_snapshot d; supervisor := supervisor d; https_auto := https_auto d; monitor_pairing :=
     monitor_pairing d; monitor_devices := monitor_devices d; monitor_servers := monitor_servers d;
     relay_client := relay_client d; relay_status := relay_status d; reconnect_running :=
     reconnect_running d; last_reconnect_at := last_reconnect_at d; session_runtime_key :=
     session_runtime_key d; runtime_operation := runtime_operation d; connection_operation :=
     connection_operation d; permission_results := permission_results d; secrets := secrets d;
     history_cache := history_cache d; endpoint_cache := endpoint_cache d; battery_cache :=
     battery_cache d; deploy_busy := deploy_busy d; device_name_cache := device_name_cache d;
     main_window_generation := main_window_generation d; main_window := main_window d; reclaims :=
     reclaims d; exited := v; ran := ran d; sent := sent d; launched := launched d; administered :=
     administered d; relayed := relayed d; emitted := emitted d; privileged := privileged d; opened :=
     opened d |}.

(** [AppState::default()] in a given world. *)
Definition desk_default (w : World) : Desk :=
  {| desk_world := w; logs := new_mutex []; tray_stop_error := new_mutex None; quitting := false;
     desired_connected := false; reconnecting := false; reconnect_attempt := 0;
     recovery_of := new_mutex recovery_default; runtime_snapshot := new_mutex tunnel_snapshot_default;
     supervisor := new_mutex false; https_auto := false; monitor_pairing := new_mutex None; monitor_devices := new_mutex None;
     monitor_servers := new_mutex []; relay_client := new_mutex None; relay_status := new_mutex relay_status_default;
     reconnect_running := false; last_reconnect_at := 0; session_runtime_key := new_mutex None;
     runtime_operation := new_mutex tt; connection_operation := new_mutex tt;
     permission_results := new_mutex None; secrets := ∅; history_cache := new_mutex ∅; endpoint_cache := new_mutex None;
     battery_cache := new_mutex None; deploy_busy := false;
     device_name_cache := None; main_window_generation := 0; main_window := None; reclaims := []; exited := false; ran := []; sent := []; launched := []; administered := [];
     relayed := []; emitted := []; privileged := []; opened := [] |}.

(** A computation of the application; [None] when the process died on the way. *)
Definition App (A : Type) : Type := Desk -> option A * Desk.
Definition app_ret {A} (a : A) : App A := fun d => (Some a, d).
Definition app_bind {A B} (m : App A) (k : A -> App B) : App B :=
  fun d => match m d with
           | (Some a, d') => k a d'
           | (None, d') => (None, d')
           end.
Definition app_try {A B E} (m : App (Result A E)) (k : A -> App (Result B E)) : App (Result B E) :=
  app_bind m (fun r => match r with Ok a => k a | Err e => app_ret (Err e) end).
Definition app_modify (f : Desk -> Desk) : App unit := fun d => (Some tt, f d).
Definition app_get {A} (f : Desk -> A) : App A := fun d => (Some (f d), d).
(** A file operation of the application. *)
Definition on_files {A} (m : Fs A) : App A :=
  fun d => let '(r, w) := m (desk_world d) in (r, set_desk_world w d).

Notation "x '<-app' m ';;' k" := (app_bind m (fun x => k))
  (at level 100, m at next level, right associativity) : rust_scope.
Notation "x '<-app?' m ';;' k" := (app_try m (fun x => k))
  (at level 100, m at next level, right associativity) : rust_scope.

(** [if let Ok(mut value) = lock { *value = f(value) }] *)
Definition update_locked {A} (f : A -> A) (m : Mutex A) : Mutex A :=
  match lock m with Some a => set_guarded (f a) m | None => m end.

(** [push_log] keeps the last 300 lines. *)
Definition push_line (line : string) (lines : list string) : list string :=
  let lines := (lines ++ [line])%list in
  if (300 <? length lines)%nat then skipn (length lines - 300) lines else lines.

Definition push_log (stamp message : string) (d : Desk) : Desk :=
  set_logs (update_locked (push_line ("[" ++ stamp ++ "] " ++ message)) (logs d)) d.

(** ** Inversion *)

Lemma app_bind_inv {A B} (m : App A) (k : A -> App B) d res d' :
  app_bind m k d = (res, d') ->
  (m d = (None, d') /\ res = None) \/ exists a d1, m d = (Some a, d1) /\ k a d1 = (res, d').
Proof. unfold app_bind. destruct (m d) as [[a|] d1]; [by right; exists a, d1|]. intros [= <- <-]. by left. Qed.

Lemma app_try_inv {A B E} (m : App (Result A E)) (k : A -> App (Result B E)) d res d' :
  app_try m k d = (res, d') ->
  (m d = (None, d') /\ res = None) \/ (exists e, m d = (Some (Err e), d') /\ res = Some (Err e))
  \/ exists a d1, m d = (Some (Ok a), d1) /\ k a d1 = (res, d').
Proof.
  intros [?|(r & d1 & H & Hk)]%app_bind_inv; [by left|]. destruct r as [a|e]; [right; right; by exists a, d1|].
  injection Hk as <- <-. right; left. by exists e.
Qed.

Lemma on_files_inv {A} (m : Fs A) d res d' :
  on_files m d = (res, d') -> exists w', m (desk_world d) = (res, w') /\ d' = set_desk_world w' d.
Proof. unfold on_files. destruct (m (desk_world d)) as [r w']. intros [= <- <-]. by exists w'. Qed.

Lemma lock_update {A} (f : A -> A) (m : Mutex A) :
  lock (update_locked f m) = match lock m with Some a => Some (f a) | None => None end.
Proof. unfold update_locked. destruct m as [a []]; done. Qed.
