(* ===== verification/Proxy.v ===== *)
(** * Proxy addresses and the environment of the tunnel process
    ([src-tauri/src/proxy_utils.rs]) *)

From S2P Require Export Settings.
Local Open Scope string_scope.

(** ** Splitting strings *)

(** [str::split_once] with a string pattern. *)
Fixpoint split_once (sep s : string) : option (string * string) :=
  match strip_prefix sep s with
  | Some rest => Some ("", rest)
  | None => match s with
            | EmptyString => None
            | String a s' => match split_once sep s' with
                             | Some (l, r) => Some (String a l, r)
                             | None => None
                             end
            end
  end.

(** [str::rsplit_once] with a character. *)
Fixpoint rsplit_once (c : ascii) (s : string) : option (string * string) :=
  match s with
  | EmptyString => None
  | String a s' =>
      match rsplit_once c s' with
      | Some (l, r) => Some (String a l, r)
      | None => if ascii_dec a c then Some ("", s') else None
      end
  end.

(** The decimal digits of [parse::<u16>()]: every partial value must fit. *)
Fixpoint u16_digits (acc : N) (s : string) : option N :=
  match s with
  | EmptyString => Some acc
  | String a s' =>
      if is_ascii_digit a
      then let acc := (acc * 10 + (ascii_code a - 48))%N in
           if (65535 <? acc)%N then None else u16_digits acc s'
      else None
  end.

Definition parse_u16 (s : string) : option N :=
  let digits := match s with String "+" rest => rest | _ => s end in
  if is_empty digits then None else u16_digits 0 digits.

(** ** Addresses *)

Definition proxy_prefixes : list string := ["http://"; "https://"; "socks5://"; "socks5h://"].

Definition validate_proxy_url (value : string) : Result string string :=
  let value := trim value in
  if is_empty value then Err "代理地址不能为空。"
  else if existsb is_whitespace (utf8_chars value) || contains "@" value
  then Err "代理地址不能包含空格或账号密码；当前版本仅支持无认证代理。"
  else if negb (existsb (fun prefix => starts_with prefix value) proxy_prefixes)
  then Err "代理地址必须以 http://、https://、socks5:// 或 socks5h:// 开头。"
  else let rest := match split_once "://" value with Some (_, rest) => rest | None => "" end in
       if is_empty rest || contains "/" rest then Err "代理地址仅支持 host:port，不支持路径。"
       else Ok value.

Definition proxy_host_port (value : string) : option (string * N) :=
  match validate_proxy_url value with
  | Err _ => None
  | Ok value =>
      match split_once "://" value with
      | None => None
      | Some (scheme, authority) =>
          let default := match scheme with
                         | "http" => Some 80%N
                         | "https" => Some 443%N
                         | "socks5" | "socks5h" => Some 1080%N
                         | _ => None
                         end in
          let default_answer := match default with Some port => Some (authority, port) | None => None end in
          match authority with
          | String "[" inner =>
              match split_once "]" inner with
              | None => None
              | Some (host, after) =>
                  match strip_prefix ":" after with
                  | None => None
                  | Some port => match parse_u16 port with Some port => Some (host, port) | None => None end
                  end
              end
          | _ =>
              match rsplit_once ":" authority with
              | Some (host, port) =>
                  if negb (is_empty host)
                  then match parse_u16 port with Some port => Some (host, port) | None => None end
                  else default_answer
              | None => default_answer
              end
          end
      end
  end.

Definition effective_proxy_url (settings : Settings) : Result (option string) string :=
  match proxy_mode (proxy settings) with
  | "direct" => Ok None
  | "system" =>
      if is_empty (trim (proxy_applied_url (proxy settings))) then Ok None
      else url <-? validate_proxy_url (proxy_applied_url (proxy settings)) ;; Ok (Some url)
  | "manual" => url <-? validate_proxy_url (proxy_url (proxy settings)) ;; Ok (Some url)
  | _ => Err "未知 Tunnel 代理模式。"
  end.

(** The environment a [Command] runs its process with. *)
Abbreviation Env := (gmap string string).

Definition proxy_variables : list string :=
  ["HTTP_PROXY"; "HTTPS_PROXY"; "ALL_PROXY"; "NO_PROXY"; "http_proxy"; "https_proxy"; "all_proxy"; "no_proxy"].

Definition apply_proxy_env (env : Env) (settings : Settings) : Result (option string) string * Env :=
  let env := foldl (fun env key => delete key env) env proxy_variables in
  match effective_proxy_url settings with
  | Err e => (Err e, env)
  | Ok None => (Ok None, env)
  | Ok (Some value) =>
      let env := foldl (fun env key => <[key := value]> env) env
                   ["HTTP_PROXY"; "HTTPS_PROXY"; "http_proxy"; "https_proxy"] in
      let env := if starts_with "socks5" value
                 then <["all_proxy" := value]> (<["ALL_PROXY" := value]> env) else env in
      (Ok (Some value), env)
  end.

(** ** Properties *)

Lemma starts_with_app p s : starts_with p s = true -> exists r, s = p ++ r.
Proof.
  unfold starts_with. revert s. induction p as [|a p IH]; intros s; [by exists s|].
  destruct s as [|b s]; cbn; [done|]. destruct (ascii_dec a b) as [->|]; [|done].
  intros [r ->]%IH. by exists r.
Qed.

Lemma drop_no_whitespace cs : existsb is_whitespace cs = false -> drop_whitespace cs = cs.
Proof. destruct cs as [|c cs]; cbn; [done|]. by intros [-> _]%orb_false_split. Qed.

Lemma existsb_rev_false {A} (f : A -> bool) l : existsb f (rev l) = existsb f l.
Proof.
  induction l as [|a l IH]; [done|]. cbn. rewrite existsb_app, IH. cbn. rewrite orb_false_r. apply orb_comm.
Qed.

Lemma trim_no_whitespace s : existsb is_whitespace (utf8_chars s) = false -> trim s = s.
Proof.
  intros H. unfold trim. rewrite (drop_no_whitespace (utf8_chars s) H).
  rewrite drop_no_whitespace by (by rewrite existsb_rev_false). by rewrite rev_involutive, concat_utf8_chars.
Qed.

Lemma validate_proxy_url_inv value url :
  validate_proxy_url value = Ok url ->
  url = trim value /\ existsb is_whitespace (utf8_chars url) = false /\ contains "@" url = false
  /\ (exists p, In p proxy_prefixes /\ starts_with p url = true)
  /\ (match split_once "://" url with Some (_, rest) => rest | None => "" end <> "")
  /\ contains "/" (match split_once "://" url with Some (_, rest) => rest | None => "" end) = false
  /\ validate_proxy_url url = Ok url.
Proof.
  intros Hok. unfold validate_proxy_url in Hok. destruct (is_empty (trim value)) eqn:He; [done|].
  destruct (_ || _) eqn:Hw; [done|]. destruct (negb _) eqn:Hp; [done|].
  destruct (_ || _) eqn:Hr in Hok; [done|]. injection Hok as <-.
  pose proof Hw as [Hws Hat]%orb_false_split. pose proof Hr as [Hne Hslash]%orb_false_split.
  split_and!; try done.
  - by apply negb_false_iff, existsb_exists in Hp.
  - intros E. by rewrite E in Hne.
  - unfold validate_proxy_url. by rewrite (trim_no_whitespace _ Hws), He, Hw, Hp, Hr.
Qed.

(** An accepted proxy address is the trimmed input, of the form scheme://rest with one
    of the four schemes, without whitespace or an [@] (no credentials), with a non-empty
    authority and no path; and validating it again accepts it unchanged. *)
Theorem validate_proxy_url_sound value url (Hok : validate_proxy_url value = Ok url) :
  url = trim value
  /\ (exists scheme rest, In (scheme ++ "://") proxy_prefixes /\ url = scheme ++ "://" ++ rest
        /\ rest <> "" /\ contains "/" rest = false)
  /\ existsb is_whitespace (utf8_chars url) = false /\ contains "@" url = false
  /\ validate_proxy_url url = Ok url.
Proof.
  apply validate_proxy_url_inv in Hok as (Hurl & Hws & Hat & (p & Hin & [rest Hp]%starts_with_app) & Hne & Hslash & Hok).
  split_and!; try done. rewrite Hp in Hne, Hslash. cbn in Hin.
  destruct Hin as [<-|[<-|[<-|[<-|[]]]]];
    [exists "http"|exists "https"|exists "socks5"|exists "socks5h"]; exists rest; cbn; auto 10.
Qed.

Lemma foldl_delete_lookup (keys : list string) (env : Env) k :
  foldl (fun env key => delete key env) env keys !! k = if decide (k ∈ keys) then None else env !! k.
Proof.
  revert env. induction keys as [|key keys IH]; intros env; cbn [foldl]; [done|]. rewrite IH.
  destruct (decide (key = k)) as [->|Hne].
  - rewrite (decide_True (P := k ∈ k :: keys)) by constructor. case_decide; [done|apply lookup_delete_eq].
  - rewrite lookup_delete_ne by done. repeat case_decide; set_solver.
Qed.

Lemma foldl_insert_lookup (keys : list string) (v : string) (env : Env) k :
  foldl (fun env key => <[key := v]> env) env keys !! k = if decide (k ∈ keys) then Some v else env !! k.
Proof.
  revert env. induction keys as [|key keys IH]; intros env; cbn [foldl]; [done|]. rewrite IH.
  destruct (decide (key = k)) as [->|Hne].
  - rewrite (decide_True (P := k ∈ k :: keys)) by constructor. case_decide; [done|apply lookup_insert_eq].
  - rewrite lookup_insert_ne by done. repeat case_decide; set_solver.
Qed.

Lemma effective_proxy_url_valid settings v :
  effective_proxy_url settings = Ok (Some v) -> validate_proxy_url v = Ok v.
Proof.
  unfold effective_proxy_url. intros H. repeat case_match; simplify_eq; by eapply validate_proxy_url_inv.
Qed.

Definition no_proxy_variables : list string := ["NO_PROXY"; "no_proxy"].

(** The tunnel process never inherits a proxy: each of the eight proxy variables is
    absent from its environment or holds the validated address the settings select, and no
    other variable changes; without an address all eight are absent, in particular in
    direct mode; with one, HTTP and HTTPS use it, and the exclusion lists stay absent. *)
Theorem apply_proxy_env_spec env settings :
  let '(result, env') := apply_proxy_env env settings in
  result = effective_proxy_url settings
  /\ (forall k, k ∉ proxy_variables -> env' !! k = env !! k)
  /\ (forall k v, k ∈ proxy_variables -> env' !! k = Some v ->
        result = Ok (Some v) /\ validate_proxy_url v = Ok v /\ k ∉ no_proxy_variables)
  /\ (forall v, result = Ok (Some v) -> env' !! "HTTPS_PROXY" = Some v /\ env' !! "HTTP_PROXY" = Some v)
  /\ (proxy_mode (proxy settings) = "direct" -> result = Ok None).
Proof.
  assert (proxy_mode (proxy settings) = "direct" -> effective_proxy_url settings = Ok None) as Hdirect
    by (unfold effective_proxy_url; by intros ->).
  unfold apply_proxy_env.
  destruct (effective_proxy_url settings) as [[value|]|e] eqn:Heff.
  2-3: split_and!; try done; intros k;
    rewrite foldl_delete_lookup; case_decide; done.
  pose proof (effective_proxy_url_valid _ _ Heff) as Hvalid.
  set (env' := if starts_with "socks5" value then _ else _).
  assert (forall k, env' !! k = (if decide (k ∈ ["ALL_PROXY"; "all_proxy"])
      then if starts_with "socks5" value then Some value else None
      else if decide (k ∈ ["HTTP_PROXY"; "HTTPS_PROXY"; "http_proxy"; "https_proxy"]) then Some value
      else if decide (k ∈ proxy_variables) then None else env !! k)) as Hlook.
  { intros k. subst env'. destruct (starts_with "socks5" value);
      rewrite ?lookup_insert, ?foldl_insert_lookup, ?foldl_delete_lookup; unfold proxy_variables;
      repeat case_decide; set_solver. }
  clearbody env'. setoid_rewrite Hlook. split_and!; [done| | | |done].
  - intros k Hk. rewrite !decide_False by (unfold proxy_variables in Hk; set_solver). done.
  - intros k v Hk Hv. assert (v = value) as ->.
    { rewrite (decide_True (P := k ∈ proxy_variables)) in Hv by done. repeat case_match; simplify_eq; done. }
    split_and!; [done..|]. intros Hno. unfold no_proxy_variables in Hno.
    assert (k = "NO_PROXY" \/ k = "no_proxy") as [-> | ->] by set_solver; discriminate.
  - by intros v [= <-].
Qed.

Lemma validate_proxy_url_sound_witness :
  validate_proxy_url " socks5://127.0.0.1:7890 " = Ok "socks5://127.0.0.1:7890"
  /\ contains "@" "socks5://127.0.0.1:7890" = false.
Proof.
  split; [vm_compute; reflexivity|].
  exact (proj1 (proj2 (proj2 (proj2 (validate_proxy_url_sound " socks5://127.0.0.1:7890 "
    "socks5://127.0.0.1:7890" ltac:(vm_compute; reflexivity)))))).
Defined.
