(* ===== verification/Desktop.v ===== *)
(** * The connection lifecycle of the desktop application

    [tunnel_recovery.rs], [connection_coordinator.rs],
    [connection_health.rs], the stop operations of [tunnel_runtime.rs] and [https_mcp.rs],
    and the runtime projection of [monitor_status.rs], all of [src-tauri/src]. *)

From S2P Require Export DeskState Proxy TunnelStatus.
Local Open Scope string_scope.

(** ** Recovery state ([tunnel_recovery.rs]) *)

Definition reconnect_delay_secs (attempt : N) : N :=
  match attempt with 0%N | 1%N => 2 | 2%N => 5 | 3%N => 10 | 4%N => 20 | _ => 30 end.

Definition set_recovery_status (phase : string) (next_reconnect_at : N) (last_error : string) (d : Desk) : Desk :=
  set_recovery_of (update_locked (fun _ => {| phase := phase; next_reconnect_at := next_reconnect_at;
                                              rec_last_error := last_error |}) (recovery_of d)) d.

Definition recovery_status (d : Desk) : TunnelRecoveryStatus :=
  match lock (recovery_of d) with Some value => value | None => recovery_default end.

Definition restore_desired_connection_intent (settings : Settings) (d : Desk) : Desk :=
  set_desired_connected (connection_intent settings) d.

Definition ensure_runtime_start_intent (settings : Settings) (required : bool) (d : Desk) : Result unit string :=
  if required && (negb (connection_intent settings) || negb (desired_connected d))
  then Err "Tunnel 连接意图已取消，拒绝重新启动。" else Ok tt.

Definition reconnect_capability (runtime_key_saved : bool) (settings : Settings) (d : Desk) : bool * string :=
  if negb (connection_intent settings) || negb (desired_connected d) then (false, "manually_stopped")
  else if is_empty (trim (tunnel_id settings)) then (false, "tunnel_not_configured")
  else if reconnecting d || reconnect_running d then (false, "operation_busy")
  else
    let session_key_available :=
      match lock (session_runtime_key d) with
      | Some (Some key) => negb (is_empty (trim key))
      | _ => false
      end in
    if session_key_available || runtime_key_saved then (true, "")
    else (false, "runtime_key_unavailable").

(** ** Health verdicts *)

Definition public_probe_freshness_ms : N := 45000.

Record HttpsConnectionHealth := {
  health_enabled : bool;
  manual_stop_blocked : bool;
  local_ready : bool;
  transport_connected : bool;
  remote_ready : bool;
  connected : bool;
  health_state : string }.

(** [https_connection_health] of [connection_health.rs] *)
Definition https_connection_health (configured restore_allowed local_ready transport_connected
    last_remote_ready : bool) (last_public_probe_at now_ms : N) : HttpsConnectionHealth :=
  let enabled := configured && restore_allowed in
  let fresh := negb (last_public_probe_at =? 0)%N && (last_public_probe_at <=? now_ms)%N
               && (now_ms - last_public_probe_at <=? public_probe_freshness_ms)%N in
  let remote_ready := transport_connected && last_remote_ready && fresh in
  let connected := enabled && local_ready && transport_connected && remote_ready in
  let state := if negb enabled then "stopped"
               else if connected then "connected"
               else if transport_connected && local_ready then "checking"
               else "reconnecting" in
  {| health_enabled := enabled; manual_stop_blocked := configured && negb restore_allowed;
     local_ready := local_ready; transport_connected := transport_connected;
     remote_ready := remote_ready; connected := connected; health_state := state |}.

(** [project_runtime_snapshot] of [monitor_status.rs]; [now] is [timestamp_ms()]. *)
Definition project_runtime_snapshot (now : N) (current : TunnelSnapshot) (observation : RuntimeObservation)
    (desired_connected : bool) (settings : Settings) (advance_failures : bool) : TunnelSnapshot :=
  let local_failures :=
    if obs_active observation || negb desired_connected then 0%N
    else if advance_failures then u32_saturating_succ (snap_consecutive_failures current)
    else snap_consecutive_failures current in
  let plane := obs_control_plane observation in
  let failures := if (0 <? cp_consecutive_failures plane)%N then cp_consecutive_failures plane
                  else local_failures in
  let '(health, success_at) :=
    if negb desired_connected then ("stopped", snap_last_successful_probe_at current)
    else if String.eqb (cp_state plane) "down" then ("down", snap_last_successful_probe_at current)
    else if one_of ["suspect"; "starting"] (cp_state plane)
    then ("suspect", snap_last_successful_probe_at current)
    else if obs_active observation then ("healthy", now)
    else if ((if obs_runtime_alive observation then 8 else 2) <=? failures)%N
    then ("down", snap_last_successful_probe_at current)
    else ("suspect", snap_last_successful_probe_at current) in
  {| snap_state := obs_state observation; snap_health := health; snap_active := obs_active observation;
     snap_last_error := obs_error observation; snap_updated_at := now; snap_last_probe_at := now;
     snap_last_successful_probe_at := success_at; snap_consecutive_failures := failures;
     snap_control_plane_state := cp_state plane; snap_control_plane_reason := cp_reason plane;
     snap_control_plane_failures := cp_consecutive_failures plane;
     snap_proxy_mode := proxy_mode (proxy settings); snap_proxy_source := obs_proxy_source observation |}.

Definition update_runtime_snapshot (now : N) (observation : RuntimeObservation) (desired_connected : bool)
    (settings : Settings) (d : Desk) : Desk :=
  set_runtime_snapshot (update_locked (fun snapshot =>
    project_runtime_snapshot now snapshot observation desired_connected settings true) (runtime_snapshot d)) d.

(** ** Stopping the transports *)

(** [cancel_connection_intent] of [tunnel_runtime.rs] *)
Definition cancel_connection_intent (d : Desk) : Desk :=
  let d := set_desired_connected false d in
  let d := set_reconnecting false d in
  let d := set_reconnect_attempt 0 d in
  let d := set_recovery_status "stopped" 0 "" d in
  set_session_runtime_key (update_locked (fun _ => None) (session_runtime_key d)) d.

(** [stop_inner] of [https_mcp.rs]: the worker is told to stop and joined. *)
Definition stop_inner (d : Desk) : Desk := set_supervisor (update_locked (fun _ => false) (supervisor d)) d.

Definition stop_on_exit (d : Desk) : Desk := stop_inner d.

Definition runtime_alias : string := "chatx-local".

Definition tunnel_command_timeout (args : list string) : N :=
  match nth_error args 1 with
  | Some "status" => 10
  | Some "stop" => 10
  | Some "connect" => 30
  | _ => 20
  end.

(** [stage_mode_switch] of [connection_coordinator.rs], over any operations. *)
Definition stage_mode_switch (target : Transport) (mark_stopped : Transport -> App (Result unit string))
    (stop_existing persist_disabled : App (Result unit string)) : App (Result unit string) :=
  _ <-app? mark_stopped target ;;
  _ <-app? mark_stopped (match target with HttpsMcp => Tunnel | Tunnel => HttpsMcp end) ;;
  _ <-app? stop_existing ;;
  persist_disabled.

Section Lifecycle.
(** Resolved by the system or the libraries: directories, the key store, JSON, the clock and
    process numbers, and the tunnel client itself. *)
Context (local_data_dir : Result string string) (system_proxy_url : Result (option string) string)
        (runtime_key_saved : bool)
        (settings_from_str : string -> option Settings) (value_from_str : string -> Result Value string)
        (settings_to_string_pretty : Settings -> Result string string)
        (from_utf8_lossy : string -> string) (report_from_str : string -> option Value)
        (timestamp : Desk -> string) (timestamp_ms : Desk -> N) (unique : Desk -> string)
        (settings_lock_ok : bool) (resource_candidates : list string) (exe_suffix : string)
        (inherited_env : Env) (run_command : Path -> list string -> Env -> N -> Desk -> Result Output string).

Definition log (message : string) : App unit := fun d => (Some tt, push_log (timestamp d) message d).

Definition settings_load : Fs Settings :=
  load_settings local_data_dir system_proxy_url runtime_key_saved settings_from_str value_from_str.

Definition settings_update (update : Settings -> Result Settings string) : App (Result Settings string) :=
  fun d => on_files (update_settings local_data_dir system_proxy_url runtime_key_saved settings_from_str
                       value_from_str settings_to_string_pretty settings_lock_ok (unique d) update) d.

(** [runtime_paths] of [main.rs]: the first root that holds all four files. *)
Fixpoint runtime_paths (roots : list string) : Fs (Result RuntimePaths string) :=
  match roots with
  | [] => fs_ret (Err "未找到完整运行组件。请重新安装 ChatX，或先运行 npm run desktop:prepare。")
  | root :: roots =>
      let tunnel := {| parent := Some root; file_name := "tunnel-client" ++ exe_suffix |} in
      let node := {| parent := Some root; file_name := "node" ++ exe_suffix |} in
      let launcher := {| parent := Some root; file_name := "desktop-commander-launcher.mjs" |} in
      let commander := {| parent := Some (root ++ "/desktop-commander/dist"); file_name := "index.js" |} in
      has_tunnel <-fs path_exists tunnel ;;
      has_node <-fs (if has_tunnel then path_exists node else fs_ret false) ;;
      has_launcher <-fs (if has_node then path_exists launcher else fs_ret false) ;;
      has_commander <-fs (if has_launcher then path_exists commander else fs_ret false) ;;
      if has_commander
      then fs_ret (Ok {| root := root; tunnel := tunnel; node := node; launcher := launcher;
                         desktop_commander := commander |})
      else runtime_paths roots
  end.

(** [command_output_with_timeout] on the tunnel client. *)
Definition run_client (paths : RuntimePaths) (args : list string) (env : Env) : App (Result Output string) :=
  fun d => (Some (run_command (tunnel paths) args env (tunnel_command_timeout args) d),
            set_ran (ran d ++ [args]) d).

(** [run_tunnel] of [main.rs] *)
Definition run_tunnel (paths : RuntimePaths) (args : list string) (runtime_key : option string)
    : App (Result Output string) :=
  let env := match runtime_key with
             | Some key => <["CHATX_TUNNEL_RUNTIME_KEY" := key]> inherited_env
             | None => inherited_env
             end in
  settings <-app on_files settings_load ;;
  let '(proxy, env) := apply_proxy_env env settings in
  match proxy with
  | Err e => app_ret (Err e)
  | Ok _ => run_client paths args env
  end.

Definition stopped_report : Value := Object [("state", VString "stopped")].

(** [stop_runtime]; [logged] is whether it was given the state to log to. *)
Definition stop_runtime (logged : bool) : App (Result Value string) :=
  paths <-app? on_files (runtime_paths resource_candidates) ;;
  output <-app? run_tunnel paths ["runtimes"; "stop"; runtime_alias; "--json"] None ;;
  _ <-app (if logged then log ("停止 Tunnel runtime: " ++ output_text from_utf8_lossy output) else app_ret tt) ;;
  app_ret (if success output
           then Ok (match parse_json_output report_from_str output with Some v => v | None => stopped_report end)
           else let text := output_text from_utf8_lossy output in
                if runtime_not_running text then Ok stopped_report else Err ("停止 Tunnel 失败：" ++ text)).

Definition stop_tunnel_without_saving (settings : Settings) : App (Result unit string) :=
  _ <-app app_modify cancel_connection_intent ;;
  operation <-app app_get (fun d => lock (runtime_operation d)) ;;
  match operation with
  | None => app_ret (Err "Tunnel 操作锁已损坏。")
  | Some _ =>
      _ <-app? stop_runtime true ;;
      _ <-app (fun d => (Some tt, update_runtime_snapshot (timestamp_ms d)
                                    (observation_without_payload "stopped" "") false settings d)) ;;
      app_ret (Ok tt)
  end.

Definition ConnectionCoordinator_acquire : App (Result unit string) :=
  app_get (fun d => match lock (connection_operation d) with
                    | Some _ => Ok tt | None => Err "连接操作锁已损坏" end).

Definition ensure_available (message : string) : App (Result unit string) :=
  app_get (fun d => if quitting d then Err message else Ok tt).

Definition app_mark_stopped (mode : Transport) : App (Result unit string) :=
  on_files (mark_stopped local_data_dir mode).

(** The closure [prepare_https], [prepare_tunnel] and [stop_all] pass to [update_settings]. *)
Definition disable_both (settings : Settings) : Result Settings string := Ok (set_connection false false settings).

Definition persist_disabled : App (Result unit string) :=
  _ <-app? settings_update disable_both ;; app_ret (Ok tt).

Definition prepare_https : App (Result unit string) :=
  stage_mode_switch HttpsMcp app_mark_stopped
    (_ <-app app_modify stop_on_exit ;;
     previous <-app on_files settings_load ;;
     stop_tunnel_without_saving previous)
    persist_disabled.

Definition prepare_tunnel : App (Result unit string) :=
  stage_mode_switch Tunnel app_mark_stopped
    (_ <-app app_modify stop_on_exit ;; app_ret (Ok tt))
    persist_disabled.

Definition stop_all : App (Result unit string) :=
  https_marker <-app app_mark_stopped HttpsMcp ;;
  tunnel_marker <-app app_mark_stopped Tunnel ;;
  _ <-app app_modify stop_on_exit ;;
  settings <-app on_files settings_load ;;
  stopped <-app stop_tunnel_without_saving settings ;;
  saved <-app settings_update disable_both ;;
  _ <-app match saved with
          | Err error => log ("连接已停止，但保存停止状态失败：" ++ error)
          | Ok _ => app_ret tt
          end ;;
  match stopped, saved, https_marker, tunnel_marker with
  | Err e, _, _, _ => app_ret (Err e)
  | _, Err e, _, _ => app_ret (Err e)
  | _, _, Err e, _ => app_ret (Err e)
  | _, _, _, Err e => app_ret (Err e)
  | Ok _, Ok _, Ok _, Ok _ =>
      _ <-app app_modify (fun d => set_tray_stop_error (update_locked (fun _ => None) (tray_stop_error d)) d) ;;
      _ <-app log "已停止全部 MCP 连接" ;;
      app_ret (Ok tt)
  end.
End Lifecycle.

(** ** Properties *)

(** The log keeps the newest lines and never more than 300: appending adds the line at
    the end and drops lines from the front only. *)
Theorem push_log_bounded stamp message d lines (Hlock : lock (logs d) = Some lines)
    (Hbound : (length lines <= 300)%nat) :
  exists dropped kept, lines = (dropped ++ kept)%list
  /\ lock (logs (push_log stamp message d)) = Some (kept ++ [("[" ++ stamp ++ "] " ++ message)%string])%list
  /\ (length kept < 300)%nat /\ (length dropped <= 1)%nat.
Proof.
  unfold push_log. cbn [logs set_logs]. rewrite lock_update, Hlock. unfold push_line.
  rewrite length_app. cbn [length]. destruct (300 <? length lines + 1)%nat eqn:Hl; reflect_bools.
  - destruct lines as [|first kept]; [cbn in Hl; lia|]. exists [first], kept. split; [done|].
    replace (length (first :: kept) + 1 - 300)%nat with 1%nat by (cbn in *; lia). cbn in *. split_and!; [done|lia..].
  - exists [], lines. cbn. split_and!; [done|done|lia..].
Qed.

(** The one connection verdict: the desktop reports [connected] exactly when the
    transport is configured and not stopped by the user, the local bridge and the transport
    are up, and the last public probe succeeded and is at most 45 seconds old and not in
    the future; a stop always shows as [stopped]; and the other fields agree with the
    word shown. *)
Theorem https_health_spec configured allowed local transport probe_ok probe_at now :
  let h := https_connection_health configured allowed local transport probe_ok probe_at now in
  (connected h = true <-> configured = true /\ allowed = true /\ local = true /\ transport = true
     /\ probe_ok = true /\ (probe_at <> 0 /\ probe_at <= now <= probe_at + public_probe_freshness_ms)%N)
  /\ (health_state h = "connected" <-> connected h = true)
  /\ (health_state h = "stopped" <-> configured = false \/ allowed = false)
  /\ (manual_stop_blocked h = true -> connected h = false /\ health_state h = "stopped")
  /\ (connected h = true -> remote_ready h = true /\ health_enabled h = true).
Proof.
  intros h. subst h. unfold https_connection_health. cbn.
  set (fresh := _ && (now - probe_at <=? public_probe_freshness_ms)%N).
  assert (fresh = true <-> (probe_at <> 0 /\ probe_at <= now <= probe_at + public_probe_freshness_ms)%N) as <-.
  { subst fresh. rewrite !andb_true_iff, negb_true_iff, N.eqb_neq, !N.leb_le. lia. }
  clearbody fresh. destruct configured, allowed, local, transport, probe_ok, fresh; cbn; naive_solver.
Qed.

(** How an observation becomes the shown state: nothing is wanted: [stopped], with no
    local failures; a control plane that is down or doubtful overrides the process;
    [healthy] exactly when wanted, active and neither; and an inactive runtime is [down]
    only from the 2nd (8th, while its process lives) consecutive failure on.  The time of
    the last success moves exactly when healthy, and the failure count stays in 32 bits. *)
Theorem project_snapshot_spec now current observation desired settings advance :
  let s := project_runtime_snapshot now current observation desired settings advance in
  let plane := cp_state (obs_control_plane observation) in
  (snap_health s = "stopped" <-> desired = false)
  /\ (snap_health s = "healthy" <-> desired = true /\ obs_active observation = true
        /\ one_of ["down"; "suspect"; "starting"] plane = false)
  /\ (snap_health s = "down" <-> desired = true /\ (plane = "down" \/
        (one_of ["suspect"; "starting"] plane = false /\ obs_active observation = false
         /\ ((if obs_runtime_alive observation then 8 else 2) <= snap_consecutive_failures s)%N)))
  /\ (snap_last_successful_probe_at s = if decide (snap_health s = "healthy") then now
                                        else snap_last_successful_probe_at current)
  /\ ((snap_consecutive_failures current <= u32_max)%N ->
      (cp_consecutive_failures (obs_control_plane observation) <= u32_max)%N ->
      (snap_consecutive_failures s <= u32_max)%N).
Proof.
  intros s plane. subst s. unfold project_runtime_snapshot. fold plane.
  set (failures := if (0 <? _)%N then _ else _).
  assert (one_of ["down"; "suspect"; "starting"] plane
          = String.eqb plane "down" || one_of ["suspect"; "starting"] plane) as -> by done.
  assert (plane = "down" -> one_of ["suspect"; "starting"] plane = false) as Hexcl by by intros ->.
  assert ((snap_consecutive_failures current <= u32_max)%N ->
      (cp_consecutive_failures (obs_control_plane observation) <= u32_max)%N -> (failures <= u32_max)%N) as Hbound.
  { subst failures. intros Hc Hp. repeat case_match; unfold u32_saturating_succ; lia. }
  set (doubtful := one_of ["suspect"; "starting"] plane) in *. clearbody failures doubtful plane.
  destruct desired; cbn; [|split_and!; try done; intuition congruence].
  destruct (plane =? "down") eqn:Hd; [apply String.eqb_eq in Hd|apply String.eqb_neq in Hd]; cbn;
    [split_and!; try done; intuition congruence|].
  destruct doubtful; cbn; [split_and!; try done; intuition congruence|].
  destruct (obs_active observation); cbn; [split_and!; try done; intuition congruence|].
  destruct (_ <=? failures)%N eqn:Hf; apply N.leb_le in Hf || apply N.leb_gt in Hf;
    cbn; split_and!; try done; intuition (congruence || lia).
Qed.

(** ** Stopping and switching *)

Lemma keeps_files_trans (d1 d2 d3 : Desk) :
  files (desk_world d2) = files (desk_world d1) /\ io_fault (desk_world d2) = io_fault (desk_world d1) ->
  files (desk_world d3) = files (desk_world d2) /\ io_fault (desk_world d3) = io_fault (desk_world d2) ->
  files (desk_world d3) = files (desk_world d1) /\ io_fault (desk_world d3) = io_fault (desk_world d1).
Proof. intros [-> ->] [-> ->]. done. Qed.

Lemma path_exists_files p w res w' :
  path_exists p w = (res, w') -> files w' = files w /\ io_fault w' = io_fault w.
Proof. intros (Hf & Hi & _)%path_exists_inv. done. Qed.

Lemma runtime_paths_files exe_suffix roots w res w' :
  runtime_paths exe_suffix roots w = (res, w') -> files w' = files w /\ io_fault w' = io_fault w.
Proof.
  assert (forall (b : bool) p w res w', (if b then path_exists p else fs_ret false) w = (res, w') ->
    files w' = files w /\ io_fault w' = io_fault w) as Hif.
  { intros [] p w0 res0 w1; [apply path_exists_files|by intros [= <- <-]]. }
  revert w. induction roots as [|root roots IH]; cbn [runtime_paths]; intros w; [by intros [= <- <-]|].
  intros [[H ->]|(b1 & w1 & H & Hk)]%fs_bind_inv; apply path_exists_files in H as [Hf Hi]; [done|].
  apply fs_bind_inv in Hk as [[H ->]|(b2 & w2 & H & Hk)]; apply Hif in H as [Hf2 Hi2]; [split; congruence|].
  apply fs_bind_inv in Hk as [[H ->]|(b3 & w3 & H & Hk)]; apply Hif in H as [Hf3 Hi3]; [split; congruence|].
  apply fs_bind_inv in Hk as [[H ->]|(b4 & w4 & H & Hk)]; apply Hif in H as [Hf4 Hi4]; [split; congruence|].
  destruct b4; [injection Hk as _ <-|apply IH in Hk as [? ?]]; split; congruence.
Qed.

Section LifecycleProps.
Context (base : string) (system_proxy_url : Result (option string) string) (runtime_key_saved : bool)
        (settings_from_str : string -> option Settings) (value_from_str : string -> Result Value string)
        (settings_to_string_pretty : Settings -> Result string string)
        (from_utf8_lossy : string -> string) (report_from_str : string -> option Value)
        (timestamp : Desk -> string) (timestamp_ms : Desk -> N) (unique : Desk -> string)
        (settings_lock_ok : bool) (resource_candidates : list string) (exe_suffix : string)
        (inherited_env : Env) (run_command : Path -> list string -> Env -> N -> Desk -> Result Output string).

#[local] Abbreviation disk d := (files (desk_world d)).
#[local] Abbreviation faults d := (io_fault (desk_world d)).
#[local] Abbreviation file := (settings_in (base ++ "/state")).
#[local] Abbreviation now_on := (settings_now base system_proxy_url runtime_key_saved settings_from_str value_from_str).
#[local] Abbreviation stop_tunnel := (stop_tunnel_without_saving (Ok base) system_proxy_url runtime_key_saved
  settings_from_str value_from_str from_utf8_lossy report_from_str timestamp timestamp_ms
  resource_candidates exe_suffix inherited_env run_command).
#[local] Abbreviation persist := (persist_disabled (Ok base) system_proxy_url runtime_key_saved
  settings_from_str value_from_str settings_to_string_pretty unique settings_lock_ok).
#[local] Abbreviation mark := (app_mark_stopped (Ok base)).

(** Running the client changes the process it controls; of the desktop, only the record. *)
Lemma run_tunnel_inv paths args key d res d' :
  run_tunnel (Ok base) system_proxy_url runtime_key_saved settings_from_str value_from_str inherited_env
    run_command paths args key d = (res, d') ->
  exists w tail, d' = set_ran (ran d ++ tail) (set_desk_world w d) /\ files w = disk d /\ io_fault w = faults d
  /\ (tail = [] /\ (forall o, res <> Some (Ok o)) \/ tail = [args] /\ is_Some res).
Proof.
  assert (forall w, set_desk_world w d = set_ran (ran d ++ []) (set_desk_world w d)) as Hnil
    by (intros w; by rewrite app_nil_r).
  intros [[H ->]|(s & d1 & H & Hk)]%app_bind_inv;
    apply on_files_inv in H as (w & H & ->); apply load_settings_files in H as [Hf Hi]; exists w.
  { exists []. split_and!; [apply Hnil|done|done|by left]. }
  destruct (apply_proxy_env _ s) as [[url|e] env]; injection Hk as <- <-.
  - exists [args]. split_and!; [done..|]. right. split; [done|by eexists].
  - exists []. split_and!; [apply Hnil|done..|by left].
Qed.

Definition stop_args : list string := ["runtimes"; "stop"; runtime_alias; "--json"].

(** Stopping the tunnel only logs, besides what the client does to its process; it never
    runs another command, and success is reported only when the client was run. *)
Lemma stop_runtime_inv logged d res d' :
  stop_runtime (Ok base) system_proxy_url runtime_key_saved settings_from_str value_from_str from_utf8_lossy
    report_from_str timestamp resource_candidates exe_suffix inherited_env run_command logged d = (res, d') ->
  exists w l tail, d' = set_logs l (set_ran (ran d ++ tail) (set_desk_world w d))
  /\ files w = disk d /\ io_fault w = faults d
  /\ (tail = [] /\ (forall v, res <> Some (Ok v)) \/ tail = [stop_args] /\ is_Some res).
Proof.
  assert (forall w, exists l, set_desk_world w d = set_logs l (set_ran (ran d ++ []) (set_desk_world w d))) as Hl
    by (intros w; exists (logs d); by rewrite app_nil_r).
  intros [[H ->]|[(e & H & ->)|(p & d1 & H & Hk)]]%app_try_inv;
    apply on_files_inv in H as (w1 & H & ->); apply runtime_paths_files in H as [Hf Hi];
    [destruct (Hl w1) as [l ?]; exists w1, l, []; split_and!; (done || by left)..|].
  apply app_try_inv in Hk as [[H ->]|[(e & H & ->)|(o & d2 & H & Hk)]];
    apply run_tunnel_inv in H as (w2 & tail & -> & Hf2 & Hi2 & Hr); cbn in Hf2, Hi2.
  1-2: exists w2, (logs d), tail; split_and!; [done|congruence..|];
    destruct Hr as [[-> _]|[-> Hs]]; [by left|right; done].
  destruct Hr as [[_ Hr]|[-> _]]; [by destruct (Hr o)|].
  apply app_bind_inv in Hk as [[H ->]|(u & d3 & H & Hk)]; [by destruct logged|].
  injection Hk as <- <-. exists w2. destruct logged; injection H as _ <-.
  - eexists _, [stop_args]. split_and!; [reflexivity|congruence..|right; split; [done|by eexists]].
  - exists (logs d), [stop_args]. split_and!; [done|congruence..|right; split; [done|by eexists]].
Qed.

(** Whatever happens to the command, the wish to be connected and the session key are gone. *)
Lemma stop_tunnel_inv s d res d' :
  stop_tunnel s d = (res, d') ->
  disk d' = disk d /\ faults d' = faults d /\ supervisor d' = supervisor d
  /\ tray_stop_error d' = tray_stop_error d
  /\ desired_connected d' = false /\ reconnecting d' = false
  /\ (forall key, lock (session_runtime_key d') <> Some (Some key))
  /\ (res = Some (Ok tt) -> forall snapshot, lock (runtime_snapshot d') = Some snapshot ->
        snap_health snapshot = "stopped").
Proof.
  unfold stop_tunnel_without_saving. unfold app_bind at 1 2, app_modify, app_get.
  set (d1 := cancel_connection_intent d).
  assert (disk d1 = disk d /\ faults d1 = faults d /\ supervisor d1 = supervisor d
    /\ tray_stop_error d1 = tray_stop_error d /\ desired_connected d1 = false /\ reconnecting d1 = false
    /\ forall key, lock (session_runtime_key d1) <> Some (Some key)) as (<- & <- & <- & <- & Hd & Hr & Hk).
  { subst d1. cbn. split_and!; try done. intros key. rewrite lock_update. by destruct (lock _). }
  clearbody d1. destruct (lock (runtime_operation d1)); [|by intros [= <- <-]].
  intros [[H ->]|[(e & H & ->)|(v & d2 & H & Hk2)]]%app_try_inv;
    apply stop_runtime_inv in H as (w & l & tail & -> & Hf & Hi & _); cbn; [by split_and!..|].
  injection Hk2 as <- <-. cbn. split_and!; try done. intros _ snapshot. rewrite lock_update.
  destruct (lock (runtime_snapshot d1)); [|done]. by intros [= <-].
Qed.

(** Only markers are written, and none is lost. *)
Definition marked (d d' : Desk) : Prop :=
  d' = set_desk_world (desk_world d') d /\ faults d' = faults d
  /\ (forall q, (forall t, q <> marker_in (base ++ "/state") t) -> disk d' !! q = disk d !! q)
  /\ forall t, stopped base t (disk d) -> stopped base t (disk d').

Lemma marked_trans d1 d2 d3 : marked d1 d2 -> marked d2 d3 -> marked d1 d3.
Proof.
  intros (H1 & Hf1 & Hq1 & Ht1) (H2 & Hf2 & Hq2 & Ht2). split_and!; [by rewrite H2, H1|congruence| |auto].
  intros q Hq. by rewrite Hq2, Hq1.
Qed.

Lemma mark_inv mode d res d' :
  mark mode d = (res, d') -> marked d d' /\ (res = Some (Ok tt) -> stopped base mode (disk d')).
Proof.
  intros (w & H & ->)%on_files_inv. apply mark_stopped_inv in H as ((Hi & _ & Ho) & Hin & Hok).
  split; [|exact Hok]. split_and!; [done|exact Hi|by auto|]. intros t. cbn.
  destruct (decide (t = mode)) as [->|Hne]; [exact Hin|].
  unfold stopped. rewrite Ho; [done|]. intros E. by apply marker_in_inj in E.
Qed.

(** The settings on disk want no connection, as the next start will read them. *)
Definition no_intent (fs : gmap Path string) : Prop :=
  exists s, now_on fs = Ok s /\ connection_intent s = false /\ https_enabled (https_mcp s) = false
  /\ forall https_allowed, effective_mcp_mode s https_allowed (connection_intent s) = ModeNone.

(** A JSON reader that reads back what the printer prints. *)
Definition json_agrees : Prop := forall s text,
  settings_to_string_pretty s = Ok text -> settings_from_str (text ++ String "010" "") = Some s.

Lemma no_intent_after_update s text fs :
  json_agrees -> settings_to_string_pretty (set_connection false false s) = Ok text ->
  fs !! file = Some (text ++ String "010" "") -> no_intent fs.
Proof.
  intros Hjson Ht Hf. eexists. split; [by eapply settings_after_update|].
  unfold normalize_settings. by repeat split.
Qed.

(** The settings update keeps the markers, and on success leaves no intent behind. *)
Lemma persist_inv d res d' :
  settings_update (Ok base) system_proxy_url runtime_key_saved settings_from_str value_from_str
    settings_to_string_pretty unique settings_lock_ok disable_both d = (res, d') ->
  exists w, d' = set_desk_world w d
  /\ (forall t, stopped base t (files w) <-> stopped base t (disk d))
  /\ (json_agrees -> faults d (ReadFile file) <> Some NotFound ->
      forall s, res = Some (Ok s) -> no_intent (files w)).
Proof.
  intros (w & H & ->)%on_files_inv. exists w. split; [done|].
  apply update_settings_inv in H as [Ho Hres].
  split.
  - intros t. unfold stopped. rewrite Ho; [done|by destruct t..].
  - intros Hjson Hh s ->. destruct (Hres Hh) as (s0 & text & _ & [= <-] & Ht & Hf).
    by eapply no_intent_after_update.
Qed.

Lemma stopped_restart t fs : stopped base t fs <-> restart_allowed base t fs = Some (Ok false).
Proof.
  rewrite restart_allowed_spec. unfold stopped. destruct (fs !! marker_in (base ++ "/state") t).
  - split; [done|by eexists].
  - split; [by intros [? ?]|done].
Qed.

Lemma unstopped_restart t fs : ~ stopped base t fs -> restart_allowed base t fs = Some (Ok true).
Proof. intros Hn. rewrite restart_allowed_spec. destruct (fs !! _) eqn:E; [|done]. destruct Hn. by eexists. Qed.

(** Switching to a transport. *)
Definition prepare (target : Transport) : App (Result unit string) :=
  match target with
  | HttpsMcp => prepare_https (Ok base) system_proxy_url runtime_key_saved settings_from_str value_from_str
      settings_to_string_pretty from_utf8_lossy report_from_str timestamp timestamp_ms unique settings_lock_ok
      resource_candidates exe_suffix inherited_env run_command
  | Tunnel => prepare_tunnel (Ok base) system_proxy_url runtime_key_saved settings_from_str value_from_str
      settings_to_string_pretty unique settings_lock_ok
  end.

(** What the middle of a switch does to the files and the HTTPS worker. *)
Lemma stop_existing_inv (m : App (Result unit string)) d res d' :
  (m = (_ <-app app_modify stop_on_exit ;; app_ret (Ok tt))
   \/ m = (_ <-app app_modify stop_on_exit ;;
            previous <-app on_files (settings_load (Ok base) system_proxy_url runtime_key_saved
                                       settings_from_str value_from_str) ;; stop_tunnel previous)) ->
  m d = (res, d') ->
  disk d' = disk d /\ faults d' = faults d /\ lock (supervisor d') <> Some true.
Proof.
  assert (lock (supervisor (stop_on_exit d)) <> Some true) as Hs
    by (cbn; rewrite lock_update; by destruct (lock _)).
  intros [->| ->]; [by intros [= <- <-]|].
  unfold app_bind at 1, app_modify. intros [[H ->]|(s & d2 & H & Hk)]%app_bind_inv;
    apply on_files_inv in H as (w & H & ->); apply load_settings_files in H as [Hf Hi]; cbn in Hf, Hi; [done|].
  apply stop_tunnel_inv in Hk as (-> & -> & -> & _). done.
Qed.

Lemma stage_inv target (mk : Transport -> App (Result unit string)) stop save d res d' :
  stage_mode_switch target mk stop save d = (res, d') ->
  (mk target d = (res, d') /\ res <> Some (Ok tt))
  \/ exists d1, mk target d = (Some (Ok tt), d1)
     /\ let other := match target with HttpsMcp => Tunnel | Tunnel => HttpsMcp end in
        (mk other d1 = (res, d') /\ res <> Some (Ok tt))
        \/ exists d2, mk other d1 = (Some (Ok tt), d2)
           /\ ((stop d2 = (res, d') /\ res <> Some (Ok tt))
               \/ exists d3, stop d2 = (Some (Ok tt), d3) /\ save d3 = (res, d')).
Proof.
  intros [[H ->]|[(e & H & ->)|([] & d1 & H & Hk)]]%app_try_inv; [by left..|right; exists d1; split; [done|]].
  apply app_try_inv in Hk as [[H2 ->]|[(e & H2 & ->)|([] & d2 & H2 & Hk)]];
    [by left..|right; exists d2; split; [done|]].
  apply app_try_inv in Hk as [[H3 ->]|[(e & H3 & ->)|([] & d3 & H3 & Hk)]]; [by left..|right; by exists d3].
Qed.

(** The two markers: either one of them failed and only markers were written, or both are set. *)
Lemma stage_marks target stop save d res d' :
  stage_mode_switch target mark stop save d = (res, d') ->
  (marked d d' /\ res <> Some (Ok tt))
  \/ exists d2, marked d d2 /\ (forall t, stopped base t (disk d2))
     /\ ((stop d2 = (res, d') /\ res <> Some (Ok tt)) \/ exists d3, stop d2 = (Some (Ok tt), d3) /\ save d3 = (res, d')).
Proof.
  assert (forall t : Transport, t = target \/ t = match target with HttpsMcp => Tunnel | Tunnel => HttpsMcp end)
    as Hboth by (intros []; destruct target; auto).
  intros [[H Hres]|(d1 & H1 & [[H Hres]|(d2 & H2 & Hrest)])]%stage_inv.
  - apply mark_inv in H as [Hm _]. by left.
  - apply mark_inv in H1 as [Hm1 _]. apply mark_inv in H as [Hm2 _]. left. split; [by eapply marked_trans|done].
  - apply mark_inv in H1 as [Hm1 Hs1]. apply mark_inv in H2 as [Hm2 Hs2]. right. exists d2.
    split; [by eapply marked_trans|]. split; [|exact Hrest].
    intros t. destruct (Hboth t) as [->| ->]; [apply Hm2; by apply Hs1|by apply Hs2].
Qed.

(** Saving the settings without any intent. *)
Lemma persist_disabled_inv d res d' :
  persist d = (res, d') ->
  exists w, d' = set_desk_world w d /\ io_fault w = faults d
  /\ (forall t, stopped base t (files w) <-> stopped base t (disk d))
  /\ (res = Some (Ok tt) -> json_agrees -> faults d (ReadFile file) <> Some NotFound -> no_intent (files w)).
Proof.
  intros [[H ->]|[(e & H & ->)|(s & d1 & H & Hk)]]%app_try_inv; pose proof H as H0;
    unfold settings_update in H0; apply on_files_inv in H0 as (w0 & H0 & E0); apply update_settings_faults in H0;
    apply persist_inv in H as (w & E & Hw & Hn); rewrite E0 in E; apply (f_equal desk_world) in E; cbn in E; subst w0;
    exists w; [by split_and!..|].
  injection Hk as <- <-. split_and!; [done..|]. intros _ Hjson Hh. by eapply Hn.
Qed.

(** C7. Switching transports is crash safe: however the switch ends (success, an error
    at any step, or the process dying anywhere), either nothing but stop markers was
    written and no transport was touched, or a restart refuses to restore both
    transports; a stop recorded before is never lost.  When the switch succeeds, both are
    stopped, the HTTPS worker has ended, and the settings on disk want no connection.
    (The JSON printer and reader agree, and a failing read does not report an existing
    settings file missing.) *)
Theorem mode_switch_stops_durably target d res d'
    (Hswitch : prepare target d = (res, d')) (Hjson : json_agrees)
    (Hhonest : faults d (ReadFile file) <> Some NotFound) :
  (forall t, restart_allowed base t (disk d) = Some (Ok false) ->
             restart_allowed base t (disk d') = Some (Ok false))
  /\ ((forall t, restart_allowed base t (disk d') = Some (Ok false))
      \/ (d' = set_desk_world (desk_world d') d /\ res <> Some (Ok tt)
          /\ forall q, (forall t, q <> marker_in (base ++ "/state") t) -> disk d' !! q = disk d !! q))
  /\ (res = Some (Ok tt) -> (forall t, restart_allowed base t (disk d') = Some (Ok false))
      /\ lock (supervisor d') <> Some true /\ no_intent (disk d')).
Proof.
  setoid_rewrite <- stopped_restart.
  assert (exists stop, prepare target = stage_mode_switch target mark stop persist
    /\ forall d res d', stop d = (res, d') -> disk d' = disk d /\ faults d' = faults d
         /\ lock (supervisor d') <> Some true) as (stop & Hp & Hstop).
  { destruct target; eexists; (split; [reflexivity|]); intros d1 res1 d1'; apply stop_existing_inv; auto. }
  rewrite Hp in Hswitch. clear Hp.
  apply stage_marks in Hswitch as [[(Hd & _ & Hq & Ht) Hres]|(d2 & (_ & Hfault & _ & Hkeep) & Hall & Hrest)].
  { split_and!; [done|by right|done]. }
  destruct Hrest as [[H Hres]|(d3 & H3 & Hsave)].
  { apply Hstop in H as (-> & _ & _). split_and!; auto; done. }
  apply Hstop in H3 as (Hf3 & Hi3 & Hsup). rewrite <- Hf3 in Hall.
  apply persist_disabled_inv in Hsave as (w & -> & _ & Hw & Hok).
  assert (forall t, stopped base t (files w)) as Hfinal by (intros t; apply Hw, Hall).
  cbn. split_and!; [by auto|by left|]. intros Hres. split_and!; [done|exact Hsup|apply Hok; [done|exact Hjson|congruence]].
Qed.

(** The part of [stop_all] after the two markers, from the state it starts in. *)
Definition disconnected (d : Desk) : Prop :=
  desired_connected d = false /\ reconnecting d = false /\ lock (supervisor d) <> Some true
  /\ forall key, lock (session_runtime_key d) <> Some (Some key).

#[local] Abbreviation stop_everything := (stop_all (Ok base) system_proxy_url runtime_key_saved
  settings_from_str value_from_str settings_to_string_pretty from_utf8_lossy report_from_str timestamp
  timestamp_ms unique settings_lock_ok resource_candidates exe_suffix inherited_env run_command).

(** Its last part: save, report, and clear a pending error of the tray. *)
Definition stop_all_tail (stopped : Result unit string) (https_marker tunnel_marker : Result unit string)
    : App (Result unit string) :=
  saved <-app settings_update (Ok base) system_proxy_url runtime_key_saved settings_from_str value_from_str
            settings_to_string_pretty unique settings_lock_ok disable_both ;;
  _ <-app match saved with
          | Err error => log timestamp ("连接已停止，但保存停止状态失败：" ++ error)
          | Ok _ => app_ret tt
          end ;;
  match stopped, saved, https_marker, tunnel_marker with
  | Err e, _, _, _ => app_ret (Err e)
  | _, Err e, _, _ => app_ret (Err e)
  | _, _, Err e, _ => app_ret (Err e)
  | _, _, _, Err e => app_ret (Err e)
  | Ok _, Ok _, Ok _, Ok _ =>
      _ <-app app_modify (fun d => set_tray_stop_error (update_locked (fun _ => None) (tray_stop_error d)) d) ;;
      _ <-app log timestamp "已停止全部 MCP 连接" ;;
      app_ret (Ok tt)
  end.

Lemma stop_all_tail_inv st https tunnel d res d' :
  stop_all_tail st https tunnel d = (res, d') -> json_agrees -> faults d (ReadFile file) <> Some NotFound ->
  (forall t, stopped base t (disk d') <-> stopped base t (disk d)) /\ (disconnected d -> disconnected d')
  /\ (res = Some (Ok tt) -> https = Ok tt /\ tunnel = Ok tt /\ no_intent (disk d')
      /\ forall e, lock (tray_stop_error d') <> Some (Some e)).
Proof.
  intros Htail Hjson Hhonest. unfold stop_all_tail in Htail.
  apply app_bind_inv in Htail as [[H ->]|(saved & d1 & H & Hk)];
    apply persist_inv in H as (w & -> & Hw & Hn); [done|].
  specialize (Hn Hjson Hhonest). unfold app_bind at 1 in Hk.
  assert (exists l, (match saved with Ok _ => app_ret tt | Err error => log timestamp
     ("连接已停止，但保存停止状态失败：" ++ error) end) (set_desk_world w d) = (Some tt, set_logs l (set_desk_world w d)))
    as [l Hlog] by (destruct saved; eexists; [|reflexivity]; cbv [app_ret]; by instantiate (1 := logs d)).
  rewrite Hlog in Hk. clear Hlog.
  destruct st as [[]|e]; [|by injection Hk as <- <-]. destruct saved as [s|e]; [|by injection Hk as <- <-].
  destruct https as [[]|e]; [|by injection Hk as <- <-]. destruct tunnel as [[]|e]; [|by injection Hk as <- <-].
  injection Hk as <- <-. split_and!; [exact Hw|done|]. intros _. split_and!; [done..|by eapply Hn|].
  intros e. cbn. rewrite lock_update. by destruct (lock (tray_stop_error d)).
Qed.

Lemma stop_all_middle_inv https tunnel d res d' :
  (_ <-app app_modify stop_on_exit ;;
   settings <-app on_files (settings_load (Ok base) system_proxy_url runtime_key_saved
                              settings_from_str value_from_str) ;;
   st <-app stop_tunnel settings ;; stop_all_tail st https tunnel) d = (res, d') ->
  json_agrees -> faults d (ReadFile file) <> Some NotFound ->
  (forall t, stopped base t (disk d') <-> stopped base t (disk d)) /\ (is_Some res -> disconnected d')
  /\ (res = Some (Ok tt) -> https = Ok tt /\ tunnel = Ok tt /\ no_intent (disk d')
      /\ forall e, lock (tray_stop_error d') <> Some (Some e)).
Proof.
  intros Hk Hjson Hhonest. unfold app_bind at 1, app_modify in Hk.
  assert (lock (supervisor (stop_on_exit d)) <> Some true) as Hsup
    by (cbn; rewrite lock_update; by destruct (lock _)).
  change (disk d) with (disk (stop_on_exit d)). change (faults d) with (faults (stop_on_exit d)) in Hhonest.
  set (d1 := stop_on_exit d) in *. clearbody d1.
  apply app_bind_inv in Hk as [[H ->]|(s & d2 & H & Hk)]; apply on_files_inv in H as (w & H & ->);
    apply load_settings_files in H as [Hf Hi]; [cbn; rewrite Hf; split_and!; [done|by intros [? ?]|done]|].
  apply app_bind_inv in Hk as [[H ->]|(st & d3 & H & Hk)];
    apply stop_tunnel_inv in H as (Hf5 & Hi5 & Hsup5 & _ & Hd5 & Hr5 & Hkey5 & _); cbn in Hf5, Hi5, Hsup5.
  { rewrite Hf5, Hf. split_and!; [done|by intros [? ?]|done]. }
  rewrite <- Hf, <- Hf5. apply stop_all_tail_inv in Hk as (Hw & Hquiet & Hok); [|exact Hjson|congruence].
  split_and!; [exact Hw| |exact Hok]. intros _. apply Hquiet. unfold disconnected. by rewrite Hsup5.
Qed.

(** Stop means stop: unless the process dies first, after [stop_all] no transport is
    wanted, none reconnects, the HTTPS worker has ended and the session key is forgotten,
    whatever fails on the way; stops recorded before are never lost; and when success is
    reported, a restart restores neither transport, by the markers and, independently, by
    the settings on disk, and no stale error is left to show. (The JSON printer and reader
    agree, and a failing read does not report an existing settings file missing.) *)
Theorem stop_all_spec d res d' (Hstop : stop_everything d = (res, d'))
    (Hjson : json_agrees) (Hhonest : faults d (ReadFile file) <> Some NotFound) :
  (forall t, restart_allowed base t (disk d) = Some (Ok false) ->
             restart_allowed base t (disk d') = Some (Ok false))
  /\ (is_Some res -> disconnected d')
  /\ (res = Some (Ok tt) -> (forall t, restart_allowed base t (disk d') = Some (Ok false))
      /\ no_intent (disk d') /\ forall e, lock (tray_stop_error d') <> Some (Some e)).
Proof.
  setoid_rewrite <- stopped_restart. unfold stop_all in Hstop.
  apply app_bind_inv in Hstop as [[H ->]|(https & d1 & H & Hk)]; apply mark_inv in H as [Hm1 Hs1];
    [split_and!; [apply Hm1|by intros [? ?]|done]|].
  apply app_bind_inv in Hk as [[H ->]|(tunnel & d2 & H & Hk)]; apply mark_inv in H as [Hm2 Hs2];
    pose proof (marked_trans _ _ _ Hm1 Hm2) as (_ & Hfault & _ & Hkeep);
    [split_and!; [exact Hkeep|by intros [? ?]|done]|].
  apply stop_all_middle_inv in Hk as (Hw & Hquiet & Hok); [|exact Hjson|congruence].
  split_and!; [intros t Ht; by apply Hw, Hkeep|exact Hquiet|].
  intros (-> & -> & Hn & Htray)%Hok. split_and!; [|exact Hn|exact Htray].
  intros t. apply Hw. destruct t; [by apply Hs2|]. apply Hm2. by apply Hs1.
Qed.
End LifecycleProps.

(** ** Witnesses *)

Lemma push_log_bounded_witness :
  let d := set_logs (new_mutex ["[1] a"]) (desk_default (healthy ∅)) in
  exists dropped kept, ["[1] a"] = (dropped ++ kept)%list
  /\ lock (logs (push_log "2" "b" d)) = Some (kept ++ ["[2] b"])%list.
Proof.
  intros d.
  destruct (push_log_bounded "2" "b" d ["[1] a"] eq_refl ltac:(vm_compute; repeat constructor))
    as (dropped & kept & H1 & H2 & _).
  exists dropped, kept. split; [exact H1|exact H2].
Defined.

Definition sample_runtime (name : string) (dir : string) : Path := {| parent := Some dir; file_name := name |}.

(** An installation whose saved settings want HTTPS; [fault] makes replacing the settings
    file fail. *)
Definition sample_desk (fault : bool) : Desk :=
  let w := sample_settings_world fault in
  let d := desk_default (set_files (<[sample_runtime "tunnel-client" "/opt/chatx" := ""]>
    (<[sample_runtime "node" "/opt/chatx" := ""]>
    (<[sample_runtime "desktop-commander-launcher.mjs" "/opt/chatx" := ""]>
    (<[sample_runtime "index.js" "/opt/chatx/desktop-commander/dist" := ""]> (files w))))) w) in
  set_supervisor (new_mutex true) (set_session_runtime_key (new_mutex (Some "key")) (set_desired_connected true d)).

Definition sample_tunnel (p : Path) (args : list string) (env : Env) (timeout : N) (d : Desk)
    : Result Output string := Ok {| success := false; stdout := ""; stderr := "runtime not found" |}.

#[local] Abbreviation sample_prepare :=
  (prepare "/home/u" (Ok None) false sample_settings_read (fun _ => Err "bad") sample_settings_print
    (fun s => s) (fun _ => None) (fun _ => "12:00") (fun _ => 7%N) (fun _ => "1.1") true ["/opt/chatx"] ""
    ∅ sample_tunnel).

Lemma sample_json_agrees : json_agrees sample_settings_read sample_settings_print.
Proof. exact sample_settings_roundtrip. Qed.

(** The switch to HTTPS fails when the settings cannot be replaced; both stops hold. *)
Lemma mode_switch_stops_durably_witness :
  let out := sample_prepare HttpsMcp (sample_desk true) in
  out.1 = Some (Err "更新设置失败：denied")
  /\ forall t, restart_allowed "/home/u" t (files (desk_world out.2)) = Some (Ok false).
Proof.
  intros out. assert (out.1 = Some (Err "更新设置失败：denied")) as Hres by (vm_compute; reflexivity).
  split; [exact Hres|].
  destruct (sample_prepare HttpsMcp (sample_desk true)) as [res d'] eqn:Hs. subst out.
  cbn [fst snd] in Hres |- *.
  destruct (proj1 (proj2 (mode_switch_stops_durably "/home/u" (Ok None) false sample_settings_read
    (fun _ => Err "bad") sample_settings_print (fun s => s) (fun _ => None) (fun _ => "12:00") (fun _ => 7%N)
    (fun _ => "1.1") true ["/opt/chatx"] "" ∅ sample_tunnel HttpsMcp (sample_desk true) res d' Hs
    sample_json_agrees ltac:(discriminate)))) as [Hall|(Hd & _)]; [exact Hall|].
  exfalso. assert (desired_connected d' = false) as Hw.
  { change d' with (res, d').2. rewrite <- Hs. vm_compute. reflexivity. }
  rewrite Hd in Hw. discriminate.
Defined.

Lemma stop_all_spec_witness :
  let out := stop_all (Ok "/home/u") (Ok None) false sample_settings_read (fun _ => Err "bad")
    sample_settings_print (fun s => s) (fun _ => None) (fun _ => "12:00") (fun _ => 7%N) (fun _ => "1.1") true
    ["/opt/chatx"] "" ∅ sample_tunnel (sample_desk false) in
  out.1 = Some (Ok tt)
  /\ (forall t, restart_allowed "/home/u" t (files (desk_world out.2)) = Some (Ok false))
  /\ desired_connected out.2 = false.
Proof.
  intros out. assert (out.1 = Some (Ok tt)) as Hres by (vm_compute; reflexivity).
  destruct (stop_all (Ok "/home/u") (Ok None) false sample_settings_read (fun _ => Err "bad")
    sample_settings_print (fun s => s) (fun _ => None) (fun _ => "12:00") (fun _ => 7%N) (fun _ => "1.1") true
    ["/opt/chatx"] "" ∅ sample_tunnel (sample_desk false)) as [res d'] eqn:Hs.
  subst out. cbn in Hres |- *.
  destruct (stop_all_spec "/home/u" (Ok None) false sample_settings_read
    (fun _ => Err "bad") sample_settings_print (fun s => s) (fun _ => None) (fun _ => "12:00") (fun _ => 7%N)
    (fun _ => "1.1") true ["/opt/chatx"] "" ∅ sample_tunnel (sample_desk false) res d' Hs
    sample_json_agrees ltac:(discriminate)) as (_ & Hquiet & Hok).
  split; [exact Hres|]. split; [apply (proj1 (Hok Hres))|]. apply Hquiet. rewrite Hres. by eexists.
Defined.
