(* ===== verification/Runtime.v ===== *)
(** * Starting, restoring and recovering the tunnel

    The rest of [src-tauri/src/tunnel_runtime.rs]: one start of the tunnel client, what is
    restored when the application starts, the wait for a runtime to become ready and one
    round of the reconnect monitor; and the worker thread of the phone's reconnect request
    ([monitor_control.rs]).

    Every operation is one thread's run.  Where it sleeps or waits for the connection lock,
    any other thread may run: such a point ([interfere]) applies an arbitrary function to the
    state, except that the record [ran] stays that of the commands this thread ran. *)

From S2P Require Export Desktop.
From stdpp Require Import pretty.
Local Open Scope string_scope.

(** ** The platform

    What [Desktop] takes one by one, together with the log files of the tunnel client. *)
Record Platform := {
  base_dir : Result string string;
  system_proxy : Result (option string) string;
  key_saved : bool;
  read_settings : string -> option Settings;
  read_value : string -> Result Value string;
  print_settings : Settings -> Result string string;
  from_utf8 : string -> string;
  read_report : string -> option Value;
  client_log : Desk -> string -> option string;
  now_text : Desk -> string;
  now_millis : Desk -> N;
  temp_suffix : Desk -> string;
  settings_write_lock_ok : bool;
  resource_roots : list string;
  executable_suffix : string;
  environment : Env;
  client : Path -> list string -> Env -> N -> Desk -> Result Output string }.

(** Other threads run. *)
Definition interfere (others : Desk -> Desk) : App unit := app_modify (fun d => set_ran (ran d) (others d)).

Section OnPlatform.
Context (P : Platform).

Definition app_load_settings : App Settings :=
  on_files (settings_load (base_dir P) (system_proxy P) (key_saved P) (read_settings P) (read_value P)).

Definition app_load_settings_checked : App (Result Settings string) :=
  on_files (load_settings_checked (base_dir P) (system_proxy P) (key_saved P) (read_settings P) (read_value P)).

Definition app_update_settings (update : Settings -> Result Settings string) : App (Result Settings string) :=
  settings_update (base_dir P) (system_proxy P) (key_saved P) (read_settings P) (read_value P)
    (print_settings P) (temp_suffix P) (settings_write_lock_ok P) update.

Definition app_log (message : string) : App unit := log (now_text P) message.

Definition app_recovery (phase : string) (next_reconnect_at : N) (last_error : string) : App unit :=
  app_modify (set_recovery_status phase next_reconnect_at last_error).

Definition app_runtime_paths : App (Result RuntimePaths string) :=
  on_files (runtime_paths (executable_suffix P) (resource_roots P)).

Definition app_run_tunnel (paths : RuntimePaths) (args : list string) (key : option string)
    : App (Result Output string) :=
  run_tunnel (base_dir P) (system_proxy P) (key_saved P) (read_settings P) (read_value P) (environment P)
    (client P) paths args key.

Definition app_stop_runtime (logged : bool) : App (Result Value string) :=
  stop_runtime (base_dir P) (system_proxy P) (key_saved P) (read_settings P) (read_value P) (from_utf8 P)
    (read_report P) (now_text P) (resource_roots P) (executable_suffix P) (environment P) (client P) logged.

Definition status_args : list string := ["runtimes"; "status"; runtime_alias; "--json"].

(** [runtime_status] of [tunnel_status.rs], with the command it runs. *)
Definition app_runtime_status (paths : RuntimePaths) : App RuntimeObservation :=
  output <-app app_run_tunnel paths status_args None ;;
  app_get (fun d => runtime_status (from_utf8 P) (read_report P) (client_log P d) output).

Definition app_update_snapshot (observation : RuntimeObservation) (desired : bool) (settings : Settings) : App unit :=
  fun d => (Some tt, update_runtime_snapshot (now_millis P d) observation desired settings d).

(** ** The MCP command ([main.rs]) *)

Fixpoint escape_mcp (s : string) : string :=
  match s with
  | EmptyString => ""
  | String a s =>
      if Ascii.eqb a "\" then String "/" (escape_mcp s)
      else if Ascii.eqb a "034" then String "\" (String "034" (escape_mcp s))
      else String a (escape_mcp s)
  end.

Definition quote_mcp_path (path : string) : string := String "034" (escape_mcp path ++ String "034" "").

Definition desktop_commander_home : App (Result string string) :=
  dir <-app? on_files (state_dir (base_dir P)) ;; app_ret (Ok (dir ++ "/desktop-commander-home")).

Definition mcp_command (paths : RuntimePaths) (dc_home : string) : string :=
  quote_mcp_path (path_display (node paths)) ++ " " ++ quote_mcp_path (path_display (launcher paths)) ++ " "
  ++ quote_mcp_path dc_home ++ " " ++ quote_mcp_path (path_display (desktop_commander paths)) ++ " --no-onboarding".

(** ** One start *)

Definition connect_args (id profiles : string) (command : string) : list string :=
  ["runtimes"; "connect"; "--alias"; runtime_alias; "--tunnel-id"; id; "--runtime-api-key";
   "env:CHATX_TUNNEL_RUNTIME_KEY"; "--profile-dir"; profiles; "--mcp-command"; command; "--json"].

(** [start_runtime_connection] from the connect command on. *)
Definition run_connect (paths : RuntimePaths) (id key profiles dc_home : string) (reconnect : bool)
    : App (Result unit string) :=
  _ <-app app_log (if reconnect then "正在自动重连 Secure MCP Tunnel → Desktop Commander"
                   else "正在启动 Secure MCP Tunnel → Desktop Commander") ;;
  output <-app? app_run_tunnel paths (connect_args id profiles (mcp_command paths dc_home)) (Some key) ;;
  let text := output_text (from_utf8 P) output in
  _ <-app app_log ("Tunnel connect: " ++ text) ;;
  app_ret (if success output then Ok tt else Err ("启动 Tunnel 失败：" ++ text)).

Definition start_runtime_connection (id key : string) (reconnect require_connection_intent : bool)
    : App (Result unit string) :=
  operation <-app app_get (fun d => lock (runtime_operation d)) ;;
  match operation with
  | None => app_ret (Err "Tunnel 操作锁已损坏。")
  | Some _ =>
      current_settings <-app app_load_settings ;;
      _ <-app? app_get (ensure_runtime_start_intent current_settings require_connection_intent) ;;
      if reconnect && negb (auto_reconnect current_settings) then app_ret (Ok tt)
      else
        paths <-app? app_runtime_paths ;;
        dir <-app? on_files (state_dir (base_dir P)) ;;
        let profiles := dir ++ "/tunnel-profiles" in
        dc_home <-app? desktop_commander_home ;;
        _ <-app? on_files (fs_map_err (fun e => "创建 Tunnel profile 目录失败：" ++ io_display e)
                             (create_dir_all profiles)) ;;
        _ <-app? on_files (fs_map_err (fun e => "创建 Desktop Commander 数据目录失败：" ++ io_display e)
                             (create_dir_all dc_home)) ;;
        stopped <-app app_stop_runtime false ;;
        match stopped with
        | Ok _ => run_connect paths id key profiles dc_home reconnect
        | Err error =>
            if reconnect
            then _ <-app app_log ("自动重连清理旧 runtime 时继续执行：" ++ error) ;;
                 run_connect paths id key profiles dc_home reconnect
            else app_ret (Err error)
        end
  end.

(** ** Restoring at start-up *)

(** The branch of [restore_persisted_connection_state] for unreadable settings. *)
Definition restore_without_settings (error : string) : App unit :=
  _ <-app app_modify (restore_desired_connection_intent settings_default) ;;
  _ <-app app_recovery "stopped" 0 error ;;
  _ <-app app_log ("读取持久设置失败，按停止连接意图处理并清理残留 runtime：" ++ error) ;;
  paths <-app app_runtime_paths ;;
  match paths with
  | Err _ => app_ret tt
  | Ok paths =>
      observation <-app app_runtime_status paths ;;
      observation <-app
        (if obs_runtime_alive observation || obs_active observation
         then stopped <-app app_stop_runtime false ;;
              match stopped with
              | Err stop_error =>
                  _ <-app app_log ("设置不可用且清理残留 Tunnel runtime 失败：" ++ stop_error) ;;
                  app_ret observation
              | Ok _ => app_runtime_status paths
              end
         else app_ret observation) ;;
      app_update_snapshot observation false settings_default
  end.

(** [settings.connection_intent = intent] *)
Definition set_intent (intent : bool) (s : Settings) : Settings :=
  set_connection intent (https_enabled (https_mcp s)) s.

(** The one-time transition from settings that hold both intents. *)
Definition migrate_both_intents (settings : Settings) : App Settings :=
  if https_enabled (https_mcp settings) && connection_intent settings
  then
    marked <-app on_files (mark_stopped (base_dir P) Tunnel) ;;
    _ <-app match marked with
            | Err error => app_log ("迁移双链路设置时记录 Tunnel 停止标记失败：" ++ error)
            | Ok _ => app_ret tt
            end ;;
    updated <-app app_update_settings (fun current =>
                    Ok (if https_enabled (https_mcp current) then set_intent false current else current)) ;;
    _ <-app match updated with
            | Err error => app_log ("迁移互斥连接设置失败（本次仍仅恢复 HTTPS）：" ++ error)
            | Ok _ => app_ret tt
            end ;;
    _ <-app app_log "检测到旧版双链路连接意图，已优先保留 HTTPS MCP、关闭 Tunnel" ;;
    app_ret (set_intent false settings)
  else app_ret settings.

(** The check of the stop marker. *)
Definition respect_stop_marker (settings : Settings) : App Settings :=
  if connection_intent settings
  then
    allowed <-app on_files (restore_allowed (base_dir P) Tunnel) ;;
    match allowed with
    | Ok true => app_ret settings
    | Ok false => _ <-app app_log "检测到手动停止标记，不自动恢复 Tunnel" ;; app_ret (set_intent false settings)
    | Err error =>
        _ <-app app_log ("无法验证 Tunnel 停止标记，拒绝自动重连：" ++ error) ;;
        app_ret (set_intent false settings)
    end
  else app_ret settings.

(** What follows once the settings are decided; [stored_key] is [load_runtime_key(app, "")]
    when a key is stored. *)
Definition restore_with_settings (stored_key : Result string string) (settings : Settings) : App unit :=
  _ <-app app_modify (restore_desired_connection_intent settings) ;;
  paths <-app app_runtime_paths ;;
  match paths with
  | Err _ => app_ret tt
  | Ok paths =>
      observation <-app app_runtime_status paths ;;
      observation <-app
        (if negb (connection_intent settings) && (obs_runtime_alive observation || obs_active observation)
         then _ <-app app_log "检测到未提交或残留的 Tunnel runtime；持久连接意图为停止，正在清理 runtime" ;;
              stopped <-app app_stop_runtime false ;;
              match stopped with
              | Ok _ => app_runtime_status paths
              | Err error =>
                  _ <-app app_log ("清理残留 Tunnel runtime 失败，连接意图仍保持停止：" ++ error) ;;
                  app_ret observation
              end
         else app_ret observation) ;;
      _ <-app app_update_snapshot observation (connection_intent settings) settings ;;
      if negb (connection_intent settings) then app_ret tt
      else if is_empty (trim (tunnel_id settings))
      then _ <-app app_modify (set_desired_connected false) ;;
           app_recovery "failed" 0 "持久连接意图存在，但 Tunnel ID 为空。"
      else
        _ <-app (if key_saved P
                 then match stored_key with
                      | Ok key => app_modify (fun d => set_session_runtime_key
                                    (update_locked (fun _ => Some key) (session_runtime_key d)) d)
                      | Err _ => app_ret tt
                      end
                 else app_ret tt) ;;
        app_log (if obs_active observation then "检测到现有 Tunnel runtime，已恢复连接意图"
                 else "已恢复持久化 Tunnel 连接意图，等待健康监测/自动重连")
  end.

Definition restore_persisted_connection_state (stored_key : Result string string) : App unit :=
  checked <-app app_load_settings_checked ;;
  match checked with
  | Err error => restore_without_settings error
  | Ok settings =>
      settings <-app migrate_both_intents settings ;;
      settings <-app respect_stop_marker settings ;;
      restore_with_settings stored_key settings
  end.

(** ** Waiting for the runtime

    [instant i] is the [i]-th reading of the monotonic clock in milliseconds and
    [others i] what happens elsewhere during the [i]-th sleep.  [None] is out of fuel. *)

Definition recovery_wait_ms : N := 15000.
Definition recovery_poll_ms : N := 2000.

Fixpoint recovery_loop (fuel : nat) (paths : RuntimePaths) (require_auto_reconnect : bool)
    (instant : nat -> N) (others : nat -> Desk -> Desk) (deadline : N) (i : nat) : App (option bool) :=
  match fuel with
  | O => app_ret None
  | S fuel =>
      settings <-app app_load_settings ;;
      desired <-app app_get desired_connected ;;
      if negb desired || (require_auto_reconnect && negb (auto_reconnect settings)) then app_ret (Some false)
      else
        observation <-app app_runtime_status paths ;;
        _ <-app app_update_snapshot observation desired settings ;;
        if obs_active observation then app_ret (Some true)
        else if (deadline <=? instant i)%N then app_ret (Some false)
        else
          _ <-app interfere (others i) ;;
          recovery_loop fuel paths require_auto_reconnect instant others deadline (S i)
  end.

Definition wait_for_runtime_recovery (fuel : nat) (paths : RuntimePaths) (require_auto_reconnect : bool)
    (instant : nat -> N) (others : nat -> Desk -> Desk) : App (option bool) :=
  recovery_loop fuel paths require_auto_reconnect instant others (instant 0%nat + recovery_wait_ms)%N 1.

(** As many rounds as fit before the deadline. *)
Definition recovery_fuel : nat := 9.

(** ** The reconnect monitor *)

(** The two variables of the monitor's loop. *)
Record Watch := { inactive_checks : N; next_reconnect : option N }.

Definition watch_reset : Watch := {| inactive_checks := 0; next_reconnect := None |}.

(** What one round meets: what other threads do while it sleeps and while it waits for the
    connection lock, and its readings of the monotonic clock. *)
Record Round := {
  during_sleep : Desk -> Desk;
  instant_check : N;
  during_acquire : Desk -> Desk;
  instant_retry : N;
  wait_instant : nat -> N;
  during_wait : nat -> Desk -> Desk }.

Definition failure_threshold (observation : RuntimeObservation) : N :=
  if String.eqb (cp_state (obs_control_plane observation)) "down" then 1
  else if obs_runtime_alive observation then 8 else 2.

Definition outage_detail (observation : RuntimeObservation) : string :=
  let plane := obs_control_plane observation in
  if negb (is_empty (obs_error observation)) then obs_error observation
  else if negb (is_empty (cp_reason plane)) then "control-plane " ++ cp_state plane ++ ": " ++ cp_reason plane
  else obs_state observation.

(** [state.reconnecting.store(false)] at the end of a round that goes on. *)
Definition end_attempt (w : Watch) : App (option Watch) :=
  _ <-app app_modify (set_reconnecting false) ;; app_ret (Some w).

(** [timestamp_ms().saturating_add(delay.saturating_mul(1000))] *)
Definition retry_at (delay : N) (d : Desk) : N :=
  saturating_add (now_millis P d) (N.min (delay * 1000) u64_max).

Definition back_off (phase error message : string) (delay : N) (r : Round) (w : Watch) : App Watch :=
  next_at <-app app_get (retry_at delay) ;;
  _ <-app app_recovery phase next_at error ;;
  _ <-app app_log message ;;
  app_ret {| inactive_checks := inactive_checks w; next_reconnect := Some (instant_retry r + delay * 1000)%N |}.

(** The part under the connection lock. *)
Definition guarded_reconnect (key : string) : App (Result unit string) :=
  acquired <-app ConnectionCoordinator_acquire ;;
  match acquired with
  | Err _ => app_ret (Err "连接操作锁不可用，拒绝 Tunnel 自动重连")
  | Ok _ =>
      latest <-app app_load_settings ;;
      d <-app app_get (fun d => d) ;;
      if negb (desired_connected d) || quitting d || https_enabled (https_mcp latest)
         || negb (auto_reconnect latest)
      then app_ret (Err "已停止 Tunnel 或切换至 HTTPS MCP，不执行自动重连")
      else start_runtime_connection (tunnel_id latest) key true true
  end.

(** What is made of its result. *)
Definition after_reconnect (result : Result unit string) (attempt delay : N) (paths : RuntimePaths)
    (r : Round) (w : Watch) : App Watch :=
  desired <-app app_get desired_connected ;;
  match result with
  | Ok _ =>
      if (desired : bool)
      then
        _ <-app app_recovery "verifying" 0 "" ;;
        _ <-app app_log ("第 " ++ pretty attempt ++ " 次自动重连命令已完成，正在验证 Tunnel Ready") ;;
        recovered <-app wait_for_runtime_recovery recovery_fuel paths true (wait_instant r) (during_wait r) ;;
        if bool_decide (recovered = Some true)
        then
          _ <-app app_recovery "idle" 0 "" ;;
          _ <-app app_log ("第 " ++ pretty attempt ++ " 次自动重连已确认 Tunnel 恢复") ;;
          _ <-app app_modify (set_reconnect_attempt 0) ;;
          app_ret watch_reset
        else
          desired <-app app_get desired_connected ;;
          wanted <-app (if (desired : bool) then settings <-app app_load_settings ;; app_ret (auto_reconnect settings)
                        else app_ret false) ;;
          if (wanted : bool)
          then back_off "backoff" "重连命令已完成，但 15 秒内未恢复 Tunnel Ready。"
                 ("第 " ++ pretty attempt ++ " 次自动重连命令已完成，但 15 秒内未恢复 Ready；" ++ pretty delay ++ " 秒后重试")
                 delay r w
          else app_ret {| inactive_checks := inactive_checks w; next_reconnect := None |}
      else app_ret {| inactive_checks := inactive_checks w; next_reconnect := None |}
  | Err error =>
      back_off "backoff" error
        ("第 " ++ pretty attempt ++ " 次自动重连失败：" ++ error ++ "；" ++ pretty delay ++ " 秒后重试") delay r w
  end.

(** [fetch_add(1) + 1] on the 32-bit counter, which wraps. *)
Definition next_attempt : App N := fun d =>
  let attempt := ((reconnect_attempt d + 1) mod 4294967296)%N in
  (Some attempt, set_reconnect_attempt attempt d).

Definition attempt_reconnect (observation : RuntimeObservation) (paths : RuntimePaths) (r : Round) (w : Watch)
    : App (option Watch) :=
  busy <-app (fun d => (Some (reconnecting d), set_reconnecting true d)) ;;
  if (busy : bool) then app_ret (Some w)
  else
    attempt <-app next_attempt ;;
    let delay := reconnect_delay_secs attempt in
    key <-app app_get (fun d => match lock (session_runtime_key d) with Some key => key | None => None end) ;;
    match key with
    | None =>
        w <-app back_off "blocked" "Desktop 当前没有可用于自动重连的 Runtime Key。"
              ("Tunnel 已断开，但本次会话没有可用于自动重连的 Runtime Key；" ++ pretty delay ++ " 秒后继续检查") delay r w ;;
        end_attempt w
    | Some key =>
        _ <-app app_recovery "reconnecting" 0 "" ;;
        _ <-app app_log ("检测到 Tunnel 掉线（" ++ outage_detail observation ++ "），开始第 " ++ pretty attempt
                         ++ " 次自动重连") ;;
        desired <-app app_get desired_connected ;;
        wanted <-app (if (desired : bool) then settings <-app app_load_settings ;; app_ret (auto_reconnect settings)
                      else app_ret false) ;;
        if negb wanted then end_attempt w
        else
          _ <-app interfere (during_acquire r) ;;
          result <-app guarded_reconnect key ;;
          w <-app after_reconnect result attempt delay paths r w ;;
          end_attempt w
    end.

(** The mode switch fails closed: a tunnel wish that survived it is dropped. *)
Definition drop_stale_intent : App unit :=
  was <-app (fun d => (Some (desired_connected d), set_desired_connected false d)) ;;
  _ <-app (if (was : bool) then app_log "HTTPS MCP 已选择，停止 Tunnel 自动重连" else app_ret tt) ;;
  app_modify (set_reconnecting false).

Definition rest (phase : string) : App (option Watch) :=
  _ <-app app_recovery phase 0 "" ;;
  _ <-app app_modify (set_reconnecting false) ;;
  _ <-app app_modify (set_reconnect_attempt 0) ;;
  app_ret (Some watch_reset).

(** One turn of the loop of [start_reconnect_monitor]; [None] leaves the loop. *)
Definition reconnect_round (r : Round) (w : Watch) : App (option Watch) :=
  _ <-app interfere (during_sleep r) ;;
  leaving <-app app_get quitting ;;
  if (leaving : bool) then app_ret None
  else
    settings <-app app_load_settings ;;
    _ <-app (if https_enabled (https_mcp settings) then drop_stale_intent else app_ret tt) ;;
    desired <-app app_get desired_connected ;;
    found <-app app_runtime_paths ;;
    match found with
    | Err error =>
        _ <-app app_recovery "failed" 0 error ;;
        _ <-app app_log ("Tunnel 健康检查失败：" ++ error) ;;
        app_ret (Some w)
    | Ok paths =>
        observation <-app app_runtime_status paths ;;
        _ <-app app_update_snapshot observation desired settings ;;
        if negb desired then rest "stopped"
        else if obs_active observation
        then
          was <-app (fun d => (Some (reconnecting d), set_reconnecting false d)) ;;
          _ <-app (if (was : bool) then app_log "Secure MCP Tunnel 已恢复连接" else app_ret tt) ;;
          _ <-app app_recovery "idle" 0 "" ;;
          _ <-app app_modify (set_reconnect_attempt 0) ;;
          app_ret (Some watch_reset)
        else if negb (auto_reconnect settings) then rest "disabled"
        else
          busy <-app app_get reconnecting ;;
          if (busy : bool) then app_ret (Some w)
          else
            let w := {| inactive_checks := u32_saturating_succ (inactive_checks w);
                        next_reconnect := next_reconnect w |} in
            if (inactive_checks w <? failure_threshold observation)%N
            then _ <-app app_recovery "detecting" 0 "" ;; app_ret (Some w)
            else if match next_reconnect w with Some next => (instant_check r <? next)%N | None => false end
            then app_ret (Some w)
            else attempt_reconnect observation paths r w
    end.

(** The loop over the rounds it meets. *)
Fixpoint reconnect_monitor (rounds : list Round) (w : Watch) : App (option Watch) :=
  match rounds with
  | [] => app_ret (Some w)
  | r :: rounds =>
      next <-app reconnect_round r w ;;
      match next with
      | None => app_ret None
      | Some w => reconnect_monitor rounds w
      end
  end.

(** ** The worker of the phone's reconnect request ([monitor_control.rs]) *)

Definition guarded_remote_reconnect (key : string) : App (Result unit string) :=
  acquired <-app ConnectionCoordinator_acquire ;;
  match acquired with
  | Err _ => app_ret (Err "连接操作锁已损坏")
  | Ok _ =>
      current <-app app_load_settings ;;
      d <-app app_get (fun d => d) ;;
      if quitting d || https_enabled (https_mcp current) || negb (connection_intent current)
         || negb (desired_connected d)
      then app_ret (Err "已切换至 HTTPS MCP 或手动停止，取消手机触发的 Tunnel 重连")
      else start_runtime_connection (tunnel_id current) key false true
  end.

Definition remote_reconnect_worker (key : string) (r : Round) : App unit :=
  _ <-app app_log "手机 Monitor 请求立即重连 Secure MCP Tunnel" ;;
  _ <-app interfere (during_acquire r) ;;
  result <-app guarded_remote_reconnect key ;;
  recovered <-app
    match result with
    | Ok _ =>
        _ <-app app_recovery "verifying" 0 "" ;;
        found <-app app_runtime_paths ;;
        match found with
        | Ok paths => wait_for_runtime_recovery recovery_fuel paths false (wait_instant r) (during_wait r)
        | Err error =>
            _ <-app app_log ("手机触发重连后的 Ready 验证失败：" ++ error) ;; app_ret (Some false)
        end
    | Err _ => app_ret (Some false)
    end ;;
  _ <-app
    match result with
    | Ok _ =>
        if bool_decide (recovered = Some true)
        then
          _ <-app app_recovery "idle" 0 "" ;;
          _ <-app app_modify (set_reconnect_attempt 0) ;;
          app_log "手机触发的 Tunnel 重连已确认恢复 Ready"
        else
          _ <-app app_recovery "failed" 0 "手机触发的重连命令已完成，但 15 秒内未恢复 Tunnel Ready。" ;;
          app_log "手机触发的 Tunnel 重连命令已完成，但 15 秒内未恢复 Ready"
    | Err error =>
        _ <-app app_recovery "failed" 0 error ;;
        app_log ("手机触发的 Tunnel 重连失败：" ++ error)
    end ;;
  app_modify (fun d => set_reconnect_running false (set_reconnecting false d)).
End OnPlatform.

(** ** What an operation may do *)

(** Besides the log, only the commands [tail] were run; the files are as before. *)
Definition client_only (tail : list (list string)) (d d' : Desk) : Prop :=
  exists w l, d' = set_logs l (set_ran (ran d ++ tail) (set_desk_world w d))
  /\ files w = files (desk_world d) /\ io_fault w = io_fault (desk_world d).

Lemma client_only_world w d :
  files w = files (desk_world d) -> io_fault w = io_fault (desk_world d) -> client_only [] d (set_desk_world w d).
Proof. intros Hf Hi. exists w, (logs d). by rewrite app_nil_r. Qed.

Lemma client_only_refl d : client_only [] d d.
Proof. exists (desk_world d), (logs d). rewrite app_nil_r. by destruct d. Qed.

Lemma client_only_trans t1 t2 d1 d2 d3 :
  client_only t1 d1 d2 -> client_only t2 d2 d3 -> client_only (t1 ++ t2) d1 d3.
Proof.
  intros (w & l & -> & Hf & Hi) (w' & l' & -> & Hf' & Hi'). cbn in *. exists w', l'.
  rewrite app_assoc. split_and!; [done|congruence..].
Qed.

Lemma client_only_log stamp message d : client_only [] d (push_log stamp message d).
Proof. exists (desk_world d). eexists. rewrite app_nil_r. split_and!; [by destruct d|done..]. Qed.

Lemma client_only_ran t d d' : client_only t d d' -> ran d' = (ran d ++ t)%list.
Proof. by intros (w & l & -> & _). Qed.

Lemma client_only_desired t d d' : client_only t d d' -> desired_connected d' = desired_connected d.
Proof. by intros (w & l & -> & _). Qed.

Lemma client_only_disk t d d' :
  client_only t d d' -> files (desk_world d') = files (desk_world d)
                        /\ io_fault (desk_world d') = io_fault (desk_world d).
Proof. by intros (w & l & -> & Hf & Hi). Qed.

(** A command that starts the runtime. *)
Definition is_connect (args : list string) : bool := bool_decide (args !! 1%nat = Some "connect").

(** A fallible step that runs no command either ends the operation or is passed. *)
Lemma app_try_client {A B} (m : App (Result A string)) (k : A -> App (Result B string)) t d0 d res d' :
  (forall d r d', m d = (r, d') -> client_only [] d d') -> client_only t d0 d -> app_try m k d = (res, d') ->
  (client_only t d0 d' /\ forall b, res <> Some (Ok b)) \/ exists a d1, client_only t d0 d1 /\ k a d1 = (res, d').
Proof.
  intros Hm Hc [[H ->]|[(e & H & ->)|(a & d1 & H & Hk)]]%app_try_inv; apply Hm in H;
    pose proof (client_only_trans _ _ _ _ _ Hc H) as Hc2; rewrite app_nil_r in Hc2; [by left..|right; by eauto].
Qed.

Section StartProps.
Context (P : Platform) (base : string) (Hbase : base_dir P = Ok base).

Lemma load_settings_client d res d' : app_load_settings P d = (res, d') -> client_only [] d d'.
Proof using base Hbase.
  unfold app_load_settings. rewrite Hbase. intros (w & H & ->)%on_files_inv.
  apply load_settings_files in H as [Hf Hi]. by apply client_only_world.
Qed.

Lemma runtime_paths_client d res d' : app_runtime_paths P d = (res, d') -> client_only [] d d'.
Proof. intros (w & H & ->)%on_files_inv. apply runtime_paths_files in H as [Hf Hi]. by apply client_only_world. Qed.

Lemma state_dir_client d res d' : on_files (state_dir (base_dir P)) d = (res, d') -> client_only [] d d'.
Proof using base Hbase.
  rewrite Hbase. intros (w & H & ->)%on_files_inv. apply state_dir_inv in H as (Hf & Hi & _).
  by apply client_only_world.
Qed.

Lemma create_dir_client f dir d (res : option (Result unit string)) d' :
  on_files (fs_map_err f (create_dir_all dir)) d = (res, d') -> client_only [] d d'.
Proof.
  intros (w & H & ->)%on_files_inv. apply fs_map_err_inv in H as (r & H & _).
  apply create_dir_all_files in H as (Hf & Hi & _). by apply client_only_world.
Qed.

Lemma home_client d res d' : desktop_commander_home P d = (res, d') -> client_only [] d d'.
Proof using base Hbase.
  intros [[H ->]|[(e & H & ->)|(dir & d1 & H & Hk)]]%app_try_inv; apply state_dir_client in H; [done..|].
  by injection Hk as _ <-.
Qed.

Lemma log_client message d res d' :
  app_log P message d = (res, d') -> client_only [] d d' /\ res = Some tt.
Proof. intros [= <- <-]. split; [apply client_only_log|done]. Qed.

Lemma run_tunnel_client paths args key d res d' :
  app_run_tunnel P paths args key d = (res, d') ->
  client_only [] d d' /\ (forall o, res <> Some (Ok o)) \/ client_only [args] d d' /\ is_Some res.
Proof using base Hbase.
  unfold app_run_tunnel. rewrite Hbase. intros (w & tail & -> & Hf & Hi & Hr)%run_tunnel_inv.
  assert (client_only tail d (set_ran (ran d ++ tail) (set_desk_world w d))) by (by exists w, (logs d)).
  destruct Hr as [[-> Hr]|[-> Hr]]; [by left|by right].
Qed.

Lemma stop_runtime_client logged d res d' :
  app_stop_runtime P logged d = (res, d') ->
  client_only [] d d' /\ (forall v, res <> Some (Ok v)) \/ client_only [stop_args] d d' /\ is_Some res.
Proof using base Hbase.
  unfold app_stop_runtime. rewrite Hbase. intros (w & l & tail & -> & Hf & Hi & Hr)%stop_runtime_inv.
  assert (client_only tail d (set_logs l (set_ran (ran d ++ tail) (set_desk_world w d)))) by (by exists w, l).
  destruct Hr as [[-> Hr]|[-> Hr]]; [by left|by right].
Qed.

Lemma status_client paths d res d' :
  app_runtime_status P paths d = (res, d') ->
  exists tail, client_only tail d d' /\ (tail = [] \/ tail = [status_args]).
Proof using base Hbase.
  intros [[H ->]|(o & d1 & H & Hk)]%app_bind_inv;
    apply run_tunnel_client in H as [[H _]|[H _]]; try injection Hk as _ <-;
    eexists; (split; [exact H|]); by (left + right).
Qed.

(** The connect command and what comes with it. *)
Lemma run_connect_inv paths id key profiles home reconnect d res d' :
  run_connect P paths id key profiles home reconnect d = (res, d') ->
  let args := connect_args id profiles (mcp_command paths home) in
  client_only [] d d' /\ res <> Some (Ok tt) \/ client_only [args] d d'.
Proof using base Hbase.
  intros [[H _]|(u & d1 & H & Hk)]%app_bind_inv; apply log_client in H as [Hc Hr]; [done|].
  apply app_try_inv in Hk as [[H ->]|[(e & H & ->)|(o & d2 & H & Hk)]];
    apply run_tunnel_client in H as [[H Hn]|[H _]]; pose proof (client_only_trans _ _ _ _ _ Hc H) as H';
    [by left|by right|by left|by right|by destruct (Hn o)|right].
  injection Hk as _ <-. exact (client_only_trans _ _ _ _ _ H' (client_only_log _ _ _)).
Qed.

(** No runtime was started by the commands [tail]. *)
Definition not_started (tail : list (list string)) : Prop := tail = [] \/ tail = [stop_args].

(** A start after the old runtime was stopped; an automatic one goes on when that fails. *)
Definition started (id : string) (reconnect : bool) (tail : list (list string)) : Prop :=
  exists profiles command, let c := connect_args id profiles command in
  tail = [stop_args; c] \/ reconnect = true /\ tail = [c].

Lemma connect_after_stop_inv paths id key profiles home reconnect d res d' :
  (stopped <-app app_stop_runtime P false ;;
   match stopped with
   | Ok _ => run_connect P paths id key profiles home reconnect
   | Err error =>
       if reconnect
       then _ <-app app_log P ("自动重连清理旧 runtime 时继续执行：" ++ error) ;;
            run_connect P paths id key profiles home reconnect
       else app_ret (Err error)
   end) d = (res, d') ->
  exists tail, client_only tail d d'
  /\ (not_started tail /\ res <> Some (Ok tt) \/ started id reconnect tail).
Proof using base Hbase.
  assert (forall t d1, (t = [stop_args] \/ reconnect = true /\ t = []) -> client_only t d d1 ->
    run_connect P paths id key profiles home reconnect d1 = (res, d') ->
    exists tail, client_only tail d d' /\ (not_started tail /\ res <> Some (Ok tt) \/ started id reconnect tail))
    as Hconnect.
  { intros t d1 Ht Hc [[H Hr]|H]%run_connect_inv; pose proof (client_only_trans _ _ _ _ _ Hc H) as Hc2.
    - rewrite app_nil_r in Hc2. exists t. split; [done|]. left. split; [|done].
      destruct Ht as [->|[_ ->]]; [by right|by left].
    - eexists. split; [exact Hc2|]. right. eexists _, _. destruct Ht as [->|[? ->]]; [by left|by right]. }
  intros [[H ->]|(r & d1 & H & Hk)]%app_bind_inv; apply stop_runtime_client in H as [[H Hn]|[H Hs]].
  - exists []. split; [done|]. by left; split; [left|].
  - by destruct Hs.
  - destruct r as [v|e]; [by destruct (Hn v)|]. destruct reconnect.
    + apply app_bind_inv in Hk as [[Hl _]|(u & d2 & Hl & Hk)]; apply log_client in Hl as [Hl Hlr]; [done|].
      eapply Hconnect; [by right|exact (client_only_trans _ _ _ _ _ H Hl)|exact Hk].
    + injection Hk as <- <-. exists []. split; [done|]. by left; split; [left|].
  - destruct r as [v|e]; [by eapply Hconnect; [left|..]|]. destruct reconnect.
    + apply app_bind_inv in Hk as [[Hl _]|(u & d2 & Hl & Hk)]; apply log_client in Hl as [Hl Hlr]; [done|].
      eapply Hconnect; [by left|exact (client_only_trans _ _ _ _ _ H Hl)|exact Hk].
    + injection Hk as <- <-. exists [stop_args]. split; [done|]. by left; split; [right|].
Qed.

Lemma ensure_intent_inv s require d :
  ensure_runtime_start_intent s require d = Ok tt ->
  require = true -> connection_intent s = true /\ desired_connected d = true.
Proof.
  unfold ensure_runtime_start_intent. intros H ->. by destruct (connection_intent s), (desired_connected d).
Qed.

(** What one start does, however it ends. *)
Lemma start_inv id key reconnect require d res d' :
  start_runtime_connection P id key reconnect require d = (res, d') ->
  exists tail, client_only tail d d'
  /\ (not_started tail /\ (res = Some (Ok tt) -> reconnect = true /\ tail = [] /\
         exists s, (app_load_settings P d).1 = Some s /\ auto_reconnect s = false)
      \/ started id reconnect tail /\ exists s, (app_load_settings P d).1 = Some s
          /\ (require = true -> connection_intent s = true /\ desired_connected d = true)
          /\ (reconnect = true -> auto_reconnect s = true)).
Proof using base Hbase.
  unfold start_runtime_connection, app_bind at 1, app_get at 1.
  assert (not_started []) as Hno by (by left).
  destruct (lock (runtime_operation d));
    [|intros [= <- <-]; exists []; split; [apply client_only_refl|by left]].
  intros [[H ->]|(s & d1 & H & Hk)]%app_bind_inv; pose proof (load_settings_client _ _ _ H) as Hc;
    [exists []; split; [done|by left]|].
  assert ((app_load_settings P d).1 = Some s) as Hs by (by rewrite H). clear H.
  unfold app_try at 1 in Hk. unfold app_bind at 1, app_get at 1 in Hk.
  destruct (ensure_runtime_start_intent s require d1) as [[]|e] eqn:Hi;
    [|injection Hk as <- <-; exists []; split; [done|by left]].
  pose proof (ensure_intent_inv _ _ _ Hi) as Hwant. rewrite (client_only_desired _ _ _ Hc) in Hwant. clear Hi.
  destruct (reconnect && negb (auto_reconnect s)) eqn:Ha; reflect_bools.
  { injection Hk as <- <-. exists []. split; [done|]. left. split; [done|]. intros _. split_and!; [done..|by exists s]. }
  assert (reconnect = true -> auto_reconnect s = true) as Hauto by (intros ->; by destruct (auto_reconnect s)).
  assert (forall (r : option (Result unit string)) d2, client_only [] d d2 -> (forall b, r <> Some (Ok b)) ->
    exists tail, client_only tail d d2 /\ (not_started tail /\ (r = Some (Ok tt) -> reconnect = true /\ tail = []
         /\ exists s, (app_load_settings P d).1 = Some s /\ auto_reconnect s = false)
      \/ started id reconnect tail /\ exists s, (app_load_settings P d).1 = Some s
          /\ (require = true -> connection_intent s = true /\ desired_connected d = true)
          /\ (reconnect = true -> auto_reconnect s = true))) as Hfail
    by (intros r d2 ? Hr; exists []; split; [done|left; split; [done|intros E; by apply Hr in E]]).
  apply (app_try_client _ _ _ _ _ _ _ runtime_paths_client Hc) in Hk as [[? ?]|(paths & d2 & Hc2 & Hk)]; [by auto|].
  apply (app_try_client _ _ _ _ _ _ _ state_dir_client Hc2) in Hk as [[? ?]|(dir & d3 & Hc3 & Hk)]; [by auto|].
  apply (app_try_client _ _ _ _ _ _ _ home_client Hc3) in Hk as [[? ?]|(home & d4 & Hc4 & Hk)]; [by auto|].
  apply (app_try_client _ _ _ _ _ _ _ (create_dir_client _ _) Hc4) in Hk as [[? ?]|(u1 & d5 & Hc5 & Hk)]; [by auto|].
  apply (app_try_client _ _ _ _ _ _ _ (create_dir_client _ _) Hc5) in Hk as [[? ?]|(u2 & d6 & Hc6 & Hk)]; [by auto|].
  apply connect_after_stop_inv in Hk as (tail & Hc7 & Hr). exists tail.
  split; [exact (client_only_trans _ _ _ _ _ Hc6 Hc7)|].
  destruct Hr as [[Hn Hr]|Hr]; [by left|right]. split; [done|]. by exists s.
Qed.
End StartProps.

(** ** Computations that start no runtime *)

(** Since [d], no runtime was started. *)
Definition still (d d' : Desk) : Prop :=
  exists tail, ran d' = (ran d ++ tail)%list /\ Forall (fun c => is_connect c = false) tail.

(** Besides, the wish to be connected is what it was. *)
Definition calm (d d' : Desk) : Prop := still d d' /\ desired_connected d' = desired_connected d.

#[export] Instance still_preorder : PreOrder still.
Proof.
  split.
  - intros d. exists []. rewrite app_nil_r. by split.
  - intros d1 d2 d3 (t1 & H1 & Ht1) (t2 & H2 & Ht2). exists (t1 ++ t2)%list.
    split; [by rewrite H2, H1, app_assoc|by apply Forall_app].
Qed.

#[export] Instance calm_preorder : PreOrder calm.
Proof.
  split; [intros d; split; [reflexivity|done]|]. intros d1 d2 d3 [H1 E1] [H2 E2].
  split; [by etrans|congruence].
Qed.

Lemma still_same d d' : ran d' = ran d -> still d d'.
Proof. intros H. exists []. rewrite app_nil_r. by split. Qed.

Lemma calm_same d d' : ran d' = ran d -> desired_connected d' = desired_connected d -> calm d d'.
Proof. intros H E. split; [by apply still_same|done]. Qed.

(** Every run of [m] relates the states before and after by [R]. *)
Definition does (R : relation Desk) {A} (m : App A) : Prop := forall d res d', m d = (res, d') -> R d d'.

(** A relation that every calm step respects. *)
Class Harmless (R : relation Desk) : Prop := {
  harmless_preorder :: PreOrder R;
  harmless_calm : forall d d', calm d d' -> R d d' }.

#[export] Instance still_harmless : Harmless still.
Proof. split; [apply _|]. by intros d d' [H _]. Qed.
#[export] Instance calm_harmless : Harmless calm.
Proof. split; [apply _|done]. Qed.

Abbreviation quiet := (does still).

Section Does.
Context (R : relation Desk) `{!PreOrder R}.

Lemma does_get {A} (f : Desk -> A) : does R (app_get f).
Proof using Type*. by intros d res d' [= _ <-]. Qed.

Lemma does_ret {A} (a : A) : does R (app_ret a).
Proof using Type*. by intros d res d' [= _ <-]. Qed.

Lemma does_bind {A B} (m : App A) (k : A -> App B) :
  does R m -> (forall a, does R (k a)) -> does R (app_bind m k).
Proof using Type*.
  intros Hm Hk d res d' [[H _]|(a & d1 & H & Hr)]%app_bind_inv; [by eapply Hm|].
  etrans; [by eapply Hm|by eapply Hk].
Qed.

Lemma does_try {A B E} (m : App (Result A E)) (k : A -> App (Result B E)) :
  does R m -> (forall a, does R (k a)) -> does R (app_try m k).
Proof using Type*. intros Hm Hk. apply does_bind; [done|]. intros [a|e]; [apply Hk|apply does_ret]. Qed.

Lemma does_end {A} (m : App A) d0 d res d' : does R m -> R d0 d -> m d = (res, d') -> R d0 d'.
Proof using Type*. intros Hm Hd H. etrans; [exact Hd|by eapply Hm]. Qed.

(** A step is passed, or ends the computation. *)
Lemma does_bind_inv {A B} (m : App A) (k : A -> App B) d0 d res d' :
  does R m -> R d0 d -> app_bind m k d = (res, d') ->
  R d0 d' /\ res = None \/ exists a d1, m d = (Some a, d1) /\ R d0 d1 /\ k a d1 = (res, d').
Proof using Type*.
  intros Hm Hd [[H ->]|(a & d1 & H & Hk)]%app_bind_inv; apply Hm in H as Hs;
    [left; split; [by etrans|done]|right; exists a, d1; split_and!; [done|by etrans|done]].
Qed.

Lemma does_try_inv {A B E} (m : App (Result A E)) (k : A -> App (Result B E)) d0 d res d' :
  does R m -> R d0 d -> app_try m k d = (res, d') ->
  R d0 d' /\ (forall b, res <> Some (Ok b)) \/ exists a d1, m d = (Some (Ok a), d1) /\ R d0 d1 /\ k a d1 = (res, d').
Proof using Type*.
  intros Hm Hd [[H ->]|[(e & H & ->)|(a & d1 & H & Hk)]]%app_try_inv; apply Hm in H as Hs;
    [left; split; [by etrans|done]..|right; exists a, d1; split_and!; [done|by etrans|done]].
Qed.
End Does.

Section Harmless.
Context (R : relation Desk) `{!Harmless R}.

Lemma does_modify f : (forall d, ran (f d) = ran d /\ desired_connected (f d) = desired_connected d) -> does R (app_modify f).
Proof using Type*. intros Hf d res d' [= _ <-]. apply harmless_calm, calm_same; apply Hf. Qed.

Lemma does_state {A} (f : Desk -> A) g :
  (forall d, ran (g d) = ran d /\ desired_connected (g d) = desired_connected d) -> does R (fun d => (Some (f d), g d)).
Proof using Type*. intros Hg d res d' [= _ <-]. apply harmless_calm, calm_same; apply Hg. Qed.

Lemma does_files {A} (m : Fs A) : does R (on_files m).
Proof using Type*. intros d res d' (w & _ & ->)%on_files_inv. by apply harmless_calm, calm_same. Qed.
End Harmless.

Lemma quiet_interfere f : quiet (interfere f).
Proof. intros d res d' [= _ <-]. by apply still_same. Qed.
Lemma quiet_modify f : (forall d, ran (f d) = ran d) -> quiet (app_modify f).
Proof. intros Hf d res d' [= _ <-]. by apply still_same. Qed.
Lemma quiet_state {A} (f : Desk -> A) g : (forall d, ran (g d) = ran d) -> quiet (fun d => (Some (f d), g d)).
Proof. intros Hg d res d' [= _ <-]. by apply still_same. Qed.

Create HintDb quiet.
#[export] Hint Resolve does_get does_ret does_files quiet_interfere : quiet.
#[export] Hint Extern 1 (does _ (app_modify _)) => (apply does_modify; done) : quiet.
#[export] Hint Extern 2 (quiet (app_modify _)) => (apply quiet_modify; done) : quiet.
#[export] Hint Extern 1 (Harmless _) => (apply _) : quiet.
#[export] Hint Extern 1 (PreOrder _) => (apply _) : quiet.

(** Walks through a computation whose steps all respect the relation. *)
Ltac solve_quiet :=
  repeat first
    [ solve [eauto with quiet]
    | progress intros
    | apply does_bind; [apply _|..]
    | apply does_try; [apply _|..]
    | apply does_state; [apply _|done]
    | apply quiet_state; done
    | case_match ].

(** A quiet step is passed, or ends the computation. *)
Lemma quiet_bind_inv {A B} (m : App A) (k : A -> App B) d0 d res d' :
  quiet m -> still d0 d -> app_bind m k d = (res, d') ->
  still d0 d' \/ exists a d1, m d = (Some a, d1) /\ still d0 d1 /\ k a d1 = (res, d').
Proof.
  intros Hm Hd H. by destruct (does_bind_inv still m k d0 d res d' Hm Hd H) as [[? _]|?]; [left|right].
Qed.

Section QuietProps.
Context (P : Platform) (base : string) (Hbase : base_dir P = Ok base) (R : relation Desk) `{!Harmless R}.

Lemma does_load : does R (app_load_settings P).
Proof using Type*. solve_quiet. Qed.
Lemma does_log message : does R (app_log P message).
Proof using Type*. by apply does_modify. Qed.
Lemma does_recovery phase at_ error : does R (app_recovery phase at_ error).
Proof using Type*. by apply does_modify. Qed.
Lemma does_snapshot o desired s : does R (app_update_snapshot P o desired s).
Proof using Type*. by apply does_modify. Qed.

Lemma does_update u : does R (app_update_settings P u).
Proof using Type*. intros d res d' H. unfold app_update_settings, settings_update in H. by eapply does_files. Qed.

Lemma client_only_calm tail d d' :
  client_only tail d d' -> Forall (fun c => is_connect c = false) tail -> calm d d'.
Proof.
  intros H Ht. split; [|by eapply client_only_desired]. apply client_only_ran in H. by exists tail.
Qed.

Lemma does_status paths : does R (app_runtime_status P paths).
Proof using Type*.
  intros d res d' (tail & H & Ht)%(status_client P base Hbase).
  eapply harmless_calm, client_only_calm; [done|]. destruct Ht as [->| ->]; by repeat constructor.
Qed.
Lemma does_stop logged : does R (app_stop_runtime P logged).
Proof using Type*.
  intros d res d' [[H _]|[H _]]%(stop_runtime_client P base Hbase); (eapply harmless_calm, client_only_calm; [done|]);
    by repeat constructor.
Qed.
Lemma does_back_off phase error message delay r w : does R (back_off P phase error message delay r w).
Proof using Type*. unfold back_off. solve_quiet; by apply does_modify. Qed.
End QuietProps.

#[export] Hint Resolve does_load does_log does_recovery does_snapshot does_update does_status does_stop does_back_off : quiet.

(** ** What the operations on files and the client leave alone *)

(** A relation that ignores the files, the log and the commands run. *)
Class Framed (R : relation Desk) : Prop := {
  framed_preorder :: PreOrder R;
  framed_same : forall d w l r, R d (set_logs l (set_ran r (set_desk_world w d))) }.

Section FramedProps.
Context (P : Platform) (base : string) (Hbase : base_dir P = Ok base) (R : relation Desk) {HR : Framed R}.

Lemma framed_client tail d d' : client_only tail d d' -> R d d'.
Proof using HR. intros (w & l & -> & _). apply framed_same. Qed.
Lemma framed_files {A} (m : Fs A) : does R (on_files m).
Proof using HR.
  intros d res d' (w & _ & ->)%on_files_inv. pose proof (framed_same d w (logs d) (ran d)) as H. by destruct d.
Qed.
Lemma framed_load : does R (app_load_settings P).
Proof using HR. apply framed_files. Qed.
Lemma framed_update u : does R (app_update_settings P u).
Proof using HR. intros d res d' H. unfold app_update_settings, settings_update in H. by eapply framed_files. Qed.
Lemma framed_log message : does R (app_log P message).
Proof using HR. intros d res d' [H _]%log_client. by eapply framed_client. Qed.
Lemma framed_paths : does R (app_runtime_paths P).
Proof using HR. apply framed_files. Qed.
Lemma framed_status paths : does R (app_runtime_status P paths).
Proof using Type*. intros d res d' (tail & H & _)%(status_client P base Hbase). by eapply framed_client. Qed.
Lemma framed_stop_runtime logged : does R (app_stop_runtime P logged).
Proof using Type*. intros d res d' [[H _]|[H _]]%(stop_runtime_client P base Hbase); by eapply framed_client. Qed.
Lemma framed_start id key reconnect require : does R (start_runtime_connection P id key reconnect require).
Proof using Type*. intros d res d' (tail & H & _)%(start_inv P base Hbase). by eapply framed_client. Qed.
End FramedProps.

#[export] Hint Extern 1 (Framed _) => (apply _) : quiet.
#[export] Hint Resolve framed_files framed_load framed_update framed_log framed_paths framed_status framed_stop_runtime
  framed_start : quiet.

(** ** The wait ends *)

Section RecoveryProps.
Context (P : Platform) (base : string) (Hbase : base_dir P = Ok base).

(** One round of the wait: it ends the wait, or a sleep follows. *)
Lemma recovery_loop_unfold fuel paths require instant others deadline i d :
  recovery_loop P (S fuel) paths require instant others deadline i d
  = (settings <-app app_load_settings P ;;
     desired <-app app_get desired_connected ;;
     if negb desired || (require && negb (auto_reconnect settings)) then app_ret (Some false)
     else
       observation <-app app_runtime_status P paths ;;
       _ <-app app_update_snapshot P observation desired settings ;;
       if obs_active observation then app_ret (Some true)
       else if (deadline <=? instant i)%N then app_ret (Some false)
       else
         _ <-app interfere (others i) ;;
         recovery_loop P fuel paths require instant others deadline (S i)) d.
Proof. done. Qed.

Lemma recovery_loop_quiet fuel paths require instant others deadline i :
  quiet (recovery_loop P fuel paths require instant others deadline i).
Proof using base Hbase.
  revert i. induction fuel as [|fuel IH]; intros i; [apply (does_ret still)|].
  cbn [recovery_loop]. solve_quiet.
Qed.

(** The result does not depend on the fuel once the clock is past the deadline in time. *)
Lemma recovery_loop_fuel n k paths require instant others deadline i d :
  (deadline <= instant (i + n)%nat)%N ->
  (recovery_loop P (S n) paths require instant others deadline i d).1 <> Some None
  /\ recovery_loop P (S n + k) paths require instant others deadline i d
     = recovery_loop P (S n) paths require instant others deadline i d.
Proof.
  revert i d. induction n as [|n IH]; intros i d Hn.
  - cbn [plus]. rewrite !recovery_loop_unfold. unfold app_bind, app_get, app_ret.
    destruct (app_load_settings P d) as [[s|] d1]; [|done].
    destruct (_ || _); [done|]. destruct (app_runtime_status P paths d1) as [[o|] d2]; [|done].
    destruct (app_update_snapshot P o _ s d2) as [[u|] d3]; [|done]. destruct (obs_active o); [done|].
    rewrite Nat.add_0_r in Hn. apply N.leb_le in Hn. by rewrite Hn.
  - change (S (S n) + k)%nat with (S (S n + k))%nat. rewrite (recovery_loop_unfold (S n + k)), (recovery_loop_unfold (S n)).
    unfold app_bind, app_get, app_ret.
    destruct (app_load_settings P d) as [[s|] d1]; [|done].
    destruct (_ || _); [done|]. destruct (app_runtime_status P paths d1) as [[o|] d2]; [|done].
    destruct (app_update_snapshot P o _ s d2) as [[u|] d3]; [|done]. destruct (obs_active o); [done|].
    destruct (deadline <=? instant i)%N; [done|]. unfold interfere, app_modify.
    apply IH. by replace (S i + n)%nat with (i + S n)%nat by lia.
Qed.

Lemma recovery_loop_true fuel paths require instant others deadline i d d' :
  recovery_loop P fuel paths require instant others deadline i d = (Some (Some true), d') ->
  exists s o d1 d2, desired_connected d1 = true /\ app_runtime_status P paths d1 = (Some o, d2)
  /\ obs_active o = true /\ d' = update_runtime_snapshot (now_millis P d2) o true s d2.
Proof.
  revert i d. induction fuel as [|fuel IH]; intros i d; [done|].
  rewrite recovery_loop_unfold. intros [[_ ?]|(s & d1 & _ & H)]%app_bind_inv; [done|].
  unfold app_bind at 1, app_get at 1 in H. destruct (desired_connected d1) eqn:Hd; cbn [negb orb] in H; [|done].
  destruct (require && _); [done|]. apply app_bind_inv in H as [[_ ?]|(o & d2 & Ho & H)]; [done|].
  unfold app_bind at 1, app_update_snapshot in H. destruct (obs_active o) eqn:Ha.
  - injection H as <-. by exists s, o, d1, d2.
  - destruct (deadline <=? instant i)%N; [done|]. exact (IH _ _ H).
Qed.

Lemma instant_after (instant : nat -> N) n :
  (instant 0%nat <= instant 1%nat)%N -> (forall i, instant (S i) + recovery_poll_ms <= instant (S (S i)))%N ->
  (instant 0%nat + recovery_poll_ms * N.of_nat n <= instant (S n))%N.
Proof. intros H0 Hs. induction n as [|n IH]; [lia|]. specialize (Hs n). unfold recovery_poll_ms in *. lia. Qed.

(** The wait for a restarted runtime ends: when the monotonic clock never goes back and
    every sleep lasts its two seconds, nine rounds are enough whatever the client answers
    and the other threads do (more would change nothing); it never starts a runtime; and it
    reports success only when the tunnel was wanted and the last report showed it active,
    which is then what the snapshot shows. *)
Theorem recovery_wait_terminates paths require instant others extra d res d'
    (Hmono : (instant 0%nat <= instant 1%nat)%N)
    (Hsleep : (forall i, instant (S i) + recovery_poll_ms <= instant (S (S i)))%N)
    (Hwait : wait_for_runtime_recovery P recovery_fuel paths require instant others d = (res, d')) :
  res <> Some None
  /\ wait_for_runtime_recovery P (recovery_fuel + extra) paths require instant others d = (res, d')
  /\ still d d'
  /\ (res = Some (Some true) -> exists s o d1 d2, desired_connected d1 = true
        /\ app_runtime_status P paths d1 = (Some o, d2) /\ obs_active o = true
        /\ d' = update_runtime_snapshot (now_millis P d2) o true s d2).
Proof using base Hbase.
  unfold wait_for_runtime_recovery in *. pose proof (instant_after instant 8 Hmono Hsleep) as Hlast.
  destruct (recovery_loop_fuel 8 extra paths require instant others (instant 0%nat + recovery_wait_ms)%N 1 d) as [Hne Hmore].
  { cbn [plus]. unfold recovery_wait_ms, recovery_poll_ms in *. lia. }
  change (S 8) with recovery_fuel in Hne, Hmore. rewrite Hmore. rewrite Hwait in Hne |- *. split_and!; [done|done| |].
  - by eapply recovery_loop_quiet.
  - intros ->. by eapply recovery_loop_true.
Qed.
End RecoveryProps.

(** ** One round of the monitor *)

Section RoundProps.
Context (P : Platform) (base : string) (Hbase : base_dir P = Ok base).

(** What holds of the state in which the connection lock is held when an automatic
    reconnect starts the runtime. *)
Definition wants_reconnect (id : string) (d : Desk) : Prop :=
  desired_connected d = true /\ quitting d = false /\ is_Some (lock (connection_operation d))
  /\ exists s d1 s1, app_load_settings P d = (Some s, d1) /\ (app_load_settings P d1).1 = Some s1
     /\ https_enabled (https_mcp s) = false /\ auto_reconnect s = true /\ tunnel_id s = id
     /\ connection_intent s1 = true.

(** One runtime was started between [d] and [d'], with the lock taken in a wanting state. *)
Definition one_reconnect (d d' : Desk) : Prop :=
  exists id at_lock before profiles command after,
    wants_reconnect id at_lock
    /\ ran d' = (ran d ++ before ++ connect_args id profiles command :: after)%list
    /\ Forall (fun c => is_connect c = false) before /\ Forall (fun c => is_connect c = false) after.

Lemma one_reconnect_frame d0 d d' d1 : still d0 d -> one_reconnect d d' -> still d' d1 -> one_reconnect d0 d1.
Proof.
  intros (t0 & H0 & Ht0) (id & dl & b & pr & c & a & Hw & H & Hb & Ha) (t1 & H1 & Ht1).
  exists id, dl, (t0 ++ b)%list, pr, c, (a ++ t1)%list. split_and!; [done| |by apply Forall_app..].
  rewrite H1, H, H0. by rewrite <- !app_assoc.
Qed.

Lemma guarded_reconnect_inv key d res d' :
  guarded_reconnect P key d = (res, d') -> still d d' \/ one_reconnect d d'.
Proof using base Hbase.
  unfold guarded_reconnect. unfold app_bind at 1, ConnectionCoordinator_acquire, app_get at 1.
  destruct (lock (connection_operation d)) eqn:Hlock; [|intros [= _ <-]; by left].
  intros [[H _]|(s & d1 & H & Hk)]%app_bind_inv; pose proof (load_settings_client P base Hbase _ _ _ H) as Hc;
    [left; by eapply client_only_calm|].
  unfold app_bind at 1, app_get at 1 in Hk.
  destruct (_ || negb (auto_reconnect s)) eqn:Hg; [injection Hk as _ <-; left; by eapply client_only_calm|].
  reflect_bools. apply (start_inv P base Hbase) in Hk as (tail & Ht & Hr).
  pose proof (client_only_trans _ _ _ _ _ Hc Ht) as Hd. cbn [app] in Hd. apply client_only_ran in Hd as Hran.
  destruct Hr as [[[->| ->] _]|[(pr & c & Hs) (s1 & Hs1 & Hwant & _)]];
    [left; eapply client_only_calm; [done|by repeat constructor]..|].
  right. destruct Hc as (w & l & -> & _). specialize (Hwant eq_refl) as [Hintent Hdes].
  assert (wants_reconnect (tunnel_id s) d) as Hw.
  { split_and!; [done|done|by rewrite Hlock; eexists|]. by eexists s, _, s1. }
  destruct Hs as [->|[_ ->]]; [exists (tunnel_id s), d, [stop_args], pr, c, []|exists (tunnel_id s), d, [], pr, c, []];
    split_and!; first [exact Hran|exact Hw|by repeat constructor].
Qed.

Lemma after_reconnect_inv result attempt delay paths r w d res d' :
  after_reconnect P result attempt delay paths r w d = (res, d') ->
  still d d' /\ (forall w', res = Some w' ->
    next_reconnect w' = None \/ next_reconnect w' = Some (instant_retry r + delay * 1000)%N).
Proof using base Hbase.
  intros H. split.
  { assert (quiet (after_reconnect P result attempt delay paths r w)) as Hq; [|by eapply Hq].
    unfold after_reconnect. solve_quiet. }
  assert (forall phase e m d res d' w', back_off P phase e m delay r w d = (res, d') -> res = Some w' ->
    next_reconnect w' = Some (instant_retry r + delay * 1000)%N) as Hb.
  { intros phase e m d1 res1 d1' w' [= <- _] [= <-]. done. }
  intros w' ->. unfold after_reconnect in H. unfold app_bind at 1, app_get at 1 in H.
  destruct result as [u|e]; [|right; by eapply Hb].
  destruct (desired_connected d); [|injection H as <- _; by left].
  do 3 (apply app_bind_inv in H as [[_ ?]|(? & ? & _ & H)]; [done|]). case_bool_decide.
  - do 3 (apply app_bind_inv in H as [[_ ?]|(? & ? & _ & H)]; [done|]). injection H as <- _. by left.
  - do 2 (apply app_bind_inv in H as [[_ ?]|(? & ? & _ & H)]; [done|]). case_match; [right; by eapply Hb|].
    injection H as <- _. by left.
Qed.

Lemma reconnect_delay_bounds attempt : (2 <= reconnect_delay_secs attempt <= 30)%N.
Proof. unfold reconnect_delay_secs. repeat case_match; lia. Qed.

(** How an attempt may leave the watch. *)
Definition backs_off (r : Round) (w : Watch) : Prop :=
  next_reconnect w = None
  \/ exists delay, (2 <= delay <= 30)%N /\ next_reconnect w = Some (instant_retry r + delay * 1000)%N.

Lemma end_attempt_inv w d res d' :
  end_attempt w d = (res, d') -> still d d' /\ res = Some (Some w) /\ reconnecting d' = false.
Proof. intros [= <- <-]. split_and!; [by apply still_same|done..]. Qed.

Lemma attempt_reconnect_inv o paths r w d res d' :
  attempt_reconnect P o paths r w d = (res, d') ->
  still d d' \/ one_reconnect d d' /\ forall w', res = Some (Some w') -> backs_off r w' /\ reconnecting d' = false.
Proof using base Hbase.
  intros H. unfold attempt_reconnect in H.
  apply (quiet_bind_inv _ _ d) in H as [?|(busy & d1 & _ & Hs & H)]; [by left| |by apply quiet_state|done].
  destruct busy; [injection H as _ <-; by left|].
  apply (quiet_bind_inv _ _ d) in H as [?|(n & d2 & _ & Hs2 & H)]; [by left| |by apply quiet_state|done].
  apply (quiet_bind_inv _ _ d) in H as [?|(key & d3 & _ & Hs3 & H)]; [by left| |by apply (does_get still)|done].
  destruct key as [key|].
  2:{ left. assert (quiet (w0 <-app back_off P "blocked" "Desktop 当前没有可用于自动重连的 Runtime Key。"
        ("Tunnel 已断开，但本次会话没有可用于自动重连的 Runtime Key；" ++ pretty (reconnect_delay_secs n) ++ " 秒后继续检查")
        (reconnect_delay_secs n) r w ;; end_attempt w0)) as Hq; [|etrans; [exact Hs3|by eapply Hq]].
      unfold end_attempt. solve_quiet. }
  do 2 (apply (quiet_bind_inv _ _ d) in H as [?|(? & ? & _ & ? & H)]; [by left| |solve_quiet|done]).
  apply (quiet_bind_inv _ _ d) in H as [?|(des & d6 & _ & Hs6 & H)]; [by left| |by apply (does_get still)|done].
  apply (quiet_bind_inv _ _ d) in H as [?|(wanted & d7 & _ & Hs7 & H)]; [by left| |solve_quiet|done].
  destruct (negb wanted). { apply end_attempt_inv in H as [? _]. left. by etrans. }
  apply (quiet_bind_inv _ _ d) in H as [?|(? & d8 & _ & Hs8 & H)]; [by left| |apply quiet_interfere|done].
  apply app_bind_inv in H as [[H ->]|(result & d9 & H & Hk)]; apply guarded_reconnect_inv in H as [Hg|Hg];
    [left; by etrans|right; split; [by eapply one_reconnect_frame|done]|..].
  all: apply app_bind_inv in Hk as [[H ->]|(w1 & d10 & H & Hk)];
    apply after_reconnect_inv in H as [Hs10 Hn]; [|apply end_attempt_inv in Hk as (Hs11 & -> & Hrec)].
  - left. etrans; [exact Hs8|]. by etrans.
  - left. etrans; [exact Hs8|]. etrans; [exact Hg|]. by etrans.
  - right. split; [by eapply one_reconnect_frame|done].
  - right. split; [eapply one_reconnect_frame; [exact Hs8|exact Hg|by etrans]|].
    intros w' [= <-]. split; [|done]. destruct (Hn w1 eq_refl) as [?|?]; [by left|right].
    eexists. split; [|done]. apply reconnect_delay_bounds.
Qed.

(** C17. One round of the monitor restarts the tunnel at most once, and only under the
    connection lock in a state that wants it: connecting is still desired, the application
    is not quitting, the settings want the tunnel, automatic reconnection and not HTTPS, and
    the tunnel named by those settings is used; only when no back-off is pending; and
    afterwards the next attempt, if any is scheduled, waits 2 to 30 seconds.  Other threads
    may do anything while it sleeps or waits. *)
Theorem reconnect_round_spec r w d res d' (Hround : reconnect_round P r w d = (res, d')) :
  still d d'
  \/ one_reconnect d d'
     /\ match next_reconnect w with Some next => (next <= instant_check r)%N | None => True end
     /\ forall w', res = Some (Some w') -> backs_off r w' /\ reconnecting d' = false.
Proof using base Hbase.
  unfold reconnect_round in Hround.
  apply (quiet_bind_inv _ _ d) in Hround as [?|(? & d1 & _ & Hs1 & H)]; [by left| |apply quiet_interfere|done].
  apply (quiet_bind_inv _ _ d) in H as [?|(leaving & d2 & _ & Hs2 & H)]; [by left| |by apply (does_get still)|done].
  destruct leaving; [injection H as _ <-; by left|].
  apply (quiet_bind_inv _ _ d) in H as [?|(s & d3 & _ & Hs3 & H)]; [by left| |solve_quiet|done].
  apply (quiet_bind_inv _ _ d) in H as [?|(? & d4 & _ & Hs4 & H)]; [by left| |unfold drop_stale_intent; solve_quiet|done].
  apply (quiet_bind_inv _ _ d) in H as [?|(desired & d5 & _ & Hs5 & H)]; [by left| |by apply (does_get still)|done].
  apply (quiet_bind_inv _ _ d) in H as [?|(found & d6 & _ & Hs6 & H)]; [by left| |by apply (does_files still)|done].
  destruct found as [paths|e]; [|left; eapply (does_end still); [|exact Hs6|exact H]; solve_quiet].
  apply (quiet_bind_inv _ _ d) in H as [?|(o & d7 & _ & Hs7 & H)]; [by left| |solve_quiet|done].
  apply (quiet_bind_inv _ _ d) in H as [?|(? & d8 & _ & Hs8 & H)]; [by left| |solve_quiet|done].
  destruct (negb desired); [left; eapply (does_end still); [|exact Hs8|exact H]; unfold rest; solve_quiet|].
  destruct (obs_active o); [left; eapply (does_end still); [|exact Hs8|exact H]; solve_quiet|].
  destruct (negb (auto_reconnect s)); [left; eapply (does_end still); [|exact Hs8|exact H]; unfold rest; solve_quiet|].
  apply (quiet_bind_inv _ _ d) in H as [?|(busy & d9 & _ & Hs9 & H)]; [by left| |by apply (does_get still)|done].
  destruct busy; [injection H as _ <-; by left|].
  destruct (_ <? failure_threshold o)%N; [left; eapply (does_end still); [|exact Hs9|exact H]; solve_quiet|].
  destruct (match next_reconnect w with Some next => (instant_check r <? next)%N | None => false end) eqn:Hnext;
    cbn [next_reconnect] in H; rewrite Hnext in H; [injection H as _ <-; by left|].
  apply attempt_reconnect_inv in H as [?|[Hone Hw]]; [left; by etrans|right].
  split; [by eapply one_reconnect_frame|]. split; [|exact Hw].
  destruct (next_reconnect w); [by apply N.ltb_ge in Hnext|done].
Qed.
End RoundProps.

(** ** Restoring *)

Section RestoreProps.
Context (P : Platform) (base : string) (Hbase : base_dir P = Ok base).

#[local] Abbreviation now_on := (settings_now base (system_proxy P) (key_saved P) (read_settings P) (read_value P)).
#[local] Abbreviation disk d := (files (desk_world d)).
#[local] Abbreviation faults d := (io_fault (desk_world d)).

(** What is known of the settings that are restored. *)
Definition restorable (s : Settings) (d : Desk) : Prop :=
  now_on (disk d) = Ok s /\ connection_intent s = true /\ https_enabled (https_mcp s) = false
  /\ restart_allowed base Tunnel (disk d) = Some (Ok true).

Lemma settings_now_tunnel s fs :
  now_on fs = Ok s -> connection_intent s = true -> is_empty (trim (tunnel_id s)) = false.
Proof.
  unfold settings_now, parse_settings. intros H Hi.
  destruct (fs !! _) as [text|]; [|by injection H as <-].
  destruct (read_settings P text) as [s0|].
  - destruct (connection_intent s0 && _) eqn:Hc; [done|]. injection H as <-.
    unfold normalize_settings in *. cbn in *. by rewrite Hi in Hc.
  - destruct (read_value P text) as [v|e]; [|done]. repeat (case_match; try done). by injection H as <-.
Qed.

Lemma fs_op_faultless {A} op spoil (run : _ -> Result A IoError * _) w res w' :
  fs_op op spoil run w = (res, w') -> io_fault w op = None -> res = None \/ res = Some (run (files w)).1.
Proof.
  unfold fs_op. intros H Hf. rewrite Hf in H.
  destruct (ops_left w) as [[|n]|]; [injection H as <- _; by left|..]; destruct (run (files w)) as [r fs];
    injection H as <- _; by right.
Qed.

Lemma state_dir_faultless w res w' :
  state_dir (Ok base) w = (res, w') -> (forall op, io_fault w op = None) ->
  res = None \/ res = Some (Ok (base ++ "/state")).
Proof.
  intros [[_ ->]|(r & w1 & H & Hk)]%fs_bind_inv Hf; [by left|].
  destruct (fs_op_faultless _ _ _ _ _ _ H (Hf _)) as [?|[= ->]]; [done|right]. by injection Hk as <- _.
Qed.

(** Whether a file is there. *)
Definition present (p : Path) (fs : gmap Path string) : bool :=
  match fs !! p with Some _ => true | None => false end.

Lemma has_marker_inv p w res w' :
  has_marker p w = (res, w') ->
  files w' = files w /\ io_fault w' = io_fault w
  /\ (io_fault w (StatFile p) <> Some NotFound -> forall b, res = Some (Ok b) -> b = present p (files w))
  /\ (io_fault w (StatFile p) = None -> res = None \/ res = Some (Ok (present p (files w)))).
Proof.
  unfold has_marker, fs_bind, stat_file, fs_op, present.
  destruct (ops_left w) as [[|n]|]; [intros [= <- <-]; split_and!; [done|done|done|by left]|..];
    (destruct (io_fault w (StatFile p)) as [[|m]|] eqn:Hs; [intros [= <- <-]; split_and!; (done || congruence)..|]);
    destruct (files w !! p) eqn:Hp; cbn; intros [= <- <-]; split_and!; try done; try (intros _ b [= <-]; done);
    by right.
Qed.

Lemma restore_allowed_inv t w res w' :
  restore_allowed (Ok base) t w = (res, w') ->
  files w' = files w /\ io_fault w' = io_fault w
  /\ (io_fault w (StatFile (marker_in (base ++ "/state") t)) <> Some NotFound -> forall b, res = Some (Ok b) ->
      restart_allowed base t (files w) = Some (Ok b))
  /\ ((forall op, io_fault w op = None) -> res = None \/ res = restart_allowed base t (files w)).
Proof.
  rewrite restart_allowed_spec. fold (present (marker_in (base ++ "/state") t) (files w)).
  assert ((match files w !! marker_in (base ++ "/state") t with Some _ => false | None => true end)
          = negb (present (marker_in (base ++ "/state") t) (files w))) as -> by (unfold present; by case_match).
  intros [[H ->]|[(e & H & ->)|(p & w1 & H & Hk)]]%fs_try_inv; apply marker_path_inv in H as Hp;
    destruct Hp as (Hf & Hi & _ & Hp).
  - split_and!; try done. by left.
  - split_and!; try done. intros Hno. apply fs_try_inv in H as [[_ ?]|[(e' & H & _)|(dir & w2 & _ & H)]]; [done| |done].
    by apply state_dir_faultless in H as [?|?].
  - specialize (Hp p eq_refl) as ->. clear H. rewrite <- Hf, <- Hi.
    apply fs_try_inv in Hk as [[H ->]|[(e & H & ->)|(b & w2 & H & Hk)]];
      apply fs_map_err_inv in H as (r & H & Hr); apply has_marker_inv in H as (Hf2 & Hi2 & Hb & Hno).
    + split_and!; [done|done|done|by left].
    + split_and!; [done|done|done|]. intros Hf0. destruct (Hno (Hf0 _)) as [->| ->]; done.
    + injection Hk as <- <-. destruct r as [[b'|e]|]; simplify_eq/=. split_and!; [done|done| |].
      * intros Hs b0 [= <-]. by rewrite (Hb Hs b' eq_refl).
      * intros Hf0. destruct (Hno (Hf0 _)) as [|[= ->]]; [done|by right].
Qed.
Lemma load_checked_inv d res d' :
  app_load_settings_checked P d = (res, d') ->
  calm d d' /\ disk d' = disk d /\ faults d' = faults d
  /\ (faults d (ReadFile (settings_in (base ++ "/state"))) <> Some NotFound -> forall s, res = Some (Ok s) ->
      now_on (disk d) = Ok s)
  /\ ((forall op, faults d op = None) -> res = None \/ res = Some (now_on (disk d))).
Proof using base Hbase.
  unfold app_load_settings_checked. rewrite Hbase. intros (w & H & ->)%on_files_inv.
  apply load_inv in H as Hl. destruct Hl as (Hf & Hi & Hok). split_and!; [by apply calm_same|done|done|exact Hok|].
  intros Hno. apply fs_try_inv in H as [[_ ?]|[(e & H & ->)|(p & w1 & H & Hk)]]; [by left|..].
  - apply fs_try_inv in H as [[_ ?]|[(e' & H & _)|(dir & w2 & _ & H)]]; [done| |done].
    by apply state_dir_faultless in H as [?|?].
  - apply settings_path_inv in H as (Hf1 & Hi1 & _ & Hp). specialize (Hp p eq_refl) as ->.
    apply fs_bind_inv in Hk as [[_ ->]|(r & w2 & H & Hk)]; [by left|right].
    assert (io_fault w1 (ReadFile (settings_in (base ++ "/state"))) = None) as Hr by (rewrite Hi1; apply Hno).
    destruct (fs_op_faultless _ _ _ _ _ _ H Hr) as [?|[= ->]]; [done|].
    injection Hk as <- _. unfold settings_now. rewrite <- Hf1. cbn. by destruct (files w1 !! _).
Qed.

Lemma migrate_inv s d res d' :
  migrate_both_intents P s d = (res, d') ->
  calm d d' /\ forall s', res = Some s' ->
    (s' = s /\ d' = d /\ https_enabled (https_mcp s) && connection_intent s = false)
    \/ (https_enabled (https_mcp s) && connection_intent s = true /\ connection_intent s' = false).
Proof.
  intros H. split.
  - assert (does calm (migrate_both_intents P s)) as Hq; [|by eapply Hq]. unfold migrate_both_intents. solve_quiet.
  - intros s' ->. unfold migrate_both_intents in H. destruct (_ && _); [right|by injection H as <- <-; left].
    do 5 (apply app_bind_inv in H as [[_ ?]|(? & ? & _ & H)]; [done|]). split; [done|]. by injection H as <- _.
Qed.

Lemma respect_marker_inv s d res d' :
  respect_stop_marker P s d = (res, d') ->
  calm d d' /\ (connection_intent s = false -> forall s', res = Some s' -> s' = s)
  /\ (connection_intent s = true -> faults d (StatFile (marker_in (base ++ "/state") Tunnel)) <> Some NotFound ->
      forall s', res = Some s' -> connection_intent s' = true ->
      s' = s /\ restart_allowed base Tunnel (disk d) = Some (Ok true))
  /\ ((forall op, faults d op = None) -> restart_allowed base Tunnel (disk d) = Some (Ok true) ->
      res = None \/ res = Some s).
Proof using base Hbase.
  intros H. split.
  { assert (does calm (respect_stop_marker P s)) as Hq; [|by eapply Hq]. unfold respect_stop_marker. solve_quiet. }
  unfold respect_stop_marker in H. destruct (connection_intent s) eqn:Hi; [|injection H as <- _; split_and!; try done].
  2:{ by intros _ s' [= <-]. } 2:{ by right. }
  rewrite Hbase in H. apply app_bind_inv in H as [[_ ->]|(r & d1 & H & Hk)]; [split_and!; try done; by left|].
  apply on_files_inv in H as (w & H & ->). apply restore_allowed_inv in H as (_ & _ & Hb & Hno).
  destruct r as [[|]|e]; cbv [app_ret app_bind] in Hk; split_and!; try done.
  - injection Hk as <- _. intros _ Hf s' [= <-] _. split; [done|by apply Hb].
  - injection Hk as <- _. by right.
  - injection Hk as <- _. by intros _ _ s' [= <-].
  - intros Hf0 Hr. rewrite Hr in Hno. by destruct (Hno Hf0).
  - injection Hk as <- _. by intros _ _ s' [= <-].
  - intros Hf0 Hr. rewrite Hr in Hno. by destruct (Hno Hf0).
Qed.

Lemma restore_with_inv key s d res d' :
  restore_with_settings P key s d = (res, d') ->
  still d d' /\ (desired_connected d' = true -> connection_intent s = true)
  /\ (connection_intent s = true -> is_empty (trim (tunnel_id s)) = false -> desired_connected d' = true).
Proof using base Hbase.
  unfold restore_with_settings. unfold app_bind at 1, app_modify at 1.
  set (d1 := restore_desired_connection_intent s d). set (rest := _ <-app app_runtime_paths P ;; _).
  assert (still d d1 /\ desired_connected d1 = connection_intent s) as [Hs Hd] by (split; [by apply still_same|done]).
  clearbody d1. intros H.
  assert (quiet rest) as Hq by (subst rest; solve_quiet).
  split; [by apply (does_end still rest d d1 res)|].
  assert (connection_intent s = false \/ is_empty (trim (tunnel_id s)) = false -> does calm rest) as Hcalm.
  { subst rest. intros [->| ->]; cbn [negb andb]; solve_quiet. }
  split.
  - intros Hd'. destruct (connection_intent s) eqn:Hi; [done|].
    destruct (Hcalm (or_introl eq_refl) d1 res d' H) as [_ ?]. congruence.
  - intros Hi He. destruct (Hcalm (or_intror He) d1 res d' H) as [_ ->]. by rewrite Hd.
Qed.

(** What [restore_fails_closed] states, for other proofs. *)
Lemma restore_inv key d res d'
    (Hrestore : restore_persisted_connection_state P key d = (res, d')) (Hfresh : desired_connected d = false)
    (Hread : faults d (ReadFile (settings_in (base ++ "/state"))) <> Some NotFound)
    (Hstat : faults d (StatFile (marker_in (base ++ "/state") Tunnel)) <> Some NotFound) :
  still d d'
  /\ (desired_connected d' = true ->
      exists s, restorable s d /\ is_empty (trim (tunnel_id s)) = false)
  /\ forall s, restorable s d -> (forall op, faults d op = None) -> is_Some res -> desired_connected d' = true.
Proof using base Hbase.
  apply app_bind_inv in Hrestore as [[H ->]|(checked & d1 & H & Hk)];
    apply load_checked_inv in H as ([Hs1 Hd1] & Hf1 & Hi1 & Hok & Hno).
  { split_and!; [done|congruence|]. by intros ? _ _ [? ?]. }
  destruct checked as [s|e].
  2:{ unfold restore_without_settings in Hk. unfold app_bind at 1, app_modify at 1 in Hk.
      apply (does_end calm _ (restore_desired_connection_intent settings_default d1)) in Hk as [Hs2 Hd2];
        [|solve_quiet|done].
      split_and!; [etrans; [exact Hs1|etrans; [|exact Hs2]; by apply still_same]|by rewrite Hd2|].
      intros s (Hnow & _) Hf0 _. by destruct (Hno Hf0) as [?|[= Hc]]; [|rewrite Hnow in Hc]. }
  specialize (Hok Hread s eq_refl).
  apply app_bind_inv in Hk as [[H ->]|(s1 & d2 & H & Hk)]; apply migrate_inv in H as ([Hs2 Hd2] & Hm).
  { split_and!; [by etrans|congruence|]. by intros ? _ _ [? ?]. }
  apply app_bind_inv in Hk as [[H ->]|(s2 & d3 & H & Hk)]; apply respect_marker_inv in H as ([Hs3 Hd3] & Hr1 & Hr2 & Hr3).
  { split_and!; [do 2 (etrans; [done|]); done|congruence|]. by intros ? _ _ [? ?]. }
  apply restore_with_inv in Hk as (Hs4 & Hw1 & Hw2).
  split_and!; [by do 3 (etrans; [done|])|..].
  - intros Hi%Hw1. destruct (connection_intent s1) eqn:Hi1'; [|by rewrite (Hr1 eq_refl s2 eq_refl) in Hi; congruence].
    destruct (Hm s1 eq_refl) as [(-> & -> & Hb)|[_ ?]]; [|congruence].
    rewrite Hi1, Hf1 in *. destruct (Hr2 eq_refl Hstat s2 eq_refl Hi) as [-> Hall].
    exists s. assert (is_empty (trim (tunnel_id s)) = false) by (by eapply settings_now_tunnel).
    unfold restorable. rewrite Hi1' in Hb. split_and!; try done. by destruct (https_enabled (https_mcp s)).
  - intros s0 (Hnow & Hi & Hh & Hall) Hf0 _. assert (s0 = s) as -> by congruence.
    destruct (Hm s1 eq_refl) as [(-> & -> & _)|[Hc _]]; [|by rewrite Hh in Hc].
    rewrite Hf1, Hi1 in *. destruct (Hr3 Hf0 Hall) as [?|[= ->]]; [done|]. apply Hw2; [done|].
    by eapply settings_now_tunnel.
Qed.

(** Restoring fails closed.  Starting the application never starts the tunnel by
    itself, and it wants the tunnel only if the settings on disk can be read, want it, do
    not want HTTPS, name a tunnel, and no stop marker exists; whatever else is found, fails
    or dies on the way leaves it unwanted.  Conversely, when those conditions hold, nothing
    fails and the process survives, it is wanted again.  (A failing read or check does not
    report an existing file missing.) *)
Theorem restore_fails_closed key d res d'
    (Hrestore : restore_persisted_connection_state P key d = (res, d')) (Hfresh : desired_connected d = false)
    (Hread : faults d (ReadFile (settings_in (base ++ "/state"))) <> Some NotFound)
    (Hstat : faults d (StatFile (marker_in (base ++ "/state") Tunnel)) <> Some NotFound) :
  still d d'
  /\ (desired_connected d' = true ->
      exists s, restorable s d /\ is_empty (trim (tunnel_id s)) = false)
  /\ forall s, restorable s d -> (forall op, faults d op = None) -> is_Some res -> desired_connected d' = true.
Proof using base Hbase. exact (restore_inv key d res d' Hrestore Hfresh Hread Hstat). Qed.
End RestoreProps.

(** ** Witnesses *)

Definition sample_wanted : Settings :=
  {| tunnel_id := "tunnel_1"; remember_key := false; auto_reconnect := true; connection_intent := true;
     monitor_enabled := true; monitor_port := default_monitor_port; proxy := proxy_default;
     relay := relay_default; https_mcp := https_default |}.

(** A tunnel client that keeps track of its runtime. *)
Definition sample_running (commands : list (list string)) : bool :=
  match filter (fun c => one_of ["connect"; "stop"] (nth 1 c "") = true) (rev commands) with
  | c :: _ => is_connect c
  | [] => false
  end.

Definition sample_client (p : Path) (args : list string) (env : Env) (timeout : N) (d : Desk) : Result Output string :=
  if one_of ["status"] (nth 1 args "")
  then if sample_running (ran d) then Ok {| success := true; stdout := "ready"; stderr := "" |}
       else Ok {| success := false; stdout := ""; stderr := "runtime not found" |}
  else Ok {| success := true; stdout := ""; stderr := "" |}.

Definition sample_report (text : string) : option Value :=
  if String.eqb text "ready" then Some (Object [("ready", Bool true)]) else None.

Definition sample_platform : Platform :=
  {| base_dir := Ok "/home/u"; system_proxy := Ok None; key_saved := true; read_settings := sample_settings_read;
     read_value := fun _ => Err "bad"; print_settings := sample_settings_print; from_utf8 := fun s => s;
     read_report := sample_report; client_log := fun _ _ => None; now_text := fun _ => "12:00";
     now_millis := fun _ => 7%N; temp_suffix := fun _ => "1.1"; settings_write_lock_ok := true;
     resource_roots := ["/opt/chatx"]; executable_suffix := ""; environment := ∅; client := sample_client |}.

Definition sample_files (s : Settings) : gmap Path string :=
  <[settings_in ("/home/u" ++ "/state") := binary_text (encode s) ++ String "010" ""]>
  (<[sample_runtime "tunnel-client" "/opt/chatx" := ""]>
  (<[sample_runtime "node" "/opt/chatx" := ""]>
  (<[sample_runtime "desktop-commander-launcher.mjs" "/opt/chatx" := ""]>
  {[ sample_runtime "index.js" "/opt/chatx/desktop-commander/dist" := "" ]}))).

(** An installation whose settings want the tunnel, just started. *)
Definition sample_start : Desk := desk_default (healthy (sample_files sample_wanted)).

(** The same, once the connection is wanted and its key known. *)
Definition sample_connected_desk : Desk :=
  set_session_runtime_key (new_mutex (Some "key")) (set_desired_connected true sample_start).

Definition sample_paths : RuntimePaths :=
  {| root := "/opt/chatx"; tunnel := sample_runtime "tunnel-client" "/opt/chatx"; node := sample_runtime "node" "/opt/chatx";
     launcher := sample_runtime "desktop-commander-launcher.mjs" "/opt/chatx";
     desktop_commander := sample_runtime "index.js" "/opt/chatx/desktop-commander/dist" |}.

(** Nothing happens elsewhere and every sleep takes its time. *)
Definition sample_round : Round :=
  {| during_sleep := fun d => d; instant_check := 4000; during_acquire := fun d => d; instant_retry := 9000;
     wait_instant := fun i => (recovery_poll_ms * N.of_nat i)%N; during_wait := fun _ d => d |}.

(** A runtime that never becomes ready: the wait gives up. *)
Lemma recovery_wait_terminates_witness :
  let out := wait_for_runtime_recovery sample_platform recovery_fuel sample_paths true (wait_instant sample_round)
               (during_wait sample_round) sample_connected_desk in
  out.1 = Some (Some false) /\ still sample_connected_desk out.2.
Proof.
  intros out. split; [vm_compute; reflexivity|].
  destruct (wait_for_runtime_recovery sample_platform recovery_fuel sample_paths true (wait_instant sample_round)
    (during_wait sample_round) sample_connected_desk) as [res d'] eqn:Hw.
  apply (recovery_wait_terminates sample_platform "/home/u" eq_refl sample_paths true (wait_instant sample_round)
    (during_wait sample_round) 0 sample_connected_desk res d'); [cbn; lia|intros i; cbn -[N.mul]; lia|exact Hw].
Defined.

(** The second inactive check in a row restarts the tunnel, which then is ready. *)
Lemma reconnect_round_spec_witness :
  let w := {| inactive_checks := 1; next_reconnect := Some 3000%N |} in
  let out := reconnect_round sample_platform sample_round w sample_connected_desk in
  out.1 = Some (Some watch_reset)
  /\ one_reconnect sample_platform sample_connected_desk out.2.
Proof.
  intros w out. split; [vm_compute; reflexivity|].
  destruct (reconnect_round sample_platform sample_round w sample_connected_desk) as [res d'] eqn:Hr.
  destruct (reconnect_round_spec sample_platform "/home/u" eq_refl sample_round w sample_connected_desk res d' Hr)
    as [(tail & Ht & Hq)|[Hone _]]; [exfalso|exact Hone].
  assert (Forall (fun c => is_connect c = false) (ran d')) as Hall by (rewrite Ht; exact Hq).
  assert (existsb is_connect (ran d') = true) as He by (change d' with (res, d').2; rewrite <- Hr; vm_compute; reflexivity).
  apply existsb_exists in He as (c & Hin & Hc). rewrite Forall_forall in Hall.
  rewrite (Hall c) in Hc; [discriminate|]. apply list_elem_of_In. exact Hin.
Defined.

Lemma restore_fails_closed_witness :
  let out := restore_persisted_connection_state sample_platform (Ok "key") sample_start in
  out.1 = Some tt /\ desired_connected out.2 = true /\ still sample_start out.2.
Proof.
  intros out. split; [vm_compute; reflexivity|]. split; [vm_compute; reflexivity|].
  destruct (restore_persisted_connection_state sample_platform (Ok "key") sample_start) as [res d'] eqn:Hr.
  apply (restore_fails_closed sample_platform "/home/u" eq_refl (Ok "key") sample_start res d' Hr);
    [reflexivity|discriminate|discriminate].
Defined.
