(* ===== verification/Connection.v ===== *)
(** * The commands of the connection page

    [src-tauri/src/connection_commands.rs] (connecting and stopping the tunnel, the switch
    for automatic reconnection, forgetting the key), with the part of [secrets.rs] they use.
    A command ends by building the status page; the model answers [Ok tt] where the code goes
    on to build it ([get_status] of [Status]). *)

From S2P Require Export Runtime.
Local Open Scope string_scope.

Section Commands.
(** The platform, and the store of secrets of the operating system: reading the runtime
    key, storing it, and deleting it from the macOS key chain (elsewhere [Ok]). *)
Context (P : Platform) (unprotect_secret : Desk -> Result string string)
        (protect_secret : string -> Desk -> Result unit string) (clear_keychain_key : Desk -> Result unit string).

(** ** The runtime key ([secrets.rs]) *)

Definition secret_path : Fs (Result Path string) :=
  dir <-fs? state_dir (base_dir P) ;; fs_ret (Ok {| parent := Some dir; file_name := "runtime-key.dpapi" |}).

Definition load_runtime_key (supplied : string) : App (Result string string) :=
  if negb (is_empty (trim supplied)) then app_ret (Ok (trim supplied))
  else
    _ <-app? on_files secret_path ;;
    if negb (key_saved P) then app_ret (Err "请输入 Runtime API Key，或先保存一个 Runtime Key。")
    else
      value <-app? app_get unprotect_secret ;;
      app_ret (if is_empty (trim value) then Err "已保存的 Runtime Key 为空。" else Ok value).

Definition clear_runtime_key : App (Result unit string) :=
  _ <-app? app_get clear_keychain_key ;;
  path <-app? on_files secret_path ;;
  exists_ <-app on_files (path_exists path) ;;
  if (exists_ : bool)
  then on_files (fs_map_err (fun e => "清除 Runtime Key 失败：" ++ io_display e) (remove_file path))
  else app_ret (Ok tt).

Definition save_runtime_key (key : string) : App (Result unit string) :=
  _ <-app? on_files secret_path ;; app_get (protect_secret key).

(** ** Stopping *)

Definition disable_tunnel (s : Settings) : Result Settings string := Ok (set_intent false s).

Definition app_stop_tunnel_without_saving (settings : Settings) : App (Result unit string) :=
  stop_tunnel_without_saving (base_dir P) (system_proxy P) (key_saved P) (read_settings P) (read_value P)
    (from_utf8 P) (read_report P) (now_text P) (now_millis P) (resource_roots P) (executable_suffix P)
    (environment P) (client P) settings.

Definition stop_requested : App (Result unit string) :=
  _ <-app? ConnectionCoordinator_acquire ;;
  marker <-app on_files (mark_stopped (base_dir P) Tunnel) ;;
  settings <-app app_load_settings P ;;
  stopped <-app app_stop_tunnel_without_saving settings ;;
  saved <-app app_update_settings P disable_tunnel ;;
  _ <-app match saved with
          | Err error => app_log P ("Tunnel 已要求停止，但保存停止状态失败：" ++ error)
          | Ok _ => app_ret tt
          end ;;
  app_ret (match stopped, saved with
           | Err e, _ => Err e
           | _, Err e => Err e
           | Ok _, Ok _ => marker
           end).

(** ** Connecting *)

Definition app_prepare_tunnel : App (Result unit string) :=
  prepare_tunnel (base_dir P) (system_proxy P) (key_saved P) (read_settings P) (read_value P)
    (print_settings P) (temp_suffix P) (settings_write_lock_ok P).

(** The state in which the runtime is started. *)
Definition begin_connect (key : string) (d : Desk) : Desk :=
  let d := set_desired_connected false d in
  let d := set_reconnecting false d in
  let d := set_reconnect_attempt 0 d in
  let d := set_recovery_status "reconnecting" 0 "" d in
  set_session_runtime_key (update_locked (fun _ => Some key) (session_runtime_key d)) d.

(** What the settings become. *)
Definition connected_settings (id : string) (remember : bool) (s : Settings) : Settings :=
  let s := set_connection true false s in
  {| tunnel_id := id; remember_key := remember; auto_reconnect := auto_reconnect s;
     connection_intent := connection_intent s; monitor_enabled := monitor_enabled s;
     monitor_port := monitor_port s; proxy := proxy s; relay := relay s; https_mcp := https_mcp s |}.

Definition restored_settings (previous s : Settings) : Settings :=
  {| tunnel_id := tunnel_id previous; remember_key := remember_key previous; auto_reconnect := auto_reconnect s;
     connection_intent := connection_intent previous; monitor_enabled := monitor_enabled s;
     monitor_port := monitor_port s; proxy := proxy s; relay := relay s; https_mcp := https_mcp s |}.

(** The settings could not be saved. *)
Definition undo_unsaved (error : string) : App (Result unit string) :=
  _ <-app app_modify cancel_connection_intent ;;
  rollback <-app app_stop_runtime P true ;;
  app_ret (Err (match rollback with
                | Ok _ => "Tunnel 已启动但无法保存连接设置，已停止刚启动的连接：" ++ error
                | Err rollback_error => "Tunnel 已启动但无法保存连接设置：" ++ error
                    ++ "；同时停止刚启动的 Tunnel 失败：" ++ rollback_error
                end)).

(** The key could not be stored or forgotten. *)
Definition undo_secret (error : string) (previous : Settings) : App (Result unit string) :=
  restore <-app app_update_settings P (fun s => Ok (restored_settings previous s)) ;;
  _ <-app app_modify cancel_connection_intent ;;
  rollback <-app app_stop_runtime P true ;;
  app_ret (Err (match restore, rollback with
    | Ok _, Ok _ => "Tunnel 已启动但 Runtime Key 持久化失败，已恢复原设置并停止连接：" ++ error
    | Err settings_error, Ok _ => "Tunnel Runtime Key 持久化失败：" ++ error
        ++ "；连接已停止，但恢复原设置失败：" ++ settings_error
    | Ok _, Err runtime_error => "Tunnel Runtime Key 持久化失败：" ++ error
        ++ "；原设置已恢复，但停止刚启动的 Tunnel 失败：" ++ runtime_error
    | Err settings_error, Err runtime_error => "Tunnel Runtime Key 持久化失败：" ++ error
        ++ "；恢复原设置失败：" ++ settings_error ++ "；停止刚启动的 Tunnel 也失败：" ++ runtime_error
    end)).

(** The stop marker could not be cleared. *)
Definition undo_marker (error : string) : App (Result unit string) :=
  _ <-app app_modify cancel_connection_intent ;;
  stopped <-app app_stop_runtime P true ;;
  saved <-app app_update_settings P disable_tunnel ;;
  let details := match stopped with Err stop_error => ["停止未完成的 Tunnel 失败：" ++ stop_error] | Ok _ => [] end in
  let more := match saved with Err settings_error => ["恢复停止状态失败：" ++ settings_error] | Ok _ => [] end in
  app_ret (Err (String.concat "；" (error :: app details more))).

Definition finish_connect (next_settings : Settings) : App (Result unit string) :=
  _ <-app app_modify (fun d => set_permission_results (update_locked (fun _ => None) (permission_results d)) d) ;;
  found <-app app_runtime_paths P ;;
  match found with
  | Err _ => app_ret (Ok tt)
  | Ok paths =>
      observation <-app app_runtime_status P paths ;;
      _ <-app app_update_snapshot P observation true next_settings ;;
      _ <-app app_recovery (if obs_active observation then "idle" else "verifying") 0
                (if obs_active observation then "" else "等待 Tunnel Ready。") ;;
      app_ret (Ok tt)
  end.

(** Once the runtime is started. *)
Definition commit_connect (id key : string) (remember : bool) (previous : Settings) : App (Result unit string) :=
  _ <-app app_modify (set_desired_connected true) ;;
  next_settings <-app app_update_settings P (fun s => Ok (connected_settings id remember s)) ;;
  match next_settings with
  | Err error => undo_unsaved error
  | Ok next_settings =>
      secret <-app (if remember then save_runtime_key key else clear_runtime_key) ;;
      match secret with
      | Err error => undo_secret error previous
      | Ok _ =>
          cleared <-app on_files (clear_stopped (base_dir P) Tunnel) ;;
          match cleared with
          | Err error => undo_marker error
          | Ok _ => finish_connect next_settings
          end
      end
  end.

Definition start_connect (id key : string) (remember : bool) : App (Result unit string) :=
  previous_settings <-app app_load_settings P ;;
  _ <-app app_modify (begin_connect key) ;;
  started <-app start_runtime_connection P id key false false ;;
  match started with
  | Err error => _ <-app app_modify cancel_connection_intent ;; app_ret (Err error)
  | Ok _ => commit_connect id key remember previous_settings
  end.

Definition connect_tunnel (tunnel_id runtime_key : string) (remember_key : bool) : App (Result unit string) :=
  let id := trim tunnel_id in
  if negb (starts_with "tunnel_" id) then app_ret (Err "Tunnel ID 应以 tunnel_ 开头。")
  else
    key <-app? load_runtime_key runtime_key ;;
    _ <-app? ConnectionCoordinator_acquire ;;
    _ <-app? ensure_available "ChatX 正在退出，拒绝连接 Tunnel" ;;
    _ <-app? app_prepare_tunnel ;;
    start_connect id key remember_key.

(** ** The switch for automatic reconnection, and forgetting the key *)

Definition set_auto (enabled : bool) (s : Settings) : Settings :=
  {| tunnel_id := tunnel_id s; remember_key := remember_key s; auto_reconnect := enabled;
     connection_intent := connection_intent s; monitor_enabled := monitor_enabled s;
     monitor_port := monitor_port s; proxy := proxy s; relay := relay s; https_mcp := https_mcp s |}.

Definition set_auto_reconnect (enabled : bool) : App (Result unit string) :=
  _ <-app? app_update_settings P (fun s => Ok (set_auto enabled s)) ;;
  _ <-app
    (if negb enabled
     then
       _ <-app app_modify (set_reconnecting false) ;;
       _ <-app app_modify (set_reconnect_attempt 0) ;;
       app_modify (fun d => set_recovery_status (if desired_connected d then "disabled" else "stopped") 0 "" d)
     else
       desired <-app app_get desired_connected ;;
       if (desired : bool) then app_recovery "detecting" 0 "" else app_ret tt) ;;
  _ <-app app_log P (if enabled then "已开启 Tunnel 断线自动重连" else "已关闭 Tunnel 断线自动重连") ;;
  app_ret (Ok tt).

Definition forget_key (s : Settings) : Settings :=
  {| tunnel_id := tunnel_id s; remember_key := false; auto_reconnect := auto_reconnect s;
     connection_intent := connection_intent s; monitor_enabled := monitor_enabled s;
     monitor_port := monitor_port s; proxy := proxy s; relay := relay s; https_mcp := https_mcp s |}.

Definition clear_saved_key : App (Result unit string) :=
  _ <-app? clear_runtime_key ;;
  _ <-app app_modify (fun d => set_permission_results (update_locked (fun _ => None) (permission_results d)) d) ;;
  _ <-app? app_update_settings P (fun s => Ok (forget_key s)) ;;
  _ <-app app_log P "已清除保存的 Runtime Key" ;;
  app_ret (Ok tt).
End Commands.

(** ** What the steps keep *)

Section ConnectProps.
Context (P : Platform) (base : string) (Hbase : base_dir P = Ok base)
        (unprotect_secret : Desk -> Result string string)
        (protect_secret : string -> Desk -> Result unit string) (clear_keychain_key : Desk -> Result unit string).

#[local] Abbreviation now_on := (settings_now base (system_proxy P) (key_saved P) (read_settings P) (read_value P)).
#[local] Abbreviation disk d := (files (desk_world d)).
#[local] Abbreviation faults d := (io_fault (desk_world d)).
#[local] Abbreviation file := (settings_in (base ++ "/state")).
#[local] Abbreviation json_ok := (json_agrees (read_settings P) (print_settings P)).

(** No recorded stop is lost. *)
Definition steady (d d' : Desk) : Prop :=
  (forall t, stopped base t (disk d) -> stopped base t (disk d')) /\ faults d' = faults d.

#[local] Instance steady_preorder : PreOrder steady.
Proof. split; [by split|]. intros d1 d2 d3 [H1 F1] [H2 F2]. split; [by auto|congruence]. Qed.

(** Nothing is wanted and no key is kept. *)
Definition undone (d : Desk) : Prop :=
  desired_connected d = false /\ forall key, lock (session_runtime_key d) <> Some (Some key).

(** The settings on disk want the tunnel [id] and nothing else. *)
Definition wants_tunnel (id : string) (fs : gmap Path string) : Prop :=
  exists s, now_on fs = Ok s /\ connection_intent s = true /\ tunnel_id s = id /\ https_enabled (https_mcp s) = false.

Lemma cancel_undone d : undone (cancel_connection_intent d).
Proof. split; [done|]. intros key. cbn. rewrite lock_update. by destruct (lock _). Qed.

Lemma client_undone t d d' : client_only t d d' -> undone d -> undone d'.
Proof. by intros (w & l & -> & _). Qed.

Lemma client_steady t d d' : client_only t d d' -> steady d d'.
Proof. intros [Hf Hi]%client_only_disk. split; [by rewrite Hf|done]. Qed.

Lemma update_inv u d res d' :
  app_update_settings P u d = (res, d') ->
  exists w, d' = set_desk_world w d /\ io_fault w = faults d
  /\ (forall t, stopped base t (files w) <-> stopped base t (disk d))
  /\ (faults d (ReadFile file) <> Some NotFound -> forall s, res = Some (Ok s) ->
      exists s0 text, now_on (disk d) = Ok s0 /\ u s0 = Ok s /\ print_settings P s = Ok text
        /\ files w !! file = Some (text ++ String "010" "")).
Proof using base Hbase.
  unfold app_update_settings, settings_update. rewrite Hbase. intros (w & H & ->)%on_files_inv.
  exists w. split; [done|]. apply update_settings_faults in H as Hi. split; [exact Hi|].
  apply update_settings_inv in H as [Ho Hres]. split.
  - intros t. unfold stopped. rewrite Ho; [done|by destruct t..].
  - intros Hh s ->. by apply Hres.
Qed.

(** What is loaded is what the file says, or the defaults. *)
Lemma load_now d s d' : app_load_settings P d = (Some s, d') -> faults d (ReadFile file) <> Some NotFound ->
  now_on (disk d) = Ok s \/ s = settings_default.
Proof using base Hbase.
  unfold app_load_settings, settings_load. rewrite Hbase. intros (w & H & _)%on_files_inv Hh.
  apply fs_bind_inv in H as [[_ ?]|(checked & w1 & H & Hk)]; [done|]. apply load_inv in H as (_ & _ & Hr).
  injection Hk as <- _. destruct checked as [s0|e]; [left; by apply Hr|by right].
Qed.

Lemma update_steady u d res d' : app_update_settings P u d = (res, d') -> steady d d'.
Proof using base Hbase. intros (w & -> & Hi & Hs & _)%update_inv. split; [intros t; apply Hs|exact Hi]. Qed.

Lemma stop_facts d (res : option (Result Value string)) d' :
  app_stop_runtime P true d = (res, d') -> steady d d' /\ (undone d -> undone d').
Proof using base Hbase.
  intros [[H _]|[H _]]%(stop_runtime_client P base Hbase); (split; [by eapply client_steady|by eapply client_undone]).
Qed.

Lemma update_undone u d res d' : app_update_settings P u d = (res, d') -> undone d -> undone d'.
Proof using base Hbase. by intros (w & -> & _)%update_inv. Qed.

(** An operation that takes back: it reports an error and leaves nothing wanted. *)
Definition takes_back (m : App (Result unit string)) : Prop :=
  forall d res d', m d = (res, d') -> steady d d' /\ res <> Some (Ok tt) /\ (is_Some res -> undone d').

Lemma cancel_steady d : steady d (cancel_connection_intent d).
Proof. by split. Qed.

Lemma undo_unsaved_takes_back e : takes_back (undo_unsaved P e).
Proof using base Hbase.
  intros d res d' H. unfold undo_unsaved, app_bind at 1, app_modify in H.
  apply app_bind_inv in H as [[H ->]|(r & d1 & H & Hk)]; apply stop_facts in H as [Hs Hu].
  { split_and!; [exact Hs|done|by intros [? ?]]. }
  injection Hk as <- <-. split_and!; [exact Hs|done|intros _; apply Hu, cancel_undone].
Qed.

Lemma undo_secret_takes_back e previous : takes_back (undo_secret P e previous).
Proof using base Hbase.
  intros d res d' [[H ->]|(r & d1 & H & Hk)]%app_bind_inv; apply update_steady in H as Hs1.
  { split_and!; [exact Hs1|done|by intros [? ?]]. }
  unfold app_bind at 1, app_modify in Hk.
  apply app_bind_inv in Hk as [[Hk ->]|(r2 & d2 & Hk & Hr)]; apply stop_facts in Hk as [Hs Hu].
  { split_and!; [etrans; [exact Hs1|exact Hs]|done|by intros [? ?]]. }
  injection Hr as <- <-. split_and!; [etrans; [exact Hs1|exact Hs]|done|intros _; apply Hu, cancel_undone].
Qed.

Lemma undo_marker_takes_back e : takes_back (undo_marker P e).
Proof using base Hbase.
  intros d res d' H. unfold undo_marker, app_bind at 1, app_modify in H.
  apply app_bind_inv in H as [[H ->]|(r & d1 & H & Hk)]; apply stop_facts in H as [Hs Hu].
  { split_and!; [exact Hs|done|by intros [? ?]]. }
  apply app_bind_inv in Hk as [[Hk ->]|(r2 & d2 & Hk & Hr)]; apply update_steady in Hk as Hs2.
  { split_and!; [etrans; [exact Hs|exact Hs2]|done|by intros [? ?]]. }
  injection Hr as <- <-. split_and!; [etrans; [exact Hs|exact Hs2]|done|]. intros _.
  apply update_undone in Hk; [done|]. apply Hu, cancel_undone.
Qed.

(** Before anything of the connection changes: only stop markers and settings are written. *)
Definition prepared (d d' : Desk) : Prop :=
  steady d d' /\ ran d' = ran d /\ desired_connected d' = desired_connected d
  /\ session_runtime_key d' = session_runtime_key d.

#[local] Instance prepared_preorder : PreOrder prepared.
Proof.
  split; [intros d; split_and!; (done || reflexivity)|].
  intros d1 d2 d3 (H1 & R1 & D1 & K1) (H2 & R2 & D2 & K2). split_and!; [by etrans|congruence..].
Qed.

Lemma prepared_files {A} (m : Fs A) :
  (forall w res w', m w = (res, w') -> files w' = files w /\ io_fault w' = io_fault w) ->
  does prepared (on_files m).
Proof.
  intros Hm d res d' (w & H & ->)%on_files_inv. apply Hm in H as [Hf Hi].
  split_and!; [|done..]. split; [cbn; by rewrite Hf|exact Hi].
Qed.

Lemma prepare_tunnel_inv d res d' :
  app_prepare_tunnel P d = (res, d') ->
  prepared d d' /\ (res = Some (Ok tt) -> forall t, stopped base t (disk d')).
Proof using base Hbase.
  unfold app_prepare_tunnel, prepare_tunnel. rewrite Hbase.
  assert (forall d1 d2, marked base d1 d2 -> prepared d1 d2) as Hm.
  { intros d1 d2 (-> & Hf & _ & Ht). by split_and!. }
  intros [[H Hr]|(d2 & H2 & Hall & [[H Hr]|(d3 & [= Hd3] & Hsave)])]%stage_marks; [by split; [apply Hm|]|by injection H as <- _|].
  assert (prepared d d3) as Hp3 by (etrans; [by apply Hm|]; subst d3; by split_and!).
  apply persist_disabled_inv in Hsave as (w & -> & Hi & Hw & _).
  split; [|intros _ t; apply Hw; by subst d3]. etrans; [exact Hp3|]. split_and!; try done. split; [intros t; apply Hw|exact Hi].
Qed.

(** ** The transaction *)

(** Only the file of the key is touched. *)
Definition key_file : Path := {| parent := Some (base ++ "/state"); file_name := "runtime-key.dpapi" |}.
Definition apart (d d' : Desk) : Prop :=
  exists w, d' = set_desk_world w d /\ only_at key_file (desk_world d) w.

Lemma secret_path_inv w res w' :
  secret_path P w = (res, w') ->
  files w' = files w /\ io_fault w' = io_fault w /\ torn_write w' = torn_write w
  /\ forall p, res = Some (Ok p) -> p = key_file.
Proof using base Hbase.
  unfold secret_path. rewrite Hbase.
  intros [[H ->]|[(e & H & ->)|(dir & w1 & H & Hk)]]%fs_try_inv;
    apply state_dir_inv in H as (Hf & Hi & Ht & Hd); [by split_and!..|].
  injection Hk as <- <-. split_and!; try done. intros p [= <-]. by rewrite (Hd dir eq_refl).
Qed.

Lemma apart_same w d : files w = files (desk_world d) -> io_fault w = faults d ->
  torn_write w = torn_write (desk_world d) -> apart d (set_desk_world w d).
Proof. intros Hf Hi Ht. exists w. split; [done|]. unfold only_at. rewrite Hf. by split_and!. Qed.

Lemma apart_refl d : apart d d.
Proof. exists (desk_world d). split; [by destruct d|apply only_at_refl]. Qed.

Lemma apart_trans d1 d2 d3 : apart d1 d2 -> apart d2 d3 -> apart d1 d3.
Proof.
  intros (w1 & -> & H1) (w2 & -> & H2). exists w2. split; [done|]. by eapply only_at_trans.
Qed.

Lemma save_key_apart key d res d' : save_runtime_key P protect_secret key d = (res, d') -> apart d d'.
Proof using base Hbase.
  intros [[H ->]|[(e & H & ->)|(p & d1 & H & Hk)]]%app_try_inv; apply on_files_inv in H as (w & H & ->);
    apply secret_path_inv in H as (Hf & Hi & Ht & _); [by apply apart_same..|].
  injection Hk as _ <-. by apply apart_same.
Qed.

Lemma clear_key_apart d res d' : clear_runtime_key P clear_keychain_key d = (res, d') -> apart d d'.
Proof using base Hbase.
  intros [[H ->]|[(e & H & ->)|(u & d1 & H & Hk)]]%app_try_inv; injection H as _ <-; try apply apart_refl.
  apply app_try_inv in Hk as [[H ->]|[(e & H & ->)|(p & d2 & H & Hk)]]; apply on_files_inv in H as (w & H & ->);
    apply secret_path_inv in H as (Hf & Hi & Ht & Hp); [by apply apart_same..|].
  specialize (Hp p eq_refl) as ->. pose proof (apart_same w d Hf Hi Ht) as Ha.
  apply app_bind_inv in Hk as [[H ->]|(b & d3 & H & Hk)]; apply on_files_inv in H as (w2 & H & ->);
    assert (apart d (set_desk_world w2 (set_desk_world w d))) as Ha2
      by (eapply apart_trans; [exact Ha|]; apply apart_same; unfold path_exists in H;
          apply fs_bind_inv in H as [[H _]|(r & w3 & H & Hr)]; try injection Hr as _ <-;
          apply fs_op_inv in H as (? & ? & H); destruct H as [[? _]|(? & _ & ?)]; cbn in *; congruence).
  { exact Ha2. }
  destruct b; [|by injection Hk as _ <-]. apply on_files_inv in Hk as (w3 & Hk & ->).
  apply fs_map_err_inv in Hk as (r & Hk & _). apply remove_file_only in Hk.
  eapply apart_trans; [exact Ha2|]. by exists w3.
Qed.

Lemma apart_facts d d' : apart d d' ->
  prepared d d' /\ (forall t, stopped base t (disk d') <-> stopped base t (disk d))
  /\ now_on (disk d') = now_on (disk d).
Proof.
  intros (w & -> & Hi & _ & Ho).
  assert (forall t, stopped base t (files w) <-> stopped base t (disk d)) as Hs
    by (intros t; unfold stopped; rewrite Ho; [done|by destruct t]).
  split_and!; [split_and!; try done; split; [intros t; apply Hs|exact Hi]|exact Hs|].
  unfold settings_now. cbn. by rewrite Ho.
Qed.

Lemma wants_after_update id remember d res d' s :
  app_update_settings P (fun s => Ok (connected_settings id remember s)) d = (res, d') -> res = Some (Ok s) ->
  json_ok -> faults d (ReadFile file) <> Some NotFound -> is_empty (trim id) = false ->
  wants_tunnel id (disk d').
Proof using base Hbase.
  intros (w & -> & _ & _ & H)%update_inv -> Hjson Hh Hid.
  destruct (H Hh s eq_refl) as (s0 & text & _ & [= <-] & Ht & Hf).
  eexists. split; [by eapply settings_after_update|]. by repeat split.
Qed.

(** What remains once the settings and the key are saved: clearing the marker. *)
Lemma clear_and_finish_inv id next d res d' :
  (cleared <-app on_files (clear_stopped (base_dir P) Tunnel) ;;
   match cleared with Err error => undo_marker P error | Ok _ => finish_connect P next end) d = (res, d') ->
  faults d (RemoveFile (marker_in (base ++ "/state") Tunnel)) <> Some NotFound ->
  (forall t, stopped base t (disk d)) -> wants_tunnel id (disk d) -> desired_connected d = true ->
  stopped base HttpsMcp (disk d') /\ (stopped base Tunnel (disk d') \/ wants_tunnel id (disk d'))
  /\ (forall e, res = Some (Err e) -> undone d' /\ stopped base Tunnel (disk d'))
  /\ (res = Some (Ok tt) -> desired_connected d' = true /\ session_runtime_key d' = session_runtime_key d
      /\ ~ stopped base Tunnel (disk d') /\ wants_tunnel id (disk d') /\ still d d').
Proof using base Hbase.
  rewrite Hbase. intros H Hh Hall Hw Hd.
  apply app_bind_inv in H as [[H ->]|(r & d1 & H & Hk)]; apply on_files_inv in H as (w & H & ->);
    apply clear_stopped_inv in H as ((_ & _ & Ho) & Hres); try done.
  { rewrite decide_False in Hres by done. cbn. rewrite Hres. split_and!; auto; done. }
  assert (stopped base HttpsMcp (files w)) as Hhttps by (unfold stopped; rewrite Ho; [apply Hall|done]).
  assert (now_on (files w) = now_on (disk d)) as Hnow by (unfold settings_now; by rewrite Ho).
  destruct r as [[]|e].
  - rewrite decide_True in Hres by done. unfold finish_connect, app_bind at 1, app_modify in Hk.
    set (d1 := set_permission_results _ _) in Hk.
    assert (disk d1 = files w /\ desired_connected d1 = true /\ session_runtime_key d1 = session_runtime_key d
      /\ ran d1 = ran d) as (Hf1 & Hd1 & Hk1 & Hr1) by (by subst d1). clearbody d1.
    assert (disk d' = disk d1 /\ calm d1 d' /\ session_runtime_key d' = session_runtime_key d1 /\
      (forall e, res <> Some (Err e))) as (-> & [Hs2 Hd2] & Hk2 & Hne).
    { apply app_bind_inv in Hk as [[H1 ->]|(found & d2 & H1 & Hk)]; apply (runtime_paths_client P) in H1 as Hc;
        pose proof (client_only_calm _ _ _ Hc (Forall_nil_2 _)) as Hcalm; destruct Hc as (w2 & l2 & -> & Hf2 & _);
        [by split_and!|].
      destruct found as [paths|e]; [|injection Hk as <- <-; by split_and!].
      apply app_bind_inv in Hk as [[H3 ->]|(o & d3 & H3 & Hk)]; pose proof H3 as Hc3;
        apply (does_status P base Hbase calm) in H3; apply (status_client P base Hbase) in Hc3 as (t & (w3 & l3 & -> & Hf3 & _) & _);
        cbn in Hf3.
      { split_and!; [cbn; congruence|by etrans|done|done]. }
      injection Hk as <- <-. split_and!; [cbn; congruence|etrans; [exact Hcalm|exact H3]|done|done]. }
    rewrite Hf1. split_and!; [done| |by intros e E; apply Hne in E|].
    + right. unfold wants_tunnel. by rewrite Hnow.
    + intros _. split_and!; [congruence..| | |].
      * unfold stopped. rewrite Hres. by intros [? ?].
      * unfold wants_tunnel. by rewrite Hnow.
      * destruct Hs2 as (tail & Ht & Hq). exists tail. split; [congruence|done].
  - rewrite decide_False in Hres by done. apply undo_marker_takes_back in Hk as ([Hs _] & Hne & Hu).
    assert (forall t, stopped base t (disk d')) as Hall' by (intros t; apply Hs; cbn; by rewrite Hres).
    split_and!; [auto|auto| |by intros E%Hne]. intros e' ->. split; [by apply Hu|auto].
Qed.

(** How a connect may end: undone and still marked stopped, or complete. *)
Definition connect_outcome (id : string) (res : option (Result unit string)) (d' : Desk) : Prop :=
  stopped base HttpsMcp (disk d') /\ (stopped base Tunnel (disk d') \/ wants_tunnel id (disk d'))
  /\ (forall e, res = Some (Err e) -> undone d' /\ stopped base Tunnel (disk d'))
  /\ (res = Some (Ok tt) -> desired_connected d' = true /\ ~ stopped base Tunnel (disk d')
      /\ wants_tunnel id (disk d')).

Lemma outcome_dead id d : (forall t, stopped base t (disk d)) -> connect_outcome id None d.
Proof. intros Hall. split_and!; [apply Hall|left; apply Hall|done..]. Qed.

Lemma outcome_undone id m d res d' :
  takes_back m -> m d = (res, d') -> (forall t, stopped base t (disk d)) -> connect_outcome id res d'.
Proof.
  intros Hm H Hall. apply Hm in H as ([Hs _] & Hne & Hu).
  split_and!; [by apply Hs|left; by apply Hs| |by intros E%Hne].
  intros e ->. split; [by apply Hu|by apply Hs].
Qed.

Lemma commit_connect_inv id key remember previous d res d' :
  commit_connect P protect_secret clear_keychain_key id key remember previous d = (res, d') ->
  json_ok -> faults d (ReadFile file) <> Some NotFound ->
  faults d (RemoveFile (marker_in (base ++ "/state") Tunnel)) <> Some NotFound ->
  is_empty (trim id) = false -> (forall t, stopped base t (disk d)) -> connect_outcome id res d'.
Proof using base Hbase.
  intros H Hjson Hread Hremove Hid Hall. unfold commit_connect, app_bind at 1, app_modify in H.
  change (disk d) with (disk (set_desired_connected true d)) in Hall.
  change (faults d) with (faults (set_desired_connected true d)) in Hread, Hremove.
  assert (desired_connected (set_desired_connected true d) = true) as Hd by done.
  set (d1 := set_desired_connected true d) in *. clearbody d1. clear d.
  apply app_bind_inv in H as [[H ->]|(next & d2 & H & Hk)]; apply update_inv in H as Hu;
    destruct Hu as (w & -> & Hi & Hs & _); [by apply outcome_dead; intros t; apply Hs|].
  assert (forall t, stopped base t (files w)) as Hall2 by (intros t; apply Hs, Hall).
  destruct next as [next|e]; [|by eapply outcome_undone; [apply undo_unsaved_takes_back|..]].
  assert (wants_tunnel id (files w)) as Hw by (by eapply (wants_after_update id remember d1 _ (set_desk_world w d1))).
  apply app_bind_inv in Hk as [[H2 ->]|(secret & d3 & H2 & Hk)];
    (assert (apart (set_desk_world w d1) _) as Ha
      by (destruct remember; [by eapply save_key_apart|by eapply clear_key_apart]));
    apply apart_facts in Ha as (((_ & Hi3) & _ & Hd3 & _) & Hs3 & Hn3).
  { apply outcome_dead. intros t. by apply Hs3. }
  assert (forall t, stopped base t (disk d3)) as Hall3 by (intros t; by apply Hs3).
  destruct secret as [[]|e]; [|by eapply outcome_undone; [apply undo_secret_takes_back|..]].
  cbn in Hi3, Hd3. apply (clear_and_finish_inv id next) in Hk as (? & ? & ? & Hok); [|congruence|done| |congruence].
  - split_and!; [done..|]. intros E. by destruct (Hok E) as (? & _ & ? & ? & _).
  - unfold wants_tunnel in *. by rewrite Hn3.
Qed.

Lemma start_connect_inv id key remember d res d' :
  start_connect P protect_secret clear_keychain_key id key remember d = (res, d') ->
  json_ok -> faults d (ReadFile file) <> Some NotFound ->
  faults d (RemoveFile (marker_in (base ++ "/state") Tunnel)) <> Some NotFound ->
  is_empty (trim id) = false -> (forall t, stopped base t (disk d)) -> connect_outcome id res d'.
Proof using base Hbase.
  intros H Hjson Hread Hremove Hid Hall.
  apply app_bind_inv in H as [[H ->]|(previous & d1 & H & Hk)]; apply (load_settings_client P base Hbase) in H;
    apply client_only_disk in H as [Hf Hi]; [apply outcome_dead; by rewrite Hf|].
  unfold app_bind at 1, app_modify in Hk. rewrite <- Hf in Hall. rewrite <- Hi in Hread, Hremove. clear Hf Hi.
  change (disk d1) with (disk (begin_connect key d1)) in Hall.
  change (faults d1) with (faults (begin_connect key d1)) in Hread, Hremove.
  set (d2 := begin_connect key d1) in *. clearbody d2.
  apply app_bind_inv in Hk as [[H ->]|(started & d3 & H & Hk)];
    apply (start_inv P base Hbase) in H as (tail & Hc & _);
    apply client_only_disk in Hc as [Hf Hi]; [apply outcome_dead; by rewrite Hf|].
  rewrite <- Hf in Hall. rewrite <- Hi in Hread, Hremove.
  destruct started as [u|e]; [by eapply commit_connect_inv|].
  injection Hk as <- <-. split_and!; [apply Hall|left; apply Hall| |done].
  intros e' _. split; [apply cancel_undone|apply Hall].
Qed.

Lemma tunnel_id_not_blank id : starts_with "tunnel_" id = true -> is_empty (trim id) = false.
Proof.
  intros (r & ->)%starts_with_app.
  assert (utf8_chars ("tunnel_" ++ r) = "t" :: utf8_chars ("unnel_" ++ r)) as Ht.
  { change ("tunnel_" ++ r) with (String "t" ("unnel_" ++ r)). change ("unnel_" ++ r) with (String "u" ("nnel_" ++ r)).
    set (s := "nnel_" ++ r). cbn [utf8_chars]. destruct (utf8_chars s) as [|c cs]; [done|].
    by destruct (starts_continuation c). }
  unfold trim. rewrite Ht. change (drop_whitespace ("t" :: utf8_chars ("unnel_" ++ r))) with ("t" :: utf8_chars ("unnel_" ++ r)).
  cbn [rev]. set (l := rev (utf8_chars _)). assert (exists x l', drop_whitespace (l ++ ["t"]) = x :: l' /\ In "t" (x :: l')) as (x & l' & -> & Hin).
  { clear. induction l as [|c l IH]; [by eexists _, _; split; [reflexivity|left]|]. cbn [app drop_whitespace].
    destruct (is_whitespace c); [exact IH|]. eexists _, _. split; [reflexivity|]. right. apply in_or_app. right. by left. }
  apply in_rev in Hin. apply in_split in Hin as (a & b & ->). rewrite concat_chars_app, concat_chars_cons.
  unfold is_empty. destruct (concat_chars a); done.
Qed.

Lemma load_key_prepared key : does prepared (load_runtime_key P unprotect_secret key).
Proof using base Hbase.
  unfold load_runtime_key. destruct (negb _); [apply does_ret; apply _|]. apply does_try; [apply _|..].
  - apply prepared_files. intros w res w' H. apply secret_path_inv in H as (? & ? & _). done.
  - intros _. destruct (negb _); [apply does_ret; apply _|]. apply does_try; [apply _|..].
    + apply does_get; apply _.
    + intros v. apply does_ret; apply _.
Qed.

(** C11. Connecting is a transaction.  However it ends (success, an error at any step, or
    the process dying anywhere), a stop of HTTPS is never lost, and a stop of the tunnel is
    lost only when the settings on disk already want this very tunnel.  After an error
    either nothing was started or changed in memory, or nothing is wanted, no key is kept
    and a restart restores neither transport.  After success the tunnel is wanted, in memory
    and by the settings and markers a restart reads, and HTTPS is not.  (The JSON printer
    and reader agree; failures are not reported as missing files.) *)
Theorem connect_transaction tunnel_id key remember d res d'
    (Hconnect : connect_tunnel P unprotect_secret protect_secret clear_keychain_key tunnel_id key remember d = (res, d'))
    (Hjson : json_ok) (Hread : faults d (ReadFile file) <> Some NotFound)
    (Hremove : faults d (RemoveFile (marker_in (base ++ "/state") Tunnel)) <> Some NotFound) :
  let id := trim tunnel_id in
  (restart_allowed base HttpsMcp (disk d) = Some (Ok false) -> restart_allowed base HttpsMcp (disk d') = Some (Ok false))
  /\ (restart_allowed base Tunnel (disk d) = Some (Ok false) ->
      restart_allowed base Tunnel (disk d') = Some (Ok false) \/ wants_tunnel id (disk d'))
  /\ (forall e, res = Some (Err e) ->
      (ran d' = ran d /\ desired_connected d' = desired_connected d /\ session_runtime_key d' = session_runtime_key d)
      \/ (undone d' /\ forall t, restart_allowed base t (disk d') = Some (Ok false)))
  /\ (res = Some (Ok tt) -> desired_connected d' = true /\ wants_tunnel id (disk d')
      /\ restart_allowed base Tunnel (disk d') = Some (Ok true)
      /\ restart_allowed base HttpsMcp (disk d') = Some (Ok false)).
Proof using base Hbase.
  intros id.
  assert (forall t fs, restart_allowed base t fs = Some (Ok false) <-> stopped base t fs) as Hst
    by (intros; symmetry; apply stopped_restart).
  setoid_rewrite Hst.
  assert (prepared d d' /\ res <> Some (Ok tt) \/ connect_outcome id res d' /\ is_empty (trim id) = false) as Hend.
  2:{ destruct Hend as [[([Hs _] & Hr & Hd & Hk) Hne]|[(H1 & H2 & H3 & H4) _]].
      - split_and!; [by apply Hs|left; by apply Hs|by left|by intros E%Hne].
      - split_and!; [done|done| |].
        + intros e E. right. destruct (H3 e E) as [? Ht]. split; [done|by intros []].
        + intros E. destruct (H4 E) as (? & ? & ?). split_and!; [done..|by apply unstopped_restart|done]. }
  unfold connect_tunnel in Hconnect. fold id in Hconnect.
  destruct (starts_with "tunnel_" id) eqn:Hid; cbn [negb] in Hconnect; [|injection Hconnect as <- <-; by left].
  apply tunnel_id_not_blank in Hid.
  assert (does prepared (load_runtime_key P unprotect_secret key)) as Hq1 by apply load_key_prepared.
  assert (does prepared ConnectionCoordinator_acquire) as Hq2 by (apply does_get; apply _).
  assert (forall m, does prepared (ensure_available m)) as Hq3 by (intros m; apply does_get; apply _).
  assert (does prepared (app_prepare_tunnel P)) as Hq4 by (intros d1 r1 d2 H1; exact (proj1 (prepare_tunnel_inv _ _ _ H1))).
  apply (does_try_inv prepared _ _ d) in Hconnect as [[? Hne]|(k & d1 & _ & Hp1 & H)]; [by left| |solve [auto]|done || reflexivity].
  apply (does_try_inv prepared _ _ d) in H as [[? Hne]|(? & d2 & _ & Hp2 & H)]; [by left| |solve [auto]|done || reflexivity].
  apply (does_try_inv prepared _ _ d) in H as [[? Hne]|(? & d3 & _ & Hp3 & H)]; [by left| |solve [auto]|done || reflexivity].
  apply (does_try_inv prepared _ _ d) in H as [[? Hne]|([] & d4 & H4 & Hp4 & H)]; [by left| |solve [auto]|done || reflexivity].
  right. split; [|done]. apply prepare_tunnel_inv in H4 as [_ Hall]. destruct Hp4 as ([_ Hi] & _).
  eapply start_connect_inv; [exact H|done|congruence|congruence|exact Hid|by apply Hall].
Qed.
End ConnectProps.

(** ** Witness *)

(** Connecting from a fresh installation in which both transports were stopped. *)
Definition sample_stopped_desk : Desk :=
  desk_default (healthy (<[sample_marker Tunnel := marker_text]> (<[sample_marker HttpsMcp := marker_text]>
    (sample_files settings_default)))).

Lemma connect_transaction_witness :
  let out := connect_tunnel sample_platform (fun _ => Ok "stored") (fun _ _ => Ok tt) (fun _ => Ok tt)
               " tunnel_1 " "key" true sample_stopped_desk in
  out.1 = Some (Ok tt)
  /\ restart_allowed "/home/u" Tunnel (files (desk_world out.2)) = Some (Ok true)
  /\ restart_allowed "/home/u" HttpsMcp (files (desk_world out.2)) = Some (Ok false).
Proof.
  intros out. assert (out.1 = Some (Ok tt)) as Hres by (vm_compute; reflexivity). split; [exact Hres|].
  destruct (connect_tunnel sample_platform (fun _ => Ok "stored") (fun _ _ => Ok tt) (fun _ => Ok tt)
    " tunnel_1 " "key" true sample_stopped_desk) as [res d'] eqn:Hc.
  subst out. cbn [fst snd] in Hres |- *.
  destruct (connect_transaction sample_platform "/home/u" eq_refl (fun _ => Ok "stored") (fun _ _ => Ok tt)
    (fun _ => Ok tt) " tunnel_1 " "key" true sample_stopped_desk res d' Hc sample_json_agrees
    ltac:(discriminate) ltac:(discriminate)) as (_ & _ & _ & Hok).
  destruct (Hok Hres) as (_ & _ & Ht & Hh). split; [exact Ht|exact Hh].
Defined.
