(* ===== verification/Crypto.v ===== *)
(** * End-to-end encryption of the monitor ([src-tauri/src/monitor_crypto.rs])

    Keys, associated data and envelopes.  The primitives (AES-GCM, HKDF, HMAC, base64, the
    random source) are parameters; what is modelled is everything built on them. *)

From stdpp Require Import pretty.
From S2P Require Export Protocol.
Local Open Scope string_scope.

Definition bytes := list byte.

Definition master_key_len : nat := 32.
Definition nonce_len : nat := 12.

(** [format!("{n}")] of a [u64] *)
Definition u64_text (n : N) : string := pretty n.

(** ** Associated data and derivation labels *)

Definition pairing_aad (pairing_id direction : string) : string :=
  "chatx-monitor-v1|pairing|" ++ pairing_id ++ "|" ++ direction.

Definition control_aad (desktop_id device_id request_id direction : string) (issued_at expires_at : N)
    : string :=
  "chatx-monitor-v1|control|" ++ direction ++ "|" ++ desktop_id ++ "|" ++ device_id ++ "|" ++ request_id
    ++ "|" ++ u64_text issued_at ++ "|" ++ u64_text expires_at.

Definition snapshot_aad (desktop_id device_id session_id : string) (sequence generated_at : N) : string :=
  "chatx-monitor-v1|snapshot|" ++ desktop_id ++ "|" ++ device_id ++ "|" ++ session_id ++ "|"
    ++ u64_text sequence ++ "|" ++ u64_text generated_at.

Definition device_label : string := "chatx-monitor-device-e2ee-v1".
Definition direct_label : string := "chatx-monitor-direct-auth-v1".
Definition relay_label : string := "chatx-monitor-relay-auth-v1".

(** [\[label, b"|", device_id.as_bytes()\]], which HKDF concatenates. *)
Definition derive_info (label device_id : string) : string := label ++ "|" ++ device_id.

(** The loop over the slices [&value\[start..start + 2\]]; a slice panics ([None]) unless both
    its ends are character boundaries, and the first that does not parse ends the loop. *)
Fixpoint pairing_key_loop (n : nat) (s : string) : option (Result bytes string) :=
  match n with
  | O => Some (Ok [])
  | S n =>
      match s with
      | String a (String b rest) =>
          if is_continuation a || starts_continuation rest then None
          else match u8_from_str_radix16 (String a (String b "")) with
               | None => Some (Err "Pairing secret 编码无效。")
               | Some x => match pairing_key_loop n rest with
                           | Some (Ok xs) => Some (Ok (x :: xs))
                           | other => other
                           end
               end
      | _ => None
      end
  end.

Definition pairing_key (pairing_code : string) : option (Result bytes string) :=
  let value := trim pairing_code in
  if negb (String.length value =? 64)%nat then Some (Err "Pairing secret 长度无效。")
  else pairing_key_loop 32 value.

Section Envelopes.
(** AES-256-GCM, HKDF-SHA256 over a salt, HMAC-SHA256 and unpadded URL-safe base64. *)
Context (seal open : bytes -> bytes -> string -> bytes -> option bytes)
        (hkdf : string -> bytes -> string -> option bytes) (hmac_sha256 : bytes -> string -> bytes)
        (b64_encode : bytes -> string) (b64_decode : string -> option bytes).

Definition encode_master_key (key : bytes) : string := b64_encode key.

Definition decode_master_key (value : string) : Result bytes string :=
  match b64_decode (trim value) with
  | None => Err "Monitor Master Key 编码无效。"
  | Some decoded => if negb (length decoded =? master_key_len)%nat then Err "Monitor Master Key 长度无效。"
                    else Ok decoded
  end.

Definition derive (master_key : bytes) (device_id label : string) : Result bytes string :=
  match hkdf "chatx-monitor-v1" master_key (derive_info label device_id) with
  | Some okm => Ok okm
  | None => Err "派生 Monitor 设备密钥失败。"
  end.

Definition derive_device_key (master_key : bytes) (device_id : string) : Result bytes string :=
  derive master_key device_id device_label.
Definition derive_direct_token (master_key : bytes) (device_id : string) : Result string string :=
  key <-? derive master_key device_id direct_label ;; Ok (hex_of_bytes key).
Definition derive_relay_token (master_key : bytes) (device_id : string) : Result string string :=
  key <-? derive master_key device_id relay_label ;; Ok (hex_of_bytes key).

Definition device_key_b64 (master_key : bytes) (device_id : string) : Result string string :=
  key <-? derive_device_key master_key device_id ;; Ok (b64_encode key).

Definition derive_control_key (device_key : bytes) (device_id : string) : bytes :=
  hmac_sha256 device_key ("chatx-monitor-control-v1|" ++ device_id).

(** A nonce drawn from the random source, [None] when it fails. *)
Definition encrypt_snapshot (random : option bytes) (master_key : bytes) (desktop_id device_id session_id : string)
    (sequence generated_at : N) (plaintext : bytes) : Result EncryptedSnapshot string :=
  device_key <-? derive_device_key master_key device_id ;;
  match random with
  | None => Err "生成 Monitor E2EE nonce 失败。"
  | Some nonce_bytes =>
      let aad := snapshot_aad desktop_id device_id session_id sequence generated_at in
      match seal device_key nonce_bytes aad plaintext with
      | None => Err "加密 Monitor Snapshot 失败。"
      | Some ciphertext =>
          Ok {| snap_session_id := session_id; snap_sequence := sequence; snap_generated_at := generated_at;
                snap_nonce := b64_encode nonce_bytes; snap_ciphertext := b64_encode ciphertext |}
      end
  end.

Definition encrypt_control_payload (random : option bytes) (device_key : bytes)
    (desktop_id device_id request_id direction : string) (issued_at expires_at : N) (plaintext : bytes)
    : Result EncryptedControlPayload string :=
  let control_key := derive_control_key device_key device_id in
  match random with
  | None => Err "生成 Monitor Control nonce 失败。"
  | Some nonce_bytes =>
      let aad := control_aad desktop_id device_id request_id direction issued_at expires_at in
      match seal control_key nonce_bytes aad plaintext with
      | None => Err "加密 Monitor Control payload 失败。"
      | Some ciphertext =>
          Ok {| ctl_request_id := request_id; ctl_issued_at := issued_at; ctl_expires_at := expires_at;
                ctl_nonce := b64_encode nonce_bytes; ctl_ciphertext := b64_encode ciphertext |}
      end
  end.

Definition decrypt_control_payload (device_key : bytes) (desktop_id device_id direction : string)
    (payload : EncryptedControlPayload) : Result bytes string :=
  let control_key := derive_control_key device_key device_id in
  match b64_decode (ctl_nonce payload) with
  | None => Err "Monitor Control nonce 编码无效。"
  | Some nonce =>
      if negb (length nonce =? nonce_len)%nat then Err "Monitor Control nonce 长度无效。"
      else match b64_decode (ctl_ciphertext payload) with
           | None => Err "Monitor Control ciphertext 编码无效。"
           | Some ciphertext =>
               let aad := control_aad desktop_id device_id (ctl_request_id payload) direction
                            (ctl_issued_at payload) (ctl_expires_at payload) in
               match open control_key nonce aad ciphertext with
               | None => Err "Monitor Control E2EE 验证失败。"
               | Some clear => Ok clear
               end
           end
  end.

(** [None]: the pairing secret made the program panic. *)
Definition encrypt_pairing_payload (random : option bytes) (pairing_code pairing_id direction : string)
    (plaintext : bytes) : option (Result EncryptedPairingPayload string) :=
  match pairing_key pairing_code with
  | None => None
  | Some (Err e) => Some (Err e)
  | Some (Ok raw_key) =>
      match random with
      | None => Some (Err "生成 Pairing nonce 失败。")
      | Some nonce_bytes =>
          match seal raw_key nonce_bytes (pairing_aad pairing_id direction) plaintext with
          | None => Some (Err "加密 Pairing payload 失败。")
          | Some ciphertext =>
              Some (Ok {| pairing_nonce := b64_encode nonce_bytes;
                          pairing_ciphertext := b64_encode ciphertext |})
          end
      end
  end.

Definition decrypt_pairing_payload (pairing_code pairing_id direction : string)
    (payload : EncryptedPairingPayload) : option (Result bytes string) :=
  match pairing_key pairing_code with
  | None => None
  | Some (Err e) => Some (Err e)
  | Some (Ok raw_key) =>
      match b64_decode (pairing_nonce payload) with
      | None => Some (Err "Pairing nonce 编码无效。")
      | Some nonce =>
          if negb (length nonce =? nonce_len)%nat then Some (Err "Pairing nonce 长度无效。")
          else match b64_decode (pairing_ciphertext payload) with
               | None => Some (Err "Pairing ciphertext 编码无效。")
               | Some ciphertext =>
                   match open raw_key nonce (pairing_aad pairing_id direction) ciphertext with
                   | None => Some (Err "Pairing E2EE 验证失败。")
                   | Some plaintext => Some (Ok plaintext)
                   end
               end
      end
  end.
End Envelopes.

(** ** Separators and decimal numbers *)

Definition not_char (c a : ascii) : bool := negb (Ascii.eqb a c).
(** Text without the separator of the associated data. *)
Definition plain (s : string) : bool := string_forall (not_char "|") s.

Lemma separator_inj c a b a' b' :
  string_forall (not_char c) a = true -> string_forall (not_char c) a' = true ->
  a ++ String c b = a' ++ String c b' -> a = a' /\ b = b'.
Proof.
  revert a'. induction a as [|x a IH]; intros [|y a']; cbn [string_forall String.append]; try unfold not_char at 1.
  - by intros _ _ [=].
  - intros _ [Hy _]%andb_true_iff [= <- _]. by rewrite Ascii.eqb_refl in Hy.
  - intros [Hx _]%andb_true_iff _ [= -> _]. by rewrite Ascii.eqb_refl in Hx.
  - intros [_ Ha]%andb_true_iff [_ Ha']%andb_true_iff [= -> H]. by destruct (IH a' Ha Ha' H) as [-> ->].
Qed.

Lemma pretty_N_char_plain n : not_char "|" (pretty_N_char n) = true.
Proof. unfold pretty_N_char. by repeat case_match. Qed.

Lemma pretty_N_go_plain n s : plain s = true -> plain (pretty_N_go n s) = true.
Proof.
  revert s. induction (N.lt_wf_0 n) as [n _ IH]; intros s Hs.
  destruct (decide (n = 0)%N) as [->|Hn]; [by rewrite pretty_N_go_0|].
  rewrite pretty_N_go_step by lia. apply IH; [apply N.div_lt; lia|].
  unfold plain in *. cbn [string_forall]. by rewrite pretty_N_char_plain, Hs.
Qed.

Lemma u64_text_plain n : plain (u64_text n) = true.
Proof. unfold u64_text, pretty, pretty_N. case_decide; [done|by apply pretty_N_go_plain]. Qed.

Lemma u64_text_inj n m : u64_text n = u64_text m -> n = m.
Proof. apply pretty_N_inj. Qed.

(** ** Properties *)

(** What a ciphertext is made for. *)
Inductive Purpose :=
| ForPairing (pairing_id direction : string)
| ForControl (desktop_id device_id request_id direction : string) (issued_at expires_at : N)
| ForSnapshot (desktop_id device_id session_id : string) (sequence generated_at : N).

Definition aad_of (purpose : Purpose) : string :=
  match purpose with
  | ForPairing id direction => pairing_aad id direction
  | ForControl desktop device request direction issued expires =>
      control_aad desktop device request direction issued expires
  | ForSnapshot desktop device session sequence generated =>
      snapshot_aad desktop device session sequence generated
  end.

Definition plain_purpose (purpose : Purpose) : bool :=
  match purpose with
  | ForPairing id direction => plain id && plain direction
  | ForControl desktop device request direction _ _ =>
      plain desktop && plain device && plain request && plain direction
  | ForSnapshot desktop device session _ _ => plain desktop && plain device && plain session
  end.

Ltac split_separators :=
  repeat match goal with
  | H : plain _ && _ = true |- _ => apply andb_true_iff in H as [? ?]
  | H : _ && plain _ = true |- _ => apply andb_true_iff in H as [? ?]
  | H : ?a ++ String ?c ?b = ?a' ++ String ?c ?b' |- _ =>
      apply separator_inj in H as [? ?]; [subst|solve [assumption|apply u64_text_plain]..]
  | H : u64_text _ = u64_text _ |- _ => apply u64_text_inj in H; subst
  end.

Lemma aad_of_inj p1 p2 :
  plain_purpose p1 = true -> plain_purpose p2 = true -> aad_of p1 = aad_of p2 -> p1 = p2.
Proof.
  destruct p1, p2; cbn [aad_of plain_purpose]; unfold pairing_aad, control_aad, snapshot_aad;
    intros H1 H2 H; cbn in H; try discriminate H; injection H as H; split_separators; reflexivity.
Qed.

(** Associated data and key-derivation labels leave no room for confusion: for
    identifiers without the separator, equal associated data mean the same kind of message
    with the same desktop, device, request or session, direction, sequence and times; and
    the three kinds of derived keys of any two devices never share a derivation input. *)
Theorem purposes_separated :
  (forall p1 p2, plain_purpose p1 = true -> plain_purpose p2 = true -> aad_of p1 = aad_of p2 -> p1 = p2)
  /\ (forall l1 l2 d1 d2, In l1 [device_label; direct_label; relay_label] ->
        In l2 [device_label; direct_label; relay_label] -> derive_info l1 d1 = derive_info l2 d2 ->
        l1 = l2 /\ d1 = d2).
Proof.
  split; [exact aad_of_inj|]. intros l1 l2 d1 d2 H1 H2 H. cbn in H1, H2. unfold derive_info in H. cbn in H.
  apply separator_inj in H; [exact H| |];
    repeat match goal with H : _ \/ _ |- _ => destruct H as [<-|H] end; done.
Qed.

Section CryptoProps.
Context (seal open : bytes -> bytes -> string -> bytes -> option bytes)
        (hkdf : string -> bytes -> string -> option bytes) (hmac_sha256 : bytes -> string -> bytes)
        (b64_encode : bytes -> string) (b64_decode : string -> option bytes).

(** What AES-GCM promises: what was sealed opens to the same text, and only under the
    associated data it was sealed with (forgery and key collisions excluded). *)
Class AeadLaws : Prop := {
  aead_correct : forall k n a p c, seal k n a p = Some c -> open k n a c = Some p;
  aead_bound : forall k n a a' p p' c, seal k n a p = Some c -> open k n a' c = Some p' -> a' = a }.

Context (Haead : AeadLaws) (Hb64 : forall b, b64_decode (b64_encode b) = Some b).

#[local] Abbreviation encrypt := (encrypt_control_payload seal hmac_sha256 b64_encode).
#[local] Abbreviation decrypt := (decrypt_control_payload open hmac_sha256 b64_decode).

Lemma decrypt_encrypted nonce key desktop device request direction issued expires clear payload :
  length nonce = nonce_len ->
  encrypt (Some nonce) key desktop device request direction issued expires clear = Ok payload ->
  exists c, seal (derive_control_key hmac_sha256 key device) nonce
              (control_aad desktop device request direction issued expires) clear = Some c
  /\ ctl_nonce payload = b64_encode nonce /\ ctl_ciphertext payload = b64_encode c
  /\ ctl_request_id payload = request /\ ctl_issued_at payload = issued /\ ctl_expires_at payload = expires.
Proof.
  intros Hn He. unfold encrypt_control_payload in He. destruct (seal _ _ _ _) as [c|]; [|done].
  injection He as <-. by exists c.
Qed.

(** A control envelope carries its text to its addressee and nowhere else: with a
    12-byte nonce it decrypts to the text it was made from, and if its nonce and
    ciphertext are presented in any other envelope under the same control key (other
    desktop, device, request id, direction or times), decryption fails: a response can
    never pass for a request, nor a request be replayed under a new id or lifetime. *)
Theorem control_envelope_bound nonce key desktop device request direction issued expires clear payload
    (Hnonce : length nonce = nonce_len)
    (Hencrypt : encrypt (Some nonce) key desktop device request direction issued expires clear = Ok payload)
    (Hplain : plain_purpose (ForControl desktop device request direction issued expires) = true) :
  decrypt key desktop device direction payload = Ok clear
  /\ forall key' desktop' device' direction' payload' clear',
       ctl_nonce payload' = ctl_nonce payload -> ctl_ciphertext payload' = ctl_ciphertext payload ->
       derive_control_key hmac_sha256 key' device' = derive_control_key hmac_sha256 key device ->
       plain_purpose (ForControl desktop' device' (ctl_request_id payload') direction'
                        (ctl_issued_at payload') (ctl_expires_at payload')) = true ->
       decrypt key' desktop' device' direction' payload' = Ok clear' ->
       desktop' = desktop /\ device' = device /\ direction' = direction /\ payload' = payload /\ clear' = clear.
Proof.
  apply decrypt_encrypted in Hencrypt as (c & Hc & Hnn & Hcc & Hr & Hi & Hx); [|exact Hnonce].
  pose proof (aead_correct _ _ _ _ _ Hc) as Hopen. unfold decrypt_control_payload. split.
  - rewrite Hnn, Hcc, Hr, Hi, Hx, !Hb64, Hnonce. cbn [negb nonce_len Nat.eqb]. by rewrite Hopen.
  - intros key' desktop' device' direction' payload' clear' Hn' Hc' Hkey Hplain'.
    rewrite Hn', Hc', Hnn, Hcc, !Hb64, Hnonce, Hkey. cbn [negb nonce_len Nat.eqb].
    destruct (open (derive_control_key hmac_sha256 key device) nonce (control_aad desktop' _ _ _ _ _) c)
      as [q|] eqn:Ho; [|done]. intros [= <-].
    pose proof (aead_bound _ _ _ _ _ _ _ Hc Ho) as Haad.
    apply (aad_of_inj (ForControl _ _ _ _ _ _) (ForControl _ _ _ _ _ _)) in Haad; [|done..].
    injection Haad as -> -> Hr' -> Hi' Hx'. rewrite Hr', Hi', Hx', Hopen in Ho. injection Ho as ->.
    split_and!; try done. destruct payload', payload; cbn in *. congruence.
Qed.

(** Pairing envelopes round trip and are bound to their pairing and direction: the
    answer cannot be reflected as a request, nor moved to another pairing. *)
Theorem pairing_envelope_bound nonce code id direction clear payload
    (Hnonce : length nonce = nonce_len)
    (Hencrypt : encrypt_pairing_payload seal b64_encode (Some nonce) code id direction clear = Some (Ok payload))
    (Hplain : plain_purpose (ForPairing id direction) = true) :
  decrypt_pairing_payload open b64_decode code id direction payload = Some (Ok clear)
  /\ forall id' direction' clear', plain_purpose (ForPairing id' direction') = true ->
       decrypt_pairing_payload open b64_decode code id' direction' payload = Some (Ok clear') ->
       id' = id /\ direction' = direction /\ clear' = clear.
Proof.
  unfold encrypt_pairing_payload in Hencrypt. unfold decrypt_pairing_payload.
  destruct (pairing_key code) as [[key|e]|]; [|done..].
  destruct (seal _ _ _ _) as [c|] eqn:Hc; [|done]. injection Hencrypt as <-. cbn [pairing_nonce pairing_ciphertext].
  rewrite !Hb64, Hnonce. cbn [negb nonce_len Nat.eqb]. pose proof (aead_correct _ _ _ _ _ Hc) as Hopen.
  rewrite Hopen. split; [done|]. intros id' direction' clear' Hplain'.
  destruct (open key nonce (pairing_aad id' direction') c) as [q|] eqn:Ho; [|done]. intros Hq. injection Hq as <-.
  pose proof (aead_bound _ _ _ _ _ _ _ Hc Ho) as Haad.
  apply (aad_of_inj (ForPairing _ _) (ForPairing _ _)) in Haad; [|done..].
  injection Haad as -> ->. rewrite Hopen in Ho. by injection Ho.
Qed.
End CryptoProps.

(** The secret printed for a pairing is read back as the key. *)
Lemma starts_continuation_hex bs : starts_continuation (hex_of_bytes bs) = false.
Proof. destruct bs as [|b bs]; [done|]. by destruct b. Qed.
Lemma pairing_key_loop_hex bs : pairing_key_loop (length bs) (hex_of_bytes bs) = Some (Ok bs).
Proof.
  induction bs as [|b bs IH]; [done|]. cbn [length pairing_key_loop hex_of_bytes].
  assert (exists x y, hex_of_byte b = String x (String y "") /\ is_continuation x = false
    /\ u8_from_str_radix16 (String x (String y "")) = Some b) as (x & y & -> & Hx & Hb)
    by (eexists _, _; split; [reflexivity|]; by destruct b).
  cbn [String.append]. by rewrite Hx, starts_continuation_hex, Hb, IH.
Qed.

(** A 64-byte secret that is not ASCII is not rejected but makes the slicing panic. *)
Lemma pairing_key_panics : exists code, String.length code = 64%nat /\ pairing_key code = None.
Proof. exists ("中" ++ string_of_list_ascii (repeat "0"%char 61)). split; vm_compute; reflexivity. Qed.

(** ** Concrete primitives and the witnesses *)

Definition sample_b64_encode (b : bytes) : string := string_of_list_byte b.
Definition sample_b64_decode (s : string) : option bytes := Some (list_byte_of_string s).

(** A self-delimiting copy of the associated data in front of the text. *)
Definition sample_header (aad : string) : bytes :=
  (repeat x01 (String.length aad) ++ x00 :: list_byte_of_string aad)%list.
Definition sample_seal (key nonce : bytes) (aad : string) (text : bytes) : option bytes :=
  Some (sample_header aad ++ text)%list.
Definition sample_open (key nonce : bytes) (aad : string) (sealed : bytes) : option bytes :=
  let n := length (sample_header aad) in
  if bool_decide (firstn n sealed = sample_header aad) then Some (skipn n sealed) else None.

Lemma sample_b64_laws b : sample_b64_decode (sample_b64_encode b) = Some b.
Proof. unfold sample_b64_decode, sample_b64_encode. by rewrite list_byte_of_string_of_list_byte. Qed.

Lemma sample_header_inj a a' p p' : (sample_header a ++ p = sample_header a' ++ p')%list -> a = a'.
Proof.
  unfold sample_header. rewrite <- !app_assoc. cbn [app].
  assert (forall n m (l l' : bytes), (repeat x01 n ++ x00 :: l = repeat x01 m ++ x00 :: l')%list ->
    n = m /\ l = l') as Hpre.
  { induction n as [|n IH]; intros [|m] l l'; cbn; intros [= H]; [done|by apply IH in H as [-> ->]]. }
  intros [Hlen H]%Hpre. apply app_inj_1 in H as [H _].
  - by rewrite <- (string_of_list_byte_of_string a), H, string_of_list_byte_of_string.
  - assert (forall s, length (list_byte_of_string s) = String.length s) as Hl.
    { induction s as [|c s IH]; [done|]. cbn. by rewrite <- IH. }
    by rewrite !Hl.
Qed.

#[export] Instance sample_aead_laws : AeadLaws sample_seal sample_open.
Proof.
  split; unfold sample_seal, sample_open.
  - intros k n a p c [= <-]. rewrite bool_decide_eq_true_2 by apply take_app_length.
    f_equal. apply drop_app_length.
  - intros k n a a' p p' c [= <-]. case_bool_decide as H; [|done]. intros _.
    apply (sample_header_inj _ _ (skipn (length (sample_header a')) (sample_header a ++ p)) p).
    pose proof (firstn_skipn (length (sample_header a')) (sample_header a ++ p)) as Ht. by rewrite H in Ht.
Qed.

Definition sample_mac (key : bytes) (message : string) : bytes := (key ++ list_byte_of_string message)%list.
Definition sample_nonce : bytes := repeat x07 12.

Lemma control_envelope_bound_witness :
  exists payload,
    encrypt_control_payload sample_seal sample_mac sample_b64_encode (Some sample_nonce) [x01]
      "d_1" "dev_1" "c_1" "request" 5 9 [x68; x69] = Ok payload
    /\ decrypt_control_payload sample_open sample_mac sample_b64_decode [x01] "d_1" "dev_1" "request" payload
       = Ok [x68; x69].
Proof.
  eexists. split; [vm_compute; reflexivity|].
  refine (proj1 (control_envelope_bound sample_seal sample_open sample_mac sample_b64_encode sample_b64_decode
    sample_aead_laws sample_b64_laws sample_nonce [x01] "d_1" "dev_1" "c_1" "request" 5 9 [x68; x69] _
    eq_refl _ eq_refl)).
  vm_compute. reflexivity.
Defined.

Lemma pairing_envelope_bound_witness :
  let code := string_of_list_ascii (repeat "a"%char 64) in
  exists payload,
    encrypt_pairing_payload sample_seal sample_b64_encode (Some sample_nonce) code "p_1" "request" [x68]
      = Some (Ok payload)
    /\ decrypt_pairing_payload sample_open sample_b64_decode code "p_1" "request" payload = Some (Ok [x68]).
Proof.
  eexists. split; [vm_compute; reflexivity|].
  refine (proj1 (pairing_envelope_bound sample_seal sample_open sample_b64_encode sample_b64_decode
    sample_aead_laws sample_b64_laws sample_nonce _ "p_1" "request" [x68] _ eq_refl _ eq_refl)).
  vm_compute. reflexivity.
Defined.
