(* ===== verification/RelayApi.v ===== *)
(** * The desktop's requests to the Relay ([src-tauri/src/relay.rs])

    Addresses of the Relay and the requests of its HTTP interface, and the credentials and
    keys they need ([secrets.rs], [network_commands.rs]).  Every request sent is recorded in
    [sent]; what the network answers is a parameter. *)

From S2P Require Export Runtime Crypto Registry.
Local Open Scope string_scope.

(** ** Addresses *)

(** [str::trim_end_matches('/')] *)
Fixpoint trim_end_slashes (s : string) : string :=
  match s with
  | EmptyString => ""
  | String a rest =>
      let rest := trim_end_slashes rest in
      if is_empty rest && Ascii.eqb a "/" then "" else String a rest
  end.

Definition normalized_base_url (value : string) : Result string string :=
  let value := trim_end_slashes (trim value) in
  if is_empty value || existsb is_whitespace (utf8_chars value) || contains "@" value
  then Err "Relay URL 无效。"
  else
    let secure := starts_with "https://" value in
    let loopback := starts_with "http://127.0.0.1" value || starts_with "http://localhost" value
                    || starts_with "http://[::1]" value in
    if negb secure && negb loopback
    then Err "Relay 必须使用 https://；仅本机开发允许 loopback http://。"
    else Ok value.

(** [validate] *)
Definition validate_relay (settings : RelaySettings) : Result unit string :=
  if negb (relay_enabled settings) then Ok tt
  else match normalized_base_url (relay_base_url settings) with Ok _ => Ok tt | Err e => Err e end.

Definition websocket_url (base_url path : string) : Result string string :=
  base <-? normalized_base_url base_url ;;
  match strip_prefix "https://" base with
  | Some rest => Ok ("wss://" ++ rest ++ path)
  | None => match strip_prefix "http://" base with
            | Some rest => Ok ("ws://" ++ rest ++ path)
            | None => Err "Relay URL scheme 无效。"
            end
  end.

Definition pairing_ws_url (settings : RelaySettings) (credentials : RelayCredentials) (pairing_id : string)
    : Result string string :=
  websocket_url (relay_base_url settings)
    ("/v1/ws/pair?desktopId=" ++ cred_desktop_id credentials ++ "&pairingId=" ++ pairing_id).

(** *** What an accepted address is *)

Lemma trim_end_slashes_idemp s : trim_end_slashes (trim_end_slashes s) = trim_end_slashes s.
Proof.
  induction s as [|a s IH]; [done|]. cbn. destruct (is_empty _ && _) eqn:E; [done|]. cbn. by rewrite IH, E.
Qed.

Lemma starts_with_strip p s : starts_with p s = true -> exists rest, strip_prefix p s = Some rest /\ s = p ++ rest.
Proof.
  revert s. induction p as [|a p IH]; intros s; [by exists s|]. destruct s as [|b s]; cbn; [done|].
  destruct (ascii_dec a b) as [->|]; [|done]. rewrite Ascii.eqb_refl. intros (rest & Hr & ->)%IH. by exists rest.
Qed.

(** The prefixes that pass for a local address. *)
Definition loopback_prefixes : list string := ["http://127.0.0.1"; "http://localhost"; "http://[::1]"].

Lemma normalized_base_url_inv value base :
  normalized_base_url value = Ok base ->
  base = trim_end_slashes (trim value) /\ is_empty base = false /\ existsb is_whitespace (utf8_chars base) = false
  /\ contains "@" base = false
  /\ (starts_with "https://" base = true \/ exists p, In p loopback_prefixes /\ starts_with p base = true).
Proof.
  unfold normalized_base_url. destruct (is_empty _ || _ || _) eqn:Hbad; [done|].
  apply orb_false_iff in Hbad as [[He Hw]%orb_false_iff Ha].
  destruct (negb _ && negb _) eqn:Hs; [done|]. intros [= <-]. split_and!; [done..|].
  apply andb_false_iff in Hs as [Hs|Hs]; apply negb_false_iff in Hs; [by left|right].
  apply orb_prop in Hs as [[Hs|Hs]%orb_prop|Hs]; eexists; (split; [|exact Hs]); cbn; auto.
Qed.

(** The addresses a Relay may have.  An accepted address is [https://], or plain [http://] to
    a host whose text begins like a loopback host; it contains no blank and no user part, and
    it is in normal form (normalising again changes nothing, so stored and configured
    addresses compare as texts).  The websocket address made of it is [wss://] whenever the
    address is [https://]: a connection is never downgraded. *)
Theorem relay_url_safe value base path :
  normalized_base_url value = Ok base ->
  normalized_base_url base = Ok base
  /\ existsb is_whitespace (utf8_chars base) = false /\ contains "@" base = false
  /\ ((exists rest, base = "https://" ++ rest /\ websocket_url value path = Ok ("wss://" ++ rest ++ path))
      \/ (exists p rest, In p loopback_prefixes /\ starts_with p base = true
          /\ base = "http://" ++ rest /\ websocket_url value path = Ok ("ws://" ++ rest ++ path))).
Proof.
  intros H. pose proof (normalized_base_url_inv _ _ H) as (Hb & He & Hw & Ha & Hs).
  assert (trim_end_slashes (trim base) = base) as Hn.
  { rewrite (trim_no_whitespace _ Hw). rewrite Hb. apply trim_end_slashes_idemp. }
  split_and!; [|done..|].
  - unfold normalized_base_url in *. rewrite Hn. rewrite <- Hb in H. exact H.
  - unfold websocket_url. rewrite H. destruct Hs as [Hs|(p & Hp & Hs)].
    + left. apply starts_with_strip in Hs as (rest & Hr & ->). exists rest. by rewrite Hr.
    + right. exists p.
      assert (exists q, p = "http://" ++ q) as [q ->] by (destruct Hp as [<-|[<-|[<-|[]]]]; by eexists).
      apply starts_with_strip in Hs as Hs'. destruct Hs' as (tail & _ & ->). exists (q ++ tail). by split_and!.
Qed.

(** What begins like a loopback host need not be one. *)
Lemma loopback_prefix_is_not_a_host :
  normalized_base_url "http://127.0.0.1.attacker.example" = Ok "http://127.0.0.1.attacker.example"
  /\ websocket_url "http://localhost.attacker.example/" "/v1" = Ok "ws://localhost.attacker.example/v1".
Proof. split; reflexivity. Qed.

(** ** Requests *)

(** The network and the libraries: building the HTTP client, the status or the transport
    error a request ends with, the text of a status, the body of the answer to a
    registration, SHA-256. *)
Record Network := {
  http_client : Desk -> Result unit string;
  http_send : HttpRequest -> Desk -> Result N string;
  status_text : N -> string;
  register_response : Desk -> Result DesktopRegisterResponse string;
  net_sha256 : string -> list byte }.

Section Requests.
Context (net : Network).

Definition token_hash_hex (token : string) : string := hex_of_bytes (net_sha256 net token).

(** [constant_time_eq] of [monitor_server.rs] *)
Definition constant_time_eq (left right : string) : bool :=
  (String.length left =? String.length right)%nat && (fold_diff 0 left right =? 0)%N.

Definition verify_token_hash_hex (token expected_hex : string) : bool :=
  constant_time_eq (token_hash_hex token) expected_hex.

(** [response.status().is_success()] *)
Definition is_success (status : N) : bool := (200 <=? status)%N && (status <? 300)%N.

(** [client()?.…send()] *)
Definition send (request : HttpRequest) (what : string) : App (Result N string) :=
  _ <-app? app_get (fun d => map_err (fun e => "创建 Relay HTTP 客户端失败：" ++ e) (http_client net d)) ;;
  fun d => (Some (map_err (fun e => what ++ "：" ++ e) (http_send net request d)),
            set_sent (sent d ++ [request]) d).

(** A request that succeeds on the given statuses. *)
Definition send_expecting (accepted : N -> bool) (request : HttpRequest) (what : string) : App (Result unit string) :=
  status <-app? send request what ;;
  app_ret (if accepted status then Ok tt else Err (what ++ "：HTTP " ++ status_text net status)).

(** A successful request was answered with an accepted status, and is recorded. *)
Lemma send_expecting_inv accepted request what d u d' :
  send_expecting accepted request what d = (Some (Ok u), d') ->
  exists status, http_send net request d = Ok status /\ accepted status = true /\ sent d' = (sent d ++ [request])%list.
Proof.
  unfold send_expecting, send. intros [[_ H]|[(e & _ & H)|(status & d1 & H & Hk)]]%app_try_inv; try done.
  apply app_try_inv in H as [[_ H]|[(e & _ & H)|([] & d2 & H & Hs)]]; try done. injection H as _ <-.
  injection Hs as Hs <-. destruct (http_send net request d) as [st|e]; [|done]. injection Hs as <-.
  destruct (accepted st) eqn:Ha; [|done]. injection Hk as _ <-. by exists st.
Qed.

Definition desktop_url (base : string) (credentials : RelayCredentials) (rest : string) : string :=
  base ++ "/v1/desktops/" ++ cred_desktop_id credentials ++ rest.

Definition relay_register_desktop (settings : RelaySettings) (bootstrap_token desktop_id device_name app_version platform
    : string) : App (Result RelayCredentials string) :=
  match normalized_base_url (relay_base_url settings) with
  | Err e => app_ret (Err e)
  | Ok base =>
      let token := trim bootstrap_token in
      if is_empty token then app_ret (Err "Relay 一次性注册凭据为空。")
      else
        status <-app? send {| http_method := "POST"; http_url := base ++ "/v1/desktops/register";
                              http_bearer := Some token;
                              http_body := RegisterBody {| reg_desktop_id := desktop_id;
                                 reg_device_name := device_name; reg_app_version := app_version;
                                 reg_platform := platform |} |} "Relay 注册失败" ;;
        if negb (is_success status)
        then app_ret (Err (if (status =? 401)%N && starts_with "cxr1." token
               then "注册码无效、已过期或已使用，请在宝塔 ChatX Relay 插件中重新生成。"
               else "Relay 注册失败：HTTP " ++ status_text net status))
        else
          registered <-app? app_get (fun d => map_err (fun e => "Relay 注册响应无效：" ++ e) (register_response net d)) ;;
          app_ret (Ok {| cred_base_url := base; cred_desktop_id := resp_desktop_id registered;
                         cred_desktop_token := resp_desktop_token registered |})
  end.

Definition device_request (method base : string) (credentials : RelayCredentials) (device_id : string)
    (body : HttpBody) : HttpRequest :=
  {| http_method := method; http_url := desktop_url base credentials ("/devices/" ++ device_id);
     http_bearer := Some (cred_desktop_token credentials); http_body := body |}.

Definition route_request (method base : string) (credentials : RelayCredentials) (pairing_id : string)
    (body : HttpBody) : HttpRequest :=
  {| http_method := method; http_url := desktop_url base credentials ("/pairings/" ++ pairing_id);
     http_bearer := Some (cred_desktop_token credentials); http_body := body |}.

Definition relay_authorize_device (settings : RelaySettings) (credentials : RelayCredentials)
    (device_id relay_device_token : string) : App (Result unit string) :=
  match normalized_base_url (relay_base_url settings) with
  | Err e => app_ret (Err e)
  | Ok base =>
      send_expecting is_success
        (device_request "PUT" base credentials device_id
           (AuthorizeBody {| auth_token_hash := token_hash_hex relay_device_token |}))
        "Relay 设备授权失败"
  end.

(** Deleting what is not there is success. *)
Definition gone (status : N) : bool := is_success status || (status =? 404)%N.

Definition relay_revoke_device (settings : RelaySettings) (credentials : RelayCredentials) (device_id : string)
    : App (Result unit string) :=
  match normalized_base_url (relay_base_url settings) with
  | Err e => app_ret (Err e)
  | Ok base => send_expecting gone (device_request "DELETE" base credentials device_id NoBody) "Relay 设备撤销失败"
  end.

Definition relay_open_pairing_route (settings : RelaySettings) (credentials : RelayCredentials)
    (pairing_id route_token : string) (expires_at : N) : App (Result unit string) :=
  match normalized_base_url (relay_base_url settings) with
  | Err e => app_ret (Err e)
  | Ok base =>
      send_expecting is_success
        (route_request "PUT" base credentials pairing_id
           (RouteBody {| open_token_hash := token_hash_hex route_token; open_expires_at := expires_at |}))
        "Relay Pairing route 创建失败"
  end.

Definition relay_delete_pairing_route (settings : RelaySettings) (credentials : RelayCredentials) (pairing_id : string)
    : App (Result unit string) :=
  match normalized_base_url (relay_base_url settings) with
  | Err e => app_ret (Err e)
  | Ok base => send_expecting gone (route_request "DELETE" base credentials pairing_id NoBody)
                 "Relay Pairing route 删除失败"
  end.

Definition relay_health (settings : RelaySettings) : App (Result unit string) :=
  match normalized_base_url (relay_base_url settings) with
  | Err e => app_ret (Err e)
  | Ok base => send_expecting is_success
                 {| http_method := "GET"; http_url := base ++ "/healthz"; http_bearer := None; http_body := NoBody |}
                 "Relay 健康检查失败"
  end.
End Requests.

(** ** Witness *)

Lemma relay_url_safe_witness :
  normalized_base_url " https://relay.example// " = Ok "https://relay.example"
  /\ normalized_base_url "https://relay.example" = Ok "https://relay.example".
Proof.
  split; [reflexivity|]. apply (relay_url_safe " https://relay.example// " "https://relay.example" "/v1"). reflexivity.
Defined.
