(* ===== verification/Secrets.v ===== *)
(** * Secrets of the desktop ([src-tauri/src/secrets.rs])

    The keys and credentials kept in the operating system's store (DPAPI files on Windows,
    the key chain on macOS), as the operations of the source use them: an item is absent,
    holds a value, or cannot be read.  The stores of each platform are in [Vault]. *)

From S2P Require Export RelayApi.
Local Open Scope string_scope.

Inductive SecretOp := LoadSecret (item : string) | SaveSecret (item : string).

Section Secrets.
(** Which accesses to the store fail and how, the random source, the base64 codec, and the
    JSON reader and printer of the credentials. *)
Context (secret_fault : SecretOp -> Desk -> option string) (random_key : Desk -> option bytes)
        (b64_encode : bytes -> string) (b64_decode : string -> option bytes)
        (credentials_from_str : string -> Result RelayCredentials string)
        (credentials_to_string : RelayCredentials -> Result string string).

Definition load_secret (item : string) : App (Result (option string) string) :=
  app_get (fun d => match secret_fault (LoadSecret item) d with
                    | Some e => Err e
                    | None => Ok (secrets d !! item)
                    end).

Definition save_secret (item value : string) : App (Result unit string) := fun d =>
  match secret_fault (SaveSecret item) d with
  | Some e => (Some (Err e), d)
  | None => (Some (Ok tt), set_secrets (<[item := value]> (secrets d)) d)
  end.

Definition monitor_master_item : string := "monitor-master-key".
Definition https_oauth_item : string := "https-oauth-master-key".
Definition relay_item : string := "relay-credentials".

(** [generate_master_key] of [monitor_crypto.rs] *)
Definition generate_master_key : App (Result bytes string) :=
  app_get (fun d => match random_key d with Some key => Ok key | None => Err "生成 Monitor Master Key 失败。" end).

Definition ensure_monitor_master_key : App (Result bytes string) :=
  stored <-app? load_secret monitor_master_item ;;
  match stored with
  | Some value =>
      app_ret (map_err (fun error => "Monitor Master Key 已损坏，拒绝静默轮换：" ++ error)
                 (decode_master_key b64_decode value))
  | None =>
      key <-app? generate_master_key ;;
      _ <-app? save_secret monitor_master_item (encode_master_key b64_encode key) ;;
      app_ret (Ok key)
  end.

Definition load_https_oauth_master_key : App (Result (option bytes) string) :=
  stored <-app? load_secret https_oauth_item ;;
  app_ret (match stored with
           | None => Ok None
           | Some value => match decode_master_key b64_decode value with
                           | Ok key => Ok (Some key)
                           | Err e => Err ("HTTPS OAuth 密钥已损坏，禁止自动轮换：" ++ e)
                           end
           end).

Definition save_https_oauth_master_key (key : bytes) : App (Result unit string) :=
  save_secret https_oauth_item (encode_master_key b64_encode key).

(** [lock_ok]: [HTTPS_SECRET_LOCK] is not poisoned. *)
Definition ensure_https_oauth_master_key (lock_ok : bool) : App (Result bytes string) :=
  if negb lock_ok then app_ret (Err "HTTPS OAuth 密钥操作锁损坏")
  else
    stored <-app? load_https_oauth_master_key ;;
    match stored with
    | Some key => app_ret (Ok key)
    | None =>
        legacy <-app? ensure_monitor_master_key ;;
        _ <-app? save_https_oauth_master_key legacy ;;
        app_ret (Ok legacy)
    end.

Definition rotate_https_oauth_master_key (lock_ok : bool) : App (Result bytes string) :=
  if negb lock_ok then app_ret (Err "HTTPS OAuth 密钥操作锁损坏")
  else
    key <-app? generate_master_key ;;
    _ <-app? save_https_oauth_master_key key ;;
    app_ret (Ok key).

Definition save_relay_credentials (credentials : RelayCredentials) : App (Result unit string) :=
  match credentials_to_string credentials with
  | Err e => app_ret (Err ("序列化 Relay Credential 失败：" ++ e))
  | Ok value => save_secret relay_item value
  end.

Definition read_relay_credentials : App (Result RelayCredentials string) :=
  stored <-app? load_secret relay_item ;;
  app_ret (match stored with
           | None => Err "读取 Relay Credential 失败：未找到"
           | Some value => map_err (fun e => "Relay Credential 编码无效：" ++ e) (credentials_from_str value)
           end).

Lemma read_relay_credentials_pure d : exists read, read_relay_credentials d = (Some read, d).
Proof.
  unfold read_relay_credentials, app_try, app_bind, load_secret, app_get.
  destruct (match secret_fault _ d with Some _ => _ | None => _ end); by eexists.
Qed.

(** [a.ok() == b.ok()] *)
Definition same_ok (a b : Result string string) : bool :=
  match a, b with
  | Ok x, Ok y => String.eqb x y
  | Err _, Err _ => true
  | _, _ => false
  end.

(** [relay_credentials_for_settings] of [network_commands.rs] *)
Definition relay_credentials_for_settings (settings : Settings) : App (option RelayCredentials) :=
  read <-app read_relay_credentials ;;
  app_ret (match read with
           | Err _ => None
           | Ok credentials =>
               match normalized_base_url (cred_base_url credentials),
                     normalized_base_url (relay_base_url (relay settings)) with
               | Ok credential_url, Ok settings_url =>
                   if String.eqb credential_url settings_url then Some credentials else None
               | _, _ => None
               end
           end).

(** *** Keys are created once and never replaced *)

(** A stored secret stays as it is. *)
Definition keeps_secrets (d d' : Desk) : Prop := forall item value,
  secrets d !! item = Some value -> secrets d' !! item = Some value.

#[local] Instance keeps_preorder : PreOrder keeps_secrets.
Proof. split; [by intros d item value|]. intros d1 d2 d3 H1 H2 item value Hv. by apply H2, H1. Qed.

(** The item holds the key. *)
Definition stored_key (item : string) (key : bytes) (d : Desk) : Prop :=
  exists value, secrets d !! item = Some value /\ decode_master_key b64_decode value = Ok key.

Lemma decoded_length value key : decode_master_key b64_decode value = Ok key -> length key = master_key_len.
Proof.
  unfold decode_master_key. destruct (b64_decode _) as [k|]; [|done]. destruct (negb _) eqn:E; [done|].
  intros [= <-]. by apply negb_false_iff, Nat.eqb_eq in E.
Qed.

(** What the encoder prints is read back, for keys of the right length, which are the only ones
    the random source makes. *)
Definition keys_agree : Prop := forall key, length key = master_key_len ->
  decode_master_key b64_decode (encode_master_key b64_encode key) = Ok key.
Definition full_keys : Prop := forall d key, random_key d = Some key -> length key = master_key_len.

Lemma load_secret_inv item d res d' :
  load_secret item d = (res, d') ->
  d' = d /\ exists r, res = Some r /\ forall stored, r = Ok stored -> stored = secrets d !! item.
Proof.
  intros [= <- <-]. split; [done|]. eexists. split; [done|]. destruct (secret_fault _ d); [done|]. by intros ? [= <-].
Qed.

(** Storing under an item that was empty. *)
Lemma save_secret_inv item value d res d' :
  save_secret item value d = (res, d') -> secrets d !! item = None ->
  keeps_secrets d d' /\ (res = Some (Ok tt) -> secrets d' !! item = Some value)
  /\ (forall other, other <> item -> secrets d' !! other = secrets d !! other).
Proof.
  unfold save_secret. intros H Hn. destruct (secret_fault _ d); injection H as <- <-; [split_and!; [reflexivity|done..]|].
  cbn. split_and!; [|by rewrite lookup_insert_eq|].
  - intros other v Hv. destruct (decide (other = item)) as [->|]; [congruence|]. cbn. by rewrite lookup_insert_ne.
  - intros other Ho. by rewrite lookup_insert_ne.
Qed.

Lemma ensure_monitor_inv d res d' :
  ensure_monitor_master_key d = (res, d') -> keys_agree -> full_keys ->
  keeps_secrets d d' /\ (forall other, other <> monitor_master_item -> secrets d' !! other = secrets d !! other)
  /\ forall key, res = Some (Ok key) -> stored_key monitor_master_item key d'.
Proof.
  unfold ensure_monitor_master_key. intros H Hagree Hfull.
  apply app_try_inv in H as [[H ->]|[(e & H & ->)|(stored & d1 & H & Hk)]];
    apply load_secret_inv in H as (-> & r & [= <-] & Hr); [split_and!; [reflexivity|done..]|].
  specialize (Hr _ eq_refl). destruct stored as [value|].
  { injection Hk as <- <-. split_and!; [reflexivity|done|]. intros key [= Hkey]. exists value. split; [done|].
    by destruct (decode_master_key b64_decode value); [injection Hkey as ->|]. }
  apply app_try_inv in Hk as [[H ->]|[(e & H & ->)|(key & d2 & H & Hk)]];
    [injection H as _ <-; split_and!; [reflexivity|done..]..|].
  injection H as Hkey <-. assert (length key = master_key_len) as Hlen
    by (apply (Hfull d); destruct (random_key d); congruence).
  apply app_try_inv in Hk as [[H ->]|[(e & H & ->)|([] & d3 & H & Hk)]];
    apply save_secret_inv in H as (Hs & Hv & Ho); try done.
  injection Hk as <- <-. split_and!; [done..|]. intros k [= <-]. eexists. split; [by apply Hv|by apply Hagree].
Qed.

Lemma ensure_oauth_inv lock_ok d res d' :
  ensure_https_oauth_master_key lock_ok d = (res, d') -> keys_agree -> full_keys ->
  keeps_secrets d d' /\ forall key, res = Some (Ok key) -> stored_key https_oauth_item key d'.
Proof.
  intros H Hagree Hfull.
  unfold ensure_https_oauth_master_key in H. destruct lock_ok; cbn [negb] in H; [|by injection H as <- <-].
  apply app_try_inv in H as [[H ->]|[(e & H & ->)|(stored & d1 & H & Hk)]]; unfold load_https_oauth_master_key in H;
    (apply app_try_inv in H as [[H ?]|[(e' & H & ?)|(value & d0 & H & Hl)]];
      apply load_secret_inv in H as (-> & r & [= <-] & Hr); try done; try (injection Hl as Hl <-; done)).
  specialize (Hr _ eq_refl). injection Hl as Hl <-. destruct stored as [key|].
  { injection Hk as <- <-. split; [by intros ?|]. intros k [= <-]. destruct value as [value|]; [|done].
    exists value. split; [done|]. by destruct (decode_master_key b64_decode value); [injection Hl as ->|]. }
  destruct value as [value|]; [by destruct (decode_master_key b64_decode value)|].
  apply app_try_inv in Hk as [[H ->]|[(e & H & ->)|(legacy & d2 & H & Hk)]];
    apply ensure_monitor_inv in H as (Hks & Ho & Hkey); try done.
  assert (secrets d2 !! https_oauth_item = None) as Hn by (by rewrite Ho).
  destruct (Hkey legacy eq_refl) as (v & _ & Hd).
  pose proof (decoded_length _ _ Hd) as Hlen.
  apply app_try_inv in Hk as [[H ->]|[(e & H & ->)|([] & d3 & H & Hk)]];
    apply save_secret_inv in H as (Hs & Hv & _); try done; try (split; [by intros i w Hi; apply Hs, Hks|done]).
  injection Hk as <- <-. split; [by intros i w Hi; apply Hs, Hks|]. intros k [= <-]. eexists. split; [by apply Hv|by apply Hagree].
Qed.

(** Asking for the OAuth key never replaces a secret.  Whatever was stored is still stored
    with the same text, whether the call succeeds or fails (in particular a key that cannot
    be decoded is an error and not a reason to make a new one), and a key that is returned is
    the stored one, so that every later call, and a restart, gets it again. *)
Theorem oauth_key_stable lock_ok d res d' :
  ensure_https_oauth_master_key lock_ok d = (res, d') -> keys_agree -> full_keys ->
  keeps_secrets d d'
  /\ forall key, res = Some (Ok key) -> stored_key https_oauth_item key d'
     /\ forall res2 d2, ensure_https_oauth_master_key true d' = (res2, d2) ->
        d2 = d' /\ (res2 = Some (Ok key) \/ exists e, secret_fault (LoadSecret https_oauth_item) d' = Some e).
Proof.
  intros H Hagree Hfull.
  apply ensure_oauth_inv in H as [Hk Hs]; [|done..].
  split; [done|]. intros key Hres. specialize (Hs key Hres) as (value & Hv & Hd). split; [by exists value|].
  intros res2 d2 H2. unfold ensure_https_oauth_master_key in H2. cbn [negb] in H2.
  unfold load_https_oauth_master_key, app_try, app_bind, load_secret, app_get in H2.
  destruct (secret_fault (LoadSecret https_oauth_item) d') as [e|] eqn:Hf.
  - injection H2 as <- <-. split; [done|]. right. by exists e.
  - rewrite Hv, Hd in H2. injection H2 as <- <-. split; [done|by left].
Qed.
End Secrets.

(** ** Witness *)

(** Keys are stored in hexadecimal. *)
Definition sample_key_text (key : bytes) : string := hex_of_bytes key.
Definition sample_random_key (d : Desk) : option bytes := Some (repeat x07 32).
Definition sample_secret_fault (op : SecretOp) (d : Desk) : option string := None.

Lemma sample_keys_agree : keys_agree sample_key_text parse_hex_pairs.
Proof.
  intros key Hkey. unfold decode_master_key, encode_master_key, sample_key_text. rewrite trim_graphic.
  - rewrite parse_hex_of_bytes, Hkey. done.
  - eapply string_forall_impl; [exact hexdigit_graphic|apply hex_of_bytes_hexdigit].
Qed.

(** A fresh store: the first call makes the key, which the second one finds. *)
Lemma oauth_key_stable_witness :
  let ensure := ensure_https_oauth_master_key sample_secret_fault sample_random_key sample_key_text parse_hex_pairs true in
  let out := ensure (desk_default (healthy ∅)) in
  out.1 = Some (Ok (repeat x07 32)) /\ (ensure out.2).1 = Some (Ok (repeat x07 32)).
Proof.
  intros ensure out. assert (out.1 = Some (Ok (repeat x07 32))) as Hres by (vm_compute; reflexivity).
  split; [exact Hres|]. destruct out as [res d'] eqn:Ho. cbn in Hres. subst res. cbn [snd].
  destruct (oauth_key_stable sample_secret_fault sample_random_key sample_key_text parse_hex_pairs true
    (desk_default (healthy ∅)) _ d' Ho sample_keys_agree ltac:(intros d key [= <-]; reflexivity)) as [_ Hagain].
  destruct (Hagain _ eq_refl) as [_ Hsame]. destruct (ensure d') as [res2 d2] eqn:H2.
  destruct (Hsame res2 d2 H2) as [_ [Hr|(e & He)]]; [exact Hr|discriminate].
Defined.
