(* ===== verification/MonitorDevices.v ===== *)
(** * Devices and pairing of the monitor ([src-tauri/src/monitor_manager.rs])

    The registry of paired phones (kept in memory and in one file), the pairing grant a QR
    code stands for, and the operations on them, including the requests to the Relay that
    go with them. *)

From S2P Require Export Secrets.
Local Open Scope string_scope.

(** [generate_monitor_token] of [monitor_server.rs]: the hexadecimal text of 32 random bytes. *)
Definition generate_monitor_token (random : option bytes) : Result string string :=
  match random with Some bytes => Ok (hex_of_bytes bytes) | None => Err "生成 Monitor Token 失败。" end.

(** [&s\[..n\]] of a text of ASCII bytes. *)
Definition slice_to (n : nat) (s : string) : string := substring 0 n s.

Definition devices_file (dir : string) : Path := {| parent := Some dir; file_name := "monitor-devices.json" |}.

Section Devices.
Context (P : Platform) (net : Network) (windows : bool) (process_id : string)
        (devices_from_str : string -> Result (list MonitorDeviceRecord) string)
        (devices_to_string_pretty : list MonitorDeviceRecord -> Result string string)
        (secret_fault : SecretOp -> Desk -> option string) (random_key : Desk -> option bytes)
        (hkdf : string -> bytes -> string -> option bytes)
        (seal open : bytes -> bytes -> string -> bytes -> option bytes)
        (b64_encode : bytes -> string) (b64_decode : string -> option bytes)
        (credentials_from_str : string -> Result RelayCredentials string)
        (value_from_slice : bytes -> option Value) (value_to_vec : Value -> Result bytes string).

(** ** The pairing grant *)

Definition claim_pairing_grant (code : string) (now : N) : App (Result MonitorPairingGrant string) := fun d =>
  match lock (monitor_pairing d) with
  | None => (Some (Err "Monitor 配对状态锁已损坏。"), d)
  | Some None => (Some (Err "当前没有有效的配对请求。"), d)
  | Some (Some grant) =>
      if (grant_expires_at grant <? now)%N
      then (Some (Err "配对二维码已过期，请在 ChatX 中重新生成。"), set_monitor_pairing (set_guarded None (monitor_pairing d)) d)
      else if negb (verify_token_hash_hex net code (code_hash grant)) then (Some (Err "配对码无效。"), d)
      else (Some (Ok grant), set_monitor_pairing (set_guarded None (monitor_pairing d)) d)
  end.

Definition restore_pairing_grant (grant : MonitorPairingGrant) (now : N) (d : Desk) : Desk :=
  if (grant_expires_at grant <? now)%N then d
  else match lock (monitor_pairing d) with
       | Some None => set_monitor_pairing (set_guarded (Some grant) (monitor_pairing d)) d
       | _ => d
       end.

(** ** The registry of devices *)

Definition load_monitor_devices_from_path (path : Path) : Fs (Result (list MonitorDeviceRecord) string) :=
  text <-fs read_to_string path ;;
  fs_ret (match text with
          | Ok text => map_err (fun error => "Monitor 设备注册表已损坏（" ++ path_display path ++ "）：" ++ error)
                         (devices_from_str text)
          | Err NotFound => Ok []
          | Err error => Err ("读取 Monitor 设备注册表失败（" ++ path_display path ++ "）：" ++ io_display error)
          end).

Definition monitor_devices_path : Fs (Result Path string) :=
  dir <-fs? state_dir (base_dir P) ;; fs_ret (Ok (devices_file dir)).

Definition load_monitor_devices_from_disk : Fs (Result (list MonitorDeviceRecord) string) :=
  path <-fs? monitor_devices_path ;; load_monitor_devices_from_path path.

(** [*registry = Some(devices)] under the lock *)
Definition put_devices (devices : list MonitorDeviceRecord) (d : Desk) : Desk :=
  set_monitor_devices (update_locked (fun _ => Some devices) (monitor_devices d)) d.

(** Taking the lock of the registry and loading it if need be, as every operation begins. *)
Definition with_monitor_devices {A} (k : list MonitorDeviceRecord -> App (Result A string)) : App (Result A string) :=
  registry <-app app_get (fun d => lock (monitor_devices d)) ;;
  match registry with
  | None => app_ret (Err "Monitor 设备状态锁已损坏。")
  | Some (Some devices) => k devices
  | Some None =>
      devices <-app? on_files load_monitor_devices_from_disk ;;
      _ <-app app_modify (put_devices devices) ;;
      k devices
  end.

Definition devices_temp (path : Path) : Path := with_extension path ("json." ++ process_id ++ ".tmp").

Definition save_monitor_devices (devices : list MonitorDeviceRecord) : Fs (Result unit string) :=
  path <-fs? monitor_devices_path ;;
  match devices_to_string_pretty devices with
  | Err e => fs_ret (Err ("序列化 Monitor 设备失败：" ++ e))
  | Ok text =>
      _ <-fs? fs_map_err (fun e => "保存 Monitor 设备临时文件失败：" ++ io_display e)
                (write_file (devices_temp path) (text ++ String "010" "")) ;;
      _ <-fs? (if windows
               then exists_ <-fs path_exists path ;;
                    if (exists_ : bool)
                    then fs_map_err (fun e => "替换 Monitor 设备文件失败：" ++ io_display e) (remove_file path)
                    else fs_ret (Ok tt)
               else fs_ret (Ok tt)) ;;
      fs_map_err (fun e => "更新 Monitor 设备失败：" ++ io_display e) (rename (devices_temp path) path)
  end.

Definition monitor_devices_snapshot : App (Result (list MonitorDeviceRecord) string) :=
  with_monitor_devices (fun devices => app_ret (Ok devices)).

Definition monitor_device_ids : App (Result (list string) string) :=
  devices <-app? monitor_devices_snapshot ;; app_ret (Ok (map device_record_id devices)).

Definition has_monitor_device (device_id : string) : App (Result bool string) :=
  devices <-app? monitor_devices_snapshot ;;
  app_ret (Ok (existsb (fun device => String.eqb (device_record_id device) device_id) devices)).

(** The registry becomes [devices] in memory and on disk; when saving fails, [previous]. *)
Definition commit_devices (previous devices : list MonitorDeviceRecord) : App (Result unit string) :=
  _ <-app app_modify (put_devices devices) ;;
  saved <-app on_files (save_monitor_devices devices) ;;
  match saved with
  | Ok _ => app_ret (Ok tt)
  | Err error => _ <-app app_modify (put_devices previous) ;; app_ret (Err error)
  end.

Definition without_device (device_id : string) (devices : list MonitorDeviceRecord) : list MonitorDeviceRecord :=
  List.filter (fun device => negb (String.eqb (device_record_id device) device_id)) devices.

Definition revoke_monitor_device_local (device_id : string) : App (Result bool string) :=
  with_monitor_devices (fun previous =>
    let devices := without_device device_id previous in
    if (length devices =? length previous)%nat then app_ret (Ok false)
    else
      _ <-app? commit_devices previous devices ;;
      _ <-app app_log P ("已撤销手机 Monitor 设备：" ++ device_id) ;;
      app_ret (Ok true)).

(** ** The Relay's copy *)

Definition master_key : App (Result bytes string) :=
  ensure_monitor_master_key secret_fault random_key b64_encode b64_decode.

(** What puts the authorisation at the Relay back after a local failure; its own outcome is
    ignored. *)
Definition reauthorize (settings : Settings) (credentials : RelayCredentials) (device_id : string) : App unit :=
  key <-app master_key ;;
  match key with
  | Err _ => app_ret tt
  | Ok key =>
      match derive_relay_token hkdf key device_id with
      | Err _ => app_ret tt
      | Ok relay_token =>
          _ <-app relay_authorize_device net (relay settings) credentials device_id relay_token ;; app_ret tt
      end
  end.

(** The credentials, if they are for the Relay of the settings. *)
Definition matching_credentials (settings : Settings) (read : Result RelayCredentials string) : option RelayCredentials :=
  match read with
  | Err _ => None
  | Ok credentials =>
      if negb (is_empty (trim (relay_base_url (relay settings))))
         && same_ok (normalized_base_url (cred_base_url credentials))
                    (normalized_base_url (relay_base_url (relay settings)))
      then Some credentials else None
  end.

Definition revoke_monitor_device_everywhere (device_id : string) : App (Result bool string) :=
  settings <-app app_load_settings P ;;
  read <-app read_relay_credentials secret_fault credentials_from_str ;;
  let relay_matches := matching_credentials settings read in
  _ <-app? match relay_matches with
           | None => app_ret (Ok tt)
           | Some credentials =>
               revoked <-app relay_revoke_device net (relay settings) credentials device_id ;;
               app_ret (map_err (fun error =>
                 "Relay 端设备撤销失败，本地凭据保持有效；请确认 Relay 可达后重试：" ++ error) revoked)
           end ;;
  removed <-app revoke_monitor_device_local device_id ;;
  match removed with
  | Ok removed => app_ret (Ok removed)
  | Err error =>
      _ <-app match relay_matches with
              | Some credentials => reauthorize settings credentials device_id
              | None => app_ret tt
              end ;;
      app_ret (Err error)
  end.

(** ** Authorising a device *)

Fixpoint find_device (device_id token : string) (devices : list MonitorDeviceRecord) : option nat :=
  match devices with
  | [] => None
  | device :: devices =>
      if String.eqb (device_record_id device) device_id && verify_token_hash_hex net token (device_token_hash device)
      then Some 0%nat
      else option_map S (find_device device_id token devices)
  end.

Definition touch (seen : option N) (device : MonitorDeviceRecord) : MonitorDeviceRecord :=
  {| device_record_id := device_record_id device; device_record_name := device_record_name device;
     device_token_hash := device_token_hash device; created_at := created_at device; last_seen_at := seen |}.

(** The last sighting is recorded again after a minute. *)
Definition sighting_due (now : N) (device : MonitorDeviceRecord) : bool :=
  match last_seen_at device with
  | Some seen => (60000 <=? saturating_sub now seen)%N
  | None => true
  end.

Definition monitor_device_token_authorized (device_id token : string) : App bool :=
  authorized <-app with_monitor_devices (fun devices =>
    now <-app app_get (now_millis P) ;;
    match find_device device_id token devices with
    | None => app_ret (Ok false)
    | Some index =>
        _ <-app (match devices !! index with
                 | Some device =>
                     if sighting_due now device
                     then commit_devices devices (alter (touch (Some now)) index devices)
                     else app_ret (Ok tt)
                 | None => app_ret (Ok tt)
                 end) ;;
        app_ret (Ok true)
    end) ;;
  app_ret (match authorized with Ok b => b | Err _ => false end).

(** ** Pairing *)

Definition max_devices : nat := 32.

(** What the phone is told. *)
Definition pairing_result (device_id name direct_token device_key : string) (enrollment : option Value) : Value :=
  Object [("schemaVersion", Number (Some 3%N)); ("deviceId", VString device_id); ("deviceName", VString name);
          ("directToken", VString direct_token); ("deviceKey", VString device_key);
          ("relay", match enrollment with Some v => v | None => Null end)].

(** The new device, once it is authorised at the Relay (if there is one). *)
Definition enroll_device (settings : Settings) (credentials : option RelayCredentials) (pairing_id name device_id
    direct_token device_key : string) (enrollment : option Value) (previous : list MonitorDeviceRecord)
    : App (Result Value string) :=
  now <-app app_get (now_millis P) ;;
  let record := {| device_record_id := device_id; device_record_name := name;
                   device_token_hash := token_hash_hex net direct_token; created_at := now;
                   last_seen_at := Some now |} in
  _ <-app app_modify (put_devices (previous ++ [record])) ;;
  saved <-app on_files (save_monitor_devices (previous ++ [record])) ;;
  match saved with
  | Err error =>
      rollback <-app match credentials with
                     | Some credentials => relay_revoke_device net (relay settings) credentials device_id
                     | None => app_ret (Ok tt)
                     end ;;
      _ <-app app_modify (put_devices previous) ;;
      app_ret (Err (match rollback with
                    | Ok _ => error
                    | Err rollback_error => error ++ "；同时回滚 Relay 设备授权失败：" ++ rollback_error
                    end))
  | Ok _ =>
      _ <-app match credentials with
              | Some credentials => relay_delete_pairing_route net (relay settings) credentials pairing_id
              | None => app_ret (Ok tt)
              end ;;
      _ <-app app_log P ("手机 Monitor 已配对设备：" ++ name ++ " (" ++ device_id ++ ")") ;;
      app_ret (Ok (pairing_result device_id name direct_token device_key enrollment))
  end.

(** The tokens and the key of a device. *)
Definition device_material (key : bytes) (device_id : string) : Result (string * string * string) string :=
  direct_token <-? derive_direct_token hkdf key device_id ;;
  relay_token <-? derive_relay_token hkdf key device_id ;;
  device_key <-? device_key_b64 hkdf b64_encode key device_id ;;
  Ok (direct_token, relay_token, device_key).

Definition enrollment_value (settings : Settings) (credentials : RelayCredentials) (relay_token : string) : Value :=
  Object [("baseUrl", VString (relay_base_url (relay settings)));
          ("desktopId", VString (cred_desktop_id credentials)); ("deviceToken", VString relay_token)].

Definition complete_claimed_monitor_pairing (random : option bytes) (pairing_id name : string)
    : App (Result Value string) :=
  with_monitor_devices (fun devices =>
    if (max_devices <=? length devices)%nat then app_ret (Err "已配对设备数量已达到上限 32。")
    else
      key <-app? master_key ;;
      match generate_monitor_token random with
      | Err e => app_ret (Err e)
      | Ok random_id =>
          let device_id := "dev_" ++ slice_to 24 random_id in
          match device_material key device_id with
          | Err e => app_ret (Err e)
          | Ok (direct_token, relay_token, device_key) =>
              settings <-app app_load_settings P ;;
              credentials <-app (if relay_enabled (relay settings)
                                 then relay_credentials_for_settings secret_fault credentials_from_str settings
                                 else app_ret None) ;;
              enrollment <-app? match credentials with
                                | Some credentials =>
                                    _ <-app? relay_authorize_device net (relay settings) credentials device_id relay_token ;;
                                    app_ret (Ok (Some (enrollment_value settings credentials relay_token)))
                                | None => app_ret (Ok None)
                                end ;;
              enroll_device settings credentials pairing_id name device_id direct_token device_key enrollment devices
          end
      end).

(** [payload.get(key).and_then(Value::as_str).map(str::trim).filter(|value| !value.is_empty())] *)
Definition trimmed_field (key : string) (payload : Value) : option string :=
  match Json.get key payload with
  | Some (VString s) => if is_empty (trim s) then None else Some (trim s)
  | _ => None
  end.

Definition complete_monitor_pairing (random : option bytes) (payload : Value) : App (Result Value string) :=
  match trimmed_field "pairingCode" payload with
  | None => app_ret (Err "缺少 pairingCode。")
  | Some code =>
      let raw_name := match trimmed_field "deviceName" payload with Some name => name | None => "Android Device" end in
      let name := chars_take 80 raw_name in
      now <-app app_get (now_millis P) ;;
      grant <-app? claim_pairing_grant code now ;;
      result <-app complete_claimed_monitor_pairing random (grant_pairing_id grant) name ;;
      _ <-app match result with
              | Err _ => fun d => (Some tt, restore_pairing_grant grant (now_millis P d) d)
              | Ok _ => app_ret tt
              end ;;
      app_ret result
  end.

(** The grant an encrypted request is for. *)
Definition addressed_grant (pairing_id : string) : App (Result MonitorPairingGrant string) := fun d =>
  match lock (monitor_pairing d) with
  | None => (Some (Err "Monitor 配对状态锁已损坏。"), d)
  | Some None => (Some (Err "当前没有有效的配对请求。"), d)
  | Some (Some grant) =>
      if (grant_expires_at grant <? now_millis P d)%N
      then (Some (Err "配对二维码已过期，请在 ChatX 中重新生成。"), set_monitor_pairing (set_guarded None (monitor_pairing d)) d)
      else if negb (String.eqb (grant_pairing_id grant) pairing_id) then (Some (Err "Pairing route 无效。"), d)
      else (Some (Ok grant), d)
  end.

(** A computation that panics ends here. *)
Definition or_panic {A} (r : option A) : App A := fun d => (r, d).

(** [random] are the bytes of the device id and of the response's nonce. *)
Definition handle_encrypted_monitor_pairing (random nonce : option bytes) (message : PairingWsMessage)
    : App (Result PairingServerMessage string) :=
  let '(Pair pairing_id payload) := message in
  grant <-app? addressed_grant pairing_id ;;
  plaintext <-app? or_panic (decrypt_pairing_payload open b64_decode (grant_pairing_code grant) pairing_id "request" payload) ;;
  match value_from_slice plaintext with
  | None => app_ret (Err "Pairing E2EE payload 不是有效 JSON。")
  | Some request =>
      result <-app? complete_monitor_pairing random request ;;
      match value_to_vec result with
      | Err e => app_ret (Err ("序列化 Pairing result 失败：" ++ e))
      | Ok clear =>
          payload <-app? or_panic (encrypt_pairing_payload seal b64_encode nonce (grant_pairing_code grant) pairing_id
                                     "response" clear) ;;
          app_ret (Ok (PairResult pairing_id payload))
      end
  end.
End Devices.

(** ** The registry survives everything *)

Section DeviceProps.
Context (P : Platform) (base : string) (Hbase : base_dir P = Ok base) (net : Network) (process_id : string)
        (devices_from_str : string -> Result (list MonitorDeviceRecord) string)
        (devices_to_string_pretty : list MonitorDeviceRecord -> Result string string)
        (secret_fault : SecretOp -> Desk -> option string) (random_key : Desk -> option bytes)
        (hkdf : string -> bytes -> string -> option bytes)
        (seal open : bytes -> bytes -> string -> bytes -> option bytes)
        (b64_encode : bytes -> string) (b64_decode : string -> option bytes)
        (credentials_from_str : string -> Result RelayCredentials string)
        (value_from_slice : bytes -> option Value) (value_to_vec : Value -> Result bytes string).

#[local] Abbreviation disk d := (files (desk_world d)).
#[local] Abbreviation faults d := (io_fault (desk_world d)).
#[local] Abbreviation file := (devices_file (base ++ "/state")).
#[local] Abbreviation load_registry := (load_monitor_devices_from_disk P devices_from_str).
#[local] Abbreviation save_registry_file := (save_monitor_devices P false process_id devices_to_string_pretty).
#[local] Abbreviation with_devices := (with_monitor_devices P devices_from_str).
#[local] Abbreviation commit := (commit_devices P false process_id devices_to_string_pretty).
#[local] Abbreviation revoke_local := (revoke_monitor_device_local P false process_id devices_from_str devices_to_string_pretty).
#[local] Abbreviation revoke_everywhere := (revoke_monitor_device_everywhere P net false process_id devices_from_str
  devices_to_string_pretty secret_fault random_key hkdf b64_encode b64_decode credentials_from_str).
#[local] Abbreviation token_authorized := (monitor_device_token_authorized P net false process_id devices_from_str
  devices_to_string_pretty).
#[local] Abbreviation complete_pairing := (complete_monitor_pairing P net false process_id devices_from_str
  devices_to_string_pretty secret_fault random_key hkdf b64_encode b64_decode credentials_from_str).
#[local] Abbreviation complete_claimed := (complete_claimed_monitor_pairing P net false process_id devices_from_str
  devices_to_string_pretty secret_fault random_key hkdf b64_encode b64_decode credentials_from_str).
#[local] Abbreviation handle_pairing := (handle_encrypted_monitor_pairing P net false process_id devices_from_str
  devices_to_string_pretty secret_fault random_key hkdf seal open b64_encode b64_decode credentials_from_str
  value_from_slice value_to_vec).

(** The registry a restart would load; [None] when it would be refused as corrupt. *)
Definition registry_on (fs : gmap Path string) : option (list MonitorDeviceRecord) :=
  match fs !! file with
  | Some text => match devices_from_str text with Ok devices => Some devices | Err _ => None end
  | None => Some []
  end.

(** A JSON reader that reads back what the printer prints. *)
Definition devices_json_agrees : Prop := forall devices text,
  devices_to_string_pretty devices = Ok text -> devices_from_str (text ++ String "010" "") = Ok devices.

(** A failing read does not report an existing registry missing. *)
Definition honest_read (d : Desk) : Prop := faults d (ReadFile file) <> Some NotFound.

Lemma devices_path_inv w res w' :
  monitor_devices_path P w = (res, w') ->
  files w' = files w /\ io_fault w' = io_fault w /\ forall p, res = Some (Ok p) -> p = file.
Proof using base Hbase.
  unfold monitor_devices_path. rewrite Hbase.
  intros [[H ->]|[(e & H & ->)|(dir & w1 & H & Hk)]]%fs_try_inv;
    apply state_dir_inv in H as (Hf & Hi & _ & Hd); [by split_and!..|].
  injection Hk as <- <-. split_and!; try done. intros p [= <-]. by rewrite (Hd dir eq_refl).
Qed.

Lemma load_registry_inv w res w' :
  load_registry w = (res, w') ->
  files w' = files w /\ io_fault w' = io_fault w
  /\ (io_fault w (ReadFile file) <> Some NotFound -> forall devices, res = Some (Ok devices) ->
      registry_on (files w) = Some devices).
Proof using base Hbase.
  intros [[H ->]|[(e & H & ->)|(p & w1 & H & Hk)]]%fs_try_inv; apply devices_path_inv in H as (Hf & Hi & Hp);
    [by split_and!..|].
  specialize (Hp p eq_refl) as ->. apply fs_bind_inv in Hk as [[H ->]|(r & w2 & H & Hk)];
    apply read_to_string_inv in H as (Hf2 & Hi2 & Hr); [split_and!; (congruence || done)|].
  injection Hk as <- <-. split_and!; [congruence..|]. intros Hh devices [= Hd]. unfold registry_on. rewrite <- Hf.
  destruct r as [text|[|m]]; [| |done].
  - rewrite Hr. cbn in Hd. destruct (devices_from_str text); [by injection Hd as ->|done].
  - injection Hd as <-. rewrite Hi in Hr. destruct Hr as [->|?]; done.
Qed.

Lemma devices_temp_ne : devices_temp process_id file <> file.
Proof.
  by apply with_extension_ne.
Qed.

(** Saving replaces the registry as a whole, or leaves it. *)
Lemma save_registry_inv devices w res w' :
  save_registry_file devices w = (res, w') -> devices_json_agrees ->
  io_fault w' = io_fault w
  /\ (res = Some (Ok tt) -> registry_on (files w') = Some devices)
  /\ (res <> Some (Ok tt) -> files w' !! file = files w !! file).
Proof using base Hbase.
  pose proof devices_temp_ne as Hne.
  intros [[H ->]|[(e & H & ->)|(p & w1 & H & Hk)]]%fs_try_inv Hjson; apply devices_path_inv in H as (Hf & Hi & Hp);
    [by rewrite Hf..|].
  specialize (Hp p eq_refl) as ->. rewrite <- Hf, <- Hi. clear Hf Hi.
  destruct (devices_to_string_pretty devices) as [text|e] eqn:Ht; [|by injection Hk as <- <-].
  apply fs_try_inv in Hk as [[H ->]|[(e & H & ->)|(u & w2 & H & Hk)]];
    apply fs_map_err_inv in H as (r & H & Hr); apply write_file_inv in H as (Hi & Ho & Hw);
    [rewrite Ho by done; by split_and!..|].
  assert (files w2 !! devices_temp process_id file = Some (text ++ String "010" "")) as Htemp
    by (apply Hw; destruct r as [[[]|]|]; cbn in Hr; congruence).
  apply fs_try_inv in Hk as [[H _]|[(e & H & _)|(u2 & w3 & [= _ <-] & Hk)]]; [done..|].
  apply fs_map_err_inv in Hk as (r2 & Hk & ->). apply rename_inv in Hk as [Hi2 [(-> & t & Hs & Hf)|[Hr2 Hf]]].
  - split_and!; [congruence| |done]. intros _. unfold registry_on. rewrite Hf, lookup_insert_eq.
    rewrite Htemp in Hs. injection Hs as <-. by rewrite (Hjson _ _ Ht).
  - split_and!; [congruence| |].
    + destruct r2 as [[[]|]|]; cbn; congruence.
    + intros _. rewrite Hf. by rewrite Ho.
Qed.

(** In memory and on disk, the registry is [devices]. *)
Definition holds (devices : list MonitorDeviceRecord) (d : Desk) : Prop :=
  lock (monitor_devices d) = Some (Some devices) /\ registry_on (disk d) = Some devices /\ honest_read d.

(** The registry is left alone. *)
Definition kept (d d' : Desk) : Prop :=
  monitor_devices d' = monitor_devices d /\ disk d' !! file = disk d !! file /\ faults d' = faults d.

#[local] Instance kept_preorder : PreOrder kept.
Proof.
  split; [intros d; by repeat split|]. intros d1 d2 d3 (? & ? & ?) (? & ? & ?). repeat split; congruence.
Qed.

Lemma kept_registry d d' : kept d d' -> registry_on (disk d') = registry_on (disk d).
Proof. intros (_ & Hf & _). unfold registry_on. by rewrite Hf. Qed.

Lemma kept_holds devices d d' : kept d d' -> holds devices d -> holds devices d'.
Proof.
  intros Hk (Hl & Hr & Hh). pose proof (kept_registry _ _ Hk) as Hr'. destruct Hk as (Hm & Hf & Hi).
  unfold holds, honest_read. rewrite Hm, Hi, Hr'. done.
Qed.

Lemma kept_same d d' : monitor_devices d' = monitor_devices d -> desk_world d' = desk_world d -> kept d d'.
Proof. intros Hm Hw. unfold kept. by rewrite Hm, Hw. Qed.

Lemma put_holds devices d d' :
  put_devices devices d = d' -> lock (monitor_devices d) <> None ->
  lock (monitor_devices d') = Some (Some devices) /\ disk d' = disk d /\ faults d' = faults d.
Proof. intros <- Hl. cbn. rewrite lock_update. by destruct (lock (monitor_devices d)). Qed.

(** Committing: the new registry on success, the previous one otherwise. *)
Lemma commit_inv previous devices d res d' :
  commit previous devices d = (res, d') -> devices_json_agrees -> holds previous d ->
  match res with
  | Some (Ok _) => holds devices d'
  | Some (Err _) => holds previous d'
  | None => registry_on (disk d') = Some previous /\ honest_read d'
  end.
Proof using base Hbase.
  intros H Hjson (Hl & Hr & Hh). unfold commit_devices, app_bind at 1, app_modify at 1 in H.
  destruct (put_holds devices d _ eq_refl) as (Hl1 & Hf1 & Hi1); [by rewrite Hl|].
  set (d1 := put_devices devices d) in *. clearbody d1.
  apply app_bind_inv in H as [[H ->]|(saved & d2 & H & Hk)]; apply on_files_inv in H as (w & H & ->);
    apply save_registry_inv in H as (Hi & Hok & Hno); try done; rewrite Hi1 in Hi.
  { unfold registry_on, honest_read in *. cbn. rewrite Hno, Hf1, Hi by done. done. }
  destruct saved as [[]|e]; injection Hk as <- <-.
  - unfold holds, honest_read in *. cbn. rewrite Hi, (Hok eq_refl). done.
  - unfold holds, honest_read, registry_on in *. cbn. rewrite lock_update, Hl1, Hi, Hno, Hf1 by done. done.
Qed.

Lemma commit_beside previous devices d res d' :
  commit previous devices d = (res, d') -> monitor_pairing d' = monitor_pairing d /\ sent d' = sent d.
Proof.
  unfold commit_devices. intros [[H _]|(u & d1 & [= <- <-] & H)]%app_bind_inv; [done|].
  apply app_bind_inv in H as [[H _]|(saved & d2 & H & Hk)]; apply on_files_inv in H as (w & _ & ->); [done|].
  by destruct saved; injection Hk as _ <-.
Qed.

(** What [with_monitor_devices] gives its body. *)
Lemma with_devices_inv {A} (k : list MonitorDeviceRecord -> App (Result A string)) d res d' :
  with_devices k d = (res, d') -> honest_read d ->
  (forall devices, lock (monitor_devices d) = Some (Some devices) -> registry_on (disk d) = Some devices) ->
  (kept d d' /\ monitor_pairing d' = monitor_pairing d /\ sent d' = sent d /\ (forall a, res <> Some (Ok a))
   /\ forall devices, lock (monitor_devices d) <> Some (Some devices))
  \/ exists devices d1, registry_on (disk d) = Some devices /\ holds devices d1 /\ k devices d1 = (res, d')
     /\ disk d1 = disk d /\ monitor_pairing d1 = monitor_pairing d /\ sent d1 = sent d.
Proof using base Hbase.
  unfold with_monitor_devices. unfold app_bind at 1, app_get at 1. intros H Hh Hmem.
  destruct (lock (monitor_devices d)) as [[devices|]|] eqn:Hl; [| |injection H as <- <-; left; by repeat split].
  { specialize (Hmem devices eq_refl). right. exists devices, d. by split_and!. }
  clear Hmem.
  apply app_try_inv in H as [[H ->]|[(e & H & ->)|(devices & d1 & H & Hk)]]; apply on_files_inv in H as (w & H & ->);
    apply load_registry_inv in H as (Hf & Hi & Hok); [left; split_and!; [unfold kept; cbn; by rewrite Hf, Hi|done..]..|].
  specialize (Hok Hh devices eq_refl). unfold app_bind at 1, app_modify at 1 in Hk. right.
  exists devices. eexists. split; [done|]. split; [|split; [exact Hk|by split_and!]].
  unfold holds, honest_read, registry_on in *. cbn. rewrite lock_update, Hl, Hf, Hi. done.
Qed.

(** *** Steps beside the registry *)

(** Neither the registry nor the grant is touched. *)
Definition aside (d d' : Desk) : Prop := kept d d' /\ monitor_pairing d' = monitor_pairing d.

#[local] Instance aside_preorder : PreOrder aside.
Proof.
  split; [intros d; split; [reflexivity|done]|]. intros d1 d2 d3 [H1 E1] [H2 E2]. split; [by etrans|congruence].
Qed.

Lemma aside_modify f :
  (forall d, monitor_devices (f d) = monitor_devices d /\ desk_world (f d) = desk_world d
             /\ monitor_pairing (f d) = monitor_pairing d) -> does aside (app_modify f).
Proof.
  intros Hf d res d' [= _ <-]. destruct (Hf d) as (Hm & Hw & Hp). split; [by apply kept_same|done].
Qed.

Lemma aside_load : does aside (app_load_settings P).
Proof using base Hbase.
  intros d res d' H. apply (load_settings_client P base Hbase) in H as (w & l & -> & Hf & Hi).
  split; [|done]. unfold kept. cbn. by rewrite Hf, Hi.
Qed.

Lemma aside_log message : does aside (app_log P message).
Proof. by apply aside_modify. Qed.

Lemma aside_send request what : does aside (send net request what).
Proof.
  apply does_try; [apply _|apply does_get; apply _|]. intros _ d res d' [= _ <-]. split; [by apply kept_same|done].
Qed.

Lemma aside_send_expecting accepted request what : does aside (send_expecting net accepted request what).
Proof. apply does_try; [apply _|apply aside_send|intros; apply does_ret; apply _]. Qed.

Lemma aside_load_secret item : does aside (load_secret secret_fault item).
Proof. apply does_get; apply _. Qed.

Lemma aside_save_secret item value : does aside (save_secret secret_fault item value).
Proof.
  intros d res d' H. unfold save_secret in H. destruct (secret_fault _ d); injection H as _ <-; [reflexivity|].
  split; [by apply kept_same|done].
Qed.

Hint Resolve aside_load aside_log aside_send aside_send_expecting aside_load_secret aside_save_secret : quiet.

(** Walks through a computation whose steps stay aside. *)
Ltac solve_aside :=
  repeat first
    [ solve [eauto with quiet] | progress intros | apply does_bind; [apply _|..] | apply does_try; [apply _|..]
    | apply does_ret; apply _ | apply does_get; apply _ | case_match ].

Lemma aside_master_key : does aside (master_key secret_fault random_key b64_encode b64_decode).
Proof. unfold master_key, ensure_monitor_master_key, generate_master_key. solve_aside. Qed.

Lemma aside_credentials s : does aside (relay_credentials_for_settings secret_fault credentials_from_str s).
Proof. unfold relay_credentials_for_settings, read_relay_credentials. solve_aside. Qed.

Lemma aside_authorize s c id token : does aside (relay_authorize_device net s c id token).
Proof. unfold relay_authorize_device. solve_aside. Qed.

Lemma aside_revoke s c id : does aside (relay_revoke_device net s c id).
Proof. unfold relay_revoke_device. solve_aside. Qed.

Lemma aside_delete_route s c id : does aside (relay_delete_pairing_route net s c id).
Proof. unfold relay_delete_pairing_route. solve_aside. Qed.

Hint Resolve aside_master_key aside_credentials aside_authorize aside_revoke aside_delete_route : quiet.

(** *** What an operation did to the registry *)

(** Memory, if loaded, agrees with the disk. *)
Definition consistent (d : Desk) : Prop :=
  honest_read d /\ forall devices, lock (monitor_devices d) = Some (Some devices) -> registry_on (disk d) = Some devices.

Lemma holds_consistent devices d : holds devices d -> consistent d.
Proof. intros (Hl & Hr & Hh). split; [done|]. intros ds E. congruence. Qed.

Lemma kept_consistent d d' : kept d d' -> consistent d -> consistent d'.
Proof.
  intros Hk [Hh Hc]. pose proof (kept_registry _ _ Hk) as Hr. destruct Hk as (Hm & _ & Hi).
  split; [unfold honest_read in *; by rewrite Hi|]. intros ds. rewrite Hm, Hr. apply Hc.
Qed.

(** From [d] the registry on disk became [devices], and memory agrees unless the process
    died; a corrupt registry is still the same text. *)
Definition became (d : Desk) (devices : option (list MonitorDeviceRecord)) {A} (res : option A) (d' : Desk) : Prop :=
  registry_on (disk d') = devices /\ honest_read d' /\ (is_Some res -> consistent d')
  /\ (registry_on (disk d) = None -> disk d' !! file = disk d !! file).

Lemma kept_became {A} d d' (res : option A) : kept d d' -> consistent d -> became d (registry_on (disk d)) res d'.
Proof.
  intros Hk Hc. split_and!; [by apply kept_registry|by apply kept_consistent in Hk as [? _]| |intros _; apply Hk].
  intros _. by eapply kept_consistent.
Qed.

Lemma holds_became {A} old devices d d' (res : option A) :
  registry_on (disk d) = Some old -> holds devices d' -> became d (Some devices) res d'.
Proof.
  intros Ho H. split_and!; [apply H|apply H| |congruence]. intros _. by eapply holds_consistent.
Qed.

Lemma became_kept {A B} d0 devices d d' (a : A) (res : option B) :
  became d0 devices (Some a) d -> kept d d' -> became d0 devices res d'.
Proof.
  intros (Hr & Hh & Hc & Ht) Hk. pose proof (kept_consistent _ _ Hk (Hc ltac:(by eexists))) as Hc'.
  split_and!; [by rewrite (kept_registry _ _ Hk)|apply Hc'|done|]. intros H. destruct Hk as (_ & -> & _). auto.
Qed.

Lemma kept_after {A} d0 d d' devices (res : option A) :
  kept d0 d -> became d devices res d' -> became d0 devices res d'.
Proof.
  intros Hk (Hr & Hh & Hc & Ht). split_and!; [done..|]. rewrite <- (kept_registry _ _ Hk).
  destruct Hk as (_ & <- & _). done.
Qed.

Lemma became_same {A} d devices (a : A) (res : option A) d' :
  became d devices (Some a) d' -> became d devices res d'.
Proof. intros (? & ? & Hc & ?). split_and!; [done..| |done]. intros _. by apply Hc. Qed.

(** Committing, seen from outside. *)
Lemma commit_became {A} d0 previous devices d u d' (res : option A) :
  commit previous devices d = (u, d') -> devices_json_agrees -> holds previous d ->
  registry_on (disk d0) = Some previous -> (u = None -> res = None) ->
  became d0 (Some (match u with Some (Ok _) => devices | _ => previous end)) res d'.
Proof using base Hbase.
  intros H Hjson Hh Hr Hn. apply commit_inv in H; try done. destruct u as [[u|e]|]; [by eapply holds_became..|].
  rewrite Hn by done. split_and!; [apply H..| |congruence]. by intros [? ?].
Qed.

Lemma without_device_same id devices :
  length (without_device id devices) = length devices -> without_device id devices = devices.
Proof.
  unfold without_device. induction devices as [|device devices IH]; [done|]. cbn.
  destruct (negb _); cbn; intros H; [f_equal; auto|].
  pose proof (filter_length_le (fun device => negb (String.eqb (device_record_id device) id)) devices). lia.
Qed.

(** A revocation: done in memory and on disk, or nothing is done. *)
Lemma revoke_local_inv id d res d' :
  revoke_local id d = (res, d') -> consistent d -> devices_json_agrees ->
  monitor_pairing d' = monitor_pairing d /\ sent d' = sent d /\
  match res with
  | Some (Ok removed) => exists devices, registry_on (disk d) = Some devices
      /\ became d (Some (without_device id devices)) res d'
      /\ removed = negb (length (without_device id devices) =? length devices)%nat
  | _ => became d (registry_on (disk d)) res d'
  end.
Proof using base Hbase.
  intros H Hc Hjson. apply with_devices_inv in H as [(Hk & Hp & Hs & Hne & _)|(devices & d1 & Hr & Hh & H & Hf & Hp & Hs)];
    [|..|apply Hc|apply Hc].
  { split_and!; [done..|]. pose proof (kept_became d d' res Hk Hc). destruct res as [[b|e]|]; [by destruct (Hne b)|done..]. }
  rewrite <- Hp, <- Hs. clear Hp Hs. rewrite Hr.
  cbv zeta in H. destruct (length (without_device id devices) =? length devices)%nat eqn:Hlen.
  { injection H as <- <-. split_and!; [done..|]. exists devices. apply Nat.eqb_eq in Hlen as Hl.
    rewrite (without_device_same _ _ Hl). split_and!; [done|by eapply holds_became|]. by rewrite Nat.eqb_refl. }
  apply app_try_inv in H as [[H ->]|[(e & H & ->)|(u & d2 & H & Hk)]]; pose proof H as [Hp Hs]%commit_beside;
    [split_and!; [done..|]; by eapply (commit_became d) in H..|].
  injection Hk as <- <-. split_and!; [done..|]. exists devices. split_and!; [done| |by rewrite Hlen].
  apply (commit_became d _ _ _ _ _ (Some true)) in H; [|done..]. by eapply became_kept; [exact H|apply kept_same].
Qed.

(** The identities in a registry: what an authorisation depends on. *)
Definition identities (devices : list MonitorDeviceRecord) : list (string * string) :=
  map (fun device => (device_record_id device, device_token_hash device)) devices.

Lemma identities_touch seen i devices : identities (alter (touch seen) i devices) = identities devices.
Proof.
  unfold identities. revert i. induction devices as [|device devices IH]; intros [|i]; cbn; try done. f_equal. apply IH.
Qed.

Lemma find_device_Some id token devices i :
  find_device net id token devices = Some i ->
  exists device, devices !! i = Some device /\ device_record_id device = id
                 /\ verify_token_hash_hex net token (device_token_hash device) = true.
Proof.
  revert i. induction devices as [|device devices IH]; intros i; [done|]. cbn.
  destruct (String.eqb _ _ && _) eqn:E.
  - intros [= <-]. apply andb_prop in E as [E1%String.eqb_eq E2]. by exists device.
  - destruct (find_device net id token devices) as [j|]; intros [= <-]. apply (IH j eq_refl).
Qed.

Lemma find_device_None id token devices :
  find_device net id token devices = None -> forall device, In device devices -> device_record_id device = id ->
  verify_token_hash_hex net token (device_token_hash device) = false.
Proof.
  induction devices as [|device devices IH]; [done|]. cbn. destruct (String.eqb _ _ && _) eqn:E; [done|].
  intros Hn device' [<-|Hin] Hid.
  - apply andb_false_iff in E as [E|E]; [|done]. by apply String.eqb_neq in E.
  - apply IH; [|done..]. by destruct (find_device net id token devices).
Qed.

(** The registry with the sighting at [i] recorded, if it was due. *)
Definition sighted (i : nat) (devices devices' : list MonitorDeviceRecord) : Prop :=
  devices' = devices
  \/ exists device now, devices !! i = Some device /\ sighting_due now device = true
     /\ devices' = alter (touch (Some now)) i devices.

(** Recording a sighting, under the lock. *)
Lemma sighting_inv i d0 devices d u d' :
  match devices !! i with
  | Some device =>
      if sighting_due (now_millis P d) device
      then commit devices (alter (touch (Some (now_millis P d))) i devices)
      else app_ret (Ok tt)
  | None => app_ret (Ok tt)
  end d = (u, d') ->
  holds devices d -> registry_on (disk d0) = Some devices -> devices_json_agrees ->
  monitor_pairing d' = monitor_pairing d /\ sent d' = sent d
  /\ exists devices', sighted i devices devices'
     /\ became d0 (Some devices') (match u with Some _ => Some true | None => None end) d'.
Proof using base Hbase.
  intros H Hh Hr Hjson.
  destruct (devices !! i) as [device|] eqn:Hi; [destruct (sighting_due _ device) eqn:Hdue|];
    [|injection H as <- <-; split_and!; try done; exists devices; split; [by left|by eapply holds_became]..].
  pose proof H as [Hp Hs]%commit_beside. split_and!; [done..|].
  apply (commit_became d0 _ _ _ _ _ (match u with Some _ => Some true | None => None end)) in H; [|done..|by destruct u]. eexists; split; [|exact H].
  destruct u as [[u|e]|]; [right; by exists device, (now_millis P d)|by left..].
Qed.

Lemma token_authorized_inv id token d res d' :
  token_authorized id token d = (res, d') -> consistent d -> devices_json_agrees ->
  monitor_pairing d' = monitor_pairing d /\ sent d' = sent d /\
  ((became d (registry_on (disk d)) res d' /\ res <> Some true
    /\ (res = Some false -> forall devices, lock (monitor_devices d) = Some (Some devices) ->
        find_device net id token devices = None))
   \/ exists devices devices' i, registry_on (disk d) = Some devices /\ find_device net id token devices = Some i
      /\ sighted i devices devices' /\ became d (Some devices') res d' /\ res <> Some false).
Proof using base Hbase.
  intros H Hc Hjson. apply app_bind_inv in H as H'.
  assert (exists a, with_devices (fun devices => now <-app app_get (now_millis P) ;;
    match find_device net id token devices with
    | None => app_ret (Ok false)
    | Some index =>
        _ <-app (match devices !! index with
                 | Some device =>
                     if sighting_due now device then commit devices (alter (touch (Some now)) index devices)
                     else app_ret (Ok tt)
                 | None => app_ret (Ok tt)
                 end) ;;
        app_ret (Ok true)
    end) d = (a, d') /\ res = match a with Some (Ok b) => Some b | Some (Err _) => Some false | None => None end)
    as (a & Hw & ->).
  { destruct H' as [[Hw ->]|(a & d1 & Hw & Hk)]; [by exists None|]. injection Hk as <- <-. exists (Some a). split; [done|].
    by destruct a. }
  clear H H'. apply with_devices_inv in Hw as [(Hk & Hp & Hs & Hne & Hn)|(devices & d1 & Hr & Hh & H & Hf & Hp & Hs)];
    [|..|apply Hc|apply Hc].
  { split_and!; [done..|]. left. split_and!; [by apply kept_became|by destruct a as [[[]|]|]; [destruct (Hne true)|..]|].
    intros _ devices Hl. by destruct (Hn devices). }
  rewrite <- Hp, <- Hs. unfold app_bind at 1, app_get in H.
  destruct (find_device net id token devices) as [i|] eqn:Hfind.
  - apply app_bind_inv in H as [[H ->]|(u & d2 & H & Hk)]; [|injection Hk as <- <-];
      apply (sighting_inv i d) in H as (Hp2 & Hs2 & devices' & Hd & Hb); try done;
      (split_and!; [done..|]); right; by exists devices, devices', i.
  - injection H as <- <-. split_and!; [done..|]. left. split_and!; [rewrite Hr; by eapply holds_became|done|].
    intros _ ds Hl. destruct Hc as [_ Hm]. specialize (Hm _ Hl). congruence.
Qed.

(** *** Pairing *)

(** A successful pairing: one more device, known by the direct token the phone is given. *)
Definition enrolled (devices devices' : list MonitorDeviceRecord) (result : Value) : Prop :=
  exists record token, devices' = (devices ++ [record])%list /\ (length devices < max_devices)%nat
    /\ Json.get "deviceId" result = Some (VString (device_record_id record))
    /\ Json.get "directToken" result = Some (VString token)
    /\ device_token_hash record = token_hash_hex net token.

(** How a pairing ends: enrolled, failed with the registry as it was, or dead with either. *)
Definition pairing_ended (d : Desk) (previous : option (list MonitorDeviceRecord)) (res : option (Result Value string))
    (d' : Desk) : Prop :=
  match res with
  | Some (Ok result) => exists old devices, previous = Some old /\ enrolled old devices result /\ became d (Some devices) res d'
  | Some (Err _) => became d previous res d'
  | None => exists devices, (devices = previous \/ exists old new result, previous = Some old /\ devices = Some new /\ enrolled old new result)
              /\ became d devices res d'
  end.

Lemma ended_unchanged d previous res d' :
  became d previous res d' -> (forall result, res <> Some (Ok result)) -> pairing_ended d previous res d'.
Proof.
  destruct res as [[result|e]|]; cbn; [by intros _ H; destruct (H result)|done|]. intros H _. exists previous. by split; [left|].
Qed.

#[local] Abbreviation enroll := (enroll_device P net false process_id devices_to_string_pretty).

Lemma enroll_inv settings credentials pairing_id name id token key enrollment previous d0 d res d' :
  enroll settings credentials pairing_id name id token key enrollment previous d = (res, d') ->
  devices_json_agrees -> holds previous d -> registry_on (disk d0) = Some previous -> (length previous < max_devices)%nat ->
  monitor_pairing d' = monitor_pairing d /\ pairing_ended d0 (Some previous) res d'.
Proof using base Hbase.
  intros H Hjson (Hl & Hrg & Hhr) Hr Hlen. unfold enroll_device, app_bind at 1, app_get at 1 in H.
  set (record := {| device_record_id := id; device_record_name := _; device_token_hash := _; created_at := _;
                    last_seen_at := _ |}) in H.
  assert (enrolled previous (previous ++ [record]) (pairing_result id name token key enrollment)) as Henr
    by by exists record, token.
  unfold app_bind at 1, app_modify at 1 in H.
  destruct (put_holds (previous ++ [record]) d _ eq_refl) as (Hl1 & Hf1 & Hi1); [by rewrite Hl|].
  assert (monitor_pairing (put_devices (previous ++ [record]) d) = monitor_pairing d) as <- by done.
  set (d1 := put_devices (previous ++ [record]) d) in *. clearbody d1.
  apply app_bind_inv in H as [[H ->]|(saved & d2 & H & Hk)]; apply on_files_inv in H as (w & H & ->);
    apply save_registry_inv in H as (Hi & Hok & Hno); try done; rewrite Hi1 in Hi.
  { split; [done|]. apply ended_unchanged; [|done]. unfold became, registry_on, honest_read in *. cbn.
    rewrite Hno, Hf1, Hi by done. split_and!; [done..|by intros [? ?]|congruence]. }
  destruct saved as [u|e].
  - assert (holds (previous ++ [record]) (set_desk_world w d1)) as Hh.
    { unfold holds, honest_read in *. cbn. destruct u. rewrite Hi, (Hok eq_refl). done. }
    assert (aside (set_desk_world w d1) d' /\ (res = None \/ res = Some (Ok (pairing_result id name token key enrollment))))
      as [[Hk3 Hp3] Hres].
    { revert Hk. generalize (set_desk_world w d1). intros d2 Hk.
      eapply (does_bind_inv aside _ _ d2) in Hk as [[? ->]|(v & d3 & _ & Ha & Hk)]; [by split; [|left]| |by solve_aside|reflexivity].
      injection Hk as <- <-. split; [|by right]. etrans; [exact Ha|]. split; [by apply kept_same|done]. }
    split; [exact Hp3|]. pose proof (kept_holds _ _ _ Hk3 Hh) as Hh'.
    destruct Hres as [->| ->]; cbn; [exists (Some (previous ++ [record])%list); split|exists previous, (previous ++ [record])%list; split_and!];
      try done; [right; by eexists _, _, _|by eapply holds_became..].
  - eapply (does_bind_inv aside _ _ (set_desk_world w d1)) in Hk as [[[Hk3 Hp3] ->]|(v & d3 & Hd & [Hk3 Hp3] & Hk)];
      [| |by solve_aside|reflexivity]; destruct Hk3 as (Hm3 & Hf3 & Hi3).
    + split; [done|]. apply ended_unchanged; [|done]. unfold became, registry_on, honest_read in *. cbn in *.
      rewrite Hi3, Hf3, Hi, Hno, Hf1 by done. split_and!; [done..|by intros [? ?]|congruence].
    + injection Hk as <- <-. split; [exact Hp3|]. apply ended_unchanged; [|done]. eapply holds_became; [done|].
      unfold holds, honest_read, registry_on in *. cbn in *.
      rewrite lock_update, Hm3, Hl1, Hi3, Hf3, Hi, Hno, Hf1 by done. done.
Qed.

Lemma claimed_inv random pairing_id name d res d' :
  complete_claimed random pairing_id name d = (res, d') -> consistent d -> devices_json_agrees ->
  monitor_pairing d' = monitor_pairing d /\ pairing_ended d (registry_on (disk d)) res d'.
Proof using base Hbase.
  intros H Hc Hjson. apply with_devices_inv in H as [(Hk & Hp & _ & Hne & _)|(devices & d1 & Hr & Hh & H & _ & Hp & _)];
    [|..|apply Hc|apply Hc].
  { split; [done|]. apply ended_unchanged; [by apply kept_became|done]. }
  rewrite <- Hp, Hr. clear Hp.
  assert (forall d2, aside d1 d2 -> (forall result, res <> Some (Ok result)) -> d2 = d' ->
    monitor_pairing d' = monitor_pairing d1 /\ pairing_ended d (Some devices) res d') as Hend.
  { intros d2 [Hk <-] Hne <-. split; [done|]. apply ended_unchanged; [|done]. eapply holds_became; [done|].
    by eapply kept_holds. }
  destruct (max_devices <=? length devices)%nat eqn:Hmax; [injection H as <- <-; by apply (Hend d1)|].
  apply Nat.leb_gt in Hmax.
  eapply (does_try_inv aside _ _ d1) in H as [[Ha Hne]|(key & d2 & _ & Ha & H)];
    [by eapply Hend| |by auto with quiet|reflexivity].
  destruct (generate_monitor_token random) as [random_id|e]; [|injection H as <- <-; by apply (Hend d2)].
  cbv zeta in H. set (device_id := "dev_" ++ slice_to 24 random_id) in H.
  destruct (device_material hkdf b64_encode key device_id) as [[[token relay_token] device_key]|e]; [|injection H as <- <-; by apply (Hend d2)].
  eapply (does_bind_inv aside _ _ d1) in H as [[Ha2 ->]|(settings & d3 & _ & Ha2 & H)];
    [by eapply Hend| |by auto with quiet|done].
  eapply (does_bind_inv aside _ _ d1) in H as [[Ha3 ->]|(credentials & d4 & _ & Ha3 & H)];
    [by eapply Hend| |by solve_aside|done].
  eapply (does_try_inv aside _ _ d1) in H as [[Ha4 Hne]|(enrollment & d5 & _ & [Hk <-] & H)];
    [by eapply Hend| |by solve_aside|done].
  eapply enroll_inv in H; [exact H|done|by eapply kept_holds|done..].
Qed.

#[local] Abbreviation claim := (claim_pairing_grant net).

(** Claiming touches nothing but the grant: used up on success, kept when the code is wrong. *)
Lemma claim_inv code now d res d' :
  claim code now d = (res, d') ->
  aside (set_monitor_pairing (monitor_pairing d') d) d' /\ sent d' = sent d /\ res <> None /\
  match res with
  | Some (Ok grant) => lock (monitor_pairing d) = Some (Some grant) /\ (now <= grant_expires_at grant)%N
      /\ verify_token_hash_hex net code (code_hash grant) = true /\ lock (monitor_pairing d') = Some None
  | _ => d' = d \/ exists grant, lock (monitor_pairing d) = Some (Some grant) /\ (grant_expires_at grant < now)%N
                  /\ lock (monitor_pairing d') = Some None
  end.
Proof.
  unfold claim_pairing_grant. intros H.
  destruct (lock (monitor_pairing d)) as [[grant|]|] eqn:Hl;
    [|injection H as <- <-; split_and!; [by split; [apply kept_same|]|done..|by left]..].
  assert (lock (set_guarded None (monitor_pairing d)) = Some None) as Hnone
    by (apply lock_Some in Hl; by rewrite Hl).
  destruct (grant_expires_at grant <? now)%N eqn:He; [|destruct (negb _) eqn:Hv]; injection H as <- <-;
    (split; [by split; [apply kept_same|]|split; [done|split; [done|]]]).
  - right. exists grant. apply N.ltb_lt in He. done.
  - by left.
  - apply N.ltb_ge in He. apply negb_false_iff in Hv. done.
Qed.

Lemma ended_kept d prev r d1 d2 :
  pairing_ended d prev (Some r) d1 -> kept d1 d2 -> pairing_ended d prev (Some r) d2.
Proof.
  intros H Hk. destruct r as [result|e]; cbn in *; [|by eapply became_kept].
  destruct H as (old & devices & Hp & He & Hb). exists old, devices. split_and!; [done..|by eapply became_kept].
Qed.

Lemma ended_after d0 d prev res d' : kept d0 d -> pairing_ended d prev res d' -> pairing_ended d0 prev res d'.
Proof.
  intros Hk. destruct res as [[result|e]|]; cbn; [| |].
  - intros (old & devices & Hp & He & Hb). exists old, devices. split_and!; [done..|by eapply kept_after].
  - by apply kept_after.
  - intros (devices & Hd & Hb). exists devices. split; [done|by eapply kept_after].
Qed.

(** What happened to the grant. *)
Definition grant_after (payload : Value) (d : Desk) (res : option (Result Value string)) (d' : Desk) : Prop :=
  match res with
  | Some (Ok _) => exists code grant, trimmed_field "pairingCode" payload = Some code
      /\ lock (monitor_pairing d) = Some (Some grant) /\ (now_millis P d <= grant_expires_at grant)%N
      /\ verify_token_hash_hex net code (code_hash grant) = true /\ lock (monitor_pairing d') = Some None
  | Some (Err _) => lock (monitor_pairing d') = lock (monitor_pairing d)
      \/ exists grant, lock (monitor_pairing d) = Some (Some grant) /\ lock (monitor_pairing d') = Some None
           /\ ((grant_expires_at grant < now_millis P d)%N \/ (grant_expires_at grant < now_millis P d')%N)
  | None => True
  end.

Lemma complete_pairing_inv random payload d res d' :
  complete_pairing random payload d = (res, d') -> consistent d -> devices_json_agrees ->
  pairing_ended d (registry_on (disk d)) res d' /\ grant_after payload d res d'.
Proof using base Hbase.
  unfold complete_monitor_pairing. intros H Hc Hjson.
  destruct (trimmed_field "pairingCode" payload) as [code|] eqn:Hcode;
    [|injection H as <- <-; split; [by apply kept_became|by left]].
  cbv zeta in H. unfold app_bind at 1, app_get at 1 in H.
  apply app_try_inv in H as [[H ->]|[(e & H & ->)|(grant & d1 & H & Hk)]];
    apply claim_inv in H as ([Hk1 _] & _ & Hn & Hg); [done|..].
  { change (kept d d') in Hk1. split; [by apply kept_became|].
    destruct Hg as [->|(grant & Hl & He & Hl')]; [by left|right; exists grant; auto]. }
  change (kept d d1) in Hk1. destruct Hg as (Hl & He & Hv & Hl1). rewrite <- (kept_registry _ _ Hk1).
  apply (kept_consistent _ _ Hk1) in Hc.
  apply app_bind_inv in Hk as [[H ->]|(result & d2 & H & Hk)]; apply claimed_inv in H as [Hp2 He2]; try done;
    apply (ended_after _ _ _ _ _ Hk1) in He2; [done|].
  destruct result as [result|e]; unfold app_bind, app_ret in Hk; injection Hk as <- <-.
  { split; [exact He2|]. exists code, grant. rewrite Hp2. done. }
  unfold restore_pairing_grant. destruct (grant_expires_at grant <? now_millis P d2)%N eqn:Hx.
  { split; [exact He2|]. right. exists grant. rewrite Hp2. apply N.ltb_lt in Hx. auto. }
  rewrite Hp2, Hl1. split; [by eapply ended_kept; [exact He2|apply kept_same]|].
  left. cbn. rewrite Hl. apply lock_Some in Hl1. by rewrite Hl1.
Qed.

(** A grant is good for one device: once it is used nothing can be paired with it. *)
Lemma used_grant random payload d :
  lock (monitor_pairing d) = Some None -> exists e, complete_pairing random payload d = (Some (Err e), d).
Proof.
  intros Hl. unfold complete_monitor_pairing. destruct (trimmed_field "pairingCode" payload); [|by eexists].
  unfold app_bind, app_try, app_get, app_bind, claim_pairing_grant. rewrite Hl. by eexists.
Qed.

(** A pairing enrols exactly one device or changes nothing.  It succeeds only while a grant
    is pending, unexpired and named by the right code; the phone's direct token is then known
    by its hash, memory and disk hold the device, the grant is used up and no further
    attempt can succeed.  A failure (wrong code, full registry, Relay or disk error) leaves
    the registry as it was and the grant available, unless it has expired; the death of the
    process leaves either registry, never a third. *)
Theorem pairing_spec random payload d res d' :
  complete_pairing random payload d = (res, d') -> consistent d -> devices_json_agrees ->
  pairing_ended d (registry_on (disk d)) res d' /\ grant_after payload d res d'
  /\ forall result, res = Some (Ok result) ->
     forall random' payload', exists e, complete_pairing random' payload' d' = (Some (Err e), d').
Proof using base Hbase.
  intros H Hc Hjson. apply complete_pairing_inv in H as [He Hg]; [|done..]. split_and!; [done..|].
  intros result -> random' payload'. destruct Hg as (code & grant & _ & _ & _ & _ & Hl). by apply used_grant.
Qed.

(** *** Revoking everywhere *)

(** A device removed, or the registry as it was. *)
Definition revoked (id : string) (d : Desk) (res : option (Result bool string)) (d' : Desk) : Prop :=
  match res with
  | Some (Ok removed) => exists devices, registry_on (disk d) = Some devices
      /\ became d (Some (without_device id devices)) res d'
      /\ removed = negb (length (without_device id devices) =? length devices)%nat
  | _ => became d (registry_on (disk d)) res d'
  end.

(** The Relay accepted the withdrawal of the device. *)
Definition withdrawn (s : RelaySettings) (credentials : RelayCredentials) (id : string) (d' : Desk) : Prop :=
  exists base status d, normalized_base_url (relay_base_url s) = Ok base /\ gone status = true
    /\ let request := device_request "DELETE" base credentials id NoBody in
       http_send net request d = Ok status /\ In request (sent d').

Lemma relay_revoke_inv s credentials id d u d' :
  relay_revoke_device net s credentials id d = (Some (Ok u), d') -> withdrawn s credentials id d'.
Proof.
  unfold relay_revoke_device. destruct (normalized_base_url _) as [burl|e] eqn:Hb; [|done].
  intros (status & Hs & Hg & Hin)%send_expecting_inv. exists burl, status, d. split_and!; [done..|]. cbv zeta.
  rewrite Hin. split; [done|]. apply in_or_app. right. by left.
Qed.

Lemma aside_reauthorize settings credentials id :
  does aside (reauthorize net secret_fault random_key hkdf b64_encode b64_decode settings credentials id).
Proof. unfold reauthorize. solve_aside. Qed.

Lemma revoked_after id d d1 res d' : kept d d1 -> revoked id d1 res d' -> revoked id d res d'.
Proof.
  intros Hk. unfold revoked. rewrite (kept_registry _ _ Hk).
  destruct res as [[removed|e]|]; [|by apply kept_after..].
  intros (devices & Hr & Hb & Hl). exists devices. split_and!; [done|by eapply kept_after|done].
Qed.

Lemma revoked_kept id d d' res : kept d d' -> consistent d -> (forall b, res <> Some (Ok b)) -> revoked id d res d'.
Proof. intros Hk Hc Hne. destruct res as [[b|e]|]; [by destruct (Hne b)|by apply kept_became..]. Qed.

(** The Relay whose copy counts: the configured one, if the stored credentials are for it. *)
Definition relay_of (d : Desk) : option (Settings * RelayCredentials) :=
  let '(settings, d1) := app_load_settings P d in
  let '(read, _) := read_relay_credentials secret_fault credentials_from_str d1 in
  match settings, read with
  | Some settings, Some read => option_map (pair settings) (matching_credentials settings read)
  | _, _ => None
  end.

Lemma revoke_everywhere_inv id d res d' :
  revoke_everywhere id d = (res, d') -> consistent d -> devices_json_agrees ->
  revoked id d res d' /\ monitor_pairing d' = monitor_pairing d
  /\ forall removed settings credentials, res = Some (Ok removed) -> relay_of d = Some (settings, credentials) ->
     withdrawn (relay settings) credentials id d'.
Proof using base Hbase.
  intros H Hc Hjson. unfold revoke_monitor_device_everywhere in H.
  apply app_bind_inv in H as [[H ->]|(settings & d1 & Hload & Hk)];
    [pose proof (aside_load _ _ _ H) as [Hk1 Hp1]; split_and!; [by apply revoked_kept|done..]|].
  pose proof (aside_load _ _ _ Hload) as [Hk1 Hp1].
  destruct (read_relay_credentials_pure secret_fault credentials_from_str d1) as [read Hread].
  unfold relay_of. rewrite Hload, Hread. clear Hload. unfold app_bind at 1 in Hk. rewrite Hread in Hk. cbv zeta in Hk.
  pose proof (kept_consistent _ _ Hk1 Hc) as Hc1. rewrite <- Hp1.
  eapply (does_try_inv aside _ _ d1) in Hk as [[[Hk2 Hp2] Hne]|(u & d2 & Hrevoke & [Hk2 Hp2] & Hk)];
    [| |by solve_aside|reflexivity].
  { split_and!; [apply revoked_kept; [by etrans|done..]|done|]. intros removed s' c ->. by destruct (Hne removed). }
  pose proof (kept_consistent _ _ Hk2 Hc1) as Hc2.
  assert (forall credentials, matching_credentials settings read = Some credentials ->
    withdrawn (relay settings) credentials id d2) as Hw.
  { intros credentials Hm. rewrite Hm in Hrevoke. apply app_bind_inv in Hrevoke as [[_ ?]|(r & d3 & Hr & Hs)]; [done|].
    destruct r as [v|e]; [|done]. injection Hs as _ <-. by apply relay_revoke_inv in Hr. }
  clear Hrevoke. rewrite <- Hp2.
  apply app_bind_inv in Hk as [[H ->]|(r & d3 & H & Hk)]; apply revoke_local_inv in H as (Hp3 & Hs3 & H); try done.
  { split_and!; [|done..]. apply (revoked_after _ _ d2); [by etrans|done]. }
  destruct r as [removed|e].
  - injection Hk as <- <-. split_and!; [apply (revoked_after _ _ d2); [by etrans|done]|done|].
    intros ? s' c _ Hm. destruct (matching_credentials settings read) as [c'|] eqn:Hm'; [|done]. injection Hm as <- <-.
    unfold withdrawn in *. rewrite Hs3. by apply Hw.
  - eapply (does_bind_inv aside _ _ d3) in Hk as [[[Hk4 Hp4] ->]|(v & d4 & _ & [Hk4 Hp4] & Hk)];
      [| |destruct (matching_credentials _ _); [apply aside_reauthorize|solve_aside]|reflexivity];
      [|injection Hk as <- <-]; (split_and!; [|congruence|done]);
      (apply (revoked_after _ _ d2); [by etrans|]; by eapply became_kept).
Qed.

(** Revoking a device removes it everywhere or nowhere.  When it succeeds, every record with
    that identity is gone from memory and disk, and if the stored credentials are for the
    configured Relay, the Relay has accepted the withdrawal first; whenever it fails (the
    Relay refuses or is unreachable, the disk fails, the process dies) the local registry is
    what it was. *)
Theorem revoke_everywhere_spec id d res d' :
  revoke_everywhere id d = (res, d') -> consistent d -> devices_json_agrees ->
  revoked id d res d' /\ monitor_pairing d' = monitor_pairing d
  /\ forall removed settings credentials, res = Some (Ok removed) -> relay_of d = Some (settings, credentials) ->
     withdrawn (relay settings) credentials id d'.
Proof using base Hbase. apply revoke_everywhere_inv. Qed.

(** *** Every operation refines a step of an abstract registry *)

(** What may happen to a registry. *)
Inductive registry_step : list MonitorDeviceRecord -> list MonitorDeviceRecord -> Prop :=
| step_sighted i devices devices' : sighted i devices devices' -> registry_step devices devices'
| step_removed id devices : registry_step devices (without_device id devices)
| step_enrolled devices devices' result : enrolled devices devices' result -> registry_step devices devices'.

Lemma registry_step_bounded devices devices' :
  registry_step devices devices' -> (length devices <= max_devices)%nat -> (length devices' <= max_devices)%nat.
Proof.
  intros [i ds ds' [->|(device & now & _ & _ & ->)]|id ds|ds ds' result (r & t & -> & Hl & _)] H; [done| | |].
  - by rewrite length_alter.
  - etrans; [apply filter_length_le|done].
  - rewrite length_app. cbn. lia.
Qed.

(** An operation leaves the registry or takes one step of it. *)
Definition refines {A} (m : App A) : Prop := forall d res d',
  m d = (res, d') -> consistent d -> devices_json_agrees ->
  exists devices, became d devices res d' /\ (devices = registry_on (disk d)
    \/ exists a b, registry_on (disk d) = Some a /\ devices = Some b /\ registry_step a b).

Lemma refines_kept {A} (m : App A) : does kept m -> refines m.
Proof. intros Hm d res d' H Hc _. exists (registry_on (disk d)). split; [apply kept_became; [by eapply Hm|done]|by left]. Qed.

Lemma refines_after {A B} (m : App A) (k : A -> App B) :
  does kept m -> (forall a, refines (k a)) -> refines (app_bind m k).
Proof.
  intros Hm Hk d res d' [[H ->]|(a & d1 & H & Hr)]%app_bind_inv Hc Hjson; apply Hm in H as Hkept.
  - exists (registry_on (disk d)). split; [by apply kept_became|by left].
  - destruct (Hk a _ _ _ Hr (kept_consistent _ _ Hkept Hc) Hjson) as (devices & Hb & Hd). rewrite (kept_registry _ _ Hkept) in Hd.
    exists devices. split; [by eapply kept_after|done].
Qed.

Lemma refines_before {A B} (m : App A) (k : A -> App B) :
  refines m -> (forall a, does kept (k a)) -> refines (app_bind m k).
Proof.
  intros Hm Hk d res d' [[H ->]|(a & d1 & H & Hr)]%app_bind_inv Hc Hjson;
    destruct (Hm _ _ _ H Hc Hjson) as (devices & Hb & Hd); exists devices; (split; [|exact Hd]).
  - destruct Hb as (Hr & Hh & _ & Ht). split; [exact Hr|split; [exact Hh|split; [|exact Ht]]]. by intros [? ?].
  - eapply became_kept; [exact Hb|by eapply Hk].
Qed.

Lemma refines_authorized id token : refines (token_authorized id token).
Proof using base Hbase.
  intros d res d' H Hc Hjson.
  apply token_authorized_inv in H as (_ & _ & [(Hb & _)|(a & b & i & Ha & _ & Hs & Hb & _)]); [| |done..].
  - eexists. split; [exact Hb|by left].
  - exists (Some b). split; [done|]. right. exists a, b. split_and!; [done..|by eapply step_sighted].
Qed.

Lemma revoked_refines id d res d' : revoked id d res d' -> exists devices, became d devices res d'
  /\ (devices = registry_on (disk d)
      \/ exists a b, registry_on (disk d) = Some a /\ devices = Some b /\ registry_step a b).
Proof.
  destruct res as [[removed|e]|]; cbn; [|by (intros H; eexists; split; [exact H|left])..].
  intros (a & Ha & Hb & _). exists (Some (without_device id a)). split; [done|]. right.
  exists a, (without_device id a). split_and!; [done..|apply step_removed].
Qed.

Lemma refines_revoke_local id : refines (revoke_local id).
Proof using base Hbase.
  intros d res d' H Hc Hjson. apply revoke_local_inv in H as (_ & _ & H); [by eapply revoked_refines|done..].
Qed.

Lemma refines_pairing random payload : refines (complete_pairing random payload).
Proof using base Hbase.
  intros d res d' H Hc Hjson. apply complete_pairing_inv in H as [H _]; [|done..]. destruct res as [[result|e]|]; cbn in H.
  - destruct H as (a & b & Ha & He & Hb). exists (Some b). split; [done|]. right. exists a, b.
    split_and!; [done..|by eapply step_enrolled].
  - eexists. split; [exact H|by left].
  - destruct H as (devices & Hd & Hb). exists devices. split; [done|].
    destruct Hd as [->|(a & b & result & Ha & -> & He)]; [by left|right]. exists a, b. split_and!; [done..|by eapply step_enrolled].
Qed.

Lemma kept_addressed pairing_id : does kept (addressed_grant P pairing_id).
Proof.
  intros d res d' H. unfold addressed_grant in H. repeat case_match; injection H as _ <-; try reflexivity. by apply kept_same.
Qed.

Lemma kept_ret {A} (a : A) : does kept (app_ret a).
Proof. apply does_ret; apply _. Qed.

Lemma refines_encrypted random nonce message : refines (handle_pairing random nonce message).
Proof using base Hbase.
  destruct message as [pairing_id payload]. unfold handle_encrypted_monitor_pairing.
  assert (forall A (r : option A), does kept (or_panic r)) as Hpanic by (intros A r d res d' [= _ <-]; reflexivity).
  apply refines_after; [apply kept_addressed|]. intros [grant|e]; [|apply refines_kept, kept_ret].
  apply refines_after; [apply Hpanic|]. intros [plaintext|e]; [|apply refines_kept, kept_ret].
  destruct (value_from_slice plaintext) as [request|]; [|apply refines_kept, kept_ret].
  apply refines_before; [apply refines_pairing|]. intros [result|e]; [|apply kept_ret].
  destruct (value_to_vec result); [|apply kept_ret].
  apply does_try; [apply _|apply Hpanic|]. intros ?. apply kept_ret.
Qed.

Lemma refines_snapshot : refines (monitor_devices_snapshot P devices_from_str).
Proof using base Hbase.
  intros d res d' H Hc Hjson. apply with_devices_inv in H as [(Hk & _)|(devices & d1 & Hr & Hh & [= <- <-] & _)];
    [| |apply Hc|apply Hc]; exists (registry_on (disk d)); (split; [|by left]); [by apply kept_became|].
  rewrite Hr. by eapply holds_became.
Qed.

(** *** The registry over time *)

(** What may be asked of the monitor, and a restart of the application. *)
Inductive MonitorOp :=
| OpAuthorize (device_id token : string)
| OpRevokeLocal (device_id : string)
| OpRevokeEverywhere (device_id : string)
| OpPair (random : option bytes) (payload : Value)
| OpEncryptedPair (random nonce : option bytes) (message : PairingWsMessage)
| OpSnapshot
| OpRestart.

(** The memory of the process is gone. *)
Definition restart (d : Desk) : Desk := set_monitor_devices (new_mutex None) (set_monitor_pairing (new_mutex None) d).

(** The operation; a process that dies is started again. *)
Definition monitor_perform (op : MonitorOp) (d : Desk) : Desk :=
  let or_restart {A} (r : option A * Desk) := match r with (Some _, d') => d' | (None, d') => restart d' end in
  match op with
  | OpAuthorize device_id token => or_restart (token_authorized device_id token d)
  | OpRevokeLocal device_id => or_restart (revoke_local device_id d)
  | OpRevokeEverywhere device_id => or_restart (revoke_everywhere device_id d)
  | OpPair random payload => or_restart (complete_pairing random payload d)
  | OpEncryptedPair random nonce message => or_restart (handle_pairing random nonce message d)
  | OpSnapshot => or_restart (monitor_devices_snapshot P devices_from_str d)
  | OpRestart => restart d
  end.

(** Two states of the registry, one reached from the other. *)
Definition develops (d d' : Desk) : Prop :=
  (registry_on (disk d) = None -> disk d' !! file = disk d !! file)
  /\ forall a, registry_on (disk d) = Some a -> exists b, registry_on (disk d') = Some b /\ rtc registry_step a b.

#[local] Instance develops_preorder : PreOrder develops.
Proof.
  split.
  - intros d. split; [done|]. intros a Ha. by exists a.
  - intros d1 d2 d3 [Ht1 Hs1] [Ht2 Hs2]. split.
    + intros Hn. specialize (Ht1 Hn) as Hf. rewrite <- Hf. apply Ht2. unfold registry_on in *. by rewrite Hf.
    + intros a (b & Hb & Hab)%Hs1. apply Hs2 in Hb as (c & Hc & Hbc). exists c. split; [done|by etrans].
Qed.

Lemma restart_consistent d : honest_read d -> consistent (restart d).
Proof. intros H. by split. Qed.

Lemma refines_develops {A} (m : App A) d :
  refines m -> consistent d -> devices_json_agrees ->
  let d' := match m d with (Some _, d') => d' | (None, d') => restart d' end in consistent d' /\ develops d d'.
Proof.
  intros Hm Hc Hjson. destruct (m d) as [res d'] eqn:H. destruct (Hm _ _ _ H Hc Hjson) as (devices & (Hr & Hh & Hcons & Ht) & Hd).
  assert (develops d d') as Hdev.
  { split; [done|]. intros a Ha. destruct Hd as [->|(a' & b & Ha' & -> & Hs)]; [by exists a; rewrite Hr|].
    rewrite Ha in Ha'. injection Ha' as <-. exists b. split; [done|by apply rtc_once]. }
  destruct res as [r|]; cbn; split; [by apply Hcons|done|by apply restart_consistent|exact Hdev].
Qed.

Lemma monitor_perform_develops op d :
  consistent d -> devices_json_agrees -> consistent (monitor_perform op d) /\ develops d (monitor_perform op d).
Proof using base Hbase.
  intros Hc Hjson. destruct op; cbn [monitor_perform].
  - apply refines_develops; [apply refines_authorized|done..].
  - apply refines_develops; [apply refines_revoke_local|done..].
  - apply refines_develops; [|done..]. intros d1 res d' H Hc1 Hjson1.
    apply revoke_everywhere_inv in H as [Hr _]; [by eapply revoked_refines|done..].
  - apply refines_develops; [apply refines_pairing|done..].
  - apply refines_develops; [apply refines_encrypted|done..].
  - apply refines_develops; [apply refines_snapshot|done..].
  - split; [apply restart_consistent, Hc|split; [done|]]. intros a Ha. by exists a.
Qed.


(** *** Who is authorised *)

Lemma find_device_removed id token devices : find_device net id token (without_device id devices) = None.
Proof.
  unfold without_device. induction devices as [|device devices IH]; [done|]. cbn.
  destruct (String.eqb (device_record_id device) id) eqn:E; cbn; [done|]. by rewrite E, IH.
Qed.

(** A phone is authorised exactly by the registry.  Accepting means that the registry on disk
    has a device with that identity whose hash is the token's; refusing with the registry
    loaded means it has none.  Neither changes which identities and hashes are registered:
    at most the last sighting of the one device is renewed, and only a minute after the
    previous one. *)
Theorem token_authorized_spec id token d b d' :
  token_authorized id token d = (Some b, d') -> consistent d -> devices_json_agrees ->
  consistent d'
  /\ option_map identities (registry_on (disk d')) = option_map identities (registry_on (disk d))
  /\ (b = true -> exists devices devices' i device, registry_on (disk d) = Some devices /\ devices !! i = Some device
        /\ device_record_id device = id /\ verify_token_hash_hex net token (device_token_hash device) = true
        /\ sighted i devices devices' /\ registry_on (disk d') = Some devices')
  /\ (b = false -> registry_on (disk d') = registry_on (disk d) /\ forall devices device,
        lock (monitor_devices d) = Some (Some devices) -> In device devices -> device_record_id device = id ->
        verify_token_hash_hex net token (device_token_hash device) = false).
Proof using base Hbase.
  intros H Hc Hjson.
  apply token_authorized_inv in H as (_ & _ & [(Hb & Hne & Hf)|(ds & ds' & i & Hr & Hfind & Hs & Hb & Hne)]); try done;
    destruct Hb as (Hr' & _ & Hc' & _); (split; [by apply Hc'|]).
  - split_and!; [by rewrite Hr'|intros ->; by destruct Hne|]. intros ->. split; [done|].
    intros devices device Hl. by apply find_device_None, Hf.
  - split_and!; [|intros _|intros ->; by destruct Hne].
    + rewrite Hr, Hr'. cbn. f_equal. destruct Hs as [->|(device & now & _ & _ & ->)]; [done|apply identities_touch].
    + apply find_device_Some in Hfind as (device & Hi & Hid & Hv). by exists ds, ds', i, device.
Qed.

(** The registry has no such device. *)
Definition forgotten (id : string) (d : Desk) : Prop :=
  consistent d /\ exists devices, registry_on (disk d) = Some devices /\ ~ In id (map device_record_id devices).

(** An operation that enrols nobody. *)
Definition enrols_nobody (op : MonitorOp) : bool :=
  match op with OpPair _ _ | OpEncryptedPair _ _ _ => false | _ => true end.

Lemma sighted_ids i devices devices' : sighted i devices devices' -> map device_record_id devices' = map device_record_id devices.
Proof.
  intros [->|(device & now & _ & _ & ->)]; [done|]. clear. revert i.
  induction devices as [|device devices IH]; intros [|i]; cbn; try done. f_equal. apply IH.
Qed.

Lemma removed_ids id id' devices : In id (map device_record_id (without_device id' devices)) ->
  id <> id' /\ In id (map device_record_id devices).
Proof.
  intros (device & <- & [Hin Hne]%filter_In)%in_map_iff. split; [|by apply in_map].
  intros E. by rewrite E, String.eqb_refl in Hne.
Qed.

Lemma became_forgotten {A} id d devices (res : option A) d' :
  became d (Some devices) res d' -> ~ In id (map device_record_id devices) ->
  forgotten id (match res with Some _ => d' | None => restart d' end).
Proof.
  intros (Hr & Hh & Hc & _) Hn. destruct res as [a|].
  - split; [by apply Hc|by exists devices].
  - split; [by apply restart_consistent|by exists devices].
Qed.

Lemma monitor_perform_forgotten id op d :
  enrols_nobody op = true -> forgotten id d -> devices_json_agrees -> forgotten id (monitor_perform op d).
Proof using base Hbase.
  intros Hop (Hc & devices & Hr & Hn) Hjson.
  assert (forall id' (res : option (Result bool string)) d', revoked id' d res d' ->
    forgotten id (match res with Some _ => d' | None => restart d' end)) as Hrevoked.
  { intros id' [[removed|e]|] d'; cbn; [|rewrite Hr; intros Hb; by eapply (became_forgotten id) in Hb..].
    intros (ds & Hds & Hb & _). rewrite Hr in Hds. injection Hds as <-.
    eapply (became_forgotten id) in Hb; [exact Hb|]. by intros [_ ?]%removed_ids. }
  destruct op as [id' token|id'|id'|random payload|random nonce message| |]; cbn [monitor_perform]; try done.
  - destruct (token_authorized id' token d) as [res d'] eqn:H.
    apply token_authorized_inv in H as (_ & _ & [(Hb & _)|(a & b & i & Ha & _ & Hs & Hb & _)]); try done.
    + rewrite Hr in Hb. by eapply (became_forgotten id) in Hb; [destruct res|].
    + rewrite Hr in Ha. injection Ha as <-. rewrite <- (sighted_ids _ _ _ Hs) in Hn.
      by eapply (became_forgotten id) in Hb; [destruct res|].
  - destruct (revoke_local id' d) as [res d'] eqn:H.
    apply revoke_local_inv in H as (_ & _ & H); try done. apply Hrevoked in H. by destruct res.
  - destruct (revoke_everywhere id' d) as [res d'] eqn:H.
    apply revoke_everywhere_inv in H as [H _]; try done. apply Hrevoked in H. by destruct res.
  - destruct (monitor_devices_snapshot P devices_from_str d) as [res d'] eqn:H.
    apply with_devices_inv in H as [(Hk & _)|(ds & d1 & Hds & Hh & [= <- <-] & _)]; [| |apply Hc|apply Hc].
    + eapply (kept_became d d' res) in Hk; [|done]. rewrite Hr in Hk. by eapply (became_forgotten id) in Hk; [destruct res|].
    + rewrite Hr in Hds. injection Hds as <-. split; [by eapply holds_consistent|]. exists devices. split; [apply Hh|done].
  - split; [apply restart_consistent, Hc|by exists devices].
Qed.

Lemma forgotten_refused id token d : forgotten id d -> devices_json_agrees -> (token_authorized id token d).1 <> Some true.
Proof using base Hbase.
  intros (Hc & devices & Hr & Hn) Hjson. destruct (token_authorized id token d) as [res d'] eqn:H.
  apply token_authorized_inv in H as (_ & _ & [(_ & Hne & _)|(ds & ds' & i & Hr3 & Hfind & _)]); try done.
  rewrite Hr in Hr3. injection Hr3 as <-. apply find_device_Some in Hfind as (device & Hi & <- & _).
  destruct Hn. apply in_map, list_elem_of_In. by eapply list_elem_of_lookup_2.
Qed.

Lemma revoked_forgotten id d removed d' ops :
  revoke_everywhere id d = (Some (Ok removed), d') -> consistent d -> devices_json_agrees ->
  forallb enrols_nobody ops = true -> forgotten id (foldl (fun d op => monitor_perform op d) d' ops).
Proof using base Hbase.
  intros H Hc Hjson Hops. apply revoke_everywhere_inv in H as [(devices & _ & Hb & _) _]; [|done..].
  eapply (became_forgotten id) in Hb; [|by intros [? _]%removed_ids]. clear Hc.
  revert d' Hb Hops. induction ops as [|op ops IH]; intros d' Hb Hops; [done|]. cbn in *.
  apply andb_prop in Hops as [Hop Hops]. apply IH; [|done]. by apply monitor_perform_forgotten.
Qed.

(** A revoked phone is refused for good.  After a successful revocation, and any sequence of
    further operations that pair no phone, restarts included, no token at all is accepted for
    that identity. *)
Theorem revoked_device_refused id d removed d' ops :
  revoke_everywhere id d = (Some (Ok removed), d') -> consistent d -> devices_json_agrees ->
  forallb enrols_nobody ops = true ->
  forall token, (token_authorized id token (foldl (fun d op => monitor_perform op d) d' ops)).1 <> Some true.
Proof using base Hbase.
  intros H Hc Hjson Hops token. apply forgotten_refused; [|done]. by eapply revoked_forgotten.
Qed.
End DeviceProps.

(** ** Witnesses *)

#[export] Instance MonitorDeviceRecord_eq_dec : EqDecision MonitorDeviceRecord.
Proof. solve_decision. Defined.

#[export] Instance MonitorDeviceRecord_countable : Countable MonitorDeviceRecord.
Proof.
  refine (inj_countable' (fun r => (device_record_id r, device_record_name r, device_token_hash r, created_at r, last_seen_at r))
    (fun '(id, name, hash, created, seen) =>
       {| device_record_id := id; device_record_name := name; device_token_hash := hash; created_at := created;
          last_seen_at := seen |}) _).
  by intros [].
Defined.

Definition sample_devices_print (devices : list MonitorDeviceRecord) : Result string string :=
  Ok (binary_text (encode devices)).
Definition sample_devices_read (text : string) : Result (list MonitorDeviceRecord) string :=
  match binary_read text with
  | Some p => match decode p with Some devices => Ok devices | None => Err "bad code" end
  | None => Err "bad text"
  end.

Lemma sample_devices_agree : devices_json_agrees sample_devices_read sample_devices_print.
Proof. intros devices text [= <-]. unfold sample_devices_read. by rewrite binary_read_text, decode_encode. Qed.

(** A Relay that accepts everything. *)
Definition sample_network : Network :=
  {| http_client := fun _ => Ok tt; http_send := fun _ _ => Ok 200%N; status_text := fun _ => "OK";
     register_response := fun _ => Err "none"; net_sha256 := list_byte_of_string |}.

Definition sample_hkdf (salt : string) (key : bytes) (info : string) : option bytes := Some (list_byte_of_string info).

Definition sample_relay_credentials : RelayCredentials :=
  {| cred_base_url := "https://relay.example"; cred_desktop_id := "dt_1"; cred_desktop_token := "secret" |}.

Definition sample_monitored : Settings :=
  {| tunnel_id := ""; remember_key := false; auto_reconnect := true; connection_intent := false;
     monitor_enabled := true; monitor_port := default_monitor_port; proxy := proxy_default;
     relay := {| relay_enabled := true; relay_base_url := "https://relay.example/" |}; https_mcp := https_default |}.

Definition sample_grant : MonitorPairingGrant :=
  {| grant_pairing_id := "p_1"; grant_pairing_code := "code"; code_hash := token_hash_hex sample_network "code";
     grant_expires_at := 1000 |}.

(** A fresh installation showing a pairing code. *)
Definition sample_pairing_desk : Desk :=
  set_monitor_pairing (new_mutex (Some sample_grant))
    (set_secrets {[ monitor_master_item := "0123456789abcdef0123456789abcdef"; relay_item := "credentials" ]}
      (desk_default (healthy (sample_files sample_monitored)))).

Definition sample_payload : Value := Object [("pairingCode", VString "code"); ("deviceName", VString "Phone")].
Definition sample_random : option bytes := Some (list_byte_of_string "0123456789abcdef").
Definition no_fault (op : SecretOp) (d : Desk) : option string := None.
Definition no_key (d : Desk) : option bytes := None.

#[local] Abbreviation from_credentials := (fun _ => Ok sample_relay_credentials).
#[local] Abbreviation sample_pair := (complete_monitor_pairing sample_platform sample_network false "42" sample_devices_read
  sample_devices_print no_fault no_key sample_hkdf sample_b64_encode sample_b64_decode from_credentials
  sample_random sample_payload).
#[local] Abbreviation sample_revoke := (revoke_monitor_device_everywhere sample_platform sample_network false "42"
  sample_devices_read sample_devices_print no_fault no_key sample_hkdf sample_b64_encode sample_b64_decode from_credentials).
#[local] Abbreviation sample_authorized := (monitor_device_token_authorized sample_platform sample_network false "42"
  sample_devices_read sample_devices_print).

(** The same installation once the phone is paired. *)
Definition sample_paired_desk : Desk := (sample_pair sample_pairing_desk).2.
Definition sample_device_id : string := "dev_303132333435363738396162".
Definition sample_direct_token : string :=
  "63686174782d6d6f6e69746f722d6469726563742d617574682d76317c6465765f333033313332333333343335333633373338333936313632".

Lemma sample_pairing_consistent : consistent "/home/u" sample_devices_read sample_pairing_desk.
Proof. split; discriminate. Qed.

Lemma sample_paired_consistent : consistent "/home/u" sample_devices_read sample_paired_desk.
Proof.
  split; [vm_compute; discriminate|]. intros devices H. vm_compute in H. injection H as <-. vm_compute. reflexivity.
Qed.

(** The phone is paired; its code is then worth nothing. *)
Lemma pairing_spec_witness :
  let out := sample_pair sample_pairing_desk in
  (match out.1 with Some r => is_ok r | None => false end) = true
  /\ forall random' payload', exists e,
       complete_monitor_pairing sample_platform sample_network false "42" sample_devices_read sample_devices_print
         no_fault no_key sample_hkdf sample_b64_encode sample_b64_decode from_credentials random' payload' out.2
       = (Some (Err e), out.2).
Proof.
  intros out. assert ((match out.1 with Some r => is_ok r | None => false end) = true) as Hok by (vm_compute; reflexivity).
  split; [exact Hok|]. destruct out as [res d'] eqn:Ho. destruct res as [[result|e]|]; [|discriminate..].
  destruct (pairing_spec sample_platform "/home/u" eq_refl sample_network "42" sample_devices_read sample_devices_print
    no_fault no_key sample_hkdf sample_b64_encode sample_b64_decode from_credentials sample_random sample_payload
    sample_pairing_desk _ d' Ho sample_pairing_consistent sample_devices_agree) as (_ & _ & Hused).
  exact (Hused result eq_refl).
Defined.


Lemma revoke_everywhere_spec_witness :
  let out := sample_revoke sample_device_id sample_paired_desk in
  out.1 = Some (Ok true)
  /\ withdrawn sample_network (relay sample_monitored) sample_relay_credentials sample_device_id out.2.
Proof.
  intros out. assert (out.1 = Some (Ok true)) as Hres by (vm_compute; reflexivity). split; [exact Hres|].
  destruct out as [res d'] eqn:Ho. cbn in Hres. subst res.
  eapply (revoke_everywhere_spec sample_platform "/home/u" eq_refl sample_network "42" sample_devices_read
    sample_devices_print no_fault no_key sample_hkdf sample_b64_encode sample_b64_decode from_credentials
    sample_device_id sample_paired_desk _ d' Ho sample_paired_consistent sample_devices_agree);
    [reflexivity|vm_compute; reflexivity].
Defined.

Lemma token_authorized_spec_witness :
  let out := sample_authorized sample_device_id sample_direct_token sample_paired_desk in
  out.1 = Some true
  /\ exists devices devices' i device, registry_on "/home/u" sample_devices_read (files (desk_world sample_paired_desk)) = Some devices
     /\ devices !! i = Some device /\ device_record_id device = sample_device_id
     /\ verify_token_hash_hex sample_network sample_direct_token (device_token_hash device) = true
     /\ sighted i devices devices' /\ registry_on "/home/u" sample_devices_read (files (desk_world out.2)) = Some devices'.
Proof.
  intros out. assert (out.1 = Some true) as Hres by (vm_compute; reflexivity). split; [exact Hres|].
  destruct out as [res d'] eqn:Ho. cbn in Hres. subst res.
  apply (token_authorized_spec sample_platform "/home/u" eq_refl sample_network "42" sample_devices_read
    sample_devices_print sample_device_id sample_direct_token sample_paired_desk true d' Ho sample_paired_consistent
    sample_devices_agree). reflexivity.
Defined.

Lemma revoked_device_refused_witness :
  let out := sample_revoke sample_device_id sample_paired_desk in
  out.1 = Some (Ok true)
  /\ forall token, (sample_authorized sample_device_id token
       (foldl (fun d op => monitor_perform sample_platform sample_network "42" sample_devices_read sample_devices_print no_fault
          no_key sample_hkdf sample_seal sample_open sample_b64_encode sample_b64_decode from_credentials
          (fun _ => None) (fun _ => Err "no") op d) out.2 [OpRestart; OpSnapshot])).1 <> Some true.
Proof.
  intros out. assert (out.1 = Some (Ok true)) as Hres by (vm_compute; reflexivity). split; [exact Hres|].
  destruct out as [res d'] eqn:Ho. cbn in Hres. subst res.
  apply (revoked_device_refused sample_platform "/home/u" eq_refl sample_network "42" sample_devices_read
    sample_devices_print no_fault no_key sample_hkdf sample_seal sample_open sample_b64_encode sample_b64_decode from_credentials
    (fun _ => None) (fun _ => Err "no")
    sample_device_id sample_paired_desk true d' [OpRestart; OpSnapshot] Ho sample_paired_consistent sample_devices_agree).
  reflexivity.
Defined.

(** On Windows the old registry is removed before the new one takes its place: a process that
    dies in between leaves no registry, which a restart takes for an empty one. *)
Lemma windows_save_can_lose_registry :
  let d := sample_paired_desk in
  let w := {| files := files (desk_world d); ops_left := Some 4%nat; io_fault := io_fault (desk_world d);
              torn_write := torn_write (desk_world d) |} in
  let out := save_monitor_devices sample_platform true "42" sample_devices_print [] w in
  out.1 = None /\ registry_on "/home/u" sample_devices_read (files w) <> Some []
  /\ registry_on "/home/u" sample_devices_read (files out.2) = Some [].
Proof. vm_compute. split; [reflexivity|]. split; [discriminate|reflexivity]. Qed.
