(* ===== verification/Identity.v ===== *)
(** * The desktop's identities

    The identifier a desktop is known by ([ensure_monitor_desktop_id] of [main.rs]) and the
    certificate a phone pins ([ensure_tls_identity] of [monitor_server.rs]): both are made
    once and must stay. *)

From S2P Require Export MonitorDevices.
Local Open Scope string_scope.

Definition identity_in (dir : string) : Path := {| parent := Some dir; file_name := "monitor-identity.json" |}.

(** [starts_with("d_") && len() >= 18 && len() <= 80 && [2..].bytes().all(…)] *)
Definition valid_desktop_id (id : string) : bool :=
  starts_with "d_" id && (18 <=? String.length id)%nat && (String.length id <=? 80)%nat
  && string_forall is_ascii_hexdigit (string_skip 2 id).

Definition identity_value (desktop_id : string) : Value :=
  Object [("schemaVersion", Number (Some 1%N)); ("desktopId", VString desktop_id)].

Section DesktopId.
Context (P : Platform) (process_id : string) (value_to_string_pretty : Value -> Result string string).

Definition monitor_identity_path : Fs (Result Path string) :=
  dir <-fs? state_dir (base_dir P) ;; fs_ret (Ok (identity_in dir)).

(** The identifier in the text of the file, if it holds a usable one. *)
Definition stored_desktop_id (text : string) : option string :=
  match read_value P text with
  | Ok value =>
      match Json.get "desktopId" value with
      | Some (VString desktop_id) => if valid_desktop_id (trim desktop_id) then Some (trim desktop_id) else None
      | _ => None
      end
  | Err _ => None
  end.

Definition identity_temp (path : Path) : Path := with_extension path ("json." ++ process_id ++ ".tmp").

(** Writing a new identity; [random] are the bytes drawn. *)
Definition new_desktop_id (random : option bytes) (path : Path) : Fs (Result string string) :=
  match generate_monitor_token random with
  | Err e => fs_ret (Err e)
  | Ok random =>
      let desktop_id := "d_" ++ slice_to 32 random in
      match value_to_string_pretty (identity_value desktop_id) with
      | Err e => fs_ret (Err ("序列化 Desktop Identity 失败：" ++ e))
      | Ok text =>
          _ <-fs? fs_map_err (fun e => "保存 Desktop Identity 临时文件失败：" ++ io_display e)
                    (write_file (identity_temp path) (text ++ String "010" "")) ;;
          _ <-fs? fs_map_err (fun e => "更新 Desktop Identity 失败：" ++ io_display e)
                    (rename (identity_temp path) path) ;;
          fs_ret (Ok desktop_id)
      end
  end.

Definition ensure_monitor_desktop_id (random : option bytes) : Fs (Result string string) :=
  path <-fs? monitor_identity_path ;;
  text <-fs read_to_string path ;;
  match (match text with Ok text => stored_desktop_id text | Err _ => None end) with
  | Some desktop_id => fs_ret (Ok desktop_id)
  | None => new_desktop_id random path
  end.
End DesktopId.

(** ** The certificate *)

Definition cert_in (dir : string) : Path := {| parent := Some dir; file_name := "monitor-cert.der" |}.
Definition key_in (dir : string) : Path := {| parent := Some dir; file_name := "monitor-key.der" |}.

Record MonitorTlsIdentity := {
  tls_cert : string;
  tls_key : string;
  fingerprint_sha256 : string }.

Section Tls.
(** The library's generator of self-signed certificates, what it says of a certificate with a
    key when a server is configured, and SHA-256.  The files hold bytes. *)
Context (self_signed : Result (string * string) string) (tls_config : string -> string -> Result unit string)
        (sha256 : string -> bytes).

(** [write_private_file] *)
Definition write_private_file (path : Path) (content : string) : Fs (Result unit string) :=
  _ <-fs? fs_map_err (fun e => "创建 Monitor TLS 私钥失败：" ++ io_display e) (open_truncate path) ;;
  fs_map_err (fun e => "保存 Monitor TLS 私钥失败：" ++ io_display e) (write_all path content).

(** [cert_path.is_file() && key_path.is_file()] *)
Definition both_files (cert key : Path) : Fs bool :=
  cert_there <-fs path_exists cert ;;
  if (cert_there : bool) then path_exists key else fs_ret false.

Definition stored_or_new_pair (cert_path key_path : Path) : Fs (Result (string * string) string) :=
  there <-fs both_files cert_path key_path ;;
  if (there : bool)
  then
    cert <-fs? fs_map_err (fun e => "读取 Monitor TLS 证书失败：" ++ io_display e) (read_to_string cert_path) ;;
    key <-fs? fs_map_err (fun e => "读取 Monitor TLS 私钥失败：" ++ io_display e) (read_to_string key_path) ;;
    fs_ret (Ok (cert, key))
  else
    match self_signed with
    | Err e => fs_ret (Err ("生成 Monitor TLS 证书失败：" ++ e))
    | Ok (cert, key) =>
        _ <-fs? fs_map_err (fun e => "保存 Monitor TLS 证书失败：" ++ io_display e) (write_file cert_path cert) ;;
        _ <-fs? write_private_file key_path key ;;
        fs_ret (Ok (cert, key))
    end.

Definition ensure_tls_identity (dir : string) : Fs (Result MonitorTlsIdentity string) :=
  _ <-fs? fs_map_err (fun e => "创建 Monitor TLS 目录失败：" ++ io_display e) (create_dir_all dir) ;;
  pair <-fs? stored_or_new_pair (cert_in dir) (key_in dir) ;;
  let '(cert, key) := pair in
  match tls_config cert key with
  | Err e => fs_ret (Err ("加载 Monitor TLS 证书失败：" ++ e))
  | Ok _ => fs_ret (Ok {| tls_cert := cert; tls_key := key; fingerprint_sha256 := hex_of_bytes (sha256 cert) |})
  end.
End Tls.

(** ** The identifier stays *)

Section DesktopIdProps.
Context (P : Platform) (base : string) (Hbase : base_dir P = Ok base) (process_id : string)
        (value_to_string_pretty : Value -> Result string string).

#[local] Abbreviation file := (identity_in (base ++ "/state")).
#[local] Abbreviation ensure := (ensure_monitor_desktop_id P process_id value_to_string_pretty).

(** A JSON reader that reads back the identity that was printed. *)
Definition identity_json_agrees : Prop := forall id text,
  value_to_string_pretty (identity_value id) = Ok text ->
  read_value P (text ++ String "010" "") = Ok (identity_value id).

(** The identity a restart would find. *)
Definition identity_on (fs : gmap Path string) : option string :=
  match fs !! file with Some text => stored_desktop_id P text | None => None end.

Lemma identity_path_inv w res w' : monitor_identity_path P w = (res, w') ->
  files w' = files w /\ io_fault w' = io_fault w /\ forall p, res = Some (Ok p) -> p = file.
Proof using base Hbase.
  unfold monitor_identity_path. rewrite Hbase.
  intros [[H ->]|[(e & H & ->)|(dir & w1 & H & Hk)]]%fs_try_inv;
    apply state_dir_inv in H as (Hf & Hi & _ & Hd); [by split_and!..|].
  injection Hk as <- <-. split_and!; try done. intros p [= <-]. by rewrite (Hd dir eq_refl).
Qed.

Lemma stored_id_valid text id : stored_desktop_id P text = Some id -> valid_desktop_id id = true.
Proof.
  unfold stored_desktop_id. intros H. destruct (read_value P text) as [v|]; [|done].
  destruct (Json.get _ v) as [[]|]; try done. destruct (valid_desktop_id _) eqn:Hv; [|done]. congruence.
Qed.

Lemma substring_forall f n s : string_forall f s = true -> string_forall f (substring 0 n s) = true.
Proof.
  revert n. induction s as [|a s IH]; intros [|n]; cbn; try done.
  intros [-> H]%andb_true_iff. by apply IH.
Qed.

Lemma length_substring n s : (n <= String.length s)%nat -> String.length (substring 0 n s) = n.
Proof. revert n. induction s as [|a s IH]; intros [|n]; cbn; try lia. intros H. rewrite IH; lia. Qed.

(** A new identifier is a usable one; the source always draws 32 bytes. *)
Lemma new_id_valid bytes : length bytes = 32 ->
  let id := "d_" ++ slice_to 32 (hex_of_bytes bytes) in valid_desktop_id id = true /\ trim id = id.
Proof.
  intros Hlen id. pose proof (hex_of_bytes_hexdigit bytes) as Hhex. apply (substring_forall _ 32) in Hhex.
  assert (String.length (slice_to 32 (hex_of_bytes bytes)) = 32) as Hl
    by (apply length_substring; rewrite length_hex_of_bytes, Hlen; lia).
  split.
  - unfold valid_desktop_id, id, slice_to in *. cbn. rewrite Hl. cbn. rewrite Hhex. by destruct (substring 0 32 (hex_of_bytes bytes)).
  - apply trim_graphic. unfold id, slice_to. cbn [append string_forall]. change (is_graphic "d") with true.
    change (is_graphic "_") with true. cbn. eapply string_forall_impl; [|exact Hhex].
    intros a Ha. by apply hexdigit_graphic.
Qed.

Lemma identity_temp_ne : identity_temp process_id file <> file.
Proof. by apply with_extension_ne. Qed.

(** What the identity file holds afterwards: what it held, or a complete new identity. *)
Definition identity_kept_or (id : string) (fs fs' : gmap Path string) : Prop :=
  fs' !! file = fs !! file \/ identity_on fs' = Some id.

Lemma new_desktop_id_inv bytes w res w' :
  new_desktop_id process_id value_to_string_pretty (Some bytes) file w = (res, w') ->
  identity_json_agrees -> length bytes = 32 ->
  let id := "d_" ++ slice_to 32 (hex_of_bytes bytes) in
  io_fault w' = io_fault w
  /\ (forall x, res = Some (Ok x) -> x = id /\ identity_on (files w') = Some id)
  /\ identity_kept_or id (files w) (files w').
Proof.
  intros H Hjson Hlen id. pose proof (new_id_valid bytes Hlen) as [Hv Ht]. fold id in Hv, Ht.
  pose proof identity_temp_ne as Hne. unfold new_desktop_id, generate_monitor_token in H. fold id in H.
  destruct (value_to_string_pretty _) as [text|e] eqn:Hp; [|injection H as <- <-; split_and!; [done..|by left]].
  apply fs_try_inv in H as [[H ->]|[(e & H & ->)|(u & w1 & H & Hk)]];
    apply fs_map_err_inv in H as (r & H & Hr); apply write_file_inv in H as (Hi & Ho & Hw);
    [split_and!; [done..|left; by rewrite Ho]..|].
  assert (files w1 !! identity_temp process_id file = Some (text ++ String "010" "")) as Htemp
    by (apply Hw; destruct r as [[[]|]|]; cbn in Hr; congruence).
  assert (forall r0 w2, rename (identity_temp process_id file) file w1 = (r0, w2) ->
            io_fault w2 = io_fault w /\ (r0 = Some (Ok tt) -> identity_on (files w2) = Some id)
            /\ identity_kept_or id (files w) (files w2)) as Hren.
  { intros r0 w2 [Hi2 [(-> & t & Hs & Hf)|[Hr2 Hf]]]%rename_inv.
    - assert (identity_on (files w2) = Some id) as Hon.
      { unfold identity_on. rewrite Hf, lookup_insert_eq. rewrite Htemp in Hs. injection Hs as <-.
        unfold stored_desktop_id. rewrite (Hjson _ _ Hp).
        change (Json.get "desktopId" (identity_value id)) with (Some (VString id)). cbv beta iota. by rewrite Ht, Hv. }
      split_and!; [congruence|done|by right].
    - split_and!; [congruence|done|]. left. by rewrite Hf, Ho. }
  apply fs_try_inv in Hk as [[H2 ->]|[(e & H2 & ->)|(u2 & w2 & H2 & Hk)]];
    apply fs_map_err_inv in H2 as (r2 & H2 & Hr2); apply Hren in H2 as (Hi2 & Hon & Hkept); [by split_and!..|].
  injection Hk as <- <-. destruct r2 as [[[]|]|]; [|done..]. split_and!; [done| |done].
  intros x [= <-]. split; [done|]. by apply Hon.
Qed.

Lemma ensure_inv bytes w res w' : ensure (Some bytes) w = (res, w') ->
  (files w' = files w /\ forall id, res = Some (Ok id) -> identity_on (files w) = Some id)
  \/ (exists w1, files w1 = files w /\ io_fault w1 = io_fault w
      /\ (io_fault w (ReadFile file) = None -> identity_on (files w) = None)
      /\ new_desktop_id process_id value_to_string_pretty (Some bytes) file w1 = (res, w')).
Proof using base Hbase.
  intros [[H ->]|[(e & H & ->)|(p & w1 & H & Hk)]]%fs_try_inv; apply identity_path_inv in H as (Hf & Hi & Hp);
    [by left..|].
  specialize (Hp p eq_refl) as ->. apply fs_bind_inv in Hk as [[H ->]|(r & w2 & H & Hk)];
    pose proof H as Hread; apply read_to_string_inv in H as (Hf2 & Hi2 & Hr); [left; split; [congruence|done]|].
  destruct (match r with Ok _ => _ | Err _ => _ end) as [id|] eqn:Hid.
  - injection Hk as <- <-. left. split; [congruence|]. intros id' [= <-].
    destruct r as [text|]; [|done]. unfold identity_on. by rewrite <- Hf, Hr.
  - right. exists w2. split_and!; [congruence..| |done]. intros Hio. rewrite <- Hi in Hio.
    apply (read_to_string_exact _ _ _ _ Hread) in Hio. unfold identity_on. rewrite <- Hf.
    destruct (files w1 !! file) as [text|]; [|done]. by rewrite Hio in Hid.
Qed.

End DesktopIdProps.

(** ** The certificate stays *)

Section TlsProps.
Context (self_signed : Result (string * string) string) (tls_config : string -> string -> Result unit string)
        (sha256 : string -> bytes) (dir : string).

#[local] Abbreviation ensure_tls := (ensure_tls_identity self_signed tls_config sha256 dir).

(** The certificate and key on disk, when both are there. *)
Definition pair_on (fs : gmap Path string) : option (string * string) :=
  match fs !! cert_in dir, fs !! key_in dir with Some cert, Some key => Some (cert, key) | _, _ => None end.

(** The two files can be looked for. *)
Definition seen (w : World) : Prop := io_fault w (ExistsFile (cert_in dir)) = None /\ io_fault w (ExistsFile (key_in dir)) = None.

Lemma both_files_inv w res w' : both_files (cert_in dir) (key_in dir) w = (res, w') -> seen w ->
  files w' = files w /\ forall b, res = Some b -> (b = true <-> is_Some (pair_on (files w))).
Proof.
  intros H [Hc Hk]. unfold pair_on.
  apply fs_bind_inv in H as [[H ->]|(there & w1 & H & H2)]; apply path_exists_inv in H as (Hf & Hi & Hr);
    [done|]. specialize (Hr Hc) as [Hr|Hr]; [done|]. injection Hr as ->.
  destruct (files w !! cert_in dir) as [cert|].
  - apply path_exists_inv in H2 as (Hf2 & Hi2 & Hr2). rewrite Hi in Hr2. specialize (Hr2 Hk). split; [congruence|].
    intros b ->. destruct Hr2 as [?|[= ->]]; [done|]. rewrite Hf.
    destruct (files w !! key_in dir); (split; [|by intros [? [=]]]); [by eexists|done].
  - injection H2 as <- <-. split; [done|]. intros b [= <-]. split; [done|]. by intros [? [=]].
Qed.

Lemma write_private_inv path content w res w' : write_private_file path content w = (res, w') ->
  only_at path w w' /\ (res = Some (Ok tt) -> files w' !! path = Some content).
Proof.
  intros [[H ->]|[(e & H & ->)|([] & w1 & H & Hk)]]%fs_try_inv; apply fs_map_err_inv in H as (r & H & Hr);
    apply open_truncate_inv in H as (Ho & _ & _); [by split..|].
  apply fs_map_err_inv in Hk as (r2 & Hk & ->). apply write_all_inv in Hk as (Ho2 & _ & Hw).
  split; [by eapply only_at_trans|]. destruct r2 as [[[]|]|]; [|done..]. intros _. by apply Hw.
Qed.

Lemma stored_or_new_inv w res w' : stored_or_new_pair self_signed (cert_in dir) (key_in dir) w = (res, w') -> seen w ->
  (is_Some (pair_on (files w)) -> files w' = files w)
  /\ forall pair, res = Some (Ok pair) -> pair_on (files w') = Some pair.
Proof.
  assert (cert_in dir <> key_in dir) as Hne by done.
  intros H Hs. apply fs_bind_inv in H as [[H ->]|(there & w1 & H & Hk)]; apply both_files_inv in H as [Hf Hb];
    [|done| |done]; [by split|].
  specialize (Hb there eq_refl). destruct there.
  - apply fs_try_inv in Hk as [[H ->]|[(e & H & ->)|(cert & w2 & H & Hk)]]; apply fs_map_err_inv in H as (r & H & Hr);
      apply read_to_string_inv in H as (Hf2 & _ & Hr2); [split; [congruence|done]..|].
    destruct r as [[c|]|]; [|done..]. injection Hr as <-.
    apply fs_try_inv in Hk as [[H ->]|[(e & H & ->)|(key & w3 & H & Hk)]]; apply fs_map_err_inv in H as (r & H & Hr);
      apply read_to_string_inv in H as (Hf3 & _ & Hr3); [split; [congruence|done]..|].
    destruct r as [[k|]|]; [|done..]. injection Hr as <-. injection Hk as <- <-. split; [congruence|].
    intros pair [= <-]. unfold pair_on. by rewrite Hf3, Hr3, Hf2, Hr2.
  - split; [intros H; apply Hb in H; done|]. intros pair ->.
    destruct self_signed as [[cert key]|]; [|by injection Hk].
    apply fs_try_inv in Hk as [[H ?]|[(e & H & ?)|([] & w2 & H & Hk)]]; [done..|].
    apply fs_map_err_inv in H as (r & H & Hr). apply write_file_inv in H as (_ & _ & Hw).
    destruct r as [[[]|]|]; [|done..]. specialize (Hw eq_refl).
    apply fs_try_inv in Hk as [[H ?]|[(e & H & ?)|([] & w3 & H & Hk)]]; [done..|].
    apply write_private_inv in H as ((_ & _ & Ho) & Hw2). specialize (Hw2 eq_refl). injection Hk as <- <-.
    unfold pair_on. by rewrite Ho, Hw, Hw2.
Qed.

Lemma ensure_tls_inv w res w' : ensure_tls w = (res, w') -> seen w ->
  (is_Some (pair_on (files w)) -> files w' = files w)
  /\ forall t, res = Some (Ok t) -> pair_on (files w') = Some (tls_cert t, tls_key t)
     /\ tls_config (tls_cert t) (tls_key t) = Ok tt /\ fingerprint_sha256 t = hex_of_bytes (sha256 (tls_cert t)).
Proof.
  intros H Hs. apply fs_try_inv in H as [[H ->]|[(e & H & ->)|(u & w1 & H & Hk)]];
    apply fs_map_err_inv in H as (r & H & Hr); apply create_dir_all_inv in H as [Hf Hi]; [by split..|].
  assert (seen w1) as Hs1 by (destruct Hs; split; congruence). rewrite <- Hf.
  apply fs_try_inv in Hk as [[H ->]|[(e & H & ->)|([cert key] & w2 & H & Hk)]];
    apply stored_or_new_inv in H as [Hsame Hpair]; try done.
  destruct (tls_config cert key) as [[]|e] eqn:Hc; injection Hk as <- <-; [|done]. split; [done|].
  intros t [= <-]. cbn. split_and!; [by apply Hpair|exact Hc|done].
Qed.

(** The certificate a phone has pinned is not replaced.  A pair of files that is there is left
    alone and is what is used; whatever is answered loads, is on disk as a whole, and is
    answered again by every later call that succeeds.  (The two files can be looked for.) *)
Theorem tls_identity_stable w res w' : ensure_tls w = (res, w') -> seen w ->
  (forall cert key, pair_on (files w) = Some (cert, key) ->
     files w' = files w /\ forall t, res = Some (Ok t) -> tls_cert t = cert /\ tls_key t = key)
  /\ (forall t, res = Some (Ok t) -> pair_on (files w') = Some (tls_cert t, tls_key t)
        /\ tls_config (tls_cert t) (tls_key t) = Ok tt
        /\ forall w2 t2 w3, pair_on (files w2) = pair_on (files w') -> seen w2 ->
             ensure_tls w2 = (Some (Ok t2), w3) -> fingerprint_sha256 t2 = fingerprint_sha256 t).
Proof.
  intros H Hs. destruct (ensure_tls_inv _ _ _ H Hs) as [Hsame Ht]. split.
  - intros cert key Hp. rewrite Hp in Hsame. specialize (Hsame ltac:(by eexists)). split; [done|].
    intros t Hr. destruct (Ht t Hr) as (Hp' & _). rewrite Hsame, Hp in Hp'. by injection Hp' as -> ->.
  - intros t Hr. destruct (Ht t Hr) as (Hp & Hc & Hfp). split_and!; [done..|].
    intros w2 t2 w3 Hp2 Hs2 H2. destruct (ensure_tls_inv _ _ _ H2 Hs2) as [Hsame2 Ht2].
    destruct (Ht2 t2 eq_refl) as (Hp3 & _ & Hfp2). rewrite Hsame2 in Hp3 by (rewrite Hp2, Hp; by eexists).
    rewrite Hp2, Hp in Hp3. injection Hp3 as Hc3 _. congruence.
Qed.

(** A pair that does not load is never replaced: no later call succeeds. *)
Lemma broken_pair_stays w cert key e res w' : pair_on (files w) = Some (cert, key) -> tls_config cert key = Err e ->
  seen w -> ensure_tls w = (res, w') -> files w' = files w /\ forall t, res <> Some (Ok t).
Proof.
  intros Hp He Hs H. destruct (ensure_tls_inv _ _ _ H Hs) as [Hsame Ht]. rewrite Hp in Hsame.
  specialize (Hsame ltac:(by eexists)). split; [done|]. intros t Hr. destruct (Ht t Hr) as (Hp' & Hc & _).
  rewrite Hsame, Hp in Hp'. injection Hp' as -> ->. congruence.
Qed.
End TlsProps.

(** ** Witnesses *)

Definition sample_identity_print (v : Value) : Result string string :=
  match Json.get "desktopId" v with Some (VString id) => Ok id | _ => Err "no identity" end.
Definition sample_identity_read (text : string) : Result Value string :=
  match rev (list_ascii_of_string text) with
  | newline :: rest => Ok (identity_value (string_of_list_ascii (rev rest)))
  | [] => Err "empty"
  end.
Definition sample_identity_platform : Platform :=
  {| base_dir := Ok "/home/u"; system_proxy := Ok None; key_saved := false; read_settings := fun _ => None;
     read_value := sample_identity_read; print_settings := fun _ => Err ""; from_utf8 := id; read_report := fun _ => None;
     client_log := fun _ _ => None; now_text := fun _ => "1"; now_millis := fun _ => 1000%N; temp_suffix := fun _ => "1";
     settings_write_lock_ok := true; resource_roots := []; executable_suffix := ""; environment := ∅;
     client := fun _ _ _ _ _ => Err "" |}.

Lemma list_ascii_app (a b : string) : list_ascii_of_string (a ++ b) = (list_ascii_of_string a ++ list_ascii_of_string b)%list.
Proof. induction a as [|x a IH]; cbn; [done|]. by rewrite IH. Qed.

Lemma sample_identity_agrees : identity_json_agrees sample_identity_platform sample_identity_print.
Proof.
  intros id text [= <-]. cbn. unfold sample_identity_read. rewrite list_ascii_app, rev_app_distr. cbn.
  by rewrite rev_involutive, string_of_list_ascii_of_string.
Qed.

Definition sample_draw : list byte := repeat x5a 32.


Definition sample_tls_sha (s : string) : list byte := list_byte_of_string s.
Definition sample_tls_config (cert key : string) : Result unit string := if String.eqb key "key" then Ok tt else Err "bad key".
#[local] Abbreviation sample_ensure_tls := (ensure_tls_identity (Ok ("cert", "key")) sample_tls_config sample_tls_sha "/tls").

Lemma tls_identity_stable_witness :
  exists t w', sample_ensure_tls (healthy ∅) = (Some (Ok t), w')
    /\ pair_on "/tls" (files w') = Some (tls_cert t, tls_key t).
Proof.
  destruct (sample_ensure_tls (healthy ∅)) as [res w'] eqn:H.
  destruct (tls_identity_stable (Ok ("cert", "key")) sample_tls_config sample_tls_sha "/tls" (healthy ∅) res w' H
              (conj eq_refl eq_refl)) as (_ & Hok).
  assert (res = (sample_ensure_tls (healthy ∅)).1) as Hres by (by rewrite H).
  vm_compute in Hres. eexists _, w'. split; [by rewrite Hres|]. by destruct (Hok _ Hres) as (Hp & _).
Defined.

(** ** Where the code does not do what it means to *)

(** Dying in the middle of writing the key leaves a pair of files that never loads, and that
    no later start replaces. *)
Lemma torn_tls_key_is_permanent :
  let dying := {| files := ∅; ops_left := Some 4%nat; io_fault := fun _ => None;
                  torn_write := fun p => if bool_decide (p = key_in "/tls") then Some "k" else None |} in
  let after := healthy (files (sample_ensure_tls dying).2) in
  (sample_ensure_tls dying).1 = None
  /\ forall res w', sample_ensure_tls after = (res, w') -> files w' = files after /\ forall t, res <> Some (Ok t).
Proof.
  intros dying after. split; [by vm_compute|]. intros res w'.
  apply (broken_pair_stays (Ok ("cert", "key")) sample_tls_config sample_tls_sha "/tls" after "cert" "k" "bad key");
    [by vm_compute|done|done].
Qed.

(** An identity file that cannot be read once is replaced: the desktop becomes another one. *)
Lemma identity_replaced_on_read_error :
  let kept := "d_00112233445566778899" ++ String "010" "" in
  let stored := <[identity_in "/home/u/state" := kept]> ∅ in
  let unreadable := {| files := stored; ops_left := None;
                       io_fault := fun op => match op with ReadFile _ => Some (OtherIo "busy") | _ => None end;
                       torn_write := fun _ => None |} in
  let out := ensure_monitor_desktop_id sample_identity_platform "7" sample_identity_print (Some sample_draw) unreadable in
  identity_on sample_identity_platform "/home/u" stored = Some "d_00112233445566778899"
  /\ out.1 = Some (Ok "d_5a5a5a5a5a5a5a5a5a5a5a5a5a5a5a5a")
  /\ identity_on sample_identity_platform "/home/u" (files out.2) = Some "d_5a5a5a5a5a5a5a5a5a5a5a5a5a5a5a5a".
Proof. vm_compute. by split_and!. Qed.
