(* ===== verification/MonitorHttp.v ===== *)
(** * Requests to the monitor's HTTPS port ([src-tauri/src/monitor_server.rs])

    Reading the head of a request from the stream, its parsing, and the query of its path:
    what an unauthenticated peer can make the server do.  A slice that is not on character
    boundaries panics and is [None] here. *)

From S2P Require Export Proxy Protocol.
Local Open Scope string_scope.

(** ** Text *)

Definition crlf : string := String "013" (String "010" "").
Definition end_of_head : string := crlf ++ crlf.

(** [text.split("\r\n")] *)
Fixpoint split_crlf (s : string) : list string :=
  match s with
  | EmptyString => [""]
  | String a rest =>
      match a, rest with
      | "013"%char, String "010" rest' => "" :: split_crlf rest'
      | _, _ => match split_crlf rest with
                | line :: lines => String a line :: lines
                | [] => [String a ""]
                end
      end
  end.

(** The words of [split_whitespace], from the characters of the text; [word] is the one being
    read. *)
Fixpoint words (word : string) (cs : list string) : list string :=
  match cs with
  | [] => if is_empty word then [] else [word]
  | c :: cs =>
      if is_whitespace c then (if is_empty word then [] else [word]) ++ words "" cs
      else words (word ++ c) cs
  end%list.

Definition split_whitespace (s : string) : list string := words "" (utf8_chars s).

Definition to_ascii_upper (a : ascii) : ascii :=
  if is_ascii_lower a then ascii_of_N (ascii_code a - 32) else a.

Fixpoint to_ascii_uppercase (s : string) : string :=
  match s with
  | EmptyString => ""
  | String a rest => String (to_ascii_upper a) (to_ascii_uppercase rest)
  end.

Definition eq_ignore_ascii_case (a b : string) : bool := String.eqb (to_ascii_lowercase a) (to_ascii_lowercase b).

(** ** The head of a request *)

Record HttpRequestHead := {
  method : string;
  path : string;
  bearer_token : option string;
  websocket_upgrade : bool }.

(** What a [read] of the stream ends with; no bytes mean the end of the stream. *)
Inductive ReadResult :=
| ReadBytes (chunk : string)
| ReadBlocked
| ReadFailed (error : string).

Definition max_http_header_bytes : N := 16 * 1024.
Definition chunk_bytes : N := 1024.
Definition hello_timeout_ms : N := 5000.

Section Head.
Context (from_utf8_lossy : string -> string).

(** The reading loop: [clock i] is the time since its start at its [i]-th round and
    [incoming i] what the stream then gives.  [None]: the fuel is used up. *)
Fixpoint read_head_loop (fuel : nat) (clock : nat -> N) (incoming : nat -> ReadResult) (i : nat) (bytes : string)
    : option (Result string string) :=
  match fuel with
  | O => None
  | S fuel =>
      if contains end_of_head bytes then Some (Ok bytes)
      else if (max_http_header_bytes <=? strlen bytes)%N then Some (Err "Monitor HTTP 请求头过大。")
      else if (hello_timeout_ms <? clock i)%N then Some (Err "Monitor HTTP 请求头超时。")
      else match incoming i with
           | ReadBytes chunk =>
               if is_empty chunk then Some (Err "Monitor HTTP 连接已关闭。")
               else read_head_loop fuel clock incoming (S i) (bytes ++ chunk)
           | ReadBlocked => read_head_loop fuel clock incoming (S i) bytes
           | ReadFailed e => Some (Err ("读取 Monitor HTTP 请求失败：" ++ e))
           end
  end.

(** The bytes up to and including the first [\r\n\r\n]. *)
Fixpoint head_of (bytes : string) : string :=
  if starts_with end_of_head bytes then end_of_head
  else match bytes with
       | String a rest => String a (head_of rest)
       | EmptyString => ""
       end.

Definition bearer_of (value : string) : option string :=
  match strip_prefix "Bearer " value with
  | Some token => if is_empty (trim token) then None else Some (trim token)
  | None => None
  end.

Definition set_bearer (token : option string) (head : HttpRequestHead) : HttpRequestHead :=
  {| method := method head; path := path head; bearer_token := token; websocket_upgrade := websocket_upgrade head |}.
Definition set_upgrade (head : HttpRequestHead) : HttpRequestHead :=
  {| method := method head; path := path head; bearer_token := bearer_token head; websocket_upgrade := true |}.

(** One header line. *)
Definition head_line (head : HttpRequestHead) (line : string) : HttpRequestHead :=
  match split_once ":" line with
  | None => head
  | Some (name, value) =>
      let name := trim name in
      let value := trim value in
      if eq_ignore_ascii_case name "authorization" then set_bearer (bearer_of value) head
      else if eq_ignore_ascii_case name "upgrade" && eq_ignore_ascii_case value "websocket" then set_upgrade head
      else head
  end.

Definition parse_head (text : string) : Result HttpRequestHead string :=
  let lines := split_crlf text in
  let parts := split_whitespace (hd "" lines) in
  let method := to_ascii_uppercase (nth 0 parts "") in
  let path := nth 1 parts "" in
  if is_empty method || is_empty path then Err "Monitor HTTP 请求行无效。"
  else Ok (fold_left head_line (tl lines)
             {| method := method; path := path; bearer_token := None; websocket_upgrade := false |}).

Definition read_http_request_head (fuel : nat) (clock : nat -> N) (incoming : nat -> ReadResult)
    : option (Result (string * HttpRequestHead) string) :=
  match read_head_loop fuel clock incoming 0 "" with
  | None => None
  | Some (Err e) => Some (Err e)
  | Some (Ok bytes) =>
      Some (if contains end_of_head bytes
            then head <-? parse_head (from_utf8_lossy (head_of bytes)) ;; Ok (bytes, head)
            else Err "Monitor HTTP 请求头无效。")
  end.

(** ** The query *)

(** The bytes of the decoded text; a percent sign that is not followed by two hexadecimal
    digits stands for itself. *)
Fixpoint percent_bytes (value : string) : option string :=
  match value with
  | EmptyString => Some ""
  | String c rest =>
      let plain := match percent_bytes rest with
                   | Some out => Some (String (if Ascii.eqb c "+" then " "%char else c) out)
                   | None => None
                   end in
      if Ascii.eqb c "%" then
        match rest with
        | String a (String b rest') =>
            if is_continuation a || starts_continuation rest' then None
            else match u8_from_str_radix16 (String a (String b "")) with
                 | Some byte => match percent_bytes rest' with
                                | Some out => Some (String (ascii_of_byte byte) out)
                                | None => None
                                end
                 | None => plain
                 end
        | _ => plain
        end
      else plain
  end.

Definition percent_decode (value : string) : option string :=
  match percent_bytes value with Some out => Some (from_utf8_lossy out) | None => None end.

Fixpoint query_parts (parts : list string) (output : gmap string string) : option (gmap string string) :=
  match parts with
  | [] => Some output
  | part :: parts =>
      match split_once "=" part with
      | None => query_parts parts output
      | Some (key, value) =>
          match percent_decode key, percent_decode value with
          | Some key, Some value => query_parts parts (<[key := value]> output)
          | _, _ => None
          end
      end
  end.

Definition parse_query (uri : string) : option (gmap string string) :=
  match split_once "?" uri with
  | None => Some ∅
  | Some (_, query) => query_parts (split_on "&" query) ∅
  end.
End Head.

(** [path.split('?').next().unwrap_or("")] *)
Definition route_of (path : string) : string := hd "" (split_on "?" path).

(** ** Reading the head *)

(** More text does not change what a long enough text begins with. *)
Lemma starts_with_more p s more :
  (String.length p <= String.length s)%nat -> starts_with p (s ++ more) = starts_with p s.
Proof.
  revert s. induction p as [|x p IH]; intros s Hl; [by destruct s, more|]. destruct s as [|y s]; cbn in *; [lia|].
  destruct (ascii_dec x y); [apply IH; lia|done].
Qed.

Lemma contains_length needle s : contains needle s = true -> (String.length needle <= String.length s)%nat.
Proof.
  assert (forall p s, starts_with p s = true -> (String.length p <= String.length s)%nat) as Hs.
  { induction p as [|x p IH]; intros t; cbn; [lia|]. destruct t as [|y t]; cbn; [done|].
    destruct (ascii_dec x y); [|done]. intros H%IH. lia. }
  induction s as [|x s IH]; intros H; cbn in H; apply orb_prop in H as [H|H];
    [by destruct needle|done|exact (Hs needle (String x s) H)|].
  apply IH in H. cbn. lia.
Qed.

Section HeadProps.
Context (from_utf8_lossy : string -> string) (clock : nat -> N) (incoming : nat -> ReadResult).

(** What has arrived by the [n]-th round. *)
Fixpoint arrived (n : nat) : string :=
  match n with
  | O => ""
  | S n => arrived n ++ match incoming n with ReadBytes chunk => chunk | _ => "" end
  end.

(** A read fills at most the buffer. *)
Definition buffered : Prop := forall i chunk, incoming i = ReadBytes chunk -> (strlen chunk <= chunk_bytes)%N.

Lemma read_head_loop_inv fuel i r :
  read_head_loop fuel clock incoming i (arrived i) = Some r -> buffered ->
  (strlen (arrived i) < max_http_header_bytes + chunk_bytes)%N ->
  forall bytes, r = Ok bytes ->
  contains end_of_head bytes = true /\ (strlen bytes < max_http_header_bytes + chunk_bytes)%N
  /\ exists n, bytes = arrived n /\ (n = i \/ exists m, n = S m /\ contains end_of_head (arrived m) = false).
Proof.
  intros H Hbuf. revert i H. induction fuel as [|fuel IH]; intros i H Hlen bytes ->; [done|]. cbn [read_head_loop] in H.
  destruct (contains end_of_head (arrived i)) eqn:Hend.
  { injection H as <-. split_and!; [done..|]. exists i. auto. }
  destruct (max_http_header_bytes <=? strlen (arrived i))%N eqn:Hmax; [done|]. apply N.leb_gt in Hmax.
  destruct (hello_timeout_ms <? clock i)%N; [done|].
  assert (forall m, arrived (S i) = m -> (strlen m < max_http_header_bytes + chunk_bytes)%N ->
    read_head_loop fuel clock incoming (S i) m = Some (Ok bytes) ->
    contains end_of_head bytes = true /\ (strlen bytes < max_http_header_bytes + chunk_bytes)%N
    /\ exists n, bytes = arrived n /\ (n = i \/ exists m, n = S m /\ contains end_of_head (arrived m) = false)) as Hstep.
  { intros m <- Hm Hr. destruct (IH _ Hr Hm bytes eq_refl) as (? & ? & n & Hn & Hor). split_and!; [done..|].
    exists n. split; [done|right]. destruct Hor as [->|(m' & -> & Hm')]; [by exists i|by exists m']. }
  destruct (incoming i) as [chunk| |e] eqn:Hin; [|apply (Hstep (arrived i)); [|by lia|done]|done].
  - destruct (is_empty chunk); [done|]. apply (Hstep (arrived i ++ chunk)); [by cbn; rewrite Hin| |done].
    specialize (Hbuf _ _ Hin). unfold strlen in *. rewrite length_append. lia.
  - cbn. rewrite Hin. by rewrite append_nil_r.
Qed.

Lemma read_head_loop_ends fuel i n bytes :
  (i <= n < i + fuel)%nat -> (hello_timeout_ms < clock n)%N ->
  read_head_loop fuel clock incoming i bytes <> None.
Proof.
  revert i bytes. induction fuel as [|fuel IH]; intros i bytes Hn Hclock; [lia|]. cbn [read_head_loop].
  destruct (contains _ _); [done|]. destruct (_ <=? _)%N; [done|].
  destruct (hello_timeout_ms <? clock i)%N eqn:Hlate; [done|].
  assert (i <> n) by (intros ->; apply N.ltb_ge in Hlate; lia).
  destruct (incoming i) as [chunk| |e]; [|by apply IH; [lia|]|done]. destruct (is_empty chunk); [done|]. by apply IH; [lia|].
Qed.

(** The head is decided once its end is there. *)
Lemma head_of_app bytes more : contains end_of_head bytes = true -> head_of (bytes ++ more) = head_of bytes.
Proof.
  induction bytes as [|a bytes IH]; intros H; [done|]. pose proof (contains_length _ _ H) as Hlen.
  pose proof (starts_with_more end_of_head (String a bytes) more Hlen) as Hs.
  cbn [head_of contains String.append] in *. rewrite Hs.
  destruct (starts_with end_of_head (String a bytes)); [done|]. f_equal. by apply IH.
Qed.

(** Reading the head of a request.  With a running clock the loop ends (at the latest in the
    first round after five seconds), however the peer paces its bytes.  When it succeeds, the
    bytes are those that have arrived, fewer than 17 KiB of them, up to the first round in
    which they contain the end of the head; the head that was parsed is the text up to that
    end, and whatever arrived behind it has no influence. *)
Theorem head_read_spec fuel :
  buffered ->
  ((exists n, (n < fuel)%nat /\ (hello_timeout_ms < clock n)%N) ->
     read_http_request_head from_utf8_lossy fuel clock incoming <> None)
  /\ forall bytes head, read_http_request_head from_utf8_lossy fuel clock incoming = Some (Ok (bytes, head)) ->
     (strlen bytes < max_http_header_bytes + chunk_bytes)%N
     /\ (exists n, bytes = arrived n /\ contains end_of_head bytes = true
          /\ forall m, n = S m -> contains end_of_head (arrived m) = false)
     /\ forall more, parse_head (from_utf8_lossy (head_of (bytes ++ more))) = Ok head.
Proof.
  intros Hbuf. unfold read_http_request_head. split.
  - intros (n & Hn & Hc). pose proof (read_head_loop_ends fuel 0 n "" ltac:(lia) Hc) as Hne.
    by destruct (read_head_loop _ _ _ _ _) as [[bytes|e]|].
  - intros bytes head H. destruct (read_head_loop _ _ _ _ _) as [[bytes'|e]|] eqn:Hr; [|done..].
    destruct (contains end_of_head bytes') eqn:Hend; [|done].
    destruct (parse_head _) as [head'|e] eqn:Hp; [|done]. injection H as -> ->.
    destruct (read_head_loop_inv fuel 0 _ Hr Hbuf ltac:(reflexivity) bytes eq_refl)
      as (_ & Hlen & n & Hn & Hor).
    split_and!; [done| |intros more; by rewrite head_of_app].
    exists n. split_and!; [done..|]. intros m ->. destruct Hor as [?|(m' & [= <-] & Hm)]; [done|exact Hm].
Qed.
End HeadProps.

(** ** Percent encoding and queries *)

(** A client's encoding: every byte in hexadecimal. *)
Fixpoint percent_encode (s : string) : string :=
  match s with
  | EmptyString => ""
  | String a rest => String "%" (hex_of_byte (byte_of_ascii a) ++ percent_encode rest)
  end.

Definition render_query (pairs : list (string * string)) : string :=
  String.concat "&" (map (fun '(key, value) => percent_encode key ++ String "=" (percent_encode value)) pairs).

(** Text without the given character. *)
Definition lacks (c : ascii) (s : string) : bool := string_forall (fun a => negb (Ascii.eqb a c)) s.

Lemma hex_of_byte_read b : u8_from_str_radix16 (hex_of_byte b) = Some b.
Proof. by destruct b. Qed.

Lemma hex_of_byte_shape b :
  exists h l, hex_of_byte b = String h (String l "") /\ is_ascii_hexdigit h = true /\ is_ascii_hexdigit l = true.
Proof. destruct b; (eexists _, _; split_and!; reflexivity). Qed.

Lemma starts_continuation_encoded s : starts_continuation (percent_encode s) = false.
Proof. by destruct s. Qed.

Lemma percent_bytes_encoded s : percent_bytes (percent_encode s) = Some s.
Proof.
  induction s as [|a s IH]; [done|]. cbn [percent_encode].
  pose proof (hex_of_byte_read (byte_of_ascii a)) as Hr.
  destruct (hex_of_byte_shape (byte_of_ascii a)) as (h & l & Hs & Hh & _). rewrite Hs in *. cbn [String.append].
  assert (is_continuation h = false) as Hc by (clear -Hh; by destruct h as [[] [] [] [] [] [] [] []]).
  cbn [percent_bytes]. rewrite Hc, starts_continuation_encoded, Hr, IH. cbn. by rewrite ascii_of_byte_of_ascii.
Qed.

Lemma lacks_encoded c s : is_ascii_hexdigit c = false -> Ascii.eqb "%" c = false -> lacks c (percent_encode s) = true.
Proof.
  intros Hc Hp. unfold lacks. induction s as [|a s IH]; [done|]. cbn [percent_encode string_forall]. rewrite Hp.
  destruct (hex_of_byte_shape (byte_of_ascii a)) as (h & l & -> & Hh & Hl).
  assert (forall x, is_ascii_hexdigit x = true -> Ascii.eqb x c = false) as Hne
    by (intros x Hx; destruct (Ascii.eqb_spec x c) as [->|]; congruence).
  cbn. by rewrite (Hne h Hh), (Hne l Hl), IH.
Qed.

Lemma split_once_app c a b : lacks c a = true -> split_once (String c "") (a ++ String c b) = Some (a, b).
Proof.
  induction a as [|x a IH]; cbn; [by rewrite Ascii.eqb_refl|].
  intros [Hx Ha]%andb_prop. apply negb_true_iff in Hx. by rewrite Ascii.eqb_sym, Hx, (IH Ha).
Qed.

Lemma split_on_concat c parts :
  Forall (fun part => lacks c part = true) parts -> parts <> [] -> split_on c (String.concat (String c "") parts) = parts.
Proof.
  induction 1 as [|part parts Hp Hps IH]; [done|]. intros _. destruct parts as [|part' parts].
  - cbn. by apply split_on_none.
  - change (String.concat (String c "") (part :: part' :: parts))
      with (part ++ String c (String.concat (String c "") (part' :: parts))).
    rewrite split_on_app by done. by rewrite IH.
Qed.

Section QueryProps.
Context (from_utf8_lossy : string -> string).

Lemma query_parts_rendered pairs output :
  (forall key value, In (key, value) pairs -> from_utf8_lossy key = key /\ from_utf8_lossy value = value) ->
  query_parts from_utf8_lossy (map (fun '(key, value) => percent_encode key ++ String "=" (percent_encode value)) pairs) output
  = Some (fold_left (fun output '(key, value) => <[key := value]> output) pairs output).
Proof.
  revert output. induction pairs as [|[key value] pairs IH]; intros output Hvalid; [done|]. cbn [map query_parts fold_left].
  rewrite split_once_app by (by apply lacks_encoded). unfold percent_decode. rewrite !percent_bytes_encoded.
  destruct (Hvalid key value) as [-> ->]; [by left|]. apply IH. intros k v Hin. apply Hvalid. by right.
Qed.

(** A query is read back as it was written.  For any keys and values, of any bytes that are
    valid text, the query a client renders by percent encoding is parsed into exactly the map
    of its pairs (the last value of a key counting), the route is the path before it, and
    parsing does not panic. *)
Theorem query_roundtrip path pairs :
  lacks "?" path = true ->
  (forall key value, In (key, value) pairs -> from_utf8_lossy key = key /\ from_utf8_lossy value = value) ->
  route_of (path ++ String "?" (render_query pairs)) = path
  /\ parse_query from_utf8_lossy (path ++ String "?" (render_query pairs))
     = Some (fold_left (fun output '(key, value) => <[key := value]> output) pairs ∅).
Proof.
  intros Hpath Hvalid. unfold route_of, parse_query. rewrite split_on_app, split_once_app by done. split; [done|].
  destruct pairs as [|pair pairs]; [done|]. unfold render_query. rewrite split_on_concat; [by apply query_parts_rendered| |done].
  apply List.Forall_map, Forall_forall. intros [key value] _. unfold lacks. rewrite string_forall_app.
  apply andb_true_intro. split; [|apply andb_true_intro; split; [done|]]; by apply (lacks_encoded "&").
Qed.
End QueryProps.

(** A percent sign in front of a character that is not ASCII makes the slice panic, whatever the
    decoder does with invalid text. *)
Lemma percent_panics decode : parse_query decode "/v1/monitor/snapshot?deviceId=%中" = None.
Proof. reflexivity. Qed.

(** A sign is taken for a digit. *)
Lemma percent_sign_accepted : percent_bytes "%+5" = Some (String "005" "").
Proof. reflexivity. Qed.

(** ** Witnesses *)

Definition sample_request : string :=
  "get /v1/monitor/snapshot?deviceId=dev_1 HTTP/1.1" ++ crlf ++ "Authorization: Bearer tok " ++ crlf ++ "UPGRADE: WebSocket"
  ++ end_of_head ++ "body".

(** The request arrives in two chunks with a pause between them. *)
Definition sample_incoming (i : nat) : ReadResult :=
  match i with
  | 0%nat => ReadBytes (substring 0 60 sample_request)
  | 1%nat => ReadBlocked
  | 2%nat => ReadBytes (string_skip 60 sample_request)
  | _ => ReadBytes ""
  end.
Definition sample_clock (i : nat) : N := (500 * N.of_nat i)%N.

Lemma sample_buffered : buffered sample_incoming.
Proof. intros [|[|[|i]]] chunk [= <-]; vm_compute; discriminate. Qed.

Lemma head_read_spec_witness :
  let out := read_http_request_head (fun s => s) 20 sample_clock sample_incoming in
  out = Some (Ok (sample_request, {| method := "GET"; path := "/v1/monitor/snapshot?deviceId=dev_1";
                                     bearer_token := Some "tok"; websocket_upgrade := true |}))
  /\ out <> None.
Proof.
  intros out. split; [vm_compute; reflexivity|].
  apply (head_read_spec (fun s => s) sample_clock sample_incoming 20 sample_buffered).
  exists 11%nat. split; [lia|vm_compute; reflexivity].
Defined.

Lemma query_roundtrip_witness :
  parse_query (fun s => s) ("/v1/ws/pair" ++ String "?" (render_query [("deviceId", "a&b=c%+中"); ("deviceId", "d e")]))
  = Some {[ "deviceId" := "d e" ]}.
Proof.
  rewrite (proj2 (query_roundtrip (fun s => s) "/v1/ws/pair" _ ltac:(reflexivity) ltac:(intros; split; reflexivity))).
  vm_compute. reflexivity.
Defined.
