(* ===== verification/Upgrade.v ===== *)
(** * Upgrading a connection of the Monitor server ([src-tauri/src/monitor_server.rs])

    The head of a request is read from the TLS stream before the websocket is accepted; a
    stream that first gives back what was read stands in for the TLS stream from then on. *)

From S2P Require Export MonitorHttp.
Local Open Scope string_scope.

(** The stream as it was read so far: what is given back, up to where it was, and how many
    times the stream behind it was read. *)
Record PrefixedStream := { ps_prefix : string; ps_position : nat; ps_inner : nat }.

Section Stream.
(** What the [i]-th [read] of the TLS stream gives, with a buffer of that length. *)
Context (tls : nat -> nat -> ReadResult).

(** [PrefixedStream::new], on a stream that was read [reads] times. *)
Definition prefixed (bytes : string) (reads : nat) : PrefixedStream := {| ps_prefix := bytes; ps_position := 0; ps_inner := reads |}.

(** [self.inner.read(buf)] *)
Definition inner_read (len : nat) (s : PrefixedStream) : ReadResult * PrefixedStream :=
  (tls (ps_inner s) len, {| ps_prefix := ps_prefix s; ps_position := ps_position s; ps_inner := S (ps_inner s) |}).

(** [Cursor::read] *)
Definition cursor_read (len : nat) (s : PrefixedStream) : string := substring 0 len (string_skip (ps_position s) (ps_prefix s)).

Definition prefixed_read (len : nat) (s : PrefixedStream) : ReadResult * PrefixedStream :=
  if (ps_position s <? String.length (ps_prefix s))%nat then
    let chunk := cursor_read len s in
    if (0 <? String.length chunk)%nat
    then (ReadBytes chunk, {| ps_prefix := ps_prefix s; ps_position := ps_position s + String.length chunk; ps_inner := ps_inner s |})
    else inner_read len s
  else inner_read len s.

(** Reads with buffers of these lengths, one after the other, and all that they gave. *)
Fixpoint reads (lens : list nat) (s : PrefixedStream) : string * PrefixedStream :=
  match lens with
  | [] => ("", s)
  | len :: lens =>
      let '(r, s) := prefixed_read len s in
      let '(more, s) := reads lens s in
      (match r with ReadBytes chunk => chunk ++ more | _ => more end, s)
  end.

(** What the stream gives in these reads, from the [i]-th on. *)
Fixpoint streamed (i : nat) (lens : list nat) : string :=
  match lens with
  | [] => ""
  | len :: lens => match tls i len with ReadBytes chunk => chunk ++ streamed (S i) lens | _ => streamed (S i) lens end
  end.

(** The part that was not given back yet. *)
Definition unread (s : PrefixedStream) : string := string_skip (ps_position s) (ps_prefix s).

Lemma substring_skip n s : substring 0 n s ++ string_skip n s = s.
Proof using Type. clear. revert s. induction n as [|n IH]; intros [|a s]; [done..|]. cbn. by rewrite IH. Qed.

Lemma string_skip_add n m s : string_skip (n + m) s = string_skip m (string_skip n s).
Proof using Type. clear. revert s. induction n as [|n IH]; intros [|a s]; [done..| |]; cbn; [by destruct m|by rewrite IH]. Qed.

Lemma string_skip_short n s : (String.length s <= n)%nat -> string_skip n s = "".
Proof using Type. clear. revert s. induction n as [|n IH]; intros [|a s] H; cbn in *; [done|lia|done|]. apply IH. lia. Qed.

Lemma skip_chunk n s : string_skip (String.length (substring 0 n s)) s = string_skip n s.
Proof using Type. clear. revert s. induction n as [|n IH]; intros [|a s]; [done..|]. cbn. by rewrite IH. Qed.

(** One read takes from the front of what is left, or, when nothing is left, from the stream. *)
Lemma prefixed_read_step len s r s' : prefixed_read len s = (r, s') -> (0 < len)%nat ->
  (unread s = "" /\ r = tls (ps_inner s) len /\ ps_inner s' = S (ps_inner s) /\ unread s' = "")
  \/ exists chunk, r = ReadBytes chunk /\ chunk <> "" /\ chunk ++ unread s' = unread s /\ ps_inner s' = ps_inner s.
Proof using Type.
  unfold prefixed_read, inner_read, cursor_read. fold (unread s). intros H Hlen.
  destruct (Nat.ltb_spec (ps_position s) (String.length (ps_prefix s))) as [Hlt|Hge].
  - destruct (Nat.ltb_spec 0 (String.length (substring 0 len (unread s)))) as [Hc|Hc]; injection H as <- <-.
    + right. eexists. split; [done|]. split; [by intros E; rewrite E in Hc; cbn in Hc; lia|]. unfold unread at 2. cbn. rewrite string_skip_add. fold (unread s). by rewrite skip_chunk, substring_skip.
    + left. assert (unread s = "") as E by (destruct (unread s); [done|destruct len; cbn in Hc; lia]). by split_and!.
  - injection H as <- <-. left. unfold unread. cbn. rewrite string_skip_short by done. by split_and!.
Qed.

Lemma reads_exhausted lens s o s' : reads lens s = (o, s') -> Forall (fun len => 0 < len)%nat lens -> unread s = "" ->
  o = streamed (ps_inner s) lens /\ unread s' = "".
Proof using Type.
  revert s o. induction lens as [|len lens IH]; intros s o H Hlens E; cbn in *; [by injection H as <- <-|].
  apply Forall_cons in Hlens as [Hlen Hlens]. destruct (prefixed_read len s) as [r s1] eqn:Hr. destruct (reads lens s1) as [more s2] eqn:Hm.
  injection H as <- <-. apply prefixed_read_step in Hr as [(_ & -> & Hi & E1)|(chunk & _ & Hne & Hc & _)]; [..|done].
  - apply IH in Hm as [-> E2]; [|done..]. rewrite Hi. by destruct (tls (ps_inner s) len).
  - rewrite E in Hc. by destruct chunk.
Qed.

(** Any reads give what was left, then what the stream gives: nothing is lost, repeated or
    reordered, and the stream is not read before the rest was given back. *)
Lemma reads_in_order lens s o s' : reads lens s = (o, s') -> Forall (fun len => 0 < len)%nat lens ->
  exists served, (served <= length lens)%nat /\ o ++ unread s' = unread s ++ streamed (ps_inner s) (skipn served lens)
  /\ ((served < length lens)%nat -> unread s' = "").
Proof using Type.
  revert s o. induction lens as [|len lens IH]; intros s o H Hlens.
  - injection H as <- <-. exists 0%nat. cbn. split_and!; [done|by rewrite append_nil_r|lia].
  - pose proof Hlens as [Hlen Hlens']%Forall_cons. cbn [reads] in H.
    destruct (prefixed_read len s) as [r s1] eqn:Hr. destruct (reads lens s1) as [more s2] eqn:Hm.
    injection H as <- <-. pose proof Hr as Hstep. apply prefixed_read_step in Hstep as [(E & -> & Hi & E1)|(chunk & -> & Hne & Hc & Hi)]; [..|done].
    + apply reads_exhausted in Hm as [-> E2]; [|done..]. exists 0%nat. split; [lia|]. rewrite E, E2, append_nil_r, Hi. split; [|done].
      cbn. by destruct (tls (ps_inner s) len).
    + destruct (IH s1 more Hm Hlens') as (served & Hs & Eo & Eu). exists (S served). split; [cbn; lia|]. split; [|by cbn; intros ?; apply Eu; lia].
      cbn [skipn]. rewrite <- append_assoc, Eo, append_assoc, Hc, Hi. done.
Qed.

Lemma arrived_streamed n : arrived (fun i => tls i (N.to_nat chunk_bytes)) n = streamed 0 (repeat (N.to_nat chunk_bytes) n).
Proof using Type.
  assert (forall k i, streamed i (repeat (N.to_nat chunk_bytes) (S k)) =
    streamed i (repeat (N.to_nat chunk_bytes) k) ++ match tls (i + k) (N.to_nat chunk_bytes) with ReadBytes chunk => chunk | _ => "" end) as Hsnoc.
  { induction k as [|k IH]; intros i.
    - cbn [repeat streamed]. rewrite Nat.add_0_r. by destruct (tls i _); cbn [append]; rewrite ?append_nil_r.
    - change (repeat (N.to_nat chunk_bytes) (S (S k))) with (N.to_nat chunk_bytes :: repeat (N.to_nat chunk_bytes) (S k)).
      cbn [streamed]. rewrite IH. change (repeat (N.to_nat chunk_bytes) (S k)) with (N.to_nat chunk_bytes :: repeat (N.to_nat chunk_bytes) k).
      cbn [streamed]. replace (S i + k)%nat with (i + S k)%nat by lia. by destruct (tls i _); rewrite ?append_assoc. }
  induction n as [|n IH]; [done|]. rewrite Hsnoc. cbn [arrived]. by rewrite IH.
Qed.
End Stream.

(** C24. The websocket is accepted on all that the client sent: whatever the reads of the
    handshake and of the websocket, what they have given so far and what is still to be given
    back are together exactly the bytes that the TLS stream gave, in the reads of the head and
    then in the reads behind it.  The stream is not read again before the head was given back,
    and the head given back is the one that was judged. *)
Theorem handshake_sees_request (from_utf8_lossy : string -> string) (clock : nat -> N) (tls : nat -> nat -> ReadResult)
  (fuel : nat) (bytes : string) (head : HttpRequestHead) (lens : list nat) :
  let incoming i := tls i (N.to_nat chunk_bytes) in
  buffered incoming ->
  read_http_request_head from_utf8_lossy fuel clock incoming = Some (Ok (bytes, head)) ->
  Forall (fun len => 0 < len)%nat lens ->
  exists rounds, bytes = streamed tls 0 (repeat (N.to_nat chunk_bytes) rounds)
  /\ let out := reads tls lens (prefixed bytes rounds) in
     exists served, (served <= length lens)%nat
     /\ out.1 ++ unread out.2 = bytes ++ streamed tls rounds (skipn served lens)
     /\ ((served < length lens)%nat -> unread out.2 = "")
     /\ parse_head (from_utf8_lossy (head_of (out.1 ++ unread out.2))) = Ok head.
Proof.
  intros incoming Hbuf H Hlens. unfold read_http_request_head in H.
  destruct (read_head_loop fuel clock incoming 0 "") as [[bytes'|e]|] eqn:Hr; [|done..].
  destruct (contains end_of_head bytes') eqn:Hend; [|done]. destruct (parse_head _) as [head'|e] eqn:Hp; [|done]. injection H as -> ->.
  destruct (read_head_loop_inv clock incoming fuel 0 _ Hr Hbuf ltac:(reflexivity) bytes eq_refl) as (_ & _ & n & Hn & _).
  exists n. split; [by rewrite Hn; apply arrived_streamed|]. intros out.
  destruct (reads_in_order tls lens (prefixed bytes n) out.1 out.2 (surjective_pairing _) Hlens) as (served & Hs & Eo & Eu).
  exists served. change (unread (prefixed bytes n)) with bytes in Eo. split_and!; [done..|]. rewrite Eo, head_of_app by done. exact Hp.
Qed.

(** A request whose first frame arrives with its head, and whose second frame arrives later. *)
Definition sample_tls (i len : nat) : ReadResult :=
  match i with
  | 0%nat => ReadBytes (substring 0 60 sample_request)
  | 1%nat => ReadBlocked
  | 2%nat => ReadBytes (string_skip 60 sample_request)
  | 4%nat => ReadBytes (substring 0 len "more frames")
  | _ => ReadBlocked
  end.

Lemma handshake_sees_request_witness :
  let lens := [100; 100; 100; 4]%nat in
  (reads sample_tls lens (prefixed sample_request 3)).1 = sample_request ++ "more"
  /\ exists rounds served, let out := reads sample_tls lens (prefixed sample_request rounds) in
     (served <= 4)%nat /\ out.1 ++ unread out.2 = sample_request ++ streamed sample_tls rounds (skipn served lens).
Proof.
  intros lens. split; [vm_compute; reflexivity|].
  destruct (handshake_sees_request (fun s => s) sample_clock sample_tls 20 sample_request
    {| method := "GET"; path := "/v1/monitor/snapshot?deviceId=dev_1"; bearer_token := Some "tok"; websocket_upgrade := true |}
    lens) as (rounds & _ & served & Hs & Eo & _).
  - intros [|[|[|[|[|i]]]]] chunk [= <-]; vm_compute; discriminate.
  - vm_compute. reflexivity.
  - repeat constructor.
  - exists rounds, served. split; [exact Hs|exact Eo].
Defined.
