(* ===== verification/MonitorServer.v ===== *)
(** * Connections to the monitor's port ([src-tauri/src/monitor_server.rs])

    The HTTPS requests and the two kinds of websockets a phone may open, over the handlers
    the monitor manager gives the server, and the limit on connections.  The handlers act on
    the state of the application, which other threads change as well; everything sent to the
    peer is recorded in order. *)

From S2P Require Export State MonitorHttp MonitorDevices.
Local Open Scope string_scope.

(** What the server sends. *)
Inductive Reply :=
| ToDevice (message : DeviceServerMessage)
| ToPairing (message : PairingServerMessage)
| WsPing
| WsPong (payload : string)
| WsClose
| HttpHead (status : string) (content_length : N)
| HttpDevice (message : DeviceServerMessage)
| HttpError (error : string).

(** What [websocket.read()] gives. *)
Inductive WsRead :=
| ReadPing (payload : string)
| ReadPong
| ReadText (text : string)
| ReadClose
| ReadOther
| ReadIdle
| ReadError (error : string).

Definition max_ws_text_bytes : N := 128 * 1024.
Definition snapshot_interval_ms : N := 10000.
Definition heartbeat_interval_ms : N := 15000.
Definition idle_timeout_ms : N := 45000.
Definition max_active_connections : N := 32.

(** The application and what has been sent on this connection. *)
Record Conn (S : Type) := { app : S; out : list Reply }.
Arguments app {S} c.
Arguments out {S} c.

Section Server.
Context {S : Type}.

(** A computation on the connection. *)
Definition Ws (A : Type) : Type := St (Conn S) A.
(** A call of a handler. *)
Definition ws_app {A} (m : S -> option A * S) : Ws A := fun c =>
  let '(a, s) := m (app c) in (a, {| app := s; out := out c |}).


(** The handlers, the JSON reader of each kind of message and the printer, the failures of
    writing, the clock, the random source and [String::from_utf8_lossy]. *)
Context (auth_checker : string -> string -> S -> option bool * S)
        (pair_handler : PairingWsMessage -> S -> option (Result PairingServerMessage string) * S)
        (revoke_handler : string -> S -> option (Result unit string) * S)
        (control_handler : string -> EncryptedControlPayload -> S -> option (Result EncryptedControlPayload string) * S)
        (snapshot_provider : string -> string -> N -> S -> option (Result EncryptedSnapshot string) * S)
        (device_message_from_str : string -> Result DeviceWsMessage string)
        (pairing_message_from_str : string -> Result PairingWsMessage string)
        (json : Reply -> Result string string) (write_fault : Reply -> Conn S -> option string)
        (now_ms : Conn S -> N) (random : Conn S -> option bytes) (from_utf8_lossy : string -> string).

Definition emit (failure : string) (message : Reply) : Ws (Result unit string) := fun c =>
  match write_fault message c with
  | Some e => (Some (Err (failure ++ "：" ++ e)), c)
  | None => (Some (Ok tt), {| app := app c; out := out c ++ [message] |})
  end.

Definition send_json (message : Reply) : Ws (Result unit string) :=
  match json message with
  | Err e => st_ret (Err ("序列化 Monitor WSS 消息失败：" ++ e))
  | Ok _ => emit "发送 Monitor WSS 消息失败" message
  end.

Definition write_http_json (status : string) (message : Reply) : Ws (Result unit string) :=
  match json message with
  | Err e => st_ret (Err ("序列化 Monitor HTTPS 响应失败：" ++ e))
  | Ok body =>
      _ <-st? emit "写入 Monitor HTTPS 响应头失败" (HttpHead status (strlen body)) ;;
      emit "写入 Monitor HTTPS 响应失败" message
  end.

Definition close : Ws unit := st_ignored (emit "" WsClose).

(** ** Who is asking *)

Definition session_token : Ws (Result string string) :=
  r <-st (fun c => (Some (generate_monitor_token (random c)), c)) ;;
  st_ret (match r with Ok token => Ok ("s_" ++ slice_to 32 token) | Err e => Err e end).

Definition field (key : string) (query : gmap string string) : string := default "" (query !! key).

(** The device and the token of a request, and whether they are authorised for this desktop.
    The checker is asked last. *)
Definition authorize (desktop_id : string) (head_path : string) (bearer : option string) : Ws (string * string * bool) :=
  query <-st st_or_die (parse_query from_utf8_lossy head_path) ;;
  let device_id := field "deviceId" query in
  let token := default "" bearer in
  if String.eqb (field "desktopId" query) desktop_id && negb (is_empty device_id) && negb (is_empty token)
  then authorized <-st ws_app (auth_checker device_id token) ;; st_ret (device_id, token, authorized)
  else st_ret (device_id, token, false).

(** ** HTTPS *)

Definition handle_https_request (desktop_id : string) (request : HttpRequestHead) : Ws (Result unit string) :=
  who <-st authorize desktop_id (path request) (bearer_token request) ;;
  let '(device_id, _, authorized) := who in
  let unauthorized := write_http_json "401 Unauthorized" (HttpError "unauthorized") in
  if String.eqb (method request) "GET" && String.eqb (route_of (path request)) "/v1/monitor/snapshot" then
    if negb authorized then unauthorized
    else
      session_id <-st? session_token ;;
      snapshot <-st ws_app (snapshot_provider device_id session_id 1) ;;
      match snapshot with
      | Ok snapshot => fun c => write_http_json "200 OK" (HttpDevice (DeviceSnapshot (now_ms c) snapshot)) c
      | Err _ => write_http_json "500 Internal Server Error" (HttpError "snapshot unavailable")
      end
  else if String.eqb (method request) "POST" && String.eqb (route_of (path request)) "/v1/monitor/revoke" then
    if negb authorized then unauthorized
    else
      revoked <-st ws_app (revoke_handler device_id) ;;
      match revoked with
      | Ok _ => write_http_json "200 OK" (HttpDevice (Revoked device_id))
      | Err _ => write_http_json "409 Conflict" (HttpError "device revoke failed")
      end
  else write_http_json "404 Not Found" (HttpError "unknown monitor https route").

(** ** Websockets *)

(** [read_json_until]: [clock i] is the time since the start at the [i]-th round, [incoming i] what the
    socket then gives.  [None]: the fuel is used up. *)
Fixpoint read_json_until {A} (from_str : string -> Result A string) (timeout : N) (fuel : nat) (clock : nat -> N)
    (incoming : nat -> WsRead) (i : nat) : Ws (Result A string) :=
  match fuel with
  | O => fun c => (None, c)
  | Datatypes.S fuel =>
      let again := read_json_until from_str timeout fuel clock incoming (Datatypes.S i) in
      if (timeout <? clock i)%N then st_ret (Err "Monitor WSS 等待消息超时。")
      else match incoming i with
           | ReadPing payload => _ <-st? emit "Monitor WSS Pong 失败" (WsPong payload) ;; again
           | ReadText text =>
               st_ret (if (max_ws_text_bytes <? strlen text)%N then Err "Monitor WSS 消息过大。"
                       else map_err (fun e => "Monitor WSS JSON 无效：" ++ e) (from_str text))
           | ReadClose => st_ret (Err "Monitor WSS 已关闭。")
           | ReadError e => st_ret (Err ("Monitor WSS 读取失败：" ++ e))
           | ReadPong | ReadOther | ReadIdle => again
           end
  end.

Definition handle_pair_socket (fuel : nat) (clock : nat -> N) (incoming : nat -> WsRead) : Ws (Result unit string) :=
  request <-st? read_json_until pairing_message_from_str hello_timeout_ms fuel clock incoming 0 ;;
  response <-st ws_app (pair_handler request) ;;
  _ <-st? send_json (ToPairing (match response with Ok response => response | Err message => PairingServerError message end)) ;;
  _ <-st close ;;
  st_ret (Ok tt).

Definition push_snapshot (device_id session_id : string) (sequence : N) : Ws (Result N string) :=
  let sequence := saturating_add sequence 1 in
  snapshot <-st? ws_app (snapshot_provider device_id session_id sequence) ;;
  _ <-st? (fun c => send_json (ToDevice (DeviceSnapshot (now_ms c) snapshot)) c) ;;
  st_ret (Ok sequence).

Record Timers := { last_activity : N; last_snapshot : N; last_ping : N }.

(** What one round of the loop meets: what other threads did before it, the readings of the
    clock in the order they are made, and what the socket gives. *)
Record Turn := {
  elsewhere : S -> S;
  idle_read : N;
  snapshot_read : N;
  snapshot_set : N;
  ping_read : N;
  ping_set : N;
  activity_set : N;
  turn_read : WsRead }.

(** The loop goes on, or has ended. *)
Inductive LoopFlow :=
| Continue (timers : Timers) (sequence : N)
| Finish (result : Result unit string).

(** [?] inside the loop. *)
Definition ws_step {A} (m : Ws (Result A string)) (k : A -> Ws LoopFlow) : Ws LoopFlow :=
  st_bind m (fun r => match r with Ok a => k a | Err e => st_ret (Finish (Err e)) end).
#[local] Notation "x '<-step' m ';;' k" := (ws_step m (fun x => k)) (at level 100, m at next level, right associativity).

(** A text message of the phone. *)
Definition device_text (device_id text : string) (go : LoopFlow) : Ws LoopFlow :=
  if (max_ws_text_bytes <? strlen text)%N then st_ret (Finish (Err "Monitor WSS 消息过大。"))
  else match device_message_from_str text with
       | Err _ | Ok (DeviceHello _ _ _) => st_ret go
       | Ok (DevicePing _) =>
           _ <-step (fun c => send_json (ToDevice (DevicePong (now_ms c))) c) ;; st_ret go
       | Ok (Control request) =>
           response <-st ws_app (control_handler device_id request) ;;
           _ <-step send_json (ToDevice (match response with
                                         | Ok response => ControlResult response
                                         | Err message => DeviceError message
                                         end)) ;;
           st_ret go
       | Ok RevokeSelf =>
           _ <-step ws_app (revoke_handler device_id) ;;
           _ <-step send_json (ToDevice (Revoked device_id)) ;;
           _ <-st close ;;
           st_ret (Finish (Ok tt))
       end.

Definition socket_read (device_id : string) (turn : Turn) (timers : Timers) (sequence : N) : Ws LoopFlow :=
  let active := Continue {| last_activity := activity_set turn; last_snapshot := last_snapshot timers;
                            last_ping := last_ping timers |} sequence in
  match turn_read turn with
  | ReadPing payload => _ <-step emit "Monitor WSS Pong 失败" (WsPong payload) ;; st_ret active
  | ReadPong => st_ret active
  | ReadText text => device_text device_id text active
  | ReadClose => st_ret (Finish (Ok tt))
  | ReadOther | ReadIdle => st_ret (Continue timers sequence)
  | ReadError e => st_ret (Finish (Err ("Monitor WSS 读取失败：" ++ e)))
  end.

(** Refusing a connection. *)
Definition refuse (message error : string) : Ws (Result unit string) :=
  _ <-st st_ignored (send_json (ToDevice (DeviceError message))) ;;
  _ <-st close ;;
  st_ret (Err error).

Definition turn_elapsed (now since : N) : N := saturating_sub now since.

(** One round of the loop of [handle_monitor_socket]. *)
Definition monitor_turn (device_id token session_id : string) (turn : Turn) (timers : Timers) (sequence : N) : Ws LoopFlow :=
  _ <-st ws_app (fun s => (Some tt, elsewhere turn s)) ;;
  if (idle_timeout_ms <? turn_elapsed (idle_read turn) (last_activity timers))%N
  then _ <-st close ;; st_ret (Finish (Err "Monitor WSS heartbeat timeout。"))
  else
    authorized <-st ws_app (auth_checker device_id token) ;;
    if negb authorized
    then r <-st refuse "device revoked" "Monitor WSS 设备授权已撤销。" ;; st_ret (Finish r)
    else
      let due := (snapshot_interval_ms <=? turn_elapsed (snapshot_read turn) (last_snapshot timers))%N in
      sequence <-step (if due then push_snapshot device_id session_id sequence else st_ret (Ok sequence)) ;;
      let ping := (heartbeat_interval_ms <=? turn_elapsed (ping_read turn) (last_ping timers))%N in
      _ <-step (if ping then emit "Monitor WSS Ping 失败" WsPing else st_ret (Ok tt)) ;;
      socket_read device_id turn
        {| last_activity := last_activity timers;
           last_snapshot := if due then snapshot_set turn else last_snapshot timers;
           last_ping := if ping then ping_set turn else last_ping timers |} sequence.

(** The loop, for as many rounds as are given. *)
Fixpoint monitor_loop (device_id token session_id : string) (turns : list Turn) (timers : Timers) (sequence : N) : Ws LoopFlow :=
  match turns with
  | [] => st_ret (Continue timers sequence)
  | turn :: turns =>
      flow <-st monitor_turn device_id token session_id turn timers sequence ;;
      match flow with
      | Continue timers sequence => monitor_loop device_id token session_id turns timers sequence
      | Finish result => st_ret (Finish result)
      end
  end.

(** How a websocket arrives: the hello, the clock when the loop starts, and its rounds. *)
Record Peer := {
  hello_fuel : nat;
  hello_clock : nat -> N;
  hello_reads : nat -> WsRead;
  loop_start : Timers;
  turns : list Turn }.

Definition hello_ok (desktop_id device_id : string) (hello : DeviceWsMessage) : bool :=
  match hello with
  | DeviceHello version desktop device =>
      (version =? PROTOCOL_VERSION)%N && String.eqb desktop desktop_id && String.eqb device device_id
  | _ => false
  end.

Definition handle_monitor_socket (desktop_id : string) (head_path : string) (bearer : option string) (peer : Peer) : Ws LoopFlow :=
  who <-st authorize desktop_id head_path bearer ;;
  let '(device_id, token, authorized) := who in
  if negb authorized
  then r <-st refuse "unauthorized" "Monitor WSS 认证失败。" ;; st_ret (Finish r)
  else
    hello <-step read_json_until device_message_from_str hello_timeout_ms (hello_fuel peer) (hello_clock peer)
                   (hello_reads peer) 0 ;;
    if negb (hello_ok desktop_id device_id hello)
    then r <-st refuse "invalid hello" "Monitor WSS Hello 无效。" ;; st_ret (Finish r)
    else
      session_id <-step session_token ;;
      _ <-step (fun c => send_json (ToDevice (DeviceHelloAck session_id (now_ms c) true device_capabilities)) c) ;;
      sequence <-step push_snapshot device_id session_id 0 ;;
      monitor_loop device_id token session_id (turns peer) (loop_start peer) sequence.

(** [handle_connection] from the parsed head on; [handshake]: accepting the websocket. *)
Definition handle_connection (desktop_id : string) (head : HttpRequestHead) (handshake : Result unit string) (peer : Peer)
    : Ws LoopFlow :=
  if negb (websocket_upgrade head)
  then r <-st handle_https_request desktop_id head ;; st_ret (Finish r)
  else
    _ <-step st_ret (map_err (fun e => "Monitor WebSocket 握手失败：" ++ e) handshake) ;;
    let route := route_of (path head) in
    if String.eqb route "/v1/ws/monitor" then handle_monitor_socket desktop_id (path head) (bearer_token head) peer
    else if String.eqb route "/v1/ws/pair" then
      r <-st handle_pair_socket (hello_fuel peer) (hello_clock peer) (hello_reads peer) ;; st_ret (Finish r)
    else r <-st refuse "unknown monitor websocket route" "未知 Monitor WebSocket 路径。" ;; st_ret (Finish r).
End Server.

(** ** The accepting thread *)

(** What the listener gives, and the end of a connection's thread ([ConnectionGuard]). *)
Inductive AcceptEvent := Accepted | WouldBlock | AcceptFailed | ConnectionEnded.

(** The active connections, and what becomes of the event: a thread is started, the stream is
    dropped, or the thread sleeps for the given time. *)
Inductive AcceptOutcome := Spawned | Dropped | Slept (millis : N) | Released.

Definition accept_step (active : N) (event : AcceptEvent) : N * AcceptOutcome :=
  match event with
  | Accepted => if (max_active_connections <=? active)%N then (active, Dropped) else ((active + 1)%N, Spawned)
  | WouldBlock => (active, Slept 40)
  | AcceptFailed => (active, Slept 100)
  | ConnectionEnded => ((active - 1)%N, Released)
  end.

(** ** What reaches the peer *)

Section ServerProps.
Context {S : Type}.

(** The application is left alone and only such messages are sent. *)
Definition says (R : Reply -> Prop) {A} (m : Ws A) : Prop := forall (c : Conn S) res c',
  m c = (res, c') -> app c' = app c /\ exists sent, out c' = (out c ++ sent)%list /\ Forall R sent.

Lemma says_ret R {A} (a : A) : says R (st_ret a).
Proof. intros c res c' [= _ <-]. split; [done|]. exists []. by rewrite app_nil_r. Qed.

Lemma says_bind R {A B} (m : Ws A) (k : A -> Ws B) : says R m -> (forall a, says R (k a)) -> says R (st_bind m k).
Proof.
  intros Hm Hk c res c' [[H _]|(a & c1 & H & Hr)]%st_bind_inv; [by eapply Hm|].
  destruct (Hm _ _ _ H) as (Ha & l & Hl & Hf). destruct (Hk _ _ _ _ Hr) as (Ha' & l' & Hl' & Hf').
  split; [congruence|]. exists (l ++ l')%list. rewrite Hl', Hl, app_assoc. split; [done|]. by apply Forall_app.
Qed.

Lemma says_try R {A B} (m : Ws (Result A string)) (k : A -> Ws (Result B string)) :
  says R m -> (forall a, says R (k a)) -> says R (st_try m k).
Proof. intros Hm Hk. apply says_bind; [done|]. intros [a|e]; [apply Hk|apply says_ret]. Qed.

Lemma says_weaken (R R' : Reply -> Prop) {A} (m : Ws A) : (forall o, R o -> R' o) -> says R m -> says R' m.
Proof.
  intros HR Hm c res c' H. destruct (Hm _ _ _ H) as (? & l & ? & Hf). split; [done|]. exists l. split; [done|].
  by eapply Forall_impl.
Qed.

Section Sending.
Context (json : Reply -> Result string string) (write_fault : Reply -> Conn S -> option string).

Lemma says_emit (R : Reply -> Prop) failure message : R message -> says R (emit write_fault failure message).
Proof.
  intros HR c res c' H. unfold emit in H. destruct (write_fault message c); injection H as _ <-.
  - split; [done|]. exists []. by rewrite app_nil_r.
  - split; [done|]. exists [message]. split; [done|by repeat constructor].
Qed.

Lemma says_send_json (R : Reply -> Prop) message : R message -> says R (send_json json write_fault message).
Proof. intros HR. unfold send_json. destruct (json message); [by apply says_emit|apply says_ret]. Qed.

Lemma says_http (R : Reply -> Prop) status message :
  (forall n, R (HttpHead status n)) -> R message -> says R (write_http_json json write_fault status message).
Proof.
  intros Hh HR. unfold write_http_json. destruct (json message); [|apply says_ret].
  apply says_try; [by apply says_emit|]. intros _. by apply says_emit.
Qed.

Lemma says_ignored R {A} (m : Ws A) : says R m -> says R (st_ignored m).
Proof. intros Hm. apply says_bind; [done|]. intros _. apply says_ret. Qed.

(** What a refusal consists of. *)
Definition refusal (o : Reply) : Prop :=
  match o with
  | ToDevice (DeviceError _) | WsClose | HttpError _ => True
  | HttpHead status _ => status = "401 Unauthorized" \/ status = "404 Not Found"
  | _ => False
  end.

Lemma says_refuse message error : says refusal (refuse json write_fault message error).
Proof.
  apply says_bind; [by apply says_ignored, says_send_json|]. intros _.
  apply says_bind; [by apply says_ignored, says_emit|]. intros _. apply says_ret.
Qed.

Lemma refuse_result message error c : (refuse json write_fault message error c).1 = Some (Err error).
Proof.
  unfold refuse, close, st_ignored, send_json, emit, st_bind, st_ret. destruct (json _); cbn; [|by destruct (write_fault _ _)].
  destruct (write_fault _ c); cbn; by destruct (write_fault _ _).
Qed.
End Sending.

Section Guarded.
Context (auth_checker : string -> string -> S -> option bool * S)
        (pair_handler : PairingWsMessage -> S -> option (Result PairingServerMessage string) * S)
        (revoke_handler : string -> S -> option (Result unit string) * S)
        (control_handler : string -> EncryptedControlPayload -> S -> option (Result EncryptedControlPayload string) * S)
        (snapshot_provider : string -> string -> N -> S -> option (Result EncryptedSnapshot string) * S)
        (device_message_from_str : string -> Result DeviceWsMessage string)
        (pairing_message_from_str : string -> Result PairingWsMessage string)
        (json : Reply -> Result string string) (write_fault : Reply -> Conn S -> option string)
        (now_ms : Conn S -> N) (random : Conn S -> option bytes) (from_utf8_lossy : string -> string).

#[local] Abbreviation connection := (handle_connection auth_checker pair_handler revoke_handler control_handler
  snapshot_provider device_message_from_str pairing_message_from_str json write_fault now_ms random from_utf8_lossy).
#[local] Abbreviation turn_of := (monitor_turn auth_checker revoke_handler control_handler snapshot_provider
  device_message_from_str json write_fault now_ms).


(** A round in which the check fails ends the connection with a refusal. *)
Lemma turn_refused device_id token session_id turn timers sequence c res c' :
  turn_of device_id token session_id turn timers sequence c = (res, c') ->
  (auth_checker device_id token (elsewhere turn (app c))).1 <> Some true ->
  (res = None \/ exists e, res = Some (Finish (Err e)))
  /\ exists sent, out c' = (out c ++ sent)%list /\ Forall refusal sent.
Proof.
  unfold monitor_turn. intros H Hno. unfold st_bind at 1, ws_app at 1 in H.
  set (c1 := {| app := elsewhere turn (app c); out := out c |}) in H. change (out c) with (out c1).
  change (elsewhere turn (app c)) with (app c1) in Hno. clearbody c1.
  destruct (idle_timeout_ms <? _)%N.
  { apply st_bind_inv in H as [[H ->]|(u & c2 & H & [= <- <-])];
      apply (says_ignored refusal _ (says_emit write_fault refusal "" WsClose I)) in H as [_ H]; eauto. }
  unfold st_bind at 1, ws_app at 1 in H. destruct (auth_checker device_id token (app c1)) as [[[]|] s];
    [done| |injection H as <- <-; split; [by left|]; exists []; by rewrite app_nil_r].
  cbn [negb] in H. set (c2 := {| app := s; out := out c1 |}) in H. change (out c1) with (out c2). clearbody c2.
  apply st_bind_inv in H as [[H ->]|(r & c3 & H & [= <- <-])]; pose proof (says_refuse _ _ _ _ _ _ _ H) as [_ Hs]; [by auto|].
  pose proof (refuse_result json write_fault "device revoked" "Monitor WSS 设备授权已撤销。" c2) as Hr. rewrite H in Hr.
  injection Hr as ->. eauto.
Qed.
End Guarded.
End ServerProps.

(** ** Snapshots are numbered *)

(** The sequence numbers of the snapshots sent. *)
Fixpoint snapshot_numbers (sent : list Reply) : list N :=
  match sent with
  | [] => []
  | ToDevice (DeviceSnapshot _ snapshot) :: sent => snap_sequence snapshot :: snapshot_numbers sent
  | _ :: sent => snapshot_numbers sent
  end.

Lemma snapshot_numbers_app a b : snapshot_numbers (a ++ b) = (snapshot_numbers a ++ snapshot_numbers b)%list.
Proof.
  induction a as [|o a IH]; [done|]. cbn. destruct o as [[]| | | | | | |]; cbn; by rewrite IH.
Qed.

(** [n + 1], …, [n + k]. *)
Definition numbers (n : N) (k : nat) : list N := map (fun i => (n + N.of_nat i)%N) (seq 1 k).

Lemma numbers_snoc n k : numbers n (S k) = (numbers n k ++ [(n + N.of_nat (S k))%N])%list.
Proof. unfold numbers. rewrite seq_S, map_app. done. Qed.

Lemma numbers_cons n k : numbers n (S k) = (n + 1)%N :: numbers (n + 1) k.
Proof. unfold numbers. cbn. f_equal. rewrite <- seq_shift, map_map. apply map_ext. intros i. lia. Qed.

Lemma numbers_app n j k : (numbers n j ++ numbers (n + N.of_nat j) k)%list = numbers n (j + k).
Proof.
  revert n. induction j as [|j IH]; intros n; [cbn; by rewrite N.add_0_r|].
  cbn [Nat.add]. rewrite !numbers_cons. cbn [app]. f_equal. rewrite <- IH.
  by replace (n + N.of_nat (S j))%N with (n + 1 + N.of_nat j)%N by lia.
Qed.

Section Numbering.
Context {St : Type}.
Context (auth_checker : string -> string -> St -> option bool * St)
        (revoke_handler : string -> St -> option (Result unit string) * St)
        (control_handler : string -> EncryptedControlPayload -> St -> option (Result EncryptedControlPayload string) * St)
        (snapshot_provider : string -> string -> N -> St -> option (Result EncryptedSnapshot string) * St)
        (device_message_from_str : string -> Result DeviceWsMessage string)
        (json : Reply -> Result string string) (write_fault : Reply -> Conn St -> option string)
        (now_ms : Conn St -> N) (random : Conn St -> option bytes) (from_utf8_lossy : string -> string).

#[local] Abbreviation push := (push_snapshot snapshot_provider json write_fault now_ms).
#[local] Abbreviation turn_of := (monitor_turn auth_checker revoke_handler control_handler snapshot_provider
  device_message_from_str json write_fault now_ms).
#[local] Abbreviation loop := (monitor_loop auth_checker revoke_handler control_handler snapshot_provider
  device_message_from_str json write_fault now_ms).
#[local] Abbreviation socket := (handle_monitor_socket auth_checker revoke_handler control_handler snapshot_provider
  device_message_from_str json write_fault now_ms random from_utf8_lossy).

(** The provider numbers the snapshot as it is told. *)
Definition provider_numbers : Prop := forall device_id session_id sequence s snapshot s',
  snapshot_provider device_id session_id sequence s = (Some (Ok snapshot), s') -> snap_sequence snapshot = sequence.

(** From [n] on, [k] snapshots are sent, numbered consecutively, and [post] holds of the result. *)
Definition counts {A} (n : N) (most : nat) (post : A -> nat -> Prop) (m : Ws A) : Prop := forall (c : Conn St) res c',
  m c = (res, c') -> exists sent k, out c' = (out c ++ sent)%list /\ snapshot_numbers sent = numbers n k /\ (k <= most)%nat
    /\ forall a, res = Some a -> post a k.

Lemma counts_ret {A} n most (post : A -> nat -> Prop) (a : A) : post a 0%nat -> counts n most post (st_ret a).
Proof. intros Hp c res c' [= <- <-]. exists [], 0%nat. rewrite app_nil_r. split_and!; [done..|lia|]. by intros ? [= <-]. Qed.

Lemma counts_weaken {A} n most most' (post post' : A -> nat -> Prop) m :
  (most <= most')%nat -> (forall a k, (k <= most)%nat -> post a k -> post' a k) -> counts n most post m -> counts n most' post' m.
Proof.
  intros Hm Hp H c res c' Hr. destruct (H _ _ _ Hr) as (sent & k & ? & ? & ? & ?). exists sent, k.
  split_and!; [done..|lia|]. eauto.
Qed.

(** A computation that sends no snapshot, then another. *)
Lemma counts_after {A B} n most (post : B -> nat -> Prop) (m : Ws A) (k : A -> Ws B) :
  counts n 0 (fun _ _ => True) m -> (forall a, counts n most post (k a)) -> counts n most post (st_bind m k).
Proof.
  intros Hm Hk c res c' [[H ->]|(a & c1 & H & Hr)]%st_bind_inv; destruct (Hm _ _ _ H) as (sent & j & Ho & Hn & Hj & _);
    assert (j = 0%nat) as -> by lia.
  - exists sent, 0%nat. split_and!; [done..|lia|done].
  - destruct (Hk _ _ _ _ Hr) as (sent' & k' & Ho' & Hn' & ? & ?). exists (sent ++ sent')%list, k'.
    rewrite Ho', Ho, app_assoc, snapshot_numbers_app, Hn. done.
Qed.

Lemma counts_quiet {A} n (R : Reply -> Prop) (m : Ws A) :
  (forall o, R o -> snapshot_numbers [o] = []) -> says R m -> counts n 0 (fun _ _ => True) m.
Proof.
  intros HR Hm c res c' H. destruct (Hm _ _ _ H) as (_ & sent & Ho & Hf). exists sent, 0%nat. split_and!; [done| |lia|done].
  clear -HR Hf. induction Hf as [|o sent Ho Hf IH]; [done|]. change (o :: sent) with ([o] ++ sent)%list.
  by rewrite snapshot_numbers_app, (HR o Ho), IH.
Qed.

Lemma counts_app {A} n (m : St -> option A * St) : counts n 0 (fun _ _ => True) (ws_app m).
Proof.
  intros c res c' H. unfold ws_app in H. destruct (m (app c)) as [a s]. injection H as <- <-. exists [], 0%nat.
  rewrite app_nil_r. done.
Qed.

(** Anything but a snapshot. *)
Definition other (o : Reply) : Prop := snapshot_numbers [o] = [].

Lemma counts_emit n failure message : other message -> counts n 0 (fun _ _ => True) (emit write_fault failure message).
Proof. intros H. eapply (counts_quiet n other); [done|by apply says_emit]. Qed.

Lemma counts_send n message : other message -> counts n 0 (fun _ _ => True) (send_json json write_fault message).
Proof. intros H. eapply (counts_quiet n other); [done|by apply says_send_json]. Qed.

Lemma counts_refuse {A} n most (post : A -> nat -> Prop) message error (k : Result unit string -> Ws A) :
  (forall r, counts n most post (k r)) -> counts n most post (st_bind (refuse json write_fault message error) k).
Proof.
  intros Hk. apply counts_after; [|done]. eapply (counts_quiet n refusal); [|apply says_refuse].
  by intros [[]| | | | | | |].
Qed.

(** A step of the loop. *)
Lemma counts_step {A} n most (post : LoopFlow -> nat -> Prop) (m : Ws (Result A string)) (k : A -> Ws LoopFlow) :
  counts n 0 (fun _ _ => True) m -> (forall e, post (Finish (Err e)) 0%nat) -> (forall a, counts n most post (k a)) ->
  counts n most post (ws_step m k).
Proof. intros Hm Hp Hk. apply counts_after; [done|]. intros [a|e]; [apply Hk|by apply counts_ret]. Qed.

Lemma push_counts device_id session_id n :
  provider_numbers -> (n < u64_max)%N ->
  counts n 1 (fun r k => forall n', r = Ok n' -> n' = (n + 1)%N /\ k = 1%nat) (push device_id session_id n).
Proof.
  intros Hprov Hn. unfold push_snapshot. cbv zeta.
  assert (saturating_add n 1 = (n + 1)%N) as -> by (unfold saturating_add; lia).
  intros c res c' H. apply st_try_inv in H as [[H ->]|[(e & H & ->)|(snapshot & c1 & H & Hk)]].
  1,2: apply (counts_app n) in H as (sent & k & ? & ? & ? & _); exists sent, k; split_and!; [done..|lia|by intros ? [= <-]].
  unfold ws_app in H. destruct (snapshot_provider _ _ _ _) as [r s] eqn:Hs. injection H as -> <-.
  apply Hprov in Hs.
  apply st_try_inv in Hk as [[H ->]|[(e & H & ->)|(u & c2 & H & [= <- <-])]]; unfold send_json, emit, st_ret in H;
    (destruct (json _); [destruct (write_fault _ _)|]); try discriminate H.
  - injection H as <- <-. exists [], 0%nat. rewrite app_nil_r. split_and!; [done..|lia|by intros ? [= <-]].
  - injection H as <- <-. exists [], 0%nat. rewrite app_nil_r. split_and!; [done..|lia|by intros ? [= <-]].
  - injection H as <- <-. eexists [_], 1%nat. split_and!; [done| |done|].
    + cbn. rewrite Hs. done.
    + intros r' [= <-] n' [= <-]. done.
Qed.

(** What a flow says of the numbering. *)
Definition numbered (n : N) (flow : LoopFlow) (k : nat) : Prop :=
  match flow with Continue _ n' => n' = (n + N.of_nat k)%N | Finish _ => True end.

Lemma counts_read_json {A} (from_str : string -> Result A string) timeout n fuel clock incoming i :
  counts n 0 (fun _ _ => True) (read_json_until write_fault from_str timeout fuel clock incoming i).
Proof.
  revert i. induction fuel as [|fuel IH]; intros i; [intros c res c' [= <- <-]; exists [], 0%nat; by rewrite app_nil_r|].
  cbn. destruct (timeout <? clock i)%N; [by apply counts_ret|].
  destruct (incoming i); [|apply IH|by apply counts_ret..|apply IH|apply IH|by apply counts_ret].
  apply counts_after; [by apply counts_emit|]. intros [u|e]; [apply IH|by apply counts_ret].
Qed.

Lemma text_counts device_id text n timers :
  counts n 0 (numbered n) (device_text revoke_handler control_handler device_message_from_str json write_fault now_ms
                             device_id text (Continue timers n)).
Proof.
  unfold device_text. assert (numbered n (Continue timers n) 0) as Hgo by (cbn; lia).
  destruct (max_ws_text_bytes <? strlen text)%N; [by apply counts_ret|].
  destruct (device_message_from_str text) as [[| | |request]|e]; try (by apply counts_ret).
  - apply counts_step; [|done|intros _; by apply counts_ret]. intros c res c' H. by eapply counts_send in H.
  - apply counts_step; [apply counts_app|done|]. intros _. apply counts_step; [by apply counts_send|done|].
    intros _. apply counts_after; [|intros _; by apply counts_ret].
    eapply (counts_quiet n other); [done|]. by apply says_ignored, says_emit.
  - apply counts_after; [apply counts_app|]. intros r. apply counts_step; [by apply counts_send; destruct r|done|].
    intros _. by apply counts_ret.
Qed.

Lemma read_counts device_id turn timers n :
  counts n 0 (numbered n) (socket_read revoke_handler control_handler device_message_from_str json write_fault now_ms
                             device_id turn timers n).
Proof.
  unfold socket_read. destruct (turn_read turn); try (apply counts_ret; cbn; (done || lia)).
  - apply counts_step; [by apply counts_emit|done|]. intros _. apply counts_ret. cbn. lia.
  - apply text_counts.
Qed.

(** Snapshots, then what sends none. *)
Lemma counts_then {A} n (post : A -> nat -> Prop) (m : Ws (Result N string)) (k : N -> Ws A) (stop : string -> A) :
  counts n 1 (fun r j => forall n', r = Ok n' -> n' = (n + N.of_nat j)%N) m ->
  (forall e j, post (stop e) j) ->
  (forall j, (j <= 1)%nat -> counts (n + N.of_nat j) 0 (fun a _ => post a j) (k (n + N.of_nat j)%N)) ->
  counts n 1 post (st_bind m (fun r => match r with Ok n' => k n' | Err e => st_ret (stop e) end)).
Proof.
  intros Hm Hstop Hk c res c' [[H ->]|(r & c1 & H & Hr)]%st_bind_inv; destruct (Hm _ _ _ H) as (sent & j & Ho & Hn & Hj & Hp).
  - exists sent, j. by split_and!.
  - specialize (Hp _ eq_refl). destruct r as [n'|e].
    + specialize (Hp _ eq_refl) as ->. destruct (Hk j Hj _ _ _ Hr) as (sent' & k' & Ho' & Hn' & Hk' & Hp').
      assert (k' = 0%nat) as -> by lia. exists (sent ++ sent')%list, j.
      rewrite Ho', Ho, app_assoc, snapshot_numbers_app, Hn, Hn', app_nil_r. by split_and!.
    + injection Hr as <- <-. exists sent, j. split_and!; [done..|]. by intros ? [= <-].
Qed.

Lemma turn_counts device_id token session_id turn timers n :
  provider_numbers -> (n < u64_max)%N ->
  counts n 1 (numbered n) (turn_of device_id token session_id turn timers n).
Proof.
  intros Hprov Hn. unfold monitor_turn. apply counts_after; [apply counts_app|]. intros _.
  destruct (idle_timeout_ms <? _)%N.
  { apply counts_after; [|intros _; by apply counts_ret]. eapply (counts_quiet n other); [done|]. by apply says_ignored, says_emit. }
  apply counts_after; [apply counts_app|]. intros [|]; cbn [negb]; [|apply counts_refuse; intros r; by apply counts_ret].
  cbv zeta. unfold ws_step at 1. apply (counts_then n _ _ _ (fun e => Finish (Err e))).
  - destruct (snapshot_interval_ms <=? _)%N.
    + eapply counts_weaken; [done| |by apply push_counts]. intros r k _ Hr n' E. destruct (Hr n' E) as [-> ->]. lia.
    + apply counts_ret. intros n' [= <-]. lia.
  - done.
  - intros j Hj. apply counts_step; [|done|].
    + destruct (heartbeat_interval_ms <=? _)%N; [by apply counts_emit|by apply counts_ret].
    + intros _. eapply counts_weaken; [done| |apply read_counts]. intros [t n'|r] k Hk; [|done]. cbn. lia.
Qed.

Lemma loop_counts device_id token session_id rounds timers n :
  provider_numbers -> (n + N.of_nat (length rounds) <= u64_max)%N ->
  counts n (length rounds) (fun _ _ => True) (loop device_id token session_id rounds timers n).
Proof.
  intros Hprov. revert timers n. induction rounds as [|turn rounds IH]; intros timers n Hn; [by apply counts_ret|].
  cbn [length] in *. intros c res c' H. cbn [monitor_loop] in H.
  apply st_bind_inv in H as [[H ->]|(flow & c1 & H & Hr)];
    apply turn_counts in H as (sent & k & Ho & Hs & Hk & Hp); try done; try lia.
  { exists sent, k. split_and!; [done..|lia|done]. }
  specialize (Hp _ eq_refl). destruct flow as [timers' n'|r]; cbn in Hp.
  - subst n'. apply IH in Hr as (sent' & k' & Ho' & Hs' & Hk' & _); [|lia].
    exists (sent ++ sent')%list, (k + k')%nat.
    rewrite Ho', Ho, app_assoc, snapshot_numbers_app, Hs, Hs', numbers_app. split_and!; [done..|lia|done].
  - injection Hr as <- <-. exists sent, k. split_and!; [done..|lia|done].
Qed.

(** Snapshots of one connection are numbered 1, 2, 3, … without gap or repetition, whatever
    else the phone and the network do: those sent on a monitor socket, in order, carry
    exactly the first numbers, at most one more than the rounds of its loop.  (The number is
    part of the authenticated data of a snapshot, so the phone can refuse a replay.) *)
Theorem snapshots_numbered desktop_id head_path bearer peer c res c' :
  socket desktop_id head_path bearer peer c = (res, c') -> provider_numbers ->
  (N.of_nat (length (turns peer)) < u64_max)%N ->
  exists sent k, out c' = (out c ++ sent)%list /\ snapshot_numbers sent = numbers 0 k
    /\ (k <= S (length (turns peer)))%nat.
Proof.
  intros H Hprov Hlen.
  assert (counts 0 (S (length (turns peer))) (fun (_ : LoopFlow) _ => True) (socket desktop_id head_path bearer peer)) as Hc.
  { unfold handle_monitor_socket. apply counts_after.
    { unfold authorize. apply counts_after.
      - intros c1 r c1' [= <- <-]. exists [], 0%nat. by rewrite app_nil_r.
      - intros query. cbv zeta. destruct (_ && _ && _); [|by apply counts_ret].
        apply counts_after; [apply counts_app|]. intros b. by apply counts_ret. }
    intros [[device_id token] [|]]; cbn [negb]; [|apply counts_refuse; intros r; by apply counts_ret].
    apply counts_step; [apply counts_read_json|done|]. intros hello.
    destruct (negb (hello_ok _ _ _)); [apply counts_refuse; intros r; by apply counts_ret|].
    apply counts_step; [|done|].
    { apply counts_after; [|intros r; by apply counts_ret]. intros c1 r c1' [= <- <-]. exists [], 0%nat. by rewrite app_nil_r. }
    intros session_id. apply counts_step; [|done|].
    { intros c1 r c1' H1. by eapply counts_send in H1. }
    intros _ c1 r c1' H1. unfold ws_step in H1.
    apply st_bind_inv in H1 as [[H1 ->]|(first & c2 & H1 & H2)];
      (apply push_counts in H1 as (sent & k & Ho & Hs & Hk & Hp); [|done|done]).
    { exists sent, k. split_and!; [done..|lia|done]. }
    specialize (Hp _ eq_refl). destruct first as [n'|e].
    - destruct (Hp n' eq_refl) as [-> ->]. apply loop_counts in H2 as (sent' & k' & Ho' & Hs' & Hk' & _); [|done|lia].
      exists (sent ++ sent')%list, (1 + k')%nat.
      rewrite Ho', Ho, app_assoc, snapshot_numbers_app, Hs, Hs', (numbers_app 0 1 k' : (numbers 0 1 ++ numbers (0 + 1) k')%list = _). split_and!; [done..|lia|done].
    - injection H2 as <- <-. exists sent, k. split_and!; [done..|lia|done]. }
  destruct (Hc _ _ _ H) as (sent & k & ? & ? & ? & _). by exists sent, k.
Qed.
End Numbering.

(** ** Revocation reaches the open connections *)

Section Revocation.
Context (P : Platform) (base : string) (Hbase : base_dir P = Ok base) (net : Network) (process_id : string)
        (devices_from_str : string -> Result (list MonitorDeviceRecord) string)
        (devices_to_string_pretty : list MonitorDeviceRecord -> Result string string)
        (secret_fault : SecretOp -> Desk -> option string) (random_key : Desk -> option bytes)
        (hkdf : string -> bytes -> string -> option bytes)
        (seal open : bytes -> bytes -> string -> bytes -> option bytes)
        (b64_encode : bytes -> string) (b64_decode : string -> option bytes)
        (credentials_from_str : string -> Result RelayCredentials string)
        (value_from_slice : bytes -> option Value) (value_to_vec : Value -> Result bytes string)
        (control_handler : string -> EncryptedControlPayload -> Desk -> option (Result EncryptedControlPayload string) * Desk)
        (snapshot_provider : string -> string -> N -> Desk -> option (Result EncryptedSnapshot string) * Desk)
        (device_message_from_str : string -> Result DeviceWsMessage string)
        (json : Reply -> Result string string) (write_fault : Reply -> Conn Desk -> option string)
        (now_ms : Conn Desk -> N).

(** The handlers [start_monitor_service] gives the server. *)
Definition monitor_auth_checker : string -> string -> App bool :=
  monitor_device_token_authorized P net false process_id devices_from_str devices_to_string_pretty.
Definition monitor_pair_handler (random nonce : option bytes) : PairingWsMessage -> App (Result PairingServerMessage string) :=
  handle_encrypted_monitor_pairing P net false process_id devices_from_str devices_to_string_pretty secret_fault random_key
    hkdf seal open b64_encode b64_decode credentials_from_str value_from_slice value_to_vec random nonce.
Definition monitor_revoke_handler (device_id : string) : App (Result unit string) :=
  removed <-app? revoke_monitor_device_everywhere P net false process_id devices_from_str devices_to_string_pretty
                   secret_fault random_key hkdf b64_encode b64_decode credentials_from_str device_id ;;
  app_ret (if (removed : bool) then Ok tt else Err "没有找到该已配对设备。").

(** C25. A revocation reaches the connections that are already open.  Once a revocation has
    succeeded, and whatever else happened since except a new pairing, the next round of a
    monitor socket of that phone ends the connection: no snapshot, control result or other
    answer is sent, at most the refusal and the close. *)
Theorem revocation_ends_sessions device_id d d' ops token session_id turn timers sequence c res c' :
  monitor_revoke_handler device_id d = (Some (Ok tt), d') -> consistent base devices_from_str d ->
  devices_json_agrees devices_from_str devices_to_string_pretty -> forallb enrols_nobody ops = true ->
  elsewhere turn (app c) = foldl (fun d op => monitor_perform P net process_id devices_from_str devices_to_string_pretty secret_fault
    random_key hkdf seal open b64_encode b64_decode credentials_from_str value_from_slice value_to_vec op d) d' ops ->
  monitor_turn monitor_auth_checker monitor_revoke_handler control_handler snapshot_provider device_message_from_str json
    write_fault now_ms device_id token session_id turn timers sequence c = (res, c') ->
  (res = None \/ exists e, res = Some (Finish (Err e)))
  /\ exists sent, out c' = (out c ++ sent)%list /\ Forall refusal sent.
Proof using Hbase.
  intros Hrev Hc Hjson Hops Happ Hturn. eapply turn_refused; [exact Hturn|]. rewrite Happ.
  unfold monitor_revoke_handler in Hrev.
  apply app_try_inv in Hrev as [[_ ?]|[(e & _ & ?)|(removed & d1 & Hrev & [= _ <-])]]; [done..|].
  eapply forgotten_refused; [exact Hbase| |exact Hjson].
  eapply revoked_forgotten; [exact Hbase|exact Hrev|exact Hc|exact Hjson|exact Hops].
Qed.
End Revocation.

(** ** Witnesses *)

Definition sample_json (message : Reply) : Result string string := Ok "{}".
Definition no_write_fault {S} (message : Reply) (c : Conn S) : option string := None.
Definition sample_now {S} (c : Conn S) : N := 7.
Definition sample_draw {S} (c : Conn S) : option bytes := Some (repeat x07 32).

(** The phone says hello, then asks for a ping. *)
Definition sample_device_message (text : string) : Result DeviceWsMessage string :=
  if String.eqb text "hello" then Ok (DeviceHello PROTOCOL_VERSION "d_1" sample_device_id)
  else if String.eqb text "ping" then Ok (DevicePing 1) else Err "bad".

Definition sample_snapshot (device_id session_id : string) (sequence : N) (d : Desk)
    : option (Result EncryptedSnapshot string) * Desk :=
  (Some (Ok {| snap_session_id := session_id; snap_sequence := sequence; snap_generated_at := 1; snap_nonce := "n";
               snap_ciphertext := "c" |}), d).
Definition sample_control (device_id : string) (request : EncryptedControlPayload) (d : Desk)
    : option (Result EncryptedControlPayload string) * Desk := (Some (Err "no"), d).

Definition sample_turn (now : N) (read : WsRead) (others : Desk -> Desk) : Turn :=
  {| elsewhere := others; idle_read := now; snapshot_read := now; snapshot_set := now; ping_read := now; ping_set := now;
     activity_set := now; turn_read := read |}.

(** A round of ten seconds in which the phone asks for a ping, and an idle one. *)
Definition sample_peer : Peer :=
  {| hello_fuel := 3; hello_clock := sample_clock; hello_reads := fun _ => ReadText "hello";
     loop_start := {| last_activity := 0; last_snapshot := 0; last_ping := 0 |};
     turns := [sample_turn 10000 (ReadText "ping") (fun d => d); sample_turn 11000 ReadIdle (fun d => d)] |}.

Definition sample_conn (d : Desk) : Conn Desk := {| app := d; out := [] |}.
Definition sample_path : string := "/v1/ws/monitor?desktopId=d_1&deviceId=" ++ sample_device_id.

#[local] Abbreviation sample_checker := (monitor_auth_checker sample_platform sample_network "42" sample_devices_read
  sample_devices_print).
#[local] Abbreviation sample_revoke_handler := (monitor_revoke_handler sample_platform sample_network "42"
  sample_devices_read sample_devices_print no_fault no_key sample_hkdf sample_b64_encode sample_b64_decode
  (fun _ => Ok sample_relay_credentials)).
#[local] Abbreviation sample_socket := (handle_monitor_socket sample_checker sample_revoke_handler sample_control
  sample_snapshot sample_device_message sample_json no_write_fault sample_now sample_draw (fun s => s)).

(** Two snapshots and an answer. *)
Lemma snapshots_numbered_witness :
  let r := sample_socket "d_1" sample_path (Some sample_direct_token) sample_peer (sample_conn sample_paired_desk) in
  snapshot_numbers (out r.2) = [1; 2]%N /\ length (out r.2) = 4%nat
  /\ exists sent k, out r.2 = sent /\ snapshot_numbers sent = numbers 0 k /\ (k <= 3)%nat.
Proof.
  intros r. split; [vm_compute; reflexivity|]. split; [vm_compute; reflexivity|].
  destruct r as [res c'] eqn:Hr.
  apply (snapshots_numbered sample_checker sample_revoke_handler sample_control sample_snapshot sample_device_message sample_json
    no_write_fault sample_now sample_draw (fun s => s) "d_1" sample_path (Some sample_direct_token) sample_peer
    (sample_conn sample_paired_desk) res c' Hr); [|reflexivity].
  intros device_id session_id sequence s snapshot s' H. injection H as <- _. reflexivity.
Defined.


(** The phone is revoked while its socket is open. *)
Lemma revocation_ends_sessions_witness :
  let d' := (sample_revoke_handler sample_device_id sample_paired_desk).2 in
  let turn := sample_turn 10000 ReadIdle (fun _ => d') in
  let r := monitor_turn sample_checker sample_revoke_handler sample_control sample_snapshot sample_device_message sample_json
             no_write_fault sample_now sample_device_id sample_direct_token "s_1" turn (loop_start sample_peer) 1
             (sample_conn sample_paired_desk) in
  out r.2 = [ToDevice (DeviceError "device revoked"); WsClose] /\ Forall refusal (out r.2).
Proof.
  intros d' turn r.
  assert (out r.2 = [ToDevice (DeviceError "device revoked"); WsClose]) as Hout by (vm_compute; reflexivity).
  split; [exact Hout|]. destruct r as [res c'] eqn:Hr.
  destruct (revocation_ends_sessions sample_platform "/home/u" eq_refl sample_network "42" sample_devices_read
    sample_devices_print no_fault no_key sample_hkdf sample_seal sample_open sample_b64_encode sample_b64_decode
    (fun _ => Ok sample_relay_credentials) (fun _ => None) (fun _ => Err "no") sample_control sample_snapshot
    sample_device_message sample_json no_write_fault sample_now sample_device_id sample_paired_desk d' []
    sample_direct_token "s_1" turn (loop_start sample_peer) 1 (sample_conn sample_paired_desk) res c')
    as (_ & sent & Hs & Hf).
  - vm_compute. reflexivity.
  - exact sample_paired_consistent.
  - exact sample_devices_agree.
  - reflexivity.
  - reflexivity.
  - exact Hr.
  - cbn in Hs |- *. rewrite Hs. exact Hf.
Defined.
