(* ===== verification/RelayClient.v ===== *)
(** * The desktop's session with the Relay ([src-tauri/src/relay.rs])

    The thread [start_client] starts: the loop of websocket sessions with its back-off and its
    probing for the network's recovery, one session, and the upload of snapshots.  The
    handlers act on the state of the application; everything sent is recorded in order. *)

From Stdlib Require Import Sorting.Sorted.
From S2P Require Export State MonitorDevices.
Local Open Scope string_scope.

Definition snapshot_upload_ms : N := 10000.
Definition client_heartbeat_ms : N := 5000.
Definition client_idle_timeout_ms : N := 12000.
Definition recovery_probe_interval_ms : N := 2000.
Definition probe_retry_ms : N := 200.
Definition reconnect_delays : list N := [1; 2; 5; 10; 30]%N.

(** ** Updates of the status *)

(** [value.last_error = error] *)
Definition with_error (error : string) (s : RelayStatus) : RelayStatus :=
  {| rs_enabled := rs_enabled s; rs_configured := rs_configured s; rs_connected := rs_connected s;
     rs_connecting := rs_connecting s; rs_desktop_id := rs_desktop_id s; rs_session_id := rs_session_id s;
     rs_connected_at := rs_connected_at s; rs_last_heartbeat_at := rs_last_heartbeat_at s;
     rs_reconnect_attempt := rs_reconnect_attempt s; rs_last_error := error |}.

(** [value.last_heartbeat_at = Some(now)] *)
Definition with_heartbeat (now : N) (s : RelayStatus) : RelayStatus :=
  {| rs_enabled := rs_enabled s; rs_configured := rs_configured s; rs_connected := rs_connected s;
     rs_connecting := rs_connecting s; rs_desktop_id := rs_desktop_id s; rs_session_id := rs_session_id s;
     rs_connected_at := rs_connected_at s; rs_last_heartbeat_at := Some now;
     rs_reconnect_attempt := rs_reconnect_attempt s; rs_last_error := rs_last_error s |}.

(** The beginning of a session. *)
Definition begin_session (s : RelayStatus) : RelayStatus :=
  {| rs_enabled := rs_enabled s; rs_configured := rs_configured s; rs_connected := false; rs_connecting := true;
     rs_desktop_id := rs_desktop_id s; rs_session_id := rs_session_id s; rs_connected_at := rs_connected_at s;
     rs_last_heartbeat_at := rs_last_heartbeat_at s; rs_reconnect_attempt := rs_reconnect_attempt s; rs_last_error := "" |}.

(** A [HelloAck]: [connected_at] and [heartbeat_at] are the two readings of the clock. *)
Definition accepted_session (session_id : string) (connected_at heartbeat_at : N) (s : RelayStatus) : RelayStatus :=
  {| rs_enabled := rs_enabled s; rs_configured := rs_configured s; rs_connected := true; rs_connecting := false;
     rs_desktop_id := rs_desktop_id s; rs_session_id := Some session_id; rs_connected_at := Some connected_at;
     rs_last_heartbeat_at := Some heartbeat_at; rs_reconnect_attempt := 0; rs_last_error := "" |}.

(** Neither connected nor connecting. *)
Definition offline (s : RelayStatus) : RelayStatus :=
  {| rs_enabled := rs_enabled s; rs_configured := rs_configured s; rs_connected := false; rs_connecting := false;
     rs_desktop_id := rs_desktop_id s; rs_session_id := None; rs_connected_at := rs_connected_at s;
     rs_last_heartbeat_at := rs_last_heartbeat_at s; rs_reconnect_attempt := rs_reconnect_attempt s;
     rs_last_error := rs_last_error s |}.

Definition with_attempt (attempt : N) (s : RelayStatus) : RelayStatus :=
  {| rs_enabled := rs_enabled s; rs_configured := rs_configured s; rs_connected := rs_connected s;
     rs_connecting := rs_connecting s; rs_desktop_id := rs_desktop_id s; rs_session_id := rs_session_id s;
     rs_connected_at := rs_connected_at s; rs_last_heartbeat_at := rs_last_heartbeat_at s;
     rs_reconnect_attempt := attempt; rs_last_error := rs_last_error s |}.

(** The status [start_client] puts there. *)
Definition initial_status (settings : RelaySettings) (credentials : RelayCredentials) : RelayStatus :=
  {| rs_enabled := relay_enabled settings; rs_configured := true; rs_connected := false; rs_connecting := false;
     rs_desktop_id := Some (cred_desktop_id credentials); rs_session_id := None; rs_connected_at := None;
     rs_last_heartbeat_at := None; rs_reconnect_attempt := 0; rs_last_error := "" |}.

(** ** Waiting *)

(** [jittered_delay]: 64-bit signed arithmetic; the result in milliseconds. *)
Definition i64_saturate (z : Z) : Z := Z.max (-9223372036854775808) (Z.min z 9223372036854775807).
Definition jittered_delay (seconds now : N) : N :=
  let jitter := (Z.of_N (now mod 401) - 200)%Z in
  let millis := Z.quot (i64_saturate (Z.of_N seconds * 1000 * (1000 + jitter))) 1000 in
  Z.to_N (Z.max millis 200).

(** [RECONNECT_DELAYS[…]]; [usize] holds any attempt. *)
Definition delay_of (attempt : N) : N :=
  nth (Nat.min (N.to_nat (saturating_sub attempt 1)) (length reconnect_delays - 1)) reconnect_delays 0%N.

(** One round of [wait_for_network_recovery]: the clock at its top, the probe (stopped, or what it found),
    the clock after it, and whether the stop came during the sleep. *)
Record Probe := {
  at_top : N;
  probed : option bool;
  after_probe : N;
  sleep_stopped : bool }.

(** [probing]: there are a client and an address to probe.  [None]: the fuel is used up. *)
Fixpoint recovery_rounds (fuel : nat) (deadline : N) (probing : bool) (round : nat -> Probe) (i : nat) (saw_unreachable : bool)
    : option bool :=
  match fuel with
  | O => None
  | S fuel =>
      let r := round i in
      let rest saw :=
        if (saturating_sub deadline (after_probe r) =? 0)%N then Some false
        else if sleep_stopped r then Some false
        else recovery_rounds fuel deadline probing round (S i) saw in
      if (deadline <=? at_top r)%N then Some false
      else if probing then
        match probed r with
        | None => Some false
        | Some reachable => if reachable && saw_unreachable then Some true else rest (saw_unreachable || negb reachable)
        end
      else rest saw_unreachable
  end.

(** The sleep between two rounds. *)
Definition recovery_sleep (deadline : N) (probing : bool) (r : Probe) : N :=
  N.min (if probing then recovery_probe_interval_ms else probe_retry_ms) (saturating_sub deadline (after_probe r)).

Definition wait_for_network_recovery (fuel : nat) (settings : RelaySettings) (client_ok : bool) (start delay : N)
    (round : nat -> Probe) : option bool :=
  recovery_rounds fuel (start + delay) (client_ok && is_ok (normalized_base_url (relay_base_url settings))) round 0 false.

(** ** The session *)

Inductive ClientFrame :=
| Say (message : DesktopWsMessage)
| ClientPong (payload : string)
| ClientClose.

Inductive ClientMessage :=
| MsgText (text : string)
| MsgPing (payload : string)
| MsgPong
| MsgClose
| MsgOther.

(** What [tokio::select!] picks, with the clocks read then: the stop, the heartbeat tick, or what the
    socket gives. *)
Inductive ClientEvent :=
| Stopped
| Heartbeat (instant sent_at : N)
| Incoming (got : option (Result ClientMessage string)) (instant heard_at connected_at heartbeat_at : N).

Inductive ConnectOutcome := ConnectStopped | ConnectTimedOut | ConnectFailed (error : string) | ConnectDone.

Record Client (S : Type) := { client_app : S; client_status : Mutex RelayStatus; client_sent : list ClientFrame }.
Arguments client_app {S} c.
Arguments client_status {S} c.
Arguments client_sent {S} c.

Section Session.
Context {S : Type}.

Definition Cl (A : Type) : Type := St (Client S) A.

(** [if let Ok(mut value) = status.lock() { … }] *)
Definition on_status (f : RelayStatus -> RelayStatus) : Cl unit := st_modify (fun c =>
  {| client_app := client_app c; client_status := update_locked f (client_status c); client_sent := client_sent c |}).
Definition set_error (error : string) : Cl unit := on_status (with_error error).

(** A call of a handler. *)
Definition cl_app {A} (m : S -> option A * S) : Cl A := fun c =>
  let '(a, s) := m (client_app c) in
  (a, {| client_app := s; client_status := client_status c; client_sent := client_sent c |}).

(** The handlers, the JSON reader of the Relay's messages, the failures of sending (which include
    those of serialising), building the request, and the platform's name and version. *)
Context (pairing_handler : PairingWsMessage -> S -> option (Result PairingServerMessage string) * S)
        (revoke_handler : string -> S -> option (Result unit string) * S)
        (control_handler : string -> EncryptedControlPayload -> S -> option (Result EncryptedControlPayload string) * S)
        (server_message_from_str : string -> Result DesktopServerMessage string)
        (send_fault : ClientFrame -> Client S -> option string)
        (request_error : string -> option string) (header_ok : string -> bool) (app_version platform : string).

Definition send_frame (frame : ClientFrame) : Cl (Result unit string) := fun c =>
  match send_fault frame c with
  | Some e => (Some (Err e), c)
  | None => (Some (Ok tt), {| client_app := client_app c; client_status := client_status c;
                              client_sent := client_sent c ++ [frame] |})
  end.

Definition send_desktop_message (message : DesktopWsMessage) : Cl (Result unit string) := send_frame (Say message).

(** A text message of the Relay. *)
Definition server_text (text : string) (connected_at heartbeat_at : N) : Cl (Result unit string) :=
  match server_message_from_str text with
  | Err error => _ <-st set_error ("Relay WSS 消息无效：" ++ error) ;; st_ret (Ok tt)
  | Ok (DesktopHelloAck accepted _ _) =>
      _ <-st on_status (accepted_session accepted connected_at heartbeat_at) ;; st_ret (Ok tt)
  | Ok (DesktopPong _) => st_ret (Ok tt)
  | Ok (PairingRequest pairing_id connection_id payload) =>
      result <-st cl_app (pairing_handler (Pair pairing_id payload)) ;;
      send_desktop_message
        (match result with
         | Ok (PairResult response_pairing_id payload) => PairingResponse response_pairing_id connection_id payload
         | Ok (PairingServerError message) | Err message => PairingError pairing_id connection_id message
         end)
  | Ok (DeviceRevoked device_id) =>
      result <-st cl_app (revoke_handler device_id) ;;
      _ <-st match result with
             | Ok _ => st_ret tt
             | Err error => set_error ("Relay 已撤销设备，但 Desktop 本地同步失败：" ++ error)
             end ;;
      st_ret (Ok tt)
  | Ok (DeviceRevoke device_id request_id) =>
      result <-st cl_app (revoke_handler device_id) ;;
      match result with
      | Ok _ => send_desktop_message (RevokeResult device_id request_id)
      | Err error =>
          _ <-st set_error ("Monitor 设备撤销失败：" ++ error) ;;
          send_desktop_message (RevokeError device_id request_id "desktop revoke failed")
      end
  | Ok (DeviceControl device_id request) =>
      result <-st cl_app (control_handler device_id request) ;;
      match result with
      | Ok response => send_desktop_message (ControlResponse device_id response)
      | Err message =>
          _ <-st set_error ("Monitor 控制请求被拒绝：" ++ message) ;;
          send_desktop_message (ControlError device_id (ctl_request_id request) "desktop rejected control request")
      end
  | Ok (DesktopError message) => _ <-st set_error message ;; st_ret (Ok tt)
  end.

(** The session goes on, or has ended. *)
Inductive SessionFlow :=
| Going (last_server_activity : N)
| Ended (result : Result unit string).

Definition after {A} (m : Cl (Result A string)) (go : SessionFlow) : Cl SessionFlow :=
  st_bind m (fun r => st_ret (match r with Ok _ => go | Err e => Ended (Err e) end)).

Definition session_event (event : ClientEvent) (last_server_activity : N) : Cl SessionFlow :=
  match event with
  | Stopped => _ <-st st_ignored (send_frame ClientClose) ;; st_ret (Ended (Ok tt))
  | Heartbeat instant sent_at =>
      if (client_idle_timeout_ms <? saturating_sub instant last_server_activity)%N
      then st_ret (Ended (Err "Relay WSS heartbeat timeout。"))
      else after (send_desktop_message (DesktopPing sent_at)) (Going last_server_activity)
  | Incoming None _ _ _ _ => st_ret (Ended (Err "Relay WSS 已关闭。"))
  | Incoming (Some (Err error)) _ _ _ _ => st_ret (Ended (Err ("Relay WSS 读取失败：" ++ error)))
  | Incoming (Some (Ok message)) instant heard_at connected_at heartbeat_at =>
      _ <-st on_status (with_heartbeat heard_at) ;;
      match message with
      | MsgText text => after (server_text text connected_at heartbeat_at) (Going instant)
      | MsgPing payload => after (send_frame (ClientPong payload)) (Going instant)
      | MsgPong | MsgOther => st_ret (Going instant)
      | MsgClose => st_ret (Ended (Err "Relay WSS 已关闭。"))
      end
  end.

(** The session's loop, for as many events as are given. *)
Fixpoint session_loop (events : list ClientEvent) (last_server_activity : N) : Cl SessionFlow :=
  match events with
  | [] => st_ret (Going last_server_activity)
  | event :: events =>
      flow <-st session_event event last_server_activity ;;
      match flow with
      | Going last => session_loop events last
      | Ended result => st_ret (Ended result)
      end
  end.

Definition relay_session (settings : RelaySettings) (credentials : RelayCredentials) (connect : ConnectOutcome)
    (started : N) (events : list ClientEvent) : Cl SessionFlow :=
  _ <-st on_status begin_session ;;
  match websocket_url (relay_base_url settings) ("/v1/ws/desktop?desktopId=" ++ cred_desktop_id credentials) with
  | Err e => st_ret (Ended (Err e))
  | Ok url =>
      match request_error url with
      | Some e => st_ret (Ended (Err ("构造 Relay WSS 请求失败：" ++ e)))
      | None =>
          if negb (header_ok ("Bearer " ++ cred_desktop_token credentials))
          then st_ret (Ended (Err "Relay Desktop Token 无效。"))
          else match connect with
               | ConnectStopped => st_ret (Ended (Ok tt))
               | ConnectTimedOut => st_ret (Ended (Err "连接 Relay WSS 超时。"))
               | ConnectFailed e => st_ret (Ended (Err ("连接 Relay WSS 失败：" ++ e)))
               | ConnectDone =>
                   hello <-st send_desktop_message (DesktopHello PROTOCOL_VERSION (cred_desktop_id credentials) app_version
                                                      platform device_capabilities) ;;
                   match hello with
                   | Err e => st_ret (Ended (Err e))
                   | Ok _ => session_loop events started
                   end
               end
      end
  end.

(** ** The loop of sessions *)

(** One turn of [relay_loop]: whether the stop was seen at its top, its session, whether the stop
    was seen after it, the clock for the jitter, and the wait that follows. *)
Record Attempt := {
  stop_at_top : bool;
  connect_outcome : ConnectOutcome;
  session_start : N;
  session_events : list ClientEvent;
  stop_after : bool;
  jitter_clock : N;
  wait_fuel : nat;
  wait_client_ok : bool;
  wait_start : N;
  wait_round : nat -> Probe }.

(** The loop has ended, or a session is still going on (or no further turn is given). *)
Inductive LoopState := LoopEnded | LoopRunning (attempt : N).

(** The status after a session that was not stopped. *)
Definition failed_session (attempt : N) (result : Result unit string) (s : RelayStatus) : RelayStatus :=
  let s := with_attempt attempt (offline s) in
  match result with Err error => with_error error s | Ok _ => s end.

Fixpoint relay_loop (settings : RelaySettings) (credentials : RelayCredentials) (attempts : list Attempt) (attempt : N)
    : Cl LoopState :=
  match attempts with
  | [] => st_ret (LoopRunning attempt)
  | a :: attempts =>
      if stop_at_top a || negb (relay_enabled settings) then _ <-st on_status offline ;; st_ret LoopEnded
      else
        flow <-st relay_session settings credentials (connect_outcome a) (session_start a) (session_events a) ;;
        match flow with
        | Going _ => st_ret (LoopRunning attempt)
        | Ended result =>
            if stop_after a then _ <-st on_status offline ;; st_ret LoopEnded
            else
              let attempt := N.min (attempt + 1) u32_max in
              _ <-st on_status (failed_session attempt result) ;;
              let delay := jittered_delay (delay_of attempt) (jitter_clock a) in
              recovered <-st st_or_die (wait_for_network_recovery (wait_fuel a) settings (wait_client_ok a) (wait_start a) delay
                                          (wait_round a)) ;;
              if (recovered : bool)
              then _ <-st on_status (with_attempt 0) ;; relay_loop settings credentials attempts 0
              else relay_loop settings credentials attempts attempt
        end
  end.
End Session.

(** ** Uploading snapshots *)

Record SnapshotSource := { source_device : string; source_plaintext : bytes }.

(** The sequence numbers used, and what was posted. *)
Record Uploads := { sequences : gmap string N; posts : list (string * EncryptedSnapshot) }.

Section Uploading.
Context {S : Type} (seal : bytes -> bytes -> string -> bytes -> option bytes)
        (hkdf : string -> bytes -> string -> option bytes) (b64_encode : bytes -> string)
        (snapshot_provider : S -> option (list SnapshotSource) * S) (master_key : bytes) (desktop_id desktop_token session_id base : string)
        (random : Client S -> option bytes) (now : Client S -> N)
        (http_post : string -> EncryptedSnapshot -> Client S -> Result N string) (status_text : N -> string).

Definition snapshot_url (device_id : string) : string :=
  base ++ "/v1/desktops/" ++ desktop_id ++ "/devices/" ++ device_id ++ "/snapshot".

(** One source of one tick. *)
Definition upload (source : SnapshotSource) (u : Uploads) : Cl (S := S) Uploads :=
  let device := source_device source in
  let sequence := saturating_add (default 0%N (sequences u !! device)) 1 in
  let counted := <[device := sequence]> (sequences u) in
  generated_at <-st st_get now ;;
  nonce <-st st_get random ;;
  match encrypt_snapshot seal hkdf b64_encode nonce master_key desktop_id device session_id sequence generated_at
          (source_plaintext source) with
  | Err error =>
      _ <-st set_error ("Relay HTTPS Snapshot 加密失败：" ++ error) ;;
      st_ret {| sequences := counted; posts := posts u |}
  | Ok encrypted =>
      response <-st st_get (http_post (snapshot_url device) encrypted) ;;
      _ <-st match response with
             | Ok status => if is_success status
                            then fun c => on_status (with_heartbeat (now c)) c
                            else set_error ("Relay HTTPS Snapshot 上传失败：HTTP " ++ status_text status)
             | Err error => set_error ("Relay HTTPS Snapshot 上传失败：" ++ error)
             end ;;
      st_ret {| sequences := counted; posts := posts u ++ [(device, encrypted)] |}
  end.

Fixpoint upload_all (sources : list SnapshotSource) (u : Uploads) : Cl (S := S) Uploads :=
  match sources with
  | [] => st_ret u
  | source :: sources => u <-st upload source u ;; upload_all sources u
  end.

(** [snapshot_http_loop] once its client is built, for as many ticks as are given; a tick is whether the
    stop was seen. *)
Fixpoint snapshot_http_loop (enabled : bool) (ticks : list bool) (u : Uploads) : Cl (S := S) Uploads :=
  match ticks with
  | [] => st_ret u
  | stop :: ticks =>
      if stop || negb enabled then st_ret u
      else
        sources <-st cl_app snapshot_provider ;;
        u <-st upload_all sources u ;;
        snapshot_http_loop enabled ticks u
  end.
End Uploading.

(** ** The wait for the network *)

Lemma recovery_rounds_true fuel deadline probing round i saw :
  recovery_rounds fuel deadline probing round i saw = Some true ->
  probing = true /\ exists j, (i <= j)%nat /\ probed (round j) = Some true /\ (at_top (round j) < deadline)%N
    /\ (saw = true \/ exists k, (i <= k < j)%nat /\ probed (round k) = Some false).
Proof.
  revert i saw. induction fuel as [|fuel IH]; intros i saw H; [done|]. cbn in H.
  destruct (deadline <=? at_top (round i))%N eqn:Htop; [done|]. apply N.leb_gt in Htop.
  destruct probing.
  - split; [done|]. destruct (probed (round i)) as [reachable|] eqn:Hp; [|done].
    destruct (reachable && saw) eqn:Hb.
    + apply andb_prop in Hb as [-> ->]. exists i. split_and!; [lia|done..|by left].
    + destruct (_ =? 0)%N; [done|]. destruct (sleep_stopped (round i)); [done|].
      apply IH in H as (_ & j & Hj & Hpj & Htj & Hs). exists j. split_and!; [lia|done..|].
      destruct Hs as [Hs|(k & Hk & Hpk)]; [|right; exists k; split; [lia|done]].
      destruct saw; [by left|]. right. exists i. rewrite andb_false_r in Hb. split; [|by destruct reachable].
      destruct (decide (i = j)) as [<-|]; [|lia]. destruct reachable; [done|congruence].
  - destruct (_ =? 0)%N; [done|]. destruct (sleep_stopped (round i)); [done|]. by apply IH in H as [? _].
Qed.

(** Every sleep takes at least its time, and clocks do not go back. *)
Definition sleeps (deadline : N) (probing : bool) (round : nat -> Probe) : Prop := forall i,
  (at_top (round i) <= after_probe (round i))%N
  /\ (after_probe (round i) + recovery_sleep deadline probing (round i) <= at_top (round (S i)))%N.

Lemma recovery_rounds_end fuel deadline probing round i saw :
  sleeps deadline probing round -> (deadline <= at_top (round i) + probe_retry_ms * (N.of_nat fuel - 1))%N -> (0 < fuel)%nat ->
  recovery_rounds fuel deadline probing round i saw <> None.
Proof.
  intros Hs. revert i saw. induction fuel as [|fuel IH]; intros i saw Hd Hf; [lia|]. cbn.
  destruct (deadline <=? at_top (round i))%N eqn:Htop; [done|]. apply N.leb_gt in Htop.
  destruct (Hs i) as [Hp Hn].
  assert (forall saw', (if (saturating_sub deadline (after_probe (round i)) =? 0)%N then Some false
    else if sleep_stopped (round i) then Some false
    else recovery_rounds fuel deadline probing round (S i) saw') <> None) as Hrest.
  { intros saw'. destruct (_ =? 0)%N eqn:Hz; [done|]. apply N.eqb_neq in Hz. destruct (sleep_stopped _); [done|].
    destruct fuel as [|fuel]; [exfalso; cbn in Hd; lia|].
    apply IH; [|lia]. unfold recovery_sleep, saturating_sub, probe_retry_ms, recovery_probe_interval_ms in *.
    destruct probing; lia. }
  destruct probing; [destruct (probed (round i)) as [reachable|]; [|done]; destruct (_ && _); [done|]|]; apply Hrest.
Qed.

(** Waiting for the network ends, and is cut short only by a recovery.  If sleeping takes its
    time, the wait before the next attempt ends within one round for every 200 ms of the delay
    (and one more); it reports a recovery only if the Relay was found reachable, before the
    end of the delay, after an earlier probe of the same wait had found it unreachable. *)
Theorem network_wait_ends fuel settings client_ok start delay round :
  sleeps (start + delay) (client_ok && is_ok (normalized_base_url (relay_base_url settings))) round ->
  (start <= at_top (round 0%nat))%N -> (delay <= probe_retry_ms * (N.of_nat fuel - 1))%N -> (0 < fuel)%nat ->
  exists recovered, wait_for_network_recovery fuel settings client_ok start delay round = Some recovered
  /\ (recovered = true -> exists k j, (k < j)%nat /\ probed (round k) = Some false /\ probed (round j) = Some true
      /\ (at_top (round j) < start + delay)%N).
Proof.
  intros Hs Hstart Hd Hf. unfold wait_for_network_recovery.
  destruct (recovery_rounds _ _ _ _ _ _) as [r|] eqn:Hr.
  - exists r. split; [done|]. intros ->. apply recovery_rounds_true in Hr as (_ & j & _ & Hj & Ht & [?|(k & Hk & Hpk)]); [done|].
    exists k, j. split_and!; [lia|done..].
  - exfalso. revert Hr. apply recovery_rounds_end; [done| |done]. unfold probe_retry_ms in *. lia.
Qed.

(** The delays of the source, with their jitter. *)
Lemma jittered_delay_bounds attempt now :
  let seconds := delay_of attempt in
  In seconds reconnect_delays
  /\ (800 * seconds <= jittered_delay seconds now <= 1200 * seconds)%N /\ (jittered_delay seconds now <= 36000)%N.
Proof.
  cbv zeta. assert (In (delay_of attempt) reconnect_delays) as Hin 
    by (unfold delay_of; apply nth_In; change (length reconnect_delays) with 5%nat; lia).
  split; [done|].
  assert (0 <= Z.of_N (now mod 401) <= 400)%Z as Hj by (pose proof (N.mod_lt now 401 ltac:(done)) as Hm; revert Hm; generalize (now mod 401)%N; intros m Hm; lia).
  unfold jittered_delay. set (j := (Z.of_N (now mod 401) - 200)%Z) in *. assert (-200 <= j <= 200)%Z as Hj' by lia. clearbody j.
  assert (forall n, (1 <= n <= 30)%N ->
    (800 * n <= Z.to_N (Z.max (Z.quot (i64_saturate (Z.of_N n * 1000 * (1000 + j))) 1000) 200) <= 1200 * n)%N) as Hn.
  { intros n Hn. assert (i64_saturate (Z.of_N n * 1000 * (1000 + j)) = Z.of_N n * (1000 + j) * 1000)%Z as ->
      by (unfold i64_saturate; nia).
    rewrite Z.quot_mul by lia. nia. }
  revert Hin Hn. generalize (delay_of attempt). intros n Hin Hn. assert (1 <= n <= 30)%N as Hb by (cbn in Hin; lia).
  specialize (Hn n Hb). lia.
Qed.

(** ** Every request of the Relay is answered *)

(** A request that wants an answer, and its answers. *)
Definition expects_answer (message : DesktopServerMessage) : bool :=
  match message with PairingRequest _ _ _ | DeviceRevoke _ _ | DeviceControl _ _ => true | _ => false end.

Definition answers (message : DesktopServerMessage) (frame : ClientFrame) : Prop :=
  match message, frame with
  | PairingRequest _ connection_id _, Say (PairingResponse _ connection _) => connection = connection_id
  | PairingRequest pairing_id connection_id _, Say (PairingError pairing connection _) =>
      pairing = pairing_id /\ connection = connection_id
  | DeviceRevoke device_id request_id, Say (RevokeResult device request) => device = device_id /\ request = request_id
  | DeviceRevoke device_id request_id, Say (RevokeError device request message) =>
      device = device_id /\ request = request_id /\ message = "desktop revoke failed"
  | DeviceControl device_id _, Say (ControlResponse device _) => device = device_id
  | DeviceControl device_id request, Say (ControlError device id message) =>
      device = device_id /\ id = ctl_request_id request /\ message = "desktop rejected control request"
  | _, _ => False
  end.

Definition is_answer (frame : ClientFrame) : bool :=
  match frame with
  | Say (PairingResponse _ _ _ | PairingError _ _ _ | ControlResponse _ _ | ControlError _ _ _ | RevokeResult _ _
        | RevokeError _ _ _) => true
  | _ => false
  end.

Section SessionProps.
Context {S : Type}
        (pairing_handler : PairingWsMessage -> S -> option (Result PairingServerMessage string) * S)
        (revoke_handler : string -> S -> option (Result unit string) * S)
        (control_handler : string -> EncryptedControlPayload -> S -> option (Result EncryptedControlPayload string) * S)
        (server_message_from_str : string -> Result DesktopServerMessage string)
        (send_fault : ClientFrame -> Client S -> option string)
        (request_error : string -> option string) (header_ok : string -> bool) (app_version platform : string).

#[local] Abbreviation text_of := (server_text pairing_handler revoke_handler control_handler server_message_from_str send_fault).
#[local] Abbreviation event_of := (session_event pairing_handler revoke_handler control_handler server_message_from_str send_fault).
#[local] Abbreviation loop_of := (session_loop pairing_handler revoke_handler control_handler server_message_from_str send_fault).
#[local] Abbreviation session_of := (relay_session pairing_handler revoke_handler control_handler server_message_from_str
  send_fault request_error header_ok app_version platform).

(** The requests among the events, in order. *)
Definition event_requests (event : ClientEvent) : list DesktopServerMessage :=
  match event with
  | Incoming (Some (Ok (MsgText text))) _ _ _ _ =>
      match server_message_from_str text with
      | Ok message => if expects_answer message then [message] else []
      | Err _ => []
      end
  | _ => []
  end.
Definition requests (events : list ClientEvent) : list DesktopServerMessage := concat (map event_requests events).

Definition answers_in (frames : list ClientFrame) : list ClientFrame := List.filter is_answer frames.

(** From [c] to [c'] the first of the requests were answered, in order; all of them if [done]. *)
Definition answered (asked : list DesktopServerMessage) (all : bool) (c c' : Client S) : Prop :=
  exists n new, client_sent c' = (client_sent c ++ new)%list /\ Forall2 answers (firstn n asked) (answers_in new)
    /\ (n <= length asked)%nat /\ (all = true -> n = length asked).

Lemma answered_none asked c c' : client_sent c' = client_sent c -> answered asked false c c'.
Proof. intros H. exists 0%nat, []. rewrite app_nil_r. split_and!; [done|constructor|lia|done]. Qed.

Lemma answered_nil all c c' new : client_sent c' = (client_sent c ++ new)%list -> answers_in new = [] -> answered [] all c c'.
Proof. intros H Hn. exists 0%nat, new. rewrite Hn. split_and!; [done|constructor|lia|done]. Qed.

Lemma answered_app a b all c1 c2 c3 : answered a true c1 c2 -> answered b all c2 c3 -> answered (a ++ b) all c1 c3.
Proof.
  intros (n & new & Ho & Hf & _ & Hn) (n' & new' & Ho' & Hf' & Hl' & Hn'). specialize (Hn eq_refl) as ->.
  exists (length a + n')%nat, (new ++ new')%list. rewrite Ho', Ho, app_assoc. rewrite firstn_all in Hf.
  rewrite firstn_app_2, length_app. unfold answers_in in *. rewrite List.filter_app.
  split_and!; [done|by apply Forall2_app|lia|]. intros E. specialize (Hn' E). lia.
Qed.

Lemma answered_prefix a b c1 c2 : answered a false c1 c2 -> answered (a ++ b) false c1 c2.
Proof.
  intros (n & new & Ho & Hf & Hl & _). exists n, new. rewrite firstn_app, length_app.
  replace (n - length a)%nat with 0%nat by lia. cbn. rewrite app_nil_r. split_and!; [done..|lia|done].
Qed.

Lemma answered_weaken a all c1 c2 : answered a all c1 c2 -> answered a false c1 c2.
Proof. intros (n & new & ? & ? & ? & _). exists n, new. by split_and!. Qed.

Lemma on_status_sent f (c : Client S) res c' : on_status f c = (res, c') -> client_sent c' = client_sent c /\ res = Some tt.
Proof. by intros [= <- <-]. Qed.

Lemma cl_app_sent {A} (m : S -> option A * S) (c : Client S) res c' : cl_app m c = (res, c') -> client_sent c' = client_sent c.
Proof. unfold cl_app. destruct (m (client_app c)). by intros [= _ <-]. Qed.

(** Sending the answer to a request: it goes out, or the session ends with an error. *)
Lemma send_answer message frame c res c' :
  send_frame send_fault frame c = (res, c') -> answers message frame -> is_answer frame = true ->
  match res with
  | Some (Ok _) => answered [message] true c c'
  | _ => answered [message] false c c'
  end.
Proof.
  unfold send_frame. intros H Ha Hi. destruct (send_fault frame c); injection H as <- <-; [by apply answered_none|].
  exists 1%nat, [frame]. unfold answers_in. cbn. rewrite Hi. split_and!; [done| |done..]. by repeat constructor.
Qed.

Lemma answered_from asked all c c1 c' :
  client_sent c1 = client_sent c -> answered asked all c1 c' -> answered asked all c c'.
Proof. intros E (n & new & H). exists n, new. by rewrite <- E. Qed.

(** Whether a step went well. *)
Definition went_well {A} (res : option (Result A string)) : bool := match res with Some (Ok _) => true | _ => false end.

Lemma send_answered message frame c res c' :
  send_frame send_fault frame c = (res, c') -> answers message frame -> is_answer frame = true ->
  answered [message] (went_well res) c c'.
Proof. intros H Ha Hi. pose proof (send_answer message frame c res c' H Ha Hi) as Hs. by destruct res as [[]|]. Qed.

(** A handler, then the frames. *)
Lemma handled_answered {A} (m : S -> option A * S) (k : A -> Cl (S := S) (Result unit string)) asked c res c' :
  st_bind (cl_app m) k c = (res, c') ->
  (forall a c1, k a c1 = (res, c') -> answered asked (went_well res) c1 c') -> answered asked (went_well res) c c'.
Proof.
  intros [[H ->]|(a & c1 & H & Hk)]%st_bind_inv Hall; apply cl_app_sent in H; [by apply answered_none|].
  eapply answered_from; [exact H|]. by eapply Hall.
Qed.

Lemma after_error error (k : Cl (S := S) (Result unit string)) asked c res c' :
  st_bind (set_error error) (fun _ => k) c = (res, c') ->
  (forall c1, k c1 = (res, c') -> answered asked (went_well res) c1 c') -> answered asked (went_well res) c c'.
Proof.
  intros [[H _]|([] & c1 & H & Hk)]%st_bind_inv Hall; apply on_status_sent in H as [Hs ?]; [done|].
  eapply answered_from; [exact Hs|]. by apply Hall.
Qed.

Lemma text_answered text at_ beat c res c' :
  text_of text at_ beat c = (res, c') ->
  answered (match server_message_from_str text with
            | Ok message => if expects_answer message then [message] else []
            | Err _ => []
            end) (went_well res) c c'.
Proof.
  unfold server_text. intros H.
  assert (forall c1, client_sent c1 = client_sent c -> c1 = c' -> answered [] (went_well res) c c') as Hquiet.
  { intros c1 E ->. eapply answered_nil; [by rewrite E, app_nil_r|done]. }
  destruct (server_message_from_str text) as [[accepted time caps|time|pairing_id connection_id payload|device_id
    |device_id request_id|device_id request|message]|error]; cbn [expects_answer] in *.
  - apply st_bind_inv in H as [[H _]|(u & c1 & H & [= <- <-])]; apply on_status_sent in H as [Hs ?]; [done|by eapply Hquiet].
  - injection H as <- <-. by eapply Hquiet.
  - eapply handled_answered; [exact H|]. intros result c1 Hk. eapply send_answered; [exact Hk|..];
      destruct result as [[?|?]|?]; done.
  - apply st_bind_inv in H as [[H _]|(result & c1 & H & Hk)]; apply cl_app_sent in H; [by eapply Hquiet|].
    assert (forall r c2, match result with
      | Ok _ => st_ret tt
      | Err error => set_error ("Relay 已撤销设备，但 Desktop 本地同步失败：" ++ error)
      end c1 = (r, c2) -> client_sent c2 = client_sent c1) as Hset.
    { intros r c2 Hr. destruct result; [by injection Hr as _ <-|by apply on_status_sent in Hr as [? _]]. }
    apply st_bind_inv in Hk as [[Hk _]|(u & c2 & Hk & [= <- <-])]; apply Hset in Hk; eapply Hquiet; [by etrans|done|by etrans|done].
  - eapply handled_answered; [exact H|]. intros [u|e] c1 Hk; [by eapply send_answered|].
    eapply after_error; [exact Hk|]. intros c2 Hk2. by eapply send_answered.
  - eapply handled_answered; [exact H|]. intros [response|e] c1 Hk; [by eapply send_answered|].
    eapply after_error; [exact Hk|]. intros c2 Hk2. by eapply send_answered.
  - apply st_bind_inv in H as [[H _]|(u & c1 & H & [= <- <-])]; apply on_status_sent in H as [Hs ?]; [done|by eapply Hquiet].
  - apply st_bind_inv in H as [[H _]|(u & c1 & H & [= <- <-])]; apply on_status_sent in H as [Hs ?]; [done|by eapply Hquiet].
Qed.

(** Whether the session still goes on. *)
Definition goes_on (res : option SessionFlow) : bool := match res with Some (Going _) => true | _ => false end.

Lemma after_inv {A} (m : Cl (S := S) (Result A string)) last c res c' :
  after m (Going last) c = (res, c') -> exists r, m c = (r, c') /\ goes_on res = went_well r.
Proof.
  intros [[H ->]|(r & c1 & H & [= <- <-])]%st_bind_inv; [by exists None|]. exists (Some r). split; [done|]. by destruct r.
Qed.

Lemma send_other frame c res c' :
  send_frame send_fault frame c = (res, c') -> is_answer frame = false -> forall all, answered [] all c c'.
Proof.
  unfold send_frame. intros H Hi all. destruct (send_fault frame c); injection H as _ <-.
  - by eapply (answered_nil all c c []); [rewrite app_nil_r|].
  - eapply (answered_nil all c _ [frame]); [done|]. unfold answers_in. cbn. by rewrite Hi.
Qed.

Lemma event_answered event last c res c' :
  event_of event last c = (res, c') -> answered (event_requests event) (goes_on res) c c'.
Proof.
  assert (forall r c1, client_sent c1 = client_sent c -> answered [] r c c1) as Hquiet.
  { intros r c1 E. eapply answered_nil; [by rewrite E, app_nil_r|done]. }
  destruct event as [|instant sent_at|[[message|e]|] instant heard at_ beat]; cbn [session_event event_requests]; intros H.
  - apply st_bind_inv in H as [[H ->]|(u & c1 & H & [= <- <-])];
      (apply st_bind_inv in H as [[H _]|(r & c2 & H & [= _ <-])]; by eapply send_other in H).
  - destruct (client_idle_timeout_ms <? _)%N; [injection H as <- <-; by apply Hquiet|].
    apply after_inv in H as (r & H & _). by eapply send_other in H.
  - apply st_bind_inv in H as [[H _]|([] & c1 & H & Hk)]; apply on_status_sent in H as [Hs ?]; [done|].
    eapply answered_from; [exact Hs|]. clear Hs Hquiet. destruct message as [text|payload| | |].
    + apply after_inv in Hk as (r & Hk & ->). by apply text_answered in Hk.
    + apply after_inv in Hk as (r & Hk & _). by eapply send_other in Hk.
    + injection Hk as <- <-. by eapply (answered_nil _ c1 c1 []); [rewrite app_nil_r|].
    + injection Hk as <- <-. by eapply (answered_nil _ c1 c1 []); [rewrite app_nil_r|].
    + injection Hk as <- <-. by eapply (answered_nil _ c1 c1 []); [rewrite app_nil_r|].
  - injection H as <- <-. by apply Hquiet.
  - injection H as <- <-. by apply Hquiet.
Qed.

Lemma loop_answered events last c res c' :
  loop_of events last c = (res, c') -> answered (requests events) (goes_on res) c c'.
Proof.
  revert last c. induction events as [|event events IH]; intros last c H; cbn [session_loop] in H.
  { injection H as <- <-. by eapply (answered_nil _ c c []); [rewrite app_nil_r|]. }
  change (requests (event :: events)) with (event_requests event ++ requests events)%list.
  apply st_bind_inv in H as [[H ->]|(flow & c1 & H & Hk)]; apply event_answered in H; [by apply answered_prefix|].
  destruct flow as [last'|result]; [by eapply answered_app; [exact H|eapply IH]|].
  injection Hk as <- <-. by apply answered_prefix.
Qed.

End SessionProps.

(** ** Uploads are numbered *)

Section UploadProps.
Context {S : Type} (seal : bytes -> bytes -> string -> bytes -> option bytes)
        (hkdf : string -> bytes -> string -> option bytes) (b64_encode : bytes -> string)
        (snapshot_provider : S -> option (list SnapshotSource) * S) (master_key : bytes)
        (desktop_id desktop_token session_id base : string)
        (random : Client S -> option bytes) (now : Client S -> N)
        (http_post : string -> EncryptedSnapshot -> Client S -> Result N string) (status_text : N -> string).

#[local] Abbreviation upload_of := (upload seal hkdf b64_encode master_key desktop_id session_id base random now http_post status_text).
#[local] Abbreviation upload_all_of := (upload_all seal hkdf b64_encode master_key desktop_id session_id base random now http_post
  status_text).
#[local] Abbreviation upload_loop := (snapshot_http_loop seal hkdf b64_encode snapshot_provider master_key desktop_id session_id base
  random now http_post status_text).

(** The numbers of the snapshots posted for a device, in order. *)
Definition posted (device : string) (u : Uploads) : list N :=
  map (fun post => snap_sequence post.2) (List.filter (fun post => String.eqb post.1 device) (posts u)).

Definition last_number (device : string) (u : Uploads) : N := default 0%N (sequences u !! device).

(** Later is larger, until the counter is full. *)
Definition before (a b : N) : Prop := (a < b)%N \/ b = u64_max.

Definition well_numbered (u : Uploads) : Prop :=
  (forall device, StronglySorted before (posted device u) /\ Forall (fun n => (n <= last_number device u)%N) (posted device u)
     /\ (last_number device u <= u64_max)%N)
  /\ Forall (fun post => snap_session_id post.2 = session_id) (posts u).

Lemma sorted_snoc l n : StronglySorted before l -> Forall (fun m => before m n) l -> StronglySorted before (l ++ [n]).
Proof.
  induction 1 as [|m l Hl IH Hm]; intros Hn; [by repeat constructor|]. apply Forall_cons in Hn as [Hmn Hn]. cbn.
  constructor; [by apply IH|]. apply Forall_app. split; [done|]. constructor; [done|constructor].
Qed.

Lemma encrypt_snapshot_numbers nonce device sequence at_ text snapshot :
  encrypt_snapshot seal hkdf b64_encode nonce master_key desktop_id device session_id sequence at_ text = Ok snapshot ->
  snap_sequence snapshot = sequence /\ snap_session_id snapshot = session_id.
Proof.
  unfold encrypt_snapshot. destruct (derive_device_key _ _ _); [|done]. destruct nonce; [|done].
  destruct (seal _ _ _ _); [|done]. by intros [= <-].
Qed.

Lemma last_number_insert device device' n u ps :
  last_number device' {| sequences := <[device := n]> (sequences u); posts := ps |}
  = if String.eqb device device' then n else last_number device' u.
Proof.
  unfold last_number. cbn. destruct (String.eqb_spec device device') as [->|Hne]; [by rewrite lookup_insert_eq|].
  by rewrite lookup_insert_ne.
Qed.

Lemma counted_well device u :
  well_numbered u ->
  well_numbered {| sequences := <[device := saturating_add (last_number device u) 1]> (sequences u); posts := posts u |}.
Proof.
  intros [Hw Hs]. split; [|done]. intros device'. destruct (Hw device') as (Hsort & Hall & Hmax). split; [done|].
  rewrite last_number_insert. destruct (String.eqb_spec device device') as [->|]; [|done].
  unfold saturating_add. split; [|lia]. eapply Forall_impl; [exact Hall|]. cbn. intros n Hn. lia.
Qed.

Lemma posted_well device snapshot u :
  well_numbered u -> snap_sequence snapshot = saturating_add (last_number device u) 1 -> snap_session_id snapshot = session_id ->
  well_numbered {| sequences := <[device := saturating_add (last_number device u) 1]> (sequences u);
                   posts := posts u ++ [(device, snapshot)] |}.
Proof.
  intros [Hw Hs] Hn Hid. split; [|apply Forall_app; by repeat constructor]. intros device'.
  destruct (Hw device') as (Hsort & Hall & Hmax). unfold posted in *. cbn [posts].
  rewrite last_number_insert, List.filter_app, map_app. cbn.
  destruct (String.eqb_spec device device') as [->|]; cbn; [|by rewrite app_nil_r].
  rewrite Hn. unfold saturating_add in *. split_and!; [| |lia].
  - apply sorted_snoc; [done|]. eapply Forall_impl; [exact Hall|]. intros n Hle. unfold before. cbn in Hle. lia.
  - apply Forall_app. split; [eapply Forall_impl; [exact Hall|]; cbn; intros n Hle; lia|]. by repeat constructor.
Qed.

Lemma upload_well source u c u' c' : upload_of source u c = (Some u', c') -> well_numbered u -> well_numbered u'.
Proof.
  unfold upload. unfold st_get, st_bind at 1 2. intros H Hw.
  destruct (encrypt_snapshot _ _ _ _ _ _ _ _ _ _ _) as [snapshot|e] eqn:He.
  - apply encrypt_snapshot_numbers in He as [Hn Hid]. apply st_bind_inv in H as [[_ ?]|(r & c1 & _ & H)]; [done|].
    apply st_bind_inv in H as [[_ ?]|(v & c2 & _ & [= <- _])]; [done|]. by apply posted_well.
  - apply st_bind_inv in H as [[_ ?]|(v & c1 & _ & [= <- _])]; [done|]. by apply counted_well.
Qed.

Lemma upload_all_well sources u c u' c' : upload_all_of sources u c = (Some u', c') -> well_numbered u -> well_numbered u'.
Proof.
  revert u c. induction sources as [|source sources IH]; intros u c H Hw; [by injection H as <- _|].
  apply st_bind_inv in H as [[_ ?]|(u1 & c1 & H1 & H)]; [done|]. eapply IH; [exact H|]. by eapply upload_well.
Qed.

Lemma upload_loop_well enabled ticks u c u' c' :
  upload_loop enabled ticks u c = (Some u', c') -> well_numbered u -> well_numbered u'.
Proof.
  revert u c. induction ticks as [|stop ticks IH]; intros u c H Hw; cbn in H; [by injection H as <- _|].
  destruct (stop || negb enabled); [by injection H as <- _|].
  apply st_bind_inv in H as [[_ ?]|(sources & c1 & _ & H)]; [done|].
  apply st_bind_inv in H as [[_ ?]|(u1 & c2 & H1 & H)]; [done|]. eapply IH; [exact H|]. by eapply upload_all_well.
Qed.

(** Uploaded snapshots of a device are numbered upwards.  Over the whole life of the uploading
    task, whatever encryption or the network refuses, the snapshots posted for each device
    carry the session of the task and strictly increasing numbers (until the 64-bit counter
    saturates), so a Relay or a phone never sees a number twice. *)
Theorem uploads_increase enabled ticks c u c' :
  upload_loop enabled ticks {| sequences := ∅; posts := [] |} c = (Some u, c') ->
  (forall device, StronglySorted before (posted device u)) /\ Forall (fun post => snap_session_id post.2 = session_id) (posts u).
Proof.
  intros H. apply upload_loop_well in H as [Hw Hs].
  - split; [|done]. intros device. apply Hw.
  - split; [|constructor]. intros device. split_and!; [constructor..|]. done.
Qed.
End UploadProps.

(** ** Witnesses *)

Definition sample_client (d : Desk) : Client Desk :=
  {| client_app := d; client_status := new_mutex relay_status_default; client_sent := [] |}.

(** The Relay acknowledges, asks for a revocation, then sends nonsense. *)
Definition sample_server_message (text : string) : Result DesktopServerMessage string :=
  if String.eqb text "ack" then Ok (DesktopHelloAck "s_1" 1 [])
  else if String.eqb text "revoke" then Ok (DeviceRevoke sample_device_id "r_1") else Err "bad".

Definition sample_text (text : string) : ClientEvent := Incoming (Some (Ok (MsgText text))) 1000 1 2 3.

Definition sample_local_revoke (device_id : string) : App (Result unit string) :=
  removed <-app? revoke_monitor_device_local sample_platform false "42" sample_devices_read sample_devices_print device_id ;;
  app_ret (Ok tt).

#[local] Abbreviation sample_session := (relay_session (fun _ d => (Some (Err "no"), d)) sample_local_revoke
  (fun _ _ d => (Some (Err "no"), d)) sample_server_message (fun _ _ => None) (fun _ => None) (fun _ => true) "1.0" "linux").


(** The Relay is down at first and found again after four seconds of ten. *)
Definition sample_probe (i : nat) : Probe :=
  {| at_top := (2000 * N.of_nat i)%N; probed := Some (2 <=? i)%nat; after_probe := (2000 * N.of_nat i)%N; sleep_stopped := false |}.

Lemma network_wait_ends_witness :
  exists recovered, wait_for_network_recovery 60 (relay sample_monitored) true 0 10000 sample_probe = Some recovered
  /\ recovered = true.
Proof.
  destruct (network_wait_ends 60 (relay sample_monitored) true 0 10000 sample_probe) as (r & Hr & _).
  - intros i. unfold recovery_sleep, sample_probe, recovery_probe_interval_ms. cbn [at_top after_probe andb].
    replace (is_ok _) with true by reflexivity. cbn. lia.
  - reflexivity.
  - vm_compute. discriminate.
  - lia.
  - exists r. split; [exact Hr|]. vm_compute in Hr. congruence.
Defined.

(** Two ticks; the second post is refused. *)
Lemma uploads_increase_witness :
  let r := snapshot_http_loop sample_seal sample_hkdf sample_b64_encode
             (fun d => (Some [{| source_device := "dev_1"; source_plaintext := [] |}], d)) (repeat x07 32) "dt_1" "s_1"
             "https://relay.example" (fun _ => Some (repeat x07 12)) (fun _ => 7%N) (fun _ _ _ => Ok 500%N) (fun _ => "500") true
             [false; false] {| sequences := ∅; posts := [] |} (sample_client sample_paired_desk) in
  match r.1 with Some u => posted "dev_1" u = [1; 2]%N /\ StronglySorted before (posted "dev_1" u) | None => False end.
Proof.
  intros r. assert (option_map (posted "dev_1") r.1 = Some [1; 2]%N) as Hp by (vm_compute; reflexivity).
  destruct r as [[u|] c'] eqn:Hr; [|discriminate]. unfold r in Hr. cbn in Hp.
  split; [injection Hp as Hp; exact Hp|apply (uploads_increase _ _ _ _ _ _ _ _ _ _ _ _ _ _ _ _ _ Hr)].
Defined.

(** The back-off of [relay_loop] is not reset by a session that was accepted: after five sessions
    that each worked and were then closed, the next attempt waits for half a minute, while the
    status counts from zero. *)
Definition sample_closed_session : Attempt :=
  {| stop_at_top := false; connect_outcome := ConnectDone; session_start := 0;
     session_events := [sample_text "ack"; Incoming None 2000 2 2 2]; stop_after := false; jitter_clock := 200;
     wait_fuel := 2; wait_client_ok := true; wait_start := 0;
     wait_round := fun _ => {| at_top := 40000; probed := None; after_probe := 0; sleep_stopped := false |} |}.

Lemma backoff_not_reset :
  let r := relay_loop (fun _ d => (Some (Err "no"), d)) sample_local_revoke (fun _ _ d => (Some (Err "no"), d))
             sample_server_message (fun _ _ => None) (fun _ => None) (fun _ => true) "1.0" "linux"
             (relay sample_monitored) sample_relay_credentials (repeat sample_closed_session 5) 0
             (sample_client sample_paired_desk) in
  r.1 = Some (LoopRunning 5) /\ jittered_delay (delay_of 5) 200 = 30000%N
  /\ length (client_sent r.2) = 5%nat.
Proof. vm_compute. repeat split. Qed.
