(* ===== verification/Network.v ===== *)
(** * The network page's commands ([src-tauri/src/network_commands.rs])

    Proxy and Relay settings, registering the desktop with a Relay, and starting and stopping
    the client of [RelayClient].  Changing the settings is a transaction that restarts what
    the change concerns and takes the change back when that fails. *)

From S2P Require Export Connection Identity RelayClient.
From stdpp Require Import pretty.
Local Open Scope string_scope.

(** The machine the application runs on, as far as these commands ask it: its name and
    platform, the version of the application, the random bytes drawn for a purpose, whether a
    TCP connection to a host and port succeeds, and the permission bits of a file ([None]
    where there are none). *)
Record Host := {
  host_device_name : string;
  host_version : string;
  host_platform : string;
  draw : string -> Desk -> option bytes;
  tcp_probe : string -> N -> Desk -> bool;
  file_mode : Path -> Desk -> option N;
  value_pretty : Value -> Result string string }.

(** ** The status of the Relay's client *)

Definition stop_relay_client (d : Desk) : Desk :=
  let d := set_relay_client (update_locked (fun _ => None) (relay_client d)) d in
  set_relay_status (update_locked offline (relay_status d)) d.

(** [RelayStatus { enabled, configured, ..RelayStatus::default() }] *)
Definition idle_status (enabled configured : bool) : RelayStatus :=
  {| rs_enabled := enabled; rs_configured := configured; rs_connected := false; rs_connecting := false;
     rs_desktop_id := None; rs_session_id := None; rs_connected_at := None; rs_last_heartbeat_at := None;
     rs_reconnect_attempt := 0; rs_last_error := "" |}.

Definition put_status (s : RelayStatus) (d : Desk) : Desk := set_relay_status (update_locked (fun _ => s) (relay_status d)) d.

(** ** What a payload asks for *)

Definition text_field (key : string) (v : Value) : option string :=
  match Json.get key v with Some (VString s) => Some s | _ => None end.
Definition bool_field (key : string) (v : Value) : option bool :=
  match Json.get key v with Some (Bool b) => Some b | _ => None end.
Definition is_object (v : Value) : bool := match v with Object _ => true | _ => false end.
Definition has_field (key : string) (v : Value) : bool := match Json.get key v with Some _ => true | None => false end.

Definition proxy_from_payload (system : Result (option string) string) (current : ProxySettings) (proxy : Value)
    : Result ProxySettings string :=
  return_if negb (is_object proxy) with Err "代理设置格式无效。" in
  let mode := match text_field "mode" proxy with Some m => to_ascii_lowercase (trim m) | None => proxy_mode current end in
  let url := match text_field "url" proxy with Some u => trim u | None => proxy_url current end in
  match mode with
  | "direct" => Ok {| proxy_mode := mode; proxy_url := url; proxy_applied_url := "" |}
  | "manual" =>
      url <-? validate_proxy_url url ;;
      Ok {| proxy_mode := mode; proxy_url := url; proxy_applied_url := url |}
  | "system" =>
      applied <-? system ;;
      Ok {| proxy_mode := mode; proxy_url := url; proxy_applied_url := default "" applied |}
  | _ => Err "Tunnel 代理模式仅支持 direct、system 或 manual。"
  end.

Definition relay_from_payload (current : RelaySettings) (monitor : bool) (payload : Value) : Result RelaySettings string :=
  return_if negb (is_object payload) with Err "Relay 设置格式无效。" in
  let next := {| relay_enabled := default (relay_enabled current) (bool_field "enabled" payload);
                 relay_base_url := match text_field "baseUrl" payload with
                                   | Some url => trim url | None => relay_base_url current end |} in
  _ <-? validate_relay next ;;
  return_if relay_enabled next && negb monitor with Err "启用 ChatX Relay 前请先开启手机监控。" in
  Ok next.

Definition network_settings_from_payload (system : Result (option string) string) (current : Settings) (payload : Value)
    : Result Settings string :=
  next <-? match Json.get "proxy" payload with
           | Some proxy_payload =>
               p <-? proxy_from_payload system (proxy current) proxy_payload ;; Ok (set_proxy p current)
           | None => Ok current
           end ;;
  match Json.get "relay" payload with
  | Some relay_payload =>
      r <-? relay_from_payload (relay next) (monitor_enabled next) relay_payload ;; Ok (set_relay r next)
  | None => Ok next
  end.

Definition rollback_suffix (errors : list string) : string :=
  match errors with [] => "原配置已恢复。" | _ => "回滚未完全成功：" ++ String.concat "；" errors end.

Section Commands.
Context (P : Platform) (H : Host) (net : Network) (process_id : string)
        (devices_from_str : string -> Result (list MonitorDeviceRecord) string)
        (secret_fault : SecretOp -> Desk -> option string) (random_key : Desk -> option bytes)
        (b64_encode : bytes -> string) (b64_decode : string -> option bytes)
        (credentials_from_str : string -> Result RelayCredentials string)
        (credentials_to_string : RelayCredentials -> Result string string)
        (unprotect_secret : Desk -> Result string string)
        (invite_from_slice : list byte -> option Registration.RegistrationInvite).

Definition credentials_for (settings : Settings) : App (option RelayCredentials) :=
  relay_credentials_for_settings secret_fault credentials_from_str settings.

(** [ensure_monitor_desktop_id(app)] *)
Definition app_desktop_id : App (Result string string) := fun d =>
  on_files (ensure_monitor_desktop_id P process_id (value_pretty H) (draw H "desktop identity" d)) d.

(** ** The setup token *)

Definition relay_setup_token_path : Fs (Result Path string) :=
  dir <-fs? state_dir (base_dir P) ;; fs_ret (Ok {| parent := Some dir; file_name := "relay-setup-token" |}).

(** The permission check of Unix: nobody but the owner may use the file. *)
Definition check_private (path : Path) : App (Result unit string) :=
  mode <-app app_get (file_mode H path) ;;
  match mode with
  | None => app_ret (Ok tt)
  | Some mode =>
      _ <-app? on_files (fs_map_err (fun _ => "Relay 注册凭据尚未由管理员预配。") (stat_file path)) ;;
      app_ret (if (N.land mode 63 =? 0)%N then Ok tt else Err "Relay 注册凭据文件权限过宽；请限制为仅当前用户可读。")
  end.

Definition read_token_file : App (Result string string) :=
  path <-app? on_files relay_setup_token_path ;;
  _ <-app? check_private path ;;
  value <-app? on_files (fs_map_err (fun _ => "Relay 注册凭据尚未由管理员预配。") (read_to_string path)) ;;
  app_ret (if is_empty (trim value) then Err "Relay 注册凭据为空。" else Ok (trim value)).

Definition read_relay_setup_token : App (Result string string) :=
  match environment P !! "CHATX_RELAY_SETUP_TOKEN" with
  | Some value => if is_empty (trim value) then read_token_file else app_ret (Ok (trim value))
  | None => read_token_file
  end.

(** ** Starting the client *)

Definition relay_status_snapshot (settings : Settings) : App RelayStatus :=
  status <-app app_get (fun d => default relay_status_default (lock (relay_status d))) ;;
  credentials <-app credentials_for settings ;;
  app_ret {| rs_enabled := relay_enabled (relay settings);
             rs_configured := match credentials with Some _ => true | None => false end;
             rs_connected := rs_connected status; rs_connecting := rs_connecting status;
             rs_desktop_id := match rs_desktop_id status with
                              | Some id => Some id
                              | None => cred_desktop_id <$> credentials
                              end;
             rs_session_id := rs_session_id status; rs_connected_at := rs_connected_at status;
             rs_last_heartbeat_at := rs_last_heartbeat_at status;
             rs_reconnect_attempt := rs_reconnect_attempt status; rs_last_error := rs_last_error status |}.

(** [relay::start_client], and keeping its handle; a handle that cannot be kept is dropped,
    which stops the client again. *)
Definition start_relay_client (l : RelayLaunch) : App (Result unit string) :=
  _ <-app? app_ret (validate_relay (client_settings l)) ;;
  _ <-app app_modify (fun d => set_relayed (relayed d ++ [l])%list (put_status (initial_status (client_settings l) (client_credentials l)) d)) ;;
  kept <-app app_get (fun d => lock (relay_client d)) ;;
  match kept with
  | None => app_ret (Err "Relay Client 状态锁已损坏。")
  | Some _ => _ <-app app_modify (fun d => set_relay_client (set_guarded (Some l) (relay_client d)) d) ;; app_ret (Ok tt)
  end.

Definition start_relay_client_for_settings : App (Result unit string) :=
  _ <-app app_modify stop_relay_client ;;
  settings <-app app_load_settings P ;;
  credentials <-app credentials_for settings ;;
  if negb (relay_enabled (relay settings))
  then
    _ <-app app_modify (put_status (idle_status false (match credentials with Some _ => true | None => false end))) ;;
    app_ret (Ok tt)
  else
    _ <-app? app_ret (validate_relay (relay settings)) ;;
    match credentials with
    | None => _ <-app app_modify (put_status (idle_status true false)) ;; app_ret (Ok tt)
    | Some credentials =>
        _ <-app? monitor_device_ids P devices_from_str ;;
        key <-app? master_key secret_fault random_key b64_encode b64_decode ;;
        start_relay_client {| client_settings := relay settings; client_credentials := credentials; client_key := key |}
    end.

(** ** The page *)

Definition opt_text (v : option string) : Value := match v with Some s => VString s | None => Null end.
Definition opt_number (v : option N) : Value := match v with Some n => Number (Some n) | None => Null end.
Definition ok_text (r : Result (option string) string) : Value := match r with Ok v => opt_text v | Err _ => Null end.
Definition err_text (r : Result (option string) string) : Value := match r with Ok _ => Null | Err e => VString e end.

Definition relay_status_value (s : RelayStatus) : Value :=
  Object [("enabled", Bool (rs_enabled s)); ("configured", Bool (rs_configured s)); ("connected", Bool (rs_connected s));
          ("connecting", Bool (rs_connecting s)); ("desktopId", opt_text (rs_desktop_id s));
          ("sessionId", opt_text (rs_session_id s)); ("connectedAt", opt_number (rs_connected_at s));
          ("lastHeartbeatAt", opt_number (rs_last_heartbeat_at s));
          ("reconnectAttempt", Number (Some (rs_reconnect_attempt s))); ("lastError", VString (rs_last_error s))].

Definition network_settings_payload : App Value :=
  settings <-app app_load_settings P ;;
  let effective := effective_proxy_url settings in
  status <-app relay_status_snapshot settings ;;
  registered <-app credentials_for settings ;;
  let registered := Bool (match registered with Some _ => true | None => false end) in
  provisioned <-app read_relay_setup_token ;;
  tunnel <-app app_get (fun d => default tunnel_snapshot_default (lock (runtime_snapshot d))) ;;
  app_ret (Object
    [("monitorEnabled", Bool (monitor_enabled settings));
     ("proxy", Object [("mode", VString (proxy_mode (proxy settings))); ("url", VString (proxy_url (proxy settings)));
                       ("systemUrl", ok_text (system_proxy P)); ("systemError", err_text (system_proxy P));
                       ("effectiveUrl", ok_text effective); ("effectiveError", err_text effective)]);
     ("relay", Object [("enabled", Bool (relay_enabled (relay settings)));
                       ("baseUrl", VString (relay_base_url (relay settings))); ("registered", registered);
                       ("credentialSaved", registered); ("setupProvisioned", Bool (is_ok provisioned));
                       ("status", relay_status_value status)]);
     ("tunnel", Object [("health", VString (snap_health tunnel)); ("state", VString (snap_state tunnel));
                        ("controlPlaneState", VString (snap_control_plane_state tunnel));
                        ("controlPlaneReason", VString (snap_control_plane_reason tunnel));
                        ("controlPlaneFailures", Number (Some (snap_control_plane_failures tunnel)));
                        ("proxyMode", VString (snap_proxy_mode tunnel)); ("proxySource", VString (snap_proxy_source tunnel))])]).

Definition get_network_settings : App (Result Value string) := page <-app network_settings_payload ;; app_ret (Ok page).

Definition prepare_relay_deploy_desktop_id : App (Result string string) := app_desktop_id.

(** ** Registration *)

(** The Relay to register with, and the token to show it: the one provisioned by the
    administrator, or the code given, which names its Relay. *)
Definition registration_target (current : RelaySettings) (registration_code : option string)
    : App (Result (RelaySettings * string) string) :=
  let code := trim (default "" registration_code) in
  if is_empty code
  then token <-app? read_relay_setup_token ;; app_ret (Ok (current, token))
  else
    match Registration.parse_code invite_from_slice code with
    | Err e => app_ret (Err e)
    | Ok (invite, _, _) =>
        now <-app app_get (now_millis P) ;;
        app_ret (if (Registration.expires_at invite <=? now)%N
                 then Err "注册码已过期，请在宝塔 ChatX Relay 插件中重新生成。"
                 else Ok ({| relay_enabled := relay_enabled current; relay_base_url := Registration.base_url invite |}, code))
    end.

(** The settings after a registration with the Relay at [url]. *)
Definition registered_settings (url : string) (s : Settings) : Settings :=
  let s := set_relay {| relay_enabled := relay_enabled (relay s); relay_base_url := url |} s in
  let h := https_mcp s in
  if negb (https_enabled h) && String.eqb (https_transport h) "wss"
  then {| tunnel_id := tunnel_id s; remember_key := remember_key s; auto_reconnect := auto_reconnect s;
          connection_intent := connection_intent s; monitor_enabled := monitor_enabled s;
          monitor_port := monitor_port s; proxy := proxy s; relay := relay s;
          https_mcp := {| https_enabled := https_enabled h; https_auto_reconnect := https_auto_reconnect h;
                          https_base_url := url; https_transport := https_transport h;
                          https_ssh_host := https_ssh_host h; https_ssh_user := https_ssh_user h;
                          https_ssh_port := https_ssh_port h; https_local_port := https_local_port h;
                          https_remote_port := https_remote_port h;
                          https_authorization_ttl_hours := https_authorization_ttl_hours h |} |}
  else s.

(** What is kept of a registration. *)
Definition keep_registration (credentials : RelayCredentials) (url : string) : App (Result Settings string) :=
  _ <-app? save_relay_credentials secret_fault credentials_to_string credentials ;;
  app_update_settings P (fun s => Ok (registered_settings url s)).

Definition register_relay_desktop (registration_code : option string) : App (Result Value string) :=
  _ <-app? ConnectionCoordinator_acquire ;;
  settings <-app app_load_settings P ;;
  if https_enabled (https_mcp settings)
  then app_ret (Err "请先在连接页停止 HTTPS MCP，再重新注册电脑；注册后可重新启动。")
  else
    target <-app? registration_target (relay settings) registration_code ;;
    let '(target, setup_token) := target in
    if is_empty (trim (relay_base_url target)) then app_ret (Err "请先配置 Relay URL。")
    else
      _ <-app? app_ret (normalized_base_url (relay_base_url target)) ;;
      desktop_id <-app? app_desktop_id ;;
      credentials <-app? relay_register_desktop net target setup_token desktop_id (host_device_name H) (host_version H)
                           (host_platform H) ;;
      _ <-app? keep_registration credentials (relay_base_url target) ;;
      _ <-app? (if relay_enabled (relay settings) then start_relay_client_for_settings else app_ret (Ok tt)) ;;
      _ <-app app_log P ("ChatX Relay Desktop 注册完成：" ++ relay_base_url target) ;;
      page <-app network_settings_payload ;; app_ret (Ok page).

(** ** Trying settings *)

Definition proxy_check (candidate : Settings) : App (Result Value string) :=
  match effective_proxy_url candidate with
  | Err e => app_ret (Err e)
  | Ok effective =>
      match (match effective with
             | Some url => match proxy_host_port url with
                           | Some (host, port) => Ok (host, port, host ++ ":" ++ pretty port)
                           | None => Err "无法解析代理 host:port。"
                           end
             | None => Ok ("api.openai.com", 443%N, "api.openai.com:443")
             end) with
      | Err e => app_ret (Err e)
      | Ok (host, port, target) =>
          reached <-app app_get (tcp_probe H host port) ;;
          app_ret (Ok (Object [("mode", VString (proxy_mode (proxy candidate))); ("target", VString target);
                               ("ok", Bool reached)]))
      end
  end.

Definition relay_check (candidate : RelaySettings) : App Value :=
  if is_empty (trim (relay_base_url candidate))
  then app_ret (Object [("ok", Bool false); ("target", Null); ("error", VString "尚未配置 Relay URL")])
  else
    health <-app relay_health net candidate ;;
    app_ret (Object [("ok", Bool (is_ok health)); ("target", VString (relay_base_url candidate));
                     ("error", match health with Ok _ => Null | Err e => VString e end)]).

Definition skipped_check : Value := Object [("skipped", Bool true)].

Definition test_network_settings (payload : Value) : App (Result Value string) :=
  current <-app app_load_settings P ;;
  match network_settings_from_payload (system_proxy P) current payload with
  | Err e => app_ret (Err e)
  | Ok candidate =>
      if negb (has_field "proxy" payload) && negb (has_field "relay" payload)
      then app_ret (Err "没有指定需要测试的网络设置。")
      else
        proxy_result <-app? (if has_field "proxy" payload then proxy_check candidate else app_ret (Ok skipped_check)) ;;
        relay_result <-app (if has_field "relay" payload then relay_check (relay candidate) else app_ret skipped_check) ;;
        app_ret (Ok (Object [("proxy", proxy_result); ("relay", relay_result)]))
  end.

(** ** Changing settings *)

(** Starting the tunnel again under the settings just saved, and looking at it. *)
Definition restart_tunnel (settings : Settings) (key : string) : App (Result unit string) :=
  _ <-app? start_runtime_connection P (tunnel_id settings) key false true ;;
  paths <-app app_runtime_paths P ;;
  match paths with
  | Err _ => app_ret (Ok tt)
  | Ok paths =>
      observation <-app app_runtime_status P paths ;;
      _ <-app app_update_snapshot P observation true settings ;;
      app_ret (Ok tt)
  end.

Definition restored_network (previous s : Settings) : Settings := set_relay (relay previous) (set_proxy (proxy previous) s).

Definition error_list (label : string) (r : Result unit string) : list string :=
  match r with Ok _ => [] | Err e => [label ++ e] end.

Definition rollback_network_settings (previous : Settings) (reconnect_key : option string)
    (restore_proxy_runtime restore_relay : bool) : App (list string) :=
  saved <-app app_update_settings P (fun s => Ok (restored_network previous s)) ;;
  match saved with
  | Err error => app_ret ["恢复原设置失败：" ++ error]
  | Ok _ =>
      tunnel_errors <-app (if restore_proxy_runtime
                           then match reconnect_key with
                                | Some key =>
                                    restarted <-app restart_tunnel previous key ;;
                                    app_ret (error_list "恢复原 Tunnel 代理失败：" restarted)
                                | None => app_ret ["恢复原 Tunnel 代理失败：没有可用 Runtime Key。"]
                                end
                           else app_ret []) ;;
      relay_errors <-app (if restore_relay
                          then restarted <-app start_relay_client_for_settings ;;
                               app_ret (error_list "恢复原 Relay 状态失败：" restarted)
                          else app_ret []) ;;
      app_ret (tunnel_errors ++ relay_errors)%list
  end.

Definition changed_network (update_proxy update_relay : bool) (next s : Settings) : Settings :=
  let s := if update_proxy then set_proxy (proxy next) s else s in
  if update_relay then set_relay (relay next) s else s.

#[export] Instance ProxySettings_eq_dec : EqDecision ProxySettings.
Proof. solve_decision. Defined.
#[export] Instance RelaySettings_eq_dec : EqDecision RelaySettings.
Proof. solve_decision. Defined.

(** The key a tunnel that must be restarted is restarted with. *)
Definition key_for_restart (needed : bool) : App (Result (option string) string) :=
  if negb needed then app_ret (Ok None)
  else
    session <-app app_get (fun d => match lock (session_runtime_key d) with Some key => key | None => None end) ;;
    match session with
    | Some key => app_ret (Ok (Some key))
    | None =>
        stored <-app load_runtime_key P unprotect_secret "" ;;
        app_ret (match stored with
                 | Ok key => Ok (Some key)
                 | Err _ => Err "更改 Tunnel 代理需要重新连接，但当前没有可用 Runtime Key。"
                 end)
    end.

(** The tunnel, and then the Relay's client, follow the settings just saved. *)
Definition apply_network (previous next : Settings) (key : option string) (proxy_restart relay_changed : bool)
    : App (Result unit string) :=
  tunnel <-app (if proxy_restart then restart_tunnel next (default "" key) else app_ret (Ok tt)) ;;
  match tunnel with
  | Err error =>
      errors <-app rollback_network_settings previous key true false ;;
      app_ret (Err ("应用 Tunnel 代理失败：" ++ error ++ "；" ++ rollback_suffix errors))
  | Ok _ =>
      client <-app (if relay_changed then start_relay_client_for_settings else app_ret (Ok tt)) ;;
      match client with
      | Err error =>
          errors <-app rollback_network_settings previous key proxy_restart true ;;
          app_ret (Err ("应用 ChatX Relay 失败：" ++ error ++ "；" ++ rollback_suffix errors))
      | Ok _ => app_ret (Ok tt)
      end
  end.

Definition set_network_settings (payload : Value) : App (Result Value string) :=
  _ <-app? ConnectionCoordinator_acquire ;;
  let update_proxy := has_field "proxy" payload in
  let update_relay := has_field "relay" payload in
  if negb update_proxy && negb update_relay then app_ret (Err "没有指定需要保存的网络设置。")
  else
    previous <-app app_load_settings P ;;
    match network_settings_from_payload (system_proxy P) previous payload with
    | Err e => app_ret (Err e)
    | Ok next =>
        wants_connection <-app app_get desired_connected ;;
        let proxy_changed := negb (bool_decide (proxy previous = proxy next))
                             || (wants_connection && String.eqb (proxy_mode (proxy next)) "system") in
        let relay_changed := negb (bool_decide (relay previous = relay next)) in
        key <-app? key_for_restart (proxy_changed && wants_connection) ;;
        _ <-app? app_update_settings P (fun s => Ok (changed_network update_proxy update_relay next s)) ;;
        _ <-app? apply_network previous next key (proxy_changed && wants_connection) relay_changed ;;
        _ <-app app_log P ("网络设置已更新：proxy=" ++ proxy_mode (proxy next) ++ " relay="
                           ++ (if relay_enabled (relay next) then "wss" else "off")) ;;
        page <-app network_settings_payload ;; app_ret (Ok page)
    end.
End Commands.

(** ** What a payload may change *)

(** The proxy settings a payload can ask for. *)
Definition sane_proxy (system : Result (option string) string) (p : ProxySettings) : Prop :=
  (proxy_mode p = "direct" /\ proxy_applied_url p = "")
  \/ (proxy_mode p = "manual" /\ proxy_applied_url p = proxy_url p /\ validate_proxy_url (proxy_url p) = Ok (proxy_url p))
  \/ (proxy_mode p = "system" /\ exists applied, system = Ok applied /\ proxy_applied_url p = default "" applied).

Lemma proxy_from_payload_sane system current v p : proxy_from_payload system current v = Ok p -> sane_proxy system p.
Proof.
  unfold proxy_from_payload. destruct (negb _); [done|]. set (mode := match text_field "mode" v with Some _ => _ | None => _ end).
  set (url := match text_field "url" v with Some _ => _ | None => _ end).
  intros H. destruct (decide (mode = "direct")) as [E|H1]; [rewrite E in H; injection H as <-; left; done|].
  destruct (decide (mode = "manual")) as [E|H2].
  { rewrite E in H. destruct (validate_proxy_url url) as [u|] eqn:Hu; [|done]. injection H as <-. right; left.
    split_and!; [done..|]. cbn. by eapply validate_proxy_url_inv. }
  destruct (decide (mode = "system")) as [E|H3].
  { rewrite E in H. destruct system as [applied|]; [|done]. injection H as <-. right; right. split; [done|]. by exists applied. }
  exfalso. clearbody mode url. repeat case_match; done.
Qed.

Lemma relay_from_payload_sound current monitor v r : relay_from_payload current monitor v = Ok r ->
  validate_relay r = Ok tt /\ (relay_enabled r = true -> monitor = true).
Proof.
  unfold relay_from_payload. destruct (negb _); [done|]. destruct (validate_relay _) as [[]|] eqn:Hv; [|done].
  destruct (_ && _) eqn:Hm; [done|]. intros [= <-]. split; [done|]. intros Hr. cbn in *. rewrite Hr in Hm. by destruct monitor.
Qed.

(** What the network page can change.  Accepted settings differ from the current ones in
    nothing but the areas the payload names; an area it names is well formed: a proxy is
    direct with no address, manual with a validated one, or the system's; an enabled Relay
    has an accepted address, and is accepted only while monitoring is on.  The address the
    tunnel will use is then the one shown (none, the manual one, or the system's). *)
Theorem network_payload_spec system current payload next :
  network_settings_from_payload system current payload = Ok next ->
  next = set_relay (relay next) (set_proxy (proxy next) current)
  /\ (has_field "proxy" payload = false -> proxy next = proxy current)
  /\ (has_field "relay" payload = false -> relay next = relay current)
  /\ (has_field "proxy" payload = true -> sane_proxy system (proxy next)
        /\ (proxy_mode (proxy next) = "manual" -> effective_proxy_url next = Ok (Some (proxy_url (proxy next))))
        /\ (proxy_mode (proxy next) = "direct" -> effective_proxy_url next = Ok None))
  /\ (has_field "relay" payload = true -> validate_relay (relay next) = Ok tt
        /\ (relay_enabled (relay next) = true -> monitor_enabled current = true)).
Proof.
  intros H. unfold network_settings_from_payload in H.
  assert (forall s, sane_proxy system (proxy s) ->
    (proxy_mode (proxy s) = "manual" -> effective_proxy_url s = Ok (Some (proxy_url (proxy s))))
    /\ (proxy_mode (proxy s) = "direct" -> effective_proxy_url s = Ok None)) as Heff.
  { intros s Hs. unfold effective_proxy_url. split; intros Hm; rewrite Hm; [|done].
    destruct Hs as [[E _]|[(_ & _ & Hv)|[E _]]]; [congruence|by rewrite Hv|congruence]. }
  assert (exists p, (match Json.get "proxy" payload with
             | Some v => proxy_from_payload system (proxy current) v = Ok p | None => p = proxy current end)
            /\ match Json.get "relay" payload with
               | Some v => exists r, relay_from_payload (relay current) (monitor_enabled current) v = Ok r
                             /\ next = set_relay r (set_proxy p current)
               | None => next = set_proxy p current
               end) as (p & Hp & Hr).
  { destruct (Json.get "proxy" payload) as [v|].
    - destruct (proxy_from_payload _ _ v) as [p|] eqn:Hp; [|done]. exists p. split; [done|].
      destruct (Json.get "relay" payload) as [w|]; [|by injection H as <-].
      cbn in H. destruct (relay_from_payload _ _ w) as [r|] eqn:Hr; [|done]. injection H as <-. by exists r.
    - exists (proxy current). split; [done|]. destruct (Json.get "relay" payload) as [w|]; [|injection H as <-; by destruct current].
      cbn in H. destruct (relay_from_payload _ _ w) as [r|] eqn:Hr; [|done]. injection H as <-. exists r. by destruct current. }
  assert (next = set_relay (relay next) (set_proxy p current) /\ proxy next = p) as [Hnext Hpn].
  { destruct (Json.get "relay" payload); [destruct Hr as (r & _ & ->)|rewrite Hr]; by destruct current. }
  rewrite Hpn. split; [exact Hnext|]. unfold has_field. split_and!.
  - intros Hf. by destruct (Json.get "proxy" payload).
  - intros Hf. destruct (Json.get "relay" payload); [done|]. rewrite Hr. by destruct current.
  - intros Hf. destruct (Json.get "proxy" payload) as [v|]; [|done]. apply proxy_from_payload_sane in Hp.
    rewrite <- Hpn in *. split; [done|]. by apply Heff.
  - intros Hf. destruct (Json.get "relay" payload) as [v|]; [|done]. destruct Hr as (r & Hr & ->).
    apply relay_from_payload_sound in Hr. by destruct current.
Qed.

(** ** The commands *)

Section NetworkProps.
Context (P : Platform) (base : string) (Hbase : base_dir P = Ok base) (H : Host) (net : Network) (process_id : string)
        (devices_from_str : string -> Result (list MonitorDeviceRecord) string)
        (secret_fault : SecretOp -> Desk -> option string) (random_key : Desk -> option bytes)
        (b64_encode : bytes -> string) (b64_decode : string -> option bytes)
        (credentials_from_str : string -> Result RelayCredentials string)
        (credentials_to_string : RelayCredentials -> Result string string)
        (unprotect_secret : Desk -> Result string string)
        (invite_from_slice : list byte -> option Registration.RegistrationInvite).

#[local] Abbreviation disk d := (files (desk_world d)).
#[local] Abbreviation faults d := (io_fault (desk_world d)).
#[local] Abbreviation file := (settings_in (base ++ "/state")).
#[local] Abbreviation now_on := (settings_now base (system_proxy P) (key_saved P) (read_settings P) (read_value P)).
#[local] Abbreviation json_ok := (json_agrees (read_settings P) (print_settings P)).
#[local] Abbreviation normal := (normalize_settings (system_proxy P)).
#[local] Abbreviation start_client := (start_relay_client_for_settings P devices_from_str secret_fault random_key b64_encode
  b64_decode credentials_from_str).
#[local] Abbreviation page := (network_settings_payload P H secret_fault credentials_from_str).
#[local] Abbreviation rollback := (rollback_network_settings P devices_from_str secret_fault random_key b64_encode
  b64_decode credentials_from_str).
#[local] Abbreviation apply_settings := (apply_network P devices_from_str secret_fault random_key b64_encode b64_decode
  credentials_from_str).
#[local] Abbreviation set_network := (set_network_settings P H devices_from_str secret_fault random_key b64_encode b64_decode
  credentials_from_str unprotect_secret).
#[local] Abbreviation register := (register_relay_desktop P H net process_id devices_from_str secret_fault random_key
  b64_encode b64_decode credentials_from_str credentials_to_string invite_from_slice).

(** *** What leaves the files alone *)

Definition disk_same (d d' : Desk) : Prop := disk d' = disk d /\ faults d' = faults d.

#[local] Instance disk_same_preorder : PreOrder disk_same.
Proof. split; [by split|]. intros d1 d2 d3 [H1 F1] [H2 F2]. split; congruence. Qed.

Lemma disk_modify f : (forall d, desk_world (f d) = desk_world d) -> does disk_same (app_modify f).
Proof. intros Hf d res d' [= _ <-]. by split; rewrite Hf. Qed.
Lemma disk_client t d d' : client_only t d d' -> disk_same d d'.
Proof. intros [? ?]%client_only_disk. by split. Qed.
Lemma disk_load : does disk_same (app_load_settings P).
Proof using base Hbase. intros d res d' Hl%(load_settings_client P base Hbase). by eapply disk_client. Qed.
Lemma disk_log message : does disk_same (app_log P message).
Proof. by apply disk_modify. Qed.
Lemma disk_restart settings key : does disk_same (restart_tunnel P settings key).
Proof using base Hbase.
  unfold restart_tunnel. apply does_try; [apply _| |intros u; apply does_bind; [apply _| |]].
  - intros d res d' (t & Hc & _)%(start_inv P base Hbase). by eapply disk_client.
  - intros d res d' Hc%runtime_paths_client. by eapply disk_client.
  - intros [paths|]; [|apply does_ret; apply _]. apply does_bind; [apply _| |intros o].
    + intros d res d' (t & Hc & _)%(status_client P base Hbase). by eapply disk_client.
    + apply does_bind; [apply _|by apply disk_modify|intros v; apply does_ret; apply _].
Qed.

Lemma disk_save_secret item value : does disk_same (save_secret secret_fault item value).
Proof. intros d res d'. unfold save_secret. destruct (secret_fault _ d); by intros [= _ <-]. Qed.
Lemma disk_master : does disk_same (master_key secret_fault random_key b64_encode b64_decode).
Proof.
  unfold master_key, ensure_monitor_master_key. apply does_try; [apply _|apply does_get; apply _|].
  intros [value|]; [apply does_ret; apply _|]. apply does_try; [apply _|apply does_get; apply _|]. intros key.
  apply does_try; [apply _|apply disk_save_secret|]. intros u. apply does_ret; apply _.
Qed.
Lemma disk_ids : does disk_same (monitor_device_ids P devices_from_str).
Proof using base Hbase.
  unfold monitor_device_ids, monitor_devices_snapshot, with_monitor_devices.
  apply does_try; [apply _| |intros l; apply does_ret; apply _].
  apply does_bind; [apply _|apply does_get; apply _|]. intros [[l|]|]; [apply does_ret; apply _| |apply does_ret; apply _].
  apply does_try; [apply _| |intros l; apply does_bind; [apply _|by apply disk_modify|intros u; apply does_ret; apply _]].
  intros d res d' (w & Hl & ->)%on_files_inv. by apply (load_registry_inv P base Hbase) in Hl as (? & ? & _).
Qed.
Lemma disk_credentials s : does disk_same (credentials_for secret_fault credentials_from_str s).
Proof.
  apply does_bind; [apply _| |intros r; apply does_ret; apply _].
  intros d res d' Hr. destruct (read_relay_credentials_pure secret_fault credentials_from_str d) as [r Hp].
  rewrite Hp in Hr. by injection Hr as _ <-.
Qed.
Lemma disk_start_client : does disk_same start_client.
Proof using base Hbase.
  unfold start_relay_client_for_settings, start_relay_client.
  pose proof disk_load. pose proof disk_credentials. pose proof disk_ids. pose proof disk_master.
  repeat first [solve [auto] | apply does_ret; apply _ | apply does_get; apply _ | by apply disk_modify
               | progress intros | apply does_bind; [apply _|..] | apply does_try; [apply _|..] | case_match ].
Qed.
Lemma disk_token : does disk_same (read_relay_setup_token P H).
Proof using base Hbase.
  assert (forall p f, does disk_same (on_files (fs_map_err (A := string) (F := string) f (read_to_string p)))) as Hread.
  { intros p f d res d' (w & (r & Hr & _)%fs_map_err_inv & ->)%on_files_inv. apply read_to_string_inv in Hr as (? & ? & _). by split. }
  assert (forall p f, does disk_same (on_files (fs_map_err (A := unit) (F := string) f (stat_file p)))) as Hstat.
  { intros p f d res d' (w & (r & Hr & _)%fs_map_err_inv & ->)%on_files_inv. apply fs_op_inv in Hr as (? & _ & Hr).
    split; [|done]. destruct Hr as [[? _]|(r0 & _ & Hr)]; [done|by injection Hr]. }
  assert (does disk_same (on_files (relay_setup_token_path P))) as Hpath.
  { intros d res d' (w & Hp & ->)%on_files_inv. unfold relay_setup_token_path in Hp. rewrite Hbase in Hp.
    apply fs_try_inv in Hp as [[Hp ->]|[(e & Hp & ->)|(dir & w1 & Hp & Hk)]]; apply state_dir_inv in Hp as (? & ? & _);
      [by split..|]. by injection Hk as _ <-. }
  unfold read_relay_setup_token, read_token_file, check_private.
  repeat first [solve [auto] | apply does_ret; apply _ | apply does_get; apply _ | progress intros
               | apply does_bind; [apply _|..] | apply does_try; [apply _|..] | case_match ].
Qed.
Lemma disk_page : does disk_same page.
Proof using base Hbase.
  unfold network_settings_payload, relay_status_snapshot. pose proof disk_load. pose proof disk_credentials. pose proof disk_token.
  repeat first [solve [auto] | apply does_ret; apply _ | apply does_get; apply _ | progress intros | apply does_bind; [apply _|..] ].
Qed.
Lemma disk_key needed : does disk_same (key_for_restart P unprotect_secret needed).
Proof using base Hbase.
  unfold key_for_restart. destruct (negb needed); [apply does_ret; apply _|].
  apply does_bind; [apply _|apply does_get; apply _|]. intros [key|]; [apply does_ret; apply _|].
  apply does_bind; [apply _| |intros r; apply does_ret; apply _].
  unfold load_runtime_key. destruct (negb _); [apply does_ret; apply _|]. apply does_try; [apply _| |].
  - intros d res d' (w & Hp & ->)%on_files_inv. unfold secret_path in Hp. rewrite Hbase in Hp.
    apply fs_try_inv in Hp as [[Hp ->]|[(e & Hp & ->)|(dir & w1 & Hp & Hk)]]; apply state_dir_inv in Hp as (? & ? & _);
      [by split..|]. by injection Hk as _ <-.
  - intros p. destruct (negb _); [apply does_ret; apply _|]. apply does_try; [apply _|apply does_get; apply _|].
    intros v. apply does_ret; apply _.
Qed.

(** *** The settings file *)

Lemma normal_idem s : normal (normal s) = normal s.
Proof. unfold normalize_settings. cbn. by rewrite normalize_proxy_idem, normalize_relay_idem. Qed.

(** Settings that were read are sanitised, and name a tunnel if they want one. *)
Definition readable (s : Settings) : Prop :=
  normal s = s /\ (connection_intent s = true -> is_empty (trim (tunnel_id s)) = false).

Lemma now_readable fs s : now_on fs = Ok s -> readable s.
Proof.
  unfold settings_now, parse_settings, readable. destruct (fs !! file) as [text|]; [|by intros [= <-]].
  destruct (read_settings P text) as [s0|].
  - destruct (connection_intent s0) eqn:Hc; [destruct (is_empty (trim (tunnel_id s0))) eqn:He|]; cbn [andb];
      intros [= <-]; (split; [apply normal_idem|]);
      unfold normalize_settings; cbn [connection_intent tunnel_id set_relay set_proxy]; congruence.
  - destruct (read_value P text) as [v|]; [|done].
    destruct (match Json.get "connection" v with Some c => _ | None => None end) as [id|]; [|done].
    destruct (is_empty id) eqn:He; [done|]. by intros [= <-].
Qed.

(** An update that keeps the tunnel: complete, or the file is as it was. *)
Lemma network_update u d res d' : app_update_settings P u d = (res, d') -> json_ok ->
  faults d (ReadFile file) <> Some NotFound ->
  (forall s0 s, u s0 = Ok s -> tunnel_id s = tunnel_id s0 /\ connection_intent s = connection_intent s0) ->
  exists w, d' = set_desk_world w d /\ io_fault w = faults d
  /\ match res with
     | Some (Ok s) => exists s0, now_on (disk d) = Ok s0 /\ u s0 = Ok s /\ now_on (files w) = Ok (normal s)
     | _ => files w !! file = disk d !! file
     end.
Proof using base Hbase.
  unfold app_update_settings, settings_update. rewrite Hbase. intros (w & Hu & ->)%on_files_inv Hjson Hread Hkeep.
  exists w. split; [done|]. apply update_settings_faults in Hu as Hi. split; [done|].
  apply update_settings_inv in Hu as [_ Hres]. specialize (Hres Hread). destruct res as [[s|e]|]; [|done..].
  destruct Hres as (s0 & text & Hnow & Hs & Ht & Hf). exists s0. split_and!; [done..|].
  eapply settings_after_update; [exact Hjson|exact Ht|exact Hf|].
  destruct (Hkeep _ _ Hs) as [-> ->]. by apply now_readable in Hnow as [_ ?].
Qed.

(** Settings that were loaded are those on disk, if an update of the same file succeeds. *)
Lemma load_then_update u d1 s1 d1' d2 s d2' :
  app_load_settings P d1 = (Some s1, d1') -> app_update_settings P u d2 = (Some (Ok s), d2') -> disk_same d1 d2 ->
  faults d1 (ReadFile file) <> Some NotFound -> now_on (disk d1) = Ok s1.
Proof using base Hbase.
  unfold app_load_settings, app_update_settings, settings_update, settings_load. rewrite Hbase. intros Hl Hu [Hf Hi] Hread.
  apply on_files_inv in Hl as (w1 & Hl & _), Hu as (w2 & Hu & _).
  apply update_loads in Hu as (s0 & w3 & Hload & Hu).
  apply fs_bind_inv in Hl as [[_ ?]|(r & w4 & Hr & Hk)]; [done|]. injection Hk as <- _.
  assert (Ok s0 = r) as <- by (eapply load_same; [exact Hload|exact Hr|by rewrite Hf|done]).
  apply load_inv in Hr as (_ & _ & Hnow). by apply Hnow.
Qed.

(** *** Taking a change back *)

Lemma restored_keeps previous s0 s : Ok (E := string) (restored_network previous s0) = Ok s ->
  tunnel_id s = tunnel_id s0 /\ connection_intent s = connection_intent s0.
Proof. by intros [= <-]. Qed.

Lemma changed_keeps up ur next s0 s : Ok (E := string) (changed_network up ur next s0) = Ok s ->
  tunnel_id s = tunnel_id s0 /\ connection_intent s = connection_intent s0.
Proof. intros [= <-]. unfold changed_network. by destruct up, ur. Qed.

(** The previous network settings are back, or nothing was written and that is all that is
    reported. *)
Lemma rollback_inv previous key proxy_restart relay_restart d res d' :
  rollback previous key proxy_restart relay_restart d = (res, d') -> json_ok -> faults d (ReadFile file) <> Some NotFound ->
  (disk d' !! file = disk d !! file /\ forall errors, res = Some errors -> exists e, errors = ["恢复原设置失败：" ++ e])
  \/ exists s0, now_on (disk d) = Ok s0 /\ now_on (disk d') = Ok (normal (restored_network previous s0)).
Proof using base Hbase.
  intros Hr Hjson Hread. unfold rollback_network_settings in Hr.
  apply app_bind_inv in Hr as [[Hu ->]|(saved & d1 & Hu & Hk)]; apply network_update in Hu as (w & -> & Hi & Hw);
    try apply restored_keeps; try done; [by left|].
  destruct saved as [s|e]; [|injection Hk as <- <-; left; split; [done|]; intros errors [= <-]; by exists e].
  destruct Hw as (s0 & Hnow & [= <-] & Hnew). right. exists s0. split; [done|].
  assert (does disk_same (
      tunnel_errors <-app (if proxy_restart then match key with
                           | Some key => restarted <-app restart_tunnel P previous key ;;
                                         app_ret (error_list "恢复原 Tunnel 代理失败：" restarted)
                           | None => app_ret ["恢复原 Tunnel 代理失败：没有可用 Runtime Key。"] end
                           else app_ret []) ;;
      relay_errors <-app (if relay_restart then restarted <-app start_client ;;
                            app_ret (error_list "恢复原 Relay 状态失败：" restarted) else app_ret []) ;;
      app_ret (tunnel_errors ++ relay_errors)%list)) as Hd.
  { pose proof disk_restart. pose proof disk_start_client.
    repeat first [solve [auto] | apply does_ret; apply _ | progress intros | apply does_bind; [apply _|..] | case_match ]. }
  apply Hd in Hk as [Hf _]. rewrite Hf. exact Hnew.
Qed.

(** What [apply_network] leaves of the settings just saved. *)
Lemma apply_inv previous next key proxy_restart relay_changed d res d' :
  apply_settings previous next key proxy_restart relay_changed d = (res, d') -> json_ok ->
  faults d (ReadFile file) <> Some NotFound ->
  (disk d' !! file = disk d !! file
     /\ forall e, res = Some (Err e) -> exists p e', e = p ++ "；回滚未完全成功：恢复原设置失败：" ++ e')
  \/ (res <> Some (Ok tt)
     /\ exists s0, now_on (disk d) = Ok s0 /\ now_on (disk d') = Ok (normal (restored_network previous s0))).
Proof using base Hbase.
  intros Ha Hjson Hread.
  assert (forall label error b1 b2 d1, disk_same d d1 ->
    (errors <-app rollback previous key b1 b2 ;;
     app_ret (Err (label ++ error ++ "；" ++ rollback_suffix errors))) d1 = (res, d') ->
    (disk d' !! file = disk d !! file
       /\ forall e, res = Some (Err e) -> exists p e', e = p ++ "；回滚未完全成功：恢复原设置失败：" ++ e')
    \/ (res <> Some (Ok tt)
       /\ exists s0, now_on (disk d) = Ok s0 /\ now_on (disk d') = Ok (normal (restored_network previous s0)))) as Hback.
  { intros label error b1 b2 d1 [Hf Hi] Hk. rewrite <- Hf. rewrite <- Hi in Hread.
    apply app_bind_inv in Hk as [[Hr ->]|(errors & d2 & Hr & Hk)].
    - apply rollback_inv in Hr as [[Hr _]|Hr]; [by left|by right|done..].
    - injection Hk as <- <-. apply rollback_inv in Hr as [[Hr He]|Hr]; [|by right|done..]. left. split; [done|].
      destruct (He errors eq_refl) as (e & ->). intros e' [= <-]. exists (label ++ error), e. cbn.
      by rewrite !append_assoc. }
  apply app_bind_inv in Ha as [[Hd ->]|(tunnel & d1 & Hd & Hk)];
    (assert (does disk_same (if proxy_restart then restart_tunnel P next (default "" key) else app_ret (Ok tt))) as Hq
       by (destruct proxy_restart; [apply disk_restart|apply does_ret; apply _]); apply Hq in Hd as Hs);
    [left; split; [by destruct Hs as [-> _]|done]|].
  destruct tunnel as [[]|error]; [|by eapply Hback].
  apply app_bind_inv in Hk as [[Hc ->]|(client & d2 & Hc & Hk)];
    (assert (does disk_same (if relay_changed then start_client else app_ret (Ok tt))) as Hq2
       by (destruct relay_changed; [apply disk_start_client|apply does_ret; apply _]); apply Hq2 in Hc as Hs2;
     assert (disk_same d _) as Hs3 by (etrans; [exact Hs|exact Hs2]));
    [left; split; [by destruct Hs3 as [-> _]|done]|].
  destruct client as [[]|error]; [|by eapply Hback].
  injection Hk as <- <-. left. split; [by destruct Hs3 as [-> _]|done].
Qed.

Lemma now_same fs fs' : fs' !! file = fs !! file -> now_on fs' = now_on fs.
Proof. unfold settings_now. by intros ->. Qed.

(** Taking a change of the network settings back gives the settings as they were. *)
Lemma restored_same up ur next s : readable s -> normal (restored_network s (normal (changed_network up ur next s))) = s.
Proof.
  intros [Hn _]. assert (restored_network s (normal (changed_network up ur next s)) = s) as -> by (by destruct s, up, ur).
  exact Hn.
Qed.

(** The settings as the payload asks for them. *)
Definition asked (payload : Value) (fs fs' : gmap Path string) : Prop :=
  exists s next, now_on fs = Ok s /\ network_settings_from_payload (system_proxy P) s payload = Ok next
  /\ now_on fs' = Ok (normal (changed_network (has_field "proxy" payload) (has_field "relay" payload) next s)).

(** The last step of a command: a line in the log and the page.  It fails in no other way
    than by dying, and the files stay as they are. *)
Lemma answer_page text d res d' :
  (_ <-app app_log P text ;; v <-app page ;; app_ret (Ok v)) d = (res, d') ->
  disk d' = disk d /\ forall e : string, res <> Some (Err e).
Proof.
  intros Hk. split.
  - refine (proj1 (_ : disk_same d d')). revert d res d' Hk. change (does disk_same (_ <-app app_log P text ;; v <-app page ;; app_ret (Ok (E := string) v))).
    apply does_bind; [apply _|apply disk_log|]. intros x. apply does_bind; [apply _|apply disk_page|].
    intros v. apply does_ret; apply _.
  - intros e ->. apply app_bind_inv in Hk as [[_ ?]|(x & d6 & _ & Hk)]; [done|].
    apply app_bind_inv in Hk as [[_ ?]|(v & d7 & _ & Hk)]; [done|]. by injection Hk.
Qed.


(** *** The Relay's client *)

(** A client that may be started: the Relay is wanted and its address accepted, and the
    credentials are for that very address. *)
Definition launch_sound (l : RelayLaunch) : Prop :=
  relay_enabled (client_settings l) = true /\ validate_relay (client_settings l) = Ok tt
  /\ exists url, normalized_base_url (relay_base_url (client_settings l)) = Ok url
     /\ normalized_base_url (cred_base_url (client_credentials l)) = Ok url.

Definition running_client (d : Desk) : option RelayLaunch := match lock (relay_client d) with Some l => l | None => None end.

(** Sound clients are started, and the one that runs was running before or is the last of
    these. *)
Definition relay_step (d d' : Desk) : Prop :=
  exists tail, relayed d' = (relayed d ++ tail)%list /\ Forall launch_sound tail
  /\ (forall l, running_client d' = Some l -> (running_client d = Some l /\ tail = []) \/ last tail = Some l).

#[local] Instance relay_step_preorder : PreOrder relay_step.
Proof.
  split; [intros d; exists []; rewrite app_nil_r; by split_and!; [| |left]|].
  intros d1 d2 d3 (t1 & L1 & F1 & S1) (t2 & L2 & F2 & S2). exists (t1 ++ t2)%list.
  split_and!; [by rewrite L2, L1, app_assoc|by apply Forall_app|]. intros l Hl. rewrite last_app.
  destruct (S2 l Hl) as [[H2 ->]|H2]; [|right; by rewrite H2].
  cbn. rewrite app_nil_r. apply S1 in H2 as [[? ?]|?]; [by left|by right].
Qed.

Lemma relay_step_same d d' : relayed d' = relayed d -> relay_client d' = relay_client d -> relay_step d d'.
Proof. intros Hr Hc. exists []. rewrite app_nil_r. unfold running_client. rewrite Hc. split_and!; [done|done|by left]. Qed.

#[local] Instance relay_step_framed : Framed relay_step.
Proof. split; [apply _|]. intros d w l r. by apply relay_step_same. Qed.

Lemma relay_step_modify f : (forall d, relayed (f d) = relayed d /\ relay_client (f d) = relay_client d) ->
  does relay_step (app_modify f).
Proof. intros Hf d res d' [= _ <-]. by apply relay_step_same; apply Hf. Qed.

Lemma relay_step_stop : does relay_step (app_modify stop_relay_client).
Proof.
  intros d res d' [= _ <-]. exists []. rewrite app_nil_r. split_and!; [done|done|]. intros l. unfold running_client. cbn.
  rewrite lock_update. by destruct (lock _).
Qed.

Lemma relay_step_launch l : relay_enabled (client_settings l) = true ->
  (exists url, normalized_base_url (relay_base_url (client_settings l)) = Ok url
     /\ normalized_base_url (cred_base_url (client_credentials l)) = Ok url) ->
  does relay_step (start_relay_client l).
Proof.
  intros He Hu d res d' Hr0. unfold start_relay_client in Hr0. destruct (validate_relay (client_settings l)) as [[]|] eqn:Hv;
    [|injection Hr0 as _ <-; reflexivity].
  cbn in Hr0. exists [l]. assert (Forall launch_sound [l]) as Hl by (apply Forall_singleton; by split_and!).
  destruct (lock (relay_client d)) as [k|] eqn:Hk; injection Hr0 as _ <-; (split_and!; [done|exact Hl|]); intros l'; unfold running_client; cbn.
  - apply lock_Some in Hk as ->. intros [= <-]. by right.
  - by rewrite Hk.
Qed.

#[local] Hint Extern 1 (does relay_step (app_modify stop_relay_client)) => (apply relay_step_stop) : quiet.
#[local] Hint Extern 2 (does relay_step (app_modify _)) => (apply relay_step_modify; done) : quiet.

Lemma relay_step_secret item value : does relay_step (save_secret secret_fault item value).
Proof. intros d res d'. unfold save_secret. destruct (secret_fault _ d); intros [= _ <-]; by apply relay_step_same. Qed.
Lemma relay_step_master : does relay_step (master_key secret_fault random_key b64_encode b64_decode).
Proof. pose proof relay_step_secret. unfold master_key, ensure_monitor_master_key, load_secret. solve_quiet. Qed.
Lemma relay_step_ids : does relay_step (monitor_device_ids P devices_from_str).
Proof. unfold monitor_device_ids, monitor_devices_snapshot, with_monitor_devices. solve_quiet. Qed.
Lemma relay_step_read : does relay_step (read_relay_credentials secret_fault credentials_from_str).
Proof. unfold read_relay_credentials, load_secret. solve_quiet. Qed.
Lemma relay_step_credentials s : does relay_step (credentials_for secret_fault credentials_from_str s).
Proof. pose proof relay_step_read. unfold credentials_for, relay_credentials_for_settings. solve_quiet. Qed.

Lemma credentials_for_inv s d c d' :
  credentials_for secret_fault credentials_from_str s d = (Some (Some c), d') ->
  exists url, normalized_base_url (relay_base_url (relay s)) = Ok url /\ normalized_base_url (cred_base_url c) = Ok url.
Proof.
  intros Hr0. unfold credentials_for, relay_credentials_for_settings in Hr0.
  apply app_bind_inv in Hr0 as [[_ ?]|([credentials|e] & d1 & _ & Hr0)]; [done| |by injection Hr0].
  destruct (normalized_base_url (cred_base_url credentials)) as [u|] eqn:Hu; [|by injection Hr0].
  destruct (normalized_base_url (relay_base_url _)) as [v|] eqn:Hv; [|by injection Hr0].
  destruct (String.eqb_spec u v) as [->|]; [|by injection Hr0]. injection Hr0 as <- _. by exists v.
Qed.

Lemma relay_step_start : does relay_step start_client.
Proof.
  intros d res d' Hr0. unfold start_relay_client_for_settings in Hr0.
  apply (does_bind_inv relay_step _ _ d) in Hr0 as [[Hs _]|(u & d1 & _ & S1 & Hr0)]; [done| |apply relay_step_stop|done].
  apply (does_bind_inv relay_step _ _ d) in Hr0 as [[Hs _]|(s & d2 & _ & S2 & Hr0)]; [done| |apply framed_load; apply _|done].
  apply (does_bind_inv relay_step _ _ d) in Hr0 as [[Hs _]|(c & d3 & Hc & S3 & Hr0)]; [done| |apply relay_step_credentials|done].
  refine (does_end relay_step _ _ _ _ _ _ S3 Hr0). destruct (relay_enabled (relay s)) eqn:He; cbn [negb]; [|solve_quiet].
  apply does_try; [apply _|apply does_ret; apply _|]. intros v. destruct c as [c|]; [|solve_quiet].
  apply credentials_for_inv in Hc.
  apply does_try; [apply _|apply relay_step_ids|]. intros ids. apply does_try; [apply _|apply relay_step_master|].
  intros key. by apply relay_step_launch.
Qed.

(** The commands of the page, and the starting and stopping of the client by others. *)
Inductive NetworkCommand :=
| GetSettings | TestSettings (payload : Value) | SetSettings (payload : Value)
| RegisterDesktop (code : option string) | DeployDesktopId | StartClient | StopClient.

Definition run_network (c : NetworkCommand) : App unit :=
  match c with
  | GetSettings => _ <-app get_network_settings P H secret_fault credentials_from_str ;; app_ret tt
  | TestSettings payload => _ <-app test_network_settings P H net payload ;; app_ret tt
  | SetSettings payload => _ <-app set_network payload ;; app_ret tt
  | RegisterDesktop code => _ <-app register code ;; app_ret tt
  | DeployDesktopId => _ <-app prepare_relay_deploy_desktop_id P H process_id ;; app_ret tt
  | StartClient => _ <-app start_client ;; app_ret tt
  | StopClient => app_modify stop_relay_client
  end.

(** Any history of these commands, whatever fails or dies in them, and of operations of other
    parts, which leave the client alone. *)
Inductive network_history : Desk -> Prop :=
| network_history_start d : relayed d = [] -> running_client d = None -> network_history d
| network_history_command c d res d' : network_history d -> run_network c d = (res, d') -> network_history d'
| network_history_other d d' : network_history d -> relayed d' = relayed d -> relay_client d' = relay_client d -> network_history d'.

Lemma relay_step_send r e : does relay_step (send net r e).
Proof. apply does_try; [apply _|apply does_get; apply _|]. intros u d res d' [= _ <-]. by apply relay_step_same. Qed.
Lemma relay_step_register settings token id name version platform :
  does relay_step (relay_register_desktop net settings token id name version platform).
Proof. pose proof relay_step_send. unfold relay_register_desktop. solve_quiet. Qed.
Lemma relay_step_token : does relay_step (read_relay_setup_token P H).
Proof. unfold read_relay_setup_token, read_token_file, check_private. solve_quiet. Qed.
Lemma relay_step_save c : does relay_step (save_relay_credentials secret_fault credentials_to_string c).
Proof. pose proof relay_step_secret. unfold save_relay_credentials. solve_quiet. Qed.
Lemma relay_step_page : does relay_step page.
Proof.
  pose proof relay_step_credentials. pose proof relay_step_token. unfold network_settings_payload, relay_status_snapshot. solve_quiet.
Qed.
Lemma relay_step_restart settings key : does relay_step (restart_tunnel P settings key).
Proof using base Hbase.
  assert (forall o b s, does relay_step (app_update_snapshot P o b s)) by (intros; by apply relay_step_modify).
  unfold restart_tunnel. solve_quiet.
Qed.

Lemma relay_step_rollback previous key b1 b2 : does relay_step (rollback previous key b1 b2).
Proof using base Hbase.
  pose proof relay_step_start. pose proof relay_step_restart. unfold rollback_network_settings. solve_quiet.
Qed.
Lemma relay_step_apply previous next key b1 b2 : does relay_step (apply_settings previous next key b1 b2).
Proof using base Hbase.
  pose proof relay_step_start. pose proof relay_step_restart. pose proof relay_step_rollback. unfold apply_network. solve_quiet.
Qed.

Lemma relay_step_id : does relay_step (app_desktop_id P H process_id).
Proof. intros d res d'. apply (framed_files relay_step). Qed.

#[local] Hint Resolve relay_step_id relay_step_send relay_step_start relay_step_page relay_step_apply relay_step_save relay_step_register relay_step_token : quiet.

Lemma relay_step_command c : does relay_step (run_network c).
Proof using base Hbase.
  destruct c; cbn [run_network]; unfold get_network_settings, test_network_settings, relay_check, relay_health, send_expecting, proxy_check,
    set_network_settings, key_for_restart, load_runtime_key, register_relay_desktop, registration_target, keep_registration,
    prepare_relay_deploy_desktop_id, ConnectionCoordinator_acquire; solve_quiet.
Qed.

(** In every history of the network page's commands, whatever fails or dies in them and
    whatever other parts do in between: every Relay client ever started had the Relay turned
    on, an accepted address, and credentials for that very address; and a client that runs is
    the last one started, so an older one never comes back. *)
Theorem relay_client_sound d : network_history d ->
  Forall launch_sound (relayed d) /\ (forall l, running_client d = Some l -> last (relayed d) = Some l).
Proof using base Hbase.
  induction 1 as [d Hl Hr|c d res d' _ [IHs IHr] Hc|d d' _ [IHs IHr] Hl Hr].
  - rewrite Hl, Hr. split; [constructor|done].
  - apply relay_step_command in Hc as (tail & -> & Ht & Hrun). split; [by apply Forall_app|].
    intros l [[Hl ->]|Hl]%Hrun; [rewrite app_nil_r; by apply IHr|by rewrite last_app, Hl].
  - unfold running_client in *. by rewrite Hl, Hr.
Qed.
End NetworkProps.

(** ** Witnesses *)

Definition sample_host : Host :=
  {| host_device_name := "PC"; host_version := "1.0.0"; host_platform := "windows"; draw := fun _ _ => None;
     tcp_probe := fun _ _ _ => true; file_mode := fun _ _ => None; value_pretty := fun _ => Err "" |}.

(** Monitoring is on and the computer registered, but the Relay not yet wanted. *)
Definition sample_unrelayed : Settings := set_relay {| relay_enabled := false; relay_base_url := "https://relay.example/" |} sample_monitored.
Definition sample_unrelayed_desk : Desk :=
  set_secrets {[ relay_item := "credentials" ]} (desk_default (healthy (sample_files sample_unrelayed))).
Definition sample_turn_on : Value := Object [("relay", Object [("enabled", Bool true)])].
Definition sample_read_credentials (text : string) : Result RelayCredentials string := Ok sample_relay_credentials.

Definition sample_turned_on : option (Result Value string) * Desk :=
  set_network_settings sample_platform sample_host (fun _ => Err "none") sample_secret_fault sample_random_key sample_key_text
    parse_hex_pairs sample_read_credentials (fun _ => Err "none") sample_turn_on sample_unrelayed_desk.

Lemma network_payload_spec_witness :
  exists next, network_settings_from_payload (Ok None) sample_unrelayed sample_turn_on = Ok next
    /\ next = set_relay (relay next) sample_unrelayed /\ validate_relay (relay next) = Ok tt
    /\ relay_enabled (relay next) = true.
Proof.
  destruct (network_settings_from_payload (Ok None) sample_unrelayed sample_turn_on) as [next|e] eqn:Hn; [|vm_compute in Hn; discriminate].
  destruct (network_payload_spec (Ok None) sample_unrelayed sample_turn_on next Hn) as (Heq & Hp & _ & _ & Hr).
  exists next. split; [reflexivity|]. split; [|split; [exact (proj1 (Hr eq_refl))|vm_compute in Hn; by injection Hn as <-]].
  rewrite Heq at 1. by rewrite (Hp eq_refl).
Defined.


Lemma relay_client_sound_witness :
  let d := sample_turned_on.2 in
  running_client d = Some {| client_settings := {| relay_enabled := true; relay_base_url := "https://relay.example/" |};
                             client_credentials := sample_relay_credentials; client_key := repeat x07 32 |}
  /\ Forall launch_sound (relayed d).
Proof.
  intros d. split; [vm_compute; reflexivity|].
  refine (proj1 (relay_client_sound sample_platform "/home/u" eq_refl sample_host sample_network "1" (fun _ => Err "none")
    sample_secret_fault sample_random_key sample_key_text parse_hex_pairs sample_read_credentials (fun _ => Err "") (fun _ => Err "none")
    (fun _ => None) d _)).
  apply (network_history_command _ _ _ _ _ _ _ _ _ _ _ _ _ (SetSettings sample_turn_on) sample_unrelayed_desk
    (run_network sample_platform sample_host sample_network "1" (fun _ => Err "none")
    sample_secret_fault sample_random_key sample_key_text parse_hex_pairs sample_read_credentials (fun _ => Err "") (fun _ => Err "none")
    (fun _ => None) (SetSettings sample_turn_on) sample_unrelayed_desk).1).
  - by apply network_history_start.
  - vm_compute. reflexivity.
Defined.

(** ** What a failed registration leaves *)

(** Registering elsewhere stores the new credentials first and then the new address.  When the
    address cannot be saved, the command fails, the settings still name the old Relay, and the
    credentials for it are gone: the computer counts as not registered. *)
Lemma registration_half_done :
  let credentials := {| cred_base_url := "https://other.example"; cred_desktop_id := "dt_1"; cred_desktop_token := "new" |} in
  let full := {| files := sample_files sample_monitored; ops_left := None; torn_write := fun _ => None;
                 io_fault := fun op => match op with RenameFile _ _ => Some (OtherIo "denied") | _ => None end |} in
  let d := set_secrets {[ relay_item := "https://relay.example" ]} (desk_default full) in
  let read url := Ok {| cred_base_url := url; cred_desktop_id := "dt_1"; cred_desktop_token := "t" |} in
  let registered d := (credentials_for sample_secret_fault read sample_monitored d).1 in
  let out := keep_registration sample_platform sample_secret_fault (fun c => Ok (cred_base_url c)) credentials "https://other.example" d in
  (exists e, out.1 = Some (Err e))
  /\ files (desk_world out.2) !! sample_settings_file = files (desk_world d) !! sample_settings_file
  /\ (exists c, registered d = Some (Some c)) /\ registered out.2 = Some None.
Proof. cbv zeta. split_and!; try (vm_compute; by eexists); vm_compute; reflexivity. Qed.
