(* ===== verification/RelayDeploy.v ===== *)
(** * Deploying a Relay server ([src-tauri/src/relay_deploy.rs])

    The desktop runs a bundled script that installs a Relay over SSH, follows the progress it
    reports, and keeps the registration token it ends with, where [read_relay_setup_token]
    of [Network] looks for it. *)

From S2P Require Export Network.
Local Open Scope string_scope.

Record RelayDeployConfig := {
  deploy_host : string;
  deploy_user : string;
  deploy_port : N;
  deploy_domain : string;
  deploy_desktop_id : string;
  deploy_key_path : string }.

(** [host_ok]: a name that cannot be an option, a path or a second word. *)
Definition deploy_host_ok (value : string) : bool :=
  negb (is_empty value) && (String.length value <=? 253)%nat && negb (starts_with "-" value) && negb (contains ".." value)
  && string_forall (fun a => is_ascii_alphanumeric a || Ascii.eqb a "." || Ascii.eqb a "-") value.

Definition deploy_user_ok (value : string) : bool :=
  match value with
  | EmptyString => false
  | String first _ =>
      (String.length value <=? 32)%nat
      && string_forall (fun a => is_ascii_lower a || is_ascii_digit a || Ascii.eqb a "_" || Ascii.eqb a "-") value
      && (is_ascii_lower first || Ascii.eqb first "_")
  end.

Definition deploy_id_ok (value : string) : bool :=
  (18 <=? String.length value)%nat && (String.length value <=? 80)%nat && starts_with "d_" value
  && string_forall is_ascii_hexdigit (string_skip 2 value).

(** What the script does with the configuration it is sent: whether it takes it, the lines it
    prints (or the error of reading one), what it prints as diagnostics, and how it ends. *)
Record DeployTool := {
  tool_input : Result unit string;
  tool_lines : list (Result string string);
  tool_stderr : string;
  tool_wait : Result bool string }.

Definition chars_last (n : nat) (s : string) : string :=
  let cs := utf8_chars s in concat_chars (skipn (length cs - n) cs).

Section Deploy.
(** [is_absolute] and whether files have permission bits, of the platform; the JSON printer and
    reader; and what starting a program with arguments gives. *)
Context (P : Platform) (is_absolute : string -> bool) (unix : bool)
        (config_to_vec : RelayDeployConfig -> Result string string) (value_from_str : string -> option Value)
        (spawn : string -> list string -> Desk -> Result (string -> DeployTool) string).

Definition validate_deploy (c : RelayDeployConfig) : Result unit string :=
  return_if negb (deploy_host_ok (deploy_host c)) || negb (deploy_host_ok (deploy_domain c)) || (deploy_port c =? 0)%N
    with Err "服务器地址、域名或 SSH 端口无效" in
  return_if negb (deploy_user_ok (deploy_user c)) with Err "SSH 用户名不合法" in
  return_if negb (deploy_id_ok (deploy_desktop_id c)) with Err "请先在网络设置注册本机 Desktop，再填写 Desktop ID" in
  return_if negb (is_empty (deploy_key_path c)) && negb (is_absolute (deploy_key_path c)) with Err "SSH 私钥必须使用绝对路径" in
  Ok tt.

(** ** The log of deployments *)

Definition deploy_log (dir : string) : Path := {| parent := Some dir; file_name := "relay-deploy.log" |}.
Definition old_deploy_log (dir : string) : Path := with_extension (deploy_log dir) "log.old".

Definition log_is_large (p : Path) : Fs bool := fun w =>
  fs_bind (stat_file p) (fun r => fs_ret (match r with
    | Ok _ => (1024 * 1024 <? N.of_nat (String.length (default "" (files w !! p))))%N
    | Err _ => false end)) w.

(** [let _ = writeln!(log, ..)] *)
Definition log_line (dir text : string) : Fs unit :=
  _ <-fs append_all (deploy_log dir) (text ++ String "010" "") ;; fs_ret tt.

Definition open_log (dir : string) (apply : bool) : Fs (Result unit string) :=
  large <-fs log_is_large (deploy_log dir) ;;
  _ <-fs (if large : bool then rename (deploy_log dir) (old_deploy_log dir) else fs_ret (Ok tt)) ;;
  _ <-fs? fs_map_err (fun e => "无法写入部署日志：" ++ io_display e) (open_append (deploy_log dir)) ;;
  _ <-fs log_line dir ("DEPLOY SESSION mode=" ++ (if apply then "apply" else "check")) ;;
  fs_ret (Ok tt).

(** ** The script *)

Definition in_root (root name : string) : Path := {| parent := Some root; file_name := name |}.

(** The first resource directory that holds all three files. *)
Fixpoint deploy_resource (roots : list string) : Fs (option string) :=
  match roots with
  | [] => fs_ret None
  | root :: roots =>
      script <-fs path_exists (in_root root "relay-deploy.mjs") ;;
      install <-fs (if script : bool then path_exists (in_root root "relay-deploy-install.sh") else fs_ret false) ;;
      archive <-fs (if install : bool then path_exists (in_root root "relay-deploy-source.tar.gz") else fs_ret false) ;;
      if archive : bool then fs_ret (Some root) else deploy_resource roots
  end.

Definition has_kind (kind : string) (v : Value) : bool := bool_decide (text_field "kind" v = Some kind).
Definition says_ok (v : Value) : bool := bool_decide (bool_field "ok" v = Some true).

(** One line the script prints; the last result counts. *)
Definition deploy_line (dir : string) (value : Value) (last : option Value) : App (option Value) :=
  if has_kind "progress" value
  then
    _ <-app (match text_field "message" value with
             | Some message => on_files (log_line dir (chars_take 200 message))
             | None => app_ret tt
             end) ;;
    _ <-app app_modify (fun d => set_emitted (emitted d ++ [value])%list d) ;;
    app_ret last
  else if has_kind "result" value
  then
    _ <-app on_files (log_line dir ("RESULT " ++ (if says_ok value then "OK" else "FAILED"))) ;;
    app_ret (Some value)
  else app_ret last.

Fixpoint read_lines (dir : string) (lines : list (Result string string)) (last : option Value)
    : App (Result (option Value) string) :=
  match lines with
  | [] => app_ret (Ok last)
  | Err e :: _ => app_ret (Err e)
  | Ok line :: lines =>
      match value_from_str line with
      | None => read_lines dir lines last
      | Some value => last <-app deploy_line dir value last ;; read_lines dir lines last
      end
  end.

(** What the script's end and its last result mean. *)
Definition deploy_result (success : bool) (diagnostics : string) (last : option Value) : Result Value string :=
  match last with
  | None => Err ("部署工具没有返回完成状态：" ++ chars_take 350 diagnostics)
  | Some result =>
      if negb success || negb (says_ok result)
      then Err (default "部署预检失败" (text_field "message" result))
      else Ok result
  end.

(** ** The token *)

Definition token_format_ok (token : string) : bool :=
  (String.length token =? 64)%nat && string_forall is_ascii_hexdigit token.

(** The staged token takes the place of the one that is there, which is copied first. *)
Definition install_token (keyfile : Path) : Fs (Result unit string) :=
  exists_before <-fs path_exists keyfile ;;
  _ <-fs? (if exists_before : bool
           then _ <-fs? fs_map_err io_display (copy_file keyfile (with_extension keyfile "previous")) ;;
                fs_map_err io_display (remove_file keyfile)
           else fs_ret (Ok tt)) ;;
  fs_map_err io_display (rename (with_extension keyfile "new") keyfile).

Definition store_token (keyfile : Path) (token : string) : Fs (Result unit string) :=
  let stage := with_extension keyfile "new" in
  _ <-fs? fs_map_err io_display (create_dir_all (default "" (parent keyfile))) ;;
  _ <-fs? fs_map_err io_display (write_file stage token) ;;
  _ <-fs? (if unix then fs_map_err io_display (set_permissions stage) else fs_ret (Ok tt)) ;;
  install_token keyfile.

Definition provision_token (dir : string) (token : string) : Fs (Result unit string) :=
  if negb (token_format_ok token) then fs_ret (Err "服务器返回的 Relay 注册令牌格式不正确")
  else
    keyfile <-fs? relay_setup_token_path P ;;
    _ <-fs? store_token keyfile token ;;
    _ <-fs log_line dir "BOOTSTRAP securely provisioned" ;;
    fs_ret (Ok tt).

(** ** Running it *)

Definition message_of (v : Value) : Value := default Null (Json.get "message" v).

(** From the end of the script's output on. *)
Definition conclude (dir : string) (tool : DeployTool) (last : option Value) : App (Result Value string) :=
  status <-app? app_ret (tool_wait tool) ;;
  result <-app? app_ret (deploy_result status (chars_last 1200 (tool_stderr tool)) last) ;;
  _ <-app? (match text_field "bootstrapToken" result with
            | Some token => on_files (provision_token dir token)
            | None => app_ret (Ok tt)
            end) ;;
  app_ret (Ok (Object [("ok", Bool true); ("message", message_of result)])).

Definition run_deploy (config : RelayDeployConfig) (apply : bool) : App (Result Value string) :=
  runtime <-app? app_runtime_paths P ;;
  dir <-app? on_files (state_dir (base_dir P)) ;;
  _ <-app? on_files (open_log dir apply) ;;
  resource <-app on_files (deploy_resource (resource_roots P)) ;;
  match resource with
  | None => app_ret (Err "部署资源缺失：请先执行 desktop:prepare 并重新安装 ChatX")
  | Some resource =>
      started <-app app_get (spawn (path_display (node runtime))
                   [path_display (in_root resource "relay-deploy.mjs"); if apply then "deploy" else "check";
                    path_display (in_root resource "relay-deploy-source.tar.gz")]) ;;
      match started with
      | Err e => app_ret (Err ("无法启动部署工具：" ++ e))
      | Ok running =>
          input <-app? app_ret (config_to_vec config) ;;
          let tool := running input in
          _ <-app? app_ret (tool_input tool) ;;
          last <-app? read_lines dir (tool_lines tool) None ;;
          conclude dir tool last
      end
  end.

(** The flag is taken before the work and given back after it, however the work ends. *)
Definition manage_relay_server (config : RelayDeployConfig) (apply : bool) : App (Result Value string) :=
  _ <-app? app_ret (validate_deploy config) ;;
  busy <-app app_get deploy_busy ;;
  _ <-app app_modify (set_deploy_busy true) ;;
  if busy : bool then app_ret (Err "已有服务器部署或预检操作进行中")
  else
    outcome <-app run_deploy config apply ;;
    _ <-app app_modify (set_deploy_busy false) ;;
    app_ret outcome.
End Deploy.

(** ** The token is not lost *)

Section DeployProps.
Context (P : Platform) (base : string) (Hbase : base_dir P = Ok base) (is_absolute : string -> bool) (unix : bool)
        (config_to_vec : RelayDeployConfig -> Result string string) (value_from_str : string -> option Value)
        (spawn : string -> list string -> Desk -> Result (string -> DeployTool) string).
Local Abbreviation dir := (base ++ "/state").
Local Abbreviation key := {| parent := Some dir; file_name := "relay-setup-token" |}.
Local Abbreviation stage := (with_extension key "new").
Local Abbreviation previous := (with_extension key "previous").
Local Abbreviation disk d := (files (desk_world d)).
Local Abbreviation manage := (manage_relay_server P is_absolute unix config_to_vec value_from_str spawn).

(** The token's file is as it was, or holds the new token, or is missing while both tokens
    are in the files beside it. *)
Definition token_held (old : option string) (token : string) (fs : gmap Path string) : Prop :=
  fs !! key = old \/ fs !! key = Some token \/ (fs !! key = None /\ fs !! stage = Some token /\ fs !! previous = old).

(** What the token's file and the two beside it look like after a computation that began with
    [old] in the file, and that no other file has changed. *)
Definition token_kept (old : option string) (token : string) (w w' : World) : Prop :=
  token_held old token (files w') /\ forall q, q <> key -> q <> stage -> q <> previous -> files w' !! q = files w !! q.

Lemma install_token_held token w res w' : install_token key w = (res, w') -> files w !! stage = Some token ->
  token_kept (files w !! key) token w w' /\ (res = Some (Ok tt) -> files w' !! key = Some token).
Proof using Type.
  assert (stage <> key) as N1 by done. assert (previous <> key) as N2 by done. assert (previous <> stage) as N3 by done.
  intros H Hst. unfold install_token in H. unfold token_kept, token_held.
  apply fs_bind_inv in H as [[H ->]|(there & w1 & H & Hk)]; apply path_exists_inv in H as (F1 & _ & _);
    rewrite <- F1 in *; [split; [split; [by left|done]|done]|].
  (* the old token is copied and removed *)
  assert (forall r w2, (if there : bool then _ <-fs? fs_map_err io_display (copy_file key previous) ;;
                fs_map_err io_display (remove_file key) else fs_ret (Ok tt)) w1 = (r, w2) ->
    files w2 !! stage = Some token
    /\ (files w2 !! key = files w1 !! key \/ files w2 !! key = None /\ files w2 !! previous = files w1 !! key)
    /\ (forall q, q <> key -> q <> previous -> files w2 !! q = files w1 !! q)) as Hold.
  { intros r w2 H2. destruct there; [|injection H2 as _ <-; by auto].
    apply fs_try_inv in H2 as [[H ->]|[(e & H & ->)|([] & w3 & H & H3)]]; apply fs_map_err_inv in H as (r1 & H & Hr1);
      apply copy_file_inv in H as [(_ & _ & F3) E3];
      [split_and!; [by rewrite F3|left; by apply F3|intros; by apply F3]..|].
    apply fs_map_err_inv in H3 as (r2 & H3 & Hr2). apply remove_file_exact in H3 as [[-> F4]|[_ F4]]; rewrite F4.
    - rewrite lookup_delete_eq. split_and!; [by rewrite lookup_delete_ne, F3| |intros; rewrite lookup_delete_ne; auto].
      right. split; [done|]. rewrite lookup_delete_ne by done. apply E3. by destruct r1 as [[[]|]|].
    - split_and!; [by rewrite F3|left; by apply F3|intros; by apply F3]. }
  apply fs_try_inv in Hk as [[H ->]|[(e & H & ->)|([] & w2 & H & Hk)]]; apply Hold in H as (S2 & K2 & O2).
  1,2: split; [split; [|intros; by apply O2]|done]; destruct K2 as [K2|[K2 K2']]; auto.
  apply fs_map_err_inv in Hk as (r & H & ->). apply rename_inv in H as [_ [(-> & t & Ht & F)|[Hr F]]]; rewrite F.
  - rewrite Ht in S2. injection S2 as ->. rewrite lookup_insert_eq. split; [split; [by auto|]|done].
    intros q ? ? ?. rewrite lookup_insert_ne, lookup_delete_ne by done. by apply O2.
  - split; [split; [|intros; by apply O2]|]; [destruct K2 as [K2|[K2 K2']]; auto|by destruct r as [[[]|]|]].
Qed.

(** Nothing happens to the token while other files are worked on. *)
Lemma kept_before old token w1 w2 w' : token_kept (files w2 !! key) token w2 w' -> files w2 !! key = old ->
  (forall q, q <> key -> q <> stage -> q <> previous -> files w2 !! q = files w1 !! q) -> token_kept old token w1 w'.
Proof using Type. intros [H O] <- F. split; [done|]. intros q ? ? ?. by rewrite O, F. Qed.

Lemma kept_here token w : token_kept (files w !! key) token w w.
Proof using Type. split; [by left|done]. Qed.

Lemma store_token_held token w res w' : store_token unix key token w = (res, w') ->
  token_kept (files w !! key) token w w' /\ (res = Some (Ok tt) -> files w' !! key = Some token).
Proof using Type.
  assert (stage <> key) as N1 by done.
  intros H. unfold store_token in H.
  apply fs_try_inv in H as [[H ->]|[(e & H & ->)|([] & w1 & H & Hk)]]; apply fs_map_err_inv in H as (r1 & H & Hr1);
    apply create_dir_all_inv in H as [F1 _]; rewrite <- F1;
    [split; [apply (kept_before _ _ _ w'); [apply kept_here|done|by intros; rewrite F1]|done]..|].
  apply fs_try_inv in Hk as [[H ->]|[(e & H & ->)|([] & w2 & H & Hk)]]; apply fs_map_err_inv in H as (r2 & H & Hr2);
    apply write_file_inv in H as (_ & F2 & E2);
    [split; [apply (kept_before _ _ _ w'); [apply kept_here|by apply F2|by intros; rewrite F2, F1]|done]..|].
  assert (files w2 !! stage = Some token) as Hst by (apply E2; by destruct r2 as [[[]|]|]).
  assert (forall r w3, (if unix then fs_map_err io_display (set_permissions stage) else fs_ret (Ok tt)) w2 = (r, w3) -> files w3 = files w2) as F3.
  { intros r w3 H3. destruct unix; [|by injection H3 as _ <-]. apply fs_map_err_inv in H3 as (? & H3 & _).
    by apply set_permissions_inv in H3 as [? _]. }
  apply fs_try_inv in Hk as [[H ->]|[(e & H & ->)|([] & w3 & H & Hk)]]; apply F3 in H as F;
    [split; [apply (kept_before _ _ _ w'); [apply kept_here|by rewrite F; apply F2|by intros; rewrite F, F2, F1]|done]..|].
  apply (install_token_held token) in Hk as [Hk Ho]; [|by rewrite F].
  split; [|done]. apply (kept_before _ _ _ w3); [done|by rewrite F; apply F2|by intros; rewrite F, F2, F1].
Qed.
(** *** What the rest of a deployment leaves alone *)

(** Only the logs of deployments are written, and the flag stays. *)
Definition logging (d d' : Desk) : Prop :=
  deploy_busy d' = deploy_busy d
  /\ forall q, q <> deploy_log dir -> q <> old_deploy_log dir -> disk d' !! q = disk d !! q.

#[local] Instance logging_preorder : PreOrder logging.
Proof using Type.
  split; [by split|]. intros d1 d2 d3 [B1 F1] [B2 F2]. split; [by rewrite B2|]. intros q ? ?. by rewrite F2, F1.
Qed.

Lemma logging_files {A} (m : Fs A) :
  (forall q, q <> deploy_log dir -> q <> old_deploy_log dir -> spares q m) -> does logging (on_files m).
Proof using Type.
  intros Hm d res d' (w & H & ->)%on_files_inv. split; [done|]. intros q H1 H2. by eapply Hm.
Qed.
Lemma logging_modify f : (forall d, deploy_busy (f d) = deploy_busy d /\ desk_world (f d) = desk_world d) -> does logging (app_modify f).
Proof using Type. intros Hf d res d' [= _ <-]. destruct (Hf d) as [Hb Hw]. split; [done|]. by rewrite Hw. Qed.

Lemma spares_log_line q text : q <> deploy_log dir -> spares q (log_line dir text).
Proof using Type. intros Hq. unfold log_line. solve_spares. Qed.
Lemma spares_resource q roots : spares q (deploy_resource roots).
Proof using Type. induction roots as [|root roots IH]; cbn [deploy_resource]; solve_spares. Qed.
Lemma spares_large q p : spares q (log_is_large p).
Proof using Type.
  intros w res w' H. unfold log_is_large in H. apply fs_bind_inv in H as [[H _]|(r & w1 & H & Hk)];
    apply stat_file_files in H as [F _]; [by rewrite F|]. injection Hk as _ <-. by rewrite F.
Qed.
Lemma logging_open apply : does logging (on_files (open_log dir apply)).
Proof using Type.
  apply logging_files. intros q H1 H2. unfold open_log. pose proof (spares_large q). pose proof (spares_log_line q).
  solve_spares; eauto with spares.
Qed.
Lemma logging_line value last : does logging (deploy_line dir value last).
Proof using Type.
  unfold deploy_line. case_match; [|case_match].
  - apply does_bind; [apply _| |intros _].
    + case_match; [|apply does_ret; apply _]. apply logging_files. intros q H1 _. by apply spares_log_line.
    + apply does_bind; [apply _|by apply logging_modify|]. intros _. apply does_ret; apply _.
  - apply does_bind; [apply _| |intros _; apply does_ret; apply _].
    apply logging_files. intros q H1 _. by apply spares_log_line.
  - apply does_ret; apply _.
Qed.
Lemma logging_lines lines last : does logging (read_lines value_from_str dir lines last).
Proof using Type.
  revert last. induction lines as [|[line|e] lines IH]; intros last; cbn [read_lines]; [apply does_ret; apply _| |apply does_ret; apply _].
  destruct (value_from_str line) as [v|]; [|apply IH]. apply does_bind; [apply _|apply logging_line|apply IH].
Qed.
Lemma logging_paths : does logging (app_runtime_paths P).
Proof using Type.
  apply logging_files. intros q _ _ w res w' H. apply runtime_paths_files in H as [-> _]. done.
Qed.
Lemma logging_state : does logging (on_files (state_dir (base_dir P))).
Proof using Type*. apply logging_files. intros q _ _. unfold state_dir. solve_spares. Qed.

(** The last result among the lines. *)
Definition last_result (lines : list (Result string string)) (v : Value) : Prop :=
  exists pre line post, lines = (pre ++ Ok line :: post)%list /\ value_from_str line = Some v /\ has_kind "result" v = true
  /\ forall l w, In (Ok l) post -> value_from_str l = Some w -> has_kind "result" w = false.

Lemma read_lines_last lines last d r d' : read_lines value_from_str dir lines last d = (Some (Ok r), d') ->
  match r with
  | Some v => (last = Some v /\ forall l w, In (Ok l) lines -> value_from_str l = Some w -> has_kind "result" w = false) \/ last_result lines v
  | None => last = None
  end.
Proof using Type.
  clear Hbase. revert last d. induction lines as [|[line|e] lines IH]; intros last d H; cbn [read_lines] in H; [|..].
  - injection H as <- _. destruct last; [|done]. left. split; [done|]. by intros l w [].
  - destruct (value_from_str line) as [v|] eqn:Hv.
    + apply app_bind_inv in H as [[_ ?]|(last' & d1 & H & Hk)]; [done|]. apply IH in Hk.
      assert (last' = if has_kind "result" v && negb (has_kind "progress" v) then Some v else last) as ->.
      { unfold deploy_line in H. destruct (has_kind "progress" v), (has_kind "result" v); cbn;
          try (by injection H as <- _);
          repeat (apply app_bind_inv in H as [[_ ?]|(? & ? & _ & H)]; [done|]); by injection H as <- _. }
      destruct r as [u|]; [|by destruct (has_kind "result" v && _)].
      destruct Hk as [[Hl Hno]|(pre & ln & post & -> & Hu)].
      * destruct (has_kind "result" v) eqn:Hr; cbn in Hl.
        -- destruct (has_kind "progress" v) eqn:Hp; cbn in Hl.
           { exfalso. unfold has_kind in Hr, Hp. apply bool_decide_eq_true in Hr, Hp. congruence. }
           injection Hl as <-. right. exists [], line, lines. by split_and!.
        -- left. split; [done|]. intros l w [[= ->]|Hin] Hw; [by simplify_eq|by eapply Hno].
      * right. by exists (Ok line :: pre), ln, post.
    + apply IH in H. destruct r as [u|]; [|done]. destruct H as [[Hl Hno]|(pre & ln & post & -> & Hu)].
      * left. split; [done|]. intros l w [[= ->]|Hin] Hw; [by simplify_eq|by eapply Hno].
      * right. by exists (Ok line :: pre), ln, post.
  - done.
Qed.

(** A script that was started and sent its configuration, took it, and ended well with this
    result as the last one it printed. *)
Definition ended_with (v : Value) : Prop := exists program args d running input,
  spawn program args d = Ok running /\ tool_input (running input) = Ok tt /\ last_result (tool_lines (running input)) v
  /\ tool_wait (running input) = Ok true /\ says_ok v = true.

(** What a deployment leaves: the token of the last result in the token's file, on success,
    and otherwise no token lost. *)
Definition tokens_safe (d : Desk) (res : option (Result Value string)) (d' : Desk) : Prop :=
  (forall q, q <> key -> q <> stage -> q <> previous -> q <> deploy_log dir -> q <> old_deploy_log dir -> disk d' !! q = disk d !! q)
  /\ (disk d' !! key = disk d !! key
      \/ exists v token, ended_with v /\ text_field "bootstrapToken" v = Some token /\ token_format_ok token = true
           /\ token_held (disk d !! key) token (disk d'))
  /\ (forall page, res = Some (Ok page) -> exists v, ended_with v
       /\ match text_field "bootstrapToken" v with
          | Some token => disk d' !! key = Some token /\ token_format_ok token = true
          | None => disk d' !! key = disk d !! key end).

Definition deployed (d : Desk) (res : option (Result Value string)) (d' : Desk) : Prop :=
  tokens_safe d res d' /\ deploy_busy d' = deploy_busy d.

Lemma deployed_logging d res d' : logging d d' -> (forall page, res <> Some (Ok page)) -> deployed d res d'.
Proof using Type.
  intros [B F] Hres. split; [|done]. split_and!; [intros; by apply F|left; by apply F|intros page H; by apply Hres in H].
Qed.

Lemma deployed_after d d1 res d' : logging d d1 -> deployed d1 res d' -> deployed d res d'.
Proof using Type.
  intros [B F] [(H1 & H2 & H3) H4]. assert (disk d1 !! key = disk d !! key) as K by by apply F.
  split; [|by rewrite H4]. split_and!; [|by rewrite <- K|by rewrite <- K].
  intros q ? ? ? ? ?. rewrite H1 by done. by apply F.
Qed.

Lemma provision_inv token d res d' : on_files (provision_token P unix dir token) d = (res, d') ->
  (disk d' = disk d /\ res <> Some (Ok tt))
  \/ token_format_ok token = true /\ token_held (disk d !! key) token (disk d')
     /\ (forall q, q <> key -> q <> stage -> q <> previous -> q <> deploy_log dir -> disk d' !! q = disk d !! q)
     /\ (res = Some (Ok tt) -> disk d' !! key = Some token).
Proof using Type*.
  intros (w & H & ->)%on_files_inv. cbn. unfold provision_token in H.
  destruct (token_format_ok token); cbn [negb] in H; [|injection H as <- <-; by left].
  apply fs_try_inv in H as [[H ->]|[(e & H & ->)|(p & w1 & H & Hk)]]; unfold relay_setup_token_path in H; rewrite Hbase in H;
    (apply fs_try_inv in H as [[H ?]|[(e' & H & ?)|(dir' & w0 & H & Hp)]]; apply state_dir_inv in H as (F0 & _ & _ & E0));
    try done; try (left; by rewrite F0); try (by injection Hp).
  injection Hp as <- <-. rewrite (E0 dir' eq_refl) in Hk. right. split; [done|]. rewrite <- F0.
  apply fs_try_inv in Hk as [[H' ->]|[(e & H' & ->)|([] & w2 & H' & Hk)]]; apply store_token_held in H' as [[K O] E];
    [split_and!; [done|by intros; apply O|done]..|].
  apply fs_bind_inv in Hk as [[H' ->]|(u & w3 & H' & Hk)].
  - assert (forall q, q <> deploy_log dir -> files w !! q = files w2 !! q) as F by (intros q Hq; by eapply spares_log_line).
    unfold token_held. rewrite !F by done. split_and!; [done|intros; rewrite F by done; by apply O|done].
  - injection Hk as <- <-.
    assert (forall q, q <> deploy_log dir -> files w3 !! q = files w2 !! q) as F by (intros q Hq; by eapply spares_log_line).
    unfold token_held. rewrite !F by done. split_and!; [done|intros; rewrite F by done; by apply O|by intros _; apply E].
Qed.

Lemma conclude_deployed tool last d res d' :
  conclude P unix dir tool last d = (res, d') ->
  (forall v, last = Some v -> says_ok v = true -> tool_wait tool = Ok true -> ended_with v) ->
  deployed d res d'.
Proof using Type*.
  intros H Hend. assert (forall r, (forall page, r <> Some (Ok page)) -> deployed d r d) as Hstop
    by (intros r Hr; by apply deployed_logging).
  unfold conclude in H. apply app_try_inv in H as [[H _]|[(e & H & ->)|(status & d1 & H & Hk)]]; [done|..];
    injection H as Hw <-; [by apply Hstop|].
  apply app_try_inv in Hk as [[H _]|[(e & H & ->)|(v & d2 & H & Hk)]]; [done|..]; injection H as Hr <-; [by apply Hstop|].
  assert (ended_with v) as Hv.
  { unfold deploy_result in Hr. destruct last as [u|]; [|done].
    destruct status; cbn [negb orb] in Hr; [|done]. destruct (says_ok u) eqn:Ho; [|done]. injection Hr as <-. by apply Hend. }
  apply app_try_inv in Hk as [[H ->]|[(e & H & ->)|([] & d3 & H & Hk)]].
  1,2: destruct (text_field "bootstrapToken" v) as [token|] eqn:Ht; [|by injection H as ? <-].
  1,2: apply on_files_inv in H as Hw'; destruct Hw' as (w & _ & ->);
    apply provision_inv in H as [[F _]|(Hf & Hh & O & _)];
    (split; [|done]);
    [split_and!; [by intros; rewrite F|left; by rewrite F|done]
    |split_and!; [intros; by apply O|right; by exists v, token|done]].
  injection Hk as <- <-. destruct (text_field "bootstrapToken" v) as [token|] eqn:Ht.
  - apply on_files_inv in H as Hw'. destruct Hw' as (w & _ & ->).
    apply provision_inv in H as [[_ Hne]|(Hf & Hh & O & E)]; [done|].
    split; [|done]. split_and!; [intros; by apply O|right; by exists v, token|].
    intros page _. exists v. split; [done|]. rewrite Ht. split; [by apply E|done].
  - injection H as <-. split; [|done]. split_and!; [done|by left|]. intros page _. exists v. by rewrite Ht.
Qed.

Lemma run_deployed config apply d res d' :
  run_deploy P unix config_to_vec value_from_str spawn config apply d = (res, d') -> deployed d res d'.
Proof using Type*.
  assert (forall d1, logging d d1 -> forall r d2, deployed d1 r d2 -> deployed d r d2) as Hafter
    by (intros d1 H1 r d2 H2; by eapply deployed_after).
  unfold run_deploy. intros H.
  apply (does_try_inv logging _ _ d) in H as [[Hl Hn]|(paths & d1 & _ & L1 & H)];
    [by apply deployed_logging| |apply logging_paths|reflexivity].
  apply (does_try_inv logging _ _ d) in H as [[Hl Hn]|(dir0 & d2 & Hd & L2 & H)];
    [by apply deployed_logging| |apply logging_state|done].
  assert (dir0 = dir) as ->.
  { rewrite Hbase in Hd. apply on_files_inv in Hd as (w & Hd & _). apply state_dir_inv in Hd as (_ & _ & _ & Hd). by apply Hd. }
  apply (does_try_inv logging _ _ d) in H as [[Hl Hn]|(u & d3 & _ & L3 & H)];
    [by apply deployed_logging| |apply logging_open|done].
  apply (does_bind_inv logging _ _ d) in H as [[Hl ->]|(resource & d4 & _ & L4 & H)];
    [by apply deployed_logging| |apply logging_files; intros; apply spares_resource|done].
  destruct resource as [root|]; [|injection H as <- <-; by apply deployed_logging].
  unfold app_bind at 1, app_get at 1 in H.
  destruct (spawn _ _ d4) as [running|e] eqn:Hsp; [|injection H as <- <-; by apply deployed_logging].
  apply app_try_inv in H as [[H _]|[(e & H & ->)|(input & d5 & H & Hk)]]; [done|..]; injection H as _ <-;
    [by apply deployed_logging|].
  apply app_try_inv in Hk as [[H _]|[(e & H & ->)|([] & d6 & H & Hk)]]; [done|..]; injection H as Hin <-;
    [by apply deployed_logging|].
  apply (does_try_inv logging _ _ d) in Hk as [[Hl Hn]|(last & d7 & Hlast & L7 & Hk)];
    [by apply deployed_logging| |apply logging_lines|done].
  apply (Hafter d7 L7). eapply conclude_deployed; [exact Hk|]. intros v -> Hok Hwait.
  apply read_lines_last in Hlast as [[? _]|Hlast]; [done|]. by eexists _, _, _, _, _.
Qed.

Lemma manage_deployed config apply d res d' : manage config apply d = (res, d') ->
  tokens_safe d res d' /\ (res <> None -> deploy_busy d' = deploy_busy d)
  /\ (deploy_busy d = true -> disk d' = disk d /\ forall page, res <> Some (Ok page)).
Proof using Type*.
  intros H. assert (forall d1 r, disk d1 = disk d -> (forall page, r <> Some (Ok page)) -> tokens_safe d r d1) as Hstop.
  { intros d1 r F Hr. unfold tokens_safe. rewrite F. split_and!; [done|by left|intros page Hp; by apply Hr in Hp]. }
  unfold manage_relay_server in H.
  apply app_try_inv in H as [[H _]|[(e & H & ->)|([] & d1 & H & Hk)]]; [done|..]; injection H as Hv <-.
  { split_and!; [by apply Hstop|done..]. }
  unfold app_bind at 1, app_get at 1, app_bind at 1, app_modify at 1 in Hk. destruct (deploy_busy d) eqn:Hb.
  { injection Hk as <- <-. split_and!; [by apply Hstop|by rewrite <- Hb|done]. }
  apply app_bind_inv in Hk as [[H ->]|(outcome & d2 & H & Hk)]; apply run_deployed in H as [H1 H2]; [by split|].
  injection Hk as <- <-. by split.
Qed.


(** A file whose owner alone may use it, holding a token, is read as that token. *)
Lemma read_token_exact (H : Host) token d res d' : read_relay_setup_token P H d = (Some res, d') ->
  disk d !! key = Some token -> token_format_ok token = true -> environment P !! "CHATX_RELAY_SETUP_TOKEN" = None ->
  (forall d mode, disk d !! key = Some token -> file_mode H key d = Some mode -> N.land mode 63 = 0%N) ->
  (forall op, io_fault (desk_world d) op = None) -> res = Ok token.
Proof using Type*.
  intros Hr Hkey Hformat Henv Hmode Hio. unfold read_relay_setup_token in Hr. rewrite Henv in Hr.
  unfold read_token_file in Hr.
  apply app_try_inv in Hr as [[_ ?]|[(e & Hr & _)|(path & d1 & Hr & Hk)]]; [done|..];
    apply on_files_inv in Hr as (w & Hr & ->); unfold relay_setup_token_path in Hr; rewrite Hbase in Hr;
    apply fs_try_inv in Hr as [[_ ?]|[(e' & Hr & ?)|(dir0 & w1 & Hr & Hp)]]; try done;
    (apply state_dir_ok in Hr as (He & F1 & I1); [|apply Hio]); try done.
  injection He as ->. injection Hp as <- <-.
  assert (forall op, io_fault w1 op = None) as Hio1 by (intros op; by rewrite I1).
  unfold check_private, app_try in Hk. apply app_bind_inv in Hk as [[_ ?]|(private & d2 & Hc & Hk)]; [done|].
  assert (exists w2, private = Ok tt /\ d2 = set_desk_world w2 d /\ files w2 = files w1 /\ io_fault w2 = io_fault w1)
    as (w2 & -> & -> & F2 & I2).
  { unfold app_bind at 1, app_get at 1 in Hc. destruct (file_mode H key _) as [mode|] eqn:Hm;
      [|injection Hc as <- <-; by exists w1].
    apply Hmode in Hm; [|by cbn; rewrite F1]. rewrite Hm in Hc.
    apply app_bind_inv in Hc as [[_ ?]|(r & d3 & Hc & Hk2)]; [done|]. apply on_files_inv in Hc as (w2 & Hc & ->).
    apply fs_map_err_inv in Hc as (r1 & Hc & Hr1). destruct r1 as [r1|]; [|done]. injection Hr1 as ->.
    apply fs_op_fine in Hc as [Hc I2]; [|apply Hio1]. cbn in Hc. rewrite F1, Hkey in Hc. injection Hc as <- F2.
    injection Hk2 as <- <-. exists w2. by rewrite <- F2, F1. }
  apply app_bind_inv in Hk as [[_ ?]|(r & d3 & Hr & Hk)]; [done|]. apply on_files_inv in Hr as (w3 & Hr & ->).
  apply fs_map_err_inv in Hr as (r1 & Hr & Hr1). destruct r1 as [r1|]; [|done]. injection Hr1 as ->.
  apply read_to_string_exact in Hr; [|cbn; by rewrite I2]. cbn in Hr. rewrite F2, F1, Hkey in Hr. subst r1.
  cbn in Hk. unfold token_format_ok in Hformat. apply andb_true_iff in Hformat as [Hlen Hhex].
  rewrite trim_graphic in Hk by (eapply string_forall_impl; [exact hexdigit_graphic|exact Hhex]).
  destruct token; [done|]. by injection Hk as <- _.
Qed.

(** The token of a deployment that succeeded is the one the registration shows the Relay:
    reading it answers exactly that token, as long as its file is not written again.  (The
    file keeps the permissions it was given, no other token is set in the environment, and
    files can be read.) *)
Theorem deployed_token_is_used config apply (H : Host) d page d' d2 res d3 :
  manage config apply d = (Some (Ok page), d') ->
  disk d2 !! key = disk d' !! key -> environment P !! "CHATX_RELAY_SETUP_TOKEN" = None ->
  (forall d mode, disk d !! key = disk d' !! key -> file_mode H key d = Some mode -> N.land mode 63 = 0%N) ->
  (forall op, io_fault (desk_world d2) op = None) ->
  read_relay_setup_token P H d2 = (Some res, d3) ->
  exists v, ended_with v /\ forall token, text_field "bootstrapToken" v = Some token -> res = Ok token.
Proof using Type*.
  intros Hm Hkey Henv Hmode Hio Hr. apply manage_deployed in Hm as ((_ & _ & Hend) & _).
  destruct (Hend page eq_refl) as (v & Hv & Hd). exists v. split; [done|]. intros token Ht. rewrite Ht in Hd.
  destruct Hd as [Hd Hformat]. eapply read_token_exact; [exact Hr|by rewrite Hkey|done|done| |done].
  intros d4 mode H4. apply Hmode. by rewrite Hd.
Qed.
End DeployProps.

(** ** Witnesses *)

Definition sample_deploy_config : RelayDeployConfig :=
  {| deploy_host := "relay.example"; deploy_user := "root"; deploy_port := 22; deploy_domain := "relay.example";
     deploy_desktop_id := "d_0123456789abcdef"; deploy_key_path := "" |}.
Definition sample_token : string := "0123456789abcdef0123456789abcdef0123456789abcdef0123456789abcdef".
Definition sample_result : Value :=
  Object [("kind", VString "result"); ("ok", Bool true); ("message", VString "done"); ("bootstrapToken", VString sample_token)].

(** The script prints one line that is no JSON, some progress, and a result. *)
Definition sample_deploy_read (line : string) : option Value :=
  match line with
  | "progress" => Some (Object [("kind", VString "progress"); ("message", VString "uploading")])
  | "result" => Some sample_result
  | _ => None
  end.
Definition sample_deploy_tool : DeployTool :=
  {| tool_input := Ok tt; tool_lines := [Ok "banner"; Ok "progress"; Ok "result"]; tool_stderr := ""; tool_wait := Ok true |}.
Definition sample_spawn (program : string) (args : list string) (d : Desk) : Result (string -> DeployTool) string :=
  Ok (fun _ => sample_deploy_tool).
Definition sample_setup_token : Path := {| parent := Some "/home/u/state"; file_name := "relay-setup-token" |}.
Definition sample_deploy_files : gmap Path string :=
  <[sample_setup_token := "old token"]>
    (foldr (fun p fs => <[p := "x"]> fs) (sample_files sample_monitored)
       [in_root "/opt/chatx" "relay-deploy.mjs"; in_root "/opt/chatx" "relay-deploy-install.sh";
        in_root "/opt/chatx" "relay-deploy-source.tar.gz"]).
Definition sample_deploy (w : World) : option (Result Value string) * Desk :=
  manage_relay_server sample_platform (starts_with "/") true (fun _ => Ok "{}") sample_deploy_read sample_spawn
    sample_deploy_config true (desk_default w).

Lemma sample_last_result v : last_result sample_deploy_read (tool_lines sample_deploy_tool) v -> v = sample_result.
Proof.
  intros (pre & line & post & Hlines & Hv & Hk & Hlast). cbn in Hlines.
  destruct pre as [|l1 [|l2 [|l3 [|l4 pre]]]]; cbn in Hlines; simplify_eq; try discriminate Hv;
    injection Hv as <-; [discriminate Hk|reflexivity].
Qed.


(** The registration reads the token just deployed. *)
Lemma deployed_token_is_used_witness :
  let d := (sample_deploy (healthy sample_deploy_files)).2 in
  exists d3, read_relay_setup_token sample_platform sample_host d = (Some (Ok sample_token), d3).
Proof.
  intros d. destruct (read_relay_setup_token sample_platform sample_host d) as [[res|] d3] eqn:Hr; [|vm_compute in Hr; discriminate Hr].
  destruct (sample_deploy (healthy sample_deploy_files)) as [r d0] eqn:Ho. cbn in d.
  assert (r = Some (Ok (Object [("ok", Bool true); ("message", VString "done")]))) as ->
    by (apply (f_equal fst) in Ho; vm_compute in Ho; by rewrite <- Ho).
  destruct (deployed_token_is_used sample_platform "/home/u" eq_refl (starts_with "/") true (fun _ => Ok "{}") sample_deploy_read sample_spawn
    sample_deploy_config true sample_host (desk_default (healthy sample_deploy_files)) _ d0 d res d3 Ho eq_refl eq_refl ltac:(discriminate)
    ltac:(intros op; apply (f_equal (fun o => io_fault (desk_world o.2) op)) in Ho; exact (eq_sym Ho)) Hr) as (v & Hv & Ht).
  exists d3. rewrite (Ht sample_token); [reflexivity|].
  destruct Hv as (program & args & d1 & running & input & [= <-] & _ & Hlast & _).
  apply sample_last_result in Hlast. subst v. reflexivity.
Defined.

(** ** What a deployment can leave *)

(** The old token is removed before the new one takes its place.  Dying between the two
    leaves no token: the registration does not find one, although both are still there. *)
Lemma deploy_can_lose_token :
  let dying := {| files := sample_deploy_files; ops_left := Some 20%nat; io_fault := fun _ => None; torn_write := fun _ => None |} in
  let after := files (desk_world (sample_deploy dying).2) in
  (sample_deploy dying).1 = None /\ after !! sample_setup_token = None
  /\ after !! with_extension sample_setup_token "new" = Some sample_token
  /\ after !! with_extension sample_setup_token "previous" = Some "old token"
  /\ (read_relay_setup_token sample_platform sample_host (desk_default (healthy after))).1
     = Some (Err "Relay 注册凭据尚未由管理员预配。").
Proof. cbv zeta. split_and!; vm_compute; reflexivity. Qed.

(** The token is written before the permissions of its file are narrowed. *)
Lemma token_written_before_permissions :
  let dying := {| files := sample_deploy_files; ops_left := Some 16%nat; io_fault := fun _ => None; torn_write := fun _ => None |} in
  (sample_deploy dying).1 = None
  /\ files (desk_world (sample_deploy dying).2) !! with_extension sample_setup_token "new" = Some sample_token.
Proof. cbv zeta. split_and!; vm_compute; reflexivity. Qed.
