(* ===== verification/MonitorService.v ===== *)
(** * The monitor's service and its commands ([monitor_manager.rs], [monitor_commands.rs])

    Listening for phones on both families of addresses, the pairing code a phone is shown, and
    the commands of the phone page: turning monitoring on and off, pairing, and revoking. *)

From S2P Require Export MonitorNetwork Network.
From stdpp Require Import pretty.
Local Open Scope string_scope.

(** [s.replace(from, to)] for a nonempty [from]; the fuel is the length of [s]. *)
Fixpoint replace_in (fuel : nat) (from to s : string) : string :=
  match fuel with
  | O => s
  | S fuel =>
      match Text.strip_prefix from s with
      | Some rest => to ++ replace_in fuel from to rest
      | None => match s with "" => "" | String a s => String a (replace_in fuel from to s) end
      end
  end.
Definition string_replace (from to s : string) : string := replace_in (S (String.length s)) from to s.

(** The machine as the service asks it: the outcome of opening a listener on the address
    (creating the socket up to reading its address), its network interfaces, a self-signed
    certificate, the configuration of a TLS server, SHA-256, the drawing of a QR code, and
    the JSON printer. *)
Record ServiceEnv := {
  open_listener : bool -> string -> Desk -> Result string string;
  interfaces_of : Desk -> option (list Interface);
  self_signed_pair : Desk -> Result (string * string) string;
  server_config : string -> string -> Result unit string;
  cert_sha256 : string -> bytes;
  qr_svg : string -> Result string string;
  value_to_string : Value -> Result string string }.

Section Service.
Context (P : Platform) (H : Host) (E : ServiceEnv) (net : Network) (windows : bool) (process_id : string)
        (hkdf : string -> bytes -> string -> option bytes)
        (devices_from_str : string -> Result (list MonitorDeviceRecord) string)
        (devices_to_string : list MonitorDeviceRecord -> Result string string)
        (secret_fault : SecretOp -> Desk -> option string) (random_key : Desk -> option bytes)
        (b64_encode : bytes -> string) (b64_decode : string -> option bytes)
        (credentials_from_str : string -> Result RelayCredentials string).

#[local] Abbreviation key_of := (master_key secret_fault random_key b64_encode b64_decode).
#[local] Abbreviation desktop_id := (app_desktop_id P H process_id).
#[local] Abbreviation devices_now := (monitor_devices_snapshot P devices_from_str).

(** ** What the page shows *)

Definition monitor_tls_dir : Fs (Result string string) :=
  dir <-fs? state_dir (base_dir P) ;; fs_ret (Ok (dir ++ "/monitor-tls")).

Definition running_servers (d : Desk) : list MonitorServerHandle := default [] (lock (monitor_servers d)).

(** The endpoints of the families something listens on. *)
Definition reachable_endpoints (servers : list MonitorServerHandle) (port : N) (d : Desk) : list MonitorEndpoint :=
  let supports_ipv4 := existsb server_ipv4 servers in
  let supports_ipv6 := existsb (fun s => negb (server_ipv4 s)) servers in
  List.filter (fun e => (String.eqb (endpoint_family e) "ipv4" && supports_ipv4)
                        || (String.eqb (endpoint_family e) "ipv6" && supports_ipv6))
    (discover_monitor_endpoints (interfaces_of E d) port).

Definition endpoint_value (e : MonitorEndpoint) : Value :=
  Object [("kind", VString (endpoint_kind e)); ("family", VString (endpoint_family e));
          ("interface", VString (endpoint_interface e)); ("host", VString (endpoint_host e));
          ("url", VString (endpoint_url e))].

Definition device_value (r : MonitorDeviceRecord) : Value :=
  Object [("id", VString (device_record_id r)); ("name", VString (device_record_name r));
          ("createdAt", Number (Some (created_at r))); ("lastSeenAt", opt_number (last_seen_at r))].

Definition monitor_info_payload : App (Result Value string) :=
  settings <-app app_load_settings P ;;
  servers <-app app_get running_servers ;;
  let bind_addresses := map server_addr servers in
  endpoints <-app app_get (fun d => match servers with
                                    | [] => []
                                    | _ => reachable_endpoints servers (monitor_port settings) d end) ;;
  devices <-app? devices_now ;;
  id <-app desktop_id ;;
  app_ret (Ok (Object
    [("enabled", Bool (monitor_enabled settings)); ("port", Number (Some (monitor_port settings)));
     ("running", Bool (match servers with [] => false | _ => true end));
     ("desktopId", match id with Ok id => VString id | Err _ => Null end);
     ("protocol", VString "chatx-monitor-wss-v1"); ("encryption", VString "AES-256-GCM");
     ("bindAddress", match bind_addresses with [] => Null | _ => VString (String.concat " · " bind_addresses) end);
     ("bindAddresses", Array (map VString bind_addresses));
     ("fingerprintSha256", opt_text (server_fingerprint <$> head servers));
     ("devices", Array (map device_value devices)); ("endpoints", Array (map endpoint_value endpoints))])).

(** ** Starting and stopping *)

(** [start_monitor_server] for one address: a listener and a thread that serves it. *)
Definition start_monitor_server (ipv4 : bool) (bind : string) (port : N) (identity : MonitorTlsIdentity) (desktop : string)
    (key : bytes) : App (Result MonitorServerHandle string) :=
  addr <-app? app_get (open_listener E ipv4 bind) ;;
  app_ret (Ok {| server_addr := addr; server_ipv4 := ipv4; server_fingerprint := fingerprint_sha256 identity;
                 server_port := port; server_desktop := desktop; server_key := key |}).

Definition binds (port : N) : list (bool * string) := [(true, "0.0.0.0:" ++ pretty port); (false, "[::]:" ++ pretty port)].

(** The loop over the addresses; [slot] are the servers started, [errors] why others failed. *)
Fixpoint start_all (targets : list (bool * string)) (port : N) (identity : MonitorTlsIdentity) (desktop : string) (key : bytes)
    (slot : list MonitorServerHandle) (errors : list string) : App (list MonitorServerHandle * list string) :=
  match targets with
  | [] => app_ret (slot, errors)
  | (ipv4, bind) :: targets =>
      started <-app start_monitor_server ipv4 bind port identity desktop key ;;
      match started with
      | Ok server =>
          _ <-app app_log P ("手机 Monitor Server 已启动：WSS " ++ server_addr server) ;;
          start_all targets port identity desktop key (slot ++ [server])%list errors
      | Err error => start_all targets port identity desktop key slot (errors ++ [error])%list
      end
  end.

Fixpoint log_partial (errors : list string) : App unit :=
  match errors with
  | [] => app_ret tt
  | error :: errors => _ <-app app_log P ("Monitor Server 部分监听失败：" ++ error) ;; log_partial errors
  end.

Definition tls_identity : App (Result MonitorTlsIdentity string) :=
  dir <-app? on_files monitor_tls_dir ;;
  fun d => on_files (ensure_tls_identity (self_signed_pair E d) (server_config E) (cert_sha256 E) dir) d.

(** What a start does when nothing listens. *)
Definition open_servers (port : N) : App (Result unit string) :=
  identity <-app? tls_identity ;;
  desktop <-app? desktop_id ;;
  key <-app? key_of ;;
  started <-app start_all (binds port) port identity desktop key [] [] ;;
  let '(servers, errors) := started in
  _ <-app app_modify (fun d => set_monitor_servers (set_guarded servers (monitor_servers d)) d) ;;
  match servers with
  | [] => app_ret (Err ("Monitor Server 无法监听 IPv4/IPv6：" ++ String.concat "；" errors))
  | _ => _ <-app log_partial errors ;; app_ret (Ok tt)
  end.

Definition start_monitor_service : App (Result unit string) :=
  settings <-app app_load_settings P ;;
  if negb (monitor_enabled settings) then app_ret (Ok tt)
  else if (monitor_port settings <? 1024)%N then app_ret (Err "Monitor 端口必须为 1024-65535。")
  else
    _ <-app? devices_now ;;
    slot <-app app_get (fun d => lock (monitor_servers d)) ;;
    match slot with
    | None => app_ret (Err "Monitor Server 状态锁已损坏。")
    | Some (_ :: _) => app_ret (Ok tt)
    | Some [] => open_servers (monitor_port settings)
    end.

(** Dropping the handles stops the servers. *)
Definition stop_monitor_service : App (Result unit string) :=
  slot <-app app_get (fun d => lock (monitor_servers d)) ;;
  match slot with
  | None => app_ret (Err "Monitor Server 状态锁已损坏。")
  | Some _ =>
      _ <-app app_modify (fun d => set_monitor_servers (set_guarded [] (monitor_servers d)) d) ;;
      _ <-app app_log P "手机 Monitor Server 已停止" ;;
      app_ret (Ok tt)
  end.

(** ** The pairing code *)

Definition pair_candidate (e : MonitorEndpoint) : Value :=
  Object [("kind", VString (endpoint_kind e)); ("family", VString (endpoint_family e));
          ("interface", VString (endpoint_interface e)); ("host", VString (endpoint_host e));
          ("url", VString (string_replace "/v1/ws/monitor" "/v1/ws/pair" (endpoint_url e)))].

(** What the Relay offers: a route for the pairing, or why there is none. *)
Record RelayOffer := { relay_pairing : option Value; relay_error : option string }.

Definition no_offer : RelayOffer := {| relay_pairing := None; relay_error := None |}.

Definition route_value (settings : RelaySettings) (url desktop pairing_id route_token : string) : Value :=
  Object [("baseUrl", VString (relay_base_url settings)); ("url", VString url); ("desktopId", VString desktop);
          ("pairingId", VString pairing_id); ("routeToken", VString route_token)].

Definition ok_url (url : string) : option string := match normalized_base_url url with Ok u => Some u | Err _ => None end.

(** Opening a route at the Relay, if it is wanted. *)
Definition offer_relay (settings : RelaySettings) (desktop pairing_id : string) (expires_at : N) : App (Result RelayOffer string) :=
  if negb (relay_enabled settings) then app_ret (Ok no_offer)
  else
    read <-app read_relay_credentials secret_fault credentials_from_str ;;
    match read with
    | Err e => app_ret (Ok {| relay_pairing := None; relay_error := Some e |})
    | Ok credentials =>
        if String.eqb (cred_desktop_id credentials) desktop
           && bool_decide (ok_url (cred_base_url credentials) = ok_url (relay_base_url settings))
        then
          route_token <-app? app_get (fun d => generate_monitor_token (draw H "route token" d)) ;;
          opened <-app relay_open_pairing_route net settings credentials pairing_id route_token expires_at ;;
          match opened with
          | Err e => app_ret (Ok {| relay_pairing := None; relay_error := Some e |})
          | Ok _ =>
              url <-app? app_ret (pairing_ws_url settings credentials pairing_id) ;;
              app_ret (Ok {| relay_pairing := Some (route_value settings url desktop pairing_id route_token); relay_error := None |})
          end
        else app_ret (Ok {| relay_pairing := None;
                            relay_error := Some "Relay Credential 与当前 Desktop 身份或 Relay URL 不匹配。" |})
    end.

Definition put_grant (g : MonitorPairingGrant) : App (Result unit string) :=
  slot <-app app_get (fun d => lock (monitor_pairing d)) ;;
  match slot with
  | None => app_ret (Err "Monitor 配对状态锁已损坏。")
  | Some _ => _ <-app app_modify (fun d => set_monitor_pairing (set_guarded (Some g) (monitor_pairing d)) d) ;; app_ret (Ok tt)
  end.

Definition pairing_lifetime_ms : N := 5 * 60000.

(** What the phone reads from the code. *)
Definition pairing_fields (desktop : string) (port : N) (candidates : list Value) (offer : RelayOffer) (fingerprint : string)
    (grant : MonitorPairingGrant) : list (string * Value) :=
  [("schemaVersion", Number (Some 3%N)); ("protocol", VString "chatx-monitor-wss-v1"); ("scheme", VString "wss");
   ("desktopId", VString desktop); ("port", Number (Some port)); ("directCandidates", Array candidates);
   ("relayPairing", default Null (relay_pairing offer)); ("relayPairingError", opt_text (relay_error offer));
   ("fingerprintSha256", VString fingerprint); ("pairingId", VString (grant_pairing_id grant));
   ("pairingCode", VString (grant_pairing_code grant)); ("expiresAt", Number (Some (grant_expires_at grant)))].

(** The code as text and as an image. *)
Definition drawn_pairing (fields : list (string * Value)) : Result Value string :=
  text <-? map_err (fun e => "生成配对 JSON 失败：" ++ e) (value_to_string E (Object fields)) ;;
  svg <-? map_err (fun e => "生成配对二维码失败：" ++ e) (qr_svg E text) ;;
  Ok (Object (fields ++ [("qrSvg", VString svg)])%list).

Definition create_pairing : App (Result Value string) :=
  settings <-app app_load_settings P ;;
  if negb (monitor_enabled settings) then app_ret (Err "请先开启手机连接。")
  else
    _ <-app? start_monitor_service ;;
    slot <-app app_get (fun d => lock (monitor_servers d)) ;;
    match slot with
    | None => app_ret (Err "Monitor Server 状态锁已损坏。")
    | Some [] => app_ret (Err "Monitor WSS Server 未运行。")
    | Some ((first :: _) as servers) =>
        endpoints <-app app_get (reachable_endpoints servers (monitor_port settings)) ;;
        let candidates := map pair_candidate (firstn 8 endpoints) in
        desktop <-app? desktop_id ;;
        pairing_code <-app? app_get (fun d => generate_monitor_token (draw H "pairing code" d)) ;;
        pairing_random <-app? app_get (fun d => generate_monitor_token (draw H "pairing id" d)) ;;
        now <-app app_get (now_millis P) ;;
        let grant := {| grant_pairing_id := "p_" ++ slice_to 24 pairing_random; grant_pairing_code := pairing_code;
                        code_hash := token_hash_hex net pairing_code;
                        grant_expires_at := saturating_add now pairing_lifetime_ms |} in
        offer <-app? offer_relay (relay settings) desktop (grant_pairing_id grant) (grant_expires_at grant) ;;
        match candidates, relay_pairing offer with
        | [], None => app_ret (Err (default "没有发现可用的 Direct WSS 路径，ChatX Relay 也不可用。" (relay_error offer)))
        | _, _ =>
            _ <-app? put_grant grant ;;
            app_ret (drawn_pairing (pairing_fields desktop (monitor_port settings) candidates offer (server_fingerprint first) grant))
        end
    end.

(** ** The commands *)

Definition get_monitor_info : App (Result Value string) := monitor_info_payload.

Definition with_monitor (enabled : bool) (port : N) (relay_on : bool) (s : Settings) : Settings :=
  {| tunnel_id := tunnel_id s; remember_key := remember_key s; auto_reconnect := auto_reconnect s;
     connection_intent := connection_intent s; monitor_enabled := enabled; monitor_port := port; proxy := proxy s;
     relay := {| relay_enabled := relay_on; relay_base_url := relay_base_url (relay s) |}; https_mcp := https_mcp s |}.

Definition like_monitor (previous s : Settings) : Settings :=
  with_monitor (monitor_enabled previous) (monitor_port previous) (relay_enabled (relay previous)) s.

(** Starting the service after turning it on; when that fails, everything goes back. *)
Definition start_or_restore (previous : Settings) : App (Result unit string) :=
  started <-app start_monitor_service ;;
  match started with
  | Ok _ => app_ret (Ok tt)
  | Err error =>
      _ <-app app_update_settings P (fun s => Ok (like_monitor previous s)) ;;
      _ <-app (if monitor_enabled previous then start_monitor_service else app_ret (Ok tt)) ;;
      app_ret (Err error)
  end.

Definition set_monitor_enabled (enabled : bool) (port : option N) : App (Result Value string) :=
  previous <-app app_load_settings P ;;
  if (match port with Some port => (port <? 1024)%N | None => false end)
  then app_ret (Err "Monitor 端口必须为 1024-65535。")
  else
      let port := default (monitor_port previous) port in
      let relay_on := enabled && relay_enabled (relay previous) in
      let restart := monitor_enabled previous && enabled && negb (monitor_port previous =? port)%N in
      _ <-app? (if restart || negb enabled then stop_monitor_service else app_ret (Ok tt)) ;;
      _ <-app? app_update_settings P (fun s => Ok (with_monitor enabled port relay_on s)) ;;
      _ <-app? (if enabled then start_or_restore previous else app_ret (Ok tt)) ;;
      _ <-app (if enabled then app_ret tt else app_modify stop_relay_client) ;;
      monitor_info_payload.

Definition create_monitor_pairing : App (Result Value string) := create_pairing.

Definition revoke_monitor_device (device_id : string) : App (Result Value string) :=
  let device_id := trim device_id in
  if is_empty device_id then app_ret (Err "设备 ID 不能为空。")
  else
    removed <-app? revoke_monitor_device_everywhere P net windows process_id devices_from_str devices_to_string secret_fault
                     random_key hkdf b64_encode b64_decode credentials_from_str device_id ;;
    if removed then monitor_info_payload else app_ret (Err "没有找到该已配对设备。").
End Service.

(** ** Properties *)

Lemma binds_nodup port : NoDup (map fst (binds port)).
Proof. apply NoDup_cons. split; [set_solver|apply NoDup_singleton]. Qed.

Section ServiceProps.
Context (P : Platform) (base : string) (Hbase : base_dir P = Ok base) (H : Host) (E : ServiceEnv) (net : Network) (windows : bool)
        (process_id : string) (hkdf : string -> bytes -> string -> option bytes)
        (devices_from_str : string -> Result (list MonitorDeviceRecord) string)
        (devices_to_string : list MonitorDeviceRecord -> Result string string)
        (secret_fault : SecretOp -> Desk -> option string) (random_key : Desk -> option bytes)
        (b64_encode : bytes -> string) (b64_decode : string -> option bytes)
        (credentials_from_str : string -> Result RelayCredentials string).

#[local] Abbreviation disk d := (files (desk_world d)).
#[local] Abbreviation faults d := (io_fault (desk_world d)).
#[local] Abbreviation file := (settings_in (base ++ "/state")).
#[local] Abbreviation now_on := (settings_now base (system_proxy P) (key_saved P) (read_settings P) (read_value P)).
#[local] Abbreviation json_ok := (json_agrees (read_settings P) (print_settings P)).
#[local] Abbreviation normal := (normalize_settings (system_proxy P)).
#[local] Abbreviation key_of := (master_key secret_fault random_key b64_encode b64_decode).
#[local] Abbreviation desktop_id := (app_desktop_id P H process_id).
#[local] Abbreviation devices_now := (monitor_devices_snapshot P devices_from_str).
#[local] Abbreviation info := (monitor_info_payload P H E process_id devices_from_str).
#[local] Abbreviation start := (start_monitor_service P H E process_id devices_from_str secret_fault random_key b64_encode b64_decode).
#[local] Abbreviation switch := (set_monitor_enabled P H E process_id devices_from_str secret_fault random_key b64_encode b64_decode).
#[local] Abbreviation pair := (create_pairing P H E net process_id devices_from_str secret_fault random_key b64_encode b64_decode
  credentials_from_str).
#[local] Abbreviation revoke := (revoke_monitor_device P H E net windows process_id hkdf devices_from_str devices_to_string secret_fault
  random_key b64_encode b64_decode credentials_from_str).

#[local] Existing Instance disk_same_preorder.

(** *** What leaves the service and the settings alone *)

(** What listens; the handles are there whatever became of their lock. *)
Definition listening (d : Desk) : list MonitorServerHandle := guarded (monitor_servers d).

Definition aloof (d d' : Desk) : Prop :=
  disk d' !! file = disk d !! file /\ faults d' = faults d /\ monitor_servers d' = monitor_servers d.

#[local] Instance aloof_preorder : PreOrder aloof.
Proof. split; [done|]. intros d1 d2 d3 (H1 & F1 & S1) (H2 & F2 & S2). unfold aloof. by rewrite H2, F2, S2. Qed.

Lemma aloof_modify f : (forall d, desk_world (f d) = desk_world d /\ monitor_servers (f d) = monitor_servers d) ->
  does aloof (app_modify f).
Proof. intros Hf d res d' [= _ <-]. destruct (Hf d) as [Hw Hs]. unfold aloof. by rewrite Hw, Hs. Qed.
Lemma aloof_files {A} (m : Fs A) : spares file m -> keeps_faults m -> does aloof (on_files m).
Proof. intros Hm Hk d res d' (w & Hw & ->)%on_files_inv. split_and!; [by eapply Hm|by eapply Hk|done]. Qed.
Lemma aloof_client t d d' : client_only t d d' -> aloof d d'.
Proof. intros (w & l & -> & Hf & Hi). unfold aloof. cbn. by rewrite Hf, Hi. Qed.
Lemma aloof_load : does aloof (app_load_settings P).
Proof using base Hbase. intros d res d' Hl%(load_settings_client P base Hbase). by eapply aloof_client. Qed.
Lemma aloof_save_secret item value : does aloof (save_secret secret_fault item value).
Proof. intros d res d'. unfold save_secret. destruct (secret_fault _ d); by intros [= _ <-]. Qed.
Lemma aloof_send r e : does aloof (send net r e).
Proof. apply does_try; [apply _|apply does_get; apply _|]. by intros u d res d' [= _ <-]. Qed.

#[local] Hint Resolve aloof_load aloof_save_secret aloof_send : quiet.
#[local] Hint Extern 2 (does aloof (app_modify _)) => (apply aloof_modify; done) : quiet.
#[local] Hint Extern 2 (does aloof (app_log _ _)) => (apply aloof_modify; done) : quiet.

(** The files of the devices, of the identity and of the certificate are not the settings. *)
Lemma state_dir_spares : spares file (state_dir (base_dir P)).
Proof. unfold state_dir. solve_spares. Qed.
Lemma devices_path_gives : gives (monitor_devices_path P) (fun p => exists dir, p = devices_file dir).
Proof.
  intros w p w' [[_ ?]|[(e & _ & ?)|(dir & w1 & _ & Hk)]]%fs_try_inv; [done..|]. injection Hk as <- _. by exists dir.
Qed.
Lemma identity_path_gives : gives (monitor_identity_path P) (fun p => exists dir, p = identity_in dir).
Proof.
  intros w p w' [[_ ?]|[(e & _ & ?)|(dir & w1 & _ & Hk)]]%fs_try_inv; [done..|]. injection Hk as <- _. by exists dir.
Qed.

Lemma aloof_devices_load : does aloof (on_files (load_monitor_devices_from_disk P devices_from_str)).
Proof.
  pose proof state_dir_spares. apply aloof_files.
  - unfold load_monitor_devices_from_disk, monitor_devices_path, load_monitor_devices_from_path. solve_spares.
  - unfold load_monitor_devices_from_disk, monitor_devices_path, load_monitor_devices_from_path, state_dir. solve_keeps_faults.
Qed.
Lemma aloof_devices_save l : does aloof (on_files (save_monitor_devices P windows process_id devices_to_string l)).
Proof.
  apply aloof_files.
  - unfold save_monitor_devices. eapply spares_try_gives; [apply devices_path_gives| |intros p (dir & ->); solve_spares].
    pose proof state_dir_spares. unfold monitor_devices_path. solve_spares.
  - unfold save_monitor_devices, monitor_devices_path, state_dir. solve_keeps_faults.
Qed.
Lemma aloof_id : does aloof desktop_id.
Proof.
  intros d res d'. apply aloof_files.
  - unfold ensure_monitor_desktop_id. eapply spares_try_gives; [apply identity_path_gives| |intros p (dir & ->); unfold new_desktop_id; solve_spares].
    pose proof state_dir_spares. unfold monitor_identity_path. solve_spares.
  - unfold ensure_monitor_desktop_id, monitor_identity_path, new_desktop_id, state_dir. solve_keeps_faults.
Qed.
Lemma aloof_tls : does aloof (tls_identity P E).
Proof.
  apply does_try; [apply _| |intros dir d res d'].
  - pose proof state_dir_spares. apply aloof_files; unfold monitor_tls_dir; [solve_spares|unfold state_dir; solve_keeps_faults].
  - apply aloof_files; unfold ensure_tls_identity, stored_or_new_pair, both_files, write_private_file; [solve_spares|solve_keeps_faults].
Qed.
Lemma aloof_master : does aloof key_of.
Proof. unfold master_key, ensure_monitor_master_key, load_secret. solve_quiet. Qed.
Lemma aloof_devices : does aloof devices_now.
Proof. pose proof aloof_devices_load. unfold monitor_devices_snapshot, with_monitor_devices. solve_quiet. Qed.

#[local] Hint Resolve aloof_devices_load aloof_devices_save aloof_id aloof_tls aloof_master aloof_devices : quiet.

Lemma aloof_info : does aloof info.
Proof using base Hbase. unfold monitor_info_payload. solve_quiet. Qed.
Lemma aloof_start_all targets port i desktop key slot errors :
  does aloof (start_all P E targets port i desktop key slot errors).
Proof.
  revert slot errors. induction targets as [|[v4 bind] targets IH]; intros slot errors; cbn [start_all]; unfold start_monitor_server;
    solve_quiet.
Qed.
Lemma aloof_log_partial errors : does aloof (log_partial P errors).
Proof. induction errors as [|e errors IH]; cbn [log_partial]; solve_quiet. Qed.
Lemma aloof_revoke id : does aloof (revoke_monitor_device_everywhere P net windows process_id devices_from_str devices_to_string secret_fault
  random_key hkdf b64_encode b64_decode credentials_from_str id).
Proof using base Hbase.
  unfold revoke_monitor_device_everywhere, revoke_monitor_device_local, with_monitor_devices, commit_devices, reauthorize,
    read_relay_credentials, load_secret, relay_revoke_device, relay_authorize_device, send_expecting. solve_quiet.
Qed.
Lemma aloof_offer s desktop id expires : does aloof (offer_relay H net secret_fault credentials_from_str s desktop id expires).
Proof.
  unfold offer_relay, read_relay_credentials, load_secret, relay_open_pairing_route, send_expecting. solve_quiet.
Qed.

(** *** Starting *)

(** What one start gives: at most one server for a family of addresses, all on one port, with
    one certificate, one identity and one key. *)
Definition one_service (port : N) (servers : list MonitorServerHandle) : Prop :=
  NoDup (map server_ipv4 servers)
  /\ exists desktop key print, Forall (fun h => server_port h = port /\ server_desktop h = desktop /\ server_key h = key
       /\ server_fingerprint h = print) servers.

Lemma start_all_inv targets port i desktop key slot errors d servers errs d' :
  start_all P E targets port i desktop key slot errors d = (Some (servers, errs), d') ->
  exists more, servers = (slot ++ more)%list /\ sublist (map server_ipv4 more) (map fst targets)
  /\ Forall (fun h => server_port h = port /\ server_desktop h = desktop /\ server_key h = key
       /\ server_fingerprint h = fingerprint_sha256 i) more.
Proof.
  revert slot errors d. induction targets as [|[v4 bind] targets IH]; intros slot errors d Hr; cbn [start_all] in Hr.
  { injection Hr as <- _ _. exists []. by rewrite app_nil_r. }
  apply app_bind_inv in Hr as [[_ ?]|([server|e] & d1 & Hs & Hr)]; [done| |].
  - apply app_bind_inv in Hr as [[_ ?]|(u & d2 & _ & Hr)]; [done|]. apply IH in Hr as (more & -> & Hsub & Hall).
    exists (server :: more). rewrite <- app_assoc. split; [done|]. unfold start_monitor_server in Hs.
    apply app_try_inv in Hs as [[_ ?]|[(e & _ & ?)|(addr & d3 & _ & Hs)]]; [done..|]. injection Hs as <- _.
    split; [cbn; by constructor|]. by constructor.
  - apply IH in Hr as (more & -> & Hsub & Hall). exists more. split_and!; [done|cbn; by constructor|done].
Qed.

(** A start leaves what listens, or nothing listened and the settings on disk, which want
    monitoring, are what listens now. *)
Definition started_by (d : Desk) (servers : list MonitorServerHandle) : Prop :=
  listening d = [] /\ servers <> [] /\ exists s, now_on (disk d) = Ok s /\ monitor_enabled s = true
  /\ (1024 <= monitor_port s)%N /\ one_service (monitor_port s) servers.

Definition honest (d : Desk) : Prop := faults d (ReadFile file) <> Some NotFound.

(** What a step that opens servers may give. *)
Definition opened_by (d : Desk) (res : option (Result unit string)) (d' : Desk) (port : N) : Prop :=
  disk d' !! file = disk d !! file /\ faults d' = faults d
  /\ ((listening d' = listening d /\ res <> Some (Ok tt))
     \/ listening d' <> [] /\ one_service port (listening d') /\ forall e, res <> Some (Err e)).

Lemma open_servers_inv port d res d' :
  open_servers P H E process_id secret_fault random_key b64_encode b64_decode port d = (res, d') -> listening d = [] ->
  opened_by d res d' port.
Proof.
  intros Hs Hno.
  assert (forall d1 (r : option (Result unit string)), aloof d d1 -> r <> Some (Ok tt) -> opened_by d r d1 port) as Hquiet.
  { intros d1 r (Hf & Hi & Hm) Hr. unfold opened_by, listening. rewrite Hm. split_and!; [done..|by left]. }
  apply (does_try_inv aloof _ _ d) in Hs as [[Ha Hr]|(i & d3 & _ & A3 & Hs)]; [by apply Hquiet| |apply aloof_tls|done].
  apply (does_try_inv aloof _ _ d) in Hs as [[Ha Hr]|(desktop & d4 & _ & A4 & Hs)]; [by apply Hquiet| |apply aloof_id|done].
  apply (does_try_inv aloof _ _ d) in Hs as [[Ha Hr]|(key & d5 & _ & A5 & Hs)]; [by apply Hquiet| |apply aloof_master|done].
  apply (does_bind_inv aloof _ _ d) in Hs as [[Ha ->]|([servers errs] & d6 & Hall & A6 & Hs)];
    [by apply Hquiet| |apply aloof_start_all|done].
  apply start_all_inv in Hall as (more & -> & Hsub & Hmore). cbn [app] in Hs.
  unfold app_bind at 1, app_modify at 1 in Hs. set (d7 := set_monitor_servers _ d6) in Hs.
  assert (disk d7 !! file = disk d !! file /\ faults d7 = faults d /\ listening d7 = more) as (Hf7 & Hi7 & Hl7).
  { destruct A6 as (Hf & Hi & _). by split_and!. }
  destruct more as [|h more].
  { injection Hs as <- <-. split_and!; [done..|]. left. by rewrite Hl7, Hno. }
  assert (aloof d7 d') as (Hf' & Hi' & Hm').
  { assert (does aloof (_ <-app log_partial P errs ;; app_ret (Ok (E := string) tt))) as Hq; [|by eapply Hq].
    apply does_bind; [apply _|apply aloof_log_partial|]. intros u. apply does_ret; apply _. }
  assert (listening d' = h :: more) as Hld by (unfold listening in *; by rewrite Hm').
  unfold opened_by. rewrite Hld. split_and!; [by rewrite Hf', Hf7|by rewrite Hi', Hi7|]. right. split; [done|]. split.
  - split; [eapply sublist_NoDup; [apply binds_nodup|exact Hsub]|].
    by exists desktop, key, (fingerprint_sha256 i).
  - intros e ->. apply app_bind_inv in Hs as [[_ ?]|(u & d8 & _ & Hs)]; [done|]. by injection Hs.
Qed.

Lemma service_start_inv d res d' : start d = (res, d') -> honest d ->
  disk d' !! file = disk d !! file /\ faults d' = faults d
  /\ (listening d' = listening d \/ started_by d (listening d') /\ forall e, res <> Some (Err e))
  /\ (res = Some (Ok tt) -> listening d' <> [] \/ exists s d1, app_load_settings P d = (Some s, d1) /\ monitor_enabled s = false).
Proof using base Hbase.
  intros Hs Hh. unfold start_monitor_service in Hs.
  assert (forall d1 (r : option (Result unit string)), aloof d d1 ->
    (r = Some (Ok tt) -> listening d <> [] \/ exists s d1, app_load_settings P d = (Some s, d1) /\ monitor_enabled s = false) ->
    disk d1 !! file = disk d !! file /\ faults d1 = faults d
    /\ (listening d1 = listening d \/ started_by d (listening d1) /\ forall e, r <> Some (Err e))
    /\ (r = Some (Ok tt) -> listening d1 <> [] \/ exists s d1, app_load_settings P d = (Some s, d1) /\ monitor_enabled s = false))
    as Hquiet.
  { intros d1 r (Hf & Hi & Hm) Hr. unfold listening in *. rewrite Hm. split_and!; [done..|by left|exact Hr]. }
  apply (does_bind_inv aloof _ _ d) in Hs as [[Ha ->]|(s & d1 & Hl & A1 & Hs)]; [by apply Hquiet| |apply aloof_load|done].
  destruct (monitor_enabled s) eqn:Hen; cbn [negb] in Hs;
    [|injection Hs as <- <-; apply Hquiet; [done|intros _; right; by exists s, d1]].
  destruct (monitor_port s <? 1024)%N eqn:Hport; [injection Hs as <- <-; by apply Hquiet|].
  apply (does_try_inv aloof _ _ d) in Hs as [[Ha Hr]|(l & d2 & _ & A2 & Hs)];
    [apply Hquiet; [done|intros E0; exfalso; by eapply Hr]| |apply aloof_devices|done].
  pose proof A2 as (Hf2 & Hi2 & Hm2).
  unfold app_bind at 1, app_get at 1 in Hs. destruct (lock (monitor_servers d2)) as [[|h t]|] eqn:Hk; cbn beta iota in Hs;
    [apply lock_Some in Hk| |injection Hs as <- <-; by apply Hquiet].
  - apply open_servers_inv in Hs as (Hf & Hi & Hs); [|unfold listening; by rewrite Hk].
    assert (listening d2 = listening d) as Hl2 by (unfold listening; by rewrite Hm2). rewrite Hl2 in Hs.
    split_and!; [by rewrite Hf, Hf2|by rewrite Hi, Hi2|..]; destruct Hs as [[Hs Hr]|(Hs & Hone & Hr)]; [by left| |done|by left].
    right. split; [|done]. split; [unfold listening; by rewrite <- Hm2, Hk|]. split; [done|]. exists s.
    destruct (load_now P base Hbase _ _ _ Hl Hh) as [?| ->]; [|done]. split_and!; [done|done|by apply N.ltb_ge|done].
  - injection Hs as <- <-. apply Hquiet; [done|]. intros _. left. apply lock_Some in Hk. unfold listening. by rewrite <- Hm2, Hk.
Qed.

Lemma service_stop_inv d res d' : stop_monitor_service P d = (res, d') ->
  disk_same d d' /\ relayed d' = relayed d
  /\ (listening d' = [] /\ res = Some (Ok tt) \/ d' = d /\ exists e, res = Some (Err e)).
Proof.
  unfold stop_monitor_service, app_bind, app_get, app_modify. destruct (lock (monitor_servers d)); cbn;
    intros [= <- <-]; (split_and!; [by split|done|]); [by left|right; split; [done|by eexists]].
Qed.

(** *** Turning monitoring on and off *)

(** The rest of the command once the settings are saved. *)
Definition after_save (previous : Settings) (enabled : bool) : App (Result Value string) :=
  _ <-app? (if enabled then start_or_restore P H E process_id devices_from_str secret_fault random_key b64_encode b64_decode previous
            else app_ret (Ok tt)) ;;
  _ <-app (if enabled then app_ret tt else app_modify stop_relay_client) ;;
  info.

Definition switched (previous : Settings) (enabled : bool) (port : option N) : Settings :=
  with_monitor enabled (default (monitor_port previous) port) (enabled && relay_enabled (relay previous)) previous.

(** The command ends before anything is saved, and at most has stopped what listened; or the
    settings are saved, what listened being stopped unless it fits them. *)
Lemma switch_inv enabled port d res d' : switch enabled port d = (res, d') -> json_ok -> honest d ->
  (disk d' !! file = disk d !! file /\ faults d' = faults d /\ (listening d' = listening d \/ listening d' = [])
     /\ forall v, res <> Some (Ok v))
  \/ exists previous d2 s3 d3, now_on (disk d) = Ok previous
     /\ app_update_settings P (fun s => Ok (with_monitor enabled (default (monitor_port previous) port)
          (enabled && relay_enabled (relay previous)) s)) d2 = (Some (Ok s3), d3)
     /\ now_on (disk d3) = Ok (normal (switched previous enabled port)) /\ faults d2 = faults d /\ faults d3 = faults d
     /\ (listening d3 = [] \/ listening d3 = listening d /\ enabled = true
         /\ (monitor_enabled previous = true -> default (monitor_port previous) port = monitor_port previous))
     /\ after_save previous enabled d3 = (res, d').
Proof using base Hbase.
  intros Hs Hjson Hh. unfold set_monitor_enabled in Hs.
  assert (forall d1 (r : option (Result Value string)), disk_same d d1 -> (listening d1 = listening d \/ listening d1 = []) ->
    (forall v, r <> Some (Ok v)) -> disk d1 !! file = disk d !! file /\ faults d1 = faults d
     /\ (listening d1 = listening d \/ listening d1 = []) /\ forall v, r <> Some (Ok v)) as Hend.
  { intros d1 r [Hf Hi] Hl Hr. by rewrite Hf. }
  apply app_bind_inv in Hs as [[Hl ->]|(previous & d1 & Hl & Hs)]; pose proof (aloof_load _ _ _ Hl) as (_ & _ & Hm);
    pose proof (disk_load P base Hbase _ _ _ Hl) as S1.
  { left. apply Hend; [done|left; unfold listening; by rewrite Hm|done]. }
  assert (listening d1 = listening d) as Hl1 by (unfold listening; by rewrite Hm).
  destruct (match port with Some port => (port <? 1024)%N | None => false end);
    [injection Hs as <- <-; left; apply Hend; [done|by left|done]|].
  set (flag := _ || negb enabled) in Hs.
  assert (exists r2 d2, (if flag then stop_monitor_service P else app_ret (Ok tt)) d1 = (r2, d2)
    /\ disk_same d d2 /\ (listening d2 = [] \/ listening d2 = listening d /\ (r2 = Some (Ok tt) -> flag = false)) /\ r2 <> None)
    as (r2 & d2 & Hr2 & S2 & Hl2 & Hn2).
  { destruct flag.
    - destruct (stop_monitor_service P d1) as [r2 d2] eqn:Hst. exists r2, d2. split; [done|].
      apply service_stop_inv in Hst as (Hsame & _ & [[Hz ->]|[-> [e ->]]]).
      + split_and!; [by etrans|by left|done].
      + split_and!; [done|by right|done].
    - exists (Some (Ok tt)), d1. split_and!; [done|done|by right|done]. }
  unfold app_try at 1, app_bind at 1 in Hs. rewrite Hr2 in Hs. destruct r2 as [[[]|e]|]; [|injection Hs as <- <-|done].
  2: { left. apply Hend; [done|destruct Hl2 as [?|[? _]]; [by right|by left]|done]. }
  assert (honest d2) as Hh2 by (unfold honest; by rewrite (proj2 S2)).
  apply app_try_inv in Hs as [[Hu ->]|[(e & Hu & ->)|(s3 & d3 & Hu & Hs)]]; pose proof Hu as Hw;
    apply (network_update P base Hbase) in Hw as (w & -> & Hi & Hw); try done; try (by intros s0 s [= <-]).
  1-2: left; split_and!; [by rewrite <- (proj1 S2)|cbn; rewrite Hi; exact (proj2 S2)|destruct Hl2 as [?|[? _]]; [by right|by left]|done].
  right. assert (now_on (disk d) = Ok previous) as Hnow.
  { eapply (load_then_update P base Hbase); [exact Hl|exact Hu|exact S2|exact Hh]. }
  destruct Hw as (s0 & Hnow0 & [= <-] & Hnew). rewrite (proj1 S2), Hnow in Hnow0. injection Hnow0 as <-.
  eexists previous, d2, _, _. split_and!; [done|exact Hu|exact Hnew|exact (proj2 S2)|cbn; rewrite Hi; exact (proj2 S2)| |exact Hs].
  destruct Hl2 as [Hl2|[Hl2 Hflag]]; [by left|right]. specialize (Hflag eq_refl). subst flag.
  apply orb_false_iff in Hflag as [Hflag Hen]. destruct enabled; [|done]. split_and!; [exact Hl2|done|].
  intros Hp. rewrite Hp in Hflag. cbn in Hflag. apply negb_false_iff, N.eqb_eq in Hflag. by symmetry.
Qed.

(** The service fits the settings: whatever listens was opened in one go, on the port the
    settings name, and they want monitoring. *)
Definition service_fits (d : Desk) : Prop :=
  listening d <> [] -> exists port, (1024 <= port)%N /\ one_service port (listening d)
  /\ forall s, now_on (disk d) = Ok s -> monitor_enabled s = true /\ monitor_port s = port.

Lemma fits_aloof d d' : aloof d d' -> service_fits d -> service_fits d'.
Proof. intros (Hf & _ & Hm). unfold service_fits, listening. by rewrite Hm, (now_same P base _ _ Hf). Qed.

Lemma fits_start d res d' : start d = (res, d') -> honest d -> service_fits d -> service_fits d'.
Proof using base Hbase.
  intros Hs Hh Hfit. apply service_start_inv in Hs as (Hf & _ & [Hl|[(Hno & Hne & s & Hnow & Hen & Hport & Hone) _]] & _); [..|done].
  - unfold service_fits. by rewrite Hl, (now_same P base _ _ Hf).
  - intros _. exists (monitor_port s). split_and!; [done..|]. intros s2. rewrite (now_same P base _ _ Hf), Hnow. by intros [= <-].
Qed.

(** Saving settings keeps the service fitting if nothing listens or they agree with what was. *)
Lemma fits_saved d d' previous s : listening d' = [] \/ (listening d' = listening d /\ monitor_enabled s = true
    /\ (monitor_enabled previous = true -> monitor_port s = monitor_port previous)) ->
  now_on (disk d) = Ok previous -> now_on (disk d') = Ok s -> service_fits d -> service_fits d'.
Proof.
  intros [Hl|(Hl & Hen & Hp)] Hprev Hnow Hfit Hne; [done|]. rewrite Hl in *. destruct (Hfit Hne) as (port & Hport & Hone & Hs).
  exists port. split_and!; [done..|]. rewrite Hnow. intros s' [= <-]. split; [done|]. destruct (Hs _ Hprev) as [He <-]. by apply Hp.
Qed.

Lemma fits_restore previous d res d' :
  start_or_restore P H E process_id devices_from_str secret_fault random_key b64_encode b64_decode previous d = (res, d') ->
  json_ok -> honest d -> service_fits d ->
  (listening d <> [] -> monitor_enabled previous = true) ->
  (forall s, now_on (disk d) = Ok s -> listening d <> [] -> monitor_port s = monitor_port previous) ->
  service_fits d' /\ faults d' = faults d.
Proof using base Hbase.
  intros Hr Hjson Hh Hfit Hen Hport. unfold start_or_restore in Hr.
  apply app_bind_inv in Hr as [[Hs ->]|([[]|e] & d1 & Hs & Hr)]; pose proof (fits_start _ _ _ Hs Hh Hfit) as Hfit1;
    apply service_start_inv in Hs as (Hf1 & Hi1 & Hl1 & _); try done; [injection Hr as _ <-; by split|].
  assert (listening d1 = listening d) as Hl by (destruct Hl1 as [?|[_ Hne]]; [done|by destruct (Hne e)]).
  assert (honest d1) as Hh1 by (unfold honest; by rewrite Hi1).
  assert (forall r d2, app_update_settings P (fun s => Ok (like_monitor previous s)) d1 = (r, d2) ->
    service_fits d2 /\ faults d2 = faults d) as Hup.
  { intros r d2 Hu. apply (network_update P base Hbase) in Hu as (w & -> & Hi & Hw); [|done..|by intros s0 s [= <-]].
    split; [|cbn; by rewrite Hi]. destruct r as [[s|e2]|];
      [|unfold service_fits; cbn; by rewrite (now_same P base _ _ Hw)..].
    destruct Hw as (s0 & Hnow0 & [= <-] & Hnew). eapply (fits_saved d1 _ s0); [|done|exact Hnew|done].
    destruct (decide (listening d1 = [])) as [?|Hne]; [by left|right]. rewrite Hl in Hne. split_and!; [done|by apply Hen|].
    intros _. symmetry. cbn. apply Hport; [|done]. by rewrite <- (now_same P base _ _ Hf1). }
  apply app_bind_inv in Hr as [[Hu ->]|(r & d2 & Hu & Hr)]; apply Hup in Hu as [Hfit2 Hi2]; [done|].
  assert (forall r3 d3, (if monitor_enabled previous then start else app_ret (Ok tt)) d2 = (r3, d3) ->
    service_fits d3 /\ faults d3 = faults d) as Hst.
  { intros r3 d3 Hs. destruct (monitor_enabled previous); [|injection Hs as _ <-; by split].
    assert (honest d2) as Hh2 by (unfold honest; by rewrite Hi2).
    split; [by eapply fits_start|]. apply service_start_inv in Hs as (_ & -> & _); done. }
  apply app_bind_inv in Hr as [[Hs ->]|(r3 & d3 & Hs & Hr)]; apply Hst in Hs; [done|]. by injection Hr as _ <-.
Qed.

Lemma aloof_tail (enabled : bool) : does aloof (_ <-app (if enabled then app_ret tt else app_modify stop_relay_client) ;; info).
Proof using base Hbase. pose proof aloof_info. destruct enabled; solve_quiet. Qed.

Lemma fits_switch enabled port d res d' : switch enabled port d = (res, d') -> json_ok -> honest d -> service_fits d ->
  service_fits d' /\ faults d' = faults d.
Proof using base Hbase.
  intros Hs Hjson Hh Hfit. apply switch_inv in Hs as
    [(Hf & Hi & Hl & _)|(previous & d2 & s3 & d3 & Hprev & _ & Hnow & _ & Hi3 & Hl & Hs)]; [..|done|done].
  - split; [|done]. unfold service_fits. rewrite (now_same P base _ _ Hf). by destruct Hl as [-> | ->].
  - assert (service_fits d3) as Hfit3.
    { eapply fits_saved; [|exact Hprev|exact Hnow|exact Hfit]. destruct Hl as [?|(Hl & -> & Hp)]; [by left|right]. by split_and!. }
    assert (honest d3) as Hh3 by (unfold honest; by rewrite Hi3).
    assert (forall r4 d4, (if enabled then start_or_restore P H E process_id devices_from_str secret_fault random_key b64_encode b64_decode previous
       else app_ret (Ok tt)) d3 = (r4, d4) -> service_fits d4 /\ faults d4 = faults d) as Hrest.
    { intros r4 d4 Hr. destruct enabled; [|injection Hr as _ <-; by split]. rewrite <- Hi3. eapply fits_restore; [exact Hr|done..| |].
      - intros Hne. destruct Hl as [?|(Hl & _)]; [done|]. rewrite Hl in Hne. destruct (Hfit Hne) as (p & _ & _ & Hp). by apply Hp in Hprev as [? _].
      - intros s Hs3 Hne. rewrite Hnow in Hs3. injection Hs3 as <-. cbn. destruct Hl as [?|(Hl & _ & Hp)]; [done|]. apply Hp.
        rewrite Hl in Hne. destruct (Hfit Hne) as (p & _ & _ & Hp2). by apply Hp2 in Hprev as [? _]. }
    unfold after_save in Hs. apply app_try_inv in Hs as [[Hr ->]|[(e & Hr & ->)|(u & d4 & Hr & Hs)]]; apply Hrest in Hr; [done..|].
    pose proof (aloof_tail enabled _ _ _ Hs) as Ha. split; [exact (fits_aloof _ _ Ha (proj1 Hr))|]. destruct Ha as (_ & -> & _). apply Hr.
Qed.

Lemma fits_pair d res d' : pair d = (res, d') -> honest d -> service_fits d -> service_fits d' /\ faults d' = faults d.
Proof using base Hbase.
  intros Hp Hh Hfit. unfold create_pairing in Hp.
  assert (forall d1, aloof d d1 -> service_fits d1 /\ faults d1 = faults d) as Haloof.
  { intros d1 Ha. split; [by eapply fits_aloof|by destruct Ha as (_ & -> & _)]. }
  apply (does_bind_inv aloof _ _ d) in Hp as [[Ha ->]|(s & d1 & _ & A1 & Hp)]; [by apply Haloof| |apply aloof_load|done].
  destruct (negb (monitor_enabled s)); [injection Hp as _ <-; by apply Haloof|].
  apply Haloof in A1 as [Hfit1 Hi1]. assert (honest d1) as Hh1 by (unfold honest; by rewrite Hi1).
  assert (forall r d2, start d1 = (r, d2) -> service_fits d2 /\ faults d2 = faults d) as Hst.
  { intros r d2 Hs. split; [by eapply fits_start|]. apply service_start_inv in Hs as (_ & -> & _); done. }
  apply app_try_inv in Hp as [[Hs _]|[(e & Hs & _)|(u & d2 & Hs & Hp)]]; apply Hst in Hs as [Hfit2 Hi2]; [done..|].
  rewrite <- Hi2. pose proof aloof_offer.
  assert (aloof d2 d') as Ha; [|split; [by eapply fits_aloof|by destruct Ha as (_ & -> & _)]].
  refine ((_ : does aloof _) d2 res d' Hp). clear Hp. unfold put_grant. solve_quiet.
Qed.

(** The commands of the phone page, and the starting and stopping of the service by others. *)
Inductive MonitorCommand :=
| GetMonitorInfo | SetMonitorEnabled (enabled : bool) (port : option N) | CreatePairing | RevokeDevice (device_id : string)
| StartService | StopService.

Definition run_monitor (c : MonitorCommand) : App unit :=
  match c with
  | GetMonitorInfo => _ <-app get_monitor_info P H E process_id devices_from_str ;; app_ret tt
  | SetMonitorEnabled enabled port => _ <-app switch enabled port ;; app_ret tt
  | CreatePairing => _ <-app pair ;; app_ret tt
  | RevokeDevice id => _ <-app revoke id ;; app_ret tt
  | StartService => _ <-app start ;; app_ret tt
  | StopService => _ <-app stop_monitor_service P ;; app_ret tt
  end.

Lemma fits_command c d res d' : run_monitor c d = (res, d') -> json_ok -> honest d -> service_fits d ->
  service_fits d' /\ honest d'.
Proof using base Hbase.
  intros Hr Hjson Hh Hfit. enough (service_fits d' /\ faults d' = faults d) as [? Hi] by (split; [done|unfold honest; by rewrite Hi]).
  assert (forall d1, aloof d d1 -> service_fits d1 /\ faults d1 = faults d) as Haloof.
  { intros d1 Ha. split; [by eapply fits_aloof|by destruct Ha as (_ & -> & _)]. }
  destruct c; cbn [run_monitor] in Hr.
  - apply Haloof. refine ((_ : does aloof _) d res d' Hr). pose proof aloof_info. unfold get_monitor_info. solve_quiet.
  - apply app_bind_inv in Hr as [[Hs _]|(r & d1 & Hs & Hr)]; [by eapply fits_switch|]. injection Hr as _ <-. by eapply fits_switch.
  - apply app_bind_inv in Hr as [[Hs _]|(r & d1 & Hs & Hr)]; [by eapply fits_pair|]. injection Hr as _ <-. by eapply fits_pair.
  - apply Haloof. refine ((_ : does aloof _) d res d' Hr). pose proof aloof_info. pose proof aloof_revoke.
    unfold revoke_monitor_device. solve_quiet.
  - assert (forall r d1, start d = (r, d1) -> service_fits d1 /\ faults d1 = faults d) as Hst.
    { intros r d2 Hs. split; [by eapply fits_start|]. apply service_start_inv in Hs as (_ & -> & _); done. }
    apply app_bind_inv in Hr as [[Hs _]|(r & d1 & Hs & Hr)]; [by eapply Hst|]. injection Hr as _ <-. by eapply Hst.
  - assert (forall r d1, stop_monitor_service P d = (r, d1) -> service_fits d1 /\ faults d1 = faults d) as Hst.
    { intros r d2 ([Hf Hi] & _ & Hl)%service_stop_inv. split; [|done].
      destruct Hl as [[Hl _]|[-> _]]; [by unfold service_fits; rewrite Hl|done]. }
    apply app_bind_inv in Hr as [[Hs _]|(r & d1 & Hs & Hr)]; [by eapply Hst|]. injection Hr as _ <-. by eapply Hst.
Qed.

(** Any history of these commands, whatever fails or dies in them, and of other operations,
    which may change the settings except for what they say of monitoring.  (Reading the
    settings does not claim that an existing file is missing.) *)
Inductive monitor_history : Desk -> Prop :=
| monitor_history_start d : listening d = [] -> honest d -> monitor_history d
| monitor_history_command c d res d' : monitor_history d -> run_monitor c d = (res, d') -> monitor_history d'
| monitor_history_other d d' : monitor_history d -> listening d' = listening d -> honest d' ->
    (forall s', now_on (disk d') = Ok s' -> exists s, now_on (disk d) = Ok s /\ monitor_enabled s' = monitor_enabled s
       /\ monitor_port s' = monitor_port s) -> monitor_history d'.


(** *** What the switch does *)

Lemma client_of_info : does (fun d d' => relay_client d' = relay_client d) info.
Proof.
  set (R := fun d d' : Desk => relay_client d' = relay_client d).
  assert (Framed R) as HR by (split; [split; [done|intros d1 d2 d3 H1 H2; unfold R in *; congruence]|done]).
  assert (forall f, (forall d, relay_client (f d) = relay_client d) -> does R (app_modify f)) as Hmod by (intros f Hf d res d' [= _ <-]; apply Hf).
  assert (does R desktop_id) as Hid by (intros d res d'; by apply (framed_files R)).
  assert (does R devices_now) as Hdev.
  { unfold monitor_devices_snapshot, with_monitor_devices. solve_quiet. }
  unfold monitor_info_payload. solve_quiet.
Qed.

Lemma update_then_start u d2 s3 d3 d4 : app_update_settings P u d2 = (Some (Ok s3), d3) -> honest d2 -> faults d3 = faults d2 ->
  start d3 = (Some (Ok tt), d4) -> (forall s, now_on (disk d3) = Ok s -> monitor_enabled s = true) -> is_ok (now_on (disk d3)) = true ->
  listening d4 <> [].
Proof using base Hbase.
  intros Hu Hh Hi Hs Hen Hok. assert (honest d3) as Hh3 by (unfold honest; by rewrite Hi).
  apply service_start_inv in Hs as (_ & _ & _ & Hr); [|done]. destruct (Hr eq_refl) as [?|(s & d5 & Hl & Hoff)]; [done|exfalso].
  unfold app_load_settings, settings_load in Hl. unfold app_update_settings, settings_update in Hu. rewrite Hbase in Hl, Hu.
  apply on_files_inv in Hl as (w1 & Hl & _), Hu as (w2 & Hu & _). apply update_loads in Hu as (s0 & w3 & Hload & _).
  apply fs_bind_inv in Hl as [[_ ?]|(r & w4 & Hr4 & Hk)]; [done|]. injection Hk as Hk _.
  assert (r = now_on (disk d3)) as -> by (eapply load_again; [exact Hload|exact Hr4|exact Hi|exact Hh]).
  destruct (now_on (disk d3)) as [s1|]; [|done]. subst. by rewrite (Hen _ eq_refl) in Hoff.
Qed.

Lemma like_switched previous enabled port : readable P previous ->
  normal (like_monitor previous (normal (switched previous enabled port))) = previous.
Proof.
  intros [Hn _]. assert (relay_base_url (relay (normal (switched previous enabled port))) = relay_base_url (relay previous)) as Hurl.
  { cbn. unfold normalize_relay. by destruct (_ && _). }
  assert (normalize_proxy (system_proxy P) (proxy previous) = proxy previous) as Hproxy by (by apply (f_equal proxy) in Hn).
  unfold like_monitor, with_monitor. rewrite Hurl. cbn. rewrite Hproxy.
  destruct previous as [? ? ? ? ? ? ? [? ?] ?]. exact Hn.
Qed.

(** What is on disk after the service was started for settings just saved, or they were taken
    back. *)
Lemma restore_disk previous enabled port d res d' :
  start_or_restore P H E process_id devices_from_str secret_fault random_key b64_encode b64_decode previous d = (res, d') ->
  json_ok -> honest d -> readable P previous -> now_on (disk d) = Ok (normal (switched previous enabled port)) ->
  (res = Some (Ok tt) -> start d = (Some (Ok tt), d') /\ now_on (disk d') = now_on (disk d))
  /\ (now_on (disk d') = now_on (disk d) \/ now_on (disk d') = Ok previous).
Proof using base Hbase.
  intros Hr Hjson Hh Hread Hnow. unfold start_or_restore in Hr.
  apply app_bind_inv in Hr as [[Hs ->]|([[]|e] & d1 & Hs & Hr)]; pose proof Hs as Hs0;
    apply service_start_inv in Hs as (Hf1 & Hi1 & _); try done; apply (now_same P base) in Hf1;
    [split; [done|by left]|injection Hr as <- <-; split; [done|by left]|].
  split; [intros ->; apply app_bind_inv in Hr as [[_ ?]|(r & d2 & _ & Hr)]; [done|];
          apply app_bind_inv in Hr as [[_ ?]|(r3 & d3 & _ & Hr)]; [done|by injection Hr]|].
  assert (honest d1) as Hh1 by (unfold honest; by rewrite Hi1).
  assert (forall r d2, app_update_settings P (fun s => Ok (like_monitor previous s)) d1 = (r, d2) -> honest d2 /\
    (now_on (disk d2) = now_on (disk d) \/ now_on (disk d2) = Ok previous)) as Hup.
  { intros r d2 Hu. apply (network_update P base Hbase) in Hu as (w & -> & Hi & Hw); [|done..|by intros s0 s [= <-]].
    split; [unfold honest; cbn; by rewrite Hi|]. destruct r as [[s|e2]|]; [|left; rewrite <- Hf1; by apply (now_same P base)..].
    destruct Hw as (s0 & Hnow0 & [= <-] & Hnew). rewrite Hf1, Hnow in Hnow0. injection Hnow0 as <-. right. cbn. rewrite Hnew.
    by rewrite like_switched. }
  apply app_bind_inv in Hr as [[Hu _]|(r & d2 & Hu & Hr)]; apply Hup in Hu as [Hh2 Hd2]; [done|].
  assert (forall r3 d3, (if monitor_enabled previous then start else app_ret (Ok tt)) d2 = (r3, d3) -> now_on (disk d3) = now_on (disk d2)) as Hst.
  { intros r3 d3 Hs. destruct (monitor_enabled previous); [|by injection Hs as _ <-].
    apply service_start_inv in Hs as (Hf & _); [|done]. by apply (now_same P base). }
  apply app_bind_inv in Hr as [[Hs _]|(r3 & d3 & Hs & Hr)]; apply Hst in Hs; [by rewrite Hs|]. injection Hr as _ <-. by rewrite Hs.
Qed.

(** Turning monitoring on or off.  On success the settings on disk are the old ones with the
    switch, the port and (when it goes off) the Relay's switch replaced, and the service
    follows: something listens, or nothing does and no Relay client runs.  Whatever else
    happens, at whatever step, the settings on disk are the old ones or these. *)
Theorem monitor_switch_spec enabled port d res d' :
  switch enabled port d = (res, d') -> json_ok -> honest d ->
  match res with
  | Some (Ok _) => exists previous, now_on (disk d) = Ok previous
      /\ now_on (disk d') = Ok (normal (switched previous enabled port))
      /\ (if enabled then listening d' <> [] else listening d' = [] /\ running_client d' = None)
  | _ => now_on (disk d') = now_on (disk d)
      \/ exists previous, now_on (disk d) = Ok previous /\ now_on (disk d') = Ok (normal (switched previous enabled port))
  end.
Proof using base Hbase.
  intros Hs Hjson Hh. apply switch_inv in Hs as
    [(Hf & _ & _ & Hne)|(previous & d2 & s3 & d3 & Hprev & Hu & Hnow & Hi2 & Hi3 & Hl & Hs)]; [..|done|done].
  { apply (now_same P base) in Hf. destruct res as [[v|e]|]; [by destruct (Hne v)|by left..]. }
  assert (honest d2 /\ honest d3) as [Hh2 Hh3] by (unfold honest; by rewrite Hi2, Hi3).
  pose proof (now_readable P base _ _ Hprev) as Hread. unfold after_save in Hs.
  destruct enabled; cbn beta iota in Hs.
  - assert (forall r4 d4, start_or_restore P H E process_id devices_from_str secret_fault random_key b64_encode b64_decode previous d3 = (r4, d4) ->
      (r4 = Some (Ok tt) -> start d3 = (Some (Ok tt), d4) /\ now_on (disk d4) = now_on (disk d3))
      /\ (now_on (disk d4) = now_on (disk d3) \/ now_on (disk d4) = Ok previous)) as Hrest by (intros r4 d4 Hr; by eapply restore_disk).
    assert (forall d4, (now_on (disk d4) = now_on (disk d3) \/ now_on (disk d4) = Ok previous) -> now_on (disk d4) = now_on (disk d)
      \/ exists previous, now_on (disk d) = Ok previous /\ now_on (disk d4) = Ok (normal (switched previous true port))) as Hfin.
    { intros d4 [-> | ->]; [right; by exists previous|left; by rewrite Hprev]. }
    apply app_try_inv in Hs as [[Hr ->]|[(e & Hr & ->)|([] & d4 & Hr & Hs)]]; apply Hrest in Hr as [Hok Hd]; [by apply Hfin..|].
    destruct (Hok eq_refl) as [Hst Hd4]. pose proof (aloof_tail true _ _ _ Hs) as (Hf & _ & Hm). apply (now_same P base) in Hf.
    assert (now_on (disk d') = Ok (normal (switched previous true port))) as Hd' by (by rewrite Hf, Hd4).
    destruct res as [[v|e]|]; [|right; by exists previous..]. exists previous. split_and!; [done..|]. unfold listening. rewrite Hm.
    eapply (update_then_start _ d2 s3 d3 d4); [exact Hu|done|by rewrite Hi2|exact Hst|rewrite Hnow; by intros s [= <-]|by rewrite Hnow].
  - unfold app_try at 1, app_bind, app_ret at 1, app_modify in Hs. cbn beta iota in Hs.
    pose proof (aloof_info _ _ _ Hs) as (Hf & _ & Hm). pose proof (client_of_info _ _ _ Hs) as Hc. apply (now_same P base) in Hf. cbn in Hf, Hm, Hc.
    assert (now_on (disk d') = Ok (normal (switched previous false port))) as Hd' by (by rewrite Hf).
    destruct res as [[v|e]|]; [|right; by exists previous..]. exists previous. split_and!; [done..| |].
    + unfold listening. rewrite Hm. by destruct Hl as [?|(_ & ? & _)].
    + unfold running_client. rewrite Hc. cbn. rewrite lock_update. by destruct (lock _).
Qed.

(** *** The pairing code *)

(** Neither the grant nor the service changes; the grant does not change. *)
Definition beside (d d' : Desk) : Prop := monitor_pairing d' = monitor_pairing d /\ monitor_servers d' = monitor_servers d.
Definition unpaired (d d' : Desk) : Prop := monitor_pairing d' = monitor_pairing d.

#[local] Instance beside_framed : Framed beside.
Proof. split; [split; [done|]|done]. intros d1 d2 d3 [H1 S1] [H2 S2]. unfold beside. by rewrite H2, S2. Qed.
#[local] Instance unpaired_framed : Framed unpaired.
Proof. split; [split; [done|]|done]. intros d1 d2 d3 H1 H2. unfold unpaired. by rewrite H2. Qed.

Lemma beside_modify f : (forall d, beside d (f d)) -> does beside (app_modify f).
Proof. intros Hf d res d' [= _ <-]. apply Hf. Qed.
Lemma unpaired_modify f : (forall d, unpaired d (f d)) -> does unpaired (app_modify f).
Proof. intros Hf d res d' [= _ <-]. apply Hf. Qed.

#[local] Hint Extern 2 (does beside (app_modify _)) => (apply beside_modify; done) : quiet.
#[local] Hint Extern 2 (does unpaired (app_modify _)) => (apply unpaired_modify; done) : quiet.

Lemma beside_id : does beside desktop_id.
Proof. intros d res d'. by apply (framed_files beside). Qed.
Lemma beside_offer s desktop id expires : does beside (offer_relay H net secret_fault credentials_from_str s desktop id expires).
Proof.
  assert (forall r e, does beside (send net r e)) as Hsend.
  { intros r e. apply does_try; [apply _|apply does_get; apply _|]. by intros u d res d' [= _ <-]. }
  unfold offer_relay, read_relay_credentials, load_secret, relay_open_pairing_route, send_expecting. solve_quiet.
Qed.

Lemma unpaired_start : does unpaired start.
Proof.
  assert (does unpaired desktop_id) as Hid by (intros d res d'; by apply (framed_files unpaired)).
  assert (forall dir, does unpaired (fun d => on_files (ensure_tls_identity (self_signed_pair E d) (server_config E) (cert_sha256 E) dir) d))
    as Htls by (intros dir d res d'; by apply (framed_files unpaired)).
  assert (forall item value, does unpaired (save_secret secret_fault item value)) as Hsave.
  { intros item value d res d'. unfold save_secret. destruct (secret_fault _ d); by intros [= _ <-]. }
  assert (forall errors, does unpaired (log_partial P errors)) as Hlog.
  { intros errors. induction errors; cbn [log_partial]; solve_quiet. }
  assert (forall targets port i desktop key slot errors, does unpaired (start_all P E targets port i desktop key slot errors)) as Hall.
  { intros targets port i desktop key. induction targets as [|[v4 bind] targets IH]; intros slot errors; cbn [start_all];
      unfold start_monitor_server; solve_quiet. }
  unfold start_monitor_service, open_servers, tls_identity, master_key, ensure_monitor_master_key, load_secret,
    monitor_devices_snapshot, with_monitor_devices. solve_quiet.
Qed.

Lemma token_verifies token : verify_token_hash_hex net token (token_hash_hex net token) = true.
Proof. unfold verify_token_hash_hex, constant_time_eq. rewrite Nat.eqb_refl. cbn. apply N.eqb_eq. by apply fold_diff_zero. Qed.

(** The grant a pairing installs, and what is shown for it. *)
Definition shown (d' : Desk) (grant : MonitorPairingGrant) (res : option (Result Value string)) : Prop :=
  exists server desktop port candidates offer de dt,
    head (listening d') = Some server
    /\ candidates = map pair_candidate (firstn 8 (reachable_endpoints E (listening d') port de))
    /\ (candidates <> [] \/ is_Some (relay_pairing offer))
    /\ code_hash grant = token_hash_hex net (grant_pairing_code grant)
    /\ grant_expires_at grant = saturating_add (now_millis P dt) pairing_lifetime_ms
    /\ res = Some (drawn_pairing E (pairing_fields desktop port candidates offer (server_fingerprint server) grant)).

Lemma create_pairing_inv d res d' : pair d = (res, d') ->
  (monitor_pairing d' = monitor_pairing d /\ forall v, res <> Some (Ok v))
  \/ exists grant, lock (monitor_pairing d') = Some (Some grant) /\ shown d' grant res.
Proof.
  intros Hp. unfold create_pairing in Hp.
  apply (does_bind_inv unpaired _ _ d) in Hp as [[Ha ->]|(s & d1 & _ & A1 & Hp)]; [by left| |apply framed_load; apply _|done].
  destruct (negb (monitor_enabled s)); [injection Hp as <- <-; by left|].
  apply (does_try_inv unpaired _ _ d) in Hp as [[Ha Hr]|(u & d2 & _ & A2 & Hp)]; [by left| |apply unpaired_start|done].
  unfold app_bind at 1, app_get at 1 in Hp. destruct (lock (monitor_servers d2)) as [[|first servers]|] eqn:Hk; cbn beta iota in Hp;
    [injection Hp as <- <-; by left| |injection Hp as <- <-; by left].
  apply lock_Some in Hk. unfold app_bind at 1, app_get at 1 in Hp.
  set (candidates := map pair_candidate _) in Hp.
  assert (forall d3, beside d2 d3 -> unpaired d d3) as Hbu by (intros d3 [Hb _]; by etrans; [exact A2|exact Hb]).
  assert (beside d2 d2) as B0 by done.
  apply (does_try_inv beside _ _ d2) in Hp as [[Hb Hr]|(desktop & d3 & _ & B3 & Hp)]; [left; split; [by apply Hbu|done]| |apply beside_id|done].
  apply (does_try_inv beside _ _ d2) in Hp as [[Hb Hr]|(code & d4 & _ & B4 & Hp)]; [left; split; [by apply Hbu|done]| |apply does_get; apply _|done].
  apply (does_try_inv beside _ _ d2) in Hp as [[Hb Hr]|(random & d5 & _ & B5 & Hp)]; [left; split; [by apply Hbu|done]| |apply does_get; apply _|done].
  unfold app_bind at 1, app_get at 1 in Hp. set (grant := {| grant_pairing_id := _ |}) in Hp.
  apply (does_try_inv beside _ _ d2) in Hp as [[Hb Hr]|(offer & d6 & _ & B6 & Hp)]; [left; split; [by apply Hbu|done]| |apply beside_offer|done].
  assert ((candidates <> [] \/ is_Some (relay_pairing offer)) /\
    app_try (put_grant grant) (fun _ => app_ret (drawn_pairing E (pairing_fields desktop (monitor_port s) candidates offer
      (server_fingerprint first) grant))) d6 = (res, d') \/ d' = d6 /\ (forall v, res <> Some (Ok v))) as [[Hpath Hg]|[-> Hr]].
  { destruct candidates as [|c cs], (relay_pairing offer) eqn:Ho; [left|right|left|left]; (split; [|exact Hp]) || idtac;
      [by right; eexists|injection Hp as <- <-; done|by left|by left]. }
  2: { left. split; [by apply Hbu|done]. }
  unfold put_grant, app_try, app_bind, app_get, app_modify, app_ret in Hg.
  destruct (lock (monitor_pairing d6)) eqn:Hlock; injection Hg as <- <-; [|left; split; [by apply Hbu|done]].
  right. exists grant. apply lock_Some in Hlock. cbn. rewrite Hlock. split; [done|].
  assert (listening d6 = first :: servers) as Hlist by (unfold listening; destruct B6 as [_ ->]; by rewrite Hk).
  exists first, desktop, (monitor_port s), candidates, offer, d2, d5.
  assert (forall m, listening (set_monitor_pairing m d6) = listening d6) as Hkeep by done. rewrite Hkeep, Hlist. by split_and!.
Qed.

End ServiceProps.

(** ** Witnesses *)

Definition sample_drawn_host : Host :=
  {| host_device_name := "PC"; host_version := "1.0.0"; host_platform := "windows"; draw := fun _ _ => Some (repeat x5a 32);
     tcp_probe := fun _ _ _ => true; file_mode := fun _ _ => None; value_pretty := fun _ => Ok "{}" |}.

Definition sample_lan : Interface :=
  {| interface_name := "eth0"; interface_ip := V4 192 168 1 5; interface_loopback := false; interface_link_local := false |}.

Definition sample_service : ServiceEnv :=
  {| open_listener := fun _ bind _ => Ok bind; interfaces_of := fun _ => Some [sample_lan];
     self_signed_pair := fun _ => Ok ("cert", "key"); server_config := fun _ _ => Ok tt; cert_sha256 := list_byte_of_string;
     qr_svg := fun _ => Ok "<svg/>"; value_to_string := fun _ => Ok "{}" |}.

(** An installation whose settings want monitoring; replacing the settings may fail. *)
Definition sample_monitor_desk (full : bool) : Desk :=
  desk_default
    {| files := sample_files sample_monitored; ops_left := None; torn_write := fun _ => None;
       io_fault := fun op => match op with
                             | RenameFile _ target => if full && bool_decide (target = sample_settings_file) then Some (OtherIo "full") else None
                             | _ => None
                             end |}.

#[local] Abbreviation sample_run := (run_monitor sample_platform sample_drawn_host sample_service sample_network false "42" sample_hkdf
  sample_devices_read sample_devices_print sample_secret_fault sample_random_key sample_key_text parse_hex_pairs sample_read_credentials).
#[local] Abbreviation sample_switch := (set_monitor_enabled sample_platform sample_drawn_host sample_service "42" sample_devices_read
  sample_secret_fault sample_random_key sample_key_text parse_hex_pairs).
#[local] Abbreviation sample_show := (create_pairing sample_platform sample_drawn_host sample_service sample_network "42" sample_devices_read
  sample_secret_fault sample_random_key sample_key_text parse_hex_pairs sample_read_credentials).


Lemma monitor_switch_spec_witness :
  let d' := (sample_switch true (Some 20000%N) (sample_monitor_desk false)).2 in
  listening d' <> [] /\ exists previous, settings_now "/home/u" (Ok None) true sample_settings_read (fun _ => Err "bad") (files (desk_world d'))
    = Ok (normalize_settings (Ok None) (switched previous true (Some 20000%N))).
Proof.
  assert (exists v, (sample_switch true (Some 20000%N) (sample_monitor_desk false)).1 = Some (Ok v)) as [v Hv] by (vm_compute; eexists; reflexivity).
  pose proof (monitor_switch_spec sample_platform "/home/u" eq_refl sample_drawn_host sample_service "42" sample_devices_read
    sample_secret_fault sample_random_key sample_key_text parse_hex_pairs true (Some 20000%N) (sample_monitor_desk false)
    (sample_switch true (Some 20000%N) (sample_monitor_desk false)).1 (sample_switch true (Some 20000%N) (sample_monitor_desk false)).2
    (surjective_pairing _) sample_json_agrees ltac:(discriminate)) as Hs.
  rewrite Hv in Hs. destruct Hs as (previous & _ & Hnow & Hl). split; [exact Hl|]. exists previous. exact Hnow.
Defined.


(** ** What a failed save leaves *)

(** Changing the port stops the service before the settings are saved.  When they cannot be,
    the command fails and the settings are the old ones, which want monitoring, but nothing
    listens any more. *)
Lemma failed_switch_stops_service :
  let d := (sample_run StartService (sample_monitor_desk true)).2 in
  let out := sample_switch true (Some 20000%N) d in
  listening d <> [] /\ (exists e, out.1 = Some (Err e)) /\ listening out.2 = []
  /\ (app_load_settings sample_platform out.2).1 = Some sample_monitored /\ monitor_enabled sample_monitored = true.
Proof.
  cbv zeta. split; [vm_compute; discriminate|]. split; [vm_compute; by eexists|]. split_and!; vm_compute; reflexivity.
Qed.
