(* ===== verification/McpLocal.v ===== *)
(** * The desktop's side of one MCP request ([https_mcp_wss.rs], [local_request])

    A request packet of the Relay is turned into a request to the local bridge on the
    loopback interface, and the bridge's answer into packets.  The URL parser, the header
    parser, base64 and the bridge itself are parameters. *)

From stdpp Require Import pretty.
From S2P Require Export McpGateway.
Local Open Scope string_scope.

(** ** Sending on the websocket's queue

    A computation of the request's task: it sends packets until it is done or fails.  The
    queue takes [room] more packets before its receiver is dropped ([None]: it never is). *)

Definition Tx (A : Type) : Type := option nat -> list Outgoing * Result A string * option nat.

Definition tx_ret {A} (r : Result A string) : Tx A := fun room => ([], r, room).

(** Rust's [?]. *)
Definition tx_bind {A B} (m : Tx A) (k : A -> Tx B) : Tx B := fun room =>
  match m room with
  | (out, Ok a, room) => let '(out', r, room) := k a room in ((out ++ out')%list, r, room)
  | (out, Err e, room) => (out, Err e, room)
  end.

Notation "x '<-tx' m ';;' k" := (tx_bind m (fun x => k))
  (at level 100, m at next level, right associativity) : rust_scope.

(** [tx.send(packet).await.map_err(|_| "WSS closed")] *)
Definition tx_send (packet : Outgoing) : Tx unit := fun room =>
  match ws_send room with
  | Some room => ([packet], Ok tt, room)
  | None => ([], Err "WSS closed", room)
  end.

(** ** Data *)

(** [packet[key]] *)
Definition at_key (key : string) (packet : Value) : Value := default Null (get key packet).
Definition str_field (key : string) (packet : Value) : option string := as_str (at_key key packet).

(** [value == "text"] *)
Definition is_text (text : string) (v : Value) : bool :=
  match v with VString s => String.eqb s text | _ => false end.

Definition ok_or {A} (e : string) (o : option A) : Result A string :=
  match o with Some a => Ok a | None => Err e end.

(** What the bridge receives: the whole body, or the chunks of an upload as they come. *)
Inductive LocalBody :=
| WholeBody (bytes : list byte)
| UploadStream.

(** The answer of the bridge: a header value is [None] when it is not text, and the body
    comes in chunks, the reading of which can fail. *)
Record LocalResponse := {
  response_status : N;
  response_header_list : list (string * option string);
  response_chunks : list (Result (list byte) unit) }.

Section Local.
(** [reqwest::Url] and its parser and accessors; [str::parse::<reqwest::Method>] (the name
    of the method parsed); [parse::<HeaderName>] and [parse::<HeaderValue>]; base64. *)
Context {Url : Type} (url_parse : string -> option Url).
Context (host_str : Url -> option string) (url_port : Url -> option N) (url_path : Url -> string).
Context (parse_method : string -> option string).
Context (header_name : string -> option string) (header_value : string -> option string).
Context (b64_encode : list byte -> string) (b64_decode : string -> option (list byte)).

Record LocalRequest := {
  local_method : string;
  local_url : Url;
  local_body : LocalBody;
  local_headers : list (string * string) }.

(** ** From the packet to the request *)

Definition method_of (packet : Value) : Result string string :=
  text <-? ok_or "Missing method" (str_field "method" packet) ;;
  method <-? ok_or "Invalid method" (parse_method text) ;;
  if one_of ["GET"; "POST"; "DELETE"; "HEAD"; "OPTIONS"] method then Ok method else Err "Method not allowed".

Definition target_of (packet : Value) (local_port : N) : Result Url string :=
  path <-? ok_or "Missing path" (str_field "path" packet) ;;
  return_if negb (starts_with "/" path) || starts_with "//" path || contains "\" path || contains "#" path
    with Err "Invalid target" in
  url <-? ok_or "Invalid target" (url_parse ("http://127.0.0.1:" ++ pretty local_port ++ path)) ;;
  return_if negb (bool_decide (host_str url = Some "127.0.0.1")) || negb (bool_decide (url_port url = Some local_port))
            || negb (McpHttp.allowed_path (url_path url))
    with Err "Target is not allowed" in
  Ok url.

Definition body_of (packet : Value) (version : N) (upload : bool) : Result LocalBody string :=
  if (version =? 2)%N then
    return_if negb upload with Err "Missing binary request stream" in
    return_if negb (is_text "binary-v2" (at_key "bodyEncoding" packet)) with Err "Invalid upload encoding" in
    Ok UploadStream
  else
    encoded <-? ok_or "Missing body" (str_field "bodyBase64" packet) ;;
    return_if (LEGACY_MAX_REQUEST * 4 / 3 + 8 <? strlen encoded)%N with Err "Request too large" in
    body <-? ok_or "Invalid body" (b64_decode encoded) ;;
    return_if (LEGACY_MAX_REQUEST <? nlen body)%N with Err "Request too large" in
    Ok (WholeBody body).

Definition header_of (field : string * Value) : option (string * string) :=
  if negb (McpHttp.allowed_request_header field.1) then None
  else
    let_some raw := as_str field.2 else None in
    let_some name := header_name field.1 else None in
    let_some value := header_value raw else None in
    Some (name, value).

Definition headers_of (packet : Value) : list (string * string) :=
  match as_object (at_key "headers" packet) with
  | Some headers => omap header_of headers
  | None => []
  end.

(** The request, or why there is none; [upload]: the task was given an upload stream. *)
Definition local_prepare (packet : Value) (request_id : string) (local_port version : N) (upload : bool)
    : Result LocalRequest string :=
  return_if negb (valid_request_id request_id) with Err "Invalid request ID" in
  method <-? method_of packet ;;
  url <-? target_of packet local_port ;;
  body <-? body_of packet version upload ;;
  Ok {| local_method := method; local_url := url; local_body := body; local_headers := headers_of packet |}.

(** ** From the answer to packets *)

(** The headers that are forwarded, collected into a [HashMap]: the last value of a name
    counts, and their order in the packet is not observed. *)
Definition answer_headers (response : LocalResponse) : gmap string string :=
  fold_left (fun headers '(key, value) =>
    match value with
    | Some value => if McpHttp.allowed_response_header key then <[key := value]> headers else headers
    | None => headers
    end) (response_header_list response) ∅.

Definition head_packet (request_id : string) (response : LocalResponse) : Outgoing :=
  OutText (Object [("headers", Object (map (fun kv => (kv.1, VString kv.2)) (map_to_list (answer_headers response))));
                   ("requestId", VString request_id); ("status", Number (Some (response_status response)));
                   ("type", VString "head")]).
Definition end_packet (request_id : string) : Outgoing :=
  OutText (Object [("requestId", VString request_id); ("type", VString "end")]).
Definition error_packet (request_id : string) : Outgoing :=
  OutText (Object [("requestId", VString request_id); ("type", VString "error")]).

Definition piece_packet (version : N) (request_id : string) (piece : list byte) : Result Outgoing string :=
  if (version =? 2)%N then
    frame <-? ok_or "Frame encode failed" (McpStream.encode McpStream.ResponseBody request_id piece) ;;
    Ok (OutBinary frame)
  else Ok (OutText (Object [("data", VString (b64_encode piece)); ("requestId", VString request_id);
                            ("type", VString "chunk")])).

Fixpoint send_pieces (version : N) (request_id : string) (pieces : list (list byte)) : Tx unit :=
  match pieces with
  | [] => tx_ret (Ok tt)
  | piece :: pieces =>
      frame <-tx tx_ret (piece_packet version request_id piece) ;;
      _ <-tx tx_send frame ;;
      send_pieces version request_id pieces
  end.

Definition response_limit (version : N) : N :=
  if (version =? 2)%N then McpStream.MAX_RESPONSE_BYTES else McpHttp.LEGACY_MAX_RESPONSE_BYTES.

Fixpoint send_chunks (version : N) (request_id : string) (sent : N) (rest_chunks : list (Result (list byte) unit)) : Tx unit :=
  match rest_chunks with
  | [] => tx_ret (Ok tt)
  | Err _ :: _ => tx_ret (Err "Local MCP stream error")
  | Ok chunk :: rest_chunks =>
      let sent := saturating_add sent (nlen chunk) in
      if (response_limit version <? sent)%N then tx_ret (Err "MCP response too large")
      else
        _ <-tx send_pieces version request_id (chunks McpStream.MAX_FRAME_BODY chunk) ;;
        send_chunks version request_id sent rest_chunks
  end.

Definition answer (version : N) (request_id : string) (response : LocalResponse) : Tx unit :=
  _ <-tx tx_send (head_packet request_id response) ;;
  _ <-tx send_chunks version request_id 0 (response_chunks response) ;;
  tx_send (end_packet request_id).

(** The whole task; [bridge] answers the local request, or is unreachable. *)
Definition local_run (bridge : LocalRequest -> option LocalResponse) (packet : Value) (request_id : string)
    (local_port version : N) (upload : bool) : Tx unit :=
  request <-tx tx_ret (local_prepare packet request_id local_port version upload) ;;
  response <-tx tx_ret (ok_or "Local MCP unreachable" (bridge request)) ;;
  answer version request_id response.

(** What the task sends. *)
Definition local_request (bridge : LocalRequest -> option LocalResponse) (packet : Value) (local_port version : N)
    (upload : bool) (room : option nat) : list Outgoing :=
  let_some request_id := str_field "requestId" packet else [] in
  match local_run bridge packet request_id local_port version upload room with
  | (out, Ok _, _) => out
  | (out, Err _, room) => match ws_send room with Some _ => (out ++ [error_packet request_id])%list | None => out end
  end.

(** ** Properties *)

(** What may be asked of the bridge. *)
Definition loopback (local_port : N) (request : LocalRequest) : Prop :=
  one_of ["GET"; "POST"; "DELETE"; "HEAD"; "OPTIONS"] (local_method request) = true
  /\ host_str (local_url request) = Some "127.0.0.1"
  /\ url_port (local_url request) = Some local_port
  /\ McpHttp.allowed_path (url_path (local_url request)) = true
  /\ (forall name value, In (name, value) (local_headers request) ->
      exists original, McpHttp.allowed_request_header original = true /\ header_name original = Some name)
  /\ match local_body request with WholeBody bytes => (nlen bytes <= LEGACY_MAX_REQUEST)%N | UploadStream => True end.

Lemma target_of_inv packet local_port url :
  target_of packet local_port = Ok url ->
  host_str url = Some "127.0.0.1" /\ url_port url = Some local_port /\ McpHttp.allowed_path (url_path url) = true.
Proof.
  unfold target_of. destruct (ok_or _ _) as [path|]; [|done]. destruct (_ || _ || _ || _); [done|].
  destruct (ok_or _ _) as [u|]; [|done]. destruct (negb _ || _ || _) eqn:Hc; [done|]. intros [= <-]. by reflect_bools.
Qed.

Lemma body_of_inv packet version upload body :
  body_of packet version upload = Ok body ->
  match body with WholeBody bytes => (nlen bytes <= LEGACY_MAX_REQUEST)%N | UploadStream => upload = true /\ version = 2%N end.
Proof.
  unfold body_of. destruct (version =? 2)%N eqn:Hv.
  - destruct upload; [|done]. cbn [negb]. destruct (is_text _ _); [|done]. cbn [negb]. intros H. injection H as <-. by apply N.eqb_eq in Hv.
  - destruct (ok_or _ _); [|done]. destruct (_ <? strlen _)%N; [done|]. destruct (ok_or _ _) as [bytes|]; [|done].
    destruct (_ <? nlen bytes)%N eqn:Hl; [done|]. intros [= <-]. by apply N.ltb_ge.
Qed.

Lemma headers_of_allowed packet name value :
  In (name, value) (headers_of packet) ->
  exists original, McpHttp.allowed_request_header original = true /\ header_name original = Some name.
Proof.
  unfold headers_of. destruct (as_object _) as [fields|]; [|done].
  rewrite <- list_elem_of_In, list_elem_of_omap. intros ([key raw] & _ & H). exists key. unfold header_of in H. cbn [fst snd] in H.
  destruct (McpHttp.allowed_request_header key) eqn:Ha; [|done]. cbn [negb] in H. destruct (as_str raw); [|done].
  destruct (header_name key); [|done]. destruct (header_value _); [|done]. by injection H as <- _.
Qed.

Lemma local_prepare_loopback packet request_id local_port version upload request :
  local_prepare packet request_id local_port version upload = Ok request ->
  loopback local_port request /\ valid_request_id request_id = true.
Proof.
  unfold local_prepare. destruct (negb _) eqn:Hid; [done|]. apply negb_false_iff in Hid.
  destruct (method_of packet) as [m|] eqn:Hm; [|done]. destruct (target_of packet local_port) as [url|] eqn:Hu; [|done].
  destruct (body_of packet version upload) as [body|] eqn:Hb; [|done]. intros [= <-]. split; [|done].
  apply target_of_inv in Hu as (? & ? & ?). apply body_of_inv in Hb. unfold loopback. cbn. split_and!; try done.
  - unfold method_of in Hm. destruct (ok_or _ _); [|done]. destruct (ok_or _ _); [|done].
    destruct (one_of _ _) eqn:Hone; [|done]. by injection Hm as <-.
  - intros name value. apply headers_of_allowed.
  - by destruct body.
Qed.

(** A request of the Relay reaches nothing but the bridge.  Whatever packet the Relay sends,
    two machines whose bridges answer alike to the requests allowed (one of five methods, the
    host 127.0.0.1 and the bridge's port in the address as parsed, an allowed path, allowed
    headers only, a bounded body) send back the same packets: no other request is ever made
    whose answer could make a difference. *)
Theorem loopback_only bridge bridge' packet local_port version upload room :
  (forall request, loopback local_port request -> bridge request = bridge' request) ->
  local_request bridge packet local_port version upload room = local_request bridge' packet local_port version upload room.
Proof.
  intros Hb. unfold local_request, local_run. destruct (str_field _ _) as [id|]; [|done].
  unfold tx_bind, tx_ret. destruct (local_prepare _ _ _ _ _) as [request|e] eqn:Hp; [|done].
  apply local_prepare_loopback in Hp as [Hl _]. by rewrite (Hb request Hl).
Qed.

(** *** The packets of an answer *)

(** The answer is whole and within the limit. *)
Definition complete (response : LocalResponse) : bool :=
  forallb is_ok (response_chunks response) && (nlen (body_bytes (response_chunks response)) <=? McpStream.MAX_RESPONSE_BYTES)%N.

(** The packets carry these pieces of a body. *)
Definition carries (id : string) (packet : Outgoing) (piece : list byte) : Prop :=
  exists frame, packet = OutBinary frame /\ McpStream.decode frame = Some (McpStream.ResponseBody, to_ascii_lowercase id, piece).

Lemma send_pieces_spec id pieces :
  valid_request_id id = true -> Forall (fun p => nlen p <= McpStream.MAX_FRAME_BODY)%N pieces ->
  exists out, send_pieces 2 id pieces None = (out, Ok tt, None) /\ Forall2 (carries id) out pieces.
Proof.
  intros [Hl Hx]%andb_true_iff Hp. assert (String.length id = 32) as Hlen by (apply N.eqb_eq in Hl; unfold strlen in Hl; lia).
  induction Hp as [|p pieces Hb _ (out & IH & Hout)]; [by exists []|].
  destruct (McpStreamProps.hexdigit_frame McpStream.ResponseBody id p Hlen Hx Hb) as (f & Hf & _ & Hdec).
  exists (OutBinary f :: out). cbn [send_pieces]. unfold tx_bind, tx_ret, piece_packet, tx_send, ok_or. cbn [N.eqb Pos.eqb].
  rewrite Hf. cbn [ws_send]. rewrite IH. split; [done|]. constructor; [by exists f|done].
Qed.

Lemma saturating_add_within a b m : (m < u64_max)%N -> (saturating_add a b <= m)%N -> saturating_add a b = (a + b)%N.
Proof. unfold saturating_add. lia. Qed.

Lemma send_chunks_cons version id sent chunk rest :
  send_chunks version id sent (Ok chunk :: rest)
  = if (response_limit version <? saturating_add sent (nlen chunk))%N then tx_ret (Err "MCP response too large")
    else tx_bind (send_pieces version id (chunks McpStream.MAX_FRAME_BODY chunk))
           (fun _ => send_chunks version id (saturating_add sent (nlen chunk)) rest).
Proof. reflexivity. Qed.

(** Reading the answer: all of its body if it is complete, else a part of it and an error. *)
Lemma send_chunks_spec id sent rest_chunks :
  valid_request_id id = true -> (sent <= McpStream.MAX_RESPONSE_BYTES)%N ->
  exists out pieces r, send_chunks 2 id sent rest_chunks None = (out, r, None) /\ Forall2 (carries id) out pieces
    /\ (sent + nlen (concat pieces) <= McpStream.MAX_RESPONSE_BYTES)%N
    /\ (exists rest, body_bytes rest_chunks = (concat pieces ++ rest)%list)
    /\ if forallb is_ok rest_chunks && (sent + nlen (body_bytes rest_chunks) <=? McpStream.MAX_RESPONSE_BYTES)%N
       then r = Ok tt /\ concat pieces = body_bytes rest_chunks else is_ok r = false.
Proof.
  intros Hid. revert sent. induction rest_chunks as [|[chunk|[]] rest_chunks IH]; intros sent Hs.
  - exists [], [], (Ok tt). cbn. change (nlen []) with 0%N. split_and!; [done|constructor|lia|by exists []|].
    destruct (_ <=? _)%N eqn:Hle; [done|]. apply N.leb_gt in Hle. lia.
  - rewrite send_chunks_cons. cbn [forallb is_ok body_bytes andb]. assert (response_limit 2 = McpStream.MAX_RESPONSE_BYTES) as -> by done.
    assert (nlen (chunk ++ body_bytes rest_chunks)%list = nlen chunk + nlen (body_bytes rest_chunks))%N as Hn
      by (unfold nlen; rewrite length_app; lia).
    destruct (_ <? saturating_add sent (nlen chunk))%N eqn:Hlt.
    { exists [], [], (Err "MCP response too large"). split; [done|]. split; [apply Forall2_nil_2|]. split; [change (nlen (concat [])) with 0%N; lia|]. split; [by eexists|].
      apply N.ltb_lt in Hlt. pose proof (saturating_add_le sent (nlen chunk)).
      destruct (forallb is_ok rest_chunks); [|done]. cbn [andb]. by rewrite (proj2 (N.leb_gt _ _)) by lia. }
    apply N.ltb_ge in Hlt. pose proof (saturating_add_within _ _ _ max_below_u64 Hlt) as Hsum.
    rewrite Hsum in *. destruct (chunks_spec McpStream.MAX_FRAME_BODY chunk) as [Hcat Hbd]; [by vm_compute|].
    destruct (send_pieces_spec id _ Hid Hbd) as (out & Hout & Hc).
    destruct (IH _ Hlt) as (out' & pieces' & r & Hout' & Hc' & Hle & (rest & Hrest) & Hr).
    exists (out ++ out')%list, (chunks McpStream.MAX_FRAME_BODY chunk ++ pieces')%list, r.
    unfold tx_bind. rewrite Hout, Hout'. rewrite concat_app, Hcat, Hn. unfold nlen in *. rewrite length_app.
    split_and!; [done|by apply Forall2_app|lia|exists rest; by rewrite Hrest, app_assoc|].
    rewrite N.add_assoc. destruct (forallb _ _ && _); [|done]. destruct Hr as [-> ->]. done.
  - exists [], [], (Err "Local MCP stream error"). cbn [send_chunks forallb is_ok andb body_bytes concat].
    split_and!; [done|constructor|change (nlen []) with 0%N; lia|by exists []|done].
Qed.

(** What the task sends when the websocket stays open. *)
Definition answers_as (id : string) (response : LocalResponse) (out : list Outgoing) : Prop :=
  exists frames pieces, Forall2 (carries id) frames pieces
    /\ (nlen (concat pieces) <= McpStream.MAX_RESPONSE_BYTES)%N
    /\ if complete response
       then out = (head_packet id response :: frames ++ [end_packet id])%list
            /\ concat pieces = body_bytes (response_chunks response)
       else out = (head_packet id response :: frames ++ [error_packet id])%list
            /\ exists rest, body_bytes (response_chunks response) = (concat pieces ++ rest)%list.

(** The answer of the bridge to a packet, if there is one. *)
Definition bridged (bridge : LocalRequest -> option LocalResponse) (packet : Value) (id : string) (local_port version : N)
    (upload : bool) : option LocalResponse :=
  match local_prepare packet id local_port version upload with Ok request => bridge request | Err _ => None end.

Lemma local_request_spec bridge packet id local_port upload :
  str_field "requestId" packet = Some id -> valid_request_id id = true ->
  match bridged bridge packet id local_port 2 upload with
  | None => local_request bridge packet local_port 2 upload None = [error_packet id]
  | Some response => answers_as id response (local_request bridge packet local_port 2 upload None)
  end.
Proof.
  intros Hf Hid. unfold local_request, local_run, bridged, answer, tx_bind, tx_ret, tx_send. rewrite Hf.
  destruct (local_prepare _ _ _ _ _) as [request|e]; [|done]. cbv beta iota.
  destruct (bridge request) as [response|]; [|done]. cbn [ok_or ws_send].
  destruct (send_chunks_spec id 0 (response_chunks response) Hid) as (out & pieces & r & -> & Hc & Hle & Hpre & Hr); [lia|].
  exists out, pieces. split_and!; [done|lia|]. unfold complete. rewrite N.add_0_l in Hr. destruct (_ && _).
  - destruct Hr as [-> Heq]. done.
  - destruct r; [done|]. split; [|done]. by cbn.
Qed.
End Local.

(** ** Witnesses *)

Definition sample_local_id : string := "0123456789abcdef0123456789abcdef".
Definition sample_request (path : string) : Value :=
  Object [("bodyEncoding", VString "binary-v2"); ("headers", Object [("accept", VString "text/html"); ("cookie", VString "x")]);
          ("method", VString "POST"); ("path", VString path); ("requestId", VString sample_local_id)].
Definition sample_response : LocalResponse :=
  {| response_status := 200; response_header_list := [("content-type", Some "text/plain")];
     response_chunks := [Ok [x41; x42]; Ok [x43]] |}.

(** An address is its text; its path is what follows the port. *)
Definition sample_url_path (url : string) : string := string_skip 21 url.
Definition sample_host (url : string) : option string := Some "127.0.0.1".
Definition sample_port (url : string) : option N := Some 8765%N.
Definition sample_base64 (bytes : list byte) : string := hex_of_bytes bytes.

#[local] Abbreviation sample_local bridge path :=
  (local_request Some sample_host sample_port sample_url_path Some Some Some sample_base64 parse_hex_pairs bridge
     (sample_request path) 8765 2 true None).

(** A bridge that answers everything, and one that answers only what is allowed. *)
Definition open_bridge (request : @LocalRequest string) : option LocalResponse := Some sample_response.
Definition careful_bridge (request : @LocalRequest string) : option LocalResponse :=
  if McpHttp.allowed_path (sample_url_path (local_url request)) && one_of ["GET"; "POST"; "DELETE"; "HEAD"; "OPTIONS"] (local_method request)
  then Some sample_response else None.

Lemma loopback_only_witness :
  length (sample_local open_bridge "/mcp") = 4%nat
  /\ sample_local open_bridge "/admin" = [error_packet sample_local_id]
  /\ sample_local open_bridge "/mcp" = sample_local careful_bridge "/mcp".
Proof.
  split; [vm_compute; reflexivity|]. split; [vm_compute; reflexivity|].
  refine (loopback_only Some sample_host sample_port sample_url_path Some Some Some sample_base64 parse_hex_pairs open_bridge
    careful_bridge (sample_request "/mcp") 8765 2 true None _).
  intros request (Hm & _ & _ & Hp & _). unfold careful_bridge. by rewrite Hm, Hp.
Defined.
