(* ===== verification/McpClient.v ===== *)
(** * The desktop's MCP websocket ([https_mcp_wss.rs])

    The session that carries the Relay's MCP requests to the bridge: its receive loop, the
    uploads, the tasks it spawns (what a task sends is [McpLocal.local_request]), and the
    worker that keeps opening sessions.

    A session is a state with one step per event: a branch of the loop's [select], or a step
    of another task of the same runtime.  A step that is not enabled answers [None]. *)

From S2P Require Export McpLocal RelayApi.
Local Open Scope string_scope.

(** ** Data *)

Definition SESSION_TIMEOUT : N := 45000.
Definition RETRY_SECONDS : list N := [1; 2; 5; 10; 30]%N.

(** [mpsc::channel(32)], for the packets and for each upload. *)
Definition CHANNEL : nat := 32.

Definition has_room {A} (queue : list A) : bool := (length queue <? CHANNEL)%nat.
#[global] Arguments has_room : simpl never.

(** A websocket message. *)
Inductive WsMessage :=
| WsText (text : string)
| WsBinary (frame : list byte)
| WsPing (data : string)
| WsPong (data : string)
| WsClosing.

(** What the session writes to the socket. *)
Inductive WsFrame :=
| FramePacket (packet : Outgoing)
| FramePong (data : string).

(** An entry of [uploads]: the sender of the channel of a task, and the bytes so far. *)
Record Upload := { upload_task : N; upload_bytes : N }.

(** A spawned task.  [task_stream] is the receiver of its upload: the chunks queued, or
    [None] when there is none or it was dropped; [task_read] is what the bridge has read from
    it.  An aborted task does nothing more, and keeps its permit until it is dropped. *)
Record Task := {
  task_packet : Value;
  task_version : N;
  task_upload : bool;
  task_stream : option (list (list byte));
  task_read : list byte;
  task_aborted : bool }.

(** [outbound] is the channel of packets; [late] are the error packets whose sender waits
    for room in it in a task of its own; [blocked] is a packet the session's own task waits to
    send. *)
Record Session := {
  version : N;
  accepted : bool;
  last_seen : N;
  uploads : gmap string Upload;
  jobs : gmap string N;
  tasks : gmap N Task;
  next_task : N;
  outbound : list Outgoing;
  late : list Outgoing;
  blocked : option Outgoing;
  written : list WsFrame;
  shown_connected : bool }.

Definition session_start (now : N) (hello : Outgoing) : Session :=
  {| version := 1; accepted := false; last_seen := now; uploads := ∅; jobs := ∅; tasks := ∅; next_task := 0;
     outbound := []; late := []; blocked := None; written := [FramePacket hello]; shown_connected := false |}.

Definition set_uploads (f : gmap string Upload -> gmap string Upload) (s : Session) : Session :=
  {| version := version s; accepted := accepted s; last_seen := last_seen s; uploads := f (uploads s); jobs := jobs s;
     tasks := tasks s; next_task := next_task s; outbound := outbound s; late := late s; blocked := blocked s;
     written := written s; shown_connected := shown_connected s |}.
Definition set_jobs (f : gmap string N -> gmap string N) (s : Session) : Session :=
  {| version := version s; accepted := accepted s; last_seen := last_seen s; uploads := uploads s; jobs := f (jobs s);
     tasks := tasks s; next_task := next_task s; outbound := outbound s; late := late s; blocked := blocked s;
     written := written s; shown_connected := shown_connected s |}.
Definition set_tasks (f : gmap N Task -> gmap N Task) (s : Session) : Session :=
  {| version := version s; accepted := accepted s; last_seen := last_seen s; uploads := uploads s; jobs := jobs s;
     tasks := f (tasks s); next_task := next_task s; outbound := outbound s; late := late s; blocked := blocked s;
     written := written s; shown_connected := shown_connected s |}.
Definition set_outbound (f : list Outgoing -> list Outgoing) (s : Session) : Session :=
  {| version := version s; accepted := accepted s; last_seen := last_seen s; uploads := uploads s; jobs := jobs s;
     tasks := tasks s; next_task := next_task s; outbound := f (outbound s); late := late s; blocked := blocked s;
     written := written s; shown_connected := shown_connected s |}.
Definition set_late (f : list Outgoing -> list Outgoing) (s : Session) : Session :=
  {| version := version s; accepted := accepted s; last_seen := last_seen s; uploads := uploads s; jobs := jobs s;
     tasks := tasks s; next_task := next_task s; outbound := outbound s; late := f (late s); blocked := blocked s;
     written := written s; shown_connected := shown_connected s |}.
Definition set_blocked (b : option Outgoing) (s : Session) : Session :=
  {| version := version s; accepted := accepted s; last_seen := last_seen s; uploads := uploads s; jobs := jobs s;
     tasks := tasks s; next_task := next_task s; outbound := outbound s; late := late s; blocked := b;
     written := written s; shown_connected := shown_connected s |}.
Definition set_last_seen (now : N) (s : Session) : Session :=
  {| version := version s; accepted := accepted s; last_seen := now; uploads := uploads s; jobs := jobs s;
     tasks := tasks s; next_task := next_task s; outbound := outbound s; late := late s; blocked := blocked s;
     written := written s; shown_connected := shown_connected s |}.
Definition write (frame : WsFrame) (s : Session) : Session :=
  {| version := version s; accepted := accepted s; last_seen := last_seen s; uploads := uploads s; jobs := jobs s;
     tasks := tasks s; next_task := next_task s; outbound := outbound s; late := late s; blocked := blocked s;
     written := (written s ++ [frame])%list; shown_connected := shown_connected s |}.

(** The handshake is acknowledged. *)
Definition accept_version (v : N) (s : Session) : Session :=
  {| version := v; accepted := true; last_seen := last_seen s; uploads := uploads s; jobs := jobs s;
     tasks := tasks s; next_task := next_task s; outbound := outbound s; late := late s; blocked := blocked s;
     written := written s; shown_connected := true |}.

Definition set_stream (stream : option (list (list byte))) (t : Task) : Task :=
  {| task_packet := task_packet t; task_version := task_version t; task_upload := task_upload t; task_stream := stream;
     task_read := task_read t; task_aborted := task_aborted t |}.
Definition read_chunk (chunk : list byte) (stream : list (list byte)) (t : Task) : Task :=
  {| task_packet := task_packet t; task_version := task_version t; task_upload := task_upload t; task_stream := Some stream;
     task_read := (task_read t ++ chunk)%list; task_aborted := task_aborted t |}.
Definition set_aborted (t : Task) : Task :=
  {| task_packet := task_packet t; task_version := task_version t; task_upload := task_upload t;
     task_stream := task_stream t; task_read := task_read t; task_aborted := true |}.

(** The session goes on, or returns. *)
Inductive Flow :=
| Continue (s : Session)
| Return (s : Session) (result : Result unit string).

(** ** Uploads *)

(** [if let Some(job) = jobs.0.remove(id) { job.abort(); }] *)
Definition abort_job (id : string) (s : Session) : Session :=
  match jobs s !! id with
  | Some task => set_tasks (alter set_aborted task) (set_jobs (delete id) s)
  | None => s
  end.

(** [outbound.try_send(packet)], and on a full queue a task that waits for room. *)
Definition send_or_later (packet : Outgoing) (s : Session) : Session :=
  if has_room (outbound s) then set_outbound (fun out => (out ++ [packet])%list) s
  else set_late (fun packets => (packets ++ [packet])%list) s.

(** [upload.tx.try_send(data)] *)
Inductive Sent := SentOk (task : Task) | SentFull | SentClosed.

Definition try_send (data : list byte) (task : option Task) : Sent :=
  match task with
  | Some t => match task_stream t with
              | Some queue => if has_room queue then SentOk (set_stream (Some (queue ++ [data])%list) t) else SentFull
              | None => SentClosed
              end
  | None => SentClosed
  end.

Definition enqueue_upload (id : string) (data : list byte) (s : Session) : Session :=
  let_some upload := uploads s !! id else s in
  let bytes := saturating_add (upload_bytes upload) (nlen data) in
  let upload := {| upload_task := upload_task upload; upload_bytes := bytes |} in
  let refuse s := send_or_later (error_packet id) (abort_job id (set_uploads (delete id) s)) in
  if (McpStream.MAX_REQUEST_BYTES <? bytes)%N then refuse s
  else match try_send data (tasks s !! upload_task upload) with
       | SentOk task => set_uploads <[id := upload]> (set_tasks <[upload_task upload := task]> s)
       | SentClosed => set_uploads (delete id) s
       | SentFull => refuse s
       end.

(** ** Packets of the Relay *)

(** [jobs.0.retain(|_, task| !task.is_finished())] *)
Definition unfinished (s : Session) : gmap string N -> gmap string N :=
  retain (fun _ task => bool_decide (is_Some (tasks s !! task))).

Definition new_task (packet : Value) (s : Session) : Task :=
  let upload := (version s =? 2)%N && is_text "binary-v2" (at_key "bodyEncoding" packet) in
  {| task_packet := packet; task_version := version s; task_upload := upload;
     task_stream := if upload then Some [] else None; task_read := []; task_aborted := false |}.

(** [tokio::spawn] of a request that got a permit. *)
Definition spawn (id : string) (packet : Value) (s : Session) : Session :=
  let task := new_task packet s in
  let s := if task_upload task
           then set_uploads <[id := {| upload_task := next_task s; upload_bytes := 0 |}]> s else s in
  let number := next_task s in
  let s := {| version := version s; accepted := accepted s; last_seen := last_seen s; uploads := uploads s; jobs := jobs s;
              tasks := <[number := task]> (tasks s); next_task := number + 1; outbound := outbound s; late := late s;
              blocked := blocked s; written := written s; shown_connected := shown_connected s |} in
  set_jobs (fun jobs => <[id := number]> (unfinished s jobs)) s.

Definition on_request (packet : Value) (s : Session) : Session :=
  let_some id := str_field "requestId" packet else s in
  return_if negb (valid_request_id id) with s in
  if (size (tasks s) <? McpStream.MAX_INFLIGHT)%nat then spawn id packet s
  else if has_room (outbound s) then set_outbound (fun out => (out ++ [error_packet id])%list) s
  else set_blocked (Some (error_packet id)) s.

Definition on_ack (packet : Value) (s : Session) : Flow :=
  match at_key "sessionId" packet with
  | VString _ =>
      Continue (accept_version (if bool_decide (as_u64 (at_key "protocolVersion" packet) = Some 2%N) then 2 else 1) s)
  | _ => Return s (Err "Invalid WSS ack")
  end.

Definition kind_of (packet : Value) : option McpControl.ControlKind :=
  match str_field "type" packet with Some kind => McpControl.parse kind | None => None end.

Definition on_packet (packet : Value) (s : Session) : Flow :=
  match kind_of packet with
  | Some McpControl.HelloAck => on_ack packet s
  | Some McpControl.Request => Continue (if accepted s then on_request packet s else s)
  | Some McpControl.RequestEnd =>
      if (version s =? McpHttp.WSS_PROTOCOL_V2)%N then
        match str_field "requestId" packet with
        | Some id => Continue (set_uploads (delete id) s)
        | None => Continue s
        end
      else Continue s
  | Some McpControl.RequestCancel =>
      if (version s =? McpHttp.WSS_PROTOCOL_V2)%N then
        match str_field "requestId" packet with
        | Some id => Continue (abort_job id (set_uploads (delete id) s))
        | None => Continue s
        end
      else Continue s
  | _ => Continue s
  end.

Section Client.
(** [serde_json::from_str::<Value>] *)
Context (value_from_str : string -> option Value).

(** ** The loop *)

(** The branches of the [select], with the reading of the clock and whether writing to the
    socket works; then the steps of the other tasks. *)
Inductive Event :=
| Stopped
| Heartbeat (now : N) (works : bool)
| Outbound (works : bool)
| Inbound (now : N) (message : option WsMessage) (works : bool)
| TaskReads (task : N)
| TaskStopsReading (task : N)
| TaskSends (task : N) (packet : Outgoing)
| TaskEnds (task : N)
| TaskDropped (task : N)
| LateSends
| LateGivesUp
| Unblocked.

Definition ping_packet : Outgoing := OutText (Object [("type", VString "ping")]).

(** [sink.send(frame).await.map_err(..)?]; the text of the error is the library's. *)
Definition put (frame : WsFrame) (works : bool) (s : Session) : Flow :=
  if works then Continue (write frame s) else Return s (Err "send failed").

Definition on_message (message : WsMessage) (works : bool) (s : Session) : Flow :=
  match message with
  | WsText text => match value_from_str text with Some packet => on_packet packet s | None => Continue s end
  | WsPing data => put (FramePong data) works s
  | WsBinary frame =>
      if accepted s && (version s =? 2)%N then
        match McpStream.decode frame with
        | Some (McpStream.RequestBody, id, data) => Continue (enqueue_upload id data s)
        | _ => Return s (Err "Invalid binary request frame")
        end
      else Continue s
  | WsClosing => Return s (Err "WSS closed")
  | WsPong _ => Continue s
  end.

(** A turn of the loop. *)
Definition select (event : Event) (s : Session) : option Flow :=
  match event with
  | Stopped => Some (Return s (Ok tt))
  | Heartbeat now works =>
      Some (if (SESSION_TIMEOUT <? saturating_sub now (last_seen s))%N then Return s (Err "WSS heartbeat timeout")
            else put (FramePacket ping_packet) works s)
  | Outbound works =>
      match outbound s with
      | packet :: rest => Some (put (FramePacket packet) works (set_outbound (fun _ => rest) s))
      | [] => None
      end
  | Inbound now message works =>
      Some (match message with
            | None => Return s (Err "WSS disconnected")
            | Some message => on_message message works (set_last_seen now s)
            end)
  | _ => None
  end.

(** A live task: it runs and was not aborted. *)
Definition live (s : Session) (task : N) : option Task :=
  match tasks s !! task with Some t => if task_aborted t then None else Some t | None => None end.

(** A step of another task. *)
Definition task_step (event : Event) (s : Session) : option Session :=
  match event with
  | TaskReads n =>
      let_some t := live s n else None in
      match task_stream t with
      | Some (chunk :: stream) => Some (set_tasks <[n := read_chunk chunk stream t]> s)
      | _ => None
      end
  | TaskStopsReading n => let_some t := live s n else None in Some (set_tasks <[n := set_stream None t]> s)
  | TaskSends n packet =>
      let_some _ := live s n else None in
      if has_room (outbound s) then Some (set_outbound (fun out => (out ++ [packet])%list) s) else None
  | TaskEnds n => let_some _ := live s n else None in Some (set_tasks (delete n) s)
  | TaskDropped n =>
      let_some t := tasks s !! n else None in if task_aborted t then Some (set_tasks (delete n) s) else None
  | LateSends =>
      match late s with
      | packet :: rest =>
          if has_room (outbound s)
          then Some (set_late (fun _ => rest) (set_outbound (fun out => (out ++ [packet])%list) s)) else None
      | [] => None
      end
  | LateGivesUp => match late s with _ :: rest => Some (set_late (fun _ => rest) s) | [] => None end
  | _ => None
  end.

(** A step of the session.  While it waits to send a packet itself, no branch of the loop runs. *)
Definition session_step (event : Event) (s : Session) : option Flow :=
  match task_step event s with
  | Some s => Some (Continue s)
  | None =>
      match blocked s with
      | None => select event s
      | Some packet =>
          match event with
          | Unblocked => if has_room (outbound s)
                         then Some (Continue (set_blocked None (set_outbound (fun out => (out ++ [packet])%list) s))) else None
          | _ => None
          end
      end
  end.

(** The session after these events, if each was enabled and it goes on. *)
Fixpoint run (events : list Event) (s : Session) : option Session :=
  match events with
  | [] => Some s
  | event :: events =>
      match session_step event s with
      | Some (Continue s) => run events s
      | _ => None
      end
  end.

(** ** Opening a session *)

Inductive WssConnect := WssStopped | WssTimedOut | WssRefused (error : string) | WssOpen (now : N).

Definition hello_packet : Outgoing :=
  OutText (Object [("protocolVersion", Number (Some 1%N));
                   ("supportedVersions", Array [Number (Some 1%N); Number (Some 2%N)]); ("type", VString "hello")]).

(** Up to the loop: the session, or the result it returns.  [request_error] is what the
    websocket library finds wrong with an address, [header_ok] whether a text can be a header. *)
Definition open_session (request_error : string -> option string) (header_ok : string -> bool) (base_url : string)
    (creds : RelayCredentials) (connect : WssConnect) (hello_works : bool) : Session + Result unit string :=
  match websocket_url base_url ("/v1/ws/mcp?desktopId=" ++ cred_desktop_id creds) with
  | Err e => inr (Err e)
  | Ok url =>
      match request_error url with
      | Some e => inr (Err ("WSS request failed: " ++ e))
      | None =>
          if negb (header_ok ("Bearer " ++ cred_desktop_token creds)) then inr (Err "Invalid desktop credential")
          else match connect with
               | WssStopped => inr (Ok tt)
               | WssTimedOut => inr (Err "WSS connect timeout")
               | WssRefused e => inr (Err ("WSS connect failed: " ++ e))
               | WssOpen now => if hello_works then inl (session_start now hello_packet) else inr (Err "send failed")
               end
      end
  end.
End Client.

(** ** The worker *)

(** What others see of it. *)
Record WssClient := {
  connected : bool;
  last_error : Mutex string;
  running : bool;
  delays : list N }.

(** A turn: the stop seen at the top, the result of the session, the stop seen after it, whether
    retrying is wanted, the stop seen during the sleep. *)
Record Turn := {
  stop_at_top : bool;
  outcome : Result unit string;
  stop_after : bool;
  retry : bool;
  stop_in_sleep : bool }.

Definition finished (c : WssClient) : WssClient :=
  {| connected := connected c; last_error := last_error c; running := false; delays := delays c |}.

(** [connected.store(false)] and the error of the session. *)
Definition after_session (outcome : Result unit string) (c : WssClient) : WssClient :=
  {| connected := false;
     last_error := update_locked (fun _ => match outcome with Err e => e | Ok _ => "" end) (last_error c);
     running := running c; delays := delays c |}.

Definition retry_delay (attempts : nat) : N := nth (Nat.min attempts (length RETRY_SECONDS - 1)) RETRY_SECONDS 0%N.

Fixpoint worker (turns : list Turn) (attempts : nat) (c : WssClient) : WssClient :=
  match turns with
  | [] => c
  | turn :: turns =>
      if stop_at_top turn then finished c
      else
        let c := after_session (outcome turn) c in
        if stop_after turn || negb (retry turn) then finished c
        else
          let c := {| connected := connected c; last_error := last_error c; running := running c;
                      delays := (delays c ++ [retry_delay attempts])%list |} in
          if stop_in_sleep turn then finished c else worker turns (S attempts) c
  end.

Definition client_alive (c : WssClient) : bool := running c.
Definition client_connected (c : WssClient) : bool := client_alive c && connected c.
Definition client_last_error (c : WssClient) : option string :=
  match lock (last_error c) with
  | Some error => if is_empty error then None else Some error
  | None => None
  end.

(** ** Properties *)

#[local] Existing Instance McpControl.ControlKind_eq_dec.

Section ClientProps.
Context (value_from_str : string -> option Value).

Lemma has_room_lt {A} (queue : list A) : has_room queue = true <-> (length queue < CHANNEL)%nat.
Proof. apply Nat.ltb_lt. Qed.

#[local] Abbreviation step := (session_step value_from_str).
#[local] Abbreviation runs := (run value_from_str).

Lemma run_app evs evs' s : runs (evs ++ evs') s = match runs evs s with Some s' => runs evs' s' | None => None end.
Proof. revert s. induction evs as [|e evs IH]; intros s; cbn; [done|]. destruct (step e s) as [[]|]; [apply IH|done..]. Qed.

(** Any invariant of the steps is one of the runs. *)
Lemma run_invariant (I : list Event -> Session -> Prop) evs s s' :
  (forall done e x x', I done x -> In e evs -> step e x = Some (Continue x') -> I (done ++ [e])%list x') ->
  I [] s -> runs evs s = Some s' -> I evs s'.
Proof.
  intros Hstep. revert s'. induction evs as [|e evs IH] using rev_ind; intros s' H0; [by intros [= <-]|].
  rewrite run_app. destruct (runs evs s) as [x|] eqn:Hx; [|done]. cbn.
  destruct (step e x) as [[x'|]|] eqn:He; [|done..]. intros [= <-].
  eapply Hstep; [eapply IH; [|done|done]|apply in_app_iff; right; by left|exact He].
  intros ds e0 y y' Hy Hin. apply Hstep; [done|]. apply in_app_iff. by left.
Qed.

(** What the properties below look at. *)
Definition core (s : Session) := (version s, accepted s, uploads s, jobs s, tasks s, next_task s).

(** *** The kinds of a step *)

Inductive effect (e : Event) (s s' : Session) : Prop :=
| eff_none : core s' = core s -> (forall now f w, e <> Inbound now (Some (WsBinary f)) w \/ accepted s && (version s =? 2)%N = false) ->
    (length (outbound s') <= Nat.max (length (outbound s)) CHANNEL)%nat -> effect e s s'
| eff_reads n t chunk stream : live s n = Some t -> task_stream t = Some (chunk :: stream) ->
    s' = set_tasks <[n := read_chunk chunk stream t]> s -> (forall now f w, e <> Inbound now (Some (WsBinary f)) w) -> effect e s s'
| eff_stops n t : live s n = Some t -> s' = set_tasks <[n := set_stream None t]> s ->
    (forall now f w, e <> Inbound now (Some (WsBinary f)) w) -> effect e s s'
| eff_ends n : s' = set_tasks (delete n) s -> (forall now f w, e <> Inbound now (Some (WsBinary f)) w) -> effect e s s'
| eff_ack now text w packet v : e = Inbound now (Some (WsText text)) w -> value_from_str text = Some packet ->
    kind_of packet = Some McpControl.HelloAck -> s' = accept_version v (set_last_seen now s) -> effect e s s'
| eff_spawn now text w packet id : e = Inbound now (Some (WsText text)) w -> value_from_str text = Some packet ->
    kind_of packet = Some McpControl.Request -> str_field "requestId" packet = Some id -> valid_request_id id = true ->
    (size (tasks s) < McpStream.MAX_INFLIGHT)%nat -> s' = spawn id packet (set_last_seen now s) -> effect e s s'
| eff_end now text w packet id : e = Inbound now (Some (WsText text)) w -> value_from_str text = Some packet ->
    kind_of packet = Some McpControl.RequestEnd -> str_field "requestId" packet = Some id ->
    s' = set_uploads (delete id) (set_last_seen now s) -> effect e s s'
| eff_cancel now text w id : e = Inbound now (Some (WsText text)) w ->
    s' = abort_job id (set_uploads (delete id) (set_last_seen now s)) -> effect e s s'
| eff_frame now f w id data : e = Inbound now (Some (WsBinary f)) w ->
    McpStream.decode f = Some (McpStream.RequestBody, id, data) -> s' = enqueue_upload id data (set_last_seen now s) -> effect e s s'.

Lemma live_Some s n t : live s n = Some t <-> tasks s !! n = Some t /\ task_aborted t = false.
Proof.
  unfold live. destruct (tasks s !! n) as [t'|]; [|naive_solver]. destruct (task_aborted t') eqn:Ha; split; [done|intros [[= ->] ?]; congruence|by intros [= ->]|by intros [[= ->] _]].
Qed.

Lemma task_step_effect e s s' : task_step e s = Some s' -> effect e s s'.
Proof.
  intros H. destruct e as [| | | |n|n|n p|n|n| | |]; cbn in H; try done.
  - destruct (live s n) as [t|] eqn:Hl; [|done]. destruct (task_stream t) as [[|chunk stream]|] eqn:Ht; try done.
    injection H as <-. by eapply eff_reads.
  - destruct (live s n) as [t|] eqn:Hl; [|done]. injection H as <-. by eapply eff_stops.
  - destruct (live s n); [|done]. destruct (has_room _) eqn:Hlt; [|done]. injection H as <-.
    apply has_room_lt in Hlt. apply eff_none; [done|by left|]. cbn. rewrite length_app. cbn. lia.
  - destruct (live s n); [|done]. injection H as <-. by eapply eff_ends.
  - destruct (tasks s !! n) as [t|]; [|done]. destruct (task_aborted t); [|done]. injection H as <-. by eapply eff_ends.
  - destruct (late s) as [|p rest]; [done|]. destruct (has_room _) eqn:Hlt; [|done]. injection H as <-.
    apply has_room_lt in Hlt. apply eff_none; [done|by left|]. cbn. rewrite length_app. cbn. lia.
  - destruct (late s) as [|p rest]; [done|]. injection H as <-. apply eff_none; [done|by left|cbn; lia].
Qed.

Lemma on_packet_effect now text w packet s s' :
  value_from_str text = Some packet -> on_packet packet (set_last_seen now s) = Continue s' ->
  effect (Inbound now (Some (WsText text)) w) s s'.
Proof.
  intros Hv H. unfold on_packet in H.
  assert (forall x, Continue x = Continue s' -> core x = core s -> outbound x = outbound s ->
    effect (Inbound now (Some (WsText text)) w) s s') as Hnone.
  { intros x [= ->] Hc Ho. apply eff_none; [done|by left|]. rewrite Ho. lia. }
  destruct (kind_of packet) as [[]|] eqn:Hk; try (by eapply Hnone).
  - unfold on_ack in H. destruct (at_key "sessionId" packet); try done. injection H as <-. by eapply eff_ack.
  - destruct (accepted _); [|by eapply Hnone]. unfold on_request in H.
    destruct (str_field "requestId" packet) as [id|] eqn:Hid; [|by eapply Hnone].
    destruct (negb (valid_request_id id)) eqn:Hval; [by eapply Hnone|]. apply negb_false_iff in Hval.
    destruct (_ <? McpStream.MAX_INFLIGHT)%nat eqn:Hlt; [injection H as <-; eapply eff_spawn; try done; by apply Nat.ltb_lt|].
    destruct (has_room _) eqn:Hr; injection H as <-; (apply eff_none; [done|by left|]); cbn; [|lia].
    apply has_room_lt in Hr. rewrite length_app. cbn in *. lia.
  - destruct (_ =? _)%N; [|by eapply Hnone]. destruct (str_field _ _) as [id|] eqn:Hid; [|by eapply Hnone].
    injection H as <-. by eapply eff_end.
  - destruct (_ =? _)%N; [|by eapply Hnone]. destruct (str_field _ _) as [id|] eqn:Hid; [|by eapply Hnone].
    injection H as <-. by eapply eff_cancel.
Qed.

Lemma step_effect e s s' : step e s = Some (Continue s') -> effect e s s'.
Proof.
  unfold session_step. destruct (task_step e s) as [x|] eqn:Ht; [intros [= ->]; by apply task_step_effect|].
  destruct (blocked s) as [p|].
  { destruct e; try done. destruct (has_room _) eqn:Hr; [|done]. intros [= <-]. apply has_room_lt in Hr.
    apply eff_none; [done|by left|]. cbn. rewrite length_app. cbn. lia. }
  assert (forall x, core x = core s -> (length (outbound x) <= length (outbound s))%nat ->
    (forall now f w, e <> Inbound now (Some (WsBinary f)) w \/ accepted s && (version s =? 2)%N = false) -> effect e s x) as Hnone
    by (intros; apply eff_none; [done|done|lia]).
  intros H. destruct e as [|now works|works|now m works| | | | | | | |]; cbn in H; try done.
  - destruct (_ <? _)%N; [done|]. destruct works; [|done]. injection H as <-. apply Hnone; [done|done|by left].
  - destruct (outbound s) as [|p rest] eqn:Ho; [done|]. destruct works; [|done]. injection H as <-.
    apply Hnone; [done|cbn; rewrite ?Ho; cbn; lia|by left].
  - destruct m as [m|]; [|done]. injection H as H. destruct m as [text|f|d|d|]; cbn [on_message] in H.
    + destruct (value_from_str text) as [packet|] eqn:Hv; [by eapply on_packet_effect|].
      injection H as <-. apply Hnone; [done..|by left].
    + cbn in H. destruct (accepted s && _) eqn:Ha; [|injection H as <-; apply Hnone; [done..|by right]].
      destruct (McpStream.decode f) as [[[[] id] data]|] eqn:Hd; try done. injection H as <-. by eapply eff_frame.
    + destruct works; [|done]. injection H as <-. apply Hnone; [done..|by left].
    + injection H as <-. apply Hnone; [done..|by left].
    + done.
Qed.

(** *** Bounds *)

Lemma size_alter {A} (f : A -> A) k (m : gmap N A) : size (alter f k m) = size m.
Proof.
  destruct (m !! k) as [x|] eqn:Hx.
  - assert (alter f k m = <[k := f x]> m) as ->
      by (apply map_eq; intros i; destruct (decide (i = k)) as [->|]; by simplify_map_eq).
    by rewrite map_size_insert, Hx.
  - f_equal. apply map_eq. intros i. destruct (decide (i = k)) as [->|]; by simplify_map_eq.
Qed.

(** Handles of distinct running tasks are at most as many as the tasks. *)
Lemma size_handles {A} (handles : gmap string N) (running : gmap N A) :
  (forall id id' n, handles !! id = Some n -> handles !! id' = Some n -> id = id') ->
  (forall id n, handles !! id = Some n -> is_Some (running !! n)) ->
  (size handles <= size running)%nat.
Proof.
  revert running. induction handles as [|id n handles Hid IH] using map_ind; intros running Hinj Hin; [rewrite map_size_empty; lia|].
  rewrite map_size_insert_None by done.
  assert (is_Some (running !! n)) as Hn by (eapply (Hin id); by simplify_map_eq).
  pose proof (map_size_delete_Some n running Hn) as Hsz.
  assert (size running <> 0)%nat by (intros Hz; apply map_size_empty_inv in Hz as ->; rewrite lookup_empty in Hn; by destruct Hn).
  enough (size handles <= size (delete n running))%nat by lia. apply IH.
  - intros i j m Hi Hj. eapply Hinj; (rewrite lookup_insert_ne; [done|congruence]).
  - intros i m Hi. assert (m <> n) as Hne.
    { intros ->. assert (id = i); [|congruence].
      eapply Hinj; [apply lookup_insert_eq|rewrite lookup_insert_ne; [done|congruence]]. }
    rewrite lookup_delete_ne by done. eapply (Hin i). rewrite lookup_insert_ne; [done|congruence].
Qed.

(** Numbers of tasks are used once. *)
Record numbered (s : Session) : Prop := {
  num_tasks : forall n, is_Some (tasks s !! n) -> (n < next_task s)%N;
  num_jobs : forall id n, jobs s !! id = Some n -> (n < next_task s)%N;
  num_uploads : forall id up, uploads s !! id = Some up -> (upload_task up < next_task s)%N;
  num_handles : forall id id' n, jobs s !! id = Some n -> jobs s !! id' = Some n -> id = id' }.

Record bounded (s : Session) : Prop := {
  bound_tasks : (size (tasks s) <= McpStream.MAX_INFLIGHT)%nat;
  bound_jobs : (size (jobs s) <= McpStream.MAX_INFLIGHT)%nat;
  bound_uploads : forall id up, uploads s !! id = Some up -> (upload_bytes up <= McpStream.MAX_REQUEST_BYTES)%N;
  bound_queues : forall n t q, tasks s !! n = Some t -> task_stream t = Some q -> (length q <= CHANNEL)%nat;
  bound_outbound : (length (outbound s) <= CHANNEL)%nat }.

Lemma core_fields s s' : core s' = core s ->
  version s' = version s /\ accepted s' = accepted s /\ uploads s' = uploads s /\ jobs s' = jobs s /\ tasks s' = tasks s
  /\ next_task s' = next_task s.
Proof. unfold core. intros [=]. by split_and!. Qed.

Lemma abort_job_fields id s :
  uploads (abort_job id s) = uploads s /\ next_task (abort_job id s) = next_task s /\ outbound (abort_job id s) = outbound s
  /\ version (abort_job id s) = version s /\ accepted (abort_job id s) = accepted s
  /\ jobs (abort_job id s) = delete id (jobs s)
  /\ exists k, tasks (abort_job id s) = alter set_aborted k (tasks s) \/ tasks (abort_job id s) = tasks s.
Proof.
  unfold abort_job. destruct (jobs s !! id) as [n|] eqn:Hj; split_and!; try done.
  - exists n. by left.
  - by rewrite delete_id.
  - exists 0%N. by right.
Qed.

Lemma send_or_later_fields p s : core (send_or_later p s) = core s
  /\ (length (outbound (send_or_later p s)) <= Nat.max (length (outbound s)) CHANNEL)%nat.
Proof.
  unfold send_or_later. destruct (has_room _) eqn:Hr; (split; [done|]); cbn; [|lia].
  apply has_room_lt in Hr. rewrite length_app. cbn. lia.
Qed.

(** A step on the tables alone: what remains of each is as it was, tasks may change state. *)
Definition shrinks (s s' : Session) : Prop :=
  next_task s' = next_task s /\ jobs s' ⊆ jobs s
  /\ (forall id up, uploads s' !! id = Some up -> exists up0, uploads s !! id = Some up0 /\ upload_task up = upload_task up0
        /\ (up = up0 \/ (upload_bytes up <= McpStream.MAX_REQUEST_BYTES)%N))
  /\ (size (tasks s') <= size (tasks s))%nat
  /\ (forall n t, tasks s' !! n = Some t -> exists t0, tasks s !! n = Some t0
        /\ (task_stream t = task_stream t0 \/ match task_stream t with Some q => (length q <= CHANNEL)%nat | None => True end
            \/ exists chunk q, task_stream t0 = Some (chunk :: q) /\ task_stream t = Some q))
  /\ (length (outbound s') <= Nat.max (length (outbound s)) CHANNEL)%nat.

Lemma shrinks_bounded s s' : shrinks s s' -> numbered s -> bounded s -> numbered s' /\ bounded s'.
Proof.
  intros (Hn & Hj & Hu & Hsz & Ht & Ho) [N1 N2 N3 N4] [B1 B2 B3 B4 B5].
  assert (forall id n, jobs s' !! id = Some n -> jobs s !! id = Some n) as Hjl by (intros; by eapply lookup_weaken).
  split; split; rewrite ?Hn.
  - intros n [t (t0 & H0 & _)%Ht]. apply N1. by exists t0.
  - intros id n H%Hjl. by eapply N2.
  - intros id up (up0 & H0 & -> & _)%Hu. by eapply N3.
  - intros id id' n H%Hjl H'%Hjl. by eapply N4.
  - lia.
  - pose proof (map_subseteq_size _ _ Hj). lia.
  - intros id up (up0 & H0 & _ & [->|?])%Hu; [by eapply B3|done].
  - intros n t q (t0 & H0 & Hs)%Ht Hq. rewrite Hq in Hs. destruct Hs as [Hs|[?|(c & q' & Hs & [= <-])]]; [by eapply B4|done|].
    pose proof (B4 n t0 _ H0 Hs) as Hl. cbn in Hl. lia.
  - lia.
Qed.

Lemma refuse_upload_shrinks id s : shrinks s (send_or_later (error_packet id) (abort_job id (set_uploads (delete id) s))).
Proof.
  destruct (send_or_later_fields (error_packet id) (abort_job id (set_uploads (delete id) s))) as [Hc Ho].
  apply core_fields in Hc as (_ & _ & Hu & Hj & Ht & Hn).
  destruct (abort_job_fields id (set_uploads (delete id) s)) as (Hu' & Hn' & Ho' & _ & _ & Hj' & k & Hk).
  unfold shrinks. rewrite Hn, Hn', Hj, Hj', Hu, Hu', Ht. cbn in *. rewrite Ho' in Ho. split_and!; try done.
  - apply delete_subseteq.
  - intros i up [_ H]%lookup_delete_Some. exists up. split_and!; [done|done|by left].
  - destruct Hk as [-> | ->]; [by rewrite size_alter|done].
  - intros n t H. destruct Hk as [-> | ->] in H; [|exists t; split; [done|by left]].
    destruct (decide (n = k)) as [->|Hne].
    + rewrite lookup_alter_eq in H. destruct (tasks s !! k) as [t0|]; [|done]. injection H as <-. exists t0. split; [done|by left].
    + rewrite lookup_alter_ne in H by done. exists t. split; [done|by left].
Qed.

Lemma core_shrinks s s' : core s' = core s -> (length (outbound s') <= Nat.max (length (outbound s)) CHANNEL)%nat -> shrinks s s'.
Proof.
  intros Hc Ho. apply core_fields in Hc as (_ & _ & Hu & Hj & Ht & Hn). unfold shrinks. rewrite Hu, Hj, Ht, Hn.
  split_and!; try done.
  - intros id up H. exists up. split_and!; [done|done|by left].
  - intros n t H. exists t. split; [done|by left].
Qed.

Lemma insert_task_shrinks n t t0 s : tasks s !! n = Some t0 ->
  (task_stream t = task_stream t0 \/ match task_stream t with Some q => (length q <= CHANNEL)%nat | None => True end
   \/ exists chunk q, task_stream t0 = Some (chunk :: q) /\ task_stream t = Some q) ->
  shrinks s (set_tasks <[n := t]> s).
Proof.
  intros H0 Hs. unfold shrinks. cbn. split_and!; try done.
  - intros id up H. exists up. split_and!; [done|done|by left].
  - rewrite map_size_insert, H0. done.
  - intros m x H. apply lookup_insert_Some in H as [[<- <-]|[_ H]]; [by exists t0|exists x; split; [done|by left]].
  - lia.
Qed.

Lemma delete_uploads_shrinks id s : shrinks s (set_uploads (delete id) s).
Proof.
  unfold shrinks. cbn. split_and!; try done; [..|lia].
  - intros i up [_ H]%lookup_delete_Some. exists up. split_and!; [done|done|by left].
  - intros n t H. exists t. split; [done|by left].
Qed.

Lemma enqueue_shrinks id data s : shrinks s (enqueue_upload id data s).
Proof.
  unfold enqueue_upload. destruct (uploads s !! id) as [up|] eqn:Hup; [|apply core_shrinks; [done|lia]].
  destruct (_ <? _)%N eqn:Hlim; [apply refuse_upload_shrinks|]. apply N.ltb_ge in Hlim. cbn [upload_task].
  destruct (tasks s !! upload_task up) as [t|] eqn:Ht; [|apply delete_uploads_shrinks]. unfold try_send.
  destruct (task_stream t) as [q|] eqn:Hq; [|apply delete_uploads_shrinks].
  destruct (has_room q) eqn:Hr; [|apply refuse_upload_shrinks]. apply has_room_lt in Hr.
  unfold shrinks. cbn. split_and!; try done; [..|lia].
  - intros i up' H. apply lookup_insert_Some in H as [[<- <-]|[_ H]]; [exists up|exists up'; split_and!; [done|done|by left]].
    cbn. split_and!; [done|done|by right].
  - rewrite map_size_insert, Ht. done.
  - intros n x H. apply lookup_insert_Some in H as [[<- <-]|[_ H]]; [|exists x; split; [done|by left]].
    exists t. split; [done|]. right. left. cbn. rewrite length_app. cbn. lia.
Qed.

Lemma abort_job_shrinks id s : shrinks s (abort_job id s).
Proof.
  destruct (abort_job_fields id s) as (Hu & Hn & Ho & _ & _ & Hj & k & Hk). unfold shrinks. rewrite Hu, Hn, Ho, Hj.
  split_and!; try done; [apply delete_subseteq|..|lia].
  - intros i up H. exists up. split_and!; [done|done|by left].
  - destruct Hk as [-> | ->]; [by rewrite size_alter|done].
  - intros n t H. destruct Hk as [-> | ->] in H; [|exists t; split; [done|by left]].
    destruct (decide (n = k)) as [->|Hne]; [|rewrite lookup_alter_ne in H by done; exists t; split; [done|by left]].
    rewrite lookup_alter_eq in H. destruct (tasks s !! k) as [t0|]; [|done]. injection H as <-. exists t0. split; [done|by left].
Qed.

Lemma spawn_fields id packet s :
  let s' := spawn id packet s in
  tasks s' = <[next_task s := new_task packet s]> (tasks s) /\ next_task s' = (next_task s + 1)%N
  /\ jobs s' = <[id := next_task s]> (unfinished s' (jobs s)) /\ outbound s' = outbound s
  /\ version s' = version s /\ accepted s' = accepted s
  /\ uploads s' = if task_upload (new_task packet s)
                  then <[id := {| upload_task := next_task s; upload_bytes := 0 |}]> (uploads s) else uploads s.
Proof. unfold spawn. by destruct (task_upload (new_task packet s)). Qed.

Lemma spawn_bounded id packet s :
  numbered s -> bounded s -> (size (tasks s) < McpStream.MAX_INFLIGHT)%nat -> numbered (spawn id packet s) /\ bounded (spawn id packet s).
Proof.
  intros [N1 N2 N3 N4] [B1 B2 B3 B4 B5] Hsz.
  destruct (spawn_fields id packet s) as (Ht & Hn & Hj & Ho & _ & _ & Hu).
  assert (tasks s !! next_task s = None) as Hnew.
  { destruct (tasks s !! next_task s) eqn:H; [|done]. assert (next_task s < next_task s)%N by (by apply N1). lia. }
  assert (forall i n, jobs (spawn id packet s) !! i = Some n ->
    (i = id /\ n = next_task s) \/ (i <> id /\ jobs s !! i = Some n /\ is_Some (tasks (spawn id packet s) !! n))) as Hjobs.
  { intros i n. rewrite Hj, lookup_insert_Some. intros [[-> <-]|[Hne H]]; [by left|right].
    apply lookup_retain in H as [H Hb%bool_decide_eq_true]. by split_and!. }
  assert (forall i up, uploads (spawn id packet s) !! i = Some up ->
    up = {| upload_task := next_task s; upload_bytes := 0 |} \/ uploads s !! i = Some up) as Hups.
  { intros i up. rewrite Hu. destruct (task_upload _); [|by right]. rewrite lookup_insert_Some. intros [[_ <-]|[_ ?]]; auto. }
  assert (numbered (spawn id packet s)) as HN.
  { split; rewrite ?Hn.
    - intros n. rewrite Ht. intros [t [[<- _]|[_ H]]%lookup_insert_Some]; [lia|].
      assert (n < next_task s)%N by (apply N1; by exists t). lia.
    - intros i n [[_ ->]|(_ & H & _)]%Hjobs; [lia|]. apply N2 in H. lia.
    - intros i up [->|H]%Hups; [cbn; lia|]. apply N3 in H. lia.
    - intros i i' n [[-> ->]|(Hi & H & _)]%Hjobs [[-> He]|(Hi' & H' & _)]%Hjobs; try done.
      + apply N2 in H'. lia.
      + subst. apply N2 in H. lia.
      + by eapply N4. }
  split; [done|]. split.
  - rewrite Ht, map_size_insert_None by done. lia.
  - transitivity (size (tasks (spawn id packet s))).
    + apply size_handles; [apply (num_handles _ HN)|]. intros i n [[_ ->]|(_ & _ & H)]%Hjobs; [|done].
      rewrite Ht. by rewrite lookup_insert_eq.
    + rewrite Ht, map_size_insert_None by done. lia.
  - intros i up [->|H]%Hups; [vm_compute; discriminate|by eapply B3].
  - intros n t q. rewrite Ht, lookup_insert_Some. intros [[_ <-]|[_ H]]; [|by eapply B4].
    cbn. destruct (_ && _); [|done]. intros [= <-]. cbn. lia.
  - by rewrite Ho.
Qed.

Lemma step_bounded e s s' : step e s = Some (Continue s') -> numbered s -> bounded s -> numbered s' /\ bounded s'.
Proof.
  intros H%step_effect HN HB. assert (forall now, numbered (set_last_seen now s) /\ bounded (set_last_seen now s)) as Hseen
    by (intros now; by split; destruct HN, HB).
  destruct H as [Hc _ Ho|n t chunk stream Hl Ht -> _|n t Hl -> _|n -> _|now text w p v _ _ _ ->
    |now text w p id _ _ _ _ _ Hsz ->|now text w p id _ _ _ _ ->|now text w id _ ->|now f w id data _ _ ->].
  - by eapply shrinks_bounded; [apply core_shrinks|..].
  - eapply shrinks_bounded; [|done|done]. apply live_Some in Hl as [Hl _]. eapply insert_task_shrinks; [done|].
    right. right. by exists chunk, stream.
  - eapply shrinks_bounded; [|done|done]. apply live_Some in Hl as [Hl _]. eapply insert_task_shrinks; [done|]. right. by left.
  - eapply shrinks_bounded; [|done|done]. unfold shrinks. cbn. split_and!; try done; [| |..|lia].
    + intros id up H. exists up. split_and!; [done|done|by left].
    + apply size_delete_le.
    + intros m t [_ H]%lookup_delete_Some. exists t. split; [done|by left].
  - split; [by destruct HN|by destruct HB].
  - apply spawn_bounded; [apply Hseen..|done].
  - eapply shrinks_bounded; [apply delete_uploads_shrinks|apply Hseen..].
  - destruct (shrinks_bounded _ _ (delete_uploads_shrinks id (set_last_seen now s)) (proj1 (Hseen now)) (proj2 (Hseen now)))
      as [HN1 HB1]. eapply shrinks_bounded; [apply abort_job_shrinks|done..].
  - eapply shrinks_bounded; [apply enqueue_shrinks|apply Hseen..].
Qed.

Lemma start_bounded now hello : numbered (session_start now hello) /\ bounded (session_start now hello).
Proof.
  split; split; cbn; try (intros *; rewrite lookup_empty; done); try (rewrite map_size_empty; lia); try lia.
Qed.

Lemma run_bounded now hello evs s : runs evs (session_start now hello) = Some s -> numbered s /\ bounded s.
Proof.
  intros H. eapply (run_invariant (fun _ x => numbered x /\ bounded x)) in H; [done| |apply start_bounded].
  intros _ e x x' [HN HB] _ Hs. by eapply step_bounded.
Qed.


(** *** Uploads *)

(** What an event brings for an upload, and whether it is its end, a request of that name, or an
    acknowledgement. *)
Definition frame_of (id : string) (e : Event) : list byte :=
  match e with
  | Inbound _ (Some (WsBinary f)) _ =>
      match McpStream.decode f with
      | Some (McpStream.RequestBody, id', data) => if String.eqb id' id then data else []
      | _ => []
      end
  | _ => []
  end.
Definition frames (id : string) (evs : list Event) : list byte := concat (map (frame_of id) evs).

Definition packet_of (e : Event) : option Value :=
  match e with Inbound _ (Some (WsText text)) _ => value_from_str text | _ => None end.
Definition says (kind : McpControl.ControlKind) (e : Event) : bool :=
  match packet_of e with Some packet => bool_decide (kind_of packet = Some kind) | None => false end.
Definition names (id : string) (e : Event) : bool :=
  match packet_of e with Some packet => bool_decide (str_field "requestId" packet = Some id) | None => false end.
Definition ends_upload (id : string) (e : Event) : bool := says McpControl.RequestEnd e && names id e.
(** No acknowledgement, and no other request of the same name. *)
Definition undisturbed (id : string) (e : Event) : bool :=
  negb (says McpControl.HelloAck e) && negb (says McpControl.Request e && names id e).

(** The bridge reading the body of a task sees its end: nothing is queued and the sender is gone. *)
Definition body_ended (s : Session) (n : N) : Prop :=
  exists t, tasks s !! n = Some t /\ task_stream t = Some [] /\ forall id up, uploads s !! id = Some up -> upload_task up <> n.

Lemma frames_snoc id evs e : frames id (evs ++ [e]) = (frames id evs ++ frame_of id e)%list.
Proof. unfold frames. rewrite map_app, concat_app. cbn. by rewrite app_nil_r. Qed.

(** The upload of task [n] ended after the events [evs] with these bytes. *)
Definition ended_with (id : string) (evs : list Event) (bytes : list byte) : Prop :=
  exists a e b, evs = (a ++ e :: b)%list /\ ends_upload id e = true /\ bytes = frames id a.

Lemma ended_with_snoc id evs e bytes : ended_with id evs bytes -> ended_with id (evs ++ [e]) bytes.
Proof. intros (a & x & b & -> & Hx & ->). exists a, x, (b ++ [e])%list. by rewrite <- app_assoc. Qed.

(** What is known of the task [n] that was spawned for [id], after the events [evs]. *)
Record tracks (id : string) (n : N) (evs : list Event) (s : Session) : Prop := {
  tr_version : version s = 2%N /\ accepted s = true;
  tr_next : (n < next_task s)%N;
  tr_owner : forall id' up, uploads s !! id' = Some up -> upload_task up = n -> id' = id;
  tr_entry : forall up, uploads s !! id = Some up -> upload_task up = n;
  tr_job : is_Some (uploads s !! id) -> is_Some (tasks s !! n) -> jobs s !! id = Some n;
  tr_prefix : forall t, tasks s !! n = Some t -> exists rest, frames id evs = (task_read t ++ rest)%list;
  tr_stream : forall t q, tasks s !! n = Some t -> task_aborted t = false -> task_stream t = Some q ->
    if decide (is_Some (uploads s !! id)) then (task_read t ++ concat q)%list = frames id evs
    else ended_with id evs (task_read t ++ concat q) }.

(** A step that queues nothing for the task and leaves what matters as it was. *)
Lemma tracks_same id n evs s e s' :
  tracks id n evs s -> frame_of id e = [] \/ uploads s !! id = None -> version s' = version s -> accepted s' = accepted s ->
  (next_task s <= next_task s')%N -> (forall i up, uploads s' !! i = Some up -> upload_task up = n \/ i = id -> uploads s !! i = Some up) ->
  uploads s' !! id = uploads s !! id -> tasks s' !! n = tasks s !! n ->
  (is_Some (uploads s !! id) -> is_Some (tasks s !! n) -> jobs s !! id = Some n -> jobs s' !! id = Some n) ->
  tracks id n (evs ++ [e]) s'.
Proof.
  intros [[T1 T2] T3 T4 T5 T6 T7 T8] Hf Hv Ha Hn Hu Hid Ht Hj. split; rewrite ?Hv, ?Ha, ?Hid, ?Ht.
  - done.
  - lia.
  - intros i up Hi Hup. eapply T4; [|done]. eapply Hu; [done|by left].
  - intros up Hup. eapply T5, Hup.
  - intros H1 H2. apply Hj; auto.
  - intros t [rest Hr]%T7. exists (rest ++ frame_of id e)%list. by rewrite frames_snoc, Hr, app_assoc.
  - intros t q H1 H2 H3. specialize (T8 t q H1 H2 H3). destruct (decide _) as [[up Hup]|]; [|by apply ended_with_snoc].
    destruct Hf as [Hf|?]; [|congruence]. by rewrite frames_snoc, Hf, app_nil_r.
Qed.

(** A live task has read, and has queued, the first bytes of what came. *)
Lemma tracks_queued id n evs s t q :
  tracks id n evs s -> tasks s !! n = Some t -> task_aborted t = false -> task_stream t = Some q ->
  exists rest, frames id evs = (task_read t ++ concat q ++ rest)%list.
Proof.
  intros T Ht Ha Hq. pose proof (tr_stream _ _ _ _ T t q Ht Ha Hq) as H. destruct (decide _).
  - exists []. by rewrite app_nil_r.
  - destruct H as (a & e & b & -> & _ & H). exists (frames id (e :: b)). unfold frames.
    rewrite map_app, concat_app. rewrite app_assoc. by f_equal.
Qed.

(** The task stops reading, is aborted or gone. *)
Lemma tracks_silenced id n evs s e s' :
  tracks id n evs s -> version s' = version s -> accepted s' = accepted s -> next_task s' = next_task s ->
  (forall i up, uploads s' !! i = Some up -> uploads s !! i = Some up) ->
  (is_Some (uploads s' !! id) -> is_Some (tasks s' !! n) -> jobs s !! id = Some n -> jobs s' !! id = Some n) ->
  (forall t', tasks s' !! n = Some t' -> (task_aborted t' = true \/ task_stream t' = None)
     /\ exists t, tasks s !! n = Some t /\ task_read t' = task_read t) -> tracks id n (evs ++ [e]) s'.
Proof.
  intros [[T1 T2] T3 T4 T5 T6 T7 T8] Hv Ha Hn Hu Hj Ht. split; rewrite ?Hv, ?Ha, ?Hn; try done.
  - intros i up Hi%Hu. by eapply T4.
  - intros up Hup%Hu. by eapply T5.
  - intros [up Hup] Ht'. apply Hj; [by exists up|done|]. apply T6; [exists up; by apply Hu|].
    destruct Ht' as [t' Ht']. destruct (Ht t' Ht') as (_ & t & ? & _). by exists t.
  - intros t' H. destruct (Ht t' H) as (_ & t & [rest Hr]%T7 & ->). exists (rest ++ frame_of id e)%list.
    by rewrite frames_snoc, Hr, app_assoc.
  - intros t' q H Hna Hq. destruct (Ht t' H) as ([?|?] & _); congruence.
Qed.

(** The bridge reads the next chunk. *)
Lemma tracks_reads id n evs s e t chunk q :
  tracks id n evs s -> frame_of id e = [] -> tasks s !! n = Some t -> task_aborted t = false -> task_stream t = Some (chunk :: q) ->
  tracks id n (evs ++ [e]) (set_tasks <[n := read_chunk chunk q t]> s).
Proof.
  intros T Hf Ht Ha Hq. destruct (tracks_queued _ _ _ _ _ _ T Ht Ha Hq) as [rest Hrest].
  destruct T as [[T1 T2] T3 T4 T5 T6 T7 T8]. split; cbn; try done.
  - intros H _. by apply T6.
  - intros t' H. rewrite lookup_insert_eq in H. injection H as <-. rewrite frames_snoc, Hf, app_nil_r. exists (concat q ++ rest)%list. cbn.
    by rewrite Hrest, <- app_assoc; cbn; rewrite <- app_assoc.
  - intros t' q' H _ Hq'. rewrite lookup_insert_eq in H. injection H as <-. cbn in Hq' |- *. injection Hq' as <-.
    specialize (T8 _ _ Ht Ha Hq). cbn in T8. rewrite <- app_assoc, frames_snoc, Hf, app_nil_r.
    destruct (decide _); [done|by apply ended_with_snoc].
Qed.

(** The end of the upload. *)
Lemma tracks_ended id n evs s e s' :
  tracks id n evs s -> frame_of id e = [] -> ends_upload id e = true -> core s' = core (set_uploads (delete id) s) ->
  tracks id n (evs ++ [e]) s'.
Proof.
  intros [[T1 T2] T3 T4 T5 T6 T7 T8] Hf He Hc. apply core_fields in Hc as (Hv & Ha & Hu & Hj & Ht & Hn). cbn in *.
  split; rewrite ?Hv, ?Ha, ?Hu, ?Hj, ?Ht, ?Hn; try done.
  - intros i up [_ Hi]%lookup_delete_Some. by eapply T4.
  - intros up H. by rewrite lookup_delete_eq in H.
  - intros [up H]. by rewrite lookup_delete_eq in H.
  - intros t H. rewrite frames_snoc, Hf, app_nil_r. by eapply T7.
  - intros t q H1 H2 H3. specialize (T8 t q H1 H2 H3). rewrite lookup_delete_eq, decide_False by (intros [? ?]; done).
    destruct (decide _); [|by apply ended_with_snoc]. by exists evs, e, [].
Qed.

(** A frame is queued. *)
Lemma tracks_pushed id n evs s e s' up t q data :
  tracks id n evs s -> frame_of id e = data -> uploads s !! id = Some up -> tasks s !! n = Some t -> task_stream t = Some q ->
  core s' = core (set_uploads <[id := {| upload_task := n; upload_bytes := saturating_add (upload_bytes up) (nlen data) |}]>
                   (set_tasks <[n := set_stream (Some (q ++ [data])%list) t]> s)) ->
  tracks id n (evs ++ [e]) s'.
Proof.
  intros [[T1 T2] T3 T4 T5 T6 T7 T8] Hf Hup Ht Hq Hc. apply core_fields in Hc as (Hv & Ha & Hu & Hj & Hts & Hn). cbn in *.
  split; rewrite ?Hv, ?Ha, ?Hu, ?Hj, ?Hts, ?Hn; try done.
  - intros i up' [[-> _]|[_ H]]%lookup_insert_Some; [done|by eapply T4].
  - intros up' H. rewrite lookup_insert_eq in H. by injection H as <-.
  - intros _ _. apply T6; by eexists.
  - intros t' H. rewrite lookup_insert_eq in H. injection H as <-. destruct (T7 t Ht) as [rest Hr]. cbn.
    exists (rest ++ data)%list. by rewrite frames_snoc, Hf, Hr, app_assoc.
  - intros t' q' H H2 H3. rewrite lookup_insert_eq in H. injection H as <-. cbn in *. injection H3 as <-.
    specialize (T8 t q Ht H2 Hq). rewrite decide_True in T8 by (by eexists).
    rewrite lookup_insert_eq, decide_True by (by eexists).
    rewrite frames_snoc, Hf, <- T8, concat_app. cbn. by rewrite app_nil_r, app_assoc.
Qed.

(** An upload, of any name, is taken away and its job aborted. *)
Lemma tracks_refused id n evs s e s' id' :
  tracks id n evs s -> frame_of id e = [] \/ id' = id ->
  core s' = core (abort_job id' (set_uploads (delete id') s)) -> tracks id n (evs ++ [e]) s'.
Proof.
  intros T Hf Hc. apply core_fields in Hc as (Hv & Ha & Hu & Hj & Ht & Hn).
  destruct (abort_job_fields id' (set_uploads (delete id') s)) as (Hu' & Hn' & _ & Hv' & Ha' & Hj' & _). cbn in *.
  assert (tasks s' = match jobs s !! id' with Some k => alter set_aborted k (tasks s) | None => tasks s end) as Hts.
  { rewrite Ht. unfold abort_job. cbn. by destruct (jobs s !! id'). }
  assert (forall i up, uploads s' !! i = Some up -> i <> id' /\ uploads s !! i = Some up) as Hups.
  { rewrite Hu, Hu'. intros i up [? H]%lookup_delete_Some. by split. }
  destruct (decide (jobs s !! id' = Some n)) as [Hk|Hk].
  { eapply tracks_silenced; [exact T|congruence..|by intros i up [_ ?]%Hups| |].
    + rewrite Hj, Hj'. intros [up [Hne _]%Hups] _ H. by rewrite lookup_delete_ne.
    + intros t'. rewrite Hts, Hk, lookup_alter_eq. destruct (tasks s !! n) as [t|]; [|done]. intros [= <-].
      split; [by left|by exists t]. }
  assert (tasks s' !! n = tasks s !! n) as Hsame.
  { rewrite Hts. destruct (jobs s !! id') as [k|]; [|done]. rewrite lookup_alter_ne; [done|congruence]. }
  destruct (tasks s !! n) as [t|] eqn:Htn.
  2: { eapply tracks_silenced; [exact T|congruence..|by intros i up [_ ?]%Hups| |by rewrite Hsame].
       intros _ [? H]. by rewrite Hsame in H. }
  destruct (decide (id' = id)) as [->|Hne].
  - assert (uploads s !! id = None) as Hnone.
    { destruct (uploads s !! id) eqn:Hup; [|done]. destruct Hk. apply (tr_job _ _ _ _ T); by eexists. }
    eapply tracks_same; [exact T|by right|congruence|congruence|rewrite Hn, Hn'; lia|by intros i up [_ ?]%Hups _| |congruence|].
    + by rewrite Hu, Hu', lookup_delete_eq.
    + intros [? H]. congruence.
  - eapply tracks_same; [exact T|destruct Hf; [by left|done]|congruence|congruence|rewrite Hn, Hn'; lia|by intros i up [_ ?]%Hups _|
      |congruence|].
    + by rewrite Hu, Hu', lookup_delete_ne.
    + intros _ _ H. by rewrite Hj, Hj', lookup_delete_ne.
Qed.

Lemma tracks_frame id n evs s e id' data :
  tracks id n evs s -> (frame_of id e = if String.eqb id' id then data else []) ->
  forall now, tracks id n (evs ++ [e]) (enqueue_upload id' data (set_last_seen now s)).
Proof.
  intros T Hf now. assert (id' <> id -> frame_of id e = []) as Hne by (intros Hd%String.eqb_neq; by rewrite Hf, Hd).
  assert (frame_of id e = [] \/ id' = id) as Hf' by (destruct (decide (id' = id)); auto).
  unfold enqueue_upload. cbn [uploads set_last_seen tasks]. destruct (uploads s !! id') as [up|] eqn:Hup.
  2: { eapply tracks_same; [exact T|destruct Hf' as [?| ->]; auto|done..]. }
  assert (forall s', core s' = core (abort_job id' (set_uploads (delete id') s)) -> tracks id n (evs ++ [e]) s') as Hrefuse
    by (intros; by eapply tracks_refused).
  assert (forall s', core s' = core (set_uploads (delete id') s) ->
    (forall t, id' = id -> tasks s !! n = Some t -> task_stream t = None) -> tracks id n (evs ++ [e]) s') as Hclosed.
  { intros s' Hc Hs. apply core_fields in Hc as (Hv & Ha & Hu & Hj & Ht & Hn). cbn in *. destruct (decide (id' = id)) as [->|Hd].
    - eapply tracks_silenced; [exact T|congruence..| | |]; rewrite ?Hu, ?Hj, ?Ht; [|done|].
      + intros i x [_ ?]%lookup_delete_Some. done.
      + intros t Htn. split; [right; by eapply Hs|by exists t].
    - eapply tracks_same; [exact T|by left; auto|congruence|congruence|by rewrite Hn| | |by rewrite Ht|by rewrite Hj]; rewrite Hu.
      + intros i x [_ ?]%lookup_delete_Some. done.
      + by rewrite lookup_delete_ne. }
  cbn [upload_task]. destruct (_ <? _)%N.
  { apply Hrefuse. etrans; [apply send_or_later_fields|]. unfold abort_job. cbn. by destruct (jobs s !! id'). }
  destruct (tasks s !! upload_task up) as [t|] eqn:Ht; unfold try_send.
  2: { apply Hclosed; [done|]. intros t -> Htn. rewrite (tr_entry _ _ _ _ T up Hup) in Ht. congruence. }
  destruct (task_stream t) as [q|] eqn:Hq.
  2: { apply Hclosed; [done|]. intros t' -> Htn. rewrite (tr_entry _ _ _ _ T up Hup) in Ht. congruence. }
  destruct (has_room q).
  2: { apply Hrefuse. etrans; [apply send_or_later_fields|]. unfold abort_job. cbn. by destruct (jobs s !! id'). }
  destruct (decide (id' = id)) as [->|Hd].
  - rewrite String.eqb_refl in Hf. pose proof (tr_entry _ _ _ _ T up Hup) as Hn. rewrite Hn in *.
    by eapply tracks_pushed.
  - assert (upload_task up <> n) as Hn by (intros Hn; destruct Hd; by eapply (tr_owner _ _ _ _ T)).
    eapply tracks_same; [exact T|left; auto|done|done|done|..]; cbn.
    + intros i x [[<- <-]|[_ ?]]%lookup_insert_Some; [cbn; by intros [?|?]|done].
    + by rewrite lookup_insert_ne.
    + by rewrite lookup_insert_ne.
    + done.
Qed.

Lemma not_frame id e : (forall now f w, e <> Inbound now (Some (WsBinary f)) w) -> frame_of id e = [].
Proof. destruct e as [| | |? [[]|] ?| | | | | | | |]; intros H; try done. by destruct (H now frame works). Qed.

Lemma step_tracks id n evs e s s' :
  step e s = Some (Continue s') -> numbered s -> undisturbed id e = true -> tracks id n evs s -> tracks id n (evs ++ [e]) s'.
Proof.
  intros H%step_effect HN [Hack%negb_true_iff Hreq%negb_true_iff]%andb_true_iff T.
  destruct H as [Hc Hf _|m t chunk stream Hl Hq -> Hf|m t Hl -> Hf|m -> Hf|now text w p v -> Hp Hk ->
    |now text w p i -> Hp Hk Hi _ _ ->|now text w p i -> Hp Hk Hi ->|now text w i -> ->|now f w i data -> Hd ->].
  - apply core_fields in Hc as (Hv & Ha & Hu & Hj & Ht & Hn). eapply tracks_same; [exact T|left|done|done|lia| |congruence|congruence|congruence].
    + apply not_frame. intros now f w. destruct (Hf now f w) as [?|Hx]; [done|].
      destruct (tr_version _ _ _ _ T) as [Hv2 Ha2]. by rewrite Hv2, Ha2 in Hx.
    + rewrite Hu. by intros.
  - apply live_Some in Hl as [Ht Ha]. apply not_frame with (id := id) in Hf. destruct (decide (m = n)) as [->|Hne]; [by eapply tracks_reads|].
    eapply tracks_same; [exact T|by left|try done..]. cbn. by rewrite lookup_insert_ne.
  - apply live_Some in Hl as [Ht Ha]. apply not_frame with (id := id) in Hf. destruct (decide (m = n)) as [->|Hne].
    + eapply tracks_silenced; [exact T|done..|]. cbn. intros t'. rewrite lookup_insert_eq. intros [= <-].
      split; [by right|by exists t].
    + eapply tracks_same; [exact T|by left|try done..]. cbn. by rewrite lookup_insert_ne.
  - apply not_frame with (id := id) in Hf. destruct (decide (m = n)) as [->|Hne].
    + eapply tracks_silenced; [exact T|done..|]. cbn. intros t'. by rewrite lookup_delete_eq.
    + eapply tracks_same; [exact T|by left|try done..]. cbn. by rewrite lookup_delete_ne.
  - unfold says, packet_of in Hack. rewrite Hp, Hk in Hack. by rewrite bool_decide_true in Hack.
  - assert (i <> id) as Hne.
    { intros ->. unfold says, names, packet_of in Hreq. rewrite Hp, Hk, Hi in Hreq. by rewrite !bool_decide_true in Hreq. }
    assert (tracks id n evs (set_last_seen now s)) as T' by (by destruct T). clear T. rename T' into T.
    set (x := set_last_seen now s) in *. clearbody x. clear s HN. rename x into s.
    destruct (spawn_fields i p s) as (Ht & Hn & Hj & _ & Hv & Ha & Hu).
    assert (n <> next_task s) as Hnn by (pose proof (tr_next _ _ _ _ T); lia).
    eapply tracks_same; [exact T|by left|done|done|rewrite Hn; lia|..].
    + intros k up. rewrite Hu. destruct (task_upload _); [|done].
      rewrite lookup_insert_Some. intros [[<- <-]|[_ ?]]; [by intros [?|?]; [cbn in *; congruence|done]|done].
    + rewrite Hu. destruct (task_upload _); [|done]. by rewrite lookup_insert_ne.
    + by rewrite Ht, lookup_insert_ne.
    + intros _ Hts Hjob. rewrite Hj, lookup_insert_ne by done. apply lookup_retain. split; [done|].
      apply bool_decide_eq_true. by rewrite Ht, lookup_insert_ne.
  - destruct (decide (i = id)) as [->|Hne].
    + eapply tracks_ended; [exact T|done| |done]. unfold ends_upload, says, names, packet_of. rewrite Hp, Hk, Hi.
      by rewrite !bool_decide_true.
    + eapply tracks_same; [exact T|by left|done..| | |done|done]; cbn.
      * intros k up [_ ?]%lookup_delete_Some. done.
      * by rewrite lookup_delete_ne.
  - eapply (tracks_refused _ _ _ _ _ _ i); [exact T|by left|]. unfold abort_job. cbn. by destruct (jobs s !! i).
  - eapply tracks_frame; [exact T|]. cbn. by rewrite Hd.
Qed.

Lemma spawn_tracks id packet s :
  numbered s -> version s = 2%N -> accepted s = true -> is_text "binary-v2" (at_key "bodyEncoding" packet) = true ->
  tracks id (next_task s) [] (spawn id packet s).
Proof.
  intros HN Hv Ha Hb. destruct (spawn_fields id packet s) as (Ht & Hn & Hj & _ & Hv' & Ha' & Hu).
  assert (new_task packet s = {| task_packet := packet; task_version := 2; task_upload := true; task_stream := Some [];
            task_read := []; task_aborted := false |}) as Hnew by (unfold new_task; by rewrite Hv, Hb).
  rewrite Hnew in *. cbn [task_upload] in Hu. split; rewrite ?Hv', ?Ha', ?Hn, ?Ht, ?Hj, ?Hu; try done.
  - lia.
  - intros i up. rewrite lookup_insert_Some. intros [[<- _]|[_ H]]; [done|]. intros Hup. apply (num_uploads _ HN) in H. lia.
  - intros up. rewrite lookup_insert_eq. by intros [= <-].
  - intros _ _. by rewrite lookup_insert_eq.
  - intros t. rewrite lookup_insert_eq. intros [= <-]. by exists [].
  - intros t q. rewrite !lookup_insert_eq. intros [= <-] _ [= <-]. by rewrite decide_True by (by eexists).
Qed.

Lemma run_tracks id n s evs s' :
  numbered s -> bounded s -> tracks id n [] s -> Forall (fun e => undisturbed id e = true) evs -> runs evs s = Some s' -> tracks id n evs s'.
Proof.
  intros HN HB T Hq H. eapply (run_invariant (fun evs x => numbered x /\ bounded x /\ tracks id n evs x)) in H; [by apply H| |done].
  intros ds e x x' (HNx & HBx & Tx) Hin Hs. pose proof (step_bounded _ _ _ Hs HNx HBx) as [? ?]. split_and!; [done|done|].
  eapply step_tracks; [exact Hs|done| |done]. rewrite List.Forall_forall in Hq. by apply Hq.
Qed.

Lemma request_step s now text works packet id :
  blocked s = None -> accepted s = true -> value_from_str text = Some packet -> kind_of packet = Some McpControl.Request ->
  str_field "requestId" packet = Some id -> valid_request_id id = true -> (size (tasks s) < McpStream.MAX_INFLIGHT)%nat ->
  step (Inbound now (Some (WsText text)) works) s = Some (Continue (spawn id packet (set_last_seen now s))).
Proof.
  intros Hbl Ha Hp Hk Hi Hval Hsz. unfold session_step. cbn [task_step select on_message]. rewrite Hbl, Hp.
  unfold on_packet, on_request. rewrite Hk, Hi. cbn [accepted tasks set_last_seen]. rewrite Ha, Hval. cbn [negb].
  by rewrite (proj2 (Nat.ltb_lt _ _) Hsz).
Qed.

(** A session that serves uploads is given a request with one: the task [next_task s0]. *)
Definition upload_opened (id : string) (s0 : Session) (opening : Event) : Prop :=
  version s0 = 2%N /\ accepted s0 = true /\ blocked s0 = None /\ (size (tasks s0) < McpStream.MAX_INFLIGHT)%nat
  /\ exists now text works packet, opening = Inbound now (Some (WsText text)) works /\ value_from_str text = Some packet
     /\ kind_of packet = Some McpControl.Request /\ str_field "requestId" packet = Some id /\ valid_request_id id = true
     /\ is_text "binary-v2" (at_key "bodyEncoding" packet) = true.

Lemma opened_tracks now0 hello before s0 id opening evs s :
  runs before (session_start now0 hello) = Some s0 -> upload_opened id s0 opening ->
  Forall (fun e => undisturbed id e = true) evs -> runs (opening :: evs) s0 = Some s -> tracks id (next_task s0) evs s.
Proof.
  intros Hr (Hv & Ha & Hbl & Hsz & now & text & works & packet & -> & Hp & Hk & Hi & Hval & Hb) Hq Hrun.
  apply run_bounded in Hr as [HN HB].
  cbn [run] in Hrun. rewrite (request_step _ _ _ _ _ _ Hbl Ha Hp Hk Hi Hval Hsz) in Hrun.
  set (s1 := set_last_seen now s0) in *. assert (numbered s1 /\ bounded s1) as [HN1 HB1] by (by split; destruct HN, HB).
  pose proof (spawn_bounded id packet s1 HN1 HB1 Hsz) as [HN2 HB2].
  assert (tracks id (next_task s0) [] (spawn id packet s1)) as T by (by apply (spawn_tracks id packet s1)).
  exact (run_tracks _ _ _ _ _ HN2 HB2 T Hq Hrun).
Qed.

Lemma tracks_body_ended id n evs s t : tracks id n evs s -> body_ended s n -> live s n = Some t -> ended_with id evs (task_read t).
Proof.
  intros T (t' & Ht' & Hst & Hgone) [Ht Hal]%live_Some. assert (t' = t) as -> by congruence.
  pose proof (tr_stream _ _ _ _ T t [] Ht Hal Hst) as Hend. cbn in Hend. rewrite app_nil_r in Hend.
  destruct (decide _) as [[up Hup]|]; [|done]. destruct (Hgone id up Hup). by apply (tr_entry _ _ _ _ T).
Qed.

(** No upload reaches the bridge truncated.  After a request with an upload got its task,
    and whatever follows on the session short of a second acknowledgement or a second request
    of the same name (other requests, slow readers, cancellations, limits, aborted jobs): what
    the bridge has read is the beginning of the bytes received for it, in order; and when the
    bridge, in a task that was not aborted, sees the end of the body, then the end of this upload
    was received and the bytes read are exactly those received before it. *)
Theorem upload_not_truncated now0 hello before s0 id opening evs s :
  runs before (session_start now0 hello) = Some s0 -> upload_opened id s0 opening ->
  Forall (fun e => undisturbed id e = true) evs -> runs (opening :: evs) s0 = Some s ->
  let n := next_task s0 in
  (forall t, tasks s !! n = Some t -> exists rest, frames id evs = (task_read t ++ rest)%list)
  /\ (body_ended s n -> forall t, live s n = Some t -> ended_with id evs (task_read t)).
Proof.
  intros Hr Ho Hq Hrun n. pose proof (opened_tracks _ _ _ _ _ _ _ _ Hr Ho Hq Hrun) as T.
  split; [by intros; eapply (tr_prefix _ _ _ _ T)|]. intros He t Hl. by eapply tracks_body_ended.
Qed.

(** *** Runs in which the code does not do what it means to *)

(** Once the session waits in its own loop for room in the channel that only this loop empties,
    it waits forever: no event, not even the stop, ends it. *)
Lemma session_deadlock evs s s' p :
  blocked s = Some p -> has_room (outbound s) = false -> runs evs s = Some s' ->
  blocked s' = Some p /\ has_room (outbound s') = false /\ forall e, (forall x r, step e s' <> Some (Return x r)).
Proof.
  intros Hb Hr Hrun. assert (blocked s' = Some p /\ has_room (outbound s') = false) as [Hb' Hr'].
  { eapply (run_invariant (fun _ x => blocked x = Some p /\ has_room (outbound x) = false)) in Hrun; [exact Hrun| |done].
    intros _ e x x' [Hbx Hrx] _. unfold session_step. destruct (task_step e x) as [y|] eqn:Hy.
    - intros [= <-]. destruct e; cbn in Hy; try done; rewrite ?Hrx in Hy; repeat case_match; simplify_eq/=; done.
    - rewrite Hbx. destruct e; try done. by rewrite Hrx. }
  split_and!; [done..|]. intros e x r. unfold session_step. destruct (task_step e s'); [done|]. rewrite Hb'.
  destruct e; try done. by rewrite Hr'.
Qed.

(** The worker's waits depend on the number of sessions since it started only: a session that
    was accepted and served does not reset them. *)
Lemma retry_not_reset turns attempts c :
  Forall (fun t => stop_at_top t = false /\ stop_after t = false /\ retry t = true /\ stop_in_sleep t = false) turns ->
  delays (worker turns attempts c) = (delays c ++ map retry_delay (seq attempts (length turns)))%list.
Proof.
  intros H. revert attempts c. induction H as [|t turns (H1 & H2 & H3 & H4) _ IH]; intros attempts c; [by rewrite app_nil_r|].
  cbn [worker length seq map]. rewrite H1, H2, H3, H4. cbn [orb negb]. rewrite IH. cbn. by rewrite <- app_assoc.
Qed.
End ClientProps.

(** ** Witnesses *)

Definition sample_name (k : nat) : string :=
  "000000000000000000000000000000" ++ hex_of_bytes [default x00 (Byte.of_nat k)].
Definition sample_ack : Value :=
  Object [("protocolVersion", Number (Some 2%N)); ("sessionId", VString "s"); ("type", VString "hello_ack")].

(** The acknowledgement, the end of an upload, or a request with an upload of that name. *)
Definition sample_parse (text : string) : option Value :=
  if String.eqb text "ack" then Some sample_ack
  else if starts_with "end " text
       then Some (Object [("requestId", VString (string_skip 4 text)); ("type", VString "request_end")])
       else Some (Object [("bodyEncoding", VString "binary-v2"); ("requestId", VString text); ("type", VString "request")]).

Definition said (text : string) : Event := Inbound 0 (Some (WsText text)) true.
Definition sent_frame (id : string) (data : list byte) : Event :=
  Inbound 0 (Some (WsBinary (default [] (McpStream.encode McpStream.RequestBody id data)))) true.
Definition sample_session : Session := session_start 0 hello_packet.

(** 64 requests, a full channel, and one request more. *)
Definition sample_flood : list Event :=
  said "ack" :: map (fun k => said (sample_name k)) (seq 0 64)
  ++ repeat (TaskSends 0 ping_packet) 32 ++ [said (sample_name 64)].

(** A request beyond the limit, while the channel is full: the session hangs. *)
Lemma sample_deadlock : exists s p, run sample_parse sample_flood sample_session = Some s
  /\ blocked s = Some p /\ has_room (outbound s) = false
  /\ forall e x r, session_step sample_parse e s <> Some (Return x r).
Proof.
  assert (match run sample_parse sample_flood sample_session with
          | Some s => match blocked s with Some _ => negb (has_room (outbound s)) | None => false end
          | None => false end = true) as H by (vm_compute; reflexivity).
  destruct (run sample_parse sample_flood sample_session) as [s|]; [|done].
  destruct (blocked s) as [p|] eqn:Hb; [|done]. apply negb_true_iff in H.
  exists s, p. split_and!; [done..|]. intros e. by eapply (session_deadlock sample_parse []).
Qed.

(** A request that the bridge answers without reading its body, and for which no end of upload
    follows, leaves its entry behind: more entries than there can be tasks. *)
Lemma answered_upload_stays :
  match run sample_parse (said "ack" :: concat (map (fun k => [said (sample_name k); TaskEnds (N.of_nat k)]) (seq 0 100)))
          sample_session with
  | Some s => size (uploads s) = 100%nat /\ tasks s = ∅
  | None => False
  end.
Proof. vm_compute. by split. Qed.

Definition sample_upload : list Event :=
  [sent_frame (sample_name 1) [x41]; TaskReads 0; sent_frame (sample_name 1) [x42]; said ("end " ++ sample_name 1); TaskReads 0].


Definition sample_state (evs : list Event) : Session := default sample_session (run sample_parse evs sample_session).
Definition sample_reader : Task :=
  {| task_packet := default Null (sample_parse (sample_name 1)); task_version := 2; task_upload := true; task_stream := Some [];
     task_read := [x41; x42]; task_aborted := false |}.

Lemma sample_opened : upload_opened sample_parse (sample_name 1) (sample_state [said "ack"]) (said (sample_name 1)).
Proof.
  split_and!; try (vm_compute; reflexivity).
  - apply Nat.ltb_lt. vm_compute. reflexivity.
  - exists 0%N, (sample_name 1), true, (default Null (sample_parse (sample_name 1))). split_and!; vm_compute; reflexivity.
Qed.

(** The bridge has read both bytes and sees the end. *)
Lemma upload_not_truncated_witness :
  let s := sample_state (said "ack" :: said (sample_name 1) :: sample_upload) in
  live s 0 = Some sample_reader /\ ended_with sample_parse (sample_name 1) sample_upload [x41; x42].
Proof.
  intros s. assert (live s 0 = Some sample_reader) as Hl by (vm_compute; reflexivity). split; [exact Hl|].
  refine (proj2 (upload_not_truncated sample_parse 0 hello_packet [said "ack"] (sample_state [said "ack"]) (sample_name 1)
    (said (sample_name 1)) sample_upload s _ _ _ _) _ sample_reader Hl).
  - vm_compute. reflexivity.
  - apply sample_opened.
  - unfold sample_upload. repeat constructor.
  - vm_compute. reflexivity.
  - exists sample_reader. split_and!; [vm_compute; reflexivity|done|]. assert (uploads s = ∅) as -> by (vm_compute; reflexivity).
    intros id up. by rewrite lookup_empty.
Defined.
