(* ===== verification/McpEndToEnd.v ===== *)
(** * An MCP request from the Relay's gateway to the bridge and back

    The composition of [McpGateway] (the Relay) with [McpLocal] and [McpClient] (the desktop):
    the packets one side sends are the messages the other receives, in order.  The JSON text
    of a packet is taken to be read back as the packet. *)

From S2P Require Import McpClient.
Local Open Scope string_scope.

(** ** Responses *)

(** The gateway receives a packet. *)
Definition receive_packet {Q} `{MpscQueue Q} (b64 : string -> option (list byte)) (session_id : string) (version : N)
    (packet : Outgoing) : Gateway Q -> Gateway Q :=
  match packet with
  | OutText v => receive b64 session_id version (Some v) None
  | OutBinary frame => receive b64 session_id version None (Some frame)
  end.

(** The bytes a read gives the HTTP client. *)
Definition yields (ph : Phase) (outcome : RecvOutcome) : list byte :=
  match ph, outcome with Streaming, Received (Chunk bytes) => bytes | _, _ => [] end.

Section Response.
Context {Q : Type} `{MpscQueue Q} `{!MpscQueueLaws Q}.
Context (b64 : string -> option (list byte)).
Context (session_id id : string) (cell : N).
Implicit Types x : Exchange Q.

(** The HTTP task of the request reads what there is; its bytes are collected. *)
Definition read_reply x : list byte * Exchange Q :=
  match ex_readers x !! cell, recv_reply cell (ex_gateway x) with
  | Some rd, Some (outcome, g') => (yields (rd_phase rd) outcome, reader_step cell rd outcome g' (ex_readers x))
  | _, _ => ([], x)
  end.

(** The packets arrive one by one, and the HTTP client keeps up with them. *)
Fixpoint relay_packets (packets : list Outgoing) x : list byte * Exchange Q :=
  match packets with
  | [] => ([], x)
  | packet :: packets =>
      let '(bytes, x) := read_reply (with_gateway (receive_packet b64 session_id 2 packet) x) in
      let '(bytes', x) := relay_packets packets x in ((bytes ++ bytes')%list, x)
  end.

Lemma relay_packets_app a b x :
  relay_packets (a ++ b) x
  = let '(bytes, x) := relay_packets a x in let '(bytes', x) := relay_packets b x in ((bytes ++ bytes')%list, x).
Proof.
  revert x. induction a as [|p a IH]; intros x; cbn; [by destruct (relay_packets b x)|].
  destruct (read_reply _) as [bytes x1]. rewrite IH. destruct (relay_packets a x1) as [bytes1 x2].
  destruct (relay_packets b x2) as [bytes2 x3]. by rewrite app_assoc.
Qed.

(** The request is pending in this phase, with [n] bytes of its body received and read. *)
Definition waiting (ph : Phase) (n : N) x : Prop :=
  exists pending rd c, lock (gw_pending (ex_gateway x)) = Some pending
    /\ pending !! id = Some {| pen_session_id := session_id; pen_cell := cell; pen_bytes := n |}
    /\ ex_readers x !! cell = Some rd /\ rd_phase rd = ph
    /\ gw_cells (ex_gateway x) !! cell = Some c /\ cell_errored c = false /\ q_items (cell_queue c) = [].

(** An empty queue takes a reply. *)
Definition room_when_empty : Prop := forall r q, q_items q = [] -> is_Some (q_try_send r q).

(** A reply that is delivered is read at once. *)
Lemma deliver_read r ph n pending x :
  room_when_empty -> waiting ph n x ->
  exists g' c, recv_reply cell (deliver id cell r (set_pending pending (ex_gateway x))) = Some (Received r, g')
    /\ lock (gw_pending g') = Some pending /\ gw_cells g' !! cell = Some c /\ cell_errored c = is_error r
    /\ q_items (cell_queue c) = [] /\ errored cell g' = is_error r.
Proof.
  intros Hroom (p0 & rd & c & Hl & _ & _ & _ & Hc & He & Hq). destruct (Hroom r (cell_queue c) Hq) as [q Hs].
  pose proof (q_try_send_items _ _ _ Hs) as Hi. rewrite Hq in Hi. cbn in Hi.
  destruct (q_recv q) as [[r' q']|] eqn:Hrecv; [|by rewrite (q_recv_None _ Hrecv) in Hi].
  pose proof (q_recv_Some _ _ _ Hrecv) as Hi'. rewrite Hi in Hi'. injection Hi' as <- Hq'.
  apply lock_Some in Hl. set (g := set_pending pending (ex_gateway x)).
  assert (gw_cells g !! cell = Some c) as Hcg by done.
  unfold deliver. destruct (is_error r) eqn:Her.
  - cbn [gw_cells set_cells]. rewrite lookup_alter_eq, Hcg. cbn [fmap option_fmap option_map]. unfold push_reply. cbn [cell_queue mark_errored].
    rewrite Hs. unfold recv_reply. cbn [gw_cells set_cells]. rewrite lookup_insert_eq. cbn [cell_queue]. rewrite Hrecv.
    eexists _, _. split; [done|]. cbn. unfold errored. cbn. rewrite lookup_insert_eq. split_and!; try done.
    unfold lock. cbn. by rewrite Hl.
  - rewrite Hcg. unfold push_reply. rewrite Hs. unfold recv_reply. cbn [gw_cells set_cells]. rewrite lookup_insert_eq. cbn [cell_queue].
    rewrite Hrecv. eexists _, _. split; [done|]. cbn. unfold errored. cbn. rewrite lookup_insert_eq. cbn. split_and!; try done.
    unfold lock. cbn. by rewrite Hl.
Qed.

(** A packet that is delivered is read: the phase it leads to, and, while the request goes on,
    the table it leaves. *)
Lemma packet_step packet r pending ph n x :
  room_when_empty -> waiting ph n x ->
  receive_packet b64 session_id 2 packet (ex_gateway x) = deliver id cell r (set_pending pending (ex_gateway x)) ->
  exists rd x', rd_phase rd = ph
    /\ read_reply (with_gateway (receive_packet b64 session_id 2 packet) x) = (yields ph (Received r), x')
    /\ ex_readers x' !! cell = Some (set_phase (reader_phase rd (is_error r) (Received r)) rd)
    /\ (drops_guard (reader_phase rd (is_error r) (Received r)) = false -> is_error r = false ->
        forall n', pending !! id = Some {| pen_session_id := session_id; pen_cell := cell; pen_bytes := n' |} ->
        waiting (reader_phase rd (is_error r) (Received r)) n' x').
Proof.
  intros Hroom Hw Heq. destruct (deliver_read r ph n pending x Hroom Hw) as (g' & c & Hrecv & Hl & Hc & He & Hq & Herr).
  destruct Hw as (p0 & rd & c0 & _ & _ & Hrd & Hph & _).
  exists rd, (reader_step cell rd (Received r) g' (ex_readers x)). split; [done|].
  unfold read_reply. cbn [ex_readers ex_gateway with_gateway]. rewrite Hrd, Heq, Hrecv, Hph. split; [done|].
  unfold reader_step. cbn [ex_readers ex_gateway]. rewrite Herr. split; [by rewrite lookup_insert_eq|].
  intros Hdrop Hne n' Hp. rewrite Hdrop. exists pending, (set_phase (reader_phase rd (is_error r) (Received r)) rd), c.
  cbn [ex_readers ex_gateway]. rewrite lookup_insert_eq. split_and!; try done. congruence.
Qed.

Context (Hid : valid_request_id id = true) (Hlower : to_ascii_lowercase id = id).

(** The gateway's choice for a packet of a pending request. *)
Lemma text_received v ph n x r added :
  waiting ph n x -> str_field "requestId" v = Some id -> packet_reply b64 2 n v = Some (r, added) ->
  exists pending, receive_packet b64 session_id 2 (OutText v) (ex_gateway x) = deliver id cell r (set_pending pending (ex_gateway x))
  /\ (is_finished r = false -> pending !! id = Some {| pen_session_id := session_id; pen_cell := cell; pen_bytes := n + added |}).
Proof.
  intros (p0 & rd & c & Hl & Hp & _) Hf Hr. cbn [receive_packet]. unfold receive. cbn [addressed_request].
  assert (match Json.get "requestId" v with Some v => as_str v | None => None end = Some id) as ->.
  { unfold str_field, at_key in Hf. by destruct (Json.get "requestId" v). }
  rewrite Hid. cbn [negb]. rewrite Hl. unfold select_reply. rewrite Hp. cbn [pen_session_id pen_bytes pen_cell].
  rewrite String.eqb_refl. cbn [negb]. rewrite Hr. eexists. split; [done|]. intros ->. by rewrite lookup_insert_eq.
Qed.

Lemma piece_received packet piece ph n x :
  waiting ph n x -> carries id packet piece -> (n + nlen piece <= McpStream.MAX_RESPONSE_BYTES)%N ->
  exists pending, receive_packet b64 session_id 2 packet (ex_gateway x) = deliver id cell (Chunk piece) (set_pending pending (ex_gateway x))
  /\ pending !! id = Some {| pen_session_id := session_id; pen_cell := cell; pen_bytes := n + nlen piece |}.
Proof.
  intros (p0 & rd & c & Hl & Hp & _) (frame & -> & Hd) Hle. rewrite Hlower in Hd. cbn [receive_packet]. unfold receive.
  rewrite Hd. cbn [addressed_request]. rewrite Hid. cbn [negb]. rewrite Hl. unfold select_reply. rewrite Hp.
  cbn [pen_session_id pen_bytes pen_cell N.eqb Pos.eqb negb]. rewrite String.eqb_refl. cbn [negb].
  rewrite saturating_add_exact by (unfold in_u64; pose proof max_below_u64 as Hmx; unfold MAX_RESPONSE in Hmx; lia).
  rewrite (proj2 (N.ltb_ge _ _)) by exact Hle. eexists. split; [done|]. cbn [is_finished]. by rewrite lookup_insert_eq.
Qed.

(** *** The packets of an answer, one by one *)

#[local] Abbreviation step packet x := (read_reply (with_gateway (receive_packet b64 session_id 2 packet) x)).
#[local] Abbreviation ended ph x := (exists rd, ex_readers x !! cell = Some rd /\ rd_phase rd = ph).

Lemma head_packet_reply response : (200 <= response_status response <= 599)%N ->
  exists v headers, head_packet id response = OutText v /\ str_field "requestId" v = Some id
  /\ packet_reply b64 2 0 v = Some (Head (response_status response) headers, 0%N).
Proof.
  intros Hs. eexists _, _. split; [reflexivity|]. split; [reflexivity|]. unfold packet_reply. cbn -[N.leb].
  rewrite (proj2 (N.leb_le _ _)), (proj2 (N.leb_le _ _)) by lia. cbn [andb]. reflexivity.
Qed.

Lemma head_step response x :
  room_when_empty -> waiting AwaitingHead 0 x -> (200 <= response_status response <= 599)%N ->
  exists x', step (head_packet id response) x = ([], x') /\ waiting Streaming 0 x'.
Proof.
  intros Hroom Hw Hs. destruct (head_packet_reply response Hs) as (v & headers & -> & Hf & Hr).
  destruct (text_received _ _ _ _ _ _ Hw Hf Hr) as (pending & Heq & Hp).
  destruct (packet_step _ _ _ _ _ _ Hroom Hw Heq) as (rd & x' & Hrd & Hstep & _ & Hwait).
  exists x'. split; [exact Hstep|]. unfold reader_phase in Hwait. rewrite Hrd in Hwait. by apply Hwait; [..|apply Hp].
Qed.

Lemma piece_step packet piece n x :
  room_when_empty -> waiting Streaming n x -> carries id packet piece -> (n + nlen piece <= McpStream.MAX_RESPONSE_BYTES)%N ->
  exists x', step packet x = (piece, x') /\ waiting Streaming (n + nlen piece) x'.
Proof.
  intros Hroom Hw Hc Hle. destruct (piece_received _ _ _ _ _ Hw Hc Hle) as (pending & Heq & Hp).
  destruct (packet_step _ _ _ _ _ _ Hroom Hw Heq) as (rd & x' & Hrd & Hstep & _ & Hwait).
  exists x'. split; [exact Hstep|]. unfold reader_phase in Hwait. rewrite Hrd in Hwait. by apply Hwait.
Qed.

Lemma last_step v r ph n x :
  room_when_empty -> waiting ph n x -> str_field "requestId" v = Some id -> packet_reply b64 2 n v = Some (r, 0%N) ->
  r = End_ \/ r = Error ->
  exists x', step (OutText v) x = ([], x')
    /\ ended (reader_phase {| rd_session := ""; rd_request_id := ""; rd_phase := ph |} (is_error r) (Received r)) x'.
Proof.
  intros Hroom Hw Hf Hr Hfin. destruct (text_received _ _ _ _ _ _ Hw Hf Hr) as (pending & Heq & _).
  destruct (packet_step _ _ _ _ _ _ Hroom Hw Heq) as (rd & x' & Hrd & Hstep & Hx' & _).
  exists x'. split; [rewrite Hstep; by destruct Hfin as [-> | ->], ph|]. eexists. split; [exact Hx'|].
  cbn. unfold reader_phase. rewrite Hrd. cbn. by destruct ph.
Qed.

Lemma error_step ph n x :
  room_when_empty -> waiting ph n x -> exists x', step (error_packet id) x = ([], x')
    /\ ended (reader_phase {| rd_session := ""; rd_request_id := ""; rd_phase := ph |} true (Received Error)) x'.
Proof.
  intros Hroom Hw. unfold error_packet. eapply (last_step _ Error ph n x Hroom Hw); [reflexivity..|by right].
Qed.

Lemma end_step n x :
  room_when_empty -> waiting Streaming n x -> exists x', step (end_packet id) x = ([], x') /\ ended (Ended true) x'.
Proof.
  intros Hroom Hw. unfold end_packet. eapply (last_step _ End_ Streaming n x Hroom Hw); [reflexivity..|by left].
Qed.

Lemma pieces_step frames pieces n x :
  room_when_empty -> waiting Streaming n x -> Forall2 (carries id) frames pieces ->
  (n + nlen (concat pieces) <= McpStream.MAX_RESPONSE_BYTES)%N ->
  exists x', relay_packets frames x = (concat pieces, x') /\ waiting Streaming (n + nlen (concat pieces)) x'.
Proof.
  intros Hroom Hw Hc. revert n x Hw. induction Hc as [|packet piece frames pieces Hp _ IH]; intros n x Hw Hle.
  { exists x. split; [done|]. cbn. change (nlen []) with 0%N. by rewrite N.add_0_r. }
  cbn [concat] in *. assert (nlen (piece ++ concat pieces)%list = nlen piece + nlen (concat pieces))%N as Hn
    by (unfold nlen; rewrite length_app; lia).
  rewrite Hn in *. destruct (piece_step packet piece n x Hroom Hw Hp ltac:(lia)) as (x1 & H1 & Hw1).
  destruct (IH _ _ Hw1 ltac:(lia)) as (x2 & H2 & Hw2). exists x2. cbn [relay_packets]. rewrite H1, H2. split; [done|].
  by rewrite N.add_assoc.
Qed.

(** The HTTP client's view of the answer of the bridge. *)
Definition served (answer : option LocalResponse) (got : list byte * Exchange Q) : Prop :=
  match answer with
  | None => got.1 = [] /\ ended Gone got.2
  | Some response =>
      if complete response
      then got.1 = body_bytes (response_chunks response) /\ ended (Ended true) got.2
      else (exists rest, body_bytes (response_chunks response) = (got.1 ++ rest)%list) /\ ended Interrupted got.2
  end.

End Response.

(** ** Uploads *)

(** An upload is chunks, and then its end if and only if it was completed. *)
Lemma upload_frames_binary id room pieces : Forall (fun p => exists f, p = OutBinary f) (upload_frames id room pieces).1.
Proof.
  revert room. induction pieces as [|piece pieces IH]; intros room; [constructor|]. cbn [upload_frames].
  destruct (McpStream.encode _ _ _) as [f|]; [|constructor]. destruct (ws_send room) as [room'|]; [|constructor].
  pose proof (IH room') as H. destruct (upload_frames id room' pieces). constructor; [by exists f|done].
Qed.

Lemma stream_upload_shape id total body :
  exists chunks, Forall (fun p => exists f, p = OutBinary f) chunks
  /\ (stream_upload id None total body).1
     = (chunks ++ match (stream_upload id None total body).2 with UploadDone => [request_end_packet id] | _ => [] end)%list.
Proof.
  revert total. induction body as [|[chunk|[]] body IH]; intros total; [by exists []| |by exists []].
  cbn [stream_upload]. destruct (_ <? saturating_add _ _)%N; [by exists []|].
  pose proof (upload_frames_binary id None (chunks MAX_CHUNK chunk)) as Hb.
  assert (forall r, (upload_frames id None (chunks MAX_CHUNK chunk)).2 = Some r -> r = None) as Hnone.
  { generalize (chunks MAX_CHUNK chunk) as pieces. induction pieces as [|p pieces IHp]; cbn [upload_frames]; [by intros r [= <-]|].
    destruct (McpStream.encode _ _ _); [|done]. cbn [ws_send]. by destruct (upload_frames id None pieces). }
  destruct (upload_frames id None (chunks MAX_CHUNK chunk)) as [out [room'|]]; cbn [fst snd] in *.
  - rewrite (Hnone room' eq_refl). destruct (IH (saturating_add total (nlen chunk))) as (cs & Hcs & Heq).
    destruct (stream_upload id None (saturating_add total (nlen chunk)) body) as [out' fin]. cbn [fst snd] in *.
    exists (out ++ cs)%list. split; [by apply Forall_app|]. by rewrite Heq, app_assoc.
  - exists out. by rewrite app_nil_r.
Qed.

Section Upload.
Context (value_from_str : string -> option Value).

(** The packet of an upload that an event brings. *)
Definition upload_packet (id : string) (e : Event) : option Outgoing :=
  match e with
  | Inbound _ (Some (WsBinary f)) _ =>
      match McpStream.decode f with
      | Some (McpStream.RequestBody, id', _) => if String.eqb id' id then Some (OutBinary f) else None
      | _ => None
      end
  | _ => if ends_upload value_from_str id e then Some (request_end_packet id) else None
  end.

Lemma uploaded_frames id evs :
  to_ascii_lowercase id = id -> frames id evs = uploaded id (omap (upload_packet id) evs).
Proof.
  intros Hlow. induction evs as [|e evs IH]; [done|]. unfold frames in *. cbn [map concat]. rewrite IH. cbn [omap list_omap].
  assert (upload_packet id e = None /\ frame_of id e = [] \/ exists p, upload_packet id e = Some p /\ frame_of id e = payload id p) as H.
  { destruct e as [| | |now [[text|f|d|d|]|] w| | | | | | | |]; cbn [upload_packet frame_of];
      try (by left); try (destruct (ends_upload _ _ _); [right; by eexists|by left]).
    destruct (McpStream.decode f) as [[[[] id'] data]|] eqn:Hd; [|by left..].
    destruct (String.eqb id' id) eqn:He; [|by left]. right. eexists. split; [done|]. cbn [payload]. by rewrite Hd, Hlow, He. }
  destruct H as [[-> ->]|(p & -> & ->)]; [done|]. done.
Qed.

End Upload.

(** ** Witnesses *)

(** A channel of sixteen replies. *)
#[local] Instance sixteen : MpscQueue (list Reply) := {|
  q_channel _ := [];
  q_try_send r q := if (length q <? 16)%nat then Some (q ++ [r])%list else None;
  q_recv q := match q with r :: rest => Some (r, rest) | [] => None end;
  q_items q := q |}.

#[local] Instance sixteen_laws : MpscQueueLaws (list Reply).
Proof.
  split; cbn.
  - done.
  - intros r q q' Hs. case_match; [|done]. by injection Hs as <-.
  - intros r [|r' q] q'; [done|]. by intros [= -> <-].
  - by intros [|r q].
Qed.

Lemma sixteen_room : room_when_empty (Q := list Reply).
Proof. intros r q Hq. cbn in Hq. subst. by eexists. Qed.

(** One request is pending. *)
Definition sample_pending : Exchange (list Reply) :=
  {| ex_gateway := default (from_env None) (admit_request "s" sample_local_id 0 true (from_env None));
     ex_readers := {[ 0%N := {| rd_session := "s"; rd_request_id := sample_local_id; rd_phase := AwaitingHead |} ]} |}.

Lemma sample_waiting : waiting "s" sample_local_id 0 AwaitingHead 0 sample_pending.
Proof.
  exists {[ sample_local_id := {| pen_session_id := "s"; pen_cell := 0; pen_bytes := 0 |} ]}.
  exists {| rd_session := "s"; rd_request_id := sample_local_id; rd_phase := AwaitingHead |}.
  exists {| cell_queue := []; cell_errored := false; cell_uploading := true |}. split_and!; vm_compute; reflexivity.
Qed.


Definition sample_http_body : list (Result (list byte) unit) := [Ok [x41]; Ok [x42]].

