(* ===== verification/HttpsSupervisor.v ===== *)
(** * The supervisor of the HTTPS transport ([https_mcp.rs], [run])

    The worker thread that keeps a bridge process and, while that bridge answers, a transport
    to it: an SSH forward or a websocket client.  Processes and clients are numbered in the
    order they are started; [events] records what is done to them. *)

From S2P Require Export Prelude Text Json.
Local Open Scope string_scope.

(** ** Data *)

Inductive SupervisorEvent :=
| BridgeStarted (child : N)
| ForwardStarted (child : N)
| WssStarted (client : N)
| ChildReaped (child : N)     (* found dead, and waited for *)
| ChildKilled (child : N)
| WssStopped (client : N).

(** What others see. *)
Record HttpsSnapshot := {
  local_ready : bool;
  ssh_connected : bool;
  transport_connected : bool;
  remote_ready : bool;
  snapshot_probe_at : N;
  remote_last_error : string;
  snapshot_error : string;
  restarts : N }.

Definition https_snapshot_default : HttpsSnapshot :=
  {| local_ready := false; ssh_connected := false; transport_connected := false; remote_ready := false;
     snapshot_probe_at := 0; remote_last_error := ""; snapshot_error := ""; restarts := 0 |}.

(** The variables of the loop. *)
Record Supervised := {
  local : option N;
  bridge_attempted : bool;
  forward_attempted : bool;
  bridge_nonce : string;
  forward : option N;
  wss : option N;
  retries : N;
  error_now : string;
  public_ready : bool;
  public_probe_error : string;
  last_public_probe_at : N;
  last_probe : N;
  started : N;
  events : list SupervisorEvent }.

(** What one turn of the loop meets, in the order it is asked: whether the children and the
    client are alive, the settings flag, readings of the monotonic clock (milliseconds since
    its origin), the results of starting something, what the local port answers (the status
    code, and the body if it is JSON), and what the two public requests get: the metadata, and
    the status code and the authentication header of the MCP entry. *)
Record Round := {
  local_alive_at_top : bool;
  auto_at_top : bool;
  clock_bridge : N;
  nonce : Result string string;
  bridge_spawn : Result unit string;
  local_alive : bool;
  healthz : option (N * option Value);
  wss_alive : bool;
  forward_alive : bool;
  auto_for_transport : bool;
  clock_transport : N;
  forward_spawn : Result unit string;
  wss_connected : bool;
  forward_still_alive : bool;
  wss_error : option string;
  clock_probe : N;
  clock_probed : N;
  timestamp : N;
  metadata : Result (N * Result Value string) string;
  mcp_entry : Result (N * option string) string }.

Section Supervisor.
(** [settings.transport == "wss"], whether there are credentials, [settings.base_url], how
    building the client of the public probe went, and how the HTTP library writes a status code. *)
Context (over_wss credentials : bool) (issuer : string) (client : Result unit string) (status_text : N -> string).

Definition record (e : SupervisorEvent) (s : Supervised) : Supervised :=
  {| local := local s; bridge_attempted := bridge_attempted s; forward_attempted := forward_attempted s;
     bridge_nonce := bridge_nonce s; forward := forward s; wss := wss s; retries := retries s; error_now := error_now s;
     public_ready := public_ready s; public_probe_error := public_probe_error s;
     last_public_probe_at := last_public_probe_at s; last_probe := last_probe s; started := started s;
     events := (events s ++ [e])%list |}.
Definition set_local (c : option N) (s : Supervised) : Supervised :=
  {| local := c; bridge_attempted := bridge_attempted s; forward_attempted := forward_attempted s;
     bridge_nonce := bridge_nonce s; forward := forward s; wss := wss s; retries := retries s; error_now := error_now s;
     public_ready := public_ready s; public_probe_error := public_probe_error s;
     last_public_probe_at := last_public_probe_at s; last_probe := last_probe s; started := started s; events := events s |}.
Definition set_forward (c : option N) (s : Supervised) : Supervised :=
  {| local := local s; bridge_attempted := bridge_attempted s; forward_attempted := forward_attempted s;
     bridge_nonce := bridge_nonce s; forward := c; wss := wss s; retries := retries s; error_now := error_now s;
     public_ready := public_ready s; public_probe_error := public_probe_error s;
     last_public_probe_at := last_public_probe_at s; last_probe := last_probe s; started := started s; events := events s |}.
Definition set_wss (c : option N) (s : Supervised) : Supervised :=
  {| local := local s; bridge_attempted := bridge_attempted s; forward_attempted := forward_attempted s;
     bridge_nonce := bridge_nonce s; forward := forward s; wss := c; retries := retries s; error_now := error_now s;
     public_ready := public_ready s; public_probe_error := public_probe_error s;
     last_public_probe_at := last_public_probe_at s; last_probe := last_probe s; started := started s; events := events s |}.
Definition set_nonce (n : string) (s : Supervised) : Supervised :=
  {| local := local s; bridge_attempted := bridge_attempted s; forward_attempted := forward_attempted s;
     bridge_nonce := n; forward := forward s; wss := wss s; retries := retries s; error_now := error_now s;
     public_ready := public_ready s; public_probe_error := public_probe_error s;
     last_public_probe_at := last_public_probe_at s; last_probe := last_probe s; started := started s; events := events s |}.
Definition set_error_now (e : string) (s : Supervised) : Supervised :=
  {| local := local s; bridge_attempted := bridge_attempted s; forward_attempted := forward_attempted s;
     bridge_nonce := bridge_nonce s; forward := forward s; wss := wss s; retries := retries s; error_now := e;
     public_ready := public_ready s; public_probe_error := public_probe_error s;
     last_public_probe_at := last_public_probe_at s; last_probe := last_probe s; started := started s; events := events s |}.
Definition set_attempted (bridge transport : bool) (s : Supervised) : Supervised :=
  {| local := local s; bridge_attempted := bridge; forward_attempted := transport;
     bridge_nonce := bridge_nonce s; forward := forward s; wss := wss s; retries := retries s; error_now := error_now s;
     public_ready := public_ready s; public_probe_error := public_probe_error s;
     last_public_probe_at := last_public_probe_at s; last_probe := last_probe s; started := started s; events := events s |}.
Definition set_public_ready (b : bool) (s : Supervised) : Supervised :=
  {| local := local s; bridge_attempted := bridge_attempted s; forward_attempted := forward_attempted s;
     bridge_nonce := bridge_nonce s; forward := forward s; wss := wss s; retries := retries s; error_now := error_now s;
     public_ready := b; public_probe_error := public_probe_error s;
     last_public_probe_at := last_public_probe_at s; last_probe := last_probe s; started := started s; events := events s |}.
Definition set_last_probe (t : N) (s : Supervised) : Supervised :=
  {| local := local s; bridge_attempted := bridge_attempted s; forward_attempted := forward_attempted s;
     bridge_nonce := bridge_nonce s; forward := forward s; wss := wss s; retries := retries s; error_now := error_now s;
     public_ready := public_ready s; public_probe_error := public_probe_error s;
     last_public_probe_at := last_public_probe_at s; last_probe := t; started := started s; events := events s |}.
(** A failure to start something. *)
Definition failed (e : string) (s : Supervised) : Supervised :=
  {| local := local s; bridge_attempted := bridge_attempted s; forward_attempted := forward_attempted s;
     bridge_nonce := bridge_nonce s; forward := forward s; wss := wss s; retries := N.min (retries s + 1) 4294967295;
     error_now := e; public_ready := public_ready s; public_probe_error := public_probe_error s;
     last_public_probe_at := last_public_probe_at s; last_probe := last_probe s; started := started s; events := events s |}.
(** Something is started: the next number. *)
Definition numbered_start (s : Supervised) : Supervised :=
  {| local := local s; bridge_attempted := bridge_attempted s; forward_attempted := forward_attempted s;
     bridge_nonce := bridge_nonce s; forward := forward s; wss := wss s; retries := retries s; error_now := error_now s;
     public_ready := public_ready s; public_probe_error := public_probe_error s;
     last_public_probe_at := last_public_probe_at s; last_probe := last_probe s; started := started s + 1; events := events s |}.
Definition set_probed (at_ : N) (result : Result unit string) (s : Supervised) : Supervised :=
  {| local := local s; bridge_attempted := bridge_attempted s; forward_attempted := forward_attempted s;
     bridge_nonce := bridge_nonce s; forward := forward s; wss := wss s; retries := retries s; error_now := error_now s;
     public_ready := is_ok result; public_probe_error := match result with Ok _ => "" | Err e => e end;
     last_public_probe_at := at_; last_probe := last_probe s; started := started s; events := events s |}.

(** [Instant::now() - Duration::from_secs(30)] panics when the clock is younger than that. *)
Definition half_minute_before (now : N) : option N := if (now <? 30000)%N then None else Some (now - 30000)%N.

(** [is_alive] of the bridge and of the forward: a dead child is waited for and forgotten. *)
Definition check_local (alive : bool) (s : Supervised) : bool * Supervised :=
  match local s with
  | Some n => if alive then (true, s) else (false, record (ChildReaped n) (set_local None s))
  | None => (false, s)
  end.
Definition check_forward (alive : bool) (s : Supervised) : bool * Supervised :=
  match forward s with
  | Some n => if alive then (true, s) else (false, record (ChildReaped n) (set_forward None s))
  | None => (false, s)
  end.

Definition kill_local (s : Supervised) : Supervised :=
  match local s with Some n => record (ChildKilled n) (set_local None s) | None => s end.
Definition kill_forward (s : Supervised) : Supervised :=
  match forward s with Some n => record (ChildKilled n) (set_forward None s) | None => s end.
Definition stop_wss (s : Supervised) : Supervised :=
  match wss s with Some n => record (WssStopped n) (set_wss None s) | None => s end.

Definition should_launch (attempted retry_enabled : bool) : bool := negb attempted || retry_enabled.

(** *** The stages of a turn *)

Definition launch_bridge (r : Round) (s : Supervised) : option Supervised :=
  let_some probe := half_minute_before (clock_bridge r) else None in
  let s := stop_wss (kill_forward (set_last_probe probe (set_public_ready false (set_attempted true false s)))) in
  Some (match nonce r with
        | Err e => failed e s
        | Ok fresh =>
            match bridge_spawn r with
            | Err e => failed e s
            | Ok _ => set_error_now "" (record (BridgeStarted (started s)) (set_local (Some (started s))
                        (set_nonce fresh (numbered_start s))))
            end
        end).

Definition bridge_stage (r : Round) (s : Supervised) : option Supervised :=
  let '(alive, s) := check_local (local_alive_at_top r) s in
  if negb alive && should_launch (bridge_attempted s) (auto_at_top r) then launch_bridge r s else Some s.

(** [value["key"] == text]. *)
Definition field_is (key text : string) (value : Value) : bool :=
  bool_decide ((let_some v := get key value else None in as_str v) = Some text).

(** The bridge that answers names the nonce of the one started. *)
Definition probe_local_bridge (answer : option (N * option Value)) (expected : string) : bool :=
  negb (is_empty expected)
  && match answer with
     | Some (200%N, Some value) => field_is "status" "ready" value && field_is "instance" expected value
     | _ => false
     end.

Definition probe_public_mcp (r : Round) : Result unit string :=
  let_ok answer := metadata r else e => Err ("HTTPS 元数据探测失败：" ++ e) in
  return_if negb (answer.1 =? 200)%N with Err ("HTTPS OAuth 元数据返回 " ++ status_text answer.1) in
  let_ok response := answer.2 else e => Err ("OAuth 元数据格式错误：" ++ e) in
  return_if negb (field_is "issuer" issuer response) with Err "OAuth 元数据的 issuer 与当前配置不一致" in
  let_ok mcp := mcp_entry r else e => Err ("HTTPS MCP 探测失败：" ++ e) in
  return_if (negb (mcp.1 =? 401)%N || negb match mcp.2 with Some header => contains "resource_metadata" header | None => false end)
    with Err ("HTTPS MCP 入口未按预期要求 OAuth 认证（" ++ status_text mcp.1 ++ "）") in
  Ok tt.

Definition public_probe (r : Round) : Result unit string := _ <-? client ;; probe_public_mcp r.

Definition ready_stage (r : Round) (s : Supervised) : bool * Supervised :=
  let '(alive, s) := check_local (local_alive r) s in
  (alive && probe_local_bridge (healthz r) (bridge_nonce s), s).

Definition launch_transport (r : Round) (s : Supervised) : option Supervised :=
  let_some probe := half_minute_before (clock_transport r) else None in
  let s := set_last_probe probe (set_public_ready false (set_attempted (bridge_attempted s) true s)) in
  Some (if over_wss then
          if credentials
          then set_error_now "" (record (WssStarted (started s)) (set_wss (Some (started s)) (numbered_start s)))
          else failed "缺少 HTTPS MCP WSS 凭据" s
        else match forward_spawn r with
             | Ok _ => set_error_now "" (record (ForwardStarted (started s)) (set_forward (Some (started s)) (numbered_start s)))
             | Err e => failed e s
             end).

Definition transport_stage (r : Round) (ready : bool) (s : Supervised) : option Supervised :=
  let s := match wss s with Some _ => if wss_alive r then s else stop_wss s | None => s end in
  let '(needs_transport, s) :=
    if over_wss then (match wss s with Some _ => false | None => true end, s)
    else let '(alive, s) := check_forward (forward_alive r) s in (negb alive, s) in
  if ready && needs_transport && should_launch (forward_attempted s) (auto_for_transport r)
  then launch_transport r s else Some s.

Definition connected_stage (r : Round) (ready : bool) (s : Supervised) : bool * Supervised :=
  let s := if ready then s else stop_wss (kill_forward s) in
  if ready then
    if over_wss then (match wss s with Some _ => wss_connected r | None => false end, s)
    else check_forward (forward_still_alive r) s
  else (false, s).

Definition error_stage (r : Round) (connected : bool) (s : Supervised) : Supervised :=
  if negb connected then
    let s := set_public_ready false s in
    if over_wss then
      match wss s, wss_error r with
      | Some _, Some e => set_error_now ("WSS Relay: " ++ e) s
      | _, _ => s
      end
    else s
  else if over_wss then set_error_now "" s else s.

Definition probe_stage (r : Round) (connected : bool) (s : Supervised) : Supervised :=
  if connected && (15000 <=? saturating_sub (clock_probe r) (last_probe s))%N
  then set_probed (timestamp r) (public_probe r) (set_last_probe (clock_probed r) s)
  else s.

Definition published (ready connected : bool) (s : Supervised) : HttpsSnapshot :=
  {| local_ready := ready; ssh_connected := negb over_wss && connected; transport_connected := connected;
     remote_ready := connected && public_ready s; snapshot_probe_at := last_public_probe_at s;
     remote_last_error := public_probe_error s; snapshot_error := error_now s; restarts := retries s |}.

(** A turn of the loop, and the snapshot it publishes; [None] when it panics. *)
Definition turn (r : Round) (s : Supervised) : option (Supervised * HttpsSnapshot) :=
  let_some s := bridge_stage r s else None in
  let '(ready, s) := ready_stage r s in
  let_some s := transport_stage r ready s else None in
  let '(connected, s) := connected_stage r ready s in
  let s := probe_stage r connected (error_stage r connected s) in
  Some (s, published ready connected s).

(** After the loop. *)
Definition shut_down (s : Supervised) : Supervised := kill_local (stop_wss (kill_forward s)).
Definition closed_snapshot (snapshot : HttpsSnapshot) : HttpsSnapshot :=
  {| local_ready := false; ssh_connected := false; transport_connected := false; remote_ready := false;
     snapshot_probe_at := snapshot_probe_at snapshot; remote_last_error := remote_last_error snapshot;
     snapshot_error := snapshot_error snapshot; restarts := restarts snapshot |}.

Definition supervised_start (now : N) : option Supervised :=
  let_some probe := half_minute_before now else None in
  Some {| local := None; bridge_attempted := false; forward_attempted := false; bridge_nonce := ""; forward := None;
          wss := None; retries := 0; error_now := ""; public_ready := false; public_probe_error := "";
          last_public_probe_at := 0; last_probe := probe; started := 0; events := [] |}.

Fixpoint turns (rounds : list Round) (s : Supervised) (snapshot : HttpsSnapshot) : option (Supervised * HttpsSnapshot) :=
  match rounds with
  | [] => Some (s, snapshot)
  | r :: rounds => match turn r s with Some (s, snapshot) => turns rounds s snapshot | None => None end
  end.

(** The whole run: these turns, and then the stop. *)
Definition supervise (now : N) (rounds : list Round) (snapshot : HttpsSnapshot) : option (Supervised * HttpsSnapshot) :=
  let_some s := supervised_start now else None in
  match turns rounds s snapshot with
  | Some (s, snapshot) => Some (shut_down s, closed_snapshot snapshot)
  | None => None
  end.
End Supervisor.

(** ** Properties *)

Definition started_of (e : SupervisorEvent) : option N :=
  match e with BridgeStarted n | ForwardStarted n | WssStarted n => Some n | _ => None end.
Definition ended_of (e : SupervisorEvent) : option N :=
  match e with ChildReaped n | ChildKilled n | WssStopped n => Some n | _ => None end.

(** What the supervisor holds. *)
Definition held (s : Supervised) : list N := omap id [local s; forward s; wss s].

Definition numbers (k : N) : list N := map N.of_nat (seq 0 (N.to_nat k)).

(** Everything started is either held or was ended once. *)
Record accounted (s : Supervised) : Prop := {
  acc_started : omap started_of (events s) = numbers (started s);
  acc_ended : (omap ended_of (events s) ++ held s)%list ≡ₚ numbers (started s) }.

Lemma numbers_succ k : numbers (k + 1) = (numbers k ++ [k])%list.
Proof.
  unfold numbers. rewrite N.add_1_r, N2Nat.inj_succ, seq_S, map_app. cbn. by rewrite N2Nat.id.
Qed.

Lemma numbers_NoDup k : NoDup (numbers k).
Proof. apply NoDup_fmap; [intros a b; apply Nat2N.inj|apply NoDup_seq]. Qed.

Lemma omap_snoc {A B} (f : A -> option B) l x : omap f (l ++ [x])%list = (omap f l ++ match f x with Some y => [y] | None => [] end)%list.
Proof. rewrite omap_app. cbn. by destruct (f x). Qed.

(** Something held is ended. *)
Lemma accounted_ended e n s s' :
  accounted s -> ended_of e = Some n -> events s' = (events s ++ [e])%list -> started s' = started s -> held s ≡ₚ n :: held s' ->
  accounted s'.
Proof.
  intros [H1 H2] He Hev Hst Hh. assert (started_of e = None) as Hs by (by destruct e).
  split; rewrite Hev, Hst, omap_snoc, ?Hs, ?He; [by rewrite app_nil_r|]. rewrite <- H2, Hh. by rewrite <- app_assoc.
Qed.

(** Something is started and held. *)
Lemma accounted_started e s s' :
  accounted s -> started_of e = Some (started s) -> events s' = (events s ++ [e])%list -> started s' = (started s + 1)%N ->
  held s' ≡ₚ started s :: held s -> accounted s'.
Proof.
  intros [H1 H2] Hs Hev Hst Hh. assert (ended_of e = None) as He by (by destruct e).
  split; rewrite Hev, Hst, omap_snoc, ?Hs, ?He, numbers_succ; [by rewrite H1|]. rewrite app_nil_r, Hh, <- H2.
  rewrite <- Permutation_middle. rewrite (Permutation_app_comm _ [_]). done.
Qed.

Lemma accounted_same s s' : accounted s -> events s' = events s -> started s' = started s -> held s' = held s -> accounted s'.
Proof. intros [H1 H2] He Hs Hh. by split; rewrite He, Hs, ?Hh. Qed.

Section SupervisorProps.
Context (over_wss credentials : bool) (issuer : string) (client : Result unit string) (status_text : N -> string).

(** Only the transport of the settings is held. *)
Definition one_transport (s : Supervised) : Prop := if over_wss then forward s = None else wss s = None.

Definition tidy (s : Supervised) : Prop := accounted s /\ one_transport s.

Lemma kill_forward_tidy s : tidy s -> tidy (kill_forward s) /\ forward (kill_forward s) = None
  /\ local (kill_forward s) = local s /\ wss (kill_forward s) = wss s.
Proof.
  intros [Ha Ho]. unfold kill_forward. destruct (forward s) as [n|] eqn:Hf; [|done]. split_and!; try done. split.
  - eapply accounted_ended with (e := ChildKilled n); [exact Ha|done..|]. unfold held. rewrite Hf. cbn. destruct (local s), (wss s); cbn; done || apply Permutation_swap.
  - unfold one_transport in *. by destruct over_wss.
Qed.

Lemma stop_wss_tidy s : tidy s -> tidy (stop_wss s) /\ wss (stop_wss s) = None
  /\ local (stop_wss s) = local s /\ forward (stop_wss s) = forward s.
Proof.
  intros [Ha Ho]. unfold stop_wss. destruct (wss s) as [n|] eqn:Hf; [|done]. split_and!; try done. split.
  - eapply accounted_ended with (e := WssStopped n); [exact Ha|done..|]. unfold held. rewrite Hf. cbn.
    destruct (local s), (forward s); cbn; try done; [|apply Permutation_swap..]. etrans; [apply perm_skip, Permutation_swap|apply Permutation_swap].
  - unfold one_transport in *. by destruct over_wss.
Qed.

Lemma check_local_tidy alive s b s' : tidy s -> check_local alive s = (b, s') ->
  tidy s' /\ forward s' = forward s /\ wss s' = wss s /\ bridge_nonce s' = bridge_nonce s
  /\ (b = false -> local s' = None) /\ (b = true -> s' = s /\ is_Some (local s)).
Proof.
  intros [Ha Ho]. unfold check_local. destruct (local s) as [n|] eqn:Hl; [destruct alive|]; intros [= <- <-]; split_and!; try done.
  split; [|done]. eapply accounted_ended with (e := ChildReaped n); [exact Ha|done..|]. unfold held. by rewrite Hl.
Qed.

Lemma check_forward_tidy alive s b s' : tidy s -> check_forward alive s = (b, s') ->
  tidy s' /\ local s' = local s /\ wss s' = wss s /\ bridge_nonce s' = bridge_nonce s
  /\ (b = false -> forward s' = None) /\ (b = true -> s' = s).
Proof.
  intros [Ha Ho]. unfold check_forward. destruct (forward s) as [n|] eqn:Hl; [destruct alive|]; intros [= <- <-]; split_and!; try done.
  split; [|unfold one_transport in *; by destruct over_wss].
  eapply accounted_ended with (e := ChildReaped n); [exact Ha|done..|]. unfold held. rewrite Hl. cbn. destruct (local s), (wss s); cbn; done || apply Permutation_swap.
Qed.

Lemma tidy_same s s' : tidy s -> events s' = events s -> started s' = started s -> local s' = local s -> forward s' = forward s ->
  wss s' = wss s -> tidy s'.
Proof.
  intros [Ha Ho] He Hs Hl Hf Hw. split; [eapply accounted_same; [exact Ha|done..|unfold held; by rewrite Hl, Hf, Hw]|].
  unfold one_transport in *. by rewrite Hf, Hw.
Qed.

Lemma launch_bridge_tidy r s s' : tidy s -> local s = None -> launch_bridge r s = Some s' -> tidy s' /\ forward s' = None /\ wss s' = None.
Proof.
  intros Ht Hl. unfold launch_bridge. destruct (half_minute_before _) as [probe|]; [|done].
  assert (tidy (set_last_probe probe (set_public_ready false (set_attempted true false s)))) as H0 by (by eapply tidy_same).
  apply kill_forward_tidy in H0 as (H1 & Hf & Hl1 & _). apply stop_wss_tidy in H1 as (H2 & Hw & Hl2 & Hf2).
  set (x := stop_wss (kill_forward _)) in *. cbn in Hl1. rewrite Hl1, Hl in Hl2. rewrite Hf in Hf2. clearbody x.
  assert (forall e, tidy (failed e x)) as Hfail by (intros e; by eapply tidy_same).
  destruct (nonce r) as [fresh|e]; [|by intros [= <-]]. destruct (bridge_spawn r) as [[]|e]; intros [= <-]; [|done].
  split; [|done]. destruct H2 as [Ha Ho]. split; [|exact Ho].
  eapply accounted_started with (e := BridgeStarted (started x)); [exact Ha|done..|]. unfold held. cbn. by rewrite Hl2, Hf2, Hw.
Qed.

Lemma bridge_stage_tidy r s s' : tidy s -> bridge_stage r s = Some s' -> tidy s'.
Proof.
  intros Ht. unfold bridge_stage. destruct (check_local _ _) as [alive s1] eqn:Hc.
  apply (check_local_tidy _ _ _ _ Ht) in Hc as (Ht1 & _ & _ & _ & Hd & _).
  destruct alive; cbn [negb andb]; [by intros [= <-]|]. destruct (should_launch _ _); [|by intros [= <-]].
  intros H. by eapply launch_bridge_tidy in H as [? _]; [|done|auto].
Qed.

Lemma launch_transport_tidy r s s' : tidy s -> (if over_wss then wss s else forward s) = None ->
  launch_transport over_wss credentials r s = Some s' -> tidy s' /\ local s' = local s /\ bridge_nonce s' = bridge_nonce s.
Proof.
  intros Ht Hn. unfold launch_transport. destruct (half_minute_before _) as [probe|]; [|done].
  set (x := set_last_probe _ _). assert (tidy x) as Hx by (by eapply tidy_same). assert (forall e, tidy (failed e x)) as Hfail by (intros e; by eapply tidy_same).
  assert (local x = local s /\ forward x = forward s /\ wss x = wss s /\ bridge_nonce x = bridge_nonce s) as (Hl & Hf & Hw & Hb) by done.
  clearbody x. destruct Hx as [Ha Ho]. unfold one_transport in Ho. destruct over_wss eqn:Hov.
  - destruct credentials; intros [= <-]; [|split; [apply Hfail|by split]]. split; [split; [|unfold one_transport; by rewrite Hov]|by split].
    eapply accounted_started with (e := WssStarted (started x)); [exact Ha|done..|]. unfold held. cbn. rewrite Hw, Hn, Ho. cbn.
    destruct (local x); cbn; [apply Permutation_swap|done].
  - destruct (forward_spawn r) as [[]|e]; intros [= <-]; [|split; [apply Hfail|by split]]. split; [split; [|unfold one_transport; by rewrite Hov]|by split].
    eapply accounted_started with (e := ForwardStarted (started x)); [exact Ha|done..|]. unfold held. cbn. rewrite Hf, Hn, Ho. cbn.
    destruct (local x); cbn; [apply Permutation_swap|done].
Qed.

(** A stage of a turn: what becomes of what is held. *)
Lemma transport_stage_tidy r ready s s' : tidy s -> transport_stage over_wss credentials r ready s = Some s' ->
  tidy s' /\ local s' = local s /\ bridge_nonce s' = bridge_nonce s.
Proof.
  intros Ht. unfold transport_stage. set (x := match wss s with Some _ => _ | None => s end).
  assert (tidy x /\ local x = local s /\ bridge_nonce x = bridge_nonce s /\ forward x = forward s) as (Hx & Hl & Hb & Hf).
  { unfold x. destruct (wss s) as [n|] eqn:Hw; [|done]. destruct (wss_alive r); [done|].
    pose proof (stop_wss_tidy s Ht) as (? & _ & ? & ?). split_and!; try done. unfold stop_wss. by rewrite Hw. }
  clearbody x. unfold one_transport in *. destruct over_wss eqn:Hov.
  - destruct (_ && _) eqn:Hc; [|intros [= <-]; by split]. intros H. rewrite <- Hov in H. apply launch_transport_tidy in H as (? & ? & ?); [|done|].
    + by split; [|split; congruence].
    + apply andb_true_iff in Hc as [Hc _]. apply andb_true_iff in Hc as [_ Hc]. rewrite Hov. by destruct (wss x).
  - destruct (check_forward _ _) as [alive y] eqn:Hy. apply (check_forward_tidy _ _ _ _ Hx) in Hy as (Hty & Hly & _ & Hby & Hd & _).
    destruct (_ && _) eqn:Hc; [|intros [= <-]; split_and!; [done|congruence..]]. intros H. rewrite <- Hov in H.
    apply launch_transport_tidy in H as (? & ? & ?); [by split_and!; [|congruence..]|done|].
    apply andb_true_iff in Hc as [Hc _]. apply andb_true_iff in Hc as [_ Hc%negb_true_iff]. rewrite Hov. by apply Hd.
Qed.

Lemma connected_stage_tidy r ready s connected s' : tidy s -> connected_stage over_wss r ready s = (connected, s') ->
  tidy s' /\ local s' = local s /\ bridge_nonce s' = bridge_nonce s
  /\ (ready = false -> forward s' = None /\ wss s' = None /\ connected = false).
Proof.
  intros Ht. unfold connected_stage. destruct ready.
  - destruct over_wss eqn:Hov; [intros [= <- <-]; by split_and!|]. intros H.
    apply (check_forward_tidy _ _ _ _ Ht) in H as (? & ? & _ & ? & _). by split_and!.
  - intros [= <- <-]. pose proof (kill_forward_tidy s Ht) as (H1 & Hf & Hl & _). pose proof (stop_wss_tidy _ H1) as (H2 & Hw & Hl2 & Hf2).
    assert (bridge_nonce (stop_wss (kill_forward s)) = bridge_nonce s) as Hb.
    { unfold stop_wss. destruct (wss (kill_forward s)); cbn; unfold kill_forward; by destruct (forward s). }
    split_and!; [exact H2|congruence|exact Hb|]. intros _. split_and!; congruence.
Qed.

Lemma later_stages_same r connected s :
  let s' := probe_stage issuer client status_text r connected (error_stage over_wss r connected s) in
  events s' = events s /\ started s' = started s /\ local s' = local s /\ forward s' = forward s /\ wss s' = wss s
  /\ bridge_nonce s' = bridge_nonce s.
Proof.
  cbv zeta.
  assert (let x := error_stage over_wss r connected s in events x = events s /\ started x = started s /\ local x = local s
    /\ forward x = forward s /\ wss x = wss s /\ bridge_nonce x = bridge_nonce s) as H.
  { unfold error_stage. cbv zeta. destruct connected, over_wss; cbn [negb]; try done.
    destruct (wss (set_public_ready false s)), (wss_error r); done. }
  unfold probe_stage. destruct (_ && _); exact H.
Qed.

(** The local port answers as the bridge of that nonce. *)
Definition answers_as (r : Round) (nonce : string) : Prop :=
  exists value, healthz r = Some (200%N, Some value) /\ get "status" value = Some (VString "ready")
    /\ get "instance" value = Some (VString nonce).

Lemma field_is_spec key text value : field_is key text value = true -> get key value = Some (VString text).
Proof.
  intros H%bool_decide_eq_true. destruct (get key value) as [v|]; [|done]. destruct v; cbn in H; congruence.
Qed.

Lemma probe_answers r expected : probe_local_bridge (healthz r) expected = true -> expected <> "" /\ answers_as r expected.
Proof.
  unfold probe_local_bridge. intros [Hne H]%andb_true_iff. split; [by intros ->|].
  destruct (healthz r) as [[status body]|] eqn:Hh; [|done].
  assert (exists value, status = 200%N /\ body = Some value /\ field_is "status" "ready" value && field_is "instance" expected value = true)
    as (value & -> & -> & [H1%field_is_spec H2%field_is_spec]%andb_true_iff).
  { destruct body as [value|]; [|by destruct status as [|[]]; repeat case_match].
    exists value. split_and!; [|done|]; repeat (case_match; try done). }
  by exists value.
Qed.

(** What holds at the end of a turn. *)
Record exposed_safely (r : Round) (s : Supervised) (snapshot : HttpsSnapshot) : Prop := {
  exposed_bridge : is_Some (forward s) \/ is_Some (wss s) -> local_ready snapshot = true;
  exposed_own : local_ready snapshot = true -> is_Some (local s) /\ answers_as r (bridge_nonce s) /\ bridge_nonce s <> "";
  exposed_remote : remote_ready snapshot = true -> transport_connected snapshot = true;
  exposed_connected : transport_connected snapshot = true -> local_ready snapshot = true }.

Lemma turn_inv r s s' snapshot : tidy s -> turn over_wss credentials issuer client status_text r s = Some (s', snapshot) -> tidy s' /\ exposed_safely r s' snapshot.
Proof.
  intros Ht. unfold turn. destruct (bridge_stage r s) as [s1|] eqn:H1; [|done]. apply (bridge_stage_tidy _ _ _ Ht) in H1.
  unfold ready_stage. destruct (check_local _ s1) as [alive s2] eqn:H2.
  apply (check_local_tidy _ _ _ _ H1) in H2 as (Ht2 & _ & _ & _ & _ & Hal).
  set (ready := alive && _). destruct (transport_stage _ _ _ _ _) as [s3|] eqn:H3; [|done].
  apply (transport_stage_tidy _ _ _ _ Ht2) in H3 as (Ht3 & Hl3 & Hb3).
  destruct (connected_stage _ _ _ _) as [connected s4] eqn:H4.
  assert (connected = true -> ready = true) as Hcon.
  { intros ->. destruct ready; [done|]. unfold connected_stage in H4. by injection H4. }
  apply (connected_stage_tidy _ _ _ _ _ Ht3) in H4 as (Ht4 & Hl4 & Hb4 & Hno).
  destruct (later_stages_same r connected s4) as (He & Hs & Hl & Hf & Hw & Hb).
  set (s5 := probe_stage _ _ _ _ _ _) in *. intros [= <- <-]. split; [by eapply tidy_same|]. split; cbn.
  - rewrite Hf, Hw. destruct ready; [done|]. destruct (Hno eq_refl) as (-> & -> & _). by intros [[]|[]].
  - intros [Ha Hp]%andb_true_iff. rewrite Hl, Hl4, Hl3, Hb, Hb4, Hb3. destruct (Hal Ha) as [-> ?].
    by apply probe_answers in Hp as [? ?].
  - by intros [? _]%andb_true_iff.
  - exact Hcon.
Qed.

Lemma turns_tidy rounds s snapshot s' snapshot' : tidy s -> turns over_wss credentials issuer client status_text rounds s snapshot = Some (s', snapshot') -> tidy s'.
Proof.
  revert s snapshot. induction rounds as [|r rounds IH]; intros s snapshot Ht; cbn; [by intros [= <- _]|].
  destruct (turn _ _ _ _ _ r s) as [[s1 sn1]|] eqn:H1; [|done]. apply turn_inv in H1 as [H1 _]; [|done]. by apply IH.
Qed.

Lemma start_tidy now s : supervised_start now = Some s -> tidy s.
Proof.
  unfold supervised_start. destruct (half_minute_before now); [|done]. intros [= <-]. split; [by split|].
  unfold one_transport. by destruct over_wss.
Qed.

(** C15. The bridge is reachable from outside only while it is the supervisor's own.  After every turn
    of the loop, whatever dies, fails or answers in it: a transport is held only if the bridge
    process is alive and the bridge answering on the local port named the nonce this process was
    started with (so another program that took the port is never exposed); and the snapshot
    shown never claims more than what it rests on (reachable implies connected implies ready). *)
Theorem transport_needs_bridge now before r s snapshot s' snapshot' :
  match supervised_start now with Some s0 => turns over_wss credentials issuer client status_text before s0 https_snapshot_default | None => None end = Some (s, snapshot) ->
  turn over_wss credentials issuer client status_text r s = Some (s', snapshot') -> exposed_safely r s' snapshot'.
Proof.
  destruct (supervised_start now) as [s0|] eqn:H0; [|done]. intros H Hturn.
  eapply turn_inv; [|exact Hturn]. eapply turns_tidy; [by eapply start_tidy|exact H].
Qed.

(** C21. No process is left behind.  When the supervisor has been stopped, whatever happened before,
    every process and client it started was ended exactly once (found dead and waited for, killed, or stopped),
    and nothing else was; and the snapshot shows nothing as running. *)
Theorem no_process_left now rounds snapshot s snapshot' :
  supervise over_wss credentials issuer client status_text now rounds snapshot = Some (s, snapshot') ->
  omap started_of (events s) = numbers (started s) /\ NoDup (omap ended_of (events s))
  /\ omap ended_of (events s) ≡ₚ omap started_of (events s)
  /\ local_ready snapshot' = false /\ transport_connected snapshot' = false /\ remote_ready snapshot' = false.
Proof.
  unfold supervise. destruct (supervised_start now) as [s0|] eqn:H0; [|done].
  destruct (turns _ _ _ _ _ _ _ _) as [[s1 sn1]|] eqn:H1; [|done]. intros [= <- <-].
  apply turns_tidy in H1; [|by eapply start_tidy]. pose proof (kill_forward_tidy s1 H1) as (H2 & Hf & _).
  pose proof (stop_wss_tidy _ H2) as (H3 & Hw & Hl & Hf').
  assert (tidy (shut_down s1) /\ held (shut_down s1) = []) as [[[Hs He] _] Hh].
  { unfold shut_down, kill_local. set (x := stop_wss _) in *. destruct (local x) as [n|] eqn:Hlx.
    - destruct H3 as [Ha Ho]. split; [split; [|exact Ho]|unfold held; cbn; by rewrite Hf', Hf, Hw].
      eapply accounted_ended with (e := ChildKilled n); [exact Ha|done..|]. unfold held. by rewrite Hlx.
    - split; [done|]. unfold held. by rewrite Hlx, Hf', Hf, Hw. }
  rewrite Hh, app_nil_r in He. split_and!; try done; [rewrite He; apply numbers_NoDup|by rewrite Hs].
Qed.

(** *** Without automatic reconnection *)

Definition bridges (s : Supervised) : nat :=
  length (omap (fun e => match e with BridgeStarted n => Some n | _ => None end) (events s)).
Definition transports (s : Supervised) : nat :=
  length (omap (fun e => match e with ForwardStarted n | WssStarted n => Some n | _ => None end) (events s)).
Definition counts (s : Supervised) : nat * nat * bool * bool := (bridges s, transports s, bridge_attempted s, forward_attempted s).

Lemma counts_record_end e s n : ended_of e = Some n -> counts (record e s) = counts s.
Proof.
  intros He. unfold counts, bridges, transports. cbn. rewrite !omap_app. by destruct e; cbn; rewrite ?app_nil_r.
Qed.

Lemma counts_kill_forward s : counts (kill_forward s) = counts s.
Proof. unfold kill_forward. destruct (forward s); [|done]. by erewrite counts_record_end. Qed.
Lemma counts_stop_wss s : counts (stop_wss s) = counts s.
Proof. unfold stop_wss. destruct (wss s); [|done]. by erewrite counts_record_end. Qed.
Lemma counts_check_local alive s b s' : check_local alive s = (b, s') -> counts s' = counts s /\ (local s = None -> b = false /\ local s' = None).
Proof.
  unfold check_local. destruct (local s) eqn:Hl; [destruct alive|]; intros [= <- <-]; [done|by erewrite counts_record_end|done].
Qed.
Lemma counts_check_forward alive s b s' : check_forward alive s = (b, s') -> counts s' = counts s.
Proof. unfold check_forward. destruct (forward s); [destruct alive|]; intros [= <- <-]; [done|by erewrite counts_record_end|done]. Qed.

(** At most one start of each kind, and none before its attempt. *)
Definition attempted_once (s : Supervised) : Prop :=
  (bridges s <= if bridge_attempted s then 1 else 0)%nat /\ (transports s <= if forward_attempted s then 1 else 0)%nat
  /\ (bridge_attempted s = false -> local s = None /\ forward_attempted s = false).

Lemma attempted_counts s s' : attempted_once s -> counts s' = counts s -> (bridge_attempted s = false -> local s' = None) -> attempted_once s'.
Proof. unfold attempted_once, counts. intros (H1 & H2 & H3) [= -> -> -> ->] Hl. split_and!; [done|done|]. intros Hb. split; [by apply Hl|by apply H3]. Qed.

Lemma once_bridge_stage r s s' : attempted_once s -> auto_at_top r = false -> bridge_stage r s = Some s' -> attempted_once s'.
Proof.
  intros Ho Ha. unfold bridge_stage. destruct (check_local _ s) as [alive s1] eqn:Hc. apply counts_check_local in Hc as [Hc Hl].
  assert (attempted_once s1) as H1 by (eapply attempted_counts; [exact Ho|done|]; intros Hb; by apply Hl, Ho).
  rewrite Ha. unfold should_launch. rewrite orb_false_r. destruct (negb alive && negb (bridge_attempted s1)) eqn:Hgo; [|by intros [= <-]].
  apply andb_true_iff in Hgo as [_ Hb%negb_true_iff]. destruct H1 as (Hn & Ht & Hnone). rewrite Hb in Hn. destruct (Hnone Hb) as [Hloc Hf].
  rewrite Hf in Ht. unfold launch_bridge. destruct (half_minute_before _) as [probe|]; [|done].
  set (x := stop_wss _). assert (counts x = (bridges s1, transports s1, true, false)) as Hx
    by (unfold x; by rewrite counts_stop_wss, counts_kill_forward).
  unfold counts in Hx. injection Hx as Hx1 Hx2 Hx3 Hx4. clearbody x.
  assert (forall e, attempted_once (failed e x)) as Hfail.
  { intros e. unfold attempted_once. cbn. unfold bridges, transports in *. cbn. rewrite Hx1, Hx2, Hx3, Hx4. split_and!; [lia|lia|done]. }
  destruct (nonce r); [|intros [= <-]; apply Hfail]. destruct (bridge_spawn r); intros [= <-]; [|apply Hfail].
  unfold attempted_once, bridges, transports in *. cbn. rewrite !omap_app, !length_app, Hx1, Hx2, Hx3, Hx4. cbn. split_and!; [lia|lia|done].
Qed.

Lemma once_transport_stage r ready s s' :
  attempted_once s -> auto_for_transport r = false -> (ready = true -> bridge_attempted s = true) ->
  transport_stage over_wss credentials r ready s = Some s' -> attempted_once s'.
Proof.
  intros Ho Ha Hr. unfold transport_stage. set (x := match wss s with Some _ => _ | None => s end).
  assert (counts x = counts s /\ local x = local s) as [Hc Hl].
  { unfold x. destruct (wss s) as [n|] eqn:Hw; [|done]. destruct (wss_alive r); [done|]. rewrite counts_stop_wss. split; [done|].
    unfold stop_wss. by rewrite Hw. }
  clearbody x. set (p := if over_wss then _ else _). assert (counts p.2 = counts s /\ local p.2 = local s) as [Hc2 Hl2].
  { unfold p. destruct over_wss; [done|]. destruct (check_forward _ x) as [alive y] eqn:Hy. cbn.
    split; [by rewrite (counts_check_forward _ _ _ _ Hy)|]. unfold check_forward in Hy.
    destruct (forward x); [destruct (forward_alive r)|]; by injection Hy as _ <-. }
  destruct p as [needs y]. cbn [snd] in *. clear Hc Hl x. assert (attempted_once y) as Hy
    by (eapply attempted_counts; [exact Ho|done|]; intros Hb; rewrite Hl2; by apply Ho).
  rewrite Ha. unfold should_launch. rewrite orb_false_r. destruct (_ && _) eqn:Hgo; [|by intros [= <-]].
  apply andb_true_iff in Hgo as [[Hready _]%andb_true_iff Hf%negb_true_iff]. destruct Hy as (Hb & Ht & _). rewrite Hf in Ht.
  assert (bridge_attempted y = true) as Hby by (unfold counts in Hc2; injection Hc2 as _ _ -> _; auto).
  rewrite Hby in Hb. unfold launch_transport. destruct (half_minute_before _) as [probe|]; [|done]. rewrite Hby.
  destruct over_wss; [destruct credentials|destruct (forward_spawn r)]; intros [= <-];
    unfold attempted_once, bridges, transports in *; cbn; rewrite ?omap_app, ?length_app; cbn; (split_and!; [lia|lia|done]).
Qed.

Lemma once_connected_stage r ready s connected s' :
  attempted_once s -> connected_stage over_wss r ready s = (connected, s') -> attempted_once s'.
Proof.
  intros Ho H. pose proof Ho as (_ & _ & Hnone). unfold connected_stage in H. destruct ready.
  - destruct over_wss; [by injection H as _ <-|]. pose proof (counts_check_forward _ _ _ _ H) as Hc.
    eapply attempted_counts; [exact Ho|done|]. intros Hb. destruct (Hnone Hb) as [Hn _]. unfold check_forward in H.
    destruct (forward s); [destruct (forward_still_alive r)|]; by injection H as _ <-.
  - injection H as _ <-. eapply attempted_counts; [exact Ho|by rewrite counts_stop_wss, counts_kill_forward|].
    intros Hb. destruct (Hnone Hb) as [Hn _]. unfold stop_wss. assert (local (kill_forward s) = None)
      by (unfold kill_forward; by destruct (forward s)). by destruct (wss (kill_forward s)).
Qed.

Lemma counts_later_stages r connected s : counts (probe_stage issuer client status_text r connected (error_stage over_wss r connected s)) = counts s.
Proof.
  unfold probe_stage. assert (counts (error_stage over_wss r connected s) = counts s) as H.
  { unfold error_stage. cbv zeta. destruct connected, over_wss; cbn [negb]; try done.
    destruct (wss (set_public_ready false s)), (wss_error r); done. }
  destruct (_ && _); [|exact H]. unfold counts, bridges, transports in *. exact H.
Qed.

Lemma once_turn r s s' snapshot :
  attempted_once s -> auto_at_top r = false -> auto_for_transport r = false ->
  turn over_wss credentials issuer client status_text r s = Some (s', snapshot) -> attempted_once s'.
Proof.
  intros Ho Ha1 Ha2 Hturn. unfold turn in Hturn. destruct (bridge_stage r s) as [x1|] eqn:H1; [|done].
  apply once_bridge_stage in H1; [|done..]. unfold ready_stage in Hturn. destruct (check_local _ x1) as [alive x2] eqn:H2.
  apply counts_check_local in H2 as [Hc2 Hl2].
  assert (attempted_once x2) as Hx2 by (eapply attempted_counts; [exact H1|done|]; intros Hb; by apply Hl2, H1).
  destruct (transport_stage _ _ _ _ _) as [x3|] eqn:H3; [|done]. apply once_transport_stage in H3; [|done..|].
  2: { intros [Hal _]%andb_true_iff. destruct (bridge_attempted x2) eqn:Hb; [done|]. exfalso.
       unfold counts in Hc2. injection Hc2 as _ _ Hb2 _. rewrite Hb in Hb2. destruct H1 as (_ & _ & Hnone).
       destruct (Hnone (eq_sym Hb2)) as [Hn _]. destruct (Hl2 Hn) as [Hf _]. congruence. }
  destruct (connected_stage _ _ _ _) as [connected x4] eqn:H4. apply once_connected_stage in H4; [|done].
  injection Hturn as <- _. destruct (later_stages_same r connected x4) as (_ & _ & Hl & _).
  eapply attempted_counts; [exact H4|apply counts_later_stages|rewrite Hl; apply H4].
Qed.

(** With automatic reconnection switched off, starting HTTPS starts the bridge and the transport at
    most once each, however often they die: what the person sees fail stays failed until they
    start it again. *)
Theorem single_attempt now rounds s snapshot :
  Forall (fun r => auto_at_top r = false /\ auto_for_transport r = false) rounds ->
  match supervised_start now with Some s0 => turns over_wss credentials issuer client status_text rounds s0 https_snapshot_default | None => None end = Some (s, snapshot) ->
  (bridges s <= 1)%nat /\ (transports s <= 1)%nat.
Proof.
  intros Hauto. destruct (supervised_start now) as [s0|] eqn:H0; [|done]. intros H. enough (attempted_once s) as (Hb & Ht & _)
    by (destruct (bridge_attempted s), (forward_attempted s); lia).
  assert (attempted_once s0) as Ho.
  { unfold supervised_start in H0. destruct (half_minute_before now); [|done]. injection H0 as <-. by split. }
  clear H0. revert s0 Ho H. generalize https_snapshot_default as sn.
  induction Hauto as [|r rounds [Ha1 Ha2] _ IH]; intros sn s0 Ho; cbn; [by intros [= <- _]|].
  destruct (turn _ _ _ _ _ r s0) as [[s1 sn1]|] eqn:Hturn; [|done]. apply IH. by eapply once_turn.
Qed.

(** *** What "reachable from outside" rests on *)

(** The public metadata named the configured issuer, and the MCP entry demanded OAuth. *)
Definition guarded_entry (r : Round) : Prop :=
  (exists value, metadata r = Ok (200%N, Ok value) /\ get "issuer" value = Some (VString issuer))
  /\ exists header, mcp_entry r = Ok (401%N, Some header) /\ contains "resource_metadata" header = true.

Lemma probe_guarded r : public_probe issuer client status_text r = Ok tt -> guarded_entry r.
Proof.
  unfold public_probe, probe_public_mcp. destruct client; [|done]. destruct (metadata r) as [[code body]|] eqn:Hm; [|done]. cbn.
  destruct (N.eqb_spec code 200) as [->|]; [|done]. cbn. destruct body as [value|]; [|done].
  destruct (field_is "issuer" issuer value) eqn:Hi; [|done]. cbn. destruct (mcp_entry r) as [[code header]|] eqn:Hc; [|done]. cbn.
  destruct (N.eqb_spec code 401) as [->|]; [|done]. cbn. destruct header as [header|]; [|done].
  destruct (contains _ header) eqn:Hh; [|done]. intros _. split.
  - exists value. split; [done|by apply field_is_spec].
  - by exists header.
Qed.

(** A step after which "reachable" can only be what it was, with nothing started. *)
Definition claim_kept (s s' : Supervised) : Prop := public_ready s' = true -> public_ready s = true /\ started s' = started s.

Lemma claim_kept_trans s1 s2 s3 : claim_kept s1 s2 -> claim_kept s2 s3 -> claim_kept s1 s3.
Proof. unfold claim_kept. intros H1 H2 H3. destruct (H2 H3) as [H4 ->]. auto. Qed.
Lemma claim_kept_same s s' : public_ready s' = public_ready s -> started s' = started s -> claim_kept s s'.
Proof. unfold claim_kept. by intros -> ->. Qed.
Lemma claim_dropped s s' : public_ready s' = false -> claim_kept s s'.
Proof. unfold claim_kept. by intros ->. Qed.

Lemma claim_kill_forward s : claim_kept s (kill_forward s).
Proof. unfold kill_forward. destruct (forward s); by apply claim_kept_same. Qed.
Lemma claim_stop_wss s : claim_kept s (stop_wss s).
Proof. unfold stop_wss. destruct (wss s); by apply claim_kept_same. Qed.
Lemma claim_check_local alive s : claim_kept s (check_local alive s).2.
Proof. unfold check_local. destruct (local s), alive; by apply claim_kept_same. Qed.
Lemma claim_check_forward alive s : claim_kept s (check_forward alive s).2.
Proof. unfold check_forward. destruct (forward s), alive; by apply claim_kept_same. Qed.

Lemma claim_launch_bridge r s s' : launch_bridge r s = Some s' -> public_ready s' = false.
Proof.
  unfold launch_bridge. destruct (half_minute_before _); [|done]. set (x := stop_wss _).
  assert (public_ready x = false) as Hx.
  { destruct (public_ready x) eqn:Hx; [|done]. apply claim_stop_wss in Hx as [Hx _]. by apply claim_kill_forward in Hx as [Hx _]. }
  destruct (nonce r); [destruct (bridge_spawn r)|]; by intros [= <-].
Qed.

Lemma claim_bridge_stage r s s' : bridge_stage r s = Some s' -> claim_kept s s'.
Proof.
  unfold bridge_stage. destruct (check_local _ s) as [alive s1] eqn:Hc. pose proof (claim_check_local (local_alive_at_top r) s) as H.
  rewrite Hc in H. destruct (_ && _); [|by intros [= <-]]. intros Hl. by apply claim_dropped, claim_launch_bridge with r s1.
Qed.

Lemma claim_transport_stage r ready s s' : transport_stage over_wss credentials r ready s = Some s' -> claim_kept s s'.
Proof.
  unfold transport_stage. cbv zeta.
  set (x := match wss s with Some _ => _ | None => s end).
  assert (claim_kept s x) as Hx by (unfold x; destruct (wss s); [destruct (wss_alive r); [by apply claim_kept_same|apply claim_stop_wss]|by apply claim_kept_same]).
  set (y := if over_wss then _ else _). assert (claim_kept s y.2) as Hy.
  { unfold y. destruct over_wss; [done|]. pose proof (claim_check_forward (forward_alive r) x) as H.
    destruct (check_forward _ x). by eapply claim_kept_trans. }
  destruct y as [needs z]. destruct (_ && should_launch _ _); [|by intros [= <-]].
  unfold launch_transport. destruct (half_minute_before _); [|done]. intros [= <-]. apply claim_dropped.
  destruct over_wss; [by destruct credentials|by destruct (forward_spawn r)].
Qed.

Lemma claim_connected_stage r ready s : claim_kept s (connected_stage over_wss r ready s).2.
Proof.
  unfold connected_stage. destruct ready; [destruct over_wss; [by apply claim_kept_same|apply claim_check_forward]|].
  eapply claim_kept_trans; [apply claim_kill_forward|apply claim_stop_wss].
Qed.

Lemma claim_error_stage r connected s : claim_kept s (error_stage over_wss r connected s).
Proof.
  unfold error_stage. cbv zeta. destruct connected; cbn [negb]; [destruct over_wss; by apply claim_kept_same|].
  apply claim_dropped. destruct over_wss; [destruct (wss _), (wss_error r)|]; done.
Qed.

Lemma claim_turn r s s' snapshot : turn over_wss credentials issuer client status_text r s = Some (s', snapshot) ->
  remote_ready snapshot = (transport_connected snapshot && public_ready s')
  /\ (public_ready s' = true -> guarded_entry r \/ (public_ready s = true /\ started s' = started s)).
Proof.
  unfold turn. destruct (bridge_stage r s) as [s1|] eqn:H1; [|done]. apply claim_bridge_stage in H1.
  unfold ready_stage. destruct (check_local _ s1) as [alive s2] eqn:H2.
  pose proof (claim_check_local (local_alive r) s1) as Hc. rewrite H2 in Hc. set (ready := alive && _).
  destruct (transport_stage _ _ _ _ _) as [s3|] eqn:H3; [|done]. apply claim_transport_stage in H3.
  destruct (connected_stage _ _ _ _) as [connected s4] eqn:H4. pose proof (claim_connected_stage r ready s3) as H5. rewrite H4 in H5.
  assert (claim_kept s (error_stage over_wss r connected s4)) as H.
  { repeat (eapply claim_kept_trans; [eassumption|]). apply claim_error_stage. }
  intros [= <- <-]. split; [done|]. unfold probe_stage. destruct (connected && _); [|auto]. intros Hp. left. apply probe_guarded.
  change (is_ok (public_probe issuer client status_text r) = true) in Hp. by destruct (public_probe _ _ _ r) as [[]|].
Qed.

Lemma turns_snoc rounds r s snapshot : turns over_wss credentials issuer client status_text (rounds ++ [r])%list s snapshot
  = match turns over_wss credentials issuer client status_text rounds s snapshot with
    | Some (s1, sn1) => turn over_wss credentials issuer client status_text r s1 | None => None end.
Proof.
  revert s snapshot. induction rounds as [|r0 rounds IH]; intros s snapshot; cbn.
  - by destruct (turn _ _ _ _ _ r s) as [[]|].
  - destruct (turn _ _ _ _ _ r0 s) as [[]|]; [apply IH|done].
Qed.

(** "Reachable from outside" is shown only on evidence, and only while the evidence is about what
    runs now: whenever the snapshot says so, the transport is connected, and in some turn since
    which no bridge and no transport was started, the public metadata named the configured issuer
    and the public MCP entry refused a request without credentials, pointing at that metadata. *)
Theorem remote_ready_guarded now rounds s0 s snapshot :
  supervised_start now = Some s0 ->
  turns over_wss credentials issuer client status_text rounds s0 https_snapshot_default = Some (s, snapshot) ->
  remote_ready snapshot = true ->
  transport_connected snapshot = true
  /\ exists before r after s1 sn1, rounds = (before ++ r :: after)%list /\ guarded_entry r
       /\ turns over_wss credentials issuer client status_text (before ++ [r])%list s0 https_snapshot_default = Some (s1, sn1)
       /\ started s = started s1.
Proof.
  intros H0 Hturns Hremote.
  assert (public_ready s = true /\ transport_connected snapshot = true) as [Hp Hc].
  { destruct rounds as [|r rounds] using rev_ind; [by injection Hturns as <- <-|]. rewrite turns_snoc in Hturns.
    destruct (turns _ _ _ _ _ _ _ _) as [[s1 sn1]|]; [|done]. apply claim_turn in Hturns as [Hr _].
    rewrite Hremote in Hr. symmetry in Hr. by apply andb_true_iff in Hr as [? ?]. }
  split; [done|]. clear Hc Hremote. revert s snapshot Hturns Hp. induction rounds as [|r rounds IH] using rev_ind; intros s snapshot Hturns Hp.
  - injection Hturns as <- <-. unfold supervised_start in H0. destruct (half_minute_before now); [|done]. by injection H0 as <-.
  - pose proof Hturns as Hall. rewrite turns_snoc in Hturns. destruct (turns _ _ _ _ _ rounds _ _) as [[s1 sn1]|] eqn:H1; [|done].
    apply claim_turn in Hturns as [_ Hg]. destruct (Hg Hp) as [Hg1|[Hp1 He]]; clear Hg.
    + by exists rounds, r, [], s, snapshot.
    + destruct (IH s1 sn1 eq_refl Hp1) as (before & r1 & after & s2 & sn2 & -> & Hg & Hs2 & Hst).
      exists before, r1, (after ++ [r])%list, s2, sn2. split_and!; [by rewrite <- app_assoc|done|done|congruence].
Qed.

(** The subtraction from the clock at the top of the loop's thread panics in the first half
    minute of the clock: the worker dies before its first turn, and the supervisor stays. *)
Lemma supervisor_panics_early now rounds snapshot : (now < 30000)%N -> supervise over_wss credentials issuer client status_text now rounds snapshot = None.
Proof. intros H. unfold supervise, supervised_start, half_minute_before. by rewrite (proj2 (N.ltb_lt _ _) H). Qed.
End SupervisorProps.

(** ** Witnesses *)

(** A turn in which everything works; the bridge started with the nonce answers with [answering]. *)
Definition sample_turn (now : N) (alive : bool) (answering : string) : Round :=
  {| local_alive_at_top := alive; auto_at_top := false; clock_bridge := now; nonce := Ok "n1"; bridge_spawn := Ok tt;
     local_alive := true;
     healthz := Some (200%N, Some (Object [("status", VString "ready"); ("instance", VString answering)])); wss_alive := true; forward_alive := alive; auto_for_transport := false;
     clock_transport := now; forward_spawn := Ok tt; wss_connected := true; forward_still_alive := true; wss_error := None;
     clock_probe := now; clock_probed := now; timestamp := now;
     metadata := Ok (200%N, Ok (Object [("issuer", VString "https://a.example")]));
     mcp_entry := Ok (401%N, Some "Bearer resource_metadata") |}.

Definition sample_status (n : N) : string := "".

Definition sample_after (over_wss : bool) (rounds : list Round) : Supervised * HttpsSnapshot :=
  default ({| local := None; bridge_attempted := false; forward_attempted := false; bridge_nonce := ""; forward := None;
              wss := None; retries := 0; error_now := ""; public_ready := false; public_probe_error := "";
              last_public_probe_at := 0; last_probe := 0; started := 0; events := [] |}, https_snapshot_default)
    (match supervised_start 60000 with Some s0 => turns over_wss true "https://a.example" (Ok tt) sample_status rounds s0 https_snapshot_default | None => None end).

(** While the port is another program's, nothing is exposed. *)
Lemma transport_needs_bridge_witness :
  let first := sample_after true [sample_turn 60000 true "other"] in
  let second := sample_after true [sample_turn 60000 true "other"; sample_turn 62000 true "n1"] in
  wss first.1 = None /\ remote_ready first.2 = false /\ remote_ready second.2 = true
  /\ exposed_safely (sample_turn 62000 true "n1") second.1 second.2.
Proof.
  intros first second. split; [vm_compute; reflexivity|]. split; [vm_compute; reflexivity|]. split; [vm_compute; reflexivity|].
  refine (transport_needs_bridge true true "https://a.example" (Ok tt) sample_status 60000 [sample_turn 60000 true "other"] (sample_turn 62000 true "n1")
    first.1 first.2 second.1 second.2 _ _); vm_compute; reflexivity.
Defined.

Definition sample_rounds : list Round := [sample_turn 60000 true "n1"; sample_turn 62000 false "n1"; sample_turn 64000 true "n1"].

(** The bridge and the forward are started once, and both are ended. *)
Lemma no_process_left_witness :
  exists s snapshot, supervise false true "https://a.example" (Ok tt) sample_status 60000 sample_rounds https_snapshot_default = Some (s, snapshot)
  /\ started s = 2%N /\ omap ended_of (events s) ≡ₚ omap started_of (events s).
Proof.
  destruct (supervise false true "https://a.example" (Ok tt) sample_status 60000 sample_rounds https_snapshot_default) as [[s snapshot]|] eqn:H; [|vm_compute in H; discriminate].
  exists s, snapshot. split; [done|]. split; [vm_compute in H; by injection H as <- _|].
  exact (proj1 (proj2 (proj2 (no_process_left false true "https://a.example" (Ok tt) sample_status 60000 sample_rounds https_snapshot_default s snapshot H)))).
Defined.

(** Both die in the second turn and are not started again. *)
Lemma single_attempt_witness :
  let s := (sample_after false sample_rounds).1 in
  bridges s = 1%nat /\ local s = None /\ (bridges s <= 1)%nat /\ (transports s <= 1)%nat.
Proof.
  intros s. split; [vm_compute; reflexivity|]. split; [vm_compute; reflexivity|].
  refine (single_attempt false true "https://a.example" (Ok tt) sample_status 60000 sample_rounds s (sample_after false sample_rounds).2 _ _).
  - unfold sample_rounds. repeat constructor.
  - vm_compute. reflexivity.
Defined.

(** The first turn starts both and finds the public entry guarded; the second one changes nothing. *)
Lemma remote_ready_guarded_witness :
  let rounds := [sample_turn 60000 true "n1"; sample_turn 62000 true "n1"] in
  let final := sample_after true rounds in
  remote_ready final.2 = true
  /\ exists before r after, rounds = (before ++ r :: after)%list /\ guarded_entry "https://a.example" r.
Proof.
  intros rounds final. split; [vm_compute; reflexivity|].
  destruct (supervised_start 60000) as [s0|] eqn:H0; [|vm_compute in H0; discriminate].
  assert (turns true true "https://a.example" (Ok tt) sample_status rounds s0 https_snapshot_default = Some (final.1, final.2)) as Ht
    by (injection H0 as <-; vm_compute; reflexivity).
  destruct (remote_ready_guarded true true "https://a.example" (Ok tt) sample_status 60000 rounds s0 final.1 final.2 H0 Ht)
    as (_ & before & r & after & s1 & sn1 & He & Hg & _); [vm_compute; reflexivity|].
  by exists before, r, after.
Defined.
