(* ===== verification/HttpsMcp.v ===== *)
(** * The commands of the HTTPS transport ([src-tauri/src/https_mcp.rs])

    What starts, stops, restores and reconfigures the worker of [HttpsSupervisor], the rotation
    of its secret, and the administration of the OAuth grants
    ([https_mcp_authorizations.rs]).  The commands answer with the status of
    [status_contract.rs]. *)

From S2P Require Export Connection Secrets HttpsSupervisor.
From stdpp Require Import pretty.
Local Open Scope string_scope.

(** ** What is accepted ([validate]) *)

Definition domain_byte (a : ascii) : bool := is_ascii_alphanumeric a || Ascii.eqb a "-" || Ascii.eqb a ".".
Definition user_byte (a : ascii) : bool := is_ascii_alphanumeric a || Ascii.eqb a "_" || Ascii.eqb a "-".

(** A host or domain of at most 253 bytes that is not an option. *)
Definition host_ok (host : string) : bool :=
  negb (is_empty host || (253 <? N.of_nat (String.length host))%N || starts_with "-" host
        || negb (string_forall domain_byte host)).
Definition user_ok (user : string) : bool :=
  negb (is_empty user || (64 <? N.of_nat (String.length user))%N || negb (string_forall user_byte user)
        || starts_with "-" user).

Definition validate_authorization_lifetime (hours : option N) : Result unit string :=
  match hours with
  | Some h => if (h =? 0)%N || (87601 <=? h)%N then Err "OAuth 授权期限必须是 1～87600 小时，或选择不限时间" else Ok tt
  | None => Ok tt
  end.

Definition validate_ssh (settings : HttpsMcpSettings) : Result unit string :=
  return_if negb (host_ok (trim (https_ssh_host settings))) with Err "SSH 主机无效" in
  return_if negb (user_ok (trim (https_ssh_user settings))) with Err "SSH 用户名无效" in
  return_if (https_ssh_port settings =? 0)%N || (https_remote_port settings <? 1024)%N with Err "SSH 端口无效" in
  Ok tt.

Definition validate_https (settings : HttpsMcpSettings) : Result unit string :=
  let_some domain := Text.strip_prefix "https://" (trim (https_base_url settings))
    else Err "HTTPS MCP 地址必须以 https:// 开头" in
  return_if negb (host_ok domain) with Err "HTTPS MCP 地址必须是没有端口和路径的 HTTPS 域名" in
  return_if negb (one_of ["ssh"; "wss"] (https_transport settings)) with Err "HTTPS MCP 传输模式无效" in
  _ <-? (if String.eqb (https_transport settings) "ssh" then validate_ssh settings else Ok tt) ;;
  return_if (https_local_port settings <? 1024)%N with Err "本机 MCP 端口无效" in
  validate_authorization_lifetime (https_authorization_ttl_hours settings).

(** ** What the processes are given *)

(** The arguments of [ssh] in [start_forward]. *)
Definition forward_args (settings : HttpsMcpSettings) : list string :=
  let bind := "127.0.0.1:" ++ pretty (https_remote_port settings) ++ ":127.0.0.1:" ++ pretty (https_local_port settings) in
  let destination := https_ssh_user settings ++ "@" ++ https_ssh_host settings in
  ["-N"; "-T"; "-o"; "BatchMode=yes"; "-o"; "StrictHostKeyChecking=yes"; "-o"; "ExitOnForwardFailure=yes";
   "-o"; "ConnectTimeout=8"; "-o"; "ServerAliveInterval=20"; "-o"; "ServerAliveCountMax=3";
   "-p"; pretty (https_ssh_port settings); "-R"; bind; destination].

(** The environment of the bridge in [start_bridge]: what is set, and then what is removed. *)
Definition bridge_env (app_version : string) (l : HttpsLaunch) (instance_nonce : string) (inherited : Env) : Env :=
  let set name value (env : Env) := <[name := value]> env in
  delete "CHATX_TUNNEL_RUNTIME_KEY"
    (set "CHATX_MCP_SETTINGS_PATH" (launch_log_dir l ++ "/settings.json")
    (set "CHATX_MCP_AUTH_STORE" (launch_log_dir l ++ "/https-oauth-authorizations")
    (set "CHATX_MCP_HOME" (launch_home l)
    (set "CHATX_MCP_NODE" (path_display (node (launch_paths l)))
    (set "CHATX_MCP_ENTRY" (path_display (desktop_commander (launch_paths l)))
    (set "CHATX_MCP_LAUNCHER" (path_display (launcher (launch_paths l)))
    (set "CHATX_MCP_APP_VERSION" app_version
    (set "CHATX_MCP_INSTANCE_NONCE" instance_nonce
    (set "CHATX_MCP_SIGNING_KEY" (launch_signing l)
    (set "CHATX_MCP_LOGIN_PASSWORD" (launch_password l)
    (set "CHATX_MCP_PORT" (pretty (https_local_port (launch_settings l)))
    (set "CHATX_MCP_ISSUER" (https_base_url (launch_settings l)) inherited)))))))))))).

(** ** Status ([status_contract.rs]) *)

Record HttpsMcpStatus := {
  status_enabled : bool;
  status_connected : bool;
  status_state : string;
  status_auto_reconnect : bool;
  status_manual_stop_blocked : bool;
  status_base_url : string;
  status_endpoint : string;
  status_ssh_host : string;
  status_ssh_user : string;
  status_ssh_port : N;
  status_local_port : N;
  status_remote_port : N;
  status_authorization_ttl_hours : option N;
  status_transport : string;
  status_local_ready : bool;
  status_ssh_connected : bool;
  status_transport_connected : bool;
  status_remote_ready : bool;
  status_last_public_probe_at : N;
  status_remote_last_error : string;
  status_restarts : N;
  status_last_error : string }.

(** [settings.https_mcp = config], [settings.https_mcp.enabled = b] and the switch for retries. *)
Definition with_https (h : HttpsMcpSettings) (s : Settings) : Settings :=
  {| tunnel_id := tunnel_id s; remember_key := remember_key s; auto_reconnect := auto_reconnect s;
     connection_intent := connection_intent s; monitor_enabled := monitor_enabled s;
     monitor_port := monitor_port s; proxy := proxy s; relay := relay s; https_mcp := h |}.
Definition https_with (enabled retry : bool) (ttl : option N) (h : HttpsMcpSettings) : HttpsMcpSettings :=
  {| https_enabled := enabled; https_auto_reconnect := retry; https_base_url := https_base_url h;
     https_transport := https_transport h; https_ssh_host := https_ssh_host h; https_ssh_user := https_ssh_user h;
     https_ssh_port := https_ssh_port h; https_local_port := https_local_port h; https_remote_port := https_remote_port h;
     https_authorization_ttl_hours := ttl |}.
Definition enable_https (enabled : bool) (s : Settings) : Settings := set_connection (connection_intent s) enabled s.
Definition retry_https (enabled : bool) (s : Settings) : Settings :=
  with_https (https_with (https_enabled (https_mcp s)) enabled (https_authorization_ttl_hours (https_mcp s)) (https_mcp s)) s.
Definition lifetime_https (hours : option N) (s : Settings) : Settings :=
  with_https (https_with (https_enabled (https_mcp s)) (https_auto_reconnect (https_mcp s)) hours (https_mcp s)) s.

(** [rotate_with_recovery], over any operations. *)
Definition rotate_with_recovery {T} (revoke : App (Result unit string)) (stop : App unit)
    (rotate : App (Result T string)) (reconnect : App (Result unit string)) : App (Result T string) :=
  _ <-app? revoke ;;
  _ <-app stop ;;
  rotated <-app rotate ;;
  recovery <-app reconnect ;;
  app_ret (match rotated, recovery with
           | Ok secret, Ok _ => Ok secret
           | Err error, Ok _ => Err ("OAuth 密钥更新失败，已尝试恢复原有连接：" ++ error)
           | Ok _, Err error => Err ("OAuth 密钥已更新，但 HTTPS MCP 未能恢复，请重新启动连接：" ++ error)
           | Err error, Err recovery => Err ("OAuth 密钥更新失败且连接恢复失败：" ++ error ++ "；" ++ recovery)
           end).

(** How a run of the administration command ends; [stdout] is all it wrote. *)
Inductive AdminRun :=
| AdminNotStarted (error : string)
| AdminTimedOut
| AdminUnreadable
| AdminExited (success : bool) (stdout : string).

Definition MAX_ADMIN_OUTPUT : N := 1048576.

(** [stdout.take(limit)] *)
Fixpoint take_bytes (limit : N) (s : string) : string :=
  match s with
  | EmptyString => ""
  | String a s => if (limit =? 0)%N then "" else String a (take_bytes (limit - 1) s)
  end.

Definition grant_id_ok (id : string) : bool :=
  String.eqb id "legacy"
  || Nat.eqb (String.length id) 64 && string_forall (fun b => is_ascii_hexdigit b && negb (is_ascii_upper b)) id.

(** The reply confirms what was asked. *)
Definition admin_confirms (action : string) (grant_id : option string) (result : Value) : bool :=
  if String.eqb action "list" then match get "grants" result with Some (Array _) => true | _ => false end
  else if String.eqb action "revoke"
       then bool_decide ((let_some v := get "revokedId" result else None in as_str v) = grant_id)
  else if String.eqb action "revoke-all"
       then match get "revokedAll" result with Some (Bool true) => true | _ => false end
  else false.

Section Https.
(** The platform and the store of secrets, as in [Connection] and [Secrets]; [lock_ok]: the
    lock of the OAuth secret is not poisoned; SHA-256; the runs of the administration command;
    and what the worker has published last ([None] when that lock is poisoned). *)
Context (P : Platform) (secret_fault : SecretOp -> Desk -> option string) (random_key : Desk -> option bytes)
        (b64_encode : bytes -> string) (b64_decode : string -> option bytes)
        (credentials_from_str : string -> Result RelayCredentials string)
        (lock_ok : bool) (sha256 : string -> bytes) (run_admin : list string -> Desk -> AdminRun)
        (published_status : Desk -> option HttpsSnapshot).

Definition derive_secret (master : bytes) (label : string) : string :=
  hex_of_bytes (sha256 ("chatx-https-mcp-v1:" ++ label ++ string_of_list_byte master)).

(** ** Starting the worker *)

(** The credentials a websocket transport needs, for the same address. *)
Definition relay_for (settings : HttpsMcpSettings) : App (Result (option RelayCredentials) string) :=
  if String.eqb (https_transport settings) "wss"
  then
    credentials <-app read_relay_credentials secret_fault credentials_from_str ;;
    app_ret (match credentials with
             | Err _ => Err "WSS 需要 Relay Desktop 凭据：请先在网络设置注册 Relay"
             | Ok credentials =>
                 registered <-? normalized_base_url (cred_base_url credentials) ;;
                 configured <-? normalized_base_url (https_base_url settings) ;;
                 if negb (String.eqb registered configured)
                 then Err "Relay 注册域名与 HTTPS MCP 域名不一致，请先为此域名注册 Relay"
                 else Ok (Some credentials)
             end)
  else app_ret (Ok None).

Definition oauth_master : App (Result bytes string) :=
  ensure_https_oauth_master_key secret_fault random_key b64_encode b64_decode lock_ok.

(** [thread::spawn] of the worker, and what is stored for it. *)
Definition launch (l : HttpsLaunch) (d : Desk) : Desk :=
  let d := set_https_auto (https_auto_reconnect (launch_settings l)) d in
  let d := set_launched (launched d ++ [l])%list d in
  set_supervisor (update_locked (fun _ => true) (supervisor d)) d.

Definition start_worker (settings : HttpsMcpSettings) : App (Result unit string) :=
  credentials <-app? relay_for settings ;;
  paths <-app? app_runtime_paths P ;;
  dir <-app? on_files (state_dir (base_dir P)) ;;
  let home := dir ++ "/https-desktop-commander-home" in
  _ <-app? on_files (fs_map_err io_display (create_dir_all home)) ;;
  master <-app? oauth_master ;;
  _ <-app app_modify (launch
        {| launch_settings := settings; launch_paths := paths; launch_home := home; launch_log_dir := dir;
           launch_password := derive_secret master "login"; launch_signing := derive_secret master "tokens";
           launch_credentials := credentials |}) ;;
  saved <-app app_load_settings P ;;
  _ <-app app_log P (if String.eqb (https_transport (https_mcp saved)) "wss"
                     then "HTTPS MCP 已启用，本地 Bridge 与原生 WSS Relay 正在启动"
                     else "HTTPS MCP 已启用，本地 Bridge 与 SSH 反向隧道正在启动") ;;
  app_ret (Ok tt).

Definition start_inner (settings : HttpsMcpSettings) : App (Result unit string) :=
  _ <-app? app_ret (validate_https settings) ;;
  running <-app app_get (fun d => lock (supervisor d)) ;;
  match running with
  | None => app_ret (Err "HTTPS MCP 连接管理锁已损坏")
  | Some true => app_ret (Ok tt)
  | Some false => start_worker settings
  end.

Definition restore_https : App unit :=
  all_settings <-app app_load_settings P ;;
  let settings := https_mcp all_settings in
  allowed <-app on_files (restore_allowed (base_dir P) HttpsMcp) ;;
  allowed <-app match allowed with
                | Ok allowed => app_ret allowed
                | Err error =>
                    _ <-app app_log P ("HTTPS MCP 停止标记不可用，拒绝自动恢复：" ++ error) ;; app_ret false
                end ;;
  if negb (https_enabled settings && allowed) then app_ret tt
  else
    paths <-app app_runtime_paths P ;;
    tunnel_absent <-app match paths with
      | Ok paths =>
          observation <-app app_runtime_status P paths ;;
          app_ret (negb (obs_runtime_alive observation) && negb (obs_active observation))
      | Err _ => app_ret false
      end ;;
    if negb tunnel_absent
    then app_log P "HTTPS MCP 自动恢复已阻止：残留 Tunnel runtime 未确认停止"
    else
      started <-app start_inner settings ;;
      match started with
      | Err error => app_log P ("HTTPS MCP 恢复失败：" ++ error)
      | Ok _ => app_ret tt
      end.

(** ** The status *)

Definition health_from_snapshot (settings : HttpsMcpSettings) (snapshot : HttpsSnapshot) : App HttpsConnectionHealth :=
  allowed <-app on_files (restore_allowed (base_dir P) HttpsMcp) ;;
  app_get (fun d => https_connection_health (https_enabled settings) (match allowed with Ok b => b | Err _ => false end)
    (HttpsSupervisor.local_ready snapshot) (HttpsSupervisor.transport_connected snapshot)
    (HttpsSupervisor.remote_ready snapshot) (snapshot_probe_at snapshot) (now_millis P d)).

Definition monitor_public_connection (settings : HttpsMcpSettings) : App (HttpsConnectionHealth * N * N) :=
  snapshot <-app app_get (fun d => default https_snapshot_default (published_status d)) ;;
  health <-app health_from_snapshot settings snapshot ;;
  app_ret (health, snapshot_probe_at snapshot, restarts snapshot).

Definition status_view (settings : HttpsMcpSettings) : App HttpsMcpStatus :=
  snapshot <-app app_get (fun d => default https_snapshot_default (published_status d)) ;;
  health <-app health_from_snapshot settings snapshot ;;
  app_ret {| status_enabled := health_enabled health; status_connected := connected health;
             status_state := health_state health; status_auto_reconnect := https_auto_reconnect settings;
             status_manual_stop_blocked := manual_stop_blocked health; status_base_url := https_base_url settings;
             status_endpoint := trim_end_slashes (https_base_url settings) ++ "/mcp";
             status_ssh_host := https_ssh_host settings; status_ssh_user := https_ssh_user settings;
             status_ssh_port := https_ssh_port settings; status_local_port := https_local_port settings;
             status_remote_port := https_remote_port settings;
             status_authorization_ttl_hours := https_authorization_ttl_hours settings;
             status_transport := https_transport settings; status_local_ready := Desktop.local_ready health;
             status_ssh_connected := ssh_connected snapshot;
             status_transport_connected := Desktop.transport_connected health;
             status_remote_ready := Desktop.remote_ready health;
             status_last_public_probe_at := snapshot_probe_at snapshot;
             status_remote_last_error := remote_last_error snapshot; status_restarts := restarts snapshot;
             status_last_error := snapshot_error snapshot |}.

Definition get_https_mcp_status : App HttpsMcpStatus :=
  settings <-app app_load_settings P ;; status_view (https_mcp settings).

Definition local_bridge_alive (d : Desk) : bool :=
  match published_status d with Some snapshot => HttpsSupervisor.local_ready snapshot | None => false end.

(** ** The commands *)

Definition app_prepare_https : App (Result unit string) :=
  prepare_https (base_dir P) (system_proxy P) (key_saved P) (read_settings P) (read_value P)
    (print_settings P) (from_utf8 P) (read_report P) (now_text P) (now_millis P) (temp_suffix P)
    (settings_write_lock_ok P) (resource_roots P) (executable_suffix P) (environment P) (client P).

(** Once the worker is started. *)
Definition commit_https (config : HttpsMcpSettings) : App (Result unit string) :=
  saved <-app app_update_settings P (fun s =>
            Ok (with_https (https_with true (https_auto_reconnect config) (https_authorization_ttl_hours config) config)
                  (set_connection false (https_enabled (https_mcp s)) s))) ;;
  match saved with
  | Err error => _ <-app app_modify stop_inner ;; app_ret (Err error)
  | Ok _ =>
      cleared <-app on_files (clear_stopped (base_dir P) HttpsMcp) ;;
      match cleared with
      | Err error =>
          _ <-app app_modify stop_inner ;;
          _ <-app app_update_settings P (fun s => Ok (enable_https false s)) ;;
          app_ret (Err error)
      | Ok _ => app_ret (Ok tt)
      end
  end.

Definition start_https (config : HttpsMcpSettings) : App (Result unit string) :=
  _ <-app? ConnectionCoordinator_acquire ;;
  _ <-app? ensure_available "ChatX 正在退出，拒绝启动 HTTPS MCP" ;;
  saved <-app app_load_settings P ;;
  let config := https_with (https_enabled config) (https_auto_reconnect (https_mcp saved))
                  (https_authorization_ttl_hours (https_mcp saved)) config in
  _ <-app? app_ret (validate_https config) ;;
  _ <-app? app_prepare_https ;;
  _ <-app? start_inner config ;;
  commit_https config.

Definition start_https_mcp (config : HttpsMcpSettings) : App (Result HttpsMcpStatus string) :=
  _ <-app? start_https config ;;
  status <-app get_https_mcp_status ;;
  app_ret (Ok status).

Definition https_stop_requested : App (Result unit string) :=
  _ <-app? ConnectionCoordinator_acquire ;;
  marker <-app on_files (mark_stopped (base_dir P) HttpsMcp) ;;
  _ <-app app_modify stop_inner ;;
  saved <-app app_update_settings P (fun s => Ok (enable_https false s)) ;;
  _ <-app match saved with
          | Err error => app_log P ("HTTPS MCP 已停止，但保存停止状态失败：" ++ error)
          | Ok _ => app_ret tt
          end ;;
  match marker with
  | Err error =>
      _ <-app app_log P ("HTTPS MCP 停止标记保存失败：" ++ error) ;;
      app_ret (match saved with Err e => Err e | Ok _ => Err error end)
  | Ok _ =>
      match saved with
      | Err e => app_ret (Err e)
      | Ok _ => _ <-app app_log P "HTTPS MCP 已手动停止" ;; app_ret (Ok tt)
      end
  end.

Definition stop_https_mcp : App (Result HttpsMcpStatus string) :=
  _ <-app? https_stop_requested ;;
  status <-app get_https_mcp_status ;;
  app_ret (Ok status).

Definition set_https_mcp_auto_reconnect (enabled : bool) : App (Result HttpsMcpStatus string) :=
  _ <-app? ConnectionCoordinator_acquire ;;
  _ <-app? app_update_settings P (fun s => Ok (retry_https enabled s)) ;;
  _ <-app app_modify (set_https_auto enabled) ;;
  _ <-app app_log P (if enabled then "已开启 HTTPS MCP 断线自动重连"
                     else "已关闭 HTTPS MCP 断线自动重连；下次仍可手动启动") ;;
  status <-app get_https_mcp_status ;;
  app_ret (Ok status).

Definition set_https_mcp_authorization_lifetime (hours : option N) : App (Result unit string) :=
  _ <-app? app_ret (validate_authorization_lifetime hours) ;;
  _ <-app? app_update_settings P (fun s => Ok (lifetime_https hours s)) ;;
  app_ret (Ok tt).

(** ** OAuth grants *)

(** The first root that holds the script. *)
Fixpoint admin_script (roots : list string) : Fs (option string) :=
  match roots with
  | [] => fs_ret None
  | root :: roots =>
      let path := {| parent := Some root; file_name := "https-mcp-authorizations-admin.mjs" |} in
      found <-fs path_exists path ;;
      if (found : bool) then fs_ret (Some (path_display path)) else admin_script roots
  end.

Definition admin_result (action : string) (grant_id : option string) (run : AdminRun) : Result Value string :=
  match run with
  | AdminNotStarted e => Err ("启动 OAuth 授权管理失败：" ++ e)
  | AdminTimedOut => Err "OAuth 授权管理超时或执行异常，已终止子进程"
  | AdminUnreadable => Err "无法读取 OAuth 授权管理结果"
  | AdminExited success stdout =>
      let output := take_bytes (MAX_ADMIN_OUTPUT + 1) stdout in
      return_if negb success with Err "OAuth 授权管理失败，请检查本机诊断日志或授权数据" in
      return_if (MAX_ADMIN_OUTPUT <? N.of_nat (String.length output))%N with Err "OAuth 授权记录过多，请先清理历史记录" in
      let_ok result := read_value P output else _e => Err "OAuth 授权管理返回无效数据" in
      if admin_confirms action grant_id result then Ok result else Err "OAuth 授权管理返回无效格式"
  end.

(** The command, recorded. *)
Definition run_administration (args : list string) : App AdminRun := fun d =>
  (Some (run_admin args d), set_administered (administered d ++ [args])%list d).

Definition administer (action : string) (grant_id : option string) : App (Result Value string) :=
  if negb (one_of ["list"; "revoke"; "revoke-all"] action) then app_ret (Err "不支持的 OAuth 管理操作")
  else if String.eqb action "revoke" && negb match grant_id with Some id => grant_id_ok id | None => false end
  then app_ret (Err "OAuth 授权 ID 无效")
  else
    _ <-app? app_runtime_paths P ;;
    script <-app on_files (admin_script (resource_roots P)) ;;
    match script with
    | None => app_ret (Err "缺少 OAuth 授权管理资源；请重新构建或安装 ChatX")
    | Some script =>
        _ <-app? on_files (state_dir (base_dir P)) ;;
        run <-app run_administration (script :: action :: match grant_id with Some id => [id] | None => [] end) ;;
        app_ret (admin_result action grant_id run)
    end.

Definition revoke_all_sync : App (Result Value string) := administer "revoke-all" None.

Definition rotate_https_mcp_login_password : App (Result string string) :=
  _ <-app? ConnectionCoordinator_acquire ;;
  _ <-app? ensure_available "ChatX 正在退出" ;;
  all_settings <-app app_load_settings P ;;
  let settings := https_mcp all_settings in
  should_reconnect <-app? (if https_enabled settings then on_files (restore_allowed (base_dir P) HttpsMcp)
                           else app_ret (Ok false)) ;;
  outcome <-app rotate_with_recovery
    (_ <-app? revoke_all_sync ;; app_ret (Ok tt))
    (app_modify stop_inner)
    (rotate_https_oauth_master_key secret_fault random_key b64_encode lock_ok)
    (if should_reconnect then start_inner settings else app_ret (Ok tt)) ;;
  match outcome with
  | Ok master =>
      _ <-app app_log P "HTTPS OAuth 密码已轮换；原有授权全部失效，请重新授权" ;;
      app_ret (Ok (derive_secret master "login"))
  | Err error =>
      _ <-app app_log P ("HTTPS OAuth 密码轮换未完成：" ++ error) ;;
      app_ret (Err error)
  end.

Definition get_https_mcp_login_password : App (Result string string) :=
  master <-app? oauth_master ;; app_ret (Ok (derive_secret master "login")).
End Https.

(** ** Properties *)

(** *** What passes validation *)

Lemma drop_whitespace_snoc l c : is_whitespace c = false -> exists l', drop_whitespace (l ++ [c])%list = (l' ++ [c])%list.
Proof.
  intros Hc. induction l as [|x l [l' IH]]; cbn [app drop_whitespace]; [rewrite Hc; by exists []|].
  destruct (is_whitespace x); [by exists l'|by exists (x :: l)].
Qed.

Lemma contains_middle u c v : contains (String c "") (u ++ String c v) = true.
Proof.
  induction u as [|a u IH]; cbn [append contains]; [|by rewrite IH, orb_true_r].
  apply orb_true_iff. left. unfold starts_with. cbn [String.prefix]. destruct (ascii_dec c c); [by destruct v|done].
Qed.

Lemma starts_with_dash r : starts_with "-" (String "-" r) = true.
Proof. by destruct r. Qed.

(** A text that begins with a dash keeps it when trimmed. *)
Lemma trim_keeps_dash s : starts_with "-" s = true -> starts_with "-" (trim s) = true.
Proof.
  intros (r & ->)%starts_with_app. cbn [append]. unfold trim.
  assert (exists c cs, utf8_chars (String "-" r) = String "-" c :: cs) as (c & cs & ->).
  { cbn [utf8_chars]. destruct (utf8_chars r) as [|c cs]; [by exists "", []|].
    destruct (starts_continuation c); [by exists c, cs|by exists "", (c :: cs)]. }
  assert (is_whitespace (String "-" c) = false) as Hw by done.
  cbn [drop_whitespace]. rewrite Hw. cbn [rev].
  destruct (drop_whitespace_snoc (rev cs) (String "-" c) Hw) as [l ->]. rewrite rev_app_distr. cbn [rev app]. rewrite concat_chars_cons. apply starts_with_dash.
Qed.

Lemma untrimmed_is_no_option s : starts_with "-" (trim s) = false -> starts_with "-" s = false.
Proof. intros H. destruct (starts_with "-" s) eqn:E; [|done]. apply trim_keeps_dash in E. congruence. Qed.

Record host_spec (host : string) : Prop := {
  host_some : host <> "";
  host_length : (N.of_nat (String.length host) <= 253)%N;
  host_no_option : starts_with "-" host = false;
  host_bytes : string_forall domain_byte host = true }.

Lemma host_ok_spec host : host_ok host = true <-> host_spec host.
Proof.
  unfold host_ok, is_empty. rewrite negb_true_iff, !orb_false_iff, negb_false_iff, N.ltb_ge, String.eqb_neq.
  split; [intros [[[? ?] ?] ?]; by split|by intros []].
Qed.

(** An address without port, path or user: a text made of [https://] and a domain. *)
Lemma validate_https_inv s : validate_https s = Ok tt ->
  (exists domain, trim (https_base_url s) = "https://" ++ domain /\ host_spec domain)
  /\ (https_transport s = "wss" \/ https_transport s = "ssh" /\ validate_ssh s = Ok tt)
  /\ (1024 <= https_local_port s)%N
  /\ (forall h, https_authorization_ttl_hours s = Some h -> 1 <= h <= 87600)%N.
Proof.
  unfold validate_https. destruct (Text.strip_prefix _ _) as [domain|] eqn:Hp; [|done]. apply strip_prefix_Some in Hp.
  destruct (host_ok domain) eqn:Hd; [|done]. apply host_ok_spec in Hd. cbn [negb].
  destruct (one_of _ _) eqn:Ht; [|done]. apply one_of_In in Ht. cbn [negb].
  destruct (if String.eqb _ _ then _ else _) as [[]|] eqn:Hs; [|done].
  destruct (_ <? 1024)%N eqn:Hport; [done|]. apply N.ltb_ge in Hport. intros Hl.
  split_and!; [by exists domain| |done|].
  - destruct (String.eqb_spec (https_transport s) "ssh") as [E|E]; [by right|left].
    destruct Ht as [Ht|[Ht|[]]]; congruence.
  - intros h Hh. unfold validate_authorization_lifetime in Hl. rewrite Hh in Hl.
    destruct (_ || _) eqn:Hb; [done|]. apply orb_false_iff in Hb as [?%N.eqb_neq ?%N.leb_gt]. lia.
Qed.

(** The SSH forward of accepted settings cannot be turned into another command.  The
    destination, the only argument with text of the person, is a single argument that [ssh]
    does not take for an option, the ports are numbers that are in range, and the forward
    leads from the remote loopback interface to the bridge's local port and nowhere else. *)
Theorem forward_args_safe s : validate_https s = Ok tt -> https_transport s = "ssh" ->
  exists destination options, forward_args s = (options ++ [destination])%list
  /\ starts_with "-" destination = false /\ contains "@" destination = true
  /\ host_spec (trim (https_ssh_host s)) /\ user_ok (trim (https_ssh_user s)) = true
  /\ options = ["-N"; "-T"; "-o"; "BatchMode=yes"; "-o"; "StrictHostKeyChecking=yes"; "-o"; "ExitOnForwardFailure=yes";
       "-o"; "ConnectTimeout=8"; "-o"; "ServerAliveInterval=20"; "-o"; "ServerAliveCountMax=3"; "-p";
       pretty (https_ssh_port s); "-R";
       "127.0.0.1:" ++ pretty (https_remote_port s) ++ ":127.0.0.1:" ++ pretty (https_local_port s)]
  /\ (https_ssh_port s <> 0 /\ 1024 <= https_remote_port s /\ 1024 <= https_local_port s)%N.
Proof.
  intros (_ & Ht & Hl & _)%validate_https_inv Hssh. destruct Ht as [Ht|[_ Ht]]; [congruence|].
  unfold validate_ssh in Ht. destruct (host_ok _) eqn:Hh; [|done]. apply host_ok_spec in Hh. cbn [negb] in Ht.
  destruct (user_ok _) eqn:Hu; [|done]. cbn [negb] in Ht. destruct (_ || _) eqn:Hp; [done|]. clear Ht.
  apply orb_false_iff in Hp as [Hp%N.eqb_neq Hr%N.ltb_ge].
  exists (https_ssh_user s ++ "@" ++ https_ssh_host s), (removelast (forward_args s)).
  split; [reflexivity|]. split_and!; try done.
  - assert (starts_with "-" (https_ssh_user s) = false) as Hno.
    { apply untrimmed_is_no_option. unfold user_ok in Hu. rewrite negb_true_iff, !orb_false_iff in Hu. by destruct Hu as [_ ?]. }
    destruct (https_ssh_user s) as [|a u]; [done|]. apply not_true_iff_false. intros E.
    apply starts_with_app in E as (r & [= -> _]). by rewrite starts_with_dash in Hno.
  - apply contains_middle.
Qed.

(** What is checked are trimmed copies; what is used is the text itself. *)
Lemma validation_ignores_padding :
  let s := {| https_enabled := true; https_auto_reconnect := true; https_base_url := " https://a.example ";
              https_transport := "ssh"; https_ssh_host := "h "; https_ssh_user := " u"; https_ssh_port := 22;
              https_local_port := 3000; https_remote_port := 18080; https_authorization_ttl_hours := None |} in
  validate_https s = Ok tt /\ last (forward_args s) = Some " u@h "
  /\ forall version l nonce env, launch_settings l = s ->
       bridge_env version l nonce env !! "CHATX_MCP_ISSUER" = Some " https://a.example ".
Proof.
  intros s. split; [reflexivity|]. split; [reflexivity|]. intros version l nonce env Hl. unfold bridge_env. rewrite Hl.
  by simplify_map_eq.
Qed.

(** *** What the steps keep *)

(** Nothing happened besides entries in the log and accesses to files that change none. *)
Abbreviation idle := (client_only []).

#[export] Instance idle_preorder : PreOrder idle.
Proof. split; [intros d; apply client_only_refl|]. intros d1 d2 d3 H1 H2. exact (client_only_trans [] [] _ _ _ H1 H2). Qed.

(** The HTTPS worker and the record of launches are as before. *)
Definition workers_same (d d' : Desk) : Prop :=
  launched d' = launched d /\ supervisor d' = supervisor d.

#[export] Instance workers_same_preorder : PreOrder workers_same.
Proof. split; [by split|]. intros d1 d2 d3 [H1 S1] [H2 S2]. split; congruence. Qed.

(** No worker was started. *)
Definition no_launch (d d' : Desk) : Prop := launched d' = launched d.

#[export] Instance no_launch_preorder : PreOrder no_launch.
Proof. split; [by intros d|]. unfold no_launch. intros d1 d2 d3 H1 H2. congruence. Qed.

(** Relations that operations elsewhere respect. *)
Class Elsewhere (R : relation Desk) : Prop := {
  elsewhere_preorder :: PreOrder R;
  elsewhere_same : forall d d', workers_same d d' -> R d d' }.

#[export] Instance workers_same_elsewhere : Elsewhere workers_same.
Proof. split; [apply _|done]. Qed.
#[export] Instance no_launch_elsewhere : Elsewhere no_launch.
Proof. split; [apply _|]. by intros d d' [H _]. Qed.

#[export] Instance elsewhere_framed R : Elsewhere R -> Framed R.
Proof. intros HR. split; [apply _|]. intros d w l r. by apply elsewhere_same. Qed.

Section ElsewhereProps.
Context (P : Platform) (base : string) (Hbase : base_dir P = Ok base) (R : relation Desk) {HR : Elsewhere R}.

Lemma else_modify f : (forall d, workers_same d (f d)) -> does R (app_modify f).
Proof using HR. intros Hf d res d' [= _ <-]. by apply elsewhere_same. Qed.

Lemma else_stop_tunnel settings : does R (app_stop_tunnel_without_saving P settings).
Proof using Type*.
  unfold app_stop_tunnel_without_saving, stop_tunnel_without_saving. apply does_bind; [apply _|by apply else_modify|].
  intros _. apply does_bind; [apply _|apply does_get; apply _|]. intros [[]|]; [|apply does_ret; apply _].
  apply does_try; [apply _|apply (framed_stop_runtime P base Hbase _ true)|]. intros v.
  apply does_bind; [apply _| |intros ?; apply does_ret; apply _].
  intros d res d' [= _ <-]. by apply elsewhere_same.
Qed.
End ElsewhereProps.

#[export] Hint Extern 1 (Elsewhere _) => (apply _) : quiet.
#[export] Hint Extern 1 (does _ (app_modify _)) => (apply else_modify; (apply _ || done)) : quiet.
#[export] Hint Resolve else_stop_tunnel : quiet.

Section IdleProps.
Context (P : Platform) (base : string) (Hbase : base_dir P = Ok base).

Lemma idle_get {A} (f : Desk -> A) : does idle (app_get f).
Proof. apply does_get; apply _. Qed.
Lemma idle_load : does idle (app_load_settings P).
Proof using Type*. intros d res d'. by apply (load_settings_client P base). Qed.
Lemma idle_log message : does idle (app_log P message).
Proof. intros d res d' H. by apply log_client in H as [? _]. Qed.
Lemma idle_paths : does idle (app_runtime_paths P).
Proof. intros d res d'. apply runtime_paths_client. Qed.
Lemma idle_state_dir : does idle (on_files (state_dir (base_dir P))).
Proof using Type*. intros d res d'. by apply (state_dir_client P base). Qed.
Lemma idle_create f dir : does idle (on_files (fs_map_err (A := unit) (F := string) f (create_dir_all dir))).
Proof. intros d res d'. apply create_dir_client. Qed.
Lemma idle_allowed t : does idle (on_files (restore_allowed (base_dir P) t)).
Proof using Type*.
  rewrite Hbase. intros d res d' (w & H & ->)%on_files_inv. apply restore_allowed_inv in H as (Hf & Hi & _).
  by apply client_only_world.
Qed.
Lemma idle_relay fault read s : does idle (relay_for fault read s).
Proof.
  intros d res d' H. unfold relay_for in H. destruct (String.eqb _ _); [|injection H as _ <-; reflexivity].
  destruct (read_relay_credentials_pure fault read d) as [r Hr]. unfold app_bind in H. rewrite Hr in H. injection H as _ <-. reflexivity.
Qed.
End IdleProps.

(** *** What a worker is started with *)

(** Only the store of secrets changed. *)
Definition only_secrets (d d' : Desk) : Prop := d' = set_secrets (secrets d') d.

#[export] Instance only_secrets_preorder : PreOrder only_secrets.
Proof. split; [by intros []|]. unfold only_secrets. intros d1 d2 d3 H1 H2. rewrite H2, H1. done. Qed.

Section StartHttps.
Context (P : Platform) (base : string) (Hbase : base_dir P = Ok base)
        (secret_fault : SecretOp -> Desk -> option string) (random_key : Desk -> option bytes)
        (b64_encode : bytes -> string) (b64_decode : string -> option bytes)
        (credentials_from_str : string -> Result RelayCredentials string)
        (lock_ok : bool) (sha256 : string -> bytes).

#[local] Abbreviation disk d := (files (desk_world d)).
#[local] Abbreviation faults d := (io_fault (desk_world d)).
#[local] Abbreviation file := (settings_in (base ++ "/state")).
#[local] Abbreviation now_on := (settings_now base (system_proxy P) (key_saved P) (read_settings P) (read_value P)).
#[local] Abbreviation json_ok := (json_agrees (read_settings P) (print_settings P)).
#[local] Abbreviation master_key := (oauth_master secret_fault random_key b64_encode b64_decode lock_ok).
#[local] Abbreviation credentials_for := (relay_for secret_fault credentials_from_str).
#[local] Abbreviation start := (start_inner P secret_fault random_key b64_encode b64_decode credentials_from_str lock_ok sha256).
#[local] Abbreviation start_new := (start_worker P secret_fault random_key b64_encode b64_decode credentials_from_str lock_ok sha256).

Lemma save_only_secrets item value : does only_secrets (save_secret secret_fault item value).
Proof. intros d res d'. unfold save_secret. destruct (secret_fault _ d); intros [= _ <-]; [by destruct d|done]. Qed.

Lemma oauth_only_secrets : does only_secrets master_key.
Proof.
  assert (forall item, does only_secrets (load_secret secret_fault item)) as Hload by (intros item; apply does_get; apply _).
  assert (does only_secrets (load_https_oauth_master_key secret_fault b64_decode)) as Hl
    by (apply does_try; [apply _|done|intros; apply does_ret; apply _]).
  unfold oauth_master, ensure_https_oauth_master_key. destruct (negb lock_ok); [apply does_ret; apply _|].
  apply does_try; [apply _|done|]. intros [key|]; [apply does_ret; apply _|]. apply does_try; [apply _| |].
  - apply does_try; [apply _|done|]. intros [value|]; [apply does_ret; apply _|].
    apply does_try; [apply _|apply does_get; apply _|]. intros key.
    apply does_try; [apply _|apply save_only_secrets|]. intros u. apply does_ret; apply _.
  - intros legacy. apply does_try; [apply _|apply save_only_secrets|]. intros u. apply does_ret; apply _.
Qed.

(** The credentials fit the transport. *)
Definition fitting (s : HttpsMcpSettings) (c : option RelayCredentials) : Prop :=
  if String.eqb (https_transport s) "wss"
  then exists credentials url, c = Some credentials /\ normalized_base_url (cred_base_url credentials) = Ok url
       /\ normalized_base_url (https_base_url s) = Ok url
  else c = None.

Lemma relay_for_inv s d c d' : credentials_for s d = (Some (Ok c), d') -> fitting s c.
Proof.
  unfold relay_for, fitting. destruct (String.eqb _ _); [|by intros [= <- _]].
  intros [[_ ?]|(r & d1 & _ & Hk)]%app_bind_inv; [done|]. injection Hk as Hk _. destruct r as [credentials|]; [|done].
  destruct (normalized_base_url (cred_base_url credentials)) as [a|] eqn:Ha; [|done].
  destruct (normalized_base_url (https_base_url s)) as [b|] eqn:Hb; [|done].
  destruct (String.eqb_spec a b) as [->|]; [|done]. injection Hk as <-. by exists credentials, b.
Qed.

(** What a worker is given by settings, credentials, paths, directory and secret. *)
Definition launch_of (s : HttpsMcpSettings) (c : option RelayCredentials) (paths : RuntimePaths) (master : bytes) : HttpsLaunch :=
  {| launch_settings := s; launch_paths := paths; launch_home := base ++ "/state/https-desktop-commander-home";
     launch_log_dir := base ++ "/state"; launch_password := derive_secret sha256 master "login";
     launch_signing := derive_secret sha256 master "tokens"; launch_credentials := c |}.

(** A new worker, started with the secret that is stored. *)
Definition launches (s : HttpsMcpSettings) (d d' : Desk) : Prop :=
  exists c paths master d1 d2, idle d d1 /\ fitting s c /\ master_key d1 = (Some (Ok master), d2)
  /\ idle (launch (launch_of s c paths master) d2) d'.

(** Nothing was started; a secret may have been made. *)
Definition not_launched (d d' : Desk) : Prop := exists d1, idle d d1 /\ only_secrets d1 d'.

Lemma idle_not_launched d d' : idle d d' -> not_launched d d'.
Proof. intros H. exists d'. split; [done|reflexivity]. Qed.

Lemma start_worker_inv s d res d' : start_new s d = (res, d') ->
  (not_launched d d' /\ forall u, res <> Some (Ok u)) \/ (launches s d d' /\ forall e, res <> Some (Err e)).
Proof using base Hbase.
  unfold start_worker. intros H.
  apply (does_try_inv idle _ _ d) in H as [[? Hn]|(c & d1 & Hc & I1 & H)];
    [left; split; [by apply idle_not_launched|done]| |apply idle_relay|reflexivity].
  apply relay_for_inv in Hc.
  apply (does_try_inv idle _ _ d) in H as [[? Hn]|(paths & d2 & _ & I2 & H)];
    [left; split; [by apply idle_not_launched|done]| |apply idle_paths|done].
  apply (does_try_inv idle _ _ d) in H as [[? Hn]|(dir & d3 & Hdir & I3 & H)];
    [left; split; [by apply idle_not_launched|done]| |by eapply idle_state_dir|done].
  rewrite Hbase in Hdir. apply on_files_inv in Hdir as (w & Hdir & _). apply state_dir_inv in Hdir as (_ & _ & _ & Hdir).
  specialize (Hdir dir eq_refl) as ->.
  apply (does_try_inv idle _ _ d) in H as [[? Hn]|(u & d4 & _ & I4 & H)];
    [left; split; [by apply idle_not_launched|done]| |apply idle_create|done].
  apply app_try_inv in H as [[H ->]|[(e & H & ->)|(master & d5 & H & Hk)]];
    [left; split; [exists d4; split; [done|by apply oauth_only_secrets in H]|done]..|].
  unfold app_bind at 1, app_modify in Hk. right. split.
  - exists c, paths, master, d4, d5. split_and!; [done..|].
    assert (does idle (saved <-app app_load_settings P ;;
       _ <-app app_log P (if String.eqb (https_transport (https_mcp saved)) "wss"
                     then "HTTPS MCP 已启用，本地 Bridge 与原生 WSS Relay 正在启动"
                     else "HTTPS MCP 已启用，本地 Bridge 与 SSH 反向隧道正在启动") ;;
       app_ret (Ok (E := string) tt))) as Hq.
    { apply does_bind; [apply _|by eapply idle_load|]. intros saved.
      apply does_bind; [apply _|apply idle_log|]. intros []. apply does_ret; apply _. }
    rewrite <- append_assoc in Hk. exact (Hq _ _ _ Hk).
  - apply app_bind_inv in Hk as [[_ ->]|(saved & d6 & _ & Hk)]; [done|]. by injection Hk as <- _.
Qed.

Lemma start_inner_inv s d res d' : start s d = (res, d') ->
  (not_launched d d' /\ (forall u, res = Some (Ok u) -> d' = d /\ lock (supervisor d) = Some true))
  \/ (validate_https s = Ok tt /\ lock (supervisor d) = Some false /\ launches s d d' /\ forall e, res <> Some (Err e)).
Proof using base Hbase.
  unfold start_inner, app_try, app_bind, app_ret, app_get. destruct (validate_https s) as [[]|e];
    [|intros [= <- <-]; left; split; [by apply idle_not_launched|done]].
  destruct (lock (supervisor d)) as [[]|];
    [intros [= <- <-]; left; split; [by apply idle_not_launched|done]| |intros [= <- <-]; left; split; [by apply idle_not_launched|done]].
  intros [[? Hn]|[? ?]]%start_worker_inv; [left; split; [done|by intros u ?%Hn]|by right].
Qed.

(** A well-formed launch: accepted settings, credentials for the same address exactly when the
    transport needs them, both secrets derived from one key under their own labels, and the
    application's own directories. *)
Record sound_launch (l : HttpsLaunch) : Prop := {
  sound_settings : validate_https (launch_settings l) = Ok tt;
  sound_credentials : fitting (launch_settings l) (launch_credentials l);
  sound_secrets : exists master, launch_password l = derive_secret sha256 master "login"
                                 /\ launch_signing l = derive_secret sha256 master "tokens";
  sound_home : launch_log_dir l = base ++ "/state" /\ launch_home l = base ++ "/state/https-desktop-commander-home" }.

Lemma not_launched_inv d d' : not_launched d d' ->
  workers_same d d' /\ disk d' = disk d /\ faults d' = faults d /\ ran d' = ran d
  /\ desired_connected d' = desired_connected d /\ session_runtime_key d' = session_runtime_key d.
Proof. intros (d1 & (w & l & -> & Hf & Hi) & Hs). rewrite Hs. cbn. rewrite app_nil_r. by split_and!. Qed.

Lemma launches_inv s d d' : launches s d d' -> validate_https s = Ok tt -> lock (supervisor d) = Some false ->
  disk d' = disk d /\ faults d' = faults d /\ ran d' = ran d /\ desired_connected d' = desired_connected d
  /\ session_runtime_key d' = session_runtime_key d /\ lock (supervisor d') = Some true
  /\ https_auto d' = https_auto_reconnect s
  /\ exists l, launched d' = (launched d ++ [l])%list /\ launch_settings l = s /\ sound_launch l.
Proof.
  intros (c & paths & master & d1 & d2 & (w & l & -> & Hf & Hi) & Hc & Hm & (w' & l' & -> & Hf' & Hi')) Hv Hl.
  apply oauth_only_secrets in Hm as Hs. rewrite Hs in Hf', Hi' |- *. cbn in *. rewrite !app_nil_r, lock_update, Hl.
  split_and!; try congruence. eexists. split_and!; [done|done|]. split; [done|done|by exists master|done].
Qed.

(** How [start_inner] ends. *)
Lemma start_outcome s d res d' : start s d = (res, d') ->
  disk d' = disk d /\ faults d' = faults d /\ ran d' = ran d /\ desired_connected d' = desired_connected d
  /\ session_runtime_key d' = session_runtime_key d
  /\ ((workers_same d d' /\ forall u, res = Some (Ok u) -> lock (supervisor d) = Some true)
      \/ ((forall e, res <> Some (Err e)) /\ lock (supervisor d) = Some false /\ lock (supervisor d') = Some true
          /\ https_auto d' = https_auto_reconnect s
          /\ exists l, launched d' = (launched d ++ [l])%list /\ launch_settings l = s /\ sound_launch l)).
Proof using base Hbase.
  intros [[Hn Hok]|(Hv & Hl & Hlaunch & Hne)]%start_inner_inv.
  - apply not_launched_inv in Hn as (? & ? & ? & ? & ? & ?). split_and!; try done. left. split; [done|]. intros u Hu. by apply (Hok u).
  - apply launches_inv in Hlaunch as (? & ? & ? & ? & ? & ? & ? & ?); [|done..]. split_and!; try done. right. by split_and!.
Qed.

(** *** Starting is a transaction *)

(** The settings on disk want HTTPS with this configuration, and no tunnel. *)
Definition wants_https (config : HttpsMcpSettings) (fs : gmap Path string) : Prop :=
  exists s, now_on fs = Ok s /\ connection_intent s = false
  /\ https_mcp s = https_with true (https_auto_reconnect config) (https_authorization_ttl_hours config) config.

(** What was loaded is what a later successful update started from. *)
Lemma load_before_update d saved d1 d2 u s d3 :
  app_load_settings P d = (Some saved, d1) -> app_update_settings P u d2 = (Some (Ok s), d3) ->
  disk d2 !! file = disk d !! file -> faults d2 = faults d -> u saved = Ok s.
Proof using base Hbase.
  unfold app_load_settings, app_update_settings, settings_load, settings_update. rewrite Hbase.
  intros (w & H & _)%on_files_inv (w2 & H2 & _)%on_files_inv Hf Hi.
  apply fs_bind_inv in H as [[_ ?]|(checked & w1 & H & Hk)]; [done|]. injection Hk as Hs _.
  apply update_loads in H2 as (s0 & w3 & H2 & Hu). symmetry in Hf, Hi.
  rewrite (load_same _ _ _ _ _ _ _ _ _ _ _ H H2 Hf Hi) in Hs. congruence.
Qed.

Lemma prepare_https_no_launch : does no_launch (app_prepare_https P).
Proof using base Hbase.
  unfold app_prepare_https, prepare_https, stage_mode_switch.
  apply does_try; [apply _|apply framed_files; apply _|intros _]. apply does_try; [apply _|apply framed_files; apply _|intros _].
  apply does_try; [apply _| |intros _].
  - apply does_bind; [apply _|by intros d res d' [= _ <-]|intros _]. apply does_bind; [apply _|exact (framed_load P no_launch)|].
    intros previous. exact (else_stop_tunnel P base Hbase no_launch previous).
  - apply does_try; [apply _|exact (framed_update P no_launch disable_both)|]. intros s. apply does_ret; apply _.
Qed.

(** Switching to HTTPS: markers first, and then everything is stopped. *)
Lemma prepare_https_inv d res d' : app_prepare_https P d = (res, d') ->
  steady base d d'
  /\ ((workers_same d d' /\ disk d' !! file = disk d !! file /\ desired_connected d' = desired_connected d
       /\ session_runtime_key d' = session_runtime_key d /\ res <> Some (Ok tt))
      \/ ((forall t, stopped base t (disk d')) /\ lock (supervisor d') <> Some true))
  /\ (res = Some (Ok tt) -> exists d2 s, disk d2 !! file = disk d !! file /\ faults d2 = faults d
         /\ app_update_settings P disable_both d2 = (Some (Ok s), d')).
Proof using base Hbase.
  unfold app_prepare_https, prepare_https. pose proof Hbase as Hb. rewrite Hbase.
  intros [[Hm Hr]|(d2 & Hm & Hall & Hrest)]%stage_marks; destruct Hm as (Hd & Hf & Hq & Ht).
  { rewrite Hd. cbn. split_and!; [by split| |done]. left. split_and!; try done. apply Hq. by intros []. }
  assert (disk d2 !! file = disk d !! file) as Hfile by (apply Hq; by intros []).
  destruct Hrest as [[H Hres]|(d3 & H & Hsave)]; (pose proof H as Hstop; eapply stop_existing_inv in Hstop as (Hf3 & Hi3 & Hsup); [|by right]).
  { assert (forall t, stopped base t (disk d')) as Hall' by (intros t; rewrite Hf3; apply Hall).
    split_and!; [split; [intros t _; apply Hall'|congruence]|by right|done]. }
  pose proof Hsave as Hp. apply persist_disabled_inv in Hp as (w & -> & Hi & Hw & _).
  assert (forall t, stopped base t (files w)) as Hall' by (intros t; apply Hw; rewrite Hf3; apply Hall).
  split_and!; [split; [intros t _; apply Hall'|cbn; congruence]|by right|]. intros ->.
  apply app_try_inv in Hsave as [[_ ?]|[(e & _ & ?)|(s & d4 & Hu & Hk)]]; [done..|]. injection Hk as <-.
  exists d3, s. split_and!; [by rewrite Hf3|congruence|]. unfold app_update_settings. by rewrite Hb.
Qed.

(** What remains once the worker runs: saving, and clearing the marker. *)
Lemma commit_https_inv config d res d' : commit_https P config d = (res, d') ->
  json_ok -> faults d (ReadFile file) <> Some NotFound ->
  faults d (RemoveFile (marker_in (base ++ "/state") HttpsMcp)) <> Some NotFound -> (forall t, stopped base t (disk d)) ->
  stopped base Tunnel (disk d') /\ (stopped base HttpsMcp (disk d') \/ wants_https config (disk d'))
  /\ (forall e, res = Some (Err e) -> (forall t, stopped base t (disk d')) /\ lock (supervisor d') <> Some true)
  /\ (res = Some (Ok tt) -> workers_same d d' /\ https_auto d' = https_auto d /\ ~ stopped base HttpsMcp (disk d') /\ wants_https config (disk d')).
Proof using base Hbase.
  intros H Hjson Hread Hremove Hall.
  assert (forall d0, lock (supervisor (stop_inner d0)) <> Some true) as Hstop
    by (intros d0; cbn; rewrite lock_update; by destruct (lock _)).
  apply app_bind_inv in H as [[H ->]|(saved & d1 & H & Hk)]; apply (update_inv P base Hbase) in H as (w & -> & Hi & Hw & Hnew);
    [split_and!; [apply Hw, Hall|left; apply Hw, Hall|done|done]|].
  destruct saved as [s|e].
  2:{ injection Hk as <- <-. cbn. split_and!; [apply Hw, Hall|left; apply Hw, Hall| |done].
      intros e' _. split; [intros t; apply Hw, Hall|apply (Hstop (set_desk_world w d))]. }
  assert (wants_https config (files w)) as Hwants.
  { destruct (Hnew Hread s eq_refl) as (s0 & text & _ & [= <-] & Htext & Hf).
    eexists. split; [by eapply settings_after_update|]. by split. }
  rewrite Hbase in Hk. apply app_bind_inv in Hk as [[H ->]|(cleared & d2 & H & Hk)];
    apply on_files_inv in H as (w2 & H & ->); apply clear_stopped_inv in H as ((_ & Hi2 & Ho) & Hres); [|cbn; congruence| |cbn; congruence].
  { rewrite decide_False in Hres by done. cbn in *. rewrite Hres.
    split_and!; [apply Hw, Hall|by right|done|done]. }
  assert (stopped base Tunnel (files w2)) as Htunnel by (unfold stopped; rewrite Ho; [apply Hw, Hall|done]).
  assert (now_on (files w2) = now_on (files w)) as Hnow by (unfold settings_now; by rewrite Ho).
  destruct cleared as [[]|e].
  - rewrite decide_True in Hres by done. injection Hk as <- <-. cbn.
    assert (wants_https config (files w2)) by (unfold wants_https; by rewrite Hnow).
    split_and!; [done|by right|done|]. intros _. split_and!; [done|done| |done]. unfold stopped. rewrite Hres. by intros [? ?].
  - rewrite decide_False in Hres by done. cbn in Hres. unfold app_bind at 1, app_modify in Hk.
    apply app_bind_inv in Hk as [[H ->]|(r & d3 & H & Hk)]; apply (update_inv P base Hbase) in H as (w3 & -> & _ & Hw3 & _);
      cbn in Hw3; (assert (forall t, stopped base t (files w3)) as Hall3 by (intros t; apply Hw3; rewrite Hres; apply Hw, Hall));
      [split_and!; [apply Hall3|left; apply Hall3|done|done]|].
    injection Hk as <- <-. split_and!; [apply Hall3|left; apply Hall3| |done]. intros e' _. split; [exact Hall3|].
    exact (Hstop (set_desk_world w2 (set_desk_world w d))).
Qed.

#[local] Abbreviation start_from_page := (start_https P secret_fault random_key b64_encode b64_decode credentials_from_str lock_ok sha256).

(** The configuration that is started: the preferences of the settings page stay as saved. *)
Definition effective (saved config : HttpsMcpSettings) : HttpsMcpSettings :=
  https_with (https_enabled config) (https_auto_reconnect saved) (https_authorization_ttl_hours saved) config.

(** Everything up to the switch: nothing happened, or the switch follows. *)
Lemma start_https_head config d res d' : start_from_page config d = (res, d') ->
  (idle d d' /\ res <> Some (Ok tt))
  \/ exists saved d1, app_load_settings P d = (Some saved, d1) /\ idle d d1
     /\ let config := effective (https_mcp saved) config in
        validate_https config = Ok tt
        /\ (_ <-app? app_prepare_https P ;; _ <-app? start config ;; commit_https P config) d1 = (res, d').
Proof using base Hbase.
  unfold start_https. intros H.
  apply app_try_inv in H as [[H ->]|[(e & H & ->)|(u & d1 & H & Hk)]]; injection H as H <-; [left; by split..|]. clear H.
  apply app_try_inv in Hk as [[H ->]|[(e & H & ->)|(u2 & d2 & H & Hk)]]; injection H as H <-; [left; by split..|]. clear H.
  apply app_bind_inv in Hk as [[H ->]|(saved & d3 & H & Hk)]; apply (idle_load P base Hbase) in H as Hi; [left; by split|].
  apply app_try_inv in Hk as [[H2 ->]|[(e & H2 & ->)|([] & d4 & H2 & Hk)]]; injection H2 as H2 <-; [left; by split..|].
  right. by exists saved, d3.
Qed.

Lemma start_https_tail config d res d' :
  (_ <-app? app_prepare_https P ;; _ <-app? start config ;; commit_https P config) d = (res, d') ->
  json_ok -> faults d (ReadFile file) <> Some NotFound ->
  faults d (RemoveFile (marker_in (base ++ "/state") HttpsMcp)) <> Some NotFound ->
  (steady base d d'
   /\ (workers_same d d' /\ disk d' !! file = disk d !! file /\ desired_connected d' = desired_connected d
       /\ session_runtime_key d' = session_runtime_key d) /\ res <> Some (Ok tt))
  \/ (stopped base Tunnel (disk d') /\ (stopped base HttpsMcp (disk d') \/ wants_https config (disk d'))
      /\ (forall e, res = Some (Err e) -> (forall t, stopped base t (disk d')) /\ lock (supervisor d') <> Some true)
      /\ (res = Some (Ok tt) ->
          ~ stopped base HttpsMcp (disk d') /\ wants_https config (disk d')
          /\ lock (supervisor d') = Some true /\ https_auto d' = https_auto_reconnect config
          /\ (exists l, launched d' = (launched d ++ [l])%list /\ launch_settings l = config /\ sound_launch l)
          /\ exists d2 d3 s, disk d2 !! file = disk d !! file /\ faults d2 = faults d
             /\ app_update_settings P disable_both d2 = (Some (Ok s), d3))).
Proof using base Hbase.
  intros H Hjson Hread Hremove.
  assert ((forall t, stopped base t (disk d')) -> lock (supervisor d') <> Some true -> res <> Some (Ok tt) ->
    stopped base Tunnel (disk d') /\ (stopped base HttpsMcp (disk d') \/ wants_https config (disk d'))
    /\ (forall e, res = Some (Err e) -> (forall t, stopped base t (disk d')) /\ lock (supervisor d') <> Some true)
    /\ (res = Some (Ok tt) -> False)) as Hundone by (intros Ha Hs Hr; split_and!; [apply Ha|left; apply Ha|done|done]).
  apply app_try_inv in H as [[H ->]|[(e & H & ->)|([] & d1 & H & Hk)]]; apply prepare_https_no_launch in H as Hnl;
    apply prepare_https_inv in H as (Hs & Hcase & Hok).
  1-2: destruct Hcase as [(? & ? & ? & ? & _)|[Hall Hsup]]; [left; by split_and!|right];
    destruct (Hundone Hall Hsup ltac:(done)) as (? & ? & ? & Hf); split_and!; [done..|by intros ?%Hf].
  destruct Hcase as [(_ & _ & _ & _ & Hne)|[Hall Hsup]]; [done|]. right.
  destruct (Hok eq_refl) as (d2 & s & Hd2 & Hi2 & Hu). clear Hok. destruct Hs as [_ Hi1].
  apply app_try_inv in Hk as [[H ->]|[(e & H & ->)|([] & d3 & H & Hk)]];
    apply start_outcome in H as (Hf & Hi & _ & _ & _ & [[[_ Hsup'] Hno]|(Hne & _ & Hrun & Hauto & l & Hl3 & Hls & Hsound)]);
    rewrite <- Hf in Hall; try (by destruct (Hne e)); try (destruct (Hsup (Hno tt eq_refl))).
  1, 3: rewrite <- Hsup' in Hsup; destruct (Hundone Hall Hsup ltac:(done)) as (? & ? & ? & Hx); split_and!; [done..|by intros ?%Hx].
  - split_and!; [apply Hall|left; apply Hall|done|done].
  - apply commit_https_inv in Hk as (H1 & H2 & H3 & H4); [|done|congruence..|done]. split_and!; [done..|].
    intros Hres. destruct (H4 Hres) as ((Hla & Hsu) & Hau & ? & ?). split_and!; [done|done|congruence|congruence| |].
    + exists l. split_and!; [|done|done]. rewrite Hla, Hl3. by rewrite Hnl.
    + by exists d2, d1, s.
Qed.

(** C12. Starting HTTPS is a transaction.  However it ends (success, an error at any step, or
    the process dying anywhere), a stop of the tunnel is never lost, and a stop of HTTPS is
    lost only when the settings on disk already want this very configuration.  After an error
    either the workers, the settings file and the connection wish are as before, or no worker
    runs and a restart restores neither transport.  After success exactly one worker was
    started, with accepted settings, fitting credentials and its own secrets; it is the
    configuration given with the retry switch and the grant lifetime as saved before; and a
    restart restores it and not the tunnel.  (The JSON printer and reader agree; failures
    are not reported as missing files.) *)
Theorem https_start_transaction config d res d'
    (Hstart : start_from_page config d = (res, d'))
    (Hjson : json_ok) (Hread : faults d (ReadFile file) <> Some NotFound)
    (Hremove : faults d (RemoveFile (marker_in (base ++ "/state") HttpsMcp)) <> Some NotFound) :
  (restart_allowed base Tunnel (disk d) = Some (Ok false) -> restart_allowed base Tunnel (disk d') = Some (Ok false))
  /\ (restart_allowed base HttpsMcp (disk d) = Some (Ok false) ->
      restart_allowed base HttpsMcp (disk d') = Some (Ok false)
      \/ exists saved, wants_https (effective saved config) (disk d'))
  /\ (forall e, res = Some (Err e) ->
      (workers_same d d' /\ disk d' !! file = disk d !! file /\ desired_connected d' = desired_connected d
       /\ session_runtime_key d' = session_runtime_key d)
      \/ (lock (supervisor d') <> Some true /\ forall t, restart_allowed base t (disk d') = Some (Ok false)))
  /\ (res = Some (Ok tt) -> exists before l, now_on (disk d) = Ok before
      /\ launched d' = (launched d ++ [l])%list /\ sound_launch l
      /\ launch_settings l = effective (https_mcp before) config
      /\ wants_https (effective (https_mcp before) config) (disk d')
      /\ lock (supervisor d') = Some true /\ https_auto d' = https_auto_reconnect (https_mcp before)
      /\ restart_allowed base HttpsMcp (disk d') = Some (Ok true)
      /\ restart_allowed base Tunnel (disk d') = Some (Ok false)).
Proof using base Hbase.
  setoid_rewrite <- stopped_restart.
  apply start_https_head in Hstart as [[(w & l & -> & Hf & Hi) Hn]|(saved & d1 & Hload & (w & l & -> & Hf & Hi) & _ & Htail)].
  { cbn. rewrite Hf. split_and!; [done|by left| |by intros ?%Hn]. intros e _. left. by split_and!. }
  apply start_https_tail in Htail; [|exact Hjson|cbn; congruence..].
  cbn in Htail. rewrite Hf in Htail. destruct Htail as [([Hs _] & Hsame & Hn)|(H1 & H2 & H3 & H4)].
  { cbn in Hs. rewrite Hf in Hs. split_and!; [by apply Hs|intros ?; left; by apply Hs| |by intros ?%Hn]. intros e _. by left. }
  split_and!; [done| | |].
  - intros _. destruct H2; [by left|right]. by exists (https_mcp saved).
  - intros e He. right. destruct (H3 e He) as [? ?]. done.
  - intros Hres. destruct (H4 Hres) as (Hno & Hw & Hrun & Hauto & (la & Hla & Hls & Hsound) & d2 & d3 & s & Hd2 & Hi2 & Hu).
    apply (load_before_update _ _ _ _ _ _ _ Hload) in Hu as Hsaved; [|done|cbn in Hi2; congruence].
    apply (update_inv P base Hbase) in Hu as (w3 & _ & _ & _ & Hnew).
    destruct (Hnew ltac:(cbn in Hi2; congruence) s eq_refl) as (s0 & text & Hs0 & Hs1 & _).
    assert (set_connection false false s0 = set_connection false false saved) as E by (unfold disable_both in *; congruence).
    assert (effective (https_mcp s0) config = effective (https_mcp saved) config) as Heff
      by (apply (f_equal https_mcp) in E; unfold effective; injection E; congruence).
    assert (https_auto_reconnect (https_mcp s0) = https_auto_reconnect (https_mcp saved)) as Hre
      by (apply (f_equal https_mcp) in E; by injection E).
    exists s0, la. rewrite Heff, Hre. split_and!; try done.
    + unfold settings_now in Hs0 |- *. by rewrite <- Hd2.
    + by apply unstopped_restart.
Qed.

(** *** Restoring *)

#[local] Abbreviation restore := (restore_https P secret_fault random_key b64_encode b64_decode credentials_from_str lock_ok sha256).

(** What follows once HTTPS is wanted and allowed. *)
Lemma restore_wanted_inv settings d res d' :
  (paths <-app app_runtime_paths P ;;
   tunnel_absent <-app match paths with
     | Ok paths =>
         observation <-app app_runtime_status P paths ;;
         app_ret (negb (obs_runtime_alive observation) && negb (obs_active observation))
     | Err _ => app_ret false
     end ;;
   if negb tunnel_absent
   then app_log P "HTTPS MCP 自动恢复已阻止：残留 Tunnel runtime 未确认停止"
   else
     started <-app start settings ;;
     match started with
     | Err error => app_log P ("HTTPS MCP 恢复失败：" ++ error)
     | Ok _ => app_ret tt
     end) d = (res, d') ->
  exists tail, disk d' = disk d /\ desired_connected d' = desired_connected d /\ ran d' = (ran d ++ tail)%list
  /\ (tail = [] \/ tail = [status_args])
  /\ (workers_same d d'
      \/ exists l paths o d1 d2, launched d' = (launched d ++ [l])%list /\ lock (supervisor d) = Some false
         /\ launch_settings l = settings /\ sound_launch l
         /\ app_runtime_status P paths d1 = (Some o, d2) /\ obs_runtime_alive o = false /\ obs_active o = false).
Proof using base Hbase.
  intros H.
  assert (forall t d0, client_only t d d0 -> disk d0 = disk d /\ desired_connected d0 = desired_connected d
    /\ ran d0 = (ran d ++ t)%list /\ workers_same d d0 /\ supervisor d0 = supervisor d) as Hquiet
    by (intros t d0 (w & l & -> & Hf & Hi); split_and!; done).
  assert (forall t, client_only t d d' -> t = [] \/ t = [status_args] -> exists tail,
    disk d' = disk d /\ desired_connected d' = desired_connected d /\ ran d' = (ran d ++ tail)%list
    /\ (tail = [] \/ tail = [status_args]) /\ (workers_same d d' \/ False)) as Hend.
  { intros t (? & ? & ? & ? & _)%Hquiet Ht. exists t. split_and!; try done. by left. }
  apply app_bind_inv in H as [[H ->]|(found & d1 & H & Hk)]; apply runtime_paths_client in H as Hc1.
  { destruct (Hend _ Hc1 (or_introl eq_refl)) as (t & ? & ? & ? & ? & [?|[]]). exists t. split_and!; try done. by left. }
  apply app_bind_inv in Hk as [[H2 ->]|(absent & d2 & H2 & Hk)].
  { destruct found as [paths|]; [|done]. apply app_bind_inv in H2 as [[H2 _]|(o & d2 & _ & H2)]; [|done].
    apply (status_client P base Hbase) in H2 as (t & Hc & Ht). pose proof (client_only_trans _ _ _ _ _ Hc1 Hc) as Hc2.
    destruct (Hend _ Hc2 Ht) as (t' & ? & ? & ? & ? & [?|[]]). exists t'. split_and!; try done. by left. }
  assert (exists t, client_only t d d2 /\ (t = [] \/ t = [status_args]) /\ (absent = true -> exists paths o d3,
    app_runtime_status P paths d1 = (Some o, d3) /\ obs_runtime_alive o = false /\ obs_active o = false)) as (t & Hc2 & Ht & Habs).
  { destruct found as [paths|]; [|injection H2 as <- <-; exists []; split_and!; [done|by left|done]].
    apply app_bind_inv in H2 as [[_ ?]|(o & d3 & H2 & Hr)]; [done|]. injection Hr as <- <-. pose proof H2 as Ho.
    apply (status_client P base Hbase) in H2 as (t & Hc & Ht). exists t. split_and!; [by eapply (client_only_trans [])|done|].
    intros [?%negb_true_iff ?%negb_true_iff]%andb_true_iff. by exists paths, o, d3. }
  destruct absent; cbn [negb] in Hk.
  2:{ apply log_client in Hk as [Hc _]. pose proof (client_only_trans _ _ _ _ _ Hc2 Hc) as Hc3. rewrite app_nil_r in Hc3.
      destruct (Hend _ Hc3 Ht) as (t' & ? & ? & ? & ? & [?|[]]). exists t'. split_and!; try done. by left. }
  destruct (Habs eq_refl) as (paths & o & d3 & Ho & Ha & Hb). clear Habs Hend. apply Hquiet in Hc2 as (Hf & Hd & Hr & [Hl Hs] & _).
  apply app_bind_inv in Hk as [[H3 ->]|(r & d4 & H3 & Hk)]; exists t.
  - apply start_outcome in H3 as (? & _ & ? & ? & _ & [[[? ?] _]|(_ & ? & _ & _ & l & ? & ? & ?)]); split_and!; try congruence; try done.
    + left. split; congruence.
    + right. exists l, paths, o, d1, d3. split_and!; (done || congruence).
  - assert (idle d4 d') as (w & lg & -> & Hf' & _).
    { destruct r as [u|e]; [injection Hk as _ <-; reflexivity|by apply log_client in Hk as [? _]]. }
    apply start_outcome in H3 as (? & _ & ? & ? & _ & [[[? ?] _]|(_ & ? & _ & _ & l & ? & ? & ?)]); cbn; rewrite app_nil_r;
      split_and!; try congruence; try done.
    + left. split; cbn; congruence.
    + right. exists l, paths, o, d1, d3. split_and!; (done || congruence).
Qed.

(** What [https_restore_fails_closed] states, for other proofs. *)
Lemma https_restore_inv d res d' (Hrestore : restore d = (res, d'))
    (Hread : faults d (ReadFile file) <> Some NotFound)
    (Hstat : faults d (StatFile (marker_in (base ++ "/state") HttpsMcp)) <> Some NotFound) :
  disk d' = disk d /\ desired_connected d' = desired_connected d
  /\ (exists tail, ran d' = (ran d ++ tail)%list /\ (tail = [] \/ tail = [status_args]))
  /\ (workers_same d d'
      \/ exists l s paths o d1 d2, launched d' = (launched d ++ [l])%list /\ lock (supervisor d) = Some false
         /\ now_on (disk d) = Ok s /\ https_enabled (https_mcp s) = true /\ launch_settings l = https_mcp s /\ sound_launch l
         /\ restart_allowed base HttpsMcp (disk d) = Some (Ok true)
         /\ app_runtime_status P paths d1 = (Some o, d2) /\ obs_runtime_alive o = false /\ obs_active o = false).
Proof using base Hbase.
  assert (forall d0, idle d d0 -> disk d0 = disk d /\ faults d0 = faults d /\ desired_connected d0 = desired_connected d
    /\ ran d0 = ran d /\ launched d0 = launched d /\ supervisor d0 = supervisor d) as Hidle
    by (intros d0 (w & l & -> & Hf & Hi); cbn; rewrite app_nil_r; by split_and!).
  assert (forall d0, idle d d0 -> disk d0 = disk d /\ desired_connected d0 = desired_connected d
    /\ (exists tail, ran d0 = (ran d ++ tail)%list /\ (tail = [] \/ tail = [status_args])) /\ (workers_same d d0)) as Hend.
  { intros d0 (? & _ & ? & ? & ? & ?)%Hidle. split_and!; try done. exists []. rewrite app_nil_r. by split; [|left]. }
  unfold restore_https in Hrestore.
  apply (does_bind_inv idle _ _ d) in Hrestore as [[H _]|(s & d1 & Hload & I1 & Hk)]; [destruct (Hend _ H) as (? & ? & ? & ?); split_and!; (done || by left)| |by eapply idle_load|reflexivity].
  apply (does_bind_inv idle _ _ d) in Hk as [[H _]|(allowed & d2 & Hallowed & I2 & Hk)];
    [destruct (Hend _ H) as (? & ? & ? & ?); split_and!; (done || by left)| |by eapply idle_allowed|done].
  apply (does_bind_inv idle _ _ d) in Hk as [[H _]|(ok & d3 & Hok & I3 & Hk)];
    [destruct (Hend _ H) as (? & ? & ? & ?); split_and!; (done || by left)| | |done].
  2:{ destruct allowed; [apply does_ret; apply _|]. apply does_bind; [apply _|apply idle_log|]. intros u. apply does_ret; apply _. }
  destruct (https_enabled (https_mcp s) && ok) eqn:Hgo; cbn [negb] in Hk.
  2:{ injection Hk as _ <-. destruct (Hend _ I3) as (? & ? & ? & ?); split_and!; (done || by left). }
  apply andb_true_iff in Hgo as [Hen ->].
  assert (allowed = Ok true) as ->.
  { destruct allowed as [b|e]; [by injection Hok as -> _|]. by apply app_bind_inv in Hok as [[_ ?]|(u & d4 & _ & Hr)]. }
  destruct (load_now P base Hbase _ _ _ Hload Hread) as [Hnow|Hdef]; [|by rewrite Hdef in Hen].
  rewrite Hbase in Hallowed. apply on_files_inv in Hallowed as (w & Hallowed & _).
  apply restore_allowed_inv in Hallowed as (_ & _ & Hb & _). destruct (Hidle _ I1) as (Hf1 & Hi1 & _). rewrite Hf1, Hi1 in Hb.
  specialize (Hb Hstat true eq_refl). destruct (Hidle _ I3) as (Hf3 & _ & Hd3 & Hr3 & Hl3 & Hs3).
  apply restore_wanted_inv in Hk as (tail & Hf & Hd & Hr & Ht & Hcase). split_and!; [congruence|congruence|exists tail; split; [congruence|done]|].
  destruct Hcase as [[? ?]|(l & paths & o & d4 & d5 & ? & ? & ? & ? & ? & ? & ?)]; [left; split; congruence|right].
  exists l, s, paths, o, d4, d5. split_and!; (done || congruence).
Qed.

(** Restoring HTTPS when the application starts fails closed.  Whatever fails or dies, nothing
    on disk changes and the tunnel client is at most asked for its status; and at most one
    worker is started, and only when readable settings want HTTPS, no stop of it is recorded,
    the tunnel's runtime was observed to be neither alive nor active, and the settings are
    accepted; it is started with exactly those settings.  (Failures are not reported as
    missing files.) *)
Theorem https_restore_fails_closed d res d' (Hrestore : restore d = (res, d'))
    (Hread : faults d (ReadFile file) <> Some NotFound)
    (Hstat : faults d (StatFile (marker_in (base ++ "/state") HttpsMcp)) <> Some NotFound) :
  disk d' = disk d /\ desired_connected d' = desired_connected d
  /\ (exists tail, ran d' = (ran d ++ tail)%list /\ (tail = [] \/ tail = [status_args]))
  /\ (workers_same d d'
      \/ exists l s paths o d1 d2, launched d' = (launched d ++ [l])%list /\ lock (supervisor d) = Some false
         /\ now_on (disk d) = Ok s /\ https_enabled (https_mcp s) = true /\ launch_settings l = https_mcp s /\ sound_launch l
         /\ restart_allowed base HttpsMcp (disk d) = Some (Ok true)
         /\ app_runtime_status P paths d1 = (Some o, d2) /\ obs_runtime_alive o = false /\ obs_active o = false).
Proof using base Hbase. exact (https_restore_inv d res d' Hrestore Hread Hstat). Qed.

(** *** Stopping *)

(** What the settings update of a stop or a switch leaves on disk. *)
Lemma updated_now u d s d' : app_update_settings P u d = (Some (Ok s), d') -> json_ok -> faults d (ReadFile file) <> Some NotFound ->
  (forall s0 s1, u s0 = Ok s1 -> connection_intent s1 = true -> connection_intent s0 = true /\ tunnel_id s1 = tunnel_id s0) ->
  exists before, now_on (disk d) = Ok before /\ u before = Ok s
    /\ exists after, now_on (disk d') = Ok after /\ https_mcp after = https_mcp s /\ connection_intent after = connection_intent s
       /\ tunnel_id after = tunnel_id s.
Proof using base Hbase.
  intros (w & -> & _ & _ & Hnew)%(update_inv P base Hbase) Hjson Hh Hu.
  destruct (Hnew Hh s eq_refl) as (s0 & text & H0 & Hs & Ht & Hf). exists s0. split_and!; [done|done|].
  eexists. split; [eapply settings_after_update; [exact Hjson|done|done|]|done].
  intros Hi. destruct (Hu _ _ Hs Hi) as [Hi0 ->]. by eapply settings_now_tunnel.
Qed.

(** Stopping HTTPS.  Whatever fails, a stop recorded before is kept, no worker is started, the
    tunnel is left alone, and unless the process dies or the connection lock is broken the
    worker has ended.  When success is reported, a restart does not restore HTTPS, by the
    marker and, independently, by the settings; and the tunnel's intent is what it was. *)
Theorem https_stop_spec d res d' (Hstop : https_stop_requested P d = (res, d'))
    (Hjson : json_ok) (Hread : faults d (ReadFile file) <> Some NotFound) :
  (forall t, restart_allowed base t (disk d) = Some (Ok false) -> restart_allowed base t (disk d') = Some (Ok false))
  /\ launched d' = launched d /\ ran d' = ran d /\ desired_connected d' = desired_connected d
  /\ (is_Some res -> lock (connection_operation d) <> None -> lock (supervisor d') <> Some true)
  /\ (res = Some (Ok tt) -> restart_allowed base HttpsMcp (disk d') = Some (Ok false)
      /\ exists before after, now_on (disk d) = Ok before /\ now_on (disk d') = Ok after
         /\ https_enabled (https_mcp after) = false /\ connection_intent after = connection_intent before
         /\ tunnel_id after = tunnel_id before).
Proof using base Hbase.
  setoid_rewrite <- stopped_restart. unfold https_stop_requested in Hstop.
  apply app_try_inv in Hstop as [[H ->]|[(e & H & ->)|(u & d1 & H & Hk)]]; injection H as H <-; [by split_and!| |].
  { split_and!; try done; intros _ Hl; by destruct (lock (connection_operation d)). }
  clear H. rewrite Hbase in Hk. apply app_bind_inv in Hk as [[H ->]|(marker & d2 & H & Hk)];
    apply mark_inv in H as [(Hd & Hf & Hq & Ht) Hok].
  { rewrite Hd in *. by split_and!. }
  unfold app_bind at 1, app_modify in Hk. set (d3 := stop_inner d2) in *.
  assert (lock (supervisor d3) <> Some true) as Hsup by (subst d3; cbn; rewrite lock_update; by destruct (lock _)).
  assert (disk d3 = disk d2 /\ faults d3 = faults d /\ launched d3 = launched d /\ ran d3 = ran d
    /\ desired_connected d3 = desired_connected d) as (Hf3 & Hi3 & Hl3 & Hr3 & Hd3) by (subst d3; rewrite Hd in *; by split_and!).
  clearbody d3. apply app_bind_inv in Hk as [[H ->]|(saved & d4 & H & Hk)]; pose proof H as Hu;
    apply (update_inv P base Hbase) in Hu as (w & -> & _ & Hw & _).
  { split_and!; try done. intros t Hst. apply Hw. rewrite Hf3. by apply Ht. }
  assert (exists l, d' = set_logs l (set_desk_world w d3)
    /\ (res = Some (Ok tt) -> marker = Ok tt /\ exists s, saved = Ok s)) as (l & -> & Hres).
  { unfold app_bind at 1 in Hk. destruct saved as [s|e]; destruct marker as [[]|em]; injection Hk as <- <-;
      try (eexists; split; [reflexivity|by intros ?]).
    eexists. split; [reflexivity|]. intros _. split; [done|by exists s]. }
  clear Hk. split_and!; try done.
  - intros t Hst. apply Hw. rewrite Hf3. by apply Ht.
  - intros E. destruct (Hres E) as (-> & s & ->). split; [apply Hw; rewrite Hf3; by apply Hok|].
    apply updated_now in H as (before & Hb & [= <-] & after & Ha & Hh & Hi & Htid); [|done|congruence|by intros s0 s1 [= <-]].
    exists before, after. rewrite Hh, Hi, Htid. split_and!; try done.
    unfold settings_now in Hb |- *. rewrite Hf3 in Hb. rewrite Hq in Hb; [done|by intros []].
Qed.

(** *** Rotating the secret *)

#[local] Abbreviation stored := (stored_key b64_decode https_oauth_item).

(** Besides the log, only an administration command may have run. *)
Definition bystander (d d' : Desk) : Prop :=
  workers_same d d' /\ secrets d' = secrets d /\ disk d' = disk d /\ faults d' = faults d.

#[local] Instance bystander_preorder : PreOrder bystander.
Proof.
  split; [intros d; by split_and!|]. intros d1 d2 d3 ([? ?] & ? & ? & ?) ([? ?] & ? & ? & ?). split_and!; [split|..]; congruence.
Qed.

Lemma idle_bystander d d' : idle d d' -> bystander d d'.
Proof. intros (w & l & -> & ? & ?). by split_and!. Qed.

Lemma script_inv roots w res w' : admin_script roots w = (res, w') -> files w' = files w /\ io_fault w' = io_fault w.
Proof.
  revert w. induction roots as [|root roots IH]; cbn [admin_script]; intros w; [by intros [= _ <-]|].
  intros [[H ->]|(b & w1 & H & Hk)]%fs_bind_inv; apply path_exists_files in H as [? ?]; [done|].
  destruct b; [injection Hk as _ <-|apply IH in Hk as [? ?]]; split; congruence.
Qed.

Section Administration.
Context (run_admin : list string -> Desk -> AdminRun).

(** At most one command is run, and success is what its reply confirmed. *)
Lemma administer_inv action grant d res d' : administer P run_admin action grant d = (res, d') ->
  bystander d d'
  /\ ((administered d' = administered d /\ forall v, res <> Some (Ok v))
      \/ exists script d1, let args := script :: action :: match grant with Some id => [id] | None => [] end in
         administered d' = (administered d ++ [args])%list /\ one_of ["list"; "revoke"; "revoke-all"] action = true
         /\ (action = "revoke" -> exists id, grant = Some id /\ grant_id_ok id = true)
         /\ res = Some (admin_result P action grant (run_admin args d1))).
Proof using base Hbase.
  unfold administer. intros H.
  assert (forall d0, idle d d0 -> administered d0 = administered d) as Hadm by (by intros d0 (w & l & -> & _)).
  destruct (one_of _ action) eqn:Ha; cbn [negb] in H; [|injection H as <- <-; split; [reflexivity|by left]].
  destruct (String.eqb action "revoke" && _) eqn:Hr; [injection H as <- <-; split; [reflexivity|by left]|].
  apply (does_try_inv idle _ _ d) in H as [[Hi Hn]|(paths & d1 & _ & I1 & H)];
    [split; [by apply idle_bystander|left; split; [by apply Hadm|done]]| |apply idle_paths|reflexivity].
  assert (does idle (on_files (admin_script (resource_roots P)))) as Hs.
  { intros d2 r d3 (w & Hs & ->)%on_files_inv. apply script_inv in Hs as [? ?]. by apply client_only_world. }
  apply (does_bind_inv idle _ _ d) in H as [[Hi Hn]|(script & d2 & _ & I2 & H)];
    [split; [by apply idle_bystander|left; rewrite Hn; split; [by apply Hadm|done]]| |done|done].
  destruct script as [script|]; [|injection H as <- <-; split; [by apply idle_bystander|left; split; [by apply Hadm|done]]].
  apply (does_try_inv idle _ _ d) in H as [[Hi Hn]|(dir & d3 & _ & I3 & H)];
    [split; [by apply idle_bystander|left; split; [by apply Hadm|done]]| |by eapply idle_state_dir|done].
  injection H as <- <-. pose proof (idle_bystander _ _ I3) as Hb. split; [exact Hb|]. right. exists script, d3. cbn.
  rewrite (Hadm _ I3). split_and!; [done|done| |done]. intros ->. cbn in Hr. destruct grant as [id|]; [|done].
  exists id. split; [done|by apply negb_false_iff in Hr].
Qed.

(** The administration of the OAuth grants.  At most one command is run, with a known action
    and, for a revocation, an id that is [legacy] or 64 lower-case hexadecimal digits, so no
    argument can be an option or a path; nothing else changes; success is reported only when
    the command succeeded within the output limit and its reply confirms exactly what was
    asked; and reading its reply never keeps more than one byte past that limit. *)
Theorem administer_spec action grant d res d' : administer P run_admin action grant d = (res, d') ->
  bystander d d'
  /\ (forall v, res = Some (Ok v) -> admin_confirms action grant v = true
       /\ exists script stdout, administered d' = (administered d ++ [script :: action :: match grant with Some id => [id] | None => [] end])%list
          /\ (exists d1, run_admin (script :: action :: match grant with Some id => [id] | None => [] end) d1 = AdminExited true stdout)
          /\ (N.of_nat (String.length stdout) <= MAX_ADMIN_OUTPUT)%N /\ read_value P stdout = Ok v)
  /\ (administered d' = administered d
       \/ exists script, administered d' = (administered d ++ [script :: action :: match grant with Some id => [id] | None => [] end])%list
          /\ (grant = None \/ action <> "revoke" \/ exists id, grant = Some id /\ starts_with "-" id = false
               /\ contains "/" id = false)).
Proof using base Hbase.
  assert (forall limit s, (N.of_nat (String.length (take_bytes limit s)) < limit)%N -> take_bytes limit s = s) as Htake.
  { intros limit s. revert limit. induction s as [|a s IH]; intros limit; cbn [take_bytes]; [done|].
    destruct (N.eqb_spec limit 0) as [->|]; cbn [String.length]; [lia|]. intros Hl. f_equal. apply IH. lia. }
  assert (forall id, grant_id_ok id = true -> starts_with "-" id = false /\ contains "/" id = false) as Hid.
  { intros id [->%String.eqb_eq|[_ Hall]%andb_true_iff]%orb_true_iff; [done|]. split.
    - apply not_true_iff_false. intros (r & ->)%starts_with_app. done.
    - clear -Hall. induction id as [|a id IH]; [done|]. cbn [string_forall] in Hall. apply andb_true_iff in Hall as [Ha Hall].
      cbn [contains]. rewrite (IH Hall), orb_false_r. apply not_true_iff_false. intros (r & [= -> _])%starts_with_app. done. }
  intros [Hb [[Hn Hr]|(script & d1 & Hadm & _ & Hg & Hres)]]%administer_inv.
  - split_and!; [done|by intros v ?%Hr|by left].
  - split_and!; [done| |].
    + intros v ->. injection Hres as Hres. symmetry in Hres. unfold admin_result in Hres.
      destruct (run_admin _ d1) as [e| | |success stdout] eqn:Hrun; [done..|]. destruct success; cbn [negb] in Hres; [|done].
      destruct (MAX_ADMIN_OUTPUT <? _)%N eqn:Hlen; [done|]. apply N.ltb_ge in Hlen.
      assert (take_bytes (MAX_ADMIN_OUTPUT + 1) stdout = stdout) as Ht by (apply Htake; lia). rewrite Ht in Hlen, Hres. destruct (read_value P stdout) as [r|] eqn:Hv; [|done].
      destruct (admin_confirms action grant r) eqn:Hc; [|done]. injection Hres as ->. split; [done|].
      exists script, stdout. split_and!; try done. by exists d1.
    + right. exists script. split; [done|]. destruct grant as [id|]; [right|by left].
      destruct (decide (action = "revoke")) as [->|]; [right|by left]. destruct (Hg eq_refl) as (id' & [= <-] & Hok).
      exists id. split; [done|by apply Hid].
Qed.

Context (Hagree : keys_agree b64_encode b64_decode) (Hfull : full_keys random_key).

#[local] Abbreviation new_key := (rotate_https_oauth_master_key secret_fault random_key b64_encode lock_ok).

Lemma new_key_inv d res d' : new_key d = (res, d') ->
  only_secrets d d' /\ is_Some res /\ forall key, res = Some (Ok key) -> stored key d'.
Proof using Hagree Hfull.
  unfold rotate_https_oauth_master_key, save_https_oauth_master_key, generate_master_key, save_secret, app_try, app_bind, app_get, app_ret.
  destruct lock_ok; cbn [negb]; [|intros [= <- <-]; split_and!; [reflexivity|by eexists|done]].
  destruct (random_key d) as [key|] eqn:Hk; [|intros [= <- <-]; split_and!; [reflexivity|by eexists|done]].
  destruct (secret_fault _ d); intros [= <- <-]; (split_and!; [by destruct d|by eexists|]); [done|].
  intros k [= <-]. eexists. cbn. split; [by rewrite lookup_insert_eq|]. apply Hagree. by eapply Hfull.
Qed.

(** A stored key is the one that is used. *)
Lemma master_stored key d m d' : stored key d -> master_key d = (Some (Ok m), d') -> m = key.
Proof.
  intros (value & Hv & Hd). unfold oauth_master, ensure_https_oauth_master_key, load_https_oauth_master_key, app_try, app_bind,
    load_secret, app_get, app_ret. destruct lock_ok; cbn [negb]; [|done]. destruct (secret_fault _ d); [done|].
  rewrite Hv, Hd. congruence.
Qed.

Lemma stored_same key d d' : secrets d' = secrets d -> stored key d -> stored key d'.
Proof. intros H (v & Hv & ?). exists v. by rewrite H. Qed.

(** A worker started now was given the secrets of the key that is stored at the end. *)
Lemma launch_uses_stored s d d' : launches s d d' -> exists l key,
  launched d' = (launched d ++ [l])%list /\ administered d' = administered d /\ stored key d'
  /\ launch_password l = derive_secret sha256 key "login" /\ forall key0, stored key0 d -> key = key0.
Proof using Hagree Hfull.
  intros (c & paths & master & d1 & d2 & (w & l & -> & _) & _ & Hm & (w' & l' & -> & _)).
  apply oauth_only_secrets in Hm as Hs. pose proof Hm as Hinv. apply ensure_oauth_inv in Hinv as [_ Hst]; [|done..].
  exists (launch_of s c paths master), master. split_and!; [by rewrite Hs..|by apply Hst|done|].
  intros key0 Hk. by apply (master_stored key0) in Hm.
Qed.

(** The worker runs only if it was started with the secrets of the key that is stored. *)
Definition fresh_worker (d d' : Desk) : Prop :=
  lock (supervisor d') = Some true -> exists l key, launched d' = (launched d ++ [l])%list /\ stored key d'
    /\ launch_password l = derive_secret sha256 key "login".

(** What follows the stop: a new key, and the worker again if it is wanted. *)
Lemma rotate_tail_inv (wanted : bool) settings d d3 res d' :
  lock (supervisor d) <> Some true ->
  new_key d = (res, d3) ->
  forall rec, (if wanted then start settings else app_ret (Ok tt)) d3 = (rec, d') ->
  administered d' = administered d /\ fresh_worker d d'
  /\ forall key, res = Some (Ok key) -> rec = Some (Ok tt) -> stored key d' /\ (wanted = true -> lock (supervisor d') = Some true).
Proof using base Hbase Hagree Hfull.
  intros Hsup Hnew rec Hrec. apply new_key_inv in Hnew as (Hs & _ & Hkey).
  assert (supervisor d3 = supervisor d /\ launched d3 = launched d /\ administered d3 = administered d) as (Hs3 & Hl3 & Ha3) by (by rewrite Hs).
  destruct wanted.
  2:{ injection Hrec as <- <-. split; [done|]. split; [intros H; by rewrite Hs3 in H|]. intros key Hk _. split; [by apply Hkey|done]. }
  pose proof Hrec as Hout. apply start_outcome in Hout as (_ & _ & _ & _ & _ & Hout).
  apply start_inner_inv in Hrec as [[(d4 & (w & lg & -> & _) & Hos) Hno]|(_ & _ & Hlaunch & _)].
  - split; [by rewrite Hos|]. split; [intros H; rewrite Hos in H; cbn in H; by rewrite Hs3 in H|].
    intros key Hk Hr. destruct (Hno tt Hr) as [_ H]. by rewrite Hs3 in H.
  - apply launch_uses_stored in Hlaunch as (l & key & Hl & Ha & Hst & Hp & Huniq). rewrite Hl3 in Hl.
    split; [congruence|]. split; [intros _; by exists l, key|]. intros key0 Hk _. rewrite <- (Huniq key0 (Hkey _ Hk)). split; [done|]. intros _.
    destruct Hout as [[[Hlx _] _]|(_ & _ & ? & _)]; [|done]. rewrite Hl3, Hl in Hlx. apply (f_equal length) in Hlx.
    rewrite length_app in Hlx. cbn in Hlx. lia.
Qed.

#[local] Abbreviation rotate_password := (rotate_https_mcp_login_password P secret_fault random_key b64_encode b64_decode
  credentials_from_str lock_ok sha256 run_admin).

(** The wish to have HTTPS running, when everything can be read. *)
Lemma reconnect_wanted d all d1 (wanted : bool) d2 :
  app_load_settings P d = (Some all, d1) -> idle d d1 ->
  (if https_enabled (https_mcp all) then on_files (restore_allowed (base_dir P) HttpsMcp) else app_ret (Ok false)) d1 = (Some (Ok wanted), d2) ->
  (forall op, faults d op = None) -> forall before, now_on (disk d) = Ok before -> https_enabled (https_mcp before) = true ->
  restart_allowed base HttpsMcp (disk d) = Some (Ok true) -> wanted = true.
Proof using base Hbase.
  intros Hload (w & l & -> & Hf & Hi) Hw Hnf before Hb He Hr.
  assert (https_mcp all = https_mcp before) as Hall.
  { unfold app_load_settings, settings_load in Hload. rewrite Hbase in Hload. apply on_files_inv in Hload as (w1 & H & _).
    apply fs_bind_inv in H as [[_ ?]|(checked & w2 & H & Hk)]; [done|]. injection Hk as <- _.
    assert (app_load_settings_checked P d = (Some checked, set_desk_world w2 d)) as Hc
      by (unfold app_load_settings_checked, on_files; rewrite Hbase, H; done).
    apply (load_checked_inv P base Hbase) in Hc as (_ & _ & _ & _ & Hc). destruct (Hc Hnf) as [?|[= ->]]; [done|]. by rewrite Hb. }
  rewrite Hall, He in Hw. rewrite Hbase in Hw. apply on_files_inv in Hw as (w2 & H & _).
  apply restore_allowed_inv in H as (_ & _ & _ & H). destruct (H ltac:(cbn; intros op; rewrite Hi; apply Hnf)) as [?|E]; [done|].
  cbn in E. rewrite Hf, Hr in E. by injection E as ->.
Qed.

#[local] Abbreviation rotation wanted settings := (rotate_with_recovery
    (_ <-app? revoke_all_sync P run_admin ;; app_ret (Ok tt)) (app_modify stop_inner) new_key
    (if (wanted : bool) then start settings else app_ret (Ok tt))).

Lemma rotation_inv (wanted : bool) settings d res d' : rotation wanted settings d = (res, d') ->
  (bystander d d' /\ forall key, res <> Some (Ok key))
  \/ exists script d1 v, administered d' = (administered d ++ [[script; "revoke-all"]])%list
     /\ admin_result P "revoke-all" None (run_admin [script; "revoke-all"] d1) = Ok v
     /\ fresh_worker d d'
     /\ forall key, res = Some (Ok key) -> stored key d' /\ (wanted = true -> lock (supervisor d') = Some true).
Proof using base Hbase Hagree Hfull.
  intros H. apply app_try_inv in H as [[H ->]|[(e & H & ->)|([] & d1 & H & Hk)]].
  1-2: left; apply app_try_inv in H as [[H ?]|[(e' & H & ?)|(v & d2 & H & Hr)]]; apply administer_inv in H as [Hb _];
    [split; [exact Hb|done]..|injection Hr as _ <-; split; [exact Hb|done]].
  right. apply app_try_inv in H as [[_ ?]|[(e' & _ & ?)|(v & d2 & H & Hr)]]; [done..|]. injection Hr as <-.
  apply administer_inv in H as [([Hl Hs] & Hsec & _ & _) [[_ Hno]|(script & d3 & Hadm & _ & _ & Hok)]]; [by destruct (Hno v)|].
  unfold app_bind at 1, app_modify in Hk. set (d4 := stop_inner d2) in *.
  assert (lock (supervisor d4) <> Some true) as Hsup by (subst d4; cbn; rewrite lock_update; by destruct (lock _)).
  assert (launched d4 = launched d /\ administered d4 = administered d2) as [Hl4 Ha4] by (by subst d4).
  clearbody d4. exists script, d3, v.
  assert (forall rec r d5 d6, new_key d4 = (r, d5) -> (if wanted then start settings else app_ret (Ok tt)) d5 = (rec, d6) ->
    administered d6 = (administered d ++ [[script; "revoke-all"]])%list /\ fresh_worker d d6
    /\ forall key, r = Some (Ok key) -> rec = Some (Ok tt) -> stored key d6 /\ (wanted = true -> lock (supervisor d6) = Some true)) as Htail.
  { intros rec r d5 d6 Hn Hr. destruct (rotate_tail_inv _ _ _ _ _ _ Hsup Hn _ Hr) as (Ha & Hf & Hk').
    split_and!; [congruence| |done]. unfold fresh_worker in *. by rewrite <- Hl4. }
  injection Hok as Hok. apply app_bind_inv in Hk as [[H ->]|(rotated & d5 & H & Hk)].
  { apply new_key_inv in H as (_ & [? ?] & _). done. }
  apply app_bind_inv in Hk as [[H2 ->]|(rec & d6 & H2 & Hk)]; destruct (Htail _ _ _ _ H H2) as (Ha & Hf & Hkey).
  - split_and!; done.
  - injection Hk as Hk <-. split_and!; try done. intros key Hres. destruct rotated as [k|e], rec as [[]|e']; try congruence.
    apply Hkey; congruence.
Qed.

Lemma fresh_idle d d1 d2 : idle d1 d2 -> fresh_worker d d1 -> fresh_worker d d2.
Proof. intros (w & l & -> & _) Hf H. destruct (Hf H) as (la & key & ? & Hk & ?). exists la, key. split_and!; [done|by eapply stored_same|done]. Qed.

(** C13. Rotating the login password.  Unless the administration command confirmed that every grant is
    revoked, the running bridge and every secret stay as they are, and no password is
    returned.  Once it did, the old worker has ended, and whatever fails or dies afterwards a
    worker runs only if it was started by this call with the secrets of the key that is now
    stored: none goes on with replaced secrets.  A password that is returned is that of the
    stored key, and if HTTPS was wanted (and everything could be read) the worker runs again. *)
Theorem password_rotation d res d' (Hrotate : rotate_password d = (res, d')) :
  (workers_same d d' /\ secrets d' = secrets d /\ forall p, res <> Some (Ok p))
  \/ (exists script d1 v, administered d' = (administered d ++ [[script; "revoke-all"]])%list
      /\ admin_result P "revoke-all" None (run_admin [script; "revoke-all"] d1) = Ok v
      /\ fresh_worker d d'
      /\ forall p, res = Some (Ok p) -> (exists key, stored key d' /\ p = derive_secret sha256 key "login")
         /\ ((forall op, faults d op = None) -> forall before, now_on (disk d) = Ok before ->
             https_enabled (https_mcp before) = true -> restart_allowed base HttpsMcp (disk d) = Some (Ok true) ->
             lock (supervisor d') = Some true)).
Proof using base Hbase Hagree Hfull.
  assert (forall d0, bystander d d0 -> (forall p, res <> Some (Ok p)) -> d' = d0 ->
    workers_same d d' /\ secrets d' = secrets d /\ forall p, res <> Some (Ok p)) as Hleft by (by intros d0 (? & ? & _) ? ->).
  unfold rotate_https_mcp_login_password in Hrotate.
  apply app_try_inv in Hrotate as [[H ->]|[(e & H & ->)|(u & d1 & H & Hk)]]; injection H as H <-; [left; by split_and!..|]. clear H.
  apply app_try_inv in Hk as [[H ->]|[(e & H & ->)|(u2 & d2 & H & Hk)]]; injection H as H <-; [left; by split_and!..|]. clear H.
  apply app_bind_inv in Hk as [[H ->]|(all & d3 & Hload & Hk)];
    [left; apply (idle_load P base Hbase) in H; by eapply Hleft; [apply idle_bystander|..]|].
  pose proof Hload as I3. apply (idle_load P base Hbase) in I3.
  apply (does_try_inv idle _ _ d) in Hk as [[Hi Hn]|(wanted & d4 & Hw & I4 & Hk)];
    [left; eapply Hleft; [apply idle_bystander, Hi|exact Hn|done]| | |done].
  2:{ destruct (https_enabled _); [by eapply idle_allowed|apply does_ret; apply _]. }
  pose proof (reconnect_wanted _ _ _ _ _ Hload I3 Hw) as Hwant.
  assert (administered d4 = administered d /\ launched d4 = launched d) as [Ha4 Hl4] by (by destruct I4 as (w & l & -> & _)).
  apply app_bind_inv in Hk as [[H ->]|(outcome & d5 & H & Hk)]; apply rotation_inv in H as [[Hb Hno]|(script & d6 & v & Ha & Hr & Hf & Hkey)];
    try unfold fresh_worker in Hf; rewrite ?Hl4, ?Ha4 in *.
  - left. eapply Hleft; [etrans; [exact (idle_bystander _ _ I4)|exact Hb]|done|done].
  - right. by exists script, d6, v.
  - left. assert (idle d5 d' /\ forall p, res <> Some (Ok p)) as [I5 Hres].
    { destruct outcome as [key|e]; [by destruct (Hno key)|]. apply app_bind_inv in Hk as [[H _]|(ignored & d7 & H & Hk)];
        apply log_client in H as [H Hs]; [done|]. by injection Hk as <- <-. }
    eapply Hleft; [|done|done]. etrans; [exact (idle_bystander _ _ I4)|]. etrans; [exact Hb|exact (idle_bystander _ _ I5)].
  - right. exists script, d6, v.
    assert (idle d5 d' /\ forall p, res = Some (Ok p) -> exists key, outcome = Ok key /\ p = derive_secret sha256 key "login") as [I5 Hres].
    { destruct outcome as [key|e]; (apply app_bind_inv in Hk as [[H ?]|(ignored & d7 & H & Hk)]; apply log_client in H as [H Hs]; [done|]);
        injection Hk as <- <-; (split; [done|]); [|done]. intros p [= <-]. by exists key. }
    pose proof I5 as (w & l & -> & _). split_and!; [done|done|by eapply fresh_idle|].
    intros p (key & -> & ->)%Hres. destruct (Hkey key eq_refl) as [Hst Hrun]. split; [|by eauto].
    exists key. split; [by eapply stored_same|done].
Qed.

(** *** Every worker ever started *)

Context (published_status : Desk -> option HttpsSnapshot).

(** The commands that touch the worker, and those that only read or save preferences. *)
Inductive HttpsCommand :=
| CmdStart (config : HttpsMcpSettings)
| CmdStop
| CmdRestore
| CmdRotate
| CmdRetry (enabled : bool)
| CmdLifetime (hours : option N)
| CmdPassword
| CmdStatus.

Definition ignore {A} (m : App A) : App unit := _ <-app m ;; app_ret tt.

Definition run_https (c : HttpsCommand) : App unit :=
  match c with
  | CmdStart config => ignore (start_https_mcp P secret_fault random_key b64_encode b64_decode credentials_from_str
                                 lock_ok sha256 published_status config)
  | CmdStop => ignore (stop_https_mcp P published_status)
  | CmdRestore => restore
  | CmdRotate => ignore rotate_password
  | CmdRetry enabled => ignore (set_https_mcp_auto_reconnect P published_status enabled)
  | CmdLifetime hours => ignore (set_https_mcp_authorization_lifetime P hours)
  | CmdPassword => ignore (get_https_mcp_login_password secret_fault random_key b64_encode b64_decode lock_ok sha256)
  | CmdStatus => ignore (get_https_mcp_status P published_status)
  end.

(** Any history of the commands, whatever fails or dies in them, and of other operations. *)
Inductive https_history : Desk -> Prop :=
| history_start d : launched d = [] -> lock (supervisor d) <> Some true -> https_history d
| history_command c d res d' : https_history d -> run_https c d = (res, d') -> https_history d'
| history_other d d' : https_history d -> workers_same d d' -> https_history d'.

(** Well-formed launches are added, and a worker runs only if it ran before or one was. *)
Definition sound_step (d d' : Desk) : Prop :=
  exists tail, launched d' = (launched d ++ tail)%list /\ Forall sound_launch tail
  /\ (lock (supervisor d') = Some true -> lock (supervisor d) = Some true \/ tail <> []).

#[local] Instance sound_step_preorder : PreOrder sound_step.
Proof.
  split; [intros d; exists []; rewrite app_nil_r; by split_and!; [| |left]|].
  intros d1 d2 d3 (t1 & L1 & F1 & S1) (t2 & L2 & F2 & S2). exists (t1 ++ t2)%list.
  split_and!; [by rewrite L2, L1, app_assoc|by apply Forall_app|]. intros H. destruct (S2 H) as [H2|H2]; [destruct (S1 H2) as [?|H1]|].
  - by left.
  - right. by destruct t1.
  - right. by destruct t1, t2.
Qed.

#[local] Instance sound_step_elsewhere : Elsewhere sound_step.
Proof.
  split; [apply _|]. intros d d' [Hl Hs]. exists []. rewrite app_nil_r, Hs. split_and!; [done|done|by left].
Qed.

Lemma sound_start s : does sound_step (start s).
Proof using base Hbase.
  intros d res d' (_ & _ & _ & _ & _ & [[H _]|(_ & _ & _ & _ & l & Hl & _ & Hs)])%start_outcome; [by apply elsewhere_same|].
  exists [l]. split_and!; [done|by apply Forall_singleton|by right].
Qed.

Lemma sound_no_launch {A} (m : App A) :
  does no_launch m -> (forall d res d', m d = (res, d') -> lock (supervisor d') = Some true -> lock (supervisor d) = Some true) ->
  does sound_step m.
Proof.
  intros Hl Hs d res d' H. exists []. rewrite app_nil_r. split_and!; [by eapply Hl|done|]. intros Hr. left. by eapply Hs.
Qed.

Lemma sound_stop : does sound_step (app_modify stop_inner).
Proof.
  apply sound_no_launch; [by intros d res d' [= _ <-]|]. intros d res d' [= _ <-]. cbn. rewrite lock_update. by destruct (lock _).
Qed.

Lemma sound_administer action grant : does sound_step (administer P run_admin action grant).
Proof using base Hbase. intros d res d' [[? _] _]%administer_inv. by apply elsewhere_same. Qed.

Lemma sound_master : does sound_step master_key.
Proof. intros d res d' ->%oauth_only_secrets. by apply elsewhere_same. Qed.

Lemma sound_new_key : does sound_step new_key.
Proof using Hagree Hfull. intros d res d' [-> _]%new_key_inv. by apply elsewhere_same. Qed.

Lemma sound_prepare : does sound_step (app_prepare_https P).
Proof using base Hbase.
  apply sound_no_launch; [apply prepare_https_no_launch|]. intros d res d' (_ & Hcase & _)%prepare_https_inv.
  destruct Hcase as [([_ ->] & _)|[_ ?]]; done.
Qed.

Lemma sound_relay s : does sound_step (credentials_for s).
Proof. intros d res d' H. apply idle_relay in H as (w & l & -> & _). by apply elsewhere_same. Qed.

#[local] Hint Resolve sound_start sound_stop sound_administer sound_master sound_new_key sound_prepare sound_relay : quiet.

Lemma sound_command c : does sound_step (run_https c).
Proof using Type*.
  destruct c; cbn [run_https]; unfold ignore, start_https_mcp, start_https, commit_https, stop_https_mcp, https_stop_requested, restore_https,
    rotate_https_mcp_login_password, rotate_with_recovery, revoke_all_sync, set_https_mcp_auto_reconnect,
    set_https_mcp_authorization_lifetime, get_https_mcp_login_password, get_https_mcp_status, status_view, health_from_snapshot,
    ConnectionCoordinator_acquire, ensure_available, app_runtime_paths; solve_quiet.
Qed.

(** C14. In every history of the commands, with anything else happening in between and whatever
    fails or dies: every worker ever started was given accepted settings, credentials for the
    very address it serves exactly when its transport needs them, the two secrets of one key,
    each under its own label, and the application's own directories; and no worker runs that
    was not started so. *)
Theorem https_workers_sound d : https_history d ->
  Forall sound_launch (launched d) /\ (lock (supervisor d) = Some true -> launched d <> []).
Proof using base Hbase Hagree Hfull.
  induction 1 as [d Hl Hs|c d res d' _ [IHs IHr] H|d d' _ [IHs IHr] [Hl Hs]].
  - rewrite Hl. split; [constructor|done].
  - apply sound_command in H as (tail & -> & Ht & Hrun). split; [by apply Forall_app|].
    intros [H|H]%Hrun; [apply IHr in H; by destruct (launched d)|by destruct (launched d), tail].
  - by rewrite Hl, Hs.
Qed.
End Administration.
End StartHttps.

(** ** Witnesses *)

Definition sample_https : HttpsMcpSettings :=
  {| https_enabled := true; https_auto_reconnect := true; https_base_url := "https://a.example"; https_transport := "ssh";
     https_ssh_host := "a.example"; https_ssh_user := "chatx"; https_ssh_port := 22; https_local_port := 3000;
     https_remote_port := 18080; https_authorization_ttl_hours := Some 168%N |}.

Definition sample_reply (text : string) : Result Value string :=
  if String.eqb text "yes" then Ok (Object [("revokedAll", Bool true)]) else Err "bad".

Definition sample_https_platform : Platform :=
  {| base_dir := Ok "/home/u"; system_proxy := Ok None; key_saved := true; read_settings := sample_settings_read;
     read_value := sample_reply; print_settings := sample_settings_print; from_utf8 := fun s => s;
     read_report := sample_report; client_log := fun _ _ => None; now_text := fun _ => "12:00";
     now_millis := fun _ => 7%N; temp_suffix := fun _ => "1.1"; settings_write_lock_ok := true;
     resource_roots := ["/opt/chatx"]; executable_suffix := ""; environment := ∅; client := sample_tunnel |}.

Definition sample_digest (s : string) : bytes := list_byte_of_string s.
Definition sample_admin (args : list string) (d : Desk) : AdminRun := AdminExited true "yes".

(** Installed, with the administration script, HTTPS wanted by the settings or not. *)
Definition sample_https_desk (wanted : bool) : Desk :=
  desk_default (healthy (<[sample_runtime "https-mcp-authorizations-admin.mjs" "/opt/chatx" := ""]>
    (sample_files (enable_https wanted (with_https sample_https settings_default))))).

#[local] Abbreviation sample_start_https := (start_https sample_https_platform sample_secret_fault sample_random_key sample_key_text
  parse_hex_pairs (fun _ => Err "none") true sample_digest).

Lemma forward_args_safe_witness :
  validate_https sample_https = Ok tt
  /\ exists destination options, forward_args sample_https = (options ++ [destination])%list /\ starts_with "-" destination = false.
Proof.
  split; [reflexivity|].
  destruct (forward_args_safe sample_https eq_refl eq_refl) as (destination & options & H1 & H2 & _). by exists destination, options.
Defined.

(** HTTPS is started from a fresh installation; the retry switch stays as saved. *)
Lemma https_start_transaction_witness :
  let config := https_with true false None sample_https in
  let out := sample_start_https config (sample_https_desk false) in
  out.1 = Some (Ok tt) /\ https_auto out.2 = true
  /\ restart_allowed "/home/u" HttpsMcp (files (desk_world out.2)) = Some (Ok true)
  /\ restart_allowed "/home/u" Tunnel (files (desk_world out.2)) = Some (Ok false).
Proof.
  intros config out. assert (out.1 = Some (Ok tt)) as Hres by (vm_compute; reflexivity). split; [exact Hres|].
  split; [vm_compute; reflexivity|]. destruct (sample_start_https config (sample_https_desk false)) as [res d'] eqn:Hs.
  subst out. cbn [fst snd] in Hres |- *.
  destruct (https_start_transaction sample_https_platform "/home/u" eq_refl sample_secret_fault sample_random_key sample_key_text
    parse_hex_pairs (fun _ => Err "none") true sample_digest config (sample_https_desk false) res d' Hs sample_json_agrees
    ltac:(discriminate) ltac:(discriminate)) as (_ & _ & _ & Hok).
  destruct (Hok Hres) as (before & l & _ & _ & _ & _ & _ & _ & _ & Hh & Ht). split; [exact Hh|exact Ht].
Defined.

(** Wanted HTTPS is restored; the tunnel client is only asked for its status. *)
Lemma https_restore_fails_closed_witness :
  let out := restore_https sample_https_platform sample_secret_fault sample_random_key sample_key_text parse_hex_pairs
               (fun _ => Err "none") true sample_digest (sample_https_desk true) in
  lock (supervisor out.2) = Some true /\ desired_connected out.2 = false
  /\ exists l, launched out.2 = [l] /\ launch_settings l = sample_https.
Proof.
  intros out. assert (lock (supervisor out.2) = Some true) as Hrun by (vm_compute; reflexivity). split; [exact Hrun|].
  destruct (restore_https sample_https_platform sample_secret_fault sample_random_key sample_key_text parse_hex_pairs
    (fun _ => Err "none") true sample_digest (sample_https_desk true)) as [res d'] eqn:Hr. subst out. cbn [snd] in Hrun |- *.
  destruct (https_restore_fails_closed sample_https_platform "/home/u" eq_refl sample_secret_fault sample_random_key sample_key_text
    parse_hex_pairs (fun _ => Err "none") true sample_digest (sample_https_desk true) res d' Hr ltac:(discriminate) ltac:(discriminate))
    as (_ & Hd & _ & [[_ Hs]|(l & s & paths & o & d1 & d2 & Hl & _ & Hnow & _ & Hls & _)]).
  - rewrite Hs in Hrun. discriminate.
  - split; [exact Hd|]. exists l. split; [exact Hl|]. rewrite Hls. vm_compute in Hnow. by injection Hnow as <-.
Defined.

Lemma https_stop_spec_witness :
  let d := set_supervisor (new_mutex true) (sample_https_desk true) in
  let out := https_stop_requested sample_https_platform d in
  out.1 = Some (Ok tt) /\ lock (supervisor out.2) <> Some true
  /\ restart_allowed "/home/u" HttpsMcp (files (desk_world out.2)) = Some (Ok false).
Proof.
  intros d out. assert (out.1 = Some (Ok tt)) as Hres by (vm_compute; reflexivity). split; [exact Hres|].
  destruct (https_stop_requested sample_https_platform d) as [res d'] eqn:Hs. subst out. cbn [fst snd] in Hres |- *.
  destruct (https_stop_spec sample_https_platform "/home/u" eq_refl d res d' Hs sample_json_agrees ltac:(discriminate))
    as (_ & _ & _ & _ & Hend & Hok). split; [apply Hend; [rewrite Hres; by eexists|discriminate]|exact (proj1 (Hok Hres))].
Defined.

Lemma administer_spec_witness :
  let out := administer sample_https_platform sample_admin "revoke-all" None (sample_https_desk true) in
  out.1 = Some (Ok (Object [("revokedAll", Bool true)]))
  /\ admin_confirms "revoke-all" None (Object [("revokedAll", Bool true)]) = true.
Proof.
  intros out. assert (out.1 = Some (Ok (Object [("revokedAll", Bool true)]))) as Hres by (vm_compute; reflexivity).
  split; [exact Hres|]. destruct out as [res d'] eqn:Ho. cbn in Hres.
  destruct (administer_spec sample_https_platform "/home/u" eq_refl sample_admin "revoke-all" None (sample_https_desk true) res d' Ho)
    as (_ & Hok & _). exact (proj1 (Hok _ Hres)).
Defined.

(** The password changes while HTTPS runs, and the worker runs again with it. *)
Lemma password_rotation_witness :
  let d := set_supervisor (new_mutex true) (sample_https_desk true) in
  let out := rotate_https_mcp_login_password sample_https_platform sample_secret_fault sample_random_key sample_key_text
               parse_hex_pairs (fun _ => Err "none") true sample_digest sample_admin d in
  let p := derive_secret sample_digest (repeat x07 32) "login" in
  out.1 = Some (Ok p) /\ lock (supervisor out.2) = Some true
  /\ exists key, stored_key parse_hex_pairs https_oauth_item key out.2 /\ p = derive_secret sample_digest key "login".
Proof.
  intros d out p. assert (out.1 = Some (Ok p)) as Hres by (vm_compute; reflexivity). split; [exact Hres|].
  destruct out as [res d'] eqn:Ho. cbn [fst snd] in Hres |- *. subst res.
  destruct (password_rotation sample_https_platform "/home/u" eq_refl sample_secret_fault sample_random_key sample_key_text
    parse_hex_pairs (fun _ => Err "none") true sample_digest sample_admin sample_keys_agree ltac:(intros d0 key [= <-]; reflexivity)
    d _ d' Ho) as [(_ & _ & Hno)|(script & d1 & v & _ & _ & _ & Hok)]; [exfalso; exact (Hno p eq_refl)|].
  destruct (Hok p eq_refl) as [Hkey Hrun]. split; [|exact Hkey].
  apply (Hrun ltac:(intros op; reflexivity) (enable_https true (with_https sample_https settings_default))).
  - vm_compute. reflexivity.
  - reflexivity.
  - vm_compute. reflexivity.
Defined.

Lemma https_workers_sound_witness :
  let d := (run_https sample_https_platform sample_secret_fault sample_random_key sample_key_text parse_hex_pairs
              (fun _ => Err "none") true sample_digest sample_admin (fun _ => None) (CmdStart sample_https) (sample_https_desk false)).2 in
  length (launched d) = 1%nat /\ Forall (sound_launch "/home/u" sample_digest) (launched d).
Proof.
  intros d. split; [vm_compute; reflexivity|].
  refine (proj1 (https_workers_sound sample_https_platform "/home/u" eq_refl sample_secret_fault sample_random_key sample_key_text
    parse_hex_pairs (fun _ => Err "none") true sample_digest sample_admin sample_keys_agree
    ltac:(intros d0 key [= <-]; reflexivity) (fun _ => None) d _)).
  eapply history_command; [apply (history_start _ _ _ _ _ _ _ _ _ _ (sample_https_desk false)); [reflexivity|discriminate]|].
  apply surjective_pairing.
Defined.
