(* ===== verification/Processes.v ===== *)
(** * Processes ([src-tauri/src/process_utils.rs], [windows_process_job.rs], [https_mcp.rs])

    Running a command to its end within a time, with its output captured in two files; on
    Windows, starting a process that cannot outlive the application; and the commands of the
    bridge and of the SSH forward. *)

From S2P Require Export State HttpsMcp.
From stdpp Require Import pretty.
Local Open Scope string_scope.

(** ** Running a command within a time ([process_utils.rs]) *)

(** What is done with the child. *)
Inductive ChildStep := ChildSpawned | ChildSlept | ChildKilled | ChildWaited.

Record Capture := { cap_world : World; cap_steps : list ChildStep }.

Section Capture.
(** The directory and name of the capture files; what starting the command gives; what each
    look at the child and at the clock (in milliseconds since the start) gives; and what the
    child has written by its end. *)
Context (temp_dir capture_base : string) (spawn_child : Result unit string) (try_wait : nat -> Result (option bool) string)
        (elapsed : nat -> N) (printed : string * string) (timeout : N) (label : string).

Definition stdout_path : Path := {| parent := Some temp_dir; file_name := capture_base ++ ".stdout" |}.
Definition stderr_path : Path := {| parent := Some temp_dir; file_name := capture_base ++ ".stderr" |}.

Abbreviation Run := (St Capture).

Definition on_capture {A} (m : Fs A) : Run A := fun c =>
  let '(r, w) := m (cap_world c) in (r, {| cap_world := w; cap_steps := cap_steps c |}).
Definition child (step : ChildStep) : Run unit :=
  st_modify (fun c => {| cap_world := cap_world c; cap_steps := (cap_steps c ++ [step])%list |}).

(** The files the child was given hold what it printed, unless they are gone. *)
Definition child_output : Run unit := st_modify (fun c =>
  {| cap_world := set_files (alter (fun _ => printed.2) stderr_path (alter (fun _ => printed.1) stdout_path (files (cap_world c))))
                    (cap_world c);
     cap_steps := cap_steps c |}).

Definition read_or_empty (p : Path) : Run string :=
  content <-st on_capture (read_to_string p) ;; st_ret (match content with Ok text => text | Err _ => "" end).

Definition drop_captures : Run unit :=
  _ <-st on_capture (remove_file stdout_path) ;; _ <-st on_capture (remove_file stderr_path) ;; st_ret tt.

Definition end_child : Run unit := _ <-st child ChildKilled ;; child ChildWaited.

(** The child has ended by itself. *)
Definition collect_output (status : bool) : Run (Result Output string) :=
  _ <-st child_output ;;
  out <-st read_or_empty stdout_path ;;
  err <-st read_or_empty stderr_path ;;
  _ <-st drop_captures ;;
  st_ret (Ok {| success := status; stdout := out; stderr := err |}).

Fixpoint wait_loop (fuel i : nat) : Run (Result Output string) :=
  match fuel with
  | O => st_or_die None
  | S fuel =>
      match try_wait i with
      | Ok (Some status) => collect_output status
      | Ok None =>
          if (elapsed i <? timeout)%N then _ <-st child ChildSlept ;; wait_loop fuel (S i)
          else
            _ <-st end_child ;; _ <-st drop_captures ;;
            st_ret (Err (label ++ " 超时（" ++ pretty (timeout / 1000)%N ++ " 秒），已终止该命令。"))
      | Err error =>
          _ <-st end_child ;; _ <-st drop_captures ;; st_ret (Err ("等待 " ++ label ++ " 失败：" ++ error))
      end
  end.

Definition command_output_with_timeout (fuel : nat) : Run (Result Output string) :=
  _ <-st? on_capture (fs_map_err (fun e => "创建 " ++ label ++ " stdout 捕获文件失败：" ++ io_display e) (open_truncate stdout_path)) ;;
  stderr_file <-st on_capture (open_truncate stderr_path) ;;
  match stderr_file with
  | Err e => _ <-st on_capture (remove_file stdout_path) ;; st_ret (Err ("创建 " ++ label ++ " stderr 捕获文件失败：" ++ io_display e))
  | Ok _ =>
      match spawn_child with
      | Err e => _ <-st drop_captures ;; st_ret (Err ("启动 " ++ label ++ " 失败：" ++ e))
      | Ok _ => _ <-st child ChildSpawned ;; wait_loop fuel 0
      end
  end.
End Capture.

(** ** A process that cannot outlive the application ([windows_process_job.rs]) *)

(** The calls made to Windows, with their answers. *)
Inductive Call :=
| CreateJobObject (job : option N)
| SetKillOnClose (job : N) (done : bool)
| CloseHandle (handle : N)
| SpawnSuspended (process : option N)
| AssignProcess (job process : N) (done : bool)
| ThreadSnapshot (handle : option N)
| OpenThread (thread : N) (handle : option N)
| ResumeThread (handle : N) (previous : N)
| KillProcess (process : N)
| WaitProcess (process : N).

(** What Windows answers after the calls made so far.  [threads_of] lists owner and
    identifier of every thread in a snapshot. *)
Record Windows := {
  create_job_object : list Call -> option N;
  set_information : list Call -> bool;
  spawn_suspended : list Call -> Result N string;
  assign_process : list Call -> bool;
  create_snapshot : list Call -> option N;
  threads_of : list Call -> list (N * N);
  open_thread : list Call -> option N;
  resume_thread : list Call -> N;
  last_os_error : list Call -> string }.

Section Job.
Context (W : Windows).

Abbreviation Win := (St (list Call)).

Definition call {A} (answer : list Call -> A) (event : A -> Call) : Win A := fun t =>
  let a := answer t in (Some a, (t ++ [event a])%list).
Definition fail_with_os {A} : Win (Result A string) := st_get (fun t => Err (last_os_error W t)).
Definition close_handle (h : N) : Win unit := call (fun _ => tt) (fun _ => CloseHandle h).

(** [KillOnCloseJob::new] *)
Definition new_job : Win (Result N string) :=
  handle <-st call (create_job_object W) CreateJobObject ;;
  match handle with
  | None => fail_with_os
  | Some handle =>
      result <-st call (set_information W) (SetKillOnClose handle) ;;
      if result : bool then st_ret (Ok handle)
      else error <-st fail_with_os ;; _ <-st close_handle handle ;; st_ret error
  end.

Definition assign (job process : N) : Win (Result unit string) :=
  result <-st call (assign_process W) (AssignProcess job process) ;;
  if result : bool then st_ret (Ok tt) else fail_with_os.

Definition primary_thread (process : N) (threads : list (N * N)) : option N :=
  snd <$> List.find (fun entry => (entry.1 =? process)%N) threads.

Definition resume_primary_thread (process : N) : Win (Result unit string) :=
  snapshot <-st call (create_snapshot W) ThreadSnapshot ;;
  match snapshot with
  | None => fail_with_os
  | Some snapshot =>
      found <-st st_get (fun t => primary_thread process (threads_of W t)) ;;
      _ <-st close_handle snapshot ;;
      match found with
      | None => st_ret (Err "Cannot find suspended process thread")
      | Some thread_id =>
          thread <-st call (open_thread W) (OpenThread thread_id) ;;
          match thread with
          | None => fail_with_os
          | Some thread =>
              previous_count <-st call (resume_thread W) (ResumeThread thread) ;;
              _ <-st close_handle thread ;;
              st_ret (if (previous_count =? 1)%N then Ok tt
                      else Err ("Unexpected suspended process thread count: " ++ pretty previous_count))
          end
      end
  end.

(** [KillOnCloseJob::spawn].  The job is dropped, which closes its handle, when it is not
    answered. *)
Definition spawn_in_job : Win (Result (N * N) string) :=
  job <-st? new_job ;;
  started <-st call (spawn_suspended W) (fun r => SpawnSuspended (match r with Ok p => Some p | Err _ => None end)) ;;
  match started with
  | Err e => _ <-st close_handle job ;; st_ret (Err e)
  | Ok process =>
      owned <-st (_ <-st? assign job process ;; resume_primary_thread process) ;;
      match owned with
      | Err error =>
          _ <-st call (fun _ => tt) (fun _ => KillProcess process) ;;
          _ <-st call (fun _ => tt) (fun _ => WaitProcess process) ;;
          _ <-st close_handle job ;;
          st_ret (Err error)
      | Ok _ => st_ret (Ok (process, job))
      end
  end.

(** [managed_spawn] of [https_mcp.rs], on Windows and elsewhere. *)
Definition managed_spawn (windows : bool) (plain : Result N string) (name : string) : Win (Result (N * option N) string) :=
  if windows
  then
    started <-st spawn_in_job ;;
    st_ret (match started with
            | Ok (process, job) => Ok (process, Some job)
            | Err e => Err ("启动 " ++ name ++ " 并加入 Windows 进程组失败：" ++ e)
            end)
  else st_ret (match plain with Ok process => Ok (process, None) | Err e => Err ("启动 " ++ name ++ " 失败：" ++ e) end).
End Job.

(** ** The commands of the HTTPS transport ([https_mcp.rs]) *)

Record ProcessCommand := { program : string; args : list string; command_env : Env }.

Section Commands.
(** Whether this is macOS, the identifier of this process, the version, and the environment
    inherited. *)
Context (macos : bool) (process_id app_version : string) (account_home : Result string string) (inherited : Env).

Definition in_runtime (l : HttpsLaunch) (name : string) : Path := {| parent := Some (root (launch_paths l)); file_name := name |}.

Definition redirect_log (dir name : string) : Fs (Result unit string) :=
  fs_map_err io_display (open_append {| parent := Some dir; file_name := name |}).

(** On macOS a script that watches this process runs the command. *)
Definition watched (l : HttpsLaunch) (missing : string) (command : list string) : Fs (Result (string * list string) string) :=
  let wrapper := in_runtime l "https-mcp-parent-watch.mjs" in
  found <-fs path_exists wrapper ;;
  fs_ret (if found : bool
          then Ok (path_display (node (launch_paths l)), path_display wrapper :: process_id :: command)
          else Err missing).

Definition start_bridge (l : HttpsLaunch) (instance_nonce : string) : Fs (Result ProcessCommand string) :=
  let script := in_runtime l "https-mcp-bridge.mjs" in
  found <-fs path_exists script ;;
  if negb found then fs_ret (Err "缺少 https-mcp-bridge.mjs；请重新运行 desktop:prepare 或更新 ChatX 安装包")
  else
    command <-fs? (if macos
                   then watched l "缺少 macOS HTTPS MCP 子进程监护脚本" [path_display (node (launch_paths l)); path_display script]
                   else fs_ret (Ok (path_display (node (launch_paths l)), [path_display script]))) ;;
    _ <-fs? redirect_log (launch_log_dir l) "https-mcp-bridge.log" ;;
    fs_ret (Ok {| program := command.1; args := command.2; command_env := bridge_env app_version l instance_nonce inherited |}).

Definition start_forward (l : HttpsLaunch) : Fs (Result ProcessCommand string) :=
  command <-fs? (if macos then watched l "缺少 macOS SSH 子进程监护脚本" ["ssh"] else fs_ret (Ok ("ssh", []))) ;;
  let args := (command.2 ++ forward_args (launch_settings l))%list in
  home <-fs? (if macos then fs_ret account_home else fs_ret (Ok "")) ;;
  let env := if macos then <["HOME" := home]> inherited else inherited in
  _ <-fs? redirect_log (launch_log_dir l) "https-mcp-ssh.log" ;;
  fs_ret (Ok {| program := command.1; args := args; command_env := env |}).
End Commands.

(** ** The wait ends, and leaves nothing behind *)

Section CaptureProps.
Context (temp_dir capture_base : string) (spawn_child : Result unit string) (try_wait : nat -> Result (option bool) string)
        (elapsed : nat -> N) (printed : string * string) (timeout : N) (label : string).
Local Abbreviation out := (stdout_path temp_dir capture_base).
Local Abbreviation err := (stderr_path temp_dir capture_base).
Local Abbreviation loop := (wait_loop temp_dir capture_base try_wait elapsed printed timeout label).
Local Abbreviation run := (command_output_with_timeout temp_dir capture_base spawn_child try_wait elapsed printed timeout label).

Lemma capture_paths_ne : out <> err.
Proof using Type.
  unfold stdout_path, stderr_path. intros [= H]. induction capture_base as [|a s IH]; [done|]. by injection H.
Qed.

(** The process lives on, and no file operation fails. *)
Definition fine (w : World) : Prop := ops_left w = None /\ forall op, io_fault w op = None.

Lemma fs_op_healthy {A} op spoil (m : _ -> Result A IoError * _) w : fine w ->
  fs_op op spoil m w = (Some (m (files w)).1, set_files (m (files w)).2 (spend_op w)).
Proof using Type. intros [Ho Hf]. unfold fs_op. rewrite Ho, Hf. by destruct (m (files w)). Qed.

Lemma fine_after fs w : fine w -> fine (set_files fs (spend_op w)).
Proof using Type. intros [Ho Hf]. split; [|done]. cbn. by rewrite Ho. Qed.

Lemma fs_op_alive {A} op spoil (m : _ -> Result A IoError * _) w : ops_left w = None ->
  exists r w', fs_op op spoil m w = (Some r, w') /\ ops_left w' = None.
Proof using Type.
  intros Ho. unfold fs_op. rewrite Ho. destruct (io_fault w op); [|destruct (m (files w))];
    eexists _, _; (split; [reflexivity|]); cbn; by rewrite Ho.
Qed.

(** The two files are dealt with, and nothing else is touched. *)
Definition cleaned (c c' : Capture) : Prop :=
  cap_steps c' = cap_steps c /\ ops_left (cap_world c') = None
  /\ (forall q, q <> out -> q <> err -> files (cap_world c') !! q = files (cap_world c) !! q)
  /\ (fine (cap_world c) -> files (cap_world c') = delete err (delete out (files (cap_world c)))).

Lemma drop_captures_cleans c : ops_left (cap_world c) = None ->
  exists c', drop_captures temp_dir capture_base c = (Some tt, c') /\ cleaned c c'.
Proof using Type.
  intros Ho. pose proof capture_paths_ne as Hne. unfold drop_captures, st_bind, on_capture.
  destruct (fs_op_alive (RemoveFile out) files (fun fs => match fs !! out with Some _ => (Ok tt, delete out fs) | None => (Err NotFound, fs) end)
    (cap_world c) Ho) as (r1 & w1 & H1 & Ho1). fold (remove_file out) in H1. rewrite H1. cbn [cap_world cap_steps].
  destruct (fs_op_alive (RemoveFile err) files (fun fs => match fs !! err with Some _ => (Ok tt, delete err fs) | None => (Err NotFound, fs) end)
    w1 Ho1) as (r2 & w2 & H2 & Ho2). fold (remove_file err) in H2. rewrite H2.
  eexists. split; [reflexivity|]. split; [done|]. split; [done|]. cbn. split.
  - intros q Hq1 Hq2. apply remove_file_only in H1 as (_ & _ & F1), H2 as (_ & _ & F2). by rewrite F2, F1.
  - intros Hf. unfold remove_file in H1, H2. rewrite fs_op_healthy in H1 by done. injection H1 as _ <-.
    rewrite fs_op_healthy in H2 by by apply fine_after. injection H2 as _ <-. cbn.
    destruct (files (cap_world c) !! out) eqn:Ho'; cbn.
    + destruct (delete out (files (cap_world c)) !! err) eqn:He; cbn; [done|]. by rewrite (delete_id _ err).
    + rewrite (delete_id (files (cap_world c)) out) by done.
      destruct (files (cap_world c) !! err) eqn:He; cbn; [done|]. by rewrite delete_id.
Qed.

Lemma read_or_empty_alive p c : ops_left (cap_world c) = None ->
  exists text w, read_or_empty p c = (Some text, {| cap_world := w; cap_steps := cap_steps c |}) /\ ops_left w = None
  /\ files w = files (cap_world c) /\ io_fault w = io_fault (cap_world c)
  /\ (fine (cap_world c) -> text = default "" (files (cap_world c) !! p)).
Proof using Type.
  intros Ho. unfold read_or_empty, st_bind, on_capture.
  destruct (fs_op_alive (ReadFile p) files (fun fs => (match fs !! p with Some t => Ok t | None => Err NotFound end, fs))
    (cap_world c) Ho) as (r & w & H & Ho1). fold (read_to_string p) in H. rewrite H.
  pose proof H as (Hf & Hi & _)%read_to_string_inv. eexists _, w. split_and!; [reflexivity|done..|].
  intros [_ Hio]. apply read_to_string_exact in H; [|done]. subst r. by destruct (files (cap_world c) !! p).
Qed.

(** The child has ended: its output is what it wrote. *)
Lemma collect_cleans status c : ops_left (cap_world c) = None ->
  exists o c', collect_output temp_dir capture_base printed status c = (Some (Ok o), c') /\ cleaned c c' /\ success o = status
  /\ (fine (cap_world c) -> is_Some (files (cap_world c) !! out) -> is_Some (files (cap_world c) !! err) ->
        o = {| success := status; stdout := printed.1; stderr := printed.2 |}).
Proof using Type.
  intros Ho. pose proof capture_paths_ne as Hne. unfold collect_output, child_output, st_modify. unfold st_bind at 1.
  match goal with |- context [st_bind _ _ ?x] => set (c0 := x) end.
  assert (forall q, q <> out -> q <> err -> files (cap_world c0) !! q = files (cap_world c) !! q) as Hq
    by (intros q H1 H2; cbn; by rewrite !lookup_alter_ne by done).
  destruct (read_or_empty_alive out c0 Ho) as (text & w1 & H1 & Ho1 & F1 & I1 & E1).
  destruct (read_or_empty_alive err {| cap_world := w1; cap_steps := cap_steps c0 |} Ho1) as (text' & w2 & H2 & Ho2 & F2 & I2 & E2).
  destruct (drop_captures_cleans {| cap_world := w2; cap_steps := cap_steps c0 |} Ho2) as (c' & H3 & Hs & Ho3 & O3 & F3).
  cbn [cap_world cap_steps] in *.
  assert (fine (cap_world c) -> fine w1 /\ fine w2) as Hfine by (intros [_ Hio]; split; split; rewrite ?I2, ?I1; done).
  exists {| success := status; stdout := text; stderr := text' |}, c'.
  unfold st_bind. rewrite H1, H2, H3. split_and!; [done| |done|].
  - split_and!; [done|done| |].
    + intros q Hq1 Hq2. by rewrite O3, F2, F1, Hq.
    + intros Hf. rewrite F3 by by apply Hfine. rewrite F2, F1. apply map_eq. intros q. cbn.
      destruct (decide (q = err)) as [->|]; [by rewrite !lookup_delete_eq|]. rewrite !(lookup_delete_ne _ err) by done.
      destruct (decide (q = out)) as [->|]; [by rewrite !lookup_delete_eq|]. rewrite !(lookup_delete_ne _ out) by done. by apply Hq.
  - intros Hf [t Ht] [t' Ht']. rewrite E1, E2 by (apply Hfine || done; done). rewrite F1. cbn.
    rewrite lookup_alter_ne, !lookup_alter_eq, lookup_alter_ne, Ht, Ht' by done. done.
Qed.

(** How a wait that began at the [i]-th look ended after [n] sleeps. *)
Definition waited (i n : nat) (r : Result Output string) : Prop :=
  (forall j, (j < n)%nat -> try_wait (i + j) = Ok None /\ (elapsed (i + j) < timeout)%N)
  /\ match r with
     | Ok o => try_wait (i + n) = Ok (Some (success o))
     | Err _ => (try_wait (i + n) = Ok None /\ (timeout <= elapsed (i + n))%N) \/ exists e, try_wait (i + n) = Err e
     end.
Definition final_steps (r : Result Output string) : list ChildStep :=
  match r with Ok _ => [] | Err _ => [ChildKilled; ChildWaited] end.

(** Everything but the child's own steps. *)
Definition tidied (c c' : Capture) : Prop :=
  (forall q, q <> out -> q <> err -> files (cap_world c') !! q = files (cap_world c) !! q)
  /\ (fine (cap_world c) -> files (cap_world c') = delete err (delete out (files (cap_world c)))).

Lemma waited_step i n r : try_wait i = Ok None -> (elapsed i < timeout)%N -> waited (S i) n r -> waited i (S n) r.
Proof using Type.
  intros Ht He [Hj Hr]. split; [|by rewrite <- Nat.add_succ_comm].
  intros [|j] Hjn; [by rewrite Nat.add_0_r|]. rewrite <- Nat.add_succ_comm. apply Hj. lia.
Qed.

Lemma wait_ends fuel i c : ops_left (cap_world c) = None -> (forall j, (100 * N.of_nat j <= elapsed j)%N) ->
  (timeout + 100 <= 100 * N.of_nat (fuel + i))%N -> (0 < fuel)%nat ->
  exists r c' n, loop fuel i c = (Some r, c') /\ waited i n r /\ tidied c c'
    /\ cap_steps c' = (cap_steps c ++ repeat ChildSlept n ++ final_steps r)%list
    /\ (fine (cap_world c) -> is_Some (files (cap_world c) !! out) -> is_Some (files (cap_world c) !! err) ->
          forall o, r = Ok o -> stdout o = printed.1 /\ stderr o = printed.2).
Proof using Type.
  intros Ho Hclock. revert i c Ho. induction fuel as [|fuel IH]; intros i c Ho Hfuel Hpos; [lia|]. cbn [wait_loop].
  assert (forall e, (exists (Hw : waited i 0 (Err e)), True) -> exists r c' n,
    (_ <-st end_child ;; _ <-st drop_captures temp_dir capture_base ;; st_ret (Err (A := Output) e)) c = (Some r, c')
    /\ waited i n r /\ tidied c c' /\ cap_steps c' = (cap_steps c ++ repeat ChildSlept n ++ final_steps r)%list
    /\ (fine (cap_world c) -> is_Some (files (cap_world c) !! out) -> is_Some (files (cap_world c) !! err) ->
          forall o, r = Ok o -> stdout o = printed.1 /\ stderr o = printed.2)) as Hend.
  { intros e [Hw _]. unfold end_child, child, st_modify, st_ret. unfold st_bind at 1 2. cbn [cap_world cap_steps].
    match goal with |- context [st_bind _ _ ?x] => destruct (drop_captures_cleans x Ho) as (c' & H & Hs & _ & O & F) end.
    unfold st_bind. rewrite H. exists (Err e), c', 0%nat. split_and!; [done|done|by split| |done].
    rewrite Hs. cbn. by rewrite <- app_assoc. }
  destruct (try_wait i) as [[status|]|e] eqn:Ht.
  - destruct (collect_cleans status c Ho) as (o & c' & H & (Hs & _ & O & F) & Hok & Hout). exists (Ok o), c', 0%nat.
    split_and!; [done|split; [lia|by rewrite Nat.add_0_r, Hok]|done|by rewrite Hs, !app_nil_r|].
    intros Hf H1 H2 o' [= <-]. by rewrite (Hout Hf H1 H2).
  - destruct (elapsed i <? timeout)%N eqn:He.
    + apply N.ltb_lt in He. unfold st_bind at 1, child, st_modify.
      match goal with |- context [wait_loop _ _ _ _ _ _ _ _ _ ?x] => destruct (IH (S i) x Ho) as (r & c' & n & H & Hw & Hc & Hs & Hout) end;
        [rewrite Nat.add_succ_r; done|specialize (Hclock i); lia|].
      exists r, c', (S n). split_and!; [done|by apply waited_step|done| |done].
      rewrite Hs. cbn. by rewrite <- app_assoc.
    + apply N.ltb_ge in He. apply Hend. unshelve eexists; [|done]. split; [lia|]. left. by rewrite Nat.add_0_r.
  - apply Hend. unshelve eexists; [|done]. split; [lia|]. right. exists e. by rewrite Nat.add_0_r.
Qed.

Lemma open_alive p w : ops_left w = None ->
  exists r w', open_truncate p w = (Some r, w') /\ ops_left w' = None /\ (forall q, q <> p -> files w' !! q = files w !! q)
  /\ (fine w -> r = Ok tt /\ files w' = <[p := ""]> (files w) /\ fine w').
Proof using Type.
  intros Ho. destruct (fs_op_alive (OpenTruncate p) files (fun fs => (Ok tt, <[p := ""]> fs)) w Ho) as (r & w' & H & Ho').
  fold (open_truncate p) in H. exists r, w'. pose proof H as ((_ & _ & O) & _ & _)%open_truncate_inv. split_and!; [done..|].
  intros Hf. unfold open_truncate in H. rewrite fs_op_healthy in H by done. injection H as <- <-.
  split_and!; [done..|by apply fine_after].
Qed.

(** C28. A command run with a time limit always returns (under a clock that runs, with a look at
    the child for every tenth of a second), and leaves no child behind: either it was not
    started, or it ended by itself, which is when its output is answered, or it was killed
    and waited for, because its time was up or it could not be watched.  No file but the two
    of the capture is touched; when files can be worked with those are gone afterwards, and
    the output answered is exactly what the child wrote. *)
Theorem command_returns fuel w : ops_left w = None -> (forall j, (100 * N.of_nat j <= elapsed j)%N) ->
  (timeout + 100 <= 100 * N.of_nat fuel)%N ->
  exists r c', run fuel {| cap_world := w; cap_steps := [] |} = (Some r, c')
    /\ (forall q, q <> out -> q <> err -> files (cap_world c') !! q = files w !! q)
    /\ (match cap_steps c' with
        | [] => exists e, r = Err e
        | steps => spawn_child = Ok tt
            /\ exists n, steps = (ChildSpawned :: repeat ChildSlept n ++ final_steps r)%list /\ waited 0 n r
        end)
    /\ (fine w -> files (cap_world c') = delete err (delete out (files w))
          /\ forall o, r = Ok o -> stdout o = printed.1 /\ stderr o = printed.2).
Proof using Type.
  intros Ho Hclock Hfuel. pose proof capture_paths_ne as Hne.
  unfold command_output_with_timeout, on_capture, st_try at 1, st_bind at 1.
  destruct (open_alive out w Ho) as (r1 & w1 & H1 & Ho1 & O1 & F1).
  unfold fs_map_err at 1, fs_bind at 1. cbn [cap_world cap_steps]. rewrite H1. cbn [fs_ret]. destruct r1 as [[]|e1]; cbn [map_err].
  2:{ eexists _, _. split; [reflexivity|]. cbn. split_and!; [intros; by apply O1|by eexists|by intros (? & _)%F1]. }
  unfold st_bind at 1. destruct (open_alive err w1 Ho1) as (r2 & w2 & H2 & Ho2 & O2 & F2).
  cbn [cap_world cap_steps]. rewrite H2.
  assert (forall q, q <> out -> q <> err -> files w2 !! q = files w !! q) as O by (intros; by rewrite O2, O1).
  assert (fine w -> r2 = Ok tt /\ fine w2 /\ files w2 = <[err := ""]> (<[out := ""]> (files w))) as F.
  { intros (_ & E1 & G1)%F1. apply F2 in G1 as (? & E2 & ?). split_and!; [done..|by rewrite E2, E1]. }
  assert (delete err (delete out (<[err := ""]> (<[out := ""]> (files w)))) = delete err (delete out (files w))) as D.
  { apply map_eq. intros q. destruct (decide (q = err)) as [->|]; [by rewrite !lookup_delete_eq|].
    rewrite !(lookup_delete_ne _ err) by done. destruct (decide (q = out)) as [->|]; [by rewrite !lookup_delete_eq|].
    by rewrite !(lookup_delete_ne _ out), !lookup_insert_ne by done. }
  destruct r2 as [[]|e2].
  2:{ unfold st_bind at 1. destruct (remove_file out w2) as [r3 w3] eqn:H3. cbn [cap_world cap_steps]. rewrite H3.
      apply remove_file_only in H3 as Ho3. destruct Ho3 as (_ & _ & O3).
      destruct (fs_op_alive (RemoveFile out) files (fun fs => match fs !! out with Some _ => (Ok tt, delete out fs) | None => (Err NotFound, fs) end) w2 Ho2)
        as (r & w' & H & _). fold (remove_file out) in H. rewrite H3 in H. injection H as -> ->.
      eexists _, _. split; [reflexivity|]. cbn. split_and!; [intros; by rewrite O3, O|by eexists|by intros (? & _)%F]. }
  destruct spawn_child as [[]|e3].
  - unfold st_bind at 1, child, st_modify. cbn [cap_world cap_steps app].
    destruct (wait_ends fuel 0 {| cap_world := w2; cap_steps := [ChildSpawned] |} Ho2 Hclock) as (r & c' & n & H & Hw & [O3 F3] & Hs & Hout);
      [by rewrite Nat.add_0_r|destruct fuel; lia|]. cbn [cap_world cap_steps app] in *.
    exists r, c'. split_and!; [done|intros; by rewrite O3, O|rewrite Hs; split; [done|by exists n]|].
    intros (_ & G & E)%F. rewrite F3, E, D by done. split; [done|]. apply Hout; [done|rewrite E..].
    + rewrite lookup_insert_ne, lookup_insert_eq by done. done.
    + rewrite lookup_insert_eq. done.
  - unfold st_bind. destruct (drop_captures_cleans {| cap_world := w2; cap_steps := [] |} Ho2) as (c' & H & Hs & _ & O3 & F3). rewrite H.
    eexists _, c'. split; [reflexivity|]. cbn [cap_world cap_steps] in *. rewrite Hs.
    split_and!; [intros; by rewrite O3, O|by eexists|]. intros (_ & G & E)%F. by rewrite F3, E, D.
Qed.
End CaptureProps.

(** ** No process outside a job *)

(** The handles that are open after the calls, the latest first. *)
Fixpoint close_first (h : N) (open : list N) : list N :=
  match open with [] => [] | x :: open => if (x =? h)%N then open else x :: close_first h open end.
Definition handle_step (open : list N) (c : Call) : list N :=
  match c with
  | CreateJobObject (Some h) | ThreadSnapshot (Some h) | OpenThread _ (Some h) => h :: open
  | CloseHandle h => close_first h open
  | _ => open
  end.
Definition open_handles (t : list Call) : list N := foldl handle_step [] t.

(** A process whose thread is resumed has been put, still suspended, into a job that was told
    to end its processes when its handle is closed, and the job's handle is still open. *)
Definition contained (before : list Call) : Prop := exists job process,
  In (SpawnSuspended (Some process)) before /\ In (SetKillOnClose job true) before /\ In (AssignProcess job process true) before
  /\ In job (open_handles before).
Fixpoint resumes_contained (before after : list Call) : Prop :=
  match after with
  | [] => True
  | c :: after => (match c with ResumeThread _ _ => contained before | _ => True end) /\ resumes_contained (before ++ [c])%list after
  end.

Lemma open_handles_app t events : open_handles (t ++ events) = foldl handle_step (open_handles t) events.
Proof. apply foldl_app. Qed.

(** Reads off a list of calls. *)
Ltac trace_facts :=
  rewrite ?open_handles_app; cbn [app foldl handle_step close_first resumes_contained List.filter];
  repeat (rewrite ?N.eqb_refl; cbn [foldl handle_step close_first]).
Ltac in_calls := rewrite ?in_app_iff; cbn [In]; auto 20.

(** C18. Starting a process on Windows, whatever Windows answers.  On success the process was
    resumed exactly once, inside a job of which it is handed the only handle; on an error
    every handle that was opened is closed again, and a process that was started is killed
    and waited for.  At no time does a process run outside such a job. *)
Theorem spawn_contained W t res t' : spawn_in_job W t = (res, t') ->
  exists events, t' = (t ++ events)%list /\ resumes_contained t events
  /\ match res with
     | Some (Ok (process, job)) =>
         open_handles t' = job :: open_handles t
         /\ In (SpawnSuspended (Some process)) events /\ In (AssignProcess job process true) events
         /\ (exists h, List.filter (fun c => match c with ResumeThread _ _ => true | _ => false end) events = [ResumeThread h 1])
         /\ ~ In (KillProcess process) events
     | Some (Err e) =>
         open_handles t' = open_handles t
         /\ forall process, In (SpawnSuspended (Some process)) events -> In (KillProcess process) events /\ In (WaitProcess process) events
     | None => False
     end.
Proof.
  unfold spawn_in_job, new_job, assign, resume_primary_thread, close_handle, fail_with_os, call, st_try, st_bind, st_get, st_ret.
  intros H.
  repeat (case_match; cbn in H; simplify_eq); try done; rewrite <- ?app_assoc; (eexists; split; [reflexivity|]); trace_facts.
  all: split; [|split_and!]; trace_facts.
  all: first [reflexivity | by split_and! | by in_calls
    | by intros process Hp; cbn in Hp |- *; destruct_or? Hp; simplify_eq; auto 20
    | match goal with H : (resume_thread _ _ =? 1)%N = true |- _ =>
        apply N.eqb_eq in H; rewrite <- !app_assoc in H; cbn [app] in H; rewrite H; by eexists end
    | by cbn; intros Hk; destruct_or? Hk | idtac].
  all: split_and!; try done; exists a, a0; rewrite <- !app_assoc; split_and!; [in_calls..|]; trace_facts; cbn [In]; auto.
Qed.

(** ** Secrets are in the environment only *)

(** Two launches that differ in the secrets only. *)
Definition same_but_secrets (l1 l2 : HttpsLaunch) : Prop :=
  launch_settings l1 = launch_settings l2 /\ launch_paths l1 = launch_paths l2 /\ launch_home l1 = launch_home l2
  /\ launch_log_dir l1 = launch_log_dir l2.

(** C19. The bridge is started with the same program and arguments, and the same things happen to
    the files, whatever the password, the signing key and the nonce are: they are passed in
    the environment, in three variables, and the tunnel's key is not passed at all.  So no
    other user can read them off the list of processes, and none is in a log. *)
Theorem secrets_in_environment_only macos process_id version inherited l1 l2 n1 n2 w r1 w1 r2 w2 :
  start_bridge macos process_id version inherited l1 n1 w = (r1, w1) ->
  start_bridge macos process_id version inherited l2 n2 w = (r2, w2) -> same_but_secrets l1 l2 ->
  w1 = w2 /\ match r1, r2 with
             | Some (Ok c1), Some (Ok c2) =>
                 program c1 = program c2 /\ args c1 = args c2
                 /\ command_env c1 !! "CHATX_MCP_LOGIN_PASSWORD" = Some (launch_password l1)
                 /\ command_env c1 !! "CHATX_MCP_SIGNING_KEY" = Some (launch_signing l1)
                 /\ command_env c1 !! "CHATX_MCP_INSTANCE_NONCE" = Some n1
                 /\ command_env c1 !! "CHATX_TUNNEL_RUNTIME_KEY" = None
                 /\ forall name, name <> "CHATX_MCP_LOGIN_PASSWORD" -> name <> "CHATX_MCP_SIGNING_KEY" ->
                      name <> "CHATX_MCP_INSTANCE_NONCE" -> command_env c1 !! name = command_env c2 !! name
             | Some (Ok _), _ | _, Some (Ok _) => False
             | _, _ => r1 = r2
             end.
Proof.
  intros H1 H2 (Hs & Hp & Hh & Hl). unfold start_bridge, in_runtime, watched in *.
  unfold in_runtime in *. rewrite Hp, Hl in H1. unfold fs_bind at 1 in H1. unfold fs_bind at 1 in H2.
  destruct (path_exists _ w) as [[found|] w0]; [|injection H1 as <- <-; by injection H2 as <- <-].
  destruct (negb found); [injection H1 as <- <-; by injection H2 as <- <-|].
  unfold fs_try at 1, fs_bind at 1 in H1. unfold fs_try at 1, fs_bind at 1 in H2.
  match type of H1 with context [match ?m w0 with _ => _ end] => destruct (m w0) as [[[command|e]|] w3] end;
    [|injection H1 as <- <-; by injection H2 as <- <-..].
  unfold fs_try, fs_bind in H1, H2. destruct (redirect_log _ _ w3) as [[[u|e]|] w4]; 
    [|injection H1 as <- <-; by injection H2 as <- <-..].
  injection H1 as <- <-. injection H2 as <- <-. split; [done|]. cbn.
  unfold bridge_env. rewrite Hs, Hp, Hh, Hl.
  split_and!; try done; try (rewrite lookup_delete_ne by done; rewrite !lookup_insert; by repeat (case_decide; try done)).
  - by rewrite lookup_delete_eq.
  - intros name N1 N2 N3. destruct (decide (name = "CHATX_TUNNEL_RUNTIME_KEY")) as [->|N4]; [by rewrite !lookup_delete_eq|].
    rewrite !lookup_delete_ne by done.
    rewrite !lookup_insert. by repeat (case_decide; subst; try done).
Qed.

(** ** Witnesses *)

(** A child that is still running at the first two looks and then ends well. *)
Definition sample_try_wait (i : nat) : Result (option bool) string := Ok (if (i <? 2)%nat then None else Some true).
Definition sample_elapsed (i : nat) : N := (100 * N.of_nat i)%N.

Lemma command_returns_witness :
  exists c, command_output_with_timeout "/tmp" "chatx-command-1-2" (Ok tt) sample_try_wait sample_elapsed ("ready", "") 500 "status" 6
        {| cap_world := healthy ∅; cap_steps := [] |}
      = (Some (Ok {| success := true; stdout := "ready"; stderr := "" |}), c)
    /\ files (cap_world c) = ∅ /\ cap_steps c = [ChildSpawned; ChildSlept; ChildSlept].
Proof.
  destruct (command_returns "/tmp" "chatx-command-1-2" (Ok tt) sample_try_wait sample_elapsed ("ready", "") 500 "status" 6 (healthy ∅)
    eq_refl ltac:(intros j; unfold sample_elapsed; lia) ltac:(lia)) as (r & c & H & _ & Hs & Hf).
  exists c. destruct Hf as [Hf Hout]; [split; [reflexivity|intros op; reflexivity]|]. assert (files (cap_world c) = ∅) as Hempty by (rewrite Hf; vm_compute; reflexivity).
  assert (r = Ok {| success := true; stdout := "ready"; stderr := "" |}) as -> by (vm_compute in H; by injection H as <- _).
  split; [exact H|]. split; [exact Hempty|]. vm_compute in H. by injection H as <-.
Defined.

(** Windows answers everything; threads of another process are in the snapshot too. *)
Definition sample_windows : Windows :=
  {| create_job_object := fun _ => Some 16%N; set_information := fun _ => true; spawn_suspended := fun _ => Ok 4242%N;
     assign_process := fun _ => true; create_snapshot := fun _ => Some 20%N; threads_of := fun _ => [(4, 8); (4242, 77)]%N;
     open_thread := fun _ => Some 24%N; resume_thread := fun _ => 1%N; last_os_error := fun _ => "" |}.

Lemma spawn_contained_witness :
  exists t, spawn_in_job sample_windows [] = (Some (Ok (4242, 16)%N), t) /\ open_handles t = [16%N] /\ In (OpenThread 77 (Some 24%N)) t.
Proof.
  destruct (spawn_in_job sample_windows []) as [res t] eqn:H. pose proof H as H0. vm_compute in H. injection H as <- Ht.
  destruct (spawn_contained sample_windows [] _ t H0) as (events & _ & _ & Hopen & _).
  exists t. split; [reflexivity|]. split; [exact Hopen|]. subst t. cbn. auto 10.
Defined.

Definition sample_bridge_launch (password : string) : HttpsLaunch :=
  {| launch_settings := sample_https; launch_paths := sample_paths; launch_home := "/home/u/dc"; launch_log_dir := "/home/u/state";
     launch_password := password; launch_signing := "k"; launch_credentials := None |}.
Definition sample_bridge_files : World := healthy {[ {| parent := Some "/opt/chatx"; file_name := "https-mcp-bridge.mjs" |} := "" ]}.

Lemma secrets_in_environment_only_witness :
  let start password nonce := start_bridge false "1" "1.0.0" ∅ (sample_bridge_launch password) nonce sample_bridge_files in
  exists c1 c2, (start "secret" "n").1 = Some (Ok c1) /\ (start "other" "m").1 = Some (Ok c2)
    /\ args c1 = args c2 /\ args c1 = ["/opt/chatx/https-mcp-bridge.mjs"]
    /\ command_env c1 !! "CHATX_MCP_LOGIN_PASSWORD" = Some "secret".
Proof.
  intros start.
  assert (forall password nonce, match (start password nonce).1 with
    | Some (Ok c) => args c = ["/opt/chatx/https-mcp-bridge.mjs"] | _ => False end) as Hargs by (intros; vm_compute; reflexivity).
  pose proof (secrets_in_environment_only false "1" "1.0.0" ∅ (sample_bridge_launch "secret") (sample_bridge_launch "other")
    "n" "m" sample_bridge_files _ _ _ _ (surjective_pairing _) (surjective_pairing _) ltac:(repeat split)) as [_ H].
  fold (start "secret" "n") (start "other" "m") in H. pose proof (Hargs "secret" "n") as A1. pose proof (Hargs "other" "m") as A2.
  destruct (start "secret" "n").1 as [[c1|]|]; [|destruct A1..]. destruct (start "other" "m").1 as [[c2|]|]; [|destruct A2..].
  destruct H as (_ & Ha & Hp & _). exists c1, c2. split_and!; [reflexivity|reflexivity|exact Ha|exact A1|exact Hp].
Defined.
