(* ===== verification/Host.v ===== *)
(** * The host ([src-tauri/src/main.rs], [proxy_utils.rs], [process_utils.rs])

    What the application asks the operating system by running commands: the account's home
    directory, the name of the device, the battery, the proxy that the system is set to; and
    whether an address takes connections. *)

From S2P Require Export Connection.
Local Open Scope string_scope.

(** The target the application is built for. *)
Inductive Os := MacOs | WindowsOs | OtherOs.
#[export] Instance os_eq_dec : EqDecision Os.
Proof. solve_decision. Defined.

(** [command_output]: what running a command to its end gives. *)
Definition command_output (ran : Result Output string) : Result Output string := map_err (fun error => "启动进程失败：" ++ error) ran.

(** ** The home of the account ([macos_account_home]) *)

(** What [getpwuid_r] answers with a buffer of some length: a status, and the entry, which
    may have no directory. *)
Record PasswdAnswer := { passwd_status : N; passwd_entry : option (option string) }.

Definition ERANGE : N := 34.

Section Home.
Context (getpwuid_r : N -> PasswdAnswer) (is_dir : string -> bool) (display_status : N -> string).

Definition home_of (a : PasswdAnswer) : Result string string :=
  match (if (passwd_status a =? 0)%N then passwd_entry a else None) with
  | None => Err ("无法读取 macOS 用户主目录（错误码 " ++ display_status (passwd_status a) ++ "）。")
  | Some None => Err "macOS 用户主目录为空。"
  | Some (Some home) => if negb (starts_with "/" home) || negb (is_dir home) then Err "macOS 用户主目录无效。" else Ok home
  end.

(** The buffer is doubled as long as it is too small. *)
Fixpoint account_home_loop (fuel : nat) (len : N) : option (Result string string) :=
  match fuel with
  | O => None
  | S fuel =>
      let a := getpwuid_r len in
      if (passwd_status a =? ERANGE)%N && (len <? 1024 * 1024)%N then account_home_loop fuel (len * 2) else Some (home_of a)
  end.

Definition macos_account_home : option (Result string string) := account_home_loop 7 16384.

(** The environment the process goes on with, once it is known. *)
Definition restore_account_home (inherited : Env) : option (Result Env string) :=
  match macos_account_home with
  | None => None
  | Some (Err e) => Some (Err e)
  | Some (Ok home) => Some (Ok (<["USERPROFILE" := home]> (<["HOME" := home]> inherited)))
  end.
End Home.

(** ** The device's name *)

Section DeviceName.
Context (P : Platform) (hostname : Desk -> Result Output string).

Definition command_text (output : Result Output string) : option string :=
  match command_output output with
  | Ok output => if success output then Some (trim (from_utf8 P (stdout output))) else None
  | Err _ => None
  end.

(** [OnceLock::get_or_init] *)
Definition host_device_name : App string := fun d =>
  match device_name_cache d with
  | Some name => (Some name, d)
  | None =>
      let name := match command_text (hostname d) with
                  | Some value => if is_empty value then "Computer" else value
                  | None => "Computer"
                  end in
      (Some name, set_device_name_cache (Some name) d)
  end.
End DeviceName.

(** ** The battery ([main.rs]) *)

(** The digits right before the first percent sign. *)
Fixpoint before_percent (digits s : string) : option string :=
  match s with
  | EmptyString => None
  | String a s =>
      if Ascii.eqb a "%" then Some digits
      else before_percent (if is_ascii_digit a then digits ++ String a "" else "") s
  end.

(** [parse::<u32>] *)
Fixpoint u32_digits (acc : N) (s : string) : option N :=
  match s with
  | EmptyString => Some acc
  | String a s =>
      if is_ascii_digit a
      then let acc := (acc * 10 + (ascii_code a - 48))%N in if (4294967295 <? acc)%N then None else u32_digits acc s
      else None
  end.
Definition parse_u32 (s : string) : option N :=
  let digits := match s with String "+" rest => rest | _ => s end in
  if is_empty digits then None else u32_digits 0 digits.

Definition battery_percent (text : string) : option N :=
  match before_percent "" text with
  | None => None
  | Some digits => parse_u32 digits
  end.

Definition battery_value (text : string) : Value :=
  let percent := battery_percent text in
  Object [("present", Bool (match percent with Some _ => true | None => false end));
          ("percent", match percent with Some n => Number (Some n) | None => Null end);
          ("charging", Bool (contains "charging" (to_ascii_lowercase text)));
          ("powerSource", VString (if contains "AC Power" text then "ac" else "battery"))].

(** What the command on Windows prints is the percentage. *)
Definition windows_battery_value (text : option string) : Value :=
  let percent := match text with Some value => parse_u32 value | None => None end in
  Object [("present", Bool (match percent with Some _ => true | None => false end));
          ("percent", match percent with Some n => Number (Some n) | None => Null end);
          ("charging", Bool false); ("powerSource", Null)].

Section Battery.
(** The target; [pmset -g batt], or the question to PowerShell; and a clock of the
    application's own in milliseconds. *)
Context (P : Platform) (os : Os) (battery_command : Desk -> Result Output string) (instant : Desk -> N).

Definition battery_snapshot (d : Desk) : Value :=
  match os with
  | MacOs => match command_text P (battery_command d) with Some text => battery_value text | None => Null end
  | WindowsOs => windows_battery_value (command_text P (battery_command d))
  | OtherOs => Null
  end.

Definition BATTERY_CACHE_TTL : N := 45000.

Definition cached_battery_snapshot : App Value := fun d =>
  match lock (battery_cache d) with
  | None => (Some (battery_snapshot d), d)
  | Some cached =>
      match (match cached with
             | Some (refreshed_at, value) => if (saturating_sub (instant d) refreshed_at <? BATTERY_CACHE_TTL)%N then Some value else None
             | None => None
             end) with
      | Some value => (Some value, d)
      | None =>
          let value := battery_snapshot d in
          (Some value, set_battery_cache (set_guarded (Some (instant d, value)) (battery_cache d)) d)
      end
  end.

Definition host_snapshot (hostname : Desk -> Result Output string) (platform arch : string) : App Value :=
  device_name <-app host_device_name P hostname ;;
  battery <-app cached_battery_snapshot ;;
  app_ret (Object [("deviceName", VString device_name); ("platform", VString platform); ("arch", VString arch); ("battery", battery)]).
End Battery.

(** ** The proxy of the system ([proxy_utils.rs]) *)

(** [find_map(|line| line.strip_prefix(&prefix).map(str::trim))], filtered. *)
Fixpoint first_value (prefix : string) (lines : list string) : option string :=
  match lines with
  | [] => None
  | line :: lines => match strip_prefix prefix (trim line) with Some value => Some (trim value) | None => first_value prefix lines end
  end.
Definition proxy_value (text key : string) : option string :=
  match first_value (key ++ " : ") (str_lines text) with
  | Some value => if is_empty value then None else Some value
  | None => None
  end.

Definition proxy_flag (text key : string) : bool := bool_decide (proxy_value text key = Some "1").

Definition explicit_proxies : list (string * string * string * string) :=
  [("HTTPSEnable", "HTTPSProxy", "HTTPSPort", "http"); ("HTTPEnable", "HTTPProxy", "HTTPPort", "http");
   ("SOCKSEnable", "SOCKSProxy", "SOCKSPort", "socks5")].

(** The first proxy that is enabled with a host and a port. *)
Fixpoint explicit_proxy (text : string) (proxies : list (string * string * string * string)) : option string :=
  match proxies with
  | [] => None
  | (flag, host_key, port_key, scheme) :: proxies =>
      if negb (proxy_flag text flag) then explicit_proxy text proxies
      else match proxy_value text host_key, proxy_value text port_key with
           | Some host, Some port => Some (scheme ++ "://" ++ host ++ ":" ++ port)
           | _, _ => explicit_proxy text proxies
           end
  end.

Definition some_valid (url : string) : Result (option string) string := url <-? validate_proxy_url url ;; Ok (Some url).

Definition scutil_proxy (text : string) : Result (option string) string :=
  match explicit_proxy text explicit_proxies with
  | Some url => some_valid url
  | None =>
      if proxy_flag text "ProxyAutoConfigEnable"
      then Err "检测到 macOS PAC 自动代理；Tunnel 当前只支持明确的 HTTP/HTTPS/SOCKS 代理地址。"
      else Ok None
  end.

(** The part of Windows' list for HTTPS or HTTP, or all of it. *)
Fixpoint selected_part (parts : list string) : option string :=
  match parts with
  | [] => None
  | part :: parts =>
      match strip_prefix "https=" part with
      | Some rest => Some rest
      | None => match strip_prefix "http=" part with Some rest => Some rest | None => selected_part parts end
      end
  end.

Definition windows_proxy (raw : option string) : Result (option string) string :=
  match raw with
  | None => Ok None
  | Some raw =>
      let selected := trim (default raw (selected_part (split_on ";" raw))) in
      if is_empty selected then Ok None
      else some_valid (if contains "://" selected then selected else "http://" ++ selected)
  end.

Fixpoint environment_proxy (env : Env) (keys : list string) : Result (option string) string :=
  match keys with
  | [] => Ok None
  | key :: keys =>
      match env !! key with
      | Some value => if negb (is_empty (trim value)) then some_valid value else environment_proxy env keys
      | None => environment_proxy env keys
      end
  end.

(** [ran] is [scutil --proxy], or the question to PowerShell. *)
Definition system_proxy_url (P : Platform) (os : Os) (ran : Result Output string) : Result (option string) string :=
  match os with
  | MacOs =>
      output <-? command_output ran ;;
      if negb (success output) then Err ("读取 macOS 系统代理失败：" ++ output_text (from_utf8 P) output)
      else scutil_proxy (from_utf8 P (stdout output))
  | WindowsOs => windows_proxy (command_text P ran)
  | OtherOs => environment_proxy (environment P) ["HTTPS_PROXY"; "https_proxy"; "HTTP_PROXY"; "http_proxy"]
  end.

(** At most four of the addresses a name stands for are tried. *)
Definition probe_tcp (addresses : option (list string)) (connects : string -> bool) : bool :=
  match addresses with None => false | Some addresses => existsb connects (firstn 4 addresses) end.

(** *** The proxy found is one that the settings take *)

Lemma some_valid_inv url res : some_valid url = Ok (Some res) -> validate_proxy_url res = Ok res.
Proof.
  unfold some_valid. destruct (validate_proxy_url url) as [u|] eqn:H; [|done]. intros [= <-]. by eapply validate_proxy_url_inv.
Qed.

Lemma environment_proxy_valid env keys url : environment_proxy env keys = Ok (Some url) -> validate_proxy_url url = Ok url.
Proof.
  induction keys as [|key keys IH]; cbn; [done|]. destruct (env !! key) as [value|]; [|done].
  destruct (negb _); [apply some_valid_inv|done].
Qed.

Lemma system_proxy_valid P os ran url : system_proxy_url P os ran = Ok (Some url) -> validate_proxy_url url = Ok url.
Proof.
  destruct os; cbn.
  - destruct (command_output ran) as [o|]; cbn; [|done]. destruct (negb _); [done|]. unfold scutil_proxy.
    destruct (explicit_proxy _ _); [apply some_valid_inv|by destruct (proxy_flag _ _)].
  - unfold windows_proxy. destruct (command_text P ran); [|done]. destruct (is_empty _); [done|apply some_valid_inv].
  - apply (environment_proxy_valid (environment P) ["HTTPS_PROXY"; "https_proxy"; "HTTP_PROXY"; "http_proxy"]).
Qed.

Lemma explicit_proxy_first text proxies url : explicit_proxy text proxies = Some url ->
  exists flag host_key port_key scheme host port before after,
    proxies = (before ++ (flag, host_key, port_key, scheme) :: after)%list
    /\ proxy_flag text flag = true /\ proxy_value text host_key = Some host /\ proxy_value text port_key = Some port
    /\ url = scheme ++ "://" ++ host ++ ":" ++ port
    /\ forall f h p s, In (f, h, p, s) before ->
         proxy_flag text f = false \/ proxy_value text h = None \/ proxy_value text p = None.
Proof.
  induction proxies as [|[[[f h] p] s] proxies IH]; cbn [explicit_proxy]; [done|]. intros H.
  assert (explicit_proxy text proxies = Some url -> (proxy_flag text f = false \/ proxy_value text h = None \/ proxy_value text p = None) ->
    exists flag host_key port_key scheme host port before after,
    ((f, h, p, s) :: proxies)%list = (before ++ (flag, host_key, port_key, scheme) :: after)%list
    /\ proxy_flag text flag = true /\ proxy_value text host_key = Some host /\ proxy_value text port_key = Some port
    /\ url = scheme ++ "://" ++ host ++ ":" ++ port
    /\ forall f h p s, In (f, h, p, s) before ->
         proxy_flag text f = false \/ proxy_value text h = None \/ proxy_value text p = None) as Hnext.
  { intros (flag & hk & pk & sc & host & port & before & after & -> & H1 & H2 & H3 & H4 & H5)%IH Hs.
    exists flag, hk, pk, sc, host, port, ((f, h, p, s) :: before)%list, after. split_and!; try done.
    intros f' h' p' s' [[= <- <- <- <-]|Hin]; [done|by eapply H5]. }
  destruct (proxy_flag text f) eqn:Hf; cbn [negb] in H; [|by auto].
  destruct (proxy_value text h) as [host|] eqn:Hh; [|by auto]. destruct (proxy_value text p) as [port|] eqn:Hp; [|by auto].
  injection H as <-. exists f, h, p, s, host, port, []%list, proxies. by split_and!.
Qed.

(** The proxy found in the system, on every platform, is the one the tunnel runs with once the
    settings follow the system: it goes through the settings and into the environment of the
    process as it was found, and does not fail there. *)
Theorem system_proxy_reaches_tunnel P os ran url (settings : Settings) (env : Env) :
  system_proxy_url P os ran = Ok (Some url) ->
  proxy_mode (proxy settings) = "system" -> proxy_applied_url (proxy settings) = url ->
  effective_proxy_url settings = Ok (Some url)
  /\ (apply_proxy_env env settings).1 = Ok (Some url)
  /\ (apply_proxy_env env settings).2 !! "HTTPS_PROXY" = Some url.
Proof.
  intros H%system_proxy_valid Hm Hu.
  assert (effective_proxy_url settings = Ok (Some url)) as He.
  { unfold effective_proxy_url. rewrite Hm, Hu, H. pose proof (validate_proxy_url_inv _ _ H) as (Ht & _).
    rewrite <- Ht. destruct url; [|done]. cbn in H. done. }
  split; [done|]. unfold apply_proxy_env. rewrite He. split; [done|]. cbn [snd].
  destruct (starts_with "socks5" url); [rewrite !lookup_insert_ne by done|]; by rewrite foldl_insert_lookup, decide_True by set_solver.
Qed.

(** On macOS the proxy is that of the first kind (HTTPS, HTTP, SOCKS) that is switched on and
    has a host and a port; with none, a PAC file that is switched on is an error and never
    an unproxied connection, and only without one there is no proxy. *)
Theorem macos_proxy_spec P o : success o = true -> let text := from_utf8 P (stdout o) in
  match explicit_proxy text explicit_proxies with
  | Some url => system_proxy_url P MacOs (Ok o) = some_valid url
      /\ exists flag host_key port_key scheme host port before after,
           explicit_proxies = (before ++ (flag, host_key, port_key, scheme) :: after)%list
           /\ proxy_flag text flag = true /\ proxy_value text host_key = Some host /\ proxy_value text port_key = Some port
           /\ url = scheme ++ "://" ++ host ++ ":" ++ port
           /\ forall f h p s, In (f, h, p, s) before ->
                proxy_flag text f = false \/ proxy_value text h = None \/ proxy_value text p = None
  | None => if proxy_flag text "ProxyAutoConfigEnable"
            then exists e, system_proxy_url P MacOs (Ok o) = Err e else system_proxy_url P MacOs (Ok o) = Ok None
  end.
Proof.
  intros Hs text. assert (system_proxy_url P MacOs (Ok o) = scutil_proxy text) as -> by (unfold system_proxy_url; cbn -[scutil_proxy]; by rewrite Hs).
  unfold scutil_proxy.
  destruct (explicit_proxy text explicit_proxies) eqn:He; [split; [done|by apply explicit_proxy_first]|].
  destruct (proxy_flag _ _); [by eexists|done].
Qed.

(** ** The loop over the buffer ends *)

(** Asking for the home of the account ends after at most seven questions, with a buffer of at
    most one MiB, whatever the system answers; and a home that is taken is an absolute path
    of a directory. *)
Theorem account_home_found getpwuid_r is_dir display_status :
  exists r n, macos_account_home getpwuid_r is_dir display_status = Some r
  /\ (n <= 6)%N /\ r = home_of is_dir display_status (getpwuid_r (16384 * 2 ^ n)%N)
  /\ (forall m, (m < n)%N -> passwd_status (getpwuid_r (16384 * 2 ^ m)%N) = ERANGE)
  /\ forall home, r = Ok home -> starts_with "/" home = true /\ is_dir home = true
       /\ passwd_entry (getpwuid_r (16384 * 2 ^ n)%N) = Some (Some home).
Proof.
  assert (forall fuel i, (N.of_nat fuel + i = 7)%N -> (forall m, (m < i)%N -> passwd_status (getpwuid_r (16384 * 2 ^ m)%N) = ERANGE) ->
    (i <= 6)%N -> exists n, account_home_loop getpwuid_r is_dir display_status fuel (16384 * 2 ^ i)
        = Some (home_of is_dir display_status (getpwuid_r (16384 * 2 ^ n)%N))
      /\ (n <= 6)%N /\ forall m, (m < n)%N -> passwd_status (getpwuid_r (16384 * 2 ^ m)%N) = ERANGE) as Hloop.
  { induction fuel as [|fuel IH]; intros i Hf Hm Hi; [lia|]. cbn [account_home_loop].
    destruct (passwd_status _ =? ERANGE)%N eqn:He; cbn [andb]; [|by exists i]. apply N.eqb_eq in He.
    destruct (decide (i = 6%N)) as [->|]; [by exists 6%N|].
    destruct (_ <? _)%N; [|by exists i].
    replace (16384 * 2 ^ i * 2)%N with (16384 * 2 ^ (i + 1))%N by (rewrite N.pow_add_r; lia).
    apply IH; [lia| |lia]. intros m Hlt. destruct (decide (m = i)) as [->|]; [done|apply Hm; lia]. }
  destruct (Hloop 7%nat 0%N) as (n & H & Hn & Hm); [done|lia|done|]. cbn [N.pow N.mul] in H.
  eexists _, n. split; [exact H|]. split_and!; [done|done|done|]. intros home. unfold home_of.
  destruct (passwd_status _ =? 0)%N; [|done]. destruct (passwd_entry _) as [[h|]|]; [|done..].
  destruct (starts_with "/" h) eqn:Hs; [|done]. destruct (is_dir h) eqn:Hd; [|done]. intros [= <-]. by split_and!.
Qed.

(** ** The battery's cache *)

Section BatteryProps.
Context (P : Platform) (os : Os) (battery_command : Desk -> Result Output string) (instant : Desk -> N).
Local Abbreviation snapshot := (battery_snapshot P os battery_command).
Local Abbreviation cached := (cached_battery_snapshot P os battery_command instant).

(** The states in which the application looked for the battery, and the state it is in now:
    anything but the cache changes in between. *)
Inductive BatteryRun : list Desk -> Desk -> Prop :=
  | battery_started d : battery_cache d = new_mutex None -> BatteryRun [] d
  | battery_asked seen d value d' : BatteryRun seen d -> cached d = (Some value, d') -> BatteryRun (d :: seen) d'
  | battery_elsewhere seen d d' : BatteryRun seen d -> battery_cache d' = battery_cache d -> BatteryRun seen d'.

Lemma cached_cases d res d' : cached d = (res, d') ->
  (exists t v, lock (battery_cache d) = Some (Some (t, v)) /\ (saturating_sub (instant d) t < BATTERY_CACHE_TTL)%N /\ res = Some v /\ d' = d)
  \/ (res = Some (snapshot d) /\ (d' = d \/ d' = set_battery_cache (set_guarded (Some (instant d, snapshot d)) (battery_cache d)) d)).
Proof using Type.
  unfold cached_battery_snapshot. destruct (lock (battery_cache d)) as [[[t v]|]|]; [|intros [= <- <-]; by auto..].
  destruct (_ <? _)%N eqn:Ht; intros [= <- <-]; [|by auto]. left. apply N.ltb_lt in Ht. by exists t, v.
Qed.

(** What is kept was seen by a look of this run. *)
Lemma battery_kept seen d : BatteryRun seen d -> forall t v, guarded (battery_cache d) = Some (t, v) ->
  exists d0, In d0 seen /\ t = instant d0 /\ v = snapshot d0.
Proof using Type.
  induction 1 as [d ->|seen d value d' _ IH H|seen d d' _ IH ->]; [done| |exact IH].
  intros t v Hkept. apply cached_cases in H as [(t0 & v0 & _ & _ & _ & ->)|(_ & [->| ->])].
  1,2: destruct (IH _ _ Hkept) as (d0 & Hin & ? & ?); exists d0; split; [by right|done].
  cbn in Hkept. injection Hkept as <- <-. exists d. split; [by left|done].
Qed.

(** At every moment of a run, what the host page shows of the battery is what the system said
    at a look of the application less than 45 seconds ago, or says now, and asking always
    answers. *)
Theorem battery_fresh seen d : BatteryRun seen d ->
  exists d0 d', cached d = (Some (snapshot d0), d') /\ (d0 = d \/ In d0 seen)
    /\ (saturating_sub (instant d) (instant d0) < BATTERY_CACHE_TTL)%N.
Proof using Type.
  intros Hrun. destruct (cached d) as [res d'] eqn:H. pose proof H as Hc.
  assert (saturating_sub (instant d) (instant d) < BATTERY_CACHE_TTL)%N as Hnow by (unfold saturating_sub, BATTERY_CACHE_TTL; lia).
  apply cached_cases in Hc as [(t & v & Hl & Ht & -> & ->)|(-> & Hd)].
  - apply lock_Some in Hl. destruct (battery_kept _ _ Hrun t v) as (d0 & Hin & -> & ->); [by rewrite Hl|].
    exists d0, d. split; [done|]. split; [by right|done].
  - exists d, d'. split; [done|]. split; [by left|done].
Qed.
End BatteryProps.

(** What a Mac on battery says. *)
Definition sample_batt : string := "Now drawing from 'Battery Power'" ++ String "010" (" -InternalBattery-0 (id=1)	80%; discharging; 4:10 remaining present: true").

(** On battery the charge is shown as charging: the word is part of its opposite. *)
Lemma battery_discharging_shown_charging :
  battery_value sample_batt = Object [("present", Bool true); ("percent", Number (Some 80%N)); ("charging", Bool true); ("powerSource", VString "battery")].
Proof. vm_compute. reflexivity. Qed.

(** ** Witnesses *)

Lemma battery_fresh_witness :
  let asked := cached_battery_snapshot sample_platform MacOs (fun _ => Ok {| success := true; stdout := sample_batt; stderr := "" |}) (fun _ => 5%N) in
  exists d', asked (asked sample_stopped_desk).2 = (Some (battery_value sample_batt), d').
Proof.
  intros asked.
  destruct (battery_fresh sample_platform MacOs (fun _ => Ok {| success := true; stdout := sample_batt; stderr := "" |}) (fun _ => 5%N)
    [sample_stopped_desk] (asked sample_stopped_desk).2) as (d0 & d' & H & _ & _).
  - apply (battery_asked _ _ _ _ [] sample_stopped_desk (battery_value sample_batt)); [apply battery_started; reflexivity|vm_compute; reflexivity].
  - exists d'. transitivity (Some (battery_snapshot sample_platform MacOs (fun _ => Ok {| success := true; stdout := sample_batt; stderr := "" |}) d0), d'); [exact H|reflexivity].
Defined.

(** What [scutil --proxy] prints with a web proxy of which the port is missing, and a SOCKS proxy. *)
Definition sample_scutil : string :=
  concat_chars (map (fun line => line ++ String "010" "")
    ["<dictionary> {"; "  HTTPSEnable : 1"; "  HTTPSProxy : 10.0.0.9"; "  SOCKSEnable : 1"; "  SOCKSPort : 1080";
     "  SOCKSProxy : 127.0.0.1"; "}"]).
Definition sample_scutil_output : Output := {| success := true; stdout := sample_scutil; stderr := "" |}.

Lemma system_proxy_reaches_tunnel_witness :
  system_proxy_url sample_platform MacOs (Ok sample_scutil_output) = Ok (Some "socks5://127.0.0.1:1080")
  /\ effective_proxy_url (set_proxy {| proxy_mode := "system"; proxy_url := ""; proxy_applied_url := "socks5://127.0.0.1:1080" |}
       settings_default) = Ok (Some "socks5://127.0.0.1:1080").
Proof.
  assert (system_proxy_url sample_platform MacOs (Ok sample_scutil_output) = Ok (Some "socks5://127.0.0.1:1080")) as H
    by (vm_compute; reflexivity).
  split; [exact H|].
  exact (proj1 (system_proxy_reaches_tunnel sample_platform MacOs (Ok sample_scutil_output) "socks5://127.0.0.1:1080"
    (set_proxy {| proxy_mode := "system"; proxy_url := ""; proxy_applied_url := "socks5://127.0.0.1:1080" |} settings_default) ∅
    H eq_refl eq_refl)).
Defined.

Lemma macos_proxy_spec_witness : system_proxy_url sample_platform MacOs (Ok sample_scutil_output) = some_valid "socks5://127.0.0.1:1080".
Proof.
  pose proof (macos_proxy_spec sample_platform sample_scutil_output eq_refl) as H. vm_compute in H.
  destruct H as [H _]. vm_compute. exact H.
Defined.
