(* ===== verification/Vault.v ===== *)
(** * Where secrets are kept ([src-tauri/src/secrets.rs])

    The stores behind the items of [Secrets]: on macOS the key chain, on Windows a file per
    item that is sealed for the user (DPAPI, through PowerShell), elsewhere none. *)

From S2P Require Export State MonitorService Host.
From stdpp Require Import pretty.
Local Open Scope string_scope.

(** ** The key chain *)

Record KcError := { kc_code : Z; kc_text : string }.

(** [errSecItemNotFound] *)
Definition not_found : Z := -25300.

(** A generic password is named by a service and an account. *)
Abbreviation KcName := (string * string)%type.
Inductive KcOp := KcGet (name : KcName) | KcSet (name : KcName) | KcDelete (name : KcName) | KcSearch (name : KcName).

Record Vault := { vault_world : World; keychain : gmap KcName string }.

Definition runtime_key_name : KcName := ("com.chatgptx.local.runtime-key", runtime_alias).
Definition monitor_master_name : KcName := ("com.chatgptx.local.monitor-master-key", "master").
Definition relay_name : KcName := ("com.chatgptx.local.relay-credentials", "desktop").
Definition https_oauth_name : KcName := ("com.chatgptx.local.https-oauth", "master").

(** What a command does: how it ends, and the files after it. *)
Abbreviation Program := (string -> Env -> World -> Result Output string * World).

Section Vault.
(** The platform and target; which accesses to the key chain fail and how; whether bytes are
    text; and PowerShell, which is given a script and an environment. *)
Context (P : Platform) (os : Os) (kc_fault : KcOp -> Vault -> option KcError) (is_utf8 : string -> bool) (powershell : Program).

Abbreviation Store := (St Vault).

Definition on_world {A} (m : Fs A) : Store A := fun s =>
  let '(r, w) := m (vault_world s) in (r, {| vault_world := w; keychain := keychain s |}).

Definition kc_get (name : KcName) : Store (Result string KcError) := st_get (fun s =>
  match kc_fault (KcGet name) s with
  | Some e => Err e
  | None => match keychain s !! name with Some bytes => Ok bytes | None => Err {| kc_code := not_found; kc_text := "not found" |} end
  end).
Definition kc_set (name : KcName) (bytes : string) : Store (Result unit KcError) := fun s =>
  match kc_fault (KcSet name) s with
  | Some e => (Some (Err e), s)
  | None => (Some (Ok tt), {| vault_world := vault_world s; keychain := <[name := bytes]> (keychain s) |})
  end.
Definition kc_delete (name : KcName) : Store (Result unit KcError) := fun s =>
  match kc_fault (KcDelete name) s, keychain s !! name with
  | Some e, _ => (Some (Err e), s)
  | None, None => (Some (Err {| kc_code := not_found; kc_text := "not found" |}), s)
  | None, Some _ => (Some (Ok tt), {| vault_world := vault_world s; keychain := delete name (keychain s) |})
  end.
(** [ItemSearchOptions::search] of the attributes. *)
Definition kc_search (name : KcName) : Store bool := st_get (fun s =>
  match kc_fault (KcSearch name) s with Some _ => false | None => bool_decide (is_Some (keychain s !! name)) end).

(** ** The runtime key *)

Definition protect_script : string :=
  "$ErrorActionPreference='Stop';[Console]::OutputEncoding=[Text.UTF8Encoding]::new($false);Add-Type -AssemblyName System.Security;$b=[Text.Encoding]::UTF8.GetBytes($env:CHATX_SECRET);$p=[System.Security.Cryptography.ProtectedData]::Protect($b,$null,[System.Security.Cryptography.DataProtectionScope]::CurrentUser);[IO.File]::WriteAllText($env:CHATX_SECRET_FILE,[Convert]::ToBase64String($p))".
Definition unprotect_script : string :=
  "$ErrorActionPreference='Stop';[Console]::OutputEncoding=[Text.UTF8Encoding]::new($false);Add-Type -AssemblyName System.Security;$s=[IO.File]::ReadAllText($env:CHATX_SECRET_FILE);$p=[Convert]::FromBase64String($s);$b=[System.Security.Cryptography.ProtectedData]::Unprotect($p,$null,[System.Security.Cryptography.DataProtectionScope]::CurrentUser);[Console]::Out.Write([Text.Encoding]::UTF8.GetString($b))".

Definition run_powershell (script : string) (added : Env) : Store (Result Output string) := fun s =>
  let '(ran, w) := powershell script (added ∪ environment P) (vault_world s) in
  (Some (command_output ran), {| vault_world := w; keychain := keychain s |}).

(** A path as the environment holds it. *)
Definition protect_secret (secret : string) (target : Path) : Store (Result unit string) :=
  match os with
  | WindowsOs =>
      output <-st? run_powershell protect_script {["CHATX_SECRET" := secret; "CHATX_SECRET_FILE" := path_display target]} ;;
      st_ret (if success output then Ok tt else Err ("保存 Runtime Key 失败：" ++ output_text (from_utf8 P) output))
  | MacOs =>
      saved <-st kc_set runtime_key_name secret ;;
      st_ret (map_err (fun e => "保存 Runtime Key 到 macOS 钥匙串失败（错误码 " ++ pretty (kc_code e) ++ "）：" ++ kc_text e
                ++ "。可取消勾选保存密钥后重试；无需还原系统钥匙串。") saved)
  | OtherOs => st_ret (Err "安全保存 Runtime Key 当前仅支持 Windows。")
  end.

Definition utf8_or (message bytes : string) : Result string string := if is_utf8 bytes then Ok bytes else Err message.

Definition unprotect_secret (target : Path) : Store (Result string string) :=
  match os with
  | WindowsOs =>
      output <-st? run_powershell unprotect_script {["CHATX_SECRET_FILE" := path_display target]} ;;
      st_ret (if success output then Ok (from_utf8 P (stdout output))
              else Err ("读取已保存 Runtime Key 失败：" ++ output_text (from_utf8 P) output))
  | MacOs =>
      read <-st kc_get runtime_key_name ;;
      st_ret (match read with
              | Ok bytes => utf8_or "钥匙串中的 Runtime Key 编码无效，请重新保存。" bytes
              | Err e => Err ("读取 macOS 钥匙串失败，请允许 ChatX 访问钥匙串或重新输入 Runtime API Key：" ++ kc_text e)
              end)
  | OtherOs => st_ret (Err "安全读取 Runtime Key 当前仅支持 Windows。")
  end.

Definition sealed_file (name : string) : Fs (Result Path string) :=
  dir <-fs? state_dir (base_dir P) ;; fs_ret (Ok {| parent := Some dir; file_name := name |}).
Definition runtime_key_file : Fs (Result Path string) := sealed_file "runtime-key.dpapi".

Definition runtime_key_saved : Store bool :=
  match os with
  | WindowsOs =>
      path <-st on_world runtime_key_file ;;
      match path with Ok path => on_world (path_exists path) | Err _ => st_ret false end
  | MacOs => kc_search runtime_key_name
  | OtherOs => st_ret false
  end.

(** What is absent already is cleared. *)
Definition clear_keychain_key : Store (Result unit string) :=
  cleared <-st kc_delete runtime_key_name ;;
  st_ret (match cleared with
          | Ok _ => Ok tt
          | Err e => if (kc_code e =? not_found)%Z then Ok tt else Err ("清除 macOS 钥匙串中的 Runtime Key 失败：" ++ kc_text e)
          end).

Definition clear_runtime_key : Store (Result unit string) :=
  _ <-st? match os with MacOs => clear_keychain_key | _ => st_ret (Ok tt) end ;;
  path <-st? on_world runtime_key_file ;;
  found <-st on_world (path_exists path) ;;
  if (found : bool) then on_world (fs_map_err (fun e => "清除 Runtime Key 失败：" ++ io_display e) (remove_file path))
  else st_ret (Ok tt).

(** ** The other items

    On Windows they go through the same scripts, with the name in the messages replaced. *)

Definition renamed {A} (name : string) (r : Result A string) : Result A string := map_err (string_replace "Runtime Key" name) r.

Definition monitor_master_file : Fs (Result Path string) := sealed_file "monitor-master-key.dpapi".

(** [None] is [StoredMonitorMasterKey::Missing]. *)
Definition load_monitor_master_key : Store (Result (option string) string) :=
  match os with
  | WindowsOs =>
      path <-st? on_world monitor_master_file ;;
      found <-st on_world (path_exists path) ;;
      if negb found then st_ret (Ok None)
      else read <-st unprotect_secret path ;;
           st_ret (match renamed "Monitor Master Key" read with Ok value => Ok (Some value) | Err e => Err e end)
  | MacOs =>
      read <-st kc_get monitor_master_name ;;
      st_ret (match read with
              | Ok bytes => value <-? utf8_or "Monitor Master Key 编码无效。" bytes ;; Ok (Some value)
              | Err e => if (kc_code e =? not_found)%Z then Ok None else Err ("读取 Monitor Master Key 失败：" ++ kc_text e)
              end)
  | OtherOs => st_ret (Err "安全读取 Monitor Master Key 当前仅支持 Windows 和 macOS。")
  end.

Definition save_monitor_master_key (value : string) : Store (Result unit string) :=
  match os with
  | WindowsOs =>
      path <-st? on_world monitor_master_file ;;
      saved <-st protect_secret value path ;; st_ret (renamed "Monitor Master Key" saved)
  | MacOs =>
      saved <-st kc_set monitor_master_name value ;;
      st_ret (map_err (fun e => "保存 Monitor Master Key 到 macOS 钥匙串失败：" ++ kc_text e) saved)
  | OtherOs => st_ret (Err "安全保存 Monitor Master Key 当前仅支持 Windows 和 macOS。")
  end.

Definition https_oauth_file : Fs (Result Path string) := sealed_file "https-oauth-master-key.dpapi".

(** The stored text of the key of HTTPS, before it is decoded. *)
Definition load_https_value : Store (Result (option string) string) :=
  match os with
  | WindowsOs =>
      path <-st? on_world https_oauth_file ;;
      found <-st on_world (path_exists path) ;;
      if negb found then st_ret (Ok None)
      else read <-st unprotect_secret path ;;
           st_ret (match read with Ok value => Ok (Some value) | Err e => Err ("安全读取 HTTPS OAuth 密钥失败：" ++ e) end)
  | MacOs =>
      read <-st kc_get https_oauth_name ;;
      st_ret (match read with
              | Ok bytes => value <-? utf8_or "HTTPS OAuth Keychain 数据编码无效" bytes ;; Ok (Some value)
              | Err e => if (kc_code e =? not_found)%Z then Ok None else Err ("读取 HTTPS OAuth Keychain 失败：" ++ kc_text e)
              end)
  | OtherOs => st_ret (Err "平台不支持持久化 HTTPS OAuth 密钥")
  end.
Definition load_https_oauth_key (b64_decode : string -> option bytes) : Store (Result (option bytes) string) :=
  stored <-st? load_https_value ;;
  st_ret (match stored with
          | None => Ok None
          | Some value =>
              match decode_master_key b64_decode value with
              | Ok key => Ok (Some key)
              | Err e => Err (match os with WindowsOs => "HTTPS OAuth 密钥已损坏，禁止自动轮换：" ++ e | _ => e end)
              end
          end).

Definition save_https_value (value : string) : Store (Result unit string) :=
  match os with
  | WindowsOs =>
      path <-st? on_world https_oauth_file ;;
      saved <-st protect_secret value path ;; st_ret (map_err (fun e => "保存 HTTPS OAuth 密钥失败：" ++ e) saved)
  | MacOs =>
      saved <-st kc_set https_oauth_name value ;;
      st_ret (map_err (fun e => "保存 HTTPS OAuth Keychain 密钥失败：" ++ kc_text e) saved)
  | OtherOs => st_ret (Err "平台不支持持久化 HTTPS OAuth 密钥")
  end.
Definition save_https_oauth_key (b64_encode : bytes -> string) (key : bytes) : Store (Result unit string) :=
  save_https_value (encode_master_key b64_encode key).

Definition relay_file : Fs (Result Path string) := sealed_file "relay-credentials.dpapi".

Definition save_relay_value (value : string) : Store (Result unit string) :=
  match os with
  | WindowsOs =>
      path <-st? on_world relay_file ;;
      saved <-st protect_secret value path ;; st_ret (renamed "Relay Credential" saved)
  | MacOs =>
      saved <-st kc_set relay_name value ;;
      st_ret (map_err (fun e => "保存 Relay Credential 到 macOS 钥匙串失败：" ++ kc_text e) saved)
  | OtherOs => st_ret (Err "安全保存 Relay Credential 当前仅支持 Windows 和 macOS。")
  end.

Definition read_relay_value : Store (Result string string) :=
  match os with
  | WindowsOs =>
      path <-st? on_world relay_file ;;
      read <-st unprotect_secret path ;; st_ret (renamed "Relay Credential" read)
  | MacOs =>
      read <-st kc_get relay_name ;;
      st_ret (match read with
              | Ok bytes => utf8_or "Relay Credential 编码无效。" bytes
              | Err e => Err ("读取 Relay Credential 失败：" ++ kc_text e)
              end)
  | OtherOs => st_ret (Err "安全读取 Relay Credential 当前仅支持 Windows 和 macOS。")
  end.

(** ** The items, by name *)

Inductive Item := RuntimeKeyItem | MonitorItem | HttpsItem | RelayItem.

Definition kc_name (i : Item) : KcName :=
  match i with RuntimeKeyItem => runtime_key_name | MonitorItem => monitor_master_name | HttpsItem => https_oauth_name | RelayItem => relay_name end.
Definition item_file (i : Item) : string :=
  match i with
  | RuntimeKeyItem => "runtime-key.dpapi" | MonitorItem => "monitor-master-key.dpapi"
  | HttpsItem => "https-oauth-master-key.dpapi" | RelayItem => "relay-credentials.dpapi"
  end.

Definition vault_save (i : Item) (value : string) : Store (Result unit string) :=
  match i with
  | RuntimeKeyItem => path <-st? on_world runtime_key_file ;; protect_secret value path
  | MonitorItem => save_monitor_master_key value
  | HttpsItem => save_https_value value
  | RelayItem => save_relay_value value
  end.
Definition some_read (m : Store (Result string string)) : Store (Result (option string) string) :=
  read <-st? m ;; st_ret (Ok (Some read)).
Definition vault_load (i : Item) : Store (Result (option string) string) :=
  match i with
  | RuntimeKeyItem => some_read (path <-st? on_world runtime_key_file ;; unprotect_secret path)
  | MonitorItem => load_monitor_master_key
  | HttpsItem => load_https_value
  | RelayItem => some_read read_relay_value
  end.
End Vault.

(** ** What a store promises

    Each item holds a value or none, whatever the platform: loading answers it (or fails) and
    changes nothing, saving replaces it (or fails) and leaves the other items alone, clearing
    drops the runtime key only. *)

Class KeepsItems (load : Item -> St Vault (Result (option string) string)) (save : Item -> string -> St Vault (Result unit string))
    (clear : St Vault (Result unit string)) (peek : Vault -> Item -> option string) (calm : Vault -> Item -> Prop) : Prop := {
  load_leaves i s r s' : load i s = (r, s') -> forall j, peek s' j = peek s j;
  load_answers i s o s' : load i s = (Some (Ok o), s') -> calm s i -> o = peek s i;
  save_leaves i v s r s' : save i v s = (r, s') -> forall j, j <> i -> peek s' j = peek s j;
  save_stores i v s s' : save i v s = (Some (Ok tt), s') -> peek s' i = Some v;
  clear_leaves s r s' : clear s = (r, s') -> forall j, j <> RuntimeKeyItem -> peek s' j = peek s j;
  clear_drops s s' : clear s = (Some (Ok tt), s') -> calm s RuntimeKeyItem -> peek s' RuntimeKeyItem = None }.

(** A file of a directory, as the environment names it. *)
Definition plain_file (p : Path) : Prop := exists dir name, p = {| parent := Some dir; file_name := name |} /\ dir <> "" /\ contains "/" name = false.

(** The two scripts with DPAPI: the first leaves the sealed secret in the file when it
    succeeds, the second prints what the file holds; neither touches another file. *)
Class Dpapi (powershell : Program) (seal : string -> string) (unseal : string -> option string) : Prop := {
  unseal_seal secret : unseal (seal secret) = Some secret;
  protect_run env w secret p : plain_file p -> env !! "CHATX_SECRET" = Some secret -> env !! "CHATX_SECRET_FILE" = Some (path_display p) ->
    let '(ran, w') := powershell protect_script env w in
    (forall q, q <> p -> files w' !! q = files w !! q)
    /\ forall o, ran = Ok o -> success o = true -> files w' !! p = Some (seal secret);
  unprotect_run env w p : plain_file p -> env !! "CHATX_SECRET_FILE" = Some (path_display p) ->
    let '(ran, w') := powershell unprotect_script env w in
    files w' = files w
    /\ forall o, ran = Ok o -> success o = true -> exists sealed, files w !! p = Some sealed /\ unseal sealed = Some (stdout o) }.

Section Peek.
Context (base : string) (os : Os) (kc_fault : KcOp -> Vault -> option KcError) (unseal : string -> option string).

Definition item_path (i : Item) : Path := {| parent := Some (base ++ "/state"); file_name := item_file i |}.

(** What the store holds for an item. *)
Definition peek (s : Vault) (i : Item) : option string :=
  match os with
  | MacOs => keychain s !! kc_name i
  | WindowsOs => files (vault_world s) !! item_path i ≫= unseal
  | OtherOs => None
  end.

(** Looking whether the file is there does not fail; what is wrong with the key chain is not
    told as an absent item. *)
Definition calm_vault (s : Vault) (i : Item) : Prop :=
  match os with
  | WindowsOs => io_fault (vault_world s) (ExistsFile (item_path i)) = None
  | MacOs => forall op e, op = KcGet (kc_name i) \/ op = KcDelete (kc_name i) -> kc_fault op s = Some e -> kc_code e <> not_found
  | OtherOs => True
  end.

(** The files and the key chain as they were. *)
Definition untouched (s s' : Vault) : Prop := keychain s' = keychain s /\ files (vault_world s') = files (vault_world s).

Lemma untouched_trans s s1 s2 : untouched s s1 -> untouched s1 s2 -> untouched s s2.
Proof using Type. unfold untouched. intros [K F] [K1 F1]. split; congruence. Qed.

Lemma untouched_peek s s' : untouched s s' -> forall j, peek s' j = peek s j.
Proof using Type. intros [K F] j. unfold peek. by rewrite K, F. Qed.

Lemma item_paths_differ i j : i <> j -> item_path i <> item_path j /\ kc_name i <> kc_name j.
Proof using Type. clear. by destruct i, j. Qed.

Lemma item_path_plain i : plain_file (item_path i).
Proof using Type. exists (base ++ "/state"), (item_file i). split; [done|]. clear -i. split; [by destruct base|by destruct i]. Qed.
End Peek.

Section VaultProps.
Context (P : Platform) (base : string) (Hbase : base_dir P = Ok base) (os : Os) (kc_fault : KcOp -> Vault -> option KcError)
        (is_utf8 : string -> bool) (powershell : Program) (seal : string -> string) (unseal : string -> option string)
        {Hdpapi : Dpapi powershell seal unseal} (Htext : forall sealed text, unseal sealed = Some text -> from_utf8 P text = text).
Local Abbreviation peek := (peek base os unseal).
Local Abbreviation calm := (calm_vault base os kc_fault).
Local Abbreviation item_path := (item_path base).

Lemma on_world_inv {A} (m : Fs A) s r s' : on_world m s = (r, s') ->
  exists w, m (vault_world s) = (r, w) /\ s' = {| vault_world := w; keychain := keychain s |}.
Proof using Type. clear. unfold on_world. destruct (m (vault_world s)) as [r0 w]. intros [= <- <-]. by exists w. Qed.

Lemma sealed_file_inv i s r s' : on_world (sealed_file P (item_file i)) s = (r, s') ->
  untouched s s' /\ io_fault (vault_world s') = io_fault (vault_world s) /\ forall p, r = Some (Ok p) -> p = item_path i.
Proof using Hbase.
  intros (w & H & ->)%on_world_inv. unfold sealed_file in H. rewrite Hbase in H.
  apply fs_try_inv in H as [[H ->]|[(e & H & ->)|(dir & w1 & H & [= <- <-])]]; apply state_dir_inv in H as (F & I & _ & E);
    (split; [by split|split; [done|]]); [done..|]. intros p [= <-]. by rewrite (E dir eq_refl).
Qed.

Lemma found_inv i s r s' : on_world (path_exists (item_path i)) s = (r, s') ->
  untouched s s' /\ (os = WindowsOs -> calm s i -> r = Some false -> peek s i = None).
Proof using Type.
  intros (w & H & ->)%on_world_inv. apply path_exists_inv in H as (F & I & R). split; [by split|].
  unfold calm_vault, Vault.peek. intros -> C ->. destruct (R C) as [?|[= E]]; [done|]. by case_match.
Qed.

Lemma unprotect_inv i s r s' : os = WindowsOs -> unprotect_secret P os kc_fault is_utf8 powershell (item_path i) s = (r, s') ->
  untouched s s' /\ forall v, r = Some (Ok v) -> peek s i = Some v.
Proof using Hdpapi Htext.
  intros Hos. unfold Vault.peek, untouched. rewrite Hos. unfold unprotect_secret, st_try, st_bind, run_powershell.
  pose proof (unprotect_run ({["CHATX_SECRET_FILE" := path_display (item_path i)]} ∪ environment P) (vault_world s) (item_path i)
    (item_path_plain base i)) as Hrun.
  rewrite lookup_union_l' in Hrun by (rewrite lookup_singleton_eq; by eexists). rewrite lookup_singleton_eq in Hrun. specialize (Hrun eq_refl).
  destruct (powershell _ _ _) as [ran w]. destruct Hrun as [F Ho].
  destruct ran as [o|e]; cbn; intros [= <- <-]; (split; [done|]); [|done].
  destruct (success o) eqn:Hs; [|done]. intros v [= <-]. destruct (Ho o eq_refl Hs) as (sealed & -> & Hu). cbn. by rewrite Hu, (Htext _ _ Hu).
Qed.

Lemma protect_inv i v s r s' : os = WindowsOs -> protect_secret P os kc_fault powershell v (item_path i) s = (r, s') ->
  (forall j, j <> i -> peek s' j = peek s j) /\ (r = Some (Ok tt) -> peek s' i = Some v).
Proof using Hdpapi.
  intros Hos. unfold Vault.peek. rewrite Hos. unfold protect_secret, st_try, st_bind, run_powershell.
  set (env := _ ∪ environment P).
  pose proof (protect_run env (vault_world s) v (item_path i) (item_path_plain base i)) as Hrun.
  assert (env !! "CHATX_SECRET" = Some v) as E1 by (by subst env; rewrite lookup_union_l' by (by rewrite lookup_insert_eq; eexists); rewrite lookup_insert_eq).
  assert (env !! "CHATX_SECRET_FILE" = Some (path_display (item_path i))) as E2.
  { subst env. by rewrite lookup_union_l' by (rewrite lookup_insert_ne, lookup_singleton_eq by done; by eexists);
      rewrite lookup_insert_ne, lookup_singleton_eq by done. }
  specialize (Hrun E1 E2). destruct (powershell _ _ _) as [ran w]. destruct Hrun as [F Ho].
  assert (forall j, j <> i -> files w !! item_path j ≫= unseal = files (vault_world s) !! item_path j ≫= unseal) as Hothers
    by (intros j Hj; rewrite F; [done|by apply item_paths_differ]).
  destruct ran as [o|e]; cbn; intros [= <- <-]; (split; [done|]); [|done].
  destruct (success o) eqn:Hs; [|done]. intros _. cbn. rewrite (Ho o eq_refl Hs). exact (unseal_seal v).
Qed.

(** What every reading through the scripts does, whatever it makes of the text. *)
Lemma read_inv {A} i (f : Result string string -> Result (option A) string) (g : A -> string) s r s' :
  os = WindowsOs -> (forall v o, f (Ok v) = Ok o -> exists a, o = Some a /\ g a = v) -> (forall e o, f (Err e) <> Ok o) ->
  st_bind (unprotect_secret P os kc_fault is_utf8 powershell (item_path i)) (fun read => st_ret (f read)) s = (r, s') ->
  untouched s s' /\ forall o, r = Some (Ok o) -> g <$> o = peek s i.
Proof using Hdpapi Htext.
  intros Hos Hok Herr [[H ->]|(read & s1 & H & [= <- <-])]%st_bind_inv; apply (unprotect_inv i _ _ _ Hos) in H as [U R]; (split; [done|]); [done|].
  intros o [= E]. destruct read as [v|e]; [|by apply Herr in E]. destruct (Hok v o E) as (a & -> & Ha). cbn. by rewrite (R v eq_refl), Ha.
Qed.

(** A file that may be absent. *)
Lemma file_load_inv i (f : Result string string -> Result (option string) string) s r s' :
  os = WindowsOs -> (forall v, f (Ok v) = Ok (Some v)) -> (forall e o, f (Err e) <> Ok o) ->
  st_try (on_world (sealed_file P (item_file i))) (fun path =>
    st_bind (on_world (path_exists path)) (fun found =>
      if negb found then st_ret (Ok None)
      else st_bind (unprotect_secret P os kc_fault is_utf8 powershell path) (fun read => st_ret (f read)))) s = (r, s') ->
  untouched s s' /\ forall o, r = Some (Ok o) -> calm s i -> o = peek s i.
Proof using Hbase Hdpapi Htext.
  intros Hos Hok Herr [[H ->]|[(e & H & ->)|(p & s1 & H & Hk)]]%st_try_inv; apply sealed_file_inv in H as (U & I & Ep); [by split..|].
  rewrite (Ep p eq_refl) in Hk.
  assert (peek s1 i = peek s i) as Ep1 by (by apply untouched_peek).
  assert (calm s i -> calm s1 i) as Hcalm by (unfold calm_vault; by rewrite Hos, I).
  apply st_bind_inv in Hk as [[H1 ->]|(found & s2 & H1 & Hk)]; apply found_inv in H1 as [U1 F];
    [split; [by eapply untouched_trans|done]|].
  destruct found; cbn [negb] in Hk.
  - apply (read_inv i f id) in Hk as [U2 R]; [|done|intros v o Hv; rewrite Hok in Hv; injection Hv as <-; by exists v|done].
    split; [eauto using untouched_trans|]. intros o Ho _. rewrite <- Ep1, <- (untouched_peek base os unseal _ _ U1), <- (R o Ho). by destruct o.
  - injection Hk as <- <-. split; [by eapply untouched_trans|]. intros o [= <-] C. rewrite <- Ep1. symmetry. by apply F; auto.
Qed.

(** A file that is read whether it is there or not. *)
Lemma file_read_inv i (f : Result string string -> Result string string) s r s' :
  os = WindowsOs -> (forall v, f (Ok v) = Ok v) -> (forall e o, f (Err e) <> Ok o) ->
  st_try (on_world (sealed_file P (item_file i))) (fun path =>
    st_bind (unprotect_secret P os kc_fault is_utf8 powershell path) (fun read => st_ret (f read))) s = (r, s') ->
  untouched s s' /\ forall v, r = Some (Ok v) -> Some v = peek s i.
Proof using Hbase Hdpapi Htext.
  intros Hos Hok Herr [[H ->]|[(e & H & ->)|(p & s1 & H & Hk)]]%st_try_inv; apply sealed_file_inv in H as (U & I & Ep); [by split..|].
  rewrite (Ep p eq_refl) in Hk. rewrite <- (untouched_peek base os unseal _ _ U i).
  apply st_bind_inv in Hk as [[H ->]|(read & s2 & H & [= <- <-])]; apply (unprotect_inv i _ _ _ Hos) in H as [U1 R];
    (split; [by eapply untouched_trans|]); [done|].
  intros v [= E]. destruct read as [w|e]; [|by apply Herr in E]. rewrite Hok in E. injection E as <-. symmetry. by apply R.
Qed.

(** A file that is written, with what the caller makes of a failure. *)
Lemma file_save_inv i v (f : Result unit string -> Result unit string) s r s' :
  os = WindowsOs -> (forall e, f (Err e) <> Ok tt) ->
  st_try (on_world (sealed_file P (item_file i))) (fun path =>
    st_bind (protect_secret P os kc_fault powershell v path) (fun saved => st_ret (f saved))) s = (r, s') ->
  (forall j, j <> i -> peek s' j = peek s j) /\ (r = Some (Ok tt) -> peek s' i = Some v).
Proof using Hbase Hdpapi.
  intros Hos Herr [[H ->]|[(e & H & ->)|(p & s1 & H & Hk)]]%st_try_inv; apply sealed_file_inv in H as (U & I & Ep);
    pose proof (untouched_peek base os unseal _ _ U) as Hp; [by split..|].
  rewrite (Ep p eq_refl) in Hk.
  apply st_bind_inv in Hk as [[H ->]|(saved & s2 & H & [= <- <-])]; apply (protect_inv i v _ _ _ Hos) in H as [L R];
    (split; [intros j Hj; by rewrite L, Hp|]); [done|].
  intros [= E]. apply R. destruct saved as [[]|e]; [done|by apply Herr in E].
Qed.

(** ** The key chain *)

Lemma kc_get_inv i s r s' : os = MacOs -> kc_get kc_fault (kc_name i) s = (r, s') ->
  s' = s /\ exists read, r = Some read /\ (forall v, read = Ok v -> Some v = peek s i)
  /\ forall e, read = Err e -> calm s i -> kc_code e = not_found -> None = peek s i.
Proof using Type.
  intros Hos [= <- <-]. split; [done|]. unfold Vault.peek, calm_vault. rewrite Hos. eexists. split; [done|].
  destruct (kc_fault (KcGet (kc_name i)) s) as [e0|] eqn:F.
  - split; [done|]. intros e [= <-] C Hc. by destruct (C _ e0 (or_introl eq_refl) F).
  - destruct (keychain s !! kc_name i); split; by try intros ? [= <-].
Qed.

Lemma kc_set_inv i v s r s' : os = MacOs -> kc_set kc_fault (kc_name i) v s = (r, s') ->
  (forall j, j <> i -> peek s' j = peek s j) /\ (r = Some (Ok tt) -> peek s' i = Some v).
Proof using Type.
  intros Hos. unfold kc_set, Vault.peek. rewrite Hos. destruct (kc_fault _ s); intros [= <- <-]; [done|]. cbn. split.
  - intros j Hj. rewrite lookup_insert_ne; [done|]. by apply (item_paths_differ base i j); auto.
  - intros _. by rewrite lookup_insert_eq.
Qed.

(** Reading an item of the key chain, its absence told apart. *)
Lemma kc_load_inv i message (wrong : KcError -> string) s r s' : os = MacOs ->
  st_bind (kc_get kc_fault (kc_name i)) (fun read => st_ret (match read with
    | Ok bytes => match utf8_or is_utf8 message bytes with Ok value => Ok (Some value) | Err e => Err e end
    | Err e => if (kc_code e =? not_found)%Z then Ok None else Err (wrong e)
    end)) s = (r, s') ->
  s' = s /\ forall o, r = Some (Ok o) -> calm s i -> o = peek s i.
Proof using Type.
  intros Hos [[H ->]|(read & s1 & H & [= <- <-])]%st_bind_inv; apply (kc_get_inv i _ _ _ Hos) in H as [-> (read0 & E & R & N)]; [done|].
  injection E as <-. split; [done|]. intros o [= E] C. destruct read as [v|e].
  - unfold utf8_or in E. destruct (is_utf8 v); [|done]. injection E as <-. by apply R.
  - destruct (Z.eqb_spec (kc_code e) not_found); [|done]. injection E as <-. by apply (N e).
Qed.

Lemma kc_read_inv i message (wrong : KcError -> string) s r s' : os = MacOs ->
  st_bind (kc_get kc_fault (kc_name i)) (fun read => st_ret (match read with
    | Ok bytes => utf8_or is_utf8 message bytes
    | Err e => Err (wrong e)
    end)) s = (r, s') ->
  s' = s /\ forall v, r = Some (Ok v) -> Some v = peek s i.
Proof using Type.
  intros Hos [[H ->]|(read & s1 & H & [= <- <-])]%st_bind_inv; apply (kc_get_inv i _ _ _ Hos) in H as [-> (read0 & E & R & N)]; [done|].
  injection E as <-. split; [done|]. intros v [= E]. destruct read as [w|e]; [|done].
  unfold utf8_or in E. destruct (is_utf8 w); [|done]. injection E as <-. by apply R.
Qed.

Lemma kc_save_inv i v (wrong : KcError -> string) s r s' : os = MacOs ->
  st_bind (kc_set kc_fault (kc_name i) v) (fun saved => st_ret (map_err wrong saved)) s = (r, s') ->
  (forall j, j <> i -> peek s' j = peek s j) /\ (r = Some (Ok tt) -> peek s' i = Some v).
Proof using Type.
  intros Hos [[H ->]|(saved & s1 & H & [= <- <-])]%st_bind_inv; apply (kc_set_inv i v _ _ _ Hos) in H as [L R]; (split; [done|]); [done|].
  intros [= E]. apply R. by destruct saved as [[]|].
Qed.

(** ** Loading, saving and clearing on each platform *)

Lemma runtime_key_read_inv s r s' :
  st_try (on_world (runtime_key_file P)) (fun path => unprotect_secret P os kc_fault is_utf8 powershell path) s = (r, s') ->
  untouched s s' /\ forall v, r = Some (Ok v) -> Some v = peek s RuntimeKeyItem.
Proof using Hbase Hdpapi Htext.
  intros [[H ->]|[(e & H & ->)|(p & s1 & H & Hk)]]%st_try_inv; apply (sealed_file_inv RuntimeKeyItem) in H as (U & I & Ep); [by split..|].
  rewrite (Ep p eq_refl) in Hk. rewrite <- (untouched_peek base os unseal _ _ U RuntimeKeyItem).
  destruct os eqn:Hos.
  - apply (kc_read_inv RuntimeKeyItem) in Hk as [-> R]; [|done]. split; [done|]. by rewrite Hos in R.
  - rewrite <- Hos in Hk. apply (unprotect_inv RuntimeKeyItem _ _ _ Hos) in Hk as [U1 R]. rewrite Hos in R.
    split; [by eapply untouched_trans|]. intros v Hv. symmetry. by apply R.
  - by injection Hk as <- <-.
Qed.

Lemma relay_read_inv s r s' : read_relay_value P os kc_fault is_utf8 powershell s = (r, s') ->
  untouched s s' /\ forall v, r = Some (Ok v) -> Some v = peek s RelayItem.
Proof using Hbase Hdpapi Htext.
  unfold read_relay_value. destruct os eqn:Hos.
  - intros [-> R]%(kc_read_inv RelayItem); [|done]. split; [done|]. by rewrite Hos in R.
  - rewrite <- Hos. by apply (file_read_inv RelayItem).
  - by intros [= <- <-].
Qed.

Lemma vault_load_inv i s r s' : vault_load P os kc_fault is_utf8 powershell i s = (r, s') ->
  untouched s s' /\ forall o, r = Some (Ok o) -> calm s i -> o = peek s i.
Proof using Hbase Hdpapi Htext.
  unfold vault_load, some_read. destruct i.
  - intros [[H ->]|[(e & H & ->)|(v & s1 & H & [= <- <-])]]%st_try_inv; apply runtime_key_read_inv in H as [U R]; (split; [done|]); [done..|].
    intros o [= <-] _. by apply R.
  - unfold load_monitor_master_key. destruct os eqn:Hos.
    + intros [-> R]%(kc_load_inv MonitorItem); [|done]. split; [done|]. by rewrite Hos in R.
    + rewrite <- Hos. by apply (file_load_inv MonitorItem (fun read => match renamed "Monitor Master Key" read with Ok value => Ok (Some value) | Err e => Err e end)).
    + by intros [= <- <-].
  - unfold load_https_value. destruct os eqn:Hos.
    + intros [-> R]%(kc_load_inv HttpsItem); [|done]. split; [done|]. by rewrite Hos in R.
    + rewrite <- Hos. by apply (file_load_inv HttpsItem (fun read => match read with Ok value => Ok (Some value) | Err e => Err ("安全读取 HTTPS OAuth 密钥失败：" ++ e) end)).
    + by intros [= <- <-].
  - intros [[H ->]|[(e & H & ->)|(v & s1 & H & [= <- <-])]]%st_try_inv; apply relay_read_inv in H as [U R]; (split; [done|]); [done..|].
    intros o [= <-] _. by apply R.
Qed.

Lemma vault_save_inv i v s r s' : vault_save P os kc_fault powershell i v s = (r, s') ->
  (forall j, j <> i -> peek s' j = peek s j) /\ (r = Some (Ok tt) -> peek s' i = Some v).
Proof using Hbase Hdpapi.
  unfold vault_save. destruct i.
  - intros [[H ->]|[(e & H & ->)|(p & s1 & H & Hk)]]%st_try_inv; apply (sealed_file_inv RuntimeKeyItem) in H as (U & I & Ep);
      pose proof (untouched_peek base os unseal _ _ U) as Hp; [by split..|].
    rewrite (Ep p eq_refl) in Hk.
    assert ((forall j, j <> RuntimeKeyItem -> peek s' j = peek s1 j) /\ (r = Some (Ok tt) -> peek s' RuntimeKeyItem = Some v)) as [L R].
    { destruct os eqn:Hos; [|rewrite <- Hos in Hk |- *; by apply (protect_inv RuntimeKeyItem)|by injection Hk as <- <-].
      apply (kc_save_inv RuntimeKeyItem) in Hk; [|done]. by rewrite Hos in Hk. }
    split; [|done]. intros j Hj. by rewrite L, Hp.
  - unfold save_monitor_master_key. destruct os eqn:Hos; [|rewrite <- Hos; by apply (file_save_inv MonitorItem)|by intros [= <- <-]].
    intros H%(kc_save_inv MonitorItem); [|done]. by rewrite Hos in H.
  - unfold save_https_value. destruct os eqn:Hos; [|rewrite <- Hos; by apply (file_save_inv HttpsItem)|by intros [= <- <-]].
    intros H%(kc_save_inv HttpsItem); [|done]. by rewrite Hos in H.
  - unfold save_relay_value. destruct os eqn:Hos; [|rewrite <- Hos; by apply (file_save_inv RelayItem)|by intros [= <- <-]].
    intros H%(kc_save_inv RelayItem); [|done]. by rewrite Hos in H.
Qed.

(** Clearing the key chain, where there is one. *)
Lemma clear_kc_inv s r s' : match os with MacOs => clear_keychain_key kc_fault | _ => st_ret (Ok tt) end s = (r, s') ->
  vault_world s' = vault_world s /\ (forall j, j <> RuntimeKeyItem -> peek s' j = peek s j)
  /\ (os = MacOs -> r = Some (Ok tt) -> calm s RuntimeKeyItem -> peek s' RuntimeKeyItem = None).
Proof using Type.
  unfold Vault.peek, calm_vault. destruct os; [|by intros [= <- <-]..]. unfold clear_keychain_key, st_bind, kc_delete. intros H.
  destruct (kc_fault (KcDelete runtime_key_name) s) as [e|] eqn:F; [|destruct (keychain s !! runtime_key_name) eqn:K]; injection H as <- <-.
  - split_and!; [done..|]. intros _. destruct (Z.eqb_spec (kc_code e) not_found); [|done]. intros _ C.
    destruct (C _ e (or_intror eq_refl) F). done.
  - split_and!; [done|..]; cbn.
    + intros j Hj. apply lookup_delete_ne. by apply (item_paths_differ base RuntimeKeyItem j).
    + intros _ _ _. apply lookup_delete_eq.
  - by split_and!.
Qed.

(** Removing the file of the runtime key, if it is found. *)
Lemma clear_file_inv s r s' :
  st_try (on_world (runtime_key_file P)) (fun path =>
    st_bind (on_world (path_exists path)) (fun found : bool =>
      if found then on_world (fs_map_err (fun e => "清除 Runtime Key 失败：" ++ io_display e) (remove_file path)) else st_ret (Ok tt))) s = (r, s') ->
  keychain s' = keychain s /\ (forall j, j <> RuntimeKeyItem -> peek s' j = peek s j)
  /\ (os = WindowsOs -> r = Some (Ok tt) -> calm s RuntimeKeyItem -> peek s' RuntimeKeyItem = None).
Proof using Hbase.
  intros [[H ->]|[(e & H & ->)|(p & s1 & H & Hk)]]%st_try_inv; apply (sealed_file_inv RuntimeKeyItem) in H as (U & I & Ep);
    pose proof (untouched_peek base os unseal _ _ U) as Hp; destruct U as [K F]; [by split..|].
  rewrite (Ep p eq_refl) in Hk.
  apply st_bind_inv in Hk as [[H1 ->]|(found & s2 & H1 & Hk)]; apply found_inv in H1 as [U1 N];
    pose proof (untouched_peek base os unseal _ _ U1) as Hp1; destruct U1 as [K1 F1];
    [split_and!; [congruence|by intros j _; rewrite Hp1, Hp|done]|].
  destruct found.
  - apply on_world_inv in Hk as (w & Hk & ->). apply fs_map_err_inv in Hk as (r0 & Hk & ->).
    pose proof (remove_file_only _ _ _ _ Hk) as (_ & _ & Hother).
    split; [cbn; congruence|]. split.
    + intros j Hj. rewrite <- Hp, <- Hp1. unfold Vault.peek. destruct os; [done| |done]. cbn. rewrite Hother; [done|].
      by apply (item_paths_differ base j RuntimeKeyItem).
    + intros Hos Hr _. unfold Vault.peek. rewrite Hos. cbn.
      apply remove_file_exact in Hk as [[-> ->]|[Hne _]]; [by rewrite lookup_delete_eq|]. by destruct r0 as [[[]|]|].
  - injection Hk as <- <-. split; [congruence|]. split; [by intros j _; rewrite Hp1, Hp|].
    intros Hos _ C. rewrite Hp1. apply N; [done| |done]. unfold calm_vault in *. rewrite Hos in C |- *. by rewrite I.
Qed.

Lemma vault_clear_inv s r s' : clear_runtime_key P os kc_fault s = (r, s') ->
  (forall j, j <> RuntimeKeyItem -> peek s' j = peek s j)
  /\ (r = Some (Ok tt) -> calm s RuntimeKeyItem -> peek s' RuntimeKeyItem = None).
Proof using Hbase.
  unfold clear_runtime_key. intros [[H ->]|[(e & H & ->)|([] & s1 & H & Hk)]]%st_try_inv; apply clear_kc_inv in H as (W & L & D); [by split..|].
  apply clear_file_inv in Hk as (K & L1 & D1). split; [intros j Hj; by rewrite L1, L|].
  intros Hr C. destruct os eqn:Hos.
  - unfold Vault.peek in D |- *. rewrite K. by apply D.
  - apply D1; [done..|]. unfold calm_vault in *. by rewrite W.
  - done.
Qed.

#[export] Instance vault_keeps_items :
  KeepsItems (vault_load P os kc_fault is_utf8 powershell) (vault_save P os kc_fault powershell) (clear_runtime_key P os kc_fault) peek calm.
Proof using Hbase Hdpapi Htext.
  split.
  - intros i s r s' [U _]%vault_load_inv. by apply untouched_peek.
  - intros i s o s' [_ R]%vault_load_inv C. by apply R.
  - intros i v s r s' [L _]%vault_save_inv. done.
  - intros i v s s' [_ R]%vault_save_inv. by apply R.
  - intros s r s' [L _]%vault_clear_inv. done.
  - intros s s' [_ R]%vault_clear_inv C. by apply R.
Qed.
End VaultProps.

(** ** What a client of a store may rely on *)

Inductive VaultOp := LoadItem (i : Item) | SaveItem (i : Item) (value : string) | ClearKey.

Definition replaces (i : Item) (op : VaultOp) : Prop :=
  match op with LoadItem _ => False | SaveItem j _ => j = i | ClearKey => i = RuntimeKeyItem end.

Section Client.
Context (load : Item -> St Vault (Result (option string) string)) (save : Item -> string -> St Vault (Result unit string))
        (clear : St Vault (Result unit string)).

Definition vault_run (op : VaultOp) (s : Vault) : Vault :=
  match op with LoadItem i => (load i s).2 | SaveItem i v => (save i v s).2 | ClearKey => (clear s).2 end.

Context (peek : Vault -> Item -> option string) (calm : Vault -> Item -> Prop) {Hkeeps : KeepsItems load save clear peek calm}.

Lemma runs_keep i ops s : Forall (fun op => ~ replaces i op) ops -> peek (fold_left (fun s op => vault_run op s) ops s) i = peek s i.
Proof using Hkeeps.
  revert s. induction ops as [|op ops IH]; intros s; [done|]. intros [Hop Hops]%Forall_cons. cbn [fold_left]. rewrite IH by done.
  destruct op as [j|j v|]; unfold vault_run; cbn in Hop.
  - by eapply load_leaves, surjective_pairing.
  - eapply save_leaves; [apply surjective_pairing|]. by intros ->.
  - eapply clear_leaves; [apply surjective_pairing|done].
Qed.
End Client.

(** ** What was saved is what is loaded *)

(** C10. On every platform, a secret that was saved is the one a later load answers, whatever
    items are loaded or saved, and whether or not the runtime key is cleared, in between, as
    long as nothing replaces the item itself; and after the runtime key was cleared, no load
    answers one until it is saved again. *)
Theorem secret_survives (P : Platform) (base : string) (Hbase : base_dir P = Ok base) (os : Os)
  (kc_fault : KcOp -> Vault -> option KcError) (is_utf8 : string -> bool) (powershell : Program)
  (seal : string -> string) (unseal : string -> option string) (Hdpapi : Dpapi powershell seal unseal)
  (Htext : forall sealed text, unseal sealed = Some text -> from_utf8 P text = text)
  (s s1 : Vault) (ops : list VaultOp) (i : Item) (Hops : Forall (fun op => ~ replaces i op) ops) :
  let load := vault_load P os kc_fault is_utf8 powershell in
  let save := vault_save P os kc_fault powershell in
  let clear := clear_runtime_key P os kc_fault in
  let s2 := fold_left (fun s op => vault_run load save clear op s) ops s1 in
  forall o s3, calm_vault base os kc_fault s2 i -> load i s2 = (Some (Ok o), s3) ->
  (forall v, save i v s = (Some (Ok tt), s1) -> o = Some v)
  /\ (i = RuntimeKeyItem -> calm_vault base os kc_fault s i -> clear s = (Some (Ok tt), s1) -> o = None).
Proof.
  intros load save clear s2 o s3 C H.
  pose proof (vault_keeps_items P base Hbase os kc_fault is_utf8 powershell seal unseal Htext) as Hkeeps.
  apply load_answers in H as ->; [|done]. subst s2. rewrite (runs_keep load save clear _ _ i ops s1 Hops). split.
  - intros v Hv. by eapply save_stores.
  - intros -> Cs Hc. by eapply clear_drops.
Qed.

(** ** A look that fails reads as an absent key

    [is_file] is false when the file cannot be looked at: the key is there, and the caller is
    told to make a new one. *)
Lemma path_exists_faulty p w e (found : bool) w' : path_exists p w = (Some found, w') -> io_fault w (ExistsFile p) = Some e -> found = false.
Proof.
  intros [[_ ?]|(r & w1 & H & [= <- <-])]%fs_bind_inv He; [done|]. unfold fs_op in H.
  destruct (ops_left w) as [[|]|]; [done|..]; rewrite He in H; by injection H as <- _.
Qed.

Lemma unreadable_key_looks_missing P base kc_fault is_utf8 powershell unseal s v e r s' : base_dir P = Ok base ->
  peek base WindowsOs unseal s MonitorItem = Some v ->
  io_fault (vault_world s) (CreateDirAll (base ++ "/state")) = None ->
  io_fault (vault_world s) (ExistsFile (item_path base MonitorItem)) = Some e ->
  load_monitor_master_key P WindowsOs kc_fault is_utf8 powershell s = (Some r, s') -> r = Ok None.
Proof.
  intros Hbase _ Hdir He [[_ ?]|[(e' & H & [= ->])|(p & s1 & H & Hk)]]%st_try_inv; [done| |];
    pose proof (sealed_file_inv P base Hbase MonitorItem _ _ _ H) as (_ & I & Ep); apply on_world_inv in H as (w & H & ->).
  - unfold monitor_master_file, sealed_file in H. rewrite Hbase in H. apply fs_try_inv in H as [[_ ?]|[(e1 & H & _)|(dir & w1 & _ & [=])]]; [done|].
    by apply state_dir_ok in H as [? _].
  - rewrite (Ep p eq_refl) in Hk. cbn in I. apply st_bind_inv in Hk as [[_ ?]|(found & s2 & H1 & Hk)]; [done|].
    apply on_world_inv in H1 as (w2 & H1 & ->). cbn in H1.
    assert (found = false) as -> by (apply (path_exists_faulty _ _ e _ _ H1); by rewrite I). by injection Hk as <- _.
Qed.

(** ** The theorem at a store of each kind *)

(** A path of the environment, taken apart at its last separator. *)
Fixpoint split_path (s : string) : option (string * string) :=
  match s with
  | "" => None
  | String a s =>
      match split_path s with
      | Some (dir, name) => Some (String a dir, name)
      | None => if Ascii.eqb a "/" then Some ("", s) else None
      end
  end.

Lemma split_path_none s : contains "/" s = false -> split_path s = None.
Proof.
  induction s as [|a s IH]; [done|]. cbn [contains split_path]. intros [Hs H]%orb_false_iff. rewrite (IH H).
  destruct (Ascii.eqb_spec a "/") as [->|]; [|done]. by destruct s.
Qed.

Lemma split_path_last d n : contains "/" n = false -> split_path (d ++ "/" ++ n) = Some (d, n).
Proof. intros Hn. induction d as [|a d IH]; cbn; [by rewrite split_path_none|]. cbn in IH. by rewrite IH. Qed.

(** DPAPI that marks what it seals. *)
Definition sample_seal (secret : string) : string := "sealed:" ++ secret.
Definition sample_unseal (sealed : string) : option string := Text.strip_prefix "sealed:" sealed.
Definition sample_powershell : Program := fun script env w =>
  match env !! "CHATX_SECRET_FILE" ≫= split_path with
  | None => (Err "no file", w)
  | Some (dir, name) =>
      let p := {| parent := Some dir; file_name := name |} in
      if String.eqb script protect_script
      then (Ok {| success := true; stdout := ""; stderr := "" |},
            set_files (<[p := sample_seal (default "" (env !! "CHATX_SECRET"))]> (files w)) w)
      else match files w !! p ≫= sample_unseal with
           | Some secret => (Ok {| success := true; stdout := secret; stderr := "" |}, w)
           | None => (Ok {| success := false; stdout := ""; stderr := "cannot unseal" |}, w)
           end
  end.

Lemma plain_file_split p : plain_file p -> exists dir name, p = {| parent := Some dir; file_name := name |} /\ split_path (path_display p) = Some (dir, name).
Proof.
  intros (dir & name & -> & Hd & Hn). exists dir, name. split; [done|]. cbn. destruct dir as [|a dir]; [done|].
  by apply (split_path_last (String a dir)).
Qed.

#[export] Instance sample_dpapi : Dpapi sample_powershell sample_seal sample_unseal.
Proof.
  split; [done|..]; unfold sample_powershell.
  - intros env w secret p (dir & name & -> & Hp)%plain_file_split Es Ef. rewrite Ef. cbn [mbind option_bind]. rewrite Hp. cbv beta iota.
    change (String.eqb protect_script protect_script) with true. cbv iota. rewrite Es. split; [|intros o [= <-] _; apply lookup_insert_eq].
    intros q Hq. cbn [files set_files]. by rewrite lookup_insert_ne.
  - intros env w p (dir & name & -> & Hp)%plain_file_split Ef. rewrite Ef. cbn [mbind option_bind]. rewrite Hp. cbv beta iota.
    change (String.eqb unprotect_script protect_script) with false. cbv iota.
    destruct (files w !! _ ≫= sample_unseal) as [secret|] eqn:E; (split; [done|]); intros o [= <-]; [|done]. intros _.
    apply bind_Some in E as (sealed & E & Hu). by exists sealed.
Qed.

Definition sample_vault : Vault := {| vault_world := healthy ∅; keychain := ∅ |}.
Definition sample_vault_ops : list VaultOp := [SaveItem RelayItem "{}"; LoadItem MonitorItem; ClearKey; LoadItem RuntimeKeyItem].

(** On this platform the key is loaded after these operations. *)
Definition sample_survives (os : Os) : Prop :=
  let load := vault_load sample_platform os (fun _ _ => None) (fun _ => true) sample_powershell in
  let save := vault_save sample_platform os (fun _ _ => None) sample_powershell in
  let clear := clear_runtime_key sample_platform os (fun _ _ => None) in
  let out := save MonitorItem "k1" sample_vault in
  let s2 := fold_left (fun s op => vault_run load save clear op s) sample_vault_ops out.2 in
  exists o, (load MonitorItem s2).1 = Some (Ok o) /\ o = Some "k1".

Lemma secret_survives_witness : sample_survives WindowsOs /\ sample_survives MacOs.
Proof.
  assert (forall os, os <> OtherOs -> sample_survives os) as W; [|split; apply W; discriminate].
  intros os Hos. cbv delta [sample_survives]. cbv beta. intros load save clear out s2.
  assert ((load MonitorItem s2).1 = Some (Ok (Some "k1"))) as H by (destruct os; [vm_compute; reflexivity..|by destruct Hos]).
  assert (out = (Some (Ok tt), out.2)) as Hout by (destruct os; [vm_compute; reflexivity..|by destruct Hos]).
  exists (Some "k1"). split; [exact H|].
  destruct (secret_survives sample_platform "/home/u" eq_refl os (fun _ _ => None) (fun _ => true) sample_powershell sample_seal sample_unseal
    sample_dpapi ltac:(intros ? ? _; reflexivity) sample_vault out.2 sample_vault_ops MonitorItem
    ltac:(repeat constructor; cbn; discriminate || (intros []))
    (Some "k1") (load MonitorItem s2).2) as [Hs _].
  - destruct os; vm_compute; (reflexivity || exact I || (intros; discriminate)).
  - rewrite <- H. apply surjective_pairing.
  - exact (Hs "k1" Hout).
Defined.
