(* ===== verification/Power.v ===== *)
(** * Power and permissions ([src-tauri/src/platform_commands.rs], [main.rs])

    Keeping a closed Mac awake, which takes commands run as administrator and a watchdog that
    undoes them when the application ends; the folders and keys macOS guards. *)

From S2P Require Export Host MonitorHttp.
From stdpp Require Import pretty.
Local Open Scope string_scope.

(** [pmset_disables_sleep] *)
Definition pmset_disables_sleep (text : string) : bool :=
  existsb (fun line => match split_whitespace line with
                       | "SleepDisabled" :: "1" :: _ | "disablesleep" :: "1" :: _ => true
                       | _ => false
                       end) (str_lines text).

(** [value.replace('\'', "'\\''")] *)
Fixpoint escape_quotes (s : string) : string :=
  match s with
  | EmptyString => ""
  | String a s => if Ascii.eqb a "'" then "'\''" ++ escape_quotes s else String a (escape_quotes s)
  end.
Definition shell_quote (value : string) : string := "'" ++ escape_quotes value ++ "'".

(** A shell variable between double quotes. *)
Definition dq (name : string) : string := String "034" ("$" ++ name ++ String "034" "").
Definition still_owner : string :=
  "CURRENT=$(/bin/cat " ++ dq "MARKER" ++ " 2>/dev/null || true); [ " ++ dq "CURRENT" ++ " = " ++ dq "OWNER" ++ " ] || exit 0; ".

(** The script the watchdog runs, and what is run as administrator. *)
Definition watchdog_script (pid marker owner : string) : string :=
  "PID=" ++ pid ++ "; MARKER=" ++ shell_quote marker ++ "; OWNER=" ++ shell_quote owner
  ++ "; while /bin/kill -0 " ++ dq "PID" ++ " 2>/dev/null; do " ++ still_owner ++ "/bin/sleep 2; done; /bin/sleep 1; " ++ still_owner
  ++ "/usr/bin/pmset -a disablesleep 0 >/dev/null 2>&1; /bin/rm -f " ++ dq "MARKER".
Definition enabling_command (watchdog : string) : string :=
  "set -e; /usr/bin/pmset -a disablesleep 1; /usr/bin/nohup /bin/sh -c " ++ shell_quote watchdog ++ " >/dev/null 2>&1 </dev/null &".
Definition disabling_command : string := "/usr/bin/pmset -a disablesleep 0".

(** What opening a directory for reading gives. *)
Inductive ReadDir := DirOpened | DirDenied | DirMissing | DirFailed (message : string).

Section Power.
(** Whether this is macOS; the answers of [pmset -g], of the shell run as administrator and of
    [ the process and the instant in nanoseconds; the home directory; opening a
    directory; the store of the runtime key; the battery elsewhere; and opening an address. *)
Context (P : Platform) (macos : bool) (pmset : Desk -> Result Output string) (osascript : string -> Desk -> Result Output string)
        (process_id : N) (nanos : Desk -> N) (env_home : option string) (read_dir : string -> Desk -> ReadDir)
        (unprotect_secret : Desk -> Result string string) (os_name : string) (open_that : string -> Desk -> Result unit string).

Definition clamshell_marker_path : Fs (Result Path string) :=
  dir <-fs? state_dir (base_dir P) ;; fs_ret (Ok {| parent := Some dir; file_name := "clamshell-awake.owner" |}).

Definition owned_by_current_process : Fs bool :=
  path <-fs clamshell_marker_path ;;
  match path with
  | Err _ => fs_ret false
  | Ok path =>
      value <-fs read_to_string path ;;
      fs_ret (match value with Ok value => starts_with (pretty process_id ++ ":") (trim value) | Err _ => false end)
  end.

Definition awake_enabled : App (Result bool string) :=
  output <-app? app_get (fun d => command_output (pmset d)) ;;
  app_ret (if negb (success output) then Err ("读取 macOS 电源设置失败：" ++ output_text (from_utf8 P) output)
           else Ok (pmset_disables_sleep (from_utf8 P (stdout output)))).

Definition run_admin_shell (command : string) : App (Result unit string) := fun d =>
  let d' := set_privileged (privileged d ++ [command])%list d in
  (Some (match command_output (osascript command d) with
         | Err e => Err e
         | Ok output =>
             if success output then Ok tt
             else
               let detail := output_text (from_utf8 P) output in
               if contains "(-128)" detail || contains "user canceled" (to_ascii_lowercase detail)
               then Err "已取消管理员授权，合盖运行设置未更改。"
               else Err ("修改 macOS 合盖运行设置失败：" ++ detail)
         end), d').

Definition owner_of (d : Desk) : string := pretty process_id ++ ":" ++ pretty (nanos d).

Definition not_applied : string := "macOS 未应用合盖运行设置，请检查系统电源策略。".

(** [let _ = fs::remove_file(&marker)] *)
Definition remove_marker (marker : Path) : App unit := _ <-app on_files (remove_file marker) ;; app_ret tt.

Definition enable_with_watchdog : App (Result unit string) :=
  marker <-app? on_files clamshell_marker_path ;;
  owner <-app app_get owner_of ;;
  _ <-app? on_files (fs_map_err (fun e => "记录合盖运行所有权失败：" ++ io_display e) (write_file marker (owner ++ String "010" ""))) ;;
  ran <-app run_admin_shell (enabling_command (watchdog_script (pretty process_id) (path_display marker) owner)) ;;
  match ran with
  | Err error => _ <-app remove_marker marker ;; app_ret (Err error)
  | Ok _ =>
      enabled <-app? awake_enabled ;;
      if negb enabled then _ <-app remove_marker marker ;; app_ret (Err not_applied)
      else app_ret (Ok tt)
  end.

Definition power_page (supported awake managed : bool) : Value :=
  Object [("supported", Bool supported); ("clamshellAwake", Bool awake); ("managedByChatX", Bool managed)].

Definition get_power_settings : App (Result Value string) :=
  if macos
  then
    awake <-app? awake_enabled ;;
    managed <-app on_files owned_by_current_process ;;
    app_ret (Ok (power_page true awake managed))
  else app_ret (Ok (power_page false false false)).

(** What is done about the difference between what is and what is asked. *)
Definition apply_clamshell (enabled before : bool) (marker : Path) : App (Result unit string) :=
  if enabled
  then if negb before then enable_with_watchdog else app_ret (Ok tt)
  else
    _ <-app? (if before then run_admin_shell disabling_command else app_ret (Ok tt)) ;;
    _ <-app remove_marker marker ;; app_ret (Ok tt).

Definition set_clamshell_awake (enabled : bool) : App (Result Value string) :=
  if macos
  then
    before <-app? awake_enabled ;;
    marker <-app? on_files clamshell_marker_path ;;
    _ <-app? apply_clamshell enabled before marker ;;
    actual <-app? awake_enabled ;;
    if negb (Bool.eqb actual enabled) then app_ret (Err not_applied) else get_power_settings
  else app_ret (Err "合盖后保持运行当前仅支持 macOS。").

(** ** Permissions *)

Definition permission_item (id label status detail : string) : Value :=
  Object [("id", VString id); ("label", VString label); ("status", VString status); ("detail", VString detail)].

Definition permission_directory_result (id label path : string) (opened : ReadDir) : Value :=
  let '(status, detail) := match opened with
    | DirOpened => ("granted", "已允许访问 " ++ path)
    | DirDenied => ("denied", "macOS 拒绝访问 " ++ path)
    | DirMissing => ("unavailable", "目录不存在：" ++ path)
    | DirFailed error => ("error", "检查 " ++ path ++ " 失败：" ++ error)
    end in permission_item id label status detail.

Definition permission_page (supported : bool) (platform : string) (requested : bool) (items : list Value) (status detail : string) : Value :=
  Object [("supported", Bool supported); ("platform", VString platform); ("requested", Bool requested);
          ("items", Array items); ("fullDiskAccess", Object [("status", VString status); ("detail", VString detail)])].

Definition guarded_folders : list (string * string * string) :=
  [("desktop", "桌面文件夹", "Desktop"); ("documents", "文稿文件夹", "Documents"); ("downloads", "下载文件夹", "Downloads")].

(** [home.join(folder)] *)
Definition in_home (home folder : string) : string :=
  if is_empty home || ends_with "/" home then home ++ folder else home ++ "/" ++ folder.

Definition pending_permission_payload : Value :=
  permission_page true "macOS" false
    (map (fun '(id, label, folder) => permission_item id label "pending" (in_home (default "" env_home) folder)) guarded_folders
     ++ [permission_item "keychain" "macOS 钥匙串" (if key_saved P then "pending" else "notNeeded")
           (if key_saved P then "将验证已保存的 Runtime Key 访问权限" else "尚未保存 Runtime Key，无需授权")])
    "manual" "macOS 不允许应用静默授予“完全磁盘访问”，需要在系统设置中手动打开。".

Definition get_permission_center : App (Result Value string) :=
  if macos
  then
    cached <-app app_get (fun d => match lock (permission_results d) with Some (Some page) => Some page | _ => None end) ;;
    app_ret (Ok (default pending_permission_payload cached))
  else app_ret (Ok (permission_page false os_name false [] "notNeeded" "当前平台不使用 macOS TCC 文件夹授权。")).

(** The key chain is asked only when a key was saved. *)
Definition keychain_result : App (Result Value string) :=
  let item := permission_item "keychain" "macOS 钥匙串" in
  if key_saved P
  then
    _ <-app? on_files (secret_path P) ;;
    read <-app app_get unprotect_secret ;;
    app_ret (Ok (match read with
                 | Ok _ => item "granted" "已验证 ChatX 可读取保存的 Runtime Key"
                 | Err error => item "denied" error
                 end))
  else app_ret (Ok (item "notNeeded" "尚未保存 Runtime Key，无需授权")).

Definition request_all_permissions : App (Result Value string) :=
  if macos
  then
    match env_home with
    | None => app_ret (Err "无法定位当前 macOS 用户主目录。")
    | Some home =>
        folders <-app app_get (fun d => map (fun '(id, label, folder) =>
            let path := in_home home folder in permission_directory_result id label path (read_dir path d)) guarded_folders) ;;
        keychain <-app? keychain_result ;;
        let payload := permission_page true "macOS" true (folders ++ [keychain])%list "manual"
          "常用文件夹权限已集中触发；如需访问其他受保护位置，请在系统设置中为 ChatX 开启“完全磁盘访问”。" in
        _ <-app app_modify (fun d => set_permission_results (update_locked (fun _ => Some payload) (permission_results d)) d) ;;
        _ <-app app_log P "权限中心已完成常用 macOS 权限预授权检查" ;;
        app_ret (Ok payload)
    end
  else app_ret (Ok (permission_page false os_name true [] "notNeeded" "当前平台不需要 macOS 文件夹预授权。")).

(** [open::that] *)
Definition app_open (target failure : string) : App (Result unit string) := fun d =>
  (Some (map_err (fun e => failure ++ e) (open_that target d)), set_opened (opened d ++ [target])%list d).

Definition open_full_disk_access_settings : App (Result unit string) :=
  if macos
  then app_open "x-apple.systempreferences:com.apple.preference.security?Privacy_AllFiles" "打开 macOS 完全磁盘访问设置失败："
  else app_ret (Err "“完全磁盘访问”仅适用于 macOS。").
End Power.

(** ** Words of the shell *)

(** How the shell reads a word made of quoted parts: what is between single quotes stands for
    itself, and so does a character after a backslash. *)
Class ShellWord (read : string -> option string) : Prop := {
  read_end : read "" = Some "";
  read_quoted s rest : string_forall (fun a => negb (Ascii.eqb a "'")) s = true ->
    read ("'" ++ s ++ "'" ++ rest) = append s <$> read rest;
  read_escaped a rest : a <> "010"%char -> read (String "\" (String a rest)) = String a <$> read rest }.

Section Shell.
Context (read : string -> option string) `{!ShellWord read}.

Lemma read_quoted_from s init rest : string_forall (fun a => negb (Ascii.eqb a "'")) init = true ->
  read ("'" ++ (init ++ escape_quotes s) ++ "'" ++ rest) = append (init ++ s) <$> read rest.
Proof using Type*.
  revert init. induction s as [|a s IH]; intros init Hinit; cbn [escape_quotes].
  - rewrite !append_nil_r. by apply read_quoted.
  - destruct (Ascii.eqb a "'") eqn:Ha.
    + apply Ascii.eqb_eq in Ha as ->.
      trans (read ("'" ++ init ++ "'" ++ String "\" (String "'" ("'" ++ ("" ++ escape_quotes s) ++ "'" ++ rest)))).
      { f_equal. cbn [append]. f_equal. by rewrite <- append_assoc. }
      rewrite read_quoted, read_escaped, IH by done. destruct (read rest); cbn; [|done]. f_equal. by rewrite <- append_assoc.
    + replace (init ++ String a (escape_quotes s)) with ((init ++ String a "") ++ escape_quotes s) by by rewrite <- append_assoc.
      rewrite IH; [by rewrite <- append_assoc|]. rewrite string_forall_app, Hinit. cbn. by rewrite Ha.
Qed.

(** A quoted text is one word, and reads as that text, whatever is in it. *)
Lemma read_shell_quote v rest : read (shell_quote v ++ rest) = append v <$> read rest.
Proof using Type*.
  unfold shell_quote. rewrite <- !append_assoc. exact (read_quoted_from v "" rest eq_refl).
Qed.
End Shell.

(** ** Switching *)

Section PowerProps.
Context (P : Platform) (base : string) (Hbase : base_dir P = Ok base) (pmset : Desk -> Result Output string)
        (osascript : string -> Desk -> Result Output string) (process_id : N) (nanos : Desk -> N).
Local Abbreviation marker := {| parent := Some (base ++ "/state"); file_name := "clamshell-awake.owner" |}.
Local Abbreviation disk d := (files (desk_world d)).
Local Abbreviation switch := (set_clamshell_awake P true pmset osascript process_id nanos).
Local Abbreviation awake := (awake_enabled P pmset).
Local Abbreviation owner n := (pretty process_id ++ ":" ++ pretty (n : N)).
Local Abbreviation enabling n := (enabling_command (watchdog_script (pretty process_id) (path_display marker) (owner n))).

(** Only the marker is written, and these commands are run as administrator. *)
Definition powered (cmds : list string) (d d' : Desk) : Prop :=
  privileged d' = (privileged d ++ cmds)%list /\ io_fault (desk_world d') = io_fault (desk_world d)
  /\ forall q, q <> marker -> disk d' !! q = disk d !! q.

#[local] Instance powered_preorder : PreOrder (powered []).
Proof using Type.
  split; [intros d; split_and!; [by rewrite app_nil_r|done..]|]. intros d1 d2 d3 (P1 & I1 & F1) (P2 & I2 & F2).
  split_and!; [by rewrite P2, P1, !app_nil_r|congruence|]. intros q Hq. by rewrite F2, F1.
Qed.

Lemma powered_then c1 c2 d1 d2 d3 : powered c1 d1 d2 -> powered c2 d2 d3 -> powered (c1 ++ c2) d1 d3.
Proof using Type.
  intros (P1 & I1 & F1) (P2 & I2 & F2). split_and!; [by rewrite P2, P1, app_assoc|congruence|]. intros q Hq. by rewrite F2, F1.
Qed.

Lemma powered_then' cmds d1 d2 d3 : powered cmds d1 d2 -> powered [] d2 d3 -> powered cmds d1 d3.
Proof using Type. intros H1 H2. rewrite <- (app_nil_r cmds). by eapply powered_then. Qed.

Lemma powered_files {A} (m : Fs A) : (forall q, q <> marker -> spares q m) -> keeps_faults m -> does (powered []) (on_files m).
Proof using Type.
  intros Hm Hk d res d' (w & H & ->)%on_files_inv. split_and!; [by rewrite app_nil_r|by eapply Hk|]. intros q Hq. by eapply Hm.
Qed.

Lemma clamshell_path_inv d res d' : on_files (clamshell_marker_path P) d = (res, d') ->
  powered [] d d' /\ disk d' = disk d /\ forall p, res = Some (Ok p) -> p = marker.
Proof using Type*.
  intros (w & H & ->)%on_files_inv. unfold clamshell_marker_path in H. rewrite Hbase in H.
  apply fs_try_inv in H as [[H ->]|[(e & H & ->)|(dir & w1 & H & Hk)]];
    apply state_dir_inv in H as (F & I & _ & E); try (injection Hk as <- <-);
    (split; [split_and!; [by rewrite app_nil_r|done|intros; cbn; by rewrite F]|split; [done|]]); [done..|].
  intros p [= <-]. by rewrite (E dir eq_refl).
Qed.

Lemma awake_pure d res d' : awake d = (res, d') -> d' = d /\ exists r, res = Some r.
Proof using Type.
  unfold awake_enabled. intros [[[= ?] _]|[(e & [= ? <-] & ->)|(o & d1 & [= ? <-] & [= <- <-])]]%app_try_inv; by eauto.
Qed.

Lemma remove_marker_inv d res d' : remove_marker marker d = (res, d') ->
  powered [] d d' /\ (res = Some tt -> io_fault (desk_world d) (RemoveFile marker) = None -> disk d' !! marker = None).
Proof using Type.
  assert (does (powered []) (on_files (remove_file marker))) as Hdoes
    by (apply powered_files; [intros q Hq; by apply spares_remove|apply keeps_faults_op]).
  unfold remove_marker. intros [[H ->]|(r & d1 & H & [= <- <-])]%app_bind_inv; apply Hdoes in H as Hp; (split; [exact Hp|]); [done|].
  intros _ Hio. apply on_files_inv in H as (w & H & ->). apply fs_op_fine in H as [H _]; [|done]. cbn.
  destruct (disk d !! marker) eqn:Hm; injection H as _ <-; [by rewrite lookup_delete_eq|done].
Qed.

Lemma admin_inv command d res d' : run_admin_shell P osascript command d = (res, d') ->
  powered [command] d d' /\ disk d' = disk d /\ exists r, res = Some r.
Proof using Type. intros [= <- <-]. split_and!; [done..|by eexists]. Qed.

(** Turning it on: at most one command is run, with the marker of this process written
    before; an error takes the marker back. *)
Lemma enable_inv d res d' : enable_with_watchdog P pmset osascript process_id nanos d = (res, d') ->
  exists cmds, powered cmds d d' /\ (cmds = [] \/ exists n, cmds = [enabling n])
  /\ (res = Some (Ok tt) -> exists n, cmds = [enabling n] /\ disk d' !! marker = Some (owner n ++ String "010" "")).
Proof using Type*.
  unfold enable_with_watchdog. intros H.
  apply app_try_inv in H as [[H ->]|[(e & H & ->)|(p & d1 & H & Hk)]]; apply clamshell_path_inv in H as (H1 & _ & Hp);
    [exists []; split_and!; [done|by left|done]..|].
  rewrite (Hp p eq_refl) in Hk. clear Hp p. unfold app_bind at 1, app_get at 1 in Hk.
  assert (does (powered []) (on_files (fs_map_err (fun e => "记录合盖运行所有权失败：" ++ io_display e)
    (write_file marker (owner_of process_id nanos d1 ++ String "010" ""))))) as Hw.
  { apply powered_files; [intros q Hq; apply spares_map_err; by apply spares_write|apply keeps_faults_map_err, keeps_faults_op]. }
  apply app_try_inv in Hk as [[H ->]|[(e & H & ->)|([] & d2 & H & Hk)]]; apply Hw in H as H2;
    [exists []; split_and!; [by etrans|by left|done]..|].
  assert (disk d2 !! marker = Some (owner (nanos d1) ++ String "010" "")) as Hm.
  { apply on_files_inv in H as (w & H & ->). apply fs_map_err_inv in H as (r & H & Hr).
    apply write_file_inv in H as (_ & _ & Hm). apply Hm. by destruct r as [[[]|]|]. }
  assert (powered [] d d2) as H12 by by etrans. clear H Hw.
  apply app_bind_inv in Hk as [[H ->]|(ran & d3 & H & Hk)]; apply admin_inv in H as (H3 & F3 & r & Hr); [done|].
  pose proof (powered_then _ _ _ _ _ H12 H3) as H13. cbn [app] in H13. change (owner_of process_id nanos d1) with (owner (nanos d1)) in *.
  assert (forall d4 m, remove_marker marker d3 = (m, d4) -> powered [enabling (nanos d1)] d d4) as Hremove
    by (intros d4 m Hd; apply remove_marker_inv in Hd as [Hd _]; exact (powered_then _ _ _ _ _ H13 Hd)).
  exists [enabling (nanos d1)].
  assert ([enabling (nanos d1)] = [] \/ exists n, [enabling (nanos d1)] = [enabling n]) as Hcmds by (right; by eexists).
  destruct ran as [[]|error].
  - apply app_try_inv in Hk as [[H ->]|[(e & H & ->)|(b & d4 & H & Hk)]]; apply awake_pure in H as [-> _]; [by split_and!..|].
    destruct (negb b).
    + apply app_bind_inv in Hk as [[H ->]|(u & d5 & H & [= <- <-])]; split_and!; by eauto.
    + injection Hk as <- <-. split_and!; [done..|]. intros _. exists (nanos d1). by rewrite F3.
  - apply app_bind_inv in Hk as [[H ->]|(u & d5 & H & [= <- <-])]; split_and!; by eauto.
Qed.

Local Abbreviation commanded enabled before cmds :=
  (cmds = [] \/ (enabled = false /\ before = true /\ cmds = [disabling_command])
   \/ (enabled = true /\ before = false /\ exists n, cmds = [enabling n])).

Lemma clamshell_apply_inv enabled before d res d' :
  apply_clamshell P pmset osascript process_id nanos enabled before marker d = (res, d') ->
  exists cmds, powered cmds d d' /\ commanded enabled before cmds
  /\ (res = Some (Ok tt) ->
        (enabled = true -> cmds <> [] -> exists n, disk d' !! marker = Some (owner n ++ String "010" ""))
        /\ (enabled = false -> io_fault (desk_world d) (RemoveFile marker) = None -> disk d' !! marker = None)).
Proof using Type*.
  unfold apply_clamshell. intros H. destruct enabled.
  { destruct before; cbn [negb] in H; [injection H as <- <-; exists []; split_and!; [done|by left|by split]|].
    apply enable_inv in H as (cmds & H & Hc & Hok). exists cmds. split_and!; [done| |].
    - destruct Hc as [->|[n ->]]; [by left|right; right; eauto].
    - intros Hr. split; [|done]. intros _ _. destruct (Hok Hr) as (n & _ & Hn). by exists n. }
  assert (forall r d1, (if before then run_admin_shell P osascript disabling_command else app_ret (Ok tt)) d = (r, d1) ->
    exists cmds, powered cmds d d1 /\ commanded false before cmds) as Hrun.
  { intros r d1 Hr. destruct before; [|injection Hr as <- <-; exists []; split; [done|by left]].
    apply admin_inv in Hr as (Hr & _). exists [disabling_command]. split; [done|]. right; left. by split_and!. }
  apply app_try_inv in H as [[H ->]|[(e & H & ->)|([] & d1 & H & Hk)]]; apply Hrun in H as (cmds & H & Hc); exists cmds;
    [by split_and!..|].
  apply app_bind_inv in Hk as [[Hk ->]|(u & d2 & Hk & [= <- <-])]; apply remove_marker_inv in Hk as [H2 Hm];
    pose proof (powered_then _ _ _ _ _ H H2) as H3; rewrite app_nil_r in H3; (split_and!; [done..|]); [done|].
  intros _. split; [done|]. intros _ Hio. destruct u. apply Hm; [done|]. by rewrite (proj1 (proj2 H)).
Qed.

Lemma get_power_inv d res d' : get_power_settings P true pmset process_id d = (res, d') ->
  powered [] d d' /\ disk d' = disk d
  /\ forall page, res = Some (Ok page) -> exists b managed, (awake d).1 = Some (Ok b) /\ page = power_page true b managed.
Proof using Type*.
  unfold get_power_settings. intros [[H ->]|[(e & H & ->)|(b & d1 & H & Hk)]]%app_try_inv; pose proof H as Ha;
    apply awake_pure in H as [-> _]; [split_and!; done..|].
  assert (forall q, spares q (owned_by_current_process P process_id)) as Hsp.
  { intros q. unfold owned_by_current_process, clamshell_marker_path, state_dir. solve_spares. }
  assert (keeps_faults (owned_by_current_process P process_id)) as Hkf.
  { unfold owned_by_current_process, clamshell_marker_path, state_dir. solve_keeps_faults. }
  apply app_bind_inv in Hk as [[H ->]|(managed & d2 & H & [= <- <-])];
    pose proof (powered_files _ (fun q _ => Hsp q) Hkf _ _ _ H) as Hp; apply on_files_inv in H as (w & H & ->);
    (split; [done|]; split; [apply map_eq; intros q; by eapply Hsp|]); [done|].
  intros page [= <-]. exists b, managed. by rewrite Ha.
Qed.

Lemma power_switch_inv enabled d res d' : switch enabled d = (res, d') ->
  exists cmds, powered cmds d d'
  /\ (((awake d).1 = Some (Ok enabled) -> cmds = [])
      /\ (cmds = [] \/ (enabled = false /\ cmds = [disabling_command]) \/ (enabled = true /\ exists n, cmds = [enabling n])))
  /\ forall page, res = Some (Ok page) ->
       (exists d1, privileged d1 = privileged d' /\ (awake d1).1 = Some (Ok enabled))
       /\ (exists managed, page = power_page true enabled managed)
       /\ (enabled = true -> cmds <> [] -> exists n, disk d' !! marker = Some (owner n ++ String "010" ""))
       /\ (enabled = false -> io_fault (desk_world d) (RemoveFile marker) = None -> disk d' !! marker = None).
Proof using Type*.
  unfold set_clamshell_awake. intros H.
  apply app_try_inv in H as [[H ->]|[(e & H & ->)|(before & d1 & H & Hk)]]; pose proof H as Hb; apply awake_pure in H as [-> _];
    [exists []; split_and!; [done|done|by left|done]..|].
  apply app_try_inv in Hk as [[H ->]|[(e & H & ->)|(p & d1 & H & Hk)]]; apply clamshell_path_inv in H as (H1 & F1 & Hm);
    [exists []; split_and!; [exact H1|done|by left|done]..|].
  rewrite (Hm p eq_refl) in Hk. clear Hm p.
  assert (forall cmds d2, powered cmds d1 d2 -> powered cmds d d2) as H02 by (intros cmds d2 H2; exact (powered_then _ _ _ _ _ H1 H2)).
  assert (forall cmds, commanded enabled before cmds -> ((awake d).1 = Some (Ok enabled) -> cmds = [])
      /\ (cmds = [] \/ (enabled = false /\ cmds = [disabling_command]) \/ (enabled = true /\ exists n, cmds = [enabling n]))) as Hcmds.
  { intros cmds Hc. rewrite Hb. split; [intros [= ->]|]; destruct Hc as [->|[(-> & Hbe & ->)|(-> & Hbe & n & ->)]]; by eauto 6. }
  apply app_try_inv in Hk as [[H ->]|[(e & H & ->)|([] & d2 & H & Hk)]]; apply clamshell_apply_inv in H as (cmds & H2 & Hc & Hok);
    exists cmds; [split; [exact (H02 _ _ H2)|split; [exact (Hcmds _ Hc)|done]]..|].
  apply app_try_inv in Hk as [[H ->]|[(e & H & ->)|(actual & d3 & H & Hk)]]; pose proof H as Ha; apply awake_pure in H as [-> _];
    [split; [exact (H02 _ _ H2)|split; [exact (Hcmds _ Hc)|done]]..|].
  destruct (Bool.eqb actual enabled) eqn:He; cbn [negb] in Hk; [|injection Hk as <- <-; split; [exact (H02 _ _ H2)|split; [exact (Hcmds _ Hc)|done]]].
  apply Bool.eqb_prop in He as ->. apply get_power_inv in Hk as (H3 & F3 & Hpage).
  split; [exact (H02 _ _ (powered_then' _ _ _ _ H2 H3))|split; [exact (Hcmds _ Hc)|]].
  intros page Hr. destruct (Hok eq_refl) as [Hon Hoff]. destruct (Hpage page Hr) as (b & managed & Hb' & ->).
  rewrite Ha in Hb'. injection Hb' as <-. rewrite F3. split_and!; [|by exists managed|done|].
  - exists d2. rewrite Ha. split; [|done]. by rewrite (proj1 H3), app_nil_r.
  - intros Hf Hio. apply Hoff; [done|]. by rewrite (proj1 (proj2 H1)).
Qed.

(** The switch to keep a closed Mac awake.  Nothing but the marker is written.  No command is
    run as administrator when the system already is as asked, and otherwise at most one: the
    fixed one to turn it off, or the one that turns it on with a watchdog for the marker of
    this process.  On success the system reported what was asked after the last command, and
    the page says so; turned on here, the marker names this process; turned off, there is no
    marker (when it can be removed). *)
Theorem power_switch_spec enabled d res d' : switch enabled d = (res, d') ->
  (forall q, q <> marker -> disk d' !! q = disk d !! q)
  /\ (exists cmds, privileged d' = (privileged d ++ cmds)%list
       /\ ((awake d).1 = Some (Ok enabled) -> cmds = [])
       /\ (cmds = [] \/ (enabled = false /\ cmds = [disabling_command]) \/ (enabled = true /\ exists n, cmds = [enabling n]))
       /\ forall page, res = Some (Ok page) ->
            (exists d1, privileged d1 = privileged d' /\ (awake d1).1 = Some (Ok enabled))
            /\ (exists managed, page = power_page true enabled managed)
            /\ (enabled = true -> cmds <> [] -> exists n, disk d' !! marker = Some (owner n ++ String "010" ""))
            /\ (enabled = false -> io_fault (desk_world d) (RemoveFile marker) = None -> disk d' !! marker = None)).
Proof using Type*.
  intros H. apply power_switch_inv in H as (cmds & (Hp & _ & Hf) & Hc & Hok). split; [exact Hf|].
  exists cmds. split_and!; [exact Hp|exact (proj1 Hc)|exact (proj2 Hc)|exact Hok].
Qed.
End PowerProps.

(** ** What the shell makes of the commands *)

Section Words.
Context (read : string -> option string) `{!ShellWord read}.

Lemma read_one_word value : read (shell_quote value) = Some value.
Proof using Type*.
  pose proof (read_shell_quote read value "") as H. rewrite read_end, !append_nil_r in H. rewrite H. cbn. by rewrite append_nil_r.
Qed.

(** C31. The command run as administrator hands one word to the second shell, which reads as the
    script of the watchdog, and in it the marker and its owner are one word each that reads as
    the path and the owner: whatever the names of the directories hold, quotes and dollar
    signs included, nothing of them is run as administrator. *)
Theorem administrator_words pid marker owner :
  let script := watchdog_script pid marker owner in
  exists word marker_word owner_word rest,
    enabling_command script = "set -e; /usr/bin/pmset -a disablesleep 1; /usr/bin/nohup /bin/sh -c " ++ word ++ " >/dev/null 2>&1 </dev/null &"
    /\ read word = Some script
    /\ script = "PID=" ++ pid ++ "; MARKER=" ++ marker_word ++ "; OWNER=" ++ owner_word ++ rest
    /\ read marker_word = Some marker /\ read owner_word = Some owner
    /\ (forall marker' owner', exists marker_word' owner_word',
          watchdog_script pid marker' owner' = "PID=" ++ pid ++ "; MARKER=" ++ marker_word' ++ "; OWNER=" ++ owner_word' ++ rest).
Proof using Type*.
  intros script. eexists (shell_quote script), (shell_quote marker), (shell_quote owner), _.
  split; [reflexivity|]. split; [apply read_one_word|]. split; [reflexivity|]. split; [apply read_one_word|]. split; [apply read_one_word|].
  intros marker' owner'. exists (shell_quote marker'), (shell_quote owner'). reflexivity.
Qed.
End Words.

(** A shell's word: quoted parts, escaped characters and plain characters; a blank or a
    character with a meaning of its own is no part of a word. *)
Fixpoint posix_word (quoted escaped : bool) (s : string) : option string :=
  match s with
  | EmptyString => if quoted || escaped then None else Some ""
  | String a s =>
      if quoted then if Ascii.eqb a "'" then posix_word false false s else String a <$> posix_word true false s
      else if escaped then if Ascii.eqb a "010" then posix_word false false s else String a <$> posix_word false false s
      else if Ascii.eqb a "'" then posix_word true false s
      else if Ascii.eqb a "\" then posix_word false true s
      else if existsb (Ascii.eqb a) [" "; "$"; "`"; "&"; ";"; "|"; "<"; ">"; "("; ")"; "010"; "009"; "034"]%char then None
      else String a <$> posix_word false false s
  end.

Lemma posix_quoted s rest : string_forall (fun a => negb (Ascii.eqb a "'")) s = true ->
  posix_word true false (s ++ "'" ++ rest) = append s <$> posix_word false false rest.
Proof.
  induction s as [|a s IH]; cbn; [intros _; by destruct (posix_word false false rest)|].
  intros [Ha Hs]%andb_prop. apply negb_true_iff in Ha. rewrite Ha. cbn in IH. rewrite (IH Hs). by destruct (posix_word false false rest).
Qed.

#[export] Instance posix_shell_word : ShellWord (posix_word false false).
Proof.
  split; [done| |].
  - intros s rest Hs. cbn. exact (posix_quoted s rest Hs).
  - intros a rest Ha. cbn. by apply Ascii.eqb_neq in Ha as ->.
Qed.

(** A directory named [o'brien; reboot]. *)
Lemma administrator_words_witness :
  exists word marker_word,
    enabling_command (watchdog_script "7" "/Users/o'brien; reboot" "7:9")
      = "set -e; /usr/bin/pmset -a disablesleep 1; /usr/bin/nohup /bin/sh -c " ++ word ++ " >/dev/null 2>&1 </dev/null &"
    /\ posix_word false false word = Some (watchdog_script "7" "/Users/o'brien; reboot" "7:9")
    /\ posix_word false false marker_word = Some "/Users/o'brien; reboot"
    /\ contains marker_word (watchdog_script "7" "/Users/o'brien; reboot" "7:9") = true
    /\ marker_word = "'/Users/o'\''brien; reboot'".
Proof.
  destruct (administrator_words (posix_word false false) "7" "/Users/o'brien; reboot" "7:9")
    as (word & _ & _ & _ & H1 & H2 & _ & _ & _ & _).
  exists word, "'/Users/o'\''brien; reboot'". split; [exact H1|]. split; [exact H2|]. vm_compute. auto.
Defined.

(** ** Witnesses *)

(** The system reports what the last command run as administrator asked for. *)
Definition sample_pmset (d : Desk) : Result Output string :=
  Ok {| success := true; stdout := match privileged d with [] => " SleepDisabled		0" | _ => " SleepDisabled		1" end; stderr := "" |}.
Definition sample_osascript (command : string) (d : Desk) : Result Output string := Ok {| success := true; stdout := ""; stderr := "" |}.

Lemma power_switch_spec_witness :
  let out := set_clamshell_awake sample_platform true sample_pmset sample_osascript 7 (fun _ => 9%N) true sample_stopped_desk in
  out.1 = Some (Ok (power_page true true true))
  /\ files (desk_world out.2) !! {| parent := Some "/home/u/state"; file_name := "clamshell-awake.owner" |} = Some ("7:9" ++ String "010" "")
  /\ exists command, privileged out.2 = [command] /\ contains "disablesleep 1" command = true.
Proof.
  intros out.
  destruct (power_switch_spec sample_platform "/home/u" eq_refl sample_pmset sample_osascript 7 (fun _ => 9%N) true
    sample_stopped_desk out.1 out.2 (surjective_pairing _)) as (_ & cmds & Hp & _ & Hc & _).
  split; [vm_compute; reflexivity|]. split; [vm_compute; reflexivity|].
  destruct Hc as [Hc|[[Hc _]|(_ & n & Hc)]]; [exfalso; rewrite Hc in Hp; vm_compute in Hp; discriminate Hp|discriminate Hc|].
  rewrite Hc in Hp. exists (enabling_command (watchdog_script "7" "/home/u/state/clamshell-awake.owner" ("7:" ++ pretty n))).
  split; [rewrite Hp; reflexivity|]. vm_compute. reflexivity.
Defined.
