(* ===== verification/Control.v ===== *)
(** * Remote control by the phone ([src-tauri/src/monitor_control.rs])

    Requests arrive end-to-end encrypted through the Relay, which may replay, delay or
    reorder them; a cache keyed by device and request id makes their execution idempotent. *)

From S2P Require Export Runtime Crypto.
Local Open Scope string_scope.

Record CacheEntry := {
  entry_expires_at : N;
  entry_issued_at : N;
  entry_nonce : string;
  entry_ciphertext : string;
  entry_response : EncryptedControlPayload }.

(** [entries: HashMap<String, CacheEntry>] *)
Abbreviation ControlCache := (gmap string CacheEntry).

(** [monitor_control::State] next to the application state it acts on; the two atomics of
    the former are fields of [Desk]. *)
Record ControlState := {
  ctl_desk : Desk;
  ctl_cache : Mutex ControlCache }.

Definition cache_key (device_id request_id : string) : string := device_id ++ "|" ++ request_id.

Definition cached_response (now : N) (device_id : string) (request : EncryptedControlPayload)
    (cache : ControlCache) : Result (option EncryptedControlPayload) string * ControlCache :=
  let entries := retain (fun _ entry => (now <=? entry_expires_at entry)%N) cache in
  (match entries !! cache_key device_id (ctl_request_id request) with
   | None => Ok None
   | Some entry =>
       if negb (entry_issued_at entry =? ctl_issued_at request)%N
          || negb (entry_expires_at entry =? ctl_expires_at request)%N
          || negb (String.eqb (entry_nonce entry) (ctl_nonce request))
          || negb (String.eqb (entry_ciphertext entry) (ctl_ciphertext request))
       then Err "Monitor 控制 requestId 与先前请求冲突。"
       else Ok (Some (entry_response entry))
   end, entries).

Definition cache_insert (device_id : string) (request response : EncryptedControlPayload)
    (cache : ControlCache) : ControlCache :=
  <[cache_key device_id (ctl_request_id request) :=
      {| entry_expires_at := ctl_expires_at request; entry_issued_at := ctl_issued_at request;
         entry_nonce := ctl_nonce request; entry_ciphertext := ctl_ciphertext request;
         entry_response := response |}]> cache.

Definition request_id_ok (id : string) : bool :=
  starts_with "c_" id && (18 <=? String.length id)%nat && (String.length id <=? 80)%nat
  && string_forall is_ascii_hexdigit (string_skip 2 id).

Definition request_time_ok (now issued expires : N) : bool :=
  (issued <=? saturating_add now 30000)%N && (saturating_sub now issued <=? 60000)%N
  && (now <=? expires)%N && (expires <=? saturating_add issued 60000)%N.

Definition validate_request (now : N) (request : EncryptedControlPayload) : Result unit string :=
  if negb (request_id_ok (ctl_request_id request))
     || negb (request_time_ok now (ctl_issued_at request) (ctl_expires_at request))
  then Err "Monitor 控制请求已过期或格式无效。" else Ok tt.

Section Trigger.
(** Reading the settings, the clock (twice) and the stored key. *)
Context (settings_load : Fs Settings) (health_clock timestamp_ms : Desk -> N)
        (load_runtime_key : Result string string).

(** The snapshot says the tunnel is healthy, and not more than 12 s ago. *)
Definition already_healthy (health_now : N) (d : Desk) : bool :=
  match lock (runtime_snapshot d) with
  | Some snapshot =>
      snap_active snapshot && String.eqb (snap_health snapshot) "healthy"
      && (0 <? snap_last_probe_at snapshot)%N
      && (saturating_sub health_now (snap_last_probe_at snapshot) <=? 12000)%N
  | None => false
  end.

(** The key the reconnect will use. *)
Definition reconnect_key (d : Desk) : option string :=
  let session := match lock (session_runtime_key d) with Some key => key | None => None end in
  let key := match session with
             | Some key => Some key
             | None => match load_runtime_key with Ok key => Some key | Err _ => None end
             end in
  match key with
  | Some key => if is_empty (trim key) then None else Some key
  | None => None
  end.

(** [trigger_tunnel_reconnect]; with the answer, the key handed to the spawned thread. *)
Definition trigger_tunnel_reconnect : App (Result string string * option string) :=
  let fail message := app_ret (Err message, None) in
  settings <-app on_files settings_load ;;
  d <-app app_get (fun d => d) ;;
  if https_enabled (https_mcp settings) then fail "当前使用 HTTPS MCP，手机不能唤起已关闭的 Tunnel"
  else if negb (connection_intent settings) || negb (desired_connected d)
  then fail "Desktop 已手动停止 Tunnel，手机不能覆盖该连接意图。"
  else if is_empty (trim (tunnel_id settings)) then fail "Desktop 尚未配置 Tunnel ID。"
  else if already_healthy (health_clock d) d then fail "Tunnel 当前健康，无需重连。"
  else if reconnect_running d || reconnecting d then fail "Tunnel 已在执行重连。"
  else
    let now := timestamp_ms d in
    let previous := last_reconnect_at d in
    if (0 <? previous)%N && (saturating_sub now previous <? 10000)%N
    then fail "Tunnel 重连操作过于频繁，请稍后再试。"
    else match reconnect_key d with
         | None => fail "Desktop 当前没有可用于重连的 Runtime Key。"
         | Some key =>
             swapped <-app (fun d => (Some (reconnect_running d), set_reconnect_running true d)) ;;
             if (swapped : bool) then fail "Tunnel 已在执行远程重连。"
             else
               _ <-app app_modify (fun d => set_recovery_status "reconnecting" 0 ""
                                     (set_reconnecting true (set_last_reconnect_at now d))) ;;
               app_ret (Ok "已向 Desktop 提交 Tunnel 重连请求。", Some key)
         end.
End Trigger.

Section Handle.
(** The monitor manager's device list, the stored keys and identity, the snapshot of the
    monitor page, JSON, and the cryptography. *)
Context (has_monitor_device : string -> App (Result bool string))
        (ensure_monitor_master_key : App (Result bytes string))
        (ensure_monitor_desktop_id : App (Result string string))
        (fresh_payload : App (Result Value string)) (snapshot_payload : App Value)
        (settings_load : Fs Settings) (health_clock timestamp_ms : Desk -> N)
        (load_runtime_key : Result string string)
        (value_from_slice : bytes -> option Value) (value_to_vec : Value -> Result bytes string)
        (seal open : bytes -> bytes -> string -> bytes -> option bytes)
        (hkdf : string -> bytes -> string -> option bytes) (hmac_sha256 : bytes -> string -> bytes)
        (b64_encode : bytes -> string) (b64_decode : string -> option bytes).

Definition action_of (payload : Value) : string :=
  match Json.get "action" payload with Some (VString action) => action | _ => "" end.

Definition failed_response (action message : string) (snapshot : list (string * Value)) : Value :=
  Object ([("ok", Bool false); ("action", VString action); ("message", VString message)] ++ snapshot)%list.

(** The [match action] of [handle]. *)
Definition perform (action : string) : App Value :=
  match action with
  | "refresh_snapshot" =>
      fresh <-app fresh_payload ;;
      app_ret (match fresh with
               | Ok snapshot => Object [("ok", Bool true); ("action", VString action); ("snapshot", snapshot)]
               | Err message => failed_response action message []
               end)
  | "reconnect_tunnel" =>
      triggered <-app trigger_tunnel_reconnect settings_load health_clock timestamp_ms load_runtime_key ;;
      snapshot <-app snapshot_payload ;;
      app_ret (match triggered.1 with
               | Ok message => Object [("ok", Bool true); ("action", VString action); ("accepted", Bool true);
                                       ("message", VString message); ("snapshot", snapshot)]
               | Err message => failed_response action message [("snapshot", snapshot)]
               end)
  | _ => app_ret (failed_response action "不支持的 Monitor 控制动作。" [])
  end.

(** Everything [handle] does before it takes the cache lock: the checks, and the request
    decrypted to its action. *)
Definition open_request (now : N) (device_id : string) (request : EncryptedControlPayload)
    : App (Result (bytes * string * string) string) :=
  known <-app? has_monitor_device device_id ;;
  if negb known then app_ret (Err "Monitor 设备已被撤销。")
  else
    match validate_request now request with
    | Err e => app_ret (Err e)
    | Ok _ =>
        master_key <-app? ensure_monitor_master_key ;;
        match derive_device_key hkdf master_key device_id with
        | Err e => app_ret (Err e)
        | Ok device_key =>
            desktop_id <-app? ensure_monitor_desktop_id ;;
            match decrypt_control_payload open hmac_sha256 b64_decode device_key desktop_id device_id "request"
                    request with
            | Err e => app_ret (Err e)
            | Ok clear =>
                app_ret (match value_from_slice clear with
                         | None => Err "Monitor 控制 payload 无效。"
                         | Some payload => Ok (device_key, desktop_id, action_of payload)
                         end)
            end
        end
    end.

(** How a call ended: its answer, and the action it executed, if it executed one. *)
Record Handled := {
  answer : Result EncryptedControlPayload string;
  executed : option string }.

(** [handle]: [validated_at] and [locked_at] are the two readings of the clock, before the
    checks and after the cache lock was obtained; [random] the nonce drawn. *)
Definition handle (validated_at locked_at : N) (random : option bytes) (device_id : string)
    (request : EncryptedControlPayload) (st : ControlState) : option Handled * ControlState :=
  let refuse e d := (Some {| answer := Err e; executed := None |}, {| ctl_desk := d; ctl_cache := ctl_cache st |}) in
  match open_request validated_at device_id request (ctl_desk st) with
  | (None, d) => (None, {| ctl_desk := d; ctl_cache := ctl_cache st |})
  | (Some (Err e), d) => refuse e d
  | (Some (Ok (device_key, desktop_id, action)), d) =>
      match lock (ctl_cache st) with
      | None => refuse "Monitor 控制幂等缓存锁已损坏。" d
      | Some cache =>
          let '(cached, cache) := cached_response locked_at device_id request cache in
          let keep cache d := {| ctl_desk := d; ctl_cache := set_guarded cache (ctl_cache st) |} in
          match cached with
          | Err e => (Some {| answer := Err e; executed := None |}, keep cache d)
          | Ok (Some response) => (Some {| answer := Ok response; executed := None |}, keep cache d)
          | Ok None =>
              match perform action d with
              | (None, d) => (None, keep cache d)
              | (Some response_value, d) =>
                  let fail e := (Some {| answer := Err e; executed := Some action |}, keep cache d) in
                  match value_to_vec response_value with
                  | Err e => fail ("序列化 Monitor 控制响应失败：" ++ e)
                  | Ok text =>
                      match encrypt_control_payload seal hmac_sha256 b64_encode random device_key desktop_id
                              device_id (ctl_request_id request) "response" (ctl_issued_at request)
                              (ctl_expires_at request) text with
                      | Err e => fail e
                      | Ok encrypted =>
                          (Some {| answer := Ok encrypted; executed := Some action |},
                           keep (cache_insert device_id request encrypted cache) d)
                      end
                  end
              end
          end
      end
  end.

(** A call as it reaches the desktop. *)
Record Call := {
  call_validated_at : N;
  call_locked_at : N;
  call_random : option bytes;
  call_device : string;
  call_request : EncryptedControlPayload }.

Definition handle_call (c : Call) : ControlState -> option Handled * ControlState :=
  handle (call_validated_at c) (call_locked_at c) (call_random c) (call_device c) (call_request c).

(** Calls in the order in which they obtain the cache lock. *)
Fixpoint handle_all (calls : list Call) (st : ControlState) : list (option Handled) * ControlState :=
  match calls with
  | [] => ([], st)
  | c :: calls =>
      let '(out, st) := handle_call c st in
      let '(outs, st) := handle_all calls st in (out :: outs, st)
  end.
End Handle.

(** ** Properties *)

(** The phone cannot override the person at the desktop: a remote reconnect is
    accepted only while the settings and the running program both want the tunnel, HTTPS
    is not selected, a tunnel id and a key exist, no reconnect runs, the tunnel is not
    known to be healthy and the last remote reconnect is 10 s old; it then marks itself
    running and hands the key to one thread.  A refusal changes nothing, and the wish to
    be connected is never changed. *)
Theorem remote_reconnect_respects_stop settings_load health_clock timestamp_ms load_runtime_key d res d'
    (Htrigger : trigger_tunnel_reconnect settings_load health_clock timestamp_ms load_runtime_key d = (res, d')) :
  desired_connected d' = desired_connected d
  /\ match res with
     | Some (Ok _, spawned) =>
         exists settings w key, settings_load (desk_world d) = (Some settings, w)
         /\ https_enabled (https_mcp settings) = false /\ connection_intent settings = true
         /\ desired_connected d = true /\ is_empty (trim (tunnel_id settings)) = false
         /\ already_healthy (health_clock (set_desk_world w d)) d = false
         /\ reconnect_running d = false /\ reconnecting d = false
         /\ (last_reconnect_at d = 0 \/ last_reconnect_at d + 10000 <= last_reconnect_at d')%N
         /\ last_reconnect_at d' = timestamp_ms (set_desk_world w d)
         /\ spawned = Some key /\ is_empty (trim key) = false
         /\ reconnect_running d' = true /\ reconnecting d' = true
     | Some (Err _, spawned) => spawned = None /\ d' = set_desk_world (desk_world d') d
     | None => d' = set_desk_world (desk_world d') d
     end.
Proof.
  unfold trigger_tunnel_reconnect in Htrigger.
  apply app_bind_inv in Htrigger as [[H ->]|(settings & d1 & H & Hk)];
    apply on_files_inv in H as (w & H & ->); [done|].
  unfold app_bind at 1, app_get in Hk. cbn [reconnect_running reconnecting last_reconnect_at desired_connected set_desk_world] in Hk.
  destruct (https_enabled _) eqn:Hhttps; [by injection Hk as <- <-|].
  destruct (negb _ || negb _) eqn:Hwant; [by injection Hk as <- <-|].
  destruct (is_empty (trim (tunnel_id settings))) eqn:Hid; [by injection Hk as <- <-|].
  destruct (already_healthy _ _) eqn:Hhealthy; [by injection Hk as <- <-|].
  destruct (reconnect_running d || reconnecting d) eqn:Hbusy; [by injection Hk as <- <-|].
  destruct (_ && _) eqn:Hrate; [by injection Hk as <- <-|].
  destruct (reconnect_key load_runtime_key (set_desk_world w d)) as [key|] eqn:Hkey; [|by injection Hk as <- <-].
  pose proof Hbusy as [Hrun Hrec]%orb_false_iff.
  cbn in Hk. rewrite Hrun in Hk. injection Hk as <- <-. split; [done|].
  apply orb_false_iff in Hwant as [Hi%negb_false_iff Hd%negb_false_iff].
  exists settings, w, key. split_and!; try done.
  - cbn. apply andb_false_iff in Hrate as [Hr|Hr]; reflect_bools; [left; lia|right].
    unfold saturating_sub in Hr. lia.
  - unfold reconnect_key in Hkey. by repeat case_match; simplify_eq.
Qed.

(** A request is accepted exactly when its id is well formed and the desktop's clock
    lies between 30 s before its issue and its expiry, which is at most 60 s after the
    issue; so any two moments at which one request is accepted are at most 90 s apart. *)
Theorem validate_request_window request now later
    (Hnow : in_u64 (now + 30000)%N) (Hissued : in_u64 (ctl_issued_at request + 60000)%N) :
  (validate_request now request = Ok tt <->
     request_id_ok (ctl_request_id request) = true
     /\ (ctl_issued_at request <= now + 30000 /\ now <= ctl_expires_at request
          /\ now <= ctl_issued_at request + 60000 /\ ctl_expires_at request <= ctl_issued_at request + 60000)%N)
  /\ (validate_request now request = Ok tt -> validate_request later request = Ok tt ->
      (later <= now + 90000)%N).
Proof.
  assert (forall t, validate_request t request = Ok tt <->
    request_id_ok (ctl_request_id request) = true
    /\ request_time_ok t (ctl_issued_at request) (ctl_expires_at request) = true) as Hv.
  { intros t. unfold validate_request. destruct (request_id_ok _), (request_time_ok _ _ _); cbn; naive_solver. }
  rewrite !Hv. unfold request_time_ok.
  rewrite (saturating_add_exact now), !(saturating_add_exact (ctl_issued_at request)) by done.
  unfold saturating_sub. rewrite !andb_true_iff, !N.leb_le.
  split; [intuition lia|]. intros [_ H1] [_ H2]. unfold saturating_add in H2. lia.
Qed.

Section AtMostOnce.
Context (has_monitor_device : string -> App (Result bool string))
        (ensure_monitor_master_key : App (Result bytes string))
        (ensure_monitor_desktop_id : App (Result string string))
        (fresh_payload : App (Result Value string)) (snapshot_payload : App Value)
        (settings_load : Fs Settings) (health_clock timestamp_ms : Desk -> N)
        (load_runtime_key : Result string string)
        (value_from_slice : bytes -> option Value) (value_to_vec : Value -> Result bytes string)
        (seal open : bytes -> bytes -> string -> bytes -> option bytes)
        (hkdf : string -> bytes -> string -> option bytes) (hmac_sha256 : bytes -> string -> bytes)
        (b64_encode : bytes -> string) (b64_decode : string -> option bytes).

#[local] Abbreviation step := (handle_call has_monitor_device ensure_monitor_master_key
  ensure_monitor_desktop_id fresh_payload snapshot_payload settings_load health_clock timestamp_ms
  load_runtime_key value_from_slice value_to_vec seal open hkdf hmac_sha256 b64_encode b64_decode).
#[local] Abbreviation run := (handle_all has_monitor_device ensure_monitor_master_key
  ensure_monitor_desktop_id fresh_payload snapshot_payload settings_load health_clock timestamp_ms
  load_runtime_key value_from_slice value_to_vec seal open hkdf hmac_sha256 b64_encode b64_decode).

(** The answer to a request is on record. *)
Definition recorded (device : string) (request response : EncryptedControlPayload) (st : ControlState) : Prop :=
  guarded (ctl_cache st) !! cache_key device (ctl_request_id request)
  = Some {| entry_expires_at := ctl_expires_at request; entry_issued_at := ctl_issued_at request;
            entry_nonce := ctl_nonce request; entry_ciphertext := ctl_ciphertext request;
            entry_response := response |}.

(** The four ways a call can end. *)
Lemma handle_cases c st out st' :
  step c st = (out, st') ->
  (ctl_cache st' = ctl_cache st
   /\ match out with Some h => executed h = None /\ is_ok (answer h) = false | None => True end)
  \/ exists cache, lock (ctl_cache st) = Some cache
     /\ let '(cached, purged) := cached_response (call_locked_at c) (call_device c) (call_request c) cache in
        (ctl_cache st' = set_guarded purged (ctl_cache st)
         /\ match out with
            | Some h => match cached with
                        | Err e => h = {| answer := Err e; executed := None |}
                        | Ok (Some response) => h = {| answer := Ok response; executed := None |}
                        | Ok None => is_ok (answer h) = false
                        end
            | None => True
            end)
        \/ exists response action, cached = Ok None /\ out = Some {| answer := Ok response; executed := Some action |}
           /\ ctl_cache st' = set_guarded (cache_insert (call_device c) (call_request c) response purged) (ctl_cache st).
Proof.
  unfold handle_call, handle. destruct (open_request _ _ _ _ _ _ _ _ _ _ _ _) as [[[((key & desktop) & action)|e]|] d];
    [|by intros [= <- <-]; left..].
  destruct (lock (ctl_cache st)) as [cache|]; [|by intros [= <- <-]; left].
  intros H. right. exists cache. split; [done|].
  destruct (cached_response _ _ _ _) as [[[response|]|e] purged]; [by injection H as <- <-; left|
    |by injection H as <- <-; left].
  destruct (perform _ _ _ _ _ _ _ _) as [[value|] d2]; [|by injection H as <- <-; left].
  destruct (value_to_vec value) as [text|e]; [|by injection H as <- <-; left].
  destruct (encrypt_control_payload _ _ _ _ _ _ _ _ _ _ _ _) as [encrypted|e]; injection H as <- <-;
    [right; by exists encrypted, action|by left].
Qed.

Lemma cached_response_recorded now device request response cache :
  cache !! cache_key device (ctl_request_id request)
    = Some {| entry_expires_at := ctl_expires_at request; entry_issued_at := ctl_issued_at request;
              entry_nonce := ctl_nonce request; entry_ciphertext := ctl_ciphertext request;
              entry_response := response |} ->
  (now <= ctl_expires_at request)%N ->
  (cached_response now device request cache).1 = Ok (Some response).
Proof.
  intros Hc Hnow. unfold cached_response. cbn [fst].
  match goal with |- context [retain ?f cache !! ?k] => assert (retain f cache !! k = cache !! k) as -> end.
  { rewrite Hc. apply lookup_retain. split; [exact Hc|]. by apply N.leb_le. }
  rewrite Hc. cbn [entry_issued_at entry_expires_at entry_nonce entry_ciphertext entry_response].
  by rewrite !N.eqb_refl, !String.eqb_refl.
Qed.

Lemma cached_response_none now device request cache :
  (cached_response now device request cache).1 = Ok None ->
  (cached_response now device request cache).2 !! cache_key device (ctl_request_id request) = None.
Proof.
  unfold cached_response. cbn [fst snd].
  match goal with |- match ?m !! ?k with _ => _ end = _ -> _ => destruct (m !! k) as [entry|] end; [|done].
  by destruct (_ || _ || _ || _).
Qed.

(** A live record survives every call, and answers its own request without executing. *)
Lemma recorded_step device request response c st out st' :
  step c st = (out, st') -> recorded device request response st ->
  (call_locked_at c <= ctl_expires_at request)%N ->
  recorded device request response st'
  /\ (call_device c = device -> call_request c = request ->
      match out with
      | Some h => executed h = None /\ forall response', answer h = Ok response' -> response' = response
      | None => True
      end).
Proof.
  intros [(Hc & Hout)|(cache & Hlock & Hrest)]%handle_cases Hrec Hnow.
  { unfold recorded in *. rewrite Hc. split; [done|]. intros _ _. destruct out as [[a ex]|]; [|done].
    destruct Hout as [Hex Ha]. split; [done|]. cbn in *. by destruct a. }
  apply lock_Some in Hlock. unfold recorded in *. rewrite Hlock in *. cbn [guarded set_guarded] in *.
  assert ((cached_response (call_locked_at c) (call_device c) (call_request c) cache).2
            !! cache_key device (ctl_request_id request) = cache !! cache_key device (ctl_request_id request)) as Hkeep.
  { rewrite Hrec. apply lookup_retain. split; [exact Hrec|]. by apply N.leb_le. }
  assert (call_device c = device -> call_request c = request ->
    (cached_response (call_locked_at c) (call_device c) (call_request c) cache).1 = Ok (Some response)) as Hsame
    by (intros -> ->; by apply cached_response_recorded).
  assert ((cached_response (call_locked_at c) (call_device c) (call_request c) cache).1 = Ok None ->
    cache_key (call_device c) (ctl_request_id (call_request c)) <> cache_key device (ctl_request_id request)) as Hother.
  { intros Hn%cached_response_none Heq. rewrite Heq, Hkeep, Hrec in Hn. done. }
  destruct (cached_response _ _ _ _) as [cached purged]; cbn [fst snd] in *.
  destruct Hrest as [[-> Hout]|(response' & action & -> & -> & ->)]; cbn [guarded set_guarded].
  - split; [by rewrite Hkeep|]. intros H1 H2. rewrite Hsame in Hout by done.
    destruct out as [h|]; [|done]. subst h. split; [done|]. by intros ? [= <-].
  - split; [|by intros H1 H2; discriminate (Hsame H1 H2)].
    unfold cache_insert. rewrite lookup_insert_ne by auto. by rewrite Hkeep.
Qed.

Lemma executed_recorded c st st' response action :
  step c st = (Some {| answer := Ok response; executed := Some action |}, st') ->
  recorded (call_device c) (call_request c) response st'.
Proof.
  intros [(_ & _ & Hbad)|(cache & Hlock & Hrest)]%handle_cases; [done|].
  destruct (cached_response _ _ _ _) as [cached purged].
  destruct Hrest as [[_ Hout]|(response' & action' & _ & [= <- <-] & Hc)].
  - destruct cached as [[r|]|e]; [by injection Hout| |by injection Hout]. done.
  - unfold recorded. rewrite Hc. cbn. unfold cache_insert. by rewrite lookup_insert_eq.
Qed.

(** Once recorded and while it lives, no later call executes it again. *)
Lemma recorded_run device request response calls st outs st' j c :
  run calls st = (outs, st') -> recorded device request response st ->
  calls !! j = Some c -> call_device c = device -> call_request c = request ->
  (forall k ck, (k <= j)%nat -> calls !! k = Some ck -> (call_locked_at ck <= ctl_expires_at request)%N) ->
  match outs !! j with
  | Some (Some h) => executed h = None /\ forall response', answer h = Ok response' -> response' = response
  | Some None => True
  | None => False
  end.
Proof.
  revert st outs j. induction calls as [|c0 calls IH]; intros st outs j Hrun Hrec Hj Hd Hr Hclock; [done|].
  cbn in Hrun. destruct (step c0 st) as [out st1] eqn:Hs. destruct (run calls st1) as [outs1 st2] eqn:Hrun1.
  injection Hrun as <- <-. eapply recorded_step in Hs as [Hrec1 Hout]; [|exact Hrec|by apply (Hclock 0 c0); [lia|]].
  destruct j as [|j]; cbn in Hj |- *.
  - injection Hj as ->. by apply Hout.
  - eapply (IH st1 outs1 j); try done. intros k ck Hk Hck. apply (Hclock (S k) ck); [lia|done].
Qed.

(** C6. At most once: when a call executed an action and was answered, a later call that
    repeats the same envelope never executes again while the request has not expired: it
    is refused or gets the recorded answer, whatever other calls came between.  (The
    clock, read under the lock, does not go back.) *)
Theorem control_at_most_once calls st outs st' i j ci cj response action
    (Hrun : handle_all has_monitor_device ensure_monitor_master_key ensure_monitor_desktop_id
       fresh_payload snapshot_payload settings_load health_clock timestamp_ms
       load_runtime_key value_from_slice value_to_vec seal open hkdf hmac_sha256
       b64_encode b64_decode calls st = (outs, st'))
    (Hij : (i < j)%nat)
    (Hi : calls !! i = Some ci) (Hj : calls !! j = Some cj)
    (Hsame : call_device cj = call_device ci /\ call_request cj = call_request ci)
    (Hdone : outs !! i = Some (Some {| answer := Ok response; executed := Some action |}))
    (Hclock : forall a b ca cb, (a <= b)%nat -> calls !! a = Some ca -> calls !! b = Some cb ->
       (call_locked_at ca <= call_locked_at cb)%N)
    (Hfresh : (call_locked_at cj <= ctl_expires_at (call_request cj))%N) :
  match outs !! j with
  | Some (Some h) => executed h = None /\ forall response', answer h = Ok response' -> response' = response
  | Some None => True
  | None => False
  end.
Proof.
  revert st outs i j Hrun Hij Hi Hj Hdone Hclock.
  induction calls as [|c0 calls IH]; intros st outs i j Hrun Hij Hi Hj Hdone Hclock; [done|].
  cbn in Hrun. destruct (step c0 st) as [out st1] eqn:Hs. destruct (run calls st1) as [outs1 st2] eqn:Hrun1.
  injection Hrun as <- <-. destruct j as [|j]; [lia|]. cbn in Hj |- *.
  assert (forall a b ca cb, (a <= b)%nat -> calls !! a = Some ca -> calls !! b = Some cb ->
       (call_locked_at ca <= call_locked_at cb)%N) as Hclock1.
  { intros a b ca cb Hab Ha Hb. by apply (Hclock (S a) (S b)); [lia|..]. }
  destruct i as [|i]; cbn in Hi, Hdone.
  - injection Hi as ->. injection Hdone as ->. apply executed_recorded in Hs.
    eapply recorded_run; [exact Hrun1|exact Hs|exact Hj|apply Hsame|apply Hsame|].
    intros k ck Hk Hck. etrans; [by apply (Hclock1 k j ck cj)|]. by destruct Hsame as [_ <-].
  - by apply (IH st1 outs1 i j); [..|lia| | | |].
Qed.
End AtMostOnce.

(** ** Witnesses *)

Definition sample_wanting_desk : Desk :=
  set_session_runtime_key (new_mutex (Some "key")) (set_desired_connected true (desk_default (healthy ∅))).

Lemma remote_reconnect_respects_stop_witness :
  let out := trigger_tunnel_reconnect (fs_ret sample_wanted) (fun _ => 90000%N) (fun _ => 90000%N) (Err "none")
               sample_wanting_desk in
  out.1 = Some (Ok "已向 Desktop 提交 Tunnel 重连请求。", Some "key")
  /\ desired_connected out.2 = desired_connected sample_wanting_desk.
Proof.
  intros out. split; [vm_compute; reflexivity|].
  exact (proj1 (remote_reconnect_respects_stop (fs_ret sample_wanted) (fun _ => 90000%N) (fun _ => 90000%N)
    (Err "none") sample_wanting_desk out.1 out.2 eq_refl)).
Defined.

Definition sample_request_id : string := "c_0123456789abcdef".

(** "refresh_snapshot", as any clear text reads with [sample_json]. *)
Definition sample_envelope : EncryptedControlPayload :=
  {| ctl_request_id := sample_request_id; ctl_issued_at := 100000; ctl_expires_at := 130000;
     ctl_nonce := sample_b64_encode sample_nonce;
     ctl_ciphertext := sample_b64_encode
       (sample_header (control_aad "d_1" "dev_1" sample_request_id "request" 100000 130000) ++ [x68])%list |}.

Definition sample_json (clear : bytes) : option Value := Some (Object [("action", VString "refresh_snapshot")]).

Lemma validate_request_window_witness :
  validate_request 110000 sample_envelope = Ok tt /\ ctl_expires_at sample_envelope = 130000%N
  /\ validate_request 130001 sample_envelope = Err "Monitor 控制请求已过期或格式无效。"
  /\ (ctl_issued_at sample_envelope <= 110000 + 30000)%N.
Proof.
  split; [vm_compute; reflexivity|]. split; [reflexivity|]. split; [vm_compute; reflexivity|].
  assert (in_u64 (110000 + 30000)) as H1 by (vm_compute; discriminate).
  assert (in_u64 (ctl_issued_at sample_envelope + 60000)) as H2 by (vm_compute; discriminate).
  destruct (proj1 (proj1 (validate_request_window sample_envelope 110000 110000 H1 H2)) ltac:(vm_compute; reflexivity))
    as (_ & Hi & _).
  exact Hi.
Defined.

#[local] Abbreviation sample_run := (handle_all (fun _ => app_ret (Ok true)) (app_ret (Ok [x01])) (app_ret (Ok "d_1"))
  (app_ret (Ok Null)) (app_ret Null) (fs_ret sample_wanted) (fun _ => 90000%N) (fun _ => 90000%N) (Err "none")
  sample_json (fun _ => Ok [x01]) sample_seal sample_open (fun _ key _ => Some key) sample_mac
  sample_b64_encode sample_b64_decode).

Definition sample_call (validated_at locked_at : N) : Call :=
  {| call_validated_at := validated_at; call_locked_at := locked_at; call_random := Some sample_nonce;
     call_device := "dev_1"; call_request := sample_envelope |}.

Definition sample_control_state : ControlState :=
  {| ctl_desk := sample_wanting_desk; ctl_cache := new_mutex ∅ |}.

Definition execution (out : option Handled) : option string :=
  match out with Some h => executed h | None => None end.

Lemma sample_clock a b ca cb :
  (a <= b)%nat -> [sample_call 110000 110001; sample_call 120000 120001] !! a = Some ca ->
  [sample_call 110000 110001; sample_call 120000 120001] !! b = Some cb ->
  (call_locked_at ca <= call_locked_at cb)%N.
Proof.
  destruct a as [|[|a]], b as [|[|b]]; cbn; intros Hab Ha Hb; simplify_eq; cbn; lia.
Qed.

Lemma control_at_most_once_witness :
  let outs := (sample_run [sample_call 110000 110001; sample_call 120000 120001] sample_control_state).1 in
  map execution outs = [Some "refresh_snapshot"; None]
  /\ match outs !! 1%nat with Some (Some h) => executed h = None | _ => False end.
Proof.
  intros outs. split; [vm_compute; reflexivity|].
  destruct (sample_run [sample_call 110000 110001; sample_call 120000 120001] sample_control_state)
    as [res st'] eqn:Hrun.
  assert (exists response, res !! 0%nat = Some (Some {| answer := Ok response; executed := Some "refresh_snapshot" |}))
    as [response H0].
  { change res with (res, st').1. rewrite <- Hrun. eexists. vm_compute. reflexivity. }
  assert (exists h, res !! 1%nat = Some (Some h)) as [h H1].
  { change res with (res, st').1. rewrite <- Hrun. eexists. vm_compute. reflexivity. }
  subst outs. cbn [fst]. rewrite H1.
  pose proof (control_at_most_once _ _ _ _ _ _ _ _ _ _ _ _ _ _ _ _ _
    [sample_call 110000 110001; sample_call 120000 120001] sample_control_state res st' 0 1
    (sample_call 110000 110001) (sample_call 120000 120001) response "refresh_snapshot" Hrun
    ltac:(lia) eq_refl eq_refl ltac:(split; reflexivity) H0) as Honce.
  rewrite H1 in Honce. apply Honce; [exact sample_clock|vm_compute; discriminate].
Defined.

(** The clock is read again after the lock was obtained: a replay that passed its checks
    before the request expired, but got the lock after (a refresh can hold it for as long
    as the tunnel client takes to answer), finds its record purged and executes again. *)
Lemma replay_after_lock_wait :
  map execution (sample_run [sample_call 110000 110001; sample_call 129999 130001] sample_control_state).1
  = [Some "refresh_snapshot"; Some "refresh_snapshot"].
Proof. vm_compute. reflexivity. Qed.
