(* ===== verification/Activity.v ===== *)
(** * What the MCP transports are doing ([src-tauri/src/monitor.rs], [mcp_sources.rs])

    The activity files the two transports write, the verdict shown for them, the choice of
    the one to show first, and the merge of recent calls. *)

From S2P Require Export StableSort Files Json.
Local Open Scope string_scope.

Definition active_window_ms : N := 60000.
Definition active_min_calls : N := 3.
Definition gap_threshold_ms : N := 60000.
Definition idle_reset_ms : N := 10 * 60000.
Definition stall_threshold_ms : N := 10 * 60000.

Record InFlightCall := { call_id : string; call_tool_name : string; call_started_at : N }.

Record ActivitySnapshot := {
  schema_version : N;
  act_sequence : N;
  act_updated_at : N;
  act_launcher_started_at : option N;
  act_last_request_at : option N;
  act_last_request_method : option string;
  act_last_list_tools_at : option N;
  act_last_call_started_at : option N;
  act_last_call_finished_at : option N;
  act_last_tool_name : option string;
  act_last_success : option bool;
  act_last_duration_ms : option N;
  act_in_flight : N;
  act_in_flight_calls : list InFlightCall;
  act_oldest_in_flight_started_at : option N;
  act_recent_call_starts : list N;
  act_calls_last_minute : N }.

Record McpMonitorStatus := {
  mon_state : string;
  mon_source_sequence : option N;
  mon_source_updated_at : option N;
  mon_launcher_started_at : option N;
  mon_last_request_at : option N;
  mon_last_request_method : option string;
  mon_last_list_tools_at : option N;
  mon_calls_last_minute : N;
  mon_gap_duration_ms : option N;
  mon_stall_duration_ms : option N;
  mon_in_flight : N;
  mon_last_call_started_at : option N;
  mon_last_call_finished_at : option N;
  mon_last_tool_name : option string;
  mon_last_success : option bool;
  mon_last_duration_ms : option N }.

Definition elapsed (now past : N) : N := saturating_sub now past.

Definition empty_status : McpMonitorStatus :=
  {| mon_state := "idle"; mon_source_sequence := None; mon_source_updated_at := None;
     mon_launcher_started_at := None; mon_last_request_at := None; mon_last_request_method := None;
     mon_last_list_tools_at := None; mon_calls_last_minute := 0; mon_gap_duration_ms := None;
     mon_stall_duration_ms := None; mon_in_flight := 0; mon_last_call_started_at := None;
     mon_last_call_finished_at := None; mon_last_tool_name := None; mon_last_success := None;
     mon_last_duration_ms := None |}.

Definition current_calls (snapshot : ActivitySnapshot) (now : N) : N :=
  N.of_nat (length (filter (fun t => (elapsed now t <=? active_window_ms)%N = true)
                           (act_recent_call_starts snapshot))).

Definition burst_detected (snapshot : ActivitySnapshot) : bool :=
  (active_min_calls <=? act_calls_last_minute snapshot)%N.

(** The state with the durations that go with it. *)
Definition activity_state (snapshot : ActivitySnapshot) (now : N) : string * option N * option N :=
  if (0 <? act_in_flight snapshot)%N
  then match act_oldest_in_flight_started_at snapshot with
       | Some started_at =>
           let stalled_for := elapsed now started_at in
           if (stall_threshold_ms <=? stalled_for)%N then ("stalled", None, Some stalled_for)
           else ("active", None, None)
       | None => ("active", None, None)
       end
  else match act_last_call_started_at snapshot with
       | Some last_started_at =>
           let last_activity_at := match act_last_call_finished_at snapshot with
                                   | Some finished_at => N.max finished_at last_started_at
                                   | None => last_started_at
                                   end in
           let gap := elapsed now last_activity_at in
           if (gap <? gap_threshold_ms)%N
              && ((active_min_calls <=? current_calls snapshot now)%N || burst_detected snapshot)
           then ("active", None, None)
           else if burst_detected snapshot && (gap_threshold_ms <=? gap)%N && (gap <=? idle_reset_ms)%N
           then ("gap", Some gap, None)
           else ("idle", None, None)
       | None => ("idle", None, None)
       end.

Definition evaluate_activity (snapshot : option ActivitySnapshot) (now : N) : McpMonitorStatus :=
  match snapshot with
  | None => empty_status
  | Some snapshot =>
      let '(state, gap_duration_ms, stall_duration_ms) := activity_state snapshot now in
      {| mon_state := state;
         mon_source_sequence := Some (act_sequence snapshot);
         mon_source_updated_at := Some (act_updated_at snapshot);
         mon_launcher_started_at := act_launcher_started_at snapshot;
         mon_last_request_at := act_last_request_at snapshot;
         mon_last_request_method := act_last_request_method snapshot;
         mon_last_list_tools_at := act_last_list_tools_at snapshot;
         mon_calls_last_minute := current_calls snapshot now;
         mon_gap_duration_ms := gap_duration_ms;
         mon_stall_duration_ms := stall_duration_ms;
         mon_in_flight := act_in_flight snapshot;
         mon_last_call_started_at := act_last_call_started_at snapshot;
         mon_last_call_finished_at := act_last_call_finished_at snapshot;
         mon_last_tool_name := act_last_tool_name snapshot;
         mon_last_success := act_last_success snapshot;
         mon_last_duration_ms := act_last_duration_ms snapshot |}
  end.

(** ** Sources ([mcp_sources.rs]) *)

Definition tunnel_source : string := "Secure MCP Tunnel".
Definition https_source : string := "HTTPS MCP".

Section Sources.
(** The JSON reader of activity files and the two directories they are in. *)
Context (activity_from_str : string -> option ActivitySnapshot) (tunnel_home https_home : string).

Definition read_activity_snapshot (path : Path) : Fs (option ActivitySnapshot) :=
  text <-fs read_to_string path ;;
  fs_ret (match text with
          | Err _ => None
          | Ok text =>
              match activity_from_str text with
              | Some snapshot =>
                  if (schema_version snapshot =? 1)%N || (schema_version snapshot =? 2)%N
                     || (schema_version snapshot =? 3)%N
                  then Some snapshot else None
              | None => None
              end
          end).

Definition activity_path (home : string) : Path :=
  {| parent := Some (home ++ "/.chatx-monitor"); file_name := "activity.json" |}.

Definition idle_fresh_ms : N := 180000.
Definition running_fresh_ms : N := 45 * 60000.

Definition activity_fresh (now : N) (snapshot : ActivitySnapshot) : bool :=
  let max_age := if (0 <? act_in_flight snapshot)%N then running_fresh_ms else idle_fresh_ms in
  (act_updated_at snapshot <=? saturating_add now 5000)%N
  && (saturating_sub now (act_updated_at snapshot) <=? max_age)%N.

Definition activity_of (alive : bool) (home : string) (now : N) : Fs (option ActivitySnapshot) :=
  if alive
  then snapshot <-fs read_activity_snapshot (activity_path home) ;;
       fs_ret (match snapshot with
               | Some snapshot => if activity_fresh now snapshot then Some snapshot else None
               | None => None
               end)
  else fs_ret None.

Definition activities (tunnel_alive https_alive : bool) (now : N)
    : Fs (list (string * option ActivitySnapshot)) :=
  tunnel <-fs activity_of tunnel_alive tunnel_home now ;;
  https <-fs activity_of https_alive https_home now ;;
  fs_ret [(tunnel_source, tunnel); (https_source, https)].
End Sources.

Definition activity_priority (activity : ActivitySnapshot) : N :=
  if (0 <? act_in_flight activity)%N then 2 else if (0 <? act_calls_last_minute activity)%N then 1 else 0.

(** The order of the pair [(priority, updated_at)]. *)
Definition activity_le (a b : ActivitySnapshot) : bool :=
  (activity_priority a <? activity_priority b)%N
  || (activity_priority a =? activity_priority b)%N && (act_updated_at a <=? act_updated_at b)%N.

(** [Iterator::max_by_key]: the last of the greatest. *)
Definition better_activity (best : option ActivitySnapshot) (source : string * option ActivitySnapshot)
    : option ActivitySnapshot :=
  match best, snd source with
  | best, None => best
  | None, Some activity => Some activity
  | Some best, Some activity => if activity_le best activity then Some activity else Some best
  end.
Definition primary_activity (sources : list (string * option ActivitySnapshot)) : option ActivitySnapshot :=
  foldl better_activity None sources.

Definition monitor_statuses (sources : list (string * option ActivitySnapshot)) (now : N)
    : list (string * McpMonitorStatus) :=
  map (fun '(source, snapshot) =>
         (if String.eqb source https_source then "httpsMcp" else "tunnel", evaluate_activity snapshot now)) sources.

Definition annotate (item : Value) (source : string) : Value :=
  match item with
  | Object values => Object (assoc_insert "source" (VString source) values)
  | other => other
  end.

Definition started_at (item : Value) : N :=
  match get "startedAt" item with
  | Some v => match as_u64 v with Some t => t | None => 0 end
  | None => 0
  end.
Definition timestamp_text (item : Value) : string :=
  match get "timestamp" item with Some (VString s) => s | _ => "" end.

(** [b_time.cmp(&a_time).then_with(|| b_text.cmp(a_text))] *)
Definition recent_cmp (a b : Value) : comparison :=
  match N.compare (started_at b) (started_at a) with
  | Eq => String.compare (timestamp_text b) (timestamp_text a)
  | other => other
  end.
Definition recent_le (a b : Value) : bool := match recent_cmp a b with Gt => false | _ => true end.

Definition sort_recent_by_time (items : list Value) (limit : nat) : list Value := firstn limit (sort_by recent_le items).

(** ** Properties *)

(** Closes the cells of the case table below. *)
Ltac activity_cases :=
  split_and!; [by cbn; auto 6|..]; split; intros;
  repeat match goal with
  | H : _ /\ _ |- _ => destruct H
  | H : exists _, _ |- _ => destruct H
  | H : _ \/ _ |- _ => destruct H
  | H : is_Some _ |- _ => destruct H
  | H : Some _ = Some _ |- _ => injection H as H; subst
  end; try discriminate; try lia; try done; eauto 10 with lia.

(** The verdict on a transport, as an exhaustive case table: [stalled] exactly while a
    call runs whose oldest start is 10 minutes back; [active] while calls run otherwise,
    or within a minute of the last activity of a burst; [gap] exactly between one and ten
    minutes after a burst; [idle] else.  The gap and stall durations are given exactly in
    their states, and a running call never shows as a gap or as idle. *)
Theorem activity_verdict_spec snapshot now :
  let status := evaluate_activity (Some snapshot) now in
  let last := match act_last_call_started_at snapshot, act_last_call_finished_at snapshot with
              | Some started, Some finished => Some (N.max finished started)
              | started, None => started
              | None, Some _ => None
              end in
  In (mon_state status) ["idle"; "active"; "stalled"; "gap"]
  /\ (mon_state status = "stalled" <-> (0 < act_in_flight snapshot)%N
        /\ exists oldest, act_oldest_in_flight_started_at snapshot = Some oldest
           /\ (oldest + stall_threshold_ms <= now)%N /\ mon_stall_duration_ms status = Some (now - oldest)%N)
  /\ (mon_state status = "gap" <-> act_in_flight snapshot = 0%N /\ burst_detected snapshot = true
        /\ exists t, last = Some t /\ (t + gap_threshold_ms <= now <= t + idle_reset_ms)%N
           /\ mon_gap_duration_ms status = Some (now - t)%N)
  /\ (mon_state status = "active" <->
        ((0 < act_in_flight snapshot)%N /\ mon_state status <> "stalled")
        \/ (act_in_flight snapshot = 0%N /\ exists t, last = Some t /\ (now < t + gap_threshold_ms)%N
            /\ ((active_min_calls <= current_calls snapshot now)%N \/ burst_detected snapshot = true)))
  /\ (is_Some (mon_gap_duration_ms status) <-> mon_state status = "gap")
  /\ (is_Some (mon_stall_duration_ms status) <-> mon_state status = "stalled").
Proof.
  intros status last.
  assert (mon_state status = (activity_state snapshot now).1.1
    /\ mon_gap_duration_ms status = (activity_state snapshot now).1.2
    /\ mon_stall_duration_ms status = (activity_state snapshot now).2) as (-> & -> & ->)
    by (subst status; unfold evaluate_activity; by destruct (activity_state snapshot now) as [[? ?] ?]).
  clear status. unfold activity_state, elapsed, saturating_sub.
  set (burst := burst_detected snapshot). set (calls := current_calls snapshot now). clearbody burst calls.
  destruct (0 <? act_in_flight snapshot)%N eqn:Hf; reflect_bools.
  - destruct (act_oldest_in_flight_started_at snapshot) as [oldest|];
      [destruct (stall_threshold_ms <=? now - oldest)%N eqn:Hs; reflect_bools; unfold stall_threshold_ms in *|];
      cbn; activity_cases.
  - destruct (act_last_call_started_at snapshot) as [started|]; [|cbn; subst last; destruct (act_last_call_finished_at snapshot); activity_cases].
    assert (exists t, last = Some t /\ match act_last_call_finished_at snapshot with
        | Some finished_at => N.max finished_at started | None => started end = t) as (t & -> & ->)
      by (subst last; destruct (act_last_call_finished_at snapshot); by eexists).
    destruct ((now - t <? gap_threshold_ms)%N && ((active_min_calls <=? calls)%N || burst)) eqn:Ha;
      [|destruct (burst && (gap_threshold_ms <=? now - t)%N && (now - t <=? idle_reset_ms)%N) eqn:Hg];
      reflect_bools; unfold gap_threshold_ms, idle_reset_ms in *; cbn.
    all: try match type of Ha with _ = false =>
               apply andb_false_iff in Ha as [Ha|Ha]; [|apply orb_false_iff in Ha as [Ha ?]] end.
    all: try match type of Hg with _ = false =>
               apply andb_false_iff in Hg as [Hg|Hg]; [apply andb_false_iff in Hg as [Hg|Hg]|] end.
    all: reflect_bools; activity_cases; congruence.
Qed.

Lemma activity_le_refl a : activity_le a a = true.
Proof. unfold activity_le. rewrite N.eqb_refl, N.leb_refl. apply orb_true_r. Qed.

Lemma activity_le_total a b : activity_le a b = false -> activity_le b a = true.
Proof. unfold activity_le. intros [H1 H2]%orb_false_iff. apply andb_false_iff in H2 as [H2|H2]; reflect_bools; lia. Qed.

Lemma activity_le_trans a b c : activity_le a b = true -> activity_le b c = true -> activity_le a c = true.
Proof. unfold activity_le. intros H1 H2. reflect_bools. lia. Qed.

(** The fold: the best so far against the rest. *)
Lemma primary_fold_spec sources best :
  let result := foldl better_activity best sources in
  (forall a, (best = Some a \/ exists source, In (source, Some a) sources) ->
     exists r, result = Some r /\ activity_le a r = true)
  /\ (forall r, result = Some r -> best = Some r \/ exists source, In (source, Some r) sources).
Proof.
  revert best. induction sources as [|[source activity] sources IH]; intros best result; subst result; cbn [foldl snd].
  { split; [intros a [->|[s []]]; exists a; split; [done|apply activity_le_refl]|by left]. }
  destruct (IH (better_activity best (source, activity))) as [IH1 IH2]. clear IH.
  set (result := foldl _ _ sources) in *. clearbody result.
  unfold better_activity in IH1, IH2. cbn [snd] in IH1, IH2. split.
  - intros a Ha. destruct Ha as [->|[s [[= -> ->]|Hin]]]; [..|apply IH1; right; by exists s].
    + destruct activity as [b|]; [|apply IH1; by left]. destruct (activity_le a b) eqn:Hab; [|apply IH1; by left].
      destruct (IH1 b ltac:(by left)) as (r & Hr & Hbr). exists r. split; [done|by eapply activity_le_trans].
    + destruct best as [b|]; [|apply IH1; by left]. destruct (activity_le b a) eqn:Hba; [apply IH1; by left|].
      destruct (IH1 b ltac:(by left)) as (r & Hr & Hbr). exists r. split; [done|].
      eapply activity_le_trans; [by apply activity_le_total|done].
  - intros r Hr. destruct (IH2 r Hr) as [Hb|[s Hin]]; [|right; exists s; by right].
    destruct best as [b|], activity as [a|]; simplify_eq; try (by left); try (right; exists source; by left).
    destruct (activity_le b a); simplify_eq; [right; exists source; by left|by left].
Qed.

(** The activity shown first is one of the sources', and none of them outranks it:
    running calls come before recent ones and those before the rest, the newest report
    first; there is none only if no source has one. *)
Theorem primary_activity_greatest sources :
  (forall a source, In (source, Some a) sources ->
     exists r, primary_activity sources = Some r /\ activity_le a r = true)
  /\ (forall r, primary_activity sources = Some r -> exists source, In (source, Some r) sources)
  /\ (primary_activity sources = None <-> forall source a, ~ In (source, Some a) sources).
Proof.
  unfold primary_activity. destruct (primary_fold_spec sources None) as [H1 H2].
  set (result := foldl _ _ _) in *. clearbody result.
  assert (forall r, result = Some r -> exists source, In (source, Some r) sources) as H3.
  { intros r Hr. by destruct (H2 r Hr). }
  split_and!; [intros a source Hin; apply H1; right; by exists source|exact H3|]. split.
  - intros -> source a Hin. destruct (H1 a ltac:(right; by exists source)) as (r & [=] & _).
  - intros Hnone. destruct result as [r|]; [|done]. destruct (H3 r eq_refl) as [s Hin]. by apply Hnone in Hin.
Qed.

(** *** Merging recent calls *)

Lemma recent_le_trans a b c : recent_le a b = true -> recent_le b c = true -> recent_le a c = true.
Proof.
  unfold recent_le, recent_cmp.
  destruct (N.compare_spec (started_at b) (started_at a)) as [E1|E1|E1],
    (N.compare_spec (started_at c) (started_at b)) as [E2|E2|E2],
    (N.compare_spec (started_at c) (started_at a)) as [E3|E3|E3]; try done; try lia.
  intros H1 H2. pose proof (string_compare_gt_trans (timestamp_text c) (timestamp_text b) (timestamp_text a)) as Ht.
  destruct (String.compare (timestamp_text c) (timestamp_text a)); [done..|].
  exfalso. apply Ht; [|by destruct (String.compare (timestamp_text b) (timestamp_text a))|done].
  by destruct (String.compare (timestamp_text c) (timestamp_text b)).
Qed.

Lemma recent_le_total a b : recent_le a b = false -> recent_le b a = true.
Proof.
  unfold recent_le, recent_cmp. rewrite (N.compare_antisym (started_at b)), (String.compare_antisym (timestamp_text a)).
  destruct (N.compare (started_at b) (started_at a)); cbn; [|done..].
  by destruct (String.compare (timestamp_text b) (timestamp_text a)).
Qed.

(** The recent-call list is the newest [limit] of the calls given: sorted with the
    newest first, none of the dropped ones newer than a kept one, nothing invented or
    duplicated, and calls with the same time and timestamp in the order given. *)
Theorem recent_calls_spec items limit :
  let kept := sort_recent_by_time items limit in
  sorted_by recent_le kept /\ length kept = Nat.min limit (length items)
  /\ (exists dropped, Permutation (kept ++ dropped) items
      /\ forall k d, In k kept -> In d dropped -> recent_le k d = true)
  /\ (forall key, filter (fun v => (started_at v, timestamp_text v) = key) (sort_by recent_le items)
                  = filter (fun v => (started_at v, timestamp_text v) = key) items).
Proof.
  destruct (sort_by_firstn recent_le recent_le_trans recent_le_total limit items) as (H1 & H2 & H3).
  split_and!; [exact H1|exact H2|exact H3|]. intros key. apply sort_by_stable. intros x y <- [= Ha Hb].
  unfold recent_le, recent_cmp. by rewrite Ha, Hb, N.compare_refl, string_compare_refl.
Qed.

(** A report is used only from a transport that is alive, in a known schema, and while it is
    neither stale nor more than five seconds in the future; reading changes no file. *)
Theorem activity_used_is_fresh activity_from_str alive home now w res w'
    (Hread : activity_of activity_from_str alive home now w = (res, w')) :
  files w' = files w
  /\ forall snapshot, res = Some (Some snapshot) ->
       alive = true /\ (schema_version snapshot = 1 \/ schema_version snapshot = 2 \/ schema_version snapshot = 3)%N
       /\ activity_fresh now snapshot = true.
Proof.
  unfold activity_of in Hread. destruct alive; [|by injection Hread as <- <-].
  apply fs_bind_inv in Hread as [[H ->]|(s & w1 & H & Hk)];
    apply fs_bind_inv in H as [[H ?]|(r & w2 & H & Hr)]; apply read_to_string_inv in H as (Hf & _ & _); try done.
  injection Hr as <- <-. injection Hk as <- <-. split; [exact Hf|]. intros snapshot.
  destruct r as [text|e]; [|done]. destruct (activity_from_str text) as [s|]; [|done].
  destruct (_ || _) eqn:Hv; [|done]. destruct (activity_fresh now s) eqn:Hfr; [|done].
  intros [= <-]. reflect_bools. split_and!; [done|tauto|done].
Qed.
