(* ===== verification/CallHistory.v ===== *)
(** * The page of past calls ([src-tauri/src/call_history.rs])

    Reading the ends of the two transports' histories, selecting and counting the calls in
    them, and clearing them. *)

From Stdlib Require Import SpecFloat Sorted.
From S2P Require Export StableSort Activity Runtime.
Local Open Scope string_scope.

(** ** The end of a history *)

Definition history_max_bytes_per_transport : N := 2 * 1024 * 1024.

(** What is kept of the [max] bytes that end a file of [len] bytes, by now holding [content]:
    whole lines. *)
Definition history_tail (from_utf8_lossy : string -> string) (max len : N) (content : string) : string :=
  let start := saturating_sub len max in
  let rest := string_skip (N.to_nat start) content in
  let bytes := substring 0 (N.to_nat (N.min max (N.of_nat (String.length rest)))) rest in
  let text := from_utf8_lossy bytes in
  if (0 <? start)%N then match after_newline text with Some rest => rest | None => "" end else text.

(** Opening a file, of which only the outcome matters. *)
Definition open_file (p : Path) : Fs (Result unit IoError) :=
  opened <-fs read_to_string p ;; fs_ret (match opened with Ok _ => Ok tt | Err e => Err e end).

Definition file_len (p : Path) : Fs (Result N string) := fun w =>
  fs_map_err io_display (fs_bind (stat_file p) (fun r => fs_ret (match r with
    | Ok _ => Ok (N.of_nat (String.length (default "" (files w !! p)))) | Err e => Err e end))) w.

Definition read_call_history_tail (from_utf8_lossy : string -> string) (path : Path) (max : N) : Fs (Result string string) :=
  opened <-fs open_file path ;;
  match opened with
  | Err NotFound => fs_ret (Ok "")
  | Err error => fs_ret (Err ("打开调用记录失败：" ++ io_display error))
  | Ok _ =>
      len <-fs? file_len path ;;
      content <-fs? fs_map_err io_display (read_to_string path) ;;
      fs_ret (Ok (history_tail from_utf8_lossy max len content))
  end.

(** ** The calls in the histories *)

Definition call_name (record : Value) : option string :=
  match get "toolName" record with Some v => as_str v | None => None end.

(** A call succeeded unless its output says otherwise. *)
Definition call_success (record : Value) : bool :=
  match get "output" record with
  | Some output => match get "isError" output with Some (Bool true) => false | _ => true end
  | None => true
  end.

Definition call_duration (record : Value) : option N :=
  match get "duration" record with Some v => as_u64 v | None => None end.

Definition wanted (tool_name status : option string) (name : string) (success : bool) : bool :=
  match tool_name with Some filter => String.eqb filter name | None => true end
  && negb (bool_decide (status = Some "success") && negb success)
  && negb (bool_decide (status = Some "error") && success).

Definition mark (source : string) (success : bool) (record : Value) : Value :=
  match record with
  | Object fields => Object (assoc_insert "source" (VString source) (assoc_insert "success" (Bool success) fields))
  | other => other
  end.

(** A [BTreeSet] as the list of its elements in order. *)
Definition set_insert (name : string) (names : list string) : list string :=
  if one_of names name then names else insert_by string_le name names.

Record Scan := { scan_records : list Value; scan_names : list string; scan_total : nat; scan_invalid : nat }.

Section Parse.
Context (value_from_str : string -> option Value) (tool_name status : option string).

Definition parse_call (line : string) : option (string * Value) :=
  match value_from_str line with
  | Some record => match call_name record with Some name => Some (name, record) | None => None end
  | None => None
  end.

(** One round of the loop over the lines. *)
Definition scan_line (source : string) (s : Scan) (line : string) : Scan :=
  match parse_call line with
  | None => {| scan_records := scan_records s; scan_names := scan_names s; scan_total := scan_total s;
               scan_invalid := S (scan_invalid s) |}
  | Some (name, record) =>
      let success := call_success record in
      {| scan_records := if wanted tool_name status name success then (scan_records s ++ [mark source success record])%list
                         else scan_records s;
         scan_names := set_insert name (scan_names s); scan_total := S (scan_total s); scan_invalid := scan_invalid s |}
  end.

Definition filled_lines (text : string) : list string := List.filter (fun line => negb (is_empty (trim line))) (str_lines text).

Definition scan_source (s : Scan) (source_text : string * string) : Scan :=
  foldl (scan_line source_text.1) s (filled_lines source_text.2).

Definition scan_sources (sources : list (string * string)) : Scan :=
  foldl scan_source {| scan_records := []; scan_names := []; scan_total := 0; scan_invalid := 0 |} sources.
End Parse.

(** ** Statistics *)

#[local] Abbreviation prec := 53%Z.
#[local] Abbreviation emax := 1024%Z.

(** [n as f64] *)
Definition f64_of_N (n : N) : spec_float := binary_normalize prec emax (Z.of_N n) 0 false.
Definition f64_add := SFadd prec emax.
Definition f64_mul := SFmul prec emax.
Definition f64_div := SFdiv prec emax.

(** [f64::round]: to the nearest integer, halves away from zero. *)
Definition f64_round (x : spec_float) : spec_float :=
  match x with
  | S754_finite negative m (Zneg e) =>
      let shift := Z.pow 2 (Zpos e) in
      let magnitude := ((Zpos m + shift / 2) / shift)%Z in
      binary_normalize prec emax (if negative then - magnitude else magnitude)%Z 0 negative
  | x => x
  end.

(** The mean in milliseconds, to a tenth. *)
Definition average_duration (durations : list N) : option spec_float :=
  match durations with
  | [] => None
  | _ =>
      let total := foldl (fun sum n => f64_add sum (f64_of_N n)) (S754_zero false) durations in
      let tenths := f64_round (f64_mul (f64_div total (f64_of_N (N.of_nat (length durations)))) (f64_of_N 10)) in
      Some (f64_div tenths (f64_of_N 10))
  end.

(** [p95_duration_ms], of sorted durations *)
Definition p95_duration (durations : list N) : option N :=
  match durations with
  | [] => None
  | _ => let index := ((length durations * 95 + 99) / 100 - 1)%nat in durations !! index
  end.

(** [at], [bt]: the text the records are ordered by, the newest first. *)
Definition newer_first (a b : Value) : bool := string_le (timestamp_text b) (timestamp_text a).

Record HistoryPage := {
  page_items : list Value;
  page_total : nat;
  page_filtered_total : nat;
  page_tool_names : list string;
  page_invalid_entries : nat;
  page_success_count : nat;
  page_error_count : nat;
  page_average_duration_ms : option spec_float;
  page_p95_duration_ms : option N }.

Definition marked_success (record : Value) : bool :=
  match get "success" record with Some (Bool true) => true | _ => false end.

Fixpoint durations_of (records : list Value) : list N :=
  match records with
  | [] => []
  | record :: records => match call_duration record with Some n => n :: durations_of records | None => durations_of records end
  end.

Definition parse_call_histories (value_from_str : string -> option Value) (sources : list (string * string)) (limit : nat)
    (tool_name status : option string) : HistoryPage :=
  let s := scan_sources value_from_str tool_name status sources in
  let records := scan_records s in
  let success_count := length (List.filter marked_success records) in
  let durations := sort_by N.leb (durations_of records) in
  {| page_items := firstn limit (sort_by newer_first records);
     page_total := scan_total s; page_filtered_total := length records; page_tool_names := scan_names s;
     page_invalid_entries := scan_invalid s; page_success_count := success_count;
     page_error_count := length records - success_count;
     page_average_duration_ms := average_duration durations; page_p95_duration_ms := p95_duration durations |}.

(** ** The commands *)

Definition history_file (home : string) : Path :=
  {| parent := Some (home ++ "/.claude-server-commander"); file_name := "tool-history.jsonl" |}.

(** [clamp(1, 1000)] of the limit asked for, 100 if none is *)
Definition page_limit (limit : option nat) : nat := Nat.min (Nat.max (default 100 limit) 1) 1000.

(** [.map(str::trim).filter(|value| !value.is_empty())] *)
Definition filled (text : option string) : option string :=
  match text with Some t => if is_empty (trim t) then None else Some (trim t) | None => None end.

Section Commands.
Context (P : Platform) (value_from_str : string -> option Value).

(** [history_paths] of [mcp_sources.rs] *)
Definition history_paths : App (Result (list (string * Path)) string) :=
  tunnel_home <-app? desktop_commander_home P ;;
  dir <-app? on_files (state_dir (base_dir P)) ;;
  app_ret (Ok [(tunnel_source, history_file tunnel_home); (https_source, history_file (dir ++ "/https-desktop-commander-home"))]).

Fixpoint read_histories (paths : list (string * Path)) : Fs (Result (list (string * string)) string) :=
  match paths with
  | [] => fs_ret (Ok [])
  | (source, path) :: paths =>
      text <-fs? fs_map_err (fun e => "读取 " ++ source ++ " 调用记录失败：" ++ e)
                   (read_call_history_tail (from_utf8 P) path history_max_bytes_per_transport) ;;
      texts <-fs? read_histories paths ;;
      fs_ret (Ok ((source, text) :: texts))
  end.

Definition get_call_history (limit : option nat) (tool_name status : option string) : App (Result HistoryPage string) :=
  let status := filled status in
  if match status with None => true | Some s => one_of ["success"; "error"] s end
  then
    paths <-app? history_paths ;;
    texts <-app? on_files (read_histories paths) ;;
    app_ret (Ok (parse_call_histories value_from_str texts (page_limit limit) (filled tool_name) status))
  else app_ret (Err "调用记录状态筛选仅支持 success 或 error。").

Fixpoint clear_histories (paths : list (string * Path)) : Fs (Result unit string) :=
  match paths with
  | [] => fs_ret (Ok tt)
  | (source, path) :: paths =>
      there <-fs path_exists path ;;
      _ <-fs? (if (there : bool)
               then fs_map_err (fun e => "清空 " ++ source ++ " 调用记录失败：" ++ io_display e) (write_file path "")
               else fs_ret (Ok tt)) ;;
      clear_histories paths
  end.

Definition clear_call_history : App (Result unit string) :=
  paths <-app? history_paths ;; on_files (clear_histories paths).
End Commands.

(** ** Properties *)

(** *** Whole lines *)

Lemma after_newline_inv text rest : after_newline text = Some rest -> exists before, text = before ++ String newline rest.
Proof.
  induction text as [|a text IH]; cbn; [done|]. destruct (ascii_dec a newline) as [->|_].
  - intros [= ->]. by exists "".
  - intros (before & ->)%IH. by exists (String a before).
Qed.

Lemma split_on_app_gen c a b : split_on c (a ++ String c b) = (split_on c a ++ split_on c b)%list.
Proof.
  induction a as [|x a IH]; cbn; [by rewrite Ascii.eqb_refl|]. rewrite IH. destruct (Ascii.eqb x c); [done|].
  by destruct (split_on c a) eqn:E; [destruct a; cbn in E; repeat case_match|].
Qed.

Lemma split_on_last c a : exists init lst, split_on c a = (init ++ [lst])%list.
Proof.
  assert (split_on c a <> []) as Hne by (by destruct a; cbn; repeat case_match).
  destruct (exists_last Hne) as (init & lst & ->). by exists init, lst.
Qed.

Lemma str_lines_split text init lst : split_on newline text = (init ++ [lst])%list ->
  str_lines text = (map strip_cr init ++ if is_empty lst then [] else [lst])%list.
Proof. unfold str_lines. intros ->. rewrite rev_app_distr. cbn. by rewrite rev_involutive. Qed.

(** The lines before a line's end, and those after it. *)
Lemma str_lines_app a b : str_lines (a ++ String newline b) = (map strip_cr (split_on newline a) ++ str_lines b)%list.
Proof.
  destruct (split_on_last newline b) as (init & lst & Hb).
  rewrite (str_lines_split b init lst Hb), (str_lines_split _ (split_on newline a ++ init) lst).
  - by rewrite map_app, app_assoc.
  - by rewrite split_on_app_gen, Hb, app_assoc.
Qed.

Lemma string_skip_split n s : exists before, s = before ++ string_skip n s /\ String.length before = Nat.min n (String.length s).
Proof.
  revert s. induction n as [|n IH]; intros s; [by exists ""|]. destruct s as [|a s]; [by exists ""|]. cbn [string_skip].
  destruct (IH s) as (before & E & L). exists (String a before). cbn. by rewrite L, <- E.
Qed.

Lemma substring_all s n : (String.length s <= n)%nat -> substring 0 n s = s.
Proof. revert n. induction s as [|a s IH]; intros [|n] H; cbn in *; [done..|lia|]. f_equal. apply IH. lia. Qed.

(** Reading the end of a history gives whole lines: the lines it holds are the last lines of
    the file, all of them if the file is short enough, and never more than the bytes asked
    for.  (The bytes read are text.) *)
Theorem history_tail_lines lossy max content :
  (forall bytes, lossy bytes = bytes) ->
  let tail := history_tail lossy max (N.of_nat (String.length content)) content in
  (exists before, str_lines content = (before ++ str_lines tail)%list)
  /\ (N.of_nat (String.length tail) <= max)%N
  /\ ((N.of_nat (String.length content) <= max)%N -> tail = content).
Proof.
  intros Hlossy. cbv zeta. unfold history_tail, saturating_sub. rewrite Hlossy. set (len := N.of_nat (String.length content)).
  destruct (string_skip_split (N.to_nat (len - max)) content) as (before & Hc & Hl).
  set (rest := string_skip _ content) in *.
  assert (String.length content = String.length before + String.length rest)%nat as Hlen by (rewrite Hc at 1; apply length_append).
  rewrite substring_all by lia.
  destruct (0 <? len - max)%N eqn:Hlong; [apply N.ltb_lt in Hlong|apply N.ltb_ge in Hlong].
  - destruct (after_newline rest) as [tail|] eqn:Ha.
    + apply after_newline_inv in Ha as (skipped & Hr). split_and!; [| |lia].
      * exists (map strip_cr (split_on newline (before ++ skipped))). by rewrite Hc, Hr, append_assoc, str_lines_app.
      * rewrite Hr, length_append in Hlen. cbn in Hlen. lia.
    + split_and!; [exists (str_lines content); by rewrite app_nil_r|cbn; lia|lia].
  - assert (before = "") as -> by (destruct before; [done|cbn in *; lia]). rewrite Hc. cbn.
    split_and!; [by exists []|cbn in Hlen; lia|done].
Qed.

(** *** What the page shows *)

(** The lines of the sources, each with its source, and the calls among them. *)
Definition all_lines (sources : list (string * string)) : list (string * string) :=
  flat_map (fun '(source, text) => map (pair source) (filled_lines text)) sources.

Definition Call : Type := string * (string * Value).
Definition call_of (value_from_str : string -> option Value) (source_line : string * string) : option Call :=
  pair source_line.1 <$> parse_call value_from_str source_line.2.

Definition call_wanted (tool_name status : option string) (c : Call) : bool :=
  wanted tool_name status c.2.1 (call_success c.2.2).
Definition marked (c : Call) : Value := mark c.1 (call_success c.2.2) c.2.2.

Definition strictly_sorted (names : list string) : Prop := sorted_by string_le names /\ NoDup names.

Section PageProps.
Context (value_from_str : string -> option Value) (tool_name status : option string).

#[local] Abbreviation calls lines := (omap (call_of value_from_str) lines).
#[local] Abbreviation shown cs := (map marked (List.filter (call_wanted tool_name status) cs)).
#[local] Abbreviation scan s lines := (foldl (fun s '(source, line) => scan_line value_from_str tool_name status source s line) s lines).

Lemma scan_sources_flat sources s :
  foldl (scan_source value_from_str tool_name status) s sources = scan s (all_lines sources).
Proof.
  revert s. induction sources as [|[source text] sources IH]; intros s; [done|]. cbn [foldl all_lines flat_map].
  rewrite IH, foldl_app. f_equal. unfold scan_source. cbn.
  generalize (filled_lines text) as lines. intros lines. revert s. induction lines as [|line lines IHl]; intros s; [done|]. apply IHl.
Qed.

Lemma set_insert_inv name names : strictly_sorted names ->
  strictly_sorted (set_insert name names) /\ forall n, In n (set_insert name names) <-> n = name \/ In n names.
Proof.
  intros [Hs Hn]. unfold set_insert. destruct (one_of names name) eqn:Ho.
  - split; [done|]. intros n. split; [by right|]. intros [->|?]; [|done]. by apply one_of_In.
  - assert (~ In name names) as Hno by (intros H%one_of_In; congruence). split; [split|].
    + apply insert_by_sorted; [apply string_le_trans|apply string_le_total|done].
    + rewrite insert_by_perm. apply NoDup_cons. split; [by rewrite list_elem_of_In|done].
    + intros n. rewrite (Permutation_in' eq_refl (insert_by_perm string_le name names)). cbn. naive_solver.
Qed.

Lemma scan_line_fields source line s : let s' := scan_line value_from_str tool_name status source s line in
  match call_of value_from_str (source, line) with
  | Some c => scan_records s' = (scan_records s ++ shown [c])%list /\ scan_names s' = set_insert c.2.1 (scan_names s)
      /\ scan_total s' = S (scan_total s) /\ scan_invalid s' = scan_invalid s
  | None => scan_records s' = scan_records s /\ scan_names s' = scan_names s /\ scan_total s' = scan_total s
      /\ scan_invalid s' = S (scan_invalid s)
  end.
Proof.
  unfold call_of, scan_line. cbn [fst snd]. destruct (parse_call value_from_str line) as [[name record]|]; cbn; [|done].
  split_and!; [|done..]. unfold call_wanted. cbn. destruct (wanted _ _ _ _); [done|]. by rewrite app_nil_r.
Qed.

Lemma scan_inv lines s : let s' := scan s lines in
  scan_records s' = (scan_records s ++ shown (calls lines))%list
  /\ scan_total s' = (scan_total s + length (calls lines))%nat
  /\ (scan_invalid s' + length (calls lines) = scan_invalid s + length lines)%nat
  /\ (strictly_sorted (scan_names s) -> strictly_sorted (scan_names s')
        /\ forall n, In n (scan_names s') <-> In n (scan_names s) \/ In n (map (fun c => c.2.1) (calls lines))).
Proof.
  revert s. induction lines as [|[source line] lines IH]; intros s; cbv zeta.
  { cbn. rewrite app_nil_r. split_and!; [done|lia|lia|]. intros H. split; [done|]. naive_solver. }
  assert (calls ((source, line) :: lines) = match call_of value_from_str (source, line) with
                                            | Some c => c :: calls lines | None => calls lines end) as -> by done.
  cbn [foldl]. pose proof (scan_line_fields source line s) as Hs. cbv zeta in Hs.
  revert Hs. generalize (scan_line value_from_str tool_name status source s line) as s1. intros s1 Hs.
  destruct (IH s1) as (Hr & Ht & Hi & Hn). clear IH.
  destruct (call_of value_from_str (source, line)) as [c|]; destruct Hs as (E1 & E2 & E3 & E4); rewrite Hr, Ht, E1, E3; cbn [length].
  - split_and!; [|lia|lia|].
    + cbn [List.filter]. rewrite <- app_assoc. f_equal. by destruct (call_wanted tool_name status c).
    + intros H. apply set_insert_inv with (name := c.2.1) in H as [H Hin]. rewrite E2 in Hn. destruct (Hn H) as [H2 Hin2].
      split; [done|]. intros n. rewrite Hin2, Hin. cbn. naive_solver.
  - rewrite E2 in Hn. split_and!; [done|lia|lia|exact Hn].
Qed.

Lemma marked_success_mark source success fields : marked_success (mark source success (Object fields)) = success.
Proof.
  unfold marked_success. cbn. rewrite assoc_insert_lookup. cbn. rewrite assoc_insert_lookup. by destruct success.
Qed.

Lemma call_is_object line c : parse_call value_from_str line = Some c -> exists fields, c.2 = Object fields.
Proof.
  unfold parse_call. destruct (value_from_str line) as [[]|]; cbn; try done. destruct (call_name _); [|done].
  intros [= <-]. by eexists.
Qed.

Lemma success_marked lines c : In c (calls lines) -> marked_success (marked c) = call_success c.2.2.
Proof.
  rewrite <- list_elem_of_In, list_elem_of_omap. intros ([source line] & _ & Hc). unfold call_of in Hc.
  destruct (parse_call _ _) as [[name record]|] eqn:Hp; [|done]. injection Hc as <-. apply call_is_object in Hp as (fields & Ho).
  cbn in Ho. subst record. apply marked_success_mark.
Qed.

Lemma call_success_wanted c : call_wanted tool_name status c = true ->
  (status = Some "success" -> call_success c.2.2 = true) /\ (status = Some "error" -> call_success c.2.2 = false).
Proof.
  unfold call_wanted, wanted. rewrite !andb_true_iff, !negb_true_iff, !andb_false_iff, !bool_decide_eq_false, negb_false_iff. naive_solver.
Qed.
End PageProps.

(** *** The nearest rank *)

Definition at_most (x : N) (l : list N) : nat := length (List.filter (fun y => (y <=? x)%N) l).

Lemma at_most_perm x l1 l2 : Permutation l1 l2 -> at_most x l1 = at_most x l2.
Proof.
  induction 1 as [|y l1 l2 _ IH|y z l|l1 l2 l3 _ IH1 _ IH2]; unfold at_most in *; cbn; [done| | |congruence].
  - destruct (y <=? x)%N; cbn; by rewrite IH.
  - by destruct (y <=? x)%N, (z <=? x)%N.
Qed.

Lemma at_most_le x l : (at_most x l <= length l)%nat.
Proof. unfold at_most. apply List.filter_length_le. Qed.

Lemma at_most_app x a b : at_most x (a ++ b) = (at_most x a + at_most x b)%nat.
Proof. unfold at_most. by rewrite List.filter_app, length_app. Qed.

Lemma at_most_split k x l : at_most x l = (at_most x (take k l) + at_most x (drop k l))%nat.
Proof. by rewrite <- at_most_app, take_drop. Qed.

Lemma at_most_all x l : Forall (fun y => y <= x)%N l -> at_most x l = length l.
Proof.
  induction 1 as [|y l Hy _ IH]; [done|]. unfold at_most in *. cbn. apply N.leb_le in Hy as ->. cbn. by rewrite IH.
Qed.

Lemma at_most_none x l : Forall (fun y => x < y)%N l -> at_most x l = 0%nat.
Proof. induction 1 as [|y l Hy _ IH]; [done|]. unfold at_most in *. cbn. by apply N.leb_gt in Hy as ->. Qed.

Lemma sorted_around l k x : StronglySorted (fun a b => (a <=? b)%N = true) l -> l !! k = Some x ->
  Forall (fun y => y <= x)%N (take (S k) l) /\ Forall (fun y => x <= y)%N (drop k l).
Proof.
  intros Hs. revert k. induction Hs as [|a l Hs IH Ha]; intros [|k]; cbn; [done|done| |].
  - intros [= ->]. split; [rewrite take_0; by constructor|]. constructor; [done|].
    eapply Forall_impl; [exact Ha|]. intros y Hy. by apply N.leb_le.
  - intros Hk. destruct (IH k Hk) as [H1 H2]. split; [|done]. constructor; [|done].
    rewrite Forall_forall in Ha. apply N.leb_le, Ha. by eapply list_elem_of_lookup_2.
Qed.

(** The 95th percentile shown: a duration of the list that at least 95 percent of them do not
    exceed, and the least such. *)
Lemma p95_nearest_rank l : match p95_duration (sort_by N.leb l) with
  | None => l = []
  | Some x => In x l /\ (95 * length l <= 100 * at_most x l)%nat
      /\ forall y, (y < x)%N -> (100 * at_most y l < 95 * length l)%nat
  end.
Proof.
  pose proof (sort_by_perm N.leb l) as Hp. pose proof (length_sort_by N.leb l) as Hl.
  assert (sorted_by N.leb (sort_by N.leb l)) as Hs.
  { apply sort_by_sorted; [intros a b c; rewrite !N.leb_le; lia|intros a b; rewrite N.leb_gt, N.leb_le; lia]. }
  unfold p95_duration. destruct (sort_by N.leb l) as [|n0 s0] eqn:E; [by apply Permutation_nil in Hp|]. rewrite <- E in *. clear E n0 s0.
  set (s := sort_by N.leb l) in *. set (n := length s) in *. set (k := ((n * 95 + 99) / 100 - 1)%nat).
  destruct (decide (n = 0)%nat) as [Hz|Hz].
  { assert (s !! k = None) as -> by (apply lookup_ge_None; fold n; lia). apply length_zero_iff_nil. lia. }
  pose proof (Nat.div_mod (n * 95 + 99) 100 ltac:(lia)) as Hdiv. pose proof (Nat.mod_upper_bound (n * 95 + 99) 100 ltac:(lia)) as Hmod.
  set (q := ((n * 95 + 99) / 100)%nat) in *. assert (q >= 1)%nat as Hq by lia.
  destruct (lookup_lt_is_Some_2 s k ltac:(fold n; lia)) as [x Hx]. rewrite Hx. destruct (sorted_around s k x Hs Hx) as [H1 H2].
  split_and!.
  - eapply Permutation_in; [exact Hp|]. apply list_elem_of_In. by eapply list_elem_of_lookup_2.
  - rewrite <- (at_most_perm x _ _ Hp), <- Hl. rewrite (at_most_split (S k) x s), (at_most_all x _ H1), length_take.
    fold n. lia.
  - intros y Hy. rewrite <- (at_most_perm y _ _ Hp), <- Hl. rewrite (at_most_split k y s).
    rewrite (at_most_none y (drop k s)); [|eapply Forall_impl; [exact H2|]; cbn; lia].
    pose proof (at_most_le y (take k s)) as Hb. rewrite length_take in Hb. fold n. lia.
Qed.

(** *** The page *)

Lemma newer_first_trans a b c : newer_first a b = true -> newer_first b c = true -> newer_first a c = true.
Proof. unfold newer_first. intros H1 H2. by eapply string_le_trans. Qed.
Lemma newer_first_total a b : newer_first a b = false -> newer_first b a = true.
Proof. unfold newer_first. apply string_le_total. Qed.

Lemma filter_map_length (cs : list Call) (f : Value -> bool) (b : Call -> bool) :
  (forall c, In c cs -> f (marked c) = b c) ->
  length (List.filter f (map marked cs)) = length (List.filter b cs).
Proof.
  induction cs as [|c cs IH]; intros H; [done|]. cbn. rewrite (H c) by (by left).
  destruct (b c); cbn; rewrite IH; naive_solver.
Qed.

(** C37. The page of calls.  Every line that is not blank is counted, as a call or as invalid; the
    calls that match the filters are counted by outcome, each call's outcome being its own
    output's.  The page shows as many of them as fit, with their transports, newest first
    and in the order of the files where the times are equal; none left out is newer than one
    shown.  The names offered are those of all calls, once each, in order.  The 95th
    percentile shown is the nearest rank of the durations of the calls that match. *)
Theorem call_history_spec value_from_str sources limit tool_name status :
  let page := parse_call_histories value_from_str sources limit tool_name status in
  let calls := omap (call_of value_from_str) (all_lines sources) in
  let matching := List.filter (call_wanted tool_name status) calls in
  let durations := durations_of (map marked matching) in
  (page_total page = length calls /\ (page_total page + page_invalid_entries page)%nat = length (all_lines sources))
  /\ (page_filtered_total page = length matching /\ (page_success_count page + page_error_count page)%nat = length matching
      /\ page_success_count page = length (List.filter (fun c => call_success c.2.2) matching))
  /\ (length (page_items page) = Nat.min limit (length matching) /\ sorted_by newer_first (page_items page)
      /\ (exists rest, Permutation (page_items page ++ rest) (map marked matching)
           /\ forall a b, In a (page_items page) -> In b rest -> newer_first a b = true)
      /\ (forall time, (length matching <= limit)%nat ->
            filter (fun v => timestamp_text v = time) (page_items page) = filter (fun v => timestamp_text v = time) (map marked matching)))
  /\ (strictly_sorted (page_tool_names page) /\ forall n, In n (page_tool_names page) <-> In n (map (fun c => c.2.1) calls))
  /\ match page_p95_duration_ms page with
     | None => durations = []
     | Some x => In x durations /\ (95 * length durations <= 100 * at_most x durations)%nat
         /\ forall y, (y < x)%N -> (100 * at_most y durations < 95 * length durations)%nat
     end.
Proof.
  intros page calls matching durations. subst page. unfold parse_call_histories, scan_sources. rewrite scan_sources_flat.
  cbn [page_total page_invalid_entries page_filtered_total page_success_count page_error_count page_items page_tool_names page_p95_duration_ms].
  destruct (scan_inv value_from_str tool_name status (all_lines sources)
    {| scan_records := []; scan_names := []; scan_total := 0; scan_invalid := 0 |}) as (Hr & Ht & Hi & Hn).
  cbn [scan_records scan_total scan_invalid scan_names app] in Hr, Ht, Hi, Hn. rewrite Hr, Ht. fold calls in Hi, Hn |- *. fold matching.
  destruct (sort_by_firstn newer_first newer_first_trans newer_first_total limit (map marked matching)) as (Hsorted & Hlen & Hrest).
  rewrite length_map in Hlen.
  assert (length (List.filter marked_success (map marked matching)) = length (List.filter (fun c => call_success c.2.2) matching)) as Hok.
  { apply filter_map_length. intros c [Hc _]%List.filter_In. by eapply success_marked. }
  pose proof (List.filter_length_le (fun c => call_success c.2.2) matching) as Hle. rewrite !length_map, Hok. clear Hr Ht.
  split_and!; [done|rewrite Nat.add_comm; exact Hi|done|rewrite Nat.add_comm; by apply Nat.sub_add|done|exact Hlen|exact Hsorted|exact Hrest|..].
  - intros time Hfit. rewrite firstn_all2 by (by rewrite length_sort_by, length_map). apply sort_by_stable.
    intros a b Ea Eb. unfold newer_first. rewrite Ea, Eb. apply string_le_refl.
  - apply Hn. by split; [constructor|constructor].
  - intros n. destruct Hn as [_ Hn]; [by split; [constructor|constructor]|]. rewrite Hn. naive_solver.
  - apply p95_nearest_rank.
Qed.

(** *** Clearing *)

Section ClearProps.
Context (P : Platform) (base : string) (Hbase : base_dir P = Ok base) (value_from_str : string -> option Value).

#[local] Abbreviation disk d := (files (desk_world d)).
#[local] Abbreviation faults d := (io_fault (desk_world d)).

(** The two histories. *)
Definition both_histories : list (string * Path) :=
  [(tunnel_source, history_file (base ++ "/state" ++ "/desktop-commander-home"));
   (https_source, history_file (base ++ "/state" ++ "/https-desktop-commander-home"))].

Lemma history_paths_inv d paths d' : history_paths P d = (Some (Ok paths), d') ->
  paths = both_histories /\ disk d' = disk d /\ faults d' = faults d.
Proof using base Hbase.
  intros [[_ ?]|[(e & _ & ?)|(home & d1 & Hh & Hr)]]%app_try_inv; [done..|].
  apply app_try_inv in Hh as [[_ ?]|[(e & _ & ?)|(dir1 & d2 & Hd1 & Hh)]]; [done..|]. injection Hh as <- <-.
  apply app_try_inv in Hr as [[_ ?]|[(e & _ & ?)|(dir2 & d3 & Hd2 & Hr)]]; [done..|]. injection Hr as <- <-.
  rewrite Hbase in Hd1, Hd2. apply on_files_inv in Hd1 as (w1 & Hd1 & ->), Hd2 as (w2 & Hd2 & ->).
  apply state_dir_inv in Hd1 as (F1 & I1 & _ & E1), Hd2 as (F2 & I2 & _ & E2). cbn in *.
  rewrite (E1 _ eq_refl), (E2 _ eq_refl), F2, I2, F1, I1. split_and!; [|done..].
  unfold both_histories. by rewrite !append_assoc.
Qed.

(** A file that is not there, or is empty. *)
Definition blank (fs : gmap Path string) (p : Path) : Prop := fs !! p = None \/ fs !! p = Some "".

Lemma clear_histories_inv paths w w' : clear_histories paths w = (Some (Ok tt), w') -> (forall p, io_fault w (ExistsFile p) = None) ->
  io_fault w' = io_fault w /\ (forall q, q ∉ map snd paths -> files w' !! q = files w !! q)
  /\ (forall q, q ∈ map snd paths -> blank (files w') q).
Proof.
  revert w. induction paths as [|[source path] paths IH]; intros w Hr Hex; cbn [clear_histories] in Hr.
  { injection Hr as <-. split_and!; [done|done|]. intros q []%not_elem_of_nil. }
  apply fs_bind_inv in Hr as [[_ ?]|(there & w1 & Ht & Hr)]; [done|].
  apply path_exists_inv in Ht as (F1 & I1 & Ht). specialize (Ht (Hex path)) as [?|Ht]; [done|]. injection Ht as ->.
  apply fs_try_inv in Hr as [[_ ?]|[(e & _ & ?)|(u & w2 & Hw & Hr)]]; [done..|].
  assert (io_fault w2 = io_fault w /\ (forall q, q <> path -> files w2 !! q = files w !! q) /\ blank (files w2) path) as (I2 & F2 & B2).
  { destruct (files w !! path) eqn:Hp.
    - apply fs_map_err_inv in Hw as (r & Hw & Hr2). apply write_file_inv in Hw as (I2 & F2 & W2).
      rewrite I2, I1. split_and!; [done|intros q Hq; by rewrite F2, F1|]. right. apply W2.
      destruct r as [[[]|]|]; done.
    - injection Hw as _ <-. rewrite I1, F1. split_and!; [done|done|by left]. }
  destruct (IH w2 Hr ltac:(intros p; by rewrite I2)) as (I3 & F3 & B3). cbn [map]. split_and!; [congruence|..].
  - intros q [Hq Hqs]%not_elem_of_cons. by rewrite F3, F2.
  - intros q Hq. destruct (decide (q ∈ map snd paths)) as [?|Hqs]; [by apply B3|].
    apply elem_of_cons in Hq as [->|?]; [|done]. unfold blank. by rewrite F3.
Qed.

Lemma read_histories_blank paths w texts w' : read_histories P paths w = (Some (Ok texts), w') -> from_utf8 P "" = "" ->
  (forall q, q ∈ map snd paths -> blank (files w) q) -> all_lines texts = [].
Proof.
  intros Hr Hutf. revert w texts w' Hr. induction paths as [|[source path] paths IH]; intros w texts w' Hr Hb; cbn [read_histories] in Hr.
  { by injection Hr as <- _. }
  apply fs_try_inv in Hr as [[_ ?]|[(e & _ & ?)|(text & w1 & Ht & Hr)]]; [done..|].
  apply fs_try_inv in Hr as [[_ ?]|[(e & _ & ?)|(rest & w2 & Hrest & Hr)]]; [done..|]. injection Hr as <- _.
  apply fs_map_err_inv in Ht as (r & Ht & Hr). destruct r as [[t|]|]; [|done..]. injection Hr as ->.
  assert (files w1 = files w /\ t = "") as [F1 ->].
  { assert (blank (files w) path) as Hp by (apply Hb; cbn; apply elem_of_cons; by left).
    apply fs_bind_inv in Ht as [[_ ?]|(opened & w3 & Ho & Ht)]; [done|].
    apply fs_bind_inv in Ho as [[_ ?]|(r & w4 & Ho & Hk)]; [done|]. injection Hk as Ho2 <-. apply read_to_string_inv in Ho as (F4 & _ & _).
    destruct opened as [u|[|m]]; [|by injection Ht as <- <-|done].
    apply fs_try_inv in Ht as [[_ ?]|[(e & _ & ?)|(len & w5 & Hl & Ht)]]; [done..|]. unfold file_len in Hl.
    apply fs_map_err_inv in Hl as (r5 & Hl & Hr5). apply fs_bind_inv in Hl as [[_ ->]|(r6 & w6 & Hl & Hk)]; [done|].
    injection Hk as Hk <-. apply fs_op_inv in Hl as (_ & _ & Hl).
    assert (files w6 = files w4) as F6 by (destruct Hl as [[? _]|(r7 & _ & Hl)]; [done|by injection Hl]).
    apply fs_try_inv in Ht as [[_ ?]|[(e & _ & ?)|(content & w7 & Hc & Ht)]]; [done..|].
    apply fs_map_err_inv in Hc as (r8 & Hc & Hr8). apply read_to_string_inv in Hc as (F7 & _ & Hc). injection Ht as Ht <-.
    split; [congruence|]. destruct r8 as [[c|]|]; [|done..]. injection Hr8 as ->. rewrite F6, F4 in Hc.
    destruct Hp as [Hp|Hp]; rewrite Hp in Hc; [done|]. injection Hc as <-. rewrite <- Ht. unfold history_tail.
    assert (forall n, string_skip n "" = "") as Hskip by (by intros []). rewrite Hskip. cbn.
    destruct (N.to_nat _); rewrite Hutf; by destruct (0 <? _)%N. }
  cbn. apply (IH w1 rest _ Hrest). intros q Hq. rewrite F1. apply Hb. cbn. apply elem_of_cons. by right.
Qed.

(** Clearing.  When it succeeds, both histories are gone or empty, no other file has changed,
    and a page that is shown next is empty.  (Whether the files exist can be asked.) *)
Theorem cleared_history_is_empty d d' limit tool_name status page d'' :
  clear_call_history P d = (Some (Ok tt), d') -> (forall p, faults d (ExistsFile p) = None) -> from_utf8 P "" = "" ->
  get_call_history P value_from_str limit tool_name status d' = (Some (Ok page), d'') ->
  (forall q, q ∈ map snd both_histories -> blank (disk d') q)
  /\ (forall q, q ∉ map snd both_histories -> disk d' !! q = disk d !! q)
  /\ page_items page = [] /\ page_total page = 0%nat /\ page_invalid_entries page = 0%nat.
Proof using base Hbase.
  intros Hc Hex Hutf Hg. apply app_try_inv in Hc as [[_ ?]|[(e & _ & ?)|(paths & d1 & Hp & Hc)]]; [done..|].
  apply history_paths_inv in Hp as (-> & F1 & I1). apply on_files_inv in Hc as (w & Hc & ->).
  apply clear_histories_inv in Hc as (_ & Hsame & Hblank); [|intros p; by rewrite I1]. cbn [desk_world set_desk_world] in *.
  split_and!; [exact Hblank|intros q Hq; rewrite <- F1; by apply Hsame|..].
  all: unfold get_call_history in Hg; destruct (match filled status with None => true | _ => _ end); [|done];
    apply app_try_inv in Hg as [[_ ?]|[(e & _ & ?)|(paths & d2 & Hp & Hg)]]; [done..|];
    apply history_paths_inv in Hp as (-> & F2 & _);
    apply app_try_inv in Hg as [[_ ?]|[(e & _ & ?)|(texts & d3 & Hr & Hg)]]; [done..|];
    apply on_files_inv in Hr as (w3 & Hr & _); injection Hg as <- _;
    apply read_histories_blank in Hr; [|done|intros q Hq; rewrite F2; by apply Hblank];
    unfold parse_call_histories, scan_sources; rewrite scan_sources_flat, Hr; cbn; by rewrite ?take_nil.
Qed.
End ClearProps.

Example average_of_two : average_duration [4%N; 7%N] = Some (S754_finite false 6192449487634432 (-50)).
Proof. vm_compute. reflexivity. Qed.

(** ** Witness *)

Definition sample_history_desk : Desk :=
  desk_default (healthy {[ history_file ("/home/u" ++ "/state" ++ "/desktop-commander-home") := "call" ++ String newline "" ]}).
Definition sample_cleared : Desk := (clear_call_history sample_platform sample_history_desk).2.

(** Clearing a history that holds a call. *)
Lemma cleared_history_is_empty_witness :
  blank (files (desk_world sample_cleared)) (history_file ("/home/u" ++ "/state" ++ "/desktop-commander-home"))
  /\ exists page d'', get_call_history sample_platform sample_report None None None sample_cleared = (Some (Ok page), d'')
     /\ page_items page = [].
Proof.
  destruct (get_call_history sample_platform sample_report None None None sample_cleared) as [[[page|e]|] d''] eqn:Hg;
    [|vm_compute in Hg; discriminate..].
  destruct (cleared_history_is_empty sample_platform "/home/u" eq_refl sample_report sample_history_desk sample_cleared None None None
    page d'' ltac:(vm_compute; reflexivity) ltac:(reflexivity) eq_refl Hg) as (Hb & _ & Hi & _).
  split; [apply Hb; by left|]. exists page, d''. by split.
Defined.
