(* ===== verification/MonitorStatus.v ===== *)
(** * What a phone is shown ([src-tauri/src/monitor_status.rs])

    The recent calls of the two transports, from their histories (read through a cache) and
    from what is running now, and the snapshot of the whole application. *)

From S2P Require Export CallHistory HttpsMcp MonitorService Host.
Local Open Scope string_scope.

Definition recent_history_limit : nat := 20.
Definition recent_history_tail_bytes : N := 256 * 1024.
Definition endpoint_cache_ttl_ms : N := 15000.

Definition opt_bool (v : option bool) : Value := match v with Some b => Bool b | None => Null end.
Definition number (n : N) : Value := Number (Some n).

(** ** Calls of a history *)

Section Recent.
Context (value_from_str : string -> option Value) (rfc3339_millis : string -> option Z).

(** The record shown for a line of the history; it is written when the call has finished. *)
Definition history_record (record : Value) : option Value :=
  match call_name record with
  | None => None
  | Some tool_name =>
      let timestamp := match Json.get "timestamp" record with Some v => as_str v | None => None end in
      let duration_ms := call_duration record in
      let started_at :=
        match timestamp with
        | Some text =>
            match rfc3339_millis text with
            | Some finished_at =>
                if (0 <=? finished_at)%Z && (finished_at <=? Z.of_N u64_max)%Z
                then Some (saturating_sub (Z.to_N finished_at) (default 0%N duration_ms)) else None
            | None => None
            end
        | None => None
        end in
      Some (Object [("toolName", VString tool_name); ("timestamp", opt_text timestamp); ("startedAt", opt_number started_at);
                    ("durationMs", opt_number duration_ms); ("success", Bool (call_success record)); ("running", Bool false)])
  end.

Definition line_record (line : string) : option Value :=
  match value_from_str line with Some record => history_record record | None => None end.

Definition parse_recent_history (text : string) (limit : nat) : list Value :=
  firstn limit (omap line_record (rev (str_lines text))).
End Recent.

(** ** Calls that run *)

Definition in_flight_limit : nat := 20.

Definition running_record (id : option string) (tool_name : string) (started now : N) : Value :=
  Object (match id with Some id => [("id", VString id)] | None => [] end
    ++ [("toolName", VString tool_name); ("timestamp", Null); ("startedAt", number started);
        ("durationMs", number (saturating_sub now started)); ("success", Null); ("running", Bool true)])%list.

Definition in_flight_calls (activity : option ActivitySnapshot) (now : N) : list Value :=
  match activity with
  | None => []
  | Some activity =>
      match map (fun call => running_record (Some (call_id call)) (call_tool_name call) (call_started_at call) now)
              (firstn in_flight_limit (act_in_flight_calls activity)) with
      | [] =>
          if (0 <? act_in_flight activity)%N
          then match act_last_tool_name activity, act_last_call_started_at activity with
               | Some tool_name, Some started_at => [running_record None tool_name started_at now]
               | _, _ => []
               end
          else []
      | calls => calls
      end
  end.

Definition is_running (v : Value) : bool := match Json.get "running" v with Some (Bool true) => true | _ => false end.
Definition persisted (v : Value) : bool := negb (is_empty (timestamp_text v)).
Definition u64_field (key : string) (v : Value) : option N := match Json.get key v with Some n => as_u64 n | None => None end.
Definition str_field (key : string) (v : Value) : option string := match Json.get key v with Some s => as_str s | None => None end.

Definition abs_diff (a b : N) : N := if (a <=? b)%N then b - a else a - b.

(** [left.zip(right).is_some_and(…)] *)
Definition both {A} (left right : option A) (f : A -> A -> bool) : bool :=
  match left, right with Some a, Some b => f a b | _, _ => false end.

(** Equality of two JSON values; a number the model does not hold equals no other. *)
Fixpoint value_eqb (a b : Value) : bool :=
  match a, b with
  | Null, Null => true
  | Bool x, Bool y => Bool.eqb x y
  | Number (Some x), Number (Some y) => N.eqb x y
  | VString x, VString y => String.eqb x y
  | Array xs, Array ys =>
      (fix go xs ys := match xs, ys with
                       | [], [] => true | x :: xs, y :: ys => value_eqb x y && go xs ys | _, _ => false end) xs ys
  | _, _ => false
  end.
Definition same_field (key : string) (a b : Value) : bool :=
  match Json.get key a, Json.get key b with
  | None, None => true
  | Some x, Some y => value_eqb x y
  | _, _ => false
  end.

Definition same_recent_call (a b : Value) : bool :=
  if negb (same_field "source" a b) || negb (same_field "toolName" a b) then false
  else if is_running a || is_running b
  then is_running a && is_running b && both (str_field "id" a) (str_field "id" b) String.eqb
  else if persisted a && persisted b then false
  else both (u64_field "startedAt" a) (u64_field "startedAt" b) (fun l r => (abs_diff l r <=? 100)%N)
       && both (u64_field "durationMs" a) (u64_field "durationMs" b) (fun l r => (abs_diff l r <=? 150)%N).

(** [if !calls.iter().any(|saved| same_recent_call(saved, &item)) { calls.push(item) }] *)
Definition push_unless_same (calls : list Value) (item : Value) : list Value :=
  if existsb (fun saved => same_recent_call saved item) calls then calls else (calls ++ [item])%list.

(** The call that finished last, for as long as the history may not show it yet. *)
Definition just_finished (activity : ActivitySnapshot) (now : N) : option Value :=
  match act_last_call_started_at activity, act_last_call_finished_at activity, act_last_tool_name activity with
  | Some started_at, Some finished_at, Some tool_name =>
      if (started_at <=? finished_at)%N && (finished_at <=? saturating_add now 5000)%N && (saturating_sub now finished_at <=? 15000)%N
      then Some (Object [("toolName", VString tool_name); ("timestamp", Null); ("startedAt", number started_at);
                         ("durationMs", opt_number (act_last_duration_ms activity));
                         ("success", opt_bool (act_last_success activity)); ("running", Bool false)])
      else None
  | _, _, _ => None
  end.

Definition merge_source (now : N) (calls : list Value) (source : string * option ActivitySnapshot) : list Value :=
  let calls := foldl push_unless_same calls (map (fun item => annotate item source.1) (in_flight_calls source.2 now)) in
  match source.2 with
  | None => calls
  | Some activity =>
      match just_finished activity now with
      | Some item => push_unless_same calls (annotate item source.1)
      | None => calls
      end
  end.

Definition merge_recent_calls (calls : list Value) (sources : list (string * option ActivitySnapshot)) (now : N) : list Value :=
  sort_recent_by_time (foldl (merge_source now) calls sources) recent_history_limit.

(** ** The caches *)

Section Status.
(** The platform; the JSON readers of histories and of activity files; the reader of times;
    when a file was last changed, if the file system tells; a clock that only runs forward;
    the machine; and what the HTTPS worker last published. *)
Context (P : Platform) (E : ServiceEnv) (value_from_str : string -> option Value) (activity_from_str : string -> option ActivitySnapshot)
        (rfc3339_millis : string -> option Z) (modified_at : Path -> Desk -> option N) (instant : Desk -> N)
        (os : Os) (hostname battery_command : Desk -> Result Output string) (app_version os_name arch : string)
        (published_status : Desk -> option HttpsSnapshot) (runtime_busy : Desk -> bool).

(** The calls at the end of a history's text. *)
Definition calls_of_text (source text : string) : list Value :=
  let tail := read_history_tail (from_utf8 P) (fun _ => Some text) "" (N.to_nat recent_history_tail_bytes) in
  map (fun item => annotate item source) (parse_recent_history value_from_str rfc3339_millis tail recent_history_limit).

Definition put_history (path : Path) (c : RecentHistoryCache) (d : Desk) : Desk :=
  set_history_cache (update_locked (insert path c) (history_cache d)) d.
Definition drop_history (path : Path) (d : Desk) : Desk :=
  set_history_cache (update_locked (delete path) (history_cache d)) d.

Definition cached_calls (path : Path) (len : N) (modified : option N) (d : Desk) : option (list Value) :=
  match lock (history_cache d) with
  | None => None
  | Some items =>
      match items !! path with
      | Some item => if (cache_len item =? len)%N && bool_decide (cache_modified item = modified) then Some (cache_calls item) else None
      | None => None
      end
  end.

(** One round of the loop over the histories. *)
Definition source_calls (source : string) (path : Path) : App (list Value) :=
  metadata <-app on_files (file_len path) ;;
  match metadata with
  | Err _ => _ <-app app_modify (drop_history path) ;; app_ret []
  | Ok len =>
      modified <-app app_get (modified_at path) ;;
      cached <-app app_get (cached_calls path len modified) ;;
      match cached with
      | Some calls => app_ret calls
      | None =>
          content <-app on_files (read_to_string path) ;;
          let calls := match content with
                       | Ok text => calls_of_text source text
                       | Err _ => []
                       end in
          _ <-app app_modify (put_history path {| cache_len := len; cache_modified := modified; cache_calls := calls |}) ;;
          app_ret calls
      end
  end.

Fixpoint all_source_calls (paths : list (string * Path)) : App (list Value) :=
  match paths with
  | [] => app_ret []
  | (source, path) :: paths =>
      calls <-app source_calls source path ;;
      rest <-app all_source_calls paths ;;
      app_ret (calls ++ rest)%list
  end.

Definition recent_history_calls : App (list Value) :=
  paths <-app history_paths P ;;
  records <-app all_source_calls (match paths with Ok paths => paths | Err _ => [] end) ;;
  app_ret (sort_recent_by_time records recent_history_limit).

Definition monitor_endpoints (port : N) : App (list MonitorEndpoint) :=
  cached <-app app_get (fun d => match lock (endpoint_cache d) with
    | Some (Some c) => if (cache_port c =? port)%N && (saturating_sub (instant d) (cache_refreshed_at c) <? endpoint_cache_ttl_ms)%N
                       then Some (cache_endpoints c) else None
    | _ => None
    end) ;;
  match cached with
  | Some endpoints => app_ret endpoints
  | None =>
      endpoints <-app app_get (fun d => discover_monitor_endpoints (interfaces_of E d) port) ;;
      _ <-app app_modify (fun d => set_endpoint_cache (update_locked (fun _ =>
            Some {| cache_port := port; cache_refreshed_at := instant d; cache_endpoints := endpoints |}) (endpoint_cache d)) d) ;;
      app_ret endpoints
  end.

Definition recent_calls (sources : list (string * option ActivitySnapshot)) (now : N) : App (list Value) :=
  history <-app recent_history_calls ;; app_ret (merge_recent_calls history sources now).

(** ** The snapshot *)

(** [mcp_sources::activities] with the paths of [activity_paths] *)
Definition mcp_activities (now : N) : App (Result (list (string * option ActivitySnapshot)) string) :=
  tunnel_home <-app? desktop_commander_home P ;;
  dir <-app? on_files (state_dir (base_dir P)) ;;
  tunnel_alive <-app app_get (fun d => match lock (runtime_snapshot d) with Some s => snap_active s | None => false end) ;;
  https_alive <-app app_get (local_bridge_alive published_status) ;;
  sources <-app on_files (activities activity_from_str tunnel_home (dir ++ "/https-desktop-commander-home") tunnel_alive https_alive now) ;;
  app_ret (Ok sources).
Definition activities_now (now : N) : App (list (string * option ActivitySnapshot)) :=
  sources <-app mcp_activities now ;;
  app_ret (match sources with Ok sources => sources | Err _ => [] end).

Definition mcp_status_fields (s : McpMonitorStatus) : list (string * Value) :=
  [("state", VString (mon_state s)); ("sourceSequence", opt_number (mon_source_sequence s));
   ("sourceUpdatedAt", opt_number (mon_source_updated_at s)); ("launcherStartedAt", opt_number (mon_launcher_started_at s));
   ("lastRequestAt", opt_number (mon_last_request_at s)); ("lastRequestMethod", opt_text (mon_last_request_method s));
   ("lastListToolsAt", opt_number (mon_last_list_tools_at s)); ("callsLastMinute", number (mon_calls_last_minute s));
   ("gapDurationMs", opt_number (mon_gap_duration_ms s)); ("stallDurationMs", opt_number (mon_stall_duration_ms s));
   ("inFlight", number (mon_in_flight s)); ("lastCallStartedAt", opt_number (mon_last_call_started_at s));
   ("lastCallFinishedAt", opt_number (mon_last_call_finished_at s)); ("lastToolName", opt_text (mon_last_tool_name s));
   ("lastSuccess", opt_bool (mon_last_success s)); ("lastDurationMs", opt_number (mon_last_duration_ms s))].

Definition statuses_value (statuses : list (string * McpMonitorStatus)) : Value :=
  Object (map (fun '(key, s) => (key, Object (mcp_status_fields s))) statuses).

(** The connections as the phone names them. *)
Record Connections := {
  active_mode : McpMode;
  tunnel_shown_connected : bool;
  tunnel_shown_state : string;
  https_shown_connected : bool;
  https_shown_state : string;
  https_shown_health : HttpsConnectionHealth;
  https_last_probe : N;
  https_restarts : N }.

Definition is_mode (a b : McpMode) : bool := String.eqb (mode_name a) (mode_name b).

Definition connections_of (settings : Settings) (desired reconnecting : bool) (tunnel : TunnelSnapshot)
    (https : HttpsConnectionHealth * N * N) (now : N) : Connections :=
  let '(health, last_public_probe_at, restarts) := https in
  let mode := effective_mcp_mode settings (health_enabled health) desired in
  let tunnel_connected := is_mode mode ModeTunnel && snap_active tunnel && String.eqb (snap_health tunnel) "healthy"
                          && (0 <? snap_last_probe_at tunnel)%N && (saturating_sub now (snap_last_probe_at tunnel) <=? 12000)%N in
  {| active_mode := mode;
     tunnel_shown_connected := tunnel_connected;
     tunnel_shown_state := if negb (is_mode mode ModeTunnel) then "stopped"
                           else if tunnel_connected then "connected"
                           else if reconnecting then "reconnecting" else "checking";
     https_shown_connected := is_mode mode ModeHttps && connected health;
     https_shown_state := if is_mode mode ModeHttps then health_state health else "stopped";
     https_shown_health := health; https_last_probe := last_public_probe_at; https_restarts := restarts |}.

Definition connections_value (c : Connections) : Value :=
  Object
    [("activeMode", VString (mode_name (active_mode c)));
     ("tunnel", Object [("enabled", Bool (is_mode (active_mode c) ModeTunnel)); ("connected", Bool (tunnel_shown_connected c));
                        ("state", VString (tunnel_shown_state c))]);
     ("httpsMcp", Object [("enabled", Bool (is_mode (active_mode c) ModeHttps)); ("connected", Bool (https_shown_connected c));
                          ("state", VString (https_shown_state c)); ("localReady", Bool (Desktop.local_ready (https_shown_health c)));
                          ("sshConnected", Bool (Desktop.transport_connected (https_shown_health c)));
                          ("transportConnected", Bool (Desktop.transport_connected (https_shown_health c)));
                          ("remoteReady", Bool (Desktop.remote_ready (https_shown_health c)));
                          ("lastPublicProbeAt", number (https_last_probe c)); ("restarts", number (https_restarts c))])].

Definition tunnel_value (tunnel : TunnelSnapshot) (settings : Settings) (capability : bool * string) (d : Desk) : Value :=
  let recovery := recovery_status d in
  Object
    [("state", VString (snap_state tunnel)); ("health", VString (snap_health tunnel)); ("active", Bool (snap_active tunnel));
     ("updatedAt", number (snap_updated_at tunnel)); ("lastProbeAt", number (snap_last_probe_at tunnel));
     ("lastSuccessfulProbeAt", number (snap_last_successful_probe_at tunnel));
     ("consecutiveFailures", number (snap_consecutive_failures tunnel));
     ("controlPlaneState", VString (snap_control_plane_state tunnel)); ("controlPlaneReason", VString (snap_control_plane_reason tunnel));
     ("controlPlaneFailures", number (snap_control_plane_failures tunnel)); ("proxyMode", VString (snap_proxy_mode tunnel));
     ("proxySource", VString (snap_proxy_source tunnel)); ("desiredConnected", Bool (desired_connected d));
     ("autoReconnect", Bool (auto_reconnect settings)); ("reconnecting", Bool (reconnecting d));
     ("reconnectAttempt", number (reconnect_attempt d)); ("reconnectPhase", VString (phase recovery));
     ("nextReconnectAt", number (next_reconnect_at recovery)); ("lastReconnectError", VString (rec_last_error recovery));
     ("reconnectAvailable", Bool capability.1); ("reconnectUnavailableReason", VString capability.2)].

Definition payload_with_tunnel (tunnel_override : option TunnelSnapshot) : App Value :=
  now <-app app_get (now_millis P) ;;
  sources <-app activities_now now ;;
  calls <-app recent_calls sources now ;;
  let mcp := Object (mcp_status_fields (evaluate_activity (primary_activity sources) now)
                     ++ [("recentCalls", Array calls); ("transports", statuses_value (monitor_statuses sources now))])%list in
  tunnel <-app app_get (fun d => match tunnel_override with
                                 | Some tunnel => tunnel
                                 | None => default tunnel_snapshot_default (lock (runtime_snapshot d))
                                 end) ;;
  settings <-app app_load_settings P ;;
  https <-app monitor_public_connection P published_status (https_mcp settings) ;;
  connections <-app app_get (fun d => connections_of settings (desired_connected d) (reconnecting d) tunnel https now) ;;
  endpoints <-app monitor_endpoints (monitor_port settings) ;;
  host <-app host_snapshot P os battery_command instant hostname os_name arch ;;
  app_get (fun d => Object
    [("schemaVersion", number 1); ("serverTime", number now); ("endpoints", Array (map endpoint_value endpoints));
     ("chatx", Object [("version", VString app_version); ("platform", VString (os_name ++ "-" ++ arch))]);
     ("host", host); ("connections", connections_value connections);
     ("tunnel", tunnel_value tunnel settings (reconnect_capability (key_saved P) settings d) d); ("mcp", mcp)]).

Definition payload : App Value := payload_with_tunnel None.

(** [runtime_operation.try_lock()] *)
Definition fresh_payload : App (Result Value string) :=
  busy <-app app_get runtime_busy ;;
  free <-app app_get (fun d => lock (runtime_operation d)) ;;
  if (busy : bool) then app_ret (Err "Tunnel 正在执行连接、停止或重连操作，请稍后刷新。")
  else match free with
       | None => app_ret (Err "Tunnel 操作锁已损坏。")
       | Some _ =>
           paths <-app? app_runtime_paths P ;;
           settings <-app app_load_settings P ;;
           observation <-app app_runtime_status P paths ;;
           now <-app app_get (now_millis P) ;;
           tunnel <-app app_get (fun d => project_runtime_snapshot now (default tunnel_snapshot_default (lock (runtime_snapshot d)))
                                            observation (desired_connected d) settings false) ;;
           value <-app payload_with_tunnel (Some tunnel) ;;
           app_ret (Ok value)
       end.
End Status.

(** ** Running calls are not hidden *)

(** What tells running calls apart: the transport and the identifier. *)
Definition run_key (v : Value) : option (string * string) :=
  if is_running v
  then match str_field "source" v, str_field "id" v with Some source, Some id => Some (source, id) | _, _ => None end
  else None.

(** A running call of a transport, as it is listed. *)
Definition runs_at (source : string) (v : Value) : Prop := is_running v = true /\ Json.get "source" v = Some (VString source).

Lemma value_eqb_string v s : value_eqb v (VString s) = true -> v = VString s.
Proof. destruct v as [| |[]| | |]; try done. cbn. by intros ->%String.eqb_eq. Qed.

Lemma same_running saved item source : runs_at source item -> same_recent_call saved item = true ->
  exists key, run_key item = Some key /\ run_key saved = Some key.
Proof.
  intros [Hr Hs] H. unfold same_recent_call in H. destruct (same_field "source" saved item) eqn:Hsource; [|done].
  destruct (same_field "toolName" saved item); [|done]. cbn in H. rewrite Hr, orb_true_r, andb_true_r in H.
  apply andb_true_iff in H as [Hrun Hid]. unfold same_field in Hsource. rewrite Hs in Hsource.
  destruct (Json.get "source" saved) as [v|] eqn:Hv; [|done]. apply value_eqb_string in Hsource as ->.
  unfold both in Hid. unfold run_key, str_field at 1 3. rewrite Hr, Hrun, Hs, Hv. cbn.
  destruct (str_field "id" saved) as [x|], (str_field "id" item) as [y|]; try done.
  apply String.eqb_eq in Hid as ->. by eexists.
Qed.

(** New running calls are all listed. *)
Lemma push_running source items calls : Forall (runs_at source) items -> NoDup (omap run_key (calls ++ items)%list) ->
  foldl push_unless_same calls items = (calls ++ items)%list.
Proof.
  intros Hi. revert calls. induction Hi as [|item items Hrun _ IH]; intros calls Hn; [by rewrite app_nil_r|]. cbn [foldl].
  unfold push_unless_same at 2. destruct (existsb _ calls) eqn:Hex.
  - exfalso. apply existsb_exists in Hex as (saved & Hin & (key & K1 & K2)%(same_running _ _ source)); [|done].
    rewrite omap_app in Hn. apply NoDup_app in Hn as (_ & Hn & _). apply (Hn key).
    + apply list_elem_of_omap. exists saved. by rewrite list_elem_of_In.
    + apply list_elem_of_omap. exists item. split; [by left|done].
  - rewrite IH; rewrite <- app_assoc; done.
Qed.

Lemma get_annotate key item source fields : item = Object fields ->
  Json.get key (annotate item source) = if String.eqb "source" key then Some (VString source) else Json.get key item.
Proof. intros ->. cbn. by rewrite assoc_insert_lookup. Qed.

Lemma annotated_running id tool_name started now source :
  runs_at source (annotate (running_record id tool_name started now) source)
  /\ run_key (annotate (running_record id tool_name started now) source) = pair source <$> id.
Proof. by destruct id. Qed.

Lemma in_flight_running source activity now :
  Forall (runs_at source) (map (fun item => annotate item source) (in_flight_calls activity now)).
Proof.
  destruct activity as [a|]; [|constructor]. cbn. destruct (act_in_flight_calls a) as [|c cs].
  - cbn. destruct (0 <? act_in_flight a)%N; [|constructor].
    destruct (act_last_tool_name a), (act_last_call_started_at a); repeat constructor; apply annotated_running.
  - cbn [firstn in_flight_limit map]. constructor; [apply annotated_running|]. rewrite map_map. apply Forall_map, Forall_true.
    intros x. apply annotated_running.
Qed.

Lemma in_flight_keys source activity now :
  omap run_key (map (fun item => annotate item source) (in_flight_calls activity now))
  = match activity with Some a => map (fun c => (source, call_id c)) (firstn in_flight_limit (act_in_flight_calls a)) | None => [] end.
Proof.
  assert (forall calls, omap run_key (map (fun item => annotate item source)
    (map (fun c => running_record (Some (call_id c)) (call_tool_name c) (call_started_at c) now) calls)) = map (fun c => (source, call_id c)) calls)
    as Hcalls by (induction calls as [|c cs IH]; cbn; by rewrite ?IH).
  destruct activity as [a|]; [|done]. cbn -[firstn]. destruct (act_in_flight_calls a) as [|c cs].
  - cbn. destruct (0 <? act_in_flight a)%N; [|done]. by destruct (act_last_tool_name a), (act_last_call_started_at a).
  - cbn [firstn in_flight_limit map]. apply (Hcalls (c :: firstn 19 cs)).
Qed.

Lemma just_finished_idle activity now item source : just_finished activity now = Some item -> run_key (annotate item source) = None.
Proof. unfold just_finished. repeat case_match; by intros [= <-]. Qed.

Lemma push_keeps calls item : exists more, push_unless_same calls item = (calls ++ more)%list /\ (more = [] \/ more = [item]).
Proof. unfold push_unless_same. destruct (existsb _ _); [exists []; rewrite app_nil_r|exists [item]]; auto. Qed.

(** One transport's calls: its running ones are added, all of them. *)
Lemma merge_source_inv now calls source activity :
  NoDup (omap run_key calls ++ omap run_key (map (fun item => annotate item source) (in_flight_calls activity now)))%list ->
  exists more, merge_source now calls (source, activity)
    = (calls ++ map (fun item => annotate item source) (in_flight_calls activity now) ++ more)%list /\ omap run_key more = [].
Proof.
  intros Hn. unfold merge_source. cbn [fst snd]. rewrite (push_running source); [|apply in_flight_running|by rewrite omap_app].
  destruct activity as [a|]; [|by exists []].
  destruct (just_finished a now) as [item|] eqn:Hj; [|exists []; by rewrite app_nil_r].
  destruct (push_keeps (calls ++ map (fun item => annotate item source) (in_flight_calls (Some a) now))%list (annotate item source))
    as (more & -> & Hm). exists more. rewrite app_assoc. split; [done|]. destruct Hm as [-> | ->]; [done|]. cbn.
  by rewrite (just_finished_idle _ _ _ source Hj).
Qed.

(** The identifiers of a transport's running calls are distinct. *)
Definition distinct_calls (activity : option ActivitySnapshot) : Prop :=
  match activity with Some a => NoDup (map call_id (act_in_flight_calls a)) | None => True end.

Lemma merge_sources_running now sources calls :
  NoDup (map fst sources) -> Forall (fun s => distinct_calls s.2) sources -> NoDup (omap run_key calls) ->
  (forall key, key ∈ omap run_key calls -> key.1 ∉ map fst sources) ->
  (forall c, In c calls -> In c (foldl (merge_source now) calls sources))
  /\ forall source activity item, In (source, activity) sources -> In item (in_flight_calls activity now) ->
       In (annotate item source) (foldl (merge_source now) calls sources).
Proof.
  intros Hs Hd. revert calls. induction Hd as [|[source activity] sources Hd _ IH]; intros calls Hn Hout; [done|].
  cbn in Hs. apply NoDup_cons in Hs as [Hnot Hs]. cbn [foldl].
  assert (NoDup (omap run_key calls ++ omap run_key (map (fun item => annotate item source) (in_flight_calls activity now)))%list) as Hnodup.
  { apply NoDup_app. split_and!; [done| |].
    - intros key Hk Hk2. apply Hout in Hk. rewrite in_flight_keys in Hk2. apply Hk. destruct activity as [a|]; [|by apply elem_of_nil in Hk2].
      apply list_elem_of_fmap in Hk2 as (c & -> & _). by left.
    - rewrite in_flight_keys. destruct activity as [a|]; [|constructor]. cbn in Hd.
      rewrite <- (take_drop in_flight_limit (act_in_flight_calls a)), map_app in Hd. apply NoDup_app in Hd as (Hd & _).
      change (fun c => (source, call_id c)) with (fun c => pair source (call_id c)). rewrite <- map_map.
      by apply (NoDup_fmap_2 (pair source)). }
  destruct (merge_source_inv now calls source activity Hnodup) as (more & E & Hmore).
  set (items := map (fun item => annotate item source) (in_flight_calls activity now)) in *.
  assert (forall key, key ∈ omap run_key items -> key.1 = source) as Hkeys.
  { subst items. intros key. rewrite in_flight_keys. destruct activity as [a|]; [|by intros ?%elem_of_nil].
    by intros (c & -> & _)%list_elem_of_fmap. }
  assert (omap run_key (calls ++ items ++ more) = omap run_key calls ++ omap run_key items)%list as Homap
    by (by rewrite !omap_app, Hmore, app_nil_r).
  rewrite E. destruct (IH Hs (calls ++ items ++ more)%list) as [Hkeep Hrest]; [by rewrite Homap| |].
  { rewrite Homap. intros key [Hk|Hk]%elem_of_app; [|by rewrite (Hkeys _ Hk)].
    intros Hin. apply (Hout _ Hk). cbn. by right. }
  split; [intros c Hc; apply Hkeep, in_or_app; by left|]. intros source2 activity2 item [[= <- <-]|Hin] Hitem; [|by eapply Hrest].
  apply Hkeep, in_or_app. right. apply in_or_app. left. by apply (in_map (fun item => annotate item source)).
Qed.


(** ** The cache of histories shows what the files hold *)

Section CacheProps.
Context (P : Platform) (base : string) (Hbase : base_dir P = Ok base) (value_from_str : string -> option Value)
        (rfc3339_millis : string -> option Z) (modified_at : Path -> Desk -> option N).

#[local] Abbreviation disk d := (files (desk_world d)).
#[local] Abbreviation faults d := (io_fault (desk_world d)).
#[local] Abbreviation calls_of := (calls_of_text P value_from_str rfc3339_millis).
#[local] Abbreviation one := (source_calls P value_from_str rfc3339_millis modified_at).
#[local] Abbreviation all := (all_source_calls P value_from_str rfc3339_millis modified_at).
#[local] Abbreviation recent := (recent_history_calls P value_from_str rfc3339_millis modified_at).

(** The time of a file is its file's: reading files and caching what they hold do not move it. *)
Definition stable_times : Prop := forall p d w c, files w = disk d ->
  modified_at p (set_history_cache c (set_desk_world w d)) = modified_at p d.

(** What is cached for a history of the length and time it has now is what it holds now. *)
Definition cache_true (d : Desk) : Prop := forall cache path item source text,
  lock (history_cache d) = Some cache -> cache !! path = Some item -> In (source, path) (both_histories base) ->
  disk d !! path = Some text -> cache_len item = N.of_nat (String.length text) -> cache_modified item = modified_at path d ->
  cache_calls item = calls_of source text.

(** Files and faults as they were; the cache may have changed, and nothing else. *)
Definition recached (d d' : Desk) : Prop :=
  exists w c, d' = set_history_cache c (set_desk_world w d) /\ files w = disk d /\ io_fault w = faults d.

Lemma recached_trans d1 d2 d3 : recached d1 d2 -> recached d2 d3 -> recached d1 d3.
Proof. intros (w1 & c1 & -> & F1 & I1) (w2 & c2 & -> & F2 & I2). exists w2, c2. split_and!; [done|by rewrite F2|by rewrite I2]. Qed.

Lemma recached_cache f d : recached d (set_history_cache f d).
Proof. exists (desk_world d), f. split_and!; [by destruct d|done|done]. Qed.

Lemma recached_files {A} (m : Fs A) d res d' : on_files m d = (res, d') ->
  (forall w r w', m w = (r, w') -> files w' = files w /\ io_fault w' = io_fault w) -> recached d d'.
Proof. intros (w & Hm & ->)%on_files_inv H. apply H in Hm as [Hf Hi]. exists w, (history_cache d). split_and!; [by destruct d|done|done]. Qed.

Lemma recached_same d d' p : recached d d' -> stable_times -> disk d' = disk d /\ faults d' = faults d /\ modified_at p d' = modified_at p d.
Proof. intros (w & c & -> & Hf & Hi) Ht. split_and!; [done|done|by apply Ht]. Qed.

(** Nothing about the histories fails. *)
Definition healthy_histories (d : Desk) : Prop := (forall p, faults d (StatFile p) = None /\ faults d (ReadFile p) = None)
  /\ forall dir, faults d (CreateDirAll dir) = None.

Definition history_now (d : Desk) (source_path : string * Path) : list Value :=
  match disk d !! source_path.2 with Some text => calls_of source_path.1 text | None => [] end.

Lemma same_path_same_source source source2 path :
  In (source, path) (both_histories base) -> In (source2, path) (both_histories base) -> source = source2.
Proof.
  cbn. intros [[= <- E1]|[[= <- E1]|[]]] [[= <- E2]|[[= <- E2]|[]]]; try done; exfalso; rewrite <- E1 in E2; injection E2 as E2;
    rewrite <- !append_assoc in E2; apply append_inj_l in E2; discriminate.
Qed.

Lemma cache_true_same d d' cache : recached d d' -> stable_times -> cache_true d ->
  lock (history_cache d) = Some cache ->
  (forall cache', lock (history_cache d') = Some cache' -> forall path item, cache' !! path = Some item ->
     cache !! path = Some item \/ exists source text, In (source, path) (both_histories base) /\ disk d !! path = Some text /\ cache_calls item = calls_of source text) ->
  cache_true d'.
Proof.
  intros Hr Ht Hc Hl Hnew cache' path item source text Hl' Hi Hin Hp Hlen Hmod.
  destruct (recached_same _ _ path Hr Ht) as (Hf & _ & Hm). rewrite Hf in Hp. rewrite Hm in Hmod.
  destruct (Hnew _ Hl' _ _ Hi) as [Hold|(s2 & t2 & Hin2 & Hp2 & ->)]; [by eapply Hc|].
  rewrite Hp in Hp2. injection Hp2 as <-. by rewrite (same_path_same_source _ _ _ Hin Hin2).
Qed.

Lemma file_len_inv p w r w' : file_len p w = (r, w') -> files w' = files w /\ io_fault w' = io_fault w
  /\ (io_fault w (StatFile p) = None -> r = None \/ r = Some (match files w !! p with Some t => Ok (N.of_nat (String.length t))
                                                              | None => Err (io_display NotFound) end)).
Proof.
  unfold file_len. intros (r1 & H & ->)%fs_map_err_inv. apply fs_bind_inv in H as [[H ->]|(s & w1 & H & Hk)].
  - apply fs_op_inv in H as (Hi & _ & [[Hf _]|(r & ? & _)]); [|done]. split_and!; [done|done|by left].
  - injection Hk as <- <-. pose proof H as H0. apply fs_op_inv in H as (Hi & _ & H).
    assert (files w1 = files w) as Hf by (destruct H as [[? _]|(r & _ & H)]; [done|by injection H]).
    split_and!; [done|done|]. intros Hn. right. unfold stat_file, fs_op in H0. rewrite Hn in H0.
    destruct (ops_left w) as [[|n]|]; [done|..]; injection H0 as <- _; by destruct (files w !! p).
Qed.

Lemma cached_now path d len modified calls source text : cached_calls path len modified d = Some calls -> cache_true d ->
  In (source, path) (both_histories base) -> disk d !! path = Some text -> len = N.of_nat (String.length text) ->
  modified = modified_at path d -> calls = calls_of source text.
Proof.
  unfold cached_calls. intros H Hc Hin Hp -> ->. destruct (lock (history_cache d)) as [items|] eqn:Hl; [|done].
  destruct (items !! path) as [item|] eqn:Hi; [|done]. destruct (_ && _) eqn:Hsame; [|done]. injection H as <-.
  apply andb_true_iff in Hsame as [Hlen%N.eqb_eq Hmod%bool_decide_eq_true]. by eapply Hc.
Qed.

Lemma cache_true_recached d d' : recached d d' -> stable_times -> cache_true d ->
  (forall cache', lock (history_cache d') = Some cache' -> exists cache, lock (history_cache d) = Some cache /\
     forall path item, cache' !! path = Some item -> cache !! path = Some item \/ exists source text,
       In (source, path) (both_histories base) /\ disk d !! path = Some text /\ cache_calls item = calls_of source text) ->
  cache_true d'.
Proof.
  intros Hr Ht Hc Hnew cache' path item source text Hl'. destruct (Hnew _ Hl') as (cache & Hl & Hold).
  eapply (cache_true_same d d' cache); [done..| |done]. intros cache2 Hl2. rewrite Hl' in Hl2. injection Hl2 as <-. exact Hold.
Qed.

Lemma source_calls_inv source path d calls d' : one source path d = (Some calls, d') -> In (source, path) (both_histories base) ->
  stable_times -> healthy_histories d -> cache_true d ->
  calls = history_now d (source, path) /\ recached d d' /\ cache_true d'.
Proof.
  intros Hs Hin Ht [Hh _] Hc. destruct (Hh path) as [Hstat Hread]. unfold source_calls in Hs. unfold history_now. cbn [fst snd].
  apply app_bind_inv in Hs as [[_ ?]|(metadata & d1 & Hm & Hs)]; [done|].
  assert (recached d d1) as R1 by (eapply recached_files; [exact Hm|]; intros w r w' Hw; apply file_len_inv in Hw; tauto).
  destruct (recached_same _ _ path R1 Ht) as (F1 & I1 & M1). apply on_files_inv in Hm as (w & Hm & ->).
  apply file_len_inv in Hm as (_ & _ & Hm). specialize (Hm Hstat) as [?|[= ->]]; [done|].
  assert (cache_true (set_desk_world w d)) as C1 by (eapply cache_true_recached; [done..|]; intros c Hl; exists c; split; [exact Hl|by left]).
  destruct (disk d !! path) as [text|] eqn:Hp; cbn beta iota in Hs.
  - unfold app_bind at 1 2, app_get in Hs. set (d1 := set_desk_world w d) in *.
    destruct (cached_calls path _ (modified_at path d1) d1) as [cached|] eqn:Hcached.
    { injection Hs as <- <-. split_and!; [|done|done]. eapply cached_now; [exact Hcached|done|done|by rewrite F1|done|done]. }
    apply app_bind_inv in Hs as [[_ ?]|(content & d2 & Hr & Hs)]; [done|].
    assert (recached d1 d2) as R2 by (eapply recached_files; [exact Hr|]; intros w1 r w2 Hw; apply read_to_string_inv in Hw; tauto).
    destruct (recached_same _ _ path R2 Ht) as (F2 & I2 & M2). apply on_files_inv in Hr as (w2 & Hr & ->).
    apply read_to_string_exact in Hr; [|by rewrite I1]. rewrite F1, Hp in Hr. subst content. injection Hs as <- <-.
    split; [done|]. assert (recached d (put_history path {| cache_len := N.of_nat (String.length text); cache_modified := modified_at path d1;
      cache_calls := calls_of source text |} (set_desk_world w2 d1))) as R3.
    { eapply recached_trans; [exact R1|]. eapply recached_trans; [exact R2|]. apply recached_cache. }
    split; [exact R3|]. eapply cache_true_recached; [exact R3|done..|].
    intros cache' Hl. cbn in Hl. rewrite lock_update in Hl. destruct (lock (history_cache d)) as [cache|] eqn:Hl0; [|done].
    injection Hl as <-. exists cache. split; [done|]. intros p item [[<- <-]|[_ ?]]%lookup_insert_Some; [right|by left].
    by exists source, text.
  - injection Hs as <- <-. split; [done|]. split; [eapply recached_trans; [exact R1|]; apply recached_cache|].
    eapply cache_true_recached; [eapply recached_trans; [exact R1|]; apply recached_cache|done..|].
    intros cache' Hl. cbn in Hl. rewrite lock_update in Hl. destruct (lock (history_cache d)) as [cache|] eqn:Hl0; [|done].
    injection Hl as <-. exists cache. split; [done|]. intros p item [_ ?]%lookup_delete_Some. by left.
Qed.

Lemma all_source_calls_inv paths d calls d' : all paths d = (Some calls, d') -> (forall sp, In sp paths -> In sp (both_histories base)) ->
  stable_times -> healthy_histories d -> cache_true d ->
  calls = concat (map (history_now d) paths) /\ recached d d' /\ cache_true d'.
Proof.
  intros Hs Hin Ht. revert d calls Hs. induction paths as [|[source path] paths IH]; intros d calls Hs Hh Hc; cbn [all_source_calls] in Hs.
  { injection Hs as <- <-. split_and!; [done| |done]. exists (desk_world d), (history_cache d). split_and!; [by destruct d|done|done]. }
  apply app_bind_inv in Hs as [[_ ?]|(here & d1 & H1 & Hs)]; [done|].
  apply app_bind_inv in Hs as [[_ ?]|(rest & d2 & H2 & Hs)]; [done|]. injection Hs as <- <-.
  apply source_calls_inv in H1 as (-> & R1 & C1); [|apply Hin; by left|done..].
  assert (disk d1 = disk d /\ faults d1 = faults d) as [F1 I1] by (destruct R1 as (w & c & -> & ? & ?); done).
  apply IH in H2 as (-> & R2 & C2); [|intros sp ?; apply Hin; by right| |done].
  - split_and!; [|by eapply recached_trans|done]. cbn. f_equal. f_equal. apply map_ext. intros sp. unfold history_now. by rewrite F1.
  - unfold healthy_histories. by rewrite I1.
Qed.

Lemma history_paths_ok d r d' : history_paths P d = (Some r, d') -> (forall dir, faults d (CreateDirAll dir) = None) ->
  r = Ok (both_histories base) /\ exists w, d' = set_desk_world w d /\ files w = disk d /\ io_fault w = faults d.
Proof using base Hbase.
  intros Hp Hdir. unfold history_paths, desktop_commander_home in Hp. rewrite Hbase in Hp.
  assert (forall d0 r0 d1, on_files (state_dir (Ok base)) d0 = (Some r0, d1) -> faults d0 = faults d ->
    r0 = Ok (base ++ "/state") /\ exists w, d1 = set_desk_world w d0 /\ files w = disk d0 /\ io_fault w = faults d0) as Hstate.
  { intros d0 r0 d1 (w & Hs & ->)%on_files_inv Hi. apply state_dir_ok in Hs as (-> & Hf & Hi2); [|by rewrite Hi]. split; [done|]. by exists w. }
  apply app_bind_inv in Hp as [[_ ?]|(r1 & d1 & H1 & Hp)]; [done|].
  apply app_bind_inv in H1 as [[_ ?]|(r0 & d0 & H0 & H1)]; [done|]. apply Hstate in H0 as (-> & w0 & -> & F0 & I0); [|done].
  injection H1 as <- <-. apply app_bind_inv in Hp as [[_ ?]|(r2 & d2 & H2 & Hp)]; [done|].
  apply Hstate in H2 as (-> & w2 & -> & F2 & I2); [|done]. injection Hp as <- <-.
  split; [unfold both_histories; by rewrite !append_assoc|]. exists w2. split_and!; [done|by etrans; [exact F2|]|by etrans; [exact I2|]].
Qed.

(** The cache never shows stale calls.  While nothing fails, the calls read are those the two
    histories hold now, each with its transport, the newest that fit; and the cache is again
    one that agrees with the files.  (Reading and caching do not change when a file was last
    changed, and a file that changes does so in length or time.) *)
Theorem recent_history_exact d calls d' : recent d = (Some calls, d') ->
  stable_times -> healthy_histories d -> cache_true d ->
  calls = sort_recent_by_time (concat (map (history_now d) (both_histories base))) recent_history_limit
  /\ disk d' = disk d /\ cache_true d'.
Proof using base Hbase.
  intros Hr Ht Hh Hc. unfold recent_history_calls in Hr.
  apply app_bind_inv in Hr as [[_ ?]|(paths & d1 & Hp & Hr)]; [done|].
  apply history_paths_ok in Hp as (-> & w & -> & F1 & I1); [|apply Hh].
  assert (recached d (set_desk_world w d)) as R1 by (exists w, (history_cache d); split_and!; [by destruct d|done|done]).
  assert (cache_true (set_desk_world w d)) as C1 by (eapply cache_true_recached; [done..|]; intros c Hl; exists c; split; [exact Hl|by left]).
  apply app_bind_inv in Hr as [[_ ?]|(records & d2 & Ha & Hr)]; [done|]. injection Hr as <- <-.
  apply all_source_calls_inv in Ha as (-> & R2 & C2); [|done|done|unfold healthy_histories; cbn; by rewrite I1|done].
  split_and!; [|destruct R2 as (w2 & c2 & -> & F2 & _); by etrans; [exact F2|]|done]. do 2 f_equal. apply map_ext. intros sp. unfold history_now. cbn. by rewrite F1.
Qed.
End CacheProps.

(** ** One transport is shown as connected *)

Lemma is_mode_eq a b : is_mode a b = true <-> a = b.
Proof. by destruct a, b. Qed.

(** What the phone is told of the connections.  At most one transport is connected, and it is
    the active one; the tunnel only while it is wanted, HTTPS is off, and a healthy report of
    it is at most twelve seconds old; HTTPS only while it is on and its health says so.  What
    is not the active transport is stopped, and the state says connected exactly when the
    flag does. *)
Theorem connections_exclusive settings desired reconnecting tunnel health probe restarts now :
  let c := connections_of settings desired reconnecting tunnel (health, probe, restarts) now in
  (tunnel_shown_connected c && https_shown_connected c = false)
  /\ (tunnel_shown_connected c = true ->
        active_mode c = ModeTunnel /\ desired = true /\ https_enabled (https_mcp settings) = false /\ snap_health tunnel = "healthy"
        /\ snap_active tunnel = true /\ (0 < snap_last_probe_at tunnel)%N /\ (now <= snap_last_probe_at tunnel + 12000)%N)
  /\ (https_shown_connected c = true -> active_mode c = ModeHttps /\ https_enabled (https_mcp settings) = true
        /\ health_enabled health = true /\ connected health = true)
  /\ (tunnel_shown_state c = "connected" <-> tunnel_shown_connected c = true)
  /\ (active_mode c <> ModeTunnel -> tunnel_shown_state c = "stopped")
  /\ (active_mode c <> ModeHttps -> https_shown_state c = "stopped").
Proof.
  unfold connections_of. cbn [active_mode tunnel_shown_connected tunnel_shown_state https_shown_connected https_shown_state].
  set (mode := effective_mcp_mode settings (health_enabled health) desired).
  assert (mode = ModeTunnel -> desired = true /\ https_enabled (https_mcp settings) = false) as Htunnel.
  { subst mode. unfold effective_mcp_mode. destruct (https_enabled _), (health_enabled health), desired; cbn; naive_solver. }
  assert (mode = ModeHttps -> https_enabled (https_mcp settings) = true /\ health_enabled health = true) as Hhttps.
  { subst mode. unfold effective_mcp_mode. destruct (https_enabled _), (health_enabled health), desired; cbn; naive_solver. }
  clearbody mode. pose (fresh := snap_active tunnel && String.eqb (snap_health tunnel) "healthy" && (0 <? snap_last_probe_at tunnel)%N
    && (saturating_sub now (snap_last_probe_at tunnel) <=? 12000)%N).
  assert (fresh = true -> snap_active tunnel = true /\ snap_health tunnel = "healthy" /\ (0 < snap_last_probe_at tunnel)%N
    /\ (now <= snap_last_probe_at tunnel + 12000)%N) as Hfresh.
  { subst fresh. unfold saturating_sub. rewrite !andb_true_iff, N.ltb_lt, N.leb_le, String.eqb_eq. intros (((? & ?) & ?) & ?).
    split_and!; [done..|lia]. }
  assert (is_mode mode ModeTunnel && snap_active tunnel && String.eqb (snap_health tunnel) "healthy" && (0 <? snap_last_probe_at tunnel)%N
    && (saturating_sub now (snap_last_probe_at tunnel) <=? 12000)%N = is_mode mode ModeTunnel && fresh) as -> by (subst fresh; by rewrite !andb_assoc).
  clearbody fresh. destruct mode; cbn; destruct fresh, (connected health), reconnecting; naive_solver.
Qed.

(** ** Witnesses *)

Definition sample_activity : ActivitySnapshot :=
  {| schema_version := 3; act_sequence := 3; act_updated_at := 149000; act_launcher_started_at := None; act_last_request_at := None;
     act_last_request_method := None; act_last_list_tools_at := None; act_last_call_started_at := Some 140000%N;
     act_last_call_finished_at := Some 149000%N; act_last_tool_name := Some "read_file"; act_last_success := Some true;
     act_last_duration_ms := Some 9000%N; act_in_flight := 2;
     act_in_flight_calls := [{| call_id := "call-1"; call_tool_name := "read_file"; call_started_at := 140000 |};
                             {| call_id := "call-2"; call_tool_name := "read_file"; call_started_at := 140070 |}];
     act_oldest_in_flight_started_at := None; act_recent_call_starts := []; act_calls_last_minute := 1 |}.

(** A finished call of the same name and time, as the history has it. *)
Definition sample_finished : Value :=
  Object [("toolName", VString "read_file"); ("startedAt", number 140050); ("durationMs", number 9000);
          ("timestamp", VString "2026-10-11T09:00:00Z"); ("running", Bool false); ("source", VString tunnel_source)].


Definition sample_line (line : string) : option Value :=
  if String.eqb line "call" then Some (Object [("toolName", VString "read_file")]) else None.
Definition sample_recent : option (list Value) * Desk :=
  recent_history_calls sample_platform sample_line (fun _ => None) (fun _ _ => None) sample_history_desk.

Lemma recent_history_exact_witness : exists calls, sample_recent.1 = Some calls /\ length calls = 1%nat
  /\ calls = sort_recent_by_time (concat (map (history_now sample_platform sample_line (fun _ => None) sample_history_desk) (both_histories "/home/u")))
               recent_history_limit.
Proof.
  destruct sample_recent.1 as [calls|] eqn:Hc; [|vm_compute in Hc; discriminate]. exists calls. split; [reflexivity|].
  destruct (recent_history_exact sample_platform "/home/u" eq_refl sample_line (fun _ => None) (fun _ _ => None) sample_history_desk calls sample_recent.2)
    as (-> & _); [rewrite <- Hc; apply surjective_pairing|by intros p d w c _|by split|by intros cache path item source text [= <-]|].
  split; [vm_compute; reflexivity|reflexivity].
Defined.
