(* ===== verification/Status.v ===== *)
(** * The connection page ([src-tauri/src/connection_commands.rs], [diagnostics_commands.rs])

    The page that every command of [Connection] ends by building, the live status of the
    calls, and the commands that stop everything. *)

From S2P Require Export MonitorStatus.
Local Open Scope string_scope.

(** What the desktop is told about HTTPS, as it is serialized. *)
Definition https_status_value (s : HttpsMcpStatus) : Value :=
  Object
    [("enabled", Bool (status_enabled s)); ("connected", Bool (status_connected s)); ("state", VString (status_state s));
     ("autoReconnect", Bool (status_auto_reconnect s)); ("manualStopBlocked", Bool (status_manual_stop_blocked s));
     ("baseUrl", VString (status_base_url s)); ("endpoint", VString (status_endpoint s)); ("sshHost", VString (status_ssh_host s));
     ("sshUser", VString (status_ssh_user s)); ("sshPort", number (status_ssh_port s)); ("localPort", number (status_local_port s));
     ("remotePort", number (status_remote_port s)); ("authorizationTtlHours", opt_number (status_authorization_ttl_hours s));
     ("transport", VString (status_transport s)); ("localReady", Bool (status_local_ready s));
     ("sshConnected", Bool (status_ssh_connected s)); ("transportConnected", Bool (status_transport_connected s));
     ("remoteReady", Bool (status_remote_ready s)); ("lastPublicProbeAt", number (status_last_public_probe_at s));
     ("remoteLastError", VString (status_remote_last_error s)); ("restarts", number (status_restarts s));
     ("lastError", VString (status_last_error s))].

(** [key_storage] of [secrets.rs] *)
Definition key_storage (os : Os) : string :=
  match os with WindowsOs => "Windows DPAPI" | MacOs => "macOS Keychain" | OtherOs => "session only" end.

Section Page.
(** The platform and target; the JSON reader and the reader of activity files; the published
    status of HTTPS; and the version of the application and the names of the target. *)
Context (P : Platform) (os : Os) (value_from_str : string -> option Value) (activity_from_str : string -> option ActivitySnapshot)
        (published_status : Desk -> option HttpsSnapshot) (app_version os_name arch : string).

Definition manifest (paths : RuntimePaths) : Fs Value :=
  text <-fs read_to_string {| parent := Some (root paths); file_name := "runtime-manifest.json" |} ;;
  fs_ret (match text with Ok text => default (Object []) (value_from_str text) | Err _ => Object [] end).

Definition tunnel_version (runtime_manifest : Value) : string :=
  match Json.get "tunnelClient" runtime_manifest with
  | Some client => default "unknown" (str_field "version" client)
  | None => "unknown"
  end.
Definition desktop_commander_of (runtime_manifest : Value) : Value :=
  default (Object [("version", VString "unknown")]) (Json.get "desktopCommander" runtime_manifest).

(** The fields both branches begin with. *)
Definition status_head (settings : Settings) (https : HttpsMcpStatus) (d : Desk) : list (string * Value) :=
  let recovery := recovery_status d in
  let capability := reconnect_capability (key_saved P) settings d in
  [("service", Object [("name", VString "ChatX"); ("version", VString app_version)]);
   ("configured", Bool (negb (is_empty (tunnel_id settings)))); ("tunnelId", VString (tunnel_id settings));
   ("rememberKey", Bool (remember_key settings)); ("autoReconnect", Bool (auto_reconnect settings));
   ("activeMcpMode", VString (mode_name (effective_mcp_mode settings (status_enabled https) (desired_connected d))));
   ("desiredConnected", Bool (desired_connected d)); ("reconnecting", Bool (reconnecting d));
   ("reconnectAttempt", number (reconnect_attempt d)); ("reconnectPhase", VString (phase recovery));
   ("nextReconnectAt", number (next_reconnect_at recovery)); ("lastReconnectError", VString (rec_last_error recovery));
   ("reconnectAvailable", Bool capability.1); ("reconnectUnavailableReason", VString capability.2);
   ("runtimeKeySaved", Bool (key_saved P)); ("keyStorage", VString (key_storage os));
   ("platform", VString (os_name ++ "-" ++ arch))].

(** And the fields both end with. *)
Definition status_tail (sources : list (string * option ActivitySnapshot)) (https : HttpsMcpStatus) (now : N) (d : Desk)
    : list (string * Value) :=
  [("mcpMonitor", Object (mcp_status_fields (evaluate_activity (primary_activity sources) now)));
   ("mcpTransports", statuses_value (monitor_statuses sources now));
   ("trayStopError", opt_text (default None (lock (tray_stop_error d)))); ("httpsMcp", https_status_value https);
   ("logs", Array (map VString (default [] (lock (logs d)))))].

Definition runtime_fields (runtime_manifest : Value) (command : string) (d : Desk) : list (string * Value) :=
  let tunnel := default tunnel_snapshot_default (lock (runtime_snapshot d)) in
  [("runtimeState", VString (snap_state tunnel)); ("runtimeActive", Bool (snap_active tunnel));
   ("runtimeHealth", VString (snap_health tunnel)); ("runtime", Null); ("lastError", VString (snap_last_error tunnel));
   ("tunnelVersion", VString (tunnel_version runtime_manifest)); ("desktopCommander", desktop_commander_of runtime_manifest);
   ("mcpCommand", VString command)].
Definition unavailable_fields (error : string) : list (string * Value) :=
  [("runtimeState", VString "unavailable"); ("runtimeActive", Bool false); ("runtimeHealth", VString "unavailable");
   ("lastError", VString error)].

Definition get_status : App (Result Value string) :=
  settings <-app app_load_settings P ;;
  now <-app app_get (now_millis P) ;;
  sources <-app activities_now P activity_from_str published_status now ;;
  https <-app status_view P published_status (https_mcp settings) ;;
  paths <-app app_runtime_paths P ;;
  match paths with
  | Ok paths =>
      dc_home <-app? desktop_commander_home P ;;
      runtime_manifest <-app on_files (manifest paths) ;;
      app_get (fun d => Ok (Object (status_head settings https d
        ++ runtime_fields runtime_manifest (mcp_command paths dc_home) d ++ status_tail sources https now d)%list))
  | Err error =>
      app_get (fun d => Ok (Object (status_head settings https d ++ unavailable_fields error ++ status_tail sources https now d)%list))
  end.

(** The commands end with the page. *)
Definition then_status {A} (command : App (Result A string)) : App (Result Value string) := _ <-app? command ;; get_status.

Definition stop_all_requested : App (Result unit string) :=
  _ <-app? ConnectionCoordinator_acquire ;;
  stop_all (base_dir P) (system_proxy P) (key_saved P) (read_settings P) (read_value P) (print_settings P) (from_utf8 P)
    (read_report P) (now_text P) (now_millis P) (temp_suffix P) (settings_write_lock_ok P) (resource_roots P)
    (executable_suffix P) (environment P) (client P).

Definition stop_all_connections : App (Result Value string) := then_status stop_all_requested.
Definition set_auto_reconnect_page (enabled : bool) : App (Result Value string) := then_status (set_auto_reconnect P enabled).

(** ** The live status ([diagnostics_commands.rs]) *)

Definition all_in_flight (sources : list (string * option ActivitySnapshot)) (now : N) : list Value :=
  flat_map (fun '(source, activity) => map (fun value => annotate value source) (in_flight_calls activity now)) sources.

Definition live_status_value (sources : list (string * option ActivitySnapshot)) (now : N) : Value :=
  Object [("serverTime", number now); ("status", Object (mcp_status_fields (evaluate_activity (primary_activity sources) now)));
          ("transports", statuses_value (monitor_statuses sources now));
          ("recentCalls", Array (sort_recent_by_time (all_in_flight sources now) 20))].

Definition get_mcp_live_status : App (Result Value string) :=
  now <-app app_get (now_millis P) ;;
  sources <-app? mcp_activities P activity_from_str published_status now ;;
  app_ret (Ok (live_status_value sources now)).
End Page.
