(* ===== verification/Diagnostics.v ===== *)
(** * Diagnostics ([src-tauri/src/diagnostics_commands.rs], [main.rs])

    The list of checks the user can ask for, with the question whether the runtime key is
    accepted, and what is opened outside the application. *)

From S2P Require Export Status Power.
From stdpp Require Import pretty.
Local Open Scope string_scope.

(** ** Is the key accepted? ([main.rs]) *)

Record RuntimeKeyRemoteProbe := { probe_ok : bool; probe_state : string; probe_detail : string }.

Definition runtime_key_remote_status (status : N) : RuntimeKeyRemoteProbe :=
  if (200 <=? status)%N && (status <=? 299)%N
  then {| probe_ok := true; probe_state := "valid";
          probe_detail := "OpenAI Control Plane accepted the Runtime Key (HTTP " ++ pretty status ++ ")." |}
  else if (status =? 401)%N
  then {| probe_ok := false; probe_state := "invalid";
          probe_detail := "OpenAI rejected the Runtime Key (HTTP 401). The key may have been deleted or revoked." |}
  else if (status =? 403)%N
  then {| probe_ok := false; probe_state := "forbidden";
          probe_detail := "OpenAI authenticated the request but denied access to this Tunnel (HTTP 403)." |}
  else if (status =? 404)%N
  then {| probe_ok := false; probe_state := "tunnel_not_found";
          probe_detail := "The configured Tunnel was not found or is not visible to this Runtime Key (HTTP 404)." |}
  else if (status =? 429)%N
  then {| probe_ok := false; probe_state := "rate_limited";
          probe_detail := "OpenAI rate-limited the credential probe (HTTP 429); Runtime Key validity is unverified." |}
  else {| probe_ok := false; probe_state := "unexpected_response";
          probe_detail := "OpenAI returned HTTP " ++ pretty status ++ "; Runtime Key validity is unverified." |}.

Definition no_probe (state detail : string) : RuntimeKeyRemoteProbe :=
  {| probe_ok := false; probe_state := state; probe_detail := detail |}.

Section Diagnostics.
(** As for the page; the reading of the stored key; the version a program prints; the HTTP
    client: whether it takes a proxy, whether it can be built, and the status a request to an
    address with a bearer token answers; the JSON printer; and opening an address. *)
Context (P : Platform) (os : Os) (activity_from_str : string -> option ActivitySnapshot)
        (published_status : Desk -> option HttpsSnapshot) (unprotect_secret : Desk -> Result string string)
        (version_command : Path -> Desk -> Result Output string)
        (proxy_all : string -> Result unit string) (build_client : Result unit string)
        (get_with_bearer : option string -> string -> string -> Desk -> Result N string)
        (value_to_string : Value -> string) (open_that : string -> Desk -> Result unit string).

Definition runtime_key_probe_client (proxy_url : option string) : Result unit string :=
  _ <-? match proxy_url with
        | Some url => map_err (fun error => "Runtime Key probe proxy is invalid: " ++ error) (proxy_all url)
        | None => Ok tt
        end ;;
  map_err (fun error => "Could not create the OpenAI credential probe client: " ++ error) build_client.

Definition probe_runtime_key_remote (tunnel_id runtime_key : string) (proxy_url : option string) : App RuntimeKeyRemoteProbe :=
  if negb (starts_with "tunnel_" tunnel_id)
  then app_ret (no_probe "not_configured" "Tunnel ID is not configured, so the Runtime Key cannot be verified remotely.")
  else if is_empty (trim runtime_key)
  then app_ret (no_probe "not_available" "No Runtime Key is available for remote verification.")
  else match runtime_key_probe_client proxy_url with
       | Err error => app_ret (no_probe "client_error" error)
       | Ok _ =>
           answer <-app app_get (get_with_bearer proxy_url ("https://api.openai.com/v1/tunnels/" ++ tunnel_id) runtime_key) ;;
           app_ret (match answer with
                    | Ok status => runtime_key_remote_status status
                    | Err error => no_probe "network_error" ("Could not reach OpenAI Control Plane to verify the Runtime Key: " ++ error)
                    end)
       end.

(** ** The checks *)

Definition check (name : string) (ok : bool) (detail : string) : Value :=
  Object [("name", VString name); ("ok", Bool ok); ("detail", VString detail)].

Definition executable_version (path : Path) : App string :=
  app_get (fun d => match command_output (version_command path d) with Ok output => output_text (from_utf8 P) output | Err error => error end).

Definition runtime_detail (o : RuntimeObservation) : string :=
  if is_empty (obs_error o)
  then match obs_payload o with Some value => value_to_string value | None => obs_state o end
  else obs_error o.

Definition plane_check (plane : ControlPlaneObservation) : Value :=
  check "Control plane" (String.eqb (cp_state plane) "healthy")
    (trim ("state=" ++ cp_state plane ++ " failures=" ++ pretty (cp_consecutive_failures plane) ++ " " ++ cp_reason plane)).

Definition runtime_checks : App (Result (list Value) string) :=
  paths <-app app_runtime_paths P ;;
  match paths with
  | Err error => app_ret (Ok [check "Bundled runtime" false error])
  | Ok paths =>
      dc_home <-app? desktop_commander_home P ;;
      version <-app executable_version (tunnel paths) ;;
      node_found <-app on_files (path_exists (node paths)) ;;
      commander_found <-app on_files (path_exists (desktop_commander paths)) ;;
      launcher_found <-app on_files (path_exists (launcher paths)) ;;
      observation <-app app_runtime_status P paths ;;
      app_ret (Ok
        [check "tunnel-client" true version; check "Node.js" node_found (path_display (node paths));
         check "Desktop Commander" commander_found (path_display (desktop_commander paths));
         check "Desktop Commander isolation" launcher_found dc_home; check "MCP command" true (mcp_command paths dc_home);
         check "Tunnel runtime" (obs_active observation) (runtime_detail observation);
         plane_check (obs_control_plane observation)])
  end.

Definition freshness_check (snapshot : TunnelSnapshot) (now : N) : Value :=
  let probe_age := saturating_sub now (snap_last_probe_at snapshot) in
  check "Tunnel probe freshness" ((0 <? snap_last_probe_at snapshot)%N && (probe_age <=? 12000)%N)
    (pretty probe_age ++ " ms ago; health=" ++ snap_health snapshot ++ "; failures=" ++ pretty (snap_consecutive_failures snapshot)).

Definition source_check (now : N) (source : string * option ActivitySnapshot) : Value :=
  let last_request := match source.2 with Some activity => act_last_request_at activity | None => None end in
  check (source.1 ++ " MCP activity") (match last_request with Some _ => true | None => false end)
    (match last_request with
     | Some time => "last request " ++ pretty (saturating_sub now time) ++ " ms ago"
     | None => "not observed in this transport"
     end).

(** How long ago, when it happened. *)
Definition age (now : N) (at_ : option N) : option N := saturating_sub now <$> at_.
Definition is_some {A} (v : option A) : bool := match v with Some _ => true | None => false end.

Definition activity_checks (activity : option ActivitySnapshot) (now : N) : list Value :=
  match activity with
  | Some activity =>
      let launcher_age := pretty (default 0%N (age now (act_launcher_started_at activity))) in
      [check "Remote MCP activity" (is_some (act_last_request_at activity))
         (match age now (act_last_request_at activity) with
          | Some age => "last=" ++ default "unknown" (act_last_request_method activity) ++ " " ++ pretty age ++ " ms ago; launcher age="
                        ++ launcher_age ++ " ms"
          | None => "no remote MCP request observed since launcher start; launcher age=" ++ launcher_age
                    ++ " ms; ChatGPT Connector session may be stale -- try a new chat or reconnect the Connector"
          end);
       check "Remote tools/list" (is_some (act_last_list_tools_at activity))
         (match age now (act_last_list_tools_at activity) with
          | Some age => pretty age ++ " ms ago" | None => "not observed in the current launcher session" end);
       check "Remote tools/call" (is_some (act_last_call_started_at activity))
         (match age now (act_last_call_started_at activity) with
          | Some age => pretty age ++ " ms ago; last tool=" ++ default "unknown" (act_last_tool_name activity)
          | None => "not observed in the current launcher session" end)]
  | None =>
      [check "Remote MCP activity" false "no launcher activity snapshot is available";
       check "Remote tools/list" false "not observed"; check "Remote tools/call" false "not observed"]
  end.

(** *** The key *)

Definition session_key (d : Desk) : option string :=
  match lock (session_runtime_key d) with
  | Some (Some key) => if is_empty (trim key) then None else Some key
  | _ => None
  end.

Definition local_key_check (saved_key : option (Result string string)) (session : option string) : Value :=
  match saved_key with
  | Some (Ok _) => check "Runtime Key local" true (key_storage os ++ " saved and readable")
  | Some (Err error) => check "Runtime Key local" false (key_storage os ++ " exists but cannot be read: " ++ error)
  | None => if is_some session then check "Runtime Key local" true "available in the current session; not persisted"
            else check "Runtime Key local" false "not available; enter a Runtime Key when connecting"
  end.

Definition probe_key (saved_key : option (Result string string)) (session : option string) : option string :=
  match session with
  | Some key => Some key
  | None => match saved_key with Some (Ok key) => Some key | _ => None end
  end.

Definition remote_probe (settings : Settings) (key : option string) : App RuntimeKeyRemoteProbe :=
  match key, effective_proxy_url settings with
  | Some key, Ok proxy_url => probe_runtime_key_remote (tunnel_id settings) key proxy_url
  | Some _, Err error =>
      app_ret (no_probe "proxy_error" ("Could not resolve ChatX proxy settings for remote verification: " ++ error))
  | None, _ => app_ret (no_probe "not_available" "No readable Runtime Key is available for remote verification.")
  end.

Definition key_checks : App (list Value) :=
  settings <-app app_load_settings P ;;
  session <-app app_get session_key ;;
  saved_key <-app (if key_saved P then r <-app load_runtime_key P unprotect_secret "" ;; app_ret (Some r) else app_ret None) ;;
  probe <-app remote_probe settings (probe_key saved_key session) ;;
  app_ret [check "Tunnel ID" (starts_with "tunnel_" (tunnel_id settings)) (tunnel_id settings); local_key_check saved_key session;
           check "Runtime Key remote auth" (probe_ok probe) ("state=" ++ probe_state probe ++ " " ++ probe_detail probe)].

Definition run_diagnostics : App (Result Value string) :=
  runtime <-app? runtime_checks ;;
  snapshot <-app app_get (fun d => default tunnel_snapshot_default (lock (runtime_snapshot d))) ;;
  now <-app app_get (now_millis P) ;;
  sources <-app? mcp_activities P activity_from_str published_status now ;;
  keys <-app key_checks ;;
  app_ret (Ok (Object [("checks", Array (runtime ++ freshness_check snapshot now :: map (source_check now) sources
                                         ++ activity_checks (primary_activity sources) now ++ keys)%list)])).

(** ** Opening *)

Definition open_logs : App (Result unit string) :=
  dir <-app? on_files (state_dir (base_dir P)) ;;
  app_open open_that dir "打开数据目录失败：".

Definition ALLOWED_PREFIXES : list string :=
  ["https://platform.openai.com/"; "https://developers.openai.com/"; "https://chatgpt.com/";
   "https://github.com/openai/tunnel-client"; "https://github.com/wonderwhy-er/DesktopCommanderMCP"].

Definition open_external (url : string) : App (Result unit string) :=
  if negb (existsb (fun prefix => starts_with prefix url) ALLOWED_PREFIXES)
  then app_ret (Err "不允许打开未列入白名单的外部地址。")
  else app_open open_that url "打开浏览器失败：".
End Diagnostics.

(** ** What is shown of the keys *)

(** The same application with some key for this session and some stored secrets. *)
Definition with_keys (key : string) (stored : gmap string string) (d : Desk) : Desk :=
  set_secrets stored (set_session_runtime_key (set_guarded (Some key) (session_runtime_key d)) d).

Definition nonblank (key : string) : Prop := is_empty (trim key) = false.

(** Two stores that hold the same items, with other values. *)
Definition same_items (s1 s2 : gmap string string) : Prop := forall item,
  option_relation (fun v1 v2 => nonblank v1 /\ nonblank v2) (fun _ => False) (fun _ => False) (s1 !! item) (s2 !! item).

(** Two applications that differ in their keys only. *)
Definition twins (d1 d2 : Desk) : Prop := exists d k1 k2 s1 s2,
  (nonblank k1 /\ nonblank k2 /\ same_items s1 s2) /\ d1 = with_keys k1 s1 d /\ d2 = with_keys k2 s2 d.

(** What does not depend on the keys: an answer, and a computation. *)
Class Oblivious {A} (g : Desk -> A) : Prop := oblivious : forall d1 d2, twins d1 d2 -> g d1 = g d2.
Definition respects {A} (m : App A) : Prop :=
  forall d1 d2, twins d1 d2 -> (m d1).1 = (m d2).1 /\ twins (m d1).2 (m d2).2.

Create HintDb respects.

Lemma respects_ret {A} (a : A) : respects (app_ret a).
Proof. by intros d1 d2 H. Qed.
Lemma respects_get {A} (g : Desk -> A) : Oblivious g -> respects (app_get g).
Proof. intros Hg d1 d2 H. cbn. by rewrite (Hg d1 d2 H). Qed.
Lemma respects_bind {A B} (m : App A) (k : A -> App B) : respects m -> (forall a, respects (k a)) -> respects (app_bind m k).
Proof.
  intros Hm Hk d1 d2 H. unfold app_bind. apply Hm in H as [Hr H].
  destruct (m d1) as [[a|] d1'], (m d2) as [[a2|] d2']; cbn in *; try done. injection Hr as <-. by apply Hk.
Qed.
Lemma respects_try {A B E} (m : App (Result A E)) (k : A -> App (Result B E)) :
  respects m -> (forall a, respects (k a)) -> respects (app_try m k).
Proof. intros Hm Hk. apply respects_bind; [done|]. intros [a|e]; [apply Hk|apply respects_ret]. Qed.
Lemma respects_files {A} (m : Fs A) : respects (on_files m).
Proof.
  intros d1 d2 (d & k1 & k2 & s1 & s2 & Hk & -> & ->). unfold on_files. cbn.
  destruct (m (desk_world d)) as [r w]. cbn. split; [done|]. by exists (set_desk_world w d), k1, k2, s1, s2.
Qed.
#[export] Hint Resolve respects_ret respects_files : respects.

Ltac solve_respects :=
  repeat first
    [ solve [eauto with respects]
    | apply respects_bind; [|intros]
    | apply respects_try; [|intros]
    | case_match ].

Section Secrecy.
Context (P : Platform) (os : Os) (value_from_str : string -> option Value) (activity_from_str : string -> option ActivitySnapshot)
        (published_status : Desk -> option HttpsSnapshot) (app_version os_name arch : string)
        (unprotect_secret : Desk -> Result string string) (version_command : Path -> Desk -> Result Output string)
        (proxy_all : string -> Result unit string) (build_client : Result unit string)
        (get_with_bearer : option string -> string -> string -> Desk -> Result N string) (value_to_string : Value -> string).
(** The clock, the programs that are run and the state the HTTPS worker publishes have nothing
    to do with the keys. *)
Context {Hnow : Oblivious (now_millis P)} {Hpublished : Oblivious published_status}
        {Hclient : forall path args env t, Oblivious (client P path args env t)} {Hlog : Oblivious (client_log P)}
        {Hversion : forall path, Oblivious (version_command path)}.

Lemma respects_load : respects (app_load_settings P).
Proof. apply respects_files. Qed.
Lemma respects_paths : respects (app_runtime_paths P).
Proof. apply respects_files. Qed.
Lemma respects_home : respects (desktop_commander_home P).
Proof. unfold desktop_commander_home. solve_respects. Qed.
Hint Resolve respects_load respects_paths respects_home : respects.

(** What is read of the state besides the keys. *)
Lemma oblivious_state {A} (g : Desk -> A) :
  (forall k s d, g (with_keys k s d) = g (with_keys "k" ∅ d)) -> Oblivious g.
Proof. intros Hg d1 d2 (d & k1 & k2 & s1 & s2 & _ & -> & ->). by rewrite (Hg k1), (Hg k2). Qed.

Lemma respects_state {A} (g : Desk -> A) : (forall k s d, g (with_keys k s d) = g (with_keys "k" ∅ d)) -> respects (app_get g).
Proof. intros Hg. by apply respects_get, oblivious_state. Qed.

Lemma respects_activities now : respects (mcp_activities P activity_from_str published_status now).
Proof using Type*.
  unfold mcp_activities. solve_respects; [by apply respects_state|].
  apply respects_get. intros d1 d2 Ht. unfold local_bridge_alive. by rewrite (oblivious (g := published_status) d1 d2 Ht).
Qed.

Lemma respects_https settings : respects (status_view P published_status settings).
Proof using Type*.
  unfold status_view, health_from_snapshot. solve_respects; apply respects_get; intros d1 d2 Ht.
  1: by rewrite (oblivious (g := published_status) d1 d2 Ht).
  all: by rewrite (oblivious (g := now_millis P) d1 d2 Ht).
Qed.

Lemma respects_status paths : respects (app_runtime_status P paths).
Proof using Type*.
  unfold app_runtime_status. apply respects_bind.
  - unfold app_run_tunnel, run_tunnel. apply respects_bind; [apply respects_files|]. intros settings.
    destruct (apply_proxy_env _ _) as [[p|e] env]; [|apply respects_ret].
    intros d1 d2 Ht. unfold run_client. cbn [fst snd]. split; [by rewrite (oblivious (g := client P _ _ _ _) d1 d2 Ht)|].
    destruct Ht as (d & k1 & k2 & s1 & s2 & Hk & -> & ->). cbn.
    by exists (set_ran (ran d ++ [status_args])%list d), k1, k2, s1, s2.
  - intros o. apply respects_get. intros d1 d2 Ht. by rewrite (oblivious (g := client_log P) d1 d2 Ht).
Qed.

(** Whether a key is there is seen, not what it is. *)
Lemma oblivious_capability saved settings : Oblivious (reconnect_capability saved settings).
Proof.
  intros d1 d2 (d & k1 & k2 & s1 & s2 & (N1 & N2 & _) & -> & ->). unfold reconnect_capability, lock, nonblank in *. cbn.
  destruct (poisoned (session_runtime_key d)); [done|]. by rewrite N1, N2.
Qed.

Lemma oblivious_head settings https : Oblivious (status_head P os app_version os_name arch settings https).
Proof.
  intros d1 d2 Ht. unfold status_head. rewrite (oblivious_capability (key_saved P) settings d1 d2 Ht).
  by destruct Ht as (d & k1 & k2 & s1 & s2 & _ & -> & ->).
Qed.

(** Two applications that differ in their keys only show the same page: nothing of a key
    shows, beyond whether there is one. *)
Theorem page_shows_no_key d1 d2 : twins d1 d2 ->
  let page := get_status P os value_from_str activity_from_str published_status app_version os_name arch in
  (page d1).1 = (page d2).1 /\ twins (page d1).2 (page d2).2.
Proof using Type*.
  intros Ht page. revert d1 d2 Ht. change (respects page). subst page. unfold get_status, activities_now, manifest.
  pose proof respects_https. pose proof respects_activities.
  assert (forall s https fields sources now, (forall k st d, fields (with_keys k st d) = fields (with_keys "k" ∅ d)) ->
    respects (app_get (fun d => Ok (E := string) (Object (status_head P os app_version os_name arch s https d ++ fields d
      ++ status_tail sources https now d)%list)))) as Hfields.
  { intros s https fields sources now Hf. apply respects_get. intros d1 d2 Ht.
    rewrite (oblivious_head s https d1 d2 Ht), (oblivious_state fields Hf d1 d2 Ht).
    by destruct Ht as (d & k1 & k2 & s1 & s2 & _ & -> & ->). }
  solve_respects; try (by apply respects_get); by apply Hfields.
Qed.

#[local] Abbreviation diagnostics := (run_diagnostics P os activity_from_str published_status unprotect_secret version_command
  proxy_all build_client get_with_bearer value_to_string).

(** Two computations whose answers are related, of two applications that differ in their keys. *)
Definition related {A B} (R : A -> B -> Prop) (m1 : App A) (m2 : App B) : Prop := forall d1 d2, twins d1 d2 ->
  option_relation R (fun _ => False) (fun _ => False) (m1 d1).1 (m2 d2).1 /\ twins (m1 d1).2 (m2 d2).2.

Lemma related_respects {A} (m : App A) : related eq m m -> respects m.
Proof. intros Hm d1 d2 [Hr Ht]%Hm. split; [|done]. destruct (m d1).1, (m d2).1; cbn in Hr; by subst. Qed.
Lemma respects_related {A} (m : App A) : respects m -> related eq m m.
Proof. intros Hm d1 d2 [Hr Ht]%Hm. split; [|done]. rewrite Hr. by destruct (m d2).1. Qed.
Lemma related_bind {A B A' B'} (R : A -> B -> Prop) (S : A' -> B' -> Prop) m1 m2 k1 k2 :
  related R m1 m2 -> (forall a b, R a b -> related S (k1 a) (k2 b)) -> related S (app_bind m1 k1) (app_bind m2 k2).
Proof.
  intros Hm Hk d1 d2 [Hr Ht]%Hm. unfold app_bind. destruct (m1 d1) as [[a|] d1'], (m2 d2) as [[b|] d2']; cbn in *; try done.
  by apply Hk.
Qed.

(** Keys that are read alike. *)
Definition read_alike (r1 r2 : Result string string) : Prop :=
  r1 = r2 \/ exists k1 k2, r1 = Ok k1 /\ r2 = Ok k2 /\ nonblank k1 /\ nonblank k2.
Definition both_keys (k1 k2 : option string) : Prop :=
  option_relation (fun k1 k2 => nonblank k1 /\ nonblank k2) (fun _ => False) (fun _ => False) k1 k2.

(** The stored keys of the two are read alike, and the server says the same of their keys. *)
Definition keys_alike : Prop := forall d1 d2, twins d1 d2 -> read_alike (unprotect_secret d1) (unprotect_secret d2)
  /\ forall proxy url k1 k2, k1 = k2 \/ nonblank k1 /\ nonblank k2 -> get_with_bearer proxy url k1 d1 = get_with_bearer proxy url k2 d2.

Lemma related_probe settings k1 k2 : keys_alike -> k1 = k2 \/ both_keys k1 k2 ->
  related eq (remote_probe proxy_all build_client get_with_bearer settings k1) (remote_probe proxy_all build_client get_with_bearer settings k2).
Proof using Type*.
  intros Halike Hk d1 d2 Ht.
  destruct k1 as [k1|], k2 as [k2|]; try by destruct Hk as [Hk|Hk].
  assert (k1 = k2 \/ nonblank k1 /\ nonblank k2) as Hk' by (destruct Hk as [[= ->]|Hk]; auto).
  unfold remote_probe. destruct (effective_proxy_url settings) as [proxy|e]; [|by split].
  unfold probe_runtime_key_remote. destruct (negb _); [by split|].
  assert (is_empty (trim k1) = is_empty (trim k2)) as -> by (destruct Hk' as [->|[-> ->]]; done).
  destruct (is_empty _); [by split|]. destruct (runtime_key_probe_client _ _ _); [|by split].
  cbn. by rewrite (proj2 (Halike d1 d2 Ht) _ _ k1 k2 Hk').
Qed.

Lemma related_session : related (fun k1 k2 => k1 = k2 \/ both_keys k1 k2) (app_get session_key) (app_get session_key).
Proof using Type.
  intros d1 d2 Ht. split; [|exact Ht]. destruct Ht as (d & k1 & k2 & s1 & s2 & (N1 & N2 & _) & -> & ->). cbn.
  unfold session_key, lock, nonblank in *. cbn. destruct (poisoned (session_runtime_key d)); [by left|].
  rewrite N1, N2. by right.
Qed.

Lemma related_ret {A B} (R : A -> B -> Prop) a b : R a b -> related R (app_ret a) (app_ret b).
Proof using Type. intros Hr d1 d2 Ht. by split. Qed.

Lemma related_saved : keys_alike ->
  related read_alike (load_runtime_key P unprotect_secret "") (load_runtime_key P unprotect_secret "").
Proof using Type*.
  intros Halike. unfold load_runtime_key. change (negb (is_empty (trim ""))) with false. cbv iota.
  apply (related_bind eq); [apply respects_related, respects_files|]. intros r _ <-.
  destruct r as [p|e]; [|apply related_ret; by left]. destruct (key_saved P); cbn [negb]; [|apply related_ret; by left].
  apply (related_bind read_alike).
  - intros d1 d2 Ht. split; [|done]. by apply Halike.
  - intros r1 r2 [<-|(k1 & k2 & -> & -> & N1 & N2)].
    + destruct r1; apply related_ret; by left.
    + rewrite N1, N2. apply related_ret. right. by exists k1, k2.
Qed.

Lemma related_checks : keys_alike ->
  respects (key_checks P os unprotect_secret proxy_all build_client get_with_bearer).
Proof using Type*.
  intros Halike. apply related_respects. unfold key_checks.
  apply (related_bind eq); [apply respects_related, respects_files|]. intros settings _ <-.
  eapply related_bind; [apply related_session|]. intros session1 session2 Hs. cbn beta in Hs.
  apply (related_bind (option_relation read_alike (fun _ => False) (fun _ => False))).
  { destruct (key_saved P); [|by apply related_ret]. eapply related_bind; [by apply related_saved|]. intros. by apply related_ret. }
  intros saved1 saved2 Hsaved. apply (related_bind eq).
  { apply related_probe; [done|]. destruct session1, session2; cbn in *; auto; try (by destruct Hs).
    destruct saved1, saved2; cbn in *; auto; try done.
    destruct Hsaved as [->|(k1 & k2 & -> & -> & ? & ?)]; cbn; [by left|by right]. }
  intros p _ <-. apply related_ret.
  assert (local_key_check os saved1 session1 = local_key_check os saved2 session2) as ->; [|done]. unfold local_key_check.
  destruct saved1 as [r1|], saved2 as [r2|]; cbn in Hsaved; try done.
  - by destruct Hsaved as [->|(k1 & k2 & -> & -> & _)].
  - replace (is_some session1) with (is_some session2); [done|]. destruct Hs as [->|Hs]; [done|]. by destruct session1, session2.
Qed.

End Secrecy.

(** ** What is opened *)

(** Only what begins with an allowed prefix is opened, and nothing but what was asked for. *)
Lemma open_external_allowed open_that url d :
  let '(res, d') := open_external open_that url d in
  if existsb (fun prefix => starts_with prefix url) ALLOWED_PREFIXES
  then opened d' = (opened d ++ [url])%list /\ res = Some (map_err (fun e => "打开浏览器失败：" ++ e) (open_that url d))
  else d' = d /\ res = Some (Err "不允许打开未列入白名单的外部地址。").
Proof. unfold open_external. by destruct (existsb _ _). Qed.

(** The two prefixes of repositories do not end with a slash, and so allow other
    repositories of which the name only begins alike. *)
Lemma lookalike_repository_opened d :
  (open_external (fun _ _ => Ok tt) "https://github.com/openai/tunnel-client-evil/releases" d).1 = Some (Ok tt).
Proof. reflexivity. Qed.

(** ** Witnesses *)

Definition sample_unprotect (d : Desk) : Result string string :=
  match secrets d !! "runtime-key" with Some key => if is_empty (trim key) then Err "blank" else Ok key | None => Err "none" end.
Definition sample_bearer (proxy : option string) (url key : string) (d : Desk) : Result N string :=
  Ok (if is_empty (trim key) then 401%N else 200%N).
Definition sample_page : App (Result Value string) :=
  get_status sample_platform MacOs (fun _ => None) (fun _ => None) (fun _ => None) "1.0.0" "macos" "aarch64".
Definition sample_diagnostics : App (Result Value string) :=
  run_diagnostics sample_platform MacOs (fun _ => None) (fun _ => None) sample_unprotect
    (fun _ _ => Ok {| success := true; stdout := "v1"; stderr := "" |}) (fun _ => Ok tt) (Ok tt) sample_bearer (fun _ => "{}").

Lemma sample_twins : twins (with_keys "sk-one" {["runtime-key" := "sk-1"]} sample_stopped_desk)
                           (with_keys "sk-two" {["runtime-key" := "sk-2"]} sample_stopped_desk).
Proof.
  exists sample_stopped_desk, "sk-one", "sk-two", {["runtime-key" := "sk-1"]}, {["runtime-key" := "sk-2"]}.
  split; [|done]. split; [done|]. split; [done|]. intros item. rewrite !lookup_singleton. by destruct (decide _).
Qed.

Lemma sample_oblivious path args env t : Oblivious (client sample_platform path args env t).
Proof. intros d1 d2 (d & k1 & k2 & s1 & s2 & _ & -> & ->). reflexivity. Qed.

Lemma sample_alike : keys_alike sample_unprotect sample_bearer.
Proof.
  intros d1 d2 (d & k1 & k2 & s1 & s2 & (_ & _ & Hs) & -> & ->). unfold sample_unprotect, sample_bearer, nonblank. cbn. split.
  - specialize (Hs "runtime-key"). destruct (s1 !! _), (s2 !! _); cbn in Hs; try done; [|by left].
    destruct Hs as [N1 N2]. unfold nonblank in *. rewrite N1, N2. right. by eexists _, _.
  - intros proxy url q1 q2 [->|[N1 N2]]; [done|]. by rewrite N1, N2.
Qed.

Definition desk_one : Desk := with_keys "sk-one" {["runtime-key" := "sk-1"]} sample_stopped_desk.
Definition desk_two : Desk := with_keys "sk-two" {["runtime-key" := "sk-2"]} sample_stopped_desk.

Lemma page_shows_no_key_witness :
  (sample_page desk_one).1 = (sample_page desk_two).1 /\ exists page, (sample_page desk_one).1 = Some (Ok page).
Proof.
  split; [|eexists; vm_compute; reflexivity].
  exact (proj1 (page_shows_no_key sample_platform MacOs (fun _ => None) (fun _ => None) (fun _ => None) "1.0.0" "macos" "aarch64"
    (Hnow := fun _ _ _ => eq_refl) (Hpublished := fun _ _ _ => eq_refl) (Hclient := sample_oblivious)
    (Hlog := fun _ _ _ => eq_refl) desk_one desk_two sample_twins)).
Defined.

