(* ===== verification/Application.v ===== *)
(** * The application ([src-tauri/src/main.rs])

    What happens from the start of the application to its end: restoring the connections,
    starting what phones need, the window that is taken back when it stays hidden, the tray,
    and the exit. *)

From S2P Require Export Status.
Local Open Scope string_scope.

(** What the user and the system do to the running application. *)
Inductive AppEvent :=
| ShowRequested
| TrayStop
| TrayQuit
| CloseRequested
| ReclaimDue (index : nat)
| ExitRequested (code : option Z).

Definition should_prevent_exit (quitting : bool) (code : option Z) : bool :=
  negb quitting && match code with None => true | Some _ => false end.

Definition u64_wrap (n : N) : N := (n mod 18446744073709551616)%N.

Section Application.
(** As for the commands; whether the configuration names a main window, and what building it
    gives. *)
Context (P : Platform) (H : Host) (E : ServiceEnv) (os : Os) (process_id : string)
        (devices_from_str : string -> Result (list MonitorDeviceRecord) string)
        (secret_fault : SecretOp -> Desk -> option string) (random_key : Desk -> option bytes)
        (b64_encode : bytes -> string) (b64_decode : string -> option bytes)
        (credentials_from_str : string -> Result RelayCredentials string)
        (lock_ok : bool) (sha256 : string -> bytes) (stored_key : Result string string)
        (account_home : Result string string) (window_configured : bool) (build_window : Desk -> Result unit string).

(** ** The window *)

Definition create_main_window : App (Result unit string) :=
  if negb window_configured then app_ret (Err "找不到 main 窗口配置。")
  else
    built <-app app_get build_window ;;
    match built with
    | Ok _ => _ <-app app_modify (set_main_window (Some true)) ;; app_ret (Ok tt)
    | Err error => app_ret (Err ("重建 ChatX 主窗口失败：" ++ error))
    end.

(** [main_window_generation.fetch_add(1)] *)
Definition next_generation (d : Desk) : Desk :=
  set_main_window_generation (u64_wrap (main_window_generation d + 1)) d.

Definition show_main_window : App unit :=
  _ <-app app_modify next_generation ;;
  window <-app app_get main_window ;;
  found <-app match window with
              | Some _ => app_ret true
              | None => created <-app create_main_window ;; app_ret (match created with Ok _ => true | Err _ => false end)
              end ;;
  if (found : bool) then app_modify (set_main_window (Some true)) else app_ret tt.

(** A thread that waits 30 seconds, with the generation it was started with. *)
Definition schedule_main_window_reclaim : App unit :=
  old <-app app_get main_window_generation ;;
  _ <-app app_modify next_generation ;;
  app_modify (fun d => set_reclaims (reclaims d ++ [saturating_add old 1])%list d).

(** What it does in the end. *)
Definition reclaim_main_window (generation : N) : App unit := app_modify (fun d =>
  if quitting d || negb (main_window_generation d =? generation)%N then d
  else if bool_decide (main_window d = Some false) then set_main_window None d else d).

Definition hide_window (d : Desk) : Desk :=
  set_main_window (match main_window d with Some _ => Some false | None => None end) d.

(** [on_window_event]: the window is hidden, unless the application is about to end. *)
Definition close_requested : App unit :=
  ending <-app app_get quitting ;;
  if (ending : bool) then app_modify (set_main_window None)
  else _ <-app app_modify hide_window ;; schedule_main_window_reclaim.

(** ** The end *)

Definition stop_on_exit : App unit :=
  _ <-app app_modify (set_quitting true) ;;
  _ <-app ConnectionCoordinator_acquire ;;
  _ <-app app_modify stop_relay_client ;;
  _ <-app app_modify Desktop.stop_on_exit ;;
  _ <-app stop_monitor_service P ;;
  _ <-app app_modify cancel_connection_intent ;;
  operation <-app app_get (fun d => lock (runtime_operation d)) ;;
  match operation with
  | Some _ => _ <-app app_stop_runtime P true ;; app_ret tt
  | None => app_ret tt
  end.

(** The event loop ends when the request to exit is not prevented. *)
Definition exit_requested (code : option Z) : App unit :=
  ending <-app app_get quitting ;;
  if should_prevent_exit ending code then app_ret tt
  else _ <-app stop_on_exit ;; app_modify (set_exited true).

(** ** The tray *)

Definition tray_stop : App unit :=
  stopped <-app stop_all_requested P ;;
  match stopped with
  | Ok _ => app_ret tt
  | Err error =>
      let message := "停止连接未能完全完成：" ++ error in
      _ <-app app_log P message ;;
      _ <-app app_modify (fun d => set_tray_stop_error (update_locked (fun _ => Some message) (tray_stop_error d)) d) ;;
      _ <-app show_main_window ;;
      app_modify (fun d => set_emitted (emitted d ++ [VString message])%list d)
  end.

Definition tray_quit : App unit := _ <-app stop_on_exit ;; exit_requested (Some 0%Z).

Definition handle_event (e : AppEvent) : App unit :=
  match e with
  | ShowRequested => show_main_window
  | TrayStop => tray_stop
  | TrayQuit => tray_quit
  | CloseRequested => close_requested
  | ReclaimDue i =>
      due <-app app_get (fun d => nth_error (reclaims d) i) ;;
      match due with
      | Some generation =>
          _ <-app app_modify (fun d => set_reclaims (delete i (reclaims d)) d) ;; reclaim_main_window generation
      | None => app_ret tt
      end
  | ExitRequested code => exit_requested code
  end.

(** ** The start *)

(** [setup] *)
Definition restore_connections : App unit :=
  _ <-app restore_persisted_connection_state P stored_key ;;
  restore_https P secret_fault random_key b64_encode b64_decode credentials_from_str lock_ok sha256.

Definition startup_error_file (dir : string) : Path := {| parent := Some dir; file_name := "monitor-startup-error.log" |}.

Definition start_phones : App unit :=
  started <-app start_monitor_service P H E process_id devices_from_str secret_fault random_key b64_encode b64_decode ;;
  match started with
  | Ok _ =>
      dir <-app on_files (state_dir (base_dir P)) ;;
      match dir with
      | Ok dir => _ <-app on_files (remove_file (startup_error_file dir)) ;; app_ret tt
      | Err _ => app_ret tt
      end
  | Err error =>
      let message := "手机 Monitor Server 启动失败：" ++ error in
      _ <-app app_log P message ;;
      dir <-app on_files (state_dir (base_dir P)) ;;
      match dir with
      | Ok dir =>
          stamp <-app app_get (now_text P) ;;
          _ <-app on_files (write_file (startup_error_file dir) ("[" ++ stamp ++ "] " ++ message ++ String "010" "")) ;; app_ret tt
      | Err _ => app_ret tt
      end
  end.

(** [cleanup_legacy_ssh] of [relay.rs]: what an earlier version left is removed. *)
Definition cleanup_legacy_ssh (home dir : string) : Fs unit :=
  _ <-fs (match os with
          | MacOs => remove_file {| parent := Some (home ++ "/Library/LaunchAgents"); file_name := "com.chatx.relay.plist" |}
          | _ => fs_ret (Ok tt)
          end) ;;
  _ <-fs remove_file {| parent := Some dir; file_name := "relay-run.sh" |} ;;
  _ <-fs remove_file {| parent := Some dir; file_name := "monitor-relay.json" |} ;;
  fs_ret tt.

Definition clean_up : App unit :=
  match account_home with
  | Err _ => app_ret tt
  | Ok home =>
      dir <-app on_files (state_dir (base_dir P)) ;;
      match dir with Ok dir => on_files (cleanup_legacy_ssh home dir) | Err _ => app_ret tt end
  end.

Definition start_services : App unit :=
  settings <-app app_load_settings P ;;
  _ <-app (if monitor_enabled settings then start_phones else app_ret tt) ;;
  _ <-app clean_up ;;
  if relay_enabled (relay settings) && monitor_enabled settings
  then
    started <-app start_relay_client_for_settings P devices_from_str secret_fault random_key b64_encode b64_decode credentials_from_str ;;
    match started with
    | Err error => app_log P ("ChatX Relay 启动失败：" ++ error)
    | Ok _ => app_ret tt
    end
  else app_ret tt.

Definition startup : App unit := _ <-app restore_connections ;; start_services.
End Application.

(** ** The window is not taken from the user *)

Definition u64_bound : N := 18446744073709551616.

(** The window and its threads, and the end of the application, are as before. *)
Definition window_same (d d' : Desk) : Prop :=
  main_window_generation d' = main_window_generation d /\ main_window d' = main_window d /\ reclaims d' = reclaims d /\ exited d' = exited d.

#[local] Instance window_same_framed : Framed window_same.
Proof.
  split; [|done]. split; [intros d; by split_and!|]. intros d1 d2 d3 (A1 & A2 & A3 & A4) (B1 & B2 & B3 & B4). split_and!; congruence.
Qed.
Definition quit_same (d d' : Desk) : Prop := quitting d' = quitting d.
#[local] Instance quit_same_framed : Framed quit_same.
Proof. split; [|done]. split; [done|]. unfold quit_same. intros d1 d2 d3 ? ?. congruence. Qed.

Section Lifetime.
Context (P : Platform) (base : string) (Hbase : base_dir P = Ok base) (window_configured : bool) (build_window : Desk -> Result unit string).
Local Abbreviation show := (show_main_window window_configured build_window).
Local Abbreviation handle := (handle_event P window_configured build_window).

Lemma modify_does (R : relation Desk) f : (forall d, R d (f d)) -> does R (app_modify f).
Proof using Type. intros Hf d res d' [= _ <-]. apply Hf. Qed.

Lemma window_modify f : (forall d, window_same d (f d)) -> does window_same (app_modify f).
Proof using Type. apply modify_does. Qed.
Hint Extern 2 (does window_same (app_modify _)) => (apply window_modify; done) : quiet.
Hint Extern 2 (does quit_same (app_modify _)) => (apply modify_does; done) : quiet.

Lemma stop_all_does (R : relation Desk) {HR : Framed R} :
  (forall f, (forall d, window_same d (f d) /\ quit_same d (f d)) -> does R (app_modify f)) -> does R (stop_all_requested P).
Proof using base Hbase.
  intros Hm. unfold stop_all_requested, stop_all, app_mark_stopped, stop_tunnel_without_saving, settings_update, settings_load.
  apply does_try; [apply _|apply does_get; apply _|]. intros _.
  do 2 (apply does_bind; [apply _|by apply framed_files|intros ?]).
  apply does_bind; [apply _|by apply Hm|intros _]. apply does_bind; [apply _|by apply framed_files|intros settings].
  apply does_bind; [apply _| |intros stopped].
  { apply does_bind; [apply _|by apply Hm|intros _]. apply does_bind; [apply _|apply does_get; apply _|]. intros [[]|]; [|apply does_ret; apply _].
    apply does_try; [apply _|apply (framed_stop_runtime P base Hbase R true)|]. intros v.
    apply does_bind; [apply _| |intros ?; apply does_ret; apply _].
    intros d res d' [= _ <-]. eapply Hm; [|reflexivity]. intros d0. by split. }
  apply does_bind; [apply _|by apply framed_update|intros saved].
  apply does_bind; [apply _|destruct saved; [apply does_ret; apply _|apply (framed_log P R)]|intros _].
  repeat case_match; try (apply does_ret; apply _).
  apply does_bind; [apply _|by apply Hm|intros _]. apply does_bind; [apply _|apply (framed_log P R)|intros _]. apply does_ret; apply _.
Qed.

(** The exit, after the flag is set. *)
Lemma exit_does (R : relation Desk) {HR : Framed R} :
  (forall f, (forall d, window_same d (f d) /\ quit_same d (f d)) -> does R (app_modify f)) ->
  forall d res d', stop_on_exit P d = (res, d') -> R (set_quitting true d) d'.
Proof using base Hbase.
  intros Hm d res d' He. unfold stop_on_exit in He. unfold app_bind at 1, app_modify at 1 in He.
  match type of He with ?m _ = _ => assert (does R m) as Hd; [clear He|exact (Hd _ _ _ He)] end.
  unfold stop_monitor_service.
  apply does_bind; [apply _|apply does_get; apply _|intros _].
  do 2 (apply does_bind; [apply _|by apply Hm|intros _]).
  apply does_bind; [apply _| |intros _].
  { apply does_bind; [apply _|apply does_get; apply _|]. intros [l|]; [|apply does_ret; apply _].
    apply does_bind; [apply _|by apply Hm|intros _]. apply does_bind; [apply _|apply (framed_log P R)|intros _]. apply does_ret; apply _. }
  apply does_bind; [apply _|by apply Hm|intros _]. apply does_bind; [apply _|apply does_get; apply _|]. intros [u|]; [|apply does_ret; apply _].
  apply does_bind; [apply _|apply (framed_stop_runtime P base Hbase R true)|intros ?]. apply does_ret; apply _.
Qed.

Lemma exit_inv d res d' : stop_on_exit P d = (res, d') -> window_same d d' /\ quitting d' = true.
Proof using base Hbase.
  intros He. split.
  - change (window_same (set_quitting true d) d'). eapply (exit_does window_same); [|exact He]. intros f Hf. apply modify_does. apply Hf.
  - change (quit_same (set_quitting true d) d'). eapply (exit_does quit_same); [|exact He]. intros f Hf. apply modify_does. apply Hf.
Qed.

Lemma exit_requested_inv code d res d' : exit_requested P code d = (res, d') ->
  d' = d /\ quitting d = false /\ code = None
  \/ (quitting d = true \/ code <> None) /\ quitting d' = true /\ main_window_generation d' = main_window_generation d
     /\ main_window d' = main_window d /\ reclaims d' = reclaims d.
Proof using base Hbase.
  unfold exit_requested. unfold app_bind at 1, app_get at 1. intros He. destruct (should_prevent_exit (quitting d) code) eqn:Hp.
  - injection He as _ <-. left. unfold should_prevent_exit in Hp. by destruct (quitting d), code.
  - right. split. { unfold should_prevent_exit in Hp. destruct (quitting d), code; cbn in Hp; auto; by right. }
    apply app_bind_inv in He as [[He _]|(u & d1 & He & [= _ <-])]; apply exit_inv in He as [(? & ? & ? & _) ?]; by split_and!.
Qed.

Lemma show_inv d res d' : show d = (res, d') ->
  main_window_generation d' = u64_wrap (main_window_generation d + 1) /\ reclaims d' = reclaims d /\ exited d' = exited d
  /\ quitting d' = quitting d /\ (main_window d <> None -> main_window d' = Some true)
  /\ (window_configured = true -> build_window (next_generation d) = Ok tt -> main_window d' = Some true)
  /\ (main_window d' = None -> main_window d = None).
Proof using Type.
  unfold show_main_window, create_main_window, app_bind, app_modify, app_get, app_ret. cbn.
  destruct (main_window d) as [v|] eqn:Hw; cbn; [intros [= _ <-]; by split_and!|].
  destruct window_configured; cbn; [|intros [= _ <-]; by split_and!].
  destruct (build_window _) as [[]|e]; cbn; intros [= _ <-]; by split_and!.
Qed.

Lemma tray_stop_inv d res d' : tray_stop P window_configured build_window d = (res, d') ->
  window_same d d' /\ quit_same d d'
  \/ exists d1 r d2, (window_same d d1 /\ quit_same d d1) /\ show d1 = (r, d2) /\ window_same d2 d' /\ quit_same d2 d'.
Proof using base Hbase.
  assert (does window_same (stop_all_requested P)) as Hw
    by (apply (stop_all_does window_same); intros f Hf; apply modify_does; apply Hf).
  assert (does quit_same (stop_all_requested P)) as Hq
    by (apply (stop_all_does quit_same); intros f Hf; apply modify_does; apply Hf).
  unfold tray_stop. intros H.
  apply app_bind_inv in H as [[H ->]|(stopped & d1 & H & Hk)]; pose proof (Hw _ _ _ H) as W1; pose proof (Hq _ _ _ H) as Q1;
    [by left|].
  destruct stopped as [u|e]; [injection Hk as _ <-; by left|]. right.
  unfold app_bind at 1, app_log, log at 1, app_bind at 1, app_modify at 1 in Hk.
  match type of Hk with app_bind _ _ ?d2 = _ => set (d1' := d2) in Hk; assert (window_same d1 d1' /\ quit_same d1 d1') as [W2 Q2] by done end.
  clearbody d1'. exists d1'.
  assert (window_same d d1' /\ quit_same d d1') as W by (split; by etrans).
  apply app_bind_inv in Hk as [[Hk ->]|(u & d2 & Hk & [= _ <-])]; eexists _, _; (split; [exact W|split; [exact Hk|done]]).
Qed.

(** The events of the user and the system, and what else happens to the application. *)
Inductive Lifetime : nat -> Desk -> Prop :=
  | lifetime_start d : main_window_generation d = 0%N -> reclaims d = [] -> exited d = false -> Lifetime 0 d
  | lifetime_event n e d res d' : Lifetime n d -> exited d = false -> handle e d = (res, d') -> Lifetime (S n) d'
  | lifetime_elsewhere n d d' : Lifetime n d -> window_same d d' -> quit_same d d' -> Lifetime n d'.

(** The generations of the threads that wait are older than the current one, but for the last
    of them while the window is hidden; and the application ends only after it has stopped. *)
Definition waits_old (n : nat) (d : Desk) : Prop :=
  (main_window_generation d <= N.of_nat n)%N
  /\ Forall (fun g => g <= main_window_generation d)%N (reclaims d)
  /\ (main_window d = Some true -> Forall (fun g => g < main_window_generation d)%N (reclaims d))
  /\ (exited d = true -> quitting d = true).

Lemma waits_same n d d' : window_same d d' -> quit_same d d' -> waits_old n d -> waits_old n d'.
Proof using Type. intros (A1 & A2 & A3 & A4) Q (B1 & B2 & B3 & B4). unfold waits_old. rewrite A1, A2, A3, A4, Q. by split_and!. Qed.

Lemma waits_weaken n d : waits_old n d -> waits_old (S n) d.
Proof using Type. intros (? & ? & ? & ?). split_and!; [lia|done..]. Qed.

Lemma wrapped n d : (N.of_nat (S n) < u64_bound)%N -> (main_window_generation d <= N.of_nat n)%N ->
  u64_wrap (main_window_generation d + 1) = (main_window_generation d + 1)%N.
Proof using Type. intros Hn Hg. unfold u64_wrap. apply N.mod_small. unfold u64_bound in Hn. lia. Qed.

Lemma waits_show n d res d' : (N.of_nat (S n) < u64_bound)%N -> show d = (res, d') -> waits_old n d -> waits_old (S n) d'.
Proof using Type.
  intros Hn (Hg & Hr & He & Hq & _)%show_inv (B1 & B2 & _ & B4). rewrite (wrapped n) in Hg by done.
  assert (Forall (fun g => g < main_window_generation d')%N (reclaims d')) as Hlt.
  { rewrite Hg, Hr. eapply Forall_impl; [exact B2|]. cbn. intros g ?. lia. }
  split_and!; [rewrite Hg; lia| |done|by rewrite He, Hq]. eapply Forall_impl; [exact Hlt|]. cbn. intros. lia.
Qed.

Lemma waits_handle n e d res d' : (N.of_nat (S n) < u64_bound)%N -> exited d = false -> handle e d = (res, d') ->
  waits_old n d -> waits_old (S n) d'.
Proof using base Hbase.
  intros Hn Hx H Hold. destruct e as [| | | |i|code]; cbn [handle_event] in H.
  - by eapply waits_show.
  - apply tray_stop_inv in H as [[Hs Hq]|(d1 & r & d2 & [W1 Q1] & H & W2 & Q2)]; [by eapply waits_weaken, waits_same|].
    eapply (waits_same _ d2); [done..|]. eapply waits_show; [done|exact H|by eapply waits_same].
  - unfold tray_quit in H. apply app_bind_inv in H as [[H ->]|(u & d1 & H & Hk)]; apply exit_inv in H as [W1 Q1].
    + destruct W1 as (A1 & A2 & A3 & A4), Hold as (B1 & B2 & B3 & B4). unfold waits_old. rewrite A1, A2, A3. split_and!; [lia|done..].
    + apply exit_requested_inv in Hk as [(-> & ? & _)|(_ & Q2 & A1' & A2' & A3')]; [congruence|].
      destruct W1 as (A1 & A2 & A3 & A4), Hold as (B1 & B2 & B3 & B4). unfold waits_old. rewrite A1', A2', A3', A1, A2, A3.
      split_and!; [lia|done..].
  - destruct Hold as (B1 & B2 & B3 & B4). pose proof (wrapped n d Hn B1) as Hw.
    unfold close_requested, schedule_main_window_reclaim, app_bind, app_get, app_modify in H.
    destruct (quitting d) eqn:Hq; injection H as _ <-; unfold waits_old; cbn.
    + split_and!; [lia|done|done|done].
    + rewrite Hw. unfold saturating_add. rewrite N.min_l by (unfold u64_bound in Hn; unfold u64_max; lia).
      split_and!; [lia| |by destruct (main_window d)|by rewrite Hx].
      apply Forall_app. split; [|repeat constructor; lia]. eapply Forall_impl; [exact B2|]. cbn. intros. lia.
  - destruct Hold as (B1 & B2 & B3 & B4). unfold app_bind, app_get in H. destruct (nth_error _ i) as [g|] eqn:Hi.
    + cbn in H. injection H as _ <-. unfold waits_old.
      destruct (_ || _); cbn; [|destruct (bool_decide _) eqn:Hb; cbn]; (split_and!; [lia|by apply Forall_delete|intros Hv|done]);
        try done; by apply Forall_delete, B3.
    + injection H as _ <-. split_and!; [lia|done..].
  - apply exit_requested_inv in H as [(-> & _)|(_ & Q & A1 & A2 & A3)]; [by apply waits_weaken|].
    destruct Hold as (B1 & B2 & B3 & B4). unfold waits_old. rewrite A1, A2, A3. split_and!; [lia|done..].
Qed.

Lemma lifetime_waits n d : Lifetime n d -> (N.of_nat n < u64_bound)%N -> waits_old n d.
Proof using base Hbase.
  induction 1 as [d G R X|n e d res d' _ IH X H|n d d' _ IH W Q]; intros Hn.
  - split_and!; [lia|rewrite R; constructor|rewrite R; by constructor|by rewrite X].
  - eapply waits_handle; [done..|]. apply IH. lia.
  - eapply waits_same; [done..|]. by apply IH.
Qed.

(** When the window goes away, and when the application ends. *)
Lemma window_gone e d res d' : handle e d = (res, d') -> main_window d <> None -> main_window d' = None ->
  (exists i, e = ReclaimDue i /\ nth_error (reclaims d) i = Some (main_window_generation d)
     /\ main_window d = Some false /\ quitting d = false)
  \/ (e = CloseRequested /\ quitting d = true).
Proof using base Hbase.
  intros H Hd Hd'. destruct e as [| | | |i|code]; cbn [handle_event] in H.
  - apply show_inv in H as (_ & _ & _ & _ & _ & _ & Hn). by specialize (Hn Hd').
  - apply tray_stop_inv in H as [[(_ & W & _) _]|(d1 & r & d2 & [(_ & W1 & _) _] & H & (_ & W2 & _) & _)]; [congruence|].
    apply show_inv in H as (_ & _ & _ & _ & _ & _ & Hn). rewrite W2 in Hd'. specialize (Hn Hd'). congruence.
  - unfold tray_quit in H. apply app_bind_inv in H as [[H ->]|(u & d1 & H & Hk)]; apply exit_inv in H as [(_ & W1 & _) _]; [congruence|].
    apply exit_requested_inv in Hk as [(-> & _)|(_ & _ & _ & W2 & _)]; congruence.
  - unfold close_requested, schedule_main_window_reclaim, app_bind, app_get, app_modify in H.
    destruct (quitting d) eqn:Hq; [by right|]. injection H as _ <-. cbn in Hd'. by destruct (main_window d).
  - unfold app_bind, app_get in H. destruct (nth_error _ i) as [g|] eqn:Hi; [|by injection H as _ <-]. cbn in H. injection H as _ <-.
    left. exists i. destruct (quitting d) eqn:Hq; cbn in Hd'; [done|]. destruct (_ =? g)%N eqn:Hg; cbn in Hd'; [|done].
    apply N.eqb_eq in Hg as <-. destruct (bool_decide _) eqn:Hb; cbn in Hd'; [|done]. apply bool_decide_eq_true in Hb. by split_and!.
  - apply exit_requested_inv in H as [(-> & _)|(_ & _ & _ & W2 & _)]; congruence.
Qed.

Lemma app_ended e d res d' : handle e d = (res, d') -> exited d = false -> exited d' = true ->
  e = TrayQuit \/ exists code, e = ExitRequested code /\ (quitting d = true \/ code <> None).
Proof using base Hbase.
  intros H Hd Hd'. destruct e as [| | | |i|code]; cbn [handle_event] in H; [..|].
  - apply show_inv in H as (_ & _ & Hn & _). congruence.
  - apply tray_stop_inv in H as [[(_ & _ & _ & W) _]|(d1 & r & d2 & [(_ & _ & _ & W1) _] & H & (_ & _ & _ & W2) & _)]; [congruence|].
    apply show_inv in H as (_ & _ & Hn & _). congruence.
  - by left.
  - unfold close_requested, schedule_main_window_reclaim, app_bind, app_get, app_modify in H.
    destruct (quitting d); injection H as _ <-; cbn in Hd'; congruence.
  - unfold app_bind, app_get in H. destruct (nth_error _ i) as [g|]; [|injection H as _ <-; congruence]. cbn in H. injection H as _ <-.
    destruct (_ || _); [|destruct (bool_decide _)]; cbn in Hd'; congruence.
  - right. exists code. split; [done|]. apply exit_requested_inv in H as [(-> & _)|(Hc & _)]; [congruence|done].
Qed.

Lemma waits_left_behind n e d res d' : waits_old n d -> (N.of_nat (S n) < u64_bound)%N -> handle e d = (res, d') ->
  e = ShowRequested \/ (e = CloseRequested /\ quitting d = false) -> Forall (fun g => g < main_window_generation d')%N (reclaims d).
Proof using Type.
  intros (B1 & B2 & _) Hn H He. pose proof (wrapped n d Hn B1) as Hw.
  assert (main_window_generation d' = main_window_generation d + 1)%N as ->.
  { destruct He as [->|[-> Hq]]; cbn [handle_event] in H; [apply show_inv in H as [-> _]; done|].
    unfold close_requested, schedule_main_window_reclaim, app_bind, app_get, app_modify in H. rewrite Hq in H. by injection H as _ <-. }
  eapply Forall_impl; [exact B2|]. cbn. intros. lia.
Qed.

End Lifetime.

(** ** The exit, and the start after it *)

Section StartAndEnd.
Context (P : Platform) (base : string) (Hbase : base_dir P = Ok base)
        (secret_fault : SecretOp -> Desk -> option string) (random_key : Desk -> option bytes)
        (b64_encode : bytes -> string) (b64_decode : string -> option bytes)
        (credentials_from_str : string -> Result RelayCredentials string)
        (lock_ok : bool) (sha256 : string -> bytes) (stored_key : Result string string).
Local Abbreviation disk d := (files (desk_world d)).
Local Abbreviation faults d := (io_fault (desk_world d)).
Local Abbreviation file := (settings_in (base ++ "/state")).
Local Abbreviation restart := (restore_persisted_connection_state P stored_key).
Local Abbreviation start := (restore_connections P secret_fault random_key b64_encode b64_decode credentials_from_str lock_ok
  sha256 stored_key).

(** What is left running. *)
Definition nothing_runs (d : Desk) : Prop :=
  quitting d = true /\ desired_connected d = false /\ reconnecting d = false
  /\ (forall l, lock (relay_client d) <> Some (Some l)) /\ lock (supervisor d) <> Some true
  /\ (forall s l, lock (monitor_servers d) <> Some (s :: l)) /\ (forall key, lock (session_runtime_key d) <> Some (Some key)).

Lemma nothing_runs_client t d d' : client_only t d d' -> nothing_runs d -> nothing_runs d'.
Proof using Type. by intros (w & l & -> & _). Qed.

Lemma update_lock_ne {A} (f : A -> A) m a : (forall x, f x <> a) -> lock (update_locked f m) <> Some a.
Proof using Type. intros Hf. rewrite lock_update. destruct (lock m); [|done]. intros [= E]. by apply Hf in E. Qed.

(** Stopping the servers of phones always answers, and touches nothing else. *)
Definition servers_only (d d' : Desk) : Prop :=
  disk d' = disk d /\ quitting d' = quitting d /\ relay_client d' = relay_client d /\ supervisor d' = supervisor d
  /\ launched d' = launched d /\ relayed d' = relayed d /\ ran d' = ran d.
Lemma stop_servers_inv d res d' : stop_monitor_service P d = (res, d') ->
  is_Some res /\ servers_only d d' /\ forall s l, lock (monitor_servers d') <> Some (s :: l).
Proof using Type.
  unfold stop_monitor_service, app_bind, app_get, app_modify, app_log, log.
  destruct (lock (monitor_servers d)) eqn:Hl; intros [= <- <-]; (split; [by eexists|split; [by split_and!|]]).
  - unfold lock. cbn. by destruct (poisoned _).
  - by rewrite Hl.
Qed.

(** What stops in memory, before the servers of phones. *)
Lemma exit_head d d1 : d1 = Desktop.stop_on_exit (stop_relay_client (set_quitting true d)) ->
  quitting d1 = true /\ (forall l, lock (relay_client d1) <> Some (Some l)) /\ lock (supervisor d1) <> Some true
  /\ disk d1 = disk d /\ launched d1 = launched d /\ relayed d1 = relayed d /\ ran d1 = ran d.
Proof using Type.
  intros ->. split_and!; try done; [intros l; by refine (update_lock_ne (fun _ => None) _ _ _)|by refine (update_lock_ne (fun _ => false) _ _ _)].
Qed.

Lemma cancelled_nothing_runs d : quitting d = true -> (forall l, lock (relay_client d) <> Some (Some l)) -> lock (supervisor d) <> Some true ->
  (forall s l, lock (monitor_servers d) <> Some (s :: l)) -> nothing_runs (cancel_connection_intent d).
Proof using Type. intros Q R S M. split_and!; try done. intros key. by refine (update_lock_ne (fun _ => None) _ _ _). Qed.

Lemma last_stop d res d' :
  (operation <-app app_get (fun d => lock (runtime_operation d)) ;;
   match operation with Some _ => _ <-app app_stop_runtime P true ;; app_ret tt | None => app_ret tt end) d = (res, d') ->
  exists t, client_only t d d' /\ (t = [] \/ t = [stop_args]).
Proof using base Hbase.
  intros H. apply app_bind_inv in H as [[[=] _]|(o & d1 & [= _ <-] & H)].
  destruct o; [|injection H as _ <-; exists []; split; [apply client_only_refl|by left]].
  apply app_bind_inv in H as [[H _]|(r & d2 & H & [= _ <-])];
    apply (stop_runtime_client P base Hbase) in H as [[Hc _]|[Hc _]]; by eexists _; split; [exact Hc|auto].
Qed.

Lemma exit_stops d res d' : stop_on_exit P d = (res, d') ->
  nothing_runs d' /\ disk d' = disk d /\ launched d' = launched d /\ relayed d' = relayed d
  /\ exists tail, ran d' = (ran d ++ tail)%list /\ (tail = [] \/ tail = [stop_args]).
Proof using base Hbase.
  intros H.
  apply app_bind_inv in H as [[[=] _]|(u1 & d1 & [= <- <-] & H)].
  apply app_bind_inv in H as [[[=] _]|(u2 & d2 & [= _ <-] & H)].
  apply app_bind_inv in H as [[[=] _]|(u3 & d3 & [= _ H3] & H)].
  apply app_bind_inv in H as [[[=] _]|(u4 & d4 & [= _ H4] & H)].
  assert (d4 = Desktop.stop_on_exit (stop_relay_client (set_quitting true d))) as Hd4 by (by rewrite <- H4, <- H3).
  apply exit_head in Hd4 as (Q & R & S & F & L & Y & N).
  apply app_bind_inv in H as [[H _]|(r & d5 & H & Hk)]; apply stop_servers_inv in H as ([v Hv] & (F5 & Q5 & R5 & S5 & L5 & Y5 & N5) & M);
    [done|]. clear Hv.
  apply app_bind_inv in Hk as [[[=] _]|(u6 & d6 & [= _ H6] & H)].
  assert (nothing_runs d6) as Hn by (rewrite <- H6; apply cancelled_nothing_runs; congruence).
  assert (disk d6 = disk d5 /\ launched d6 = launched d5 /\ relayed d6 = relayed d5 /\ ran d6 = ran d5) as (F6 & L6 & Y6 & N6)
    by (by rewrite <- H6).
  apply last_stop in H as (t & Hc & Ht). split; [by eapply nothing_runs_client|].
  pose proof (client_only_disk _ _ _ Hc) as [Fd _]. pose proof (client_only_ran _ _ _ Hc) as Rn.
  destruct Hc as (w & l & Hd' & _). assert (launched d' = launched d6 /\ relayed d' = relayed d6) as [L7 Y7] by (by rewrite Hd').
  split_and!; [congruence..|]. exists t. split; [by rewrite Rn, N6, N5, N|done].
Qed.

(** *** What a start leaves on the disk when it wants the tunnel *)

Definition same_disk (d d' : Desk) : Prop := disk d' = disk d /\ faults d' = faults d.
#[local] Instance same_disk_preorder : PreOrder same_disk.
Proof using Type. split; [by split|]. intros d1 d2 d3 [H1 F1] [H2 F2]. split; congruence. Qed.

Lemma same_disk_modify f : (forall d, desk_world (f d) = desk_world d) -> does same_disk (app_modify f).
Proof using Type. intros Hf d res d' [= _ <-]. by split; rewrite Hf. Qed.
Lemma same_disk_log message : does same_disk (app_log P message).
Proof using Type. by apply same_disk_modify. Qed.
Lemma same_disk_paths : does same_disk (app_runtime_paths P).
Proof using Type. intros d res d' Hc%runtime_paths_client. by eapply client_only_disk. Qed.
Lemma same_disk_status paths : does same_disk (app_runtime_status P paths).
Proof using base Hbase. intros d res d' (t & Hc & _)%(status_client P base Hbase). by eapply client_only_disk. Qed.
Lemma same_disk_stop logged : does same_disk (app_stop_runtime P logged).
Proof using base Hbase. intros d res d' [[Hc _]|[Hc _]]%(stop_runtime_client P base Hbase); by eapply client_only_disk. Qed.
Lemma same_disk_allowed t : does same_disk (on_files (restore_allowed (base_dir P) t)).
Proof using Hbase. rewrite Hbase. intros d res d' (w & H & ->)%on_files_inv. apply restore_allowed_inv in H as (Hf & Hi & _). by split. Qed.
Hint Resolve same_disk_log same_disk_paths same_disk_status same_disk_stop same_disk_allowed : quiet.
Hint Extern 2 (does same_disk (app_modify _)) => (apply same_disk_modify; done) : quiet.

Lemma same_disk_respect s : does same_disk (respect_stop_marker P s).
Proof using base Hbase. unfold respect_stop_marker. solve_quiet. Qed.
Lemma same_disk_restore s : does same_disk (restore_with_settings P stored_key s).
Proof using base Hbase.
  unfold restore_with_settings, app_recovery, app_update_snapshot. solve_quiet; intros d res d' [= _ <-]; by split.
Qed.

(** When the tunnel is wanted after a start, the settings do not want HTTPS and are as they were. *)
Lemma restored_tunnel d res d' : restart d = (res, d') -> desired_connected d = false ->
  faults d (ReadFile file) <> Some NotFound -> faults d (StatFile (marker_in (base ++ "/state") Tunnel)) <> Some NotFound ->
  desired_connected d' = true -> same_disk d d' /\ exists s, restorable P base s d.
Proof using base Hbase.
  intros H Hfresh Hread Hstat Hd. pose proof (restore_inv P base Hbase _ _ _ _ H Hfresh Hread Hstat) as (_ & Hs & _).
  destruct (Hs Hd) as (s0 & Hs0 & _). split; [|by exists s0]. clear Hs.
  apply app_bind_inv in H as [[H ->]|(checked & d1 & H & Hk)]; apply (load_checked_inv P base Hbase) in H as (_ & Hf1 & Hi1 & Hok & _);
    [by split|].
  destruct checked as [s|e].
  2:{ unfold restore_without_settings in Hk. unfold app_bind at 1, app_modify at 1 in Hk.
      apply (does_end calm _ (restore_desired_connection_intent settings_default d1)) in Hk as [_ Hd2]; [|solve_quiet|done].
      cbn in Hd2. congruence. }
  specialize (Hok Hread s eq_refl). assert (s = s0) as -> by (destruct Hs0 as [Hnow _]; congruence).
  unfold app_bind at 1, migrate_both_intents in Hk. destruct Hs0 as (_ & _ & Hh & _). rewrite Hh in Hk. cbn [andb] in Hk.
  unfold app_ret at 1 in Hk.
  assert (same_disk d1 d') as [F I]; [|split; congruence].
  match type of Hk with ?m d1 = _ => assert (does same_disk m) as Hdoes; [|by eapply Hdoes] end.
  apply does_bind; [apply _|apply same_disk_respect|intros s2; apply same_disk_restore].
Qed.

(** No worker is started by it, and what fails stays what fails. *)
Definition no_worker (d d' : Desk) : Prop := launched d' = launched d /\ faults d' = faults d.
#[local] Instance no_worker_preorder : PreOrder no_worker.
Proof using Type. split; [by split|]. intros d1 d2 d3 [H1 F1] [H2 F2]. split; congruence. Qed.

Lemma no_worker_modify f : (forall d, launched (f d) = launched d /\ desk_world (f d) = desk_world d) -> does no_worker (app_modify f).
Proof using Type. intros Hf d res d' [= _ <-]. destruct (Hf d) as [Hl Hw]. split; [done|by rewrite Hw]. Qed.
Lemma no_worker_files {A} (m : Fs A) : keeps_faults m -> does no_worker (on_files m).
Proof using Type. intros Hm d res d' (w & H & ->)%on_files_inv. split; [done|by eapply Hm]. Qed.
Lemma no_worker_client t d d' : client_only t d d' -> no_worker d d'.
Proof using Type. intros (w & l & -> & _ & Hi). by split. Qed.
Lemma no_worker_log message : does no_worker (app_log P message).
Proof using Type. by apply no_worker_modify. Qed.
Lemma no_worker_paths : does no_worker (app_runtime_paths P).
Proof using Type. intros d res d' Hc%runtime_paths_client. by eapply no_worker_client. Qed.
Lemma no_worker_status paths : does no_worker (app_runtime_status P paths).
Proof using base Hbase. intros d res d' (t & Hc & _)%(status_client P base Hbase). by eapply no_worker_client. Qed.
Lemma no_worker_stop logged : does no_worker (app_stop_runtime P logged).
Proof using base Hbase. intros d res d' [[Hc _]|[Hc _]]%(stop_runtime_client P base Hbase); by eapply no_worker_client. Qed.
Lemma no_worker_update u : does no_worker (app_update_settings P u).
Proof using base Hbase.
  unfold app_update_settings, settings_update. rewrite Hbase. intros d res d' H. eapply no_worker_files in H; [exact H|].
  apply update_settings_faults.
Qed.
Lemma no_worker_allowed t : does no_worker (on_files (restore_allowed (base_dir P) t)).
Proof using base Hbase. apply no_worker_files. unfold restore_allowed, marker_path, state_dir, has_marker. solve_keeps_faults. Qed.
Lemma no_worker_mark t : does no_worker (on_files (mark_stopped (base_dir P) t)).
Proof using base Hbase. apply no_worker_files. unfold mark_stopped, marker_path, state_dir. solve_keeps_faults. Qed.
Lemma no_worker_checked : does no_worker (app_load_settings_checked P).
Proof using base Hbase. apply no_worker_files. unfold load_settings_checked, settings_path, state_dir. solve_keeps_faults. Qed.
Hint Resolve no_worker_log no_worker_paths no_worker_status no_worker_stop no_worker_update no_worker_allowed no_worker_mark
  no_worker_checked : quiet.
Hint Extern 2 (does no_worker (app_modify _)) => (apply no_worker_modify; done) : quiet.

Lemma no_worker_restart : does no_worker restart.
Proof using base Hbase.
  unfold restore_persisted_connection_state, restore_without_settings, migrate_both_intents, respect_stop_marker,
    restore_with_settings, app_recovery, app_update_snapshot. solve_quiet; intros d res d' [= _ <-]; by split.
Qed.

(** C9. A start of the application restores at most one of the two transports: when the tunnel is
    wanted afterwards, no HTTPS worker was started, and the settings want the tunnel, no HTTPS,
    and no stop of it was recorded.  It never runs the tunnel by itself. *)
Theorem start_restores_one_transport d res d' : start d = (res, d') -> desired_connected d = false ->
  faults d (ReadFile file) <> Some NotFound -> (forall t, faults d (StatFile (marker_in (base ++ "/state") t)) <> Some NotFound) ->
  still d d' /\ (desired_connected d' = true -> launched d' = launched d /\ exists s, restorable P base s d).
Proof using base Hbase.
  intros H Hfresh Hread Hstat. unfold restore_connections in H.
  apply app_bind_inv in H as [[H ->]|(u & d1 & H & Hk)]; pose proof (no_worker_restart _ _ _ H) as [L1 F1];
    pose proof (restore_inv P base Hbase _ _ _ _ H Hfresh Hread (Hstat Tunnel)) as (Hstill & _).
  { split; [done|]. intros Hd. split; [done|]. by eapply (restored_tunnel d). }
  apply (https_restore_inv P base Hbase) in Hk as (Fd & Dd & (tail & Rn & Ht) & Hcase); [|congruence..].
  split.
  { etrans; [exact Hstill|]. exists tail. split; [done|]. destruct Ht as [->| ->]; by repeat constructor. }
  rewrite Dd. intros Hd. destruct (restored_tunnel d _ d1 H Hfresh Hread (Hstat Tunnel) Hd) as [[Fs _] (s & Hs)].
  split; [|by exists s]. destruct Hcase as [[Hl _]|(l & s' & _ & _ & _ & _ & _ & _ & Hnow & Hen & _)]; [congruence|].
  rewrite Fs in Hnow. destruct Hs as (Hnow' & _ & Hh & _). congruence.
Qed.

End StartAndEnd.

(** ** Witnesses *)

(** The application with its window, just started; and after the window was hidden. *)
Definition sample_open_desk : Desk := set_main_window (Some true) sample_start.
Local Abbreviation sample_handle := (handle_event sample_platform true (fun _ => Ok tt)).
Definition sample_hidden_desk : Desk := (sample_handle CloseRequested sample_open_desk).2.


Lemma start_restores_one_transport_witness :
  let out := restore_connections sample_platform sample_secret_fault sample_random_key sample_key_text parse_hex_pairs
               (fun _ => Err "none") true sample_digest (Ok "key") sample_start in
  desired_connected out.2 = true /\ launched out.2 = [] /\ still sample_start out.2.
Proof.
  intros out. assert (desired_connected out.2 = true) as Hd by (vm_compute; reflexivity). split; [exact Hd|].
  destruct (start_restores_one_transport sample_platform "/home/u" eq_refl sample_secret_fault sample_random_key sample_key_text
    parse_hex_pairs (fun _ => Err "none") true sample_digest (Ok "key") sample_start out.1 out.2 (surjective_pairing _) eq_refl
    ltac:(discriminate) ltac:(discriminate)) as [Hs Hl].
  split; [exact (proj1 (Hl Hd))|exact Hs].
Defined.

